(* ===== verification/_CoqProject ===== *)
-Q . S2P
Prelude.v
Mem.v
KString.v
FrameAlloc.v
Pmm.v
Kheap.v
KheapSpec.v
Task.v
Sched.v
Pipe.v
Pmap.v
Libk.v
Net.v
Font.v
Screen.v
Gfx.v
Kbd.v
Mouse.v
Vfs.v
VfsSpec.v
Block.v
Ext2.v
Ext2Spec.v
Ext2Ref.v
Devfs.v
SysState.v
SysDemo.v
SysFd.v
SysFdSpec.v
SysOwn.v
SysSig.v
SysSigSpec.v
Elf.v
SysProc.v
SysMem.v
SysMemSpec.v
SysGfx.v
Syscall.v
SysInv.v
SysKeep.v
SysForkWait.v
SysSafe.v
Idt.v
Ports.v
Ps2.v
Rtc.v
Pci.v
Ide.v
Dma.v
DmaSpec.v
Ahci.v
AhciSpec.v
E1000.v
E1000Spec.v
E1000Init.v
NicTest.v
Uhci.v
UhciSpec.v
Audio.v
AudioSpec.v
Lapic.v
Boot.v
BootSpec.v
BootDemo.v
Libc.v
Progs.v
ProgsSpec.v
Calc.v
Sh.v
ShSpec.v
Sha256.v
Base64.v
