(* ===== verification/Prelude.v ===== *)
(** * Verification of the MMIX operating system

    MMIX is a small Unix-like kernel for x86_64, written in C, with a userland
    on top.  This library translates the kernel, its drivers and its start-up
    (all under kernel/src) and the user programs (under userspace) into Rocq
    functions and proves what makes them correct.

    ** The program and the files that model it

    Services.
    - lib/string.c: [KString].  Memory is a function from addresses to bytes
      ([Mem]); every routine on its word and byte paths.
    - lib/libk.c: [Libk].  The serial port with its flood detector, kprintf
      and the bounded formatter; output is a log.
    - mm/pmm.c: [Pmm].  The frame bitmap, its set-up from the boot loader's
      map, first-fit allocation.  [FrameAlloc] is the interface (a class with
      laws) other components allocate frames through; Pmm.v discharges it.
    - mm/kheap.c: [Kheap] (operations), [KheapSpec] (the block list as a
      list, and what kmalloc, kfree, krealloc do to it).
    - mm/pmap.c: [Pmap].  Page tables in memory, mapping, unmapping, fork
      with copy on write, page faults; frames come from [FrameAlloc].
    Processes.
    - proc/sched.[ch], proc/context.S: [Task] (the task structure), [Sched]
      (slots, switching, yielding, ticks).
    - proc/elf.c: [Elf].  The loader and the initial user stack.
    Files and devices.
    - fs/pipe.c: [Pipe].  A blocking call is a sequence of turns; a turn ends
      where the task gives up the CPU.
    - fs/vfs.c, fs/procfs.c: [Vfs], [VfsSpec].  The node tree, the ustar
      loader, paths, file contents, procfs.  Node memory comes from the class
      [NodeHeap] with the laws [NodeHeapLaws].
    - drivers/font.h, drivers/tty.c: [Font], [Screen].  The framebuffer as
      memory, text cursor, scrolling, escape sequences.
    - drivers/gfx.c: [Gfx].  Lines, rectangles, circles, integer square root.
    - drivers/kbd.c, drivers/mouse.c, drivers/devfs.c: [Kbd], [Mouse], [Devfs].
    - drivers/net/net.c: [Net].  ARP, IPv4, ICMP echo and /dev/net; the card
      is the class [Nic].
    - drivers/blockdev.c, fs/partition.c: [Block].  The tables of devices and
      partitions; a disk driver is the class [Disk].
    - fs/ext2.c: [Ext2] (operations), [Ext2Spec] (the file-system tree an
      image denotes), [Ext2Ref] (the driver refines it).  Reads go through
      [Block], buffers come from [NodeHeap].
    - drivers/rtc.c, drivers/pci.c, drivers/ide.c: [Rtc], [Pci], [Ide], over
      the port instructions of the class [Ports]; each file holds a model of
      the chip it talks to, from the chip's documentation, as an instance.
    - [Ps2]: what mouse_init sends to the PS/2 controller, serial_init and
      fpu_init.
    - [Dma]: a device with registers that reads and writes memory on its own
      ([DmaDevice]), and the machine a driver works on; [DmaSpec]: runs of
      frames taken for a device.  The drivers over it: drivers/net/e1000.c in
      [E1000], [E1000Spec] (traffic) and [E1000Init] (set-up); drivers/ahci.c
      in [Ahci], [AhciSpec]; drivers/usb/uhci.c in [Uhci], [UhciSpec];
      drivers/audio.c in [Audio], [AudioSpec].  Each Spec file says what the
      device does with what it finds in memory, from its documentation.
    - drivers/net/e1000_test.c: [NicTest], over [Nic].
    - sys/lapic.c: [Lapic], the timer of the local APIC and its calibration.
    System calls (sys/syscall.c).
    - [SysState] is the kernel's whole state, [SysDemo] a concrete one;
      [SysFd] (descriptors, pipes, console), [SysSig] (signals, groups, rudo,
      user ids), [SysProc] (fork, exec, exit, wait), [SysMem] (mmap, brk,
      information), [SysGfx] (graphics), [Syscall] (the table and the entry
      path).  [SysFdSpec], [SysSigSpec], [SysMemSpec] hold their theorems.
    - [SysOwn], [SysInv], [SysKeep], [SysForkWait], [SysSafe]: the invariant
      of the running kernel, one preservation lemma per call, and the
      theorems about sequences of events.
    Processor (arch/x86_64, lib/panic.c).
    - [Idt]: descriptor tables, the two interrupt controllers, the handler
      of every vector and the panic screen, over the state of [SysState].
    Start-up (main.c).
    - [Boot]: [_start] from the boot loader's answers to the first task, with
      the state of every driver beside that of [SysState], and syscall_init;
      [BootSpec]: the invariant it establishes; [BootDemo]: a machine that
      boots, by evaluation.
    User programs (userspace).
    - [Libc]: strings, numbers, the allocator, the system call wrappers.
    - [Sh], [ShSpec]: the shell, as a program of system calls, and what the
      processes it starts do.  [Calc], [Sha256], [Base64]: one file each, with
      its reference definition.
    - [Progs]: every other program, each as its main over [Libc] and so over
      the kernel's own model, with its buffers in user memory; [ProgsSpec]:
      what cat, wc, grep and ping do.

    ** What the theorems show

    - The kernel as a whole (SysSafe): the step relation [kernel_step] makes
      a system call, resumes a parked one, or takes an interrupt; [sys_ok] is
      kept by every sequence of steps; while an unprivileged task runs nobody
      becomes root; the rudo protocol hands root to the requester only.
    - Start-up: when [_start] reaches the first task, [sys_ok] holds, whatever
      the disk, the archive and the devices contain, so it holds ever after.
    - Memory: first fit, exact counters and round trips of the frame
      allocator; kmalloc and kfree keep a well-formed list of disjoint blocks;
      pmap_map and pmap_unmap refine the update of one page of a map.
    - Scheduling: round robin, fairness within 63 yields, one running task
      and distinct process ids in every reachable state.
    - Pipes: bytes come out as they went in under any interleaving, and no
      wake-up is lost.
    - Signals: order and effect of delivery, sigreturn restores the context.
    - Files: archives load completely, writes read back, creation keeps
      other paths.
    - Devices: the terminal writes only inside the framebuffer for every byte
      stream; the keyboard ring is a bounded queue; Ctrl+C reaches exactly the
      foreground group; drawing ends and paints what it should.
    - Disks: each partition reads its part of the disk; the IDE driver returns
      the sectors asked for; mounting, reading and listing on ext2 refine a
      tree of files and directories.
    - Interrupts: every vector keeps [sys_ok] and is acknowledged once; a
      faulting user program is ended and nothing else is.
    - Chips: the clock is read consistently while it ticks; PCI enumeration
      lists what is there and leaves the registers as they were.
    - Devices that write memory: the network card's frames arrive and leave
      complete and in order; a SATA read gives the sectors and touches nothing
      else; the USB controller, which may work at any moment, stays inside its
      nine frames; the sound card plays what it is given.
    - Network: checksums, echo exchange, address parsing, /dev/net's owner.
    - User programs: the shell parses its lines back and wires pipelines
      without a stray descriptor; sha256 is SHA-256 for any cut of its input;
      base64 decodes what it encodes; calc evaluates its grammar; strstr is
      the first occurrence; cat prints the file and grep its matching lines,
      through the system calls down to the screen; ping and the kernel read
      addresses alike.
    Examples named in comments record behaviour that is surprising, such as
    lengths that wrap in sys_mmap or circles that leave the framebuffer.

    ** Conventions, fuel and bounds

    A w-bit integer is a [Z] with its wrap-around written out ([u32], [s32],
    [.+]).  C loops are structural recursions on a count the code bounds
    (slots, descriptors, pages), or take fuel with a theorem that it is
    enough: the heap list's length, the number of bytes of an archive, the
    33 turns of signal delivery (every turn clears one of 32 bits), the pixels
    of a line.  Interrupts are off in the kernel except where a call halts or
    yields, so a call runs to such a point in one step.  User memory is the
    running task's view; the pages behind user pointers are taken as mapped.

    The loops of ext2 and of the calculator carry fuel whose end is an
    outcome of its own ([Forever], [NoFuel]), and the theorems show that it
    is not reached; a directory entry of length 0 makes the real loop endless.
    The clock's loop takes as much fuel as the chip stays busy, and so do the
    waits of the other drivers that the code does not bound (a reset of the
    USB or SATA controller, the sound card, the ticks of the PIT); their other
    waits are bounded by the code and modelled with its bounds.

    The loops of the user programs that run to the end of their input take
    fuel; the theorems about cat, wc and grep ask for one turn more than there
    are blocks or bytes, and show that the program returns.

    The file system, ext2 and the system calls use the heap through the laws
    of [NodeHeapLaws], which say that addresses handed out are distinct.
    [KheapSpec] proves more of kmalloc; of kfree it needs free neighbours in
    the list to be neighbours in memory, which the code does not check
    ([kfree_merges_distant_regions]), so the laws are assumptions there.

    A device works when the driver touches it: [DmaDevice] has one operation
    for what the device does in between, which is run at each access.  Fences
    and cache flushes are the order of the accesses.

    ** Not modelled

    The assembly stubs (system call entry, interrupt entry, the jump to user
    mode, the start of a user program), of which only what they hand to the C
    code is modelled.  The structures of limine.h that the kernel does not
    read.  In start-up, heap_init, since the node memory of the file system is
    behind an interface there, and what reads of the disk change in the SATA
    driver while the file system is mounted. *)
From stdpp Require Export base tactics list numbers option gmap strings functions.
From Stdlib Require Export ZArith Lia.

#[global] Open Scope Z_scope.

(** ** Machine integers

    A w-bit unsigned C integer is the [Z] in [0 .. 2^w); the casts below are
    the C conversions (the kernel is built for x86_64: [int] is 32 bits,
    [long], [size_t] and pointers are 64 bits). *)

Definition u8 (x : Z) : Z := x mod 2 ^ 8.
Definition u16 (x : Z) : Z := x mod 2 ^ 16.
Definition u32 (x : Z) : Z := x mod 2 ^ 32.
Definition u64 (x : Z) : Z := x mod 2 ^ 64.

Definition swrap (w x : Z) : Z := (x + 2 ^ (w - 1)) mod 2 ^ w - 2 ^ (w - 1).
Definition s8 (x : Z) : Z := swrap 8 x.
Definition s32 (x : Z) : Z := swrap 32 x.
Definition s64 (x : Z) : Z := swrap 64 x.

Declare Scope word_scope.
Delimit Scope word_scope with word.
Notation "a .+ b" := (u64 (a + b)) (at level 50, left associativity) : word_scope.
Notation "a .- b" := (u64 (a - b)) (at level 50, left associativity) : word_scope.
Notation "a .* b" := (u64 (a * b)) (at level 40, left associativity) : word_scope.
#[global] Open Scope word_scope.

(** [lia] sees through division and remainder by constants everywhere. *)
Ltac Zify.zify_post_hook ::= Z.to_euclidean_division_equations.

Ltac unfold_words := unfold u8, u16, u32, u64, s8, s32, s64, swrap in *.
Ltac word_lia := unfold_words; lia.

Lemma u8_range x : 0 <= u8 x < 2 ^ 8.
Proof. word_lia. Qed.
Lemma u16_range x : 0 <= u16 x < 2 ^ 16.
Proof. word_lia. Qed.
Lemma u32_range x : 0 <= u32 x < 2 ^ 32.
Proof. word_lia. Qed.
Lemma u64_range x : 0 <= u64 x < 2 ^ 64.
Proof. word_lia. Qed.

Lemma u8_small x : 0 <= x < 2 ^ 8 -> u8 x = x.
Proof. word_lia. Qed.
Lemma u16_small x : 0 <= x < 2 ^ 16 -> u16 x = x.
Proof. word_lia. Qed.
Lemma u32_small x : 0 <= x < 2 ^ 32 -> u32 x = x.
Proof. word_lia. Qed.
Lemma u64_small x : 0 <= x < 2 ^ 64 -> u64 x = x.
Proof. word_lia. Qed.
Lemma s32_small x : - 2 ^ 31 <= x < 2 ^ 31 -> s32 x = x.
Proof. word_lia. Qed.
Lemma s64_small x : - 2 ^ 63 <= x < 2 ^ 63 -> s64 x = x.
Proof. word_lia. Qed.

(** Adding and removing an offset cancels, whatever wraps in between. *)
Lemma u64_add_sub a h : 0 <= a < 2 ^ 64 -> u64 (u64 (a + h) - h) = a.
Proof.
  intros. unfold u64. rewrite Zminus_mod_idemp_l, Z.add_simpl_r. by apply Z.mod_small.
Qed.

Create Rewrite HintDb words.
#[export] Hint Rewrite u8_small u16_small u32_small u64_small s32_small s64_small
  using lia : words.
Ltac wsimp := autorewrite with words in *.

(** ** Case analysis on the boolean tests of the source *)

Ltac bool_hyps :=
  repeat match goal with
  | H : (_ && _) = true |- _ => apply andb_true_iff in H as [? ?]
  | H : (_ || _) = false |- _ => apply orb_false_iff in H as [? ?]
  | H : negb _ = true |- _ => apply negb_true_iff in H
  | H : negb _ = false |- _ => apply negb_false_iff in H
  | H : (_ =? _) = true |- _ => apply Z.eqb_eq in H
  | H : (_ =? _) = false |- _ => apply Z.eqb_neq in H
  | H : (_ <? _) = true |- _ => apply Z.ltb_lt in H
  | H : (_ <? _) = false |- _ => apply Z.ltb_ge in H
  | H : (_ <=? _) = true |- _ => apply Z.leb_le in H
  | H : (_ <=? _) = false |- _ => apply Z.leb_gt in H
  end.

(** Split on every [if] condition in the goal, keeping the equations. *)
Ltac if_step :=
  match goal with
  | |- context [if ?b then _ else _] =>
      lazymatch b with
      | context [if _ then _ else _] => fail
      | _ => let E := fresh "E" in destruct b eqn:E; try discriminate
      end
  | H : context [if ?b then _ else _] |- _ =>
      lazymatch b with
      | context [if _ then _ else _] => fail
      | _ => let E := fresh "E" in destruct b eqn:E; try discriminate
      end
  end.
Ltac ifs := repeat if_step; bool_hyps.

Lemma eqb_rect (x y : Z) : (x =? y) = bool_decide (x = y).
Proof. destruct (Z.eqb_spec x y); symmetry; [by apply bool_decide_eq_true | by apply bool_decide_eq_false]. Qed.

(** ** Bits *)

(** Bits above the width of a bounded number are zero. *)
Lemma testbit_above x n i : 0 <= x < 2 ^ n -> n <= i -> Z.testbit x i = false.
Proof.
  intros Hx Hi. destruct (Z.lt_ge_cases n 0).
  { rewrite Z.pow_neg_r in Hx by lia. lia. }
  rewrite <- (Z.mod_small x (2 ^ n)) by lia. apply Z.mod_pow2_bits_high. lia.
Qed.

Lemma testbit_mod x n i : 0 <= i < n -> Z.testbit (x mod 2 ^ n) i = Z.testbit x i.
Proof. intros. apply Z.mod_pow2_bits_low. lia. Qed.

Lemma testbit_shl1 k i : 0 <= k -> 0 <= i -> Z.testbit (Z.shiftl 1 k) i = (i =? k).
Proof.
  intros. rewrite Z.shiftl_spec by lia.
  destruct (Z.eqb_spec i k) as [->|Hne].
  - by rewrite Z.sub_diag.
  - destruct (Z.lt_ge_cases (i - k) 0).
    + by apply Z.testbit_neg_r.
    + apply (testbit_above _ 1); lia.
Qed.

(** A single-bit mask test, as C writes it. *)
Lemma land_bit_eqb b k : 0 <= k -> (Z.land b (Z.shiftl 1 k) =? 0) = negb (Z.testbit b k).
Proof.
  intros Hk. destruct (Z.testbit b k) eqn:Hb; simpl.
  - apply Z.eqb_neq. intros Hz. assert (Z.testbit (Z.land b (Z.shiftl 1 k)) k = true) as Ht.
    { rewrite Z.land_spec, testbit_shl1, Hb, Z.eqb_refl by lia. done. }
    rewrite Hz, Z.testbit_0_l in Ht. done.
  - apply Z.eqb_eq. apply Z.bits_inj'. intros i Hi.
    rewrite Z.land_spec, testbit_shl1, Z.testbit_0_l by lia.
    destruct (Z.eqb_spec i k) as [->|]; [by rewrite Hb | by rewrite andb_false_r].
Qed.

(** Two numbers below [2^n] with the same low bits are equal. *)
Lemma bits_eq_below n x y :
  0 <= x < 2 ^ n -> 0 <= y < 2 ^ n ->
  (forall i, 0 <= i < n -> Z.testbit x i = Z.testbit y i) -> x = y.
Proof.
  intros Hx Hy Hbits. apply Z.bits_inj'. intros i Hi.
  destruct (Z.lt_ge_cases i n); [auto|].
  rewrite (testbit_above x n), (testbit_above y n) by lia. done.
Qed.

Lemma land_ones_mod x n : 0 <= n -> Z.land x (2 ^ n - 1) = x mod 2 ^ n.
Proof.
  intros. replace (2 ^ n - 1) with (Z.ones n) by (rewrite Z.ones_equiv; lia).
  apply Z.land_ones. lia.
Qed.

(** Joining bit fields that do not overlap is addition. *)
Lemma lor_shiftl_add a b k : 0 <= k -> 0 <= b < 2 ^ k -> Z.lor (Z.shiftl a k) b = a * 2 ^ k + b.
Proof.
  intros Hk Hb. rewrite <- Z.shiftl_mul_pow2 by done. symmetry. apply Z.add_nocarry_lor.
  apply Z.bits_inj'. intros i Hi. rewrite Z.land_spec, Z.bits_0.
  destruct (Z.lt_ge_cases i k).
  - by rewrite Z.shiftl_spec_low.
  - rewrite (testbit_above b k i) by lia. apply andb_false_r.
Qed.

(** Masking with [~(2^k - 1)] rounds down. *)
Lemma land_align_down x k :
  0 <= x < 2 ^ 64 -> 0 <= k <= 64 -> Z.land x (u64 (Z.lnot (2 ^ k - 1))) = x / 2 ^ k * 2 ^ k.
Proof.
  intros Hx Hk. replace (x / 2 ^ k * 2 ^ k) with (Z.shiftl (Z.shiftr x k) k)
    by (rewrite Z.shiftl_mul_pow2, Z.shiftr_div_pow2 by lia; done).
  replace (2 ^ k - 1) with (Z.ones k) by (rewrite Z.ones_equiv; lia).
  apply Z.bits_inj'. intros i Hi. rewrite Z.land_spec. unfold u64. destruct (decide (i < k)).
  - rewrite Z.shiftl_spec_low, testbit_mod, Z.lnot_spec, Z.ones_spec_low by lia. apply andb_false_r.
  - rewrite Z.shiftl_spec, Z.shiftr_spec by lia. replace (i - k + k) with i by lia. destruct (decide (i < 64)).
    + rewrite testbit_mod, Z.lnot_spec, Z.ones_spec_high by lia. apply andb_true_r.
    + by rewrite (testbit_above x 64) by lia.
Qed.

(** ** Counted loops

    [for_range n i f s] runs [for (k = i; k < i + n; k++) s = f(k, s)]. *)

Fixpoint for_range {S : Type} (n : nat) (i : Z) (f : Z -> S -> S) (s : S) : S :=
  match n with
  | O => s
  | Datatypes.S n' => for_range n' (i + 1) f (f i s)
  end.

(** The same loop with [return] in the body: [inr r] leaves the loop. *)
Fixpoint for_ret {S R : Type} (n : nat) (i : Z) (f : Z -> S -> S + R) (s : S) : S + R :=
  match n with
  | O => inl s
  | Datatypes.S n' =>
      match f i s with
      | inl s' => for_ret n' (i + 1) f s'
      | inr r => inr r
      end
  end.

(** Loop invariant rule. *)
Lemma for_range_ind {S : Type} (P : Z -> S -> Prop) n i (f : Z -> S -> S) s :
  P i s ->
  (forall k s, i <= k < i + Z.of_nat n -> P k s -> P (k + 1) (f k s)) ->
  P (i + Z.of_nat n) (for_range n i f s).
Proof.
  revert i s. induction n as [|n IH]; intros i s H0 Hstep.
  - by replace (i + Z.of_nat 0) with i by lia.
  - cbn [for_range]. replace (i + Z.of_nat (Datatypes.S n)) with (i + 1 + Z.of_nat n) by lia.
    apply IH; [apply Hstep; [lia|done]|]. intros k s' Hk. apply Hstep. lia.
Qed.

Lemma for_range_S {S : Type} n i (f : Z -> S -> S) s :
  for_range (Datatypes.S n) i f s = f (i + Z.of_nat n) (for_range n i f s).
Proof.
  revert i s. induction n as [|n IH]; intros i s.
  - cbn. by replace (i + Z.of_nat 0) with i by lia.
  - change (for_range (Datatypes.S (Datatypes.S n)) i f s)
      with (for_range (Datatypes.S n) (i + 1) f (f i s)).
    rewrite IH. cbn [for_range]. f_equal. lia.
Qed.

Lemma for_range_ext {S : Type} n i (f g : Z -> S -> S) s :
  (forall k s, i <= k < i + Z.of_nat n -> f k s = g k s) ->
  for_range n i f s = for_range n i g s.
Proof.
  revert i s. induction n as [|n IH]; intros i s Hfg; [done|]. cbn [for_range].
  rewrite Hfg by lia. apply IH. intros k s' Hk. apply Hfg. lia.
Qed.

(** Loop invariant rule for loops that may return early. *)
Lemma for_ret_ind {S R : Type} (P : Z -> S -> Prop) (Q : R -> Prop) n i (f : Z -> S -> S + R) s :
  P i s ->
  (forall k s, i <= k < i + Z.of_nat n -> P k s ->
     match f k s with inl s' => P (k + 1) s' | inr r => Q r end) ->
  match for_ret n i f s with inl s' => P (i + Z.of_nat n) s' | inr r => Q r end.
Proof.
  revert i s. induction n as [|n IH]; intros i s H0 Hstep.
  - cbn [for_ret]. by replace (i + Z.of_nat 0) with i by lia.
  - cbn [for_ret]. specialize (Hstep i s ltac:(lia) H0) as Hi.
    destruct (f i s) as [s'|r]; [|done].
    replace (i + Z.of_nat (Datatypes.S n)) with (i + 1 + Z.of_nat n) by lia.
    apply IH; [done|]. intros k s'' Hk. apply Hstep. lia.
Qed.

(** ** Lists addressed by a C index *)

Definition zlookup {A : Type} (l : list A) (i : Z) : option A :=
  if i <? 0 then None else l !! Z.to_nat i.

(** Array read with the value [d] outside the array. *)
Definition znth {A : Type} (d : A) (l : list A) (i : Z) : A :=
  default d (zlookup l i).

Definition zinsert {A : Type} (i : Z) (x : A) (l : list A) : list A :=
  if i <? 0 then l else <[Z.to_nat i := x]> l.

Definition zlen {A : Type} (l : list A) : Z := Z.of_nat (length l).

Lemma zlen_insert {A : Type} i (x : A) l : zlen (zinsert i x l) = zlen l.
Proof. unfold zlen, zinsert. ifs; [done|]. by rewrite length_insert. Qed.

Lemma znth_zinsert_eq {A : Type} d i (x : A) l :
  0 <= i < zlen l -> znth d (zinsert i x l) i = x.
Proof.
  unfold zlen, znth, zlookup, zinsert. intros. ifs; [lia|].
  rewrite list_lookup_insert_eq by lia. done.
Qed.

Lemma znth_zinsert_ne {A : Type} d i j (x : A) l :
  i <> j -> 0 <= i -> znth d (zinsert i x l) j = znth d l j.
Proof.
  unfold znth, zlookup, zinsert. intros. ifs; try done.
  rewrite list_lookup_insert_ne by lia. done.
Qed.

Lemma znth_ge {A : Type} (d : A) l i : zlen l <= i -> znth d l i = d.
Proof.
  unfold zlen, znth, zlookup. intros. ifs; [done|].
  rewrite lookup_ge_None_2 by lia. done.
Qed.

Create Rewrite HintDb arrays.
#[export] Hint Rewrite @zlen_insert : arrays.
#[export] Hint Rewrite @znth_zinsert_eq @znth_zinsert_ne using (autorewrite with arrays; lia) : arrays.

(** ** Counting the indices below [n] that satisfy a test *)

Fixpoint zcount (f : Z -> bool) (n : nat) : Z :=
  match n with
  | O => 0
  | S n' => zcount f n' + (if f (Z.of_nat n') then 1 else 0)
  end.

Lemma zcount_range f n : 0 <= zcount f n <= Z.of_nat n.
Proof. induction n; cbn [zcount]; [lia|]. destruct (f _); lia. Qed.

Lemma zcount_ext f g n :
  (forall k, 0 <= k < Z.of_nat n -> f k = g k) -> zcount f n = zcount g n.
Proof.
  induction n as [|n IH]; intros Hfg; cbn [zcount]; [done|].
  rewrite IH, Hfg by (intros; try apply Hfg; lia). done.
Qed.

(** Flipping one index changes the count by one. *)
Lemma zcount_flip f g n p :
  0 <= p < Z.of_nat n -> f p = true -> g p = false ->
  (forall k, k <> p -> f k = g k) -> zcount g n = zcount f n - 1.
Proof.
  intros Hp Hf Hg Hother. induction n as [|n IH]; [lia|]. cbn [zcount].
  destruct (Z.eq_dec p (Z.of_nat n)) as [->|Hne].
  - rewrite Hf, Hg, (zcount_ext f g) by (intros; apply Hother; lia). lia.
  - rewrite IH, (Hother (Z.of_nat n)) by lia. lia.
Qed.

Lemma zcount_none f n : (forall k, 0 <= k < Z.of_nat n -> f k = false) -> zcount f n = 0.
Proof.
  induction n as [|n IH]; intros Hf; cbn [zcount]; [done|].
  rewrite IH, Hf by (intros; try apply Hf; lia). lia.
Qed.

Lemma zcount_pos f n : 0 < zcount f n -> exists k, 0 <= k < Z.of_nat n /\ f k = true.
Proof.
  induction n as [|n IH]; cbn [zcount]; [lia|]. destruct (f (Z.of_nat n)) eqn:E; intros H.
  - exists (Z.of_nat n). split; [lia|done].
  - destruct IH as (k & Hk & Hf); [lia|]. exists k. split; [lia|done].
Qed.

(** ** Pairwise relations on lists *)

Lemma FOP_app {A : Type} (R : A -> A -> Prop) l1 l2 :
  ForallOrdPairs R (l1 ++ l2) <->
  ForallOrdPairs R l1 /\ ForallOrdPairs R l2 /\ (forall x y, In x l1 -> In y l2 -> R x y).
Proof.
  induction l1 as [|a l1 IH]; cbn [app].
  - split; [intros H; split_and!; [constructor|done|by intros ? ? []]|by intros (_ & ? & _)].
  - split.
    + intros H. inversion H as [|? ? Ha Hr]; subst. apply IH in Hr as (H1 & H2 & H3).
      rewrite List.Forall_app in Ha. destruct Ha as [Ha1 Ha2]. split_and!; [by constructor|done|].
      intros x y [<-|Hx] Hy; [by eapply List.Forall_forall in Ha2|auto].
    + intros (H1 & H2 & H3). inversion H1 as [|? ? Ha Hr]; subst. constructor.
      * rewrite List.Forall_app. split; [done|]. apply List.Forall_forall. intros y Hy. apply H3; [by left|done].
      * apply IH. split_and!; [done|done|]. intros x y Hx Hy. apply H3; [by right|done].
Qed.

(** ** Text

    C strings are lists of byte values; [bs] turns a literal into one. *)
Definition bs (s : string) : list Z :=
  map (fun c => Z.of_N (Ascii.N_of_ascii c)) (Stdlib.Strings.String.list_ascii_of_string s).

(** Digit characters of [v] in a base, least significant first; at most [n]. *)
Fixpoint digits_rev (n : nat) (base : Z) (v : Z) : list Z :=
  match n with
  | O => []
  | S n' => v mod base :: (if v / base =? 0 then [] else digits_rev n' base (v / base))
  end.

Definition digit_char (d : Z) : Z := if d <? 10 then 48 + d else 87 + d.

(** The value of a list of digits, most significant first. *)
Definition digits_value (base : Z) (l : list Z) : Z := foldl (fun acc d => acc * base + d) 0 l.

Lemma digits_value_snoc base l d : digits_value base (l ++ [d]) = digits_value base l * base + d.
Proof. unfold digits_value. by rewrite foldl_app. Qed.

Lemma digits_rev_value n base v :
  1 < base -> 0 <= v < base ^ Z.of_nat n -> (0 < n)%nat -> digits_value base (rev (digits_rev n base v)) = v.
Proof.
  intros Hb. revert v. induction n as [|n IH]; intros v Hv Hn; [lia|]. cbn [digits_rev rev].
  rewrite digits_value_snoc. destruct (Z.eqb_spec (v / base) 0) as [Hz|Hz].
  - cbn. apply Z.div_small_iff in Hz; [|lia]. rewrite Z.mod_small; lia.
  - rewrite IH.
    + rewrite (Z.div_mod v base) at 3 by lia. lia.
    + split; [apply Z.div_pos; lia|]. apply Z.div_lt_upper_bound; [lia|].
      replace (Z.of_nat (S n)) with (1 + Z.of_nat n) in Hv by lia. rewrite Z.pow_add_r, Z.pow_1_r in Hv by lia. lia.
    + destruct n; [|lia]. change (Z.of_nat 1) with 1 in Hv. rewrite Z.pow_1_r in Hv.
      rewrite Z.div_small in Hz by lia. done.
Qed.

Lemma digits_rev_range n base v : 1 < base -> Forall (fun d => 0 <= d < base) (digits_rev n base v).
Proof.
  intros Hb. revert v. induction n as [|n IH]; intros v; cbn [digits_rev]; [apply List.Forall_nil|].
  apply List.Forall_cons; [apply Z.mod_pos_bound; lia|]. destruct (_ =? _); [apply List.Forall_nil|apply IH].
Qed.

Lemma digits_rev_nonempty n base v : (0 < n)%nat -> digits_rev n base v <> [].
Proof. destruct n; [lia|done]. Qed.

Lemma digits_rev_length n base v k :
  1 < base -> 0 <= v < base ^ Z.of_nat k -> (0 < k)%nat -> (length (digits_rev n base v) <= k)%nat.
Proof.
  intros Hb. revert v k. induction n as [|n IH]; intros v k Hv Hk; cbn [digits_rev length]; [lia|].
  destruct (Z.eqb_spec (v / base) 0) as [Hz|Hz]; cbn [length]; [lia|].
  destruct k as [|k]; [lia|]. destruct k as [|k].
  - change (Z.of_nat 1) with 1 in Hv. rewrite Z.pow_1_r in Hv. rewrite Z.div_small in Hz by lia. done.
  - apply le_n_S, IH; [|lia]. replace (Z.of_nat (S (S k))) with (1 + Z.of_nat (S k)) in Hv by lia.
    rewrite Z.pow_add_r, Z.pow_1_r in Hv by lia.
    split; [apply Z.div_pos; lia|]. apply Z.div_lt_upper_bound; lia.
Qed.

(** ** Fields

    The maximal runs of a list that hold no separator. *)
Section Fields.
Context {A : Type} (sep : A -> bool).

Definition push_field (x : list A) (l : list (list A)) : list (list A) := match x with [] => l | _ => x :: l end.
Fixpoint split_on (l : list A) : list A * list (list A) :=
  match l with
  | [] => ([], [])
  | c :: r => let '(x, fs) := split_on r in if sep c then ([], push_field x fs) else (c :: x, fs)
  end.
Definition fields (l : list A) : list (list A) := let '(x, fs) := split_on l in push_field x fs.

Definition no_sep (x : list A) : Prop := Forall (fun c => sep c = false) x.
Definition starts_sep (l : list A) : Prop := match l with [] => True | c :: _ => sep c = true end.

Lemma fields_sep c r : sep c = true -> fields (c :: r) = fields r.
Proof. intros E. unfold fields. cbn [split_on]. destruct (split_on r). by rewrite E. Qed.

Lemma split_on_word x r : no_sep x -> starts_sep r -> split_on (x ++ r) = (x, fields r).
Proof.
  intros Hx Hr. induction Hx as [|c x Hc _ IH]; cbn [app].
  - destruct r as [|c r]; [done|]. cbn in Hr. rewrite fields_sep by done. unfold fields. cbn [split_on]. destruct (split_on r). by rewrite Hr.
  - cbn [split_on]. by rewrite IH, Hc.
Qed.

Lemma fields_word x r : no_sep x -> starts_sep r -> x <> [] -> fields (x ++ r) = x :: fields r.
Proof. intros Hx Hr Hne. unfold fields at 1. rewrite split_on_word by done. by destruct x. Qed.

Lemma split_on_spec l : exists x r, l = x ++ r /\ no_sep x /\ starts_sep r.
Proof.
  induction l as [|c l (x & r & -> & Hx & Hr)]; [exists [], []; split; [done|split; [apply List.Forall_nil|done]]|].
  destruct (sep c) eqn:E; [exists [], (c :: x ++ r)|exists (c :: x), r]; (split; [done|]); (split; [|done]); [apply List.Forall_nil|by apply List.Forall_cons].
Qed.
End Fields.
