(* ===== verification/Mem.v ===== *)
(** * Byte-addressed kernel memory

    Memory as the kernel sees it through its higher-half map: a byte per
    64-bit address.  Loads and stores of w-byte integers are little endian,
    as on x86_64.  [fill] and [copy] are the whole-region effects that
    [memset] and [memcpy] have (KString.v proves that the word-at-a-time
    loops of string.c have exactly these effects). *)
From S2P Require Import Prelude.

Abbreviation mem := (Z -> Z).

(** Two memories with the same bytes. *)
Definition mem_eq (m1 m2 : mem) : Prop := forall x, m1 x = m2 x.

#[export] Instance mem_eq_equiv : Equivalence mem_eq.
Proof.
  split; [by intros ? ?|by intros ? ? H ?; rewrite H|by intros ? ? ? H1 H2 ?; rewrite H1, H2].
Qed.

(** [x] is one of the [n] addresses from [a]. *)
Definition in_region (a n x : Z) : bool := (a <=? x) && (x <? a + n).

Definition load8 (m : mem) (a : Z) : Z := u8 (m a).
Definition store8 (m : mem) (a v : Z) : mem := <[a := u8 v]> m.

(** Little-endian load of [n] bytes. *)
Fixpoint load (n : nat) (m : mem) (a : Z) : Z :=
  match n with
  | O => 0
  | S n' => load8 m a + 256 * load n' m (a + 1)
  end.

(** Little-endian store of the low [n] bytes of [v]. *)
Definition store (n : nat) (m : mem) (a v : Z) : mem :=
  fun x => if in_region a (Z.of_nat n) x then u8 (v / 256 ^ (x - a)) else m x.

Definition load16 := load 2.
Definition load32 := load 4.
Definition load64 := load 8.
Definition store16 := store 2.
Definition store32 := store 4.
Definition store64 := store 8.

(** Effect of [memset(a, c, n)]. *)
Definition fill (m : mem) (a c n : Z) : mem :=
  fun x => if in_region a n x then u8 c else m x.

(** Effect of [memcpy(d, s, n)] on regions that do not overlap, and of
    [memmove(d, s, n)] on any regions. *)
Definition copy (m : mem) (d s n : Z) : mem :=
  fun x => if in_region d n x then u8 (m (s + (x - d))) else m x.

(** The bytes of a region, as a list. *)
Fixpoint bytes_at (n : nat) (m : mem) (a : Z) : list Z :=
  match n with
  | O => []
  | S n' => load8 m a :: bytes_at n' m (a + 1)
  end.

(** Copy a list of bytes into memory. *)
Fixpoint write_bytes (m : mem) (a : Z) (l : list Z) : mem :=
  match l with
  | [] => m
  | b :: rest => write_bytes (store8 m a b) (a + 1) rest
  end.

(** Little-endian value of a byte list. *)
Fixpoint le_value (l : list Z) : Z :=
  match l with
  | [] => 0
  | b :: rest => u8 b + 256 * le_value rest
  end.

(** * Laws *)

Lemma in_region_true a n x : in_region a n x = true <-> a <= x < a + n.
Proof. unfold in_region. rewrite andb_true_iff, Z.leb_le, Z.ltb_lt. lia. Qed.
Lemma in_region_false a n x : in_region a n x = false <-> x < a \/ a + n <= x.
Proof. unfold in_region. rewrite andb_false_iff, Z.leb_gt, Z.ltb_ge. lia. Qed.

Ltac in_region_cases :=
  repeat match goal with
  | |- context [in_region ?a ?n ?x] =>
      let E := fresh "E" in
      destruct (in_region a n x) eqn:E;
      [apply in_region_true in E | apply in_region_false in E]
  | H : context [in_region ?a ?n ?x] |- _ =>
      let E := fresh "E" in
      destruct (in_region a n x) eqn:E;
      [apply in_region_true in E | apply in_region_false in E]
  end.

(** Regions [a..a+n) and [b..b+k) do not meet. *)
Definition apart (a n b k : Z) : Prop := a + n <= b \/ b + k <= a.

Lemma load_range n m a : 0 <= load n m a < 256 ^ Z.of_nat n.
Proof.
  revert a. induction n as [|n IH]; intros a; [cbn; lia|].
  cbn [load]. specialize (IH (a + 1)). pose proof (u8_range (m a)).
  unfold load8. rewrite Nat2Z.inj_succ, Z.pow_succ_r by lia. lia.
Qed.

Lemma load64_range m a : 0 <= load64 m a < 2 ^ 64.
Proof. exact (load_range 8 m a). Qed.
Lemma load32_range m a : 0 <= load32 m a < 2 ^ 32.
Proof. exact (load_range 4 m a). Qed.

(** A load only depends on the bytes it reads. *)
Lemma load_ext n m1 m2 a :
  (forall x, a <= x < a + Z.of_nat n -> u8 (m1 x) = u8 (m2 x)) -> load n m1 a = load n m2 a.
Proof.
  revert a. induction n as [|n IH]; intros a H; [done|]. cbn [load]. unfold load8.
  rewrite H, IH by (intros; try apply H; lia). done.
Qed.

Lemma load_bytes n m a v :
  (forall x, a <= x < a + Z.of_nat n -> m x = u8 (v / 256 ^ (x - a))) ->
  load n m a = v mod 256 ^ Z.of_nat n.
Proof.
  revert a v. induction n as [|n IH]; intros a v H.
  - cbn. by rewrite Z.mod_1_r.
  - cbn [load]. rewrite (IH (a + 1) (v / 256)).
    + unfold load8. rewrite (H a) by lia. rewrite Z.sub_diag, Z.pow_0_r, Z.div_1_r.
      rewrite Nat2Z.inj_succ, Z.pow_succ_r by lia.
      unfold u8. change (2 ^ 8) with 256. rewrite Z.mod_mod by lia.
      rewrite Z.rem_mul_r by lia. done.
    + intros x Hx. rewrite H by lia. f_equal.
      replace (x - a) with (Z.succ (x - (a + 1))) by lia.
      rewrite Z.pow_succ_r by lia. by rewrite Z.div_div by lia.
Qed.

Lemma load_store_same n m a v : load n (store n m a v) a = v mod 256 ^ Z.of_nat n.
Proof. apply load_bytes. intros x Hx. unfold store. in_region_cases; [done|lia]. Qed.

Lemma load_store_other n k m a b v :
  apart a (Z.of_nat n) b (Z.of_nat k) -> load n (store k m b v) a = load n m a.
Proof.
  intros H. apply load_ext. intros x Hx. unfold store, apart in *. in_region_cases; [lia|done].
Qed.

Lemma load64_store64_same m a v : load64 (store64 m a v) a = u64 v.
Proof. exact (load_store_same 8 m a v). Qed.
Lemma load32_store32_same m a v : load32 (store32 m a v) a = u32 v.
Proof. exact (load_store_same 4 m a v). Qed.

Lemma load8_store8_same m a v : load8 (store8 m a v) a = u8 v.
Proof. unfold load8, store8. rewrite fn_lookup_insert. word_lia. Qed.
Lemma load8_store8_other m a b v : a <> b -> load8 (store8 m a v) b = load8 m b.
Proof. intros. unfold load8, store8. by rewrite fn_lookup_insert_ne. Qed.

Lemma load_store8_other n m a b v :
  apart a (Z.of_nat n) b 1 -> load n (store8 m b v) a = load n m a.
Proof.
  intros H. apply load_ext. intros x Hx. unfold store8, apart in *.
  rewrite fn_lookup_insert_ne by lia. done.
Qed.

Lemma load8_store_other k m a b v :
  apart a 1 b (Z.of_nat k) -> load8 (store k m b v) a = load8 m a.
Proof. intros H. unfold load8, store, apart in *. in_region_cases; [lia|done]. Qed.

Lemma load_fill_other n m a b c k :
  apart a (Z.of_nat n) b k -> load n (fill m b c k) a = load n m a.
Proof. intros H. apply load_ext. intros x Hx. unfold fill, apart in *. in_region_cases; [lia|done]. Qed.

Lemma load_copy_other n m a d s k :
  apart a (Z.of_nat n) d k -> load n (copy m d s k) a = load n m a.
Proof. intros H. apply load_ext. intros x Hx. unfold copy, apart in *. in_region_cases; [lia|done]. Qed.

(** Loading zero-filled memory gives zero. *)
Lemma load_fill_zero n m a b k :
  b <= a -> a + Z.of_nat n <= b + k -> load n (fill m b 0 k) a = 0.
Proof.
  intros H1 H2. rewrite (load_bytes n _ a 0).
  - apply Z.mod_0_l. apply Z.pow_nonzero; lia.
  - intros x Hx. unfold fill. in_region_cases; [by rewrite Z.div_0_l by (apply Z.pow_nonzero; lia)|lia].
Qed.

Lemma store_other k m a v x : x < a \/ a + Z.of_nat k <= x -> store k m a v x = m x.
Proof. intros. unfold store. in_region_cases; [lia|done]. Qed.
Lemma fill_other m a c n x : x < a \/ a + n <= x -> fill m a c n x = m x.
Proof. intros. unfold fill. in_region_cases; [lia|done]. Qed.
Lemma copy_other m d s n x : x < d \/ d + n <= x -> copy m d s n x = m x.
Proof. intros. unfold copy. in_region_cases; [lia|done]. Qed.

(** ** Byte lists in memory *)

Lemma bytes_at_length n m a : length (bytes_at n m a) = n.
Proof. revert a. induction n; intros; cbn [bytes_at length]; auto. Qed.

Lemma bytes_at_lookup n m a i :
  0 <= i < Z.of_nat n -> znth 0 (bytes_at n m a) i = load8 m (a + i).
Proof.
  revert a i. induction n as [|n IH]; intros a i Hi; [lia|]. cbn [bytes_at].
  destruct (Z.eq_dec i 0) as [->|].
  - by rewrite Z.add_0_r.
  - unfold znth, zlookup in *. specialize (IH (a + 1) (i - 1) ltac:(lia)).
    destruct (Z.ltb_spec i 0), (Z.ltb_spec (i - 1) 0); try lia.
    replace (Z.to_nat i) with (S (Z.to_nat (i - 1))) by lia.
    change (default 0 (bytes_at n m (a + 1) !! Z.to_nat (i - 1)) = load8 m (a + i)).
    rewrite IH. f_equal. lia.
Qed.

Lemma bytes_at_app n1 n2 m a : bytes_at (n1 + n2) m a = bytes_at n1 m a ++ bytes_at n2 m (a + Z.of_nat n1).
Proof.
  revert a. induction n1 as [|n IH]; intros a; [by rewrite Z.add_0_r|]. cbn [Nat.add bytes_at app]. rewrite IH. do 3 f_equal. lia.
Qed.

Lemma bytes_at_ext n m1 m2 a :
  (forall x, a <= x < a + Z.of_nat n -> u8 (m1 x) = u8 (m2 x)) -> bytes_at n m1 a = bytes_at n m2 a.
Proof.
  revert a. induction n as [|n IH]; intros a H; [done|]. cbn [bytes_at]. unfold load8.
  rewrite H, (IH (a + 1)) by (intros; try apply H; lia). done.
Qed.

Lemma write_bytes_other m a l x : x < a \/ a + zlen l <= x -> write_bytes m a l x = m x.
Proof.
  unfold zlen. revert m a. induction l as [|b l IH]; intros m a H; [done|]. cbn [write_bytes length] in *.
  rewrite IH by lia. unfold store8. by rewrite fn_lookup_insert_ne by lia.
Qed.

Lemma bytes_at_write_bytes m a l :
  bytes_at (length l) (write_bytes m a l) a = map u8 l.
Proof.
  revert m a. induction l as [|b l IH]; intros m a; [done|]. cbn [length bytes_at write_bytes map].
  rewrite IH. f_equal. unfold load8. rewrite write_bytes_other by lia.
  unfold store8. rewrite fn_lookup_insert. word_lia.
Qed.

Lemma load_le_value n m a : load n m a = le_value (bytes_at n m a).
Proof.
  revert a. induction n as [|n IH]; intros a; [done|]. cbn [load bytes_at le_value].
  rewrite IH. unfold load8. rewrite (u8_small (u8 (m a))) by apply u8_range. done.
Qed.

(** ** Regions that did not change *)

(** The memories have the same bytes in [a..a+n). *)
Definition agree (m m' : mem) (a n : Z) : Prop := forall x, a <= x < a + n -> m' x = m x.

Lemma load_agree k m m' a b n : agree m m' a n -> a <= b -> b + Z.of_nat k <= a + n -> load k m' b = load k m b.
Proof. intros Ha H1 H2. apply load_ext. intros x Hx. rewrite Ha by lia. done. Qed.

Lemma bytes_agree k m m' a b n : agree m m' a n -> a <= b -> b + Z.of_nat k <= a + n -> bytes_at k m' b = bytes_at k m b.
Proof. intros Ha H1 H2. apply bytes_at_ext. intros x Hx. rewrite Ha by lia. done. Qed.

Lemma agree_store m a v k b n : apart b n a (Z.of_nat k) -> agree m (store k m a v) b n.
Proof. intros Ha x Hx. apply store_other. unfold apart in Ha. lia. Qed.
Lemma agree_write m a l b n : apart b n a (zlen l) -> agree m (write_bytes m a l) b n.
Proof. intros Ha x Hx. apply write_bytes_other. unfold apart in Ha. lia. Qed.
Lemma agree_trans m m' m'' b n : agree m m' b n -> agree m' m'' b n -> agree m m'' b n.
Proof. intros H1 H2 x Hx. rewrite H2, H1 by done. done. Qed.

Lemma agree_fill m a v k b n : apart b n a k -> agree m (fill m a v k) b n.
Proof. intros Ha x Hx. apply fill_other. unfold apart in Ha. lia. Qed.

Create Rewrite HintDb mem.
#[export] Hint Rewrite load64_store64_same load32_store32_same load8_store8_same : mem.
