(* ===== verification/KString.v ===== *)
(** * Freestanding string functions (kernel/src/lib/string.c, the string
    part of kernel/src/lib/libk.c)

    The C loops over byte-addressed memory.  Pointers are addresses; a loop
    that runs until a NUL byte takes fuel (any bound on the distance to the
    NUL is enough, as the theorems state). *)
From S2P Require Import Prelude Mem.

(** ** Memory functions *)

(** [while (n--) *d++ = *s++;] *)
Fixpoint copy_loop (n : nat) (m : mem) (d s : Z) : mem :=
  match n with
  | O => m
  | S n' => copy_loop n' (store8 m d (load8 m s)) (d + 1) (s + 1)
  end.

Definition memcpy (m : mem) (dest src n : Z) : mem :=
  if (8 <=? n) && (Z.land dest 7 =? 0) && (Z.land src 7 =? 0) then
    let words := n / 8 in
    let m := for_range (Z.to_nat words) 0
               (fun i m => store64 m (dest + 8 * i) (load64 m (src + 8 * i))) m in
    copy_loop (Z.to_nat (Z.land n 7)) m (dest + words * 8) (src + words * 8)
  else copy_loop (Z.to_nat n) m dest src.

(** [while (n--) *p++ = (uint8_t)c;] *)
Fixpoint set_loop (n : nat) (m : mem) (p c : Z) : mem :=
  match n with
  | O => m
  | S n' => set_loop n' (store8 m p c) (p + 1) c
  end.

(** The byte [c] repeated over 64 bits. *)
Definition fill_word (c : Z) : Z :=
  let fill := u8 c in
  let fill := Z.lor fill (u64 (Z.shiftl fill 8)) in
  let fill := Z.lor fill (u64 (Z.shiftl fill 16)) in
  Z.lor fill (u64 (Z.shiftl fill 32)).

Definition memset (m : mem) (s c n : Z) : mem :=
  if (8 <=? n) && (Z.land s 7 =? 0) then
    let words := n / 8 in
    let m := for_range (Z.to_nat words) 0 (fun i m => store64 m (s + 8 * i) (fill_word c)) m in
    set_loop (Z.to_nat (Z.land n 7)) m (s + words * 8) c
  else set_loop (Z.to_nat n) m s c.

(** [while (n--) *--d = *--s;] *)
Fixpoint copy_down_loop (n : nat) (m : mem) (d s : Z) : mem :=
  match n with
  | O => m
  | S n' => copy_down_loop n' (store8 m (d - 1) (load8 m (s - 1))) (d - 1) (s - 1)
  end.

Definition memmove (m : mem) (dest src n : Z) : mem :=
  if (dest =? src) || (n =? 0) then m
  else if dest <? src then copy_loop (Z.to_nat n) m dest src
  else copy_down_loop (Z.to_nat n) m (dest + n) (src + n).

Fixpoint memcmp (n : nat) (m : mem) (p1 p2 : Z) : Z :=
  match n with
  | O => 0
  | S n' =>
      if negb (load8 m p1 =? load8 m p2) then load8 m p1 - load8 m p2
      else memcmp n' m (p1 + 1) (p2 + 1)
  end.

(** ** NUL-terminated strings *)

(** First loop of [strncpy]: copy until [n] bytes or the NUL; the number copied. *)
Fixpoint strncpy_copy (n : nat) (m : mem) (dest src i : Z) : mem * Z * nat :=
  match n with
  | O => (m, i, O)
  | S n' =>
      if load8 m (src + i) =? 0 then (m, i, n)
      else strncpy_copy n' (store8 m (dest + i) (load8 m (src + i))) dest src (i + 1)
  end.

Definition strncpy (m : mem) (dest src n : Z) : mem :=
  let '(m, i, rest) := strncpy_copy (Z.to_nat n) m dest src 0 in
  set_loop rest m (dest + i) 0.

(** [strchr]: the address of the first [c], 0 for NULL; [None] = out of fuel. *)
Fixpoint strchr (fuel : nat) (m : mem) (s c : Z) : option Z :=
  match fuel with
  | O => None
  | S fuel' =>
      if load8 m s =? 0 then Some (if c =? 0 then s else 0)
      else if load8 m s =? u8 c then Some s
      else strchr fuel' m (s + 1) c
  end.

Fixpoint strrchr_loop (fuel : nat) (m : mem) (s c last : Z) : option Z :=
  match fuel with
  | O => None
  | S fuel' =>
      if load8 m s =? 0 then Some (if c =? 0 then s else last)
      else strrchr_loop fuel' m (s + 1) c (if load8 m s =? u8 c then s else last)
  end.

Definition strrchr (fuel : nat) (m : mem) (s c : Z) : option Z := strrchr_loop fuel m s c 0.

Fixpoint strlen_loop (fuel : nat) (m : mem) (s len : Z) : option Z :=
  match fuel with
  | O => None
  | S fuel' => if load8 m (s + len) =? 0 then Some len else strlen_loop fuel' m s (len + 1)
  end.

Definition strlen (fuel : nat) (m : mem) (s : Z) : option Z := strlen_loop fuel m s 0.

Fixpoint strcmp (fuel : nat) (m : mem) (s1 s2 : Z) : option Z :=
  match fuel with
  | O => None
  | S fuel' =>
      if negb (load8 m s1 =? 0) && (load8 m s1 =? load8 m s2)
      then strcmp fuel' m (s1 + 1) (s2 + 1)
      else Some (load8 m s1 - load8 m s2)
  end.

(** * Theorems *)

(** ** Copying *)

(** Byte [k] of a loaded integer is byte [k] of memory. *)
Lemma byte_of_load n m a k :
  0 <= k < Z.of_nat n -> u8 (load n m a / 256 ^ k) = u8 (m (a + k)).
Proof.
  revert a k. induction n as [|n IH]; intros a k Hk; [lia|]. cbn [load].
  pose proof (u8_range (m a)). unfold load8.
  destruct (Z.eq_dec k 0) as [->|].
  - rewrite Z.pow_0_r, Z.div_1_r, Z.add_0_r. word_lia.
  - replace k with (Z.succ (k - 1)) by lia. rewrite Z.pow_succ_r by lia.
    rewrite <- Z.div_div by lia.
    replace ((u8 (m a) + 256 * load n m (a + 1)) / 256) with (load n m (a + 1)) by lia.
    rewrite IH by lia. do 2 f_equal. lia.
Qed.

Lemma store_load_copy n m m' d s x :
  store n m d (load n m' s) x = if in_region d (Z.of_nat n) x then u8 (m' (s + (x - d))) else m x.
Proof.
  unfold store. in_region_cases; [|done]. rewrite byte_of_load by lia. done.
Qed.

Lemma copy_loop_spec n m d s :
  d <= s \/ apart d (Z.of_nat n) s (Z.of_nat n) ->
  mem_eq (copy_loop n m d s) (copy m d s (Z.of_nat n)).
Proof.
  revert m d s. induction n as [|n IH]; intros m d s H x.
  - cbn [copy_loop]. unfold copy. in_region_cases; [lia|done].
  - cbn [copy_loop]. rewrite IH by (unfold apart in *; lia). unfold copy, store8, load8, apart in *.
    destruct (Z.eq_dec x d) as [->|].
    + in_region_cases; try lia. rewrite fn_lookup_insert, Z.sub_diag, Z.add_0_r. word_lia.
    + in_region_cases; try lia.
      * destruct (Z.eq_dec d (s + 1 + (x - (d + 1)))) as [He|Hn].
        { lia. }
        rewrite fn_lookup_insert_ne by lia. do 2 f_equal. lia.
      * by rewrite fn_lookup_insert_ne by lia.
Qed.

Lemma copy_down_loop_spec n m d s :
  s <= d ->
  mem_eq (copy_down_loop n m (d + Z.of_nat n) (s + Z.of_nat n)) (copy m d s (Z.of_nat n)).
Proof.
  revert m. induction n as [|n IH]; intros m H x.
  - cbn [copy_down_loop]. unfold copy. in_region_cases; [lia|done].
  - cbn [copy_down_loop].
    replace (d + Z.of_nat (S n) - 1) with (d + Z.of_nat n) by lia.
    replace (s + Z.of_nat (S n) - 1) with (s + Z.of_nat n) by lia.
    rewrite IH by lia. unfold copy, store8, load8.
    destruct (Z.eq_dec x (d + Z.of_nat n)) as [->|].
    + in_region_cases; try lia. rewrite fn_lookup_insert.
      replace (s + (d + Z.of_nat n - d)) with (s + Z.of_nat n) by lia. word_lia.
    + in_region_cases; try lia; rewrite fn_lookup_insert_ne by lia; done.
Qed.

Lemma word_copy_spec n m d s :
  apart d (8 * Z.of_nat n) s (8 * Z.of_nat n) ->
  mem_eq (for_range n 0 (fun i m => store64 m (d + 8 * i) (load64 m (s + 8 * i))) m)
         (copy m d s (8 * Z.of_nat n)).
Proof.
  induction n as [|n IH]; intros H x.
  - cbn [for_range]. unfold copy. in_region_cases; [lia|done].
  - rewrite for_range_S. rewrite Z.add_0_l. unfold store64, load64. rewrite store_load_copy.
    unfold apart in H. rewrite !IH by (unfold apart; lia). unfold copy.
    in_region_cases; try lia; try done.
    do 2 f_equal. lia.
Qed.

Lemma copy_app m d s n k :
  0 <= n -> 0 <= k -> apart d (n + k) s (n + k) ->
  mem_eq (copy (copy m d s n) (d + n) (s + n) k) (copy m d s (n + k)).
Proof.
  intros Hn Hk H x. unfold copy, apart in *. in_region_cases; try lia; try done.
  do 2 f_equal. lia.
Qed.

Lemma copy_proper m1 m2 d s n : mem_eq m1 m2 -> mem_eq (copy m1 d s n) (copy m2 d s n).
Proof. intros H x. unfold copy. by rewrite !H. Qed.

Lemma memcpy_copy m d s n :
  0 <= n -> apart d n s n -> mem_eq (memcpy m d s n) (copy m d s n).
Proof.
  intros Hn H. unfold memcpy. ifs.
  - change 7 with (2 ^ 3 - 1). rewrite land_ones_mod by lia. change (2 ^ 3) with 8.
    etransitivity; [apply copy_loop_spec; right; unfold apart in *; lia|].
    rewrite Z2Nat.id by lia.
    etransitivity; [apply copy_proper, word_copy_spec; unfold apart in *; lia|].
    replace (8 * Z.of_nat (Z.to_nat (n / 8))) with (n / 8 * 8) by lia.
    etransitivity; [apply copy_app; unfold apart in *; lia|].
    by replace (n / 8 * 8 + n mod 8) with n by lia.
  - etransitivity; [apply copy_loop_spec; right; by rewrite Z2Nat.id by lia|].
    by rewrite Z2Nat.id by lia.
Qed.

(** [memcpy] copies the source region onto the destination and changes
    nothing else, on both its word-at-a-time and its byte path, for any
    alignment, as long as the regions do not overlap (its [restrict]
    contract). *)
Theorem memcpy_correct m d s n :
  0 <= n -> apart d n s n ->
  (forall x, d <= x < d + n -> memcpy m d s n x = u8 (m (s + (x - d)))) /\
  (forall x, x < d \/ d + n <= x -> memcpy m d s n x = m x).
Proof.
  intros Hn Ha. split; intros x Hx; rewrite memcpy_copy by done.
  - unfold copy. in_region_cases; [done|lia].
  - by apply copy_other.
Qed.

Lemma memcpy_correct_witness :
  memcpy (fun x => x mod 7) 8 32 19 26 = u8 (50 mod 7).
Proof.
  apply (memcpy_correct (fun x => x mod 7) 8 32 19); [lia|unfold apart; lia|lia].
Defined.

(** [memmove] has the same effect for every pair of regions, overlapping
    in either direction or not (up to reading each source byte as 8 bits). *)
Theorem memmove_correct m d s n :
  0 <= n -> (forall x, m x = u8 (m x)) -> mem_eq (memmove m d s n) (copy m d s n).
Proof.
  intros Hn Hbytes x. unfold memmove. ifs.
  - apply orb_true_iff in E as [E|E]; bool_hyps; subst; unfold copy; in_region_cases; try done.
    + rewrite Hbytes at 1. do 2 f_equal. lia.
    + lia.
  - rewrite copy_loop_spec by lia. by rewrite Z2Nat.id by lia.
  - replace (d + n) with (d + Z.of_nat (Z.to_nat n)) by lia.
    replace (s + n) with (s + Z.of_nat (Z.to_nat n)) by lia.
    rewrite copy_down_loop_spec by lia. by rewrite Z2Nat.id by lia.
Qed.

Lemma memmove_correct_witness :
  memmove (fun x => x mod 7) 10 8 6 12 = u8 (10 mod 7).
Proof.
  rewrite (memmove_correct (fun x => x mod 7) 10 8 6); [reflexivity|lia|].
  intros x. symmetry. apply u8_small. lia.
Defined.

Lemma memmove_other m d s n x : 0 <= n -> x < d \/ d + n <= x -> memmove m d s n x = m x.
Proof.
  intros Hn Hx. unfold memmove. ifs; [done| |].
  - rewrite copy_loop_spec by lia. apply copy_other. lia.
  - replace (d + n) with (d + Z.of_nat (Z.to_nat n)) by lia.
    replace (s + n) with (s + Z.of_nat (Z.to_nat n)) by lia.
    rewrite copy_down_loop_spec by lia. apply copy_other. lia.
Qed.

(** ** Filling *)

Lemma set_loop_spec n m p c : mem_eq (set_loop n m p c) (fill m p c (Z.of_nat n)).
Proof.
  revert m p. induction n as [|n IH]; intros m p x.
  - cbn [set_loop]. unfold fill. in_region_cases; [lia|done].
  - cbn [set_loop]. rewrite IH. unfold fill, store8.
    destruct (Z.eq_dec x p) as [->|].
    + rewrite fn_lookup_insert. in_region_cases; try lia; done.
    + rewrite fn_lookup_insert_ne by lia. in_region_cases; try lia; done.
Qed.

Definition fill_word_ok (c : Z) : bool :=
  forallb (fun k => u8 (fill_word c / 256 ^ k) =? c) [0; 1; 2; 3; 4; 5; 6; 7].

Lemma fill_word_all : forallb fill_word_ok (map Z.of_nat (seq 0 256)) = true.
Proof. vm_compute. reflexivity. Qed.

Lemma fill_word_byte c k : 0 <= k < 8 -> u8 (fill_word c / 256 ^ k) = u8 c.
Proof.
  intros Hk. pose proof fill_word_all as H. rewrite forallb_forall in H.
  pose proof (u8_range c). specialize (H (u8 c)).
  assert (fill_word c = fill_word (u8 c)) as ->.
  { unfold fill_word. by rewrite (u8_small (u8 c)) by done. }
  assert (fill_word_ok (u8 c) = true) as Hc.
  { apply H. apply in_map_iff. exists (Z.to_nat (u8 c)). split; [lia|]. apply in_seq. lia. }
  unfold fill_word_ok in Hc. rewrite forallb_forall in Hc.
  apply Z.eqb_eq, Hc. cbn. lia.
Qed.

Lemma word_fill_spec n m s c :
  mem_eq (for_range n 0 (fun i m => store64 m (s + 8 * i) (fill_word c)) m) (fill m s c (8 * Z.of_nat n)).
Proof.
  induction n as [|n IH]; intros x.
  - cbn [for_range]. unfold fill. in_region_cases; [lia|done].
  - rewrite for_range_S, Z.add_0_l. unfold store64, store. rewrite IH. unfold fill.
    in_region_cases; try lia; try done. apply fill_word_byte. lia.
Qed.

(** [memset] sets every byte of the region to [(uint8_t)c] and changes
    nothing else, on both its 64-bit and its byte path. *)
Theorem memset_correct m s c n :
  0 <= n -> mem_eq (memset m s c n) (fill m s c n).
Proof.
  intros Hn x. unfold memset. ifs.
  - change 7 with (2 ^ 3 - 1). rewrite land_ones_mod by lia. change (2 ^ 3) with 8.
    rewrite set_loop_spec, Z2Nat.id by lia. unfold fill.
    in_region_cases; rewrite ?word_fill_spec; unfold fill; in_region_cases; try lia; done.
  - rewrite set_loop_spec, Z2Nat.id by lia. done.
Qed.

Lemma memset_correct_witness : memset (fun _ => 9) 16 (-1) 11 26 = 255 /\ memset (fun _ => 9) 16 (-1) 11 27 = 9.
Proof.
  split; rewrite (memset_correct (fun _ => 9) 16 (-1) 11 ltac:(lia)); reflexivity.
Defined.

(** ** C strings *)

(** [a] points at the NUL-terminated bytes [l]. *)
Definition cstr (m : mem) (a : Z) (l : list Z) : Prop :=
  (forall i, 0 <= i < zlen l -> load8 m (a + i) = znth 0 l i) /\
  Forall (fun b => 0 < b < 256) l /\ load8 m (a + zlen l) = 0.

Lemma cstr_nil m a : cstr m a [] <-> load8 m a = 0.
Proof.
  unfold cstr, zlen. cbn [length]. rewrite Z.add_0_r. split; [by intros (_ & _ & ?)|].
  intros H. split; [|done]. intros i. cbn. lia.
Qed.

Lemma znth_cons {A : Type} (d x : A) l i : 0 <= i -> znth d (x :: l) (i + 1) = znth d l i.
Proof.
  intros. unfold znth, zlookup. destruct (Z.ltb_spec (i + 1) 0), (Z.ltb_spec i 0); try lia.
  by replace (Z.to_nat (i + 1)) with (S (Z.to_nat i)) by lia.
Qed.

Lemma cstr_cons m a b l : cstr m a (b :: l) <-> load8 m a = b /\ 0 < b < 256 /\ cstr m (a + 1) l.
Proof.
  unfold cstr, zlen. cbn [length]. rewrite Forall_cons_iff. split.
  - intros (H1 & (Hb & H2) & H3). split_and!; [|lia|lia| |done|].
    + rewrite <- (Z.add_0_r a). apply (H1 0). lia.
    + intros i Hi. replace (a + 1 + i) with (a + (i + 1)) by lia.
      rewrite H1 by lia. apply znth_cons. lia.
    + rewrite <- H3. f_equal. lia.
  - intros (H1 & Hb & H2 & H3 & H4). split_and!; [|lia|lia|done|].
    + intros i Hi. destruct (Z.eq_dec i 0) as [->|]; [by rewrite Z.add_0_r|].
      replace (a + i) with (a + 1 + (i - 1)) by lia. rewrite H2 by lia.
      rewrite <- (znth_cons 0 b l) by lia. f_equal. lia.
    + rewrite <- H4. f_equal. lia.
Qed.

Lemma strlen_loop_spec fuel m s k l :
  cstr m (s + k) l -> (length l < fuel)%nat -> strlen_loop fuel m s k = Some (k + zlen l).
Proof.
  revert k fuel. induction l as [|b l IH]; intros k fuel Hc Hf; destruct fuel as [|fuel]; cbn [length] in Hf; try lia.
  - apply cstr_nil in Hc. cbn [strlen_loop]. rewrite Hc. cbn. f_equal. unfold zlen. cbn. lia.
  - apply cstr_cons in Hc as (H1 & Hb & H2). cbn [strlen_loop]. rewrite H1.
    destruct (Z.eqb_spec b 0); [lia|].
    rewrite IH; [f_equal; unfold zlen; cbn [length]; lia|by replace (s + (k + 1)) with (s + k + 1) by lia|lia].
Qed.

(** [strlen] returns the length of a terminated string. *)
Lemma strlen_spec fuel m s l : cstr m s l -> (length l < fuel)%nat -> strlen fuel m s = Some (zlen l).
Proof.
  intros. unfold strlen. rewrite (strlen_loop_spec _ _ _ 0 l); [done|by rewrite Z.add_0_r|done].
Qed.

(** The C comparison of byte lists: difference of the first bytes that
    differ, a missing byte counting as NUL. *)
Fixpoint str_diff (l1 l2 : list Z) : Z :=
  match l1, l2 with
  | [], [] => 0
  | [], b :: _ => - b
  | a :: _, [] => a
  | a :: l1, b :: l2 => if a =? b then str_diff l1 l2 else a - b
  end.

Lemma strcmp_spec fuel m s1 s2 l1 l2 :
  cstr m s1 l1 -> cstr m s2 l2 -> (length l1 < fuel)%nat ->
  strcmp fuel m s1 s2 = Some (str_diff l1 l2).
Proof.
  revert s1 s2 l2 fuel. induction l1 as [|a l1 IH]; intros s1 s2 l2 fuel H1 H2 Hf;
    destruct fuel as [|fuel]; cbn [length] in Hf; try lia; cbn [strcmp].
  - apply cstr_nil in H1. rewrite H1. cbn. destruct l2 as [|b l2].
    + apply cstr_nil in H2. rewrite H2. done.
    + apply cstr_cons in H2 as (H2 & _ & _). rewrite H2. done.
  - apply cstr_cons in H1 as (H1 & Ha & Hl1). rewrite H1. destruct (Z.eqb_spec a 0); [lia|]. cbn [negb andb].
    destruct l2 as [|b l2].
    + apply cstr_nil in H2. rewrite H2. destruct (Z.eqb_spec a 0); [lia|]. cbn. f_equal. lia.
    + apply cstr_cons in H2 as (H2 & Hb & Hl2). rewrite H2. cbn [str_diff].
      destruct (Z.eqb_spec a b); [|done]. apply IH; [done|done|lia].
Qed.

Lemma str_diff_zero l1 l2 :
  Forall (fun b => 0 < b < 256) l1 -> Forall (fun b => 0 < b < 256) l2 ->
  (str_diff l1 l2 = 0 <-> l1 = l2).
Proof.
  intros H1. revert l2. induction H1 as [|a l1 Ha H1 IH]; intros l2 H2;
    destruct H2 as [|b l2 Hb H2]; cbn [str_diff]; [done|split; [lia|done]|split; [lia|done]|].
  destruct (Z.eqb_spec a b) as [->|Hne]; [|split; [lia|congruence]].
  rewrite IH by done. split; [by intros ->|by intros [=]].
Qed.

(** [strcmp] terminates on terminated strings and returns 0 exactly when
    the strings are equal. *)
Theorem strcmp_equal fuel m s1 s2 l1 l2 :
  cstr m s1 l1 -> cstr m s2 l2 -> (length l1 < fuel)%nat ->
  exists r, strcmp fuel m s1 s2 = Some r /\ (r = 0 <-> l1 = l2).
Proof.
  intros H1 H2 Hf. exists (str_diff l1 l2). split; [by apply strcmp_spec|].
  apply str_diff_zero; [by destruct H1 as (_ & ? & _)|by destruct H2 as (_ & ? & _)].
Qed.

Lemma strcmp_equal_witness :
  exists r, strcmp 9 (write_bytes (write_bytes (fun _ => 0) 100 [104; 105]) 200 [104; 111]) 100 200 = Some r /\
            (r = 0 <-> [104; 105] = [104; 111]).
Proof.
  apply (strcmp_equal 9 _ 100 200 [104; 105] [104; 111]); [| |cbn; lia].
  - rewrite !cstr_cons, cstr_nil. vm_compute. split_and!; done.
  - rewrite !cstr_cons, cstr_nil. vm_compute. split_and!; done.
Defined.

Lemma cstr_ext m1 m2 a l :
  (forall x, a <= x <= a + zlen l -> m1 x = m2 x) -> cstr m1 a l -> cstr m2 a l.
Proof.
  intros He (H1 & H2 & H3). pose proof (Zle_0_nat (length l)). unfold cstr, load8, zlen in *. split_and!; [|done|].
  - intros i Hi. rewrite <- He by lia. by apply H1.
  - rewrite <- He by lia. done.
Qed.

(** The copying loop of [strncpy]. *)
Lemma strncpy_copy_spec n m dest src i l :
  cstr m (src + i) l -> apart (dest + i) (Z.of_nat n) (src + i) (zlen l + 1) ->
  let k := Nat.min n (length l) in
  exists m', strncpy_copy n m dest src i = (m', i + Z.of_nat k, (n - k)%nat) /\
    forall x, m' x = if in_region (dest + i) (Z.of_nat k) x then znth 0 l (x - dest - i) else m x.
Proof.
  revert n m i. induction l as [|b l IH]; intros n m i Hc Ha.
  - apply cstr_nil in Hc. exists m. destruct n as [|n]; cbn [strncpy_copy length Nat.min].
    + split; [f_equal; f_equal; lia|]. intros x. in_region_cases; [lia|done].
    + rewrite Hc. cbn. split; [f_equal; f_equal; lia|]. intros x. in_region_cases; [lia|done].
  - apply cstr_cons in Hc as (H1 & Hb & H2). destruct n as [|n]; cbn [strncpy_copy].
    { exists m. cbn. split; [f_equal; f_equal; lia|]. intros x. in_region_cases; [lia|done]. }
    rewrite H1. destruct (Z.eqb_spec b 0); [lia|].
    unfold apart, zlen in Ha. cbn [length] in Ha.
    destruct (IH n (store8 m (dest + i) b) (i + 1)) as (m' & He & Hm').
    + rewrite Z.add_assoc. eapply cstr_ext; [|done]. intros x Hx. unfold zlen in Hx. unfold store8.
      rewrite fn_lookup_insert_ne by lia. done.
    + unfold apart, zlen. lia.
    + exists m'. rewrite He. cbn [length Nat.min]. split; [f_equal; f_equal; lia|].
      intros x. rewrite Hm'. unfold store8.
      destruct (Z.eq_dec x (dest + i)) as [->|].
      * rewrite fn_lookup_insert. in_region_cases; try lia.
        replace (dest + i - dest - i) with 0 by lia. change (znth 0 (b :: l) 0) with b. apply u8_small. lia.
      * rewrite fn_lookup_insert_ne by lia. in_region_cases; try lia; try done.
        replace (x - dest - i) with (x - dest - (i + 1) + 1) by lia. rewrite znth_cons by lia. done.
Qed.

(** [strncpy] writes exactly [n] bytes: the string truncated to [n]
    bytes, padded with NUL bytes up to [n] (so the result is not terminated
    when the string has [n] or more bytes), and nothing outside them. *)
Theorem strncpy_correct m dest src n l :
  0 <= n -> cstr m src l -> apart dest n src (zlen l + 1) ->
  forall x, strncpy m dest src n x =
    if in_region dest n x then znth 0 (take (Z.to_nat n) l) (x - dest) else m x.
Proof.
  intros Hn Hc Ha x. unfold strncpy.
  destruct (strncpy_copy_spec (Z.to_nat n) m dest src 0 l) as (m' & He & Hm').
  { by rewrite Z.add_0_r. } { rewrite !Z.add_0_r, Z2Nat.id by lia. done. }
  rewrite He, set_loop_spec. unfold fill. rewrite Hm'. unfold znth, zlookup.
  destruct (Nat.le_gt_cases (Z.to_nat n) (length l)).
  - rewrite Nat.min_l by lia. in_region_cases; try lia; try done.
    destruct (Z.ltb_spec (x - dest - 0) 0), (Z.ltb_spec (x - dest) 0); try lia.
    rewrite lookup_take_lt by lia. by replace (x - dest - 0) with (x - dest) by lia.
  - rewrite Nat.min_r by lia. in_region_cases; try lia; try done.
    + destruct (Z.ltb_spec (x - dest) 0); [lia|]. by rewrite take_ge, lookup_ge_None_2 by lia.
    + destruct (Z.ltb_spec (x - dest - 0) 0), (Z.ltb_spec (x - dest) 0); try lia.
      rewrite take_ge by lia. by replace (x - dest - 0) with (x - dest) by lia.
Qed.

Lemma strncpy_correct_witness :
  strncpy (write_bytes (fun _ => 7) 100 [104; 105; 0]) 200 100 5 201 = 105.
Proof.
  rewrite (strncpy_correct _ 200 100 5 [104; 105]); [reflexivity|lia| |unfold apart, zlen; cbn; lia].
  rewrite !cstr_cons, cstr_nil. vm_compute. split_and!; done.
Defined.

(** Position of the first, and of the last, [c] in a byte list. *)
Fixpoint list_index (c : Z) (l : list Z) : option Z :=
  match l with
  | [] => None
  | b :: l => if b =? c then Some 0 else (fun i => i + 1) <$> list_index c l
  end.

Fixpoint list_rindex (c : Z) (l : list Z) : option Z :=
  match l with
  | [] => None
  | b :: l =>
      match list_rindex c l with
      | Some i => Some (i + 1)
      | None => if b =? c then Some 0 else None
      end
  end.

Lemma strchr_spec fuel m s l c :
  cstr m s l -> 0 < c < 256 -> (length l < fuel)%nat ->
  strchr fuel m s c = Some (match list_index c l with Some i => s + i | None => 0 end).
Proof.
  revert s fuel. induction l as [|b l IH]; intros s fuel Hc Hr Hf; destruct fuel as [|fuel];
    cbn [length] in Hf; try lia; cbn [strchr list_index].
  - apply cstr_nil in Hc. rewrite Hc. cbn. by destruct (Z.eqb_spec c 0); [lia|].
  - apply cstr_cons in Hc as (H1 & Hb & H2). rewrite H1. destruct (Z.eqb_spec b 0); [lia|].
    rewrite (u8_small c) by lia. destruct (Z.eqb_spec b c); [by rewrite Z.add_0_r|].
    rewrite IH by (done || lia). destruct (list_index c l); cbn; f_equal; lia.
Qed.

Lemma strrchr_loop_spec fuel m s l c last :
  cstr m s l -> 0 < c < 256 -> (length l < fuel)%nat ->
  strrchr_loop fuel m s c last =
    Some (match list_rindex c l with Some i => s + i | None => last end).
Proof.
  revert s fuel last. induction l as [|b l IH]; intros s fuel last Hc Hr Hf; destruct fuel as [|fuel];
    cbn [length] in Hf; try lia; cbn [strrchr_loop list_rindex].
  - apply cstr_nil in Hc. rewrite Hc. cbn. by destruct (Z.eqb_spec c 0); [lia|].
  - apply cstr_cons in Hc as (H1 & Hb & H2). rewrite H1. destruct (Z.eqb_spec b 0); [lia|].
    rewrite (u8_small c) by lia. rewrite IH by (done || lia).
    destruct (list_rindex c l); cbn; [f_equal; lia|].
    by destruct (Z.eqb_spec b c); [rewrite Z.add_0_r|].
Qed.

(** [memcmp] compares the byte lists of the regions. *)
Lemma memcmp_zero n m p1 p2 : memcmp n m p1 p2 = 0 <-> bytes_at n m p1 = bytes_at n m p2.
Proof.
  revert p1 p2. induction n as [|n IH]; intros p1 p2; cbn [memcmp bytes_at]; [done|].
  destruct (Z.eqb_spec (load8 m p1) (load8 m p2)) as [He|Hne]; cbn [negb].
  - rewrite IH, He. split; [by intros ->|by intros [=]].
  - split; [lia|congruence].
Qed.
