(* ===== verification/FrameAlloc.v ===== *)
(** * Interface: what the frame allocator promises its clients

    The kernel heap (kheap.c), the page tables (pmap.c) and the task stacks
    (sched.c) obtain whole page frames from the physical memory manager.
    Their theorems are proved against this interface; Pmm.v discharges it. *)
From S2P Require Import Prelude Mem.

Definition PAGE : Z := 4096.

Class FrameAlloc (A : Type) := {
  fa_alloc : Z -> A -> Z * A;           (* pages: HHDM pointer, 0 = out of memory *)
  fa_free : Z -> Z -> A -> A;           (* pointer, pages *)
  fa_inv : A -> Prop;
  fa_managed : A -> Z -> bool;          (* the address lies in a managed frame *)
  fa_avail : A -> Z -> bool;            (* ... in a frame that is free *)
  fa_nfree : A -> Z;                    (* number of free frames *)
}.

Class FrameAllocLaws (A : Type) `{FrameAlloc A} := {
  fa_alloc_law : forall n a, fa_inv a -> 0 < n ->
    fa_inv (fa_alloc n a).2 /\
    (fa_alloc n a = (0, a) \/
     let p := (fa_alloc n a).1 in
     let a' := (fa_alloc n a).2 in
     0 < p /\ p mod PAGE = 0 /\ p + n * PAGE <= 2 ^ 64 /\
     (forall q, p <= q < p + n * PAGE -> fa_avail a q = true) /\
     (forall q, fa_avail a' q = negb (in_region p (n * PAGE) q) && fa_avail a q) /\
     (forall q, fa_managed a' q = fa_managed a q) /\
     fa_nfree a' = fa_nfree a - n);
  fa_free_law : forall p n a, fa_inv a -> 0 <= n -> 0 <= p -> p mod PAGE = 0 ->
    (forall q, p <= q < p + n * PAGE -> fa_managed a q = true /\ fa_avail a q = false) ->
    let a' := fa_free p n a in
    fa_inv a' /\
    (forall q, fa_avail a' q = in_region p (n * PAGE) q || fa_avail a q) /\
    (forall q, fa_managed a' q = fa_managed a q) /\
    fa_nfree a' = fa_nfree a + n;
  fa_alloc_one : forall a, fa_inv a -> 0 < fa_nfree a -> fa_alloc 1 a <> (0, a);
  fa_avail_managed : forall a q, fa_avail a q = true -> fa_managed a q = true;
  fa_nfree_nonneg : forall a, fa_inv a -> 0 <= fa_nfree a;
}.

(** Memory together with the allocator of its frames. *)
Record kmem (A : Type) := mkKmem { km_mem : mem; km_frames : A }.
Arguments mkKmem {A} _ _.
Arguments km_mem {A} _.
Arguments km_frames {A} _.
