(* ===== verification/Pmm.v ===== *)
(** * Physical memory manager (kernel/src/mm/pmm.c)

    The frame allocator: one bit per 4 KiB page of physical memory, set when
    the page is in use.  The bitmap is a private byte array of pmm.c; [bm]
    holds its bytes ([bm k] is [bitmap[k]]).  Pointers handed out are HHDM
    addresses, [0] is [NULL]. *)
From S2P Require Import Prelude Mem FrameAlloc.

Definition PAGE_SIZE : Z := 4096.
Definition LIMINE_MEMMAP_USABLE : Z := 0.

(** One entry of the boot loader's memory map. *)
Record memmap_entry := mkEntry { e_base : Z; e_length : Z; e_type : Z }.

(** The static variables of pmm.c. *)
Record pmm := mkPmm {
  bitmap : Z;              (* HHDM address of the bitmap, 0 = NULL *)
  bm : Z -> Z;             (* its bytes *)
  usable_bytes : Z;
  bitmap_size : Z;
  total_pages : Z;
  free_pages : Z;
  highest_page : Z;
}.

Definition pmm_boot (garbage : Z -> Z) : pmm := mkPmm 0 garbage 0 0 0 0 0.

Definition with_bm (s : pmm) (b : Z -> Z) : pmm :=
  mkPmm (bitmap s) b (usable_bytes s) (bitmap_size s) (total_pages s) (free_pages s) (highest_page s).
Definition with_free_pages (s : pmm) (n : Z) : pmm :=
  mkPmm (bitmap s) (bm s) (usable_bytes s) (bitmap_size s) (total_pages s) n (highest_page s).
Definition with_usable (s : pmm) (n : Z) : pmm :=
  mkPmm (bitmap s) (bm s) n (bitmap_size s) (total_pages s) (free_pages s) (highest_page s).

(** ** Bit operations *)

Definition bitmap_set (s : pmm) (page : Z) : pmm :=
  with_bm s (<[page / 8 := u8 (Z.lor (bm s (page / 8)) (Z.shiftl 1 (page mod 8)))]> (bm s)).

Definition bitmap_clear (s : pmm) (page : Z) : pmm :=
  with_bm s (<[page / 8 := u8 (Z.land (bm s (page / 8)) (Z.lnot (Z.shiftl 1 (page mod 8))))]> (bm s)).

Definition bitmap_test (s : pmm) (page : Z) : bool :=
  negb (Z.land (bm s (page / 8)) (Z.shiftl 1 (page mod 8)) =? 0).

(** ** Initialisation *)

(** Highest address covered by the memory map. *)
Definition top_step (top : Z) (e : memmap_entry) : Z :=
  let entry_top := e_base e .+ e_length e in
  if top <? entry_top then entry_top else top.

Definition memmap_top (entries : list memmap_entry) : Z := foldl top_step 0 entries.

(** First usable region that can hold the bitmap. *)
Fixpoint find_bitmap_region (entries : list memmap_entry) (size : Z) : option memmap_entry :=
  match entries with
  | [] => None
  | e :: rest =>
      if (e_type e =? LIMINE_MEMMAP_USABLE) && (size <=? e_length e) then Some e
      else find_bitmap_region rest size
  end.

(** Body of the page loop of "Free usable regions". *)
Definition free_page_body (p : Z) (s : pmm) : pmm :=
  if p <? total_pages s
  then with_free_pages (bitmap_clear s p) (free_pages s .+ 1)
  else s.

Definition free_entry (s : pmm) (e : memmap_entry) : pmm :=
  if negb (e_type e =? LIMINE_MEMMAP_USABLE) then s
  else
    let s := with_usable s (usable_bytes s .+ e_length e) in
    let start_page := e_base e / PAGE_SIZE in
    let page_count := e_length e / PAGE_SIZE in
    for_range (Z.to_nat page_count) start_page free_page_body s.

(** Body of the loop that reserves the bitmap's own pages. *)
Definition reserve_page_body (bm_page i : Z) (s : pmm) : pmm :=
  if negb (bitmap_test s (bm_page + i))
  then with_free_pages (bitmap_set s (bm_page + i)) (free_pages s .- 1)
  else s.

(** [memset(bitmap, 0xFF, bitmap_size)]. *)
Definition bitmap_fill (b : Z -> Z) (size : Z) : Z -> Z :=
  fun k => if (0 <=? k) && (k <? size) then 255 else b k.

Definition pmm_init (hhdm : Z) (memmap : option (list memmap_entry)) (s : pmm) : pmm :=
  match memmap with
  | None => s
  | Some entries =>
      let top := memmap_top entries in
      let total := top / PAGE_SIZE in
      let size := (total .+ 7) / 8 in
      let s := mkPmm (bitmap s) (bm s) (usable_bytes s) size total (free_pages s) total in
      let s :=
        match find_bitmap_region entries size with
        | Some e => mkPmm (e_base e .+ hhdm) (bitmap_fill (bm s) size)
                      (usable_bytes s) size total (free_pages s) total
        | None => s
        end in
      if bitmap s =? 0 then s
      else
        let s := with_usable (with_free_pages s 0) 0 in
        let s := foldl free_entry s entries in
        let bm_phys := bitmap s .- hhdm in
        let bm_page := bm_phys / PAGE_SIZE in
        let bm_count := (bitmap_size s .+ PAGE_SIZE .- 1) / PAGE_SIZE in
        let s := for_range (Z.to_nat bm_count) 0 (reserve_page_body bm_page) s in
        mkPmm (bitmap s) (bm s) (usable_bytes s) (bitmap_size s) (total_pages s) (free_pages s) bm_page
  end.

(** ** Allocation *)

(** The scan of [pmm_alloc]/[pmm_alloc_dma] over pages [i .. i+n): the start
    of the first run of [pages] clear bits. *)
Fixpoint scan_run (s : pmm) (pages : Z) (n : nat) (i consecutive start : Z) : option Z :=
  match n with
  | O => None
  | S n' =>
      if negb (bitmap_test s i) then
        let start := if consecutive =? 0 then i else start in
        let consecutive := consecutive + 1 in
        if consecutive =? pages then Some start
        else scan_run s pages n' (i + 1) consecutive start
      else scan_run s pages n' (i + 1) 0 start
  end.

(** Mark the run used and hand it out. *)
Definition take_run (hhdm : Z) (s : pmm) (start pages : Z) : Z * pmm :=
  let s' := for_range (Z.to_nat pages) start (fun p s => bitmap_set s p) s in
  (start * PAGE_SIZE .+ hhdm, with_free_pages s' (free_pages s' .- pages)).

Definition pmm_alloc (hhdm : Z) (pages : Z) (s : pmm) : Z * pmm :=
  if pages =? 0 then (0, s)
  else match scan_run s pages (Z.to_nat (total_pages s)) 0 0 0 with
       | Some start => take_run hhdm s start pages
       | None => (0, s)
       end.

Definition pmm_alloc_dma (hhdm : Z) (pages : Z) (s : pmm) : Z * pmm :=
  if pages =? 0 then (0, s)
  else
    let max_page := 4 * 1024 * 1024 * 1024 / PAGE_SIZE in
    let max_page := if total_pages s <? max_page then total_pages s else max_page in
    match scan_run s pages (Z.to_nat max_page) 0 0 0 with
    | Some start => take_run hhdm s start pages
    | None => (0, s)
    end.

(** ** Release: stops with a warning at the first page that is not in use. *)
Fixpoint free_run (n : nat) (page : Z) (s : pmm) : pmm :=
  match n with
  | O => s
  | S n' =>
      if negb (bitmap_test s page) then s
      else free_run n' (page + 1) (with_free_pages (bitmap_clear s page) (free_pages s .+ 1))
  end.

Definition pmm_free (hhdm : Z) (addr pages : Z) (s : pmm) : pmm :=
  let phys := addr .- hhdm in
  let start_page := phys / PAGE_SIZE in
  free_run (Z.to_nat pages) start_page s.

Definition pmm_get_usable_bytes (s : pmm) : Z := usable_bytes s.
Definition pmm_get_free_pages (s : pmm) : Z := free_pages s.
Definition pmm_get_total_pages (s : pmm) : Z := total_pages s.

(** Address translation (pmm.h). *)
Definition virt_to_phys (hhdm virt : Z) : Z := virt .- hhdm.
Definition phys_to_virt (hhdm phys : Z) : Z := phys .+ hhdm.

(** * Theorems *)

(** ** The bitmap as a set of pages *)

Lemma bitmap_test_bit s p : bitmap_test s p = Z.testbit (bm s (p / 8)) (p mod 8).
Proof. unfold bitmap_test. rewrite land_bit_eqb by lia. by rewrite negb_involutive. Qed.

Lemma page_split p q : p / 8 = q / 8 -> p mod 8 = q mod 8 -> p = q.
Proof. lia. Qed.

Lemma bitmap_test_set s p q :
  bitmap_test (bitmap_set s p) q = (q =? p) || bitmap_test s q.
Proof.
  rewrite !bitmap_test_bit. unfold bitmap_set, with_bm; cbn [bm].
  destruct (Z.eq_dec (p / 8) (q / 8)) as [He|Hne].
  - rewrite <- He, fn_lookup_insert. unfold u8.
    rewrite testbit_mod, Z.lor_spec, testbit_shl1 by lia.
    destruct (Z.eqb_spec q p) as [->|Hqp]; [by rewrite Z.eqb_refl, orb_true_r|].
    destruct (Z.eqb_spec (q mod 8) (p mod 8)); [lia|]. by rewrite orb_false_r.
  - rewrite fn_lookup_insert_ne by done.
    destruct (Z.eqb_spec q p) as [->|]; [lia|done].
Qed.

Lemma bitmap_test_clear s p q :
  bitmap_test (bitmap_clear s p) q = negb (q =? p) && bitmap_test s q.
Proof.
  rewrite !bitmap_test_bit. unfold bitmap_clear, with_bm; cbn [bm].
  destruct (Z.eq_dec (p / 8) (q / 8)) as [He|Hne].
  - rewrite <- He, fn_lookup_insert. unfold u8.
    rewrite testbit_mod, Z.land_spec, Z.lnot_spec, testbit_shl1 by lia.
    destruct (Z.eqb_spec q p) as [->|Hqp]; [by rewrite Z.eqb_refl, andb_false_r|].
    destruct (Z.eqb_spec (q mod 8) (p mod 8)); [lia|]. simpl. by rewrite andb_true_r.
  - rewrite fn_lookup_insert_ne by done.
    destruct (Z.eqb_spec q p) as [->|]; [lia|done].
Qed.

Lemma bitmap_test_with_free s n p : bitmap_test (with_free_pages s n) p = bitmap_test s p.
Proof. done. Qed.
Lemma bitmap_test_with_usable s n p : bitmap_test (with_usable s n) p = bitmap_test s p.
Proof. done. Qed.

Create Rewrite HintDb pmm.
#[export] Hint Rewrite bitmap_test_set bitmap_test_clear bitmap_test_with_free
  bitmap_test_with_usable : pmm.

(** The abstract state: which pages are free. *)
Definition page_free (s : pmm) (p : Z) : bool := negb (bitmap_test s p).

(** A run of [n] free pages from [st]. *)
Definition free_at (s : pmm) (st n : Z) : Prop := forall p, st <= p < st + n -> page_free s p = true.

(** Well-formedness: the page counts are consistent with the bitmap. *)
Record pmm_inv (s : pmm) : Prop := {
  inv_total : 0 <= total_pages s <= 2 ^ 52;
  inv_count : free_pages s = zcount (page_free s) (Z.to_nat (total_pages s));
}.

(** ** Marking and clearing runs *)

Lemma set_run_spec s start n :
  0 <= start -> start + Z.of_nat n <= total_pages s ->
  free_at s start (Z.of_nat n) ->
  let s' := for_range n start (fun p s => bitmap_set s p) s in
  (forall p, bitmap_test s' p = ((start <=? p) && (p <? start + Z.of_nat n)) || bitmap_test s p) /\
  zcount (page_free s') (Z.to_nat (total_pages s)) =
    zcount (page_free s) (Z.to_nat (total_pages s)) - Z.of_nat n /\
  total_pages s' = total_pages s /\ free_pages s' = free_pages s /\
  usable_bytes s' = usable_bytes s.
Proof.
  intros Hs Hn Hfree.
  pose (P := fun k (s' : pmm) =>
    (forall p, bitmap_test s' p = ((start <=? p) && (p <? k)) || bitmap_test s p) /\
    zcount (page_free s') (Z.to_nat (total_pages s)) =
      zcount (page_free s) (Z.to_nat (total_pages s)) - (k - start) /\
    total_pages s' = total_pages s /\ free_pages s' = free_pages s /\
    usable_bytes s' = usable_bytes s).
  enough (P (start + Z.of_nat n) (for_range n start (fun p s => bitmap_set s p) s)) as HP.
  { destruct HP as (H1 & H2 & H3 & H4 & H5). repeat split; auto. rewrite H2. lia. }
  apply for_range_ind.
  - unfold P. split; [|split; [lia|done]]. intros p.
    destruct (Z.leb_spec start p), (Z.ltb_spec p start); try lia; done.
  - intros k s' Hk (H1 & H2 & H3 & H4 & H5). unfold P. split; [|split; [|done]].
    + intros p. rewrite bitmap_test_set, H1.
      destruct (Z.eqb_spec p k), (Z.leb_spec start p), (Z.ltb_spec p k), (Z.ltb_spec p (k + 1));
        try lia; done.
    + assert (page_free s k = true) as Hfk by (apply Hfree; lia).
      assert (page_free s' k = true) as Hk'.
      { unfold page_free in *. rewrite H1. destruct (Z.ltb_spec k k); [lia|].
        by rewrite andb_false_r. }
      rewrite (zcount_flip (page_free s') _ _ k), H2; [lia|lia|done| |].
      * unfold page_free. by rewrite bitmap_test_set, Z.eqb_refl.
      * intros q Hq. unfold page_free. rewrite bitmap_test_set.
        by destruct (Z.eqb_spec q k).
Qed.

(** ** The scan finds the lowest run *)

Lemma scan_run_spec s pages n i c start :
  0 < pages -> 0 <= c < pages -> 0 <= i - c -> (0 < c -> start = i - c) ->
  free_at s (i - c) c ->
  (forall st, 0 <= st < i - c -> ~ free_at s st pages) ->
  match scan_run s pages n i c start with
  | Some st => 0 <= st /\ st + pages <= i + Z.of_nat n /\ free_at s st pages /\
               (forall st', 0 <= st' < st -> ~ free_at s st' pages)
  | None => forall st, 0 <= st -> st + pages <= i + Z.of_nat n -> ~ free_at s st pages
  end.
Proof.
  intros Hp. revert i c start. induction n as [|n IH]; intros i c start Hc Hic Hst Hrun Hlow.
  - cbn [scan_run]. intros st H0 Hle. apply Hlow. lia.
  - cbn [scan_run]. destruct (bitmap_test s i) eqn:Ht; cbn [negb].
    + specialize (IH (i + 1) 0 start ltac:(lia) ltac:(lia) ltac:(lia)).
      replace (i + 1 + Z.of_nat n) with (i + Z.of_nat (S n)) in IH by lia.
      apply IH; [intros p; lia|].
      intros st Hlt Hfr. destruct (Z.lt_ge_cases st (i - c)).
      { eapply Hlow; [|done]. lia. }
      specialize (Hfr i ltac:(lia)). unfold page_free in Hfr. by rewrite Ht in Hfr.
    + set (start' := if c =? 0 then i else start).
      assert (start' = i - c) as Hs'.
      { unfold start'. destruct (Z.eqb_spec c 0); [lia|]. apply Hst. lia. }
      assert (free_at s (i - c) (c + 1)) as Hrun'.
      { intros p Hpr. destruct (Z.eq_dec p i) as [->|]; [by unfold page_free; rewrite Ht|].
        apply Hrun. lia. }
      destruct (Z.eqb_spec (c + 1) pages) as [He|Hne].
      * rewrite Hs'. subst pages. repeat split; try lia; [done|].
        intros st' Hst'. apply Hlow. lia.
      * specialize (IH (i + 1) (c + 1) start' ltac:(lia) ltac:(lia) ltac:(lia)).
        replace (i + 1 - (c + 1)) with (i - c) in IH by lia.
        replace (i + 1 + Z.of_nat n) with (i + Z.of_nat (S n)) in IH by lia.
        apply IH; done.
Qed.

Lemma scan_run_from_zero s pages n :
  0 < pages ->
  match scan_run s pages n 0 0 0 with
  | Some st => 0 <= st /\ st + pages <= Z.of_nat n /\ free_at s st pages /\
               (forall st', 0 <= st' < st -> ~ free_at s st' pages)
  | None => forall st, 0 <= st -> st + pages <= Z.of_nat n -> ~ free_at s st pages
  end.
Proof.
  intros Hp. pose proof (scan_run_spec s pages n 0 0 0 Hp) as H.
  rewrite Z.add_0_l in H. apply H; try lia; intros ? ?; lia.
Qed.

(** What a successful allocation does. *)
Definition allocated (hhdm : Z) (limit : Z) (pages : Z) (s : pmm) (a : Z) (s' : pmm) : Prop :=
  exists start,
    a = start * PAGE_SIZE .+ hhdm /\ 0 <= start /\ start + pages <= limit /\
    free_at s start pages /\ (forall st, 0 <= st < start -> ~ free_at s st pages) /\
    (forall p, bitmap_test s' p = ((start <=? p) && (p <? start + pages)) || bitmap_test s p) /\
    free_pages s' = free_pages s - pages /\ total_pages s' = total_pages s /\
    usable_bytes s' = usable_bytes s /\ pmm_inv s'.

Lemma take_run_spec hhdm s start pages limit :
  pmm_inv s -> 0 < pages -> 0 <= start -> start + pages <= limit -> limit <= total_pages s ->
  free_at s start pages -> (forall st, 0 <= st < start -> ~ free_at s st pages) ->
  let r := take_run hhdm s start pages in
  allocated hhdm limit pages s r.1 r.2.
Proof.
  intros [Hl Hcount] Hp H0 Hlim Hlt Hfree Hlow. unfold take_run. cbn [fst snd].
  destruct (set_run_spec s start (Z.to_nat pages)) as (Ht & Hc & Htp & Hfp & Hub);
    [lia|lia|by rewrite Z2Nat.id by lia|].
  rewrite Z2Nat.id in * by lia.
  set (s1 := for_range _ _ _ _) in *.
  pose proof (zcount_range (page_free s1) (Z.to_nat (total_pages s))) as Hr.
  pose proof (zcount_range (page_free s) (Z.to_nat (total_pages s))) as Hr2.
  assert (free_pages s1 .- pages = free_pages s - pages) as Hf.
  { rewrite Hfp. apply u64_small. lia. }
  exists start. split_and!; try done.
  split; cbn [total_pages free_pages with_free_pages]; [lia|].
  rewrite Hf, Htp. change (zcount (page_free (with_free_pages s1 (free_pages s - pages)))) with (zcount (page_free s1)).
  lia.
Qed.

(** ** Allocation theorems *)

Lemma pmm_alloc_spec hhdm pages s :
  pmm_inv s -> 0 <= pages ->
  let r := pmm_alloc hhdm pages s in
  (0 < pages /\ allocated hhdm (total_pages s) pages s r.1 r.2) \/
  (r = (0, s) /\
   (pages = 0 \/ forall st, 0 <= st -> st + pages <= total_pages s -> ~ free_at s st pages)).
Proof.
  intros Hinv Hp. unfold pmm_alloc. ifs; [right; by split; [|left]|].
  pose proof (inv_total s Hinv) as Htot.
  pose proof (scan_run_from_zero s pages (Z.to_nat (total_pages s)) ltac:(lia)) as Hscan.
  rewrite Z2Nat.id in Hscan by lia.
  destruct (scan_run _ _ _ _ _ _) as [st|].
  - left. split; [lia|]. destruct Hscan as (? & ? & ? & ?).
    apply take_run_spec; try done; lia.
  - right. split; [done|]. by right.
Qed.

Lemma pmm_alloc_dma_spec hhdm pages s :
  pmm_inv s -> 0 <= pages ->
  let r := pmm_alloc_dma hhdm pages s in
  let limit := Z.min (total_pages s) (2 ^ 20) in
  (0 < pages /\ allocated hhdm limit pages s r.1 r.2) \/
  (r = (0, s) /\
   (pages = 0 \/ forall st, 0 <= st -> st + pages <= limit -> ~ free_at s st pages)).
Proof.
  intros Hinv Hp. unfold pmm_alloc_dma. ifs; [right; by split; [|left]| |].
  all: pose proof (inv_total s Hinv) as Htot; change (4 * 1024 * 1024 * 1024 / PAGE_SIZE) with (2 ^ 20) in *.
  - pose proof (scan_run_from_zero s pages (Z.to_nat (total_pages s)) ltac:(lia)) as Hscan.
    rewrite Z2Nat.id in Hscan by lia. rewrite Z.min_l by lia.
    destruct (scan_run _ _ _ _ _ _) as [st|]; [left|right; split; [done|by right]].
    split; [lia|]. destruct Hscan as (? & ? & ? & ?). apply take_run_spec; try done; lia.
  - pose proof (scan_run_from_zero s pages (Z.to_nat (2 ^ 20)) ltac:(lia)) as Hscan.
    rewrite Z2Nat.id in Hscan by lia. rewrite Z.min_r by lia.
    destruct (scan_run _ _ _ _ _ _) as [st|]; [left|right; split; [done|by right]].
    split; [lia|]. destruct Hscan as (? & ? & ? & ?). apply take_run_spec; try done; lia.
Qed.

(** ** Release *)

Definition release (s : pmm) (p : Z) : pmm := with_free_pages (bitmap_clear s p) (free_pages s .+ 1).

Lemma page_free_release s p q : page_free (release s p) q = (q =? p) || page_free s q.
Proof.
  unfold page_free, release. autorewrite with pmm.
  destruct (q =? p); [done|]. by destruct (bitmap_test s q).
Qed.

(** Releasing a page in use keeps the invariant. *)
Lemma release_inv s p :
  pmm_inv s -> 0 <= p < total_pages s -> bitmap_test s p = true ->
  pmm_inv (release s p) /\ free_pages (release s p) = free_pages s + 1.
Proof.
  intros [Ht Hc] Hp Hused.
  assert (zcount (page_free s) (Z.to_nat (total_pages s)) =
          zcount (page_free (release s p)) (Z.to_nat (total_pages s)) - 1) as Hcnt.
  { apply (zcount_flip _ _ _ p); [lia| | |].
    - by rewrite page_free_release, Z.eqb_refl.
    - unfold page_free. by rewrite Hused.
    - intros q Hq. rewrite page_free_release. by destruct (Z.eqb_spec q p). }
  pose proof (zcount_range (page_free (release s p)) (Z.to_nat (total_pages s))) as Hr.
  assert (free_pages (release s p) = free_pages s + 1) as Hf.
  { unfold release. cbn [free_pages with_free_pages]. apply u64_small. lia. }
  split; [|done]. split; [done|]. rewrite Hf. change (total_pages (release s p)) with (total_pages s). lia.
Qed.

Lemma free_run_step n p s :
  free_run (S n) p s = if bitmap_test s p then free_run n (p + 1) (release s p) else s.
Proof. cbn [free_run]. by destruct (bitmap_test s p). Qed.

Lemma free_run_inv n p s :
  pmm_inv s -> 0 <= p -> p + Z.of_nat n <= total_pages s ->
  pmm_inv (free_run n p s) /\ total_pages (free_run n p s) = total_pages s.
Proof.
  revert p s. induction n as [|n IH]; intros p s Hinv Hp Hle; [done|].
  rewrite free_run_step. destruct (bitmap_test s p) eqn:Hb; [|done].
  destruct (release_inv s p Hinv ltac:(lia) Hb) as [Hinv' _].
  destruct (IH (p + 1) (release s p) Hinv' ltac:(lia)) as [H1 H2]; [cbn; lia|].
  split; [done|]. rewrite H2. done.
Qed.

(** Releasing a run whose pages are all in use frees exactly that run. *)
Lemma free_run_used n p s :
  pmm_inv s -> 0 <= p -> p + Z.of_nat n <= total_pages s ->
  (forall q, p <= q < p + Z.of_nat n -> bitmap_test s q = true) ->
  (forall q, page_free (free_run n p s) q = ((p <=? q) && (q <? p + Z.of_nat n)) || page_free s q) /\
  free_pages (free_run n p s) = free_pages s + Z.of_nat n.
Proof.
  revert p s. induction n as [|n IH]; intros p s Hinv Hp Hle Hused.
  - cbn [free_run]. split; [|lia]. intros q.
    destruct (Z.leb_spec p q), (Z.ltb_spec q (p + Z.of_nat 0)); try lia; done.
  - rewrite free_run_step, Hused by lia.
    destruct (release_inv s p Hinv ltac:(lia) ltac:(apply Hused; lia)) as [Hinv' Hf].
    destruct (IH (p + 1) (release s p) Hinv' ltac:(lia)) as [H1 H2]; [cbn; lia| |].
    { intros q Hq. apply negb_false_iff. change (page_free (release s p) q = false).
      rewrite page_free_release. unfold page_free. rewrite Hused by lia.
      destruct (Z.eqb_spec q p); [lia|done]. }
    split; [|lia]. intros q. rewrite H1, page_free_release.
    destruct (Z.eqb_spec q p), (Z.leb_spec (p + 1) q), (Z.leb_spec p q),
      (Z.ltb_spec q (p + 1 + Z.of_nat n)), (Z.ltb_spec q (p + Z.of_nat (S n))); try lia; done.
Qed.

(** The page number [pmm_free] computes from a pointer [pmm_alloc] returned. *)
Lemma alloc_page_number hhdm start :
  0 <= start < 2 ^ 52 -> ((start * PAGE_SIZE .+ hhdm) .- hhdm) / PAGE_SIZE = start.
Proof.
  intros. rewrite u64_add_sub by (unfold PAGE_SIZE; lia). apply Z.div_mul. done.
Qed.

(** [(x + PAGE_SIZE - 1) / PAGE_SIZE], as the kernel rounds bytes to pages. *)
Lemma pages_of_bytes x :
  0 <= x < 2 ^ 63 -> (x .+ PAGE_SIZE .- 1) / PAGE_SIZE = (x + PAGE_SIZE - 1) / PAGE_SIZE.
Proof.
  intros. rewrite (u64_small (x + PAGE_SIZE)) by (unfold PAGE_SIZE; lia).
  rewrite u64_small by (unfold PAGE_SIZE; lia). done.
Qed.

(** [pmm_free] of any in-range run preserves the invariant. *)
Lemma pmm_free_inv hhdm a pages s :
  pmm_inv s -> 0 <= pages -> (a .- hhdm) / PAGE_SIZE + pages <= total_pages s ->
  pmm_inv (pmm_free hhdm a pages s).
Proof.
  intros Hinv Hp Hle. unfold pmm_free. apply free_run_inv; [done| |lia].
  pose proof (u64_range (a - hhdm)). unfold PAGE_SIZE. lia.
Qed.

(** ** Initialisation *)

(** What the boot loader guarantees of the memory map: usable regions are
    page aligned, do not wrap and do not overlap. *)
Definition usable (e : memmap_entry) : Prop := e_type e = LIMINE_MEMMAP_USABLE.

Definition entry_ok (e : memmap_entry) : Prop :=
  0 <= e_base e /\ 0 <= e_length e /\ e_base e + e_length e < 2 ^ 64 /\
  (usable e -> e_base e mod PAGE_SIZE = 0 /\ e_length e mod PAGE_SIZE = 0).

Definition in_entry (e : memmap_entry) (p : Z) : Prop :=
  e_base e / PAGE_SIZE <= p < e_base e / PAGE_SIZE + e_length e / PAGE_SIZE.

Definition entries_disjoint (e e' : memmap_entry) : Prop :=
  usable e -> usable e' -> forall p, ~ (in_entry e p /\ in_entry e' p).

Definition memmap_ok (entries : list memmap_entry) : Prop :=
  Forall entry_ok entries /\ ForallOrdPairs entries_disjoint entries.

Definition page_usable (entries : list memmap_entry) (p : Z) : Prop :=
  Exists (fun e => usable e /\ in_entry e p) entries.

(** The parts of the state the page loops leave alone. *)
Definition same_layout (s s' : pmm) : Prop :=
  total_pages s' = total_pages s /\ bitmap s' = bitmap s /\ bitmap_size s' = bitmap_size s.

Lemma same_layout_refl s : same_layout s s.
Proof. done. Qed.
Lemma same_layout_trans s1 s2 s3 : same_layout s1 s2 -> same_layout s2 s3 -> same_layout s1 s3.
Proof. intros (? & ? & ?) (? & ? & ?). split_and!; congruence. Qed.
#[local] Hint Resolve same_layout_refl : core.

Lemma free_entry_spec s e :
  entry_ok e -> usable e -> pmm_inv s ->
  (forall p, in_entry e p -> 0 <= p < total_pages s -> page_free s p = false) ->
  let s' := free_entry s e in
  pmm_inv s' /\ same_layout s s' /\
  forall p, 0 <= p < total_pages s ->
    (page_free s' p = true <-> in_entry e p \/ page_free s p = true).
Proof.
  intros (H0 & Hl & _ & _) Hu Hinv Hused. unfold free_entry. rewrite Hu, Z.eqb_refl. cbn [negb].
  set (s1 := with_usable s _). set (start := e_base e / PAGE_SIZE). set (cnt := e_length e / PAGE_SIZE).
  assert (0 <= cnt) by (unfold cnt, PAGE_SIZE; lia).
  assert (0 <= start) by (unfold start, PAGE_SIZE; lia).
  pose (P := fun k (s' : pmm) => pmm_inv s' /\ same_layout s s' /\
    forall p, 0 <= p < total_pages s -> page_free s' p = ((start <=? p) && (p <? k)) || page_free s p).
  assert (P (start + Z.of_nat (Z.to_nat cnt)) (for_range (Z.to_nat cnt) start free_page_body s1)) as HP.
  { apply for_range_ind.
    - split; [by destruct Hinv; split|]. split; [done|]. intros p Hp.
      destruct (Z.leb_spec start p), (Z.ltb_spec p start); try lia; done.
    - intros k s' Hk (Hi & Hlay & Hf). unfold free_page_body.
      destruct (Z.ltb_spec k (total_pages s')) as [Hkt|Hkt].
      + destruct Hlay as (Hlt & Hlb & Hls).
        assert (page_free s' k = false) as Hk'.
        { rewrite Hf by lia. rewrite Hused; [|unfold in_entry; fold start cnt; lia|lia].
          destruct (Z.ltb_spec k k); [lia|]. by rewrite andb_false_r. }
        destruct (release_inv s' k Hi ltac:(lia) ltac:(by apply negb_false_iff)) as [Hi' _].
        split; [done|]. split; [done|]. intros p Hp.
        change (page_free (with_free_pages (bitmap_clear s' k) (free_pages s' .+ 1)) p)
          with (page_free (release s' k) p).
        rewrite page_free_release, Hf by lia.
        destruct (Z.eqb_spec p k), (Z.leb_spec start p), (Z.ltb_spec p k), (Z.ltb_spec p (k + 1));
          try lia; done.
      + split; [done|]. split; [done|]. intros p Hp. rewrite Hf by lia. destruct Hlay as (Hlt & _).
        destruct (Z.leb_spec start p), (Z.ltb_spec p k), (Z.ltb_spec p (k + 1)); try lia; done. }
  destruct HP as (Hi & Hlay & Hf). split; [done|]. split; [done|].
  intros p Hp. rewrite Hf by lia. rewrite orb_true_iff, andb_true_iff, Z.leb_le, Z.ltb_lt.
  unfold in_entry. fold start cnt. rewrite Z2Nat.id by lia. tauto.
Qed.

Lemma free_entries_spec entries s :
  memmap_ok entries -> pmm_inv s ->
  (forall e p, In e entries -> usable e -> in_entry e p -> 0 <= p < total_pages s ->
     page_free s p = false) ->
  let s' := foldl free_entry s entries in
  pmm_inv s' /\ same_layout s s' /\
  forall p, 0 <= p < total_pages s ->
    (page_free s' p = true <-> page_usable entries p \/ page_free s p = true).
Proof.
  revert s. induction entries as [|e rest IH]; intros s [Hok Hdis] Hinv Hused.
  - cbn. split_and!; [done|done|]. intros p Hp. unfold page_usable. rewrite Exists_nil. tauto.
  - inversion Hok as [|? ? He Hrest]; subst. inversion Hdis as [|? ? Hde Hdrest]; subst. cbn [foldl].
    assert (usable e \/ ~ usable e) as [Hu|Hnu] by (unfold usable; lia).
    + destruct (free_entry_spec s e He Hu Hinv) as (Hi & Hlay & Hf).
      { intros p. apply Hused; [by left|done]. }
      destruct Hlay as (Hlt & Hlb & Hls).
      destruct (IH (free_entry s e)) as (Hi' & Hlay' & Hf'); [done|done| |].
      * intros e' p Hin Hu' Hp Hpt. apply not_true_is_false. rewrite Hf by lia.
        intros [Hein|Hfr].
        -- rewrite List.Forall_forall in Hde. by apply (Hde e' Hin Hu Hu' p).
        -- rewrite (Hused e' p) in Hfr; [done|by right|done|done|lia].
      * split; [done|]. split; [by eapply same_layout_trans; [|done]|].
        intros p Hp. rewrite Hf' by lia. rewrite Hf by done. unfold page_usable.
        rewrite Exists_cons. tauto.
    + assert (free_entry s e = s) as ->.
      { unfold free_entry. by rewrite (proj2 (Z.eqb_neq _ _) Hnu). }
      destruct (IH s) as (Hi' & Hlay' & Hf'); [done|done| |].
      { intros e' p Hin. apply Hused. by right. }
      split; [done|]. split; [done|]. intros p Hp. rewrite Hf' by done.
      unfold page_usable. rewrite Exists_cons. tauto.
Qed.

Lemma reserve_spec s bm_page n :
  pmm_inv s -> 0 <= bm_page -> bm_page + Z.of_nat n <= total_pages s ->
  let s' := for_range n 0 (reserve_page_body bm_page) s in
  pmm_inv s' /\ same_layout s s' /\
  forall p, page_free s' p = page_free s p && negb ((bm_page <=? p) && (p <? bm_page + Z.of_nat n)).
Proof.
  intros Hinv H0 Hle.
  pose (P := fun k (s' : pmm) => pmm_inv s' /\ same_layout s s' /\
    forall p, page_free s' p = page_free s p && negb ((bm_page <=? p) && (p <? bm_page + k))).
  enough (P (0 + Z.of_nat n) (for_range n 0 (reserve_page_body bm_page) s)) as HP by exact HP.
  apply for_range_ind.
  - split; [done|]. split; [done|]. intros p.
    destruct (Z.leb_spec bm_page p), (Z.ltb_spec p (bm_page + 0)); try lia; by rewrite andb_true_r.
  - intros k s' Hk (Hi & Hlay & Hf). unfold reserve_page_body.
    destruct Hlay as (Hlt & Hlb & Hls). fold (page_free s' (bm_page + k)).
    destruct (page_free s' (bm_page + k)) eqn:Hfk.
    + destruct (set_run_spec s' (bm_page + k) 1) as (Ht & Hc & Htp & Hfp & _); [lia|lia| |].
      { intros p Hp. replace p with (bm_page + k) by lia. done. }
      cbn [for_range] in *. pose proof (inv_total s' Hi). pose proof (inv_count s' Hi) as Hcnt.
      pose proof (zcount_range (page_free (bitmap_set s' (bm_page + k))) (Z.to_nat (total_pages s'))).
      split; [split|split; [done|]].
      * cbn. lia.
      * cbn [free_pages total_pages with_free_pages].
        change (zcount (page_free (bitmap_set s' (bm_page + k))) (Z.to_nat (total_pages s')) =
                zcount (page_free s') (Z.to_nat (total_pages s')) - Z.of_nat 1) in Hc.
        change (free_pages s' .- 1 = zcount (page_free (bitmap_set s' (bm_page + k))) (Z.to_nat (total_pages s'))).
        pose proof (zcount_range (page_free s') (Z.to_nat (total_pages s'))).
        rewrite u64_small by lia. lia.
      * intros p. unfold page_free. rewrite bitmap_test_with_free, Ht.
        specialize (Hf p). unfold page_free in Hf.
        destruct (Z.leb_spec bm_page p), (Z.ltb_spec p (bm_page + k)), (Z.ltb_spec p (bm_page + (k + 1))),
          (Z.leb_spec (bm_page + k) p), (Z.ltb_spec p (bm_page + k + Z.of_nat 1)); try lia;
          cbn in *; rewrite ?Hf; by rewrite ?andb_false_r, ?andb_true_r.
    + split; [done|]. split; [done|]. intros p. rewrite Hf.
      destruct (Z.eq_dec p (bm_page + k)) as [->|].
      * rewrite Hf in Hfk. apply andb_false_iff in Hfk as [Hfk|Hfk].
        -- by rewrite Hfk.
        -- destruct (Z.leb_spec bm_page (bm_page + k)), (Z.ltb_spec (bm_page + k) (bm_page + k)); try lia; done.
      * destruct (Z.leb_spec bm_page p), (Z.ltb_spec p (bm_page + k)), (Z.ltb_spec p (bm_page + (k + 1)));
          try lia; done.
Qed.

Lemma top_step_spec top e :
  0 <= top < 2 ^ 64 -> entry_ok e ->
  top <= top_step top e < 2 ^ 64 /\ e_base e + e_length e <= top_step top e.
Proof. intros Ht (? & ? & ? & _). unfold top_step. rewrite u64_small by lia. ifs; lia. Qed.

Lemma foldl_top_spec entries top0 :
  Forall entry_ok entries -> 0 <= top0 < 2 ^ 64 ->
  top0 <= foldl top_step top0 entries < 2 ^ 64 /\
  forall e, In e entries -> e_base e + e_length e <= foldl top_step top0 entries.
Proof.
  intros Hok. revert top0. induction entries as [|e rest IH]; intros top0 Ht.
  { split; [cbn [foldl]; lia|]. by intros ? []. }
  inversion Hok as [|? ? He Hrest]; subst. cbn [foldl].
  destruct (top_step_spec top0 e Ht He). destruct (IH Hrest (top_step top0 e)) as [H3 H4]; [lia|].
  split; [lia|]. intros e' [<-|Hin]; [lia|auto].
Qed.

Lemma memmap_top_spec entries :
  Forall entry_ok entries ->
  0 <= memmap_top entries < 2 ^ 64 /\
  forall e, In e entries -> e_base e + e_length e <= memmap_top entries.
Proof. intros. by apply foldl_top_spec. Qed.

Lemma find_bitmap_region_in entries size e :
  find_bitmap_region entries size = Some e ->
  In e entries /\ usable e /\ size <= e_length e.
Proof.
  induction entries as [|e0 rest IH]; cbn [find_bitmap_region]; [done|].
  ifs; intros Heq.
  - injection Heq as <-. split; [by left|done].
  - destruct (IH Heq). split; [by right|done].
Qed.

Lemma bitmap_fill_test s b size p :
  bm s = bitmap_fill b size -> 0 <= p < 8 * size -> bitmap_test s p = true.
Proof.
  intros Hb Hp. rewrite bitmap_test_bit, Hb. unfold bitmap_fill.
  destruct (Z.leb_spec 0 (p / 8)), (Z.ltb_spec (p / 8) size); try lia. cbn.
  assert (p mod 8 = 0 \/ p mod 8 = 1 \/ p mod 8 = 2 \/ p mod 8 = 3 \/ p mod 8 = 4 \/
          p mod 8 = 5 \/ p mod 8 = 6 \/ p mod 8 = 7) as Hcase by lia.
  by destruct Hcase as [->|[->|[->|[->|[->|[->|[->| ->]]]]]]].
Qed.

(** The region found for the bitmap, and the pages it occupies. *)
Definition bitmap_pages (entries : list memmap_entry) (e : memmap_entry) (p : Z) : Prop :=
  let size := (memmap_top entries / PAGE_SIZE + 7) / 8 in
  e_base e / PAGE_SIZE <= p < e_base e / PAGE_SIZE + (size + PAGE_SIZE - 1) / PAGE_SIZE.

(** The pages of the bitmap lie inside the region chosen for it. *)
Lemma bitmap_fits e size top :
  entry_ok e -> usable e -> 0 <= size -> size <= e_length e -> e_base e + e_length e <= top ->
  0 <= (size + PAGE_SIZE - 1) / PAGE_SIZE /\ 0 <= e_base e / PAGE_SIZE /\
  e_base e / PAGE_SIZE + (size + PAGE_SIZE - 1) / PAGE_SIZE <= top / PAGE_SIZE.
Proof.
  intros (Hb & Hl & _ & Hal) Hu Hs Hle Htop. destruct (Hal Hu) as [Hab Hall].
  clear Hal Hu. unfold PAGE_SIZE in *. lia.
Qed.

(** The state just before the usable regions are released. *)
Definition all_used (hhdm : Z) (e : memmap_entry) (b : Z -> Z) (size total : Z) : pmm :=
  mkPmm (e_base e .+ hhdm) (bitmap_fill b size) 0 size total 0 total.

Lemma all_used_spec hhdm e b total :
  0 <= total < 2 ^ 52 ->
  let s := all_used hhdm e b ((total + 7) / 8) total in
  pmm_inv s /\ forall p, 0 <= p < total -> page_free s p = false.
Proof.
  intros Ht s.
  assert (forall p, 0 <= p < total -> page_free s p = false) as Hused.
  { intros p Hp. apply negb_false_iff. eapply bitmap_fill_test; [done|lia]. }
  split; [|done]. split; [cbn; lia|]. symmetry. apply zcount_none.
  intros k Hk. apply Hused. cbn in Hk. lia.
Qed.

Lemma pmm_init_unfold hhdm entries e garbage :
  0 <= memmap_top entries / PAGE_SIZE < 2 ^ 52 ->
  find_bitmap_region entries ((memmap_top entries / PAGE_SIZE + 7) / 8) = Some e ->
  e_base e .+ hhdm <> 0 ->
  let total := memmap_top entries / PAGE_SIZE in
  let s1 := foldl free_entry (all_used hhdm e garbage ((total + 7) / 8) total) entries in
  let bm_page := (bitmap s1 .- hhdm) / PAGE_SIZE in
  let s2 := for_range (Z.to_nat ((bitmap_size s1 .+ PAGE_SIZE .- 1) / PAGE_SIZE)) 0
              (reserve_page_body bm_page) s1 in
  pmm_init hhdm (Some entries) (pmm_boot garbage) =
    mkPmm (bitmap s2) (bm s2) (usable_bytes s2) (bitmap_size s2) (total_pages s2) (free_pages s2) bm_page.
Proof.
  intros Ht Hfind Hnn. unfold pmm_init.
  rewrite (u64_small (memmap_top entries / PAGE_SIZE + 7)) by lia.
  rewrite Hfind. cbn [bitmap]. rewrite (proj2 (Z.eqb_neq _ _) Hnn). reflexivity.
Qed.

(** C37: after [pmm_init] on a boot-loader map with room for the bitmap, a
    page below the top of memory is free exactly when it lies in a usable
    region and is not one of the pages the bitmap occupies, and the free-page
    counter equals the number of clear bits. *)
Theorem pmm_init_correct hhdm entries e garbage :
  memmap_ok entries ->
  find_bitmap_region entries ((memmap_top entries / PAGE_SIZE + 7) / 8) = Some e ->
  e_base e .+ hhdm <> 0 ->
  let s := pmm_init hhdm (Some entries) (pmm_boot garbage) in
  pmm_inv s /\ total_pages s = memmap_top entries / PAGE_SIZE /\
  forall p, 0 <= p < total_pages s ->
    (page_free s p = true <-> page_usable entries p /\ ~ bitmap_pages entries e p).
Proof.
  intros Hok Hfind Hnn. destruct (memmap_top_spec entries (proj1 Hok)) as [Htop Hmax].
  destruct (find_bitmap_region_in _ _ _ Hfind) as (Hin & Hu & Hlen).
  pose proof (proj1 (List.Forall_forall _ _) (proj1 Hok) e Hin) as He.
  assert (0 <= e_base e < 2 ^ 64) as Hbase by (destruct He as (? & ? & ? & _); lia).
  assert (0 <= memmap_top entries / PAGE_SIZE < 2 ^ 52) as Ht by (unfold PAGE_SIZE; lia).
  rewrite (pmm_init_unfold _ _ e) by done. unfold bitmap_pages. revert Hlen.
  set (total := memmap_top entries / PAGE_SIZE) in *. set (size := (total + 7) / 8). intros Hlen.
  assert (0 <= size < 2 ^ 52) as Hsize by (unfold size; lia).
  destruct (bitmap_fits e size _ He Hu ltac:(lia) Hlen (Hmax e Hin)) as (Hc & Hpg & Hfit).
  destruct (all_used_spec hhdm e garbage total Ht) as [Hinv0 Hused]. fold size in Hinv0, Hused.
  set (s0 := all_used hhdm e garbage size total) in *.
  destruct (free_entries_spec entries s0 Hok Hinv0) as (Hi & (Hlt & Hlb & Hls) & Hf).
  { intros e' p _ _ _ Hp. by apply Hused. }
  cbn [total_pages bitmap bitmap_size s0 all_used] in Hlt, Hlb, Hls, Hf.
  set (s1 := foldl free_entry s0 entries) in *.
  cbv zeta. rewrite Hlb, Hls, u64_add_sub, pages_of_bytes by lia.
  destruct (reserve_spec s1 (e_base e / PAGE_SIZE) (Z.to_nat ((size + PAGE_SIZE - 1) / PAGE_SIZE)))
    as (Hi2 & (Hlt2 & _) & Hf2); [done|done|by rewrite Hlt, Z2Nat.id|].
  rewrite Z2Nat.id in Hf2 by done.
  split; [by destruct Hi2; split|]. cbn [total_pages]. rewrite Hlt2, Hlt. split; [done|].
  intros p Hp. specialize (Hf2 p). specialize (Hf p Hp). rewrite (Hused p Hp) in Hf.
  match goal with |- page_free ?s p = true <-> _ =>
    change (page_free s p) with (page_free (for_range
      (Z.to_nat ((size + PAGE_SIZE - 1) / PAGE_SIZE)) 0 (reserve_page_body (e_base e / PAGE_SIZE)) s1) p) end.
  rewrite Hf2, andb_true_iff, Hf, negb_true_iff, andb_false_iff, Z.leb_gt, Z.ltb_ge.
  clear -p. split.
  - intros [[?|?] ?]; [split; [done|lia]|done].
  - intros [? ?]. split; [by left|lia].
Qed.

Definition example_map : list memmap_entry :=
  [mkEntry 0 8192 1; mkEntry 8192 16384 0; mkEntry 24576 4096 2; mkEntry 28672 12288 0].

Lemma example_map_ok : memmap_ok example_map.
Proof.
  split; unfold example_map.
  - repeat (apply List.Forall_cons; [unfold entry_ok, usable, PAGE_SIZE, LIMINE_MEMMAP_USABLE; cbn; lia|]).
    apply List.Forall_nil.
  - repeat (apply FOP_cons; [repeat (apply List.Forall_cons;
      [unfold entries_disjoint, usable, in_entry, PAGE_SIZE, LIMINE_MEMMAP_USABLE; cbn; lia|]);
      apply List.Forall_nil|]).
    apply FOP_nil.
Qed.

Lemma pmm_init_correct_witness :
  let s := pmm_init 0xffff800000000000 (Some example_map) (pmm_boot (fun _ => 0)) in
  page_free s 3 = true <->
    page_usable example_map 3 /\ ~ bitmap_pages example_map (mkEntry 8192 16384 0) 3.
Proof.
  apply (pmm_init_correct 0xffff800000000000 example_map (mkEntry 8192 16384 0) (fun _ => 0)).
  - exact example_map_ok.
  - reflexivity.
  - vm_compute. discriminate.
  - vm_compute. split; [discriminate|reflexivity].
Defined.

(** ** The claims *)

(** C4: [pmm_alloc] is first fit and complete: on success it returns the
    HHDM address of the lowest run of [pages] free pages, marks exactly those
    pages used and lowers the counter by [pages]; it returns NULL, changing
    nothing, only when [pages] is 0 or no such run exists. *)
Theorem pmm_alloc_first_fit hhdm pages s :
  pmm_inv s -> 0 <= pages ->
  let r := pmm_alloc hhdm pages s in
  (0 < pages /\ allocated hhdm (total_pages s) pages s r.1 r.2) \/
  (r = (0, s) /\
   (pages = 0 \/ forall st, 0 <= st -> st + pages <= total_pages s -> ~ free_at s st pages)).
Proof. apply pmm_alloc_spec. Qed.

Definition example_pmm : pmm :=
  pmm_init 0xffff800000000000 (Some example_map) (pmm_boot (fun _ => 0)).

Lemma example_pmm_inv : pmm_inv example_pmm.
Proof. split; vm_compute; [split; discriminate|reflexivity]. Qed.

Lemma pmm_alloc_first_fit_witness :
  exists s', pmm_alloc 0xffff800000000000 3 example_pmm = (3 * 4096 + 0xffff800000000000, s') /\
             free_pages s' = free_pages example_pmm - 3.
Proof.
  destruct (pmm_alloc_first_fit 0xffff800000000000 3 example_pmm example_pmm_inv ltac:(lia))
    as [[_ Hal]|[Heq _]].
  - eexists. split; [vm_compute; reflexivity|]. vm_compute. reflexivity.
  - exfalso. apply (f_equal fst) in Heq. vm_compute in Heq. discriminate.
Defined.

(** Freeing an allocation, wherever it came from, undoes it. *)
Lemma allocated_freed hhdm limit pages s a s' :
  pmm_inv s -> 0 < pages -> limit <= total_pages s -> allocated hhdm limit pages s a s' ->
  let s'' := pmm_free hhdm a pages s' in
  pmm_inv s'' /\ (forall p, page_free s'' p = page_free s p) /\ free_pages s'' = free_pages s /\ total_pages s'' = total_pages s.
Proof.
  intros Hinv Hp Hl (start & Ha & H0 & Hlim & Hfree & _ & Ht & Hfp & Htp & _ & Hi). pose proof (inv_total s Hinv).
  assert (pmm_free hhdm a pages s' = free_run (Z.to_nat pages) start s') as -> by (unfold pmm_free; rewrite Ha, alloc_page_number by lia; done).
  destruct (free_run_used (Z.to_nat pages) start s' Hi) as [Hf1 Hf2]; [done|lia| |].
  { intros q Hq. rewrite Ht. destruct (Z.leb_spec start q), (Z.ltb_spec q (start + pages)); try lia; done. }
  destruct (free_run_inv (Z.to_nat pages) start s' Hi H0 ltac:(lia)) as [Hi'' Ht'']. cbv zeta. split_and!; [done| |rewrite Hf2, Hfp; lia|by rewrite Ht''].
  intros p. rewrite Hf1. unfold page_free. rewrite Ht, Z2Nat.id by lia.
  destruct (Z.leb_spec start p), (Z.ltb_spec p (start + pages)); cbn; try done.
  specialize (Hfree p ltac:(lia)). unfold page_free in Hfree. by rewrite Hfree.
Qed.

(** Releasing what [pmm_alloc] returned restores the allocator: every
    page is free again exactly if it was free before, and so is the counter;
    releasing it a second time is refused (nothing changes). *)
Theorem pmm_alloc_free_roundtrip hhdm pages s :
  pmm_inv s -> 0 < pages ->
  let r := pmm_alloc hhdm pages s in
  r.2 <> s ->
  let s' := pmm_free hhdm r.1 pages r.2 in
  pmm_inv s' /\ (forall p, page_free s' p = page_free s p) /\ free_pages s' = free_pages s /\
  pmm_free hhdm r.1 pages s' = s'.
Proof.
  intros Hinv Hp r Hne s'. subst s'.
  destruct (pmm_alloc_spec hhdm pages s Hinv ltac:(lia)) as [[_ Hal]|[Heq _]];
    [|exfalso; apply Hne; unfold r; by rewrite Heq].
  fold r in Hal. pose proof (allocated_freed hhdm _ pages s _ _ Hinv Hp (Z.le_refl _) Hal) as (Hi & Hsame & Hf & _). split_and!; [done..|].
  destruct Hal as (start & Ha & H0 & Hlim & Hfree & _). pose proof (inv_total s Hinv). set (s' := pmm_free hhdm r.1 pages r.2) in *.
  unfold pmm_free. rewrite Ha, alloc_page_number by lia. destruct (Z.to_nat pages) as [|n] eqn:En; [lia|]. rewrite free_run_step.
  specialize (Hsame start). rewrite (Hfree start) in Hsame by lia. unfold page_free in Hsame. apply negb_true_iff in Hsame. by rewrite Hsame.
Qed.

Lemma pmm_alloc_free_roundtrip_witness :
  free_pages (pmm_free 0xffff800000000000 (pmm_alloc 0xffff800000000000 2 example_pmm).1 2
                (pmm_alloc 0xffff800000000000 2 example_pmm).2) = free_pages example_pmm.
Proof.
  apply (pmm_alloc_free_roundtrip 0xffff800000000000 2 example_pmm example_pmm_inv ltac:(lia)).
  intros H. apply (f_equal free_pages) in H. vm_compute in H. discriminate.
Defined.

(** Every page [pmm_alloc_dma] returns has a physical address below
    4 GiB. *)
Theorem pmm_alloc_dma_below_4g hhdm pages s :
  pmm_inv s -> 0 <= pages ->
  let r := pmm_alloc_dma hhdm pages s in
  r.2 <> s ->
  exists start, r.1 = phys_to_virt hhdm (start * PAGE_SIZE) /\ 0 <= start /\
    (start + pages) * PAGE_SIZE <= 2 ^ 32 /\ free_at s start pages /\ pmm_inv r.2.
Proof.
  intros Hinv Hp r Hne. subst r.
  destruct (pmm_alloc_dma_spec hhdm pages s Hinv Hp) as [[_ Hal]|[Heq _]];
    [|exfalso; apply Hne; by rewrite Heq].
  destruct Hal as (start & Ha & H0 & Hlim & Hfree & _ & _ & _ & _ & _ & Hi).
  exists start. split_and!; try done. unfold PAGE_SIZE. lia.
Qed.

Lemma pmm_alloc_dma_below_4g_witness :
  exists start, (pmm_alloc_dma 0xffff800000000000 1 example_pmm).1 =
      phys_to_virt 0xffff800000000000 (start * PAGE_SIZE) /\ (start + 1) * PAGE_SIZE <= 2 ^ 32.
Proof.
  destruct (pmm_alloc_dma_below_4g 0xffff800000000000 1 example_pmm example_pmm_inv ltac:(lia))
    as (start & H1 & _ & H2 & _).
  { intros H. apply (f_equal free_pages) in H. vm_compute in H. discriminate. }
  exists start. split; [exact H1|exact H2].
Defined.

(** ** The interface to the clients *)

Section FrameInstance.
Context (hhdm : Z).

(** The direct map is page aligned and covers the managed frames. *)
Definition hhdm_ok (s : pmm) : Prop :=
  0 < hhdm /\ hhdm mod PAGE = 0 /\ hhdm + total_pages s * PAGE <= 2 ^ 64.

Definition managed (s : pmm) (q : Z) : bool :=
  let p := (q - hhdm) / PAGE in (0 <=? p) && (p <? total_pages s).

#[global] Instance pmm_frame_alloc : FrameAlloc pmm := {
  fa_alloc := pmm_alloc hhdm;
  fa_free := pmm_free hhdm;
  fa_inv := fun s => pmm_inv s /\ hhdm_ok s;
  fa_managed := managed;
  fa_avail := fun s q => managed s q && page_free s ((q - hhdm) / PAGE);
  fa_nfree := free_pages;
}.

Lemma region_pages start n q :
  in_region (start * PAGE + hhdm) (n * PAGE) q =
    (start <=? (q - hhdm) / PAGE) && ((q - hhdm) / PAGE <? start + n).
Proof.
  unfold in_region, PAGE.
  destruct (Z.leb_spec (start * 4096 + hhdm) q), (Z.leb_spec start ((q - hhdm) / 4096)); try lia;
  destruct (Z.ltb_spec q (start * 4096 + hhdm + n * 4096)), (Z.ltb_spec ((q - hhdm) / 4096) (start + n));
    try lia; done.
Qed.

#[global] Instance pmm_frame_alloc_laws : FrameAllocLaws pmm.
Proof.
  split; cbn [fa_alloc fa_free fa_inv fa_managed fa_avail fa_nfree pmm_frame_alloc].
  - intros n s [Hinv Hh] Hn.
    destruct (pmm_alloc_spec hhdm n s Hinv ltac:(lia)) as [[_ Hal]|[Heq _]];
      [|rewrite Heq; split; [by split|by left]].
    destruct Hal as (start & Ha & H0 & Hlim & Hfree & _ & Ht & Hfp & Htp & _ & Hi).
    destruct Hh as (Hpos & Hal & Htop). pose proof (inv_total s Hinv).
    set (r := pmm_alloc hhdm n s) in *.
    assert (r.1 = start * PAGE + hhdm) as Hr.
    { rewrite Ha. unfold PAGE_SIZE, PAGE in *. apply u64_small. lia. }
    split; [split; [done|split_and!; [done|done|by rewrite Htp]]|]. right. cbv zeta. rewrite Hr.
    assert (forall q, page_free r.2 q = negb ((start <=? q) && (q <? start + n)) && page_free s q) as Hpf.
    { intros q. unfold page_free. rewrite Ht. by destruct (_ && _). }
    split_and!; try done.
    + unfold PAGE in *. lia.
    + unfold PAGE in *. lia.
    + unfold PAGE in *. lia.
    + intros q Hq. apply in_region_true in Hq. rewrite region_pages in Hq. bool_hyps.
      apply andb_true_iff. split; [|apply Hfree; lia]. unfold managed.
      apply andb_true_iff. split; [apply Z.leb_le; lia|apply Z.ltb_lt; lia].
    + intros q. rewrite region_pages, Hpf. unfold managed. rewrite Htp.
      by destruct (start <=? (q - hhdm) / PAGE), ((q - hhdm) / PAGE <? start + n),
        (0 <=? (q - hhdm) / PAGE), ((q - hhdm) / PAGE <? total_pages s).
    + intros q. unfold managed. by rewrite Htp.
  - intros p n s [Hinv Hh] Hn Hp0 Hal Hpages.
    destruct Hh as (Hpos & Hhal & Htop). pose proof (inv_total s Hinv).
    destruct (Z.eq_dec n 0) as [->|Hn0].
    { unfold pmm_free. change (Z.to_nat 0) with O. cbn [free_run]. split_and!; try done; [|by rewrite Z.add_0_r].
      intros q. unfold in_region. destruct (Z.leb_spec p q), (Z.ltb_spec q (p + 0 * PAGE)); try lia; done. }
    assert (exists start, p = start * PAGE + hhdm /\ 0 <= start /\ start + n <= total_pages s) as (start & -> & H0 & Hlim).
    { destruct (Hpages p) as [Hm _]; [unfold PAGE; lia|].
      destruct (Hpages (p + (n - 1) * PAGE)) as [Hm2 _]; [unfold PAGE; lia|].
      unfold managed in *. bool_hyps. exists ((p - hhdm) / PAGE). unfold PAGE in *. lia. }
    assert (((start * PAGE + hhdm) .- hhdm) / PAGE_SIZE = start) as Hpg.
    { rewrite Z.add_simpl_r, u64_small by (unfold PAGE in *; lia). by apply Z.div_mul. }
    unfold pmm_free. rewrite Hpg.
    destruct (free_run_inv (Z.to_nat n) start s Hinv H0 ltac:(lia)) as [Hi Htp].
    destruct (free_run_used (Z.to_nat n) start s Hinv H0 ltac:(lia)) as [Hf1 Hf2].
    { intros q Hq. destruct (Hpages (q * PAGE + hhdm)) as [Hm Hav]; [unfold PAGE in *; lia|].
      apply andb_false_iff in Hav as [Hav|Hav]; [by rewrite Hm in Hav|].
      rewrite Z.add_simpl_r, Z.div_mul in Hav by done. by apply negb_false_iff. }
    split; [split; [done|unfold hhdm_ok; by rewrite Htp]|].
    split; [|split].
    + intros q. rewrite region_pages, Hf1, Z2Nat.id by lia. unfold managed. rewrite Htp.
      generalize ((q - hhdm) / PAGE). clear -H0 Hlim. intros pg.
      destruct (Z.leb_spec start pg), (Z.ltb_spec pg (start + n)); cbn; try done.
      destruct (Z.leb_spec 0 pg), (Z.ltb_spec pg (total_pages s)); try lia; done.
    + intros q. unfold managed. by rewrite Htp.
    + rewrite Hf2. lia.
  - intros s [Hinv Hh] Hnf He. destruct (pmm_alloc_spec hhdm 1 s Hinv ltac:(lia)) as [[_ Hal]|[_ [?|Hnone]]]; [|lia|].
    + destruct Hal as (start & Ha & H0 & Hlim & _). rewrite He in Ha. cbn [fst] in Ha.
      destruct Hh as (Hpos & _ & Htop). pose proof (inv_total s Hinv). unfold PAGE_SIZE, PAGE in *.
      rewrite u64_small in Ha by lia. lia.
    + rewrite (inv_count s Hinv) in Hnf. apply zcount_pos in Hnf as (p & Hp & Hf).
      apply (Hnone p); [lia|pose proof (inv_total s Hinv); lia|].
      intros q Hq. assert (q = p) as -> by lia. done.
  - intros s q H. by apply andb_true_iff in H as [? _].
  - intros s [[Ht Hc] _]. rewrite Hc. apply zcount_range.
Qed.

End FrameInstance.
