(* ===== verification/Kheap.v ===== *)
(** * Kernel heap (kernel/src/mm/kheap.c)

    A first-fit allocator over a doubly linked list of blocks, each preceded
    by a packed 29-byte header.  The headers live in kernel memory: [hdr m a]
    reads the header at address [a], the setters are the field stores of the
    source.  Walks along the list take fuel [w] (more than the number of
    blocks is enough) and the retry of [kmalloc] after an expansion takes fuel
    [e]; [None] is "out of fuel", and the theorems show how much is enough. *)
From S2P Require Import Prelude Mem FrameAlloc.

Definition HEAP_INITIAL_PAGES : Z := 16.
Definition HEAP_MAGIC : Z := 0xDEADBEEF.
Definition HEAP_MIN_SPLIT : Z := 64.

(** [sizeof(struct heap_block)]: 4 + 8 + 1 + 8 + 8, packed. *)
Definition HDR : Z := 29.

Record heap_block := mkHB {
  magic : Z;
  size : Z;
  free : bool;
  next : Z;
  prev : Z;
}.

Definition hdr (m : mem) (a : Z) : heap_block :=
  mkHB (load32 m a) (load64 m (a + 4)) (negb (load8 m (a + 12) =? 0))
       (load64 m (a + 13)) (load64 m (a + 21)).

Definition set_magic (m : mem) (a v : Z) : mem := store32 m a v.
Definition set_size (m : mem) (a v : Z) : mem := store64 m (a + 4) v.
Definition set_free (m : mem) (a : Z) (v : bool) : mem := store8 m (a + 12) (if v then 1 else 0).
Definition set_next (m : mem) (a v : Z) : mem := store64 m (a + 13) v.
Definition set_prev (m : mem) (a v : Z) : mem := store64 m (a + 21) v.

(** Write all five fields. *)
Definition write_hdr (m : mem) (a mg sz : Z) (fr : bool) (nx pv : Z) : mem :=
  set_prev (set_next (set_free (set_size (set_magic m a mg) a sz) a fr) a nx) a pv.

Section Heap.
Context {A : Type} `{FrameAlloc A}.

(** The heap's static variables, with the memory and the frames it uses. *)
Record kheap := mkHeap {
  h_mem : mem;
  h_frames : A;
  heap_start : Z;
  heap_end : Z;
}.

Definition with_mem (h : kheap) (m : mem) : kheap :=
  mkHeap m (h_frames h) (heap_start h) (heap_end h).

(** [while (last->next != NULL) last = last->next;] *)
Fixpoint find_last (w : nat) (m : mem) (last : Z) : option Z :=
  match w with
  | O => None
  | S w' => if next (hdr m last) =? 0 then Some last else find_last w' m (next (hdr m last))
  end.

Definition heap_expand (w : nat) (min_size : Z) (h : kheap) : option (bool * kheap) :=
  let pages := (min_size .+ PAGE .- 1) / PAGE in
  let pages := if pages <? 4 then 4 else pages in
  let '(new_pages, fr) := fa_alloc pages (h_frames h) in
  if new_pages =? 0 then Some (false, mkHeap (h_mem h) fr (heap_start h) (heap_end h))
  else
    let block := new_pages in
    let m := write_hdr (h_mem h) block HEAP_MAGIC (pages * PAGE .- HDR) true 0 0 in
    let hend := new_pages .+ pages * PAGE in
    if heap_start h =? 0 then Some (true, mkHeap m fr block hend)
    else
      match find_last w m (heap_start h) with
      | None => None
      | Some last =>
          let m := set_next m last block in
          let m := set_prev m block last in
          Some (true, mkHeap m fr (heap_start h) hend)
      end.

(** One iteration of the coalescing loop at [block]. *)
Definition coalesce_at (m : mem) (block : Z) : mem :=
  let b := hdr m block in
  if free b && negb (next b =? 0) && free (hdr m (next b)) then
    let m := set_size m block (size b .+ (HDR .+ size (hdr m (next b)))) in
    let m := set_next m block (next (hdr m (next b))) in
    let nx := next (hdr m block) in
    if nx =? 0 then m else set_prev m nx block
  else m.

Fixpoint heap_coalesce (w : nat) (m : mem) (block : Z) : option mem :=
  match w with
  | O => None
  | S w' =>
      if block =? 0 then Some m
      else let m := coalesce_at m block in heap_coalesce w' m (next (hdr m block))
  end.

Definition heap_init (w : nat) (h : kheap) : option kheap :=
  match heap_expand w (HEAP_INITIAL_PAGES * PAGE) h with
  | Some (_, h') => Some h'
  | None => None
  end.

(** Round up to a multiple of 16: [(size + 15) & ~(size_t)15]. *)
Definition align16 (sz : Z) : Z := Z.land (sz .+ 15) (u64 (Z.lnot 15)).

(** The first-fit search: [Some 0] when no block fits. *)
Fixpoint find_fit (w : nat) (m : mem) (block sz : Z) : option Z :=
  match w with
  | O => None
  | S w' =>
      if block =? 0 then Some 0
      else let b := hdr m block in
           if free b && (sz <=? size b) then Some block
           else find_fit w' m (next b) sz
  end.

(** Take the block found: split off the tail if it is worth it. *)
Definition take_block (m : mem) (block sz : Z) : mem :=
  let b := hdr m block in
  let m :=
    if sz .+ HDR .+ HEAP_MIN_SPLIT <? size b then
      let new_block := block + HDR + sz in
      let m := write_hdr m new_block HEAP_MAGIC (size b .- sz .- HDR) true (next b) block in
      let m := if next b =? 0 then m else set_prev m (next b) new_block in
      let m := set_next m block new_block in
      set_size m block sz
    else m in
  set_free m block false.

Fixpoint kmalloc (e w : nat) (sz : Z) (h : kheap) : option (Z * kheap) :=
  if sz =? 0 then Some (0, h)
  else
    let sz := align16 sz in
    match find_fit w (h_mem h) (heap_start h) sz with
    | None => None
    | Some block =>
        if negb (block =? 0)
        then Some (block + HDR, with_mem h (take_block (h_mem h) block sz))
        else
          match heap_expand w sz h with
          | None => None
          | Some (false, h') => Some (0, h')
          | Some (true, h') =>
              match e with
              | O => None
              | S e' => kmalloc e' w sz h'
              end
          end
    end.

Definition kcalloc (e w : nat) (count sz : Z) (h : kheap) : option (Z * kheap) :=
  let total := count .* sz in
  match kmalloc e w total h with
  | None => None
  | Some (ptr, h') =>
      Some (ptr, if ptr =? 0 then h' else with_mem h' (fill (h_mem h') ptr 0 total))
  end.

Definition kfree (w : nat) (ptr : Z) (h : kheap) : option kheap :=
  if ptr =? 0 then Some h
  else
    let block := ptr - HDR in
    if negb (magic (hdr (h_mem h) block) =? HEAP_MAGIC) then Some h
    else
      match heap_coalesce w (set_free (h_mem h) block true) (heap_start h) with
      | None => None
      | Some m => Some (with_mem h m)
      end.

Definition krealloc (e w : nat) (ptr sz : Z) (h : kheap) : option (Z * kheap) :=
  if ptr =? 0 then kmalloc e w sz h
  else if sz =? 0 then (fun h' => (0, h')) <$> kfree w ptr h
  else
    let block := ptr - HDR in
    if negb (magic (hdr (h_mem h) block) =? HEAP_MAGIC) then Some (0, h)
    else if sz <=? size (hdr (h_mem h) block) then Some (ptr, h)
    else
      match kmalloc e w sz h with
      | None => None
      | Some (new_ptr, h') =>
          if new_ptr =? 0 then Some (0, h')
          else
            let m := copy (h_mem h') new_ptr ptr (size (hdr (h_mem h') block)) in
            (fun h'' => (new_ptr, h'')) <$> kfree w ptr (with_mem h' m)
      end.

End Heap.
Arguments kheap : clear implicits.

(** * Theorems *)

(** ** Header fields *)

Ltac loads :=
  unfold set_magic, set_size, set_free, set_next, set_prev, store32, store64, load32, load64 in *;
  repeat first
    [ rewrite load_store_other by (unfold apart; lia)
    | rewrite load_store8_other by (unfold apart; lia)
    | rewrite load8_store_other by (unfold apart; lia)
    | rewrite load8_store8_other by lia
    | rewrite load_store_same
    | rewrite load8_store8_same ].

Lemma hdr_ext m1 m2 a : (forall x, a <= x < a + HDR -> m1 x = m2 x) -> hdr m1 a = hdr m2 a.
Proof.
  unfold HDR. intros He. unfold hdr, load32, load64.
  f_equal; try (apply load_ext; intros x Hx; rewrite He by lia; done).
  unfold load8. rewrite He by lia. done.
Qed.

Lemma next_range m a : 0 <= next (hdr m a) < 2 ^ 64.
Proof. unfold hdr, load64. cbn [next]. apply (load_range 8). Qed.

Lemma prev_range m a : 0 <= prev (hdr m a) < 2 ^ 64.
Proof. unfold hdr, load64. cbn [prev]. apply (load_range 8). Qed.

Lemma hdr_set_size m a v :
  hdr (set_size m a v) a = mkHB (magic (hdr m a)) (u64 v) (free (hdr m a)) (next (hdr m a)) (prev (hdr m a)).
Proof. unfold hdr; cbn [magic free next prev]. loads. done. Qed.
Lemma hdr_set_free m a v :
  hdr (set_free m a v) a = mkHB (magic (hdr m a)) (size (hdr m a)) v (next (hdr m a)) (prev (hdr m a)).
Proof. unfold hdr; cbn [magic size next prev]. loads. by destruct v. Qed.
Lemma hdr_set_next m a v :
  hdr (set_next m a v) a = mkHB (magic (hdr m a)) (size (hdr m a)) (free (hdr m a)) (u64 v) (prev (hdr m a)).
Proof. unfold hdr; cbn [magic size free prev]. loads. done. Qed.
Lemma hdr_set_prev m a v :
  hdr (set_prev m a v) a = mkHB (magic (hdr m a)) (size (hdr m a)) (free (hdr m a)) (next (hdr m a)) (u64 v).
Proof. unfold hdr; cbn [magic size free next]. loads. done. Qed.
Lemma hdr_write_hdr m a mg sz fr nx pv :
  hdr (write_hdr m a mg sz fr nx pv) a = mkHB (u32 mg) (u64 sz) fr (u64 nx) (u64 pv).
Proof. unfold write_hdr, hdr. loads. by destruct fr. Qed.

Lemma set_size_other m a v x : x < a \/ a + HDR <= x -> set_size m a v x = m x.
Proof. unfold HDR. intros. apply store_other. lia. Qed.
Lemma set_free_other m a v x : x < a \/ a + HDR <= x -> set_free m a v x = m x.
Proof. unfold HDR. intros. unfold set_free, store8. by rewrite fn_lookup_insert_ne by lia. Qed.
Lemma set_next_other m a v x : x < a \/ a + HDR <= x -> set_next m a v x = m x.
Proof. unfold HDR. intros. apply store_other. lia. Qed.
Lemma set_prev_other m a v x : x < a \/ a + HDR <= x -> set_prev m a v x = m x.
Proof. unfold HDR. intros. apply store_other. lia. Qed.
Lemma write_hdr_other m a mg sz fr nx pv x :
  x < a \/ a + HDR <= x -> write_hdr m a mg sz fr nx pv x = m x.
Proof.
  intros. unfold write_hdr. rewrite set_prev_other, set_next_other, set_free_other, set_size_other by done.
  apply store_other. unfold HDR in *. lia.
Qed.

Lemma hdr_set_size_other m a b v : apart a HDR b HDR -> hdr (set_size m b v) a = hdr m a.
Proof. intros. apply hdr_ext. intros. apply set_size_other. unfold apart in *. lia. Qed.
Lemma hdr_set_free_other m a b v : apart a HDR b HDR -> hdr (set_free m b v) a = hdr m a.
Proof. intros. apply hdr_ext. intros. apply set_free_other. unfold apart in *. lia. Qed.
Lemma hdr_set_next_other m a b v : apart a HDR b HDR -> hdr (set_next m b v) a = hdr m a.
Proof. intros. apply hdr_ext. intros. apply set_next_other. unfold apart in *. lia. Qed.
Lemma hdr_set_prev_other m a b v : apart a HDR b HDR -> hdr (set_prev m b v) a = hdr m a.
Proof. intros. apply hdr_ext. intros. apply set_prev_other. unfold apart in *. lia. Qed.
Lemma hdr_write_hdr_other m a b mg sz fr nx pv :
  apart a HDR b HDR -> hdr (write_hdr m b mg sz fr nx pv) a = hdr m a.
Proof. intros. apply hdr_ext. intros. apply write_hdr_other. unfold apart in *. lia. Qed.

Create Rewrite HintDb hdr.
#[export] Hint Rewrite hdr_set_size hdr_set_free hdr_set_next hdr_set_prev hdr_write_hdr : hdr.
#[export] Hint Rewrite hdr_set_size_other hdr_set_free_other hdr_set_next_other hdr_set_prev_other
  hdr_write_hdr_other using (unfold apart in *; unfold HDR in *; lia) : hdr.

(** ** Abstract heap: the list of blocks *)

Record blk := mkBlk { b_addr : Z; b_size : Z; b_free : bool }.

Definition b_end (b : blk) : Z := b_addr b + HDR + b_size b.

(** The header at [b] says what [b] says, with predecessor [p]. *)
Definition hdr_ok (m : mem) (p : Z) (b : blk) : Prop :=
  hdr m (b_addr b) = mkHB HEAP_MAGIC (b_size b) (b_free b) (next (hdr m (b_addr b))) p.

(** [seg m p a l p' a']: from address [a], whose predecessor is [p], the
    blocks of [l] are linked one after the other; [p'] is the last one and
    [a'] its successor. *)
Fixpoint seg (m : mem) (p a : Z) (l : list blk) (p' a' : Z) : Prop :=
  match l with
  | [] => p' = p /\ a' = a
  | b :: r => a = b_addr b /\ hdr_ok m p b /\ seg m a (next (hdr m a)) r p' a'
  end.

(** Blocks have a representable extent and do not overlap. *)
Definition blk_ok (b : blk) : Prop := PAGE <= b_addr b /\ 0 <= b_size b /\ b_end b <= 2 ^ 64.
Definition blk_apart (b b' : blk) : Prop :=
  apart (b_addr b) (HDR + b_size b) (b_addr b') (HDR + b_size b').
Definition layout_ok (l : list blk) : Prop := Forall blk_ok l /\ ForallOrdPairs blk_apart l.

Lemma seg_app m p a l1 l2 p' a' :
  seg m p a (l1 ++ l2) p' a' <-> exists q c, seg m p a l1 q c /\ seg m q c l2 p' a'.
Proof.
  revert p a. induction l1 as [|b l1 IH]; intros p a; cbn [app seg].
  - split; [intros Hs; exists p, a; done|intros (q & c & [-> ->] & Hs); done].
  - rewrite IH. split.
    + intros (-> & Hh & q & c & H1 & H2). exists q, c. done.
    + intros (q & c & (-> & Hh & H1) & H2). split_and!; [done|done|]. by exists q, c.
Qed.

(** A segment depends only on its headers. *)
Lemma seg_ext m1 m2 p a l p' a' :
  (forall b, In b l -> hdr m1 (b_addr b) = hdr m2 (b_addr b)) ->
  seg m1 p a l p' a' -> seg m2 p a l p' a'.
Proof.
  revert p a. induction l as [|b l IH]; intros p a He Hs; [done|]. cbn [seg] in *.
  destruct Hs as (-> & Hh & Hs). unfold hdr_ok in *. rewrite <- (He b) by (by left).
  split_and!; [done|done|]. apply IH; [|done]. intros b' Hb'. apply He. by right.
Qed.

Lemma seg_head m p a b r p' a' :
  seg m p a (b :: r) p' a' -> a = b_addr b /\ hdr m a = mkHB HEAP_MAGIC (b_size b) (b_free b) (next (hdr m a)) p /\
  seg m a (next (hdr m a)) r p' a'.
Proof. cbn [seg]. unfold hdr_ok. intros (-> & ? & ?). done. Qed.

Lemma hdr_of_seg m p a l p' a' b :
  seg m p a l p' a' -> In b l ->
  magic (hdr m (b_addr b)) = HEAP_MAGIC /\ size (hdr m (b_addr b)) = b_size b /\
  free (hdr m (b_addr b)) = b_free b.
Proof.
  revert p a. induction l as [|b0 l IH]; intros p a Hs Hin; [done|].
  apply seg_head in Hs as (-> & Hh & Hs). destruct Hin as [->|Hin]; [|by eapply IH].
  by rewrite Hh.
Qed.

(** ** Layout *)

Definition inside (b b' : blk) : Prop := b_addr b <= b_addr b' /\ b_end b' <= b_end b.

Lemma layout_app l1 l2 :
  layout_ok (l1 ++ l2) <->
  layout_ok l1 /\ layout_ok l2 /\ (forall x y, In x l1 -> In y l2 -> blk_apart x y).
Proof. unfold layout_ok. rewrite List.Forall_app, FOP_app. tauto. Qed.

Lemma layout_cons b l :
  layout_ok (b :: l) <-> blk_ok b /\ layout_ok l /\ (forall y, In y l -> blk_apart b y).
Proof.
  unfold layout_ok. rewrite List.Forall_cons_iff. split.
  - intros [[Hb Hl] H]. inversion H as [|? ? Ha Hr]; subst. split_and!; try done.
    by apply List.Forall_forall.
  - intros (Hb & [Hl Hr] & Ha). split; [done|]. constructor; [by apply List.Forall_forall|done].
Qed.

Lemma layout_nil : layout_ok [].
Proof. split; constructor. Qed.

Lemma blk_apart_sym b b' : blk_apart b b' -> blk_apart b' b.
Proof. unfold blk_apart, apart. lia. Qed.

Lemma blk_apart_inside b c c' : blk_apart b c -> inside c c' -> blk_ok c' -> blk_apart b c'.
Proof. unfold blk_apart, apart, inside, blk_ok, b_end, HDR. lia. Qed.

(** Replacing a block by blocks inside it keeps the layout. *)
Lemma layout_replace l1 b bs l2 :
  layout_ok (l1 ++ b :: l2) -> layout_ok bs -> Forall (inside b) bs -> layout_ok (l1 ++ bs ++ l2).
Proof.
  rewrite !layout_app, layout_cons. intros (H1 & (Hb & H2 & Hb2) & H12) Hbs Hin.
  rewrite List.Forall_forall in Hin. pose proof (proj1 (List.Forall_forall _ _) (proj1 Hbs)) as Hok.
  split_and!; try done.
  - intros x y Hx Hy. apply blk_apart_sym, (blk_apart_inside y b x); [|by apply Hin|by apply Hok].
    apply blk_apart_sym. auto.
  - intros x y Hx Hy. apply in_app_iff in Hy as [Hy|Hy].
    + apply (blk_apart_inside x b y); [apply H12; [done|by left]|by apply Hin|by apply Hok].
    + apply H12; [done|by right].
Qed.

Lemma layout_mid l1 b l2 b' :
  layout_ok (l1 ++ b :: l2) -> In b' (l1 ++ l2) -> blk_apart b' b /\ blk_ok b' /\ blk_ok b.
Proof.
  rewrite layout_app, layout_cons. intros ([Ho1 _] & (Hb & [Ho2 _] & Hb2) & H12) Hin.
  rewrite List.Forall_forall in Ho1, Ho2.
  apply in_app_iff in Hin as [Hin|Hin]; split_and!; auto.
  - apply H12; [done|by left].
  - by apply blk_apart_sym, Hb2.
Qed.

Lemma layout_snoc l b :
  layout_ok l -> blk_ok b ->
  (forall c x, In c l -> b_addr c <= x < b_end c -> b_addr b <= x < b_end b -> False) ->
  layout_ok (l ++ [b]).
Proof.
  intros Hl Hb Hd. apply layout_app. split_and!; [done| |].
  - apply layout_cons. split_and!; [done|apply layout_nil|done].
  - intros c y Hc [<-|[]]. pose proof (proj1 (List.Forall_forall _ _) (proj1 Hl) c Hc) as Oc.
    pose proof (Hd c (b_addr c) Hc). pose proof (Hd c (b_addr b) Hc).
    unfold blk_apart, apart, blk_ok, b_end, HDR in *. lia.
Qed.

(** ** Relinking the successor *)

Definition relink (m : mem) (a q : Z) : mem := if a =? 0 then m else set_prev m a q.

Lemma relink_other m a q x : x < a \/ a + HDR <= x -> relink m a q x = m x.
Proof. intros. unfold relink. ifs; [done|]. by apply set_prev_other. Qed.

Lemma hdr_relink_other m a q c : apart c HDR a HDR -> hdr (relink m a q) c = hdr m c.
Proof. intros. unfold relink. ifs; [done|]. by apply hdr_set_prev_other. Qed.

Lemma seg_relink m p a l p' q :
  seg m p a l p' 0 -> layout_ok l -> 0 <= q < 2 ^ 64 ->
  exists p'', seg (relink m a q) q a l p'' 0.
Proof.
  intros Hs Hl Hq. destruct l as [|b l].
  - destruct Hs as [-> <-]. exists q. done.
  - apply seg_head in Hs as (-> & Hh & Hs). apply layout_cons in Hl as (Hb & Hl & Hap).
    exists p'. unfold relink. destruct (Z.eqb_spec (b_addr b) 0) as [He|_].
    { unfold blk_ok, PAGE in Hb. lia. }
    cbn [seg]. split; [done|]. unfold hdr_ok. rewrite hdr_set_prev. rewrite u64_small by done.
    rewrite Hh. cbn [magic size free next]. split; [done|].
    eapply seg_ext; [|done]. intros b' Hb'. symmetry. apply hdr_set_prev_other.
    specialize (Hap b' Hb'). pose proof (proj1 (List.Forall_forall _ _) (proj1 Hl) b' Hb') as Hok.
    unfold blk_apart, blk_ok, apart in *. lia.
Qed.

(** Where a segment's head can be. *)
Lemma seg_head_addr m p a l p' : seg m p a l p' 0 -> a = 0 \/ exists b r, l = b :: r /\ a = b_addr b.
Proof. destruct l as [|b r]; cbn [seg]; [intros [_ <-]; by left|intros (-> & _); right; by exists b, r]. Qed.

(** ** Rounding *)

Lemma align16_eq sz : align16 sz = u64 (sz + 15) / 16 * 16.
Proof. apply (land_align_down _ 4); [apply u64_range|lia]. Qed.

Lemma align16_range sz : 0 <= align16 sz < 2 ^ 64.
Proof. rewrite align16_eq. pose proof (u64_range (sz + 15)). lia. Qed.

Lemma align16_idem sz : align16 (align16 sz) = align16 sz.
Proof. rewrite (align16_eq sz), align16_eq. pose proof (u64_range (sz + 15)). rewrite u64_small by lia. lia. Qed.

Lemma align16_ge sz : 0 <= sz <= 2 ^ 64 - 16 -> sz <= align16 sz.
Proof. intros. rewrite align16_eq, u64_small by lia. lia. Qed.

(** ** First fit *)

(** The first free block of at least [sz] bytes, with what is before and after it. *)
Fixpoint afit (sz : Z) (l : list blk) : option (list blk * blk * list blk) :=
  match l with
  | [] => None
  | b :: r =>
      if b_free b && (sz <=? b_size b) then Some ([], b, r)
      else match afit sz r with
           | Some (l1, c, l2) => Some (b :: l1, c, l2)
           | None => None
           end
  end.

Definition fits (sz : Z) (b : blk) : bool := b_free b && (sz <=? b_size b).

Lemma afit_some sz l l1 b l2 :
  afit sz l = Some (l1, b, l2) -> l = l1 ++ b :: l2 /\ b_free b = true /\ sz <= b_size b.
Proof.
  revert l1. induction l as [|c l IH]; intros l1 Ha; [done|]. cbn [afit] in Ha.
  destruct (b_free c && (sz <=? b_size c)) eqn:Hf.
  - bool_hyps. simplify_eq. split_and!; [done|done|lia].
  - destruct (afit sz l) as [[[k1 d] k2]|]; [|done]. simplify_eq.
    destruct (IH k1 eq_refl) as (-> & ? & ?). done.
Qed.

Lemma find_fit_spec m p a l p' sz w :
  seg m p a l p' 0 -> Forall blk_ok l -> (length l < w)%nat ->
  find_fit w m a sz = Some (match afit sz l with Some (_, b, _) => b_addr b | None => 0 end).
Proof.
  revert p a w. induction l as [|b l IH]; intros p a w Hs Hok Hw; (destruct w as [|w]; [cbn in Hw; lia|]).
  - destruct Hs as [_ <-]. done.
  - apply seg_head in Hs as (-> & Hh & Hs). apply List.Forall_cons_iff in Hok as [Hb Hok].
    cbn [find_fit afit]. destruct (Z.eqb_spec (b_addr b) 0); [unfold blk_ok, PAGE in Hb; lia|].
    rewrite Hh. cbn [free size next]. destruct (_ && _) eqn:Hf; [done|].
    rewrite (IH _ _ w Hs Hok) by (cbn in Hw; lia).
    by destruct (afit sz l) as [[[k1 d] k2]|].
Qed.

(** ** Taking a block *)

Definition asplit (sz : Z) (b : blk) : list blk :=
  if sz + HDR + HEAP_MIN_SPLIT <? b_size b
  then [mkBlk (b_addr b) sz false; mkBlk (b_addr b + HDR + sz) (b_size b - sz - HDR) true]
  else [mkBlk (b_addr b) (b_size b) false].

Lemma asplit_layout sz b :
  blk_ok b -> 0 <= sz <= b_size b -> layout_ok (asplit sz b) /\ Forall (inside b) (asplit sz b).
Proof.
  unfold blk_ok, asplit, HEAP_MIN_SPLIT, b_end. intros Hb Hsz.
  ifs; split; rewrite ?layout_cons, ?List.Forall_cons_iff; unfold blk_ok, blk_apart, apart, inside, b_end, HDR in *;
    cbn [b_addr b_size]; split_and!; try lia; try apply layout_nil; try done;
    try apply List.Forall_nil.
  intros y Hy. cbn [In] in Hy. destruct Hy as [<-|[]]. cbn [b_addr b_size]. lia.
Qed.

Lemma take_block_other m b sz x :
  blk_ok b -> b_size b = size (hdr m (b_addr b)) -> 0 <= sz <= b_size b ->
  (x < b_addr b \/ b_end b <= x) ->
  (next (hdr m (b_addr b)) = 0 \/ x < next (hdr m (b_addr b)) \/ next (hdr m (b_addr b)) + HDR <= x) ->
  take_block m (b_addr b) sz x = m x.
Proof.
  intros Hb Hs Hsz Hx Hn. unfold take_block. rewrite <- Hs.
  assert (b_addr b + HDR <= b_end b) by (unfold blk_ok, b_end in *; lia).
  rewrite set_free_other by lia. destruct (_ <? _) eqn:E; [|done]. apply Z.ltb_lt in E.
  assert (b_addr b + HDR + sz + HDR <= b_end b).
  { unfold blk_ok, b_end, HDR, HEAP_MIN_SPLIT, PAGE in *. word_lia. }
  rewrite set_size_other, set_next_other by lia.
  fold (relink (write_hdr m (b_addr b + HDR + sz) HEAP_MAGIC (b_size b .- sz .- HDR) true
        (next (hdr m (b_addr b))) (b_addr b)) (next (hdr m (b_addr b))) (b_addr b + HDR + sz)).
  rewrite <- (write_hdr_other m (b_addr b + HDR + sz) HEAP_MAGIC (b_size b .- sz .- HDR) true
        (next (hdr m (b_addr b))) (b_addr b)) by (unfold HDR in *; lia).
  destruct Hn as [Hn|Hn]; [by rewrite Hn|]. apply relink_other. lia.
Qed.

(** What taking [b] does to the rest of the chain after it. *)
Lemma take_block_tail m b l2 q p' sz :
  seg m q (b_addr b) (b :: l2) p' 0 -> layout_ok (b :: l2) -> 0 <= q < 2 ^ 64 -> 0 <= sz <= b_size b ->
  exists p'', seg (take_block m (b_addr b) sz) q (b_addr b) (asplit sz b ++ l2) p'' 0.
Proof.
  intros Hs Hl Hq Hsz. apply seg_head in Hs as (_ & Hh & H2).
  apply layout_cons in Hl as (Hb & L2 & Lb). set (nx := next (hdr m (b_addr b))) in *.
  assert (Hne : forall c, In c l2 -> apart (b_addr c) HDR (b_addr b) (HDR + b_size b)).
  { intros c Hc. specialize (Lb c Hc). pose proof (proj1 (List.Forall_forall _ _) (proj1 L2) c Hc).
    unfold blk_apart, apart, blk_ok in *. lia. }
  assert (Hnx : nx = 0 \/ apart nx HDR (b_addr b) (HDR + b_size b)).
  { apply seg_head_addr in H2 as [H2|(d & r & -> & H2)]; [by left|right]. rewrite H2. apply Hne. by left. }
  assert (Hw : u64 (u64 (sz + HDR) + HEAP_MIN_SPLIT) = sz + HDR + HEAP_MIN_SPLIT).
  { unfold blk_ok, b_end, PAGE, HEAP_MIN_SPLIT, HDR in *. word_lia. }
  unfold take_block, asplit. rewrite Hh. cbn [size next]. rewrite Hw.
  unfold blk_ok, b_end, HEAP_MIN_SPLIT, PAGE in *.
  destruct (_ <? _) eqn:E; [apply Z.ltb_lt in E|].
  - set (nb := b_addr b + HDR + sz). set (m1 := write_hdr m nb _ _ _ _ _).
    fold (relink m1 nx nb).
    assert (H2' : seg m1 (b_addr b) nx l2 p' 0).
    { eapply seg_ext; [|exact H2]. intros c Hc. specialize (Hne c Hc). symmetry.
      apply hdr_write_hdr_other. unfold apart, nb, HDR in *. lia. }
    assert (Hnb : 0 <= nb < 2 ^ 64) by (unfold nb, HDR in *; lia).
    destruct (seg_relink _ _ _ _ _ nb H2' L2 Hnb) as [p'' H2''].
    exists p''. cbn [app seg b_addr]. unfold hdr_ok. cbn [b_addr b_size b_free].
    assert (Hrl : forall c, apart c HDR nx HDR \/ nx = 0 -> hdr (relink m1 nx nb) c = hdr m1 c).
    { intros c [Hc|Hc]; [by apply hdr_relink_other|]. unfold relink. by rewrite Hc. }
    assert (Hbr : hdr (relink m1 nx nb) (b_addr b) = hdr m (b_addr b)).
    { rewrite Hrl by (unfold apart, HDR in *; lia). apply hdr_write_hdr_other. unfold apart, nb, HDR in *; lia. }
    assert (Hnr : hdr (relink m1 nx nb) nb = mkHB HEAP_MAGIC (b_size b - sz - HDR) true nx (b_addr b)).
    { rewrite Hrl by (unfold apart, nb, HDR in *; lia). unfold m1. rewrite hdr_write_hdr.
      pose proof (next_range m (b_addr b)) as Hr. fold nx in Hr. clearbody nx.
      rewrite (u64_small nx), (u64_small (b_addr b)) by (unfold HDR in *; lia).
      f_equal. unfold HDR in *. word_lia. }
    assert (Hnbe : nb = b_addr b + HDR + sz) by done. clearbody m1 nb.
    autorewrite with hdr. rewrite Hbr, Hnr, Hh. cbn [magic size free next prev].
    rewrite !u64_small by (unfold HDR in *; lia). autorewrite with hdr. rewrite ?Hnr. cbn [magic size free next prev].
    split_and!; try done.
    eapply seg_ext; [|exact H2'']. intros c Hc. specialize (Hne c Hc).
    autorewrite with hdr. done.
  - exists p'. cbn [app seg b_addr]. unfold hdr_ok. cbn [b_addr b_size b_free].
    autorewrite with hdr. rewrite Hh. cbn [magic size free next prev]. split_and!; try done.
    eapply seg_ext; [|exact H2]. intros c Hc. specialize (Hne c Hc). autorewrite with hdr. done.
Qed.

Lemma hdr_other m1 m2 l1 b l2 c :
  layout_ok (l1 ++ b :: l2) -> In c l1 ->
  (forall x, (forall d, In d (b :: l2) -> x < b_addr d \/ b_end d <= x) -> m1 x = m2 x) ->
  hdr m1 (b_addr c) = hdr m2 (b_addr c).
Proof.
  rewrite layout_app. intros ([O1 _] & _ & L12) Hc Hm. apply hdr_ext. intros x Hx. apply Hm.
  intros d Hd. specialize (L12 c d Hc Hd). rewrite List.Forall_forall in O1. specialize (O1 c Hc).
  unfold blk_apart, apart, blk_ok, b_end in *. lia.
Qed.

Lemma take_block_seg m a l1 b l2 p' sz :
  seg m 0 a (l1 ++ b :: l2) p' 0 -> layout_ok (l1 ++ b :: l2) -> 0 <= sz <= b_size b ->
  exists p'', seg (take_block m (b_addr b) sz) 0 a (l1 ++ asplit sz b ++ l2) p'' 0.
Proof.
  intros Hs Hl Hsz. pose proof Hs as Hs0. apply seg_app in Hs as (q & c & H1 & Hs). pose proof Hs as Hs'.
  apply seg_head in Hs' as (-> & Hh & H2). pose proof Hl as Hl'. apply layout_app in Hl' as (L1 & L2 & _).
  assert (Hq : 0 <= q < 2 ^ 64).
  { apply (f_equal prev) in Hh. cbn [prev] in Hh. rewrite <- Hh. apply prev_range. }
  destruct (take_block_tail _ _ _ _ _ _ Hs L2 Hq Hsz) as [p'' Ht]. exists p''.
  apply seg_app. exists q, (b_addr b). split; [|done]. eapply seg_ext; [|exact H1].
  intros d Hd. symmetry. eapply hdr_other; [exact Hl|exact Hd|]. intros x Hx.
  apply layout_cons in L2 as (Hb & L2 & _). apply take_block_other; try done.
  - rewrite Hh. done.
  - apply Hx. by left.
  - apply seg_head_addr in H2 as [H2|(e & r & -> & H2)]; [by left|right]. rewrite H2.
    pose proof (proj1 (List.Forall_forall _ _) (proj1 L2) e (or_introl eq_refl)) as He.
    specialize (Hx e (or_intror (or_introl eq_refl))). unfold blk_ok, b_end in *. lia.
Qed.

(** ** Growing the heap *)

Lemma find_last_spec m p a l p' w :
  seg m p a l p' 0 -> Forall blk_ok l -> l <> [] -> (length l <= w)%nat -> find_last w m a = Some p'.
Proof.
  revert p a w. induction l as [|b l IH]; intros p a w Hs Hok Hne Hw; [done|].
  destruct w as [|w]; [cbn in Hw; lia|]. apply seg_head in Hs as (-> & Hh & Hs).
  apply List.Forall_cons_iff in Hok as [Hb Hok]. cbn [find_last].
  destruct l as [|c l].
  - destruct Hs as [-> <-]. done.
  - assert (next (hdr m (b_addr b)) = b_addr c) as Hc by (by apply seg_head in Hs as [? _]).
    assert (b_addr c <> 0) by (apply List.Forall_cons_iff in Hok as [Hc' _]; unfold blk_ok, PAGE in Hc'; lia).
    rewrite Hc in *. ifs; [lia|]. eapply IH; [exact Hs|done|done|cbn in *; lia].
Qed.

Lemma seg_append m a l p' b :
  seg m 0 a l p' 0 -> l <> [] -> layout_ok (l ++ [b]) ->
  hdr m (b_addr b) = mkHB HEAP_MAGIC (b_size b) (b_free b) 0 (prev (hdr m (b_addr b))) ->
  seg (set_prev (set_next m p' (b_addr b)) (b_addr b) p') 0 a (l ++ [b]) (b_addr b) 0 /\
  In p' (b_addr <$> l).
Proof.
  intros Hs Hne Hl Hh. destruct (exists_last Hne) as (l0 & c & ->).
  apply seg_app in Hs as (q & d & H1 & Hs). apply seg_head in Hs as (-> & Hc & [-> Hn]).
  rewrite <- app_assoc in *. cbn [app] in *.
  apply layout_app in Hl as ([O1 _] & L2 & L12). rewrite List.Forall_forall in O1.
  apply layout_cons in L2 as (Oc & L2 & Lc). apply layout_cons in L2 as (Ob & _ & _).
  specialize (Lc b (or_introl eq_refl)).
  assert (Hcb : apart (b_addr c) HDR (b_addr b) HDR) by (unfold blk_apart, apart, blk_ok in *; lia).
  split; [|rewrite fmap_app, in_app_iff; right; cbn; by left].
  apply seg_app. exists q, (b_addr c). split.
  - eapply seg_ext; [|exact H1]. intros e He. symmetry.
    pose proof (L12 e c He (or_introl eq_refl)). pose proof (L12 e b He (or_intror (or_introl eq_refl))).
    specialize (O1 e He). unfold blk_apart, blk_ok in *.
    rewrite hdr_set_prev_other, hdr_set_next_other by (unfold apart in *; lia). done.
  - cbn [seg]. unfold hdr_ok, blk_ok, b_end, PAGE, HDR in *.
    rewrite (hdr_set_prev_other _ (b_addr c)), hdr_set_next, hdr_set_prev, hdr_set_next_other by (unfold HDR, apart in *; lia).
    rewrite Hc, Hh. cbn [magic size free next prev]. rewrite !u64_small by lia. split_and!; try done.
    rewrite hdr_set_prev, hdr_set_next_other, Hh by (unfold HDR, apart in *; lia). done.
Qed.

(** ** Coalescing *)

Definition amerge (b c : blk) : blk := mkBlk (b_addr b) (b_size b + HDR + b_size c) true.

(** One pass: a merged block is not merged again with its new successor. *)
Fixpoint acoalesce (l : list blk) : list blk :=
  match l with
  | b :: ((c :: r) as t) => if b_free b && b_free c then amerge b c :: acoalesce r else b :: acoalesce t
  | _ => l
  end.

(** Free list neighbours are neighbours in memory. *)
Fixpoint mergeable (l : list blk) : Prop :=
  match l with
  | b :: ((c :: _) as t) => (b_free b = true -> b_free c = true -> b_end b = b_addr c) /\ mergeable t
  | _ => True
  end.

Definition hdr_byte (l : list blk) (x : Z) : Prop :=
  exists b, In b l /\ b_addr b <= x < b_addr b + HDR.

Lemma mergeable_tail b l : mergeable (b :: l) -> mergeable l.
Proof. destruct l; [done|]. by intros [_ ?]. Qed.

Lemma layout_hdr_apart b l c : layout_ok (b :: l) -> In c l -> apart (b_addr b) HDR (b_addr c) HDR.
Proof.
  rewrite layout_cons. intros (Ob & [O _] & Ha) Hc. specialize (Ha c Hc).
  rewrite List.Forall_forall in O. specialize (O c Hc). unfold blk_ok, blk_apart, apart in *. lia.
Qed.

Lemma coalesce_merge m p b c r p' :
  seg m p (b_addr b) (b :: c :: r) p' 0 -> layout_ok (b :: c :: r) ->
  b_free b = true -> b_free c = true -> b_end b = b_addr c ->
  let m1 := coalesce_at m (b_addr b) in
  hdr m1 (b_addr b) = mkHB HEAP_MAGIC (b_size (amerge b c)) true (next (hdr m (b_addr c))) p /\
  (exists p'', seg m1 (b_addr b) (next (hdr m (b_addr c))) r p'' 0) /\
  (forall x, ~ hdr_byte (b :: c :: r) x -> m1 x = m x).
Proof.
  intros Hs Hl Hbf Hcf Hadj m1. apply seg_head in Hs as (_ & Hb & Hs).
  pose proof Hs as Hs'. apply seg_head in Hs' as (Hn & Hc & Hr). rewrite Hn in *.
  pose proof (layout_hdr_apart b (c :: r)) as Hap.
  pose proof Hl as Hl'. apply layout_cons in Hl' as (Ob & Hl' & _).
  apply layout_cons in Hl' as (Oc & Lr & _). unfold blk_ok, b_end, PAGE in *.
  assert (Hbc := Hap c Hl (or_introl eq_refl)).
  set (nx := next (hdr m (b_addr c))) in *.
  assert (Em1 : m1 = relink (set_next (set_size m (b_addr b) (b_size b + HDR + b_size c)) (b_addr b) nx) nx (b_addr b)).
  { unfold m1, coalesce_at. rewrite Hb. cbn [free next size]. rewrite Hc. cbn [free next size]. rewrite Hbf, Hcf.
    destruct (Z.eqb_spec (b_addr c) 0); [lia|]. cbn [andb negb].
    rewrite !(u64_small (HDR + b_size c)), u64_small by (unfold HDR in *; lia).
    rewrite hdr_set_size_other, Hc by (unfold apart in *; lia). cbn [next].
    rewrite hdr_set_next. cbn [next]. rewrite (u64_small nx) by apply next_range.
    unfold relink. by rewrite Z.add_assoc. }
  rewrite Em1. set (m0 := set_next _ _ _).
  assert (H0 : hdr m0 (b_addr b) = mkHB HEAP_MAGIC (b_size (amerge b c)) true nx p).
  { unfold m0. rewrite hdr_set_next, hdr_set_size, Hb. cbn [magic size free next prev amerge b_size].
    rewrite Hbf. f_equal; apply u64_small; [unfold HDR in *; lia|apply next_range]. }
  assert (Hr0 : seg m0 (b_addr c) nx r p' 0).
  { eapply seg_ext; [|exact Hr]. intros d Hd. specialize (Hap d Hl (or_intror Hd)).
    unfold m0. rewrite hdr_set_next_other, hdr_set_size_other by (unfold apart in *; lia). done. }
  assert (Hnx : nx = 0 \/ exists d, In d r /\ nx = b_addr d).
  { destruct (seg_head_addr _ _ _ _ _ Hr) as [?|(d & t & -> & ?)]; [by left|right; exists d; split; [by left|done]]. }
  split_and!.
  - rewrite <- H0. destruct Hnx as [Hz|(d & Hd & Hz)]; [unfold relink; by rewrite Hz|].
    apply hdr_relink_other. rewrite Hz. by apply (Hap d Hl), or_intror.
  - apply (seg_relink _ _ _ _ _ (b_addr b) Hr0 Lr). unfold HDR in *. lia.
  - intros x Hx.
    assert (Hx' : forall d, In d (b :: c :: r) -> x < b_addr d \/ b_addr d + HDR <= x).
    { intros d Hd. destruct (decide (b_addr d <= x < b_addr d + HDR)); [|lia]. destruct Hx. by exists d. }
    assert (Hm0 : m0 x = m x).
    { unfold m0. rewrite set_next_other, set_size_other by (apply Hx'; by left). done. }
    destruct Hnx as [Hz|(d & Hd & Hz)]; [unfold relink; by rewrite Hz|].
    rewrite Hz, relink_other; [done|]. apply Hx'. by do 2 right.
Qed.

Lemma coalesce_keep m p b l p' :
  seg m p (b_addr b) (b :: l) p' 0 -> Forall blk_ok l ->
  match l with c :: _ => b_free b && b_free c | [] => false end = false ->
  coalesce_at m (b_addr b) = m.
Proof.
  intros Hs Ho Hf. apply seg_head in Hs as (_ & Hb & Hs). unfold coalesce_at. rewrite Hb. cbn [free next].
  destruct l as [|c l].
  - destruct Hs as [_ <-]. by rewrite andb_false_r.
  - apply seg_head in Hs as (-> & Hc & _). rewrite Hc. cbn [free].
    destruct (b_free b), (b_free c); try done; by rewrite andb_false_r.
Qed.

(** The pass returns with as much fuel as there are blocks, and computes
    [acoalesce] by writing headers only. *)
Lemma heap_coalesce_spec w m p a l p' :
  seg m p a l p' 0 -> layout_ok l -> mergeable l -> (length l < w)%nat ->
  exists m' p'', heap_coalesce w m a = Some m' /\ seg m' p a (acoalesce l) p'' 0 /\
    (forall x, ~ hdr_byte l x -> m' x = m x).
Proof.
  revert m p a l p'. induction w as [|w IH]; intros m p a l p' Hs Hl Hg Hw; [lia|].
  destruct l as [|b l]; [destruct Hs as [-> <-]; by exists m, p|].
  pose proof Hs as Hs0. apply seg_head in Hs0 as (-> & Hb & Hs0).
  pose proof Hl as Hl0. apply layout_cons in Hl0 as (Ob & Hl0 & _).
  cbn [heap_coalesce]. destruct (Z.eqb_spec (b_addr b) 0); [unfold blk_ok, PAGE in Ob; lia|].
  assert (Hstep : forall m1 t q x, (exists r, l = r ++ t) -> b_addr x = b_addr b ->
    hdr m1 (b_addr b) = mkHB HEAP_MAGIC (b_size x) (b_free x) (next (hdr m1 (b_addr b))) p ->
    seg m1 (b_addr b) (next (hdr m1 (b_addr b))) t q 0 -> mergeable t ->
    (forall y, ~ hdr_byte (b :: l) y -> m1 y = m y) ->
    exists m' p'', heap_coalesce w m1 (next (hdr m1 (b_addr b))) = Some m' /\
      seg m' p (b_addr b) (x :: acoalesce t) p'' 0 /\ (forall y, ~ hdr_byte (b :: l) y -> m' y = m y)).
  { intros m1 t q x [r Hr] Hx H1 Ht Hgt Hm1.
    assert (Hsub : forall d, In d t -> In d l) by (intros; rewrite Hr, in_app_iff; by right).
    assert (Lt : layout_ok t) by (rewrite Hr in Hl0; by apply layout_app in Hl0 as (_ & ? & _)).
    destruct (IH m1 (b_addr b) _ t q Ht Lt Hgt) as (m' & p'' & -> & Hs' & Hm').
    { rewrite Hr in Hw. cbn [length] in Hw. rewrite length_app in Hw. lia. }
    assert (Hbm : hdr m' (b_addr b) = hdr m1 (b_addr b)).
    { apply hdr_ext. intros y Hy. apply Hm'. intros (d & Hd & Hdy).
      pose proof (layout_hdr_apart b l d Hl (Hsub d Hd)). unfold apart in *. lia. }
    exists m', p''. split; [done|]. split.
    - cbn [seg]. unfold hdr_ok. rewrite Hx, Hbm. done.
    - intros y Hy. rewrite Hm'; [by apply Hm1|]. intros (d & Hd & Hdy). apply Hy. exists d. split; [by right; apply Hsub|done]. }
  destruct l as [|c r]; [|destruct (b_free b && b_free c) eqn:Hf].
  - rewrite (coalesce_keep _ _ _ _ _ Hs (proj1 Hl0) eq_refl). by apply (Hstep m [] p' b); [exists []|..].
  - bool_hyps. destruct Hg as [Hadj Hg].
    destruct (coalesce_merge _ _ _ _ _ _ Hs Hl) as (H1 & [q Hq] & Hm1); try done; [by apply Hadj|].
    cbn [acoalesce]. replace (b_free b && b_free c) with true by (symmetry; by apply andb_true_iff).
    assert (Hnx : next (hdr (coalesce_at m (b_addr b)) (b_addr b)) = next (hdr m (b_addr c))) by (by rewrite H1).
    apply (Hstep _ r q (amerge b c)); [by exists [c]|done|by rewrite Hnx|by rewrite Hnx|by eapply mergeable_tail|done].
  - rewrite (coalesce_keep _ _ _ _ _ Hs (proj1 Hl0) Hf). cbn [acoalesce]. rewrite Hf.
    destruct Hg as [_ Hg]. by apply (Hstep m (c :: r) p' b); [exists []|..].
Qed.

(** The blocks of the result are old blocks or two adjacent free ones. *)
Definition piece (l : list blk) (y : blk) : Prop :=
  In y l \/
  exists b c, In b l /\ In c l /\ y = amerge b c /\ b_end b = b_addr c /\ b_free b = true /\ b_free c = true.

Lemma piece_mono l l' y : (forall b, In b l -> In b l') -> piece l y -> piece l' y.
Proof. intros Hs [Hy|(b & c & Hb & Hc & Hr)]; [left; auto|right; exists b, c; auto]. Qed.

Lemma acoalesce_ind (P : list blk -> Prop) :
  P [] -> (forall b, P [b]) ->
  (forall b c r, b_free b && b_free c = true -> P r -> P (b :: c :: r)) ->
  (forall b c r, b_free b && b_free c = false -> P (c :: r) -> P (b :: c :: r)) ->
  forall l, P l.
Proof.
  intros H0 H1 Hm Hk l. remember (length l) as n eqn:Hn. revert l Hn.
  induction n as [n IH] using lt_wf_ind. intros [|b [|c r]] ->; [done|done|].
  destruct (b_free b && b_free c) eqn:E; [apply Hm|apply Hk]; try done; (eapply IH; [|done]); cbn; lia.
Qed.

Lemma acoalesce_pieces l y : mergeable l -> In y (acoalesce l) -> piece l y.
Proof.
  revert l. apply (acoalesce_ind (fun l => mergeable l -> In y (acoalesce l) -> piece l y)).
  - done.
  - intros b _ Hy. by left.
  - intros b c r Hf IH [Hadj Hg]. cbn [acoalesce]. rewrite Hf. bool_hyps. intros [<-|Hy].
    + right. exists b, c. split_and!; try done; [by left|by right; left|by apply Hadj].
    + eapply piece_mono; [|apply IH; [by eapply mergeable_tail|done]]. intros. by do 2 right.
  - intros b c r Hf IH [_ Hg]. cbn [acoalesce]. rewrite Hf. intros [<-|Hy]; [left; by left|].
    eapply piece_mono; [|by apply IH]. intros. by right.
Qed.

Lemma piece_apart b l y :
  Forall blk_ok l -> blk_ok b -> (forall c, In c l -> blk_apart b c) -> piece l y -> blk_apart b y.
Proof.
  rewrite List.Forall_forall. intros Ho Hb Ha [Hy|(d & e & Hd & He & -> & Hde & _)]; [auto|].
  pose proof (Ho d Hd). pose proof (Ho e He). pose proof (Ha d Hd). pose proof (Ha e He).
  unfold blk_apart, apart, blk_ok, b_end, amerge, HDR in *. cbn [b_addr b_size]. lia.
Qed.

Lemma layout_acoalesce l : layout_ok l -> mergeable l -> layout_ok (acoalesce l).
Proof.
  revert l. apply (acoalesce_ind (fun l => layout_ok l -> mergeable l -> layout_ok (acoalesce l))); [done|done| |].
  - intros b c r Hf IH Hl [Hadj Hg]. cbn [acoalesce]. rewrite Hf. bool_hyps.
    apply layout_cons in Hl as (Ob & Hl & Hb). apply layout_cons in Hl as (Oc & Hl & Hc).
    specialize (Hadj ltac:(done) ltac:(done)). apply mergeable_tail in Hg. apply layout_cons. split_and!.
    + unfold blk_ok, b_end, amerge, HDR in *. cbn [b_addr b_size]. lia.
    + by apply IH.
    + intros y Hy. apply acoalesce_pieces in Hy; [|done].
      assert (Hby : blk_apart b y) by (apply (piece_apart b r); [apply Hl|done|intros; apply Hb; by right|done]).
      assert (Hcy : blk_apart c y) by (apply (piece_apart c r); [apply Hl|done|done|done]).
      assert (0 <= b_size y).
      { destruct Hl as [Ho _]. rewrite List.Forall_forall in Ho. destruct Hy as [Hy|(d & e & Hd & He & -> & _)].
        - apply Ho in Hy. unfold blk_ok in Hy. lia.
        - apply Ho in Hd, He. unfold blk_ok, amerge, HDR in *. cbn [b_size]. lia. }
      unfold blk_apart, apart, blk_ok, b_end, amerge, HDR in *. cbn [b_addr b_size]. lia.
  - intros b c r Hf IH Hl [_ Hg]. cbn [acoalesce]. rewrite Hf. apply layout_cons in Hl as (Ob & Hl & Hb).
    apply layout_cons. split_and!; [done|by apply IH|]. intros y Hy.
    apply (piece_apart b (c :: r)); [apply Hl|done|done|by apply acoalesce_pieces].
Qed.

(** ** Marking a block free *)

Definition freed (b : blk) : blk := mkBlk (b_addr b) (b_size b) true.

Lemma set_free_seg m a l1 b l2 p p' :
  seg m p a (l1 ++ b :: l2) p' 0 -> layout_ok (l1 ++ b :: l2) ->
  seg (set_free m (b_addr b) true) p a (l1 ++ freed b :: l2) p' 0 /\ layout_ok (l1 ++ freed b :: l2).
Proof.
  intros Hs Hl. split.
  - apply seg_app in Hs as (q & c & H1 & Hs). apply seg_head in Hs as (-> & Hb & H2).
    assert (Hother : forall d, In d (l1 ++ l2) -> hdr m (b_addr d) = hdr (set_free m (b_addr b) true) (b_addr d)).
    { intros d Hd. symmetry. apply hdr_set_free_other.
      destruct (layout_mid _ _ _ d Hl Hd) as (Had & Od & Ob). unfold blk_apart, apart, blk_ok in *. lia. }
    apply seg_app. exists q, (b_addr b). split; [|cbn [seg]; split_and!; [done| |]].
    + eapply seg_ext; [|exact H1]. intros d Hd. apply Hother, in_app_iff. by left.
    + unfold hdr_ok. cbn [freed b_addr b_size b_free]. rewrite hdr_set_free, Hb. done.
    + rewrite hdr_set_free, Hb. cbn [next]. eapply seg_ext; [|exact H2]. intros d Hd.
      apply Hother, in_app_iff. by right.
  - apply (layout_replace l1 b [freed b] l2 Hl).
    + apply layout_app in Hl as (_ & Hl & _). apply layout_cons in Hl as (Ob & _ & _).
      apply layout_cons. split_and!; [done|apply layout_nil|done].
    + apply List.Forall_cons_iff. split; [unfold inside, b_end, freed; cbn; lia|by apply List.Forall_nil].
Qed.

Lemma in_freed l1 b l2 d :
  In d (l1 ++ freed b :: l2) -> exists d', In d' (l1 ++ b :: l2) /\ b_addr d' = b_addr d /\ b_end d' = b_end d.
Proof.
  rewrite in_app_iff. cbn [In]. intros [?|[<-|?]]; [exists d|exists b|exists d]; rewrite in_app_iff; cbn [In]; tauto.
Qed.

Lemma freed_owned l1 b l2 (P : Z -> Prop) y x :
  (forall d x, In d (l1 ++ b :: l2) -> b_addr d <= x < b_end d -> P x) ->
  piece (l1 ++ freed b :: l2) y -> b_addr y <= x < b_end y -> P x.
Proof.
  intros Ho Hy Hx. destruct Hy as [Hy|(c & d & Hc & Hd & -> & Hcd & _)].
  - apply in_freed in Hy as (d & Hd & Ha & He). apply (Ho d); [done|lia].
  - apply in_freed in Hc as (c' & Hc & Hca & Hce). apply in_freed in Hd as (d' & Hd & Hda & Hde).
    destruct (decide (x < b_addr d)).
    + apply (Ho c' x Hc). unfold amerge in Hx. cbn [b_addr] in Hx. lia.
    + apply (Ho d' x Hd). unfold amerge, b_end in *. cbn [b_addr b_size] in Hx. lia.
Qed.

Section Correctness.
Context {A : Type} `{FrameAllocLaws A}.
Implicit Types h : kheap A.

(** The heap [h] consists of the blocks [l], in list order, which lie in
    frames the heap owns. *)
Record heap_rep h (l : list blk) : Prop := {
  hr_seg : exists p, seg (h_mem h) 0 (heap_start h) l p 0;
  hr_layout : layout_ok l;
  hr_inv : fa_inv (h_frames h);
  hr_owned : forall b x, In b l -> b_addr b <= x < b_end b ->
    fa_managed (h_frames h) x = true /\ fa_avail (h_frames h) x = false;
}.

(** Bytes the allocator may write: headers and the payload of free blocks. *)
Definition heap_private (l : list blk) (x : Z) : Prop :=
  exists b, In b l /\ (b_addr b <= x < b_addr b + HDR \/ b_free b = true /\ b_addr b <= x < b_end b).

(** All other bytes that are not in free frames keep their value. *)
Definition kept h (l : list blk) h' : Prop :=
  forall x, ~ heap_private l x -> fa_avail (h_frames h) x = false -> h_mem h' x = h_mem h x.

(** What a successful expansion by [b] gives. *)
Definition grown h (l : list blk) (b : blk) h' : Prop :=
  heap_rep h' (l ++ [b]) /\ b_free b = true /\
  fa_nfree (h_frames h') <= fa_nfree (h_frames h) - 4 /\
  (forall x, fa_avail (h_frames h') x = true -> fa_avail (h_frames h) x = true) /\
  (forall x, b_addr b <= x < b_end b -> fa_avail (h_frames h) x = true) /\
  kept h l h'.

(** The frames [n] pages at [np] taken by the expansion form the block [b];
    [m'] has the chain extended by it and changes nothing but heap headers. *)
Lemma grown_intro h l n np fr b m' st he :
  heap_rep h l -> fa_alloc n (h_frames h) = (np, fr) -> np <> 0 -> 4 <= n ->
  b_addr b = np -> b_end b = np + n * PAGE -> b_free b = true -> layout_ok (l ++ [b]) ->
  (exists q, seg m' 0 st (l ++ [b]) q 0) ->
  (forall x, ~ heap_private l x -> (x < np \/ np + n * PAGE <= x) -> m' x = h_mem h x) ->
  grown h l b (mkHeap m' fr st he).
Proof.
  intros [_ _ Hi Ho] Ha Hnp Hn Hba Hbe Hbf Hlb Hseg Hmem.
  destruct (fa_alloc_law n (h_frames h) Hi ltac:(lia)) as (Hi' & Hcase). rewrite Ha in *. cbn [fst snd] in *.
  destruct Hcase as [|(Hp0 & Hpm & Hpe & Hav & Hav' & Hm' & Hnf)]; [by simplify_eq|].
  unfold grown, kept. cbn [h_mem h_frames heap_start].
  split_and!; [|done|lia| |intros x Hx; apply Hav; lia|].
  - constructor; cbn [h_mem h_frames heap_start]; [done|done|done|]. intros c x Hc Hx.
    rewrite Hm', Hav'. apply in_app_iff in Hc as [Hc|[<-|[]]].
    + destruct (Ho c x Hc Hx) as [-> ->]. by rewrite andb_false_r.
    + rewrite (fa_avail_managed _ x) by (apply Hav; lia). unfold in_region. split; [done|]. ifs; lia.
  - intros x Hx. rewrite Hav' in Hx. by bool_hyps.
  - intros x Hx Hf. apply Hmem; [done|]. destruct (decide (np <= x < np + n * PAGE)); [|lia].
    by rewrite Hav in Hf.
Qed.

Lemma heap_start_nil h l : heap_rep h l -> heap_start h = 0 <-> l = [].
Proof.
  intros [[p Hs] [Hl _] _ _]. destruct l as [|c l]; [by destruct Hs as [_ <-]|].
  apply seg_head in Hs as (-> & _ & _). apply List.Forall_cons_iff in Hl as [Oc _].
  unfold blk_ok, PAGE in Oc. split; [lia|done].
Qed.

Lemma heap_expand_spec w sz h l :
  heap_rep h l -> (length l <= w)%nat -> 0 <= sz < 2 ^ 64 ->
  heap_expand w sz h = Some (false, h) \/
  exists b h', heap_expand w sz h = Some (true, h') /\ grown h l b h' /\
    b_size b = Z.max 4 (u64 (sz + PAGE - 1) / PAGE) * PAGE - HDR.
Proof.
  intros Hr Hw Hsz. pose proof Hr as [[p Hs] Hl Hi Ho]. unfold heap_expand.
  replace (sz .+ PAGE .- 1) with (u64 (sz + PAGE - 1)) by (unfold u64; by rewrite Zminus_mod_idemp_l).
  set (n := if _ <? 4 then 4 else _).
  assert (Hn : n = Z.max 4 (u64 (sz + PAGE - 1) / PAGE)) by (unfold n; ifs; lia).
  assert (Hnb : 4 <= n /\ n * PAGE <= 2 ^ 64).
  { rewrite Hn. pose proof (u64_range (sz + PAGE - 1)). unfold PAGE in *. lia. }
  clearbody n. rewrite <- Hn. destruct (fa_alloc_law n (h_frames h) Hi ltac:(lia)) as (Hi' & Hcase).
  destruct (fa_alloc n (h_frames h)) as [np fr] eqn:Hal. cbn [fst snd] in *.
  destruct Hcase as [Heq|(Hp0 & Hpm & Hpe & Hav & _)].
  { simplify_eq. left. rewrite Z.eqb_refl. by destruct h. }
  right. destruct (Z.eqb_spec np 0) as [|Hnp]; [lia|].
  pose (b := mkBlk np (n * PAGE - HDR) true).
  assert (Hb : blk_ok b /\ b_end b = np + n * PAGE).
  { unfold blk_ok, b_end, b, PAGE, HDR in *. cbn [b_addr b_size]. lia. }
  destruct Hb as [Hb Hbe].
  assert (Hlb : layout_ok (l ++ [b])).
  { apply layout_snoc; [done|done|]. intros c x Hc Hx Hx'. destruct (Ho c x Hc Hx) as [_ Hf].
    rewrite Hav in Hf; [done|]. cbn [b_addr b] in Hx'. lia. }
  set (m1 := write_hdr _ _ _ _ _ _ _).
  assert (Hh1 : hdr m1 np = mkHB HEAP_MAGIC (n * PAGE - HDR) true 0 0).
  { unfold m1. rewrite hdr_write_hdr. f_equal. unfold HDR, PAGE in *. word_lia. }
  assert (Hs1 : seg m1 0 (heap_start h) l p 0).
  { eapply seg_ext; [|exact Hs]. intros c Hc. symmetry. apply hdr_write_hdr_other.
    pose proof (layout_mid _ _ _ c Hlb ltac:(by rewrite app_nil_r)) as (Hcb & Oc & Ob).
    unfold blk_apart, apart, blk_ok in *. change (b_addr b) with np in *. lia. }
  assert (Hm1 : forall x, x < np \/ np + n * PAGE <= x -> m1 x = h_mem h x).
  { intros x Hx. apply write_hdr_other. unfold HDR, PAGE in *. lia. }
  exists b. pose proof (heap_start_nil h l Hr) as Hnil.
  destruct (Z.eqb_spec (heap_start h) 0) as [Hz|Hz].
  - rewrite (proj1 Hnil Hz) in *. eexists. split; [reflexivity|]. split; [|done].
    eapply grown_intro; first [done|lia|intros; by apply Hm1|idtac].
    exists np. cbn [app seg]. unfold hdr_ok. cbn [b_addr b_size b_free b]. rewrite Hh1. done.
  - assert (l <> []) as Hne by tauto.
    rewrite (find_last_spec _ _ _ _ _ _ Hs1 (proj1 Hl) Hne Hw).
    destruct (seg_append m1 _ _ _ b Hs1 Hne Hlb) as [Hsb Hin]; [by cbn [b_addr b_size b_free b]; rewrite Hh1|].
    eexists. split; [reflexivity|]. split; [|done]. eapply grown_intro; first [done|lia|by eexists|idtac].
    intros x Hx Hx'. change (b_addr b) with np.
    apply list_elem_of_In, list_elem_of_fmap in Hin as (c & -> & Hc). apply list_elem_of_In in Hc.
    rewrite set_prev_other by (unfold HDR, PAGE in *; lia).
    rewrite set_next_other; [by apply Hm1|].
    destruct (decide (b_addr c <= x < b_addr c + HDR)); [|lia]. destruct Hx. exists c. tauto.
Qed.
(** The blocks handed out. *)
Definition live (l : list blk) : list blk := filter (fun b => b_free b = false) l.

Lemma live_app l1 l2 : live (l1 ++ l2) = live l1 ++ live l2.
Proof. apply list.filter_app. Qed.

Lemma live_cons b l : live (b :: l) = if b_free b then live l else b :: live l.
Proof. unfold live. rewrite list.filter_cons. by destruct (b_free b). Qed.

(** [kmalloc sz] on [h] with blocks [l] gave [ptr] and [h']. *)
Definition malloc_post h (l : list blk) (sz ptr : Z) h' : Prop :=
  exists l', heap_rep h' l' /\ kept h l h' /\
    (ptr = 0 /\ live l' = live l \/
     exists b, ptr = b_addr b + HDR /\ sz <= b_size b /\ live l' ≡ₚ b :: live l).

Lemma take_block_rep h l l1 b l2 sz :
  heap_rep h l -> l = l1 ++ b :: l2 -> b_free b = true -> 0 <= sz <= b_size b ->
  malloc_post h l sz (b_addr b + HDR) (with_mem h (take_block (h_mem h) (b_addr b) sz)).
Proof.
  intros [[p Hs] Hl Hi Ho] -> Hf Hsz. exists (l1 ++ asplit sz b ++ l2).
  pose proof (layout_mid l1 b l2 b Hl) as Hmid.
  assert (Ob : blk_ok b).
  { apply layout_app in Hl as (_ & Hl & _). by apply layout_cons in Hl as [? _]. }
  destruct (asplit_layout sz b Ob Hsz) as [La Li].
  split_and!; [constructor; cbn [with_mem h_mem h_frames heap_start]| |right].
  - eapply take_block_seg; eauto.
  - by eapply layout_replace.
  - done.
  - intros c x Hc Hx. rewrite List.Forall_forall in Li. rewrite !in_app_iff in Hc.
    destruct Hc as [Hc|[Hc|Hc]]; [apply (Ho c)|apply (Ho b)|apply (Ho c)]; rewrite ?in_app_iff; cbn [In];
      try tauto. specialize (Li c Hc). unfold inside in Li. lia.
  - intros x Hx _. cbn [with_mem h_mem]. apply seg_app in Hs as (q & c & _ & Hs).
    apply seg_head in Hs as (-> & Hh & H2).
    assert (Hpr : forall c, In c (b :: l2) -> ~ (b_addr c <= x < b_addr c + HDR)).
    { intros c Hc Hcx. apply Hx. exists c. rewrite in_app_iff. tauto. }
    apply take_block_other; [done|by rewrite Hh|done| |].
    + destruct (decide (b_addr b <= x < b_end b)); [|lia]. destruct Hx. exists b. rewrite in_app_iff.
      cbn [In]. tauto.
    + apply seg_head_addr in H2 as [H2|(d & r & -> & H2)]; [by left|right]. rewrite H2.
      specialize (Hpr d (or_intror (or_introl eq_refl))). lia.
  - rewrite !live_app, (live_cons b), Hf. unfold asplit.
    destruct (_ <? _) eqn:E; [eexists (mkBlk _ sz _)|eexists (mkBlk _ (b_size b) _)];
      (split_and!; [done|cbn [b_size]; lia|]); rewrite !live_cons; cbn [b_free app];
      by rewrite <- Permutation_middle.
Qed.

Lemma malloc_post_grown h l b h1 sz ptr h2 :
  grown h l b h1 -> malloc_post h1 (l ++ [b]) sz ptr h2 -> malloc_post h l sz ptr h2.
Proof.
  intros (Hr & Hf & _ & Hav & Hb & Hk) (l' & Hr' & Hk' & Hp).
  assert (live (l ++ [b]) = live l) as Hlive by (rewrite live_app, live_cons, Hf; apply app_nil_r).
  rewrite Hlive in Hp. exists l'. split_and!; try done. intros x Hx Hf'. rewrite Hk'.
  - by apply Hk.
  - intros (c & Hc & Hcx). apply in_app_iff in Hc as [Hc|[<-|[]]].
    + apply Hx. by exists c.
    + rewrite Hb in Hf'; [done|]. pose proof (hr_layout _ _ Hr) as [Ho _]. apply List.Forall_app in Ho as [_ Ho].
      apply List.Forall_cons_iff in Ho as [Ob _]. unfold blk_ok, b_end in *. lia.
  - destruct (fa_avail (h_frames h1) x) eqn:E; [|done]. apply Hav in E. congruence.
Qed.

Lemma malloc_post_none h l sz : heap_rep h l -> malloc_post h l sz 0 h.
Proof. intros. exists l. split_and!; [done|by intros x|by left]. Qed.

Lemma kmalloc_eq e w sz h :
  kmalloc e w sz h =
    if sz =? 0 then Some (0, h)
    else match find_fit w (h_mem h) (heap_start h) (align16 sz) with
         | None => None
         | Some block =>
             if negb (block =? 0)
             then Some (block + HDR, with_mem h (take_block (h_mem h) block (align16 sz)))
             else match heap_expand w (align16 sz) h with
                  | None => None
                  | Some (false, h') => Some (0, h')
                  | Some (true, h') =>
                      match e with O => None | S e' => kmalloc e' w (align16 sz) h' end
                  end
         end.
Proof. by destruct e. Qed.

(** One round: done, or the heap grew and the call starts again. *)
Lemma kmalloc_round e w sz h l :
  heap_rep h l -> (length l < w)%nat ->
  (exists ptr h', kmalloc e w sz h = Some (ptr, h') /\ malloc_post h l (align16 sz) ptr h') \/
  (exists b h', grown h l b h' /\
     kmalloc e w sz h = match e with O => None | S e' => kmalloc e' w (align16 sz) h' end).
Proof.
  intros Hr Hw. rewrite kmalloc_eq.
  destruct (Z.eqb_spec sz 0) as [->|Hz]; [left; eexists _, _; split; [done|by apply malloc_post_none]|].
  pose proof (align16_range sz) as Ha. pose proof Hr as [[p Hs] Hl Hi Ho].
  rewrite (find_fit_spec _ _ _ _ _ _ _ Hs (proj1 Hl)) by done.
  destruct (afit _ l) as [[[l1 b] l2]|] eqn:Hfit.
  - left. destruct (afit_some _ _ _ _ _ Hfit) as (Hl' & Hf & Hle).
    assert (Ob : blk_ok b).
    { rewrite Hl' in Hl. apply layout_app in Hl as (_ & Hl & _). by apply layout_cons in Hl as [? _]. }
    unfold blk_ok, PAGE in Ob. destruct (Z.eqb_spec (b_addr b) 0); [lia|].
    eexists _, _. split; [done|]. eapply take_block_rep; [exact Hr|exact Hl'|done|lia].
  - cbn [negb Z.eqb].
    destruct (heap_expand_spec w (align16 sz) h l Hr ltac:(lia) Ha) as [->|(b & h1 & -> & Hg & _)].
    + left. eexists _, _. split; [done|by apply malloc_post_none].
    + right. eexists _, _. split; [exact Hg|done].
Qed.

(** With fuel for one retry per four free frames the call returns. *)
Lemma kmalloc_spec e w sz h l :
  heap_rep h l -> fa_nfree (h_frames h) / 4 <= Z.of_nat e ->
  zlen l + fa_nfree (h_frames h) / 4 < Z.of_nat w ->
  exists ptr h', kmalloc e w sz h = Some (ptr, h') /\ malloc_post h l (align16 sz) ptr h'.
Proof.
  revert sz h l. induction e as [|e IH]; intros sz h l Hr He Hw; unfold zlen in *;
    pose proof (fa_nfree_nonneg _ (hr_inv _ _ Hr));
    (match goal with |- context [kmalloc ?e _ _ _] =>
       destruct (kmalloc_round e w sz h l Hr ltac:(lia)) as [?|(b & h1 & Hg & ->)]; [done|] end);
    pose proof Hg as (Hr' & _ & Hn & _); pose proof (fa_nfree_nonneg _ (hr_inv _ _ Hr')); [lia|].
  destruct (IH (align16 sz) h1 (l ++ [b]) Hr') as (ptr & h2 & Hk & Hp).
  - lia.
  - rewrite length_app. cbn [length]. lia.
  - eexists _, _. split; [exact Hk|]. eapply malloc_post_grown; [exact Hg|]. by rewrite align16_idem in Hp.
Qed.
Lemma live_acoalesce l : live (acoalesce l) = live l.
Proof.
  revert l. apply (acoalesce_ind (fun l => live (acoalesce l) = live l)); [done|done| |];
    intros b c r Hf IH; cbn [acoalesce]; rewrite Hf.
  - bool_hyps. rewrite !live_cons, IH. by destruct (b_free b), (b_free c).
  - rewrite !(live_cons b). cbn [acoalesce] in IH. by rewrite IH.
Qed.

(** [kfree] of the block [b] returns and leaves the coalesced list. *)
Lemma kfree_spec w h l1 b l2 :
  heap_rep h (l1 ++ b :: l2) -> mergeable (l1 ++ freed b :: l2) ->
  (length (l1 ++ b :: l2) < w)%nat ->
  exists h', kfree w (b_addr b + HDR) h = Some h' /\
    heap_rep h' (acoalesce (l1 ++ freed b :: l2)) /\
    (forall x, ~ hdr_byte (l1 ++ b :: l2) x -> h_mem h' x = h_mem h x) /\
    h_frames h' = h_frames h.
Proof.
  intros [[p Hs] Hl Hi Ho] Hg Hw.
  assert (Hin : In b (l1 ++ b :: l2)) by (rewrite in_app_iff; right; by left).
  destruct (hdr_of_seg _ _ _ _ _ _ b Hs Hin) as (Hmg & _).
  destruct (set_free_seg _ _ _ _ _ _ _ Hs Hl) as [Hs0 Hlay].
  destruct (heap_coalesce_spec w _ _ _ _ _ Hs0 Hlay Hg) as (m' & p'' & Hco & Hs' & Hm').
  { rewrite length_app in *. done. }
  exists (with_mem h m'). assert (Ob : blk_ok b).
  { apply layout_app in Hl as (_ & Hl & _). by apply layout_cons in Hl as (? & _ & _). }
  split_and!; [| |intros x Hx|done].
  - unfold kfree. replace (b_addr b + HDR - HDR) with (b_addr b) by lia.
    destruct (Z.eqb_spec (b_addr b + HDR) 0); [unfold blk_ok, PAGE, HDR in *; lia|].
    rewrite Hmg, Z.eqb_refl. cbn [negb]. by rewrite Hco.
  - constructor; cbn [with_mem h_mem h_frames heap_start]; [by eexists|by apply layout_acoalesce|done|].
    intros y x Hy Hx. apply acoalesce_pieces in Hy; [|done]. apply (freed_owned l1 b l2 _ y x Ho Hy Hx).
  - cbn [with_mem h_mem]. rewrite Hm'.
    + apply set_free_other. destruct (decide (b_addr b <= x < b_addr b + HDR)); [|lia].
      destruct Hx. by exists b.
    + intros (d & Hd & Hdx). apply Hx. apply in_freed in Hd as (d' & Hd' & Ha & _). exists d'. by rewrite Ha.
Qed.
End Correctness.
