(* ===== verification/KheapSpec.v ===== *)
(** * What the kernel heap promises, over the real frame allocator

    The claims about kmalloc, kcalloc and kfree (kheap.c), stated for any
    frame allocator that satisfies [FrameAllocLaws] and instantiated with the
    page-frame bitmap of pmm.c. *)
From S2P Require Import Prelude Mem FrameAlloc Pmm Kheap.

Lemma live_in c l : In c (live l) <-> In c l /\ b_free c = false.
Proof.
  unfold live. rewrite <- !list_elem_of_In, list_elem_of_filter. tauto.
Qed.

Lemma layout_in_apart l b c : layout_ok l -> In b l -> In c l -> b <> c -> blk_apart b c.
Proof.
  intros Hl Hb Hc Hne. apply in_split in Hb as (l1 & l2 & ->).
  destruct (layout_mid l1 b l2 c Hl) as (Ha & _); [|by apply blk_apart_sym].
  rewrite in_app_iff in *. cbn [In] in Hc. destruct Hc as [?|[?|?]]; tauto.
Qed.

(** The payload of a live block is not the allocator's. *)
Lemma live_not_private l c x :
  layout_ok l -> In c (live l) -> b_addr c + HDR <= x < b_end c -> ~ heap_private l x.
Proof.
  intros Hl Hc Hx (b & Hb & Hbx). apply live_in in Hc as [Hc Hf].
  destruct (decide (b_free b = true)) as [Hbf|Hbf]; [|destruct (decide (b_addr b = b_addr c)) as [He|He]].
  - assert (blk_apart b c) by (apply (layout_in_apart l); [done..|congruence]).
    pose proof (proj1 (List.Forall_forall _ _) (proj1 Hl) b Hb). unfold blk_apart, apart, blk_ok, b_end, HDR in *. lia.
  - rewrite He in Hbx. destruct Hbx as [?|[? _]]; [lia|congruence].
  - assert (blk_apart b c) by (apply (layout_in_apart l); [done..|congruence]).
    pose proof (proj1 (List.Forall_forall _ _) (proj1 Hl) b Hb).
    destruct Hbx as [?|[? _]]; [|congruence]. unfold blk_apart, apart, blk_ok, b_end, HDR in *. lia.
Qed.

Lemma layout_live l : layout_ok l -> layout_ok (live l).
Proof.
  induction l as [|b l IH]; intros Hl; [done|]. apply layout_cons in Hl as (Hb & Hl & Ha).
  rewrite live_cons. destruct (b_free b); [by apply IH|]. apply layout_cons. split_and!; [done|by apply IH|].
  intros y Hy. apply live_in in Hy as [Hy _]. by apply Ha.
Qed.

Lemma layout_perm l l' : l ≡ₚ l' -> layout_ok l -> layout_ok l'.
Proof.
  induction 1 as [|b l l' Hp IH|b c l|l1 l2 l3 Hp1 IH1 Hp2 IH2]; intros Hl; [done| | |auto].
  - apply layout_cons in Hl as (Hb & Hl & Ha). apply layout_cons. split_and!; [done|auto|].
    intros y Hy. apply Ha. by rewrite Hp.
  - apply layout_cons in Hl as (Hc & Hl & Hac). apply layout_cons in Hl as (Hb & Hl & Ha).
    apply layout_cons. split_and!; [done| |].
    + apply layout_cons. split_and!; [done|done|]. intros y Hy. apply Hac. by right.
    + intros y [<-|Hy]; [apply blk_apart_sym, Hac; by left|by apply Ha].
Qed.

Section Claims.
Context {A : Type} `{FrameAllocLaws A}.

Lemma malloc_post_live (h : kheap A) l sz ptr h' :
  heap_rep h l -> malloc_post h l sz ptr h' ->
  forall c x, In c (live l) -> b_addr c + HDR <= x < b_end c -> h_mem h' x = h_mem h x.
Proof.
  intros Hr (l' & _ & Hk & _) c x Hc Hx. apply Hk.
  - by eapply live_not_private; [apply Hr|..].
  - apply live_in in Hc as [Hc _]. apply (hr_owned _ _ Hr c x Hc). unfold HDR in *. lia.
Qed.

(** A client that writes only to its own block cannot corrupt the heap. *)
Lemma heap_rep_payload (h : kheap A) l b m' :
  heap_rep h l -> In b l ->
  (forall x, x < b_addr b + HDR \/ b_end b <= x -> m' x = h_mem h x) -> heap_rep (with_mem h m') l.
Proof.
  intros [[p Hs] Hl Hi Ho] Hb Hm. constructor; cbn [with_mem h_mem h_frames heap_start]; try done.
  exists p. eapply seg_ext; [|exact Hs]. intros c Hc. symmetry. apply hdr_ext. intros x Hx. apply Hm.
  destruct (decide (b_addr c = b_addr b)) as [He|Hne]; [lia|].
  assert (blk_apart c b) by (apply (layout_in_apart l); [done..|congruence]).
  pose proof (proj1 (List.Forall_forall _ _) (proj1 Hl) c Hc). unfold blk_apart, apart, blk_ok, b_end, HDR in *. lia.
Qed.

(** When the product does not overflow, [kcalloc] returns, keeps the heap
    well formed and, unless the result is NULL, the block it hands out holds
    [count * sz] zero bytes. *)
Theorem kcalloc_zeroed e w count sz (h : kheap A) l :
  heap_rep h l -> 0 <= count * sz <= 2 ^ 64 - 16 ->
  fa_nfree (h_frames h) / 4 <= Z.of_nat e -> zlen l + fa_nfree (h_frames h) / 4 < Z.of_nat w ->
  exists ptr h' l', kcalloc e w count sz h = Some (ptr, h') /\ heap_rep h' l' /\
    (ptr = 0 /\ live l' = live l \/
     exists b, ptr = b_addr b + HDR /\ count * sz <= b_size b /\ live l' ≡ₚ b :: live l /\
       forall i, 0 <= i < count * sz -> load8 (h_mem h') (ptr + i) = 0).
Proof.
  intros Hr Hsz He Hw. unfold kcalloc. rewrite u64_small by lia.
  destruct (kmalloc_spec e w (count * sz) h l Hr He Hw) as (ptr & h' & -> & l' & Hr' & _ & Hp).
  pose proof (align16_ge _ Hsz). destruct Hp as [[-> Hp]|(b & -> & Hb & Hpm)].
  - exists 0, h', l'. split_and!; try done. by left.
  - assert (Hbl : In b (live l')) by (rewrite Hpm; by left). apply live_in in Hbl as [Hbl Hbf].
    assert (Ob : blk_ok b) by (apply (proj1 (List.Forall_forall _ _) (proj1 (hr_layout _ _ Hr'))); done).
    destruct (Z.eqb_spec (b_addr b + HDR) 0); [unfold blk_ok, PAGE, HDR in *; lia|].
    eexists _, _, l'. split_and!; [done| |right].
    + eapply heap_rep_payload; [done|exact Hbl|]. intros x Hx. apply fill_other. unfold b_end in *. lia.
    + exists b. split_and!; [done|lia|done|]. intros i Hi. cbn [with_mem h_mem].
      unfold load8, fill. by rewrite (proj2 (in_region_true _ _ _)) by lia.
Qed.

End Claims.

(** ** A concrete heap over the bitmap allocator *)

Definition HH : Z := 0xffff800000000000.
#[local] Instance boot_frames : FrameAlloc pmm := pmm_frame_alloc HH.
#[local] Instance boot_frames_laws : FrameAllocLaws pmm := pmm_frame_alloc_laws HH.

Definition boot_pmm : pmm := pmm_init HH (Some [mkEntry 4096 (64 * 4096) 0]) (pmm_boot (fun _ => 0)).

Lemma boot_pmm_inv : fa_inv boot_pmm.
Proof. cbv [fa_inv boot_frames pmm_frame_alloc]. split; [split|split_and!]; vm_compute; (done || split; discriminate || discriminate). Qed.

Definition boot_heap : kheap pmm := mkHeap (fun _ => 0) boot_pmm 0 0.

Lemma boot_heap_rep : heap_rep boot_heap [].
Proof.
  constructor; [by exists 0|apply layout_nil|exact boot_pmm_inv|done].
Qed.


Lemma kcalloc_zeroed_witness :
  exists ptr h' l', kcalloc 16 18 10 100 boot_heap = Some (ptr, h') /\ heap_rep h' l'.
Proof.
  destruct (kcalloc_zeroed 16 18 10 100 boot_heap [] boot_heap_rep) as (ptr & h' & l' & Hk & Hr & _).
  - lia.
  - vm_compute. discriminate.
  - vm_compute. reflexivity.
  - exists ptr, h', l'. split; [exact Hk|exact Hr].
Defined.

(** One region of four pages, all of it handed out. *)
Definition full_block : blk := mkBlk (HH + 2 * 4096) (4 * 4096 - 29) false.
Definition full_heap : kheap pmm :=
  mkHeap (write_hdr (fun _ => 0) (b_addr full_block) HEAP_MAGIC (b_size full_block) false 0 0)
         (fa_alloc 4 boot_pmm).2 (b_addr full_block) (b_end full_block).

Lemma full_heap_rep : heap_rep full_heap [full_block].
Proof.
  assert (Hp : (fa_alloc 4 boot_pmm).1 = b_addr full_block) by (vm_compute; reflexivity).
  destruct (fa_alloc_law 4 boot_pmm boot_pmm_inv ltac:(lia)) as [Hi [He|(_ & _ & _ & Hav & Hav' & Hm & _)]].
  { rewrite He in Hp. discriminate Hp. }
  rewrite Hp in *. constructor.
  - exists (b_addr full_block). cbn [seg]. unfold hdr_ok, full_heap. cbn [h_mem heap_start].
    rewrite hdr_write_hdr. split; [reflexivity|split; [vm_compute; reflexivity|split; reflexivity]].
  - apply layout_cons. split; [|split; [apply layout_nil|intros y []]].
    unfold blk_ok. split; [|split]; vm_compute; discriminate.
  - exact Hi.
  - intros b x [<-|[]] Hx. cbn [h_frames full_heap].
    assert (b_end full_block = b_addr full_block + 4 * PAGE) by (vm_compute; reflexivity).
    rewrite Hm, Hav'. rewrite (proj2 (in_region_true _ _ _)) by lia.
    split; [|done]. apply fa_avail_managed, Hav. lia.
Qed.


(** ** Regions that are not adjacent

    The merge of list neighbours does not look at their addresses.  Here the
    heap owns 16 pages, another user of pmm.c owns the next one, and the heap
    grows by 4 pages behind it.  Once both heap regions are free they are
    merged into one block, and the next large request is given memory that
    covers the other user's page. *)
Definition overlap_trace : option (Z * Z) :=
  match heap_init 8 boot_heap with
  | None => None
  | Some h =>
      let '(page, fr) := fa_alloc 1 (h_frames h) in
      let h := mkHeap (h_mem h) fr (heap_start h) (heap_end h) in
      match kmalloc 1 8 60000 h with
      | None => None
      | Some (p1, h) =>
          match kmalloc 1 8 16000 h with
          | None => None
          | Some (p2, h) =>
              match kfree 8 p1 h with
              | None => None
              | Some h =>
                  match kfree 8 p2 h with
                  | None => None
                  | Some h =>
                      match kmalloc 1 8 70000 h with
                      | Some (p3, _) => Some (page, p3)
                      | None => None
                      end
                  end
              end
          end
      end
  end.

(** The block returned starts below the other user's page and ends after it. *)
Example kfree_merges_distant_regions :
  overlap_trace = Some (HH + 18 * 4096, HH + 2 * 4096 + HDR) /\
  HH + 2 * 4096 + HDR + 70000 > HH + 18 * 4096.
Proof. split; vm_compute; reflexivity. Qed.

(** A request close to the top of the address space wraps around in the
    rounding and is answered with a zero-byte block. *)
Example kmalloc_size_wraps :
  match heap_init 8 boot_heap with
  | Some h => match kmalloc 1 8 (2 ^ 64 - 1) h with
              | Some (p, h') => negb (p =? 0) && (size (hdr (h_mem h') (p - HDR)) =? 0)
              | None => false
              end
  | None => false
  end = true.
Proof. vm_compute. reflexivity. Qed.
