(* ===== verification/Task.v ===== *)
(** * Tasks (kernel/src/proc/sched.h)

    The task structure with one setter per field, and the open file
    descriptions it holds by value.  Pointers to vfs nodes and pipes are
    addresses, 0 being NULL. *)
From S2P Require Import Prelude.

Definition MAX_TASKS : Z := 64.
Definition TASK_NAME_LEN : Z := 32.
Definition KSTACK_PAGES : Z := 32.
Definition MAX_FDS : Z := 16.
Definition NSIG : Z := 32.

Definition SIGINT : Z := 2.
Definition SIGSEGV : Z := 11.
Definition SIGPIPE : Z := 13.
Definition SIGTERM : Z := 15.
Definition SIGKILL : Z := 17.
Definition SIG_DFL : Z := 0.
Definition SIG_IGN : Z := 1.

Inductive task_state := TASK_FREE | TASK_READY | TASK_RUNNING | TASK_BLOCKED.

#[export] Instance task_state_eq_dec : EqDecision task_state.
Proof. solve_decision. Defined.

Definition state_eqb (a b : task_state) : bool := bool_decide (a = b).

Record file := mkFile {
  f_node : Z;
  f_pipe : Z;
  f_flags : Z;
  f_pos : Z;
}.

Definition FDF_CONSOLE_IN : Z := 1.
Definition FDF_CONSOLE_OUT : Z := 2.
Definition FDF_PIPE_RD : Z := 4.
Definition FDF_PIPE_WR : Z := 8.

(** An unused slot of the descriptor table ([memset] to zero). *)
Definition file0 : file := mkFile 0 0 0 0.

Definition set_f_pos (v : Z) (f : file) : file := mkFile (f_node f) (f_pipe f) (f_flags f) v.

(** [t_name] is the name up to its terminator. *)
Record task := mkTask {
  t_pid : Z;
  t_parent_pid : Z;
  t_pgid : Z;
  t_sid : Z;
  t_uid : Z;
  t_state : task_state;
  t_zombie : bool;
  t_exit_status : Z;
  t_name : list Z;
  t_rsp : Z;
  t_uctx_rip : Z;
  t_uctx_rsp : Z;
  t_uctx_rflags : Z;
  t_kstack : Z;
  t_pml4_phys : Z;
  t_user_entry : Z;
  t_user_rsp : Z;
  t_brk_base : Z;
  t_brk_cur : Z;
  t_mmap_top : Z;
  t_fds : list file;
  t_sig_pending : Z;
  t_sig_handler : list Z;
  t_wait_pipe : Z;
}.

Definition set_pid (v : Z) (t : task) : task :=
  mkTask v (t_parent_pid t) (t_pgid t) (t_sid t) (t_uid t) (t_state t) (t_zombie t) (t_exit_status t) (t_name t) (t_rsp t) (t_uctx_rip t) (t_uctx_rsp t)
         (t_uctx_rflags t) (t_kstack t) (t_pml4_phys t) (t_user_entry t) (t_user_rsp t) (t_brk_base t) (t_brk_cur t) (t_mmap_top t) (t_fds t) (t_sig_pending t) (t_sig_handler t) (t_wait_pipe t).
Definition set_parent_pid (v : Z) (t : task) : task :=
  mkTask (t_pid t) v (t_pgid t) (t_sid t) (t_uid t) (t_state t) (t_zombie t) (t_exit_status t) (t_name t) (t_rsp t) (t_uctx_rip t) (t_uctx_rsp t)
         (t_uctx_rflags t) (t_kstack t) (t_pml4_phys t) (t_user_entry t) (t_user_rsp t) (t_brk_base t) (t_brk_cur t) (t_mmap_top t) (t_fds t) (t_sig_pending t) (t_sig_handler t) (t_wait_pipe t).
Definition set_pgid (v : Z) (t : task) : task :=
  mkTask (t_pid t) (t_parent_pid t) v (t_sid t) (t_uid t) (t_state t) (t_zombie t) (t_exit_status t) (t_name t) (t_rsp t) (t_uctx_rip t) (t_uctx_rsp t)
         (t_uctx_rflags t) (t_kstack t) (t_pml4_phys t) (t_user_entry t) (t_user_rsp t) (t_brk_base t) (t_brk_cur t) (t_mmap_top t) (t_fds t) (t_sig_pending t) (t_sig_handler t) (t_wait_pipe t).
Definition set_sid (v : Z) (t : task) : task :=
  mkTask (t_pid t) (t_parent_pid t) (t_pgid t) v (t_uid t) (t_state t) (t_zombie t) (t_exit_status t) (t_name t) (t_rsp t) (t_uctx_rip t) (t_uctx_rsp t)
         (t_uctx_rflags t) (t_kstack t) (t_pml4_phys t) (t_user_entry t) (t_user_rsp t) (t_brk_base t) (t_brk_cur t) (t_mmap_top t) (t_fds t) (t_sig_pending t) (t_sig_handler t) (t_wait_pipe t).
Definition set_uid (v : Z) (t : task) : task :=
  mkTask (t_pid t) (t_parent_pid t) (t_pgid t) (t_sid t) v (t_state t) (t_zombie t) (t_exit_status t) (t_name t) (t_rsp t) (t_uctx_rip t) (t_uctx_rsp t)
         (t_uctx_rflags t) (t_kstack t) (t_pml4_phys t) (t_user_entry t) (t_user_rsp t) (t_brk_base t) (t_brk_cur t) (t_mmap_top t) (t_fds t) (t_sig_pending t) (t_sig_handler t) (t_wait_pipe t).
Definition set_state (v : task_state) (t : task) : task :=
  mkTask (t_pid t) (t_parent_pid t) (t_pgid t) (t_sid t) (t_uid t) v (t_zombie t) (t_exit_status t) (t_name t) (t_rsp t) (t_uctx_rip t) (t_uctx_rsp t)
         (t_uctx_rflags t) (t_kstack t) (t_pml4_phys t) (t_user_entry t) (t_user_rsp t) (t_brk_base t) (t_brk_cur t) (t_mmap_top t) (t_fds t) (t_sig_pending t) (t_sig_handler t) (t_wait_pipe t).
Definition set_zombie (v : bool) (t : task) : task :=
  mkTask (t_pid t) (t_parent_pid t) (t_pgid t) (t_sid t) (t_uid t) (t_state t) v (t_exit_status t) (t_name t) (t_rsp t) (t_uctx_rip t) (t_uctx_rsp t)
         (t_uctx_rflags t) (t_kstack t) (t_pml4_phys t) (t_user_entry t) (t_user_rsp t) (t_brk_base t) (t_brk_cur t) (t_mmap_top t) (t_fds t) (t_sig_pending t) (t_sig_handler t) (t_wait_pipe t).
Definition set_exit_status (v : Z) (t : task) : task :=
  mkTask (t_pid t) (t_parent_pid t) (t_pgid t) (t_sid t) (t_uid t) (t_state t) (t_zombie t) v (t_name t) (t_rsp t) (t_uctx_rip t) (t_uctx_rsp t)
         (t_uctx_rflags t) (t_kstack t) (t_pml4_phys t) (t_user_entry t) (t_user_rsp t) (t_brk_base t) (t_brk_cur t) (t_mmap_top t) (t_fds t) (t_sig_pending t) (t_sig_handler t) (t_wait_pipe t).
Definition set_name (v : list Z) (t : task) : task :=
  mkTask (t_pid t) (t_parent_pid t) (t_pgid t) (t_sid t) (t_uid t) (t_state t) (t_zombie t) (t_exit_status t) v (t_rsp t) (t_uctx_rip t) (t_uctx_rsp t)
         (t_uctx_rflags t) (t_kstack t) (t_pml4_phys t) (t_user_entry t) (t_user_rsp t) (t_brk_base t) (t_brk_cur t) (t_mmap_top t) (t_fds t) (t_sig_pending t) (t_sig_handler t) (t_wait_pipe t).
Definition set_rsp (v : Z) (t : task) : task :=
  mkTask (t_pid t) (t_parent_pid t) (t_pgid t) (t_sid t) (t_uid t) (t_state t) (t_zombie t) (t_exit_status t) (t_name t) v (t_uctx_rip t) (t_uctx_rsp t)
         (t_uctx_rflags t) (t_kstack t) (t_pml4_phys t) (t_user_entry t) (t_user_rsp t) (t_brk_base t) (t_brk_cur t) (t_mmap_top t) (t_fds t) (t_sig_pending t) (t_sig_handler t) (t_wait_pipe t).
Definition set_uctx_rip (v : Z) (t : task) : task :=
  mkTask (t_pid t) (t_parent_pid t) (t_pgid t) (t_sid t) (t_uid t) (t_state t) (t_zombie t) (t_exit_status t) (t_name t) (t_rsp t) v (t_uctx_rsp t)
         (t_uctx_rflags t) (t_kstack t) (t_pml4_phys t) (t_user_entry t) (t_user_rsp t) (t_brk_base t) (t_brk_cur t) (t_mmap_top t) (t_fds t) (t_sig_pending t) (t_sig_handler t) (t_wait_pipe t).
Definition set_uctx_rsp (v : Z) (t : task) : task :=
  mkTask (t_pid t) (t_parent_pid t) (t_pgid t) (t_sid t) (t_uid t) (t_state t) (t_zombie t) (t_exit_status t) (t_name t) (t_rsp t) (t_uctx_rip t) v
         (t_uctx_rflags t) (t_kstack t) (t_pml4_phys t) (t_user_entry t) (t_user_rsp t) (t_brk_base t) (t_brk_cur t) (t_mmap_top t) (t_fds t) (t_sig_pending t) (t_sig_handler t) (t_wait_pipe t).
Definition set_uctx_rflags (v : Z) (t : task) : task :=
  mkTask (t_pid t) (t_parent_pid t) (t_pgid t) (t_sid t) (t_uid t) (t_state t) (t_zombie t) (t_exit_status t) (t_name t) (t_rsp t) (t_uctx_rip t) (t_uctx_rsp t)
         v (t_kstack t) (t_pml4_phys t) (t_user_entry t) (t_user_rsp t) (t_brk_base t) (t_brk_cur t) (t_mmap_top t) (t_fds t) (t_sig_pending t) (t_sig_handler t) (t_wait_pipe t).
Definition set_kstack (v : Z) (t : task) : task :=
  mkTask (t_pid t) (t_parent_pid t) (t_pgid t) (t_sid t) (t_uid t) (t_state t) (t_zombie t) (t_exit_status t) (t_name t) (t_rsp t) (t_uctx_rip t) (t_uctx_rsp t)
         (t_uctx_rflags t) v (t_pml4_phys t) (t_user_entry t) (t_user_rsp t) (t_brk_base t) (t_brk_cur t) (t_mmap_top t) (t_fds t) (t_sig_pending t) (t_sig_handler t) (t_wait_pipe t).
Definition set_pml4_phys (v : Z) (t : task) : task :=
  mkTask (t_pid t) (t_parent_pid t) (t_pgid t) (t_sid t) (t_uid t) (t_state t) (t_zombie t) (t_exit_status t) (t_name t) (t_rsp t) (t_uctx_rip t) (t_uctx_rsp t)
         (t_uctx_rflags t) (t_kstack t) v (t_user_entry t) (t_user_rsp t) (t_brk_base t) (t_brk_cur t) (t_mmap_top t) (t_fds t) (t_sig_pending t) (t_sig_handler t) (t_wait_pipe t).
Definition set_user_entry (v : Z) (t : task) : task :=
  mkTask (t_pid t) (t_parent_pid t) (t_pgid t) (t_sid t) (t_uid t) (t_state t) (t_zombie t) (t_exit_status t) (t_name t) (t_rsp t) (t_uctx_rip t) (t_uctx_rsp t)
         (t_uctx_rflags t) (t_kstack t) (t_pml4_phys t) v (t_user_rsp t) (t_brk_base t) (t_brk_cur t) (t_mmap_top t) (t_fds t) (t_sig_pending t) (t_sig_handler t) (t_wait_pipe t).
Definition set_user_rsp (v : Z) (t : task) : task :=
  mkTask (t_pid t) (t_parent_pid t) (t_pgid t) (t_sid t) (t_uid t) (t_state t) (t_zombie t) (t_exit_status t) (t_name t) (t_rsp t) (t_uctx_rip t) (t_uctx_rsp t)
         (t_uctx_rflags t) (t_kstack t) (t_pml4_phys t) (t_user_entry t) v (t_brk_base t) (t_brk_cur t) (t_mmap_top t) (t_fds t) (t_sig_pending t) (t_sig_handler t) (t_wait_pipe t).
Definition set_brk_base (v : Z) (t : task) : task :=
  mkTask (t_pid t) (t_parent_pid t) (t_pgid t) (t_sid t) (t_uid t) (t_state t) (t_zombie t) (t_exit_status t) (t_name t) (t_rsp t) (t_uctx_rip t) (t_uctx_rsp t)
         (t_uctx_rflags t) (t_kstack t) (t_pml4_phys t) (t_user_entry t) (t_user_rsp t) v (t_brk_cur t) (t_mmap_top t) (t_fds t) (t_sig_pending t) (t_sig_handler t) (t_wait_pipe t).
Definition set_brk_cur (v : Z) (t : task) : task :=
  mkTask (t_pid t) (t_parent_pid t) (t_pgid t) (t_sid t) (t_uid t) (t_state t) (t_zombie t) (t_exit_status t) (t_name t) (t_rsp t) (t_uctx_rip t) (t_uctx_rsp t)
         (t_uctx_rflags t) (t_kstack t) (t_pml4_phys t) (t_user_entry t) (t_user_rsp t) (t_brk_base t) v (t_mmap_top t) (t_fds t) (t_sig_pending t) (t_sig_handler t) (t_wait_pipe t).
Definition set_mmap_top (v : Z) (t : task) : task :=
  mkTask (t_pid t) (t_parent_pid t) (t_pgid t) (t_sid t) (t_uid t) (t_state t) (t_zombie t) (t_exit_status t) (t_name t) (t_rsp t) (t_uctx_rip t) (t_uctx_rsp t)
         (t_uctx_rflags t) (t_kstack t) (t_pml4_phys t) (t_user_entry t) (t_user_rsp t) (t_brk_base t) (t_brk_cur t) v (t_fds t) (t_sig_pending t) (t_sig_handler t) (t_wait_pipe t).
Definition set_fds (v : list file) (t : task) : task :=
  mkTask (t_pid t) (t_parent_pid t) (t_pgid t) (t_sid t) (t_uid t) (t_state t) (t_zombie t) (t_exit_status t) (t_name t) (t_rsp t) (t_uctx_rip t) (t_uctx_rsp t)
         (t_uctx_rflags t) (t_kstack t) (t_pml4_phys t) (t_user_entry t) (t_user_rsp t) (t_brk_base t) (t_brk_cur t) (t_mmap_top t) v (t_sig_pending t) (t_sig_handler t) (t_wait_pipe t).
Definition set_sig_pending (v : Z) (t : task) : task :=
  mkTask (t_pid t) (t_parent_pid t) (t_pgid t) (t_sid t) (t_uid t) (t_state t) (t_zombie t) (t_exit_status t) (t_name t) (t_rsp t) (t_uctx_rip t) (t_uctx_rsp t)
         (t_uctx_rflags t) (t_kstack t) (t_pml4_phys t) (t_user_entry t) (t_user_rsp t) (t_brk_base t) (t_brk_cur t) (t_mmap_top t) (t_fds t) v (t_sig_handler t) (t_wait_pipe t).
Definition set_sig_handler (v : list Z) (t : task) : task :=
  mkTask (t_pid t) (t_parent_pid t) (t_pgid t) (t_sid t) (t_uid t) (t_state t) (t_zombie t) (t_exit_status t) (t_name t) (t_rsp t) (t_uctx_rip t) (t_uctx_rsp t)
         (t_uctx_rflags t) (t_kstack t) (t_pml4_phys t) (t_user_entry t) (t_user_rsp t) (t_brk_base t) (t_brk_cur t) (t_mmap_top t) (t_fds t) (t_sig_pending t) v (t_wait_pipe t).
Definition set_wait_pipe (v : Z) (t : task) : task :=
  mkTask (t_pid t) (t_parent_pid t) (t_pgid t) (t_sid t) (t_uid t) (t_state t) (t_zombie t) (t_exit_status t) (t_name t) (t_rsp t) (t_uctx_rip t) (t_uctx_rsp t)
         (t_uctx_rflags t) (t_kstack t) (t_pml4_phys t) (t_user_entry t) (t_user_rsp t) (t_brk_base t) (t_brk_cur t) (t_mmap_top t) (t_fds t) (t_sig_pending t) (t_sig_handler t) v.

(** [memset(t, 0, sizeof(task_t))]. *)
Definition task0 : task :=
  mkTask 0 0 0 0 0 TASK_FREE false 0 [] 0 0 0 0 0 0 0 0 0 0 0
         (replicate 16 file0) 0 (replicate 32 0) 0.

(** The descriptor [fd] of a task; outside the table there is none. *)
Definition fd_at (t : task) (fd : Z) : file := znth file0 (t_fds t) fd.
Definition set_fd (fd : Z) (f : file) (t : task) : task := set_fds (zinsert fd f (t_fds t)) t.

Definition runnable (t : task) : bool := state_eqb (t_state t) TASK_READY || state_eqb (t_state t) TASK_RUNNING.

Lemma state_eqb_true a b : state_eqb a b = true <-> a = b.
Proof. apply bool_decide_eq_true. Qed.
Lemma state_eqb_false a b : state_eqb a b = false <-> a <> b.
Proof. apply bool_decide_eq_false. Qed.

Create Rewrite HintDb task.
