(* ===== verification/Sched.v ===== *)
(** * Scheduler (kernel/src/proc/sched.c)

    The task table, the current task and the saved user context of the CPU.
    [current] is an index into the table.  The kernel stack pointer of the
    running code is [cpu_rsp]; [context_switch] (proc/context.S) pushes six
    registers before it saves it, and pops them from the new stack.  The
    kernel's own page-table root, a variable of pmap.c, is the argument
    [kernel_pml4]. *)
From S2P Require Import Prelude Mem FrameAlloc Pmm Task.

Record cpu_data := mkCpu {
  kstack_top : Z;
  user_rsp : Z;
  user_rip : Z;
  user_rflags : Z;
}.

Record sched := mkSched {
  tasks : list task;
  current : option Z;
  scheduling_started : bool;
  next_pid : Z;
  init_pid : Z;
  bsp_cpu : cpu_data;
  tss_rsp0 : Z;
  cr3 : Z;                    (* what pmap_load loaded last *)
  cpu_rsp : Z;
  ticks : Z;
  g_uptime_ticks : Z;
  g_resched_requested : bool;
}.

Definition set_tasks (v : list task) (s : sched) : sched :=
  mkSched v (current s) (scheduling_started s) (next_pid s) (init_pid s) (bsp_cpu s) (tss_rsp0 s) (cr3 s)
          (cpu_rsp s) (ticks s) (g_uptime_ticks s) (g_resched_requested s).
Definition set_next_pid (v : Z) (s : sched) : sched :=
  mkSched (tasks s) (current s) (scheduling_started s) v (init_pid s) (bsp_cpu s) (tss_rsp0 s) (cr3 s)
          (cpu_rsp s) (ticks s) (g_uptime_ticks s) (g_resched_requested s).
Definition set_init_pid (v : Z) (s : sched) : sched :=
  mkSched (tasks s) (current s) (scheduling_started s) (next_pid s) v (bsp_cpu s) (tss_rsp0 s) (cr3 s)
          (cpu_rsp s) (ticks s) (g_uptime_ticks s) (g_resched_requested s).
Definition set_started (v : bool) (s : sched) : sched :=
  mkSched (tasks s) (current s) v (next_pid s) (init_pid s) (bsp_cpu s) (tss_rsp0 s) (cr3 s)
          (cpu_rsp s) (ticks s) (g_uptime_ticks s) (g_resched_requested s).
Definition set_resched (v : bool) (s : sched) : sched :=
  mkSched (tasks s) (current s) (scheduling_started s) (next_pid s) (init_pid s) (bsp_cpu s) (tss_rsp0 s) (cr3 s)
          (cpu_rsp s) (ticks s) (g_uptime_ticks s) v.
Definition set_bsp_cpu (v : cpu_data) (s : sched) : sched :=
  mkSched (tasks s) (current s) (scheduling_started s) (next_pid s) (init_pid s) v (tss_rsp0 s) (cr3 s)
          (cpu_rsp s) (ticks s) (g_uptime_ticks s) (g_resched_requested s).

(** Read and update slot [i] of the table. *)
Definition task_at (s : sched) (i : Z) : task := znth task0 (tasks s) i.
Definition upd_task (i : Z) (f : task -> task) (s : sched) : sched :=
  set_tasks (zinsert i (f (task_at s i)) (tasks s)) s.

Definition sched_get_current (s : sched) : option Z := current s.

Definition sched_wake (i : Z) (s : sched) : sched :=
  let t := task_at s i in
  if state_eqb (t_state t) TASK_BLOCKED && negb (t_zombie t)
  then upd_task i (set_state TASK_READY) s else s.

(** First index in [i, i+n) whose slot satisfies [f]. *)
Fixpoint find_slot (f : task -> bool) (n : nat) (i : Z) (s : sched) : option Z :=
  match n with
  | O => None
  | S n' => if f (task_at s i) then Some i else find_slot f n' (i + 1) s
  end.

Definition alloc_slot (s : sched) : option Z :=
  find_slot (fun t => state_eqb (t_state t) TASK_FREE) (Z.to_nat MAX_TASKS) 0 s.

Definition sched_find_pid (pid : Z) (s : sched) : option Z :=
  find_slot (fun t => negb (state_eqb (t_state t) TASK_FREE) && (t_pid t =? pid)) (Z.to_nat MAX_TASKS) 0 s.

Definition sched_task_at (index : Z) : option Z :=
  if (index <? 0) || (MAX_TASKS <=? index) then None else Some index.

(** [strncpy(t->name, name, TASK_NAME_LEN - 1)] into a zeroed array. *)
Definition task_name (name : list Z) : list Z := take 31 name.

Section WithFrames.
Context {A : Type} `{FrameAlloc A}.

(** The initial kernel stack: [entry] is popped by [context_switch]'s return. *)
Definition task_prepare_stack (entry : Z) (t : task) (k : kmem A) : bool * task * kmem A :=
  let '(kstack, fr) := fa_alloc KSTACK_PAGES (km_frames k) in
  let t := set_kstack kstack t in
  if kstack =? 0 then (false, t, mkKmem (km_mem k) fr)
  else
    let top := kstack + KSTACK_PAGES * PAGE in
    let m := store64 (km_mem k) (top - 8) entry in
    let m := for_range 6 2 (fun i m => store64 m (top - 8 * i) 0) m in
    (true, set_rsp (top - 56) t, mkKmem m fr).

(** [idle_entry] is the address of [idle_task]. *)
Definition sched_init (idle_entry : Z) (s : sched) (k : kmem A) : sched * kmem A :=
  let s := set_next_pid 1 (set_tasks (replicate 64 task0) s) in
  match alloc_slot s with
  | None => (s, k)
  | Some i =>
      let '(ok, t, k) := task_prepare_stack idle_entry (task_at s i) k in
      if negb ok then (upd_task i (fun _ => t) s, k)
      else
        let t := set_name (task_name [105; 100; 108; 101])
                   (set_state TASK_READY (set_parent_pid 0 (set_pid 0 t))) in
        (upd_task i (fun _ => t) s, k)
  end.

Definition sched_create_kernel_task (entry : Z) (name : list Z) (s : sched) (k : kmem A) : Z * sched * kmem A :=
  match alloc_slot s with
  | None => (-1, s, k)
  | Some i =>
      let t := set_name (task_name name)
                 (set_state TASK_READY (set_parent_pid 0 (set_pid (next_pid s) task0))) in
      let s := set_next_pid (next_pid s + 1) s in
      let '(ok, t, k) := task_prepare_stack entry t k in
      if negb ok then (-1, upd_task i (fun _ => set_state TASK_FREE t) s, k)
      else (t_pid t, upd_task i (fun _ => t) s, k)
  end.

(** [console_fds] are the shared descriptions of syscall.c; [first_entry] is
    the address of [enter_first_userspace]. *)
Definition sched_spawn_user_task (console_fds : list (option file)) (first_entry : Z) (name : list Z)
    (pml4_phys entry user_rsp parent_pid : Z) (s : sched) (k : kmem A) : Z * sched * kmem A :=
  match alloc_slot s with
  | None => (-1, s, k)
  | Some i =>
      let t := set_pid (next_pid s) task0 in
      let s := set_next_pid (next_pid s + 1) s in
      let t := set_uid 1000 (set_sid parent_pid (set_pgid parent_pid (set_parent_pid parent_pid t))) in
      let t := set_user_rsp user_rsp (set_user_entry entry (set_pml4_phys pml4_phys (set_state TASK_READY t))) in
      let t := set_name (task_name name) (set_uctx_rflags 0x202 t) in
      let '(ok, t, k) := task_prepare_stack first_entry t k in
      if negb ok then (-1, upd_task i (fun _ => set_state TASK_FREE t) s, k)
      else
        let t := for_range 3 0 (fun j t => match znth None console_fds j with
                                            | Some f => set_fd j f t
                                            | None => t
                                            end) t in
        let t := set_mmap_top 0x50000000 t in
        let s := if init_pid s <? 0 then set_init_pid (t_pid t) s else s in
        (t_pid t, upd_task i (fun _ => t) s, k)
  end.
End WithFrames.

(** [context_switch(prev ? &prev->rsp : NULL, next->rsp)]. *)
Definition context_switch (prev : option Z) (new_rsp : Z) (s : sched) : sched :=
  let s := match prev with
           | Some p => upd_task p (set_rsp (cpu_rsp s .- 48)) s
           | None => s
           end in
  mkSched (tasks s) (current s) (scheduling_started s) (next_pid s) (init_pid s) (bsp_cpu s) (tss_rsp0 s) (cr3 s)
          (new_rsp .+ 48) (ticks s) (g_uptime_ticks s) (g_resched_requested s).

Definition switch_to (kernel_pml4 : Z) (nxt : Z) (s : sched) : sched :=
  let t := task_at s nxt in
  let ktop := t_kstack t .+ KSTACK_PAGES * PAGE in
  let root := if t_pml4_phys t =? 0 then kernel_pml4 else t_pml4_phys t in
  let c := bsp_cpu s in
  let prev := current s in
  let s := match prev with
           | Some p => upd_task p (fun t => set_uctx_rflags (user_rflags c)
                                      (set_uctx_rsp (user_rsp c) (set_uctx_rip (user_rip c) t))) s
           | None => s
           end in
  let t := task_at s nxt in
  let cpu := mkCpu ktop (t_uctx_rsp t) (t_uctx_rip t) (t_uctx_rflags t) in
  let s := mkSched (tasks s) (Some nxt) (scheduling_started s) (next_pid s) (init_pid s) cpu ktop root
             (cpu_rsp s) (ticks s) (g_uptime_ticks s) (g_resched_requested s) in
  context_switch prev (t_rsp (task_at s nxt)) s.

(** The round-robin search: [i] from 1, [n] candidates left. *)
Fixpoint pick_next (n : nat) (i start prev : Z) (s : sched) : Z :=
  match n with
  | O => prev
  | S n' =>
      let cand := (start + i) mod MAX_TASKS in
      if runnable (task_at s cand) then cand else pick_next n' (i + 1) start prev s
  end.

Definition sched_yield (kernel_pml4 : Z) (s : sched) : sched :=
  if negb (scheduling_started s) then s
  else match current s with
  | None => s
  | Some prev =>
      let nxt := pick_next (Z.to_nat MAX_TASKS) 1 prev prev s in
      if nxt =? prev then s
      else
        let s := if state_eqb (t_state (task_at s prev)) TASK_RUNNING
                 then upd_task prev (fun t => set_state (if t_zombie t then TASK_BLOCKED else TASK_READY) t) s
                 else s in
        switch_to kernel_pml4 nxt (upd_task nxt (set_state TASK_RUNNING) s)
  end.

Definition sched_timer_tick (s : sched) : sched :=
  let tk := ticks s .+ 1 in
  mkSched (tasks s) (current s) (scheduling_started s) (next_pid s) (init_pid s) (bsp_cpu s) (tss_rsp0 s) (cr3 s)
          (cpu_rsp s) tk (g_uptime_ticks s .+ 1)
          (if scheduling_started s && (tk mod 5 =? 0) then true else g_resched_requested s).

(** [for (i = MAX_TASKS - 1; i > 0; i--)] *)
Fixpoint find_first_ready (i : nat) (s : sched) : option Z :=
  match i with
  | O => None
  | S i' => if state_eqb (t_state (task_at s (Z.of_nat i))) TASK_READY then Some (Z.of_nat i)
            else find_first_ready i' s
  end.

Definition sched_start (kernel_pml4 : Z) (s : sched) : sched :=
  let s := set_started true s in
  match find_first_ready 63 s with
  | None => s
  | Some first => switch_to kernel_pml4 first (upd_task first (set_state TASK_RUNNING) s)
  end.

(** One turn of [idle_task]'s loop. *)
Definition idle_step (kernel_pml4 : Z) (s : sched) : sched :=
  if g_resched_requested s then sched_yield kernel_pml4 (set_resched false s) else s.

(** * Theorems *)

Definition slot_ok (i : Z) : Prop := 0 <= i < MAX_TASKS.

(** The table has its 64 slots and [current] is one of them. *)
Definition sched_wf (s : sched) : Prop :=
  zlen (tasks s) = MAX_TASKS /\ (forall c, current s = Some c -> slot_ok c).

Lemma task_at_upd s i f j :
  sched_wf s -> slot_ok i -> task_at (upd_task i f s) j = if j =? i then f (task_at s i) else task_at s j.
Proof.
  intros [Hl _] Hi. unfold task_at, upd_task, slot_ok in *. cbn [tasks set_tasks].
  destruct (Z.eqb_spec j i) as [->|Hne].
  - rewrite znth_zinsert_eq by lia. done.
  - rewrite znth_zinsert_ne by lia. done.
Qed.

Lemma upd_task_wf s i f : sched_wf s -> sched_wf (upd_task i f s).
Proof. intros [Hl Hc]. split; [|done]. unfold upd_task. cbn [tasks set_tasks]. by rewrite zlen_insert. Qed.

Lemma find_slot_some f n i s j : find_slot f n i s = Some j -> i <= j < i + Z.of_nat n /\ f (task_at s j) = true.
Proof.
  revert i. induction n as [|n IH]; intros i; cbn [find_slot]; [done|].
  destruct (f (task_at s i)) eqn:E; intros Hj.
  - simplify_eq. split; [lia|done].
  - apply IH in Hj as [? ?]. split; [lia|done].
Qed.

Lemma find_slot_none f n i s : find_slot f n i s = None -> forall j, i <= j < i + Z.of_nat n -> f (task_at s j) = false.
Proof.
  revert i. induction n as [|n IH]; intros i; cbn [find_slot]; [intros; lia|].
  destruct (f (task_at s i)) eqn:E; [done|]. intros Hn j Hj.
  destruct (decide (j = i)) as [->|]; [done|]. apply (IH (i + 1)); [done|lia].
Qed.

Lemma alloc_slot_some s i : alloc_slot s = Some i -> slot_ok i /\ t_state (task_at s i) = TASK_FREE.
Proof.
  intros Ha. apply find_slot_some in Ha as [Hi Hf]. apply state_eqb_true in Hf.
  unfold slot_ok, MAX_TASKS in *. split; [lia|done].
Qed.

(** ** Round robin *)

(** Number of slots from [c] forward to [j], at least 1. *)
Definition ahead (c j : Z) : Z := (j - c - 1) mod MAX_TASKS + 1.

Lemma ahead_range c j : 1 <= ahead c j <= MAX_TASKS.
Proof. unfold ahead, MAX_TASKS. lia. Qed.
Lemma ahead_eq c k : 1 <= k <= MAX_TASKS -> ahead c ((c + k) mod MAX_TASKS) = k.
Proof. unfold ahead, MAX_TASKS. lia. Qed.
Lemma ahead_inv c j : slot_ok j -> (c + ahead c j) mod MAX_TASKS = j.
Proof. unfold ahead, slot_ok, MAX_TASKS. lia. Qed.

Lemma pick_next_spec n i start prev s :
  (exists k, i <= k < i + Z.of_nat n /\ pick_next n i start prev s = (start + k) mod MAX_TASKS /\
     runnable (task_at s ((start + k) mod MAX_TASKS)) = true /\
     forall k', i <= k' < k -> runnable (task_at s ((start + k') mod MAX_TASKS)) = false) \/
  (pick_next n i start prev s = prev /\
   forall k', i <= k' < i + Z.of_nat n -> runnable (task_at s ((start + k') mod MAX_TASKS)) = false).
Proof.
  revert i. induction n as [|n IH]; intros i; cbn [pick_next]; [right; split; [done|intros; lia]|].
  destruct (runnable _) eqn:E.
  - left. exists i. split_and!; [lia|lia|done|done|intros; lia].
  - destruct (IH (i + 1)) as [(k & Hk & -> & Hr & Hmin)|[-> Hnone]].
    + left. exists k. split_and!; [lia|lia|done|done|]. intros k' Hk'.
      destruct (decide (k' = i)) as [->|]; [done|apply Hmin; lia].
    + right. split; [done|]. intros k' Hk'. destruct (decide (k' = i)) as [->|]; [done|apply Hnone; lia].
Qed.

(** The slot sched_yield chooses from slot [c]. *)
Definition chosen (c n : Z) (s : sched) : Prop :=
  slot_ok n /\
  (runnable (task_at s n) = true /\ (forall j, slot_ok j -> runnable (task_at s j) = true -> ahead c n <= ahead c j) \/
   n = c /\ forall j, slot_ok j -> runnable (task_at s j) = false).

Lemma pick_next_chosen c s : slot_ok c -> chosen c (pick_next (Z.to_nat MAX_TASKS) 1 c c s) s.
Proof.
  intros Hc. destruct (pick_next_spec (Z.to_nat MAX_TASKS) 1 c c s) as [(k & Hk & -> & Hr & Hmin)|[-> Hnone]].
  - split; [unfold slot_ok, MAX_TASKS; lia|]. left. split; [done|]. intros j Hj Hrj.
    change (Z.of_nat (Z.to_nat MAX_TASKS)) with MAX_TASKS in Hk. rewrite ahead_eq by lia.
    destruct (decide (ahead c j < k)) as [Hlt|]; [|lia].
    pose proof (ahead_range c j). specialize (Hmin (ahead c j)). rewrite ahead_inv in Hmin by done.
    rewrite Hmin in Hrj by lia. done.
  - split; [done|]. right. split; [done|]. intros j Hj. rewrite <- (ahead_inv c j Hj). apply Hnone.
    pose proof (ahead_range c j). change (Z.of_nat (Z.to_nat MAX_TASKS)) with MAX_TASKS. lia.
Qed.

(** A task as [switch_to] leaves it when it is switched out. *)
Definition parked (s : sched) (t : task) : task :=
  set_rsp (cpu_rsp s .- 48)
    (set_uctx_rflags (user_rflags (bsp_cpu s))
      (set_uctx_rsp (user_rsp (bsp_cpu s)) (set_uctx_rip (user_rip (bsp_cpu s)) t))).

(** What [switch_to] from [c] to [n] does. *)
Definition switched (kp c n : Z) (s s' : sched) : Prop :=
  let t := task_at s n in
  sched_wf s' /\ current s' = Some n /\ scheduling_started s' = scheduling_started s /\ next_pid s' = next_pid s /\
  (forall j, task_at s' j = if j =? c then parked s (task_at s c) else task_at s j) /\
  bsp_cpu s' = mkCpu (t_kstack t .+ KSTACK_PAGES * PAGE) (t_uctx_rsp t) (t_uctx_rip t) (t_uctx_rflags t) /\
  cr3 s' = (if t_pml4_phys t =? 0 then kp else t_pml4_phys t) /\
  cpu_rsp s' = t_rsp t .+ 48.

Lemma switch_to_spec kp s c n :
  sched_wf s -> current s = Some c -> slot_ok n -> n <> c -> switched kp c n s (switch_to kp n s).
Proof.
  intros Hwf Hcur Hn Hne. assert (Hc : slot_ok c) by by apply Hwf.
  unfold switch_to. rewrite Hcur. set (f := fun t : task => _). set (s1 := upd_task c f s).
  assert (Hwf1 : sched_wf s1) by by apply upd_task_wf.
  assert (H1 : forall j, task_at s1 j = if j =? c then f (task_at s c) else task_at s j)
    by (intros; by apply task_at_upd).
  assert (Hn1 : task_at s1 n = task_at s n) by (rewrite H1; by rewrite (proj2 (Z.eqb_neq n c))).
  cbv zeta. rewrite Hn1. unfold context_switch. cbv zeta. set (s2 := mkSched (tasks s1) _ _ _ _ _ _ _ _ _ _ _).
  assert (Hwf2 : sched_wf s2).
  { split; [apply Hwf1|]. intros k. cbn [current s2]. intros [= <-]. done. }
  assert (H2 : forall j, task_at s2 j = task_at s1 j) by done.
  unfold switched.
  assert (Hf : forall j, task_at (upd_task c (set_rsp (cpu_rsp s2 .- 48)) s2) j =
    if j =? c then parked s (task_at s c) else task_at s j).
  { intros j. rewrite task_at_upd by done. rewrite !H2, !H1, Z.eqb_refl. by destruct (j =? c). }
  split_and!; try done.
  - pose proof (upd_task_wf s2 c (set_rsp (cpu_rsp s2 .- 48)) Hwf2) as Hwf3. done.
  - cbn [cpu_rsp]. by rewrite H2, Hn1.
Qed.

(** The slot state sched_yield leaves for the task it takes off the CPU. *)
Definition off_cpu (t : task) : task :=
  if state_eqb (t_state t) TASK_RUNNING then set_state (if t_zombie t then TASK_BLOCKED else TASK_READY) t else t.

Lemma sched_yield_spec kp s c n :
  sched_wf s -> scheduling_started s = true -> current s = Some c ->
  n = pick_next (Z.to_nat MAX_TASKS) 1 c c s -> n <> c ->
  let s' := sched_yield kp s in
  let t := task_at s n in
  sched_wf s' /\ current s' = Some n /\ scheduling_started s' = true /\ next_pid s' = next_pid s /\
  task_at s' c = parked s (off_cpu (task_at s c)) /\
  task_at s' n = set_state TASK_RUNNING t /\
  (forall j, j <> c -> j <> n -> task_at s' j = task_at s j) /\
  bsp_cpu s' = mkCpu (t_kstack t .+ KSTACK_PAGES * PAGE) (t_uctx_rsp t) (t_uctx_rip t) (t_uctx_rflags t) /\
  cr3 s' = (if t_pml4_phys t =? 0 then kp else t_pml4_phys t) /\
  cpu_rsp s' = t_rsp t .+ 48.
Proof.
  intros Hwf Hst Hcur Hn Hne. assert (Hc : slot_ok c) by by apply Hwf.
  assert (Hnn : slot_ok n) by (rewrite Hn; by apply pick_next_chosen).
  unfold sched_yield. rewrite Hst, Hcur. cbn [negb]. rewrite <- Hn.
  destruct (Z.eqb_spec n c) as [|_]; [done|].
  set (s0 := if state_eqb _ _ then _ else _).
  assert (Hs0 : sched_wf s0 /\ current s0 = Some c /\ bsp_cpu s0 = bsp_cpu s /\ cpu_rsp s0 = cpu_rsp s /\
    scheduling_started s0 = true /\ next_pid s0 = next_pid s /\
    (forall j, task_at s0 j = if j =? c then off_cpu (task_at s c) else task_at s j)).
  { unfold s0, off_cpu. destruct (state_eqb _ _); split_and!; try done; [by apply upd_task_wf| |].
    - intros j. rewrite task_at_upd by done. done.
    - intros j. destruct (Z.eqb_spec j c); by subst. }
  destruct Hs0 as (Hwf0 & Hcur0 & Hcpu0 & Hrsp0 & Hst0 & Hnp0 & H0). clearbody s0.
  pose (s1 := upd_task n (set_state TASK_RUNNING) s0). fold s1.
  assert (Hwf1 : sched_wf s1) by by apply upd_task_wf.
  assert (H1 : forall j, task_at s1 j = if j =? n then set_state TASK_RUNNING (task_at s0 n) else task_at s0 j)
    by (intros; by apply task_at_upd).
  destruct (switch_to_spec kp s1 c n Hwf1 Hcur0 Hnn Hne) as (Hw & Hcu & Hs & Hnp & Hts & Hcp & Hcr & Hrs).
  rewrite H1, Z.eqb_refl, H0, (proj2 (Z.eqb_neq n c) Hne) in Hcp, Hcr, Hrs.
  cbv zeta. split_and!; try done.
  - by rewrite Hs.
  - by rewrite Hnp.
  - rewrite Hts, Z.eqb_refl, H1, (proj2 (Z.eqb_neq c n)), H0, Z.eqb_refl by done.
    unfold parked. change (bsp_cpu s1) with (bsp_cpu s0). change (cpu_rsp s1) with (cpu_rsp s0).
    by rewrite Hcpu0, Hrsp0.
  - rewrite Hts, (proj2 (Z.eqb_neq n c) Hne), H1, Z.eqb_refl, H0, (proj2 (Z.eqb_neq n c) Hne). done.
  - intros j Hj Hj'. apply Z.eqb_neq in Hj, Hj'. by rewrite Hts, Hj, H1, Hj', H0, Hj.
Qed.

Lemma sched_yield_stay kp s c :
  scheduling_started s = true -> current s = Some c -> pick_next (Z.to_nat MAX_TASKS) 1 c c s = c ->
  sched_yield kp s = s.
Proof. intros Hst Hc Hp. unfold sched_yield. rewrite Hst, Hc, Hp, Z.eqb_refl. done. Qed.

(** C7: round robin.  [sched_yield] moves the CPU to the first runnable slot
    after the current one in cyclic order: it parks the user context, the
    kernel stack pointer and the scheduling state of the old task in its slot,
    restores those of the new one together with its kernel stack top and
    address space, and changes no other task.  When no other task is runnable
    nothing changes. *)
Theorem sched_yield_round_robin kp s c :
  sched_wf s -> scheduling_started s = true -> current s = Some c ->
  exists n, chosen c n s /\
    let s' := sched_yield kp s in
    let t := task_at s n in
    sched_wf s' /\
    (n = c -> s' = s) /\
    (n <> c ->
      current s' = Some n /\
      task_at s' c = parked s (off_cpu (task_at s c)) /\
      task_at s' n = set_state TASK_RUNNING t /\
      (forall j, j <> c -> j <> n -> task_at s' j = task_at s j) /\
      bsp_cpu s' = mkCpu (t_kstack t .+ KSTACK_PAGES * PAGE) (t_uctx_rsp t) (t_uctx_rip t) (t_uctx_rflags t) /\
      cr3 s' = (if t_pml4_phys t =? 0 then kp else t_pml4_phys t) /\
      cpu_rsp s' = t_rsp t .+ 48).
Proof.
  intros Hwf Hst Hcur. exists (pick_next (Z.to_nat MAX_TASKS) 1 c c s).
  split; [apply pick_next_chosen, Hwf, Hcur|]. cbv zeta.
  destruct (decide (pick_next (Z.to_nat MAX_TASKS) 1 c c s = c)) as [He|He].
  - rewrite (sched_yield_stay kp s c) by done. done.
  - destruct (sched_yield_spec kp s c _ Hwf Hst Hcur eq_refl He) as (H1 & H2 & _ & _ & H3 & H4 & H5 & H6 & H7 & H8).
    done.
Qed.

(** A runnable task other than the current one comes closer at each yield. *)
Lemma sched_yield_closer kp s c j :
  sched_wf s -> scheduling_started s = true -> current s = Some c -> slot_ok j -> j <> c ->
  runnable (task_at s j) = true ->
  exists n, let s' := sched_yield kp s in
    sched_wf s' /\ scheduling_started s' = true /\ current s' = Some n /\ slot_ok n /\
    (j - n) mod MAX_TASKS < (j - c) mod MAX_TASKS /\ (n <> j -> runnable (task_at s' j) = true).
Proof.
  intros Hwf Hst Hcur Hj Hjc Hr. assert (Hc : slot_ok c) by by apply Hwf.
  set (n := pick_next (Z.to_nat MAX_TASKS) 1 c c s). destruct (pick_next_chosen c s Hc) as [Hn Hch]. fold n in Hn, Hch.
  destruct Hch as [[Hrn Hmin]|[_ Hnone]]; [|by rewrite Hnone in Hr].
  specialize (Hmin j Hj Hr). unfold ahead, slot_ok, MAX_TASKS in *.
  assert (Hne : n <> c) by lia. exists n.
  destruct (sched_yield_spec kp s c n Hwf Hst Hcur eq_refl Hne) as (H1 & H2 & H3 & _ & _ & _ & H5 & _).
  cbv zeta. split_and!; try done; try lia. intros Hnj. by rewrite H5.
Qed.

(** C25: no starvation.  While every task keeps its scheduling state otherwise,
    a runnable task gets the CPU after at most 63 calls of [sched_yield]. *)
Theorem sched_yield_fair kp s c j :
  sched_wf s -> scheduling_started s = true -> current s = Some c -> slot_ok j ->
  runnable (task_at s j) = true ->
  exists k, (k < 64)%nat /\ current (Nat.iter k (sched_yield kp) s) = Some j.
Proof.
  intros Hwf Hst Hcur Hj Hr.
  assert (Hd : exists k, Z.of_nat k <= (j - c) mod MAX_TASKS /\ current (Nat.iter k (sched_yield kp) s) = Some j).
  { remember (Z.to_nat ((j - c) mod MAX_TASKS)) as d eqn:Ed. revert s c Hwf Hst Hcur Hr Ed.
    induction d as [d IH] using lt_wf_ind. intros s c Hwf Hst Hcur Hr Ed.
    assert (Hc : slot_ok c) by by apply Hwf.
    destruct (decide (j = c)) as [->|Hne]; [exists O; split; [unfold MAX_TASKS; lia|done]|].
    destruct (sched_yield_closer kp s c j) as (n & Hwf' & Hst' & Hcur' & Hn & Hlt & Hr'); try done.
    destruct (decide (n = j)) as [->|Hnj].
    - exists 1%nat. split; [unfold slot_ok, MAX_TASKS in *; lia|done].
    - destruct (IH (Z.to_nat ((j - n) mod MAX_TASKS))) with (s := sched_yield kp s) (c := n) as (k & Hk & Hcu);
        [unfold MAX_TASKS in *; lia|done|done|done|by apply Hr'|done|].
      exists (S k). split; [lia|]. rewrite Nat.iter_succ_r. done. }
  destruct Hd as (k & Hk & Hcu). exists k. split; [unfold MAX_TASKS in Hk; lia|done].
Qed.

(** ** Reachable states *)

Section Reachable.
Context {A : Type} `{FrameAlloc A}.
Variable kernel_pml4 : Z.

Implicit Types (s : sched) (k : kmem A).

(** What the system-call layer does to the slot of a user task between two
    scheduler operations: it keeps the pid, and the task stays in its state,
    blocks, or is freed. *)
Definition local_change (f : task -> task) (t : task) : Prop :=
  t_pid (f t) = t_pid t /\ t_state t <> TASK_FREE /\
  (t_state (f t) = t_state t \/ t_state (f t) = TASK_BLOCKED \/ t_state (f t) = TASK_FREE).

Inductive sched_step : sched * kmem A -> sched * kmem A -> Prop :=
| ss_create entry name s k :
    let r := sched_create_kernel_task entry name s k in sched_step (s, k) (r.1.2, r.2)
| ss_spawn con first name root entry ursp parent s k :
    let r := sched_spawn_user_task con first name root entry ursp parent s k in sched_step (s, k) (r.1.2, r.2)
| ss_yield s k : sched_step (s, k) (sched_yield kernel_pml4 s, k)
| ss_idle s k : sched_step (s, k) (idle_step kernel_pml4 s, k)
| ss_tick s k : sched_step (s, k) (sched_timer_tick s, k)
| ss_start s k : scheduling_started s = false -> current s = None ->
    sched_step (s, k) (sched_start kernel_pml4 s, k)
| ss_wake i s k : slot_ok i -> sched_step (s, k) (sched_wake i s, k)
| ss_cpu c s k : sched_step (s, k) (set_bsp_cpu c s, k)
| ss_local i f s k : slot_ok i -> i <> 0 -> local_change f (task_at s i) ->
    sched_step (s, k) (upd_task i f s, k).

Definition used (t : task) : Prop := t_state t <> TASK_FREE.

Record sched_inv s : Prop := {
  si_wf : sched_wf s;
  si_running : forall i, t_state (task_at s i) = TASK_RUNNING -> current s = Some i;
  si_pids : forall i j, slot_ok i -> slot_ok j -> used (task_at s i) -> used (task_at s j) ->
    t_pid (task_at s i) = t_pid (task_at s j) -> i = j;
  si_next : forall i, slot_ok i -> used (task_at s i) -> 0 <= t_pid (task_at s i) < next_pid s;
  si_idle : runnable (task_at s 0) = true /\ t_zombie (task_at s 0) = false /\ t_pid (task_at s 0) = 0;
}.

(** Changing slot [i] keeps the invariant when the new contents respect it. *)
Lemma sched_inv_upd s s' i (t : task) :
  sched_inv s -> slot_ok i -> sched_wf s' -> current s' = current s -> next_pid s <= next_pid s' ->
  (forall j, task_at s' j = if j =? i then t else task_at s j) ->
  (t_state t = TASK_RUNNING -> current s = Some i) ->
  (used t -> 0 <= t_pid t < next_pid s' /\
     ((used (task_at s i) /\ t_pid t = t_pid (task_at s i)) \/ next_pid s <= t_pid t)) ->
  (i = 0 -> runnable t = true /\ t_zombie t = false /\ t_pid t = 0) ->
  sched_inv s'.
Proof.
  intros [Hwf Hrun Hpid Hnext Hidle] Hi Hwf' Hcur Hnp Hts Hrt Hut H0.
  constructor; [done| | | |].
  - intros j. rewrite Hts, Hcur. destruct (Z.eqb_spec j i) as [->|]; auto.
  - assert (Hi' : forall j, slot_ok j -> used t -> used (task_at s j) -> j <> i -> t_pid t <> t_pid (task_at s j)).
    { intros j Hj Ht Hu Hne He. destruct (Hut Ht) as [_ [[Hui Hp]|Hp]].
      - apply Hne, Hpid; congruence.
      - pose proof (Hnext j Hj Hu). lia. }
    intros a b Ha Hb. rewrite !Hts. destruct (Z.eqb_spec a i) as [->|Hai], (Z.eqb_spec b i) as [->|Hbi]; try done.
    + intros Hu Hu' He. exfalso. by apply (Hi' b).
    + intros Hu Hu' He. exfalso. by apply (Hi' a).
    + by apply Hpid.
  - intros j Hj. rewrite Hts. destruct (Z.eqb_spec j i) as [->|]; intros Hu; [by apply Hut|].
    specialize (Hnext j Hj Hu). lia.
  - rewrite Hts. destruct (Z.eqb_spec 0 i) as [<-|]; [by apply H0|done].
Qed.

(** Nor does it matter what happens to the rest of a slot. *)
Lemma sched_inv_same s s' :
  sched_inv s -> sched_wf s' -> next_pid s' = next_pid s ->
  (forall j, (used (task_at s' j) <-> used (task_at s j)) /\ t_pid (task_at s' j) = t_pid (task_at s j)) ->
  (forall i, t_state (task_at s' i) = TASK_RUNNING -> current s' = Some i) ->
  runnable (task_at s' 0) = true -> t_zombie (task_at s' 0) = false ->
  sched_inv s'.
Proof.
  intros [Hwf Hrun Hpid Hnext Hidle] Hwf' Hnp Hsame Hrun' H0 Hz.
  constructor; [done|done| | |].
  - intros i j Hi Hj. destruct (Hsame i) as [-> ->], (Hsame j) as [-> ->]. by apply Hpid.
  - intros i Hi. destruct (Hsame i) as [-> ->]. rewrite Hnp. by apply Hnext.
  - destruct (Hsame 0) as [_ ->]. split_and!; [done|done|apply Hidle].
Qed.

Lemma used_runnable t : runnable t = true -> used t.
Proof. unfold runnable, used, state_eqb. intros Hr He. by rewrite He in Hr. Qed.

(** Taking a task off the CPU keeps what the invariant looks at. *)
Lemma off_cpu_keeps s t :
  let t' := parked s (off_cpu t) in
  (used t' <-> used t) /\ t_pid t' = t_pid t /\ t_zombie t' = t_zombie t /\ t_state t' <> TASK_RUNNING /\
  (t_zombie t = false -> runnable t = true -> runnable t' = true).
Proof.
  unfold off_cpu, used, runnable. destruct (state_eqb (t_state t) TASK_RUNNING) eqn:E.
  - apply state_eqb_true in E. rewrite E. cbn. destruct (t_zombie t); split_and!; done.
  - apply state_eqb_false in E. cbn. split_and!; try done.
    intros _ Hr. rewrite orb_false_r in Hr. by rewrite Hr.
Qed.

Lemma sched_yield_inv s : sched_inv s -> sched_inv (sched_yield kernel_pml4 s).
Proof.
  intros Hinv. pose proof Hinv as [Hwf Hrun Hpid Hnext Hidle].
  destruct (scheduling_started s) eqn:Hst; [|unfold sched_yield; by rewrite Hst].
  destruct (current s) as [c|] eqn:Hcur; [|unfold sched_yield; by rewrite Hst, Hcur].
  set (n := pick_next (Z.to_nat MAX_TASKS) 1 c c s).
  assert (Hc : slot_ok c) by by apply Hwf.
  destruct (decide (n = c)) as [He|He]; [by rewrite (sched_yield_stay _ s c)|].
  destruct (sched_yield_spec kernel_pml4 s c n Hwf Hst Hcur eq_refl He)
    as (Hwf' & Hcur' & _ & Hnp' & Htc & Htn & Hto & _).
  destruct (off_cpu_keeps s (task_at s c)) as (Hu & Hp & Hz & Hs & Hr).
  assert (Hrn : runnable (task_at s n) = true).
  { destruct (pick_next_chosen c s Hc) as [_ [[? _]|[Hn _]]]; [done|]. by fold n in Hn. }
  assert (Hcase : forall (P : Z -> task -> Prop), P c (parked s (off_cpu (task_at s c))) ->
    P n (set_state TASK_RUNNING (task_at s n)) -> (forall j, j <> c -> j <> n -> P j (task_at s j)) ->
    forall j, P j (task_at (sched_yield kernel_pml4 s) j)).
  { intros P H1 H2 H3 j. destruct (decide (j = c)) as [->|]; [by rewrite Htc|].
    destruct (decide (j = n)) as [->|]; [by rewrite Htn|]. rewrite Hto; auto. }
  apply (sched_inv_same s); try done.
  - apply (Hcase (fun j t => (used t <-> used (task_at s j)) /\ t_pid t = t_pid (task_at s j))); [done| |done].
    split; [|done]. split; intros; [by apply used_runnable|done].
  - apply (Hcase (fun j t => t_state t = TASK_RUNNING -> current _ = Some j)); [done|done|].
    intros j Hjc Hjn Hj. apply Hrun in Hj. congruence.
  - apply (Hcase (fun j t => j = 0 -> runnable t = true)); [| |intros; subst; apply Hidle|done].
    + intros ->. apply Hr; apply Hidle.
    + done.
  - apply (Hcase (fun j t => j = 0 -> t_zombie t = false)); [| |intros; subst; apply Hidle|done].
    + intros ->. rewrite Hz. apply Hidle.
    + intros ->. apply Hidle.
Qed.
Lemma sched_wake_inv i s : slot_ok i -> sched_inv s -> sched_inv (sched_wake i s).
Proof.
  intros Hi Hinv. unfold sched_wake. destruct (_ && _) eqn:E; [|done].
  apply andb_true_iff in E as [E Hz]. apply state_eqb_true in E. apply negb_true_iff in Hz.
  pose proof Hinv as [Hwf Hrun Hpid Hnext Hidle].
  assert (Hu : used (task_at s i)) by (unfold used; by rewrite E).
  apply (sched_inv_upd s _ i (set_state TASK_READY (task_at s i))); try done.
  - by apply upd_task_wf.
  - intros j. by apply task_at_upd.
  - intros _. split; [by apply Hnext|]. by left.
  - intros ->. destruct Hidle as [Hr _]. unfold runnable in Hr. by rewrite E in Hr.
Qed.

Lemma sched_local_inv i f s :
  slot_ok i -> i <> 0 -> local_change f (task_at s i) -> sched_inv s -> sched_inv (upd_task i f s).
Proof.
  intros Hi Hi0 (Hp & Hu & Hst) Hinv. pose proof Hinv as [Hwf Hrun Hpid Hnext Hidle].
  apply (sched_inv_upd s _ i (f (task_at s i))); try done.
  - by apply upd_task_wf.
  - intros j. by apply task_at_upd.
  - intros Hr. apply Hrun. destruct Hst as [?|[?|?]]; congruence.
  - intros _. rewrite Hp. split; [by apply Hnext|by left].
Qed.

(** A slot taken for a new task: free before, numbered [next_pid] after. *)
Lemma new_task_inv s s' i t :
  sched_inv s -> alloc_slot s = Some i -> tasks s' = zinsert i t (tasks s) -> current s' = current s ->
  next_pid s' = next_pid s + 1 -> t_state t <> TASK_RUNNING -> t_pid t = next_pid s -> sched_inv s'.
Proof.
  intros Hinv Ha Ht Hcur Hnp Hst Hp. pose proof Hinv as [Hwf Hrun Hpid Hnext Hidle].
  apply alloc_slot_some in Ha as [Hi Hf].
  assert (Hts : forall j, task_at s' j = if j =? i then t else task_at s j).
  { intros j. rewrite <- (task_at_upd s i (fun _ => t) j Hwf Hi). unfold task_at, upd_task. by rewrite Ht. }
  assert (0 <= next_pid s).
  { destruct Hidle as (Hr & _). apply used_runnable in Hr. pose proof (Hnext 0). unfold slot_ok, MAX_TASKS in *. lia. }
  apply (sched_inv_upd s s' i t); try done.
  - destruct Hwf as [Hl Hc]. split; [by rewrite Ht, zlen_insert|by rewrite Hcur].
  - lia.
  - intros _. rewrite Hp, Hnp. split; [lia|right; lia].
  - intros ->. destruct Hidle as (Hr & _). unfold runnable in Hr. by rewrite Hf in Hr.
Qed.

Lemma prepare_stack_keeps entry t k :
  let r := task_prepare_stack entry t k in t_pid r.1.2 = t_pid t /\ t_state r.1.2 = t_state t.
Proof. unfold task_prepare_stack. destruct (fa_alloc _ _) as [ks fr]. by destruct (ks =? 0). Qed.

Lemma sched_create_inv entry name s k :
  sched_inv s -> sched_inv (sched_create_kernel_task entry name s k).1.2.
Proof.
  intros Hinv. unfold sched_create_kernel_task. destruct (alloc_slot s) as [i|] eqn:Ha; [|done].
  set (t := set_name _ _). pose proof (prepare_stack_keeps entry t k) as [Hp Hst].
  change (t_state t) with TASK_READY in Hst. change (t_pid t) with (next_pid s) in Hp.
  destruct (task_prepare_stack entry t k) as [[ok t'] k']. cbn [fst snd] in *.
  destruct ok; cbn [negb fst snd]; (eapply (new_task_inv s); [done|exact Ha|reflexivity|done|done|..]); cbn; congruence.
Qed.

Lemma sched_spawn_inv con first name root entry ursp parent s k :
  sched_inv s -> sched_inv (sched_spawn_user_task con first name root entry ursp parent s k).1.2.
Proof.
  intros Hinv. unfold sched_spawn_user_task. destruct (alloc_slot s) as [i|] eqn:Ha; [|done].
  set (t := set_name _ _). pose proof (prepare_stack_keeps first t k) as [Hp Hst].
  change (t_state t) with TASK_READY in Hst. change (t_pid t) with (next_pid s) in Hp.
  destruct (task_prepare_stack first t k) as [[ok t'] k']. cbn [fst snd] in *.
  destruct ok; cbn [negb fst snd].
  - set (t2 := for_range 3 0 _ t').
    assert (Ht2 : t_pid t2 = t_pid t' /\ t_state t2 = t_state t').
    { apply (for_range_ind (fun _ x => t_pid x = t_pid t' /\ t_state x = t_state t')); [done|].
      intros j x _ Hx. by destruct (znth None con j). }
    destruct Ht2 as [Hp2 Hs2]. clearbody t2 t. rewrite Hp in Hp2. rewrite Hst in Hs2.
    cbn [init_pid set_next_pid]. destruct (init_pid s <? 0);
      (eapply (new_task_inv s); [done|exact Ha|reflexivity|done|done|..]); cbn; congruence.
  - eapply (new_task_inv s); [done|exact Ha|reflexivity|done|done|..]; cbn; congruence.
Qed.
Lemma find_first_ready_some n s j :
  find_first_ready n s = Some j -> 0 < j <= Z.of_nat n /\ t_state (task_at s j) = TASK_READY.
Proof.
  induction n as [|n IH]; [done|]. cbn [find_first_ready]. destruct (state_eqb _ _) eqn:E; intros Hj.
  - simplify_eq. apply state_eqb_true in E. split; [lia|done].
  - apply IH in Hj as [? ?]. split; [lia|done].
Qed.

Lemma sched_start_inv s :
  sched_inv s -> scheduling_started s = false -> current s = None -> sched_inv (sched_start kernel_pml4 s).
Proof.
  intros Hinv Hst Hcur. pose proof Hinv as [Hwf Hrun Hpid Hnext Hidle]. unfold sched_start.
  destruct (find_first_ready 63 (set_started true s)) as [j|] eqn:Hf; [|by destruct Hinv].
  apply find_first_ready_some in Hf as [Hj Hr].
  assert (Hsj : slot_ok j) by (unfold slot_ok, MAX_TASKS; lia).
  set (s1 := upd_task j (set_state TASK_RUNNING) (set_started true s)).
  assert (H1 : forall i, task_at s1 i = if i =? j then set_state TASK_RUNNING (task_at s j) else task_at s i).
  { intros i. unfold s1. by rewrite task_at_upd. }
  unfold switch_to, context_switch. change (current s1) with (current s). rewrite Hcur. cbv zeta.
  assert (Hj0 : (0 =? j) = false) by (apply Z.eqb_neq; lia).
  match goal with |- sched_inv ?x => set (s' := x) end.
  assert (Hts : forall i, task_at s' i = if i =? j then set_state TASK_RUNNING (task_at s j) else task_at s i)
    by (intros; by rewrite <- H1).
  apply (sched_inv_same s); try done.
  - split; [apply (upd_task_wf s j (set_state TASK_RUNNING) Hwf)|]. by intros c [= <-].
  - intros i. rewrite Hts. destruct (Z.eqb_spec i j) as [->|]; [|tauto]. split; [|done].
    change (task_at (set_started true s) j) with (task_at s j) in Hr. unfold used. cbn. by rewrite Hr.
  - intros i. rewrite Hts. destruct (Z.eqb_spec i j) as [->|]; [done|]. intros Hi. apply Hrun in Hi. congruence.
  - rewrite Hts, Hj0. apply Hidle.
  - rewrite Hts, Hj0. apply Hidle.
Qed.

Lemma sched_step_inv x y : sched_step x y -> sched_inv x.1 -> sched_inv y.1.
Proof.
  intros Hs Hi. destruct Hs; cbn [fst snd] in *.
  - by apply sched_create_inv.
  - by apply sched_spawn_inv.
  - by apply sched_yield_inv.
  - unfold idle_step. destruct (g_resched_requested s); [|done]. apply sched_yield_inv. by destruct Hi.
  - by destruct Hi.
  - by apply sched_start_inv.
  - by apply sched_wake_inv.
  - by destruct Hi.
  - by apply sched_local_inv.
Qed.

Lemma sched_init_inv idle s k :
  current s = None -> (fa_alloc KSTACK_PAGES (km_frames k)).1 <> 0 -> sched_inv (sched_init idle s k).1.
Proof.
  intros Hcur Hal. unfold sched_init, task_prepare_stack.
  change (alloc_slot (set_next_pid 1 (set_tasks (replicate 64 task0) s))) with (Some 0).
  destruct (fa_alloc _ _) as [ks fr]. cbn [fst] in Hal. cbv beta iota zeta.
  rewrite (proj2 (Z.eqb_neq ks 0) Hal). cbn [negb fst snd].
  set (s1 := set_next_pid 1 _). set (t := set_name _ _).
  assert (Hwf1 : sched_wf s1) by (split; [reflexivity|intros c Hc; cbn in Hc; congruence]).
  assert (H1 : forall j, task_at s1 j = task0).
  { intros j. unfold task_at, znth, zlookup. cbn [tasks s1 set_next_pid set_tasks]. destruct (j <? 0); [done|].
    destruct (replicate 64 task0 !! Z.to_nat j) eqn:E; [|done]. by apply lookup_replicate in E as [-> _]. }
  assert (Hts : forall j, task_at (upd_task 0 (fun _ => t) s1) j = if j =? 0 then t else task0).
  { intros j. rewrite task_at_upd, H1 by (done || unfold slot_ok, MAX_TASKS; lia). done. }
  constructor.
  - by apply upd_task_wf.
  - intros i. rewrite Hts. by destruct (i =? 0).
  - intros i j _ _. rewrite !Hts. unfold used. destruct (Z.eqb_spec i 0), (Z.eqb_spec j 0); cbn; congruence.
  - intros i _. rewrite Hts. unfold used. destruct (Z.eqb_spec i 0); cbn; [lia|done].
  - rewrite Hts. done.
Qed.

Lemma tick_reachable (x : sched * kmem A) : rtc sched_step x (sched_timer_tick x.1, x.2).
Proof. destruct x as [s k]. apply rtc_once, ss_tick. Qed.

End Reachable.

(** ** Witnesses: three tasks in slots 0, 2 and 5, slot 2 running *)

Definition demo_task (pid : Z) (st : task_state) : task :=
  set_uctx_rip (0x400000 + pid) (set_state st (set_pid pid task0)).
Definition demo_sched : sched :=
  mkSched (<[0%nat := demo_task 0 TASK_READY]> (<[2%nat := demo_task 7 TASK_RUNNING]>
            (<[5%nat := demo_task 8 TASK_READY]> (replicate 64 task0))))
          (Some 2) true 9 7 (mkCpu 0 0x7000 0x1234 0x202) 0 0 0x9000 0 0 false.

Lemma demo_sched_wf : sched_wf demo_sched.
Proof. split; [reflexivity|]. intros c [= <-]. unfold slot_ok, MAX_TASKS. lia. Qed.

Lemma sched_yield_round_robin_witness :
  exists n, chosen 2 n demo_sched /\ sched_wf (sched_yield 0x1000 demo_sched) /\
    (n <> 2 -> current (sched_yield 0x1000 demo_sched) = Some n).
Proof.
  destruct (sched_yield_round_robin 0x1000 demo_sched 2 demo_sched_wf eq_refl eq_refl)
    as (n & Hch & Hwf & _ & Hn).
  exists n. split; [exact Hch|]. split; [exact Hwf|]. intros Hne. destruct (Hn Hne) as [Hc _]. exact Hc.
Defined.

Lemma sched_yield_fair_witness :
  exists k, (k < 64)%nat /\ current (Nat.iter k (sched_yield 0x1000) demo_sched) = Some 0.
Proof.
  apply (sched_yield_fair 0x1000 demo_sched 2 0 demo_sched_wf eq_refl eq_refl).
  - unfold slot_ok, MAX_TASKS. lia.
  - reflexivity.
Defined.

Definition demo_frames : pmm :=
  pmm_init 0xffff800000000000 (Some [mkEntry 4096 (64 * 4096) 0]) (pmm_boot (fun _ => 0)).
Definition blank_sched : sched :=
  mkSched [] None false 0 (-1) (mkCpu 0 0 0 0) 0 0 0 0 0 false.

