(* ===== verification/Pipe.v ===== *)
(** * Pipes (kernel/src/fs/pipe.c)

    A pipe is a 256-byte ring with reader and writer counts.  [pipe_read] and
    [pipe_write] loop: each turn either finishes the call, moves bytes and
    goes round again, or parks the task and gives up the CPU.  A turn is one
    definition ([pipe_read_turn], [pipe_write_turn]); the kernel is not
    preempted inside a turn, and between two turns of a call any other task
    may run.  The theorems are about every interleaving of turns. *)
From S2P Require Import Prelude Mem FrameAlloc Pmm Task Sched.

Definition PIPE_SIZE : Z := 256.

Record pipe := mkPipe {
  p_buf : list Z;
  p_head : Z;
  p_tail : Z;
  p_len : Z;
  p_readers : Z;
  p_writers : Z;
}.

Definition pipe0 : pipe := mkPipe (replicate 256 0) 0 0 0 0 0.

(** [p] is what kmalloc returned for the structure; NULL gives no pipe. *)
Definition pipe_create (p : Z) : option pipe :=
  if p =? 0 then None else Some (mkPipe (replicate 256 0) 0 0 0 1 1).

Definition pipe_ref (rd wr : Z) (q : pipe) : pipe :=
  mkPipe (p_buf q) (p_head q) (p_tail q) (p_len q) (p_readers q + rd) (p_writers q + wr).

(** The body of the loop of [pipe_wake] for slot [i]. *)
Definition wake_slot (p : Z) (i : Z) (s : sched) : sched :=
  match sched_task_at i with
  | None => s
  | Some i =>
      let t := task_at s i in
      if state_eqb (t_state t) TASK_BLOCKED && (t_wait_pipe t =? p)
      then sched_wake i (upd_task i (set_wait_pipe 0) s) else s
  end.

Definition pipe_wake (p : Z) (s : sched) : sched := for_range (Z.to_nat MAX_TASKS) 0 (wake_slot p) s.

(** [None]: the structure was freed. *)
Definition pipe_unref (p rd wr : Z) (q : pipe) (s : sched) : option pipe * sched :=
  let q := mkPipe (p_buf q) (p_head q) (p_tail q) (p_len q) (p_readers q - rd) (p_writers q - wr) in
  let s := pipe_wake p s in
  (if (p_readers q <=? 0) && (p_writers q <=? 0) then None else Some q, s).

Definition sig_abort (t : task) : bool := negb (t_sig_pending t =? 0).

(** [for (i = 0; i < got; i++)]: take bytes at the tail. *)
Fixpoint take_bytes (got : nat) (q : pipe) : list Z * pipe :=
  match got with
  | O => ([], q)
  | S g =>
      let b := znth 0 (p_buf q) (p_tail q) in
      let '(r, q) := take_bytes g (mkPipe (p_buf q) (p_head q) ((p_tail q + 1) mod PIPE_SIZE) (p_len q)
                                     (p_readers q) (p_writers q)) in
      (b :: r, q)
  end.

(** [while (done < n && p->len < sizeof(p->buf))]: put bytes at the head;
    returns what is left to write. *)
Fixpoint put_bytes (rest : list Z) (q : pipe) : list Z * pipe :=
  match rest with
  | [] => ([], q)
  | b :: r =>
      if p_len q <? PIPE_SIZE
      then put_bytes r (mkPipe (zinsert (p_head q) b (p_buf q)) ((p_head q + 1) mod PIPE_SIZE) (p_tail q)
                          (p_len q + 1) (p_readers q) (p_writers q))
      else (rest, q)
  end.

(** [cur->wait_pipe = p; cur->state = TASK_BLOCKED; sched_yield();] *)
Definition park (kp p c : Z) (s : sched) : sched :=
  sched_yield kp (upd_task c (fun t => set_state TASK_BLOCKED (set_wait_pipe p t)) s).

(** After [sched_yield] returns to the task. *)
Definition unpark (c : Z) (s : sched) : sched := upd_task c (set_wait_pipe 0) s.

Inductive read_result := RdReturn (ret : Z) (data : list Z) | RdPark.

Definition pipe_read_turn (kp p c n : Z) (q : pipe) (s : sched) : read_result * pipe * sched :=
  if 0 <? p_len q then
    let got := if n <? p_len q then n else p_len q in
    let '(data, q) := take_bytes (Z.to_nat got) q in
    let q := mkPipe (p_buf q) (p_head q) (p_tail q) (p_len q - got) (p_readers q) (p_writers q) in
    (RdReturn (s32 got) data, q, pipe_wake p s)
  else if p_writers q =? 0 then (RdReturn 0 [], q, s)
  else if sig_abort (task_at s c) then (RdReturn (-1) [], q, s)
  else (RdPark, q, park kp p c s).

Inductive write_result := WrReturn (ret : Z) | WrMore (rest : list Z) | WrPark.

(** [n] is the length of the whole buffer, [rest] what is not written yet. *)
Definition pipe_write_turn (kp p c n : Z) (rest : list Z) (q : pipe) (s : sched) : write_result * pipe * sched :=
  match rest with
  | [] => (WrReturn (s32 n), q, s)
  | _ =>
      if p_readers q =? 0 then (WrReturn (-1), q, s)
      else if sig_abort (task_at s c) then (WrReturn (-1), q, s)
      else if p_len q <? PIPE_SIZE then
        let '(rest, q) := put_bytes rest q in (WrMore rest, q, pipe_wake p s)
      else (WrPark, q, park kp p c s)
  end.

(** * Theorems *)

Record pipe_ok (q : pipe) : Prop := {
  po_buf : zlen (p_buf q) = PIPE_SIZE;
  po_tail : 0 <= p_tail q < PIPE_SIZE;
  po_len : 0 <= p_len q <= PIPE_SIZE;
  po_head : p_head q = (p_tail q + p_len q) mod PIPE_SIZE;
}.

(** The bytes in the ring, oldest first: [n] bytes from index [i]. *)
Fixpoint ring (n : nat) (i : Z) (buf : list Z) : list Z :=
  match n with
  | O => []
  | S n' => znth 0 buf i :: ring n' ((i + 1) mod PIPE_SIZE) buf
  end.

Definition contents (q : pipe) : list Z := ring (Z.to_nat (p_len q)) (p_tail q) (p_buf q).

Lemma ring_length n i buf : length (ring n i buf) = n.
Proof. revert i. induction n as [|n IH]; intros i; cbn [ring length]; [done|]. by rewrite IH. Qed.

Lemma ring_insert_out n i buf j b :
  0 <= i < PIPE_SIZE -> 0 <= j < PIPE_SIZE -> Z.of_nat n <= (j - i) mod PIPE_SIZE ->
  ring n i (zinsert j b buf) = ring n i buf.
Proof.
  revert i. induction n as [|n IH]; intros i Hi Hj Hn; cbn [ring]; [done|].
  unfold PIPE_SIZE in *. rewrite znth_zinsert_ne by lia. rewrite IH; [done|lia|lia|].
  clear IH. lia.
Qed.

Lemma ring_app a b i buf :
  0 <= i < PIPE_SIZE -> ring (a + b) i buf = ring a i buf ++ ring b ((i + Z.of_nat a) mod PIPE_SIZE) buf.
Proof.
  revert i. induction a as [|a IH]; intros i Hi; cbn [Nat.add ring app].
  - f_equal. unfold PIPE_SIZE in *. lia.
  - rewrite IH by (unfold PIPE_SIZE in *; lia). do 3 f_equal. unfold PIPE_SIZE in *. lia.
Qed.

Lemma take_bytes_eq g q :
  0 <= p_tail q < PIPE_SIZE ->
  take_bytes g q =
    (ring g (p_tail q) (p_buf q),
     mkPipe (p_buf q) (p_head q) ((p_tail q + Z.of_nat g) mod PIPE_SIZE) (p_len q) (p_readers q) (p_writers q)).
Proof.
  revert q. induction g as [|g IH]; intros q Ht; cbn [take_bytes ring].
  - destruct q. cbn in *. do 2 f_equal. unfold PIPE_SIZE in *. lia.
  - rewrite IH by (cbn [p_tail]; unfold PIPE_SIZE in *; lia).
    cbn [p_buf p_head p_tail p_len p_readers p_writers]. do 2 f_equal. unfold PIPE_SIZE in *. lia.
Qed.

Lemma put_bytes_spec l q :
  pipe_ok q ->
  let r := put_bytes l q in
  pipe_ok r.2 /\ p_readers r.2 = p_readers q /\ p_writers r.2 = p_writers q /\
  (exists w, l = w ++ r.1 /\ contents r.2 = contents q ++ w /\ p_len r.2 = p_len q + zlen w) /\
  (r.1 = [] \/ p_len r.2 = PIPE_SIZE).
Proof.
  revert q. induction l as [|b l IH]; intros q Hok; cbn [put_bytes].
  { cbv zeta. cbn [fst snd]. split_and!; try done; [|by left]. exists []. split_and!; [done|by rewrite app_nil_r|unfold zlen; cbn [length]; lia]. }
  destruct (Z.ltb_spec (p_len q) PIPE_SIZE) as [Hlt|Hge]; cbv zeta.
  - set (q1 := mkPipe _ _ _ _ _ _). pose proof Hok as [Hb Ht Hl Hh].
    assert (Hok1 : pipe_ok q1).
    { constructor; cbn [q1 p_buf p_tail p_len p_head]; [by rewrite zlen_insert|done|lia|].
      rewrite Hh. unfold PIPE_SIZE in *. lia. }
    destruct (IH q1 Hok1) as (H1 & H2 & H3 & (w & Hw & Hc & Hlen) & Hf). cbn [q1 p_readers p_writers p_len] in H2, H3, Hlen.
    split_and!; try done. exists (b :: w). split_and!; [by cbn [app]; f_equal| |unfold zlen in *; cbn [length]; lia].
    rewrite Hc. assert (Hq1 : contents q1 = contents q ++ [b]); [|by rewrite Hq1, <- app_assoc].
    unfold contents. cbn [q1 p_len p_tail p_buf].
    replace (Z.to_nat (p_len q + 1)) with (Z.to_nat (p_len q) + 1)%nat by lia.
    assert (Hhr : 0 <= p_head q < PIPE_SIZE) by (rewrite Hh; unfold PIPE_SIZE; lia).
    rewrite ring_app by done. rewrite ring_insert_out; [|done|done|rewrite Hh; unfold PIPE_SIZE in *; lia].
    f_equal. cbn [ring]. rewrite Z2Nat.id, <- Hh by lia. rewrite znth_zinsert_eq by lia. done.
  - cbn [fst snd]. split_and!; try done; [|right; destruct Hok; lia].
    exists []. split_and!; [done|by rewrite app_nil_r|unfold zlen; cbn [length]; lia].
Qed.

(** ** One turn *)

Lemma pipe_read_turn_data kp p c n q s :
  pipe_ok q -> 0 < p_len q -> 0 <= n ->
  exists data q', pipe_read_turn kp p c n q s = (RdReturn (zlen data) data, q', pipe_wake p s) /\
    pipe_ok q' /\ contents q = data ++ contents q' /\ zlen data = Z.min n (p_len q) /\
    p_readers q' = p_readers q /\ p_writers q' = p_writers q.
Proof.
  intros [Hb Ht Hl Hh] H0 Hn. unfold pipe_read_turn. rewrite (proj2 (Z.ltb_lt _ _) H0).
  rewrite take_bytes_eq by done. set (got := if n <? p_len q then n else p_len q).
  assert (Hg : got = Z.min n (p_len q)) by (unfold got; ifs; lia). clearbody got.
  assert (Hz : zlen (ring (Z.to_nat got) (p_tail q) (p_buf q)) = got) by (unfold zlen; rewrite ring_length; lia).
  eexists _, _. split_and!; [rewrite Hz, s32_small by (unfold PIPE_SIZE in *; lia); reflexivity|..];
    cbn [p_readers p_writers]; try done; [| |lia].
  - constructor; cbn [p_buf p_tail p_len p_head]; try done; [unfold PIPE_SIZE in *; lia|lia|].
    rewrite Hh, Z2Nat.id by lia. unfold PIPE_SIZE in *. lia.
  - unfold contents. cbn [p_len p_tail p_buf]. rewrite Z2Nat.id by lia.
    replace (Z.to_nat (p_len q)) with (Z.to_nat got + Z.to_nat (p_len q - got))%nat by lia.
    rewrite ring_app by done. do 3 f_equal. lia.
Qed.

(** ** Waking *)

Definition parked_on (p : Z) (s : sched) (i : Z) : Prop :=
  slot_ok i /\ t_state (task_at s i) = TASK_BLOCKED /\ t_wait_pipe (task_at s i) = p.

Lemma sched_wake_spec i s :
  sched_wf s -> slot_ok i ->
  sched_wf (sched_wake i s) /\ current (sched_wake i s) = current s /\
  (forall j, j <> i -> task_at (sched_wake i s) j = task_at s j) /\
  t_wait_pipe (task_at (sched_wake i s) i) = t_wait_pipe (task_at s i).
Proof.
  intros Hwf Hi. unfold sched_wake. cbv zeta. destruct (_ && _); [|done].
  split_and!; [by apply upd_task_wf|done| |].
  - intros j Hj. rewrite task_at_upd by done. by rewrite (proj2 (Z.eqb_neq _ _) Hj).
  - rewrite task_at_upd by done. by rewrite Z.eqb_refl.
Qed.

Lemma wake_slot_spec p i s :
  p <> 0 -> sched_wf s -> slot_ok i ->
  let s' := wake_slot p i s in
  sched_wf s' /\ current s' = current s /\ ~ parked_on p s' i /\ (forall j, j <> i -> task_at s' j = task_at s j).
Proof.
  intros Hp Hwf Hi. unfold wake_slot, sched_task_at. unfold slot_ok in Hi.
  destruct (Z.ltb_spec i 0); [lia|]. destruct (Z.leb_spec MAX_TASKS i); [lia|]. cbn [orb].
  destruct (state_eqb _ _ && _) eqn:E; cbv zeta.
  - set (s1 := upd_task i (set_wait_pipe 0) s). assert (Hwf1 : sched_wf s1) by by apply upd_task_wf.
    assert (H1 : forall j, task_at s1 j = if j =? i then set_wait_pipe 0 (task_at s i) else task_at s j)
      by (intros; by apply task_at_upd).
    destruct (sched_wake_spec i s1 Hwf1 Hi) as (Hw & Hc & Ho & Hwp). split_and!; [done|done| |].
    + intros (_ & _ & He). rewrite Hwp, H1, Z.eqb_refl in He. done.
    + intros j Hj. apply Z.eqb_neq in Hj as Hj'. by rewrite Ho, H1, Hj'.
  - split_and!; try done. intros (_ & Hb & He). apply andb_false_iff in E as [E|E].
    + by apply state_eqb_false in E.
    + apply Z.eqb_neq in E. done.
Qed.

Lemma pipe_wake_spec p s :
  p <> 0 -> sched_wf s ->
  sched_wf (pipe_wake p s) /\ current (pipe_wake p s) = current s /\ (forall i, ~ parked_on p (pipe_wake p s) i).
Proof.
  intros Hp Hwf.
  pose (P := fun (k : Z) (s' : sched) => sched_wf s' /\ current s' = current s /\
               (forall i, 0 <= i < k -> ~ parked_on p s' i)).
  assert (HP : P (0 + Z.of_nat (Z.to_nat MAX_TASKS)) (pipe_wake p s)).
  { unfold pipe_wake. apply (for_range_ind P); [split_and!; [done|done|intros; lia]|]. intros i s' Hi (Hw & Hc & Hn).
    destruct (wake_slot_spec p i s' Hp Hw) as (Hw' & Hc' & Hi' & Ho); [unfold slot_ok, MAX_TASKS in *; lia|].
    split_and!; [done|congruence|]. intros j Hj. destruct (decide (j = i)) as [->|Hne]; [done|].
    intros Hpk. apply (Hn j); [lia|]. unfold parked_on in *. by rewrite Ho in Hpk. }
  destruct HP as (H1 & H2 & H3). split_and!; [done|done|]. intros i Hpk. apply (H3 i); [|done].
  destruct Hpk as [Hi _]. unfold slot_ok, MAX_TASKS in *. lia.
Qed.

Lemma park_spec kp p c s :
  sched_wf s -> current s = Some c ->
  sched_wf (park kp p c s) /\ (forall i, i <> c -> parked_on p (park kp p c s) i -> parked_on p s i).
Proof.
  intros Hwf Hc. assert (Hsc : slot_ok c) by by apply Hwf. unfold park. set (s1 := upd_task c _ s).
  assert (Hwf1 : sched_wf s1) by by apply upd_task_wf.
  assert (H1 : forall j, j <> c -> task_at s1 j = task_at s j).
  { intros j Hj. unfold s1. rewrite task_at_upd by done. by rewrite (proj2 (Z.eqb_neq _ _) Hj). }
  assert (Hs1 : forall i, i <> c -> parked_on p s1 i -> parked_on p s i).
  { intros i Hi. unfold parked_on. by rewrite H1. }
  destruct (scheduling_started s1) eqn:Hst; [|unfold sched_yield; by rewrite Hst].
  set (n := pick_next (Z.to_nat MAX_TASKS) 1 c c s1).
  destruct (decide (n = c)) as [He|He]; [by rewrite (sched_yield_stay _ s1 c)|].
  destruct (sched_yield_spec kp s1 c n Hwf1 Hst Hc eq_refl He) as (Hwf' & _ & _ & _ & _ & Htn & Hto & _).
  split; [done|]. intros i Hi Hpk. apply Hs1; [done|]. unfold parked_on in *.
  destruct (decide (i = n)) as [->|]; [rewrite Htn in Hpk; by destruct Hpk as (_ & ? & _)|].
  by rewrite Hto in Hpk.
Qed.

Lemma unpark_spec c s :
  sched_wf s -> current s = Some c ->
  sched_wf (unpark c s) /\ t_wait_pipe (task_at (unpark c s) c) = 0 /\
  (forall j, j <> c -> task_at (unpark c s) j = task_at s j).
Proof.
  intros Hwf Hc. assert (Hsc : slot_ok c) by by apply Hwf. unfold unpark.
  split_and!; [by apply upd_task_wf| |].
  - rewrite task_at_upd by done. by rewrite Z.eqb_refl.
  - intros j Hj. rewrite task_at_upd by done. by rewrite (proj2 (Z.eqb_neq _ _) Hj).
Qed.

(** ** All interleavings *)

Inductive pipe_op :=
| OpNone
| OpRead (n : Z)
| OpReadParked (n : Z)
| OpWrite (n : Z) (rest : list Z)
| OpWriteParked (n : Z) (rest : list Z).

(** The pipe, the scheduler, what each task is doing with the pipe, and the
    bytes that entered and left it so far. *)
Record psys := mkPsys {
  ps_pipe : pipe;
  ps_sched : sched;
  ps_op : Z -> pipe_op;
  ps_written : list Z;
  ps_read : list Z;
}.

Definition read_next (n : Z) (r : read_result) : pipe_op :=
  match r with RdReturn _ _ => OpNone | RdPark => OpReadParked n end.
Definition read_data (r : read_result) : list Z :=
  match r with RdReturn _ d => d | RdPark => [] end.
Definition write_next (n : Z) (rest : list Z) (r : write_result) : pipe_op :=
  match r with WrReturn _ => OpNone | WrMore rest' => OpWrite n rest' | WrPark => OpWriteParked n rest end.
(** The bytes of [rest] that a turn put into the ring. *)
Definition write_data (rest : list Z) (r : write_result) : list Z :=
  match r with WrMore rest' => take (length rest - length rest') rest | _ => [] end.

Section Interleavings.
Variables (kp p : Z).

Inductive pipe_step : psys -> psys -> Prop :=
| pst_call_read c n q s op w r : current s = Some c -> op c = OpNone -> 0 <= n ->
    pipe_step (mkPsys q s op w r) (mkPsys q s (<[c := OpRead n]> op) w r)
| pst_call_write c data q s op w r : current s = Some c -> op c = OpNone ->
    pipe_step (mkPsys q s op w r) (mkPsys q s (<[c := OpWrite (zlen data) data]> op) w r)
| pst_read c n q s op w r res q' s' : current s = Some c -> op c = OpRead n ->
    pipe_read_turn kp p c n q s = (res, q', s') ->
    pipe_step (mkPsys q s op w r) (mkPsys q' s' (<[c := read_next n res]> op) w (r ++ read_data res))
| pst_write c n rest q s op w r res q' s' : current s = Some c -> op c = OpWrite n rest ->
    pipe_write_turn kp p c n rest q s = (res, q', s') ->
    pipe_step (mkPsys q s op w r) (mkPsys q' s' (<[c := write_next n rest res]> op) (w ++ write_data rest res) r)
| pst_resume_read c n q s op w r : current s = Some c -> op c = OpReadParked n ->
    pipe_step (mkPsys q s op w r) (mkPsys q (unpark c s) (<[c := OpRead n]> op) w r)
| pst_resume_write c n rest q s op w r : current s = Some c -> op c = OpWriteParked n rest ->
    pipe_step (mkPsys q s op w r) (mkPsys q (unpark c s) (<[c := OpWrite n rest]> op) w r)
| pst_ref rd wr q s op w r : 0 <= rd -> 0 <= wr -> 0 <= p_readers q -> 0 <= p_writers q ->
    pipe_step (mkPsys q s op w r) (mkPsys (pipe_ref rd wr q) s op w r)
| pst_unref rd wr q s op w r q' s' : pipe_unref p rd wr q s = (Some q', s') ->
    pipe_step (mkPsys q s op w r) (mkPsys q' s' op w r)
| pst_env q s op w r s' : sched_wf s' -> (forall i, parked_on p s' i -> parked_on p s i) ->
    pipe_step (mkPsys q s op w r) (mkPsys q s' op w r).

(** Why task [i] may be parked. *)
Definition park_reason (q : pipe) (o : pipe_op) : Prop :=
  match o with
  | OpReadParked _ => p_len q = 0 /\ p_writers q <> 0
  | OpWriteParked _ _ => p_len q = PIPE_SIZE /\ p_readers q <> 0
  | _ => False
  end.

Record psys_inv (x : psys) : Prop := {
  pi_ok : pipe_ok (ps_pipe x);
  pi_wf : sched_wf (ps_sched x);
  pi_fifo : ps_written x = ps_read x ++ contents (ps_pipe x);
  pi_parked : forall i, parked_on p (ps_sched x) i -> park_reason (ps_pipe x) (ps_op x i);
  pi_nonneg : forall i n, ps_op x i = OpRead n \/ ps_op x i = OpReadParked n -> 0 <= n;
}.
Hypothesis p_nonnull : p <> 0.

(** Task [c] goes from one operation to another; nobody else's changes. *)
Lemma psys_inv_op q s op w r q' s' w' r' c o :
  psys_inv (mkPsys q s op w r) ->
  pipe_ok q' -> sched_wf s' -> w' = r' ++ contents q' ->
  (forall i, i <> c -> parked_on p s' i -> parked_on p s i /\ (park_reason q (op i) -> park_reason q' (op i))) ->
  (parked_on p s' c -> park_reason q' o) ->
  (forall n, o = OpRead n \/ o = OpReadParked n -> 0 <= n) ->
  psys_inv (mkPsys q' s' (<[c := o]> op) w' r').
Proof.
  intros [_ _ _ Hpk Hnn] Hok Hwf Hf Ho Hc Hn. cbn [ps_pipe ps_sched ps_op] in *.
  constructor; cbn [ps_pipe ps_sched ps_op ps_written ps_read]; try done.
  - intros i Hi. destruct (decide (i = c)) as [->|Hne].
    + rewrite fn_lookup_insert. auto.
    + rewrite fn_lookup_insert_ne by done. destruct (Ho i Hne Hi) as [Hs Hr]. auto.
  - intros i n. destruct (decide (i = c)) as [->|Hne].
    + rewrite fn_lookup_insert. apply Hn.
    + rewrite fn_lookup_insert_ne by done. apply Hnn.
Qed.

Lemma read_turn_inv c n q s op w r res q' s' :
  psys_inv (mkPsys q s op w r) -> current s = Some c -> op c = OpRead n ->
  pipe_read_turn kp p c n q s = (res, q', s') ->
  psys_inv (mkPsys q' s' (<[c := read_next n res]> op) w (r ++ read_data res)).
Proof.
  intros Hinv Hc Hop Ht. pose proof Hinv as [Hok Hwf Hf Hpk Hnn]. cbn [ps_pipe ps_sched ps_op ps_written ps_read] in *.
  assert (Hn : 0 <= n) by (apply (Hnn c); by left).
  assert (Hnc : ~ parked_on p s c) by (intros Hp; apply Hpk in Hp; by rewrite Hop in Hp).
  destruct (decide (0 < p_len q)) as [Hl|Hl].
  - destruct (pipe_read_turn_data kp p c n q s Hok Hl Hn) as (d & q1 & He & Hok' & Hcon & _).
    rewrite Ht in He. injection He as -> -> ->. destruct (pipe_wake_spec p s p_nonnull Hwf) as (Hw & _ & Hnone).
    eapply psys_inv_op; [exact Hinv|done|done| | | |]; cbn [read_next read_data].
    + rewrite Hf, Hcon. by rewrite app_assoc.
    + intros i _ Hi. by apply Hnone in Hi.
    + intros Hi. by apply Hnone in Hi.
    + intros m [|]; done.
  - unfold pipe_read_turn in Ht. rewrite (proj2 (Z.ltb_ge _ _)) in Ht by lia.
    destruct (Z.eqb_spec (p_writers q) 0) as [Hz|Hz]; [|destruct (sig_abort _)]; injection Ht as <- <- <-;
      cbn [read_next read_data]; rewrite app_nil_r.
    1,2: eapply psys_inv_op; try done; intros m [|]; done.
    destruct (park_spec kp p c s Hwf Hc) as [Hw Ho].
    eapply psys_inv_op; [exact Hinv|done|done|done|auto| |].
    + intros _. cbn. pose proof (po_len _ Hok). split; [lia|done].
    + intros m [|]; by simplify_eq.
Qed.

Lemma write_turn_inv c n rest q s op w r res q' s' :
  psys_inv (mkPsys q s op w r) -> current s = Some c -> op c = OpWrite n rest ->
  pipe_write_turn kp p c n rest q s = (res, q', s') ->
  psys_inv (mkPsys q' s' (<[c := write_next n rest res]> op) (w ++ write_data rest res) r).
Proof.
  intros Hinv Hc Hop Ht. pose proof Hinv as [Hok Hwf Hf Hpk Hnn]. cbn [ps_pipe ps_sched ps_op ps_written ps_read] in *.
  assert (Hnc : ~ parked_on p s c) by (intros Hp; apply Hpk in Hp; by rewrite Hop in Hp).
  unfold pipe_write_turn in Ht. destruct rest as [|b rest].
  { injection Ht as <- <- <-. cbn [write_next write_data]. rewrite app_nil_r. eapply psys_inv_op; try done; intros m [|]; done. }
  destruct (Z.eqb_spec (p_readers q) 0) as [Hz|Hz]; [|destruct (sig_abort _); [|destruct (Z.ltb_spec (p_len q) PIPE_SIZE)]].
  1,2: injection Ht as <- <- <-; cbn [write_next write_data]; rewrite app_nil_r; eapply psys_inv_op; try done; intros m [|]; done.
  - destruct (put_bytes_spec (b :: rest) q Hok) as (Hok' & Hr & Hw' & (d & Hd & Hcon & _) & _).
    destruct (put_bytes (b :: rest) q) as [rest' q1]. cbn [fst snd] in *. injection Ht as <- <- <-.
    destruct (pipe_wake_spec p s p_nonnull Hwf) as (Hw & _ & Hnone).
    eapply psys_inv_op; [exact Hinv|done|done| | | |]; cbn [write_next write_data].
    + rewrite Hd, length_app, Nat.add_sub, take_app_length, Hcon, app_assoc. by rewrite Hf.
    + intros i _ Hi. by apply Hnone in Hi.
    + intros Hi. by apply Hnone in Hi.
    + intros m [|]; done.
  - injection Ht as <- <- <-. cbn [write_next write_data]. rewrite app_nil_r.
    destruct (park_spec kp p c s Hwf Hc) as [Hw Ho].
    eapply psys_inv_op; [exact Hinv|done|done|done|auto| |].
    + intros _. cbn. pose proof (po_len _ Hok). split; [lia|done].
    + intros m [|]; done.
Qed.

Lemma pipe_step_inv x y : pipe_step x y -> psys_inv x -> psys_inv y.
Proof.
  intros Hs Hinv. pose proof Hinv as [Hok Hwf Hf Hpk Hnn].
  destruct Hs; cbn [ps_pipe ps_sched ps_op ps_written ps_read] in *.
  - eapply psys_inv_op; [exact Hinv|done|done|done|auto| |by intros m [|]; simplify_eq].
    intros Hp. apply Hpk in Hp. by rewrite H0 in Hp.
  - eapply psys_inv_op; [exact Hinv|done|done|done|auto| |by intros m [|]; simplify_eq].
    intros Hp. apply Hpk in Hp. by rewrite H0 in Hp.
  - by eapply read_turn_inv.
  - by eapply write_turn_inv.
  - destruct (unpark_spec c s Hwf) as (Hw & Hc & Ho); [done|].
    eapply psys_inv_op; [exact Hinv|done|done|done| |intros (_ & _ & ?); congruence|].
    + intros i Hi Hp. unfold parked_on in Hp. rewrite Ho in Hp by done. done.
    + intros m [Hm|]; [|done]. simplify_eq. apply (Hnn c). by right.
  - destruct (unpark_spec c s Hwf) as (Hw & Hc & Ho); [done|].
    eapply psys_inv_op; [exact Hinv|done|done|done| |intros (_ & _ & ?); congruence|by intros m [|]].
    intros i Hi Hp. unfold parked_on in Hp. rewrite Ho in Hp by done. done.
  - constructor; cbn [ps_pipe ps_sched ps_op ps_written ps_read]; try done; [by destruct Hok|].
    intros i Hp. specialize (Hpk i Hp). destruct (op i); try done; cbn in *; lia.
  - unfold pipe_unref in *. destruct (pipe_wake_spec p s p_nonnull Hwf) as (Hw & _ & Hnone).
    destruct (_ && _); simplify_eq.
    constructor; cbn [ps_pipe ps_sched ps_op ps_written ps_read]; try done; [by destruct Hok|].
    intros i Hp. by apply Hnone in Hp.
  - constructor; cbn [ps_pipe ps_sched ps_op ps_written ps_read]; auto.
Qed.

(** A pipe just made, with nobody waiting on its address. *)
Definition psys_init (x : psys) : Prop :=
  pipe_create p = Some (ps_pipe x) /\ sched_wf (ps_sched x) /\ (forall i, ~ parked_on p (ps_sched x) i) /\
  (forall i, ps_op x i = OpNone) /\ ps_written x = [] /\ ps_read x = [].

Lemma psys_init_inv x : psys_init x -> psys_inv x.
Proof.
  intros (Hq & Hwf & Hn & Hop & Hw & Hr). unfold pipe_create in Hq. destruct (p =? 0); [done|]. simplify_eq.
  constructor; [| |by rewrite Hw, Hr, <- Hq| |]; rewrite <- ?Hq; try done.
  - intros i Hi. by apply Hn in Hi.
  - intros i n. rewrite Hop. by intros [|].
Qed.

Lemma psys_reachable_inv x y : psys_init x -> rtc pipe_step x y -> psys_inv y.
Proof.
  intros Hx Hr. apply psys_init_inv in Hx.
  induction Hr as [|x y z Hxy _ IH]; [done|]. apply IH. by eapply pipe_step_inv.
Qed.
End Interleavings.

(** C3: a pipe is a FIFO byte stream under every interleaving.  Whatever
    sequence of reads, writes, reference changes, task switches, signals and
    wake-ups happened since the pipe was created, the bytes read so far
    followed by the bytes in the ring are exactly the bytes written, in
    order, and the ring is well formed. *)
Theorem pipe_fifo kp p x y :
  psys_init p x -> rtc (pipe_step kp p) x y ->
  ps_written y = ps_read y ++ contents (ps_pipe y) /\ pipe_ok (ps_pipe y).
Proof.
  intros Hx Hr. assert (Hp : p <> 0).
  { destruct Hx as (Hq & _). unfold pipe_create in Hq. by destruct (Z.eqb_spec p 0). }
  destruct (psys_reachable_inv kp p Hp x y Hx Hr) as [Hok _ Hf _ _]. done.
Qed.

(** C8: no lost wake-up.  A task that is parked on a pipe in any reachable
    state has a reason to be: it is inside [pipe_read] with the ring empty and
    a writer left, or inside [pipe_write] with the ring full and a reader
    left. *)
Theorem pipe_no_lost_wakeup kp p x y i :
  psys_init p x -> rtc (pipe_step kp p) x y -> parked_on p (ps_sched y) i ->
  (exists n, ps_op y i = OpReadParked n /\ p_len (ps_pipe y) = 0 /\ p_writers (ps_pipe y) <> 0) \/
  (exists n rest, ps_op y i = OpWriteParked n rest /\ p_len (ps_pipe y) = PIPE_SIZE /\ p_readers (ps_pipe y) <> 0).
Proof.
  intros Hx Hr Hi. assert (Hp : p <> 0).
  { destruct Hx as (Hq & _). unfold pipe_create in Hq. by destruct (Z.eqb_spec p 0). }
  destruct (psys_reachable_inv kp p Hp x y Hx Hr) as [_ _ _ Hpk _]. specialize (Hpk i Hi).
  destruct (ps_op y i) eqn:E; try done; [left|right]; eauto.
Qed.

(** Progress of [pipe_write]: unless the call fails, a turn writes every
    byte that fits, in order, and wakes the readers; it parks exactly when
    the ring is full, and returns the length when nothing is left. *)
Theorem pipe_write_turn_spec kp p c n rest q s :
  pipe_ok q -> p_readers q <> 0 -> sig_abort (task_at s c) = false ->
  match rest with
  | [] => pipe_write_turn kp p c n rest q s = (WrReturn (s32 n), q, s)
  | _ =>
      if p_len q =? PIPE_SIZE
      then pipe_write_turn kp p c n rest q s = (WrPark, q, park kp p c s)
      else let k := Z.to_nat (Z.min (zlen rest) (PIPE_SIZE - p_len q)) in
           exists q', pipe_write_turn kp p c n rest q s = (WrMore (drop k rest), q', pipe_wake p s) /\
             pipe_ok q' /\ contents q' = contents q ++ take k rest
  end.
Proof.
  intros Hok Hr Hs. destruct rest as [|b rest]; [done|]. unfold pipe_write_turn.
  apply Z.eqb_neq in Hr. rewrite Hr, Hs. pose proof (po_len _ Hok).
  destruct (Z.eqb_spec (p_len q) PIPE_SIZE) as [He|Hne].
  - by rewrite (proj2 (Z.ltb_ge _ _)) by lia.
  - rewrite (proj2 (Z.ltb_lt _ _)) by lia.
    destruct (put_bytes_spec (b :: rest) q Hok) as (Hok' & _ & _ & (w & Hw & Hc & Hl) & Hend).
    destruct (put_bytes (b :: rest) q) as [rest' q']. cbn [fst snd] in *.
    assert (Hk : Z.to_nat (Z.min (zlen (b :: rest)) (PIPE_SIZE - p_len q)) = length w).
    { pose proof (po_len _ Hok'). apply (f_equal length) in Hw as Hw'. rewrite length_app in Hw'.
      unfold zlen in *. destruct Hend as [->|Hend]; cbn [length] in *; lia. }
    rewrite Hk. exists q'. rewrite Hw, drop_app_length, take_app_length. done.
Qed.

(** ** Witnesses: task 7 of [demo_sched] writes two bytes and reads them back *)

Definition demo_pipe : pipe := mkPipe (replicate 256 0) 0 0 0 1 1.
Definition demo_psys : psys := mkPsys demo_pipe demo_sched (fun _ => OpNone) [] [].

Lemma demo_nobody_parked i : ~ parked_on 0x5000 demo_sched i.
Proof.
  intros (Hi & Hb & _). revert Hb. unfold slot_ok, MAX_TASKS in Hi.
  assert (exists k, i = Z.of_nat k /\ (k < 64)%nat) as (k & -> & Hk) by (exists (Z.to_nat i); lia).
  do 64 (destruct k as [|k]; [discriminate|]). lia.
Qed.

Lemma demo_psys_init : psys_init 0x5000 demo_psys.
Proof. split_and!; [reflexivity|exact demo_sched_wf|exact demo_nobody_parked|done|done|done]. Qed.

Definition demo_after_write : psys :=
  let r := pipe_write_turn 0x1000 0x5000 2 2 [65; 66] demo_pipe demo_sched in
  mkPsys r.1.2 r.2 (<[2 := write_next 2 [65; 66] r.1.1]> (<[2 := OpWrite 2 [65; 66]]> (fun _ => OpNone)))
         (write_data [65; 66] r.1.1) [].

Lemma demo_write_steps : rtc (pipe_step 0x1000 0x5000) demo_psys demo_after_write.
Proof.
  eapply rtc_l; [apply (pst_call_write 0x1000 0x5000 2 [65; 66]); reflexivity|].
  apply rtc_once. unfold demo_after_write. eapply (pst_write 0x1000 0x5000 2 2 [65; 66] _ _ _ [] []).
  - reflexivity.
  - apply fn_lookup_insert.
  - by destruct (pipe_write_turn _ _ _ _ _ _ _) as [[? ?] ?].
Qed.

Lemma pipe_fifo_witness :
  ps_written demo_after_write = [] ++ contents (ps_pipe demo_after_write) /\
  contents (ps_pipe demo_after_write) = [65; 66].
Proof.
  destruct (pipe_fifo 0x1000 0x5000 demo_psys demo_after_write demo_psys_init demo_write_steps) as [Hf _].
  split; [exact Hf|reflexivity].
Defined.

(** The same task reads from the empty pipe instead: it parks. *)
Definition demo_after_park : psys :=
  let r := pipe_read_turn 0x1000 0x5000 2 10 demo_pipe demo_sched in
  mkPsys r.1.2 r.2 (<[2 := read_next 10 r.1.1]> (<[2 := OpRead 10]> (fun _ => OpNone))) [] ([] ++ read_data r.1.1).

Lemma demo_park_steps : rtc (pipe_step 0x1000 0x5000) demo_psys demo_after_park.
Proof.
  eapply rtc_l; [apply (pst_call_read 0x1000 0x5000 2 10); [reflexivity|reflexivity|lia]|].
  apply rtc_once. unfold demo_after_park. eapply (pst_read 0x1000 0x5000 2 10).
  - reflexivity.
  - apply fn_lookup_insert.
  - by destruct (pipe_read_turn _ _ _ _ _ _) as [[? ?] ?].
Qed.

Lemma pipe_no_lost_wakeup_witness :
  parked_on 0x5000 (ps_sched demo_after_park) 2 /\ p_len (ps_pipe demo_after_park) = 0.
Proof.
  assert (Hp : parked_on 0x5000 (ps_sched demo_after_park) 2)
    by (split; [unfold slot_ok, MAX_TASKS; lia|split; vm_compute; reflexivity]).
  split; [exact Hp|].
  destruct (pipe_no_lost_wakeup 0x1000 0x5000 demo_psys demo_after_park 2 demo_psys_init demo_park_steps Hp)
    as [(n & _ & Hl & _)|(n & r & Ho & _)]; [exact Hl|].
  revert Ho. vm_compute. discriminate.
Defined.

Lemma pipe_write_turn_spec_witness :
  exists q', pipe_write_turn 0 0x5000 2 2 [65; 66] demo_pipe demo_sched =
    (WrMore [], q', pipe_wake 0x5000 demo_sched) /\ contents q' = [65; 66].
Proof.
  destruct (pipe_write_turn_spec 0 0x5000 2 2 [65; 66] demo_pipe demo_sched) as (q' & He & _ & Hc).
  - split; [reflexivity|split; [discriminate|reflexivity]|split; discriminate|reflexivity].
  - discriminate.
  - reflexivity.
  - exists q'. split; [exact He|exact Hc].
Defined.
