(* ===== verification/Pmap.v ===== *)
(** * Page tables (kernel/src/mm/pmap.c, pmap.h)

    Four-level x86-64 page tables in physical frames, reached through the
    direct map at offset [off] (the boot loader's HHDM offset).  Memory is
    indexed by kernel virtual address, so table entries are [load64]s at
    [hhdm_of phys + 8 * index].  The reference counts are a [uint32_t] array
    in memory.  The translation cache ([invlpg], CR3 reloads) is not part of
    the state. *)
From S2P Require Import Prelude Mem FrameAlloc Pmm Task Sched.

Definition PTE_PRESENT : Z := 0x001.
Definition PTE_WRITE : Z := 0x002.
Definition PTE_USER : Z := 0x004.
Definition PTE_NOCACHE : Z := 0x010.
Definition PTE_COW : Z := 0x200.
Definition PTE_ADDR_MASK : Z := 0x000FFFFFFFFFF000.
Definition PAGE_TABLE_ENTRIES : Z := 512.
Definition USER_STACK_TOP_VA : Z := 0x70000000.
Definition USER_STACK_MAX_SIZE : Z := 8 * 1024 * 1024.

Definition has (e bit : Z) : bool := negb (Z.land e bit =? 0).

(** [(va >> (12 + level * 9)) & 0x1FF] *)
Definition idx (va level : Z) : Z := Z.land (Z.shiftr va (12 + level * 9)) 0x1FF.

Section Pmap.
Context {A : Type} `{FrameAlloc A}.
Variable off : Z.

(** Memory and frames, with the reference-count table of pmap.c. *)
Record vm := mkVm {
  vm_mem : mem;
  vm_frames : A;
  refs : Z;
  refs_pages : Z;
}.

Definition set_mem (m : mem) (v : vm) : vm := mkVm m (vm_frames v) (refs v) (refs_pages v).
Definition set_frames (f : A) (v : vm) : vm := mkVm (vm_mem v) f (refs v) (refs_pages v).

Definition hhdm_of (phys : Z) : Z := phys .+ off.

Definition entry_at (v : vm) (table i : Z) : Z := load64 (vm_mem v) (table + 8 * i).
Definition set_entry (table i e : Z) (v : vm) : vm := set_mem (store64 (vm_mem v) (table + 8 * i) e) v.

(** The highest usable frame of the boot-loader map. *)
Definition max_usable_page (entries : list memmap_entry) : Z :=
  foldl (fun mx e => if e_type e =? LIMINE_MEMMAP_USABLE
                     then let top := (e_base e .+ e_length e) / PAGE in if mx <? top then top else mx
                     else mx) 0 entries.

Definition frame_refs_init (entries : list memmap_entry) (v : vm) : vm :=
  let max_page := max_usable_page entries in
  let bytes := max_page .* 4 in
  let pages := (bytes .+ PAGE .- 1) / PAGE in
  let '(mem, fr) := fa_alloc pages (vm_frames v) in
  let v := set_frames fr v in
  if mem =? 0 then v
  else mkVm (fill (vm_mem v) mem 0 (pages * PAGE)) (vm_frames v) mem max_page.

Definition ref_valid (v : vm) (pa : Z) : bool := negb (refs v =? 0) && (pa / PAGE <? refs_pages v).
Definition ref_at (v : vm) (pa : Z) : Z := load32 (vm_mem v) (refs v + 4 * (pa / PAGE)).
Definition set_ref (pa n : Z) (v : vm) : vm := set_mem (store32 (vm_mem v) (refs v + 4 * (pa / PAGE)) n) v.

Definition frame_ref_inc (phys : Z) (v : vm) : vm :=
  if ref_valid v phys then set_ref phys (u32 (ref_at v phys + 1)) v else v.

Definition frame_ref_dec (phys : Z) (v : vm) : bool * vm :=
  if negb (ref_valid v phys) then (false, v)
  else
    let v := if 0 <? ref_at v phys then set_ref phys (ref_at v phys - 1) v else v in
    (ref_at v phys =? 0, v).

(** [cr3] is the root the CPU uses. *)
Definition pmap_create (cr3 : Z) (v : vm) : Z * vm :=
  let '(page, fr) := fa_alloc 1 (vm_frames v) in
  let v := set_frames fr v in
  if page =? 0 then (0, v)
  else
    let pml4_phys := page .- off in
    let v := set_mem (fill (vm_mem v) page 0 PAGE) v in
    let old := hhdm_of (Z.land cr3 PTE_ADDR_MASK) in
    (pml4_phys, for_range 256 256 (fun i v => set_entry page i (entry_at v old i) v) v).

Definition table_alloc (v : vm) : Z * vm :=
  let '(page, fr) := fa_alloc 1 (vm_frames v) in
  let v := set_frames fr v in
  if page =? 0 then (0, v)
  else (page .- off, set_mem (fill (vm_mem v) page 0 PAGE) v).

(** One turn of the descent of [pmap_map]: the next table, or [None] when
    there is no memory for it. *)
Definition map_level (va flags level table : Z) (v : vm) : option Z * vm :=
  let entry := entry_at v table (idx va level) in
  if negb (has entry PTE_PRESENT) then
    let '(next_phys, v) := table_alloc v in
    if next_phys =? 0 then (None, v)
    else
      let entry := Z.lor (Z.lor (Z.lor next_phys PTE_PRESENT) PTE_WRITE) flags in
      let v := set_entry table (idx va level) entry v in
      (Some (hhdm_of (Z.land entry PTE_ADDR_MASK)), v)
  else (Some (hhdm_of (Z.land entry PTE_ADDR_MASK)), v).

(** [for (level = 3; level > 0; level--)] *)
Fixpoint map_walk (level : nat) (va flags table : Z) (v : vm) : option Z * vm :=
  match level with
  | O => (Some table, v)
  | S l =>
      match map_level va flags (Z.of_nat level) table v with
      | (None, v) => (None, v)
      | (Some table, v) => map_walk l va flags table v
      end
  end.

Definition pmap_map (pml4_phys va pa flags : Z) (v : vm) : vm :=
  match map_walk 3 va flags (hhdm_of pml4_phys) v with
  | (None, v) => v
  | (Some table, v) =>
      set_entry table (idx va 0) (Z.lor (Z.lor (Z.land pa PTE_ADDR_MASK) PTE_PRESENT) flags) v
  end.

Fixpoint pte_walk (level : nat) (va table : Z) (v : vm) : option Z :=
  match level with
  | O => Some table
  | S l =>
      let entry := entry_at v table (idx va (Z.of_nat level)) in
      if negb (has entry PTE_PRESENT) then None
      else pte_walk l va (hhdm_of (Z.land entry PTE_ADDR_MASK)) v
  end.

(** The address of the leaf entry; [None] is NULL. *)
Definition pmap_pte (pml4_phys va : Z) (v : vm) : option Z :=
  match pte_walk 3 va (hhdm_of pml4_phys) v with
  | None => None
  | Some table => Some (table + 8 * idx va 0)
  end.

Definition pmap_resolve (pml4_phys va : Z) (v : vm) : Z :=
  match pmap_pte pml4_phys va v with
  | None => 0
  | Some leaf =>
      let e := load64 (vm_mem v) leaf in
      if negb (has e PTE_PRESENT) then 0 else Z.lor (Z.land e PTE_ADDR_MASK) (Z.land va 0xFFF)
  end.

Definition pmap_unmap (pml4_phys va : Z) (v : vm) : vm :=
  match pmap_pte pml4_phys va v with
  | None => v
  | Some pte => set_mem (store64 (vm_mem v) pte 0) v
  end.

(** The body of the innermost loop of [pmap_fork], for entry [p1] of [pt];
    the right summand is the early [return 0]. *)
Definition fork_page (child p4 p3 p2 pt p1 : Z) (v : vm) : vm + vm :=
  let pte := entry_at v pt p1 in
  if negb (has pte PTE_PRESENT) then inl v
  else
    let pa := Z.land pte PTE_ADDR_MASK in
    let flags := Z.land pte (u64 (Z.lnot (Z.lor (Z.lor PTE_ADDR_MASK PTE_WRITE) PTE_COW))) in
    let va := Z.lor (Z.lor (Z.lor (Z.shiftl p4 39) (Z.shiftl p3 30)) (Z.shiftl p2 21)) (Z.shiftl p1 12) in
    let '(frame, fr) := fa_alloc 1 (vm_frames v) in
    let v := set_frames fr v in
    if frame =? 0 then inr v
    else
      let v := set_mem (copy (vm_mem v) frame (hhdm_of pa) PAGE) v in
      let new_pa := frame .- off in
      let v := frame_ref_inc new_pa v in
      inl (pmap_map child va new_pa (Z.lor flags PTE_WRITE) v).

(** A loop over the entries of a table that skips those not present. *)
Definition each_present {R : Type} (n : nat) (table : Z) (f : Z -> Z -> vm -> vm + R) (v : vm) : vm + R :=
  for_ret n 0 (fun i v =>
    let e := entry_at v table i in
    if negb (has e PTE_PRESENT) then inl v else f i (hhdm_of (Z.land e PTE_ADDR_MASK)) v) v.

Definition pmap_fork (cr3 parent : Z) (v : vm) : Z * vm :=
  let '(child, v) := pmap_create cr3 v in
  if child =? 0 then (0, v)
  else
    match each_present 256 (hhdm_of parent) (fun p4 pdpt =>
            each_present 512 pdpt (fun p3 pd =>
              each_present 512 pd (fun p2 pt =>
                for_ret 512 0 (fork_page child p4 p3 p2 pt)))) v with
    | inl v => (child, v)
    | inr v => (0, v)
    end.

Definition free_frame (page : Z) (v : vm) : vm := set_frames (fa_free page 1 (vm_frames v)) v.

(** The body of the innermost loop of [pmap_destroy]. *)
Definition destroy_page (pt p1 : Z) (v : vm) : vm :=
  let pte := entry_at v pt p1 in
  if negb (has pte PTE_PRESENT) then v
  else
    let pa := Z.land pte PTE_ADDR_MASK in
    let '(last, v) := frame_ref_dec pa v in
    if last then free_frame (hhdm_of pa) v else v.

Definition destroy_present (n : nat) (table : Z) (f : Z -> vm -> vm) (v : vm) : vm :=
  for_range n 0 (fun i v =>
    let e := entry_at v table i in
    if negb (has e PTE_PRESENT) then v
    else let sub := hhdm_of (Z.land e PTE_ADDR_MASK) in free_frame sub (f sub v)) v.

Definition pmap_destroy (pml4_phys : Z) (v : vm) : vm :=
  let pml4 := hhdm_of pml4_phys in
  free_frame pml4
    (destroy_present 256 pml4 (fun pdpt =>
       destroy_present 512 pdpt (fun pd =>
         destroy_present 512 pd (fun pt =>
           for_range 512 0 (destroy_page pt)))) v).

(** [cur] is the current task, if any. *)
Definition pmap_handle_fault (cur : option task) (va err_code : Z) (v : vm) : bool * vm :=
  match cur with
  | None => (false, v)
  | Some cur =>
      if t_pml4_phys cur =? 0 then (false, v)
      else if negb (has err_code 1) then
        if has err_code 4 && (va <? USER_STACK_TOP_VA) && (USER_STACK_TOP_VA - USER_STACK_MAX_SIZE <=? va) then
          let aligned := Z.land va (u64 (Z.lnot 0xFFF)) in
          if negb (pmap_resolve (t_pml4_phys cur) aligned v =? 0) then (false, v)
          else
            let '(frame, fr) := fa_alloc 1 (vm_frames v) in
            let v := set_frames fr v in
            if frame =? 0 then (false, v)
            else
              let v := set_mem (fill (vm_mem v) frame 0 PAGE) v in
              (true, pmap_map (t_pml4_phys cur) aligned (frame .- off) (Z.lor PTE_USER PTE_WRITE) v)
        else (false, v)
      else if has err_code 2 then
        match pmap_pte (t_pml4_phys cur) va v with
        | None => (false, v)
        | Some pte =>
            let e := load64 (vm_mem v) pte in
            if negb (has e PTE_COW) then (false, v)
            else
              let pa := Z.land e PTE_ADDR_MASK in
              let flags := Z.land e (Z.lor PTE_USER PTE_NOCACHE) in
              if ref_valid v pa && (1 <? ref_at v pa) then
                let v := set_ref pa (ref_at v pa - 1) v in
                let '(frame, fr) := fa_alloc 1 (vm_frames v) in
                let v := set_frames fr v in
                if frame =? 0 then (false, v)
                else
                  let new_pa := frame .- off in
                  let v := set_mem (copy (vm_mem v) (hhdm_of new_pa) (hhdm_of pa) PAGE) v in
                  let v := set_ref new_pa 1 v in
                  (true, set_mem (store64 (vm_mem v) pte
                            (Z.lor (Z.lor (Z.lor new_pa PTE_PRESENT) PTE_WRITE) flags)) v)
              else
                let v := set_mem (store64 (vm_mem v) pte (Z.lor e PTE_WRITE)) v in
                (true, set_mem (store64 (vm_mem v) pte
                          (Z.land (load64 (vm_mem v) pte) (u64 (Z.lnot PTE_COW)))) v)
        end
      else (false, v)
  end.

End Pmap.
Arguments vm : clear implicits.

(** * Theorems *)

(** ** Bits of entries *)

Lemma has_present e : has e PTE_PRESENT = Z.testbit e 0.
Proof. unfold has, PTE_PRESENT. change 1 with (Z.shiftl 1 0). rewrite land_bit_eqb by lia. by destruct (Z.testbit e 0). Qed.

Lemma idx_range va l : 0 <= idx va l < 512.
Proof. unfold idx. change 0x1FF with (2 ^ 9 - 1). rewrite land_ones_mod by lia. lia. Qed.

Lemma mask_bits i : 0 <= i -> Z.testbit PTE_ADDR_MASK i = (12 <=? i) && (i <? 52).
Proof.
  intros Hi. change PTE_ADDR_MASK with (Z.shiftl (2 ^ 40 - 1) 12).
  destruct (Z.leb_spec 12 i); cbn [andb].
  - rewrite Z.shiftl_spec by lia. change (2 ^ 40 - 1) with (Z.ones 40).
    destruct (Z.ltb_spec i 52); [apply Z.ones_spec_low; lia|apply Z.ones_spec_high; lia].
  - by rewrite Z.shiftl_spec_low by lia.
Qed.

(** A frame address passes through the mask. *)
Lemma mask_frame x : 0 <= x < 2 ^ 52 -> x mod PAGE = 0 -> Z.land x PTE_ADDR_MASK = x.
Proof.
  intros Hx Hm. apply Z.bits_inj'. intros i Hi. rewrite Z.land_spec, mask_bits by done.
  destruct (Z.leb_spec 12 i); cbn [andb].
  - destruct (Z.ltb_spec i 52); [apply andb_true_r|]. by rewrite (testbit_above x 52 i) by lia.
  - rewrite andb_false_r. unfold PAGE in Hm. change 4096 with (2 ^ 12) in Hm.
    rewrite <- (testbit_mod x 12 i) by lia. rewrite Hm. by rewrite Z.bits_0.
Qed.

Lemma mask_bound x : Z.land x PTE_ADDR_MASK < 2 ^ 52.
Proof.
  assert (Hm : Z.land x PTE_ADDR_MASK = Z.land x PTE_ADDR_MASK mod 2 ^ 52); [|rewrite Hm; apply Z.mod_pos_bound; lia].
  apply Z.bits_inj'. intros i Hi. destruct (decide (i < 52)); [by rewrite testbit_mod by lia|].
  rewrite Z.mod_pow2_bits_high, Z.land_spec, mask_bits by lia. rewrite (proj2 (Z.ltb_ge i 52)) by lia.
  by rewrite !andb_false_r.
Qed.

Lemma mask_aligned x : Z.land x PTE_ADDR_MASK mod PAGE = 0.
Proof.
  unfold PAGE. change 4096 with (2 ^ 12). apply Z.bits_inj'. intros i Hi. rewrite Z.bits_0.
  destruct (decide (i < 12)); [|by rewrite Z.mod_pow2_bits_high by lia].
  rewrite testbit_mod, Z.land_spec, mask_bits by lia. rewrite (proj2 (Z.leb_gt 12 i)) by lia. apply andb_false_r.
Qed.

Lemma lor_range n a b : 0 <= n -> 0 <= a < 2 ^ n -> 0 <= b < 2 ^ n -> 0 <= Z.lor a b < 2 ^ n.
Proof.
  intros Hn Ha Hb. replace (Z.lor a b) with (Z.lor a b mod 2 ^ n); [apply Z.mod_pos_bound; lia|].
  apply Z.bits_inj'. intros i Hi. destruct (decide (i < n)); [by rewrite testbit_mod by lia|].
  rewrite Z.mod_pow2_bits_high, Z.lor_spec, !(testbit_above _ n) by lia. done.
Qed.

Definition flags_ok (flags : Z) : Prop := 0 <= flags < 2 ^ 64 /\ Z.land flags PTE_ADDR_MASK = 0.

(** An entry made of a frame and flags: present, and its frame comes back. *)
Lemma make_entry x flags e :
  0 <= x < 2 ^ 52 -> x mod PAGE = 0 -> flags_ok flags ->
  e = Z.lor (Z.lor (Z.lor x PTE_PRESENT) PTE_WRITE) flags \/ e = Z.lor (Z.lor x PTE_PRESENT) flags ->
  0 <= e < 2 ^ 64 /\ has e PTE_PRESENT = true /\ Z.land e PTE_ADDR_MASK = x.
Proof.
  intros Hx Hm [Hf Hfm] He. rewrite has_present.
  destruct He as [-> | ->]; (split; [repeat apply lor_range; unfold PTE_PRESENT, PTE_WRITE; lia|split]).
  1,3: rewrite !Z.lor_spec; change (Z.testbit PTE_PRESENT 0) with true; by rewrite ?orb_true_r, ?orb_true_l.
  all: rewrite !Z.land_lor_distr_l, Hfm, (mask_frame x) by done; by rewrite !Z.lor_0_r.
Qed.

Section Correctness.
Context {A : Type} `{FrameAllocLaws A}.
Variable off : Z.
Implicit Types v : vm A.

(** A page of memory, seen through the direct map. *)
Definition is_page (t : Z) : Prop := t mod PAGE = 0 /\ 0 < t /\ t + PAGE <= 2 ^ 64.

Lemma entry_set_same t i e v : entry_at (set_entry t i e v) t i = u64 e.
Proof. unfold entry_at, set_entry, set_mem, load64, store64. cbn [vm_mem]. by rewrite load_store_same. Qed.

Lemma entry_set_other t i e v t' i' :
  is_page t -> is_page t' -> 0 <= i < 512 -> 0 <= i' < 512 -> t <> t' \/ i <> i' ->
  entry_at (set_entry t i e v) t' i' = entry_at v t' i'.
Proof.
  unfold is_page, PAGE. intros Ht Ht' Hi Hi' Hne. unfold entry_at, set_entry, set_mem, load64, store64.
  cbn [vm_mem]. apply load_store_other. unfold apart. lia.
Qed.

Lemma entry_fill_other nt v t i m :
  is_page nt -> is_page t -> 0 <= i < 512 -> nt <> t -> vm_mem v = fill m nt 0 PAGE ->
  entry_at v t i = load64 m (t + 8 * i).
Proof.
  unfold is_page, PAGE. intros Hn Ht Hi Hne Hm. unfold entry_at, load64. rewrite Hm.
  apply load_fill_other. unfold apart. lia.
Qed.

Lemma entry_fill_same nt v i m :
  0 <= i < 512 -> vm_mem v = fill m nt 0 PAGE -> entry_at v nt i = 0.
Proof. intros Hi Hm. unfold entry_at, load64. rewrite Hm. apply load_fill_zero; unfold PAGE; lia. Qed.

(** ** Tables on the path of an address *)

(** The table reached after [k] steps from the root. *)
Fixpoint tbl (k : nat) (root va : Z) (v : vm A) : option Z :=
  match k with
  | O => Some (hhdm_of off root)
  | S k' =>
      match tbl k' root va v with
      | None => None
      | Some t =>
          let e := entry_at v t (idx va (3 - Z.of_nat k')) in
          if has e PTE_PRESENT then Some (hhdm_of off (Z.land e PTE_ADDR_MASK)) else None
      end
  end.

Definition same_prefix (k : nat) (va va' : Z) : Prop :=
  forall j, (j < k)%nat -> idx va (3 - Z.of_nat j) = idx va' (3 - Z.of_nat j).

Lemma same_prefix_S k va va' :
  same_prefix (S k) va va' <-> same_prefix k va va' /\ idx va (3 - Z.of_nat k) = idx va' (3 - Z.of_nat k).
Proof.
  split.
  - intros Hs. split; [|apply Hs; lia]. intros j Hj. apply Hs. lia.
  - intros [Hs Hk] j Hj. destruct (decide (j = k)) as [->|]; [done|]. apply Hs. lia.
Qed.

#[local] Instance same_prefix_dec k va va' : Decision (same_prefix k va va').
Proof.
  induction k as [|k IH]; [left; intros j Hj; lia|].
  destruct IH as [Hs|Hs]; [|right; rewrite same_prefix_S; tauto].
  destruct (decide (idx va (3 - Z.of_nat k) = idx va' (3 - Z.of_nat k))) as [He|He];
    [left|right]; rewrite same_prefix_S; tauto.
Qed.

Lemma same_prefix_sym k va va' : same_prefix k va va' -> same_prefix k va' va.
Proof. intros Hs j Hj. symmetry. by apply Hs. Qed.
Lemma same_prefix_trans k a b c : same_prefix k a b -> same_prefix k b c -> same_prefix k a c.
Proof. intros H1 H2 j Hj. rewrite H1 by done. by apply H2. Qed.

Lemma tbl_prefix k root va va' v : same_prefix k va va' -> tbl k root va v = tbl k root va' v.
Proof.
  induction k as [|k IH]; [done|]. rewrite same_prefix_S. intros [Hs Hk]. cbn [tbl].
  rewrite IH by done. by rewrite Hk.
Qed.

Lemma tbl_next k root va v t :
  tbl k root va v = Some t ->
  tbl (S k) root va v =
    (if has (entry_at v t (idx va (3 - Z.of_nat k))) PTE_PRESENT
     then Some (hhdm_of off (Z.land (entry_at v t (idx va (3 - Z.of_nat k))) PTE_ADDR_MASK)) else None).
Proof. intros Ht. cbn [tbl]. by rewrite Ht. Qed.

Lemma pte_walk_tbl l va t v root k :
  (k + l = 3)%nat -> tbl k root va v = Some t -> pte_walk off l va t v = tbl 3 root va v.
Proof.
  revert k t. induction l as [|l IH]; intros k t Hk Ht; cbn [pte_walk].
  - replace k with 3%nat in Ht by lia. done.
  - replace (Z.of_nat (S l)) with (3 - Z.of_nat k) by lia.
    pose proof (tbl_next _ _ _ _ _ Ht) as Hn. destruct (has _ _); cbn [negb].
    + apply (IH (S k)); [lia|done].
    + clear IH Ht. assert (Hnone : forall d, tbl (S k + d) root va v = None).
      { induction d as [|d IHd]; [by rewrite Nat.add_0_r|]. rewrite Nat.add_succ_r. cbn [tbl]. cbn [tbl] in IHd. by rewrite IHd. }
      specialize (Hnone l). by replace (S k + l)%nat with 3%nat in Hnone by lia.
Qed.

(** The leaf entry of [va], when the page is mapped. *)
Definition pte_of (root va : Z) (v : vm A) : option Z :=
  match tbl 3 root va v with
  | None => None
  | Some t => let e := entry_at v t (idx va 0) in if has e PTE_PRESENT then Some e else None
  end.

Lemma pmap_resolve_pte root va v :
  pmap_resolve off root va v =
    match pte_of root va v with
    | None => 0
    | Some e => Z.lor (Z.land e PTE_ADDR_MASK) (Z.land va 0xFFF)
    end.
Proof.
  unfold pmap_resolve, pmap_pte, pte_of. rewrite (pte_walk_tbl 3 va (hhdm_of off root) v root 0) by done.
  destruct (tbl 3 root va v) as [t|]; [|done]. unfold entry_at. by destruct (has _ _).
Qed.
(** ** Well-formed address spaces *)

(** Lower-half addresses. *)
Definition user (va : Z) : Prop := 0 <= va < 2 ^ 47.

(** The frame allocator hands out frames of the direct map, never frame 0. *)
Definition frames_ok (a : A) : Prop :=
  fa_inv a /\ off mod PAGE = 0 /\ 0 < off < 2 ^ 64 /\
  (forall q, fa_managed a q = true -> off <= q < off + 2 ^ 52) /\
  fa_avail a off = false.

(** The tables of the user half are pages that are not free, and no table is
    reached by two different paths. *)
Record pt_ok (root : Z) (v : vm A) : Prop := {
  pt_frames : frames_ok (vm_frames v);
  pt_page : forall k va t, (k <= 3)%nat -> user va -> tbl k root va v = Some t ->
    is_page t /\ forall x, t <= x < t + PAGE -> fa_avail (vm_frames v) x = false;
  pt_inj : forall k k' va va' t, (k <= 3)%nat -> (k' <= 3)%nat -> user va -> user va' ->
    tbl k root va v = Some t -> tbl k' root va' v = Some t -> k = k' /\ same_prefix k va va';
}.

(** What a freshly allocated frame is. *)
Definition fresh_page (nt : Z) (a a' : A) : Prop :=
  is_page nt /\ off < nt < off + 2 ^ 52 /\ frames_ok a' /\ fa_nfree a' = fa_nfree a - 1 /\
  (forall x, nt <= x < nt + PAGE -> fa_avail a x = true) /\
  (forall x, fa_avail a' x = negb (in_region nt PAGE x) && fa_avail a x).

Lemma alloc_fresh a :
  frames_ok a ->
  (fa_alloc 1 a = (0, a) /\ fa_nfree a <= 0) \/ fresh_page (fa_alloc 1 a).1 a (fa_alloc 1 a).2.
Proof.
  intros (Hi & Hoff & Hpos & Hm & Hz).
  destruct (fa_alloc_law 1 a Hi ltac:(lia)) as (Hi' & [He|Hx]).
  { left. split; [done|]. destruct (Z.le_gt_cases (fa_nfree a) 0); [done|]. by destruct (fa_alloc_one a Hi). }
  destruct Hx as (Hp & Hpm & Hpe & Hav & Hav' & Hm' & Hnf). right. rewrite !Z.mul_1_l in *.
  assert (Hr : off <= (fa_alloc 1 a).1 < off + 2 ^ 52) by (apply Hm, fa_avail_managed, Hav; unfold PAGE; lia).
  assert (Hne : (fa_alloc 1 a).1 <> off) by (intros He; rewrite Hav in Hz; [done|unfold PAGE; lia]).
  unfold fresh_page, is_page, frames_ok. split_and!; try done; try lia.
  - intros q Hq. apply Hm. by rewrite <- Hm'.
  - rewrite Hav', Hz. apply andb_false_r.
Qed.

Lemma tbl_not_fresh root v nt a' k va t :
  pt_ok root v -> fresh_page nt (vm_frames v) a' -> (k <= 3)%nat -> user va -> tbl k root va v = Some t -> nt <> t.
Proof.
  intros Hok (_ & _ & _ & _ & Hav & _) Hk Hu Ht ->. destruct (pt_page _ _ Hok k va t Hk Hu Ht) as [_ Hn].
  assert (Hr : t <= t < t + PAGE) by (unfold PAGE; lia). specialize (Hn t Hr). by rewrite (Hav t Hr) in Hn.
Qed.

(** [v'] is [v] with a new empty table [nt] hung below [va]'s table at depth [k]. *)
Definition table_added (root va : Z) (k : nat) (t nt e : Z) (v v' : vm A) : Prop :=
  tbl k root va v = Some t /\ has (entry_at v t (idx va (3 - Z.of_nat k))) PTE_PRESENT = false /\
  fresh_page nt (vm_frames v) (vm_frames v') /\
  0 <= e < 2 ^ 64 /\ has e PTE_PRESENT = true /\ hhdm_of off (Z.land e PTE_ADDR_MASK) = nt /\
  vm_mem v' = store64 (fill (vm_mem v) nt 0 PAGE) (t + 8 * idx va (3 - Z.of_nat k)) e.

(** Entries of other tables, of the changed slot and of the new table. *)
Lemma table_added_entries root va k t nt e v v' :
  pt_ok root v -> user va -> (k < 3)%nat -> table_added root va k t nt e v v' ->
  let i := idx va (3 - Z.of_nat k) in
  entry_at v' t i = e /\
  (forall j, 0 <= j < 512 -> entry_at v' nt j = 0) /\
  (forall t' j, is_page t' -> 0 <= j < 512 -> t' <> nt -> t' <> t \/ j <> i -> entry_at v' t' j = entry_at v t' j).
Proof.
  intros Hok Hu Hk (Ht & _ & Hf & He & _ & _ & Hm). cbv zeta. set (i := idx va (3 - Z.of_nat k)) in *.
  assert (Hi : 0 <= i < 512) by apply idx_range.
  destruct (pt_page _ _ Hok k va t ltac:(lia) Hu Ht) as [Hpt _].
  pose proof (tbl_not_fresh _ _ _ _ k va t Hok Hf ltac:(lia) Hu Ht) as Hne.
  assert (Hpn : is_page nt) by apply Hf.
  assert (Hv' : forall t' j, entry_at v' t' j = entry_at (set_entry t i e (set_mem (fill (vm_mem v) nt 0 PAGE) v)) t' j).
  { intros. unfold entry_at, set_entry, set_mem. cbn [vm_mem]. by rewrite Hm. }
  split_and!.
  - rewrite Hv', entry_set_same. apply u64_small. lia.
  - intros j Hj. rewrite Hv', entry_set_other by (done || auto). by eapply entry_fill_same.
  - intros t' j Ht' Hj Hn Hd.
    assert (Hd' : t <> t' \/ i <> j) by (destruct Hd; [left|right]; congruence).
    rewrite Hv', entry_set_other by done. by rewrite (entry_fill_other nt _ t' j (vm_mem v)).
Qed.

Lemma table_added_tbl root va k t nt e v v' k' va' :
  pt_ok root v -> user va -> (k < 3)%nat -> table_added root va k t nt e v v' ->
  (k' <= 3)%nat -> user va' ->
  tbl k' root va' v' =
    if decide (k' <= k)%nat then tbl k' root va' v
    else if decide (same_prefix (S k) va' va) then (if decide (k' = S k) then Some nt else None)
    else tbl k' root va' v.
Proof.
  intros Hok Hu Hk Hadd Hk' Hu'. pose proof (table_added_entries _ _ _ _ _ _ _ _ Hok Hu Hk Hadd) as (Hslot & Hnew & Hoth).
  destruct Hadd as (Ht & Habs & Hf & He & Hpr & Hnt & Hm).
  induction k' as [|k' IH]; [by rewrite decide_True by lia|].
  specialize (IH ltac:(lia)). cbn [tbl]. rewrite IH. clear IH.
  (* an old table of va' at depth k' keeps the entry of va' unless it is the changed slot *)
  assert (Hkeep : forall t', tbl k' root va' v = Some t' -> (k' <> k \/ ~ same_prefix (S k) va' va) ->
    entry_at v' t' (idx va' (3 - Z.of_nat k')) = entry_at v t' (idx va' (3 - Z.of_nat k'))).
  { intros t' Ht' Hd. destruct (pt_page _ _ Hok k' va' t' ltac:(lia) Hu' Ht') as [Hp' _].
    apply Hoth; [done|apply idx_range| |].
    - intros ->. by apply (tbl_not_fresh _ _ _ _ k' va' nt Hok Hf ltac:(lia) Hu' Ht').
    - destruct (decide (t' = t)) as [->|]; [right|by left]. intros Hi.
      destruct (pt_inj _ _ Hok k' k va' va t ltac:(lia) ltac:(lia) Hu' Hu Ht' Ht) as [-> Hsp].
      destruct Hd as [?|Hd]; [done|]. apply Hd, same_prefix_S. done. }
  destruct (decide (S k' <= k)%nat); [|destruct (decide (same_prefix (S k) va' va)) as [Hsp|Hsp]].
  - rewrite decide_True by lia. destruct (tbl k' root va' v) as [t'|] eqn:Ht'; [|done]. rewrite Hkeep by (done || lia). done.
  - destruct (decide (k' <= k)%nat).
    + assert (k' = k) as -> by lia. rewrite decide_True by done.
      apply same_prefix_S in Hsp as [Hsp Hi]. rewrite (tbl_prefix k root va' va v Hsp), Ht, Hi, Hslot, Hpr, Hnt. done.
    + rewrite (decide_False (P := S k' = S k)) by lia. destruct (decide (k' = S k)) as [->|]; [|done].
      rewrite Hnew by apply idx_range. done.
  - assert (Hif : (if decide (k' <= k)%nat then tbl k' root va' v else tbl k' root va' v) = tbl k' root va' v)
      by by destruct (decide _).
    rewrite Hif. destruct (tbl k' root va' v) as [t'|] eqn:Ht'; [|done]. rewrite Hkeep by (done || auto). done.
Qed.
Lemma avail_shrinks nt a a' x : fresh_page nt a a' -> fa_avail a x = false -> fa_avail a' x = false.
Proof. intros (_ & _ & _ & _ & _ & Hav') Hx. rewrite Hav', Hx. apply andb_false_r. Qed.

(** The new table breaks nothing: the space stays well formed and every page
    is mapped as before. *)
Lemma table_added_ok root va k t nt e v v' :
  pt_ok root v -> user va -> (k < 3)%nat -> table_added root va k t nt e v v' -> pt_ok root v'.
Proof.
  intros Hok Hu Hk Hadd. pose proof Hadd as (Ht & Habs & Hf & _).
  assert (Hcase : forall k' va' t', (k' <= 3)%nat -> user va' -> tbl k' root va' v' = Some t' ->
    (t' <> nt /\ tbl k' root va' v = Some t') \/ (t' = nt /\ k' = S k /\ same_prefix (S k) va' va)).
  { intros k' va' t' Hk' Hu' Ht'. rewrite (table_added_tbl root va k t nt e v v' k' va') in Ht' by done.
    destruct (decide (k' <= k)%nat); [left|destruct (decide (same_prefix (S k) va' va)); [right|left]].
    - split; [|done]. intros ->. by eapply (tbl_not_fresh _ _ nt _ k' va' nt Hok Hf).
    - destruct (decide (k' = S k)); [|done]. by simplify_eq.
    - split; [|done]. intros ->. by eapply (tbl_not_fresh _ _ nt _ k' va' nt Hok Hf). }
  constructor.
  - apply Hf.
  - intros k' va' t' Hk' Hu' Ht'. destruct (Hcase _ _ _ Hk' Hu' Ht') as [[_ Ho]|(-> & _)].
    + destruct (pt_page _ _ Hok k' va' t' Hk' Hu' Ho) as [Hp Hn]. split; [done|]. intros x Hx.
      eapply avail_shrinks; [exact Hf|]. by apply Hn.
    + destruct Hf as (Hp & _ & _ & _ & _ & Hav'). split; [done|]. intros x Hx. rewrite Hav'.
      by rewrite (proj2 (in_region_true _ _ _)) by lia.
  - intros k1 k2 va1 va2 t' Hk1 Hk2 Hu1 Hu2 Ht1 Ht2.
    destruct (Hcase _ _ _ Hk1 Hu1 Ht1) as [[Hn1 Ho1]|(-> & -> & Hs1)];
      destruct (Hcase _ _ _ Hk2 Hu2 Ht2) as [[Hn2 Ho2]|(? & -> & Hs2)]; try done.
    + by eapply (pt_inj _ _ Hok).
    + split; [done|]. eapply same_prefix_trans; [exact Hs1|]. by apply same_prefix_sym.
Qed.

Lemma table_added_pte root va k t nt e v v' va' :
  pt_ok root v -> user va -> (k < 3)%nat -> table_added root va k t nt e v v' -> user va' ->
  pte_of root va' v' = pte_of root va' v.
Proof.
  intros Hok Hu Hk Hadd Hu'. unfold pte_of.
  pose proof (table_added_entries _ _ _ _ _ _ _ _ Hok Hu Hk Hadd) as (_ & Hnew & Hoth).
  rewrite (table_added_tbl root va k t nt e v v' 3 va') by (done || lia).
  rewrite decide_False by lia. pose proof Hadd as (Ht & Habs & Hf & _).
  destruct (decide (same_prefix (S k) va' va)) as [Hsp|Hsp].
  - assert (Hnone : tbl 3 root va' v = None).
    { assert (Hk1 : tbl (S k) root va' v = None) by (rewrite (tbl_prefix _ _ _ va v Hsp); cbn [tbl]; by rewrite Ht, Habs).
      destruct k as [|[|[|k]]]; [| |done|lia]; cbn [tbl] in *; by rewrite Hk1. }
    rewrite Hnone. destruct (decide _); [|done]. rewrite Hnew by apply idx_range. done.
  - destruct (tbl 3 root va' v) as [t3|] eqn:Ht3; [|done].
    destruct (pt_page _ _ Hok 3 va' t3 ltac:(lia) Hu' Ht3) as [Hp _]. rewrite Hoth; [done|done|apply idx_range| |left].
    + intros ->. by eapply (tbl_not_fresh _ _ nt _ 3 va' nt Hok Hf).
    + intros ->. destruct (pt_inj _ _ Hok 3 k va' va t ltac:(lia) ltac:(lia) Hu' Hu Ht3 Ht) as [? _]. lia.
Qed.

(** Memory that is free before does not matter. *)
Lemma fresh_fill_same root v nt a' k va :
  pt_ok root v -> fresh_page nt (vm_frames v) a' -> user va -> (k <= 3)%nat ->
  let v' := set_mem (fill (vm_mem v) nt 0 PAGE) (set_frames a' v) in
  tbl k root va v' = tbl k root va v /\
  (forall t i, tbl k root va v = Some t -> 0 <= i < 512 -> entry_at v' t i = entry_at v t i).
Proof.
  intros Hok Hf Hu Hk v'.
  assert (He : forall k t i, (k <= 3)%nat -> tbl k root va v = Some t -> 0 <= i < 512 -> entry_at v' t i = entry_at v t i).
  { intros k0 t i Hk0 Ht Hi. destruct (pt_page _ _ Hok k0 va t Hk0 Hu Ht) as [Hp _].
    apply (entry_fill_other nt); [apply Hf|done|done| |done].
    by eapply (tbl_not_fresh _ _ nt _ k0 va t Hok Hf). }
  split; [|intros t i Ht Hi; by apply (He k)]. induction k as [|k IH]; [done|]. cbn [tbl]. rewrite IH by lia.
  destruct (tbl k root va v) as [t|] eqn:Ht; [|done]. rewrite (He k t) by (lia || done || apply idx_range). done.
Qed.

(** Everything stays as it was when no table could be added. *)
Lemma fresh_fill_ok root v nt a' :
  pt_ok root v -> fresh_page nt (vm_frames v) a' ->
  let v' := set_mem (fill (vm_mem v) nt 0 PAGE) (set_frames a' v) in
  pt_ok root v' /\ forall va, user va -> pte_of root va v' = pte_of root va v.
Proof.
  intros Hok Hf v'.
  assert (Ht : forall k va, (k <= 3)%nat -> user va -> tbl k root va v' = tbl k root va v).
  { intros k va Hk Hu. by apply (fresh_fill_same root v nt a' k va Hok Hf Hu Hk). }
  split; [constructor|].
  - apply Hf.
  - intros k va t Hk Hu. rewrite Ht by done. intros Hkt. destruct (pt_page _ _ Hok k va t Hk Hu Hkt) as [Hp Hn].
    split; [done|]. intros x Hx. eapply avail_shrinks; [exact Hf|]. by apply Hn.
  - intros k k' va va' t Hk Hk' Hu Hu'. rewrite !Ht by done. by apply (pt_inj _ _ Hok).
  - intros va Hu. unfold pte_of. rewrite Ht by (done || lia). destruct (tbl 3 root va v) as [t|] eqn:E; [|done].
    destruct (fresh_fill_same root v nt a' 3 va Hok Hf Hu ltac:(lia)) as [_ He]. rewrite He by (done || apply idx_range). done.
Qed.

(** One level of the descent. *)
Definition descent (root : Z) (need : Z) (k : nat) (va : Z) (v : vm A) (r : option Z * vm A) : Prop :=
  pt_ok root r.2 /\ (forall va', user va' -> pte_of root va' r.2 = pte_of root va' v) /\
  (forall t', r.1 = Some t' -> tbl k root va r.2 = Some t') /\
  (need <= fa_nfree (vm_frames v) -> r.1 <> None) /\
  fa_nfree (vm_frames v) - need <= fa_nfree (vm_frames r.2).

Lemma map_level_spec root va flags k t v :
  pt_ok root v -> user va -> flags_ok flags -> (k < 3)%nat -> tbl k root va v = Some t ->
  descent root 1 (S k) va v (map_level off va flags (3 - Z.of_nat k) t v).
Proof.
  intros Hok Hu Hfl Hk Ht. unfold map_level, descent. pose proof (tbl_next _ _ _ _ _ Ht) as Hnx.
  destruct (has (entry_at v t (idx va (3 - Z.of_nat k))) PTE_PRESENT) eqn:Hpr; cbn [negb fst snd].
  { split_and!; try done; [|lia]. intros t' [= <-]. done. }
  unfold table_alloc. pose proof (alloc_fresh (vm_frames v) (pt_frames _ _ Hok)) as [[He Hn0]|Hf].
  { rewrite He. cbn. destruct v. cbn in *. split_and!; first [done|lia]. }
  destruct (fa_alloc 1 (vm_frames v)) as [nt a']. cbn [fst snd] in Hf.
  pose proof Hf as (Hpg & Hrange & (_ & Hoff & Hpos & _) & Hnf & _).
  destruct (Z.eqb_spec nt 0); [unfold is_page in Hpg; lia|].
  assert (Hx : u64 (nt - off) = nt - off) by (apply u64_small; unfold is_page, PAGE in *; lia). rewrite Hx.
  destruct (Z.eqb_spec (nt - off) 0) as [Hz|Hz]; [lia|].
  set (e := Z.lor _ flags).
  destruct (make_entry (nt - off) flags e) as (Hr & Hpe & Hme); [lia| |done|by left|].
  { unfold is_page, PAGE in *. lia. }
  assert (Hh : hhdm_of off (Z.land e PTE_ADDR_MASK) = nt).
  { rewrite Hme. unfold hhdm_of. replace (nt - off + off) with nt by lia. apply u64_small. unfold is_page, PAGE in *. lia. }
  set (v' := set_entry _ _ _ _).
  assert (Hadd : table_added root va k t nt e v v')
    by exact (conj Ht (conj Hpr (conj Hf (conj Hr (conj Hpe (conj Hh eq_refl)))))).
  cbn [fst snd]. split_and!; try done.
  - exact (table_added_ok _ _ _ _ _ _ _ _ Hok Hu Hk Hadd).
  - intros va' Hu'. exact (table_added_pte _ _ _ _ _ _ _ _ va' Hok Hu Hk Hadd Hu').
  - intros t' [= <-]. rewrite (table_added_tbl root va k t nt e v v' (S k) va) by (done || lia).
    rewrite decide_False by lia. rewrite decide_True by done. rewrite decide_True by done. by rewrite Hh.
  - change (vm_frames v') with a'. lia.
Qed.

Lemma map_walk_spec root va flags l k t v :
  pt_ok root v -> user va -> flags_ok flags -> (k + l = 3)%nat -> tbl k root va v = Some t ->
  descent root (Z.of_nat l) 3 va v (map_walk off l va flags t v).
Proof.
  revert k t v. induction l as [|l IH]; intros k t v Hok Hu Hfl Hk Ht; cbn [map_walk].
  - replace k with 3%nat in Ht by lia. unfold descent. cbn [fst snd]. split_and!; try done; [|lia]. by intros t' [= <-].
  - destruct (map_level_spec root va flags k t v Hok Hu Hfl ltac:(lia) Ht) as (Hok1 & Hp1 & Ht1 & Hn1 & Hf1).
    replace (Z.of_nat (S l)) with (3 - Z.of_nat k) by lia.
    destruct (map_level off va flags (3 - Z.of_nat k) t v) as [[t1|] v1]; cbn [fst snd] in *.
    + destruct (IH (S k) t1 v1 Hok1 Hu Hfl ltac:(lia) (Ht1 t1 eq_refl)) as (Hok2 & Hp2 & Ht2 & Hn2 & Hf2).
      unfold descent. split_and!; try done; [|intros; apply Hn2; lia|lia].
      intros va' Hu'. rewrite Hp2 by done. by apply Hp1.
    + unfold descent. cbn [fst snd]. split_and!; try done; [|lia]. intros Hle. apply Hn1. lia.
Qed.

(** ** Leaf entries *)

Lemma leaf_write root va t e v :
  pt_ok root v -> user va -> tbl 3 root va v = Some t -> 0 <= e < 2 ^ 64 ->
  let v' := set_entry t (idx va 0) e v in
  pt_ok root v' /\
  forall va', user va' -> pte_of root va' v' =
    if decide (same_prefix 4 va' va) then (if has e PTE_PRESENT then Some e else None) else pte_of root va' v.
Proof.
  intros Hok Hu Ht He v'. destruct (pt_page _ _ Hok 3 va t ltac:(lia) Hu Ht) as [Hpt _].
  assert (Hkeep : forall k va' t', (k <= 3)%nat -> user va' -> tbl k root va' v = Some t' ->
    forall i, 0 <= i < 512 -> (k < 3)%nat \/ ~ same_prefix 3 va' va \/ i <> idx va 0 -> entry_at v' t' i = entry_at v t' i).
  { intros k va' t' Hk Hu' Ht' i Hi Hd. destruct (pt_page _ _ Hok k va' t' Hk Hu' Ht') as [Hp' _].
    unfold v'. apply entry_set_other; try done; [apply idx_range|].
    destruct (decide (t = t')) as [->|]; [right|by left].
    destruct (pt_inj _ _ Hok k 3 va' va t' Hk ltac:(lia) Hu' Hu Ht' Ht) as [-> Hsp].
    destruct Hd as [?|[?|?]]; [lia|done|congruence]. }
  assert (Htbl : forall k va', (k <= 3)%nat -> user va' -> tbl k root va' v' = tbl k root va' v).
  { intros k va' Hk Hu'. induction k as [|k IH]; [done|]. cbn [tbl]. rewrite IH by lia.
    destruct (tbl k root va' v) as [t'|] eqn:Ht'; [|done].
    rewrite (Hkeep k va' t') by (lia || done || apply idx_range || (left; lia)). done. }
  split; [constructor|].
  - apply Hok.
  - intros k va' t' Hk Hu'. rewrite Htbl by done. by apply (pt_page _ _ Hok).
  - intros k k' va1 va2 t' Hk Hk' Hu1 Hu2. rewrite !Htbl by done. by apply (pt_inj _ _ Hok).
  - intros va' Hu'. unfold pte_of. rewrite Htbl by (done || lia).
    destruct (decide (same_prefix 4 va' va)) as [Hs|Hs].
    + apply same_prefix_S in Hs as [Hs Hi]. change (3 - Z.of_nat 3) with 0 in Hi.
      rewrite (tbl_prefix 3 root va' va v Hs), Ht, Hi. unfold v'. rewrite entry_set_same, u64_small by lia. done.
    + destruct (tbl 3 root va' v) as [t'|] eqn:Ht'; [|done].
      rewrite (Hkeep 3%nat va' t'); [done|lia|done|done|apply idx_range|]. right.
      destruct (decide (same_prefix 3 va' va)) as [Hs3|]; [right|by left]. intros Hi. apply Hs, same_prefix_S. done.
Qed.

Lemma idx_div va l : 0 <= l -> idx va l = va / PAGE / 512 ^ l mod 512.
Proof.
  intros Hl. unfold idx, PAGE. change 0x1FF with (2 ^ 9 - 1). rewrite land_ones_mod, Z.shiftr_div_pow2 by lia.
  replace (2 ^ (12 + l * 9)) with (4096 * 512 ^ l); [rewrite Z.div_div by (lia || nia); done|].
  rewrite Z.pow_add_r, (Z.mul_comm l), Z.pow_mul_r by lia. done.
Qed.

Lemma same_page va va' : user va -> user va' -> same_prefix 4 va va' <-> va / PAGE = va' / PAGE.
Proof.
  unfold user, PAGE. intros Hu Hu'. split.
  - intros Hs. pose proof (Hs 0%nat ltac:(lia)) as H3. pose proof (Hs 1%nat ltac:(lia)) as H2.
    pose proof (Hs 2%nat ltac:(lia)) as H1'. pose proof (Hs 3%nat ltac:(lia)) as H0'.
    rewrite !idx_div in * by lia. unfold PAGE in *. cbn in H0', H1', H2, H3. clear Hs.
    assert (0 <= va / 4096 < 2 ^ 35 /\ 0 <= va' / 4096 < 2 ^ 35) by lia.
    generalize dependent (va / 4096). generalize dependent (va' / 4096). intros. lia.
  - intros He j Hj. rewrite !idx_div by lia. unfold PAGE. by rewrite He.
Qed.
Lemma pmap_map_pte root va pa flags v :
  pt_ok root v -> user va -> flags_ok flags ->
  let v' := pmap_map off root va pa flags v in
  let e := Z.lor (Z.lor (Z.land pa PTE_ADDR_MASK) PTE_PRESENT) flags in
  pt_ok root v' /\
  ((forall va', user va' -> pte_of root va' v' = pte_of root va' v) /\ fa_nfree (vm_frames v) < 3 \/
   forall va', user va' -> pte_of root va' v' =
     if decide (same_prefix 4 va' va) then Some e else pte_of root va' v).
Proof.
  intros Hok Hu Hfl. unfold pmap_map.
  destruct (map_walk_spec root va flags 3 0 (hhdm_of off root) v Hok Hu Hfl ltac:(lia) eq_refl) as (Hok1 & Hp1 & Ht1 & Hn1 & _).
  destruct (map_walk off 3 va flags (hhdm_of off root) v) as [[t|] v1]; cbn [fst snd] in *; cbv zeta.
  - set (e := Z.lor _ flags).
    destruct (make_entry (Z.land pa PTE_ADDR_MASK) flags e) as (Hr & Hpe & _); [| |done|by right|].
    { split; [apply Z.land_nonneg; right; done|]. apply mask_bound. }
    { apply mask_aligned. }
    destruct (leaf_write root va t e v1 Hok1 Hu (Ht1 t eq_refl) Hr) as [Hok2 Hp2].
    split; [done|]. right. intros va' Hu'. rewrite Hp2, Hpe by done. destruct (decide _); [done|]. by apply Hp1.
  - split; [done|]. left. split; [done|]. destruct (Z.lt_ge_cases (fa_nfree (vm_frames v)) 3); [done|].
    by destruct Hn1.
Qed.

(** C6: [pmap_map] refines the update of one page of the address space: with
    three free frames for intermediate tables, exactly the addresses of the
    page of [va] now translate to [pa], every other user address translates
    as before, and the page tables stay well formed. *)
Theorem pmap_map_resolve root va pa flags v :
  pt_ok root v -> user va -> flags_ok flags -> 3 <= fa_nfree (vm_frames v) ->
  let v' := pmap_map off root va pa flags v in
  pt_ok root v' /\
  forall va', user va' -> pmap_resolve off root va' v' =
    if va' / PAGE =? va / PAGE then Z.lor (Z.land pa PTE_ADDR_MASK) (Z.land va' 0xFFF)
    else pmap_resolve off root va' v.
Proof.
  intros Hok Hu Hfl Hn. destruct (pmap_map_pte root va pa flags v Hok Hu Hfl) as [Hok' [[_ ?]|Hp]]; [lia|].
  split; [done|]. intros va' Hu'. rewrite !pmap_resolve_pte, Hp by done.
  destruct (decide (same_prefix 4 va' va)) as [Hs|Hs]; rewrite same_page in Hs by done.
  - rewrite Hs, Z.eqb_refl. f_equal.
    set (x := Z.land pa PTE_ADDR_MASK).
    destruct (make_entry x flags (Z.lor (Z.lor x PTE_PRESENT) flags)) as (_ & _ & ->); try done; [| |by right].
    { split; [apply Z.land_nonneg; right; done|apply mask_bound]. }
    { apply mask_aligned. }
  - by rewrite (proj2 (Z.eqb_neq _ _) Hs).
Qed.

(** C38: when page-table frames run out, [pmap_map] leaves every translation
    of the address space as it was. *)
Theorem pmap_map_out_of_memory root va pa flags v :
  pt_ok root v -> user va -> flags_ok flags ->
  (map_walk off 3 va flags (hhdm_of off root) v).1 = None ->
  let v' := pmap_map off root va pa flags v in
  pt_ok root v' /\ forall va', user va' -> pmap_resolve off root va' v' = pmap_resolve off root va' v.
Proof.
  intros Hok Hu Hfl Hnone.
  destruct (map_walk_spec root va flags 3 0 (hhdm_of off root) v Hok Hu Hfl ltac:(lia) eq_refl) as (Hok1 & Hp1 & _).
  unfold pmap_map. destruct (map_walk off 3 va flags (hhdm_of off root) v) as [[t|] v1]; [done|]. cbn [fst snd] in *.
  split; [done|]. intros va' Hu'. by rewrite !pmap_resolve_pte, Hp1.
Qed.

(** [pmap_unmap] removes exactly the page of [va] from the address
    space. *)
Theorem pmap_unmap_resolve root va v :
  pt_ok root v -> user va ->
  let v' := pmap_unmap off root va v in
  pt_ok root v' /\
  forall va', user va' -> pmap_resolve off root va' v' =
    if va' / PAGE =? va / PAGE then 0 else pmap_resolve off root va' v.
Proof.
  intros Hok Hu. unfold pmap_unmap, pmap_pte.
  rewrite (pte_walk_tbl 3 va (hhdm_of off root) v root 0) by done.
  destruct (tbl 3 root va v) as [t|] eqn:Ht; cbv zeta.
  - destruct (leaf_write root va t 0 v Hok Hu Ht ltac:(lia)) as [Hok' Hp].
    split; [done|]. intros va' Hu'. rewrite !pmap_resolve_pte.
    change (set_mem (store64 (vm_mem v) (t + 8 * idx va 0) 0) v) with (set_entry t (idx va 0) 0 v).
    rewrite Hp by done. destruct (decide (same_prefix 4 va' va)) as [Hs|Hs]; rewrite same_page in Hs by done.
    + by rewrite Hs, Z.eqb_refl.
    + by rewrite (proj2 (Z.eqb_neq _ _) Hs).
  - split; [done|]. intros va' Hu'. destruct (Z.eqb_spec (va' / PAGE) (va / PAGE)) as [He|]; [|done].
    apply same_page in He; [|done..]. rewrite pmap_resolve_pte. unfold pte_of.
    rewrite (tbl_prefix 3 root va' va v), Ht; [done|]. by apply same_prefix_S in He as [? _].
Qed.
Lemma user_idx3 va : user va -> 0 <= idx va 3 < 256.
Proof.
  intros Hu. rewrite idx_div by lia. unfold user, PAGE in *. change (512 ^ 3) with 134217728. lia.
Qed.

(** The loop that clones the kernel half. *)
Lemma clone_half page old v :
  is_page page -> is_page old -> page <> old -> (forall i, 0 <= i < 512 -> entry_at v page i = 0) ->
  let v' := for_range 256 256 (fun i v => set_entry page i (entry_at v old i) v) v in
  vm_frames v' = vm_frames v /\
  (forall i, 0 <= i < 256 -> entry_at v' page i = 0) /\
  (forall i, 256 <= i < 512 -> entry_at v' page i = entry_at v old i).
Proof.
  intros Hp Ho Hne Hz.
  pose (P := fun (k : Z) (w : vm A) => 256 <= k <= 512 /\ vm_frames w = vm_frames v /\
    (forall i, 0 <= i < 256 -> entry_at w page i = 0) /\
    (forall i, 256 <= i < k -> entry_at w page i = entry_at v old i) /\
    (forall i, 0 <= i < 512 -> entry_at w old i = entry_at v old i)).
  assert (HP : P (256 + Z.of_nat 256) (for_range 256 256 (fun i v => set_entry page i (entry_at v old i) v) v)).
  { apply (for_range_ind P).
    - unfold P. split_and!; try lia; try done. intros i Hi. apply Hz. lia.
    - intros k w Hk (Hk' & Hf & Hlow & Hup & Hold). unfold P. split_and!; [lia|lia|done|..].
      + intros i Hi. rewrite entry_set_other by (done || lia). by apply Hlow.
      + intros i Hi. destruct (decide (i = k)) as [->|].
        * rewrite entry_set_same, Hold by lia. apply u64_small. apply (load_range 8).
        * rewrite entry_set_other by (done || lia). apply Hup. lia.
      + intros i Hi. rewrite entry_set_other; auto; lia. }
  destruct HP as (_ & H1 & H2 & H3 & _). cbv zeta. split_and!; try done.
Qed.

(** [pmap_create] returns, when a frame is free, a well-formed address
    space whose user half is empty and whose kernel half is the one of the
    address space in use. *)
Theorem pmap_create_fresh cr3 v :
  frames_ok (vm_frames v) -> 0 < fa_nfree (vm_frames v) ->
  let old := hhdm_of off (Z.land cr3 PTE_ADDR_MASK) in
  is_page old -> (forall x, old <= x < old + PAGE -> fa_avail (vm_frames v) x = false) ->
  exists root v', pmap_create off cr3 v = (root, v') /\ root <> 0 /\ pt_ok root v' /\
    (forall va, user va -> pmap_resolve off root va v' = 0) /\
    (forall i, 256 <= i < 512 -> entry_at v' (hhdm_of off root) i = entry_at v old i).
Proof.
  intros Hfr Hn old Hop Hoa. unfold pmap_create. fold old.
  destruct (alloc_fresh (vm_frames v) Hfr) as [[_ ?]|Hf]; [lia|].
  destruct (fa_alloc 1 (vm_frames v)) as [page a']. cbn [fst snd] in Hf.
  pose proof Hf as (Hpg & Hrange & Hfr' & _ & Hav & Hav').
  destruct (Z.eqb_spec page 0); [unfold is_page in Hpg; lia|].
  assert (Hx : u64 (page - off) = page - off) by (apply u64_small; unfold is_page, PAGE in *; lia). rewrite Hx.
  assert (Hh : hhdm_of off (page - off) = page).
  { unfold hhdm_of. replace (page - off + off) with page by lia. apply u64_small. unfold is_page, PAGE in *. lia. }
  assert (Hne : page <> old).
  { intros ->. assert (Hr : old <= old < old + PAGE) by (unfold PAGE; lia).
    specialize (Hav old Hr). specialize (Hoa old Hr). congruence. }
  set (v0 := set_mem (fill _ page 0 PAGE) _).
  destruct (clone_half page old v0 Hpg Hop Hne) as (Hcf & Hlow & Hup).
  { intros i Hi. by eapply entry_fill_same. }
  eexists _, _. split; [reflexivity|]. split; [lia|]. set (v' := for_range _ _ _ _) in *.
  assert (Htbl : forall k va, user va -> tbl (S k) (page - off) va v' = None).
  { intros k va Hu. induction k as [|k IH]; [|cbn [tbl]; cbn [tbl] in IH; by rewrite IH].
    cbn [tbl]. rewrite Hh. change (3 - Z.of_nat 0) with 3. rewrite Hlow by by apply user_idx3. done. }
  assert (Hk0 : forall k va t, user va -> tbl k (page - off) va v' = Some t -> k = O /\ t = page).
  { intros [|k] va t Hu; [cbn [tbl]; rewrite Hh; intros [= ->]; done|]. by rewrite Htbl. }
  split_and!.
  - constructor; [by rewrite Hcf| |].
    + intros k va t _ Hu Ht. destruct (Hk0 k va t Hu Ht) as [-> ->]. split; [done|]. intros x Hxr.
      rewrite Hcf. change (vm_frames v0) with a'. rewrite Hav'. by rewrite (proj2 (in_region_true _ _ _)) by lia.
    + intros k k' va va' t _ _ Hu Hu' Ht Ht'. destruct (Hk0 k va t Hu Ht) as [-> _], (Hk0 k' va' t Hu' Ht') as [-> _].
      split; [done|]. intros j Hj. lia.
  - intros va Hu. rewrite pmap_resolve_pte. unfold pte_of. by rewrite Htbl.
  - rewrite Hh. intros i Hi. rewrite Hup by done. unfold v0.
    apply (entry_fill_other page _ old i (vm_mem v)); first [done|lia].
Qed.
End Correctness.

(** ** Witnesses: an empty address space rooted at frame 0 *)

Definition OFF : Z := 0xffff800000000000.
#[local] Instance demo_alloc : FrameAlloc pmm := pmm_frame_alloc OFF.
#[local] Instance demo_alloc_laws : FrameAllocLaws pmm := pmm_frame_alloc_laws OFF.

(** Memory of zeros; [demo_frames] has 63 free frames, the other none. *)
Definition demo_vm : vm pmm := mkVm (fun _ => 0) demo_frames 0 0.
Definition full_vm : vm pmm := mkVm (fun _ => 0) (pmm_boot (fun _ => 0)) 0 0.

Lemma demo_frames_ok : frames_ok OFF demo_frames.
Proof.
  assert (Ht : total_pages demo_frames = 65) by (vm_compute; reflexivity).
  assert (Hi : pmm_inv demo_frames) by (split; vm_compute; [split; discriminate|reflexivity]).
  unfold frames_ok. split; [split; [exact Hi|]|].
  - unfold hhdm_ok. rewrite Ht. split; [reflexivity|split; [reflexivity|]]. vm_compute. discriminate.
  - split; [reflexivity|split; [unfold OFF; lia|split; [|vm_compute; reflexivity]]].
    intros q Hq. change (managed OFF demo_frames q = true) in Hq. unfold managed in Hq. rewrite Ht in Hq. bool_hyps. unfold PAGE, OFF in *. lia.
Qed.

Lemma full_frames_ok : frames_ok OFF (pmm_boot (fun _ => 0)).
Proof.
  assert (Hi : pmm_inv (pmm_boot (fun _ => 0))) by (split; vm_compute; [split; discriminate|reflexivity]).
  unfold frames_ok. split; [split; [exact Hi|]|].
  - unfold hhdm_ok. split; [reflexivity|split; [reflexivity|]]. vm_compute. discriminate.
  - split; [reflexivity|split; [unfold OFF; lia|split; [|vm_compute; reflexivity]]].
    intros q Hq. change (managed OFF (pmm_boot (fun _ => 0)) q = true) in Hq. unfold managed in Hq.
    change (total_pages (pmm_boot (fun _ => 0))) with 0 in Hq. bool_hyps. lia.
Qed.

Lemma zero_mem_entry (v : vm pmm) t i : vm_mem v = (fun _ => 0) -> entry_at v t i = 0.
Proof. intros Hm. unfold entry_at, load64. rewrite Hm. reflexivity. Qed.

Lemma zero_mem_ok (v : vm pmm) :
  vm_mem v = (fun _ => 0) -> frames_ok OFF (vm_frames v) -> fa_managed (vm_frames v) OFF = false \/ vm_frames v = demo_frames ->
  pt_ok OFF 0 v.
Proof.
  intros Hm Hf Hor.
  assert (Hk : forall k va t, tbl OFF k 0 va v = Some t -> k = O /\ t = OFF).
  { intros [|k] va t; [cbn [tbl]; intros [= <-]; done|]. cbn [tbl].
    destruct (tbl OFF k 0 va v) as [t'|]; [|done]. by rewrite (zero_mem_entry v) by done. }
  constructor; [done| |].
  - intros k va t _ _ Ht. apply Hk in Ht as [-> ->]. split; [unfold is_page, OFF, PAGE; vm_compute; split; [reflexivity|split; [reflexivity|discriminate]]|].
    intros x Hx.
    assert (Hpg : (x - OFF) / PAGE = 0) by (unfold PAGE in *; lia).
    change (managed OFF (vm_frames v) x && page_free (vm_frames v) ((x - OFF) / PAGE) = false). rewrite Hpg.
    destruct Hor as [Hn|Hd].
    + change (managed OFF (vm_frames v) OFF = false) in Hn. unfold managed in *. rewrite Z.sub_diag in Hn.
      rewrite Hpg. change (0 / PAGE) with 0 in Hn. by rewrite Hn.
    + rewrite Hd. apply andb_false_intro2. vm_compute. reflexivity.
  - intros k k' va va' t _ _ _ _ Ht Ht'. apply Hk in Ht as [-> _], Ht' as [-> _]. split; [done|]. intros j Hj. lia.
Qed.

Lemma demo_pt_ok : pt_ok OFF 0 demo_vm.
Proof. apply zero_mem_ok; [done|exact demo_frames_ok|by right]. Qed.
Lemma full_pt_ok : pt_ok OFF 0 full_vm.
Proof. apply zero_mem_ok; [done|exact full_frames_ok|left; reflexivity]. Qed.

Lemma flags_user_write : flags_ok (Z.lor PTE_USER PTE_WRITE).
Proof. split; [vm_compute; split; [discriminate|reflexivity]|reflexivity]. Qed.

Lemma pmap_map_resolve_witness :
  pmap_resolve OFF 0 0x400123 (pmap_map OFF 0 0x400000 0x5000 (Z.lor PTE_USER PTE_WRITE) demo_vm) = 0x5123.
Proof.
  destruct (pmap_map_resolve OFF 0 0x400000 0x5000 (Z.lor PTE_USER PTE_WRITE) demo_vm demo_pt_ok) as [_ Hr].
  - unfold user. lia.
  - exact flags_user_write.
  - vm_compute. discriminate.
  - rewrite Hr by (unfold user; lia). reflexivity.
Defined.

Lemma pmap_map_out_of_memory_witness :
  pmap_resolve OFF 0 0x400123 (pmap_map OFF 0 0x400000 0x5000 (Z.lor PTE_USER PTE_WRITE) full_vm) = 0.
Proof.
  destruct (pmap_map_out_of_memory OFF 0 0x400000 0x5000 (Z.lor PTE_USER PTE_WRITE) full_vm full_pt_ok) as [_ Hr].
  - unfold user. lia.
  - exact flags_user_write.
  - vm_compute. reflexivity.
  - rewrite Hr by (unfold user; lia). reflexivity.
Defined.

Lemma pmap_unmap_resolve_witness : pmap_resolve OFF 0 0x400123 (pmap_unmap OFF 0 0x400000 demo_vm) = 0.
Proof.
  destruct (pmap_unmap_resolve OFF 0 0x400000 demo_vm demo_pt_ok) as [_ Hr].
  - unfold user. lia.
  - rewrite Hr by (unfold user; lia). reflexivity.
Defined.

Lemma pmap_create_fresh_witness :
  exists root v', pmap_create OFF 0 demo_vm = (root, v') /\ pmap_resolve OFF root 0x400000 v' = 0.
Proof.
  destruct (pmap_create_fresh OFF 0 demo_vm demo_frames_ok) as (root & v' & He & _ & _ & Hr & _).
  - vm_compute. reflexivity.
  - vm_compute. split; [reflexivity|split; [reflexivity|discriminate]].
  - intros x Hx. apply (pt_page OFF 0 demo_vm demo_pt_ok 0 0 OFF); [lia|unfold user; lia|reflexivity|exact Hx].
  - exists root, v'. split; [exact He|]. apply Hr. unfold user. lia.
Defined.
