(* ===== verification/Libk.v ===== *)
(** * Kernel console and formatting (kernel/src/lib/libk.c)

    The serial port with its flood detector, [kprintf], and the bounded
    formatter [vsnprintf_mini].  Bytes sent to COM1 and characters handed to
    the screen are recorded in order.  Variadic arguments are a list; a format
    string is its list of bytes, and both formatters are written as machines
    that consume one byte at a time. *)
From S2P Require Import Prelude.

(** ** Serial output *)

Definition BURST_CAP : Z := 32.

Record serial := mkSerial {
  g_serial_flood : bool;
  g_last_ch : Z;
  g_repeat : Z;
  g_burst_buf : list Z;       (* the first [g_burst_len] bytes *)
  g_burst_total : Z;
  g_burst_id : Z;
  com1 : list Z;              (* bytes sent so far *)
  screen : list Z;            (* characters passed to tty_screen_putc *)
}.

Definition serial0 : serial := mkSerial false 0 0 [] 0 0 [] [].

Definition g_burst_len (s : serial) : Z := zlen (g_burst_buf s).

Definition outb (b : Z) (s : serial) : serial :=
  mkSerial (g_serial_flood s) (g_last_ch s) (g_repeat s) (g_burst_buf s) (g_burst_total s) (g_burst_id s)
           (com1 s ++ [b]) (screen s).
Definition outbs (l : list Z) (s : serial) : serial := foldl (fun s b => outb b s) s l.

Definition set_counters (rep : Z) (buf : list Z) (total : Z) (s : serial) : serial :=
  mkSerial (g_serial_flood s) (g_last_ch s) rep buf total (g_burst_id s) (com1 s) (screen s).
Definition set_flood (f : bool) (s : serial) : serial :=
  mkSerial f (g_last_ch s) (g_repeat s) (g_burst_buf s) (g_burst_total s) (g_burst_id s) (com1 s) (screen s).
Definition set_last (c : Z) (s : serial) : serial :=
  mkSerial (g_serial_flood s) c (g_repeat s) (g_burst_buf s) (g_burst_total s) (g_burst_id s) (com1 s) (screen s).
Definition to_screen (c : Z) (s : serial) : serial :=
  mkSerial (g_serial_flood s) (g_last_ch s) (g_repeat s) (g_burst_buf s) (g_burst_total s) (g_burst_id s)
           (com1 s) (screen s ++ [c]).

Definition hex2 (c : Z) : list Z := [digit_char (Z.shiftr (u8 c) 4); digit_char (Z.land (u8 c) 0xF)].

(** Decimal digits, most significant first: [if (v == 0) ... else while (v > 0)]. *)
Definition decimal (v : Z) : list Z := map digit_char (rev (digits_rev 24 10 v)).

Definition flush_burst (s : serial) : serial :=
  if (g_burst_len s =? 0) && (g_burst_total s =? 0) then s
  else
    let s1 := outbs (bs "[BURST#") s in
    let s1 := outbs (decimal (g_burst_id s)) s1 in
    let s1 := outbs (bs "] len=") s1 in
    let s1 := outbs (decimal (g_burst_total s)) s1 in
    let s1 := outbs (bs " first=") s1 in
    let s1 := outbs (concat (map (fun c => hex2 c ++ [32]) (g_burst_buf s))) s1 in
    let s1 := outbs [13; 10] s1 in
    mkSerial (g_serial_flood s1) (g_last_ch s1) (g_repeat s1) [] 0 (g_burst_id s1 + 1) (com1 s1) (screen s1).

(** The part of [serial_putc] that watches for floods; [true]: return early. *)
Definition flood_watch (c : Z) (s : serial) : bool * serial :=
  let s := set_counters (g_repeat s)
             (if g_burst_len s <? BURST_CAP then g_burst_buf s ++ [c] else g_burst_buf s)
             (g_burst_total s + 1) s in
  if (c =? g_last_ch s) && negb (c =? 10) && negb (c =? 13) then
    let rep := g_repeat s + 1 in
    let s := set_counters rep (g_burst_buf s) (g_burst_total s) s in
    if 128 <? rep then
      let s := flush_burst (set_flood true s) in
      let s := outbs (10 :: bs "[FLOOD] serial flood detected: repeating char 0x") s in
      (true, outbs [13; 10] (outbs (hex2 c) s))
    else (false, set_last c s)
  else (false, set_last c (set_counters 0 (g_burst_buf s) (g_burst_total s) s)).

Definition serial_putc (c : Z) (s : serial) : serial :=
  let s := if c =? 10 then set_counters 0 [] 0 (outb 13 s) else s in
  let '(stop, s) := if negb (g_serial_flood s) then flood_watch c s else (false, s) in
  if stop then s
  else if g_serial_flood s then
    if c =? 10 then to_screen c (outb (u8 c) (set_flood false s)) else s
  else to_screen c (outb (u8 c) s).

Definition kprint (str : list Z) (s : serial) : serial := foldl (fun s c => serial_putc c s) s str.

(** ** kprintf *)

Definition hex_char (uppercase : bool) (d : Z) : Z :=
  if d <? 10 then 48 + d else (if uppercase then 55 else 87) + d.

(** [buf] holds up to 65 digits, printed most significant first. *)
Definition print_uint (val base : Z) (uppercase : bool) (s : serial) : serial :=
  kprint (map (hex_char uppercase) (rev (digits_rev 65 base val))) s.

Definition print_int (val : Z) (s : serial) : serial :=
  if val <? 0 then print_uint (u64 (- val)) 10 false (serial_putc 45 s) else print_uint (u64 val) 10 false s.

(** Arguments: a machine word, or a string pointer ([None] is NULL). *)
Inductive arg := AInt (v : Z) | AStr (s : option (list Z)).

Definition arg_word (a : option arg) : Z := match a with Some (AInt v) => v | _ => 0 end.
Definition arg_string (a : option arg) : list Z :=
  match a with Some (AStr (Some s)) => s | _ => bs "(null)" end.

(** [while (i < pad_width) { putc(pad); i++; }] after [n] digits. *)
Definition padding (pad_width n pad : Z) : list Z := replicate (Z.to_nat (pad_width - n)) pad.

(** The conversions of [kprintf].  [junk] is the uninitialised part of the
    local array [num], which the padded [%d] prints. *)
Definition kconv (junk : Z -> Z) (pad_width pad_char c : Z) (a : option arg) (s : serial) : serial :=
  if c =? 115 then kprint (arg_string a) s                                   (* s *)
  else if c =? 100 then                                                      (* d *)
    let v := s32 (arg_word a) in
    if (0 <? pad_width) && (0 <=? v) then
      let ds := digits_rev 24 10 (u32 v) in
      let n := zlen ds in
      let num := fun j => if j <? n then 48 + znth 0 ds j else junk j in
      let s := kprint (padding pad_width n 48) s in
      let i := Z.max n pad_width in
      kprint (map num (rev (seqZ 0 i))) s
    else print_int v s
  else if (c =? 117) || (c =? 120) then                                      (* u x *)
    let base := if c =? 117 then 10 else 16 in
    let v := u64 (arg_word a) in
    if 0 <? pad_width then
      let ds := digits_rev 24 base v in
      kprint (map digit_char (rev ds)) (kprint (padding pad_width (zlen ds) pad_char) s)
    else print_uint v base false s
  else if c =? 88 then print_uint (u64 (arg_word a)) 16 true s               (* X *)
  else if c =? 112 then print_uint (u64 (arg_word a)) 16 false (kprint (bs "0x") s)   (* p *)
  else if c =? 99 then serial_putc (u8 (arg_word a)) s                       (* c *)
  else if c =? 37 then serial_putc 37 s
  else serial_putc c (serial_putc 37 s).

Definition klong (c : Z) (a : option arg) (s : serial) : serial :=
  if c =? 117 then print_uint (u64 (arg_word a)) 10 false s
  else if c =? 100 then print_int (s64 (arg_word a)) s
  else if c =? 120 then print_uint (u64 (arg_word a)) 16 false s
  else if c =? 112 then print_uint (u64 (arg_word a)) 16 false (kprint (bs "0x") s)
  else serial_putc c (serial_putc 108 s).

(** Conversions that consume an argument. *)
Definition ktakes (c : Z) : bool := existsb (Z.eqb c) [115; 100; 117; 120; 88; 112; 99].
Definition klong_takes (c : Z) : bool := existsb (Z.eqb c) [117; 100; 120; 112].

Definition is_digit (c : Z) : bool := (48 <=? c) && (c <=? 57).

Inductive kmode := KText | KFlag | KWidth (w pad : Z) | KLong.

Fixpoint kprintf_loop (junk : Z -> Z) (m : kmode) (fmt : list Z) (args : list arg) (s : serial) : serial :=
  let conv w pad c rest :=
    kprintf_loop junk KText rest (if ktakes c then tl args else args) (kconv junk w pad c (head args) s) in
  match fmt with
  | [] => match m with
          | KText => s
          | KLong => serial_putc 0 (serial_putc 108 s)
          | _ => serial_putc 0 (serial_putc 37 s)
          end
  | c :: rest =>
      match m with
      | KText => if c =? 37 then kprintf_loop junk KFlag rest args s
                 else kprintf_loop junk KText rest args (serial_putc c s)
      | KFlag => if c =? 48 then kprintf_loop junk (KWidth 0 48) rest args s
                 else if is_digit c then kprintf_loop junk (KWidth (c - 48) 32) rest args s
                 else if c =? 108 then kprintf_loop junk KLong rest args s
                 else conv 0 32 c rest
      | KWidth w pad => if is_digit c then kprintf_loop junk (KWidth (w * 10 + (c - 48)) pad) rest args s
                        else if c =? 108 then kprintf_loop junk KLong rest args s
                        else conv w pad c rest
      | KLong => kprintf_loop junk KText rest (if klong_takes c then tl args else args) (klong c (head args) s)
      end
  end.

Definition kprintf (junk : Z -> Z) (fmt : list Z) (args : list arg) (s : serial) : serial :=
  kprintf_loop junk KText fmt args s.

(** ** vsnprintf_mini *)

Record fmt_buf := mkFmt { fb_cap : Z; fb_out : list Z }.     (* [o] is the length of [fb_out] *)

Definition fmt_put (b : fmt_buf) (c : Z) : fmt_buf :=
  if zlen (fb_out b) + 1 <? fb_cap b then mkFmt (fb_cap b) (fb_out b ++ [c]) else b.
Definition fmt_puts (b : fmt_buf) (l : list Z) : fmt_buf := foldl fmt_put b l.

(** One conversion: [longmod] is set by [l]. *)
Definition fmt_conv (longmod : bool) (c : Z) (a : option arg) (b : fmt_buf) : fmt_buf :=
  if c =? 115 then fmt_puts b (arg_string a)
  else if c =? 100 then
    let v := if longmod then s64 (arg_word a) else s32 (arg_word a) in
    let b := if v <? 0 then fmt_put b 45 else b in
    fmt_puts b (map digit_char (rev (digits_rev 24 10 (Z.abs v))))
  else if (c =? 117) || (c =? 120) then
    let v := if longmod then u64 (arg_word a) else u32 (arg_word a) in
    fmt_puts b (map digit_char (rev (digits_rev 24 (if c =? 117 then 10 else 16) v)))
  else if c =? 99 then fmt_put b (u8 (arg_word a))
  else if c =? 37 then fmt_put b 37
  else fmt_put (fmt_put b 37) c.

Definition fmt_takes (c : Z) : bool := existsb (Z.eqb c) [115; 100; 117; 120; 99].

(** [pct]: [None] in text, [Some longmod] after [%]. *)
Fixpoint vsn_loop (pct : option bool) (fmt : list Z) (args : list arg) (b : fmt_buf) : fmt_buf :=
  match fmt with
  | [] => match pct with None => b | Some _ => fmt_put (fmt_put b 37) 0 end
  | c :: rest =>
      match pct with
      | None => if c =? 37 then vsn_loop (Some false) rest args b
                else vsn_loop None rest args (fmt_put b c)
      | Some lm => if c =? 108 then vsn_loop (Some true) rest args b
                   else vsn_loop None rest (if fmt_takes c then tl args else args) (fmt_conv lm c (head args) b)
      end
  end.

(** The bytes written to [out], its terminator included. *)
Definition vsnprintf_mini (cap : Z) (fmt : list Z) (args : list arg) : list Z :=
  if cap =? 0 then [] else fb_out (vsn_loop None fmt args (mkFmt cap [])) ++ [0].

(** The string up to its terminator, and its length as the result. *)
Fixpoint c_string (l : list Z) : list Z :=
  match l with
  | [] => []
  | c :: r => if c =? 0 then [] else c :: c_string r
  end.

Definition snprintf (cap : Z) (fmt : list Z) (args : list arg) : Z * list Z :=
  if cap =? 0 then (0, [])
  else let out := vsnprintf_mini cap fmt args in (zlen (c_string out), out).

Example snprintf_example :
  (snprintf 64 (bs "from %u.%u seq=%lu %s %d%%")
    [AInt 10; AInt 255; AInt 7; AStr (Some (bs "ok")); AInt (-5)]).2 = bs "from 10.255 seq=7 ok -5%" ++ [0].
Proof. reflexivity. Qed.

(** * Theorems *)

(** ** The formatter without a bound *)

Definition conv_text (longmod : bool) (c : Z) (a : option arg) : list Z :=
  if c =? 115 then arg_string a
  else if c =? 100 then
    let v := if longmod then s64 (arg_word a) else s32 (arg_word a) in
    (if v <? 0 then [45] else []) ++ map digit_char (rev (digits_rev 24 10 (Z.abs v)))
  else if (c =? 117) || (c =? 120) then
    let v := if longmod then u64 (arg_word a) else u32 (arg_word a) in
    map digit_char (rev (digits_rev 24 (if c =? 117 then 10 else 16) v))
  else if c =? 99 then [u8 (arg_word a)]
  else if c =? 37 then [37]
  else [37; c].

(** The text a format and its arguments stand for. *)
Fixpoint render (pct : option bool) (fmt : list Z) (args : list arg) : list Z :=
  match fmt with
  | [] => match pct with None => [] | Some _ => [37; 0] end
  | c :: rest =>
      match pct with
      | None => if c =? 37 then render (Some false) rest args else c :: render None rest args
      | Some lm => if c =? 108 then render (Some true) rest args
                   else conv_text lm c (head args) ++ render None rest (if fmt_takes c then tl args else args)
      end
  end.

Lemma fmt_puts_eq b l :
  zlen (fb_out b) < fb_cap b ->
  fmt_puts b l = mkFmt (fb_cap b) (take (Z.to_nat (fb_cap b - 1)) (fb_out b ++ l)).
Proof.
  revert b. induction l as [|c l IH]; intros b Hb; unfold fmt_puts; cbn [foldl].
  - rewrite app_nil_r, take_ge by (unfold zlen in *; lia). by destruct b.
  - fold (fmt_puts (fmt_put b c) l). unfold fmt_put, zlen in *.
    destruct (Z.ltb_spec (Z.of_nat (length (fb_out b)) + 1) (fb_cap b)) as [Hlt|Hge].
    + rewrite IH; cbn [fb_cap fb_out]; [|rewrite length_app; cbn [length]; lia]. by rewrite <- app_assoc.
    + rewrite IH by done. f_equal. rewrite !take_app. f_equal.
      replace (Z.to_nat (fb_cap b - 1) - length (fb_out b))%nat with O by lia. done.
Qed.

Lemma fmt_puts_app b l l' : fmt_puts (fmt_puts b l) l' = fmt_puts b (l ++ l').
Proof. unfold fmt_puts. by rewrite foldl_app. Qed.

Lemma fmt_conv_puts lm c a b : fmt_conv lm c a b = fmt_puts b (conv_text lm c a).
Proof.
  unfold fmt_conv, conv_text. destruct (c =? 115); [done|]. destruct (c =? 100).
  { set (v := if lm then _ else _). clearbody v. destruct (v <? 0); [|done]. by rewrite <- fmt_puts_app. }
  destruct (_ || _); [done|]. destruct (c =? 99); [done|]. by destruct (c =? 37).
Qed.

Lemma vsn_loop_puts pct fmt args b : vsn_loop pct fmt args b = fmt_puts b (render pct fmt args).
Proof.
  revert pct args b. induction fmt as [|c fmt IH]; intros [lm|] args b; cbn [vsn_loop render]; try done.
  - destruct (c =? 108); [apply IH|]. rewrite IH, fmt_conv_puts. apply fmt_puts_app.
  - destruct (c =? 37); rewrite IH; [done|]. done.
Qed.

Lemma vsnprintf_eq cap fmt args : 0 < cap -> vsnprintf_mini cap fmt args = take (Z.to_nat (cap - 1)) (render None fmt args) ++ [0].
Proof.
  intros Hc. unfold vsnprintf_mini. destruct (Z.eqb_spec cap 0); [lia|].
  by rewrite vsn_loop_puts, fmt_puts_eq by (unfold zlen; cbn; lia).
Qed.



Definition char_digit (c : Z) : Z := if c <? 58 then c - 48 else c - 87.

Lemma char_digit_char d : 0 <= d < 16 -> char_digit (digit_char d) = d.
Proof. unfold char_digit, digit_char. intros. ifs; lia. Qed.

Lemma map_char_digit l : Forall (fun d => 0 <= d < 16) l -> map char_digit (map digit_char l) = l.
Proof.
  induction 1 as [|d l Hd _ IH]; [done|]. cbn [map]. by rewrite char_digit_char, IH.
Qed.

(** [%u] and [%x] print the number: the value of the digits printed is
    the argument (as [unsigned int], or [unsigned long] with [l]). *)
Theorem fmt_number_value lm c v :
  c = 117 \/ c = 120 ->
  digits_value (if c =? 117 then 10 else 16) (map char_digit (conv_text lm c (Some (AInt v)))) =
    if lm then u64 v else u32 v.
Proof.
  intros Hc. unfold conv_text. cbn [arg_word]. set (n := if lm then u64 v else u32 v).
  assert (Hn : 0 <= n < 2 ^ 64) by (unfold n; pose proof (u64_range v); pose proof (u32_range v); destruct lm; lia).
  clearbody n. assert (H10 : 2 ^ 64 < 10 ^ Z.of_nat 24 /\ 2 ^ 64 < 16 ^ Z.of_nat 24) by (vm_compute; done).
  assert (Hrange : forall b, 1 < b <= 16 -> Forall (fun d => 0 <= d < 16) (rev (digits_rev 24 b n))).
  { intros b Hb. apply Forall_rev. eapply List.Forall_impl; [|apply (digits_rev_range 24 b n); lia]. cbn. lia. }
  destruct Hc as [-> | ->]; cbn [Z.eqb Pos.eqb orb]; cbn -[digits_rev digits_value Z.pow] in *;
    rewrite map_char_digit by (apply Hrange; lia); apply digits_rev_value; lia.
Qed.

Lemma fmt_number_value_witness : digits_value 10 (map char_digit (conv_text true 117 (Some (AInt 90210)))) = 90210.
Proof. apply (fmt_number_value true 117 90210). by left. Defined.

(** ** The serial port *)

Definition burst_ok (s : serial) : Prop := g_burst_len s <= BURST_CAP.

Lemma outbs_keeps l s : g_burst_buf (outbs l s) = g_burst_buf s /\ g_serial_flood (outbs l s) = g_serial_flood s.
Proof. revert s. induction l as [|b l IH]; intros s; [done|].
  change (outbs (b :: l) s) with (outbs l (outb b s)). destruct (IH (outb b s)) as [-> ->]. done.
Qed.

Lemma flush_burst_ok s : burst_ok s -> burst_ok (flush_burst s).
Proof. intros Hs. unfold flush_burst. destruct (_ && _); [done|]. unfold burst_ok, g_burst_len, zlen, BURST_CAP. cbn. lia. Qed.

Lemma flood_watch_ok c s : burst_ok s -> burst_ok (flood_watch c s).2.
Proof.
  intros Hs. unfold flood_watch. set (s1 := set_counters _ _ _ s).
  assert (H1 : burst_ok s1).
  { unfold burst_ok, g_burst_len, s1 in *. cbn [set_counters g_burst_buf]. unfold g_burst_len.
    destruct (Z.ltb_spec (zlen (g_burst_buf s)) BURST_CAP); [|done].
    unfold zlen in *. rewrite length_app. cbn [length]. lia. }
  clearbody s1. destruct (_ && _ && _); [|done]. cbv zeta. destruct (128 <? _); [|done]. cbn [snd].
  unfold burst_ok, g_burst_len. rewrite !(proj1 (outbs_keeps _ _)).
  apply (flush_burst_ok (set_flood true (set_counters (g_repeat s1 + 1) (g_burst_buf s1) (g_burst_total s1) s1))). done.
Qed.

Lemma serial_putc_ok c s : burst_ok s -> burst_ok (serial_putc c s).
Proof.
  intros Hs. unfold serial_putc. set (s1 := if c =? 10 then _ else s).
  assert (H1 : burst_ok s1).
  { unfold s1. destruct (c =? 10); [|done]. unfold burst_ok, g_burst_len, zlen, BURST_CAP. cbn. lia. }
  clearbody s1. assert (H2 : burst_ok (if negb (g_serial_flood s1) then flood_watch c s1 else (false, s1)).2).
  { destruct (negb _); [by apply flood_watch_ok|done]. }
  destruct (if negb (g_serial_flood s1) then flood_watch c s1 else (false, s1)) as [stop s2]. cbn [snd] in H2.
  destruct stop; [done|]. destruct (g_serial_flood s2); [|done]. by destruct (c =? 10).
Qed.

(** Whatever is printed, the flood detector never writes past its 32-byte
    capture buffer. *)
Theorem kprint_burst_bounded str s : burst_ok s -> burst_ok (kprint str s).
Proof. revert s. induction str as [|c str IH]; intros s Hs; [done|]. cbn. apply IH. by apply serial_putc_ok. Qed.

Lemma kprint_burst_bounded_witness : burst_ok (kprint (replicate 100 65) serial0).
Proof. apply kprint_burst_bounded. unfold burst_ok. vm_compute. discriminate. Defined.

(** The padded [%d] prints bytes of [num] that were never written. *)
Example kprintf_padded_d_prints_junk :
  screen (kprintf (fun _ => 63) (bs "%05d") [AInt 42] serial0) = bs "000???42".
Proof. reflexivity. Qed.
