(* ===== verification/Net.v ===== *)
(** * IPv4 networking and /dev/net (kernel/src/drivers/net/net.c)

    ARP resolution, ICMP echo and the command device.  Frames are lists of
    bytes.  The network card (e1000.c) is an interface: whether it is present,
    its address, and sending and polling frames. *)
From S2P Require Import Prelude Libk.

(** [nic_poll] is [e1000_poll]: the number of bytes (0 none, negative error)
    and the frame. *)
Class Nic (N : Type) := {
  nic_present : N -> bool;
  nic_mac : N -> list Z;
  nic_send : list Z -> N -> Z * N;
  nic_poll : N -> Z * list Z * N;
}.

Definition ETHERTYPE_IPV4 : Z := 0x0800.
Definition ETHERTYPE_ARP : Z := 0x0806.
Definition ARP_HW_ETHER : Z := 1.
Definition ARP_OP_REQUEST : Z := 1.
Definition ARP_OP_REPLY : Z := 2.
Definition IPV4_VER_IHL : Z := 0x40.
Definition IPV4_PROTO_ICMP : Z := 1.
Definition ICMP_ECHO_REPLY : Z := 0.
Definition ICMP_ECHO : Z := 8.
Definition ETH_MIN : Z := 14.
Definition ARP_PLAIN : Z := 28.
Definition ARP_PAD_TO : Z := 60.
Definition IPV4_MIN : Z := 20.
Definition ICMP_MIN : Z := 8.
Definition PING_PAYLOAD : Z := 24.
Definition PING_ID : Z := 0x4D58.
Definition PING_SEQ_START : Z := 1.
Definition PING_TX_RETRY_MAX : nat := 3.
Definition ARP_WAIT_LOOPS : Z := 30000000.
Definition PING_WAIT_LOOPS : Z := 30000000.
Definition POLL_SPIN_BURST : Z := 256.
Definition NET_RX_EXTRA_LIMIT : Z := 64.

Inductive net_cmd := CMD_NONE | CMD_PING | CMD_STATUS.
Inductive net_res := RES_NONE | RES_PENDING | RES_READY.
Inductive res_status :=
| RES_STATUS_OK | RES_STATUS_NETDOWN | RES_STATUS_BADADDR | RES_STATUS_NOTOWNER
| RES_STATUS_ARPTIMEOUT | RES_STATUS_TXFAIL | RES_STATUS_TIMEOUT.

#[export] Instance net_cmd_eq_dec : EqDecision net_cmd.
Proof. solve_decision. Defined.
#[export] Instance net_res_eq_dec : EqDecision net_res.
Proof. solve_decision. Defined.

(** The static structure; [result_buf] is the string it holds. *)
Record net := mkNet {
  inited : bool;
  ip : Z;
  gw : Z;
  mask : Z;
  open_owner : Z;
  seq_next : Z;
  cmd : net_cmd;
  cmd_seq : Z;
  result_state : net_res;
  result_status : res_status;
  result_addr : Z;
  result_off : Z;
  result_buf : list Z;
}.

(** ** Bytes *)

Definition be16 (v : Z) : Z := u16 (Z.lor (Z.shiftl v 8) (Z.shiftr v 8)).
(** A [uint16_t] field as the little-endian machine stores it. *)
Definition le16 (v : Z) : list Z := [v mod 256; v / 256 mod 256].

Definition at_ (f : list Z) (i : Z) : Z := znth 0 f i.
Definition sub (f : list Z) (i n : Z) : list Z := take (Z.to_nat n) (drop (Z.to_nat i) f).
Definition word_at (f : list Z) (i : Z) : Z := u16 (Z.lor (Z.shiftl (at_ f i) 8) (at_ f (i + 1))).
Definition mem_eq (a b : list Z) : bool := bool_decide (a = b).

Definition ethertype_of (f : list Z) : Z := word_at f 12.

Definition octets_from_ip (a : Z) : list Z :=
  [u8 (Z.shiftr a 24); u8 (Z.shiftr a 16); u8 (Z.shiftr a 8); u8 a].

(** The sum over 16-bit words, an odd last byte in the high half. *)
Fixpoint sum_words (p : list Z) (sum : Z) : Z :=
  match p with
  | [] => sum
  | [b] => u32 (sum + Z.shiftl b 8)
  | a :: b :: r => sum_words r (u32 (sum + Z.lor (Z.shiftl a 8) b))
  end.

(** [while (sum >> 16) sum = (sum & 0xFFFF) + (sum >> 16);] *)
Fixpoint fold_carry (fuel : nat) (sum : Z) : Z :=
  match fuel with
  | O => sum
  | S f => if Z.shiftr sum 16 =? 0 then sum else fold_carry f (Z.land sum 0xFFFF + Z.shiftr sum 16)
  end.

Definition ip_checksum (p : list Z) : Z := u16 (Z.land (Z.lnot (fold_carry 3 (sum_words p 0))) 0xFFFF).

Definition mac_valid (m : list Z) : bool :=
  negb (forallb (fun b => b =? 0) (sub m 0 6)) && negb (forallb (fun b => b =? 0xFF) (sub m 0 6)).

Definition ip_eq (a : Z) (b : list Z) : bool :=
  (Z.land (Z.shiftr a 24) 0xFF =? at_ b 0) && (Z.land (Z.shiftr a 16) 0xFF =? at_ b 1) &&
  (Z.land (Z.shiftr a 8) 0xFF =? at_ b 2) && (Z.land a 0xFF =? at_ b 3).

(** ** Frames *)

Definition arp_build_request (my : list Z) (my_ip target_ip : Z) : list Z :=
  replicate 6 0xFF ++ my ++ le16 (be16 ETHERTYPE_ARP) ++ le16 (be16 ARP_HW_ETHER) ++ le16 (be16 ETHERTYPE_IPV4) ++
  [6; 4] ++ le16 (be16 ARP_OP_REQUEST) ++ my ++ octets_from_ip my_ip ++ replicate 6 0 ++
  octets_from_ip target_ip ++ replicate 18 0.

Definition arp_field_ok (f : list Z) (len : Z) : bool :=
  if len <? ETH_MIN + ARP_PLAIN then false
  else if negb (ethertype_of f =? ETHERTYPE_ARP) then false
  else if negb (word_at f 14 =? ARP_HW_ETHER) || negb (word_at f 16 =? ETHERTYPE_IPV4) then false
  else if negb (at_ f 18 =? 6) || negb (at_ f 19 =? 4) then false
  else word_at f 20 =? ARP_OP_REPLY.

Definition arp_reply_ok (my_mac : list Z) (my_ip : Z) (f : list Z) (len query_ip : Z) : bool :=
  if negb (arp_field_ok f len) then false
  else if negb (mac_valid (sub f 22 6)) || negb (Z.land (at_ f 22) 1 =? 0) then false
  else if negb (mem_eq (sub f 6 6) (sub f 22 6)) then false
  else if negb (mem_eq (sub f 0 6) my_mac) then false
  else if negb (ip_eq query_ip (sub f 28 4)) then false
  else if negb (mem_eq (sub f 32 6) my_mac) then false
  else ip_eq my_ip (sub f 38 4).

Definition icmp_checksum (icmp : list Z) : Z := ip_checksum icmp.

(** ['A' + (i % 26)] for each payload byte. *)
Definition ping_payload : list Z := map (fun i => u8 (65 + i mod 26)) (seqZ 0 PING_PAYLOAD).

Definition icmp_build_echo (seq : Z) : list Z :=
  let tail := [u8 (Z.shiftr PING_ID 8); u8 (Z.land PING_ID 0xFF); u8 (Z.shiftr seq 8); u8 (Z.land seq 0xFF)] ++ ping_payload in
  let csum := icmp_checksum ([u8 ICMP_ECHO; 0; 0; 0] ++ tail) in
  [u8 ICMP_ECHO; 0; u8 (Z.shiftr csum 8); u8 (Z.land csum 0xFF)] ++ tail.

(** The 20 header bytes with the given checksum field. *)
Definition ipv4_header (csum_bytes : list Z) (id src dst : Z) : list Z :=
  [Z.lor IPV4_VER_IHL (IPV4_MIN / 4); 0] ++ le16 (be16 (IPV4_MIN + ICMP_MIN + PING_PAYLOAD)) ++
  le16 (be16 id) ++ le16 (be16 0x4000) ++ [64; IPV4_PROTO_ICMP] ++ csum_bytes ++
  octets_from_ip src ++ octets_from_ip dst.

Definition ipv4_build_echo_frame (my_mac : list Z) (my_ip : Z) (dmac : list Z) (dst_ip seq : Z) : list Z :=
  let csum := ip_checksum (ipv4_header [0; 0] seq my_ip dst_ip) in
  dmac ++ my_mac ++ le16 (be16 ETHERTYPE_IPV4) ++
  ipv4_header (le16 (be16 csum)) seq my_ip dst_ip ++ icmp_build_echo seq.

(** The callers pass no payload to compare. *)
Definition ipv4_reply_ok (my_mac : list Z) (my_ip : Z) (f : list Z) (flen peer_ip seq : Z) : bool :=
  if flen <? ETH_MIN + IPV4_MIN + ICMP_MIN then false
  else if negb (ethertype_of f =? ETHERTYPE_IPV4) then false
  else
    let p := drop (Z.to_nat ETH_MIN) f in
    if negb (at_ p 0 =? Z.lor IPV4_VER_IHL (IPV4_MIN / 4)) then false
    else if negb (at_ p 9 =? IPV4_PROTO_ICMP) then false
    else
      let total := word_at p 2 in
      if total <? IPV4_MIN + ICMP_MIN then false
      else if flen - ETH_MIN <? total then false
      else if negb (total =? ICMP_MIN + PING_PAYLOAD + IPV4_MIN) then false
      else
        let flags_frag := word_at p 6 in
        if negb (Z.land flags_frag 0x1FFF =? 0) then false
        else if negb (Z.land flags_frag 0x2000 =? 0) then false
        else if negb (ip_checksum (sub p 0 IPV4_MIN) =? 0) then false
        else if negb (ip_eq peer_ip (sub p 12 4)) then false
        else if negb (ip_eq my_ip (sub p 16 4)) then false
        else
          let icmp := drop (Z.to_nat IPV4_MIN) p in
          let icmp_len := u16 (total - IPV4_MIN) in
          if negb (icmp_len =? ICMP_MIN + PING_PAYLOAD) then false
          else if negb (at_ icmp 0 =? ICMP_ECHO_REPLY) || negb (at_ icmp 1 =? 0) then false
          else if negb (at_ icmp 4 =? u8 (Z.shiftr PING_ID 8)) || negb (at_ icmp 5 =? u8 (Z.land PING_ID 0xFF)) then false
          else if negb (word_at icmp 6 =? seq) then false
          else if negb (ip_checksum (sub icmp 0 icmp_len) =? 0) then false
          else if negb (mem_eq (sub f 0 6) my_mac) then false
          else mac_valid (sub f 6 6).

(** ** Exchanges *)

Section WithNic.
Context {N : Type} `{Nic N}.

Inductive wait_result := WaitFrame (f : list Z) | WaitAgain | WaitError.

(** The receive loop both exchanges share: [ok] accepts a frame, [limit] is
    the spin budget.  [WaitAgain]: budget used up or too many other frames. *)
Fixpoint wait_loop (fuel : nat) (ok : list Z -> Z -> bool) (limit spins extra : Z) (c : N) : option (wait_result * N) :=
  match fuel with
  | O => None
  | S fl =>
      if limit <=? spins then Some (WaitAgain, c)
      else
        let '(n, r, c) := nic_poll c in
        if 0 <? n then
          if ok r (u16 n) then Some (WaitFrame r, c)
          else if NET_RX_EXTRA_LIMIT <? extra + 1 then Some (WaitAgain, c)
          else wait_loop fl ok limit spins (extra + 1) c
        else if n <? 0 then Some (WaitError, c)
        else wait_loop fl ok limit (spins + POLL_SPIN_BURST) extra c
  end.

(** Enough turns for a budget: one per burst and one per stray frame. *)
Definition wait_fuel (limit : Z) : nat := Z.to_nat (limit / POLL_SPIN_BURST + NET_RX_EXTRA_LIMIT + 3).

Definition wait (ok : list Z -> Z -> bool) (limit : Z) (c : N) : wait_result * N :=
  default (WaitAgain, c) (wait_loop (wait_fuel limit) ok limit 0 0 c).

(** The attempts of [arp_exchange]; [rc] is its result variable. *)
Fixpoint arp_attempts (k : nat) (s : net) (target_ip rc : Z) (c : N) : Z * list Z * N :=
  match k with
  | O => (rc, [], c)
  | S k' =>
      let '(r, c) := nic_send (arp_build_request (nic_mac c) (ip s) target_ip) c in
      if negb (r =? 0) then arp_attempts k' s target_ip (-1) c
      else
        match wait (fun f n => arp_reply_ok (nic_mac c) (ip s) f n target_ip) ARP_WAIT_LOOPS c with
        | (WaitFrame f, c) => (0, sub f 22 6, c)
        | (WaitError, c) => (-1, [], c)
        | (WaitAgain, c) => arp_attempts k' s target_ip rc c
        end
  end.

Definition arp_exchange (s : net) (target_ip : Z) (c : N) : Z * list Z * N :=
  arp_attempts PING_TX_RETRY_MAX s target_ip (-2) c.

Fixpoint ping_attempts (k : nat) (s : net) (dmac : list Z) (dst seq : Z) (c : N) : res_status * N :=
  match k with
  | O => (RES_STATUS_TIMEOUT, c)
  | S k' =>
      let '(r, c) := nic_send (ipv4_build_echo_frame (nic_mac c) (ip s) dmac dst seq) c in
      if negb (r =? 0) then (RES_STATUS_TXFAIL, c)
      else
        match wait (fun f n => ipv4_reply_ok (nic_mac c) (ip s) f n dst seq) PING_WAIT_LOOPS c with
        | (WaitFrame _, c) => (RES_STATUS_OK, c)
        | (WaitError, c) => (RES_STATUS_TXFAIL, c)
        | (WaitAgain, c) => ping_attempts k' s dmac dst seq c
        end
  end.

Definition set_seq_next (v : Z) (s : net) : net :=
  mkNet (inited s) (ip s) (gw s) (mask s) (open_owner s) v (cmd s) (cmd_seq s) (result_state s) (result_status s)
        (result_addr s) (result_off s) (result_buf s).

(** Status, sequence number used, and the new state. *)
Definition cmd_ping_run (dst : Z) (s : net) (c : N) : res_status * Z * net * N :=
  if negb (nic_present c) then (RES_STATUS_NETDOWN, 0, s, c)
  else
    let '(rc, dmac, c) := arp_exchange s dst c in
    if negb (rc =? 0) then (RES_STATUS_ARPTIMEOUT, 0, s, c)
    else
      let seq := if seq_next s =? 0 then PING_SEQ_START else seq_next s in
      let s := set_seq_next (u16 (seq + 1)) s in
      let '(st, c) := ping_attempts PING_TX_RETRY_MAX s dmac dst seq c in
      (st, seq, s, c).

Definition octet_args (a : Z) : list arg :=
  [AInt (Z.land (Z.shiftr a 24) 0xFF); AInt (Z.land (Z.shiftr a 16) 0xFF);
   AInt (Z.land (Z.shiftr a 8) 0xFF); AInt (Z.land a 0xFF)].

Definition status_format : list Z :=
  bs "net: %s" ++ [10] ++ bs "ip %u.%u.%u.%u/%u.%u.%u.%u gw %u.%u.%u.%u" ++ [10] ++
  bs "mac %x:%x:%x:%x:%x:%x" ++ [10] ++ bs "link %s static (no DHCP)" ++ [10].

Definition cmd_status_render (cap : Z) (s : net) (c : N) : list Z :=
  (snprintf cap status_format
    ([AStr (Some (if inited s then bs "up" else bs "down"))] ++ octet_args (ip s) ++ octet_args (mask s) ++
     octet_args (gw s) ++ map AInt (nic_mac c) ++
     [AStr (Some (if nic_present c then bs "present" else bs "absent"))])).2.
End WithNic.

(** ** Addresses in text *)

(** The loop of [parse_ipv4_strict] over what is left of the text. *)
Fixpoint parse_loop (s : list Z) (val digits : Z) (octets : list Z) : option (list Z) :=
  match s with
  | [] => None
  | c :: r =>
      if is_digit c then
        let val := u32 (val * 10 + (c - 48)) in
        let digits := digits + 1 in
        if 3 <? digits then None
        else if 255 <? val then None
        else match r with
             | [] => if negb (zlen octets =? 3) then None else Some (octets ++ [val])
             | _ => parse_loop r val digits octets
             end
      else if (c =? 46) && (zlen octets <? 3) && (0 <? digits) then
        match r with
        | [] => None
        | _ => parse_loop r 0 0 (octets ++ [val])
        end
      else None
  end.

Definition parse_ipv4_strict (s : list Z) : option Z :=
  let n := zlen s in
  if (n =? 0) || (15 <? n) then None
  else match parse_loop s 0 0 [] with
       | Some [a; b; c; d] =>
           Some (Z.lor (Z.lor (Z.lor (u32 (Z.shiftl a 24)) (u32 (Z.shiftl b 16))) (u32 (Z.shiftl c 8))) d)
       | _ => None
       end.

(** ** The command device *)

Section Device.
Context {N : Type} `{Nic N}.

(** [while (n > 0 && (buf[n-1] == '\n' || buf[n-1] == '\r')) n--;] *)
Fixpoint strip_eol_rev (l : list Z) : list Z :=
  match l with
  | c :: r => if (c =? 10) || (c =? 13) then strip_eol_rev r else l
  | [] => []
  end.
Definition strip_eol (l : list Z) : list Z := rev (strip_eol_rev (rev l)).

Definition start_cmd (pid : Z) (k : net_cmd) (st : res_status) (addr : Z) (s : net) : net :=
  mkNet (inited s) (ip s) (gw s) (mask s) (u32 pid) (seq_next s) k (u32 (cmd_seq s + 1)) RES_PENDING st
        addr (result_off s) (result_buf s).

(** [cur] is the pid of the current task, if any; [buf] is not NULL. *)
Definition netdev_write (cur : option Z) (buf : list Z) (s : net) (c : N) : Z * net :=
  if zlen buf =? 0 then (-1, s)
  else if negb (inited s) || negb (nic_present c) then (-1, s)
  else if negb (bool_decide (cmd s = CMD_NONE)) && bool_decide (result_state s = RES_PENDING) then
    match cur with
    | Some pid => if negb (open_owner s =? u32 pid) then (-1, s) else (0, s)
    | None => (-1, s)
    end
  else
    let buf := strip_eol buf in
    let n := zlen buf in
    if (n =? 6) && mem_eq buf (bs "status") then
      match cur with
      | None => (-1, s)
      | Some pid =>
          if bool_decide (result_state s = RES_PENDING) && negb (open_owner s =? u32 pid) then (-1, s)
          else (s32 n, start_cmd pid CMD_STATUS RES_STATUS_OK (result_addr s) s)
      end
    else if (5 <? n) && mem_eq (sub buf 0 5) (bs "ping ") then
      match parse_ipv4_strict (drop 5 buf) with
      | None => (-1, s)
      | Some a =>
          match cur with
          | None => (-1, s)
          | Some pid =>
              if bool_decide (result_state s = RES_PENDING) && negb (open_owner s =? u32 pid) then (-1, s)
              else (s32 n, start_cmd pid CMD_PING (result_status s) a s)
          end
      end
    else (-1, s).

(** [net.cmd = CMD_NONE] and the new result, of which [n] bytes are returned
    at once. *)
Definition deliver (n : Z) (st : res_status) (line : list Z) (s : net) : Z * list Z * net :=
  let none := mkNet (inited s) (ip s) (gw s) (mask s) (open_owner s) (seq_next s) CMD_NONE (cmd_seq s)
                (result_state s) (result_status s) (result_addr s) (result_off s) (result_buf s) in
  let text := c_string line in
  if 192 <? zlen text + 1 then (-1, [], none)
  else
    let n := if zlen text <? n then zlen text else n in
    (s32 n, take (Z.to_nat n) text,
     mkNet (inited s) (ip s) (gw s) (mask s) (open_owner s) (seq_next s) CMD_NONE (cmd_seq s)
           RES_READY st (result_addr s) (u32 n) text).

Definition ping_line (st : res_status) (a seq : Z) : list Z :=
  (match st with
   | RES_STATUS_OK => snprintf 192 (bs "reply from %u.%u.%u.%u seq=%u" ++ [10]) (octet_args a ++ [AInt seq])
   | RES_STATUS_NETDOWN => snprintf 192 (bs "net down" ++ [10]) []
   | RES_STATUS_BADADDR => snprintf 192 (bs "bad address" ++ [10]) []
   | RES_STATUS_ARPTIMEOUT => snprintf 192 (bs "no arp reply from %u.%u.%u.%u" ++ [10]) (octet_args a)
   | RES_STATUS_TXFAIL => snprintf 192 (bs "tx error" ++ [10]) []
   | _ => snprintf 192 (bs "timeout %u.%u.%u.%u" ++ [10]) (octet_args a)
   end).2.

(** Returned value, bytes copied to the caller, new state. *)
Definition netdev_read (cur : option Z) (n : Z) (s : net) (c : N) : Z * list Z * net * N :=
  if n =? 0 then (-1, [], s, c)
  else if negb (inited s) then (-1, [], s, c)
  else match cur with
  | None => (-1, [], s, c)
  | Some pid =>
      if negb (open_owner s =? u32 pid) then (-1, [], s, c)
      else match result_state s with
      | RES_READY =>
          let len := zlen (result_buf s) in
          if len <=? result_off s then
            (0, [], mkNet (inited s) (ip s) (gw s) (mask s) (open_owner s) (seq_next s) CMD_NONE (cmd_seq s)
                      RES_NONE (result_status s) (result_addr s) 0 [], c)
          else
            let n := if len - result_off s <? n then len - result_off s else n in
            (s32 n, sub (result_buf s) (result_off s) n,
             mkNet (inited s) (ip s) (gw s) (mask s) (open_owner s) (seq_next s) (cmd s) (cmd_seq s)
                   (result_state s) (result_status s) (result_addr s) (u32 (result_off s + n)) (result_buf s), c)
      | RES_NONE => (0, [], s, c)
      | RES_PENDING =>
          match cmd s with
          | CMD_NONE => (0, [], s, c)
          | CMD_STATUS =>
              let '(r, d, s) := deliver n RES_STATUS_OK (cmd_status_render 192 s c) s in (r, d, s, c)
          | CMD_PING =>
              let '(st, seq, s, c) := cmd_ping_run (result_addr s) s c in
              let st' := match st with RES_STATUS_OK => RES_STATUS_OK | _ => result_status s end in
              let '(r, d, s) := deliver n st' (ping_line st (result_addr s) seq) s in (r, d, s, c)
          end
      end
  end.

(** The state, the result, and whether /dev/net was mounted. *)
Definition net_init (c : N) : net * Z * bool :=
  let s up := mkNet up 0x0A00020F 0x0A000202 0xFFFFFF00 0 PING_SEQ_START CMD_NONE 0 RES_NONE RES_STATUS_OK 0 0 [] in
  if nic_present c then (s true, 0, true) else (s false, -1, false).

Definition net_ready (s : net) (c : N) : bool := inited s && nic_present c.
Definition net_get_ip (s : net) : Z := ip s.
Definition net_get_gw (s : net) : Z := gw s.
Definition net_get_mask (s : net) : Z := mask s.

Definition NET_PING_OK : Z := 0.
Definition NET_PING_UNAVAILABLE : Z := -1.
Definition NET_PING_ARP_TIMEOUT : Z := -3.
Definition NET_PING_TX_ERROR : Z := -4.
Definition NET_PING_TIMEOUT : Z := -5.

Definition net_ping (dst : Z) (s : net) (c : N) : Z * net * N :=
  if negb (net_ready s c) then (NET_PING_UNAVAILABLE, s, c)
  else
    let '(st, _, s, c) := cmd_ping_run dst s c in
    (match st with
     | RES_STATUS_OK => NET_PING_OK
     | RES_STATUS_NETDOWN => NET_PING_UNAVAILABLE
     | RES_STATUS_ARPTIMEOUT => NET_PING_ARP_TIMEOUT
     | RES_STATUS_TXFAIL => NET_PING_TX_ERROR
     | _ => NET_PING_TIMEOUT
     end, s, c).

Definition net_arp_resolve (dst : Z) (s : net) (c : N) : bool * list Z * N :=
  if negb (net_ready s c) then (false, [], c)
  else let '(rc, m, c) := arp_exchange s dst c in (rc =? 0, m, c).

Fixpoint drain (k : nat) (c : N) : N :=
  match k with
  | O => c
  | S k' => let '(n, _, c) := nic_poll c in if n <=? 0 then c else drain k' c
  end.
Definition net_poll (s : net) (c : N) : N := if negb (net_ready s c) then c else drain 8 c.

Definition net_status (cap : Z) (s : net) (c : N) : list Z := if cap =? 0 then [] else cmd_status_render cap s c.
End Device.

(** * Theorems *)

(** ** The checksum *)

Definition bytes (l : list Z) : Prop := Forall (fun b => 0 <= b < 256) l.

Fixpoint words_sum (p : list Z) : Z :=
  match p with
  | [] => 0
  | [b] => 256 * b
  | a :: b :: r => 256 * a + b + words_sum r
  end.

Lemma pair_ind (P : list Z -> Prop) :
  P [] -> (forall b, P [b]) -> (forall a b r, P r -> P (a :: b :: r)) -> forall l, P l.
Proof.
  intros H0 H1 H2 l. remember (length l) as n eqn:Hn. revert l Hn. induction n as [n IH] using lt_wf_ind.
  intros [|a [|b r]] ->; [done|done|]. apply H2. eapply IH; [|done]. cbn. lia.
Qed.

Lemma words_sum_range p : bytes p -> 0 <= words_sum p <= 32768 * zlen p + 32768.
Proof.
  revert p. apply (pair_ind (fun p => bytes p -> 0 <= words_sum p <= 32768 * zlen p + 32768)); unfold bytes, zlen.
  - cbn. lia.
  - intros b Hb. apply List.Forall_cons_iff in Hb as [Hb _]. cbn. lia.
  - intros a b r IH Hb. apply List.Forall_cons_iff in Hb as [Ha Hb]. apply List.Forall_cons_iff in Hb as [Hb Hr].
    specialize (IH Hr). cbn [words_sum length]. lia.
Qed.

Lemma sum_words_eq p acc :
  bytes p -> 0 <= acc -> acc + words_sum p < 2 ^ 32 -> sum_words p acc = acc + words_sum p.
Proof.
  revert p acc. apply (pair_ind (fun p => forall acc, bytes p -> 0 <= acc -> acc + words_sum p < 2 ^ 32 ->
    sum_words p acc = acc + words_sum p)); unfold bytes.
  - intros. cbn. lia.
  - intros b acc Hb H0 Hs. apply List.Forall_cons_iff in Hb as [Hb _]. cbn [sum_words words_sum] in *.
    rewrite Z.shiftl_mul_pow2 by lia. rewrite u32_small by lia. lia.
  - intros a b r IH acc Hb H0 Hs. apply List.Forall_cons_iff in Hb as [Ha Hb]. apply List.Forall_cons_iff in Hb as [Hb Hr].
    cbn [sum_words words_sum] in *. pose proof (proj1 (words_sum_range r Hr)).
    rewrite lor_shiftl_add by lia. rewrite u32_small by lia. rewrite IH by (done || lia). lia.
Qed.

(** One's-complement folding: the residue modulo 65535, 0 only for 0. *)
Lemma fold_carry_spec x :
  0 <= x < 2 ^ 32 ->
  0 <= fold_carry 3 x < 65536 /\ fold_carry 3 x mod 65535 = x mod 65535 /\ (fold_carry 3 x = 0 <-> x = 0).
Proof.
  intros Hx. cbn [fold_carry]. change 0xFFFF with (2 ^ 16 - 1). rewrite !land_ones_mod, !Z.shiftr_div_pow2 by lia.
  repeat match goal with |- context [if ?b then _ else _] => destruct b eqn:? end;
    repeat match goal with H : (_ =? _) = true |- _ => apply Z.eqb_eq in H | H : (_ =? _) = false |- _ => apply Z.eqb_neq in H end;
    lia.
Qed.

Lemma ip_checksum_eq p :
  bytes p -> words_sum p < 2 ^ 32 -> ip_checksum p = 65535 - fold_carry 3 (words_sum p).
Proof.
  intros Hb Hs. pose proof (words_sum_range p Hb). unfold ip_checksum. rewrite sum_words_eq by (done || lia). rewrite Z.add_0_l.
  destruct (fold_carry_spec (words_sum p)) as [Hr _]; [lia|]. set (r := fold_carry 3 _) in *. clearbody r.
  change 0xFFFF with (2 ^ 16 - 1). rewrite land_ones_mod by lia. unfold Z.lnot, Z.pred, u16.
  replace ((- r + -1) mod 2 ^ 16) with (65535 - r) by lia. lia.
Qed.

Lemma words_sum_app p q : Nat.Even (length p) -> words_sum (p ++ q) = words_sum p + words_sum q.
Proof.
  revert p. apply (pair_ind (fun p => Nat.Even (length p) -> words_sum (p ++ q) = words_sum p + words_sum q)).
  - done.
  - intros b [k Hk]. cbn in Hk. lia.
  - intros a b r IH [k Hk]. cbn [length] in Hk. cbn [app words_sum]. rewrite IH; [lia|]. exists (k - 1)%nat. lia.
Qed.

(** A header whose checksum field holds [ip_checksum] of the header with
    the field zero verifies: its own checksum is 0. *)
Theorem checksum_verifies pre post :
  bytes pre -> bytes post -> Nat.Even (length pre) -> zlen pre + zlen post <= 65535 ->
  let c := ip_checksum (pre ++ [0; 0] ++ post) in
  ip_checksum (pre ++ [u8 (Z.shiftr c 8); u8 (Z.land c 0xFF)] ++ post) = 0.
Proof.
  intros Hpre Hpost Hev Hlen. cbv zeta.
  pose proof (words_sum_range pre Hpre). pose proof (words_sum_range post Hpost).
  assert (Hb : forall a b, 0 <= a < 256 -> 0 <= b < 256 -> bytes (pre ++ [a; b] ++ post)).
  { intros a b Ha Hb. apply List.Forall_app. split; [done|]. apply List.Forall_app. split; [|done].
    repeat (apply List.Forall_cons; [lia|]). apply List.Forall_nil. }
  assert (Hs : forall a b, words_sum (pre ++ [a; b] ++ post) = words_sum pre + words_sum post + (256 * a + b)).
  { intros a b. rewrite words_sum_app by done. cbn [app words_sum]. lia. }
  rewrite (ip_checksum_eq (pre ++ [0; 0] ++ post)) by (try apply Hb; rewrite ?Hs; lia).
  rewrite Hs. set (S := words_sum pre + words_sum post) in *.
  destruct (fold_carry_spec (S + (256 * 0 + 0))) as (Hr & Hm & Hz0); [lia|].
  set (r := fold_carry 3 _) in *. set (c := 65535 - r).
  assert (Hc : 256 * u8 (Z.shiftr c 8) + u8 (Z.land c 0xFF) = c).
  { change 0xFF with (2 ^ 8 - 1). rewrite land_ones_mod, Z.shiftr_div_pow2 by lia. unfold u8, c. lia. }
  pose proof (u8_range (Z.shiftr c 8)). pose proof (u8_range (Z.land c 0xFF)).
  rewrite ip_checksum_eq; [|apply Hb; lia|rewrite Hs, Hc; unfold c; lia].
  rewrite Hs, Hc. destruct (fold_carry_spec (S + c)) as (Hr' & Hm' & Hz'); [unfold c; lia|]. unfold c in *. lia.
Qed.

Lemma checksum_verifies_witness :
  ip_checksum ([0x45; 0; 0; 60] ++ [u8 (Z.shiftr (ip_checksum ([0x45; 0; 0; 60] ++ [0; 0] ++ [1; 2])) 8);
     u8 (Z.land (ip_checksum ([0x45; 0; 0; 60] ++ [0; 0] ++ [1; 2])) 0xFF)] ++ [1; 2]) = 0.
Proof.
  apply (checksum_verifies [0x45; 0; 0; 60] [1; 2]).
  - repeat (apply List.Forall_cons; [lia|]). apply List.Forall_nil.
  - repeat (apply List.Forall_cons; [lia|]). apply List.Forall_nil.
  - exists 2%nat. reflexivity.
  - vm_compute. discriminate.
Defined.

(** ** Echo frames *)

Lemma be16_le16 v : 0 <= v < 65536 -> le16 (be16 v) = [u8 (Z.shiftr v 8); u8 (Z.land v 0xFF)].
Proof.
  intros Hv. unfold le16, be16. rewrite Z.shiftl_mul_pow2, Z.shiftr_div_pow2 by lia.
  change 0xFF with (2 ^ 8 - 1). rewrite land_ones_mod by lia.
  replace (Z.lor (v * 2 ^ 8) (v / 2 ^ 8)) with (v * 256 + v / 256).
  - unfold u8, u16. f_equal; [lia|]. f_equal. lia.
  - rewrite <- Z.shiftl_mul_pow2, lor_shiftl_add by lia. done.
Qed.

Lemma be_word a b : 0 <= a < 256 -> 0 <= b < 256 -> u16 (Z.lor (Z.shiftl a 8) b) = 256 * a + b.
Proof. intros. rewrite lor_shiftl_add by lia. rewrite u16_small by lia. lia. Qed.

Lemma octets_bytes a : bytes (octets_from_ip a).
Proof. unfold octets_from_ip, bytes. repeat (apply List.Forall_cons; [apply u8_range|]). apply List.Forall_nil. Qed.

Lemma le16_bytes v : bytes (le16 v).
Proof. unfold le16, bytes. repeat (apply List.Forall_cons; [lia|]). apply List.Forall_nil. Qed.

Lemma ip_eq_octets a : ip_eq a (octets_from_ip a) = true.
Proof.
  unfold ip_eq, octets_from_ip, at_, znth, zlookup. cbn. unfold u8. change 255 with (2 ^ 8 - 1).
  rewrite !land_ones_mod by lia. by rewrite !Z.eqb_refl.
Qed.

(** The header as sent carries a valid checksum. *)
Lemma ipv4_header_valid id src dst :
  let c := ip_checksum (ipv4_header [0; 0] id src dst) in
  ip_checksum (ipv4_header (le16 (be16 c)) id src dst) = 0.
Proof.
  cbv zeta. set (pre := [Z.lor IPV4_VER_IHL (IPV4_MIN / 4); 0] ++ le16 (be16 (IPV4_MIN + ICMP_MIN + PING_PAYLOAD)) ++
    le16 (be16 id) ++ le16 (be16 0x4000) ++ [64; IPV4_PROTO_ICMP]).
  assert (Hh : forall c, ipv4_header c id src dst = pre ++ c ++ (octets_from_ip src ++ octets_from_ip dst)).
  { intros c. unfold ipv4_header, pre. by rewrite <- !app_assoc. }
  assert (Hpre : bytes pre).
  { unfold pre, bytes. repeat (apply List.Forall_app; split); try apply le16_bytes;
      repeat (apply List.Forall_cons; [vm_compute; split; [discriminate|reflexivity]|]); apply List.Forall_nil. }
  assert (Hpost : bytes (octets_from_ip src ++ octets_from_ip dst)).
  { apply List.Forall_app. split; apply octets_bytes. }
  rewrite !Hh. set (c := ip_checksum (pre ++ [0; 0] ++ _)).
  assert (Hc : 0 <= c < 65536) by (unfold c, ip_checksum; apply u16_range).
  rewrite be16_le16 by done. apply (checksum_verifies pre); [done|done|exists 5%nat; done|].
  unfold zlen. cbn. lia.
Qed.

Lemma payload_bytes : bytes ping_payload.
Proof.
  unfold ping_payload, bytes. apply List.Forall_forall. intros b Hb. apply in_map_iff in Hb as (i & <- & _). apply u8_range.
Qed.

(** An ICMP message of the given type with a valid checksum. *)
Definition icmp_message (ty seq : Z) : list Z :=
  let tail := [u8 (Z.shiftr PING_ID 8); u8 (Z.land PING_ID 0xFF); u8 (Z.shiftr seq 8); u8 (Z.land seq 0xFF)] ++ ping_payload in
  let csum := icmp_checksum ([ty; 0; 0; 0] ++ tail) in
  [ty; 0; u8 (Z.shiftr csum 8); u8 (Z.land csum 0xFF)] ++ tail.

Lemma icmp_message_valid ty seq : 0 <= ty < 256 -> ip_checksum (icmp_message ty seq) = 0.
Proof.
  intros Ht. unfold icmp_message. cbv zeta.
  set (tail := [u8 (Z.shiftr PING_ID 8); u8 (Z.land PING_ID 0xFF); u8 (Z.shiftr seq 8); u8 (Z.land seq 0xFF)] ++ ping_payload).
  apply (checksum_verifies [ty; 0] tail).
  - repeat (apply List.Forall_cons; [lia|]). apply List.Forall_nil.
  - apply List.Forall_app. split; [|apply payload_bytes]. repeat (apply List.Forall_cons; [apply u8_range|]). apply List.Forall_nil.
  - exists 1%nat. done.
  - vm_compute. discriminate.
Qed.

(** What a host at [peer_ip] answers to the echo request [seq]. *)
Definition peer_reply (my_mac peer_mac : list Z) (my_ip peer_ip id seq : Z) : list Z :=
  let csum := ip_checksum (ipv4_header [0; 0] id peer_ip my_ip) in
  my_mac ++ peer_mac ++ le16 (be16 ETHERTYPE_IPV4) ++
  ipv4_header (le16 (be16 csum)) id peer_ip my_ip ++ icmp_message ICMP_ECHO_REPLY seq.

(** [ipv4_reply_ok] accepts the echo reply of a conforming peer: every
    check of addresses, lengths, fragmentation, identifier, sequence number
    and both checksums passes. *)
Theorem echo_reply_accepted my_mac peer_mac my_ip peer_ip id seq :
  length my_mac = 6%nat -> length peer_mac = 6%nat -> mac_valid peer_mac = true -> 0 <= seq < 65536 ->
  let f := peer_reply my_mac peer_mac my_ip peer_ip id seq in
  ipv4_reply_ok my_mac my_ip f (zlen f) peer_ip seq = true.
Proof.
  intros Hm Hp Hv Hs f.
  set (hdr := ipv4_header (le16 (be16 (ip_checksum (ipv4_header [0; 0] id peer_ip my_ip)))) id peer_ip my_ip).
  set (msg := icmp_message ICMP_ECHO_REPLY seq).
  assert (Hf : f = my_mac ++ peer_mac ++ [8; 0] ++ hdr ++ msg) by reflexivity.
  assert (Hlen : zlen f = 66).
  { rewrite Hf. unfold zlen. rewrite !length_app, Hm, Hp. reflexivity. }
  assert (Hd : drop (Z.to_nat ETH_MIN) f = hdr ++ msg).
  { replace f with ((my_mac ++ peer_mac ++ [8; 0]) ++ hdr ++ msg) by (rewrite <- !app_assoc; done).
    apply drop_app_length'. rewrite !length_app, Hm, Hp. done. }
  assert (He : ethertype_of f = ETHERTYPE_IPV4).
  { do 7 (destruct my_mac as [|? my_mac]; try done). do 7 (destruct peer_mac as [|? peer_mac]; try done). }
  assert (Hmac : sub f 0 6 = my_mac).
  { unfold sub. rewrite Hf. change (drop (Z.to_nat 0) ?l) with l. apply take_app_length'. by rewrite Hm. }
  assert (Hpm : sub f 6 6 = peer_mac).
  { unfold sub. rewrite Hf, drop_app_length' by (by rewrite Hm). apply take_app_length'. by rewrite Hp. }
  unfold ipv4_reply_ok. rewrite Hlen, He, Hd, Hmac, Hpm, Hv. unfold mem_eq at 1. rewrite bool_decide_eq_true_2 by done.
  assert (Hw : word_at msg 6 = seq).
  { change (word_at msg 6) with (u16 (Z.lor (Z.shiftl (u8 (Z.shiftr seq 8)) 8) (u8 (Z.land seq 0xFF)))).
    rewrite be_word by apply u8_range. change 0xFF with (2 ^ 8 - 1). rewrite land_ones_mod, Z.shiftr_div_pow2 by lia.
    unfold u8. lia. }
  assert (Hh : ip_checksum (sub (hdr ++ msg) 0 IPV4_MIN) = 0).
  { change (sub (hdr ++ msg) 0 IPV4_MIN) with hdr. apply ipv4_header_valid. }
  assert (Hi : ip_checksum (sub msg 0 (ICMP_MIN + PING_PAYLOAD)) = 0).
  { change (sub msg 0 (ICMP_MIN + PING_PAYLOAD)) with msg. apply icmp_message_valid. done. }
  change (drop (Z.to_nat IPV4_MIN) (hdr ++ msg)) with msg.
  change (word_at (hdr ++ msg) 2) with 52. change (word_at (hdr ++ msg) 6) with 0x4000.
  change (u16 (52 - IPV4_MIN)) with (ICMP_MIN + PING_PAYLOAD). rewrite Hh, Hi, Hw, !Z.eqb_refl.
  change (sub (hdr ++ msg) 12 4) with (octets_from_ip peer_ip). change (sub (hdr ++ msg) 16 4) with (octets_from_ip my_ip).
  rewrite !ip_eq_octets. reflexivity.
Qed.

Lemma echo_reply_accepted_witness :
  ipv4_reply_ok [2; 0; 0; 0; 0; 1] 0x0A00020F
    (peer_reply [2; 0; 0; 0; 0; 1] [2; 0; 0; 0; 0; 2] 0x0A00020F 0x0A000202 7 1) 66 0x0A000202 1 = true.
Proof.
  apply (echo_reply_accepted [2; 0; 0; 0; 0; 1] [2; 0; 0; 0; 0; 2] 0x0A00020F 0x0A000202 7 1); first [reflexivity|lia].
Defined.

(** The echo request that is sent is well formed: it is 66 bytes, and its
    IPv4 header and its ICMP message have valid checksums. *)
Theorem echo_request_valid my_mac my_ip dmac dst seq :
  length my_mac = 6%nat -> length dmac = 6%nat ->
  let f := ipv4_build_echo_frame my_mac my_ip dmac dst seq in
  zlen f = ETH_MIN + IPV4_MIN + ICMP_MIN + PING_PAYLOAD /\
  ip_checksum (sub f ETH_MIN IPV4_MIN) = 0 /\
  ip_checksum (drop (Z.to_nat (ETH_MIN + IPV4_MIN)) f) = 0.
Proof.
  intros Hm Hd f.
  set (hdr := ipv4_header (le16 (be16 (ip_checksum (ipv4_header [0; 0] seq my_ip dst)))) seq my_ip dst).
  assert (Hf : f = (dmac ++ my_mac ++ [8; 0]) ++ hdr ++ icmp_build_echo seq).
  { rewrite <- !app_assoc. reflexivity. }
  assert (Hl : length (dmac ++ my_mac ++ [8; 0]) = 14%nat) by (rewrite !length_app, Hm, Hd; done).
  split_and!.
  - rewrite Hf. unfold zlen. rewrite length_app, Hl. reflexivity.
  - unfold sub. rewrite Hf, drop_app_length' by (by rewrite Hl). change (take _ (hdr ++ _)) with hdr. apply ipv4_header_valid.
  - rewrite Hf, app_assoc. rewrite drop_app_length'.
    + change (icmp_build_echo seq) with (icmp_message (u8 ICMP_ECHO) seq). apply icmp_message_valid. apply u8_range.
    + rewrite length_app, Hl. done.
Qed.

Lemma echo_request_valid_witness :
  zlen (ipv4_build_echo_frame [2; 0; 0; 0; 0; 1] 0x0A00020F [2; 0; 0; 0; 0; 2] 0x0A000202 9) = 66.
Proof.
  apply (echo_request_valid [2; 0; 0; 0; 0; 1] 0x0A00020F [2; 0; 0; 0; 0; 2] 0x0A000202 9); reflexivity.
Defined.

(** ** Dotted addresses *)

Definition dec (o : Z) : list Z := map digit_char (rev (digits_rev 24 10 o)).

(** Reading digits accumulates their value. *)
Lemma parse_digits ds val n octets t :
  Forall (fun d => 0 <= d < 10) ds -> ds <> [] -> 0 <= val -> 0 <= n -> n + zlen ds <= 3 ->
  foldl (fun acc d => acc * 10 + d) val ds <= 255 ->
  parse_loop (map digit_char ds ++ t) val n octets =
    let v := foldl (fun acc d => acc * 10 + d) val ds in
    match t with
    | [] => if negb (zlen octets =? 3) then None else Some (octets ++ [v])
    | _ => parse_loop t v (n + zlen ds) octets
    end.
Proof.
  intros Hd. revert val n. induction Hd as [|d ds Hd Hds IH]; intros val n Hne Hv Hn Hl Hs; [done|].
  unfold zlen in *. cbn [length foldl] in *.
  assert (Hmono : forall l v, Forall (fun d => 0 <= d < 10) l -> 0 <= v -> v <= foldl (fun acc d => acc * 10 + d) v l).
  { induction l as [|x l IHl]; intros v Hl' Hv'; cbn [foldl]; [lia|]. apply List.Forall_cons_iff in Hl' as [Hx Hl'].
    specialize (IHl (v * 10 + x) Hl' ltac:(lia)). lia. }
  pose proof (Hmono ds (val * 10 + d) Hds ltac:(lia)).
  cbn [map app parse_loop]. assert (Hc : digit_char d = 48 + d) by (unfold digit_char; ifs; lia). rewrite Hc.
  assert (Hdig : is_digit (48 + d) = true) by (unfold is_digit; apply andb_true_iff; split; apply Z.leb_le; lia).
  rewrite Hdig. replace (val * 10 + (48 + d - 48)) with (val * 10 + d) by lia. rewrite u32_small by lia.
  rewrite (proj2 (Z.ltb_ge 3 (n + 1))) by lia. rewrite (proj2 (Z.ltb_ge 255 _)) by lia.
  destruct ds as [|d' ds].
  - cbn [map app foldl length]. destruct t; done.
  - cbn [map app]. cbn [map app] in IH. rewrite IH; try done; cbn [length] in *; try lia.
    cbv zeta. cbn [foldl]. destruct t; [done|]. f_equal. lia.
Qed.

Lemma dec_spec o :
  0 <= o < 256 ->
  exists ds, dec o = map digit_char ds /\ Forall (fun d => 0 <= d < 10) ds /\ ds <> [] /\ zlen ds <= 3 /\
    foldl (fun acc d => acc * 10 + d) 0 ds = o.
Proof.
  intros Ho. exists (rev (digits_rev 24 10 o)). split; [done|]. split_and!.
  - apply Forall_rev, digits_rev_range. lia.
  - intros E. apply (f_equal (@rev Z)) in E. rewrite rev_involutive in E. by apply digits_rev_nonempty in E; [|lia].
  - unfold zlen. rewrite length_rev. pose proof (digits_rev_length 24 10 o 3 ltac:(lia) ltac:(lia) ltac:(lia)). lia.
  - apply digits_rev_value; [lia| |lia]. assert (256 < 10 ^ Z.of_nat 24) by (vm_compute; done). lia.
Qed.

(** A number below 256 is read back, whatever follows the dot. *)
Lemma parse_octet o c r octets :
  0 <= o < 256 -> zlen octets < 3 ->
  parse_loop (dec o ++ 46 :: c :: r) 0 0 octets = parse_loop (c :: r) 0 0 (octets ++ [o]).
Proof.
  intros Ho Hn. destruct (dec_spec o Ho) as (ds & -> & Hd & Hne & Hl & Hv).
  rewrite parse_digits by (done || lia). rewrite Hv. cbv zeta. cbn [parse_loop].
  change (is_digit 46) with false. cbv iota. rewrite (proj2 (Z.ltb_lt _ _) Hn).
  assert (0 < 0 + zlen ds) by (destruct ds; [done|unfold zlen; cbn [length]; lia]).
  rewrite (proj2 (Z.ltb_lt 0 _)) by done. done.
Qed.

Lemma parse_last o octets :
  0 <= o < 256 -> zlen octets = 3 -> parse_loop (dec o) 0 0 octets = Some (octets ++ [o]).
Proof.
  intros Ho Hn. destruct (dec_spec o Ho) as (ds & -> & Hd & Hne & Hl & Hv).
  rewrite <- (app_nil_r (map digit_char ds)), parse_digits by (done || lia). rewrite Hv, Hn. done.
Qed.

Lemma dec_length o : 0 <= o < 256 -> (1 <= length (dec o) <= 3)%nat.
Proof.
  intros Ho. destruct (dec_spec o Ho) as (ds & -> & _ & Hne & Hl & _). rewrite length_map. unfold zlen in Hl.
  destruct ds; [done|]. cbn [length] in *. lia.
Qed.

Lemma dec_cons o : exists c r, dec o = c :: r.
Proof.
  unfold dec. destruct (rev (digits_rev 24 10 o)) eqn:E; [|by eexists _, _].
  apply (f_equal (@rev Z)) in E. rewrite rev_involutive in E. by apply digits_rev_nonempty in E; [|lia].
Qed.

Lemma join_octets a :
  0 <= a < 2 ^ 32 ->
  Z.lor (Z.lor (Z.lor (u32 (Z.shiftl (a / 2 ^ 24 mod 256) 24)) (u32 (Z.shiftl (a / 2 ^ 16 mod 256) 16)))
    (u32 (Z.shiftl (a / 2 ^ 8 mod 256) 8))) (a mod 256) = a.
Proof.
  intros Ha. rewrite !(fun x k => u32_small (Z.shiftl x k)) by (rewrite Z.shiftl_mul_pow2 by lia; lia).
  set (x3 := a / 2 ^ 24 mod 256). set (x2 := a / 2 ^ 16 mod 256). set (x1 := a / 2 ^ 8 mod 256). set (x0 := a mod 256).
  rewrite (Z.shiftl_mul_pow2 x2), (Z.shiftl_mul_pow2 x1) by lia.
  rewrite lor_shiftl_add by (unfold x2; lia).
  replace (x3 * 2 ^ 24 + x2 * 2 ^ 16) with (Z.shiftl (x3 * 256 + x2) 16) by (rewrite Z.shiftl_mul_pow2 by lia; lia).
  rewrite lor_shiftl_add by (unfold x1; lia).
  replace ((x3 * 256 + x2) * 2 ^ 16 + x1 * 2 ^ 8) with (Z.shiftl ((x3 * 256 + x2) * 256 + x1) 8) by (rewrite Z.shiftl_mul_pow2 by lia; lia).
  rewrite lor_shiftl_add by (unfold x0; lia). unfold x3, x2, x1, x0. lia.
Qed.

Lemma octet_div a k : 0 <= k -> Z.land (Z.shiftr a k) 0xFF = a / 2 ^ k mod 256.
Proof. intros. change 0xFF with (2 ^ 8 - 1). by rewrite land_ones_mod, Z.shiftr_div_pow2 by lia. Qed.

Lemma render_quad a b c d :
  render None (bs "%u.%u.%u.%u") [AInt a; AInt b; AInt c; AInt d] =
    dec (u32 a) ++ 46 :: dec (u32 b) ++ 46 :: dec (u32 c) ++ 46 :: dec (u32 d).
Proof.
  transitivity (dec (u32 a) ++ 46 :: dec (u32 b) ++ 46 :: dec (u32 c) ++ 46 :: dec (u32 d) ++ []); [reflexivity|].
  by rewrite app_nil_r.
Qed.

(** Parsing is the inverse of printing: [parse_ipv4_strict] reads back
    every address the kernel prints with "%u.%u.%u.%u". *)
Theorem parse_print_ipv4 a :
  0 <= a < 2 ^ 32 -> parse_ipv4_strict (render None (bs "%u.%u.%u.%u") (octet_args a)) = Some a.
Proof.
  intros Ha.
  set (x3 := a / 2 ^ 24 mod 256). set (x2 := a / 2 ^ 16 mod 256). set (x1 := a / 2 ^ 8 mod 256). set (x0 := a mod 256).
  assert (Hr : render None (bs "%u.%u.%u.%u") (octet_args a) = dec x3 ++ 46 :: dec x2 ++ 46 :: dec x1 ++ 46 :: dec x0).
  { unfold octet_args. rewrite !octet_div by lia. fold x3 x2 x1.
    replace (Z.land a 255) with x0 by (change 255 with (2 ^ 8 - 1); by rewrite land_ones_mod by lia).
    rewrite (render_quad x3 x2 x1 x0). by rewrite !u32_small by (unfold x3, x2, x1, x0; lia). }
  rewrite Hr. unfold parse_ipv4_strict.
  assert (0 <= x3 < 256 /\ 0 <= x2 < 256 /\ 0 <= x1 < 256 /\ 0 <= x0 < 256) as (H3 & H2 & H1 & H0)
    by (unfold x3, x2, x1, x0; lia).
  pose proof (dec_length x3 H3). pose proof (dec_length x2 H2). pose proof (dec_length x1 H1). pose proof (dec_length x0 H0).
  assert (Hl : 0 < zlen (dec x3 ++ 46 :: dec x2 ++ 46 :: dec x1 ++ 46 :: dec x0) <= 15).
  { unfold zlen. repeat (rewrite length_app || cbn [length]). lia. }
  destruct (Z.eqb_spec (zlen (dec x3 ++ 46 :: dec x2 ++ 46 :: dec x1 ++ 46 :: dec x0)) 0); [lia|].
  destruct (Z.ltb_spec 15 (zlen (dec x3 ++ 46 :: dec x2 ++ 46 :: dec x1 ++ 46 :: dec x0))); [lia|]. cbn [orb].
  destruct (dec_cons x2) as (c2 & r2 & E2), (dec_cons x1) as (c1 & r1 & E1), (dec_cons x0) as (c0 & r0 & E0).
  assert (Hp : parse_loop (dec x3 ++ 46 :: dec x2 ++ 46 :: dec x1 ++ 46 :: dec x0) 0 0 [] = Some [x3; x2; x1; x0]).
  { rewrite E2. cbn [app]. rewrite parse_octet by (done || (vm_compute; reflexivity)).
    change (c2 :: r2 ++ ?t) with ((c2 :: r2) ++ t). rewrite <- E2, E1. cbn [app].
    rewrite parse_octet by (done || (vm_compute; reflexivity)).
    change (c1 :: r1 ++ ?t) with ((c1 :: r1) ++ t). rewrite <- E1, E0. cbn [app].
    rewrite parse_octet by (done || (vm_compute; reflexivity)). rewrite <- E0.
    rewrite parse_last by done. done. }
  rewrite Hp. f_equal. by apply join_octets.
Qed.

Lemma parse_print_ipv4_witness :
  parse_ipv4_strict (render None (bs "%u.%u.%u.%u") (octet_args 0x0A00020F)) = Some 0x0A00020F.
Proof. apply (parse_print_ipv4 0x0A00020F). lia. Defined.

(** ** The receive loop and the device *)

Section DeviceTheorems.
Context {N : Type} `{Nic N}.

Lemma wait_loop_total fuel ok limit spins extra (c : N) :
  0 <= spins -> 0 <= extra <= NET_RX_EXTRA_LIMIT ->
  (Z.max 0 (limit - spins) + 255) / POLL_SPIN_BURST + (NET_RX_EXTRA_LIMIT - extra) + 1 <= Z.of_nat fuel ->
  wait_loop fuel ok limit spins extra c <> None.
Proof.
  revert spins extra c. induction fuel as [|fuel IH]; intros spins extra c Hs He Hf;
    unfold NET_RX_EXTRA_LIMIT, POLL_SPIN_BURST in *; [lia|].
  cbn [wait_loop]. unfold NET_RX_EXTRA_LIMIT, POLL_SPIN_BURST.
  destruct (Z.leb_spec limit spins); [done|]. destruct (nic_poll c) as [[n r] c'].
  destruct (0 <? n).
  - destruct (ok r (u16 n)); [done|]. destruct (Z.ltb_spec 64 (extra + 1)); [done|]. apply IH; lia.
  - destruct (n <? 0); [done|]. apply IH; lia.
Qed.

(** The receive loop of an exchange ends for every behaviour of the card:
    a spin budget allows one turn per burst, and 64 stray frames at most. *)
Theorem wait_terminates ok limit (c : N) :
  0 <= limit -> exists r c', wait_loop (wait_fuel limit) ok limit 0 0 c = Some (r, c').
Proof.
  intros Hl. destruct (wait_loop (wait_fuel limit) ok limit 0 0 c) as [[r c']|] eqn:E; [by eexists _, _|].
  exfalso. revert E. apply wait_loop_total; unfold wait_fuel, NET_RX_EXTRA_LIMIT, POLL_SPIN_BURST; lia.
Qed.

(** The device is exclusive.  While a command is pending, another process
    can neither replace it nor read its result: both calls fail and change
    nothing. *)
Theorem netdev_exclusive pid buf n s (c : N) :
  cmd s <> CMD_NONE -> result_state s = RES_PENDING -> open_owner s <> u32 pid ->
  netdev_write (Some pid) buf s c = (-1, s) /\ netdev_read (Some pid) n s c = (-1, [], s, c).
Proof.
  intros Hc Hr Ho. apply Z.eqb_neq in Ho. split.
  - unfold netdev_write. destruct (_ =? 0); [done|]. destruct (_ || _); [done|].
    rewrite bool_decide_eq_false_2, bool_decide_eq_true_2 by done. cbn [negb andb]. by rewrite Ho.
  - unfold netdev_read. destruct (_ =? 0); [done|]. destruct (negb (inited s)); [done|]. by rewrite Ho.
Qed.

(** The rest of a result that is being read. *)
Definition rest_of (s : net) : list Z := drop (Z.to_nat (result_off s)) (result_buf s).

(** Once a result is ready, its owner reads it to the end: a read of [n]
    bytes returns the next [n] bytes of the text (fewer at the end), and when
    nothing is left it returns 0 and the device is free again. *)
Theorem netdev_read_stream pid n s (c : N) :
  inited s = true -> open_owner s = u32 pid -> result_state s = RES_READY -> 0 < n < 2 ^ 31 ->
  0 <= result_off s -> zlen (result_buf s) <= 192 ->
  exists s', netdev_read (Some pid) n s c =
    (zlen (take (Z.to_nat n) (rest_of s)), take (Z.to_nat n) (rest_of s), s', c) /\
    (rest_of s = [] -> result_state s' = RES_NONE /\ cmd s' = CMD_NONE) /\
    (rest_of s <> [] -> result_state s' = RES_READY /\ rest_of s' = drop (Z.to_nat n) (rest_of s)).
Proof.
  intros Hi Ho Hr Hn Hoff Hlen. unfold netdev_read. rewrite Hi, Ho, Hr, Z.eqb_refl. cbn [negb].
  destruct (Z.eqb_spec n 0); [lia|].
  unfold rest_of, zlen in *. set (len := Z.of_nat (length (result_buf s))) in *.
  destruct (Z.leb_spec len (result_off s)) as [Hle|Hlt].
  - assert (Hd : drop (Z.to_nat (result_off s)) (result_buf s) = []) by (apply drop_ge; lia).
    rewrite Hd, take_nil. eexists. split; [reflexivity|]. split; [done|done].
  - assert (Hd : length (drop (Z.to_nat (result_off s)) (result_buf s)) = Z.to_nat (len - result_off s)).
    { rewrite length_drop. lia. }
    set (m := if len - result_off s <? n then len - result_off s else n).
    assert (Hm : m = Z.min n (len - result_off s)) by (unfold m; ifs; lia). clearbody m.
    assert (Ht : take (Z.to_nat m) (drop (Z.to_nat (result_off s)) (result_buf s)) =
                 take (Z.to_nat n) (drop (Z.to_nat (result_off s)) (result_buf s))).
    { destruct (Z.le_gt_cases n (len - result_off s)); [by replace m with n by lia|]. rewrite !take_ge by lia. done. }
    eexists. split; [|split].
    + unfold sub. rewrite Ht. repeat f_equal. rewrite length_take, Hd, s32_small by lia. lia.
    + intros He. rewrite He in Hd. cbn in Hd. lia.
    + intros _. cbn [result_state result_off result_buf]. split; [done|]. rewrite u32_small by lia.
      rewrite drop_drop. destruct (Z.le_gt_cases n (len - result_off s)).
      * replace m with n by lia. f_equal. lia.
      * rewrite !drop_ge by lia. done.
Qed.
End DeviceTheorems.

(** A card with nothing to say. *)
#[export] Instance silent_nic : Nic unit := {
  nic_present _ := true;
  nic_mac _ := [2; 0; 0; 0; 0; 1];
  nic_send _ c := (0, c);
  nic_poll c := (0, [], c);
}.

Lemma wait_terminates_witness : exists r c', wait_loop (wait_fuel 1024) (fun _ _ => true) 1024 0 0 tt = Some (r, c').
Proof. apply (wait_terminates (fun _ _ => true) 1024 tt). lia. Defined.

Definition pending_net : net :=
  mkNet true 0x0A00020F 0x0A000202 0xFFFFFF00 7 1 CMD_PING 1 RES_PENDING RES_STATUS_OK 0x0A000202 0 [].

Lemma netdev_exclusive_witness :
  netdev_write (Some 8) (bs "status") pending_net tt = (-1, pending_net) /\
  netdev_read (Some 8) 10 pending_net tt = (-1, [], pending_net, tt).
Proof.
  apply (netdev_exclusive 8 (bs "status") 10 pending_net tt).
  - discriminate.
  - reflexivity.
  - vm_compute. discriminate.
Defined.

Definition ready_net : net :=
  mkNet true 0x0A00020F 0x0A000202 0xFFFFFF00 7 1 CMD_NONE 1 RES_READY RES_STATUS_OK 0x0A000202 2 (bs "timeout").

Lemma netdev_read_stream_witness :
  exists s', netdev_read (Some 7) 3 ready_net tt = (3, bs "meo", s', tt).
Proof.
  destruct (netdev_read_stream 7 3 ready_net tt) as (s' & He & _); try reflexivity; try (vm_compute; (split; discriminate || reflexivity) || discriminate).
  exists s'. exact He.
Defined.
