(* ===== verification/Screen.v ===== *)
(** * Text console on the framebuffer (kernel/src/drivers/tty.c)

    [t_fbm] is the memory the framebuffer lies in; pixels are written there.
    Characters are signed bytes, coordinates are [int]s.  [t_com1] lists the
    bytes sent to the serial port, latest first.  Arithmetic on [int] that the
    escape sequences can drive out of range is kept at 32 bits. *)
From S2P Require Import Prelude Mem KString Pmm Task Libk Font.

Definition CELL_W : Z := 8.
Definition CELL_H : Z := 16.
Definition GLYPH_H : Z := 8.
Definition ANSI_MAX_PARAMS : Z := 8.

Definition ansi_palette : list Z := [
  0xFF000000; 0xFFAA0000; 0xFF00AA00; 0xFFAA5500;
  0xFF0000AA; 0xFFAA00AA; 0xFF00AAAA; 0xFFAAAAAA;
  0xFF555555; 0xFFFF5555; 0xFF55FF55; 0xFFFFFF55;
  0xFF5555FF; 0xFFFF55FF; 0xFF55FFFF; 0xFFFFFFFF].

(** What the boot loader says of the framebuffer. *)
Record limine_framebuffer := mkFb { lf_address : Z; lf_width : Z; lf_height : Z; lf_pitch : Z; lf_bpp : Z }.

(** The mode, fixed by [tty_init]; [fb] is 0 before it. *)
Record video := mkVideo {
  fb : Z;
  pitch : Z;
  bpp : Z;
  cols : Z;
  rows : Z;
  mode_w : Z;
  mode_h : Z;
  mode_bpp : Z;
}.

Record tty := mkTty {
  t_mode : video;
  t_fbm : mem;
  cur_x : Z;
  cur_y : Z;
  g_fg : Z;
  g_bg : Z;
  ansi_state : Z;             (* 0 text, 1 after ESC, 2 in a sequence *)
  csi_param : list Z;
  csi_count : Z;
  csi_cur : Z;
  t_com1 : list Z;
}.

Definition tty_boot (m : mem) : tty :=
  mkTty (mkVideo 0 0 0 0 0 0 0 0) m 0 0 0xFFAAAAAA 0xFF000000 0 (replicate 8 0) 0 (-1) [].

Definition set_mode (v : video) (t : tty) : tty :=
  mkTty v (t_fbm t) (cur_x t) (cur_y t) (g_fg t) (g_bg t) (ansi_state t) (csi_param t) (csi_count t) (csi_cur t) (t_com1 t).
Definition set_fbm (v : mem) (t : tty) : tty :=
  mkTty (t_mode t) v (cur_x t) (cur_y t) (g_fg t) (g_bg t) (ansi_state t) (csi_param t) (csi_count t) (csi_cur t) (t_com1 t).
Definition set_cur (x y : Z) (t : tty) : tty :=
  mkTty (t_mode t) (t_fbm t) x y (g_fg t) (g_bg t) (ansi_state t) (csi_param t) (csi_count t) (csi_cur t) (t_com1 t).
Definition tty_set_colors (fg bg : Z) (t : tty) : tty :=
  mkTty (t_mode t) (t_fbm t) (cur_x t) (cur_y t) fg bg (ansi_state t) (csi_param t) (csi_count t) (csi_cur t) (t_com1 t).
Definition set_ansi (v : Z) (t : tty) : tty :=
  mkTty (t_mode t) (t_fbm t) (cur_x t) (cur_y t) (g_fg t) (g_bg t) v (csi_param t) (csi_count t) (csi_cur t) (t_com1 t).
Definition set_csi (param : list Z) (count cur : Z) (t : tty) : tty :=
  mkTty (t_mode t) (t_fbm t) (cur_x t) (cur_y t) (g_fg t) (g_bg t) (ansi_state t) param count cur (t_com1 t).
Definition outb_com1 (b : Z) (t : tty) : tty :=
  mkTty (t_mode t) (t_fbm t) (cur_x t) (cur_y t) (g_fg t) (g_bg t) (ansi_state t) (csi_param t) (csi_count t) (csi_cur t) (u8 b :: t_com1 t).

(** ** Drawing *)

Definition draw_pixel (px py color : Z) (t : tty) : tty :=
  let v := t_mode t in
  if (px <? 0) || (py <? 0) || (mode_w v <=? u32 px) || (mode_h v <=? u32 py) then t
  else set_fbm (store32 (t_fbm t) (u64 (fb v + py * pitch v + px * (bpp v / 8))) color) t.

Definition draw_cell (cx cy ch : Z) (cursor : bool) (t : tty) : tty :=
  let ch := if (ch <? FONT_FIRST) || (FONT_LAST <? ch) then 46 else ch in
  let glyph := znth [] font8x8 (ch - FONT_FIRST) in
  let ox := s32 (cx * CELL_W) in
  let oy := s32 (cy * CELL_H) in
  let t := for_range (Z.to_nat CELL_H) 0 (fun r t =>
             let bits := if r <? GLYPH_H then znth 0 glyph r else 0 in
             for_range (Z.to_nat CELL_W) 0 (fun c t =>
               let on := negb (Z.land bits (Z.shiftl 1 c) =? 0) in
               draw_pixel (s32 (ox + c)) (s32 (oy + r)) (if on then g_fg t else g_bg t) t) t) t in
  if cursor then
    for_range (Z.to_nat (CELL_W - 2)) 1 (fun c t =>
      draw_pixel (s32 (ox + c)) (s32 (oy + CELL_H - 3)) (g_fg t)
        (draw_pixel (s32 (ox + c)) (s32 (oy + CELL_H - 2)) (g_fg t) t)) t
  else t.

(** Outside the grid there is no cursor to draw. *)
Definition cursor_cell (shown : bool) (t : tty) : tty :=
  if (cols (t_mode t) <=? cur_x t) || (rows (t_mode t) <=? cur_y t) then t else draw_cell (cur_x t) (cur_y t) 32 shown t.
Definition erase_cursor : tty -> tty := cursor_cell false.
Definition show_cursor : tty -> tty := cursor_cell true.

(** [p[i] = color] for [n] pixels from the address [p]. *)
Definition fill_pixels (p n color : Z) (m : mem) : mem :=
  for_range (Z.to_nat n) 0 (fun i m => store32 m (p + 4 * i) color) m.

Definition scroll_up (t : tty) : tty :=
  let v := t_mode t in
  let bytes := u64 (pitch v * CELL_H * u64 (rows v - 1)) in
  let m := memmove (t_fbm t) (fb v) (fb v .+ (pitch v * CELL_H)) bytes in
  set_fbm (fill_pixels (fb v .+ bytes) (u64 (pitch v * CELL_H) / (bpp v / 8)) (g_bg t) m) t.

Definition tty_clear (t : tty) : tty :=
  let v := t_mode t in
  if fb v =? 0 then t
  else set_cur 0 0 (set_fbm (fill_pixels (fb v) (u64 (pitch v * CELL_H * u64 (rows v)) / 4) (g_bg t) (t_fbm t)) t).

Definition tty_init (f : option limine_framebuffer) (t : tty) : tty :=
  match f with
  | None => t
  | Some f =>
      if negb (lf_bpp f =? 32) then t
      else tty_clear (set_mode (mkVideo (lf_address f) (lf_pitch f) (lf_bpp f) (s32 (lf_width f / CELL_W)) (s32 (lf_height f / CELL_H))
                                        (u32 (lf_width f)) (u32 (lf_height f)) (u32 (lf_bpp f))) t)
  end.

Definition tty_fb (t : tty) : Z := fb (t_mode t).
Definition tty_pitch (t : tty) : Z := pitch (t_mode t).
Definition tty_bpp (t : tty) : Z := u32 (bpp (t_mode t)).
Definition tty_width (t : tty) : Z := u32 (cols (t_mode t) * CELL_W).
Definition tty_height (t : tty) : Z := u32 (rows (t_mode t) * CELL_H).
Definition tty_get_mode (t : tty) : Z * Z * Z := (mode_w (t_mode t), mode_h (t_mode t), mode_bpp (t_mode t)).

(** ** Escape sequences *)

(** One parameter of a colour sequence. *)
Definition sgr (v : Z) (t : tty) : tty :=
  let v := if v <? 0 then 0 else v in
  let pal i := znth 0 ansi_palette i in
  if v =? 0 then tty_set_colors (pal 7) (pal 0) t
  else if v =? 1 then
    if Z.land (g_fg t) 0xFF <? 0x80 then tty_set_colors (Z.lor (g_fg t) 0x00555555) (g_bg t) t else t
  else if (30 <=? v) && (v <=? 37) then tty_set_colors (pal (v - 30)) (g_bg t) t
  else if (90 <=? v) && (v <=? 97) then tty_set_colors (pal (v - 90 + 8)) (g_bg t) t
  else if (40 <=? v) && (v <=? 47) then tty_set_colors (g_fg t) (pal (v - 40)) t
  else if (100 <=? v) && (v <=? 107) then tty_set_colors (g_fg t) (pal (v - 100 + 8)) t
  else if v =? 39 then tty_set_colors (pal 7) (g_bg t) t
  else if v =? 49 then tty_set_colors (g_fg t) (pal 0) t
  else t.

Definition csi_dispatch (final : Z) (t : tty) : tty :=
  let v := t_mode t in
  let par i := znth 0 (csi_param t) i in
  let p0 := if (0 <=? csi_count t) && (0 <=? par 0) then par 0 else 1 in
  let p1 := if (1 <=? csi_count t) && (0 <=? par 1) then par 1 else 1 in
  if final =? 74 then if p0 =? 2 then tty_clear t else t                                   (* J *)
  else if final =? 72 then                                                                  (* H *)
    let t := erase_cursor t in
    let y := if p0 =? 0 then 0 else p0 - 1 in
    let x := if p1 =? 0 then 0 else p1 - 1 in
    set_cur (if cols v <=? x then cols v - 1 else x) (if rows v <=? y then rows v - 1 else y) t
  else if final =? 75 then                                                                  (* K *)
    for_range (Z.to_nat (cols v - cur_x t)) (cur_x t) (fun x t => draw_cell x (cur_y t) 32 false t) t
  else if final =? 65 then                                                                  (* A *)
    let t := erase_cursor t in
    let y := s32 (cur_y t - p0) in set_cur (cur_x t) (if y <? 0 then 0 else y) t
  else if final =? 66 then                                                                  (* B *)
    let t := erase_cursor t in
    let y := s32 (cur_y t + p0) in set_cur (cur_x t) (if rows v <=? y then rows v - 1 else y) t
  else if final =? 67 then                                                                  (* C *)
    let t := erase_cursor t in
    let x := s32 (cur_x t + p0) in set_cur (if cols v <=? x then cols v - 1 else x) (cur_y t) t
  else if final =? 68 then                                                                  (* D *)
    let t := erase_cursor t in
    let x := s32 (cur_x t - p0) in set_cur (if x <? 0 then 0 else x) (cur_y t) t
  else if final =? 109 then                                                                 (* m *)
    let n := if 0 <=? csi_cur t then csi_cur t + 1 else csi_count t in
    if (n =? 1) && (par 0 <? 0) then tty_set_colors (znth 0 ansi_palette 7) (znth 0 ansi_palette 0) t
    else for_range (Z.to_nat n) 0 (fun i t => sgr (znth 0 (csi_param t) i) t) t
  else t.

(** The parameter being read: a new one starts at [csi_count]. *)
Definition csi_open (t : tty) : tty :=
  if csi_cur t <? 0 then
    let cur := if csi_count t <? ANSI_MAX_PARAMS then csi_count t else ANSI_MAX_PARAMS - 1 in
    set_csi (zinsert cur 0 (csi_param t)) (csi_count t) cur t
  else t.

Definition tty_ansi_feed (c : Z) (t : tty) : tty :=
  if ansi_state t =? 1 then
    if c =? 91 then set_csi (replicate 8 (-1)) 0 (-1) (set_ansi 2 t) else set_ansi 0 t
  else if (48 <=? c) && (c <=? 57) then
    let t := csi_open t in
    let i := csi_cur t in
    set_csi (zinsert i (s32 (znth 0 (csi_param t) i * 10 + (c - 48))) (csi_param t)) (csi_count t) i t
  else if c =? 59 then
    let t := csi_open t in
    let count := csi_cur t + 1 in
    set_csi (csi_param t) (if ANSI_MAX_PARAMS <=? count then ANSI_MAX_PARAMS - 1 else count) (-1) t
  else
    let t := if (0x40 <=? c) && (c <=? 0x7E) then csi_dispatch c t else t in
    set_ansi 0 t.

(** ** Characters *)

Definition put_plain (c : Z) (t : tty) : tty :=
  if c =? 10 then set_cur 0 (cur_y t + 1) t
  else if c =? 13 then set_cur 0 (cur_y t) t
  else if c =? 8 then
    if 0 <? cur_x t then
      let t := set_cur (cur_x t - 1) (cur_y t) t in draw_cell (cur_x t) (cur_y t) 32 false t
    else t
  else if c =? 9 then set_cur (Z.land (cur_x t + 8) (Z.lnot 7)) (cur_y t) t
  else
    let t := draw_cell (cur_x t) (cur_y t) c false t in set_cur (cur_x t + 1) (cur_y t) t.

Definition tty_screen_putc (c : Z) (t : tty) : tty :=
  if fb (t_mode t) =? 0 then t
  else if c =? 0x1B then set_ansi 1 t
  else if negb (ansi_state t =? 0) then tty_ansi_feed c t
  else
    let t := put_plain c (erase_cursor t) in
    let t := if cols (t_mode t) <=? cur_x t then set_cur 0 (cur_y t + 1) t else t in
    let t := for_range (Z.to_nat (cur_y t - rows (t_mode t) + 1)) 0
               (fun _ t => let t := scroll_up t in set_cur (cur_x t) (cur_y t - 1) t) t in
    show_cursor t.

Definition tty_putc (c : Z) (t : tty) : tty :=
  let t := if c =? 10 then outb_com1 13 t else t in
  tty_screen_putc c (outb_com1 c t).

Definition tty_write (buf : list Z) (t : tty) : tty := foldl (fun t b => tty_putc (s8 b) t) t buf.

Definition tty_printf (fmt : list Z) (args : list arg) (t : tty) : tty :=
  tty_write (c_string (vsnprintf_mini 511 fmt args)) t.

(** * Theorems *)

(** A mode [tty_init] accepts: the visible pixels lie in the framebuffer,
    which does not wrap around the address space. *)
Record mode_ok (v : video) : Prop := {
  mo_bpp : bpp v = 32;
  mo_fb : 0 < fb v;
  mo_w : 0 < mode_w v < 2 ^ 31;
  mo_h : 0 < mode_h v < 2 ^ 31;
  mo_pitch : 4 * mode_w v <= pitch v /\ pitch v mod 4 = 0;
  mo_end : fb v + pitch v * mode_h v < 2 ^ 64;
  mo_rows : 1 <= rows v /\ rows v * CELL_H <= mode_h v;
  mo_cols : 1 <= cols v /\ cols v * CELL_W <= mode_w v;
}.

Record tty_ok (t : tty) : Prop := {
  tk_mode : mode_ok (t_mode t);
  tk_params : zlen (csi_param t) = ANSI_MAX_PARAMS;
  tk_count : 0 <= csi_count t < ANSI_MAX_PARAMS;
  tk_cur : -1 <= csi_cur t < ANSI_MAX_PARAMS;
}.

(** Only bytes of the framebuffer differ. *)
Definition confined (v : video) (m m' : mem) : Prop :=
  forall x, x < fb v \/ fb v + pitch v * mode_h v <= x -> m' x = m x.

(** Drawing: only the framebuffer's contents changed. *)
Definition drawn (t t' : tty) : Prop := exists m, t' = set_fbm m t /\ confined (t_mode t) (t_fbm t) m.

Lemma drawn_refl t : drawn t t.
Proof. exists (t_fbm t). split; [by destruct t|by intros x]. Qed.

Lemma drawn_trans a b c : drawn a b -> drawn b c -> drawn a c.
Proof. intros (m & -> & H1) (m' & -> & H2). exists m'. split; [done|]. intros x Hx. by rewrite H2, H1. Qed.

Lemma drawn_mode t t' : drawn t t' -> t_mode t' = t_mode t.
Proof. by intros (m & -> & _). Qed.

Lemma drawn_for n i f t :
  (forall k x, t_mode x = t_mode t -> drawn x (f k x)) -> drawn t (for_range n i f t).
Proof.
  intros Hf. apply (for_range_ind (fun _ x => drawn t x)); [apply drawn_refl|].
  intros k x _ Hx. eapply drawn_trans; [exact Hx|]. apply Hf. by apply drawn_mode.
Qed.

Lemma fill_pixels_other p n color m x : 0 <= n -> x < p \/ p + 4 * n <= x -> fill_pixels p n color m x = m x.
Proof.
  intros Hn Hx. unfold fill_pixels. apply (for_range_ind (fun _ m' => m' x = m x)); [done|].
  intros k m' Hk Hm. unfold store32. rewrite store_other by lia. done.
Qed.

Lemma s32_range x : - 2 ^ 31 <= s32 x < 2 ^ 31.
Proof. word_lia. Qed.

Lemma pixel_address v px py :
  mode_ok v -> 0 <= px < mode_w v -> 0 <= py < mode_h v ->
  let a := fb v + py * pitch v + px * (bpp v / 8) in
  u64 a = a /\ fb v <= a /\ a + 4 <= fb v + pitch v * mode_h v.
Proof.
  intros [H1 H2 H3 H4 [H5 _] H6 _ _] Hx Hy a. unfold a. rewrite H1. change (32 / 8) with 4.
  assert ((py + 1) * pitch v <= mode_h v * pitch v) by (apply Z.mul_le_mono_nonneg_r; lia).
  assert (0 <= py * pitch v) by (apply Z.mul_nonneg_nonneg; lia).
  split; [apply u64_small|]; lia.
Qed.

Lemma draw_pixel_drawn px py color t : mode_ok (t_mode t) -> drawn t (draw_pixel (s32 px) (s32 py) color t).
Proof.
  intros Hm. unfold draw_pixel. destruct (_ || _) eqn:E; [apply drawn_refl|]. bool_hyps.
  pose proof (s32_range px) as Rx. pose proof (s32_range py) as Ry. set (x := s32 px) in *. set (y := s32 py) in *.
  rewrite !u32_small in * by lia. destruct (pixel_address (t_mode t) x y Hm) as (-> & Ha & Hb); [lia..|].
  eexists. split; [done|]. intros z Hz. unfold store32. apply store_other. change (Z.of_nat 4) with 4. lia.
Qed.

Lemma draw_cell_drawn cx cy ch cursor t : mode_ok (t_mode t) -> drawn t (draw_cell cx cy ch cursor t).
Proof.
  intros Hm. unfold draw_cell. set (t1 := for_range (Z.to_nat CELL_H) 0 _ t).
  assert (drawn t t1) as H1.
  { apply drawn_for. intros r x Hx. apply drawn_for. intros c y Hy. apply draw_pixel_drawn. by rewrite Hy, Hx. }
  destruct cursor; [|done]. eapply drawn_trans; [exact H1|]. apply drawn_for. intros c x Hx.
  rewrite (drawn_mode _ _ H1) in Hx.
  eapply drawn_trans; [apply draw_pixel_drawn; by rewrite Hx|]. apply draw_pixel_drawn.
  rewrite (drawn_mode x); [by rewrite Hx|]. apply draw_pixel_drawn. by rewrite Hx.
Qed.

Lemma cursor_cell_drawn b t : mode_ok (t_mode t) -> drawn t (cursor_cell b t).
Proof. intros Hm. unfold cursor_cell. destruct (_ || _); [apply drawn_refl|by apply draw_cell_drawn]. Qed.

(** The lines the console uses lie in the framebuffer. *)
Lemma text_area v n : mode_ok v -> 0 <= n <= rows v -> 0 <= pitch v * CELL_H * n <= pitch v * mode_h v.
Proof.
  intros [_ _ H3 H4 [H5 _] _ [H7 H8] _] Hn. unfold CELL_H in *.
  assert (pitch v * (16 * n) <= pitch v * mode_h v) by (apply Z.mul_le_mono_nonneg_l; lia).
  assert (0 <= pitch v * (16 * n)) by (apply Z.mul_nonneg_nonneg; lia). lia.
Qed.

Lemma scroll_up_drawn t : mode_ok (t_mode t) -> drawn t (scroll_up t).
Proof.
  intros Hm. set (v := t_mode t). pose proof Hm as [H1 H2 H3 H4 [H5 H5'] H6 [H7 H8] _]. fold v in H1, H2, H3, H4, H5, H5', H6, H7, H8.
  pose proof (text_area v (rows v - 1) Hm ltac:(lia)) as Ha. pose proof (text_area v (rows v) Hm ltac:(lia)) as Hb.
  pose proof (text_area v 1 Hm ltac:(lia)) as Hc.
  eexists. split; [done|]. intros x Hx. fold v in Hx |- *. rewrite H1. change (32 / 8) with 4.
  assert (rows v < 2 ^ 31) by (unfold CELL_H in *; lia).
  rewrite (u64_small (rows v - 1)) by lia. rewrite !u64_small; rewrite ?u64_small; try lia.
  rewrite fill_pixels_other, memmove_other; try done; unfold CELL_H in *; lia.
Qed.

Lemma tty_clear_drawn t : mode_ok (t_mode t) -> exists t', drawn t t' /\ tty_clear t = set_cur 0 0 t'.
Proof.
  intros Hm. set (v := t_mode t). pose proof Hm as [H1 H2 H3 H4 [H5 H5'] H6 [H7 H8] _]. fold v in H1, H2, H3, H4, H5, H5', H6, H7, H8.
  pose proof (text_area v (rows v) Hm ltac:(lia)) as Hb. assert (rows v < 2 ^ 31) by (unfold CELL_H in *; lia).
  unfold tty_clear. fold v. rewrite (proj2 (Z.eqb_neq _ _)) by lia. eexists. split; [|reflexivity]. eexists. split; [done|].
  intros x Hx. fold v in Hx. rewrite (u64_small (rows v)), u64_small by lia. apply fill_pixels_other; lia.
Qed.

(** A step of the console: the mode stays, the state stays well formed, and
    only the framebuffer is written. *)
Definition tty_step (t t' : tty) : Prop := tty_ok t' /\ t_mode t' = t_mode t /\ confined (t_mode t) (t_fbm t) (t_fbm t').

Lemma tty_step_refl t : tty_ok t -> tty_step t t.
Proof. intros Ht. split; [done|]. split; [done|by intros x]. Qed.

Lemma tty_step_trans a b c : tty_step a b -> tty_step b c -> tty_step a c.
Proof.
  intros (_ & H1 & H2) (G & H3 & H4). split; [done|]. split; [congruence|]. intros x Hx. rewrite H4 by (by rewrite H1). auto.
Qed.

Lemma drawn_step t t' : tty_ok t -> drawn t t' -> tty_step t t'.
Proof. intros [] (m & -> & H). split; [by split|done]. Qed.

(** Changes that leave the framebuffer alone. *)
Lemma quiet_step t t' : tty_ok t' -> t_mode t' = t_mode t -> t_fbm t' = t_fbm t -> tty_step t t'.
Proof. intros Ht Hm Hf. split; [done|]. split; [done|]. intros x _. by rewrite Hf. Qed.

Lemma set_cur_step x y t t' : tty_step t t' -> tty_step t (set_cur x y t').
Proof.
  intros (H1 & H2 & H3). eapply tty_step_trans; [by split|]. apply quiet_step; try done. by destruct H1; split.
Qed.

Lemma set_ansi_step n t t' : tty_step t t' -> tty_step t (set_ansi n t').
Proof.
  intros (H1 & H2 & H3). eapply tty_step_trans; [by split|]. apply quiet_step; try done. by destruct H1; split.
Qed.

Lemma tty_clear_step t : tty_ok t -> tty_step t (tty_clear t).
Proof.
  intros Ht. destruct (tty_clear_drawn t (tk_mode _ Ht)) as (t' & Hd & ->). by apply set_cur_step, drawn_step.
Qed.

(** Case analysis on the conditions of a step. *)
Ltac step_cases := repeat match goal with |- tty_step _ (if ?b then _ else _) => destruct b end.

Lemma colors_step fg bg t : tty_ok t -> tty_step t (tty_set_colors fg bg t).
Proof. intros []. by apply quiet_step. Qed.

Lemma cell_step cx cy ch b t : tty_ok t -> tty_step t (draw_cell cx cy ch b t).
Proof. intros Ht. apply drawn_step; [done|]. apply draw_cell_drawn, Ht. Qed.

Lemma cursor_step b t : tty_ok t -> tty_step t (cursor_cell b t).
Proof. intros Ht. apply drawn_step; [done|]. apply cursor_cell_drawn, Ht. Qed.

Lemma scroll_step t : tty_ok t -> tty_step t (scroll_up t).
Proof. intros Ht. apply drawn_step; [done|]. apply scroll_up_drawn, Ht. Qed.

Create HintDb tty discriminated.
#[export] Hint Resolve tty_step_refl set_cur_step set_ansi_step tty_clear_step colors_step cell_step cursor_step scroll_step : tty.

Lemma sgr_step v t : tty_ok t -> tty_step t (sgr v t).
Proof. intros Ht. unfold sgr. cbv zeta. step_cases; auto with tty. Qed.

Lemma for_step n i f t :
  tty_ok t -> (forall k x, tty_ok x -> tty_step x (f k x)) -> tty_step t (for_range n i f t).
Proof.
  intros Ht Hf. apply (for_range_ind (fun _ x => tty_step t x)); [by apply tty_step_refl|].
  intros k x _ Hx. eapply tty_step_trans; [exact Hx|]. apply Hf, Hx.
Qed.

Lemma csi_dispatch_step final t : tty_ok t -> tty_step t (csi_dispatch final t).
Proof.
  intros Ht. unfold csi_dispatch, erase_cursor. cbv zeta. step_cases; auto with tty.
  - apply for_step; [done|]. intros k x Hx. auto with tty.
  - apply for_step; [done|]. intros k x Hx. by apply sgr_step.
Qed.

Lemma csi_open_spec t : tty_ok t -> tty_step t (csi_open t) /\ 0 <= csi_cur (csi_open t) < ANSI_MAX_PARAMS.
Proof.
  intros [H1 H2 H3 H4]. unfold csi_open. destruct (Z.ltb_spec (csi_cur t) 0); [|split; [by apply tty_step_refl|lia]].
  rewrite (proj2 (Z.ltb_lt _ _)) by lia. split; [|done]. apply quiet_step; try done. split; try done; cbn; [by rewrite zlen_insert|lia].
Qed.

Lemma set_csi_step param count cur t t' :
  tty_step t t' -> zlen param = ANSI_MAX_PARAMS -> 0 <= count < ANSI_MAX_PARAMS -> -1 <= cur < ANSI_MAX_PARAMS ->
  tty_step t (set_csi param count cur t').
Proof.
  intros (H1 & H2 & H3) Hp Hc Hk. eapply tty_step_trans; [by split|]. apply quiet_step; try done. by destruct H1; split.
Qed.

Lemma tty_ansi_feed_step c t : tty_ok t -> tty_step t (tty_ansi_feed c t).
Proof.
  intros Ht. destruct (csi_open_spec t Ht) as [Ho Hcur]. pose proof Ho as ([_ Hp Hcnt Hc] & _). unfold tty_ansi_feed. step_cases.
  - by apply set_csi_step; auto with tty.
  - auto with tty.
  - apply set_csi_step; [done|by rewrite zlen_insert|done|done].
  - apply set_csi_step; [done|done| |by unfold ANSI_MAX_PARAMS].
    destruct (Z.leb_spec ANSI_MAX_PARAMS (csi_cur (csi_open t) + 1)); unfold ANSI_MAX_PARAMS in *; lia.
  - apply set_ansi_step. destruct (_ && _); [by apply csi_dispatch_step|auto with tty].
Qed.

Lemma put_plain_step c t : tty_ok t -> tty_step t (put_plain c t).
Proof.
  intros Ht. unfold put_plain. cbv zeta. step_cases; auto with tty.
  pose proof (set_cur_step (cur_x t - 1) (cur_y t) t t (tty_step_refl t Ht)) as H1.
  eapply tty_step_trans; [exact H1|]. apply cell_step, H1.
Qed.

Lemma tty_screen_putc_step c t : tty_ok t -> tty_step t (tty_screen_putc c t).
Proof.
  intros Ht. unfold tty_screen_putc, erase_cursor, show_cursor. cbv zeta. step_cases; auto with tty; [by apply tty_ansi_feed_step|].
  eapply tty_step_trans; [by apply (cursor_step false)|]. set (t1 := cursor_cell false t).
  assert (tty_ok t1) as H1 by apply (cursor_step false t Ht).
  eapply tty_step_trans; [by apply (put_plain_step c)|]. set (t2 := put_plain c t1).
  assert (tty_ok t2) as H2 by apply (put_plain_step c t1 H1). set (t3 := if cols (t_mode t2) <=? cur_x t2 then _ else _).
  assert (tty_step t2 t3) as H3 by (unfold t3; destruct (_ <=? _); auto with tty). clearbody t3.
  eapply tty_step_trans; [exact H3|]. set (t4 := for_range _ _ _ _).
  assert (tty_step t3 t4) as H4 by (apply for_step; [apply H3|]; intros k x Hx; auto with tty).
  eapply tty_step_trans; [exact H4|]. apply cursor_step, H4.
Qed.

Lemma tty_putc_step c t : tty_ok t -> tty_step t (tty_putc c t).
Proof.
  intros Ht. unfold tty_putc. set (t1 := outb_com1 c _). assert (tty_step t t1) as H1.
  { apply quiet_step; unfold t1; destruct (c =? 10); try done; by destruct Ht; split. }
  eapply tty_step_trans; [exact H1|]. apply tty_screen_putc_step, H1.
Qed.

Lemma tty_write_step buf t : tty_ok t -> tty_step t (tty_write buf t).
Proof.
  unfold tty_write. revert t. induction buf as [|b buf IH]; intros t Ht; cbn [foldl]; [by apply tty_step_refl|].
  eapply tty_step_trans; [by apply tty_putc_step|]. apply IH. by apply tty_putc_step.
Qed.


(** A screen of 16 by 2 cells at address 4096. *)
Definition demo_tty : tty := tty_init (Some (mkFb 4096 128 32 512 32)) (tty_boot (fun _ => 0)).

Lemma demo_tty_ok : tty_ok demo_tty.
Proof. by split; [split|..]; vm_compute. Qed.


(** A cursor movement close to 2^31 wraps to the left of the screen. *)
Example cursor_wraps_negative : cur_x (tty_write (bs "a" ++ [27] ++ bs "[2147483647C") demo_tty) = - 2 ^ 31.
Proof. by vm_compute. Qed.

(** The short form of the reset sequence, without parameters, does nothing. *)
Example empty_sgr_ignored :
  g_fg (tty_write ([27] ++ bs "[31m" ++ [27] ++ bs "[m") demo_tty) = 0xFFAA0000.
Proof. by vm_compute. Qed.
