(* ===== verification/Gfx.v ===== *)
(** * Drawing primitives (kernel/src/drivers/gfx.c)

    They write pixels of the console's framebuffer directly.  The loops whose
    number of turns is not written in the code return [None] when they do not
    end within their fuel; [gfx_line_total] and [gfx_circle] are given enough. *)
From S2P Require Import Prelude Mem KString Libk Font Screen.

Definition clamp_x (x : Z) (t : tty) : Z :=
  let w := s32 (tty_width t) in if x <? 0 then 0 else if w <=? x then w - 1 else x.
Definition clamp_y (y : Z) (t : tty) : Z :=
  let h := s32 (tty_height t) in if y <? 0 then 0 else if h <=? y then h - 1 else y.

Definition px (x y color : Z) (t : tty) : tty :=
  set_fbm (store32 (t_fbm t) (u64 (tty_fb t + 4 * (y * (tty_pitch t / 4) + x))) color) t.

Definition gfx_fill_rect (x y w h color : Z) (t : tty) : tty :=
  if (w <=? 0) || (h <=? 0) then t
  else
    let x0 := clamp_x x t in
    let y0 := clamp_y y t in
    let x1 := clamp_x (s32 (x + w - 1)) t in
    let y1 := clamp_y (s32 (y + h - 1)) t in
    for_range (Z.to_nat (y1 - y0 + 1)) y0 (fun yy t =>
      for_range (Z.to_nat (x1 - x0 + 1)) x0 (fun xx t => px xx yy color t) t) t.

Definition gfx_rect (x y w h color : Z) (t : tty) : tty :=
  if (w <=? 0) || (h <=? 0) then t
  else
    gfx_fill_rect (s32 (x + w - 1)) y 1 h color
      (gfx_fill_rect x y 1 h color
         (gfx_fill_rect x (s32 (y + h - 1)) w 1 color (gfx_fill_rect x y w 1 color t))).

(** [sx], [sy]: the direction of each step; [dx], [dy]: the distances. *)
Fixpoint line_loop (fuel : nat) (dx dy sx sy x1 y1 color : Z) (x0 y0 err : Z) (t : tty) : option tty :=
  match fuel with
  | O => None
  | S f =>
      let t := if (0 <=? x0) && (0 <=? y0) && (x0 <? s32 (tty_width t)) && (y0 <? s32 (tty_height t))
               then px x0 y0 color t else t in
      if (x0 =? x1) && (y0 =? y1) then Some t
      else
        let e2 := s32 (err * 2) in
        let '(err, x0) := if - dy <? e2 then (s32 (err - dy), s32 (x0 + sx)) else (err, x0) in
        let '(err, y0) := if e2 <? dx then (s32 (err + dx), s32 (y0 + sy)) else (err, y0) in
        line_loop f dx dy sx sy x1 y1 color x0 y0 err t
  end.

Definition gfx_line (fuel : nat) (x0 y0 x1 y1 color : Z) (t : tty) : option tty :=
  let dx := s32 (x1 - x0) in
  let dy := s32 (y1 - y0) in
  let sx := if 0 <? dx then 1 else -1 in
  let sy := if 0 <? dy then 1 else -1 in
  let dx := if dx <? 0 then s32 (- dx) else dx in
  let dy := if dy <? 0 then s32 (- dy) else dy in
  line_loop fuel dx dy sx sy x1 y1 color x0 y0 (s32 (dx - dy)) t.

(** The eight octants of a circle; [x] is a distance to the centre. *)
Fixpoint circle_loop (fuel : nat) (cx cy color x y err : Z) (t : tty) : option tty :=
  match fuel with
  | O => None
  | S f =>
      if x <? y then Some t
      else
        let dot dx dy t := px (s32 (cx + dx)) (s32 (cy + dy)) color t in
        let t := dot (- x) y (dot x y t) in
        let t := dot (- y) x (dot y x t) in
        let t := dot x (- y) (dot (- x) (- y) t) in
        let t := dot y (- x) (dot (- y) (- x) t) in
        let y := y + 1 in
        if err <? 0 then circle_loop f cx cy color x y (s32 (err + 2 * y + 1)) t
        else circle_loop f cx cy color (x - 1) y (s32 (err + 2 * (y - (x - 1)) + 1)) t
  end.

Definition gfx_circle (cx cy r color : Z) (t : tty) : option tty :=
  circle_loop (Z.to_nat (r + 2)) cx cy color r 0 (s32 (1 - r)) t.

(** The largest power of 4 not above [v], from [bit] downwards. *)
Fixpoint isqrt_start (fuel : nat) (v bit : Z) : option Z :=
  match fuel with
  | O => None
  | S f => if v <? bit then isqrt_start f v (Z.shiftr bit 2) else Some bit
  end.

Fixpoint isqrt_loop (fuel : nat) (v res bit : Z) : option Z :=
  match fuel with
  | O => None
  | S f =>
      if bit =? 0 then Some res
      else if res + bit <=? v then isqrt_loop f (v - (res + bit)) (Z.shiftr res 1 + bit) (Z.shiftr bit 2)
      else isqrt_loop f v (Z.shiftr res 1) (Z.shiftr bit 2)
  end.

Definition isqrt (v : Z) : option Z :=
  match isqrt_start 17 v (Z.shiftl 1 30) with
  | None => None
  | Some bit => isqrt_loop 17 v 0 bit
  end.

Definition gfx_fill_circle (cx cy r color : Z) (t : tty) : option tty :=
  match for_ret (Z.to_nat (2 * r + 1)) (- r) (fun dy t =>
          let dx := s32 (s32 (r * r) - s32 (dy * dy)) in
          if dx <? 0 then inl t
          else match isqrt dx with
               | None => inr tt
               | Some dx => inl (gfx_fill_rect (s32 (cx - dx)) (s32 (cy + dy)) (dx * 2 + 1) 1 color t)
               end) t with
  | inl t => Some t
  | inr _ => None
  end.

Definition gfx_clear (color : Z) (t : tty) : tty := gfx_fill_rect 0 0 (s32 (tty_width t)) (s32 (tty_height t)) color t.

(** * Theorems *)

(** ** The integer square root *)

Lemma isqrt_start_spec fuel v k :
  0 <= v < 4 ^ (k + 1) -> -1 <= k -> k + 2 <= Z.of_nat fuel ->
  exists j, -1 <= j /\ j <= k /\ isqrt_start fuel v (if k <? 0 then 0 else 4 ^ k) = Some (if j <? 0 then 0 else 4 ^ j) /\ v < 4 ^ (j + 1).
Proof.
  revert k. induction fuel as [|f IH]; intros k Hv Hk Hf; [lia|]. cbn [isqrt_start].
  destruct (Z.ltb_spec k 0) as [Hneg|Hpos].
  - exists (-1). rewrite (proj2 (Z.ltb_ge v 0)) by lia. replace k with (-1) in * by lia. split_and!; done || lia.
  - destruct (Z.ltb_spec v (4 ^ k)) as [Hlt|Hge].
    + destruct (IH (k - 1)) as (j & H1 & H2 & H3 & H4); [rewrite Z.sub_add; lia|lia|lia|]. exists j. split_and!; try done; [lia|].
      rewrite <- H3. f_equal. rewrite Z.shiftr_div_pow2 by lia. change (2 ^ 2) with 4. destruct (Z.ltb_spec (k - 1) 0).
      * replace k with 0 by lia. done.
      * replace k with (k - 1 + 1) at 1 by lia. rewrite Z.pow_add_r, Z.pow_1_r by lia. by rewrite Z.div_mul by lia.
    + exists k. split_and!; try done; try lia. by rewrite (proj2 (Z.ltb_ge k 0)).
Qed.

(** [a]: the root found so far, [j]: the exponent of the next bit. *)
Lemma isqrt_loop_spec fuel n a j :
  -1 <= j -> j + 2 <= Z.of_nat fuel -> 0 <= a -> a * a <= n < (a + 2 ^ (j + 1)) * (a + 2 ^ (j + 1)) ->
  isqrt_loop fuel (n - a * a) (a * 2 ^ (j + 1)) (if j <? 0 then 0 else 4 ^ j) = Some (Z.sqrt n).
Proof.
  revert a j. induction fuel as [|f IH]; intros a j Hj Hf Ha Hn; [lia|]. cbn [isqrt_loop].
  destruct (Z.ltb_spec j 0) as [Hneg|Hpos].
  { replace j with (-1) in * by lia. cbn [Z.eqb]. f_equal. symmetry. change (2 ^ (-1 + 1)) with 1 in *. rewrite Z.mul_1_r.
    apply Z.sqrt_unique. lia. }
  assert (Hb : 2 ^ (j + 1) = 2 * 2 ^ j) by (rewrite Z.pow_add_r; lia).
  assert (H4 : 4 ^ j = 2 ^ j * 2 ^ j) by (rewrite <- Z.pow_mul_l; done).
  assert (Hp : 0 < 2 ^ j) by (apply Z.pow_pos_nonneg; lia).
  rewrite (proj2 (Z.eqb_neq (4 ^ j) 0)) by lia.
  assert (Hs : Z.shiftr (4 ^ j) 2 = if j - 1 <? 0 then 0 else 4 ^ (j - 1)).
  { rewrite Z.shiftr_div_pow2 by lia. change (2 ^ 2) with 4. destruct (Z.ltb_spec (j - 1) 0); [by replace j with 0 by lia|].
    replace j with (j - 1 + 1) at 1 by lia. rewrite Z.pow_add_r, Z.pow_1_r by lia. by rewrite Z.div_mul by lia. }
  assert (Hr : Z.shiftr (a * 2 ^ (j + 1)) 1 = a * 2 ^ j).
  { rewrite Z.shiftr_div_pow2 by lia. rewrite Hb. replace (a * (2 * 2 ^ j)) with (a * 2 ^ j * 2 ^ 1) by lia. by rewrite Z.div_mul by lia. }
  rewrite Hs, Hr. destruct (Z.leb_spec (a * 2 ^ (j + 1) + 4 ^ j) (n - a * a)) as [Hle|Hlt].
  - replace (n - a * a - (a * 2 ^ (j + 1) + 4 ^ j)) with (n - (a + 2 ^ j) * (a + 2 ^ j)) by lia.
    replace (a * 2 ^ j + 4 ^ j) with ((a + 2 ^ j) * 2 ^ (j - 1 + 1)) by (rewrite Z.sub_add; lia).
    apply IH; rewrite ?Z.sub_add; lia.
  - replace (a * 2 ^ j) with (a * 2 ^ (j - 1 + 1)) by (by rewrite Z.sub_add). apply IH; rewrite ?Z.sub_add; lia.
Qed.

Lemma isqrt_sound v : 0 <= v < 2 ^ 31 -> isqrt v = Some (Z.sqrt v).
Proof.
  intros Hv. unfold isqrt. change (Z.shiftl 1 30) with (if 15 <? 0 then 0 else 4 ^ 15).
  destruct (isqrt_start_spec 17 v 15) as (j & H1 & H2 & -> & H4); [lia..|].
  pose proof (isqrt_loop_spec 17 v 0 j) as Hl. rewrite Z.mul_0_l, Z.mul_0_l, Z.sub_0_r in Hl. apply Hl; try lia.
  rewrite Z.add_0_l. replace (2 ^ (j + 1) * 2 ^ (j + 1)) with (4 ^ (j + 1)) by (rewrite <- Z.pow_mul_l; done). lia.
Qed.

(** [isqrt] ends and returns the integer square root of every
    non-negative [int]. *)
Theorem isqrt_correct v : 0 <= v < 2 ^ 31 -> isqrt v = Some (Z.sqrt v).
Proof. apply isqrt_sound. Qed.

Lemma isqrt_correct_witness : isqrt 2147483647 = Some 46340.
Proof. apply (isqrt_correct 2147483647). lia. Defined.

(** ** Pixels stay in the framebuffer *)

Lemma screen_size t : tty_ok t -> s32 (tty_width t) = cols (t_mode t) * CELL_W /\ s32 (tty_height t) = rows (t_mode t) * CELL_H /\
  0 < cols (t_mode t) * CELL_W <= mode_w (t_mode t) /\ 0 < rows (t_mode t) * CELL_H <= mode_h (t_mode t).
Proof.
  intros [[_ _ H3 H4 _ _ H7 H8] _ _ _]. unfold tty_width, tty_height, CELL_W, CELL_H in *. rewrite !u32_small, !s32_small by lia. lia.
Qed.

Lemma px_address t x y :
  tty_ok t -> 0 <= x < mode_w (t_mode t) -> 0 <= y < mode_h (t_mode t) ->
  let a := tty_fb t + 4 * (y * (tty_pitch t / 4) + x) in
  u64 a = a /\ a = fb (t_mode t) + y * pitch (t_mode t) + x * (bpp (t_mode t) / 8) /\
  fb (t_mode t) <= a /\ a + 4 <= fb (t_mode t) + pitch (t_mode t) * mode_h (t_mode t).
Proof.
  intros [Hm _ _ _] Hx Hy a. destruct (pixel_address _ x y Hm Hx Hy) as (H1 & H2 & H3).
  assert (a = fb (t_mode t) + y * pitch (t_mode t) + x * (bpp (t_mode t) / 8)) as ->; [|done].
  unfold a, tty_fb, tty_pitch. pose proof (mo_pitch _ Hm) as [_ Hp]. rewrite (mo_bpp _ Hm). change (32 / 8) with 4.
  assert (Hd : pitch (t_mode t) = 4 * (pitch (t_mode t) / 4)) by lia. set (q := pitch (t_mode t) / 4) in *. rewrite Hd. lia.
Qed.

Lemma px_step x y color t :
  tty_ok t -> 0 <= x < s32 (tty_width t) -> 0 <= y < s32 (tty_height t) -> tty_step t (px x y color t).
Proof.
  intros Ht Hx Hy. destruct (screen_size t Ht) as (E1 & E2 & E3 & E4). rewrite E1 in Hx. rewrite E2 in Hy.
  destruct (px_address t x y Ht) as (Hu & _ & Ha & Hb); [lia..|]. apply drawn_step; [done|].
  eexists. split; [done|]. intros z Hz. unfold store32. apply store_other. rewrite Hu. change (Z.of_nat 4) with 4. lia.
Qed.

Lemma step_size t t' : tty_step t t' -> tty_width t' = tty_width t /\ tty_height t' = tty_height t.
Proof. intros (_ & H & _). unfold tty_width, tty_height. by rewrite H. Qed.

(** ** Lines *)

Lemma line_point fuel dx dy sx sy x1 y1 color x0 y0 err t :
  tty_ok t -> exists t1, tty_step t t1 /\
  line_loop (S fuel) dx dy sx sy x1 y1 color x0 y0 err t =
    if (x0 =? x1) && (y0 =? y1) then Some t1
    else
      let e2 := s32 (err * 2) in
      let '(err, x0) := if - dy <? e2 then (s32 (err - dy), s32 (x0 + sx)) else (err, x0) in
      let '(err, y0) := if e2 <? dx then (s32 (err + dx), s32 (y0 + sy)) else (err, y0) in
      line_loop fuel dx dy sx sy x1 y1 color x0 y0 err t1.
Proof.
  intros Ht. eexists. split; [|reflexivity]. destruct (_ && _) eqn:E; [|by apply tty_step_refl].
  bool_hyps. by apply px_step.
Qed.

(** The state of the loop after [a] steps along x and [b] along y. *)
Definition on_line (dx dy a b err : Z) : Prop :=
  0 <= a <= dx /\ 0 <= b <= dy /\ err = dx * (b + 1) - dy * (a + 1).

Section Line.
Variables (X Y dx dy sx sy color : Z).
Hypothesis Hdx : 0 <= dx < 2 ^ 29.
Hypothesis Hdy : 0 <= dy < 2 ^ 29.
Hypothesis Hsx : sx = 1 \/ sx = -1.
Hypothesis Hsy : sy = 1 \/ sy = -1.
Hypothesis HX : - 2 ^ 30 <= X <= 2 ^ 30.
Hypothesis HY : - 2 ^ 30 <= Y <= 2 ^ 30.

Definition line_from (fuel : nat) (a b err : Z) (t : tty) : option tty :=
  line_loop fuel dx dy sx sy (X + sx * dx) (Y + sy * dy) color (X + sx * a) (Y + sy * b) err t.

(** One turn, when the point is not the last one. *)
Lemma line_turn fuel a b err t :
  tty_ok t -> on_line dx dy a b err -> - 2 ^ 30 <= err < 2 ^ 30 -> a <> dx \/ b <> dy ->
  exists t1, tty_step t t1 /\
    line_from (S fuel) a b err t =
    let i := if - dy <? err * 2 then 1 else 0 in
    let j := if err * 2 <? dx then 1 else 0 in
    line_from fuel (a + i) (b + j) (err - i * dy + j * dx) t1.
Proof.
  intros Ht (Ha & Hb & He) Herr Hne. unfold line_from.
  destruct (line_point fuel dx dy sx sy (X + sx * dx) (Y + sy * dy) color (X + sx * a) (Y + sy * b) err t Ht) as (t1 & H1 & ->).
  exists t1. split; [exact H1|].
  assert ((X + sx * a =? X + sx * dx) && (Y + sy * b =? Y + sy * dy) = false) as ->.
  { apply andb_false_iff. destruct Hne; [left|right]; apply Z.eqb_neq; destruct Hsx, Hsy; subst; lia. }
  cbv zeta. rewrite (s32_small (err * 2)) by lia.
  assert (s32 (X + sx * a + sx) = X + sx * (a + 1)) as Ex by (rewrite s32_small; destruct Hsx; subst; lia).
  assert (s32 (Y + sy * b + sy) = Y + sy * (b + 1)) as Ey by (rewrite s32_small; destruct Hsy; subst; lia).
  destruct (- dy <? err * 2), (err * 2 <? dx); rewrite ?Ex, ?Ey, ?(s32_small (err - dy)), ?(s32_small (err + dx)) by lia;
    rewrite ?s32_small by lia; f_equal; lia.
Qed.

Lemma line_done fuel err t : tty_ok t -> exists t', line_from (S fuel) dx dy err t = Some t' /\ tty_step t t'.
Proof.
  intros Ht. unfold line_from.
  destruct (line_point fuel dx dy sx sy (X + sx * dx) (Y + sy * dy) color (X + sx * dx) (Y + sy * dy) err t Ht) as (t1 & H1 & ->).
  rewrite !Z.eqb_refl. eauto.
Qed.

(** A line at most as steep as the diagonal steps along x every turn. *)
Lemma line_flat fuel a b err t :
  tty_ok t -> dy <= dx -> 0 < dx -> on_line dx dy a b err -> - dy < 2 * err < 3 * dx - 2 * dy -> dx - a < Z.of_nat fuel ->
  exists t', line_from fuel a b err t = Some t' /\ tty_step t t'.
Proof.
  intros Ht Hle Hpos. revert a b err t Ht. induction fuel as [|f IH]; intros a b err t Ht Hl He Hf; [destruct Hl; lia|].
  destruct (decide (a = dx)) as [->|Hne].
  - assert (b = dy) as -> by (destruct Hl as (_ & Hb & ->); nia). by apply line_done.
  - destruct (line_turn f a b err t Ht Hl) as (t1 & H1 & ->); [lia|by left|]. pose proof Hl as (Ha & Hb & Herr). cbv zeta.
    rewrite (proj2 (Z.ltb_lt (- dy) _)) by lia.
    destruct (Z.ltb_spec (err * 2) dx) as [Hlt|Hge].
    + destruct (IH (a + 1) (b + 1) (err - 1 * dy + 1 * dx) t1) as (t' & -> & H2); [apply H1| |lia|lia|].
      * split; [lia|]. split; [|lia]. subst err. nia.
      * exists t'. split; [done|]. by eapply tty_step_trans.
    + destruct (IH (a + 1) (b + 0) (err - 1 * dy + 0 * dx) t1) as (t' & -> & H2); [apply H1| |lia|lia|].
      * split; [lia|]. split; [lia|]. subst err. lia.
      * exists t'. split; [done|]. by eapply tty_step_trans.
Qed.

(** A steeper line steps along y every turn. *)
Lemma line_steep fuel a b err t :
  tty_ok t -> dx < dy -> on_line dx dy a b err -> 2 * dx - 3 * dy < 2 * err < dx -> dy - b < Z.of_nat fuel ->
  exists t', line_from fuel a b err t = Some t' /\ tty_step t t'.
Proof.
  intros Ht Hle. revert a b err t Ht. induction fuel as [|f IH]; intros a b err t Ht Hl He Hf; [destruct Hl; lia|].
  destruct (decide (b = dy)) as [->|Hne].
  - assert (a = dx) as -> by (destruct Hl as (Ha & _ & ->); nia). by apply line_done.
  - destruct (line_turn f a b err t Ht Hl) as (t1 & H1 & ->); [lia|by right|]. pose proof Hl as (Ha & Hb & Herr). cbv zeta.
    rewrite (proj2 (Z.ltb_lt _ dx)) by lia.
    destruct (Z.ltb_spec (- dy) (err * 2)) as [Hlt|Hge].
    + destruct (IH (a + 1) (b + 1) (err - 1 * dy + 1 * dx) t1) as (t' & -> & H2); [apply H1| |lia|lia|].
      * split; [|split; [lia|subst err; lia]]. subst err. nia.
      * exists t'. split; [done|]. by eapply tty_step_trans.
    + destruct (IH (a + 0) (b + 1) (err - 0 * dy + 1 * dx) t1) as (t' & -> & H2); [apply H1| |lia|lia|].
      * split; [lia|]. split; [lia|]. subst err. lia.
      * exists t'. split; [done|]. by eapply tty_step_trans.
Qed.

Lemma line_reaches fuel t :
  tty_ok t -> Z.max dx dy < Z.of_nat fuel -> exists t', line_from fuel 0 0 (dx - dy) t = Some t' /\ tty_step t t'.
Proof.
  intros Ht Hf. assert (on_line dx dy 0 0 (dx - dy)) as Hl by (unfold on_line; lia).
  destruct (Z.lt_ge_cases dx dy) as [Hlt|Hge]; [apply line_steep; try done; lia|].
  destruct (Z.lt_ge_cases 0 dx) as [Hp|Hz]; [apply line_flat; try done; lia|].
  destruct fuel as [|f]; [lia|]. assert (line_from (S f) 0 0 (dx - dy) t = line_from (S f) dx dy (dx - dy) t) as -> by (f_equal; lia).
  by apply line_done.
Qed.
End Line.

(** Drawing a line ends, after [max |x1 - x0| |y1 - y0| + 1] points, for
    all end points within a quarter of the [int] range, and touches no memory
    outside the framebuffer. *)
Theorem gfx_line_total x0 y0 x1 y1 color t :
  let bound := 2 ^ 28 in
  - bound <= x0 < bound -> - bound <= y0 < bound -> - bound <= x1 < bound -> - bound <= y1 < bound -> tty_ok t ->
  exists t', gfx_line (S (Z.to_nat (Z.max (Z.abs (x1 - x0)) (Z.abs (y1 - y0))))) x0 y0 x1 y1 color t = Some t' /\
    tty_ok t' /\ confined (t_mode t) (t_fbm t) (t_fbm t').
Proof.
  cbv zeta. intros H1 H2 H3 H4 Ht. unfold gfx_line. rewrite (s32_small (x1 - x0)), (s32_small (y1 - y0)) by lia.
  set (sx := if 0 <? x1 - x0 then 1 else -1). set (sy := if 0 <? y1 - y0 then 1 else -1).
  assert ((if x1 - x0 <? 0 then s32 (- (x1 - x0)) else x1 - x0) = Z.abs (x1 - x0)) as -> by (ifs; rewrite ?s32_small; lia).
  assert ((if y1 - y0 <? 0 then s32 (- (y1 - y0)) else y1 - y0) = Z.abs (y1 - y0)) as -> by (ifs; rewrite ?s32_small; lia).
  rewrite s32_small by lia.
  destruct (line_reaches x0 y0 (Z.abs (x1 - x0)) (Z.abs (y1 - y0)) sx sy color) with
    (fuel := S (Z.to_nat (Z.max (Z.abs (x1 - x0)) (Z.abs (y1 - y0))))) (t := t) as (t' & E & Hs & _ & Hc);
    [lia|lia|unfold sx; ifs; lia|unfold sy; ifs; lia|lia|lia|done|lia|].
  exists t'. split; [|done]. rewrite <- E. unfold line_from. f_equal; unfold sx, sy; ifs; lia.
Qed.

(** ** Rectangles *)

Definition pixel (t : tty) (x y : Z) : Z := load32 (t_fbm t) (tty_fb t + 4 * (y * (tty_pitch t / 4) + x)).
Definition on_screen (t : tty) (x y : Z) : Prop := 0 <= x < s32 (tty_width t) /\ 0 <= y < s32 (tty_height t).

Lemma row_order q x y a b : 0 <= x < q -> 0 <= a -> 0 <= y < b -> y * q + x + 1 <= b * q + a.
Proof. intros Hx Ha Hy. assert ((y + 1) * q <= b * q) by (apply Z.mul_le_mono_nonneg_r; lia). lia. Qed.

Lemma px_pixel a b color t x y :
  tty_ok t -> on_screen t a b -> on_screen t x y ->
  pixel (px a b color t) x y = if (x =? a) && (y =? b) then u32 color else pixel t x y.
Proof.
  intros Ht [Ha Hb] [Hx Hy]. destruct (screen_size t Ht) as (E1 & E2 & E3 & E4). rewrite E1 in Ha, Hx. rewrite E2 in Hb, Hy.
  destruct (px_address t a b Ht) as (Hu & _); [lia..|]. unfold pixel, px. cbn [set_fbm t_fbm].
  change (tty_fb (set_fbm _ t)) with (tty_fb t). change (tty_pitch (set_fbm _ t)) with (tty_pitch t). rewrite Hu.
  pose proof (mo_pitch _ (tk_mode _ Ht)) as [Hp1 Hp2]. fold (tty_pitch t) in Hp1, Hp2. set (q := tty_pitch t / 4) in *.
  assert (mode_w (t_mode t) <= q) by (unfold q; lia).
  destruct (Z.lt_trichotomy y b) as [Hyb|[->|Hyb]].
  - rewrite (proj2 (Z.eqb_neq y b)), andb_false_r by lia. pose proof (row_order q x y a b ltac:(lia) ltac:(lia) ltac:(lia)).
    apply load_store_other. unfold apart. lia.
  - rewrite Z.eqb_refl, andb_true_r. destruct (Z.eqb_spec x a) as [->|]; [apply load32_store32_same|].
    apply load_store_other. unfold apart. lia.
  - rewrite (proj2 (Z.eqb_neq y b)), andb_false_r by lia. pose proof (row_order q a b x y ltac:(lia) ltac:(lia) ltac:(lia)).
    apply load_store_other. unfold apart. lia.
Qed.

Lemma step_on_screen t t' x y : tty_step t t' -> on_screen t x y -> on_screen t' x y.
Proof. intros Hs. destruct (step_size _ _ Hs) as [E1 E2]. unfold on_screen. by rewrite E1, E2. Qed.

(** [t'] is [t] with the pixels in the box painted. *)
Definition painted (x0 x1 y0 y1 color : Z) (t t' : tty) : Prop :=
  tty_step t t' /\ forall x y, on_screen t x y ->
    pixel t' x y = if (x0 <=? x) && (x <? x1) && (y0 <=? y) && (y <? y1) then u32 color else pixel t x y.

Lemma painted_empty x y y' color t : tty_ok t -> painted x x y y' color t t.
Proof. intros Ht. split; [by apply tty_step_refl|]. intros i j _. ifs; [lia|done]. Qed.

Lemma row_painted n x0 y color t :
  tty_ok t -> 0 <= x0 -> x0 + Z.of_nat n <= s32 (tty_width t) -> 0 <= y < s32 (tty_height t) ->
  painted x0 (x0 + Z.of_nat n) y (y + 1) color t (for_range n x0 (fun xx t => px xx y color t) t).
Proof.
  intros Ht Hx Hn Hy. apply (for_range_ind (fun i t' => painted x0 i y (y + 1) color t t')); [by apply painted_empty|].
  intros k t' Hk [Hs Hp]. assert (on_screen t k y) as Hk' by (split; lia). pose proof (step_on_screen _ _ _ _ Hs Hk') as [G1 G2].
  split; [eapply tty_step_trans; [exact Hs|]; apply px_step; [apply Hs|done|done]|].
  intros i j Hij. rewrite px_pixel; [|apply Hs|done|by eapply step_on_screen]. rewrite Hp by done. ifs; try done; lia.
Qed.

Lemma block_painted m n x0 y0 color t :
  tty_ok t -> 0 <= x0 -> x0 + Z.of_nat n <= s32 (tty_width t) -> 0 <= y0 -> y0 + Z.of_nat m <= s32 (tty_height t) ->
  painted x0 (x0 + Z.of_nat n) y0 (y0 + Z.of_nat m) color t
    (for_range m y0 (fun yy t => for_range n x0 (fun xx t => px xx yy color t) t) t).
Proof.
  intros Ht Hx Hn Hy Hm. apply (for_range_ind (fun j t' => painted x0 (x0 + Z.of_nat n) y0 j color t t')).
  { split; [by apply tty_step_refl|]. intros i j _. ifs; [lia|done]. }
  intros k t' Hk [Hs Hp]. destruct (step_size _ _ Hs) as [E1 E2].
  destruct (row_painted n x0 k color t') as [Hs' Hp']; [apply Hs|done|by rewrite E1|rewrite E2; lia|].
  split; [by eapply tty_step_trans|]. intros i j Hij. rewrite Hp', Hp by (done || by eapply step_on_screen). ifs; try done; lia.
Qed.

(** [x] clamped to the screen. *)
Lemma clamp_range t x : tty_ok t -> clamp_x x t = Z.max 0 (Z.min x (s32 (tty_width t) - 1)) /\ clamp_y x t = Z.max 0 (Z.min x (s32 (tty_height t) - 1)).
Proof. intros Ht. destruct (screen_size t Ht) as (E1 & E2 & E3 & E4). unfold clamp_x, clamp_y. rewrite E1, E2. split; ifs; lia. Qed.

Lemma fill_rect_painted x y w h color t :
  tty_ok t -> 0 < w -> 0 < h ->
  painted (clamp_x x t) (Z.max (clamp_x x t) (clamp_x (s32 (x + w - 1)) t + 1)) (clamp_y y t) (Z.max (clamp_y y t) (clamp_y (s32 (y + h - 1)) t + 1))
    color t (gfx_fill_rect x y w h color t).
Proof.
  intros Ht Hw Hh. unfold gfx_fill_rect. rewrite (proj2 (Z.leb_gt w 0)), (proj2 (Z.leb_gt h 0)) by lia. cbn [orb].
  destruct (screen_size t Ht) as (E1 & E2 & E3 & E4).
  destruct (clamp_range t x Ht) as [Cx _], (clamp_range t (s32 (x + w - 1)) Ht) as [Cx1 _].
  destruct (clamp_range t y Ht) as [_ Cy], (clamp_range t (s32 (y + h - 1)) Ht) as [_ Cy1].
  set (x0 := clamp_x x t) in *. set (y0 := clamp_y y t) in *. set (x1 := clamp_x (s32 _) t) in *. set (y1 := clamp_y (s32 _) t) in *.
  pose proof (block_painted (Z.to_nat (y1 - y0 + 1)) (Z.to_nat (x1 - x0 + 1)) x0 y0 color t Ht) as Hb.
  replace (Z.max x0 (x1 + 1)) with (x0 + Z.of_nat (Z.to_nat (x1 - x0 + 1))) by lia.
  replace (Z.max y0 (y1 + 1)) with (y0 + Z.of_nat (Z.to_nat (y1 - y0 + 1))) by lia. apply Hb; lia.
Qed.

(** A rectangle that meets the screen is drawn exactly: its pixels on the
    screen take the colour, no other pixel changes, and no memory outside the
    framebuffer is touched. *)
Theorem gfx_fill_rect_exact x y w h color t :
  tty_ok t -> 0 < w -> 0 < h -> - 2 ^ 31 <= x < s32 (tty_width t) -> - 2 ^ 31 <= y < s32 (tty_height t) ->
  0 < x + w <= 2 ^ 31 -> 0 < y + h <= 2 ^ 31 ->
  let t' := gfx_fill_rect x y w h color t in
  confined (t_mode t) (t_fbm t) (t_fbm t') /\
  forall i j, on_screen t i j ->
    pixel t' i j = if (x <=? i) && (i <? x + w) && (y <=? j) && (j <? y + h) then u32 color else pixel t i j.
Proof.
  intros Ht Hw Hh Hx Hy Hxw Hyh t'. destruct (fill_rect_painted x y w h color t Ht Hw Hh) as [Hs Hp]. fold t' in Hs, Hp.
  split; [apply Hs|]. intros i j Hij. rewrite Hp by done. destruct Hij as [Hi Hj].
  destruct (clamp_range t x Ht) as [-> _], (clamp_range t (s32 (x + w - 1)) Ht) as [-> _].
  destruct (clamp_range t y Ht) as [_ ->], (clamp_range t (s32 (y + h - 1)) Ht) as [_ ->].
  rewrite (s32_small (x + w - 1)), (s32_small (y + h - 1)) by lia. match goal with |- (if ?a then _ else _) = (if ?b then _ else _) => assert (a = b) as -> end; [|done].
  apply eq_true_iff_eq. rewrite !andb_true_iff, !Z.leb_le, !Z.ltb_lt. lia.
Qed.

(** Every rectangle, whatever its arguments, stays in the framebuffer. *)
Lemma fill_rect_step x y w h color t : tty_ok t -> tty_step t (gfx_fill_rect x y w h color t).
Proof.
  intros Ht. destruct (decide (0 < w /\ 0 < h)) as [[Hw Hh]|Hn]; [by apply fill_rect_painted|].
  unfold gfx_fill_rect. assert ((w <=? 0) || (h <=? 0) = true) as -> by (apply orb_true_iff; rewrite !Z.leb_le; lia). by apply tty_step_refl.
Qed.

Lemma rect_step x y w h color t : tty_ok t -> tty_step t (gfx_rect x y w h color t).
Proof.
  intros Ht. unfold gfx_rect. destruct (_ || _); [by apply tty_step_refl|].
  pose proof (fill_rect_step x y w 1 color t Ht) as H1. eapply tty_step_trans; [exact H1|]. destruct H1 as [H1 _].
  pose proof (fill_rect_step x (s32 (y + h - 1)) w 1 color _ H1) as H2. eapply tty_step_trans; [exact H2|]. destruct H2 as [H2 _].
  pose proof (fill_rect_step x y 1 h color _ H2) as H3. eapply tty_step_trans; [exact H3|]. apply fill_rect_step, H3.
Qed.

Lemma fill_circle_step cx cy r color t :
  tty_ok t -> exists t', gfx_fill_circle cx cy r color t = Some t' /\ tty_step t t'.
Proof.
  intros Ht. unfold gfx_fill_circle.
  match goal with |- context [for_ret ?n ?i ?f t] => set (body := f); pose proof (for_ret_ind (fun _ x => tty_step t x) (fun _ : unit => False) n i body t) as Hi end.
  destruct (for_ret _ _ body t) as [t'|]; [exists t'; split; [done|]|exfalso]; (apply Hi; clear Hi; [by apply tty_step_refl|]);
    intros k x _ Hx; unfold body; set (dx := s32 (_ - _)); pose proof (s32_range (s32 (r * r) - s32 (k * k))); fold dx in H;
    (destruct (Z.ltb_spec dx 0); [done|]); rewrite isqrt_sound by lia; (eapply tty_step_trans; [exact Hx|]); apply fill_rect_step, Hx.
Qed.

(** ** Witnesses and examples *)

Lemma gfx_fill_rect_exact_witness : pixel (gfx_fill_rect (-2) 1 5 3 0xFF0000 demo_tty) 2 3 = 0xFF0000.
Proof.
  destruct (gfx_fill_rect_exact (-2) 1 5 3 0xFF0000 demo_tty demo_tty_ok) as [_ H]; [lia|lia|by vm_compute..|lia|lia|].
  rewrite H by (by vm_compute). reflexivity.
Defined.

Lemma gfx_line_total_witness : exists t', gfx_line 11 (-3) 2 7 5 0xFF demo_tty = Some t' /\ tty_ok t'.
Proof.
  destruct (gfx_line_total (-3) 2 7 5 0xFF demo_tty) as (t' & H1 & H2 & _); [lia..|exact demo_tty_ok|].
  exists t'. split; [exact H1|exact H2].
Defined.

(** A rectangle entirely left of the screen paints the first column: the
    corners are clamped, the rectangle is not clipped. *)
Example rect_off_screen_paints_edge : pixel (gfx_fill_rect (-20) 0 10 1 0xFF demo_tty) 0 0 = 0xFF.
Proof. by vm_compute. Qed.

(** A circle that leaves the screen writes outside the framebuffer. *)
Example circle_unclipped :
  match gfx_circle 4 0 3 0x55 demo_tty with Some t => t_fbm t (4096 - 3 * 512 + 4 * 4) = 0x55 | None => False end.
Proof. by vm_compute. Qed.
