(* ===== verification/Kbd.v ===== *)
(** * Keyboard (kernel/src/drivers/kbd.c)

    The ring buffer between the interrupt handler and readers.  The handler
    is given what it reads from the ports: the status byte and the scan code.
    [kbd_getchar] is a sequence of turns, each ending where the CPU is halted
    until an interrupt or given to another task. *)
From S2P Require Import Prelude Mem FrameAlloc Pmm Task Sched.

Definition KB_BUFFER_SIZE : Z := 128.

Record kbd := mkKbd {
  kb_buf : list Z;
  kb_head : Z;
  kb_tail : Z;
  k_shift : bool;
  k_ctrl : bool;
}.

Definition kbd0 : kbd := mkKbd (replicate 128 0) 0 0 false false.

(** The keys in order; the codes after the last are not assigned. *)
Definition scancode_map : list Z :=
  [0; 0] ++ bs "1234567890-=" ++ [8; 9] ++ bs "qwertyuiop[]" ++ [10; 0] ++ bs "asdfghjkl;'`" ++ [0; 92] ++ bs "zxcvbnm,./" ++
  [0; 42; 0; 32; 0] ++ replicate 69 0.

(** The shifted keys that are not letters. *)
Definition shifted : list (Z * Z) := zip (bs "1234567890-=[]\;',./`") (bs "!@#$%^&*()_+{}|:" ++ [34] ++ bs "<>?~").

Fixpoint assoc (d : Z) (l : list (Z * Z)) (c : Z) : Z :=
  match l with
  | [] => d
  | (a, b) :: r => if c =? a then b else assoc d r c
  end.

Definition translate (sc : Z) (k : kbd) : Z :=
  let c := znth 0 scancode_map sc in
  if (97 <=? c) && (c <=? 122) && negb (k_shift k) then c
  else if (97 <=? c) && (c <=? 122) && k_shift k then c - 97 + 65
  else if k_shift k then assoc c shifted c
  else c.

Definition buf_push (c : Z) (k : kbd) : kbd :=
  let next := (kb_head k + 1) mod KB_BUFFER_SIZE in
  if next =? kb_tail k then k
  else mkKbd (zinsert (kb_head k) c (kb_buf k)) next (kb_tail k) (k_shift k) (k_ctrl k).

(** The body of the loop of [raise_sigint] for slot [i]. *)
Definition sigint_slot (fg : Z) (i : Z) (s : sched) : sched :=
  let t := task_at s i in
  if state_eqb (t_state t) TASK_FREE || (t_pid t <? 1) || negb (t_pgid t =? fg) then s
  else
    let s := upd_task i (set_sig_pending (Z.lor (t_sig_pending t) (u32 (Z.shiftl 1 SIGINT)))) s in
    if state_eqb (t_state t) TASK_BLOCKED && negb (t_wait_pipe t =? 0)
    then sched_wake i (upd_task i (set_wait_pipe 0) s) else s.

(** [fg] is the foreground process group of the console. *)
Definition raise_sigint (fg : Z) (k : kbd) (s : sched) : kbd * sched :=
  (mkKbd (kb_buf k) (kb_tail k) (kb_tail k) (k_shift k) (k_ctrl k), for_range (Z.to_nat MAX_TASKS) 0 (sigint_slot fg) s).

Definition kbd_interrupt (status sc fg : Z) (k : kbd) (s : sched) : kbd * sched :=
  let modifiers shift ctrl := (mkKbd (kb_buf k) (kb_head k) (kb_tail k) shift ctrl, s) in
  if Z.land status 1 =? 0 then (k, s)
  else if (sc =? 0x2A) || (sc =? 0x36) then modifiers true (k_ctrl k)
  else if (sc =? 0xAA) || (sc =? 0xB6) then modifiers false (k_ctrl k)
  else if sc =? 0x1D then modifiers (k_shift k) true
  else if sc =? 0x9D then modifiers (k_shift k) false
  else if negb (Z.land sc 0x80 =? 0) then (k, s)
  else if sc =? 0xE0 then (k, s)
  else
    let c := translate (Z.land sc 0x7F) k in
    if c =? 0 then (k, s)
    else if k_ctrl k && ((c =? 99) || (c =? 67)) then raise_sigint fg k s
    else (buf_push c k, s).

Definition kbd_usb_push (c : Z) (k : kbd) : kbd := buf_push c k.

Definition kbd_poll (k : kbd) : option Z * kbd :=
  if kb_head k =? kb_tail k then (None, k)
  else (Some (znth 0 (kb_buf k) (kb_tail k)),
        mkKbd (kb_buf k) (kb_head k) ((kb_tail k + 1) mod KB_BUFFER_SIZE) (k_shift k) (k_ctrl k)).

(** How a turn of [kbd_getchar] ends: with a character (or -1 for an
    interrupted wait), with another task on the CPU, or halted. *)
Inductive getchar := GcReturn (c : Z) | GcPark | GcHalt.

(** From the poll on: where a task that lost the CPU goes on. *)
Definition kbd_getchar_poll (k : kbd) : getchar * kbd :=
  match kbd_poll k with
  | (Some c, k) => (GcReturn (u8 c), k)
  | (None, k) => (GcHalt, k)
  end.

(** A turn from the head of the loop. *)
Definition kbd_getchar_turn (kp : Z) (k : kbd) (s : sched) : getchar * kbd * sched :=
  let interrupted := match sched_get_current s with Some c => negb (t_sig_pending (task_at s c) =? 0) | None => false end in
  if interrupted then (GcReturn (-1), k, s)
  else if g_resched_requested s then
    let s' := sched_yield kp (set_resched false s) in
    if bool_decide (current s' = current s) then (kbd_getchar_poll k, s') else (GcPark, k, s')
  else (kbd_getchar_poll k, s).

(** * Theorems *)

(** The characters waiting, oldest first. *)
Fixpoint kb_chars (n : nat) (i : Z) (buf : list Z) : list Z :=
  match n with
  | O => []
  | S n' => znth 0 buf i :: kb_chars n' ((i + 1) mod KB_BUFFER_SIZE) buf
  end.
Definition kb_count (k : kbd) : Z := (kb_head k - kb_tail k) mod KB_BUFFER_SIZE.
Definition waiting (k : kbd) : list Z := kb_chars (Z.to_nat (kb_count k)) (kb_tail k) (kb_buf k).

Record kbd_ok (k : kbd) : Prop := {
  kk_buf : zlen (kb_buf k) = KB_BUFFER_SIZE;
  kk_head : 0 <= kb_head k < KB_BUFFER_SIZE;
  kk_tail : 0 <= kb_tail k < KB_BUFFER_SIZE;
}.

Example scancode_map_size : length scancode_map = 128%nat /\ length shifted = 21%nat.
Proof. by vm_compute. Qed.
Example translate_examples :
  let k := mkKbd [] 0 0 true false in
  (translate 0x1E kbd0, translate 0x1E k, translate 0x02 k, translate 0x1C kbd0, translate 0x28 k, translate 0x39 kbd0) = (97, 65, 33, 10, 34, 32).
Proof. by vm_compute. Qed.

Lemma kb_chars_insert n i buf j c :
  zlen buf = KB_BUFFER_SIZE -> 0 <= i < KB_BUFFER_SIZE -> 0 <= j < KB_BUFFER_SIZE -> Z.of_nat n <= (j - i) mod KB_BUFFER_SIZE ->
  kb_chars n i (zinsert j c buf) = kb_chars n i buf.
Proof.
  intros Hl. revert i. induction n as [|n IH]; intros i Hi Hj Hn; [done|]. cbn [kb_chars]. unfold KB_BUFFER_SIZE in *.
  rewrite znth_zinsert_ne by lia. f_equal. apply IH; lia.
Qed.

Lemma kb_chars_snoc n i buf :
  0 <= i < KB_BUFFER_SIZE -> kb_chars (S n) i buf = kb_chars n i buf ++ [znth 0 buf ((i + Z.of_nat n) mod KB_BUFFER_SIZE)].
Proof.
  revert i. induction n as [|n IH]; intros i Hi.
  - cbn [kb_chars app]. do 2 f_equal. unfold KB_BUFFER_SIZE in *. lia.
  - change (kb_chars (S (S n)) i buf) with (znth 0 buf i :: kb_chars (S n) ((i + 1) mod KB_BUFFER_SIZE) buf).
    rewrite IH by (unfold KB_BUFFER_SIZE; lia). cbn [kb_chars app]. do 4 f_equal. unfold KB_BUFFER_SIZE in *. lia.
Qed.

Lemma kb_chars_length n i buf : length (kb_chars n i buf) = n.
Proof. revert i. induction n; intros i; cbn; auto. Qed.

Lemma buf_push_ok c k : kbd_ok k -> kbd_ok (buf_push c k).
Proof.
  intros [H1 H2 H3]. unfold buf_push. destruct (_ =? _); [done|]. split; cbn; [by rewrite zlen_insert| |done]. unfold KB_BUFFER_SIZE. lia.
Qed.

Lemma kbd_poll_ok k : kbd_ok k -> kbd_ok (kbd_poll k).2.
Proof.
  intros [H1 H2 H3]. unfold kbd_poll. destruct (_ =? _); [done|]. split; cbn; [done|done|]. unfold KB_BUFFER_SIZE. lia.
Qed.

(** The ring is a queue of at most 127 characters: a push appends unless
    the queue is full, and then drops the new character; a poll takes the
    oldest character, and finds none only when the queue is empty. *)
Theorem kbd_ring_fifo c k :
  kbd_ok k ->
  waiting (buf_push c k) = (if zlen (waiting k) =? 127 then waiting k else waiting k ++ [c]) /\
  (kbd_poll k).1 = head (waiting k) /\ waiting (kbd_poll k).2 = tail (waiting k) /\ zlen (waiting k) <= 127.
Proof.
  intros [H1 H2 H3].
  assert (zlen (waiting k) = kb_count k) as Hlen by (unfold zlen, waiting, kb_count, KB_BUFFER_SIZE; rewrite kb_chars_length; lia).
  assert (0 <= kb_count k <= 127) as Hr by (unfold kb_count, KB_BUFFER_SIZE; lia). rewrite Hlen. split_and!; [| | |lia].
  - unfold buf_push. destruct (Z.eqb_spec ((kb_head k + 1) mod KB_BUFFER_SIZE) (kb_tail k)) as [E|E].
    + assert (kb_count k = 127) as -> by (unfold kb_count, KB_BUFFER_SIZE in *; lia). done.
    + rewrite (proj2 (Z.eqb_neq _ _)) by (unfold kb_count, KB_BUFFER_SIZE in *; lia). unfold waiting. cbn [kb_tail kb_buf].
      set (k' := mkKbd _ _ _ _ _). assert (kb_count k' = kb_count k + 1) as -> by (unfold kb_count, k', KB_BUFFER_SIZE in *; cbn; lia).
      replace (Z.to_nat (kb_count k + 1)) with (S (Z.to_nat (kb_count k))) by lia. rewrite kb_chars_snoc by done.
      rewrite Z2Nat.id by lia. f_equal; [apply kb_chars_insert; try done; unfold kb_count in *; lia|].
      assert ((kb_tail k + kb_count k) mod KB_BUFFER_SIZE = kb_head k) as -> by (unfold kb_count, KB_BUFFER_SIZE in *; lia).
      rewrite znth_zinsert_eq; [done|lia].
  - unfold kbd_poll, waiting. destruct (Z.eqb_spec (kb_head k) (kb_tail k)) as [E|E]; cbn [fst].
    + assert (kb_count k = 0) as -> by (unfold kb_count, KB_BUFFER_SIZE; lia). done.
    + destruct (Z.to_nat (kb_count k)) eqn:En; [unfold kb_count, KB_BUFFER_SIZE in *; lia|done].
  - unfold kbd_poll, waiting. destruct (Z.eqb_spec (kb_head k) (kb_tail k)) as [E|E]; cbn [snd kb_tail kb_buf].
    + assert (kb_count k = 0) as -> by (unfold kb_count, KB_BUFFER_SIZE; lia). done.
    + set (k' := mkKbd _ _ _ _ _). assert (kb_count k = kb_count k' + 1) as E' by (unfold kb_count, k', KB_BUFFER_SIZE in *; cbn; lia).
      rewrite E'. replace (Z.to_nat (kb_count k' + 1)) with (S (Z.to_nat (kb_count k'))) by (unfold kb_count, KB_BUFFER_SIZE; lia). done.
Qed.

Lemma kbd_ring_fifo_witness : waiting (buf_push 98 (buf_push 97 kbd0)) = [97; 98].
Proof.
  destruct (kbd_ring_fifo 98 (buf_push 97 kbd0)) as [H _]; [by split; vm_compute|]. rewrite H. reflexivity.
Defined.

(** ** Ctrl+C *)

(** What Ctrl+C does to one task. *)
Definition interrupted_by (fg : Z) (t : task) : task :=
  if state_eqb (t_state t) TASK_FREE || (t_pid t <? 1) || negb (t_pgid t =? fg) then t
  else
    let t' := set_sig_pending (Z.lor (t_sig_pending t) (2 ^ SIGINT)) t in
    if state_eqb (t_state t) TASK_BLOCKED && negb (t_wait_pipe t =? 0)
    then (if t_zombie t then set_wait_pipe 0 t' else set_state TASK_READY (set_wait_pipe 0 t')) else t'.

Lemma sigint_slot_spec fg i s : sched_wf s -> slot_ok i ->
  sched_wf (sigint_slot fg i s) /\ current (sigint_slot fg i s) = current s /\ next_pid (sigint_slot fg i s) = next_pid s /\
  forall j, slot_ok j -> task_at (sigint_slot fg i s) j = if j =? i then interrupted_by fg (task_at s i) else task_at s j.
Proof.
  intros Hwf Hi. unfold sigint_slot, interrupted_by. set (t := task_at s i).
  destruct (state_eqb (t_state t) TASK_FREE || (t_pid t <? 1) || negb (t_pgid t =? fg)).
  { split_and!; try done. intros j Hj. by destruct (Z.eqb_spec j i) as [->|]. }
  change (u32 (Z.shiftl 1 SIGINT)) with (2 ^ SIGINT).
  set (s1 := upd_task i (set_sig_pending (Z.lor (t_sig_pending t) (2 ^ SIGINT))) s).
  assert (sched_wf s1) as Hwf1 by (by apply upd_task_wf).
  assert (forall j, task_at s1 j = if j =? i then set_sig_pending (Z.lor (t_sig_pending t) (2 ^ SIGINT)) t else task_at s j) as H1.
  { intros j. unfold s1. by rewrite task_at_upd. }
  destruct (state_eqb (t_state t) TASK_BLOCKED) eqn:Eb; cbn [andb]; [|split_and!; auto].
  destruct (negb (t_wait_pipe t =? 0)); [|split_and!; auto].
  set (s2 := upd_task i (set_wait_pipe 0) s1). assert (sched_wf s2) as Hwf2 by (by apply upd_task_wf).
  assert (forall j, task_at s2 j = if j =? i then set_wait_pipe 0 (set_sig_pending (Z.lor (t_sig_pending t) (2 ^ SIGINT)) t) else task_at s j) as H2.
  { intros j. unfold s2. rewrite task_at_upd by done. rewrite !H1, Z.eqb_refl. by destruct (j =? i). }
  unfold sched_wake. rewrite H2, Z.eqb_refl. cbn [set_wait_pipe set_sig_pending t_state t_zombie]. rewrite Eb. cbn [andb].
  destruct (t_zombie t); cbn [negb]; [by split_and!|]. split_and!; [by apply upd_task_wf|done|done|].
  intros j Hj. rewrite task_at_upd by done. rewrite !H2, Z.eqb_refl. by destruct (j =? i).
Qed.

Lemma raise_sigint_spec fg k s : sched_wf s ->
  let s' := (raise_sigint fg k s).2 in
  sched_wf s' /\ current s' = current s /\ next_pid s' = next_pid s /\
  forall j, slot_ok j -> task_at s' j = interrupted_by fg (task_at s j).
Proof.
  intros Hwf. cbn [raise_sigint snd].
  pose proof (for_range_ind (fun i x => sched_wf x /\ current x = current s /\ next_pid x = next_pid s /\
    forall j, slot_ok j -> task_at x j = if j <? i then interrupted_by fg (task_at s j) else task_at s j)
    (Z.to_nat MAX_TASKS) 0 (sigint_slot fg) s) as Hind. cbn beta in Hind.
  destruct Hind as (H1 & H2 & H3 & H4).
  - split_and!; try done. intros j [Hj _]. by rewrite (proj2 (Z.ltb_ge j 0)).
  - intros i x Hi (G1 & G2 & G3 & G4). assert (slot_ok i) as Hs by exact Hi.
    destruct (sigint_slot_spec fg i x G1 Hs) as (F1 & F2 & F3 & F4). split_and!; [done|congruence|congruence|].
    intros j Hj. rewrite F4 by done. rewrite !G4 by done. destruct (Z.eqb_spec j i) as [->|Hne].
    + by rewrite Z.ltb_irrefl, (proj2 (Z.ltb_lt i (i + 1))) by lia.
    + destruct (Z.ltb_spec j i), (Z.ltb_spec j (i + 1)); try done; lia.
  - split_and!; try done. intros j Hj. rewrite H4 by done. rewrite (proj2 (Z.ltb_lt _ _)); [done|]. unfold slot_ok in Hj. lia.
Qed.

Lemma raise_sigint_flush fg k s : waiting (raise_sigint fg k s).1 = [].
Proof. cbn [raise_sigint fst]. unfold waiting, kb_count. cbn [kb_head kb_tail]. by rewrite Z.sub_diag. Qed.

Lemma ctrl_c_key k : translate 46 k = if k_shift k then 67 else 99.
Proof. unfold translate. change (znth 0 scancode_map 46) with 99. by destruct (k_shift k). Qed.

Lemma ctrl_c_interrupt status fg k s :
  Z.land status 1 <> 0 -> k_ctrl k = true -> kbd_interrupt status 0x2E fg k s = raise_sigint fg k s.
Proof.
  intros Hst Hc. apply Z.eqb_neq in Hst. unfold kbd_interrupt. rewrite Hst. change (Z.land 0x2E 0x7F) with 46. change (Z.land 0x2E 0x80) with 0.
  cbn [orb Z.eqb negb Pos.eqb]. rewrite Hc, ctrl_c_key. by destruct (k_shift k).
Qed.

(** Ctrl+C interrupts exactly the foreground group: SIGINT becomes
    pending for every live task of the group, those waiting on a pipe are
    made ready, every other task is untouched, and the typed characters are
    discarded. *)
Theorem ctrl_c_foreground status fg k s :
  sched_wf s -> Z.land status 1 <> 0 -> k_ctrl k = true ->
  let '(k', s') := kbd_interrupt status 0x2E fg k s in
  waiting k' = [] /\ forall j, slot_ok j -> task_at s' j = interrupted_by fg (task_at s j).
Proof.
  intros Hwf Hst Hc. rewrite ctrl_c_interrupt by done. pose proof (raise_sigint_spec fg k s Hwf) as (_ & _ & _ & H).
  pose proof (raise_sigint_flush fg k s) as Hf. by destruct (raise_sigint fg k s) as [k' s'].
Qed.

Lemma ctrl_c_foreground_witness :
  let k := mkKbd (replicate 128 0) 3 1 false true in
  let '(k', s') := kbd_interrupt 1 0x2E 0 k demo_sched in waiting k' = [] /\ t_sig_pending (task_at s' 2) = 4.
Proof.
  intros k. pose proof (ctrl_c_foreground 1 0 k demo_sched demo_sched_wf ltac:(discriminate) eq_refl) as H.
  destruct (kbd_interrupt 1 0x2E 0 k demo_sched) as [k' s']. destruct H as [H1 H2]. split; [exact H1|].
  rewrite H2 by (unfold slot_ok, MAX_TASKS; lia). reflexivity.
Defined.
