(* ===== verification/Mouse.v ===== *)
(** * PS/2 mouse (kernel/src/drivers/mouse.c)

    The packet assembler of the interrupt handler.  The handler is given the
    status and data bytes it reads; the controller commands [mouse_init]
    sends are in Ps2.v. *)
From S2P Require Import Prelude Mem KString Libk Font Screen.

Definition MOUSE_PACKET_SIZE : Z := 3.

Record mouse_state := mkMouse {
  m_x : Z;
  m_y : Z;
  m_dx : Z;
  m_dy : Z;
  m_buttons : Z;
  m_valid : bool;
}.

Record mouse := mkMouseDrv {
  packet_buf : list Z;
  packet_idx : Z;
  m_state : mouse_state;
  mouse_min_x : Z;
  mouse_min_y : Z;
  mouse_max_x : Z;
  mouse_max_y : Z;
}.

Definition mouse0 : mouse := mkMouseDrv [0; 0; 0] 0 (mkMouse 0 0 0 0 0 false) 0 0 799 599.

Definition mouse_init (t : tty) (m : mouse) : mouse :=
  let w := s32 (tty_width t) in
  let h := s32 (tty_height t) in
  mkMouseDrv (packet_buf m) (packet_idx m) (mkMouse (Z.quot w 2) (Z.quot h 2) 0 0 0 false)
             (mouse_min_x m) (mouse_min_y m) (w - 1) (h - 1).

(** The two comparisons, in the order of the code. *)
Definition clamp (lo hi v : Z) : Z := let v := if v <? lo then lo else v in if hi <? v then hi else v.

Definition mouse_packet (b0 b1 b2 : Z) (m : mouse) : mouse_state :=
  let st := m_state m in
  let dx := s8 b1 in
  let dy := s8 b2 in
  if (Z.land b0 0x40 =? 0) && (Z.land b0 0x80 =? 0) then
    let x := s32 (m_x st + dx) in
    let y := s32 (m_y st + - dy) in
    mkMouse (clamp (mouse_min_x m) (mouse_max_x m) x) (clamp (mouse_min_y m) (mouse_max_y m) y) dx (- dy) (Z.land b0 7) true
  else st.

Definition mouse_interrupt (status data : Z) (m : mouse) : mouse :=
  if Z.land status 1 =? 0 then m
  else
    let buf := zinsert (packet_idx m) data (packet_buf m) in
    let idx := packet_idx m + 1 in
    let bounds st i := mkMouseDrv buf i st (mouse_min_x m) (mouse_min_y m) (mouse_max_x m) (mouse_max_y m) in
    if MOUSE_PACKET_SIZE <=? idx
    then bounds (mouse_packet (znth 0 buf 0) (znth 0 buf 1) (znth 0 buf 2) m) 0
    else bounds (m_state m) idx.

Definition mouse_get_state (m : mouse) : mouse_state := m_state m.

(** * Theorems *)

(** The packet index is in range and the pointer is on the screen. *)
Record mouse_ok (m : mouse) : Prop := {
  mk_buf : zlen (packet_buf m) = MOUSE_PACKET_SIZE;
  mk_idx : 0 <= packet_idx m < MOUSE_PACKET_SIZE;
  mk_min : mouse_min_x m = 0 /\ mouse_min_y m = 0;
  mk_x : 0 <= m_x (m_state m) <= mouse_max_x m;
  mk_y : 0 <= m_y (m_state m) <= mouse_max_y m;
}.

Lemma clamp_in lo hi v : lo <= hi -> lo <= clamp lo hi v <= hi.
Proof. intros H. unfold clamp. ifs; lia. Qed.

Lemma mouse_interrupt_ok status data m : mouse_ok m -> mouse_ok (mouse_interrupt status data m).
Proof.
  intros [H1 H2 [H3 H4] H5 H6]. unfold mouse_interrupt. destruct (_ =? 0); [by split|].
  destruct (Z.leb_spec MOUSE_PACKET_SIZE (packet_idx m + 1)).
  - split; cbn; [by rewrite zlen_insert|done|done| |]; unfold mouse_packet; (destruct (_ && _); [|done]); cbn.
    + rewrite H3. apply clamp_in. lia.
    + rewrite H4. apply clamp_in. lia.
  - split; cbn; [by rewrite zlen_insert|lia|done..].
Qed.

(** Whatever bytes the device sends, the handler stays inside its packet
    buffer and the pointer stays on the screen. *)
Theorem mouse_stays_on_screen (input : list (Z * Z)) t :
  tty_ok t -> mouse_ok (foldl (fun m '(status, data) => mouse_interrupt status data m) (mouse_init t mouse0) input).
Proof.
  intros Ht. assert (mouse_ok (mouse_init t mouse0)) as H0.
  { pose proof (mo_cols _ (tk_mode _ Ht)). pose proof (mo_rows _ (tk_mode _ Ht)).
    pose proof (mo_w _ (tk_mode _ Ht)). pose proof (mo_h _ (tk_mode _ Ht)).
    unfold mouse_init, tty_width, tty_height, CELL_W, CELL_H in *. rewrite !u32_small, !s32_small by lia.
    by split; cbn; try done; lia. }
  revert H0. generalize (mouse_init t mouse0). induction input as [|[st d] input IH]; intros m Hm; [done|].
  cbn [foldl]. by apply IH, mouse_interrupt_ok.
Qed.

Lemma mouse_stays_on_screen_witness :
  mouse_ok (foldl (fun m '(status, data) => mouse_interrupt status data m) (mouse_init demo_tty mouse0) [(1, 8); (1, 200); (1, 100)]).
Proof. apply mouse_stays_on_screen. exact demo_tty_ok. Defined.
