(* ===== verification/Vfs.v ===== *)
(** * Virtual file system and /proc (kernel/src/fs/vfs.c, procfs.c, vfs.h)

    Nodes live in a store indexed by address.  The sibling list of a
    directory, which the code only ever extends at its head, is the list
    [n_children].  The [data] pointer is [n_payload] (for procfs nodes the
    number it encodes); the bytes it points at are the list [n_data], whose
    length is the node's size.  Strings are byte lists without their terminator.  Heap
    calls go through the interface [NodeHeap]. *)
From S2P Require Import Prelude Mem FrameAlloc Pmm Task Sched Libk.

(** What the file systems use of kheap.c: the address of a new block, 0 when
    there is none; of a grown block; and release.  [nh_live h p] says that a block at [p] is allocated: a new block is
    none of those, and allocation keeps them. *)
Class NodeHeap (H : Type) := {
  nh_alloc : Z -> H -> Z * H;
  nh_realloc : Z -> Z -> H -> Z * H;
  nh_free : Z -> H -> H;
}.
Class NodeHeapLaws (H : Type) `{NodeHeap H} := {
  nh_live : H -> Z -> Prop;
  nh_fresh : forall n h p h', nh_alloc n h = (p, h') -> p <> 0 -> ~ nh_live h p /\ nh_live h' p;
  nh_keeps : forall n h p h' q, nh_alloc n h = (p, h') -> nh_live h q -> nh_live h' q;
  nh_zero : forall h, (nh_alloc 0 h).1 = 0;
  nh_free_keeps : forall p h q, nh_live h q -> q <> p -> nh_live (nh_free p h) q;
  nh_realloc_new : forall p n h p' h', 0 < n -> nh_realloc p n h = (p', h') -> p' <> 0 ->
    (p' = p \/ ~ nh_live h p') /\ nh_live h' p';
  nh_realloc_keeps : forall p n h p' h' q, 0 < n -> nh_realloc p n h = (p', h') -> nh_live h q -> q <> p \/ p' = 0 -> nh_live h' q;
}.

Definition VFS_MAX_PATH : Z := 256.
Definition VFS_MAX_NAME : Z := 64.
Definition SIZEOF_NODE : Z := 120.

Inductive vfs_type := VFS_FILE | VFS_DIRECTORY | VFS_CHARDEV | VFS_PROCFS.
#[export] Instance vfs_type_eq_dec : EqDecision vfs_type.
Proof. solve_decision. Defined.

Record vnode := mkNode {
  n_name : list Z;
  n_type : vfs_type;
  n_data : list Z;
  n_payload : Z;
  n_dev : Z;
  n_parent : Z;
  n_children : list Z;
}.

Record vfs (H : Type) := mkVfs {
  nodes : gmap Z vnode;
  root : Z;
  pool_used : Z;            (* procfs.c: slots of the static pool in use *)
  vheap : H;
}.
Arguments mkVfs {H} _ _ _ _.
Arguments nodes {H} _.
Arguments root {H} _.
Arguments pool_used {H} _.
Arguments vheap {H} _.

Definition node0 : vnode := mkNode [] VFS_FILE [] 0 0 0 [].

Section Vfs.
Context {H : Type} `{NodeHeap H}.
Implicit Types s : vfs H.

Definition node_at s (p : Z) : vnode := default node0 (nodes s !! p).
Definition set_node (p : Z) (n : vnode) s : vfs H := mkVfs (<[p := n]> (nodes s)) (root s) (pool_used s) (vheap s).
Definition set_root (p : Z) s : vfs H := mkVfs (nodes s) p (pool_used s) (vheap s).
Definition set_heap (h : H) s : vfs H := mkVfs (nodes s) (root s) (pool_used s) h.

(** [strncpy(dst, name, VFS_MAX_NAME - 1)] into a zeroed field. *)
Definition short_name (name : list Z) : list Z := take 63 name.

Definition vfs_create_node (name : list Z) (ty : vfs_type) s : Z * vfs H :=
  let '(p, h) := nh_alloc SIZEOF_NODE (vheap s) in
  let s := set_heap h s in
  if p =? 0 then (0, s) else (p, set_node p (mkNode (short_name name) ty [] 0 0 0 []) s).

(** [n->parent = dir; n->next_sibling = dir->children; dir->children = n;] *)
Definition link_child (dir n : Z) s : vfs H :=
  let c := node_at s n in
  let s := set_node n (mkNode (n_name c) (n_type c) (n_data c) (n_payload c) (n_dev c) dir (n_children c)) s in
  let d := node_at s dir in
  set_node dir (mkNode (n_name d) (n_type d) (n_data d) (n_payload d) (n_dev d) (n_parent d) (n :: n_children d)) s.

(** The first child with this name. *)
Fixpoint find_child (s : vfs H) (l : list Z) (name : list Z) : option Z :=
  match l with
  | [] => None
  | c :: r => if bool_decide (n_name (node_at s c) = name) then Some c else find_child s r name
  end.
Definition child_named s (dir : Z) (name : list Z) : option Z := find_child s (n_children (node_at s dir)) name.

(** ** procfs *)

Definition PF_MEMINFO : Z := 1.
Definition PF_UPTIME : Z := 2.
Definition PF_STAT : Z := 3.
Definition PF_STATUS : Z := 4.
Definition PF_CMDLINE : Z := 5.
Definition PROCFS_POOL : Z := 32.

Section Procfs.
(** The address of the static pool, and the task table. *)
Variables (pool : Z) (tbl : sched).

Definition make_node (dir : Z) (name : list Z) (payload : Z) s : Z * vfs H :=
  if PROCFS_POOL <=? pool_used s then (0, s)
  else
    let n := pool + pool_used s * SIZEOF_NODE in
    let s := mkVfs (nodes s) (root s) (pool_used s + 1) (vheap s) in
    let s := set_node n (mkNode (short_name name) VFS_PROCFS [] payload 0 0 []) s in
    (n, link_child dir n s).

Definition procfs_mount (root_node : Z) s : vfs H :=
  let s := (make_node root_node (bs "meminfo") PF_MEMINFO s).2 in
  let s := (make_node root_node (bs "uptime") PF_UPTIME s).2 in
  (make_node root_node (bs "stat") PF_STAT s).2.

(** [for (p = component; *p; p++)]: the number, [None] at a non-digit. *)
Fixpoint parse_pid (l : list Z) (pid : Z) : option Z :=
  match l with
  | [] => Some pid
  | c :: r => if is_digit c then parse_pid r (u32 (pid * 10 + (c - 48))) else None
  end.

(** [None]: the call returned non-zero. *)
Definition procfs_resolve (dir : Z) (component : list Z) s : option Z * vfs H :=
  let d := node_at s dir in
  let base := u32 (n_payload d) in
  let dir_kind := Z.land base 0xFF in
  let dir_pid := Z.shiftr base 8 in
  if (dir_kind =? PF_STATUS) || (dir_kind =? PF_CMDLINE) then
    if bool_decide (component = bs "cmdline") then
      (Some dir, set_node dir (mkNode (bs "cmdline") (n_type d) (n_data d)
                   (u32 (Z.lor (Z.shiftl dir_pid 8) PF_CMDLINE)) (n_dev d) (n_parent d) (n_children d)) s)
    else if bool_decide (component = bs "status") then (Some dir, s)
    else (None, s)
  else if bool_decide (component = bs "meminfo") || bool_decide (component = bs "uptime") || bool_decide (component = bs "stat")
  then (child_named s dir component, s)
  else
    match parse_pid component 0 with
    | None => (None, s)
    | Some pid =>
        if (pid =? 0) || bool_decide (sched_find_pid (s32 pid) tbl = None) then (None, s)
        else
          let '(n, s) := make_node dir (bs "status") (u32 (Z.lor (Z.shiftl pid 8) PF_STATUS)) s in
          if n =? 0 then (None, s) else (Some n, s)
    end.

(** The formatter of procfs.c, as text: at most 255 bytes. *)
Definition emit_conv (c : Z) (a : option arg) : list Z :=
  if c =? 115 then arg_string a
  else if c =? 99 then [u8 (arg_word a)]
  else if (c =? 100) || (c =? 117) then
    let v := s64 (arg_word a) in
    (if v <? 0 then [45] else []) ++ map digit_char (rev (digits_rev 24 10 (Z.abs v)))
  else [].

Fixpoint emit_text (pct : bool) (fmt : list Z) (args : list arg) : list Z :=
  match fmt with
  | [] => []
  | c :: r =>
      if pct then
        emit_conv c (head args) ++
          emit_text false r (if existsb (Z.eqb c) [115; 99; 100; 117] then tl args else args)
      else if c =? 37 then emit_text true r args
      else c :: emit_text false r args
  end.

Definition emit (cap : Z) (fmt : list Z) (args : list arg) : list Z :=
  take (Z.to_nat cap) (c_string (take 255 (emit_text false fmt args))).

Definition state_char (t : task) : Z :=
  if t_zombie t then 90
  else match t_state t with TASK_RUNNING | TASK_READY => 82 | _ => 83 end.

(** The lines of /proc/stat; [len > sizeof(content) - 128] ends the loop. *)
Fixpoint stat_lines (n : nat) (i : Z) (content : list Z) : list Z :=
  match n with
  | O => content
  | S n' =>
      let t := task_at tbl i in
      if state_eqb (t_state t) TASK_FREE then stat_lines n' (i + 1) content
      else
        let content := content ++ emit (1023 - zlen content) (bs "%d %d %d %c %s" ++ [10])
              [AInt (t_pid t); AInt (t_parent_pid t); AInt (t_pgid t); AInt (state_char t); AStr (Some (t_name t))] in
        if 1024 - 128 <? zlen content then content else stat_lines n' (i + 1) content
  end.

(** The generated file; [None]: read returns -1. *)
Definition procfs_content (mm : pmm) (n : vnode) : option (list Z) :=
  let payload := u32 (n_payload n) in
  let kind := Z.land payload 0xFF in
  let pid := Z.shiftr payload 8 in
  if kind =? PF_MEMINFO then
    Some (emit 1023 (bs "Total:  %u kB" ++ [10] ++ bs "Free:    %u kB" ++ [10])
           [AInt (pmm_get_usable_bytes mm / 1024); AInt (pmm_get_free_pages mm .* PAGE_SIZE / 1024)])
  else if kind =? PF_UPTIME then
    Some (emit 1023 (bs "%u.%u" ++ [10]) [AInt (g_uptime_ticks tbl / 50); AInt (g_uptime_ticks tbl mod 50 * 2)])
  else if kind =? PF_STAT then Some (stat_lines (Z.to_nat MAX_TASKS) 0 [])
  else if (kind =? PF_STATUS) || (kind =? PF_CMDLINE) then
    match sched_find_pid (s32 pid) tbl with
    | None => None
    | Some i =>
        let t := task_at tbl i in
        if kind =? PF_CMDLINE then Some (emit 1023 (bs "%s" ++ [10]) [AStr (Some (t_name t))])
        else Some (emit 1023 (bs "Name:   %s" ++ [10] ++ bs "Pid:    %d" ++ [10] ++ bs "PPid:   %d" ++ [10] ++
                              bs "PgId:   %d" ++ [10] ++ bs "State:  %c" ++ [10])
                    [AStr (Some (t_name t)); AInt (t_pid t); AInt (t_parent_pid t); AInt (t_pgid t); AInt (state_char t)])
    end
  else None.

Definition procfs_read (mm : pmm) (n : vnode) (size offset : Z) : Z * list Z :=
  match procfs_content mm n with
  | None => (-1, [])
  | Some content =>
      let len := zlen content in
      if len <=? offset then (0, [])
      else
        let k := if size <? len - offset then size else len - offset in
        (s32 k, take (Z.to_nat k) (drop (Z.to_nat offset) content))
  end.

(** ** Paths *)

(** One component: up to 63 bytes, and what follows it. *)
Fixpoint next_component (n : nat) (p : list Z) : list Z * list Z :=
  match n, p with
  | S n', c :: r => if c =? 47 then ([], p) else let '(a, b) := next_component n' r in (c :: a, b)
  | _, _ => ([], p)
  end.

Definition skip_slash (p : list Z) : list Z := match p with c :: r => if c =? 47 then r else p | [] => [] end.

Fixpoint resolve_loop (fuel : nat) (cur : Z) (p : list Z) s : option Z * vfs H :=
  match fuel with
  | O => (None, s)
  | S f =>
      match p with
      | [] => (Some cur, s)
      | _ =>
          let '(component, rest) := next_component 63 p in
          let rest := skip_slash rest in
          match component with
          | [] => resolve_loop f cur rest s
          | _ =>
              if bool_decide (n_type (node_at s cur) = VFS_PROCFS) then
                match procfs_resolve cur component s with
                | (None, s) => (None, s)
                | (Some out, s) => resolve_loop f out rest s
                end
              else
                match child_named s cur component with
                | None => (None, s)
                | Some c => resolve_loop f c rest s
                end
          end
      end
  end.

(** Every turn consumes a byte, so the length of the path is fuel enough. *)
Definition vfs_resolve (path : list Z) s : option Z * vfs H :=
  if root s =? 0 then (None, s)
  else match path with
       | 47 :: p => match p with
                    | [] => (Some (root s), s)
                    | _ => resolve_loop (S (length p)) (root s) p s
                    end
       | _ => (None, s)
       end.

Definition vfs_get_or_create_dir (parent : Z) (name : list Z) s : option Z * vfs H :=
  match child_named s parent name with
  | Some c => (Some c, s)
  | None =>
      let '(d, s) := vfs_create_node name VFS_DIRECTORY s in
      if d =? 0 then (None, s) else (Some d, link_child parent d s)
  end.

(** The text between slashes. *)
Fixpoint split_slash (p : list Z) : list (list Z) :=
  match p with
  | [] => [[]]
  | c :: r =>
      if c =? 47 then [] :: split_slash r
      else match split_slash r with
           | t :: ts => (c :: t) :: ts
           | [] => [[c]]
           end
  end.

Fixpoint ensure_tokens (cur : Z) (tokens : list (list Z)) s : option Z * vfs H :=
  match tokens with
  | [] => (Some cur, s)
  | [] :: ts => ensure_tokens cur ts s
  | t :: ts =>
      match vfs_get_or_create_dir cur t s with
      | (None, s) => (None, s)
      | (Some c, s) => ensure_tokens c ts s
      end
  end.
Definition vfs_ensure_path (start : Z) (path : list Z) s : option Z * vfs H := ensure_tokens start (split_slash path) s.

(** The text before and after the last slash. *)
Fixpoint split_last (p : list Z) : option (list Z * list Z) :=
  match p with
  | [] => None
  | c :: r =>
      match split_last r with
      | Some (a, b) => Some (c :: a, b)
      | None => if c =? 47 then Some ([], r) else None
      end
  end.

Definition vfs_create_file (path : list Z) s : option Z * vfs H :=
  match path with
  | 47 :: _ =>
      if root s =? 0 then (None, s)
      else match split_last (take 255 path) with
      | None => (None, s)
      | Some (before, name) =>
          let '(parent, s) := match before with
                              | [] => (Some (root s), s)
                              | _ :: dirs => vfs_ensure_path (root s) dirs s
                              end in
          match parent with
          | None => (None, s)
          | Some parent =>
              match child_named s parent name with
              | Some c => (Some c, s)
              | None =>
                  let '(n, s) := vfs_create_node name VFS_FILE s in
                  if n =? 0 then (None, s) else (Some n, link_child parent n s)
              end
          end
      end
  | _ => (None, s)
  end.

Definition vfs_init s : vfs H := let '(r, s) := vfs_create_node [47] VFS_DIRECTORY s in set_root r s.

Definition vfs_mount_dev (name : list Z) (ops : Z) s : vfs H :=
  let '(devdir, s) := vfs_resolve (bs "/dev") s in
  let '(devdir, s) :=
    match devdir with
    | Some d => (Some d, s)
    | None =>
        let '(r, s) := vfs_resolve [47] s in
        match r with
        | None => (None, s)
        | Some r =>
            let '(d, s) := vfs_create_node (bs "dev") VFS_DIRECTORY s in
            if d =? 0 then (None, s) else (Some d, link_child r d s)
        end
    end in
  match devdir with
  | None => s
  | Some devdir =>
      let '(n, s) := vfs_create_node name VFS_CHARDEV s in
      if n =? 0 then s
      else
        let c := node_at s n in
        let s := set_node n (mkNode (n_name c) (n_type c) (n_data c) (n_payload c) ops (n_parent c) (n_children c)) s in
        link_child devdir n s
  end.

Definition vfs_mount_procfs s : vfs H :=
  match vfs_resolve [47] s with
  | (None, s) => s
  | (Some r, s) =>
      let '(n, s) := vfs_create_node (bs "proc") VFS_PROCFS s in
      if n =? 0 then s else procfs_mount n (link_child r n s)
  end.

(** ** File contents *)

(** [node] 0 is NULL. *)
Definition vfs_read (mm : pmm) (node size offset : Z) s : Z * list Z :=
  if node =? 0 then (-1, [])
  else
    let n := node_at s node in
    match n_type n with
    | VFS_PROCFS => procfs_read mm n size offset
    | VFS_FILE =>
        let sz := zlen (n_data n) in
        if sz <=? offset then (0, [])
        else
          let available := sz - offset in
          let to_read := if size <? available then size else available in
          (s32 to_read, take (Z.to_nat to_read) (drop (Z.to_nat offset) (n_data n)))
    | _ => (-1, [])
    end.

Definition set_data (ptr : Z) (d : list Z) (n : vnode) : vnode :=
  mkNode (n_name n) (n_type n) d ptr (n_dev n) (n_parent n) (n_children n).

(** [memcpy(data + offset, buf, size)] inside [data]. *)
Definition overwrite (data : list Z) (offset : Z) (buf : list Z) : list Z :=
  take (Z.to_nat offset) data ++ buf ++ drop (Z.to_nat offset + length buf) data.

(** Bytes of a grown block past the old end are [junk] until written. *)
Definition vfs_write (junk : list Z -> Z -> list Z) (node : Z) (buf : list Z) (offset : Z) s : Z * vfs H :=
  if (node =? 0) || negb (bool_decide (n_type (node_at s node) = VFS_FILE)) then (-1, s)
  else
    let n := node_at s node in
    let sz := zlen (n_data n) in
    let size := zlen buf in
    let end_ := offset .+ size in
    if sz <? end_ then
      let '(grown, h) := nh_realloc (n_payload n) end_ (vheap s) in
      let s := set_heap h s in
      if grown =? 0 then (-1, s)
      else
        let data := n_data n ++ junk (n_data n) (end_ - sz) in
        let data := if sz <? offset then overwrite data sz (replicate (Z.to_nat (offset - sz)) 0) else data in
        (s32 size, set_node node (set_data grown (overwrite data offset buf) n) s)
    else (s32 size, set_node node (set_data (n_payload n) (overwrite (n_data n) offset buf) n) s).

(** ** The initial ramdisk *)

Definition TAR_BLOCK : Z := 512.

Fixpoint tar_parse_octal (str : list Z) (val : Z) : Z :=
  match str with
  | [] => val
  | c :: r => if (48 <=? c) && (c <=? 55) then tar_parse_octal r (u64 (val * 8 + (c - 48))) else val
  end.

(** The header fields used: [img] is the memory from the header on. *)
Definition tar_name (img : list Z) : list Z := c_string img.
Definition tar_size (img : list Z) : Z := tar_parse_octal (take 12 (drop 124 img)) 0.
Definition tar_typeflag (img : list Z) : Z := znth 0 img 156.

Definition last_char (l : list Z) : Z := List.last l 0.
Definition drop_last_slash (l : list Z) : list Z := if last_char l =? 47 then removelast l else l.

(** [(file_size + TAR_BLOCK - 1) & ~(TAR_BLOCK - 1)] *)
Definition tar_round (file_size : Z) : Z := Z.land (file_size .+ TAR_BLOCK .- 1) (u64 (Z.lnot (TAR_BLOCK - 1))).

(** One archive member: [false] is the early [return false]. *)
Definition tar_entry (name : list Z) (typeflag file_size : Z) (data : list Z) s : bool * vfs H :=
  if (typeflag =? 53) || (last_char name =? 47) then
    match vfs_ensure_path (root s) (drop_last_slash (take 255 name)) s with
    | (None, s) => (false, s)
    | (Some _, s) => (true, s)
    end
  else if (typeflag =? 48) || (typeflag =? 0) then
    let path := take 255 name in
    let '(parent, filename, s) :=
      match split_last path with
      | Some (dirs, f) => let '(p, s) := vfs_ensure_path (root s) dirs s in (p, f, s)
      | None => (Some (root s), path, s)
      end in
    match parent with
    | None => (false, s)
    | Some parent =>
        let '(f, s) := vfs_create_node filename VFS_FILE s in
        if f =? 0 then (true, s)
        else
          let '(buf, h) := nh_alloc file_size (vheap s) in
          let s := set_heap h s in
          if buf =? 0 then (true, s)
          else (true, link_child parent f (set_node f (set_data buf (take (Z.to_nat file_size) data) (node_at s f)) s))
    end
  else (true, s).

(** [size] bytes of archive are left; the memory [img] may go on beyond. *)
Fixpoint tar_loop (fuel : nat) (img : list Z) (size : Z) s : option (bool * vfs H) :=
  match fuel with
  | O => None
  | S fl =>
      if size <? TAR_BLOCK then Some (true, s)
      else if znth 0 img 0 =? 0 then Some (true, s)
      else
        let file_size := tar_size img in
        let name := tar_name img in
        let name := match name with 46 :: 47 :: r => r | _ => name end in
        let adv := TAR_BLOCK .+ tar_round file_size in
        let next s := tar_loop fl (drop (Z.to_nat adv) img) (size - adv) s in
        match name with
        | [] => next s
        | _ =>
            match tar_entry name (tar_typeflag img) file_size (drop 512 img) s with
            | (false, s) => Some (false, s)
            | (true, s) => next s
            end
        end
  end.

Definition vfs_load_initrd (img : list Z) (size : Z) s : option (bool * vfs H) :=
  let '(ok, s) := if root s =? 0
                  then let '(r, s) := vfs_create_node [47] VFS_DIRECTORY s in
                       (negb (r =? 0), set_root r s)
                  else (true, s) in
  if negb ok then Some (false, s) else tar_loop (S (Z.to_nat (size / TAR_BLOCK))) img size s.
End Procfs.
End Vfs.
