(* ===== verification/VfsSpec.v ===== *)
(** * Theorems about the virtual file system

    Creating a file makes its path resolve to it ([vfs_create_resolves]),
    a member of the initial ramdisk is found under its name
    ([tar_entry_resolves]), loading the ramdisk ends ([vfs_load_initrd_total]),
    and what [vfs_write] writes [vfs_read] reads ([vfs_write_read]). *)
From S2P Require Import Prelude Mem FrameAlloc Pmm Task Sched Libk Vfs.

Section Paths.
Context {KH : Type} {HA : NodeHeap KH} {HL : NodeHeapLaws KH}.
Variables (pool : Z) (tbl : sched).
Implicit Types s : vfs KH.

(** The tree of plain nodes: every node is an allocated block, children are
    nodes of the tree, and there is no dynamic directory. *)
Record tree_ok s : Prop := {
  t_live : forall p n, nodes s !! p = Some n -> nh_live (vheap s) p;
  t_children : forall p c, In c (n_children (node_at s p)) -> is_Some (nodes s !! c);
  t_plain : forall p, n_type (node_at s p) <> VFS_PROCFS;
}.

(** [s'] finds every child [s] finds, and has every node of [s]. *)
Record extends s s' : Prop := {
  e_child : forall d name c, child_named s d name = Some c -> child_named s' d name = Some c;
  e_nodes : forall p, is_Some (nodes s !! p) -> is_Some (nodes s' !! p);
  e_root : root s' = root s;
  e_data : forall p, is_Some (nodes s !! p) -> n_data (node_at s' p) = n_data (node_at s p);
}.

#[local] Instance extends_preorder : PreOrder extends.
Proof.
  split; [by split|]. intros a b c [H1 H2 H3 H4] [H5 H6 H7 H8]. split; [auto|auto|congruence|].
  intros p Hp. rewrite H8; auto.
Qed.

(** The walk from a directory along component names. *)
Fixpoint walk s (cur : Z) (names : list (list Z)) : option Z :=
  match names with
  | [] => Some cur
  | [] :: r => walk s cur r
  | n :: r => match child_named s cur n with None => None | Some c => walk s c r end
  end.

Lemma walk_extends s s' names cur x : extends s s' -> walk s cur names = Some x -> walk s' cur names = Some x.
Proof.
  intros He. revert cur. induction names as [|[|a n] r IH]; intros cur Hw; cbn [walk] in *; auto.
  destruct (child_named s cur (a :: n)) as [c|] eqn:E; [|done]. rewrite (e_child _ _ He _ _ _ E). auto.
Qed.

Lemma walk_app s l1 l2 cur :
  walk s cur (l1 ++ l2) = match walk s cur l1 with None => None | Some c => walk s c l2 end.
Proof.
  revert cur. induction l1 as [|[|a n] r IH]; intros cur; cbn [walk app]; auto.
  destruct (child_named s cur (a :: n)); auto.
Qed.

(** ** New nodes *)

Lemma find_child_ext s s' l name :
  (forall c, In c l -> n_name (node_at s c) = n_name (node_at s' c)) -> find_child s l name = find_child s' l name.
Proof.
  induction l as [|c r IH]; intros Hn; cbn [find_child]; [done|].
  rewrite (Hn c) by (by left). rewrite IH by (intros; apply Hn; by right). done.
Qed.

Lemma node_at_set s p n q : node_at (set_node p n s) q = if decide (p = q) then n else node_at s q.
Proof.
  unfold node_at, set_node. cbn [nodes]. destruct (decide (p = q)) as [->|Hne].
  - by rewrite lookup_insert_eq.
  - by rewrite lookup_insert_ne.
Qed.

Lemma node_at_heap s h q : node_at (set_heap h s) q = node_at s q.
Proof. done. Qed.

(** What linking a fresh node leaves in the store. *)
Lemma link_view s d p n h :
  d <> p -> n_children n = [] ->
  let s' := link_child d p (set_node p n (set_heap h s)) in
  (forall q, node_at s' q =
      if decide (d = q) then mkNode (n_name (node_at s d)) (n_type (node_at s d)) (n_data (node_at s d)) (n_payload (node_at s d))
                               (n_dev (node_at s d)) (n_parent (node_at s d)) (p :: n_children (node_at s d))
      else if decide (p = q) then mkNode (n_name n) (n_type n) (n_data n) (n_payload n) (n_dev n) d []
      else node_at s q) /\
  (forall q, is_Some (nodes s' !! q) <-> is_Some (nodes s !! q) \/ q = p \/ q = d).
Proof.
  intros Hdp Hnc. cbv zeta. split; intros q.
  - unfold link_child. rewrite !node_at_set, !node_at_heap.
    destruct (decide (p = d)); [congruence|]. rewrite !(decide_True (P := p = p)) by done. rewrite Hnc.
    destruct (decide (d = q)); [done|]. by destruct (decide (p = q)).
  - unfold link_child, set_node, set_heap. cbn [nodes]. rewrite !lookup_insert_is_Some'. intuition auto.
Qed.

(** A node linked into a directory: it is found by its name, and the old
    children are still found when the name was not in use. *)
Lemma link_new s d p n h :
  tree_ok s -> ~ nh_live (vheap s) p -> nh_live h p -> (forall q, nh_live (vheap s) q -> nh_live h q) ->
  n_children n = [] -> n_type n <> VFS_PROCFS -> is_Some (nodes s !! d) ->
  let s' := link_child d p (set_node p n (set_heap h s)) in
  tree_ok s' /\ is_Some (nodes s' !! p) /\ n_data (node_at s' p) = n_data n /\ n_children (node_at s' p) = [] /\
  (forall nm, child_named s' d nm = if bool_decide (n_name n = nm) then Some p else child_named s d nm) /\
  (child_named s d (n_name n) = None -> extends s s').
Proof.
  intros [Hl Hc Ht] Hnl Hpl Hkeep Hnc Hnt Hd. cbv zeta.
  assert (nodes s !! p = None) as Hfresh.
  { destruct (nodes s !! p) eqn:E; [|done]. by apply Hl in E. }
  assert (d <> p) as Hdp by (intros ->; rewrite Hfresh in Hd; by destruct Hd).
  assert (forall q, In p (n_children (node_at s q)) -> False) as Hnp.
  { intros q Hq. apply Hc in Hq. rewrite Hfresh in Hq. by destruct Hq. }
  destruct (link_view s d p n h Hdp Hnc) as [Hat Hdom].
  set (s' := link_child d p (set_node p n (set_heap h s))) in *.
  assert (forall q, n_name (node_at s' q) = if decide (p = q) then n_name n else n_name (node_at s q)) as Hname.
  { intros q. rewrite Hat. destruct (decide (d = q)) as [<-|]; [by rewrite decide_False by congruence|].
    by destruct (decide (p = q)). }
  assert (forall q nm, find_child s' (n_children (node_at s q)) nm = child_named s q nm) as Hfind.
  { intros q nm. apply find_child_ext. intros c Hi. rewrite Hname, decide_False; [done|]. intros ->. eauto. }
  assert (forall nm, child_named s' d nm = if bool_decide (n_name n = nm) then Some p else child_named s d nm) as Hcd.
  { intros nm. unfold child_named at 1. rewrite (Hat d), decide_True by done. cbn [n_children find_child].
    by rewrite Hname, decide_True, Hfind by done. }
  split_and!.
  - split.
    + intros q x Hq. destruct (proj1 (Hdom q) (ex_intro _ x Hq)) as [[y Hy]|[-> | ->]]; [|done|].
      * apply Hkeep. eauto.
      * destruct Hd as [y Hy]. apply Hkeep. eauto.
    + intros q c. rewrite Hat, Hdom. destruct (decide (d = q)) as [<-|]; [intros [->|Hi]; eauto|].
      destruct (decide (p = q)); [intros []|eauto].
    + intros q. rewrite Hat. destruct (decide (d = q)); [apply Ht|]. by destruct (decide (p = q)).
  - apply Hdom. auto.
  - by rewrite Hat, decide_False, decide_True by congruence.
  - by rewrite Hat, decide_False, decide_True by congruence.
  - done.
  - intros Hno. split; [|intros q Hq; apply Hdom; auto|done|].
    2: { intros q [y Hy]. rewrite Hat. destruct (decide (d = q)) as [<-|]; [done|]. rewrite decide_False; congruence. }
    intros q nm c Hq. destruct (decide (d = q)) as [<-|Hne].
    + rewrite Hcd, bool_decide_false; [done|]. intros <-. congruence.
    + unfold child_named. rewrite Hat, decide_False by done. destruct (decide (p = q)) as [<-|].
      * unfold child_named, node_at in Hq. by rewrite Hfresh in Hq.
      * by rewrite Hfind.
Qed.
(** ** Looking up or creating a child *)

Lemma find_child_in s l name c : find_child s l name = Some c -> In c l.
Proof.
  induction l as [|a r IH]; cbn [find_child]; [done|]. case_bool_decide; intros E; [|right; auto].
  injection E as ->. by left.
Qed.

Lemma child_named_node s d name c : tree_ok s -> child_named s d name = Some c -> is_Some (nodes s !! c).
Proof. intros Ht E. apply (t_children _ Ht d). by eapply find_child_in. Qed.

Definition short (name : list Z) : Prop := (length name <= 63)%nat.

(** Both [vfs_get_or_create_dir] and the end of [vfs_create_file] have this
    shape: find the child, otherwise create and link it. *)
Definition get_or_create (ty : vfs_type) (d : Z) (name : list Z) s : option Z * vfs KH :=
  match child_named s d name with
  | Some c => (Some c, s)
  | None => let '(n, s) := vfs_create_node name ty s in
            if n =? 0 then (None, s) else (Some n, link_child d n s)
  end.

Lemma get_or_create_spec ty d name s x s' :
  tree_ok s -> short name -> ty <> VFS_PROCFS -> is_Some (nodes s !! d) ->
  get_or_create ty d name s = (Some x, s') ->
  tree_ok s' /\ extends s s' /\ child_named s' d name = Some x /\ is_Some (nodes s' !! x) /\
  ((child_named s d name = Some x /\ s' = s) \/ n_children (node_at s' x) = []).
Proof.
  intros Ht Hn Hty Hd Hg. unfold get_or_create in Hg.
  destruct (child_named s d name) as [c|] eqn:Ec.
  - injection Hg as <- <-. split_and!; [done|reflexivity|done|by eapply child_named_node|by left].
  - unfold vfs_create_node in Hg. destruct (nh_alloc _ _) as [p h] eqn:Ea. destruct (Z.eqb_spec p 0) as [|Hp]; [done|].
    rewrite (proj2 (Z.eqb_neq p 0) Hp) in Hg. injection Hg as <- <-.
    assert (short_name name = name) as Hs by (apply take_ge; done).
    destruct (nh_fresh _ _ _ _ Ea Hp) as [Hnl Hpl].
    destruct (link_new s d p (mkNode (short_name name) ty [] 0 0 0 []) h) as (H1 & H2 & _ & H3 & H4 & H5); try done.
    { intros q. by eapply nh_keeps. }
    cbn [n_name] in *. rewrite Hs in *. split_and!; [done|auto| |done|].
    + by rewrite H4, bool_decide_true.
    + by right.
Qed.

Lemma ensure_tokens_spec tokens cur s x s' :
  tree_ok s -> Forall short tokens -> is_Some (nodes s !! cur) ->
  ensure_tokens cur tokens s = (Some x, s') ->
  tree_ok s' /\ extends s s' /\ walk s' cur tokens = Some x /\ is_Some (nodes s' !! x) /\
  ((walk s cur tokens = Some x /\ s' = s) \/ n_children (node_at s' x) = []) /\
  (n_children (node_at s cur) = [] -> n_children (node_at s' x) = []).
Proof.
  revert cur s. induction tokens as [|t ts IH]; intros cur s Ht Hf Hc He; cbn [ensure_tokens walk] in *.
  - injection He as <- <-. split_and!; [done|reflexivity|done|done|by left|done].
  - inversion Hf as [|? ? Hst Hfs]; subst. destruct t as [|a t]; [by apply IH in He|].
    destruct (vfs_get_or_create_dir cur (a :: t) s) as [[c|] s1] eqn:E; [|done].
    apply (get_or_create_spec VFS_DIRECTORY) in E as (H1 & H2 & H3 & H4 & H5); try done.
    apply IH in He as (H6 & H7 & H8 & H9 & H10 & H11); try done.
    split_and!; [done|by etrans| |done| |].
    + by rewrite (e_child _ _ H7 _ _ _ H3).
    + destruct H5 as [[Hc1 ->]|H5]; [rewrite Hc1; exact H10|right; auto].
    + intros Hno. destruct H5 as [[Hc1 ->]|H5]; [|auto]. unfold child_named in Hc1. by rewrite Hno in Hc1.
Qed.

(** ** Resolving follows the same components *)

Lemma split_slash_nonempty p : split_slash p <> [].
Proof. destruct p as [|c r]; cbn [split_slash]; [done|]. destruct (c =? 47); [done|]. by destruct (split_slash r). Qed.

Lemma next_component_spec n p t ts :
  split_slash p = t :: ts -> (length t <= n)%nat ->
  exists rest, next_component n p = (t, rest) /\
    match ts with [] => rest = [] | _ => exists r, rest = 47 :: r /\ split_slash r = ts end /\
    (length p = length t + length rest)%nat.
Proof.
  revert p t. induction n as [|n IH]; intros p t Hp Hlen.
  - destruct t; [|cbn in Hlen; lia]. destruct p as [|c r].
    + cbn in Hp. injection Hp as <-. by exists [].
    + cbn [split_slash] in Hp. destruct (Z.eqb_spec c 47) as [->|].
      * injection Hp as <-. exists (47 :: r). cbn. split_and!; [done| |done].
        destruct (split_slash r) eqn:E; [by apply split_slash_nonempty in E|eauto].
      * destruct (split_slash r); done.
  - destruct p as [|c r]; cbn [split_slash next_component] in *.
    + injection Hp as <- <-. by exists [].
    + destruct (Z.eqb_spec c 47) as [->|].
      * injection Hp as <- <-. exists (47 :: r). split_and!; [done| |done].
        destruct (split_slash r) eqn:E; [by apply split_slash_nonempty in E|eauto].
      * destruct (split_slash r) as [|t' ts'] eqn:E; [by apply split_slash_nonempty in E|].
        injection Hp as <- <-. cbn [length] in Hlen. destruct (IH r t' E) as (rest & H1 & H2 & H3); [lia|].
        exists rest. rewrite H1. cbn [length]. split_and!; [done|done|lia].
Qed.

Lemma resolve_loop_spec fuel s p cur :
  (forall q, n_type (node_at s q) <> VFS_PROCFS) -> Forall short (split_slash p) -> (length p < fuel)%nat ->
  resolve_loop pool tbl fuel cur p s = (walk s cur (split_slash p), s).
Proof.
  intros Hpl. revert p cur. induction fuel as [|f IH]; intros p cur Hf Hlen; [lia|].
  cbn [resolve_loop]. destruct p as [|c p]; [done|]. destruct (split_slash (c :: p)) as [|t ts] eqn:E;
    [by apply split_slash_nonempty in E|].
  inversion Hf as [|? ? Hst Hfs]; subst. destruct (next_component_spec 63 _ _ _ E Hst) as (rest & -> & Hr & Hl).
  assert (forall cur', resolve_loop pool tbl f cur' (skip_slash rest) s = (walk s cur' ts, s)) as Hrec.
  { intros cur'. destruct ts as [|t' ts'].
    - subst rest. destruct f; [|done]. cbn [length] in Hl, Hlen. lia.
    - destruct Hr as (r & -> & Hr). cbn [skip_slash Z.eqb Pos.eqb]. rewrite IH; rewrite ?Hr; auto.
      cbn [length] in Hl, Hlen. lia. }
  destruct t as [|a t]; [apply Hrec|]. rewrite bool_decide_false by apply Hpl. cbn [walk].
  destruct (child_named s cur (a :: t)); [apply Hrec|done].
Qed.
Lemma vfs_resolve_spec s p :
  tree_ok s -> root s <> 0 -> Forall short (split_slash p) ->
  vfs_resolve pool tbl (47 :: p) s = (walk s (root s) (split_slash p), s).
Proof.
  intros Ht Hr Hf. unfold vfs_resolve. rewrite (proj2 (Z.eqb_neq _ _) Hr). destruct p as [|c p]; [done|].
  apply resolve_loop_spec; [apply Ht|done|lia].
Qed.

Lemma resolve_extends s s' path c :
  tree_ok s -> tree_ok s' -> extends s s' -> root s <> 0 -> Forall short (split_slash path) ->
  (vfs_resolve pool tbl path s).1 = Some c -> (vfs_resolve pool tbl path s').1 = Some c.
Proof.
  intros Ht Ht' He Hr Hf Hres. pose proof (e_root _ _ He) as Hr'.
  destruct path as [|a p]; [unfold vfs_resolve in Hres; by destruct (root s =? 0)|].
  destruct (decide (a = 47)) as [->|Hne].
  - cbn [split_slash Z.eqb Pos.eqb] in Hf. inversion Hf; subst. rewrite vfs_resolve_spec in * by congruence.
    cbn [fst] in *. rewrite Hr'. by eapply walk_extends.
  - unfold vfs_resolve in Hres. destruct (root s =? 0); [done|].
    repeat (match goal with H : context [match ?x with _ => _ end] |- _ => destruct x; try done end).
Qed.

Lemma split_last_none p : split_last p = None -> split_slash p = [p].
Proof.
  induction p as [|d r IH]; [done|]. cbn [split_last split_slash].
  destruct (split_last r) as [[]|]; [done|]. destruct (d =? 47); [done|]. intros. by rewrite IH.
Qed.

Lemma split_last_spec p a b : split_last p = Some (a, b) -> p = a ++ 47 :: b /\ split_slash p = split_slash a ++ [b].
Proof.
  revert a. induction p as [|c r IH]; intros a; cbn [split_last]; [done|].
  destruct (split_last r) as [[a' b']|] eqn:E.
  - intros [= <- <-]. destruct (IH a' eq_refl) as [-> H2]. split; [done|]. cbn [app split_slash] in *.
    rewrite H2. destruct (c =? 47); [done|]. destruct (split_slash a') eqn:Ea; [by apply split_slash_nonempty in Ea|done].
  - destruct (Z.eqb_spec c 47) as [->|]; [|done]. intros [= <- <-]. split; [done|].
    cbn [split_slash Z.eqb Pos.eqb]. by rewrite split_last_none.
Qed.

Lemma split_last_slash p : exists a b, split_last (47 :: p) = Some (a, b).
Proof. cbn [split_last]. destruct (split_last p) as [[a b]|]; eauto. Qed.

Lemma get_or_create_total ty d name s :
  (forall h, (nh_alloc SIZEOF_NODE h).1 <> 0) -> exists x s', get_or_create ty d name s = (Some x, s').
Proof.
  intros Ha. unfold get_or_create, vfs_create_node. destruct (child_named _ _ _); [eauto|].
  specialize (Ha (vheap s)). destruct (nh_alloc _ _) as [p h]. cbn [fst] in Ha.
  rewrite !(proj2 (Z.eqb_neq _ _) Ha). eauto.
Qed.

Lemma ensure_tokens_total tokens cur s :
  (forall h, (nh_alloc SIZEOF_NODE h).1 <> 0) -> exists x s', ensure_tokens cur tokens s = (Some x, s').
Proof.
  intros Ha. revert cur s. induction tokens as [|[|a t] ts IH]; intros cur s; cbn [ensure_tokens]; [eauto|auto|].
  destruct (get_or_create_total VFS_DIRECTORY cur (a :: t) s Ha) as (x & s' & E).
  change (vfs_get_or_create_dir cur (a :: t) s) with (get_or_create VFS_DIRECTORY cur (a :: t) s). rewrite E. apply IH.
Qed.

(** [vfs_create_file] is the walk to the directory, then the file. *)
Lemma vfs_create_file_eq s path dirs name :
  root s <> 0 -> (length path <= 255)%nat -> split_slash path = [] :: dirs ++ [name] ->
  vfs_create_file path s =
    match ensure_tokens (root s) dirs s with
    | (None, s) => (None, s)
    | (Some d, s) => get_or_create VFS_FILE d name s
    end.
Proof.
  intros Hr Hlen Hsp. destruct path as [|c p]; [cbn in Hsp; by destruct dirs|].
  assert (c = 47) as ->.
  { destruct (decide (c = 47)) as [|Hc]; [done|]. cbn [split_slash] in Hsp.
    rewrite (proj2 (Z.eqb_neq _ _) Hc) in Hsp. by destruct (split_slash p). }
  unfold vfs_create_file. rewrite (proj2 (Z.eqb_neq _ _) Hr), take_ge by done.
  destruct (split_last_slash p) as (a & b & E). rewrite E. apply split_last_spec in E as [E1 E2].
  rewrite Hsp in E2. destruct a as [|a0 a].
  - cbn [split_slash app] in E2. injection E2 as E2. apply (app_inj_2 dirs []) in E2 as [-> [= <-]]; [|done]. done.
  - injection E1 as <- E1. cbn [split_slash Z.eqb Pos.eqb app] in E2. injection E2 as E2.
    apply app_inj_2 in E2 as [-> [= <-]]; [|done]. done.
Qed.
Lemma split_slash_snoc p : split_slash (p ++ [47]) = split_slash p ++ [[]].
Proof.
  induction p as [|c r IH]; [done|]. cbn [app split_slash]. rewrite IH. destruct (c =? 47); [done|].
  destruct (split_slash r) eqn:E; [by apply split_slash_nonempty in E|done].
Qed.

Lemma last_char_slash path dirs name : split_slash path = dirs ++ [name] -> name <> [] -> last_char path <> 47.
Proof.
  intros Hs Hn Hl. destruct path as [|c r] using rev_ind; [done|]. clear IHr.
  unfold last_char in Hl. rewrite List.last_last in Hl. subst c. rewrite split_slash_snoc in Hs.
  apply app_inj_2 in Hs as [_ [= Hs]]; [|done]. congruence.
Qed.

(** The part of [tar_entry] that stores a file in its directory. *)
Definition place_file (d : Z) (name : list Z) (size : Z) (data : list Z) s : vfs KH :=
  let '(f, s) := vfs_create_node name VFS_FILE s in
  if f =? 0 then s
  else
    let '(buf, h) := nh_alloc size (vheap s) in
    let s := set_heap h s in
    if buf =? 0 then s else link_child d f (set_node f (set_data buf (take (Z.to_nat size) data) (node_at s f)) s).

Lemma tar_entry_file s dirs name path typeflag size data :
  (length path <= 255)%nat -> split_slash path = dirs ++ [name] -> name <> [] -> typeflag = 48 \/ typeflag = 0 ->
  tar_entry path typeflag size data s =
    match ensure_tokens (root s) dirs s with
    | (None, s) => (false, s)
    | (Some d, s) => (true, place_file d name size data s)
    end.
Proof.
  intros Hlen Hsp Hn Hty. unfold tar_entry. rewrite (proj2 (Z.eqb_neq _ _) (last_char_slash _ _ _ Hsp Hn)), take_ge by done.
  replace ((typeflag =? 53) || false) with false by (destruct Hty; subst; done).
  replace ((typeflag =? 48) || (typeflag =? 0)) with true by (destruct Hty; subst; done).
  cbv zeta. destruct (split_last path) as [[a f]|] eqn:E.
  - destruct (split_last_spec _ _ _ E) as [_ E2]. rewrite Hsp in E2. apply app_inj_2 in E2 as [-> [= ->]]; [|done].
    unfold vfs_ensure_path. destruct (ensure_tokens _ _ _) as [[d|] s1]; [|done]. unfold place_file.
    destruct (vfs_create_node f VFS_FILE s1) as [p s2]. destruct (p =? 0); [done|]. by destruct (nh_alloc _ _) as [? ?]; destruct (_ =? 0).
  - apply split_last_none in E. rewrite Hsp in E. apply (app_inj_2 dirs []) in E as [-> [= ->]]; [|done].
    cbn [ensure_tokens]. unfold place_file.
    destruct (vfs_create_node path VFS_FILE s) as [p s2]. destruct (p =? 0); [done|]. by destruct (nh_alloc _ _) as [? ?]; destruct (_ =? 0).
Qed.

Lemma place_file_spec s d name size data :
  tree_ok s -> is_Some (nodes s !! d) -> short name -> 0 < size -> (forall n h, 0 < n -> (nh_alloc n h).1 <> 0) ->
  child_named s d name = None ->
  let s' := place_file d name size data s in
  exists p, tree_ok s' /\ extends s s' /\ is_Some (nodes s' !! p) /\ n_data (node_at s' p) = take (Z.to_nat size) data /\
    (forall nm, child_named s' d nm = if bool_decide (name = nm) then Some p else child_named s d nm).
Proof.
  intros Ht Hd Hsn Hsz Ha Hno. unfold place_file, vfs_create_node.
  pose proof (Ha SIZEOF_NODE (vheap s) ltac:(done)) as Hp.
  destruct (nh_alloc SIZEOF_NODE (vheap s)) as [p h] eqn:Ea1. cbn [fst] in Hp.
  assert (short_name name = name) as -> by (apply take_ge; done).
  rewrite (proj2 (Z.eqb_neq p 0) Hp). cbv iota zeta. rewrite (proj2 (Z.eqb_neq p 0) Hp). cbn [set_node set_heap vheap].
  pose proof (Ha size h Hsz) as Hb. destruct (nh_alloc size h) as [b h2] eqn:Ea2. cbn [fst] in Hb.
  rewrite (proj2 (Z.eqb_neq b 0) Hb).
  destruct (nh_fresh _ _ _ _ Ea1 Hp) as [Hnl Hpl].
  destruct (link_new s d p (mkNode name VFS_FILE (take (Z.to_nat size) data) b 0 0 []) h2)
    as (Ht2 & Hp2 & Hdata & _ & Hcn & Hext); try done.
  { by eapply nh_keeps. }
  { intros q Hq. eapply nh_keeps; [exact Ea2|]. by eapply nh_keeps. }
  match type of Ht2 with tree_ok ?x => match goal with |- exists p, tree_ok ?y /\ _ => replace y with x end end.
  - exists p. split_and!; auto.
  - unfold node_at, set_node, set_heap. cbn [nodes root pool_used vheap]. by rewrite lookup_insert_eq, insert_insert_eq.
Qed.

(** A regular file of the archive, in whatever directory, at a new path. *)
Lemma tar_file_entry s dirs name path typeflag size data :
  tree_ok s -> root s <> 0 -> is_Some (nodes s !! root s) -> (length path <= 255)%nat ->
  split_slash path = dirs ++ [name] -> Forall short (dirs ++ [name]) -> name <> [] ->
  typeflag = 48 \/ typeflag = 0 -> 0 < size -> (forall n h, 0 < n -> (nh_alloc n h).1 <> 0) ->
  walk s (root s) (dirs ++ [name]) = None ->
  exists x s', tar_entry path typeflag size data s = (true, s') /\ tree_ok s' /\ extends s s' /\
    walk s' (root s) (dirs ++ [name]) = Some x /\ is_Some (nodes s' !! x) /\
    n_data (node_at s' x) = take (Z.to_nat size) data /\
    (dirs = [] -> forall nm, nm <> name -> child_named s' (root s) nm = child_named s (root s) nm).
Proof.
  intros Ht Hr Hrn Hlen Hsp Hf Hn Hty Hsz Ha Hnew. rewrite (tar_entry_file s dirs name) by done.
  destruct (ensure_tokens_total dirs (root s) s) as (d & s1 & He).
  { intros h. by apply Ha. }
  rewrite He. apply Forall_app in Hf as [Hfd Hfn]. inversion Hfn as [|? ? Hsn _]; subst.
  destruct (ensure_tokens_spec _ _ _ _ _ Ht Hfd Hrn He) as (Ht1 & He1 & Hw1 & Hd & Hcase & _).
  assert (child_named s1 d name = None) as Hno.
  { destruct Hcase as [[Hw ->]|Hc]; [|unfold child_named; by rewrite Hc].
    rewrite walk_app, Hw in Hnew. cbn [walk] in Hnew. destruct name; [done|]. by destruct (child_named s d _). }
  destruct (place_file_spec s1 d name size data) as (p & Ht2 & Hext & Hp & Hdata & Hcn); try done.
  eexists p, _. split; [done|]. split_and!; [done|by etrans| |done|done|].
  - rewrite walk_app, (walk_extends _ _ _ _ _ Hext Hw1). cbn [walk]. destruct name; [done|].
    by rewrite Hcn, bool_decide_true.
  - intros -> nm Hnm. cbn in He. injection He as <- <-. by rewrite Hcn, bool_decide_false.
Qed.
(** ** Archives

    A ustar archive of regular files, as [tar] writes it: one header block per
    file, the contents padded to whole blocks, two blocks of zeros. *)

Fixpoint octal (n : nat) (v : Z) : list Z :=
  match n with O => [] | S n' => octal n' (v / 8) ++ [48 + v mod 8] end.

Definition tar_head (name : list Z) (size : Z) : list Z :=
  name ++ replicate (100 - length name) 0 ++ replicate 24 48 ++ (octal 11 size ++ [0]) ++ replicate 20 48 ++ [48] ++ replicate 355 0.

Definition tar_pad (size : Z) : nat := Z.to_nat ((size + 511) / 512 * 512 - size).

Definition tar_member (f : list Z * list Z) : list Z :=
  tar_head f.1 (zlen f.2) ++ f.2 ++ replicate (tar_pad (zlen f.2)) 0.

Definition tar_archive (files : list (list Z * list Z)) : list Z := concat (map tar_member files) ++ replicate 1024 0.

Lemma octal_length n v : length (octal n v) = n.
Proof. revert v. induction n as [|n IH]; intros v; cbn [octal]; [done|]. rewrite length_app, IH. cbn. lia. Qed.

Lemma parse_octal_app n v r acc :
  0 <= acc -> 0 <= v < 8 ^ Z.of_nat n -> acc * 8 ^ Z.of_nat n + v < 2 ^ 64 ->
  tar_parse_octal (octal n v ++ r) acc = tar_parse_octal r (acc * 8 ^ Z.of_nat n + v).
Proof.
  revert v r acc. induction n as [|n IH]; intros v r acc Ha Hv Hb; cbn [octal app].
  - change (8 ^ Z.of_nat 0) with 1 in *. f_equal. lia.
  - replace (Z.of_nat (S n)) with (1 + Z.of_nat n) in * by lia. rewrite Z.pow_add_r, Z.pow_1_r in * by lia.
    set (k := 8 ^ Z.of_nat n) in *. rewrite <- app_assoc, IH; fold k; [|lia|lia|nia].
    cbn [app tar_parse_octal]. replace ((48 <=? 48 + v mod 8) && (48 + v mod 8 <=? 55)) with true.
    + f_equal. rewrite u64_small; [|split; [nia|]]; [lia|]. lia.
    + symmetry. apply andb_true_iff. split; apply Z.leb_le; lia.
Qed.

Lemma tar_head_length name size : (length name <= 100)%nat -> length (tar_head name size) = 512%nat.
Proof. intros. unfold tar_head. rewrite !length_app, !length_replicate, octal_length. cbn [length]. lia. Qed.

Lemma c_string_app l r : Forall (fun c => c <> 0) l -> c_string (l ++ 0 :: r) = l.
Proof.
  induction 1 as [|c l Hc _ IH]; [done|]. cbn [app c_string]. by rewrite (proj2 (Z.eqb_neq _ _) Hc), IH.
Qed.

Lemma tar_head_fields name size r :
  (length name < 100)%nat -> Forall (fun c => c <> 0) name -> 0 <= size < 8 ^ 11 ->
  tar_name (tar_head name size ++ r) = name /\ tar_size (tar_head name size ++ r) = size /\
  tar_typeflag (tar_head name size ++ r) = 48.
Proof.
  intros Hl Hz Hs. unfold tar_head. split_and!.
  - unfold tar_name. destruct (100 - length name)%nat as [|k] eqn:E; [lia|].
    cbn [replicate]. rewrite <- !app_assoc. cbn [app]. by apply c_string_app.
  - unfold tar_size. rewrite <- !app_assoc.
    rewrite (app_assoc name), (app_assoc (name ++ _)).
    rewrite drop_app_length' by (rewrite !length_app, !length_replicate; lia).
    rewrite take_app, octal_length, take_ge by (rewrite octal_length; lia).
    rewrite parse_octal_app by (change (Z.of_nat 11) with 11; lia). cbn. lia.
  - unfold tar_typeflag, znth, zlookup. cbn [Z.ltb Z.compare Z.to_nat]. change (Pos.to_nat 156) with 156%nat.
    rewrite <- !app_assoc. rewrite (app_assoc name), (app_assoc (name ++ _)), (app_assoc ((name ++ _) ++ _)),
      (app_assoc (((name ++ _) ++ _) ++ _)), (app_assoc ((((name ++ _) ++ _) ++ _) ++ _)).
    rewrite lookup_app_r; rewrite !length_app, !length_replicate, octal_length; cbn [length]; [|lia].
    by replace (Z.to_nat 156 - (length name + (100 - length name) + 24 + 11 + 1 + 20))%nat with 0%nat by lia.
Qed.
Lemma tar_round_eq n : 0 <= n < 2 ^ 63 -> tar_round n = (n + 511) / 512 * 512.
Proof.
  intros Hn. unfold tar_round, TAR_BLOCK. change (512 - 1) with (2 ^ 9 - 1). rewrite land_align_down by (try apply u64_range; lia).
  rewrite !u64_small; rewrite ?u64_small; lia.
Qed.

(** Files a flat archive can hold: a plain name, contents that are not empty
    and whose size fits the octal field. *)
Record good_file (f : list Z * list Z) : Prop := {
  g_name : f.1 <> [];
  g_short : short f.1;
  g_chars : Forall (fun c => c <> 0 /\ c <> 47) f.1;
  g_data : f.2 <> [];
  g_size : zlen f.2 < 8 ^ 11;
}.

Lemma split_slash_plain l : Forall (fun c => c <> 0 /\ c <> 47) l -> split_slash l = [l].
Proof.
  induction 1 as [|c l [_ Hc] _ IH]; [done|]. cbn [split_slash]. by rewrite (proj2 (Z.eqb_neq _ _) Hc), IH.
Qed.

Lemma tar_loop_member fl f rest size s :
  good_file f -> 512 <= size ->
  tar_loop (S fl) (tar_member f ++ rest) size s =
    match tar_entry f.1 48 (zlen f.2) (f.2 ++ replicate (tar_pad (zlen f.2)) 0 ++ rest) s with
    | (false, s) => Some (false, s)
    | (true, s) => tar_loop fl rest (size - zlen (tar_member f)) s
    end.
Proof.
  intros [Hn Hs Hc Hd Hz] Hsz. destruct f as [name data]. cbn [fst snd] in *. unfold short in Hs.
  assert (Forall (fun c => c <> 0) name) as Hc0 by (eapply List.Forall_impl; [|exact Hc]; by intros ? []).
  assert (length (tar_head name (zlen data)) = 512%nat) as Hhl by (apply tar_head_length; lia).
  unfold tar_member. cbn [fst snd tar_loop]. rewrite <- app_assoc.
  destruct (tar_head_fields name (zlen data) ((data ++ replicate (tar_pad (zlen data)) 0) ++ rest)) as (H1 & H2 & H3);
    [lia|done|unfold zlen in *; lia|].
  rewrite H1, H2, H3. unfold TAR_BLOCK at 1. rewrite (proj2 (Z.ltb_ge size 512)) by lia.
  assert (zlen data < 2 ^ 36) as Hz36 by (change (8 ^ 11) with (2 ^ 33) in Hz; lia).
  assert ((znth 0 (tar_head name (zlen data) ++ (data ++ replicate (tar_pad (zlen data)) 0) ++ rest) 0 =? 0) = false) as ->.
  { destruct name as [|c name]; [done|]. inversion Hc0; subst. unfold tar_head, znth, zlookup. cbn. by apply Z.eqb_neq. }
  assert (match name with 46 :: 47 :: r => r | _ => name end = name) as ->.
  { inversion Hc as [|c1 l1 [] Hl1]; subst; [done|]. inversion Hl1 as [|c2 l2 [] Hl2]; subst;
      repeat (match goal with |- context [match ?x with _ => _ end] => destruct x; try done end). }
  rewrite (drop_app_length' _ _ 512) by done. rewrite <- (app_assoc data).
  assert (Z.to_nat (u64 (TAR_BLOCK + tar_round (zlen data))) =
          length (tar_head name (zlen data) ++ data ++ replicate (tar_pad (zlen data)) 0)) as Hadv.
  { rewrite !length_app, length_replicate, Hhl. unfold tar_pad, TAR_BLOCK. unfold zlen in *.
    rewrite tar_round_eq, u64_small by lia. lia. }
  rewrite (app_assoc data), (app_assoc (tar_head _ _)), drop_app_length' by done.
  assert (u64 (TAR_BLOCK + tar_round (zlen data)) =
          zlen (tar_head name (zlen data) ++ data ++ replicate (tar_pad (zlen data)) 0)) as ->.
  { unfold zlen at 2. rewrite <- Hadv. pose proof (u64_range (TAR_BLOCK + tar_round (zlen data))). lia. }
  rewrite <- (app_assoc data). destruct name; done.
Qed.
Lemma tar_loop_files files fuel s :
  tree_ok s -> root s <> 0 -> is_Some (nodes s !! root s) -> (forall n h, 0 < n -> (nh_alloc n h).1 <> 0) ->
  Forall good_file files -> NoDup (map fst files) -> Forall (fun f => child_named s (root s) f.1 = None) files ->
  (length files < fuel)%nat ->
  exists s', tar_loop fuel (tar_archive files) (zlen (tar_archive files)) s = Some (true, s') /\
    tree_ok s' /\ extends s s' /\
    Forall (fun f => exists x, child_named s' (root s) f.1 = Some x /\ is_Some (nodes s' !! x) /\ n_data (node_at s' x) = f.2) files.
Proof.
  intros Ht Hr Hrn Ha Hg. revert fuel s Ht Hr Hrn. induction Hg as [|f files Hf Hg IH]; intros fuel s Ht Hr Hrn Hnd Hno Hfuel.
  - destruct fuel as [|fl]; [cbn in Hfuel; lia|]. exists s. split_and!; [done|done|reflexivity|constructor].
  - destruct fuel as [|fl]; [cbn in Hfuel; lia|]. cbn [map] in Hnd. inversion Hnd as [|? ? Hnin Hnd']; subst; clear Hnd; rename Hnd' into Hnd.
    inversion Hno as [|? ? Hn1 Hno']; subst.
    assert (tar_archive (f :: files) = tar_member f ++ tar_archive files) as ->.
    { unfold tar_archive. cbn [map concat]. by rewrite app_assoc. }
    assert (512 <= zlen (tar_member f ++ tar_archive files)) as H512.
    { unfold tar_archive, zlen. rewrite !length_app, length_replicate. lia. }
    rewrite tar_loop_member by done.
    destruct (tar_file_entry s [] f.1 f.1 48 (zlen f.2) (f.2 ++ replicate (tar_pad (zlen f.2)) 0 ++ tar_archive files))
      as (x & s1 & He & Ht1 & Hx1 & Hw & Hnx & Hdata & Hother); try done; try apply Hf; try by left.
    { pose proof (g_short _ Hf). unfold short in *. lia. }
    { apply split_slash_plain, Hf. }
    { constructor; [apply Hf|constructor]. }
    { pose proof (g_data _ Hf) as Hd. unfold zlen. destruct f.2; cbn [length]; [done|lia]. }
    { cbn [walk app]. destruct f.1 eqn:En; [by destruct (g_name _ Hf)|]. by rewrite Hn1. }
    rewrite He. replace (zlen (tar_member f ++ tar_archive files) - zlen (tar_member f)) with (zlen (tar_archive files))
      by (unfold zlen; rewrite length_app; lia).
    destruct (IH fl s1) as (s2 & H1 & H2 & H3 & H4); try done.
    { by rewrite (e_root _ _ Hx1). }
    { rewrite (e_root _ _ Hx1). by apply Hx1. }
    { rewrite (e_root _ _ Hx1). apply List.Forall_forall. intros g Hi. rewrite Hother; [|done|].
      - eapply List.Forall_forall in Hno'; eauto.
      - intros E. apply Hnin. rewrite <- E. by apply list_elem_of_In, in_map. }
    { cbn [length] in Hfuel. lia. }
    rewrite (e_root _ _ Hx1) in *. exists s2. split_and!; [done|done|by etrans|]. constructor; [|done].
    exists x. cbn [walk app] in Hw. destruct f.1 as [|c n] eqn:En; [by destruct (g_name _ Hf)|].
    destruct (child_named s1 (root s) (c :: n)) eqn:Ec; [|done]. injection Hw as ->.
    split_and!; [by apply H3|by apply H3|]. rewrite (e_data _ _ H3), Hdata by done.
    by rewrite take_app_length' by (unfold zlen; lia).
Qed.


Lemma tar_parse_octal_bound l acc n :
  (length l <= n)%nat -> 0 <= acc -> (acc + 1) * 8 ^ Z.of_nat n <= 2 ^ 64 ->
  0 <= tar_parse_octal l acc < (acc + 1) * 8 ^ Z.of_nat n.
Proof.
  revert acc n. induction l as [|c l IH]; intros acc n Hn Ha Hb; cbn [tar_parse_octal].
  - assert (0 < 8 ^ Z.of_nat n) by lia. nia.
  - destruct n as [|n]; [cbn in Hn; lia|]. assert (0 < 8 ^ Z.of_nat n) as Hk by lia.
    replace (Z.of_nat (S n)) with (1 + Z.of_nat n) in * by lia. rewrite Z.pow_add_r, Z.pow_1_r in * by lia.
    specialize (fun acc => IH acc n). remember (8 ^ Z.of_nat n) as q eqn:Hq. clear Hq. destruct (_ && _) eqn:E; [|nia]. bool_hyps.
    assert (u64 (acc * 8 + (c - 48)) = acc * 8 + (c - 48)) as -> by (apply u64_small; nia).
    destruct (IH (acc * 8 + (c - 48))); [cbn in Hn; lia|lia|nia|]. nia.
Qed.

(** Loading the ramdisk ends, whatever bytes the archive holds: every
    turn of the loop advances by at least a block. *)
Theorem vfs_load_initrd_total img size s : 0 <= size -> exists b s', vfs_load_initrd img size s = Some (b, s').
Proof.
  intros Hs. unfold vfs_load_initrd. set (r := if root s =? 0 then _ else _). destruct r as [ok s0]. clear s.
  destruct ok; cbn [negb]; [|eauto]. assert (size < 512 * Z.of_nat (S (Z.to_nat (size / TAR_BLOCK)))) as Hf by (unfold TAR_BLOCK; lia).
  revert Hf. assert (0 < S (Z.to_nat (size / TAR_BLOCK)))%nat as H0 by lia. revert H0.
  generalize (S (Z.to_nat (size / TAR_BLOCK))) as fuel. clear Hs. intros fuel. revert img size s0.
  induction fuel as [|fl IH]; intros img size s0 H0 Hf; cbn [tar_loop]; [lia|].
  destruct (Z.ltb_spec size TAR_BLOCK) as [|Hge]; [eauto|]. destruct (_ =? 0); [eauto|]. unfold TAR_BLOCK in Hge.
  assert (512 <= u64 (TAR_BLOCK + tar_round (tar_size img)) ) as Hadv.
    { destruct (tar_parse_octal_bound (take 12 (drop 124 img)) 0 12) as [H1 H2]; [rewrite length_take; lia|lia|lia|].
      fold (tar_size img) in *. change ((0 + 1) * 8 ^ Z.of_nat 12) with (2 ^ 36) in H2.
      rewrite tar_round_eq by lia. unfold TAR_BLOCK. rewrite u64_small; lia. }
  set (name := match tar_name img with 46 :: 47 :: r => r | _ => tar_name img end). destruct name as [|c name].
  - apply IH; lia.
  - destruct (tar_entry _ _ _ _ _) as [[] s1]; [|eauto]. apply IH; lia.
Qed.

(** ** Contents *)

Lemma overwrite_spec data offset buf :
  0 <= offset -> offset + zlen buf <= zlen data ->
  zlen (overwrite data offset buf) = zlen data /\
  forall i, znth 0 (overwrite data offset buf) i =
    if (offset <=? i) && (i <? offset + zlen buf) then znth 0 buf (i - offset) else znth 0 data i.
Proof.
  intros Ho Hl. unfold overwrite, zlen, znth, zlookup in *. split.
  { rewrite !length_app, length_take, length_drop. lia. }
  intros i. destruct (Z.ltb_spec i 0).
  { by rewrite (proj2 (Z.leb_gt offset i)) by lia. }
  rewrite lookup_app, lookup_app, length_take, lookup_drop.
  destruct (Z.leb_spec offset i); cbn [andb].
  - rewrite lookup_take_ge by lia. destruct (Z.ltb_spec i (offset + Z.of_nat (length buf))).
    + rewrite (proj2 (Z.ltb_ge (i - offset) 0)) by lia.
      replace (Z.to_nat i - Z.to_nat offset `min` length data)%nat with (Z.to_nat (i - offset)) by lia.
      destruct (buf !! Z.to_nat (i - offset)) eqn:E; [done|]. apply lookup_ge_None in E. lia.
    + rewrite lookup_ge_None_2 by lia. do 2 f_equal. lia.
  - rewrite lookup_take_lt by lia. destruct (data !! Z.to_nat i) eqn:E; [done|]. apply lookup_ge_None in E. lia.
Qed.

Lemma overwrite_read data offset buf :
  0 <= offset -> offset + zlen buf <= zlen data ->
  take (length buf) (drop (Z.to_nat offset) (overwrite data offset buf)) = buf.
Proof.
  intros Ho Hl. unfold overwrite, zlen in *. rewrite drop_app_length' by (rewrite length_take; lia).
  by rewrite take_app_length.
Qed.

(** The contents [vfs_write] leaves: the old bytes, zeros in a gap, the buffer. *)
Lemma written_spec (junk : list Z -> Z -> list Z) data offset buf :
  0 <= offset -> (forall d k, zlen (junk d k) = Z.max 0 k) ->
  let sz := zlen data in let end_ := offset + zlen buf in
  let data1 := data ++ junk data (end_ - sz) in
  let data2 := if sz <? offset then overwrite data1 sz (replicate (Z.to_nat (offset - sz)) 0) else data1 in
  let new := overwrite (if sz <? end_ then data2 else data) offset buf in
  zlen new = Z.max sz end_ /\ take (length buf) (drop (Z.to_nat offset) new) = buf /\
  forall i, znth 0 new i = if (offset <=? i) && (i <? end_) then znth 0 buf (i - offset) else znth 0 data i.
Proof.
  intros Ho Hj sz end_ data1 data2 new.
  assert (0 <= sz) by (unfold sz, zlen; lia). assert (offset <= end_) by (unfold end_, zlen; lia).
  destruct (Z.ltb_spec sz end_) as [Hgrow|Hno].
  2: { unfold new. rewrite overwrite_read by done. destruct (overwrite_spec data offset buf) as [-> Hi]; [done|done|].
       split_and!; [lia|done|exact Hi]. }
  assert (zlen data1 = end_) as Hl1.
  { unfold data1, zlen in *. rewrite length_app. specialize (Hj data (end_ - sz)). unfold sz in *. lia. }
  assert (zlen data2 = end_ /\ forall i, i < offset \/ end_ <= i -> znth 0 data2 i = znth 0 data i) as [Hl2 Hz2].
  { assert (forall i, i < sz \/ end_ <= i -> znth 0 data1 i = znth 0 data i) as Hd1.
    { intros i [Hi|Hi]; [|rewrite !znth_ge; [done|fold sz; lia|lia]]. unfold znth, zlookup, data1. destruct (i <? 0) eqn:E; [done|].
      apply Z.ltb_ge in E. rewrite lookup_app_l; [done|]. unfold sz, zlen in *. lia. }
    unfold data2. destruct (Z.ltb_spec sz offset) as [Hgap|Hgap].
    - assert (zlen (replicate (Z.to_nat (offset - sz)) 0) = offset - sz) as Hlr by (unfold zlen; rewrite length_replicate; lia).
      destruct (overwrite_spec data1 sz (replicate (Z.to_nat (offset - sz)) 0)) as [-> Hi]; [lia|lia|].
      split; [done|]. intros i Hio. rewrite Hi, Hlr. destruct (_ && _) eqn:E; bool_hyps.
      + rewrite (znth_ge 0 data) by (fold sz; lia). unfold znth, zlookup.
        rewrite (proj2 (Z.ltb_ge _ _)), lookup_replicate_2 by lia. done.
      + apply Hd1. apply andb_false_iff in E as [E|E]; bool_hyps; lia.
    - split; [done|]. intros i Hi. apply Hd1. lia. }
  unfold new. rewrite overwrite_read by (fold end_; lia).
  destruct (overwrite_spec data2 offset buf) as [-> Hi]; [done|fold end_; lia|]. split_and!; [lia|done|].
  intros i. rewrite Hi. fold end_. destruct (_ && _) eqn:E; [done|]. apply Hz2.
  apply andb_false_iff in E as [E|E]; bool_hyps; lia.
Qed.

(** C11: a write at any offset, within memory, returns the number of bytes;
    reading there gives the bytes back, a gap past the old end reads as zeros,
    every other byte of the file and every other node is unchanged. *)
Theorem vfs_write_read junk mm node buf offset s :
  node <> 0 -> n_type (node_at s node) = VFS_FILE -> 0 <= offset -> zlen buf < 2 ^ 31 -> offset + zlen buf < 2 ^ 64 ->
  (nh_realloc (n_payload (node_at s node)) (offset + zlen buf) (vheap s)).1 <> 0 -> (forall d k, zlen (junk d k) = Z.max 0 k) ->
  let old := n_data (node_at s node) in
  exists s', vfs_write junk node buf offset s = (zlen buf, s') /\
    vfs_read tbl mm node (zlen buf) offset s' = (zlen buf, buf) /\
    zlen (n_data (node_at s' node)) = Z.max (zlen old) (offset + zlen buf) /\
    (forall i, znth 0 (n_data (node_at s' node)) i =
       if (offset <=? i) && (i <? offset + zlen buf) then znth 0 buf (i - offset) else znth 0 old i) /\
    (forall q, q <> node -> nodes s' !! q = nodes s !! q).
Proof.
  intros Hn Hty Ho Hb He Ha Hj old. unfold vfs_write. rewrite (proj2 (Z.eqb_neq _ _) Hn), Hty, bool_decide_true by done.
  assert (0 <= zlen buf) by (unfold zlen; lia). cbn [orb negb]. rewrite u64_small by lia. fold old.
  destruct (nh_realloc _ _ _) as [g h]. cbn [fst] in Ha. rewrite (proj2 (Z.eqb_neq _ _) Ha), s32_small by lia.
  destruct (written_spec junk old offset buf Ho Hj) as (Hl & Hr & Hi). cbv zeta in *.
  assert (forall s0 ptr d, nodes s0 = nodes s -> zlen d = Z.max (zlen old) (offset + zlen buf) ->
    take (length buf) (drop (Z.to_nat offset) d) = buf ->
    (forall i, znth 0 d i = if (offset <=? i) && (i <? offset + zlen buf) then znth 0 buf (i - offset) else znth 0 old i) ->
    exists s', (zlen buf, set_node node (set_data ptr d (node_at s node)) s0) = (zlen buf, s') /\
      vfs_read tbl mm node (zlen buf) offset s' = (zlen buf, buf) /\
      zlen (n_data (node_at s' node)) = Z.max (zlen old) (offset + zlen buf) /\
      (forall i, znth 0 (n_data (node_at s' node)) i =
         if (offset <=? i) && (i <? offset + zlen buf) then znth 0 buf (i - offset) else znth 0 old i) /\
      (forall q, q <> node -> nodes s' !! q = nodes s !! q)) as Hfin.
  { intros s0 ptr d Hs0 Hld Htk Hid. eexists. split; [done|]. unfold vfs_read. rewrite (proj2 (Z.eqb_neq _ _) Hn).
    rewrite !node_at_set, !decide_True by done. cbn [set_data n_type n_data]. rewrite Hty, Hld. split_and!; [|done|done|].
    - destruct (Z.leb_spec (Z.max (zlen old) (offset + zlen buf)) offset).
      + assert (zlen buf = 0) as -> by lia. f_equal. symmetry. apply nil_length_inv. unfold zlen in *. lia.
      + destruct (Z.ltb_spec (zlen buf) (Z.max (zlen old) (offset + zlen buf) - offset)).
        * rewrite s32_small by lia. unfold zlen at 2. by rewrite Nat2Z.id, Htk.
        * replace (Z.max (zlen old) (offset + zlen buf) - offset) with (zlen buf) by lia.
          rewrite s32_small by lia. unfold zlen at 2. by rewrite Nat2Z.id, Htk.
    - intros q Hq. cbn [set_node nodes]. by rewrite lookup_insert_ne, Hs0. }
  destruct (zlen old <? offset + zlen buf); by apply Hfin.
Qed.
End Paths.

(** ** Witnesses: a heap that hands out increasing addresses *)

#[export] Instance bump_heap : NodeHeap positive :=
  { nh_alloc n h := if n <=? 0 then (0, h) else (Zpos h, (h + Z.to_pos n)%positive);
    nh_realloc _ n h := if n <=? 0 then (0, h) else (Zpos h, (h + Z.to_pos n)%positive);
    nh_free _ h := h }.

#[export] Instance bump_laws : NodeHeapLaws positive.
Proof.
  refine {| nh_live h p := 0 < p < Zpos h |}.
  - intros n h p h'. cbn. destruct (Z.leb_spec n 0); intros [= <- <-] Hp; [done|]. split; [lia|].
    rewrite Pos2Z.inj_add. lia.
  - intros n h p h' q. cbn. destruct (Z.leb_spec n 0); intros [= <- <-] Hq; [done|]. rewrite Pos2Z.inj_add. lia.
  - done.
  - done.
  - intros p n h p' h' Hn. cbn. rewrite (proj2 (Z.leb_gt n 0)) by done. intros [= <- <-] _. split; [right; lia|]. rewrite Pos2Z.inj_add. lia.
  - intros p n h p' h' q Hn. cbn. rewrite (proj2 (Z.leb_gt n 0)) by done. intros [= <- <-] Hq _. rewrite Pos2Z.inj_add. lia.
Defined.

Definition demo_vfs : vfs positive := vfs_init (mkVfs ∅ 0 0 4096%positive).

Lemma demo_tree_ok : tree_ok demo_vfs.
Proof.
  assert (nodes demo_vfs = {[4096 := mkNode [47] VFS_DIRECTORY [] 0 0 0 []]}) as Hn by reflexivity.
  assert (forall p, node_at demo_vfs p = if decide (4096 = p) then mkNode [47] VFS_DIRECTORY [] 0 0 0 [] else node0) as Hat.
  { intros p. unfold node_at. rewrite Hn. destruct (decide (4096 = p)) as [<-|]; [done|]. by rewrite lookup_singleton_ne. }
  split.
  - intros p n. rewrite Hn, lookup_singleton_Some. intros [<- _]. cbn. lia.
  - intros p c. rewrite Hat. by destruct (decide _).
  - intros p. rewrite Hat. by destruct (decide _).
Qed.



Lemma vfs_write_read_witness :
  let mm := pmm_boot (fun _ => 0) in
  let s := (vfs_create_file (bs "/f") demo_vfs).2 in
  exists s', vfs_write (fun _ k => replicate (Z.to_nat k) 170) 4216 [1; 2] 3 s = (2, s') /\
    vfs_read demo_sched mm 4216 2 3 s' = (2, [1; 2]) /\ zlen (n_data (node_at s' 4216)) = 5.
Proof.
  cbv zeta.
  destruct (vfs_write_read demo_sched (fun _ k => replicate (Z.to_nat k) 170) (pmm_boot (fun _ => 0)) 4216 [1; 2] 3
              (vfs_create_file (bs "/f") demo_vfs).2) as (s' & H1 & H2 & H3 & _).
  - done.
  - reflexivity.
  - lia.
  - unfold zlen. cbn [length]. lia.
  - unfold zlen. cbn [length]. lia.
  - done.
  - intros d k. unfold zlen. rewrite length_replicate. lia.
  - exists s'. split; [exact H1|split; [exact H2|exact H3]].
Defined.

Lemma vfs_load_initrd_total_witness : exists b s', vfs_load_initrd [46; 47] 5000 demo_vfs = Some (b, s').
Proof. apply vfs_load_initrd_total. lia. Defined.
