(* ===== verification/Block.v ===== *)
(** * Block devices and partitions (kernel/src/drivers/blockdev.c, kernel/src/fs/partition.c)

    The registry of block devices and the MBR scanner that adds partitions to
    it.  The disk itself is a parameter, the class [Disk]: what a driver's
    read stores in the buffer and returns, and what a write does.  The tables
    [devices] and [parts] are the entries in use; the counters are their
    lengths.  A name is the text before its terminator. *)
From S2P Require Import Prelude Mem FrameAlloc Pmm Task Sched Libk Vfs.

(** [disk_read d id lba n]: the driver's result and the bytes it stored. *)
Class Disk (D : Type) := {
  disk_read : D -> Z -> Z -> Z -> Z * list Z;
  disk_write : D -> Z -> Z -> list Z -> Z * D;
}.

Definition BLOCKDEV_MAX : Z := 16.
Definition BLOCKDEV_NAME_MAX : nat := 16.
Definition MBR_SIZE : Z := 512.
Definition MBR_PARTITION_COUNT : nat := 4.
Definition PART_MAX : Z := 32.

(** The callbacks: a driver's or [part_read_cb]. *)
Inductive block_fn := FnDriver | FnPart.

Record blockdev := mkDev {
  bd_name : list Z;
  bd_id : Z;
  bd_sectors : Z;
  bd_read : option block_fn;
  bd_write : option block_fn;
}.

Record part_info := mkPart {
  pi_parent : list Z;
  pi_num : Z;
  pi_offset : Z;
  pi_sectors : Z;
  pi_type : Z;
}.

Record blocks := mkBlocks { devices : list blockdev; parts : list part_info }.

Definition blockdev_init (b : blocks) : blocks := mkBlocks [] (parts b).

(** [strncpy(d, name, 15); d[15] = 0] *)
Definition dev_short_name (name : list Z) : list Z := take (BLOCKDEV_NAME_MAX - 1) name.

Definition blockdev_register (name : list Z) (id sectors : Z) (rd wr : option block_fn) (b : blocks) : Z * blocks :=
  if BLOCKDEV_MAX <=? zlen (devices b) then (-1, b)
  else (zlen (devices b), mkBlocks (devices b ++ [mkDev (dev_short_name name) id sectors rd wr]) (parts b)).

Definition blockdev_get (name : list Z) (b : blocks) : option blockdev := List.find (fun d => bool_decide (bd_name d = name)) (devices b).
Definition blockdev_count (b : blocks) : Z := zlen (devices b).
Definition blockdev_get_by_index (i : Z) (b : blocks) : option blockdev := zlookup (devices b) i.

(** [snprintf(pname, 16, "%s%d", name, n)] *)
Definition part_name (name : list Z) (n : Z) : list Z := c_string (snprintf 16 (bs "%s%d") [AStr (Some name); AInt n]).2.

Section Disks.
Context {D : Type} `{DK : Disk D}.
Variable dk : D.

(** A partition's callback asks the registry again: [fuel] bounds how deep. *)
Fixpoint blockdev_read (fuel : nat) (name : list Z) (lba count : Z) (b : blocks) : option (Z * list Z) :=
  match fuel with
  | O => None
  | S f =>
      match blockdev_get name b with
      | None => Some (-1, [])
      | Some d =>
          match bd_read d with
          | None => Some (-1, [])
          | Some FnDriver => Some (disk_read dk (bd_id d) lba count)
          | Some FnPart =>
              match zlookup (parts b) (bd_id d) with
              | None => Some (-1, [])
              | Some p => blockdev_read f (pi_parent p) (u64 (pi_offset p + lba)) count b
              end
          end
      end
  end.

(** No partition has a write callback. *)
Definition blockdev_write (name : list Z) (lba : Z) (data : list Z) (b : blocks) : Z * D :=
  match blockdev_get name b with
  | None => (-1, dk)
  | Some d => match bd_write d with Some FnDriver => disk_write dk (bd_id d) lba data | _ => (-1, dk) end
  end.

Definition le32 (l : list Z) (off : Z) : Z := le_value (take 4 (drop (Z.to_nat off) l)).
Definition le16 (l : list Z) (off : Z) : Z := le_value (take 2 (drop (Z.to_nat off) l)).

(** Entry [i] of the table in the boot sector [mbr]. *)
Record mbr_partition := mkMbr { mp_type : Z; mp_lba : Z; mp_sectors : Z }.
Definition mbr_entry (mbr : list Z) (i : Z) : mbr_partition :=
  let at_ := 446 + 16 * i in mkMbr (znth 0 mbr (at_ + 4)) (le32 mbr (at_ + 8)) (le32 mbr (at_ + 12)).

(** The body of the loop over the table. *)
Definition add_partition (name mbr : list Z) (i : Z) (b : blocks) : blocks :=
  if PART_MAX <=? zlen (parts b) then b
  else
    let p := mbr_entry mbr i in
    if (mp_type p =? 0) || (mp_sectors p =? 0) then b
    else
      let n := zlen (parts b) in
      let info := mkPart (dev_short_name name) (i + 1) (mp_lba p) (mp_sectors p) (mp_type p) in
      let b := (blockdev_register (part_name name (i + 1)) n (mp_sectors p) (Some FnPart) None b).2 in
      mkBlocks (devices b) (parts b ++ [info]).

Context {H : Type} `{NH : NodeHeap H}.

(** One device; the buffer for its boot sector comes from the heap. *)
Definition scan_device (d : Z) (bh : blocks * H) : blocks * H :=
  let '(b, h) := bh in
  match blockdev_get_by_index d b with
  | None => (b, h)
  | Some bd =>
      let '(mbr, h) := nh_alloc MBR_SIZE h in
      if mbr =? 0 then (b, h)
      else
        let h := nh_free mbr h in
        match blockdev_read 3 (bd_name bd) 0 1 b with
        | Some (1, data) =>
            if negb (znth 0 data 510 =? 0x55) || negb (znth 0 data 511 =? 0xAA) then (b, h)
            else (for_range MBR_PARTITION_COUNT 0 (add_partition (bd_name bd) data) b, h)
        | _ => (b, h)
        end
  end.

Definition partition_init (b : blocks) (h : H) : blocks * H :=
  let b := mkBlocks (devices b) [] in
  for_range (Z.to_nat (blockdev_count b)) 0 scan_device (b, h).

Definition partition_read_sectors (name : list Z) (lba count : Z) (b : blocks) : option (Z * list Z) :=
  match List.find (fun p => bool_decide (part_name (pi_parent p) (pi_num p) = name)) (parts b) with
  | Some p => blockdev_read 3 (pi_parent p) (u64 (pi_offset p + lba)) count b
  | None => blockdev_read 3 name lba count b
  end.
End Disks.

(** * Theorems *)

(** A name that a partition number can be appended to. *)
Definition disk_name (name : list Z) : Prop := Forall (fun c => 0 < c < 256) name /\ (length name <= 14)%nat.

Lemma c_string_take l r : Forall (fun c => 0 < c < 256) l -> c_string (l ++ 0 :: r) = l.
Proof. induction 1 as [|c l Hc _ IH]; [done|]. cbn. rewrite (proj2 (Z.eqb_neq c 0)) by lia. by rewrite IH. Qed.

Lemma part_name_eq name n : disk_name name -> 1 <= n <= 4 -> part_name name n = name ++ [48 + n].
Proof.
  intros [Hc Hl] Hn. unfold part_name, snprintf. change (16 =? 0) with false. cbn [snd]. rewrite vsnprintf_eq by lia.
  assert (render None (bs "%s%d") [AStr (Some name); AInt n] = name ++ [48 + n]) as ->.
  { assert (n = 1 \/ n = 2 \/ n = 3 \/ n = 4) as [->|[->|[->| ->]]] by lia; reflexivity. }
  rewrite take_ge by (rewrite length_app; cbn [length]; lia). rewrite <- app_assoc. cbn [app]. change (name ++ [48 + n; 0]) with (name ++ [48 + n] ++ [0]).
  rewrite app_assoc. apply c_string_take. apply Forall_app. split; [done|]. constructor; [lia|constructor].
Qed.

Lemma dev_short_name_eq name : (length name <= 15)%nat -> dev_short_name name = name.
Proof. intros Hl. apply take_ge. exact Hl. Qed.

Section Scan.
Context {D : Type} `{DK : Disk D}.
Variables (dk : D) (name mbr : list Z) (dev0 : blockdev).
Hypothesis Hname : disk_name name.
Hypothesis Hdev0 : bd_name dev0 = name.

Definition valid_entry (i : Z) : Prop := mp_type (mbr_entry mbr i) <> 0 /\ mp_sectors (mbr_entry mbr i) <> 0.
Definition entry_info (i : Z) : part_info :=
  let p := mbr_entry mbr i in mkPart name (i + 1) (mp_lba p) (mp_sectors p) (mp_type p).
Definition entry_dev (i j : Z) : blockdev := mkDev (name ++ [49 + i]) j (mp_sectors (mbr_entry mbr i)) (Some FnPart) None.

(** [order]: the entries registered so far, in the order of the tables. *)
Record scanned (k : Z) (b : blocks) (order : list Z) : Prop := {
  sc_parts : parts b = entry_info <$> order;
  sc_devs : devices b = dev0 :: imap (fun j i => entry_dev i (Z.of_nat j)) order;
  sc_in : forall i, i ∈ order <-> 0 <= i < k /\ valid_entry i;
  sc_short : zlen order <= k;
}.

Lemma add_partition_scanned k b order :
  0 <= k < 4 -> scanned k b order -> exists order', scanned (k + 1) (add_partition name mbr k b) order'.
Proof.
  intros Hk [H1 H2 H3 H4]. assert (Hlp : zlen (parts b) = zlen order) by (unfold zlen; by rewrite H1, length_fmap).
  unfold add_partition, PART_MAX. rewrite Hlp, (proj2 (Z.leb_gt 32 (zlen order))) by lia. cbv zeta.
  destruct (Z.eqb_spec (mp_type (mbr_entry mbr k)) 0) as [E1|E1]; [|destruct (Z.eqb_spec (mp_sectors (mbr_entry mbr k)) 0) as [E2|E2]]; cbn [orb].
  1,2: exists order; split; try done; [|lia]; intros i; rewrite H3; (split; [intros [Hi Hv]; split; [lia|done]|]); intros [Hi Hv];
    (split; [|done]); assert (i <> k); [|lia]; intros ->; destruct Hv; congruence.
  assert (zlen (devices b) = 1 + zlen order) as Hld by (unfold zlen; rewrite H2; cbn [length]; rewrite length_imap; lia).
  exists (order ++ [k]). unfold blockdev_register, BLOCKDEV_MAX. rewrite (proj2 (Z.leb_gt 16 (zlen (devices b)))) by lia. cbn [snd devices parts].
  rewrite part_name_eq, !dev_short_name_eq by (try done; try lia; destruct Hname; rewrite ?length_app; cbn [length]; lia). split; cbn [devices parts].
  - by rewrite H1, fmap_app.
  - rewrite H2, imap_app. cbn [app imap]. do 3 f_equal. unfold entry_dev. cbn. f_equal; [do 2 f_equal; lia|]. unfold zlen. lia.
  - intros i. rewrite elem_of_app, list_elem_of_singleton, H3. split; [intros [[Hi Hv]| ->]; [split; [lia|done]|split; [lia|by split]]|].
    intros [Hi Hv]. destruct (decide (i = k)); [by right|left; split; [lia|done]].
  - unfold zlen in *. rewrite length_app. cbn [length]. lia.
Qed.

Lemma scan_all b : devices b = [dev0] -> parts b = [] -> exists order, scanned 4 (for_range 4 0 (add_partition name mbr) b) order.
Proof.
  intros Hd Hp. apply (for_range_ind (fun k b => exists order, scanned k b order) 4 0).
  - exists []. split; [done|done| |done]. intros i. rewrite elem_of_nil. split; [done|lia].
  - intros k x Hk [order Ho]. eapply add_partition_scanned; [lia|exact Ho].
Qed.

(** Names of different entries differ, and from the disk's own. *)
Lemma entry_names i i' : name ++ [49 + i] = name ++ [49 + i'] -> i = i'.
Proof. intros E. apply app_inj_tail in E as [_ E]. lia. Qed.

Lemma find_part k b order i :
  0 <= k <= 4 -> scanned k b order -> 0 <= i < k -> valid_entry i ->
  List.find (fun p => bool_decide (part_name (pi_parent p) (pi_num p) = name ++ [49 + i])) (parts b) = Some (entry_info i).
Proof.
  intros Hk [H1 H2 H3 H4] Hi Hv.
  assert (Hpn : forall i', i' ∈ order -> part_name (pi_parent (entry_info i')) (pi_num (entry_info i')) = name ++ [49 + i']).
  { intros i' Hi'. apply H3 in Hi' as [Hi' _]. cbn [pi_parent pi_num entry_info]. rewrite part_name_eq by (done || lia). do 2 f_equal. lia. }
  destruct (List.find _ (parts b)) as [p|] eqn:E.
  - apply List.find_some in E as [Hin Hb]. rewrite H1 in Hin. apply list_elem_of_In, list_elem_of_fmap in Hin as (i' & -> & Hi').
    apply bool_decide_eq_true in Hb. rewrite Hpn in Hb by done. apply entry_names in Hb. by subst.
  - exfalso. assert (i ∈ order) as Ho by (by apply H3). pose proof (List.find_none _ _ E (entry_info i)) as Hn.
    rewrite H1 in Hn. cbv beta in Hn. rewrite Hpn in Hn by done. rewrite bool_decide_eq_true_2 in Hn by done. discriminate Hn.
    apply list_elem_of_In, list_elem_of_fmap. by exists i.
Qed.

Lemma find_dev k b order i :
  0 <= k <= 4 -> scanned k b order -> 0 <= i < k -> valid_entry i ->
  exists j, blockdev_get (name ++ [49 + i]) b = Some (entry_dev i j) /\ zlookup (parts b) j = Some (entry_info i).
Proof.
  intros Hk [H1 H2 H3 H4] Hi Hv. unfold blockdev_get.
  assert (Hne : name <> name ++ [49 + i]) by (intros E; apply (f_equal length) in E; rewrite length_app in E; cbn in E; lia).
  rewrite H2. cbn [List.find]. rewrite Hdev0, bool_decide_eq_false_2 by done. set (ds := imap _ order).
  destruct (List.find _ ds) as [x|] eqn:E.
  - apply List.find_some in E as [Hin Hb]. apply list_elem_of_In, list_elem_of_lookup in Hin as [j Hj]. unfold ds in Hj.
    rewrite list_lookup_imap in Hj. destruct (order !! j) as [i'|] eqn:Ej; [|done]. injection Hj as <-. apply bool_decide_eq_true in Hb. cbn in Hb. apply entry_names in Hb. subst i'.
    exists (Z.of_nat j). split; [done|]. unfold zlookup. rewrite (proj2 (Z.ltb_ge _ 0)), Nat2Z.id by lia. by rewrite H1, list_lookup_fmap, Ej.
  - exfalso. assert (i ∈ order) as Ho by (by apply H3). apply list_elem_of_lookup in Ho as [j Ej].
    pose proof (List.find_none _ _ E (entry_dev i (Z.of_nat j))) as Hn. cbv beta in Hn. cbn [bd_name entry_dev] in Hn. rewrite bool_decide_eq_true_2 in Hn by done. discriminate Hn.
    apply list_elem_of_In, list_elem_of_lookup. exists j. unfold ds. by rewrite list_lookup_imap, Ej.
Qed.
End Scan.

Section Partition.
Context {D : Type} `{DK : Disk D} {H : Type} `{NH : NodeHeap H}.

(** Partitions read their part of the disk.  After the scan of a machine
    with one disk that has a boot sector with a valid signature, each entry
    of the table that is in use can be read under the disk's name followed by
    the entry's number, through the partition layer and as a block device of
    its own; both read the disk from the entry's first sector on, and the
    disk itself reads as before. *)
Theorem partition_reads_parent (dk : D) (h : H) b name id sectors wr mbr i lba count :
  disk_name name -> devices b = [mkDev name id sectors (Some FnDriver) wr] -> (nh_alloc MBR_SIZE h).1 <> 0 ->
  disk_read dk id 0 1 = (1, mbr) -> znth 0 mbr 510 = 0x55 -> znth 0 mbr 511 = 0xAA ->
  0 <= i < 4 -> mp_type (mbr_entry mbr i) <> 0 -> mp_sectors (mbr_entry mbr i) <> 0 ->
  let b' := (partition_init dk b h).1 in
  let r := Some (disk_read dk id (u64 (mp_lba (mbr_entry mbr i) + lba)) count) in
  partition_read_sectors dk (name ++ [49 + i]) lba count b' = r /\ blockdev_read dk 3 (name ++ [49 + i]) lba count b' = r /\
  blockdev_read dk 3 name lba count b' = Some (disk_read dk id lba count).
Proof.
  intros Hn Hd Ha Hr Hs1 Hs2 Hi Ht Hsec. set (dev0 := mkDev name id sectors (Some FnDriver) wr) in *.
  assert (exists order, scanned name mbr dev0 4 (partition_init dk b h).1 order) as [order Ho].
  { unfold partition_init, blockdev_count. cbn [devices]. rewrite Hd. change (Z.to_nat (zlen [dev0])) with 1%nat. cbn [for_range]. unfold scan_device, blockdev_get_by_index. cbn [devices].
    change (zlookup [dev0] 0) with (Some dev0). cbv iota beta. destruct (nh_alloc MBR_SIZE h) as [p h']. cbn [fst] in Ha. rewrite (proj2 (Z.eqb_neq p 0)) by done. cbv zeta.
    assert (blockdev_read dk 3 (bd_name dev0) 0 1 (mkBlocks [dev0] []) = Some (1, mbr)) as E.
    { cbn [blockdev_read blockdev_get devices List.find]. rewrite bool_decide_eq_true_2 by done. cbn [bd_read bd_id dev0]. by rewrite Hr. }
    rewrite E, Hs1, Hs2. cbn [negb orb Z.eqb Pos.eqb fst]. change MBR_PARTITION_COUNT with 4%nat. by apply (scan_all name mbr dev0 Hn). }
  cbv zeta. set (b' := (partition_init dk b h).1) in *. clearbody b'. set (r := Some (disk_read dk id (u64 _) count)).
  assert (Hget : forall lba, blockdev_read dk 3 name lba count b' = Some (disk_read dk id lba count) /\ blockdev_read dk 2 name lba count b' = Some (disk_read dk id lba count)).
  { intros x. cbn [blockdev_read]. unfold blockdev_get. rewrite (sc_devs _ _ _ _ _ _ Ho). cbn [List.find]. by rewrite bool_decide_eq_true_2. }
  split; [|split; [|apply Hget]].
  - unfold partition_read_sectors. rewrite (find_part name mbr dev0 Hn 4 b' order i); [|lia|done|done|by split]. cbn [pi_parent pi_offset entry_info]. apply Hget.
  - destruct (find_dev name mbr dev0 eq_refl 4 b' order i) as (j & E1 & E2); [lia|done|done|by split|].
    change (match blockdev_get (name ++ [49 + i]) b' with
            | None => Some (-1, [])
            | Some d => match bd_read d with
                        | None => Some (-1, [])
                        | Some FnDriver => Some (disk_read dk (bd_id d) lba count)
                        | Some FnPart => match zlookup (parts b') (bd_id d) with
                                         | None => Some (-1, [])
                                         | Some p => blockdev_read dk 2 (pi_parent p) (u64 (pi_offset p + lba)) count b'
                                         end
                        end
            end = r).
    rewrite E1. cbn [bd_read bd_id entry_dev]. rewrite E2. cbn [pi_parent pi_offset entry_info]. apply Hget.
Qed.
End Partition.

(** A disk whose second entry starts at sector 8; sector [n] is filled with [n]. *)
Definition demo_mbr : list Z :=
  replicate 446 0 ++ replicate 16 0 ++ [0; 0; 0; 0; 0x83; 0; 0; 0; 8; 0; 0; 0; 4; 0; 0; 0] ++ replicate 32 0 ++ [0x55; 0xAA].
#[local] Instance demo_disk : Disk unit := {
  disk_read _ id lba count := (count, if lba =? 0 then demo_mbr else replicate (Z.to_nat (512 * count)) lba);
  disk_write d _ _ _ := (-1, d);
}.
#[local] Instance counter_heap : NodeHeap Z := { nh_alloc n h := (h, h + n); nh_realloc p n h := (h, h + n); nh_free p h := h }.

Lemma partition_reads_parent_witness :
  let b := (blockdev_register (bs "sda") 0 100 (Some FnDriver) None (mkBlocks [] [])).2 in
  partition_read_sectors tt (bs "sda2") 1 1 (partition_init tt b 4096).1 = Some (1, replicate 512 9).
Proof.
  intros b. destruct (partition_reads_parent tt 4096 b (bs "sda") 0 100 None demo_mbr 1 1 1) as (E & _); try (by vm_compute); try lia; try exact E;
    try (vm_compute; congruence).
  split; [|cbn; lia]. repeat constructor.
Defined.
