(* ===== verification/Ext2.v ===== *)
(** * The ext2 driver (kernel/src/fs/ext2.c)

    Mounting, inodes, block maps, file data, directories and paths, over the
    partition layer of Block.v and the kernel heap.  Buffers are values; that
    they come from the heap shows in the paths taken when there is no memory.
    Three things end a call without a result: a division by zero and an
    access outside a buffer, both from values on the disk, and a loop over a
    directory that does not advance. *)
From S2P Require Import Prelude Mem FrameAlloc Pmm Task Sched Libk Vfs Block.

Inductive stop := DivZero | OutOfBounds | Forever.

Definition EXT2_SUPER_MAGIC : Z := 0xEF53.
Definition EXT2_ROOT_INO : Z := 2.
Definition EXT2_FT_DIR : Z := 2.
Definition EXT2_S_IFDIR : Z := 0x4000.
Definition EXT2_S_IFMT : Z := 0xF000.
Definition SIZEOF_SUPERBLOCK : nat := 204.
Definition SIZEOF_BGD : Z := 32.
Definition SIZEOF_INODE : Z := 128.
Definition SIZEOF_DIRENT : Z := 8.

(** Fields of the superblock's bytes. *)
Definition s_inodes_count (sb : list Z) : Z := le32 sb 0.
Definition s_blocks_count (sb : list Z) : Z := le32 sb 4.
Definition s_first_data_block (sb : list Z) : Z := le32 sb 20.
Definition s_log_block_size (sb : list Z) : Z := le32 sb 24.
Definition s_blocks_per_group (sb : list Z) : Z := le32 sb 32.
Definition s_inodes_per_group (sb : list Z) : Z := le32 sb 40.
Definition s_magic (sb : list Z) : Z := le16 sb 56.
Definition s_inode_size (sb : list Z) : Z := le16 sb 88.

(** Fields of an inode's bytes. *)
Definition i_mode (ino : list Z) : Z := le16 ino 0.
Definition i_size (ino : list Z) : Z := le32 ino 4.
Definition i_block (ino : list Z) (k : Z) : Z := le32 ino (40 + 4 * k).

(** A directory entry's header. *)
Record ext2_dirent := mkEnt { e_inode : Z; e_rec_len : Z; e_name_len : Z; e_file_type : Z }.
Definition dirent_of (l : list Z) : ext2_dirent := mkEnt (le32 l 0) (le16 l 4) (znth 0 l 6) (znth 0 l 7).

(** The mounted file system; [x_bgd] is the table of group descriptors. *)
Record ext2 := mkExt2 {
  dev_name : list Z;
  x_sb : list Z;
  x_bgd : list Z;
  block_size : Z;
  blocks_per_group : Z;
  inodes_per_group : Z;
  inode_size : Z;
  bgd_count : Z;
  mounted : bool;
}.
Definition ext2_unmounted : ext2 := mkExt2 [] [] [] 0 0 0 0 0 false.

Section Ext2.
Context {D : Type} `{DK : Disk D} {H : Type} `{NH : NodeHeap H}.
Variables (dk : D) (b : blocks).

(** Calls that may stop, threading the heap. *)
Definition M (X : Type) : Type := H -> (X * H) + stop.
Definition ret {X} (x : X) : M X := fun h => inl (x, h).
Definition fail {X} (e : stop) : M X := fun _ => inr e.
Definition bind {X Y} (x : M X) (f : X -> M Y) : M Y := fun h => match x h with inl (a, h) => f a h | inr e => inr e end.

(** [p = kmalloc(n); if (!p) return none; ... kfree(p)]: the buffer is
    released before the rest goes on with the block's value. *)
Definition with_buffer {X} (n : Z) (none : X) (rest : M X) : M X :=
  fun h => let '(p, h) := nh_alloc n h in if p =? 0 then inl (none, h) else rest (nh_free p h).

Definition div_or_stop {X} (d : Z) (rest : M X) : M X := if d =? 0 then fail DivZero else rest.

Variable fs : ext2.

(** The result of the partition layer, and the bytes read. *)
Definition read_block (block : Z) : Z * list Z :=
  let sectors := block_size fs / 512 in
  default (-1, []) (partition_read_sectors dk (dev_name fs) (u64 (block * sectors)) sectors b).

(** [read_block(...) != (int)(block_size / 512)] *)
Definition block_ok (r : Z) : bool := r =? s32 (block_size fs / 512).

Fixpoint read_blocks (n : nat) (start : Z) : option (list Z) :=
  match n with
  | O => Some []
  | S n' =>
      let '(r, data) := read_block (u32 start) in
      if negb (block_ok r) then None
      else match read_blocks n' (start + 1) with Some rest => Some (data ++ rest) | None => None end
  end.

Definition read_inode (inode_no : Z) : M (option (list Z)) :=
  if inode_no =? 0 then ret None
  else
    div_or_stop (inodes_per_group fs)
      (let n := inode_no - 1 in
       let group := n / inodes_per_group fs in
       let index := n mod inodes_per_group fs in
       if bgd_count fs <=? group then ret None
       else if zlen (x_bgd fs) <? SIZEOF_BGD * group + 12 then fail OutOfBounds
       else
         let table := le32 (x_bgd fs) (SIZEOF_BGD * group + 8) in
         let offset := index * inode_size fs in
         div_or_stop (block_size fs)
           (let block_in_table := u32 (offset / block_size fs) in
            let off_in_block := offset mod block_size fs in
            with_buffer (block_size fs) None
              (let '(r, data) := read_block (u32 (table + block_in_table)) in
               if negb (block_ok r) then ret None
               else if block_size fs <? off_in_block + SIZEOF_INODE then fail OutOfBounds
               else ret (Some (take (Z.to_nat SIZEOF_INODE) (drop (Z.to_nat off_in_block) data)))))).

(** Entry [k] of a block of pointers; 0 when the block cannot be read. *)
Definition read_pointer (block k : Z) : M Z :=
  with_buffer (block_size fs) 0
    (let '(r, data) := read_block block in
     if negb (block_ok r) then ret 0
     else if block_size fs <? 4 * k + 4 then fail OutOfBounds
     else ret (le32 data (4 * k))).

Definition get_inode_block (inode : list Z) (logical : Z) : M Z :=
  let ptrs_per_block := block_size fs / 4 in
  if logical <? 12 then ret (i_block inode logical)
  else
    let logical := logical - 12 in
    if logical <? ptrs_per_block then read_pointer (i_block inode 12) logical
    else
      let logical := logical - ptrs_per_block in
      div_or_stop ptrs_per_block
        (bind (read_pointer (i_block inode 13) (logical / ptrs_per_block))
          (fun next => if next =? 0 then ret 0 else read_pointer next (logical mod ptrs_per_block))).

(** The loop of [read_inode_data]; every turn copies a byte at least.  The
    bytes copied so far are [acc]. *)
Fixpoint data_loop (fuel : nat) (inode : list Z) (offset count : Z) (acc : list Z) : M (list Z) :=
  match fuel with
  | O => fail Forever
  | S f =>
      if count =? 0 then ret acc
      else
        div_or_stop (block_size fs)
          (let block_num := u32 (offset / block_size fs) in
           let off_in_block := offset mod block_size fs in
           let to_copy := block_size fs - off_in_block in
           let to_copy := if count <? to_copy then count else to_copy in
           bind (get_inode_block inode block_num) (fun phys =>
             if phys =? 0
             then data_loop f inode (u64 (offset + to_copy)) (count - to_copy) (acc ++ replicate (Z.to_nat to_copy) 0)
             else
               bind (with_buffer (block_size fs) None
                       (let '(r, data) := read_block phys in
                        ret (if block_ok r then Some (take (Z.to_nat to_copy) (drop (Z.to_nat off_in_block) data)) else None)))
                 (fun d => match d with
                           | None => ret acc
                           | Some d => data_loop f inode (u64 (offset + to_copy)) (count - to_copy) (acc ++ d)
                           end)))
  end.

(** The bytes stored; their number is the result. *)
Definition read_inode_data (inode : list Z) (offset count : Z) : M (list Z) :=
  let file_size := i_size inode in
  if file_size <=? u32 offset then ret []
  else
    let count := if file_size <? u64 (offset + count) then u32 (file_size - u32 offset) else count in
    data_loop (S (Z.to_nat count)) inode offset count [].

(** ** Directories *)

(** The walk of [dir_lookup_callback] from [offset]: the entry named [name]. *)
Fixpoint lookup_loop (fuel : nat) (dinode : list Z) (name : list Z) (offset size : Z) : M (option (Z * Z)) :=
  match fuel with
  | O => fail Forever
  | S f =>
      if size <=? offset then ret None
      else
        bind (read_inode_data dinode offset SIZEOF_DIRENT) (fun hd =>
        if negb (zlen hd =? SIZEOF_DIRENT) then ret None
        else
          let ent := dirent_of hd in
          if e_inode ent =? 0 then lookup_loop f dinode name (offset + e_rec_len ent) size
          else
            bind (read_inode_data dinode (offset + SIZEOF_DIRENT) (e_name_len ent)) (fun nm =>
            if negb (zlen nm =? e_name_len ent) then ret None
            else if bool_decide (c_string nm = name) then ret (Some (e_inode ent, e_file_type ent))
            else lookup_loop f dinode name (offset + e_rec_len ent) size))
  end.

Definition is_dir (inode : list Z) : bool := Z.land (i_mode inode) EXT2_S_IFMT =? EXT2_S_IFDIR.

(** [None]: nothing found, or not a directory; the caller looks at
    [iter.found] only. *)
Definition dir_lookup_callback (dir_ino : Z) (name : list Z) : M (option (Z * Z)) :=
  bind (read_inode dir_ino) (fun d =>
  match d with
  | None => ret None
  | Some dinode =>
      if negb (is_dir dinode) then ret None
      else lookup_loop (S (Z.to_nat (i_size dinode))) dinode name 0 (i_size dinode)
  end).

(** The name up to a slash, at most [n] bytes of it, and the rest. *)
Fixpoint component (n : nat) (path : list Z) : list Z * list Z :=
  match n, path with
  | S n', c :: r => if c =? 47 then ([], path) else let '(x, rest) := component n' r in (c :: x, rest)
  | _, _ => ([], path)
  end.

Fixpoint skip_slashes (path : list Z) : list Z :=
  match path with
  | c :: r => if c =? 47 then skip_slashes r else path
  | [] => []
  end.

(** Every turn takes a character at least. *)
Fixpoint path_loop (fuel : nat) (ino : Z) (path : list Z) : M Z :=
  match fuel with
  | O => fail Forever
  | S f =>
      match skip_slashes path with
      | [] => ret ino
      | p =>
          let '(name, rest) := component 255 p in
          if bool_decide (name = bs ".") then path_loop f ino rest
          else if bool_decide (name = bs "..") then
            bind (read_inode ino) (fun ci => match ci with None => ret 0 | Some _ => path_loop f EXT2_ROOT_INO rest end)
          else
            bind (dir_lookup_callback ino name) (fun r =>
            match r with None => ret 0 | Some (ino', _) => path_loop f ino' rest end)
      end
  end.

Definition resolve_path (path : list Z) : M Z :=
  match path with
  | 47 :: rest => path_loop (S (length rest)) EXT2_ROOT_INO rest
  | _ => ret 0
  end.

(** ** Listings *)

Record ext2_dir_entry := mkDirEntry { de_name : list Z; de_inode : Z; de_type : Z }.
Definition SIZEOF_DIR_ENTRY : Z := 72.

Fixpoint count_loop (fuel : nat) (dinode : list Z) (off size count : Z) : M Z :=
  match fuel with
  | O => fail Forever
  | S f =>
      if size <=? off then ret count
      else
        bind (read_inode_data dinode off SIZEOF_DIRENT) (fun hd =>
        if negb (zlen hd =? SIZEOF_DIRENT) then ret count
        else
          let ent := dirent_of hd in
          count_loop f dinode (off + e_rec_len ent) size (if e_inode ent =? 0 then count else count + 1))
  end.

(** Entries from [off] on, at most [left] of them; of a name longer than 63
    bytes the beginning. *)
Fixpoint entries_loop (fuel : nat) (dinode : list Z) (off size : Z) (left : nat) : M (list ext2_dir_entry) :=
  match fuel with
  | O => fail Forever
  | S f =>
      match left with
      | O => ret []
      | S left' =>
          if size <=? off then ret []
          else
            bind (read_inode_data dinode off SIZEOF_DIRENT) (fun hd =>
            if negb (zlen hd =? SIZEOF_DIRENT) then ret []
            else
              let ent := dirent_of hd in
              if e_inode ent =? 0 then entries_loop f dinode (off + e_rec_len ent) size left
              else
                let nlen := if 63 <? e_name_len ent then 63 else e_name_len ent in
                bind (read_inode_data dinode (off + SIZEOF_DIRENT) nlen) (fun nm =>
                bind (entries_loop f dinode (off + e_rec_len ent) size left') (fun rest =>
                ret (mkDirEntry (c_string nm) (e_inode ent) (e_file_type ent) :: rest))))
      end
  end.

(** The address of the array is returned with its entries. *)
Definition ext2_list_dir_internal (path : list Z) : M (option (Z * list ext2_dir_entry)) :=
  bind (resolve_path path) (fun ino =>
  if ino =? 0 then ret None
  else bind (read_inode ino) (fun d =>
  match d with
  | None => ret None
  | Some dinode =>
      if negb (is_dir dinode) then ret None
      else
        let size := i_size dinode in
        bind (count_loop (S (Z.to_nat size)) dinode 0 size 0) (fun count h =>
        let '(p, h) := nh_alloc (u64 (count * SIZEOF_DIR_ENTRY)) h in
        if p =? 0 then inl (None, h)
        else bind (entries_loop (S (Z.to_nat size)) dinode 0 size (Z.to_nat count)) (fun l => ret (Some (p, l))) h)
  end)).

(** ** Interface *)

(** The size of the file, and the bytes stored. *)
Definition ext2_read_file (path : list Z) (max_size : Z) : M (option (Z * list Z)) :=
  if negb (mounted fs) then ret None
  else
    bind (resolve_path path) (fun ino =>
    if ino =? 0 then ret None
    else bind (read_inode ino) (fun i =>
    match i with
    | None => ret None
    | Some inode =>
        if is_dir inode then ret None
        else
          let size := i_size inode in
          let n := if max_size <? size then u32 max_size else size in
          bind (read_inode_data inode 0 n) (fun data => ret (Some (size, data)))
    end)).

Definition ext2_list_dir (path : list Z) : M Z :=
  if negb (mounted fs) then ret (-1)
  else bind (ext2_list_dir_internal path) (fun r =>
       match r with None => ret (-1) | Some (p, l) => fun h => inl (zlen l, nh_free p h) end).

Definition ext2_exists (path : list Z) : M bool :=
  if negb (mounted fs) then ret false else bind (resolve_path path) (fun ino => ret (negb (ino =? 0))).

(** The caller owns the array. *)
Definition ext2_get_dir_entries (path : list Z) : M (option (Z * list ext2_dir_entry)) := ext2_list_dir_internal path.
End Ext2.

(** ** Mounting *)

Section Mount.
Context {D : Type} `{DK : Disk D} {H : Type} `{NH : NodeHeap H}.
Variables (dk : D) (b : blocks).

(** The state after the superblock was read, if it is good. *)
Definition ext2_read_superblock (fs : ext2) : M (bool * ext2) :=
  with_buffer 1024 (false, fs)
    (match partition_read_sectors dk (dev_name fs) 2 2 b with
     | Some (2, buf) =>
         let sb := take SIZEOF_SUPERBLOCK buf in
         if negb (s_magic sb =? EXT2_SUPER_MAGIC)
         then ret (false, mkExt2 (dev_name fs) sb (x_bgd fs) (block_size fs) (blocks_per_group fs) (inodes_per_group fs) (inode_size fs) (bgd_count fs) (mounted fs))
         else
           let per_group := s_blocks_per_group sb in
           div_or_stop per_group
             (ret (true, mkExt2 (dev_name fs) sb (x_bgd fs) (u32 (Z.shiftl 1024 (Z.land (s_log_block_size sb) 31))) per_group (s_inodes_per_group sb)
                    (if s_inode_size sb =? 0 then 128 else s_inode_size sb) (u32 (s_blocks_count sb + per_group - 1) / per_group) (mounted fs)))
     | _ => ret (false, fs)
     end).

Definition set_bgd (t : list Z) (fs : ext2) : ext2 :=
  mkExt2 (dev_name fs) (x_sb fs) t (block_size fs) (blocks_per_group fs) (inodes_per_group fs) (inode_size fs) (bgd_count fs) (mounted fs).

(** The table stays allocated while the file system is mounted. *)
Definition ext2_read_bgd (fs : ext2) : M (bool * ext2) :=
  div_or_stop (block_size fs)
    (let bgd_blocks := u32 ((bgd_count fs * SIZEOF_BGD + block_size fs - 1) / block_size fs) in
     let bgd_start := u32 (s_first_data_block (x_sb fs) + 1) in
     fun h =>
       let '(p, h) := nh_alloc (u32 (bgd_blocks * block_size fs)) h in
       if p =? 0 then inl ((false, set_bgd [] fs), h)
       else if 2 ^ 32 <=? bgd_blocks * block_size fs then inr OutOfBounds
       else match read_blocks dk b fs (Z.to_nat bgd_blocks) bgd_start with
            | None => inl ((false, set_bgd [] fs), nh_free p h)
            | Some t => inl ((true, set_bgd t fs), h)
            end).

Definition ext2_mount (name : list Z) (fs : ext2) : M (bool * ext2) :=
  if mounted fs then ret (false, fs)
  else
    let fs := mkExt2 (take 15 name) (x_sb fs) (x_bgd fs) (block_size fs) (blocks_per_group fs) (inodes_per_group fs) (inode_size fs) (bgd_count fs) (mounted fs) in
    bind (ext2_read_superblock fs) (fun r =>
    if negb r.1 then ret r
    else bind (ext2_read_bgd r.2) (fun r =>
    if negb r.1 then ret r
    else let fs := r.2 in
         ret (true, mkExt2 (dev_name fs) (x_sb fs) (x_bgd fs) (block_size fs) (blocks_per_group fs) (inodes_per_group fs) (inode_size fs) (bgd_count fs) true))).
End Mount.
