(* ===== verification/Ext2Spec.v ===== *)
(** * What the ext2 driver reads

    The disk is a byte image, read without errors, and there is memory.  Then
    every call has one result, whatever the heap looks like ([runs]): inodes
    come from the inode table, a file's bytes are those of the blocks its
    block map names (holes read as zeros), a name is looked up in the entries
    of a directory, and a path is followed from the root. *)
From S2P Require Import Prelude Mem FrameAlloc Pmm Task Sched Libk Vfs Block Ext2.

Section Runs.
Context {H : Type} `{NH : NodeHeap H}.

(** The call returns [x] in every state of the heap. *)
Definition runs {X} (m : M (H:=H) X) (x : X) : Prop := forall h, exists h', m h = inl (x, h').

Lemma runs_ret {X} (x : X) : runs (ret x) x.
Proof. intros h. by exists h. Qed.

Lemma runs_bind {X Y} (m : M X) (f : X -> M Y) x y : runs m x -> runs (f x) y -> runs (bind m f) y.
Proof. intros H1 H2 h. destruct (H1 h) as [h1 E]. unfold bind. rewrite E. apply H2. Qed.

Lemma runs_div {X} d (m : M X) x : d <> 0 -> runs m x -> runs (div_or_stop d m) x.
Proof. intros Hd Hm. unfold div_or_stop. by rewrite (proj2 (Z.eqb_neq d 0)). Qed.

(** There is always memory for a buffer. *)
Definition plenty : Prop := forall n h, 0 < n -> (nh_alloc n h).1 <> 0.

Lemma runs_buffer {X} n (none : X) m x : plenty -> 0 < n -> runs m x -> runs (with_buffer n none m) x.
Proof.
  intros Hp Hn Hm h. unfold with_buffer. pose proof (Hp n h Hn). destruct (nh_alloc n h) as [p h']. cbn in *.
  rewrite (proj2 (Z.eqb_neq p 0)) by done. apply Hm.
Qed.
End Runs.

(** Slices of the image. *)
Lemma bytes_at_slice n m a o k : (o + k <= n)%nat -> take k (drop o (bytes_at n m a)) = bytes_at k m (a + Z.of_nat o).
Proof.
  revert n a. induction o as [|o IH]; intros n a Hle.
  - rewrite drop_0, Z.add_0_r. revert n a Hle. induction k as [|k IHk]; intros [|n] a Hle; [done|done|lia|]. cbn [bytes_at take]. by rewrite IHk by lia.
  - destruct n as [|n]; [lia|]. cbn [bytes_at drop]. rewrite IH by lia. f_equal. lia.
Qed.

Lemma le_bytes_slice n m a o k : (o + k <= n)%nat -> le_value (take k (drop o (bytes_at n m a))) = load k m (a + Z.of_nat o).
Proof. intros Hle. by rewrite bytes_at_slice, load_le_value. Qed.

Lemma img_load_range k m a : 0 <= load k m a < 256 ^ Z.of_nat k.
Proof.
  revert a. induction k as [|k IH]; intros a; [cbn; lia|]. cbn [load]. specialize (IH (a + 1)).
  rewrite Nat2Z.inj_succ, Z.pow_succ_r by lia. pose proof (u8_range (m a)). unfold load8. lia.
Qed.

Lemma le_value_range l : 0 <= le_value l < 256 ^ zlen l.
Proof.
  unfold zlen. induction l as [|b l IH]; [cbn; lia|]. cbn [le_value length]. rewrite Nat2Z.inj_succ, Z.pow_succ_r by lia.
  pose proof (u8_range b). lia.
Qed.

Lemma le32_range l o : 0 <= le32 l o < 2 ^ 32.
Proof.
  unfold le32. set (x := take _ _). pose proof (le_value_range x) as Hr.
  assert (256 ^ zlen x <= 256 ^ 4); [|lia]. apply Z.pow_le_mono_r; [lia|]. unfold zlen, x. rewrite length_take. lia.
Qed.

Section Spec.
Context {D : Type} `{DK : Disk D} {H : Type} `{NH : NodeHeap H}.
Variables (dk : D) (b : blocks) (fs : ext2) (img : mem).

(** The partition holds [img] and reads do not fail. *)
Definition holds : Prop :=
  forall lba n, 0 <= lba < 2 ^ 41 -> 0 < n < 2 ^ 31 ->
  partition_read_sectors dk (dev_name fs) lba n b = Some (n, bytes_at (Z.to_nat (512 * n)) img (512 * lba)).

(** The sizes of a mounted file system: a block is 1, 2, 4, .. 64 KiB and
    holds a number of inodes; the table has all group descriptors. *)
Record geometry : Prop := {
  ge_bs : exists k, 0 <= k <= 6 /\ block_size fs = 1024 * 2 ^ k;
  ge_is : 128 <= inode_size fs /\ (inode_size fs | block_size fs);
  ge_ipg : 0 < inodes_per_group fs;
  ge_bgd : bgd_count fs * SIZEOF_BGD <= zlen (x_bgd fs);
}.

Hypothesis Hholds : holds.
Hypothesis Hgeo : geometry.
Hypothesis Hmem : plenty (H:=H).

Local Abbreviation bs_ := (block_size fs).

Lemma bs_facts : 1024 <= bs_ <= 65536 /\ 512 * (bs_ / 512) = bs_ /\ 4 * (bs_ / 4) = bs_.
Proof.
  destruct (ge_bs Hgeo) as (k & Hk & ->). assert (k = 0 \/ k = 1 \/ k = 2 \/ k = 3 \/ k = 4 \/ k = 5 \/ k = 6) as Hc by lia.
  decompose [or] Hc; subst; cbn; lia.
Qed.

Definition block_bytes (blk : Z) : list Z := bytes_at (Z.to_nat bs_) img (bs_ * blk).

Lemma read_block_eq blk : 0 <= blk < 2 ^ 32 -> read_block dk b fs blk = (bs_ / 512, block_bytes blk).
Proof.
  intros Hb. destruct bs_facts as (H1 & H2 & _). unfold read_block, block_bytes. cbv zeta. set (s := bs_ / 512) in *. clearbody s.
  assert (0 <= blk * s < 2 ^ 41) by nia. rewrite u64_small, Hholds by lia. cbn [default]. rewrite H2.
  replace (512 * (blk * s)) with (bs_ * blk) by nia. reflexivity.
Qed.
Lemma block_ok_eq : block_ok fs (bs_ / 512) = true.
Proof. destruct bs_facts as (H1 & H2 & _). unfold block_ok. rewrite s32_small by lia. apply Z.eqb_refl. Qed.

(** ** The block map *)

(** Pointer [k] of block [blk]. *)
Definition ptr_at (blk k : Z) : Z := load 4 img (bs_ * blk + 4 * k).
Definition ppb : Z := bs_ / 4.

(** Block [l] of a file; 0 is a hole, at every level. *)
Definition bmap (inode : list Z) (l : Z) : Z :=
  let indirect blk k := if blk =? 0 then 0 else ptr_at blk k in
  if l <? 12 then i_block inode l
  else if l <? 12 + ppb then indirect (i_block inode 12) (l - 12)
  else let m := l - 12 - ppb in indirect (indirect (i_block inode 13) (m / ppb)) (m mod ppb).

(** The file fits two levels and has the blocks of pointers its size needs. *)
Record mapped (inode : list Z) : Prop := {
  mp_fits : i_size inode <= bs_ * (12 + ppb + ppb * ppb);
  mp_single : bs_ * 12 < i_size inode -> i_block inode 12 <> 0;
  mp_double : bs_ * (12 + ppb) < i_size inode -> i_block inode 13 <> 0;
}.

Lemma read_pointer_runs blk k : 0 <= blk < 2 ^ 32 -> 0 <= k < ppb -> runs (H:=H) (read_pointer dk b fs blk k) (ptr_at blk k).
Proof.
  intros Hb Hk. destruct bs_facts as (H1 & _ & H3). unfold ppb in Hk. apply runs_buffer; [done|lia|].
  rewrite read_block_eq, block_ok_eq by done. cbn [negb]. rewrite (proj2 (Z.ltb_ge _ _)) by lia.
  unfold le32, block_bytes. rewrite le_bytes_slice by lia. unfold ptr_at. rewrite Z2Nat.id by lia. apply runs_ret.
Qed.

Lemma get_inode_block_runs inode l :
  mapped inode -> 0 <= l -> bs_ * l < i_size inode -> runs (H:=H) (get_inode_block dk b fs inode l) (bmap inode l).
Proof.
  intros [M1 M2 M3] Hl Hs. destruct bs_facts as (H1 & _ & H3). unfold get_inode_block, bmap. cbv zeta. fold ppb.
  assert (256 <= ppb) by (unfold ppb; lia).
  destruct (Z.ltb_spec l 12); [apply runs_ret|]. specialize (M2 ltac:(nia)). rewrite (proj2 (Z.eqb_neq (i_block inode 12) 0)) by done.
  destruct (Z.ltb_spec (l - 12) ppb), (Z.ltb_spec l (12 + ppb)); try lia; [apply read_pointer_runs; [apply le32_range|lia]|].
  specialize (M3 ltac:(nia)). rewrite (proj2 (Z.eqb_neq (i_block inode 13) 0)) by done. apply runs_div; [lia|].
  assert (l < 12 + ppb + ppb * ppb) by nia.
  eapply runs_bind; [apply read_pointer_runs; [apply le32_range|]|].
  { split; [apply Z.div_pos; lia|]. apply Z.div_lt_upper_bound; lia. }
  set (x := ptr_at _ _). destruct (Z.eqb_spec x 0); [apply runs_ret|]. apply read_pointer_runs; [apply (img_load_range 4)|]. apply Z.mod_pos_bound. lia.
Qed.

(** ** File data *)

Definition file_byte (inode : list Z) (x : Z) : Z :=
  let blk := bmap inode (x / bs_) in if blk =? 0 then 0 else load8 img (bs_ * blk + x mod bs_).
Definition file_slice (inode : list Z) (off : Z) (n : nat) : list Z := (fun i => file_byte inode (off + Z.of_nat i)) <$> seq 0 n.

Lemma file_slice_app inode off n1 n2 :
  file_slice inode off (n1 + n2) = file_slice inode off n1 ++ file_slice inode (off + Z.of_nat n1) n2.
Proof.
  unfold file_slice. rewrite seq_app, fmap_app, Nat.add_0_l, <- (Nat.add_0_r n1), <- fmap_add_seq, <- list_fmap_compose, Nat.add_0_r.
  f_equal. apply list_fmap_ext. intros i x _. cbn. f_equal. lia.
Qed.

Lemma file_slice_length inode off n : length (file_slice inode off n) = n.
Proof. unfold file_slice. by rewrite length_fmap, length_seq. Qed.

Lemma bytes_at_seq n m a : bytes_at n m a = (fun i => load8 m (a + Z.of_nat i)) <$> seq 0 n.
Proof.
  revert a. induction n as [|n IH]; intros a; [done|]. cbn [bytes_at seq fmap list_fmap]. rewrite Z.add_0_r. f_equal.
  rewrite IH, <- fmap_S_seq, <- list_fmap_compose. apply list_fmap_ext. intros i x _. cbn. f_equal. lia.
Qed.

(** Inside a block the slice is a hole or a slice of the block. *)
Lemma file_slice_block inode off n :
  0 <= off -> off mod bs_ + Z.of_nat n <= bs_ ->
  file_slice inode off n =
    let blk := bmap inode (off / bs_) in if blk =? 0 then replicate n 0 else bytes_at n img (bs_ * blk + off mod bs_).
Proof.
  intros Ho Hn. destruct bs_facts as (H1 & _). cbv zeta. set (blk := bmap _ _).
  assert (Hb : forall i, (i < n)%nat -> file_byte inode (off + Z.of_nat i) = if blk =? 0 then 0 else load8 img (bs_ * blk + off mod bs_ + Z.of_nat i)).
  { intros i Hi. unfold file_byte, blk. cbv zeta.
    assert (Ed : (off + Z.of_nat i) / bs_ = off / bs_) by (symmetry; apply Z.div_unique with (off mod bs_ + Z.of_nat i); [left; pose proof (Z.mod_pos_bound off bs_); lia|pose proof (Z.div_mod off bs_); lia]).
    assert (Em : (off + Z.of_nat i) mod bs_ = off mod bs_ + Z.of_nat i) by (pose proof (Z.div_mod (off + Z.of_nat i) bs_); pose proof (Z.div_mod off bs_); rewrite Ed in *; lia).
    rewrite Ed, Em. destruct (_ =? 0); [done|]. f_equal. lia. }
  unfold file_slice. destruct (blk =? 0).
  - assert (replicate n 0 = (fun _ => 0) <$> seq 0 n) as -> by (rewrite (const_fmap (fun _ => 0) (seq 0 n) 0), length_seq; done). apply list_fmap_ext. intros i x Hx. apply lookup_seq in Hx. apply Hb. lia.
  - rewrite bytes_at_seq. apply list_fmap_ext. intros i x Hx. apply lookup_seq in Hx. apply Hb. lia.
Qed.

Lemma data_loop_runs inode fuel off count acc :
  mapped inode -> 0 <= off -> 0 <= count -> off + count <= i_size inode -> (Z.to_nat count < fuel)%nat ->
  runs (H:=H) (data_loop dk b fs fuel inode off count acc) (acc ++ file_slice inode off (Z.to_nat count)).
Proof.
  intros Hm. destruct bs_facts as (H1 & _). pose proof (le32_range inode 4) as Hr. fold (i_size inode) in Hr.
  revert off count acc. induction fuel as [|f IH]; intros off count acc Ho Hc Hle Hf; [lia|]. cbn [data_loop].
  destruct (Z.eqb_spec count 0) as [->|Hc0]; [rewrite app_nil_r; apply runs_ret|].
  pose proof (Z.mod_pos_bound off bs_ ltac:(lia)) as Hmod. pose proof (Z.div_mod off bs_ ltac:(lia)) as Hdm. pose proof (Z.div_pos off bs_ Ho ltac:(lia)) as Hdp.
  apply runs_div; [lia|]. cbv zeta. rewrite u32_small by nia.
  set (tc := if count <? bs_ - off mod bs_ then count else bs_ - off mod bs_).
  assert (0 < tc <= count /\ off mod bs_ + tc <= bs_) as [Ht1 Ht2] by (unfold tc; destruct (Z.ltb_spec count (bs_ - off mod bs_)); lia).
  clearbody tc. rewrite u64_small by lia.
  assert (file_slice inode off (Z.to_nat count) = file_slice inode off (Z.to_nat tc) ++ file_slice inode (off + tc) (Z.to_nat (count - tc))) as ->.
  { replace (Z.to_nat count) with (Z.to_nat tc + Z.to_nat (count - tc))%nat by lia. rewrite file_slice_app. do 2 f_equal. lia. }
  rewrite (file_slice_block inode off (Z.to_nat tc)) by lia. cbv zeta.
  eapply runs_bind; [apply get_inode_block_runs; [done|done|nia]|]. cbv beta. set (blk := bmap inode (off / bs_)).
  assert (Hblk : 0 <= blk < 2 ^ 32).
  { unfold blk, bmap. cbv zeta. repeat match goal with |- context [if ?c then _ else _] => destruct c end; first [apply le32_range | apply (img_load_range 4) | lia]. }
  rewrite app_assoc. destruct (Z.eqb_spec blk 0) as [E|E]; [apply IH; lia|].
  eapply runs_bind.
  - apply runs_buffer; [done|lia|]. rewrite read_block_eq, block_ok_eq by done. apply runs_ret.
  - cbv beta iota. unfold block_bytes. rewrite bytes_at_slice, Z2Nat.id by lia. apply IH; lia.
Qed.

(** The bytes from [off] on, as many as there are. *)
Lemma read_inode_data_runs inode off count :
  mapped inode -> 0 <= off < 2 ^ 32 -> 0 <= count < 2 ^ 32 ->
  runs (H:=H) (read_inode_data dk b fs inode off count) (file_slice inode off (Z.to_nat (Z.min count (i_size inode - off)))).
Proof.
  intros Hm Ho Hc. pose proof (le32_range inode 4) as Hr. fold (i_size inode) in Hr. unfold read_inode_data. cbv zeta. rewrite (u32_small off), u64_small by lia.
  destruct (Z.leb_spec (i_size inode) off).
  - replace (Z.to_nat (Z.min count (i_size inode - off))) with O by lia. apply runs_ret.
  - assert ((if i_size inode <? off + count then u32 (i_size inode - off) else count) = Z.min count (i_size inode - off)) as ->.
    { destruct (Z.ltb_spec (i_size inode) (off + count)); [rewrite u32_small by lia|]; lia. }
    eapply (data_loop_runs inode _ off _ []); [done|lia|lia|lia|lia].
Qed.

(** ** Inodes *)

Definition inode_group (n : Z) : Z := (n - 1) / inodes_per_group fs.
Definition inode_pos (n : Z) : Z := (n - 1) mod inodes_per_group fs * inode_size fs.
Definition inode_table (n : Z) : Z := le32 (x_bgd fs) (SIZEOF_BGD * inode_group n + 8).
Definition inode_at (n : Z) : list Z := bytes_at (Z.to_nat SIZEOF_INODE) img (bs_ * inode_table n + inode_pos n).

(** The number names an inode of the file system, and its table is on it. *)
Definition inode_ok (n : Z) : Prop :=
  0 < n < 2 ^ 32 /\ inode_group n < bgd_count fs /\ inode_table n + inode_pos n / bs_ < 2 ^ 32.

Lemma read_inode_runs n : inode_ok n -> runs (H:=H) (read_inode dk b fs n) (Some (inode_at n)).
Proof.
  intros (Hn & Hg & Ht). destruct bs_facts as (H1 & _). destruct (ge_is Hgeo) as [Hi1 [q Hq]]. pose proof (ge_ipg Hgeo) as Hp. pose proof (ge_bgd Hgeo) as Hb.
  unfold read_inode. rewrite (proj2 (Z.eqb_neq n 0)) by lia. apply runs_div; [lia|]. cbv zeta. fold (inode_group n) (inode_pos n) (inode_table n).
  rewrite (proj2 (Z.leb_gt _ _)) by done. assert (0 <= inode_group n) by (apply Z.div_pos; lia).
  unfold SIZEOF_BGD in *. rewrite (proj2 (Z.ltb_ge _ _)) by lia. apply runs_div; [lia|].
  assert (0 <= inode_pos n) by (unfold inode_pos; pose proof (Z.mod_pos_bound (n - 1) (inodes_per_group fs) Hp); nia).
  pose proof (Z.mod_pos_bound (inode_pos n) bs_ ltac:(lia)) as Hm. pose proof (Z.div_mod (inode_pos n) bs_ ltac:(lia)) as Hdm.
  pose proof (Z.div_pos (inode_pos n) bs_ ltac:(lia) ltac:(lia)) as Hdp. assert (0 <= inode_table n < 2 ^ 32) as Htr by (apply le32_range).
  assert (inode_pos n mod bs_ + SIZEOF_INODE <= bs_) as Hin.
  { unfold SIZEOF_INODE. set (i := (n - 1) mod inodes_per_group fs) in *. unfold inode_pos. fold i. assert (0 < q) by nia.
    rewrite Hq, Z.mul_mod_distr_r by lia. pose proof (Z.mod_pos_bound i q ltac:(lia)). nia. }
  apply runs_buffer; [done|lia|]. rewrite (u32_small (inode_pos n / bs_)), u32_small by lia. rewrite read_block_eq, block_ok_eq by lia. cbn [negb].
  rewrite (proj2 (Z.ltb_ge _ _)) by lia. unfold block_bytes. rewrite bytes_at_slice by (unfold SIZEOF_INODE in *; lia). rewrite Z2Nat.id by lia.
  unfold inode_at. replace (bs_ * inode_table n + inode_pos n) with (bs_ * (inode_table n + inode_pos n / bs_) + inode_pos n mod bs_) by nia. apply runs_ret.
Qed.

(** ** Directories *)

(** An entry as it is stored; [d_pad] fills the record. *)
Record dent := mkDent { d_ino : Z; d_type : Z; d_name : list Z; d_pad : list Z }.
Definition d_len (e : dent) : Z := 8 + zlen (d_name e) + zlen (d_pad e).
Definition byte_of (x k : Z) : Z := u8 (x / 256 ^ k).
Definition d_header (e : dent) : list Z :=
  [byte_of (d_ino e) 0; byte_of (d_ino e) 1; byte_of (d_ino e) 2; byte_of (d_ino e) 3; byte_of (d_len e) 0; byte_of (d_len e) 1; zlen (d_name e); d_type e].
Definition d_bytes (e : dent) : list Z := d_header e ++ d_name e ++ d_pad e.

Record dent_ok (e : dent) : Prop := {
  do_ino : 0 <= d_ino e < 2 ^ 32;
  do_name : (length (d_name e) <= 255)%nat;
  do_chars : Forall (fun c => 0 < c < 256) (d_name e);
  do_len : d_len e < 2 ^ 16;
}.

Lemma bytes2 x : 0 <= x < 2 ^ 16 -> byte_of x 0 + 256 * byte_of x 1 = x.
Proof. intros. unfold byte_of, u8. change (256 ^ 0) with 1. change (256 ^ 1) with 256. lia. Qed.

Lemma bytes4 x : 0 <= x < 2 ^ 32 -> byte_of x 0 + 256 * (byte_of x 1 + 256 * (byte_of x 2 + 256 * byte_of x 3)) = x.
Proof. intros. unfold byte_of, u8. change (256 ^ 0) with 1. change (256 ^ 1) with 256. change (256 ^ 2) with 65536. change (256 ^ 3) with 16777216. lia. Qed.

Lemma u8_byte_of x k : u8 (byte_of x k) = byte_of x k.
Proof. apply u8_small, u8_range. Qed.

Lemma dirent_of_header e : dent_ok e -> dirent_of (d_header e) = mkEnt (d_ino e) (d_len e) (zlen (d_name e)) (d_type e).
Proof.
  intros [Hi Hn _ Hl]. pose proof (bytes4 (d_ino e) Hi) as E4. pose proof (bytes2 (d_len e) ltac:(unfold d_len, zlen in *; lia)) as E2.
  unfold dirent_of, le32, le16, d_header. change (Z.to_nat 0) with 0%nat. change (Z.to_nat 4) with 4%nat. cbn [take drop le_value].
  rewrite !u8_byte_of. f_equal; [rewrite <- E4 at 5|rewrite <- E2 at 3]; ring.
Qed.

Lemma c_string_all l : Forall (fun c => 0 < c < 256) l -> c_string l = l.
Proof. induction 1 as [|c l Hc _ IH]; [done|]. cbn. rewrite (proj2 (Z.eqb_neq c 0)) by lia. by rewrite IH. Qed.

(** The directory holds [es] from [off] on. *)
Record dir_from (dinode : list Z) (off : Z) (es : list dent) : Prop := {
  df_off : 0 <= off <= i_size dinode;
  df_bytes : file_slice dinode off (Z.to_nat (i_size dinode - off)) = concat (d_bytes <$> es);
  df_ok : Forall dent_ok es;
}.

Lemma d_bytes_len e : zlen (d_bytes e) = d_len e.
Proof. unfold zlen, d_bytes, d_len, zlen. rewrite !length_app. cbn [length d_header]. lia. Qed.

Lemma file_slice_split inode off n l1 l2 :
  file_slice inode off n = l1 ++ l2 -> file_slice inode off (length l1) = l1 /\ file_slice inode (off + zlen l1) (n - length l1) = l2 /\ (length l1 <= n)%nat.
Proof.
  intros E. assert (Hl : n = (length l1 + length l2)%nat) by (apply (f_equal length) in E; rewrite file_slice_length, length_app in E; done).
  rewrite Hl, file_slice_app in E. apply app_inj_1 in E as [E1 E2]; [|by rewrite file_slice_length]. split; [done|]. split; [|lia].
  rewrite <- E2. unfold zlen. f_equal; lia.
Qed.

(** What the first entry's bytes say, and where the rest is. *)
Lemma dir_step dinode off e es :
  dir_from dinode off (e :: es) ->
  dent_ok e /\ 8 <= d_len e /\ off + d_len e <= i_size dinode /\ file_slice dinode off 8 = d_header e /\
  (forall k, (k <= length (d_name e))%nat -> file_slice dinode (off + 8) k = take k (d_name e)) /\ dir_from dinode (off + d_len e) es.
Proof.
  intros [Ho Hb Hok]. pose proof (Forall_inv Hok) as He. pose proof (Forall_inv_tail Hok) as Hes. cbn [fmap list_fmap concat] in Hb. assert (Hlen : 8 <= d_len e) by (unfold d_len, zlen; lia).
  apply file_slice_split in Hb as (Hb1 & Hb2 & Hb3). pose proof (d_bytes_len e) as Hl. unfold zlen in Hl. rewrite d_bytes_len in Hb2.
  unfold d_bytes in Hb1 at 2. apply file_slice_split in Hb1 as (Hh & Hr & _). change (length (d_header e)) with 8%nat in *. change (zlen (d_header e)) with 8 in Hr.
  split; [done|]. split; [done|]. split; [lia|]. split; [done|]. split.
  - intros k Hk. apply file_slice_split in Hr as (Hr & _ & _).
    assert (Hr' : file_slice dinode (off + 8) (length (d_name e)) = take k (d_name e) ++ drop k (d_name e)) by (by rewrite take_drop).
    apply file_slice_split in Hr' as (Hr' & _ & _). by rewrite length_take, Nat.min_l in Hr' by done.
  - split; [lia| |done]. rewrite <- Hb2. f_equal. lia.
Qed.

(** ** Names *)

(** The first entry in use with this name. *)
Definition dir_find (name : list Z) (es : list dent) : option (Z * Z) :=
  (fun e => (d_ino e, d_type e)) <$> List.find (fun e => negb (d_ino e =? 0) && bool_decide (d_name e = name)) es.

Lemma read_header_runs dinode off e es :
  mapped dinode -> dir_from dinode off (e :: es) ->
  runs (H:=H) (read_inode_data dk b fs dinode off SIZEOF_DIRENT) (d_header e).
Proof.
  intros Hm Hd. pose proof (le32_range dinode 4) as Hr. fold (i_size dinode) in Hr. pose proof (df_off _ _ _ Hd). destruct (dir_step _ _ _ _ Hd) as (_ & Hl & Hle & <- & _).
  pose proof (read_inode_data_runs dinode off 8 Hm ltac:(lia) ltac:(lia)) as R. by replace (Z.to_nat (Z.min 8 (i_size dinode - off))) with 8%nat in R by lia.
Qed.

Lemma read_name_runs dinode off e es k :
  mapped dinode -> dir_from dinode off (e :: es) -> 0 <= k <= zlen (d_name e) ->
  runs (H:=H) (read_inode_data dk b fs dinode (off + SIZEOF_DIRENT) k) (take (Z.to_nat k) (d_name e)).
Proof.
  intros Hm Hd Hk. pose proof (le32_range dinode 4) as Hr. fold (i_size dinode) in Hr. pose proof (df_off _ _ _ Hd). destruct (dir_step _ _ _ _ Hd) as (He & Hl & Hle & _ & Hn & _).
  pose proof (do_len _ He). unfold d_len, zlen in *. rewrite <- Hn by lia. unfold SIZEOF_DIRENT.
  pose proof (read_inode_data_runs dinode (off + 8) k Hm ltac:(lia) ltac:(lia)) as R. by replace (Z.min k (i_size dinode - (off + 8))) with k in R by lia.
Qed.

Lemma dir_from_nil dinode off : dir_from dinode off [] -> i_size dinode <= off.
Proof. intros [Ho Hb _]. apply (f_equal length) in Hb. rewrite file_slice_length in Hb. cbn in Hb. lia. Qed.

Lemma lookup_loop_runs dinode name es : mapped dinode -> forall fuel off, dir_from dinode off es -> (length es < fuel)%nat ->
  runs (H:=H) (lookup_loop dk b fs fuel dinode name off (i_size dinode)) (dir_find name es).
Proof.
  intros Hm. induction es as [|e es IH]; intros [|f] off Hd Hf; cbn [length] in Hf; try lia; cbn [lookup_loop].
  - apply dir_from_nil in Hd. rewrite (proj2 (Z.leb_le _ _)) by done. apply runs_ret.
  - destruct (dir_step _ _ _ _ Hd) as (He & Hl & Hle & _ & _ & Hd'). rewrite (proj2 (Z.leb_gt _ _)) by lia.
    eapply runs_bind; [by eapply read_header_runs|]. cbv beta zeta. change (zlen (d_header e) =? SIZEOF_DIRENT) with true. cbn [negb].
    rewrite dirent_of_header by done. cbn [e_inode e_rec_len e_name_len e_file_type]. specialize (IH f (off + d_len e) Hd' ltac:(lia)).
    unfold dir_find in *. cbn [List.find]. destruct (d_ino e =? 0); [exact IH|]. cbn [negb andb].
    eapply runs_bind; [eapply read_name_runs; [done|exact Hd|unfold zlen; lia]|]. cbv beta.
    rewrite take_ge by (unfold zlen; lia). rewrite Z.eqb_refl, c_string_all by apply He. cbn [negb].
    case_bool_decide; [apply runs_ret|exact IH].
Qed.

(** The number of records is below the size. *)
Lemma dir_from_length dinode off es : dir_from dinode off es -> Z.of_nat (length es) <= i_size dinode - off.
Proof.
  revert off. induction es as [|e es IH]; intros off Hd; [pose proof (df_off _ _ _ Hd); cbn; lia|].
  destruct (dir_step _ _ _ _ Hd) as (_ & Hl & Hle & _ & _ & Hd'). specialize (IH _ Hd'). cbn [length]. lia.
Qed.

Definition live (es : list dent) : list dent := List.filter (fun e => negb (d_ino e =? 0)) es.

Lemma count_loop_runs dinode es : mapped dinode -> forall fuel off n, dir_from dinode off es -> (length es < fuel)%nat ->
  runs (H:=H) (count_loop dk b fs fuel dinode off (i_size dinode) n) (n + zlen (live es)).
Proof.
  intros Hm. induction es as [|e es IH]; intros [|f] off n Hd Hf; cbn [length] in Hf; try lia; cbn [count_loop].
  - apply dir_from_nil in Hd. rewrite (proj2 (Z.leb_le _ _)) by done. rewrite Z.add_0_r. apply runs_ret.
  - destruct (dir_step _ _ _ _ Hd) as (He & Hl & Hle & _ & _ & Hd'). rewrite (proj2 (Z.leb_gt _ _)) by lia.
    eapply runs_bind; [by eapply read_header_runs|]. cbv beta zeta. change (zlen (d_header e) =? SIZEOF_DIRENT) with true. cbn [negb].
    rewrite dirent_of_header by done. cbn [e_inode e_rec_len]. unfold live in *. cbn [List.filter].
    destruct (d_ino e =? 0); cbn [negb]; [apply IH; [done|lia]|]. unfold zlen in *. cbn [length].
    specialize (IH f (off + d_len e) (n + 1) Hd' ltac:(lia)). by replace (n + Z.of_nat (S (length (List.filter (fun e => negb (d_ino e =? 0)) es)))) with (n + 1 + Z.of_nat (length (List.filter (fun e => negb (d_ino e =? 0)) es))) by lia.
Qed.

(** An entry of a listing; of a name the first 63 bytes. *)
Definition listed (e : dent) : ext2_dir_entry := mkDirEntry (take 63 (d_name e)) (d_ino e) (d_type e).

Lemma entries_loop_runs dinode es : mapped dinode -> forall fuel off, dir_from dinode off es -> (length es < fuel)%nat ->
  runs (H:=H) (entries_loop dk b fs fuel dinode off (i_size dinode) (length (live es))) (listed <$> live es).
Proof.
  intros Hm. induction es as [|e es IH]; intros [|f] off Hd Hf; cbn [length] in Hf; try lia; cbn [entries_loop].
  - apply runs_ret.
  - destruct (dir_step _ _ _ _ Hd) as (He & Hl & Hle & _ & _ & Hd'). rewrite (proj2 (Z.leb_gt _ _)) by lia. specialize (IH f (off + d_len e) Hd' ltac:(lia)).
    pose proof (read_header_runs _ _ _ _ Hm Hd) as Rh. unfold live in *. cbn [List.filter].
    destruct (Z.eqb_spec (d_ino e) 0) as [E|E]; cbn [negb].
    + destruct (length (List.filter _ es)) eqn:El; [apply length_zero_iff_nil in El; rewrite El; apply runs_ret|].
      eapply runs_bind; [exact Rh|]. cbv beta zeta. change (zlen (d_header e) =? SIZEOF_DIRENT) with true. cbn [negb].
      rewrite dirent_of_header by done. cbn [e_inode e_rec_len]. rewrite (proj2 (Z.eqb_eq _ _)) by done. exact IH.
    + cbn [length]. eapply runs_bind; [exact Rh|]. cbv beta zeta. change (zlen (d_header e) =? SIZEOF_DIRENT) with true. cbn [negb].
      rewrite dirent_of_header by done. cbn [e_inode e_rec_len e_name_len e_file_type]. rewrite (proj2 (Z.eqb_neq _ _)) by done.
      assert ((if 63 <? zlen (d_name e) then 63 else zlen (d_name e)) = Z.min 63 (zlen (d_name e))) as -> by (destruct (Z.ltb_spec 63 (zlen (d_name e))); lia).
      eapply runs_bind; [eapply read_name_runs; [done|exact Hd|unfold zlen; lia]|]. cbv beta. eapply runs_bind; [exact IH|]. cbv beta.
      assert (take (Z.to_nat (Z.min 63 (zlen (d_name e)))) (d_name e) = take 63 (d_name e)) as ->.
      { unfold zlen. destruct (Z.le_ge_cases 63 (Z.of_nat (length (d_name e)))); [by rewrite Z.min_l|]. rewrite Z.min_r, !take_ge by lia. done. }
      rewrite c_string_all by (apply Forall_take, He). apply runs_ret.
Qed.

(** ** The file system as a map from numbers to files and directories *)

Inductive fnode := FFile (data : list Z) | FDir (es : list dent).

(** Inode [ino] on the disk is the file or the directory [n]. *)
Definition represents (ino : Z) (n : fnode) : Prop :=
  let inode := inode_at ino in
  inode_ok ino /\ mapped inode /\
  match n with
  | FFile data => is_dir inode = false /\ file_slice inode 0 (Z.to_nat (i_size inode)) = data
  | FDir es => is_dir inode = true /\ dir_from inode 0 es
  end.

(** [m] describes the disk: each of its nodes is there, the root is among
    them, and so is what the entries of its directories name. *)
Record volume (m : gmap Z fnode) : Prop := {
  vo_nodes : forall ino n, m !! ino = Some n -> represents ino n;
  vo_root : is_Some (m !! EXT2_ROOT_INO);
  vo_closed : forall ino es e, m !! ino = Some (FDir es) -> e ∈ es -> d_ino e <> 0 -> is_Some (m !! d_ino e);
}.
End Spec.

(** ** Paths *)

(** The names of a path: what is between slashes and not empty. *)
Definition slash (c : Z) : bool := c =? 47.
Definition path_names (path : list Z) : list (list Z) := fields slash path.

Lemma path_names_slash r : path_names (47 :: r) = path_names r.
Proof. by apply fields_sep. Qed.

Lemma path_names_skip p : path_names (skip_slashes p) = path_names p.
Proof. induction p as [|c r IH]; [done|]. cbn [skip_slashes]. destruct (Z.eqb_spec c 47) as [->|]; [|done]. by rewrite path_names_slash. Qed.

Lemma skip_slashes_head p c r : skip_slashes p = c :: r -> c <> 47 /\ (length (c :: r) <= length p)%nat.
Proof.
  induction p as [|a p IH]; [done|]. cbn [skip_slashes]. destruct (Z.eqb_spec a 47); [intros E; destruct (IH E); cbn in *; split; [done|lia]|].
  intros [= -> ->]. done.
Qed.

Lemma component_split x r n : no_sep slash x -> starts_sep slash r -> (length x <= n)%nat -> component n (x ++ r) = (x, r).
Proof.
  intros Hx Hr. revert n. induction Hx as [|c x Hc _ IH]; intros n Hn; cbn [app].
  - destruct r as [|c r], n as [|n]; try done. cbn in Hr |- *. unfold slash in Hr. by rewrite Hr.
  - destruct n as [|n]; cbn [length] in Hn; [lia|]. cbn [component]. unfold slash in Hc. rewrite Hc. by rewrite IH by lia.
Qed.

(** What a path names.  [..] goes to the root. *)
Fixpoint walk (m : gmap Z fnode) (ino : Z) (names : list (list Z)) : option Z :=
  match names with
  | [] => Some ino
  | nm :: r =>
      if bool_decide (nm = bs ".") then walk m ino r
      else if bool_decide (nm = bs "..") then walk m EXT2_ROOT_INO r
      else match m !! ino with
           | Some (FDir es) => match dir_find nm es with Some (ino', _) => walk m ino' r | None => None end
           | _ => None
           end
  end.

Definition find_node (m : gmap Z fnode) (path : list Z) : option (Z * fnode) :=
  match path with
  | 47 :: rest => match walk m EXT2_ROOT_INO (path_names rest) with Some ino => pair ino <$> m !! ino | None => None end
  | _ => None
  end.

Section Refine.
Context {D : Type} `{DK : Disk D} {H : Type} `{NH : NodeHeap H}.
Variables (dk : D) (b : blocks) (fs : ext2) (img : mem) (m : gmap Z fnode).
Hypothesis Hholds : holds dk b fs img.
Hypothesis Hgeo : geometry fs.
Hypothesis Hmem : plenty (H:=H).
Hypothesis Hvol : volume fs img m.

Lemma node_read ino n : m !! ino = Some n -> runs (H:=H) (read_inode dk b fs ino) (Some (inode_at fs img ino)).
Proof. intros E. by apply read_inode_runs, (vo_nodes _ _ _ Hvol ino n). Qed.

Lemma node_nonzero ino n : m !! ino = Some n -> ino <> 0.
Proof. intros E. destruct (vo_nodes _ _ _ Hvol ino n E) as ((? & _) & _). lia. Qed.

Lemma dir_lookup_runs ino n name :
  m !! ino = Some n -> runs (H:=H) (dir_lookup_callback dk b fs ino name) (match n with FDir es => dir_find name es | FFile _ => None end).
Proof.
  intros E. eapply runs_bind; [by eapply node_read|]. cbv beta iota. destruct (vo_nodes _ _ _ Hvol ino n E) as (_ & Hm & Hn).
  destruct n as [data|es]; destruct Hn as [-> Hn]; cbn [negb]; [apply runs_ret|].
  apply lookup_loop_runs with (img := img); try done. pose proof (dir_from_length _ _ _ _ _ Hn). lia.
Qed.

(** The entry found is one of the directory's, in use. *)
Lemma dir_find_in name es x t : dir_find name es = Some (x, t) -> exists e, e ∈ es /\ d_ino e = x /\ x <> 0 /\ d_name e = name.
Proof.
  unfold dir_find. destruct (List.find _ es) as [e|] eqn:E; [|done]. intros [= <- <-]. apply List.find_some in E as [Hin Hb].
  apply andb_true_iff in Hb as [H1 H2]. apply negb_true_iff, Z.eqb_neq in H1. apply bool_decide_eq_true in H2. exists e. rewrite list_elem_of_In. done.
Qed.

Lemma path_loop_runs fuel : forall path ino, (length path < fuel)%nat -> is_Some (m !! ino) ->
  Forall (fun x => (length x <= 255)%nat) (path_names path) ->
  runs (H:=H) (path_loop dk b fs fuel ino path) (default 0 (walk m ino (path_names path))) /\
  (forall ino', walk m ino (path_names path) = Some ino' -> is_Some (m !! ino')).
Proof.
  induction fuel as [|f IH]; intros path ino Hf [n Hn] Hl; [lia|]. cbn [path_loop]. rewrite <- path_names_skip in *.
  destruct (skip_slashes path) as [|c r] eqn:Es; [split; [apply runs_ret|intros i [= <-]; by exists n]|].
  apply skip_slashes_head in Es as [Hc Hlen]. destruct (split_on_spec slash (c :: r)) as (x & rest & Ep & Hx & Hr).
  assert (Hxn : x <> []) by (intros ->; cbn [app] in Ep; subst rest; cbn in Hr; unfold slash in Hr; lia).
  assert (Epn : path_names (c :: r) = x :: path_names rest) by (rewrite Ep; by apply fields_word). rewrite Epn in *.
  rewrite Ep in *. clear Ep. rewrite component_split by (try done; apply (Forall_inv Hl)). rewrite length_app in Hlen.
  assert (length rest < f)%nat by (destruct x; [done|cbn [length] in Hlen; lia]). pose proof (Forall_inv_tail Hl) as Hl'. cbn [walk].
  case_bool_decide; [apply IH; eauto|]. case_bool_decide.
  { destruct (IH rest EXT2_ROOT_INO) as [R1 R2]; [done|apply Hvol|done|]. split; [|done]. eapply runs_bind; [by eapply node_read|exact R1]. }
  rewrite Hn. pose proof (dir_lookup_runs ino n x Hn) as R. destruct n as [data|es].
  { split; [|done]. eapply runs_bind; [exact R|apply runs_ret]. }
  destruct (dir_find x es) as [[ino' t]|] eqn:Ef; [|split; [|done]; eapply runs_bind; [exact R|apply runs_ret]].
  apply dir_find_in in Ef as (e & He & <- & Hnz & _). destruct (IH rest (d_ino e)) as [R1 R2]; [done|by eapply vo_closed|done|].
  split; [|done]. eapply runs_bind; [exact R|exact R1].
Qed.

(** The path's number, 0 when it names nothing. *)
Lemma resolve_path_runs path :
  Forall (fun x => (length x <= 255)%nat) (path_names path) ->
  runs (H:=H) (resolve_path dk b fs path) (match find_node m path with Some (ino, _) => ino | None => 0 end) /\
  forall ino n, find_node m path = Some (ino, n) -> m !! ino = Some n.
Proof.
  intros Hl. unfold resolve_path, find_node. destruct path as [|c rest]; [split; [apply runs_ret|done]|].
  destruct (Z.eq_dec c 47) as [->|Hc].
  - rewrite path_names_slash in Hl. destruct (path_loop_runs (S (length rest)) rest EXT2_ROOT_INO) as [R1 R2]; [lia|apply Hvol|done|].
    destruct (walk m EXT2_ROOT_INO (path_names rest)) as [ino'|]; [|split; [exact R1|done]].
    destruct (R2 ino' eq_refl) as [n' E]. rewrite E. split; [exact R1|]. by intros ino n [= <- <-].
  - assert (forall {A} (x y : A), match c with 47 => x | _ => y end = y) as Em.
    { intros A x y. destruct c as [|q|q]; try done. do 6 (destruct q as [q|q|]; try done). }
    rewrite !Em. split; [apply runs_ret|done].
Qed.
End Refine.
