(* ===== verification/Ext2Ref.v ===== *)
(** * The ext2 driver implements a tree of files

    Mounting reads the geometry and the group descriptors off the disk; then
    reading a path and listing one do what the map of files and directories
    on the disk says ([find_node]). *)
From S2P Require Import Prelude Mem FrameAlloc Pmm Task Sched Libk Vfs Block Ext2 Ext2Spec.

Lemma file_slice_take fs img inode off n k : take k (file_slice fs img inode off n) = file_slice fs img inode off (k `min` n).
Proof.
  destruct (Nat.le_ge_cases k n) as [Hk|Hk].
  - rewrite Nat.min_l by done. replace n with (k + (n - k))%nat by lia. rewrite file_slice_app, take_app_le, take_ge; try done; rewrite file_slice_length; lia.
  - rewrite Nat.min_r, take_ge by (rewrite ?file_slice_length; lia). done.
Qed.

Section Claims.
Context {D : Type} `{DK : Disk D} {H : Type} `{NH : NodeHeap H}.
Implicit Types (dk : D) (b : blocks) (fs : ext2) (img : mem) (m : gmap Z fnode).


End Claims.

(** ** Mounting *)

(** The superblock on the disk, and what is mounted from it. *)
Definition disk_super (img : mem) : list Z := bytes_at SIZEOF_SUPERBLOCK img 1024.
Definition super_bs (sb : list Z) : Z := 1024 * 2 ^ s_log_block_size sb.
Definition super_groups (sb : list Z) : Z := (s_blocks_count sb + s_blocks_per_group sb - 1) / s_blocks_per_group sb.
Definition super_isize (sb : list Z) : Z := if s_inode_size sb =? 0 then 128 else s_inode_size sb.
Definition bgd_blocks (sb : list Z) : Z := (super_groups sb * SIZEOF_BGD + super_bs sb - 1) / super_bs sb.
Definition disk_fs (img : mem) (name : list Z) : ext2 :=
  let sb := disk_super img in
  mkExt2 (take 15 name) sb (bytes_at (Z.to_nat (bgd_blocks sb * super_bs sb)) img (super_bs sb * (s_first_data_block sb + 1)))
    (super_bs sb) (s_blocks_per_group sb) (s_inodes_per_group sb) (super_isize sb) (super_groups sb) true.

(** A superblock the driver can use. *)
Record good_super (sb : list Z) : Prop := {
  gs_magic : s_magic sb = EXT2_SUPER_MAGIC;
  gs_log : s_log_block_size sb <= 6;
  gs_bpg : 0 < s_blocks_per_group sb;
  gs_blocks : 0 < s_blocks_count sb;
  gs_count : s_blocks_count sb + s_blocks_per_group sb - 1 < 2 ^ 32;
  gs_ipg : 0 < s_inodes_per_group sb;
  gs_isize : 128 <= super_isize sb /\ (super_isize sb | super_bs sb);
  gs_groups : super_groups sb * SIZEOF_BGD + super_bs sb - 1 < 2 ^ 32;
  gs_table : s_first_data_block sb + 1 + bgd_blocks sb < 2 ^ 32;
}.

Lemma pow6 k : 0 <= k <= 6 -> 1 <= 2 ^ k <= 64.
Proof. intros Hk. split; [apply (Z.pow_le_mono_r 2 0); lia|apply (Z.pow_le_mono_r 2 k 6); lia]. Qed.

Section Mount.
Context {D : Type} `{DK : Disk D} {H : Type} `{NH : NodeHeap H}.
Implicit Types (dk : D) (b : blocks) (fs : ext2) (img : mem).

Lemma read_blocks_eq dk b fs img n start :
  holds dk b fs img -> geometry fs -> 0 <= start -> start + Z.of_nat n < 2 ^ 32 ->
  read_blocks dk b fs n start = Some (bytes_at (n * Z.to_nat (block_size fs)) img (block_size fs * start)).
Proof.
  intros Hh Hg. destruct (bs_facts fs Hg) as (H1 & _). revert start. induction n as [|n IH]; intros start Hs Hn; [done|]. cbn [read_blocks].
  rewrite u32_small, (read_block_eq dk b fs img Hh Hg), block_ok_eq, IH by (done || lia). cbn [negb Nat.mul]. rewrite bytes_at_app. unfold block_bytes. do 3 f_equal. lia.
Qed.

Lemma read_blocks_ext dk b fs fs' n start : dev_name fs = dev_name fs' -> block_size fs = block_size fs' -> read_blocks dk b fs n start = read_blocks dk b fs' n start.
Proof.
  intros E1 E2. revert start. induction n as [|n IH]; intros start; [done|]. cbn [read_blocks]. rewrite IH. unfold read_block, block_ok. by rewrite E1, E2.
Qed.

Lemma disk_fs_geometry img name : good_super (disk_super img) -> geometry (disk_fs img name).
Proof.
  intros [G1 G2 G3 G4' G4 G5 G6 G7 G8]. set (sb := disk_super img) in *. pose proof (le32_range sb 24) as Hlog. fold (s_log_block_size sb) in Hlog.
  assert (1024 <= super_bs sb) by (unfold super_bs; pose proof (pow6 (s_log_block_size sb)); lia).
  assert (0 <= super_groups sb) by (apply Z.div_pos; [pose proof (le32_range sb 4) as Hc; fold (s_blocks_count sb) in Hc|]; lia).
  split; cbn [disk_fs block_size inode_size inodes_per_group bgd_count x_bgd]; fold sb; [exists (s_log_block_size sb); split; [lia|done]|done|done|].
  unfold zlen. rewrite bytes_at_length. unfold bgd_blocks, SIZEOF_BGD in *.
  pose proof (Z.div_mod (super_groups sb * 32 + super_bs sb - 1) (super_bs sb) ltac:(lia)). pose proof (Z.mod_pos_bound (super_groups sb * 32 + super_bs sb - 1) (super_bs sb) ltac:(lia)).
  nia.
Qed.

(** The state once the superblock is read. *)
Definition super_fs (fs : ext2) (sb : list Z) : ext2 :=
  mkExt2 (dev_name fs) sb (x_bgd fs) (super_bs sb) (s_blocks_per_group sb) (s_inodes_per_group sb) (super_isize sb) (super_groups sb) (mounted fs).

Lemma read_superblock_runs dk b fs img :
  holds dk b fs img -> plenty (H:=H) ->
  let sb := disk_super img in
  (good_super sb -> runs (H:=H) (ext2_read_superblock dk b fs) (true, super_fs fs sb)) /\
  (s_magic sb <> EXT2_SUPER_MAGIC -> exists fs', runs (H:=H) (ext2_read_superblock dk b fs) (false, fs') /\ mounted fs' = mounted fs).
Proof.
  intros Hh Hp sb. unfold ext2_read_superblock. pose proof (Hh 2 2 ltac:(lia) ltac:(lia)) as Hr. change (Z.to_nat (512 * 2)) with 1024%nat in Hr. change (512 * 2) with 1024 in Hr. rewrite Hr.
  assert (take SIZEOF_SUPERBLOCK (bytes_at 1024 img 1024) = sb) as ->.
  { pose proof (bytes_at_slice 1024 img 1024 0 SIZEOF_SUPERBLOCK ltac:(apply Nat.leb_le; reflexivity)) as E. rewrite drop_0 in E. exact E. }
  cbv zeta. split.
  - intros [G1 G2 G3 G4' G4 _ _ _ _]. pose proof (le32_range sb 24) as Hlog. fold (s_log_block_size sb) in Hlog. apply runs_buffer; [done|lia|]. rewrite G1, Z.eqb_refl. cbn [negb].
    apply runs_div; [lia|]. rewrite (Z.land_ones _ 5), Z.mod_small, Z.shiftl_mul_pow2 by lia. pose proof (pow6 (s_log_block_size sb)).
    rewrite (u32_small (1024 * _)), u32_small by lia. apply runs_ret.
  - intros G1. eexists. split; [apply runs_buffer; [done|lia|]; rewrite (proj2 (Z.eqb_neq _ _)) by done; apply runs_ret|done].
Qed.

Lemma read_bgd_runs dk b fs img name :
  dev_name fs = take 15 name -> holds dk b (disk_fs img name) img -> plenty (H:=H) -> good_super (disk_super img) ->
  runs (H:=H) (ext2_read_bgd dk b (super_fs fs (disk_super img)))
    (true, set_bgd (x_bgd (disk_fs img name)) (super_fs fs (disk_super img))).
Proof.
  intros Hn Hh Hp G. set (sb := disk_super img) in *.
  assert (Hbb : 0 < bgd_blocks sb /\ bgd_blocks sb * super_bs sb < 2 ^ 32 /\ 1024 <= super_bs sb).
  { destruct G as [G1 G2 G3 G4' G4 G5 G6 G7 G8]. pose proof (le32_range sb 24) as Hlog. fold (s_log_block_size sb) in Hlog. pose proof (pow6 (s_log_block_size sb)).
    assert (1024 <= super_bs sb) by (unfold super_bs; lia). assert (0 < super_groups sb) by (apply Z.div_str_pos; lia).
    unfold bgd_blocks, SIZEOF_BGD in *. split; [apply Z.div_str_pos; lia|]. split; [|done]. rewrite Z.mul_comm. eapply Z.le_lt_trans; [apply Z.mul_div_le; lia|lia]. }
  destruct Hbb as (Hb1 & Hb2 & Hb3). pose proof (gs_table _ G) as G8. pose proof (gs_groups _ G) as G7. pose proof (le32_range sb 20) as Hfd. fold (s_first_data_block sb) in Hfd.
  unfold ext2_read_bgd. cbn [super_fs block_size bgd_count x_sb]. apply runs_div; [lia|]. cbv zeta. fold (bgd_blocks sb). rewrite (u32_small (bgd_blocks sb)), (u32_small (_ + 1)), (u32_small (_ * _)) by nia.
  intros h. pose proof (Hp (bgd_blocks sb * super_bs sb) h ltac:(nia)) as Ha. destruct (nh_alloc _ h) as [p h']. cbn [fst] in Ha. rewrite (proj2 (Z.eqb_neq p 0)), (proj2 (Z.leb_gt _ _)) by done.
  rewrite (read_blocks_ext dk b _ (disk_fs img name)), (read_blocks_eq dk b _ img) by (try done; try lia; by apply disk_fs_geometry).
  exists h'. cbn [disk_fs block_size x_bgd]. fold sb. rewrite <- Z2Nat.inj_mul by lia. reflexivity.
Qed.

End Mount.

(** ** A small volume *)

(** Blocks of 1 KiB: a boot block, the superblock, the group descriptors in block 2, the
    inode table from block 5 on, the root directory in block 8 and a file in
    block 9. *)
Definition demo_pieces : list (Z * list Z) :=
  [(0, [7; 0; 0; 0]); (1024, [16; 0; 0; 0; 32; 0; 0; 0]); (1024 + 20, [1; 0; 0; 0; 0; 0; 0; 0]); (1024 + 32, [0; 32; 0; 0]); (1024 + 40, [16; 0; 0; 0]); (1024 + 56, [0x53; 0xEF]); (1024 + 88, [128; 0]);
   (2048 + 8, [5; 0; 0; 0]);
   (5 * 1024 + 128, [0xED; 0x41; 0; 0; 0; 4; 0; 0]); (5 * 1024 + 128 + 40, [8; 0; 0; 0]);
   (5 * 1024 + 11 * 128, [0xA4; 0x81; 0; 0; 6; 0; 0; 0]); (5 * 1024 + 11 * 128 + 40, [9; 0; 0; 0]);
   (8 * 1024, [2; 0; 0; 0; 12; 0; 1; 2; 46; 0; 0; 0; 2; 0; 0; 0; 12; 0; 2; 2; 46; 46; 0; 0; 12; 0; 0; 0; 232; 3; 2; 1; 104; 105]);
   (9 * 1024, bs "hello!")].
Definition demo_img : mem := fun x => foldr (fun '(a, l) r => if in_region a (zlen l) x then znth 0 l (x - a) else r) 0 demo_pieces.

#[local] Instance image_disk : Disk unit := {
  disk_read _ id lba n := (n, bytes_at (Z.to_nat (512 * n)) demo_img (512 * lba));
  disk_write d _ _ _ := (-1, d);
}.
#[local] Instance roomy_heap : NodeHeap unit := { nh_alloc n h := (16, h); nh_realloc p n h := (16, h); nh_free p h := h }.

Definition demo_blocks : blocks := mkBlocks [mkDev (bs "hda") 0 64 (Some FnDriver) None] [].
Definition demo_fs : ext2 := disk_fs demo_img (bs "hda").
Definition demo_dir : list dent :=
  [mkDent 2 2 (bs ".") [0; 0; 0]; mkDent 2 2 (bs "..") [0; 0]; mkDent 12 1 (bs "hi") (replicate 990 0)].
Definition demo_tree : gmap Z fnode := {[ 2 := FDir demo_dir; 12 := FFile (bs "hello!") ]}.

Lemma demo_holds fs : dev_name fs = bs "hda" -> holds tt demo_blocks fs demo_img.
Proof. intros E lba n _ _. rewrite E. reflexivity. Qed.
Lemma roomy_plenty : plenty (H:=unit).
Proof. done. Qed.
Lemma demo_good : good_super (disk_super demo_img).
Proof. split; try (by vm_compute); try (vm_compute; congruence). split; [vm_compute; congruence|]. exists 8. by vm_compute. Qed.
Lemma demo_geometry : geometry demo_fs.
Proof. apply disk_fs_geometry, demo_good. Qed.

Lemma demo_volume : volume demo_fs demo_img demo_tree.
Proof.
  split.
  - intros ino n E. unfold demo_tree in E. apply lookup_insert_Some in E as [[<- <-]|[_ E]]; [|apply lookup_singleton_Some in E as [<- <-]].
    + split; [by vm_compute|]. split; [by split; vm_compute|]. split; [by vm_compute|]. split; [by vm_compute|by vm_compute|].
      repeat constructor; try (vm_compute; congruence).
    + split; [by vm_compute|]. split; [by split; vm_compute|]. split; by vm_compute.
  - by exists (FDir demo_dir).
  - intros ino es e E He _. unfold demo_tree in E. apply lookup_insert_Some in E as [[<- [= <-]]|[_ E]]; [|by apply lookup_singleton_Some in E as [<- ?]].
    unfold demo_dir in He. rewrite !elem_of_cons, elem_of_nil in He. destruct He as [->|[->|[->|[]]]]; by eexists.
Qed.




(** A directory that is a hole has an entry of length 0: the lookup stays at
    it for ever. *)
Definition hole_dir : list Z := [0xED; 0x41; 0; 0; 0; 4; 0; 0] ++ replicate 120 0.
Lemma lookup_never_returns fuel : lookup_loop tt demo_blocks demo_fs fuel hole_dir (bs "x") 0 1024 tt = inr Forever.
Proof.
  induction fuel as [|f IH]; [done|]. cbn [lookup_loop]. rewrite (proj2 (Z.leb_gt 1024 0)) by lia. unfold bind at 1.
  assert (read_inode_data tt demo_blocks demo_fs hole_dir 0 SIZEOF_DIRENT tt = inl (replicate 8 0, tt)) as -> by (by vm_compute).
  change (zlen (replicate 8 0) =? SIZEOF_DIRENT) with true. exact IH.
Qed.

(** A file with a hole over the whole of its indirect part: block 12 is a
    hole, and the driver takes it from the first block of the disk. *)
Definition sparse_file : list Z := [0xA4; 0x81; 0; 0; 0; 0x34; 0; 0] ++ replicate 120 0.
Example sparse_reads_boot_block :
  bmap demo_fs demo_img sparse_file 12 = 0 /\ get_inode_block tt demo_blocks demo_fs sparse_file 12 tt = inl (7, tt).
Proof. by vm_compute. Qed.
