(* ===== verification/Devfs.v ===== *)
(** * Character devices (kernel/src/drivers/devfs.c)

    The devices mounted under /dev, and the pseudo-random generator behind
    /dev/random.  /dev/net is modelled in Net.v, the console in Screen.v and
    Kbd.v; their reads and writes are put together in SysFd.v. *)
From S2P Require Import Prelude Mem FrameAlloc Pmm Task Sched Libk Vfs.

(** Which device a [struct chardev] belongs to. *)
Inductive chardev := DevConsole | DevNull | DevZero | DevRandom | DevNet | DevAudio.

#[export] Instance chardev_eq_dec : EqDecision chardev.
Proof. solve_decision. Defined.

Definition rng_seed : Z := 0x12345678.

Definition rng_next (st : Z) : Z :=
  let st := Z.lxor st (u32 (Z.shiftl st 13)) in
  let st := Z.lxor st (Z.shiftr st 17) in
  Z.lxor st (u32 (Z.shiftl st 5)).

(** [i] bytes were produced before; [n] are still to come. *)
Fixpoint random_loop (n : nat) (i : Z) (uptime st : Z) : list Z * Z :=
  match n with
  | O => ([], st)
  | S n' =>
      let st := if i mod 4 =? 0 then u32 (st + uptime * 2654435761) else st in
      let st := rng_next st in
      let '(l, st') := random_loop n' (i + 1) uptime st in
      (Z.shiftr st 24 :: l, st')
  end.
Definition random_read (n uptime st : Z) : list Z * Z := random_loop (Z.to_nat n) 0 uptime st.

Section Mount.
Context {H : Type} `{NodeHeap H}.
Variables (pool : Z) (tbl : sched).

(** [addr] gives the addresses of the four structures. *)
Definition devfs_init (addr : chardev -> Z) (s : vfs H) : vfs H :=
  vfs_mount_dev pool tbl (bs "random") (addr DevRandom) (vfs_mount_dev pool tbl (bs "zero") (addr DevZero)
    (vfs_mount_dev pool tbl (bs "null") (addr DevNull) (vfs_mount_dev pool tbl (bs "console") (addr DevConsole) s))).
End Mount.
