(* ===== verification/SysState.v ===== *)
(** * The state system calls work on (kernel/src/sys/syscall.c)

    System calls of one task run to completion or to a point where the task
    gives up the CPU.  Their state gathers the scheduler, the address spaces
    and frames, the pipes by address, the file system, the foreground group
    of the console, the rudo queue and the drivers' state: keyboard, screen,
    mouse, random numbers, the network device and its card.  [umem] is user memory as the running
    task sees it: user pointers are dereferenced there, and the pages behind
    them are taken to be mapped. *)
From S2P Require Import Prelude Net Font Screen Kbd Mouse Mem FrameAlloc Pmm Task Sched Pipe Pmap Libk Vfs.

(** How a call ends for the task that made it: it returns a value; it has
    parked the task, or halted the CPU until an interrupt, and goes on where
    it stopped;
    the task never comes back; the kernel dereferences a null pointer. *)
Inductive outcome := Ret (r : Z) | Park | Gone | Fault.

Record rudo_queue := mkRudo {
  r_op : Z;
  r_requester : Z;
  r_pending : bool;
  r_result : Z;
}.

Record sys (A H N : Type) := mkSys {
  sch : sched;
  vmm : vm A;
  pipes : gmap Z pipe;
  fsys : vfs H;
  umem : mem;
  console_fg_pgid : Z;
  rudo : rudo_queue;
  g_rudo_fault_requester : Z;
  kb : kbd;
  scr : tty;
  mous : mouse;
  rng_state : Z;
  netst : net;
  nic : N;
}.
Arguments mkSys {A H N} _ _ _ _ _ _ _ _ _ _ _ _ _ _.
Arguments sch {A H N} _.
Arguments vmm {A H N} _.
Arguments pipes {A H N} _.
Arguments fsys {A H N} _.
Arguments umem {A H N} _.
Arguments console_fg_pgid {A H N} _.
Arguments rudo {A H N} _.
Arguments g_rudo_fault_requester {A H N} _.
Arguments kb {A H N} _.
Arguments scr {A H N} _.
Arguments mous {A H N} _.
Arguments rng_state {A H N} _.
Arguments netst {A H N} _.
Arguments nic {A H N} _.

Section State.
Context {A H N : Type}.
Implicit Types s : sys A H N.

Definition set_sch (v : sched) s : sys A H N :=
  mkSys v (vmm s) (pipes s) (fsys s) (umem s) (console_fg_pgid s) (rudo s) (g_rudo_fault_requester s) (kb s) (scr s) (mous s) (rng_state s) (netst s) (nic s).
Definition set_vmm (v : vm A) s : sys A H N :=
  mkSys (sch s) v (pipes s) (fsys s) (umem s) (console_fg_pgid s) (rudo s) (g_rudo_fault_requester s) (kb s) (scr s) (mous s) (rng_state s) (netst s) (nic s).
Definition set_pipes (v : gmap Z pipe) s : sys A H N :=
  mkSys (sch s) (vmm s) v (fsys s) (umem s) (console_fg_pgid s) (rudo s) (g_rudo_fault_requester s) (kb s) (scr s) (mous s) (rng_state s) (netst s) (nic s).
Definition set_fsys (v : vfs H) s : sys A H N :=
  mkSys (sch s) (vmm s) (pipes s) v (umem s) (console_fg_pgid s) (rudo s) (g_rudo_fault_requester s) (kb s) (scr s) (mous s) (rng_state s) (netst s) (nic s).
Definition set_umem (v : mem) s : sys A H N :=
  mkSys (sch s) (vmm s) (pipes s) (fsys s) v (console_fg_pgid s) (rudo s) (g_rudo_fault_requester s) (kb s) (scr s) (mous s) (rng_state s) (netst s) (nic s).
Definition set_fg_pgid (v : Z) s : sys A H N :=
  mkSys (sch s) (vmm s) (pipes s) (fsys s) (umem s) v (rudo s) (g_rudo_fault_requester s) (kb s) (scr s) (mous s) (rng_state s) (netst s) (nic s).
Definition set_rudo (v : rudo_queue) s : sys A H N :=
  mkSys (sch s) (vmm s) (pipes s) (fsys s) (umem s) (console_fg_pgid s) v (g_rudo_fault_requester s) (kb s) (scr s) (mous s) (rng_state s) (netst s) (nic s).
Definition set_rudo_fault (v : Z) s : sys A H N :=
  mkSys (sch s) (vmm s) (pipes s) (fsys s) (umem s) (console_fg_pgid s) (rudo s) v (kb s) (scr s) (mous s) (rng_state s) (netst s) (nic s).
Definition set_kb (v : kbd) s : sys A H N :=
  mkSys (sch s) (vmm s) (pipes s) (fsys s) (umem s) (console_fg_pgid s) (rudo s) (g_rudo_fault_requester s) v (scr s) (mous s) (rng_state s) (netst s) (nic s).
Definition set_scr (v : tty) s : sys A H N :=
  mkSys (sch s) (vmm s) (pipes s) (fsys s) (umem s) (console_fg_pgid s) (rudo s) (g_rudo_fault_requester s) (kb s) v (mous s) (rng_state s) (netst s) (nic s).
Definition set_mous (v : mouse) s : sys A H N :=
  mkSys (sch s) (vmm s) (pipes s) (fsys s) (umem s) (console_fg_pgid s) (rudo s) (g_rudo_fault_requester s) (kb s) (scr s) v (rng_state s) (netst s) (nic s).
Definition set_rng (v : Z) s : sys A H N :=
  mkSys (sch s) (vmm s) (pipes s) (fsys s) (umem s) (console_fg_pgid s) (rudo s) (g_rudo_fault_requester s) (kb s) (scr s) (mous s) v (netst s) (nic s).
Definition set_net (v : net) (c : N) s : sys A H N :=
  mkSys (sch s) (vmm s) (pipes s) (fsys s) (umem s) (console_fg_pgid s) (rudo s) (g_rudo_fault_requester s) (kb s) (scr s) (mous s) (rng_state s) v c.

Definition current_task s : option Z := sched_get_current (sch s).

(** The task in slot [c], and its update. *)
Definition tk s (c : Z) : task := task_at (sch s) c.
Definition upd (c : Z) (f : task -> task) s : sys A H N := set_sch (upd_task c f (sch s)) s.

(** [if (t != NULL) sched_wake(t)] *)
Definition wake_opt (t : option Z) s : sys A H N :=
  match t with Some i => set_sch (sched_wake i (sch s)) s | None => s end.

(** The text of a string in user memory, up to [n] bytes. *)
Definition user_string (n : nat) (p : Z) s : list Z := c_string (bytes_at n (umem s) p).

(** What the handlers of a running task may assume. *)
Definition sys_wf s : Prop := sched_wf (sch s).
End State.
