(* ===== verification/SysDemo.v ===== *)
(** * A small running system, for the examples and witnesses

    Four tasks: the idle task, init, the rudo daemon (PID 2, root, waiting)
    and an unprivileged shell (PID 3) that runs in slot 3.  Frames, page
    tables and files are those of the examples of Pmap.v and VfsSpec.v. *)
From S2P Require Import Prelude Net Font Screen Kbd Mouse Mem FrameAlloc Pmm Task Sched Pipe Pmap Libk Vfs VfsSpec SysState.

#[export] Instance demo_fa : FrameAlloc pmm := pmm_frame_alloc OFF.
#[export] Instance demo_fa_laws : FrameAllocLaws pmm := pmm_frame_alloc_laws OFF.

Definition demo_proc (pid parent uid : Z) (st : task_state) : task :=
  set_fd 1 (mkFile 0 0 FDF_CONSOLE_OUT 0) (set_fd 0 (mkFile 0 0 FDF_CONSOLE_IN 0)
    (set_user_entry 0x400000 (set_uid uid (set_parent_pid parent (set_pid pid (set_state st task0)))))).

Definition demo_procs : sched :=
  mkSched (<[0%nat := set_state TASK_READY task0]> (<[1%nat := demo_proc 1 0 0 TASK_BLOCKED]>
            (<[2%nat := demo_proc 2 1 0 TASK_BLOCKED]> (<[3%nat := demo_proc 3 1 1000 TASK_RUNNING]> (replicate 64 task0)))))
          (Some 3) true 4 1 (mkCpu 0 0x6fffff00 0x400100 0x202) 0 0 0 0 0 false.

Definition demo_sys : sys pmm positive unit :=
  mkSys demo_procs demo_vm ∅ demo_vfs (fun _ => 0) 1 (mkRudo 0 0 false 0) 0 kbd0 demo_tty mouse0 0x12345678 ready_net tt.

Lemma demo_procs_wf : sched_wf demo_procs.
Proof. split; [reflexivity|]. intros i [= <-]. unfold slot_ok, MAX_TASKS. lia. Qed.
