(* ===== verification/SysFd.v ===== *)
(** * File descriptors (kernel/src/sys/syscall.c)

    The descriptor table of a task holds open file descriptions by value;
    a slot whose node, pipe and flags are all zero is free.  Pipes are shared
    and counted.  Reads and writes reach the character devices of /dev, the
    keyboard and the screen; playback on /dev/audio has no effect on the
    kernel's state. *)
From S2P Require Import Prelude Net Font Screen Kbd Mouse Mem FrameAlloc Pmm Task Sched Pipe Pmap Libk Vfs Devfs SysState.

Definition O_APPEND : Z := 1.
Definition O_CREATE : Z := 2.

Definition fd_free (f : file) : bool := (f_node f =? 0) && (f_pipe f =? 0) && (f_flags f =? 0).

Definition fd_get (t : task) (fd : Z) : option file :=
  if (fd <? 0) || (MAX_FDS <=? fd) then None
  else let f := fd_at t fd in if fd_free f then None else Some f.

(** First free slot in [fd, fd + n). *)
Fixpoint fd_find (n : nat) (fd : Z) (t : task) : Z :=
  match n with
  | O => -1
  | S n' => if fd_free (fd_at t fd) then fd else fd_find n' (fd + 1) t
  end.
Definition fd_alloc (t : task) : Z := fd_find (Z.to_nat MAX_FDS) 0 t.

(** [(f->flags & bit) ? 1 : 0] *)
Definition end_count (f : file) (bit : Z) : Z := if has (f_flags f) bit then 1 else 0.

Definition SIZEOF_PIPE : Z := 288.

Section Fds.
Context {A : Type} `{FA : FrameAlloc A} {KH : Type} `{NH : NodeHeap KH} {N : Type} `{NC : Nic N}.
Variables (kp : Z) (pool : Z).
(** The device a [struct chardev] address belongs to. *)
Variable dev_of : Z -> option chardev.
(** The frame allocator's state, and the old bytes of grown file blocks. *)
Variables (pmm_of : A -> pmm) (junk : list Z -> Z -> list Z).
Implicit Types s : sys A KH N.

(** [pipe_unref(p, rd, wr)], with the release of the structure. *)
Definition pipe_put (p rd wr : Z) s : sys A KH N :=
  match pipes s !! p with
  | None => s
  | Some q =>
      let '(q', sc) := pipe_unref p rd wr q (sch s) in
      let s := set_sch sc s in
      match q' with
      | Some q' => set_pipes (<[p := q']> (pipes s)) s
      | None => set_pipes (delete p (pipes s)) (set_fsys (set_heap (nh_free p (vheap (fsys s))) (fsys s)) s)
      end
  end.

Definition pipe_get (p rd wr : Z) s : sys A KH N := set_pipes (alter (pipe_ref rd wr) p (pipes s)) s.

(** Drop the reference the description [f] holds, if it is a pipe. *)
Definition drop_ref (f : file) s : sys A KH N :=
  if f_pipe f =? 0 then s else pipe_put (f_pipe f) (end_count f FDF_PIPE_RD) (end_count f FDF_PIPE_WR) s.
Definition take_ref (f : file) s : sys A KH N :=
  if f_pipe f =? 0 then s else pipe_get (f_pipe f) (end_count f FDF_PIPE_RD) (end_count f FDF_PIPE_WR) s.

Definition fd_put (c fd : Z) s : sys A KH N := upd c (set_fd fd file0) (drop_ref (fd_at (tk s c) fd) s).

Definition fds_release (c : Z) s : sys A KH N := for_range (Z.to_nat MAX_FDS) 0 (fd_put c) s.

(** [path] is the string at [path_ptr]. *)
Definition sys_open (path_ptr flags : Z) s : outcome * sys A KH N :=
  match current_task s with
  | None => (Ret (-1), s)
  | Some c =>
      if path_ptr =? 0 then (Ret (-1), s)
      else
        let path := user_string 4096 path_ptr s in
        let '(node, fs) := vfs_resolve pool (sch s) path (fsys s) in
        let '(node, fs) :=
          if (match node with None => true | Some n => negb (bool_decide (n_type (node_at fs n) = VFS_FILE)) end)
             && has flags O_CREATE
          then vfs_create_file path fs else (node, fs) in
        let s := set_fsys fs s in
        match node with
        | None => (Ret (-1), s)
        | Some n =>
            let ty := n_type (node_at fs n) in
            if negb (bool_decide (ty = VFS_FILE)) && negb (bool_decide (ty = VFS_CHARDEV)) && negb (bool_decide (ty = VFS_PROCFS))
            then (Ret (-1), s)
            else
              let fd := fd_alloc (tk s c) in
              if fd <? 0 then (Ret (-1), s)
              else
                let pos := if has flags O_APPEND then zlen (n_data (node_at fs n)) else 0 in
                (Ret fd, upd c (set_fd fd (mkFile n 0 0 pos)) s)
        end
  end.

Definition sys_close (fd : Z) s : outcome * sys A KH N :=
  match current_task s with
  | None => (Fault, s)
  | Some c =>
      match fd_get (tk s c) (s32 fd) with
      | None => (Ret (-1), s)
      | Some _ => (Ret 0, fd_put c (s32 fd) s)
      end
  end.

(** A turn of the echoing read from the keyboard: done, or waiting with [got]
    bytes stored so far; [at_poll] tells where [kbd_getchar] goes on. *)
Inductive console_rd := RdDone (r : Z) | RdWait (got : Z) (at_poll : bool).

(** [n] bytes still to come. *)
Fixpoint console_turn (n : nat) (buf got : Z) (at_poll : bool) s : console_rd * sys A KH N :=
  match n with
  | O => (RdDone got, s)
  | S n' =>
      let '(g, k, sc) := if at_poll then (kbd_getchar_poll (kb s), sch s) else kbd_getchar_turn kp (kb s) (sch s) in
      let s := set_kb k (set_sch sc s) in
      match g with
      | GcPark => (RdWait got true, s)
      | GcHalt => (RdWait got false, s)
      | GcReturn c =>
          if c <? 0 then (RdDone (if got =? 0 then -1 else got), s)
          else
            let s := set_scr (tty_putc (s8 c) (scr s)) s in
            let s := set_umem (store8 (umem s) (buf + got) c) s in
            if c =? 10 then (RdDone (got + 1), s) else console_turn n' buf (got + 1) false s
      end
  end.

Definition console_done (x : console_rd * sys A KH N) : outcome * sys A KH N :=
  match x with
  | (RdDone r, s) => (Ret r, s)
  | (RdWait _ _, s) => (Park, s)
  end.
Definition console_read (buf count : Z) s : outcome * sys A KH N := console_done (console_turn (Z.to_nat count) buf 0 false s).
(** What a waiting read does when its task goes on. *)
Definition console_resume (buf count got : Z) (at_poll : bool) s : outcome * sys A KH N :=
  console_done (console_turn (Z.to_nat (count - got)) buf got at_poll s).

(** The process id /dev/net checks its owner against. *)
Definition current_pid s : option Z := option_map (fun c => t_pid (tk s c)) (current_task s).

Definition cd_read (dev : chardev) (buf count : Z) s : outcome * sys A KH N :=
  match dev with
  | DevConsole => match console_read buf count s with (Ret r, s) => (Ret (s32 r), s) | x => x end
  | DevNull | DevAudio => (Ret 0, s)
  | DevZero => (Ret (s32 count), set_umem (fill (umem s) buf 0 count) s)
  | DevRandom =>
      let '(data, st) := random_read count (g_uptime_ticks (sch s)) (rng_state s) in
      (Ret (s32 count), set_umem (write_bytes (umem s) buf data) (set_rng st s))
  | DevNet =>
      let '(r, data, n, c) := netdev_read (current_pid s) count (netst s) (nic s) in
      (Ret r, set_umem (write_bytes (umem s) buf data) (set_net n c s))
  end.

Definition cd_write (dev : chardev) (data : list Z) s : outcome * sys A KH N :=
  match dev with
  | DevConsole => (Ret (s32 (zlen data)), set_scr (tty_write data (scr s)) s)
  | DevNull | DevZero | DevRandom | DevAudio => (Ret (s32 (zlen data)), s)
  | DevNet => let '(r, n) := netdev_write (current_pid s) data (netst s) (nic s) in (Ret r, set_net n (nic s) s)
  end.

(** A read through the file system at the description's position. *)
Definition node_read (c fd : Z) (f : file) (buf count : Z) s : outcome * sys A KH N :=
  let '(r, data) := vfs_read (sch s) (pmm_of (vm_frames (vmm s))) (f_node f) count (f_pos f) (fsys s) in
  let s := set_umem (write_bytes (umem s) buf data) s in
  (Ret r, if 0 <? r then upd c (set_fd fd (set_f_pos (f_pos f .+ r) f)) s else s).
Definition sys_read (fd buf count : Z) s : outcome * sys A KH N :=
  match current_task s with
  | None => (Fault, s)
  | Some c =>
      let fd := s32 fd in
      match fd_get (tk s c) fd with
      | None => (Ret (-1), s)
      | Some f =>
          if (buf =? 0) || (count =? 0) then (Ret (-1), s)
          else
            let ty := n_type (node_at (fsys s) (f_node f)) in
            if negb (f_node f =? 0) && bool_decide (ty = VFS_CHARDEV) then
              let cd := n_dev (node_at (fsys s) (f_node f)) in
              if cd =? 0 then (Ret (-1), s)
              else match dev_of cd with None => (Fault, s) | Some dev => cd_read dev buf count s end
            else if negb (f_node f =? 0) && bool_decide (ty = VFS_PROCFS) then node_read c fd f buf count s
            else if has (f_flags f) FDF_PIPE_RD then
              match pipes s !! f_pipe f with
              | None => (Fault, s)
              | Some q =>
                  match pipe_read_turn kp (f_pipe f) c count q (sch s) with
                  | (RdReturn r data, q, sc) =>
                      (Ret r, set_umem (write_bytes (umem s) buf data) (set_pipes (<[f_pipe f := q]> (pipes s)) (set_sch sc s)))
                  | (RdPark, q, sc) => (Park, set_pipes (<[f_pipe f := q]> (pipes s)) (set_sch sc s))
                  end
              end
            else if has (f_flags f) FDF_CONSOLE_IN then
              console_read buf count s
            else if f_node f =? 0 then (Ret (-1), s)
            else node_read c fd f buf count s
      end
  end.

(** A pipe write is a sequence of turns: [rest] is what is not written yet,
    initially the whole buffer.  [inr rest]: go round again with [rest]. *)
Definition sys_write_turn (fd buf count : Z) (rest : list Z) s : (outcome + list Z) * sys A KH N :=
  match current_task s with
  | None => (inl Fault, s)
  | Some c =>
      let fd := s32 fd in
      match fd_get (tk s c) fd with
      | None => (inl (Ret (-1)), s)
      | Some f =>
          if (buf =? 0) || (count =? 0) then (inl (Ret (-1)), s)
          else
            let data := bytes_at (Z.to_nat count) (umem s) buf in
            if negb (f_node f =? 0) && bool_decide (n_type (node_at (fsys s) (f_node f)) = VFS_CHARDEV) then
              let cd := n_dev (node_at (fsys s) (f_node f)) in
              if cd =? 0 then (inl (Ret (-1)), s)
              else match dev_of cd with None => (inl Fault, s) | Some dev => let '(o, s) := cd_write dev data s in (inl o, s) end
            else if has (f_flags f) FDF_PIPE_WR then
              match pipes s !! f_pipe f with
              | None => (inl Fault, s)
              | Some q =>
                  let '(r, q, sc) := pipe_write_turn kp (f_pipe f) c count rest q (sch s) in
                  let s := set_pipes (<[f_pipe f := q]> (pipes s)) (set_sch sc s) in
                  match r with
                  | WrReturn r => (inl (Ret r), s)
                  | WrMore rest => (inr rest, s)
                  | WrPark => (inl Park, s)
                  end
              end
            else if has (f_flags f) FDF_CONSOLE_OUT then (inl (Ret (s64 count)), set_scr (tty_write data (scr s)) s)
            else if f_node f =? 0 then (inl (Ret (-1)), s)
            else
              let '(r, fs) := vfs_write junk (f_node f) data (f_pos f) (fsys s) in
              let s := set_fsys fs s in
              (inl (Ret r), if 0 <? r then upd c (set_fd fd (set_f_pos (f_pos f .+ r) f)) s else s)
      end
  end.

(** The first two turns are all a writer makes before it parks or ends: a
    turn that moves bytes leaves the pipe full or nothing to write. *)
Definition sys_write (fd buf count : Z) s : outcome * sys A KH N :=
  match sys_write_turn fd buf count (bytes_at (Z.to_nat count) (umem s) buf) s with
  | (inl o, s) => (o, s)
  | (inr rest, s) =>
      match sys_write_turn fd buf count rest s with
      | (inl o, s) => (o, s)
      | (inr _, s) => (Park, s)
      end
  end.

Definition sys_pipe (ufds : Z) s : outcome * sys A KH N :=
  match current_task s with
  | None => (Fault, s)
  | Some c =>
      let '(p, h) := nh_alloc SIZEOF_PIPE (vheap (fsys s)) in
      let s := set_fsys (set_heap h (fsys s)) s in
      match pipe_create p with
      | None => (Ret (-1), s)
      | Some q =>
          let s := set_pipes (<[p := q]> (pipes s)) s in
          let rd := fd_alloc (tk s c) in
          if rd <? 0 then (Ret (-1), pipe_put p 1 1 s)
          else
            let s := upd c (set_fd rd (mkFile 0 p 0 0)) s in
            let wr := fd_alloc (tk s c) in
            if wr <? 0 then (Ret (-1), pipe_put p 1 1 (upd c (set_fd rd file0) s))
            else
              let s := upd c (set_fd wr (mkFile 0 p FDF_PIPE_WR 0)) (upd c (set_fd rd (mkFile 0 p FDF_PIPE_RD 0)) s) in
              (Ret 0, set_umem (store32 (store32 (umem s) ufds rd) (ufds + 4) wr) s)
      end
  end.

Definition do_dup2 (c oldfd newfd : Z) s : outcome * sys A KH N :=
  match fd_get (tk s c) oldfd with
  | None => (Ret (-1), s)
  | Some _ =>
      if (newfd <? 0) || (MAX_FDS <=? newfd) then (Ret (-1), s)
      else if oldfd =? newfd then (Ret newfd, s)
      else
        let s := match fd_get (tk s c) newfd with Some _ => fd_put c newfd s | None => s end in
        let f := fd_at (tk s c) oldfd in
        let s := upd c (set_fd newfd f) s in
        (Ret newfd, take_ref (fd_at (tk s c) newfd) s)
  end.

Definition sys_dup (fd : Z) s : outcome * sys A KH N :=
  match current_task s with
  | None => (Fault, s)
  | Some c =>
      match fd_get (tk s c) (s32 fd) with
      | None => (Ret (-1), s)
      | Some _ =>
          let newfd := fd_alloc (tk s c) in
          if newfd <? 0 then (Ret (-1), s) else do_dup2 c (s32 fd) newfd s
      end
  end.

Definition sys_dup2 (oldfd newfd : Z) s : outcome * sys A KH N :=
  match current_task s with
  | None => (Fault, s)
  | Some c => do_dup2 c (s32 oldfd) (s32 newfd) s
  end.
End Fds.
