(* ===== verification/SysFdSpec.v ===== *)
(** * Descriptor tables and pipe reference counts

    A pipe exists exactly as long as a descriptor of some task refers to it,
    and its reader and writer counts are the numbers of read and write ends
    in all descriptor tables.  Every operation on descriptors keeps this. *)
From S2P Require Import Prelude Net Font Screen Kbd Mouse Mem FrameAlloc Pmm Task Sched Pipe Pmap Libk Vfs SysState SysFd.

(** ** Sums over tables *)

Fixpoint sumZ (l : list Z) : Z := match l with [] => 0 | x :: r => x + sumZ r end.

Lemma sumZ_insert (l : list Z) (i : nat) x y : l !! i = Some y -> sumZ (<[i := x]> l) = sumZ l - y + x.
Proof.
  revert i. induction l as [|a l IH]; intros [|i] Hi; cbn in *; simplify_eq; [lia|]. rewrite IH by done. lia.
Qed.

Lemma sumZ_nonneg l : Forall (Z.le 0) l -> 0 <= sumZ l.
Proof. induction 1; cbn [sumZ]; lia. Qed.

Lemma sumZ_zero l : Forall (Z.le 0) l -> sumZ l = 0 -> Forall (eq 0) l.
Proof.
  induction 1 as [|a l Ha Hl IH]; intros Hs; [constructor|]. cbn [sumZ] in Hs.
  pose proof (sumZ_nonneg l Hl). constructor; [lia|]. apply IH. lia.
Qed.

(** What one slot, one table and all tables contribute to the count [bit] of pipe [p]. *)
Definition fd_ref (bit p : Z) (f : file) : Z := if f_pipe f =? p then end_count f bit else 0.
Definition tbl_ref (bit p : Z) (fds : list file) : Z := sumZ (map (fd_ref bit p) fds).
Definition total (bit p : Z) (T : list (list file)) : Z := sumZ (map (tbl_ref bit p) T).

Lemma fd_ref_nonneg bit p f : 0 <= fd_ref bit p f.
Proof. unfold fd_ref, end_count. destruct (f_pipe f =? p), (has (f_flags f) bit); lia. Qed.
Lemma tbl_ref_nonneg bit p l : 0 <= tbl_ref bit p l.
Proof. apply sumZ_nonneg, Forall_map, List.Forall_forall. intros f _. apply fd_ref_nonneg. Qed.

Lemma fd_ref_file0 bit p : fd_ref bit p file0 = 0.
Proof. unfold fd_ref, end_count, has. cbn [file0 f_pipe f_flags]. rewrite Z.land_0_l. by destruct (0 =? p). Qed.

Lemma fd_ref_other bit p f : f_pipe f <> p -> fd_ref bit p f = 0.
Proof. intros Hp. unfold fd_ref. by rewrite (proj2 (Z.eqb_neq _ _) Hp). Qed.

(** The descriptor tables of all tasks. *)
Definition tables (sc : sched) : list (list file) := map t_fds (tasks sc).

(** A pipe end is marked as one. *)
Definition marked (f : file) : Prop := has (f_flags f) FDF_PIPE_RD || has (f_flags f) FDF_PIPE_WR = true.

Lemma fd_ref_marked p f : f_pipe f = p -> marked f -> fd_ref FDF_PIPE_RD p f = 0 -> fd_ref FDF_PIPE_WR p f = 0 -> False.
Proof.
  unfold marked, fd_ref, end_count. intros -> Hm. rewrite Z.eqb_refl. by destruct (has (f_flags f) FDF_PIPE_RD), (has (f_flags f) FDF_PIPE_WR).
Qed.

(** ** Tables under the operations of the scheduler *)

Lemma tables_upd_same i f sc : (forall t, t_fds (f t) = t_fds t) -> tables (upd_task i f sc) = tables sc.
Proof.
  intros Hf. unfold tables, upd_task, set_tasks, zinsert, task_at, znth, zlookup. cbn [tasks].
  destruct (i <? 0); [done|]. rewrite list_fmap_insert, Hf.
  destruct (tasks sc !! Z.to_nat i) as [t|] eqn:E; cbn [default].
  - apply list_insert_id. by rewrite list_lookup_fmap, E.
  - apply list_insert_ge. rewrite length_map. by apply lookup_ge_None.
Qed.

Lemma tables_wake i sc : tables (sched_wake i sc) = tables sc.
Proof. unfold sched_wake. destruct (_ && _); [|done]. by apply tables_upd_same. Qed.

Lemma tables_pipe_wake p sc : tables (pipe_wake p sc) = tables sc.
Proof.
  unfold pipe_wake. apply (for_range_ind (fun _ x => tables x = tables sc)); [done|].
  intros k x _ <-. unfold wake_slot. destruct (sched_task_at k) as [i|]; [|done].
  destruct (_ && _); [|done]. rewrite tables_wake. by apply tables_upd_same.
Qed.

Lemma pipe_wake_wf p sc : sched_wf sc -> sched_wf (pipe_wake p sc).
Proof.
  intros Hwf. unfold pipe_wake. apply (for_range_ind (fun _ x => sched_wf x)); [done|].
  intros k x _ Hx. unfold wake_slot, sched_wake. destruct (sched_task_at k); [|done].
  destruct (_ && _); [|done]. destruct (_ && _); by repeat apply upd_task_wf.
Qed.

Lemma tables_lookup sc c : sched_wf sc -> slot_ok c -> tables sc !! Z.to_nat c = Some (t_fds (task_at sc c)).
Proof.
  intros [Hl _] Hc. unfold slot_ok, zlen, MAX_TASKS in *. unfold tables, task_at, znth, zlookup.
  rewrite (proj2 (Z.ltb_ge c 0)) by lia. rewrite list_lookup_fmap.
  destruct (tasks sc !! Z.to_nat c) eqn:E; [done|]. apply lookup_ge_None in E. lia.
Qed.

Lemma tables_set_fd sc c fd f :
  sched_wf sc -> slot_ok c ->
  tables (upd_task c (set_fd fd f) sc) = <[Z.to_nat c := zinsert fd f (t_fds (task_at sc c))]> (tables sc).
Proof.
  intros Hwf Hc. unfold tables, upd_task, set_tasks, zinsert at 1. cbn [tasks].
  unfold slot_ok in Hc. rewrite (proj2 (Z.ltb_ge c 0)) by lia. by rewrite list_fmap_insert.
Qed.

Definition fd_ok (fd : Z) : Prop := 0 <= fd < MAX_FDS.

Lemma total_set_fd sc c fd f bit p :
  sched_wf sc -> slot_ok c -> fd_ok fd -> length (t_fds (task_at sc c)) = 16%nat ->
  total bit p (tables (upd_task c (set_fd fd f) sc)) =
  total bit p (tables sc) - fd_ref bit p (fd_at (task_at sc c) fd) + fd_ref bit p f.
Proof.
  intros Hwf Hc Hfd Hlen. rewrite tables_set_fd by done. unfold total. rewrite list_fmap_insert.
  rewrite (sumZ_insert _ _ _ (tbl_ref bit p (t_fds (task_at sc c)))).
  2: { by rewrite list_lookup_fmap, tables_lookup. }
  assert (tbl_ref bit p (zinsert fd f (t_fds (task_at sc c))) =
    tbl_ref bit p (t_fds (task_at sc c)) - fd_ref bit p (fd_at (task_at sc c) fd) + fd_ref bit p f) as ->; [|match goal with |- ?a - _ + _ = ?b - _ + _ => change a with b end; lia].
  unfold tbl_ref, zinsert, fd_at, znth, zlookup, fd_ok, MAX_FDS in *. rewrite (proj2 (Z.ltb_ge fd 0)) by lia.
  rewrite list_fmap_insert. apply sumZ_insert. rewrite list_lookup_fmap.
  destruct (t_fds (task_at sc c) !! Z.to_nat fd) eqn:E; [done|]. apply lookup_ge_None in E. lia.
Qed.

(** All slots of all tables. *)
Definition everywhere (P : file -> Prop) (T : list (list file)) : Prop := Forall (Forall P) T.

Lemma everywhere_impl (P Q : file -> Prop) T : everywhere P T -> (forall f, P f -> Q f) -> everywhere Q T.
Proof. intros Hp Hi. eapply List.Forall_impl; [|exact Hp]. intros l. apply List.Forall_impl, Hi. Qed.

Lemma everywhere_and (P Q : file -> Prop) T : everywhere P T -> everywhere Q T -> everywhere (fun f => P f /\ Q f) T.
Proof.
  intros Hp Hq. apply List.Forall_forall. intros l Hl. apply List.Forall_forall. intros f Hf.
  pose proof (proj1 (List.Forall_forall _ _) Hp _ Hl) as Hp1. pose proof (proj1 (List.Forall_forall _ _) Hq _ Hl) as Hq1.
  split; [exact (proj1 (List.Forall_forall _ _) Hp1 _ Hf)|exact (proj1 (List.Forall_forall _ _) Hq1 _ Hf)].
Qed.

Lemma total_nonneg bit p T : 0 <= total bit p T.
Proof. apply sumZ_nonneg, Forall_map, List.Forall_forall. intros l _. apply tbl_ref_nonneg. Qed.

Lemma total_zero bit p T : total bit p T = 0 -> everywhere (fun f => fd_ref bit p f = 0) T.
Proof.
  intros Hz. apply sumZ_zero in Hz.
  2: { apply Forall_map, List.Forall_forall. intros l _. apply tbl_ref_nonneg. }
  rewrite List.Forall_map in Hz. eapply List.Forall_impl; [|exact Hz]. intros l Hl.
  assert (tbl_ref bit p l = 0) as Hl0 by (symmetry; exact Hl). clear Hl. apply sumZ_zero in Hl0 as Hl.
  2: { apply Forall_map, List.Forall_forall. intros f _. apply fd_ref_nonneg. }
  rewrite List.Forall_map in Hl. eapply List.Forall_impl; [|exact Hl]. intros f Hf. cbn in Hf. lia.
Qed.

Lemma everywhere_set_fd (P : file -> Prop) sc c fd f :
  sched_wf sc -> slot_ok c -> everywhere P (tables sc) -> P f -> everywhere P (tables (upd_task c (set_fd fd f) sc)).
Proof.
  intros Hwf Hc Hp Hf. rewrite tables_set_fd by done. apply Forall_insert; [done|]. unfold zinsert.
  pose proof (Forall_lookup_1 _ _ _ _ Hp (tables_lookup _ _ Hwf Hc)). destruct (fd <? 0); [done|]. by apply Forall_insert.
Qed.

Lemma lens_set_fd sc c fd f :
  sched_wf sc -> slot_ok c -> Forall (fun l => length l = 16%nat) (tables sc) ->
  Forall (fun l => length l = 16%nat) (tables (upd_task c (set_fd fd f) sc)).
Proof.
  intros Hwf Hc Hl. rewrite tables_set_fd by done. apply Forall_insert; [done|].
  pose proof (Forall_lookup_1 _ _ _ _ Hl (tables_lookup _ _ Hwf Hc)) as Hlen. cbn in Hlen.
  unfold zinsert. destruct (fd <? 0); [done|]. by rewrite length_insert.
Qed.

(** ** Counted pipes *)

(** Every pipe end of a table names a pipe that exists. *)
Definition slot_fine (P : gmap Z pipe) (f : file) : Prop := f_pipe f <> 0 -> is_Some (P !! f_pipe f) /\ marked f.

(** The pipes [P] are counted by the tables [T]. *)
Record counted (T : list (list file)) (P : gmap Z pipe) : Prop := {
  ct_len : Forall (fun l => length l = 16%nat) T;
  ct_count : forall p q, P !! p = Some q ->
    p_readers q = total FDF_PIPE_RD p T /\ p_writers q = total FDF_PIPE_WR p T;
  ct_slots : everywhere (slot_fine P) T;
  ct_used : forall p q, P !! p = Some q -> p <> 0 /\ 0 < p_readers q + p_writers q;
}.

(** Tables with the same counts and no new pipe ends. *)
Lemma counted_same T T' P :
  counted T P -> Forall (fun l => length l = 16%nat) T' -> (forall bit p, p <> 0 -> total bit p T' = total bit p T) ->
  everywhere (slot_fine P) T' -> counted T' P.
Proof.
  intros [H1 H2 H3 H4] Hl Ht Hs. split; try done. intros p q Hq. destruct (H4 p q Hq). rewrite !Ht by done. auto.
Qed.

Lemma slot_fine_insert P p q f : slot_fine P f -> slot_fine (<[p := q]> P) f.
Proof. intros Hf Hp. destruct (Hf Hp). split; [|done]. apply lookup_insert_is_Some'. by right. Qed.

(** A description dropped from the tables: the pipe goes with its last end. *)
Lemma counted_drop T T' P f q :
  let p := f_pipe f in
  let rd := end_count f FDF_PIPE_RD in let wr := end_count f FDF_PIPE_WR in
  let q' := mkPipe (p_buf q) (p_head q) (p_tail q) (p_len q) (p_readers q - rd) (p_writers q - wr) in
  counted T P -> P !! p = Some q -> Forall (fun l => length l = 16%nat) T' ->
  (forall bit x, total bit x T' = total bit x T - fd_ref bit x f) -> everywhere (slot_fine P) T' ->
  counted T' (if (p_readers q' <=? 0) && (p_writers q' <=? 0) then delete p P else <[p := q']> P).
Proof.
  intros p rd wr q' [H1 H2 H3 H4] Hq Hl Ht Hs.
  assert (forall bit, fd_ref bit p f = end_count f bit) as Hrp by (intros bit; unfold fd_ref, p; by rewrite Z.eqb_refl).
  assert (p_readers q' = total FDF_PIPE_RD p T' /\ p_writers q' = total FDF_PIPE_WR p T') as [Hq1 Hq2].
  { rewrite !Ht, !Hrp. destruct (H2 p q Hq). cbn. unfold rd, wr. lia. }
  assert (forall x y, x <> p -> P !! x = Some y -> p_readers y = total FDF_PIPE_RD x T' /\ p_writers y = total FDF_PIPE_WR x T') as Ho.
  { intros x y Hx Hy. rewrite !Ht, !fd_ref_other by (fold p; congruence). destruct (H2 x y Hy). lia. }
  pose proof (total_nonneg FDF_PIPE_RD p T'). pose proof (total_nonneg FDF_PIPE_WR p T').
  destruct ((p_readers q' <=? 0) && (p_writers q' <=? 0)) eqn:E; bool_hyps; split; try done.
  - intros x y Hy. apply lookup_delete_Some in Hy as [Hx Hy]. auto.
  - assert (everywhere (fun g => fd_ref FDF_PIPE_RD p g = 0) T') as Hz1 by (apply total_zero; lia).
    assert (everywhere (fun g => fd_ref FDF_PIPE_WR p g = 0) T') as Hz2 by (apply total_zero; lia).
    eapply everywhere_impl; [exact (everywhere_and _ _ _ Hs (everywhere_and _ _ _ Hz1 Hz2))|].
    intros g (Hg & Hg1 & Hg2) Hgp. destruct (Hg Hgp) as [Hin Hm]. split; [|done].
    destruct (decide (f_pipe g = p)) as [Hgq|]; [|by rewrite lookup_delete_ne].
    exfalso. by apply (fd_ref_marked p g).
  - intros x y Hy. apply lookup_delete_Some in Hy as [Hx Hy]. eauto.
  - intros x y Hy. apply lookup_insert_Some in Hy as [[<- <-]|[Hx Hy]]; auto.
  - eapply everywhere_impl; [exact Hs|]. intros g. apply slot_fine_insert.
  - intros x y Hy. apply lookup_insert_Some in Hy as [[<- <-]|[Hx Hy]]; [|eauto]. split; [by eapply H4|].
    apply andb_false_iff in E as [E|E]; bool_hyps; lia.
Qed.

(** A description added to the tables, with its reference taken. *)
Lemma counted_add T T' P f :
  let p := f_pipe f in
  counted T P -> p <> 0 -> Forall (fun l => length l = 16%nat) T' ->
  (forall bit x, x <> 0 -> total bit x T' = total bit x T + fd_ref bit x f) -> everywhere (slot_fine P) T' ->
  counted T' (alter (pipe_ref (end_count f FDF_PIPE_RD) (end_count f FDF_PIPE_WR)) p P).
Proof.
  cbv zeta. intros [H1 H2 H3 H4] Hp Hl Ht Hs.
  assert (forall bit, 0 <= end_count f bit) as Hec by (intros bit; unfold end_count; destruct (has (f_flags f) bit); lia).
  split; [done| | |].
  - intros x y Hy. apply lookup_alter_Some in Hy as [(<- & z & Hz & ->)|[Hx Hy]].
    + rewrite !Ht by done. unfold fd_ref. rewrite Z.eqb_refl. destruct (H2 _ _ Hz). cbn. lia.
    + destruct (H4 _ _ Hy). rewrite !Ht, !fd_ref_other by congruence. destruct (H2 _ _ Hy). lia.
  - eapply everywhere_impl; [exact Hs|]. intros g Hg Hgp. destruct (Hg Hgp). split; [|done].
    by apply lookup_alter_is_Some.
  - intros x y Hy. apply lookup_alter_Some in Hy as [(<- & z & Hz & ->)|[Hx Hy]]; [|eauto].
    split; [done|]. destruct (H4 _ _ Hz). pose proof (Hec FDF_PIPE_RD). pose proof (Hec FDF_PIPE_WR). cbn. lia.
Qed.

Lemma total_none bit p T : everywhere (fun f => fd_ref bit p f = 0) T -> total bit p T = 0.
Proof.
  intros He. unfold total. induction He as [|l T Hl _ IH]; [done|]. cbn [map sumZ]. rewrite IH.
  assert (tbl_ref bit p l = 0) as ->; [|lia]. unfold tbl_ref. clear IH. induction Hl as [|f l Hf _ IH]; [done|].
  cbn [map sumZ]. lia.
Qed.

(** The two ends of a pipe that was just created. *)
Definition rd_end (p : Z) : file := mkFile 0 p FDF_PIPE_RD 0.
Definition wr_end (p : Z) : file := mkFile 0 p FDF_PIPE_WR 0.

Lemma counted_new T T' P p q :
  counted T P -> P !! p = None -> p <> 0 -> p_readers q = 1 -> p_writers q = 1 -> Forall (fun l => length l = 16%nat) T' ->
  (forall bit x, x <> 0 -> total bit x T' = total bit x T + fd_ref bit x (rd_end p) + fd_ref bit x (wr_end p)) ->
  everywhere (slot_fine (<[p := q]> P)) T' -> counted T' (<[p := q]> P).
Proof.
  intros [H1 H2 H3 H4] Hnone Hp Hq1 Hq2 Hl Ht Hs.
  assert (forall bit, total bit p T = 0) as Hz.
  { intros bit. apply total_none. eapply everywhere_impl; [exact H3|]. intros f Hf. apply fd_ref_other. intros E.
    destruct Hf as [[z Hz] _]; congruence. }
  split; try done.
  - intros x y Hy. apply lookup_insert_Some in Hy as [[<- <-]|[Hx Hy]].
    + rewrite !Ht, !Hz, Hq1, Hq2 by done. unfold fd_ref. cbn [f_pipe rd_end wr_end]. rewrite !Z.eqb_refl. done.
    + destruct (H4 _ _ Hy). rewrite !Ht, !(fd_ref_other _ x) by done. destruct (H2 _ _ Hy). lia.
  - intros x y Hy. apply lookup_insert_Some in Hy as [[<- <-]|[Hx Hy]]; [split; [done|lia]|eauto].
Qed.

(** ** The system state *)

Section Refs.
Context {A : Type} `{FA : FrameAlloc A} {KH : Type} {NH : NodeHeap KH} {NL : NodeHeapLaws KH} {N : Type}.
Implicit Types s : sys A KH N.

Record refs_ok s : Prop := {
  ro_wf : sched_wf (sch s);
  ro_counted : counted (tables (sch s)) (pipes s);
  ro_live : forall p q, pipes s !! p = Some q -> nh_live (vheap (fsys s)) p;
}.

Lemma refs_len s c : refs_ok s -> slot_ok c -> length (t_fds (tk s c)) = 16%nat.
Proof.
  intros Hr Hc. exact (Forall_lookup_1 _ _ _ _ (ct_len _ _ (ro_counted _ Hr)) (tables_lookup _ _ (ro_wf _ Hr) Hc)).
Qed.

Lemma everywhere_at (P : file -> Prop) sc c fd :
  sched_wf sc -> slot_ok c -> fd_ok fd -> length (t_fds (task_at sc c)) = 16%nat -> everywhere P (tables sc) -> P (fd_at (task_at sc c) fd).
Proof.
  intros Hwf Hc Hfd Hlen He. pose proof (Forall_lookup_1 _ _ _ _ He (tables_lookup _ _ Hwf Hc)) as Hs.
  unfold fd_at, znth, zlookup, fd_ok, MAX_FDS in *. rewrite (proj2 (Z.ltb_ge fd 0)) by lia.
  destruct (t_fds (task_at sc c) !! Z.to_nat fd) eqn:E; [exact (Forall_lookup_1 _ _ _ _ Hs E)|].
  apply lookup_ge_None in E. lia.
Qed.

Lemma refs_slot s c fd : refs_ok s -> slot_ok c -> fd_ok fd -> slot_fine (pipes s) (fd_at (tk s c) fd).
Proof.
  intros Hr Hc Hfd. apply (everywhere_at (slot_fine (pipes s)) (sch s)); try done; [apply Hr|by apply refs_len|apply (ct_slots _ _ (ro_counted _ Hr))].
Qed.

(** A state with the same tables and pipes, and a heap that keeps its blocks. *)
Lemma refs_ok_eq s s' :
  refs_ok s -> sched_wf (sch s') -> tables (sch s') = tables (sch s) -> pipes s' = pipes s ->
  (forall p, nh_live (vheap (fsys s)) p -> nh_live (vheap (fsys s')) p) -> refs_ok s'.
Proof. intros [H1 H2 H3] Hwf Ht Hp Hl. split; rewrite ?Ht, ?Hp; eauto. Qed.

(** Writing a description that is no pipe end over one that is none. *)
Lemma set_plain s c fd f :
  refs_ok s -> slot_ok c -> fd_ok fd -> f_pipe (fd_at (tk s c) fd) = 0 -> f_pipe f = 0 -> refs_ok (upd c (set_fd fd f) s).
Proof.
  intros Hr Hc Hfd Hold Hnew. pose proof (refs_len _ _ Hr Hc) as Hlen. destruct Hr as [H1 H2 H3].
  split; cbn [upd set_sch sch pipes fsys]; [by apply upd_task_wf| |done].
  eapply counted_same; [exact H2|apply lens_set_fd; try done; apply H2| |apply everywhere_set_fd; try done; apply H2].
  intros bit p Hp. rewrite total_set_fd by done. unfold tk in *.
  rewrite (fd_ref_other _ p (fd_at _ _)), (fd_ref_other _ p f) by congruence. lia.
Qed.

Lemma fds_same s c sc' : tables sc' = tables (sch s) -> sched_wf (sch s) -> sched_wf sc' -> slot_ok c ->
  t_fds (task_at sc' c) = t_fds (tk s c).
Proof.
  intros Ht H1 H2 Hc. pose proof (tables_lookup _ _ H2 Hc) as E. rewrite Ht, tables_lookup in E by done. by injection E.
Qed.

(** The scheduler and pipes after a reference of [f] is dropped. *)
Lemma drop_ref_spec s f q :
  f_pipe f <> 0 -> pipes s !! f_pipe f = Some q ->
  let rd := end_count f FDF_PIPE_RD in let wr := end_count f FDF_PIPE_WR in
  let q' := mkPipe (p_buf q) (p_head q) (p_tail q) (p_len q) (p_readers q - rd) (p_writers q - wr) in
  let s' := drop_ref f s in
  sch s' = pipe_wake (f_pipe f) (sch s) /\
  pipes s' = (if (p_readers q' <=? 0) && (p_writers q' <=? 0) then delete (f_pipe f) (pipes s) else <[f_pipe f := q']> (pipes s)) /\
  (forall p, nh_live (vheap (fsys s)) p -> p = f_pipe f \/ nh_live (vheap (fsys s')) p) /\
  (pipes s' !! f_pipe f = None \/ vheap (fsys s') = vheap (fsys s)).
Proof.
  intros Hp Hq. cbv zeta. unfold drop_ref, pipe_put, pipe_unref. rewrite (proj2 (Z.eqb_neq _ _) Hp), Hq.
  cbn [p_readers p_writers].
  destruct ((_ <=? 0) && (_ <=? 0)); cbn [set_sch set_pipes set_fsys sch pipes fsys set_heap vheap]; split_and!; auto.
  - intros p Hl. destruct (decide (p = f_pipe f)); [by left|right]. by apply nh_free_keeps.
  - left. apply lookup_delete_eq.
Qed.

Lemma fd_put_refs s c fd : refs_ok s -> slot_ok c -> fd_ok fd -> refs_ok (fd_put c fd s).
Proof.
  intros Hr Hc Hfd. pose proof (refs_len _ _ Hr Hc) as Hlen. pose proof (refs_slot _ _ _ Hr Hc Hfd) as Hslot.
  unfold fd_put. set (f := fd_at (tk s c) fd) in *. destruct (decide (f_pipe f = 0)) as [Hp0|Hp0].
  { unfold drop_ref. rewrite Hp0. by apply set_plain. }
  destruct (Hslot Hp0) as [[q Hq] Hm]. destruct (drop_ref_spec s f q Hp0 Hq) as (Hsch & Hpipes & Hlive & Hheap).
  set (s' := drop_ref f s) in *. destruct Hr as [H1 H2 H3].
  assert (Htab : tables (sch s') = tables (sch s)) by (rewrite Hsch; apply tables_pipe_wake).
  assert (Hwf : sched_wf (sch s')) by (rewrite Hsch; by apply pipe_wake_wf).
  pose proof (fds_same s c (sch s') Htab H1 Hwf Hc) as Hfds.
  split; cbn [upd set_sch sch pipes fsys]; [by apply upd_task_wf| |].
  - rewrite Hpipes. apply (counted_drop (tables (sch s))); try done.
    + apply lens_set_fd; try done. rewrite Htab. apply H2.
    + intros bit x. rewrite total_set_fd by (rewrite ?Hfds; done). rewrite Htab, fd_ref_file0.
      unfold fd_at. rewrite Hfds. fold (fd_at (tk s c) fd). fold f. lia.
    + apply everywhere_set_fd; try done. rewrite Htab. apply H2.
  - intros p y Hy. assert (is_Some (pipes s !! p)) as [z Hz].
    { rewrite Hpipes in Hy. destruct (_ && _); [apply lookup_delete_Some in Hy as [_ Hy]; eauto|].
      apply lookup_insert_Some in Hy as [[<- _]|[_ Hy]]; eauto. }
    destruct Hheap as [Hnone| ->]; [|eauto]. destruct (Hlive p) as [->|]; [eauto|congruence|done].
Qed.

Lemma fds_release_refs s c : refs_ok s -> slot_ok c -> refs_ok (fds_release c s).
Proof.
  intros Hr Hc. unfold fds_release. apply (for_range_ind (fun _ x => refs_ok x)); [done|].
  intros k x Hk Hx. by apply fd_put_refs.
Qed.

(** ** Duplicating a descriptor *)

Lemma add_slot s c fd f :
  refs_ok s -> slot_ok c -> fd_ok fd -> f_pipe (fd_at (tk s c) fd) = 0 -> slot_fine (pipes s) f ->
  refs_ok (take_ref f (upd c (set_fd fd f) s)).
Proof.
  intros Hr Hc Hfd Hold Hf. unfold take_ref. destruct (Z.eqb_spec (f_pipe f) 0) as [Hp|Hp]; [by apply set_plain|].
  pose proof (refs_len _ _ Hr Hc) as Hlen. destruct Hr as [H1 H2 H3].
  split; cbn [upd set_sch pipe_get set_pipes sch pipes fsys]; [by apply upd_task_wf| |].
  - apply (counted_add (tables (sch s))); try done.
    + apply lens_set_fd; try done. apply H2.
    + intros bit x Hx. rewrite total_set_fd by done. unfold tk in *. rewrite (fd_ref_other _ x (fd_at _ _)) by congruence. lia.
    + apply everywhere_set_fd; try done. apply H2.
  - intros p y Hy. apply lookup_alter_Some in Hy as [(<- & z & Hz & ->)|[_ Hy]]; eauto.
Qed.

Lemma tk_upd s c f j : sched_wf (sch s) -> slot_ok c -> tk (upd c f s) j = if j =? c then f (tk s c) else tk s j.
Proof. apply task_at_upd. Qed.

Lemma fd_at_set t fd f fd' : fd_ok fd -> length (t_fds t) = 16%nat ->
  fd_at (set_fd fd f t) fd' = if fd' =? fd then f else fd_at t fd'.
Proof.
  intros Hfd Hl. unfold fd_at, set_fd, set_fds. cbn [t_fds]. unfold fd_ok, MAX_FDS in *.
  destruct (Z.eqb_spec fd' fd) as [->|]; [apply znth_zinsert_eq; unfold zlen; lia|apply znth_zinsert_ne; lia].
Qed.

Lemma fd_find_spec n fd t :
  let r := fd_find n fd t in
  (r = -1 /\ forall k, fd <= k < fd + Z.of_nat n -> fd_free (fd_at t k) = false) \/
  (fd <= r < fd + Z.of_nat n /\ fd_free (fd_at t r) = true /\ forall k, fd <= k < r -> fd_free (fd_at t k) = false).
Proof.
  revert fd. induction n as [|n IH]; intros fd; cbn [fd_find]; [left; split; [done|intros; lia]|].
  destruct (fd_free (fd_at t fd)) eqn:E.
  - right. split_and!; [lia|lia|done|intros; lia].
  - destruct (IH (fd + 1)) as [[-> Hn]|(Hr & Hf & Hn)]; [left; split; [done|]|right; split_and!; [lia|lia|done|]];
      intros k Hk; (destruct (decide (k = fd)) as [->|]; [done|apply Hn; lia]).
Qed.

Lemma fd_free_plain f : fd_free f = true -> f_pipe f = 0.
Proof. unfold fd_free. intros Hf. bool_hyps. done. Qed.

Lemma fd_alloc_some t : 0 <= fd_alloc t -> fd_ok (fd_alloc t) /\ f_pipe (fd_at t (fd_alloc t)) = 0.
Proof.
  intros Hf. unfold fd_alloc in *. destruct (fd_find_spec (Z.to_nat MAX_FDS) 0 t) as [[E _]|(Hr & Hfr & _)]; [lia|].
  split; [exact Hr|by apply fd_free_plain].
Qed.

Lemma fd_get_some t fd f : fd_get t fd = Some f -> fd_ok fd /\ f = fd_at t fd.
Proof.
  unfold fd_get, fd_ok. destruct (_ || _) eqn:E; [done|]. bool_hyps. destruct (fd_free _); [done|]. intros [= <-]. split; [lia|done].
Qed.

Lemma fd_put_slot s c fd : refs_ok s -> slot_ok c -> fd_ok fd -> fd_at (tk (fd_put c fd s) c) fd = file0.
Proof.
  intros Hr Hc Hfd. pose proof (refs_len _ _ Hr Hc) as Hlen. unfold fd_put.
  assert (sched_wf (sch (drop_ref (fd_at (tk s c) fd) s)) /\ tables (sch (drop_ref (fd_at (tk s c) fd) s)) = tables (sch s)) as [Hwf Ht].
  { set (f := fd_at (tk s c) fd). unfold drop_ref, pipe_put, pipe_unref. destruct (f_pipe f =? 0); [split; [apply Hr|done]|].
    destruct (pipes s !! f_pipe f); [|split; [apply Hr|done]].
    destruct (_ && _); cbn [set_sch set_pipes set_fsys sch]; (split; [apply pipe_wake_wf, Hr|apply tables_pipe_wake]). }
  rewrite tk_upd, Z.eqb_refl by done. rewrite fd_at_set, Z.eqb_refl; [done|done|].
  etrans; [|exact Hlen]. f_equal. exact (fds_same s c _ Ht (ro_wf _ Hr) Hwf Hc).
Qed.

Lemma do_dup2_refs s c a b : refs_ok s -> slot_ok c -> refs_ok (do_dup2 c a b s).2.
Proof.
  intros Hr Hc. unfold do_dup2. destruct (fd_get (tk s c) a) as [f|] eqn:Ea; [|done]. apply fd_get_some in Ea as [Ha _].
  destruct ((b <? 0) || (MAX_FDS <=? b)) eqn:Eb; [done|]. bool_hyps. assert (fd_ok b) as Hb by (unfold fd_ok; lia).
  destruct (a =? b); [done|]. cbn [snd].
  set (s1 := match fd_get (tk s c) b with Some _ => fd_put c b s | None => s end).
  assert (refs_ok s1 /\ f_pipe (fd_at (tk s1 c) b) = 0) as [Hr1 Hfree].
  { unfold s1, fd_get. rewrite (proj2 (Z.ltb_ge b 0)), (proj2 (Z.leb_gt MAX_FDS b)) by lia. cbn [orb].
    destruct (fd_free (fd_at (tk s c) b)) eqn:E; [split; [done|by apply fd_free_plain]|].
    split; [by apply fd_put_refs|by rewrite fd_put_slot]. }
  rewrite tk_upd, Z.eqb_refl by (first [done|apply Hr1]). rewrite fd_at_set, Z.eqb_refl by (first [done|by apply refs_len]).
  apply add_slot; try done. by apply refs_slot.
Qed.

(** ** Creating a pipe *)

Lemma zinsert_twice {X : Type} i (x y : X) l : zinsert i x (zinsert i y l) = zinsert i x l.
Proof. unfold zinsert. destruct (i <? 0); [done|]. apply list_insert_insert_eq. Qed.

Lemma upd_set_fd_twice s c fd x y :
  sched_wf (sch s) -> slot_ok c -> upd c (set_fd fd x) (upd c (set_fd fd y) s) = upd c (set_fd fd x) s.
Proof.
  intros Hwf Hc. unfold upd, set_sch. cbn [sch vmm pipes fsys umem console_fg_pgid rudo g_rudo_fault_requester]. f_equal.
  unfold upd_task at 1. rewrite task_at_upd, Z.eqb_refl by done. unfold upd_task, set_tasks. cbn [tasks current scheduling_started
    next_pid init_pid bsp_cpu tss_rsp0 cr3 cpu_rsp ticks g_uptime_ticks g_resched_requested]. f_equal. rewrite zinsert_twice. f_equal.
  unfold set_fd, set_fds. cbn. f_equal. apply zinsert_twice.
Qed.

(** A pipe that is dropped before any table names it. *)
Lemma undo_pipe s s0 p q :
  refs_ok s0 -> pipes s0 !! p = None -> p_readers q = 1 -> p_writers q = 1 ->
  sched_wf (sch s) -> tables (sch s) = tables (sch s0) -> pipes s = <[p := q]> (pipes s0) ->
  (forall x, nh_live (vheap (fsys s0)) x -> nh_live (vheap (fsys s)) x) ->
  refs_ok (pipe_put p 1 1 s).
Proof.
  intros Hr Hnone Hq1 Hq2 Hwf Ht Hp Hl. unfold pipe_put, pipe_unref. rewrite Hp, lookup_insert_eq. cbn [p_readers p_writers].
  rewrite Hq1, Hq2. change ((1 - 1 <=? 0) && (1 - 1 <=? 0)) with true. cbv iota. destruct Hr as [H1 H2 H3].
  split; cbn [set_sch set_pipes set_fsys sch pipes fsys set_heap vheap]; rewrite ?Hp, ?delete_insert_id by done.
  - by apply pipe_wake_wf.
  - by rewrite tables_pipe_wake, Ht.
  - intros x y Hy. apply nh_free_keeps; [eauto|]. congruence.
Qed.

(** Both ends stored in two free slots. *)
Lemma new_pipe_refs s s1 c p q rd wr :
  refs_ok s -> slot_ok c -> fd_ok rd -> fd_ok wr -> rd <> wr -> f_pipe (fd_at (tk s c) rd) = 0 -> f_pipe (fd_at (tk s c) wr) = 0 ->
  p <> 0 -> pipes s !! p = None -> p_readers q = 1 -> p_writers q = 1 ->
  sch s1 = sch s -> pipes s1 = <[p := q]> (pipes s) -> nh_live (vheap (fsys s1)) p ->
  (forall x, nh_live (vheap (fsys s)) x -> nh_live (vheap (fsys s1)) x) ->
  refs_ok (upd c (set_fd wr (wr_end p)) (upd c (set_fd rd (rd_end p)) s1)).
Proof.
  intros Hr Hc Hrd Hwr Hne Hfr Hfw Hp Hnone Hq1 Hq2 Hs1 Hp1 Hl Hkeep. pose proof (refs_len _ _ Hr Hc) as Hlen.
  destruct Hr as [H1 H2 H3]. assert (sched_wf (sch s1)) as Hwf1 by (by rewrite Hs1).
  set (s2 := upd c (set_fd rd (rd_end p)) s1). assert (sched_wf (sch s2)) as Hwf2 by (by apply upd_task_wf).
  assert (tk s1 c = tk s c) as Htk1 by (unfold tk; by rewrite Hs1).
  assert (tk s2 c = set_fd rd (rd_end p) (tk s c)) as Htk2 by (unfold s2; by rewrite tk_upd, Z.eqb_refl, Htk1).
  assert (length (t_fds (tk s2 c)) = 16%nat) as Hlen2.
  { rewrite Htk2. unfold set_fd, set_fds, zinsert. cbn [t_fds]. destruct (rd <? 0); [done|]. by rewrite length_insert. }
  split; cbn [upd set_sch sch pipes fsys]; [by apply upd_task_wf| |].
  - change (pipes s2) with (pipes s1). rewrite Hp1. apply (counted_new (tables (sch s))); try done.
    + apply lens_set_fd; try done. apply lens_set_fd; try done. rewrite Hs1. apply H2.
    + intros bit x Hx. rewrite total_set_fd by done. fold (tk s2 c). rewrite Htk2, fd_at_set, (proj2 (Z.eqb_neq wr rd)) by (done || congruence).
      change (sch s2) with (upd_task c (set_fd rd (rd_end p)) (sch s1)). rewrite total_set_fd by (done || (fold (tk s1 c); by rewrite Htk1)). fold (tk s1 c). rewrite Htk1, Hs1.
      rewrite (fd_ref_other _ x (fd_at (tk s c) rd)), (fd_ref_other _ x (fd_at (tk s c) wr)) by congruence. lia.
    + assert (forall f, f_pipe f = p -> marked f -> slot_fine (<[p := q]> (pipes s)) f) as Hend.
      { intros f Ef Hm _. split; [|done]. rewrite Ef, lookup_insert_eq. by eexists. }
      apply everywhere_set_fd; [done|done| |by apply Hend]. apply everywhere_set_fd; [done|done| |by apply Hend].
      rewrite Hs1. eapply everywhere_impl; [apply H2|]. intros f. apply slot_fine_insert.
  - intros x y Hy. change (pipes s2) with (pipes s1) in Hy. rewrite Hp1 in Hy. apply lookup_insert_Some in Hy as [[<- _]|[_ Hy]]; eauto.
Qed.

Lemma sys_pipe_refs s c u : refs_ok s -> current_task s = Some c -> refs_ok (sys_pipe u s).2.
Proof.
  intros Hr Hcur. assert (Hc : slot_ok c) by (by apply (ro_wf _ Hr)). unfold sys_pipe. rewrite Hcur.
  destruct (nh_alloc SIZEOF_PIPE (vheap (fsys s))) as [p h] eqn:Ea. unfold pipe_create.
  assert (Hkeep : forall x, nh_live (vheap (fsys s)) x -> nh_live h x) by (intros x; by eapply nh_keeps).
  destruct (Z.eqb_spec p 0) as [Hp0|Hp0]; [by apply (refs_ok_eq s); try apply Hr|].
  destruct (nh_fresh _ _ _ _ Ea Hp0) as [Hnl Hpl]. pose proof (refs_len _ _ Hr Hc) as Hlen.
  assert (pipes s !! p = None) as Hnone.
  { destruct (pipes s !! p) eqn:E; [|done]. by apply (ro_live _ Hr) in E. }
  set (q := mkPipe _ _ _ _ 1 1). set (s1 := set_pipes _ _).
  destruct (Z.ltb_spec (fd_alloc (tk s1 c)) 0) as [Hrd|Hrd]; [apply (undo_pipe _ s p q); try done; apply Hr|].
  set (rd := fd_alloc (tk s1 c)) in *. destruct (fd_alloc_some _ Hrd) as [Hrdok Hrdfree]. fold rd in Hrdok, Hrdfree. clearbody rd.
  assert (Hwf1 : sched_wf (sch s1)) by apply Hr. set (s2 := upd c (set_fd rd (mkFile 0 p 0 0)) s1).
  assert (Htk2 : tk s2 c = set_fd rd (mkFile 0 p 0 0) (tk s c)) by (unfold s2; by rewrite tk_upd, Z.eqb_refl).
  cbv zeta. unfold s2. rewrite !upd_set_fd_twice by done. fold s2.
  destruct (Z.ltb_spec (fd_alloc (tk s2 c)) 0) as [Hwr|Hwr].
  { apply (undo_pipe _ (upd c (set_fd rd file0) s) p q); try done; [by apply set_plain|by apply upd_task_wf]. }
  set (wr := fd_alloc (tk s2 c)) in *. destruct (fd_alloc_some _ Hwr) as [Hwrok Hwrfree]. fold wr in Hwrok, Hwrfree. clearbody wr.
  rewrite Htk2, fd_at_set in Hwrfree by done. destruct (Z.eqb_spec wr rd) as [|Hne]; [done|].
  apply (refs_ok_eq (upd c (set_fd wr (wr_end p)) (upd c (set_fd rd (rd_end p)) s1))).
  - by apply (new_pipe_refs s s1 c p q rd wr).
  - by repeat apply upd_task_wf.
  - done.
  - done.
  - done.
Qed.

(** ** Opening a file *)

(** The file system's calls keep the heap blocks that exist. *)
Definition keeps (v v' : vfs KH) : Prop := forall x, nh_live (vheap v) x -> nh_live (vheap v') x.

#[local] Instance keeps_preorder : PreOrder keeps.
Proof. split; [by intros v x|]. intros a b c H1 H2 x Hx. auto. Qed.

Lemma create_node_keeps name ty (v : vfs KH) : keeps v (vfs_create_node name ty v).2.
Proof.
  intros x Hx. unfold vfs_create_node. destruct (nh_alloc _ _) as [p h] eqn:E. destruct (p =? 0); cbn; by eapply nh_keeps.
Qed.

Lemma procfs_resolve_heap pool tbl d comp (v : vfs KH) : vheap (procfs_resolve pool tbl d comp v).2 = vheap v.
Proof.
  unfold procfs_resolve, make_node. destruct (_ || _); [by repeat case_bool_decide|]. destruct (_ || _); [done|].
  destruct (parse_pid comp 0); [|done]. destruct (_ || _); [done|]. destruct (_ <=? _); [done|]. by destruct (_ =? 0).
Qed.

Lemma resolve_loop_heap pool tbl fuel cur path (v : vfs KH) : vheap (resolve_loop pool tbl fuel cur path v).2 = vheap v.
Proof.
  revert cur path v. induction fuel as [|f IH]; intros cur path v; cbn [resolve_loop]; [done|]. destruct path as [|a path]; [done|].
  destruct (next_component 63 (a :: path)) as [[|ch comp] rest]; [apply IH|]. case_bool_decide.
  - pose proof (procfs_resolve_heap pool tbl cur (ch :: comp) v) as Hh.
    destruct (procfs_resolve pool tbl cur (ch :: comp) v) as [[o|] v1]; [|done]. by rewrite IH.
  - destruct (child_named v cur (ch :: comp)); [apply IH|done].
Qed.

Lemma vfs_resolve_heap pool tbl path (v : vfs KH) : vheap (vfs_resolve pool tbl path v).2 = vheap v.
Proof.
  unfold vfs_resolve. destruct (root v =? 0); [done|].
  repeat (match goal with |- context [match ?x with _ => _ end] => destruct x; try done end). apply resolve_loop_heap.
Qed.

Lemma ensure_tokens_keeps tokens cur (v : vfs KH) : keeps v (ensure_tokens cur tokens v).2.
Proof.
  revert cur v. induction tokens as [|[|a t] ts IH]; intros cur v; cbn [ensure_tokens]; [reflexivity|apply IH|].
  unfold vfs_get_or_create_dir. destruct (child_named v cur (a :: t)); [apply IH|].
  pose proof (create_node_keeps (a :: t) VFS_DIRECTORY v) as Hk. destruct (vfs_create_node _ _ v) as [d v1].
  destruct (d =? 0); [done|]. etrans; [exact Hk|]. etrans; [|apply IH]. by intros x.
Qed.

Lemma vfs_create_file_keeps path (v : vfs KH) : keeps v (vfs_create_file path v).2.
Proof.
  assert (forall d name v1, keeps v v1 -> keeps v (match child_named v1 d name with
    | Some c => (Some c, v1)
    | None => let '(n, v2) := vfs_create_node name VFS_FILE v1 in if n =? 0 then (None, v2) else (Some n, link_child d n v2)
    end).2) as Hend.
  { intros d name v1 Hk. destruct (child_named v1 d name); [done|]. pose proof (create_node_keeps name VFS_FILE v1) as Hc.
    destruct (vfs_create_node name VFS_FILE v1) as [n v2]. destruct (n =? 0); (etrans; [exact Hk|]); [done|]. exact Hc. }
  destruct path as [|c p]; [reflexivity|]. destruct (decide (c = 47)) as [->|Hc].
  - unfold vfs_create_file. destruct (root v =? 0); [reflexivity|]. destruct (split_last _) as [[before name]|]; [|reflexivity].
    destruct before as [|a dirs]; [apply Hend; reflexivity|]. unfold vfs_ensure_path.
    pose proof (ensure_tokens_keeps (split_slash dirs) (root v) v) as Hk.
    destruct (ensure_tokens _ _ _) as [[d|] v1]; [|exact Hk]. by apply Hend.
  - unfold vfs_create_file. repeat (match goal with |- keeps v (match ?x with _ => _ end).2 => destruct x; try reflexivity; try done end).
Qed.

Lemma sys_open_refs pool s path flags : refs_ok s -> refs_ok (sys_open pool path flags s).2.
Proof.
  intros Hr. unfold sys_open. destruct (current_task s) as [c|] eqn:Hcur; [|done].
  assert (Hc : slot_ok c) by (by apply (ro_wf _ Hr)). destruct (path =? 0); [done|].
  set (str := user_string 4096 path s). pose proof (vfs_resolve_heap pool (sch s) str (fsys s)) as Hh.
  destruct (vfs_resolve pool (sch s) str (fsys s)) as [node v1]. cbn [snd] in Hh.
  set (r := if _ && has flags O_CREATE then _ else _).
  assert (keeps (fsys s) r.2) as Hk.
  { unfold r. destruct (_ && _); [|cbn; intros x; by rewrite Hh].
    intros x Hx. apply (vfs_create_file_keeps str v1). by rewrite Hh. }
  destruct r as [nd v2]. cbn [snd] in Hk.
  assert (refs_ok (set_fsys v2 s)) as Hr2 by (by apply (refs_ok_eq s); try apply Hr).
  destruct nd as [n|]; [|done]. destruct (_ && _); [done|].
  destruct (Z.ltb_spec (fd_alloc (tk (set_fsys v2 s) c)) 0) as [|Hfd]; [done|].
  destruct (fd_alloc_some _ Hfd) as [Hok Hfree]. by apply set_plain.
Qed.

Lemma sys_close_refs s fd : refs_ok s -> refs_ok (sys_close fd s).2.
Proof.
  intros Hr. unfold sys_close. destruct (current_task s) as [c|] eqn:Hcur; [|done].
  assert (Hc : slot_ok c) by (by apply (ro_wf _ Hr)). destruct (fd_get (tk s c) (s32 fd)) as [f|] eqn:E; [|done].
  apply fd_get_some in E as [Hfd _]. by apply fd_put_refs.
Qed.

Lemma sys_dup_refs s fd : refs_ok s -> refs_ok (sys_dup fd s).2.
Proof.
  intros Hr. unfold sys_dup. destruct (current_task s) as [c|] eqn:Hcur; [|done].
  assert (Hc : slot_ok c) by (by apply (ro_wf _ Hr)). destruct (fd_get _ _); [|done].
  destruct (_ <? 0); [done|]. by apply do_dup2_refs.
Qed.

Lemma sys_dup2_refs s a b : refs_ok s -> refs_ok (sys_dup2 a b s).2.
Proof.
  intros Hr. unfold sys_dup2. destruct (current_task s) as [c|] eqn:Hcur; [|done].
  apply do_dup2_refs; [done|]. by apply (ro_wf _ Hr).
Qed.
End Refs.
