(* ===== verification/SysOwn.v ===== *)
(** * Who owns which heap block

    File contents and pipes live in blocks of the kernel heap.  No block is
    both, and no two files share one: growing a file, which frees its old
    block, or dropping the last reference of a pipe then leaves every other
    file and pipe intact. *)
From S2P Require Import Prelude Net Font Screen Kbd Mouse Mem FrameAlloc Pmm Task Sched Pipe Pmap Libk Vfs Devfs SysState SysFd SysFdSpec.

Section Own.
Context {A : Type} `{FA : FrameAlloc A} {KH : Type} {NH : NodeHeap KH} {NL : NodeHeapLaws KH} {N : Type}.
Implicit Types (s : sys A KH N) (v : vfs KH).

(** The block of a regular file, 0 for other nodes. *)
Definition block_of (n : vnode) : Z := if bool_decide (n_type n = VFS_FILE) then n_payload n else 0.
Definition fblock v (q : Z) : Z := block_of (node_at v q).

Record files_ok (P : gmap Z pipe) v : Prop := {
  fo_own : forall q, fblock v q <> 0 -> nh_live (vheap v) (fblock v q) /\ P !! fblock v q = None;
  fo_inj : forall q q', fblock v q <> 0 -> fblock v q = fblock v q' -> q = q';
}.

(** Every file keeps its block or has none. *)
Definition quiet v v' : Prop := keeps v v' /\ forall q, fblock v' q = 0 \/ fblock v' q = fblock v q.

#[export] Instance quiet_preorder : PreOrder quiet.
Proof.
  split; [intros v; split; [by intros x|by right]|]. intros a b c [H1 H2] [H3 H4]. split; [intros x Hx; auto|].
  intros q. destruct (H4 q) as [|E]; [by left|]. rewrite E. auto.
Qed.

Lemma files_ok_quiet P v v' : files_ok P v -> quiet v v' -> files_ok P v'.
Proof.
  intros [H1 H2] [Hk Hq]. split.
  - intros q Hne. destruct (Hq q) as [|E]; [done|]. rewrite E in *. destruct (H1 q Hne). auto.
  - intros q q' Hne E. destruct (Hq q) as [|E1]; [done|]. destruct (Hq q') as [E2|E2]; [congruence|]. apply H2; congruence.
Qed.

Lemma fblock_set p n v q : fblock (set_node p n v) q = if decide (p = q) then block_of n else fblock v q.
Proof.
  unfold fblock, node_at, set_node. cbn [nodes]. destruct (decide (p = q)) as [->|]; [by rewrite lookup_insert_eq|by rewrite lookup_insert_ne].
Qed.

(** Writing a node with the block it had, or none. *)
Lemma set_node_quiet p n v : block_of n = 0 \/ block_of n = fblock v p -> quiet v (set_node p n v).
Proof.
  intros Hn. split; [by intros x|]. intros q. rewrite fblock_set. destruct (decide (p = q)) as [<-|]; [done|by right].
Qed.

Lemma link_child_quiet d n v : quiet v (link_child d n v).
Proof.
  unfold link_child. etrans; apply set_node_quiet; right; reflexivity.
Qed.

Lemma create_node_quiet name ty v : quiet v (vfs_create_node name ty v).2.
Proof.
  pose proof (create_node_keeps name ty v) as Hk. unfold vfs_create_node in *. destruct (nh_alloc _ _) as [p h].
  destruct (p =? 0); [split; [done|by right]|]. split; [done|]. intros q. cbn [snd]. rewrite fblock_set.
  destruct (decide (p = q)); [left|by right]. unfold block_of. by destruct (bool_decide _).
Qed.

Lemma make_node_quiet pool d name payload v : quiet v (make_node pool d name payload v).2.
Proof.
  unfold make_node. destruct (_ <=? _); [reflexivity|]. cbn [snd]. etrans; [|apply link_child_quiet]. split; [by intros x|].
  intros q. rewrite fblock_set. destruct (decide _); [by left|by right].
Qed.

Lemma procfs_resolve_quiet pool tbl d comp v : n_type (node_at v d) = VFS_PROCFS -> quiet v (procfs_resolve pool tbl d comp v).2.
Proof.
  intros Hd. unfold procfs_resolve. destruct (_ || _).
  { case_bool_decide; [|by case_bool_decide]. apply set_node_quiet. left. unfold block_of. cbn. by rewrite Hd. }
  destruct (_ || _); [reflexivity|]. destruct (parse_pid comp 0); [|reflexivity]. destruct (_ || _); [reflexivity|].
  match goal with |- context [make_node ?a ?b ?c ?d ?e] => pose proof (make_node_quiet a b c d e) as Hq; destruct (make_node a b c d e) as [n v1] end.
  by destruct (n =? 0).
Qed.

Lemma resolve_loop_quiet pool tbl fuel cur path v : quiet v (resolve_loop pool tbl fuel cur path v).2.
Proof.
  revert cur path v. induction fuel as [|f IH]; intros cur path v; cbn [resolve_loop]; [reflexivity|]. destruct path as [|a path]; [reflexivity|].
  destruct (next_component 63 (a :: path)) as [[|ch comp] rest]; [apply IH|]. case_bool_decide.
  - pose proof (procfs_resolve_quiet pool tbl cur (ch :: comp) v) as Hq.
    destruct (procfs_resolve pool tbl cur (ch :: comp) v) as [[o|] v1]; [|auto]. etrans; [by apply Hq|apply IH].
  - destruct (child_named v cur (ch :: comp)); [apply IH|reflexivity].
Qed.

Lemma vfs_resolve_quiet pool tbl path v : quiet v (vfs_resolve pool tbl path v).2.
Proof.
  unfold vfs_resolve. destruct (root v =? 0); [reflexivity|].
  repeat (match goal with |- context [match ?x with _ => _ end] => destruct x; try reflexivity end). apply resolve_loop_quiet.
Qed.

Lemma ensure_tokens_quiet tokens cur v : quiet v (ensure_tokens cur tokens v).2.
Proof.
  revert cur v. induction tokens as [|[|a t] ts IH]; intros cur v; cbn [ensure_tokens]; [reflexivity|apply IH|].
  unfold vfs_get_or_create_dir. destruct (child_named v cur (a :: t)); [apply IH|].
  pose proof (create_node_quiet (a :: t) VFS_DIRECTORY v) as Hk. destruct (vfs_create_node _ _ v) as [d v1].
  destruct (d =? 0); [done|]. etrans; [exact Hk|]. etrans; [apply link_child_quiet|apply IH].
Qed.

Lemma vfs_create_file_quiet path v : quiet v (vfs_create_file path v).2.
Proof.
  assert (forall d name v1, quiet v v1 -> quiet v (match child_named v1 d name with
    | Some c => (Some c, v1)
    | None => let '(n, v2) := vfs_create_node name VFS_FILE v1 in if n =? 0 then (None, v2) else (Some n, link_child d n v2)
    end).2) as Hend.
  { intros d name v1 Hk. destruct (child_named v1 d name); [done|]. pose proof (create_node_quiet name VFS_FILE v1) as Hc.
    destruct (vfs_create_node name VFS_FILE v1) as [n v2]. destruct (n =? 0); (etrans; [exact Hk|]); [done|].
    etrans; [exact Hc|apply link_child_quiet]. }
  destruct path as [|c p]; [reflexivity|]. destruct (decide (c = 47)) as [->|Hc].
  - unfold vfs_create_file. destruct (root v =? 0); [reflexivity|]. destruct (split_last _) as [[before name]|]; [|reflexivity].
    destruct before as [|a dirs]; [apply Hend; reflexivity|]. unfold vfs_ensure_path.
    pose proof (ensure_tokens_quiet (split_slash dirs) (root v) v) as Hk.
    destruct (ensure_tokens _ _ _) as [[d|] v1]; [|exact Hk]. by apply Hend.
  - unfold vfs_create_file. repeat (match goal with |- quiet v (match ?x with _ => _ end).2 => destruct x; try reflexivity; try done end).
Qed.

(** ** Growing a file *)

(** A file moves to the block [g], fresh or its own, in the heap [h]. *)
Lemma move_block P v node n g h :
  files_ok P v -> block_of n = g -> g = fblock v node \/ ~ nh_live (vheap v) g -> nh_live h g -> P !! g = None ->
  (forall x, nh_live (vheap v) x -> x <> fblock v node -> nh_live h x) -> files_ok P (set_node node n (set_heap h v)).
Proof.
  intros [H1 H2] Hb Hg Hlg HPg Hk.
  assert (E : forall q, fblock (set_node node n (set_heap h v)) q = if decide (node = q) then g else fblock v q).
  { intros q. rewrite fblock_set, Hb. done. }
  assert (Hother : forall q, q <> node -> fblock v q <> 0 -> fblock v q <> g).
  { intros q Hq Hne E'. destruct Hg as [Hg|Hg]; [apply Hq, H2; congruence|]. apply Hg. rewrite <- E'. by apply H1. }
  split; cbn [set_node set_heap vheap].
  - intros q. rewrite E. destruct (decide (node = q)) as [<-|Hq]; [done|]. intros Hne. destruct (H1 q Hne) as [Hl HP]. split; [|done].
    apply Hk; [done|]. intros Ex. by apply Hq, eq_sym, H2.
  - intros q q'. rewrite !E. destruct (decide (node = q)) as [<-|Hq], (decide (node = q')) as [<-|Hq']; [done| | |apply H2].
    + intros Hne Eg. exfalso. apply (Hother q'); congruence.
    + intros Hne Eg. exfalso. by apply (Hother q); [congruence|..].
Qed.

(** What a write does to blocks: the written file may move to another one. *)
Lemma vfs_write_own junk node buf pos v P :
  files_ok P v -> P !! 0 = None -> (forall p q, P !! p = Some q -> nh_live (vheap v) p) ->
  let v' := (vfs_write junk node buf pos v).2 in
  files_ok P v' /\ forall p q, P !! p = Some q -> nh_live (vheap v') p.
Proof.
  intros Hf H0 Hl. unfold vfs_write. destruct (_ || _) eqn:E0; [done|].
  apply orb_false_iff in E0 as [_ Ety]. apply negb_false_iff, bool_decide_eq_true in Ety. cbv zeta.
  assert (Hb : fblock v node = n_payload (node_at v node)) by (unfold fblock, block_of; by rewrite bool_decide_eq_true_2).
  assert (Hnew : forall g d, block_of (set_data g d (node_at v node)) = g) by (intros g d; unfold block_of; cbn; by rewrite Ety).
  set (end_ := _ .+ _). destruct (Z.ltb_spec (zlen (n_data (node_at v node))) end_) as [Hlt|Hge].
  - assert (0 < end_) as Hpos by (unfold zlen in Hlt; lia).
    destruct (nh_realloc _ _ _) as [g h] eqn:Er. rewrite <- Hb in Er.
    assert (Hk : forall x, nh_live (vheap v) x -> x <> fblock v node \/ g = 0 -> nh_live h x) by (intros x Hx ?; by eapply nh_realloc_keeps).
    assert (Hpl : forall p q, P !! p = Some q -> p <> fblock v node).
    { intros p q Hq ->. destruct (decide (fblock v node = 0)) as [Ez|Hnz]; [congruence|]. destruct (fo_own _ _ Hf node Hnz). congruence. }
    destruct (Z.eqb_spec g 0) as [->|Hg]; cbn [snd].
    + split; [|intros p q Hq; apply Hk; [eauto|by right]]. apply (files_ok_quiet _ v); [done|]. split; [intros x Hx; apply Hk; auto|by right].
    + destruct (nh_realloc_new _ _ _ _ _ Hpos Er Hg) as [Hfresh Hlive]. split; [|intros p q Hq; apply Hk; [eauto|left; eauto]].
      apply move_block with g; try done; [|intros x Hx Hne; apply Hk; auto].
      destruct (P !! g) as [q|] eqn:EP; [|done]. exfalso. destruct Hfresh as [->|Hn]; [by eapply Hpl|by apply Hn; eauto].
  - split; [|done]. apply (files_ok_quiet _ v); [done|]. apply set_node_quiet. right. by rewrite Hnew.
Qed.

(** ** Pipes *)

Lemma files_ok_sub P P' v : files_ok P v -> (forall p, P !! p = None -> P' !! p = None) -> files_ok P' v.
Proof. intros [H1 H2] Hs. split; [|done]. intros q Hq. destruct (H1 q Hq). auto. Qed.

(** A pipe is released. *)
Lemma files_ok_free P v p q : files_ok P v -> P !! p = Some q -> files_ok (delete p P) (set_heap (nh_free p (vheap v)) v).
Proof.
  intros [H1 H2] Hp. split; [|exact H2]. intros x Hx. change (fblock (set_heap _ v) x) with (fblock v x) in *.
  destruct (H1 x Hx) as [Hl Hn]. split; [cbn; apply nh_free_keeps; [done|congruence]|]. rewrite lookup_delete_ne by congruence. done.
Qed.

(** A pipe is created in a new block. *)
Lemma files_ok_new P v p q h :
  files_ok P v -> nh_alloc SIZEOF_PIPE (vheap v) = (p, h) -> p <> 0 -> files_ok (<[p := q]> P) (set_heap h v).
Proof.
  intros [H1 H2] Ha Hp. destruct (nh_fresh _ _ _ _ Ha Hp) as [Hnl _]. split; [|exact H2].
  intros x Hx. change (fblock (set_heap _ v) x) with (fblock v x) in *. destruct (H1 x Hx) as [Hl Hn].
  split; [cbn; by eapply nh_keeps|]. rewrite lookup_insert_ne; [done|]. by intros ->.
Qed.
End Own.
