(* ===== verification/SysSig.v ===== *)
(** * Signals, job control and privileges (kernel/src/sys/syscall.c)

    Calls that leave the CPU for good end in [Gone]; calls that wait end in
    [Park] and have a second definition for the part that runs when the task
    is scheduled again. *)
From S2P Require Import Prelude Net Font Screen Kbd Mouse Mem FrameAlloc Pmm Task Sched Pipe Pmap Libk Vfs SysState SysFd.

Definition RUDO_OP_PANIC : Z := 1.
Definition RUDO_OP_SETUID : Z := 2.

(** [__builtin_ctz] on 32 bits: the lowest set bit at or above [i]. *)
Fixpoint ctz (n : nat) (i x : Z) : Z :=
  match n with
  | O => i
  | S n' => if Z.testbit x i then i else ctz n' (i + 1) x
  end.

(** [pending &= ~(1u << sig)] and [pending |= 1u << sig] *)
Definition clear_sig (sig x : Z) : Z := Z.land x (u32 (Z.lnot (Z.shiftl 1 sig))).
Definition raise_sig (sig x : Z) : Z := Z.lor x (u32 (Z.shiftl 1 sig)).

(** mov eax, SYS_SIGRETURN; syscall *)
Definition sigret_code : list Z := [0xB8; 0x0C; 0x00; 0x00; 0x00; 0x0F; 0x05].

Definition fatal (sig : Z) : bool :=
  (sig =? SIGKILL) || (sig =? SIGTERM) || (sig =? SIGINT) || (sig =? SIGSEGV) || (sig =? SIGPIPE).

Section Signals.
Context {A : Type} `{FA : FrameAlloc A} {KH : Type} `{NH : NodeHeap KH} {N : Type}.
Variable kp : Z.
Implicit Types s : sys A KH N.

Definition yield s : sys A KH N := set_sch (sched_yield kp (sch s)) s.

Definition parent_of (c : Z) s : option Z := sched_find_pid (t_parent_pid (tk s c)) (sch s).

Definition terminate_current (c sig : Z) s : sys A KH N :=
  let s := upd c (fun t => set_zombie true (set_exit_status (- sig) t)) s in
  let s := wake_opt (parent_of c s) s in
  yield (fds_release c s).

Definition set_cpu_user (rip rsp : Z) s : sys A KH N :=
  let b := bsp_cpu (sch s) in set_sch (set_bsp_cpu (mkCpu (kstack_top b) rsp rip (user_rflags b)) (sch s)) s.

(** The signal frame on the user stack. *)
Definition push_frame (handler : Z) s : sys A KH N :=
  let b := bsp_cpu (sch s) in
  let saved_rip := user_rip b in
  let saved_rsp := user_rsp b in
  let frame := Z.land (saved_rsp .- 64) (u64 (Z.lnot 0xF)) in
  let m := store64 (store64 (umem s) (frame + 0) saved_rip) (frame + 8) saved_rsp in
  let m := write_bytes m (frame + 16) sigret_code in
  set_cpu_user handler (frame + 16) (set_umem m s).

(** [false]: the task was terminated and the call does not return.  Every
    turn clears a bit of the 32-bit mask. *)
Fixpoint deliver_loop (n : nat) (c : Z) s : bool * sys A KH N :=
  match n with
  | O => (true, s)
  | S n' =>
      let t := tk s c in
      if t_sig_pending t =? 0 then (true, s)
      else
        let sig := ctz 32 0 (t_sig_pending t) in
        let handler := znth 0 (t_sig_handler t) sig in
        let cleared := upd c (set_sig_pending (clear_sig sig (t_sig_pending t))) in
        if handler =? SIG_IGN then deliver_loop n' c (cleared s)
        else if handler =? SIG_DFL then
          if fatal sig then (false, terminate_current c sig s) else deliver_loop n' c (cleared s)
        else (true, push_frame handler (cleared s))
  end.
Definition deliver_signals (c : Z) s : bool * sys A KH N := deliver_loop 33 c s.

Definition sys_kill (pid sig : Z) s : outcome * sys A KH N :=
  if (sig =? 0) || (NSIG <=? sig) then (Ret (-1), s)
  else match sched_find_pid (s32 pid) (sch s) with
  | None => (Ret (-1), s)
  | Some target =>
      if t_pid (tk s target) =? 0 then (Ret (-1), s)
      else
        let raised := upd target (fun t => set_sig_pending (raise_sig sig (t_sig_pending t)) t) s in
        if bool_decide (current_task s = Some target) then
          let '(back, s) := deliver_signals target raised in ((if back then Ret 0 else Gone), s)
        else
          let s := raised in
          let t := tk s target in
          if (sig =? SIGKILL) && (state_eqb (t_state t) TASK_BLOCKED || state_eqb (t_state t) TASK_READY) then
            let s := upd target (fun t => set_zombie true (set_exit_status (- SIGKILL) t)) s in
            let s := wake_opt (parent_of target s) s in
            if negb (t_wait_pipe (tk s target) =? 0) then
              let wp := t_wait_pipe (tk s target) in
              let s := upd target (set_wait_pipe 0) s in
              (Ret 0, set_sch (pipe_wake wp (sch s)) s)
            else (Ret 0, set_sch (sched_wake target (sch s)) s)
          else if negb (t_wait_pipe t =? 0) then (Ret 0, set_sch (pipe_wake (t_wait_pipe t) (sch s)) s)
          else (Ret 0, s)
  end.

Definition sys_signal (sig handler : Z) s : outcome * sys A KH N :=
  match current_task s with
  | None => (Fault, s)
  | Some c =>
      if (sig =? 0) || (NSIG <=? sig) || (sig =? SIGKILL) then (Ret (-1), s)
      else
        let old := s64 (znth 0 (t_sig_handler (tk s c)) sig) in
        (Ret old, upd c (fun t => set_sig_handler (zinsert sig handler (t_sig_handler t)) t) s)
  end.

Definition sys_sigreturn s : outcome * sys A KH N :=
  let frame_rsp := user_rsp (bsp_cpu (sch s)) in
  let rip := load64 (umem s) (frame_rsp .- 16) in
  let rsp := load64 (umem s) (frame_rsp .- 8) in
  (Ret 0, set_cpu_user rip rsp s).

Definition sys_getpid s : outcome * sys A KH N :=
  match current_task s with None => (Ret (-1), s) | Some c => (Ret (t_pid (tk s c)), s) end.
Definition sys_getppid s : outcome * sys A KH N :=
  match current_task s with None => (Ret (-1), s) | Some c => (Ret (t_parent_pid (tk s c)), s) end.
(** The value is returned once the task is scheduled again. *)
Definition sys_yield s : outcome * sys A KH N := (Ret 0, yield s).

Definition sys_setpgid (pid pgid : Z) s : outcome * sys A KH N :=
  match current_task s with
  | None => (Fault, s)
  | Some c =>
      match (if pid =? 0 then Some c else sched_find_pid (s32 pid) (sch s)) with
      | None => (Ret (-1), s)
      | Some i =>
          let t := tk s i in
          if negb (t_sid t =? t_sid (tk s c)) then (Ret (-1), s)
          else if t_zombie t then (Ret (-1), s)
          else
            let newpgid := if pgid =? 0 then t_pid t else s32 pgid in
            if negb (newpgid =? t_pid t) then (Ret (-1), s) else (Ret 0, upd i (set_pgid newpgid) s)
      end
  end.

Definition sys_getpgid (pid : Z) s : outcome * sys A KH N :=
  match (if pid =? 0 then current_task s else sched_find_pid (s32 pid) (sch s)) with
  | None => (Ret (-1), s)
  | Some i => (Ret (t_pgid (tk s i)), s)
  end.

Definition sys_setsid s : outcome * sys A KH N :=
  match current_task s with
  | None => (Ret (-1), s)
  | Some c =>
      let pid := t_pid (tk s c) in
      match find_slot (fun t => negb (state_eqb (t_state t) TASK_FREE) && (t_sid t =? pid) && negb (t_pid t =? pid))
              (Z.to_nat MAX_TASKS) 0 (sch s) with
      | Some _ => (Ret (-1), s)
      | None => (Ret pid, upd c (fun t => set_pgid (t_pid t) (set_sid (t_pid t) t)) s)
      end
  end.

Definition sys_tcsetpgrp (pgid : Z) s : outcome * sys A KH N :=
  match current_task s with
  | None => (Ret (-1), s)
  | Some c =>
      if negb (s32 pgid =? t_pgid (tk s c)) && bool_decide (sched_find_pid (s32 pgid) (sch s) = None) then (Ret (-1), s)
      else (Ret 0, set_fg_pgid (s64 pgid) s)
  end.

(** [panic] halts the machine. *)
Definition sys_panic s : outcome * sys A KH N :=
  match current_task s with
  | None => (Ret (-1), s)
  | Some c => if negb (t_uid (tk s c) =? 0) then (Ret (-1), s) else (Gone, s)
  end.

(** ** rudo: privileged requests through the daemon, task 2 *)

Definition sys_rudo_request (op : Z) s : outcome * sys A KH N :=
  match current_task s with
  | None => (Ret (-1), s)
  | Some c =>
      match sched_find_pid 2 (sch s) with
      | None => (Ret (-1), s)
      | Some daemon =>
          let d := tk s daemon in
          if negb (t_uid d =? 0) || t_zombie d then (Ret (-1), s)
          else if r_pending (rudo s) then (Ret (-1), s)
          else
            let s := set_rudo (mkRudo (s32 op) (t_pid (tk s c)) true (-1)) s in
            let s := set_sch (sched_wake daemon (sch s)) s in
            (Park, yield (upd c (set_state TASK_BLOCKED) s))
      end
  end.
Definition sys_rudo_request_resume s : outcome * sys A KH N := (Ret (r_result (rudo s)), s).

(** One turn of the daemon's loop. *)
Definition sys_rudo_wait (buf : Z) s : outcome * sys A KH N :=
  match current_task s with
  | None => (Ret (-1), s)
  | Some c =>
      if negb (t_uid (tk s c) =? 0) then (Ret (-1), s)
      else if r_pending (rudo s) then
        let op := r_op (rudo s) in
        let requester := r_requester (rudo s) in
        let s := set_rudo (mkRudo op requester false (r_result (rudo s))) s in
        let s := if buf =? 0 then s else set_umem (store32 (store32 (umem s) buf op) (buf + 4) requester) s in
        if op =? RUDO_OP_PANIC then (Fault, set_rudo_fault requester s)
        else
          let s := if op =? RUDO_OP_SETUID then
                     let s := match sched_find_pid requester (sch s) with
                              | Some i => upd i (set_uid 0) s
                              | None => s
                              end in
                     set_rudo (mkRudo op requester false 0) s
                   else s in
          (Ret op, wake_opt (sched_find_pid requester (sch s)) s)
      else (Park, yield (upd c (set_state TASK_BLOCKED) s))
  end.

Definition sys_setuid (uid : Z) s : outcome * sys A KH N :=
  match current_task s with
  | None => (Ret (-1), s)
  | Some c => if negb (t_uid (tk s c) =? 0) then (Ret (-1), s) else (Ret 0, upd c (set_uid (u32 uid)) s)
  end.

Definition sys_getuid s : outcome * sys A KH N :=
  match current_task s with None => (Ret (-1), s) | Some c => (Ret (t_uid (tk s c)), s) end.
End Signals.
