(* ===== verification/SysSigSpec.v ===== *)
(** * Theorems about signals and privileges *)
From S2P Require Import Prelude Net Font Screen Kbd Mouse Mem FrameAlloc Pmm Task Sched Pipe Pmap Libk Vfs VfsSpec SysState SysFd SysFdSpec SysSig SysDemo.

(** ** The pending mask *)

Lemma ctz_spec n i x :
  (exists k, i <= k < i + Z.of_nat n /\ Z.testbit x k = true) ->
  let r := ctz n i x in i <= r < i + Z.of_nat n /\ Z.testbit x r = true /\ forall k, i <= k < r -> Z.testbit x k = false.
Proof.
  revert i. induction n as [|n IH]; intros i (k & Hk & Hb); [lia|]. cbn [ctz]. destruct (Z.testbit x i) eqn:E.
  - split_and!; [lia|lia|done|intros; lia].
  - destruct (IH (i + 1)) as (H1 & H2 & H3).
    { exists k. split; [|done]. destruct (decide (k = i)) as [->|]; [congruence|lia]. }
    split_and!; [lia|lia|done|]. intros j Hj. destruct (decide (j = i)) as [->|]; [done|apply H3; lia].
Qed.

Lemma clear_sig_bits sig x i :
  0 <= sig < 32 -> 0 <= x < 2 ^ 32 -> 0 <= i -> Z.testbit (clear_sig sig x) i = Z.testbit x i && negb (i =? sig).
Proof.
  intros Hs Hx Hi. unfold clear_sig, u32. rewrite Z.land_spec. destruct (decide (i < 32)).
  - rewrite testbit_mod, Z.lnot_spec, testbit_shl1 by lia. done.
  - by rewrite (testbit_above x 32) by lia.
Qed.

Lemma clear_sig_range sig x : 0 <= x < 2 ^ 32 -> 0 <= clear_sig sig x < 2 ^ 32.
Proof.
  intros Hx. unfold clear_sig. assert (Z.land x (u32 (Z.lnot (Z.shiftl 1 sig))) = u32 (Z.land x (Z.lnot (Z.shiftl 1 sig)))) as ->.
  - apply Z.bits_inj'. intros i Hi. unfold u32. rewrite Z.land_spec. destruct (decide (i < 32)).
    + by rewrite !testbit_mod, Z.land_spec by lia.
    + rewrite (testbit_above x 32) by lia. by rewrite !Z.mod_pow2_bits_high by lia.
  - apply u32_range.
Qed.

Lemma raise_sig_bits sig x i :
  0 <= sig < 32 -> 0 <= i -> Z.testbit (raise_sig sig x) i = Z.testbit x i || (i =? sig).
Proof.
  intros Hs Hi. unfold raise_sig. rewrite Z.lor_spec, u32_small, testbit_shl1 by (rewrite ?Z.shiftl_1_l; try split; try lia;
    try apply Z.pow_nonneg; try apply Z.pow_lt_mono_r; lia). done.
Qed.

(** A mask with a bit set. *)
Lemma mask_bit x : 0 <= x < 2 ^ 32 -> x <> 0 -> exists k, 0 <= k < 0 + Z.of_nat 32 /\ Z.testbit x k = true.
Proof.
  intros Hx Hne. exists (Z.log2 x). split; [|apply Z.bit_log2; lia].
  pose proof (Z.log2_nonneg x). assert (Z.log2 x < 32); [|lia]. apply Z.log2_lt_pow2; lia.
Qed.

Section Spec.
Context {A : Type} `{FA : FrameAlloc A} {KH : Type} {NH : NodeHeap KH} {NL : NodeHeapLaws KH} {N : Type}.
Variable kp : Z.
Implicit Types s : sys A KH N.

(** A signal whose delivery only clears it. *)
Definition discarded (t : task) (sig : Z) : bool :=
  let h := znth 0 (t_sig_handler t) sig in (h =? SIG_IGN) || ((h =? SIG_DFL) && negb (fatal sig)).

Lemma upd_upd s c f g : sched_wf (sch s) -> slot_ok c -> upd c f (upd c g s) = upd c (fun t => f (g t)) s.
Proof.
  intros Hwf Hc. unfold upd, set_sch. cbn [sch vmm pipes fsys umem console_fg_pgid rudo g_rudo_fault_requester]. f_equal.
  unfold upd_task at 1. rewrite task_at_upd, Z.eqb_refl by done. unfold upd_task, set_tasks. cbn. f_equal. apply zinsert_twice.
Qed.

Lemma upd_pending s c x y :
  sched_wf (sch s) -> slot_ok c -> upd c (set_sig_pending x) (upd c (set_sig_pending y) s) = upd c (set_sig_pending x) s.
Proof. intros Hwf Hc. by rewrite upd_upd. Qed.

(** What the loop does, from a mask whose bits are all at or above [33 - n]. *)
Definition delivered (c : Z) s (r : bool * sys A KH N) : Prop :=
  let t := tk s c in
  let p := t_sig_pending t in
  (r = (true, upd c (set_sig_pending 0) s) /\
   forall i, 0 <= i < 32 -> Z.testbit p i = true -> discarded t i = true) \/
  exists sig rest,
    0 <= sig < 32 /\ Z.testbit p sig = true /\ discarded t sig = false /\
    (forall i, 0 <= i < sig -> Z.testbit p i = true -> discarded t i = true) /\
    let h := znth 0 (t_sig_handler t) sig in
    if h =? SIG_DFL
    then (forall i, 0 <= i -> Z.testbit rest i = Z.testbit p i && (sig <=? i)) /\
         r = (false, terminate_current kp c sig (upd c (set_sig_pending rest) s))
    else (forall i, 0 <= i -> Z.testbit rest i = Z.testbit p i && (sig <? i)) /\
         r = (true, push_frame h (upd c (set_sig_pending rest) s)).

Lemma tk_set_pending s c x : sched_wf (sch s) -> slot_ok c -> tk (upd c (set_sig_pending x) s) c = set_sig_pending x (tk s c).
Proof. intros. by rewrite tk_upd, Z.eqb_refl. Qed.

Lemma set_pending_same t : set_sig_pending (t_sig_pending t) t = t.
Proof. by destruct t. Qed.

Lemma upd_id s c : sched_wf (sch s) -> slot_ok c -> upd c (fun t => t) s = s.
Proof.
  intros [Hl _] Hc. destruct s as [sc v p f u g r rf]. unfold upd, set_sch. cbn. f_equal. destruct sc. unfold upd_task, set_tasks, task_at.
  cbn in *. f_equal. unfold zinsert, znth, zlookup, slot_ok, zlen, MAX_TASKS in *. rewrite (proj2 (Z.ltb_ge c 0)) by lia.
  destruct (tasks !! Z.to_nat c) eqn:E; [by apply list_insert_id|]. apply lookup_ge_None in E. lia.
Qed.

Lemma upd_ext s c f g : f (tk s c) = g (tk s c) -> upd c f s = upd c g s.
Proof. intros E. unfold upd, upd_task. fold (tk s c). by rewrite E. Qed.

Lemma upd_pending_same s c : sched_wf (sch s) -> slot_ok c -> upd c (set_sig_pending (t_sig_pending (tk s c))) s = s.
Proof.
  intros Hwf Hc. rewrite (upd_ext s c _ (fun t => t)); [by apply upd_id|]. by rewrite set_pending_same.
Qed.

(** Clearing a discarded signal first makes no difference. *)
Lemma delivered_clear c s sig r :
  let p := t_sig_pending (tk s c) in
  sched_wf (sch s) -> slot_ok c -> 0 <= sig < 32 -> 0 <= p < 2 ^ 32 -> (forall i, 0 <= i < sig -> Z.testbit p i = false) ->
  discarded (tk s c) sig = true -> delivered c (upd c (set_sig_pending (clear_sig sig p)) s) r -> delivered c s r.
Proof.
  intros p Hwf Hc Hs Hp Hmin Hd Hdel. set (s1 := upd c (set_sig_pending (clear_sig sig p)) s) in *.
  assert (tk s1 c = set_sig_pending (clear_sig sig p) (tk s c)) as Htk by (by apply tk_set_pending).
  assert (forall i, 0 <= i -> Z.testbit (clear_sig sig p) i = Z.testbit p i && negb (i =? sig)) as Hcb
    by (intros; by apply clear_sig_bits).
  assert (forall x, upd c (set_sig_pending x) s1 = upd c (set_sig_pending x) s) as Hupd by (intros x; by apply upd_pending).
  assert (forall i, 0 <= i -> Z.testbit p i = true -> i <> sig -> Z.testbit (clear_sig sig p) i = true) as Hkeep.
  { intros i Hi Hb Hne. rewrite Hcb, Hb by done. by rewrite (proj2 (Z.eqb_neq _ _) Hne). }
  assert (forall sg i, sig < sg -> 0 <= i -> Z.testbit (clear_sig sig p) i && (sg <=? i) = Z.testbit p i && (sg <=? i)) as Hge.
  { intros sg i Hsg Hi. rewrite Hcb by done. destruct (Z.leb_spec sg i); [|by rewrite !andb_false_r].
    rewrite (proj2 (Z.eqb_neq i sig)) by lia. by rewrite andb_true_r. }
  assert (forall i, discarded (set_sig_pending (clear_sig sig p) (tk s c)) i = discarded (tk s c) i) as Hdisc by done.
  unfold delivered in Hdel. rewrite Htk in Hdel. cbn [set_sig_pending t_sig_pending t_sig_handler] in Hdel.
  destruct Hdel as [[Hr Hall]|(sg & rest & H1 & H2 & H3 & H4 & H5)].
  - left. rewrite Hr, Hupd. split; [done|]. intros i Hi Hb. destruct (decide (i = sig)) as [->|Hne]; [done|].
    apply Hall; [done|]. apply Hkeep; [lia|done|done].
  - assert (sig < sg) as Hlt.
    { rewrite Hcb in H2 by lia. apply andb_true_iff in H2 as [H2 Hne]. apply negb_true_iff, Z.eqb_neq in Hne.
      destruct (Z.lt_trichotomy sig sg) as [|[|]]; [done|congruence|]. rewrite Hmin in H2 by lia. done. }
    right. exists sg, rest. rewrite Hcb in H2 by lia. apply andb_true_iff in H2 as [H2 _]. fold p. split_and!; [lia|lia|done|done| |].
    + intros i Hi Hb. destruct (decide (i = sig)) as [->|Hne]; [done|]. apply H4; [done|]. apply Hkeep; [lia|done|done].
    + cbv zeta in H5 |- *. rewrite !Hupd in H5. destruct (znth 0 (t_sig_handler (tk s c)) sg =? SIG_DFL); destruct H5 as [Hb Hr]; (split; [|exact Hr]); intros i Hi; rewrite Hb by done.
      * by apply Hge.
      * rewrite Hcb by done. destruct (Z.ltb_spec sg i); [|by rewrite !andb_false_r].
        rewrite (proj2 (Z.eqb_neq i sig)) by lia. by rewrite andb_true_r.
Qed.

Lemma deliver_loop_spec n c s :
  sched_wf (sch s) -> slot_ok c -> (0 < n)%nat -> 0 <= t_sig_pending (tk s c) < 2 ^ 32 ->
  (forall i, 0 <= i -> Z.testbit (t_sig_pending (tk s c)) i = true -> 33 - Z.of_nat n <= i) ->
  delivered c s (deliver_loop kp n c s).
Proof.
  revert s. induction n as [|n IH]; intros s Hwf Hc Hn Hp Hlow; [lia|]. cbn [deliver_loop].
  destruct (Z.eqb_spec (t_sig_pending (tk s c)) 0) as [H0|H0].
  { left. rewrite <- H0 at 1. rewrite upd_pending_same by done. split; [done|]. intros i _. by rewrite H0, Z.bits_0. }
  destruct (ctz_spec 32 0 _ (mask_bit _ Hp H0)) as (Hs & Hbit & Hmin). set (sig := ctz 32 0 _) in *.
  change (0 + Z.of_nat 32) with 32 in Hs. clearbody sig.
  assert (discarded (tk s c) sig = true ->
    delivered c s (deliver_loop kp n c (upd c (set_sig_pending (clear_sig sig (t_sig_pending (tk s c)))) s))) as Hrec.
  { intros Hd. apply (delivered_clear c s sig); try done. specialize (Hlow sig ltac:(lia) Hbit).
    apply IH; rewrite ?tk_set_pending by done; cbn [set_sig_pending t_sig_pending]; [by apply upd_task_wf|done|lia|by apply clear_sig_range|].
    intros i Hi. rewrite clear_sig_bits by done. intros Hb. bool_hyps.
    destruct (Z.lt_ge_cases i sig) as [Hlt|]; [rewrite Hmin in H by lia; done|]. lia. }
  assert (forall i, 0 <= i < sig -> Z.testbit (t_sig_pending (tk s c)) i = true -> discarded (tk s c) i = true) as Hnone.
  { intros i Hi. by rewrite Hmin by lia. }
  set (h := znth 0 (t_sig_handler (tk s c)) sig) in *.
  destruct (Z.eqb_spec h SIG_IGN) as [Hi|Hi]; [apply Hrec; unfold discarded; fold h; by rewrite Hi|].
  destruct (Z.eqb_spec h SIG_DFL) as [Hdf|Hdf]; [destruct (fatal sig) eqn:Hf|].
  - right. exists sig, (t_sig_pending (tk s c)). split_and!; [lia|lia|done| |done|].
    + unfold discarded. fold h. by rewrite Hdf, Hf.
    + cbv zeta. fold h. rewrite Hdf, Z.eqb_refl. split; [|by rewrite upd_pending_same].
      intros i Hi0. destruct (Z.leb_spec sig i); [by rewrite andb_true_r|]. by rewrite Hmin by lia.
  - apply Hrec. unfold discarded. fold h. by rewrite Hdf, Hf.
  - right. exists sig, (clear_sig sig (t_sig_pending (tk s c))). split_and!; [lia|lia|done| |done|].
    + unfold discarded. fold h. by rewrite (proj2 (Z.eqb_neq _ _) Hi), (proj2 (Z.eqb_neq _ _) Hdf).
    + cbv zeta. fold h. rewrite (proj2 (Z.eqb_neq _ _) Hdf). split; [|done].
      intros i Hi0. rewrite clear_sig_bits by done. destruct (Z.lt_trichotomy i sig) as [|[->|]].
      * by rewrite Hmin by lia.
      * by rewrite Z.eqb_refl, Z.ltb_irrefl.
      * rewrite (proj2 (Z.eqb_neq i sig)), (proj2 (Z.ltb_lt sig i)) by lia. done.
Qed.

(** C12: signal delivery handles the pending signals in ascending order: it
    clears those that are ignored, and stops at the first that is not, which
    either terminates the task or has its handler entered, keeping exactly the
    higher ones pending; with nothing to act on the mask ends empty. *)
Theorem deliver_signals_spec c s :
  sched_wf (sch s) -> slot_ok c -> 0 <= t_sig_pending (tk s c) < 2 ^ 32 -> delivered c s (deliver_signals kp c s).
Proof. intros. apply deliver_loop_spec; try done; lia. Qed.

End Spec.

(** ** Witnesses *)

(** The shell with SIGTERM (15) ignored and a handler for SIGINT (2), both
    pending. *)
Definition demo_signals : sys pmm positive unit :=
  upd 3 (fun t => set_sig_pending (raise_sig 2 (raise_sig 15 0))
           (set_sig_handler (<[15%nat := SIG_IGN]> (<[2%nat := 0x400800]> (t_sig_handler t))) t)) demo_sys.

Lemma deliver_signals_spec_witness :
  delivered 0 3 demo_signals (deliver_signals 0 3 demo_signals) /\
  user_rip (bsp_cpu (sch (deliver_signals 0 3 demo_signals).2)) = 0x400800.
Proof.
  split; [|by vm_compute]. apply deliver_signals_spec.
  - apply upd_task_wf. exact demo_procs_wf.
  - unfold slot_ok, MAX_TASKS. lia.
  - vm_compute. split; [discriminate|reflexivity].
Defined.

