(* ===== verification/Elf.v ===== *)
(** * Executable loader (kernel/src/proc/elf.c)

    [exec_build_image] builds an address space from an ELF file of the file
    system and the first stack of the program.  File fields are read from the
    file's bytes; bytes past its end, which the code does not guard against,
    read as 0.  Writes go through the direct map, page by page. *)
From S2P Require Import Prelude Mem FrameAlloc Pmm Task Sched Pmap Libk Vfs.

Definition ELF_MAGIC_VAL : Z := 0x464C457F.
Definition ELF_EXEC : Z := 2.
Definition ELF_X86_64 : Z := 62.
Definition PT_LOAD : Z := 1.
Definition USER_STACK_TOP : Z := 0x70000000.
Definition USER_STACK_PAGES : Z := 16.
Definition EXEC_MAX_ARGS : Z := 32.
Definition EXEC_MAX_ARG_LEN : Z := 256.
Definition SIZEOF_EHDR : Z := 64.
Definition SIZEOF_PHDR : Z := 56.

Record exec_image := mkImage {
  i_pml4_phys : Z;
  i_entry : Z;
  i_user_rsp : Z;
  i_brk_base : Z;
}.

(** A little-endian field of [n] bytes at [o]. *)
Definition field (n : nat) (o : Z) (data : list Z) : Z := le_value (map (fun k => znth 0 data (o + Z.of_nat k)) (seq 0 n)).

Record phdr := mkPhdr {
  p_type : Z;
  p_offset : Z;
  p_vaddr : Z;
  p_filesz : Z;
  p_memsz : Z;
}.

(** Entry [i] of the program header table at [phoff]. *)
Definition phdr_at (data : list Z) (phoff i : Z) : phdr :=
  let b := phoff .+ i * SIZEOF_PHDR in
  mkPhdr (field 4 b data) (field 8 (b + 8) data) (field 8 (b + 16) data) (field 8 (b + 32) data) (field 8 (b + 40) data).

Definition page_mask (va : Z) : Z := Z.land va (u64 (Z.lnot 0xFFF)).
Definition page_off (va : Z) : Z := Z.land va 0xFFF.

(** The part of a copy that stays in the page of [va]. *)
Definition chunk_at (va left : Z) : Z := if PAGE - page_off va <? left then PAGE - page_off va else left.

(** The bytes of a string with its terminator, cut to the argument limit. *)
Definition arg_bytes (a : list Z) : list Z :=
  let len := zlen a + 1 in take (Z.to_nat (if EXEC_MAX_ARG_LEN <? len then EXEC_MAX_ARG_LEN else len)) (a ++ [0]).

Section Elf.
Context {A : Type} `{FA : FrameAlloc A} {KH : Type} `{NH : NodeHeap KH}.
Variable off : Z.
Implicit Types v : vm A.

(** One turn per page; [fuel] is the number of pages plus one. *)
Fixpoint copy_loop (fuel : nat) (pml4 va : Z) (src : list Z) v : option (bool * vm A) :=
  match src with
  | [] => Some (true, v)
  | _ =>
      match fuel with
      | O => None
      | S f =>
          let pa := pmap_resolve off pml4 (page_mask va) v in
          if pa =? 0 then Some (false, v)
          else
            let chunk := chunk_at va (zlen src) in
            let dst := pa .+ off .+ page_off va in
            copy_loop f pml4 (va .+ chunk) (drop (Z.to_nat chunk) src)
              (set_mem (write_bytes (vm_mem v) dst (take (Z.to_nat chunk) src)) v)
      end
  end.
Definition copy_to_va (pml4 va : Z) (src : list Z) v : option (bool * vm A) :=
  copy_loop (S (S (Z.to_nat (zlen src / PAGE)))) pml4 va src v.

(** [for (i = 0; i < pages; i++)]; the right summand is [return false]. *)
Definition map_zeroed_range (pml4 va bytes : Z) v : vm A + vm A :=
  let pages := (bytes .+ PAGE .- 1) / PAGE in
  for_ret (Z.to_nat pages) 0 (fun i v =>
    let '(frame, fr) := fa_alloc 1 (vm_frames v) in
    let v := set_frames fr v in
    if frame =? 0 then inr v
    else
      let v := set_mem (fill (vm_mem v) frame 0 PAGE) v in
      inl (pmap_map off pml4 (va .+ i * PAGE) (frame .- off) (Z.lor PTE_USER PTE_WRITE) v)) v.

(** Strings downward from [sp], last first: the final [sp], the addresses in
    order, and [false] when a page is missing. *)
Fixpoint push_strings (pml4 : Z) (argv : list (list Z)) (sp : Z) v : option (bool * Z * list Z * vm A) :=
  match argv with
  | [] => Some (true, sp, [], v)
  | a :: r =>
      match push_strings pml4 r sp v with
      | Some (true, sp, addrs, v) =>
          let b := arg_bytes a in
          let sp := sp .- zlen b in
          match copy_to_va pml4 sp b v with
          | Some (ok, v) => Some (ok, sp, sp :: addrs, v)
          | None => None
          end
      | r => r
      end
  end.

Definition le64 (x : Z) : list Z := map (fun k => u8 (x / 256 ^ Z.of_nat k)) (seq 0 8).

(** The stack pointer, 0 when the stack cannot be built. *)
Definition build_user_stack (pml4 : Z) (argv : list (list Z)) v : option (Z * vm A) :=
  let top := USER_STACK_TOP in
  match map_zeroed_range pml4 (top - USER_STACK_PAGES * PAGE) (USER_STACK_PAGES * PAGE) v with
  | inr v => Some (0, v)
  | inl v =>
      let argv := take (Z.to_nat EXEC_MAX_ARGS) argv in
      let argc := zlen argv in
      match push_strings pml4 argv top v with
      | None => None
      | Some (false, _, _, v) => Some (0, v)
      | Some (true, sp, addrs, v) =>
          let sp := Z.land sp (u64 (Z.lnot 0xF)) in
          let vec := concat (map le64 (addrs ++ [0; 0])) in
          let sp := Z.land (sp .- (argc + 2) * 8) (u64 (Z.lnot 0xF)) in
          match copy_to_va pml4 sp vec v with
          | None => None
          | Some (false, v) => Some (0, v)
          | Some (true, v) =>
              let sp := sp .- 8 in
              match copy_to_va pml4 sp (le64 argc) v with
              | None => None
              | Some (ok, v) => Some (if ok then sp else 0, v)
              end
          end
      end
  end.

(** Map the segments: the end of the image and whether there was one. *)
Fixpoint map_segments (n : nat) (i : Z) (data : list Z) (phoff pml4 : Z) (st : Z * bool) v : (Z * bool * vm A) + vm A :=
  match n with
  | O => inl (st, v)
  | S n' =>
      let ph := phdr_at data phoff i in
      if negb (p_type ph =? PT_LOAD) then map_segments n' (i + 1) data phoff pml4 st v
      else
        let seg_end := p_vaddr ph .+ p_memsz ph in
        let image_end := if st.1 <? seg_end then seg_end else st.1 in
        match map_zeroed_range pml4 (p_vaddr ph) (p_memsz ph) v with
        | inr v => inr v
        | inl v => map_segments n' (i + 1) data phoff pml4 (image_end, true) v
        end
  end.

(** Fill one segment from the file, a page at a time. *)
Fixpoint fill_loop (fuel : nat) (data : list Z) (ph : phdr) (pml4 done : Z) v : option (vm A) :=
  if p_filesz ph <=? done then Some v
  else
    match fuel with
    | O => None
    | S f =>
        let va := p_vaddr ph .+ done in
        let pa := pmap_resolve off pml4 va v in
        let chunk := chunk_at va (p_filesz ph - done) in
        let bytes := map (fun k => znth 0 data (p_offset ph + done + Z.of_nat k)) (seq 0 (Z.to_nat chunk)) in
        fill_loop f data ph pml4 (done + chunk) (set_mem (write_bytes (vm_mem v) (pa .+ off) bytes) v)
    end.
Definition fill_segment (data : list Z) (ph : phdr) (pml4 : Z) v : option (vm A) :=
  fill_loop (S (S (Z.to_nat (p_filesz ph / PAGE)))) data ph pml4 0 v.

Fixpoint fill_segments (n : nat) (i : Z) (data : list Z) (phoff pml4 : Z) v : option (vm A) :=
  match n with
  | O => Some v
  | S n' =>
      let ph := phdr_at data phoff i in
      if negb (p_type ph =? PT_LOAD) || (p_filesz ph =? 0) then fill_segments n' (i + 1) data phoff pml4 v
      else match fill_segment data ph pml4 v with
           | None => None
           | Some v => fill_segments n' (i + 1) data phoff pml4 v
           end
  end.

(** The image once the file is known to be an executable; the inner [None]
    is the error return. *)
Definition load_image (cr3 : Z) (data : list Z) (argv : list (list Z)) v : option (option exec_image * vm A) :=
  let '(pml4, v) := pmap_create off cr3 v in
  if pml4 =? 0 then Some (None, v)
  else
    let phoff := field 8 32 data in
    let phnum := Z.to_nat (field 2 56 data) in
    match map_segments phnum 0 data phoff pml4 (0, false) v with
    | inr v => Some (None, pmap_destroy off pml4 v)
    | inl (image_end, any_load, v) =>
        if negb any_load then Some (None, pmap_destroy off pml4 v)
        else match fill_segments phnum 0 data phoff pml4 v with
        | None => None
        | Some v =>
            match build_user_stack pml4 argv v with
            | None => None
            | Some (rsp, v) =>
                if rsp =? 0 then Some (None, pmap_destroy off pml4 v)
                else Some (Some (mkImage pml4 (field 8 24 data) rsp (page_mask (image_end .+ PAGE .- 1))), v)
            end
        end
    end.

(** The checks on the file; [pool] and [tbl] are those of the file system. *)
Definition elf_header_ok (data : list Z) : bool :=
  (field 4 0 data =? ELF_MAGIC_VAL) && (field 2 16 data =? ELF_EXEC) && (field 2 18 data =? ELF_X86_64).

Definition exec_build_image (pool : Z) (tbl : sched) (cr3 : Z) (path : list Z) (argv : list (list Z)) (fs : vfs KH) v :
    option (option exec_image * vfs KH * vm A) :=
  let '(node, fs) := vfs_resolve pool tbl path fs in
  match node with
  | None => Some (None, fs, v)
  | Some n =>
      let nd := node_at fs n in
      if negb (bool_decide (n_type nd = VFS_FILE)) then Some (None, fs, v)
      else if zlen (n_data nd) <? SIZEOF_EHDR then Some (None, fs, v)
      else if negb (elf_header_ok (n_data nd)) then Some (None, fs, v)
      else match load_image cr3 (n_data nd) argv v with
           | None => None
           | Some (r, v) => Some (r, fs, v)
           end
  end.
End Elf.

(** * Theorems *)

Lemma page_off_mod va : page_off va = va mod PAGE.
Proof. unfold page_off. change 0xFFF with (2 ^ 12 - 1). by rewrite land_ones_mod by lia. Qed.

Lemma chunk_range va left : 0 < left -> 0 < chunk_at va left <= left.
Proof. intros. unfold chunk_at. rewrite page_off_mod. unfold PAGE. destruct (Z.ltb_spec (4096 - va mod 4096) left); lia. Qed.

(** A chunk that does not finish the copy ends at a page boundary. *)
Lemma chunk_boundary va left : chunk_at va left < left -> chunk_at va left = PAGE - va mod PAGE /\ (va .+ chunk_at va left) mod PAGE = 0.
Proof.
  unfold chunk_at. rewrite page_off_mod. unfold PAGE. destruct (Z.ltb_spec (4096 - va mod 4096) left); [|lia].
  intros _. split; [done|]. unfold u64. rewrite Z.mod_mod_divide by (exists (2 ^ 52); done). lia.
Qed.

Lemma arg_bytes_length a : 1 <= zlen (arg_bytes a) <= 256.
Proof.
  unfold arg_bytes, EXEC_MAX_ARG_LEN, zlen. rewrite length_take, length_app. cbn [length].
  destruct (Z.ltb_spec 256 (Z.of_nat (length a) + 1)); lia.
Qed.

Section Theorems.
Context {A : Type} `{FA : FrameAlloc A} {KH : Type} `{NH : NodeHeap KH}.
Variable off : Z.
Implicit Types v : vm A.

(** The turns a copy of [len] bytes at [va] needs. *)
Definition enough (fuel : nat) (va len : Z) : Prop := len = 0 \/ va mod PAGE + len <= Z.of_nat fuel * PAGE.

Lemma enough_step f va len :
  0 < len -> enough (S f) va len -> enough f (va .+ chunk_at va len) (len - chunk_at va len).
Proof.
  intros Hl [|Hf]; [lia|]. pose proof (chunk_range va len Hl). destruct (decide (chunk_at va len < len)) as [Hlt|]; [right|left; lia].
  destruct (chunk_boundary va len Hlt) as [E1 E2]. rewrite E2, E1. unfold PAGE in *. lia.
Qed.

Lemma enough_start va len : 0 <= len -> enough (S (S (Z.to_nat (len / PAGE)))) va len.
Proof. intros Hl. right. unfold PAGE. lia. Qed.

Lemma copy_loop_total fuel pml4 va src v :
  enough fuel va (zlen src) -> exists b v', copy_loop off fuel pml4 va src v = Some (b, v').
Proof.
  revert va src v. induction fuel as [|f IH]; intros va src v Hf; destruct src as [|x src]; cbn [copy_loop]; eauto.
  - destruct Hf as [Hf|Hf]; unfold zlen, PAGE in Hf; cbn [length] in Hf; lia.
  - destruct (_ =? 0); [eauto|]. apply IH. clear IH. set (l := x :: src) in *.
    assert (0 < zlen l) as Hl by (unfold l, zlen; cbn [length]; lia). pose proof (chunk_range va (zlen l) Hl) as Hc.
    assert (zlen (drop (Z.to_nat (chunk_at va (zlen l))) l) = zlen l - chunk_at va (zlen l)) as ->.
    { unfold zlen in *. rewrite length_drop. lia. }
    by apply enough_step.
Qed.

Lemma copy_to_va_total pml4 va src v : exists b v', copy_to_va off pml4 va src v = Some (b, v').
Proof. apply copy_loop_total, enough_start. unfold zlen. lia. Qed.

(** The strings end up below [sp], at most 256 bytes each. *)
Lemma push_strings_spec pml4 argv sp v :
  Z.of_nat (length argv) * 256 <= sp < 2 ^ 64 ->
  exists ok sp' addrs v', push_strings off pml4 argv sp v = Some (ok, sp', addrs, v') /\
    sp - Z.of_nat (length argv) * 256 <= sp' <= sp /\ (ok = true -> length addrs = length argv).
Proof.
  revert sp v. induction argv as [|a r IH]; intros sp v Hsp; cbn [push_strings length] in *.
  - exists true, sp, [], v. split_and!; [done|lia|lia|done].
  - destruct (IH sp v) as (ok & sp1 & addrs & v1 & -> & Hb & Hl); [lia|]. destruct ok.
    + pose proof (arg_bytes_length a) as Ha. destruct (copy_to_va_total pml4 (sp1 .- zlen (arg_bytes a)) (arg_bytes a) v1) as (ok & v2 & ->).
      exists ok, (sp1 .- zlen (arg_bytes a)), (sp1 .- zlen (arg_bytes a) :: addrs), v2. rewrite !u64_small by lia.
      split_and!; [done|lia|lia|]. intros _. cbn [length]. by rewrite Hl.
    + exists false, sp1, addrs, v1. split_and!; [done|lia|lia|done].
Qed.

Lemma build_user_stack_spec pml4 argv v :
  exists sp v', build_user_stack off pml4 argv v = Some (sp, v') /\
    (sp = 0 \/ USER_STACK_TOP - USER_STACK_PAGES * PAGE <= sp < USER_STACK_TOP /\ sp mod 16 = 8 /\
              sp + 8 + (zlen (take 32 argv) + 2) * 8 <= USER_STACK_TOP).
Proof.
  unfold build_user_stack. destruct (map_zeroed_range off pml4 _ _ v) as [v1|v1]; [|eauto].
  change (Z.to_nat EXEC_MAX_ARGS) with 32%nat. set (args := take 32 argv).
  assert (length args <= 32)%nat as Hn by (unfold args; rewrite length_take; lia).
  destruct (push_strings_spec pml4 args USER_STACK_TOP v1) as (ok & sp & addrs & v2 & -> & Hsp & _); [unfold USER_STACK_TOP; lia|].
  destruct ok; [|eauto]. unfold USER_STACK_TOP, USER_STACK_PAGES, PAGE in *.
  set (sp1 := Z.land sp _). assert (sp1 = sp / 16 * 16) as Hsp1 by (apply (land_align_down _ 4); lia).
  set (sp2 := Z.land (sp1 .- _) _). assert (sp2 = (sp1 - (zlen args + 2) * 8) / 16 * 16) as Hsp2.
  { unfold sp2. rewrite (land_align_down _ 4) by (try apply u64_range; lia). rewrite u64_small; [done|]. unfold zlen. lia. }
  clearbody sp2. destruct (copy_to_va_total pml4 sp2 (concat (map le64 (addrs ++ [0; 0]))) v2) as ([] & v3 & ->); [|eauto].
  destruct (copy_to_va_total pml4 (sp2 .- 8) (le64 (zlen args)) v3) as ([] & v4 & ->); [|eauto].
  exists (sp2 .- 8), v4. split; [done|]. right. unfold zlen in *. rewrite u64_small by lia. lia.
Qed.

Lemma fill_loop_total fuel data ph pml4 done v :
  0 <= done <= p_filesz ph -> enough fuel (p_vaddr ph .+ done) (p_filesz ph - done) ->
  exists v', fill_loop off fuel data ph pml4 done v = Some v'.
Proof.
  revert done v. induction fuel as [|f IH]; intros done v Hd Hf; cbn [fill_loop];
    (destruct (Z.leb_spec (p_filesz ph) done); [eauto|]).
  - destruct Hf as [|Hf]; [lia|]. unfold PAGE in Hf. lia.
  - pose proof (chunk_range (p_vaddr ph .+ done) (p_filesz ph - done) ltac:(lia)) as Hc.
    apply enough_step in Hf; [|lia]. apply IH; [lia|].
    replace (p_vaddr ph .+ (done + chunk_at (p_vaddr ph .+ done) (p_filesz ph - done)))
      with (u64 (p_vaddr ph .+ done + chunk_at (p_vaddr ph .+ done) (p_filesz ph - done))).
    + by replace (p_filesz ph - (done + chunk_at (p_vaddr ph .+ done) (p_filesz ph - done)))
        with (p_filesz ph - done - chunk_at (p_vaddr ph .+ done) (p_filesz ph - done)) by lia.
    + unfold u64. rewrite Zplus_mod_idemp_l. f_equal. lia.
Qed.

Lemma field_nonneg n o data : 0 <= field n o data.
Proof.
  unfold field. induction (map _ _) as [|b l IH]; cbn [le_value]; [lia|]. pose proof (u8_range b). lia.
Qed.

Lemma fill_segments_total n i data phoff pml4 v : exists v', fill_segments off n i data phoff pml4 v = Some v'.
Proof.
  revert i v. induction n as [|n IH]; intros i v; cbn [fill_segments]; [eauto|]. destruct (_ || _); [apply IH|].
  destruct (fill_loop_total (S (S (Z.to_nat (p_filesz (phdr_at data phoff i) / PAGE)))) data (phdr_at data phoff i) pml4 0 v) as [v' Hv].
  - split; [lia|apply field_nonneg].
  - rewrite Z.sub_0_r. apply enough_start. apply field_nonneg.
  - unfold fill_segment. rewrite Hv. apply IH.
Qed.

(** Building the initial stack always ends; a stack pointer it returns
    lies in the 64 KiB it mapped below the top of the stack, with the argument
    vector above it, and is 8 modulo 16. *)
Theorem build_user_stack_bounds pml4 argv v :
  exists sp v', build_user_stack off pml4 argv v = Some (sp, v') /\
    (sp = 0 \/ USER_STACK_TOP - USER_STACK_PAGES * PAGE <= sp < USER_STACK_TOP /\ sp mod 16 = 8 /\
              sp + 8 + (zlen (take 32 argv) + 2) * 8 <= USER_STACK_TOP).
Proof. apply build_user_stack_spec. Qed.

End Theorems.
