(* ===== verification/SysProc.v ===== *)
(** * Process lifetime (kernel/src/sys/syscall.c)

    exit, fork, execve and waitpid.  [off] is the direct-map offset, [kp] the
    kernel's page-table root, [console_fds] the shared console descriptions
    and [first_entry] the address of the code that enters user mode. *)
From S2P Require Import Prelude Net Font Screen Kbd Mouse Mem FrameAlloc Pmm Task Sched Pipe Pmap Libk Vfs SysState SysFd SysSig Elf.

Section Proc.
Context {A : Type} `{FA : FrameAlloc A} {KH : Type} `{NH : NodeHeap KH} {N : Type}.
Variables (off kp pool first_entry : Z) (console_fds : list (option file)).
Implicit Types s : sys A KH N.

(** [pmap_load]: the root the CPU uses. *)
Definition pmap_load (root : Z) (sc : sched) : sched :=
  mkSched (tasks sc) (current sc) (scheduling_started sc) (next_pid sc) (init_pid sc) (bsp_cpu sc) (tss_rsp0 sc) root
          (cpu_rsp sc) (ticks sc) (g_uptime_ticks sc) (g_resched_requested sc).

(** User memory of an address space, through its page tables. *)
Definition user_view (root : Z) (v : vm A) : mem :=
  fun x => let pa := pmap_resolve off root x v in if pa =? 0 then 0 else vm_mem v (hhdm_of off pa).

Definition reap_task (i : Z) s : sys A KH N :=
  let t := tk s i in
  let s := if t_kstack t =? 0 then s
           else set_vmm (set_frames (fa_free (t_kstack t) KSTACK_PAGES (vm_frames (vmm s))) (vmm s)) s in
  let s := if negb (t_pml4_phys t =? 0) && negb (t_pml4_phys t =? kp)
           then set_vmm (pmap_destroy off (t_pml4_phys t) (vmm s)) s else s in
  upd i (fun _ => task0) (fds_release i s).

Definition sys_exit (status : Z) s : outcome * sys A KH N :=
  match current_task s with
  | None => (Gone, s)
  | Some c =>
      let s := upd c (fun t => set_zombie true (set_exit_status (s32 status) t)) s in
      (Gone, yield kp (wake_opt (parent_of c s) s))
  end.

(** Copy the parent's table, heap and mmap positions into the child. *)
Definition clone_into (child c : Z) s : sys A KH N :=
  let p := tk s c in
  let s := upd child (fun t => set_mmap_top (t_mmap_top p) (set_brk_cur (t_brk_cur p) (set_brk_base (t_brk_base p)
             (set_fds (t_fds p) t)))) s in
  foldl (fun s f => take_ref f s) s (t_fds (tk s child)).

Definition sys_fork s : outcome * sys A KH N :=
  match current_task s with
  | None => (Ret (-1), s)
  | Some c =>
      let cur := tk s c in
      if t_user_entry cur =? 0 then (Ret (-1), s)
      else
        let rip := user_rip (bsp_cpu (sch s)) in
        let rsp := user_rsp (bsp_cpu (sch s)) in
        let '(child_pml4, v) := pmap_fork off (cr3 (sch s)) (t_pml4_phys cur) (vmm s) in
        let s := set_vmm v s in
        if child_pml4 =? 0 then (Ret (-1), s)
        else
          let s := set_sch (pmap_load (t_pml4_phys cur) (sch s)) s in
          let '(pid, sc, k) := sched_spawn_user_task console_fds first_entry (task_name (t_name cur)) child_pml4 rip rsp (t_pid cur)
                                 (sch s) (mkKmem (vm_mem (vmm s)) (vm_frames (vmm s))) in
          let s := set_vmm (mkVm (km_mem k) (km_frames k) (refs (vmm s)) (refs_pages (vmm s))) (set_sch sc s) in
          if pid <? 0 then (Ret (-1), set_vmm (pmap_destroy off child_pml4 (vmm s)) s)
          else match sched_find_pid pid (sch s) with
               | None => (Fault, s)
               | Some child => (Ret pid, clone_into child c s)
               end
  end.

(** The argument strings at [argv], at most 32. *)
Fixpoint copy_argv (n : nat) (argv : Z) s : list (list Z) :=
  match n with
  | O => []
  | S n' =>
      let p := load64 (umem s) argv in
      if p =? 0 then [] else user_string 255 p s :: copy_argv n' (argv + 8) s
  end.

(** The task [c] takes over the new image; the old address space goes. *)
Definition exec_enter (c : Z) (path : list Z) (img : exec_image) s : sys A KH N :=
  let old_pml4 := t_pml4_phys (tk s c) in
  let brk := i_brk_base img .+ PAGE in
  let s := upd c (fun t => set_name (task_name path) (set_mmap_top 0x50000000 (set_brk_cur brk (set_brk_base brk
             (set_pml4_phys (i_pml4_phys img) t))))) s in
  let s := set_sch (pmap_load (i_pml4_phys img) (sch s)) s in
  let s := set_vmm (pmap_destroy off old_pml4 (vmm s)) s in
  let b := bsp_cpu (sch s) in
  let s := set_sch (set_bsp_cpu (mkCpu (kstack_top b) (i_user_rsp img) (i_entry img) 0x202) (sch s)) s in
  set_umem (user_view (i_pml4_phys img) (vmm s)) s.

(** On success the call does not come back: the CPU enters the new image.
    [None] would be a loader that does not end. *)
Definition sys_execve (path_ptr argv_ptr : Z) s : option (outcome * sys A KH N) :=
  if path_ptr =? 0 then Some (Ret (-1), s)
  else match current_task s with
  | None => Some (Fault, s)
  | Some c =>
      let path := user_string 4096 path_ptr s in
      let argv := if argv_ptr =? 0 then [] else copy_argv 32 argv_ptr s in
      match exec_build_image off pool (sch s) (cr3 (sch s)) path argv (fsys s) (vmm s) with
      | None => None
      | Some (None, fs, v) => Some (Ret (-1), set_vmm v (set_fsys fs s))
      | Some (Some img, fs, v) => Some (Gone, exec_enter c path img (set_vmm v (set_fsys fs s)))
      end
  end.

(** The scan of [sys_waitpid]: a zombie child that is wanted, and whether
    there are children. *)
Fixpoint wait_scan (n : nat) (i : Z) (cpid pid : Z) (have : bool) (sc : sched) : option Z * bool :=
  match n with
  | O => (None, have)
  | S n' =>
      let t := task_at sc i in
      if state_eqb (t_state t) TASK_FREE || negb (t_parent_pid t =? cpid) || (t_pid t =? 0)
      then wait_scan n' (i + 1) cpid pid have sc
      else if negb ((s64 pid =? -1) || (s32 pid =? t_pid t)) then wait_scan n' (i + 1) cpid pid true sc
      else if t_zombie t then (Some i, true)
      else wait_scan n' (i + 1) cpid pid true sc
  end.

(** One turn of the loop of [sys_waitpid]. *)
Definition sys_waitpid (pid status_ptr : Z) s : outcome * sys A KH N :=
  match current_task s with
  | None => (Fault, s)
  | Some c =>
      match wait_scan (Z.to_nat MAX_TASKS) 0 (t_pid (tk s c)) pid false (sch s) with
      | (Some i, _) =>
          let t := tk s i in
          let s := if status_ptr =? 0 then s else set_umem (store32 (umem s) status_ptr (t_exit_status t)) s in
          (Ret (t_pid t), reap_task i s)
      | (None, false) => (Ret (-1), s)
      | (None, true) => (Park, yield kp (upd c (set_state TASK_BLOCKED) s))
      end
  end.
End Proc.
