(* ===== verification/SysMem.v ===== *)
(** * Memory system calls (kernel/src/sys/syscall.c)

    Anonymous mappings, the program break, and the calls that only report.
    The clock, the pointer device and the video mode are arguments. *)
From S2P Require Import Prelude Net Font Screen Kbd Mouse Mem FrameAlloc Pmm Task Sched Pipe Pmap Libk Vfs SysState SysFd.

Definition BRK_LIMIT : Z := 0x40000000.
Definition MMAP_AREA_BASE : Z := 0x50000000.
Definition MMAP_AREA_END : Z := 0x6FFFF000.
Definition TIMER_HZ : Z := 50.

(** [(x + PAGE_SIZE - 1) & ~(PAGE_SIZE - 1)] *)
Definition page_up (x : Z) : Z := Z.land (x .+ PAGE .- 1) (u64 (Z.lnot (PAGE - 1))).

(** Number of turns of [for (va = lo; va < hi; va += PAGE_SIZE)]. *)
Definition pages_between (lo hi : Z) : nat := Z.to_nat ((hi - lo + PAGE - 1) / PAGE).

Section Memory.
Context {A : Type} `{FA : FrameAlloc A} {KH : Type} `{NH : NodeHeap KH} {N : Type}.
Variable off : Z.
Implicit Types (s : sys A KH N) (v : vm A).

(** A zeroed frame at [va]; the right summand is "no frame". *)
Definition map_page (root va : Z) v : vm A + vm A :=
  let '(frame, fr) := fa_alloc 1 (vm_frames v) in
  let v := set_frames fr v in
  if frame =? 0 then inr v
  else inl (pmap_map off root va (frame .- off) (Z.lor PTE_USER PTE_WRITE) (set_mem (fill (vm_mem v) frame 0 PAGE) v)).

Definition map_pages (root lo hi : Z) v : vm A + vm A :=
  for_ret (pages_between lo hi) 0 (fun i v => map_page root (lo + i * PAGE) v) v.

(** The frame at [pa] loses a reference. *)
Definition release (pa : Z) v : vm A :=
  let '(last, v) := frame_ref_dec pa v in if last then free_frame (pa .+ off) v else v.

Definition unmap_page (root va : Z) v : vm A :=
  let pa := pmap_resolve off root va v in
  if pa =? 0 then v else pmap_unmap off root va (release pa v).

Definition sys_mmap (len : Z) s : outcome * sys A KH N :=
  match current_task s with
  | None => (Ret (-1), s)
  | Some c =>
      if len =? 0 then (Ret (-1), s)
      else
        let len := page_up len in
        let s := if t_mmap_top (tk s c) =? 0 then upd c (set_mmap_top MMAP_AREA_BASE) s else s in
        let top := t_mmap_top (tk s c) in
        if MMAP_AREA_END <? top .+ len then (Ret (-1), s)
        else
          match map_pages (t_pml4_phys (tk s c)) top (top .+ len) (vmm s) with
          | inr v => (Ret (-1), set_vmm v s)
          | inl v => (Ret (s64 top), upd c (set_mmap_top (top .+ len)) (set_vmm v s))
          end
  end.

Definition sys_munmap (addr len : Z) s : outcome * sys A KH N :=
  match current_task s with
  | None => (Ret (-1), s)
  | Some c =>
      if (len =? 0) || negb (Z.land addr 0xFFF =? 0) then (Ret (-1), s)
      else
        let len := page_up len in
        let v := for_range (pages_between addr (addr .+ len)) 0
                   (fun i v => unmap_page (t_pml4_phys (tk s c)) (addr + i * PAGE) v) (vmm s) in
        (Ret 0, set_vmm v s)
  end.

(** The shrinking loop of [sys_brk] releases frames and keeps the mappings. *)
Definition release_page (root va : Z) v : vm A :=
  let pa := pmap_resolve off root va v in if pa =? 0 then v else release pa v.

Definition sys_brk (addr : Z) s : outcome * sys A KH N :=
  match current_task s with
  | None => (Ret (-1), s)
  | Some c =>
      let t := tk s c in
      if addr =? 0 then (Ret (s64 (t_brk_cur t)), s)
      else if (addr <? t_brk_base t) || (BRK_LIMIT <=? addr) then (Ret (s64 (t_brk_cur t)), s)
      else
        let old_top := page_up (t_brk_cur t) in
        let new_top := page_up addr in
        let v := if old_top <? new_top then
                   match map_pages (t_pml4_phys t) old_top new_top (vmm s) with inl v => v | inr v => v end
                 else if new_top <? old_top then
                   for_range (pages_between new_top old_top) 0 (fun i v => release_page (t_pml4_phys t) (new_top + i * PAGE) v) (vmm s)
                 else vmm s in
        (Ret (s64 addr), upd c (set_brk_cur addr) (set_vmm v s))
  end.

Definition sys_uname (buf : Z) s : outcome * sys A KH N :=
  if buf =? 0 then (Ret (-1), s)
  else (Ret 0, set_umem (write_bytes (umem s) buf (bs "MMix 0.6.0 x86_64" ++ [0])) s).

(** Store 32-bit words from [p] on. *)
Fixpoint store_words (m : mem) (p : Z) (l : list Z) : mem :=
  match l with [] => m | x :: r => store_words (store32 m p (u32 x)) (p + 4) r end.

(** [rtc]: seconds, minutes, hours, day, month, year. *)
Definition sys_time (rtc : list Z) (p : Z) s : outcome * sys A KH N :=
  if p =? 0 then (Ret (-1), s)
  else (Ret 0, set_umem (store_words (umem s) p (rtc ++ [g_uptime_ticks (sch s) / TIMER_HZ])) s).

(** [mm]: the frame counters. *)
Definition sys_sysinfo (mm : pmm) (p : Z) s : outcome * sys A KH N :=
  if p =? 0 then (Ret (-1), s)
  else
    let '(w, h, depth) := tty_get_mode (scr s) in
    (Ret 0, set_umem (store_words (umem s) p
       [pmm_get_usable_bytes mm / 1024; pmm_get_free_pages mm .* PAGE / 1024; g_uptime_ticks (sch s) / TIMER_HZ; w; h; depth]) s).

Definition sys_mouse (p : Z) s : outcome * sys A KH N :=
  if p =? 0 then (Ret (-1), s)
  else
    let st := mouse_get_state (mous s) in
    (Ret (if m_valid st then 0 else -1),
     set_umem (store8 (store_words (umem s) p [m_x st; m_y st; m_dx st; m_dy st]) (p + 16) (m_buttons st)) s).

(** The machine is reset. *)
Definition sys_reboot s : outcome * sys A KH N := (Gone, s).
End Memory.
