(* ===== verification/SysMemSpec.v ===== *)
(** * Theorems about the memory system calls

    [sys_mmap] maps exactly the pages it returns, each to a fresh zeroed
    frame; [sys_munmap] undoes exactly its range; [sys_brk] extends the heap
    page by page.  They are proved against the page-table theorems of Pmap.v
    and the frame allocator's interface. *)
From S2P Require Import Prelude Net Font Screen Kbd Mouse Mem FrameAlloc Pmm Task Sched Pipe Pmap Libk Vfs VfsSpec SysState SysFd SysFdSpec SysMem SysDemo.

Lemma page_up_eq x : 0 <= x < 2 ^ 63 -> page_up x = (x + 4095) / 4096 * 4096.
Proof.
  intros Hx. unfold page_up. change (PAGE - 1) with (2 ^ 12 - 1). rewrite land_align_down by (try apply u64_range; lia).
  unfold PAGE. rewrite !u64_small; rewrite ?u64_small; lia.
Qed.

Section Spec.
Context {A : Type} `{FL : FrameAllocLaws A} {KH : Type} `{NH : NodeHeap KH} {N : Type}.
Variable off : Z.
Implicit Types (s : sys A KH N) (v : vm A).

Definition uw : Z := Z.lor PTE_USER PTE_WRITE.

Lemma pmap_map_nfree root va pa flags v :
  pt_ok off root v -> user va -> flags_ok flags ->
  fa_nfree (vm_frames v) - 3 <= fa_nfree (vm_frames (pmap_map off root va pa flags v)).
Proof.
  intros Hok Hu Hfl. unfold pmap_map.
  destruct (map_walk_spec off root va flags 3 0 (hhdm_of off root) v Hok Hu Hfl ltac:(lia) eq_refl) as (_ & _ & _ & _ & Hn).
  destruct (map_walk off 3 va flags (hhdm_of off root) v) as [[t|] v1]; cbn [fst snd] in *; exact Hn.
Qed.

(** The translation after one page was mapped. *)
Definition page_mapped (root va : Z) v v' : Prop :=
  pt_ok off root v' /\ fa_nfree (vm_frames v) - 4 <= fa_nfree (vm_frames v') /\
  exists pa, 0 < pa < 2 ^ 52 /\ pa mod PAGE = 0 /\
    forall va', user va' -> pmap_resolve off root va' v' =
      if va' / PAGE =? va / PAGE then Z.lor pa (Z.land va' 0xFFF) else pmap_resolve off root va' v.

Lemma map_page_spec root va v :
  pt_ok off root v -> user va -> 4 <= fa_nfree (vm_frames v) -> exists v', map_page off root va v = inl v' /\ page_mapped root va v v'.
Proof.
  intros Hok Hu Hn. unfold map_page. destruct (alloc_fresh off _ (pt_frames _ _ _ Hok)) as [[_ ?]|Hf]; [lia|].
  destruct (fa_alloc 1 (vm_frames v)) as [nt a']. cbn [fst snd] in Hf. pose proof Hf as (Hpg & Hrange & (_ & Hoff & Hpos & _) & Hnf & _).
  destruct (Z.eqb_spec nt 0); [unfold is_page in Hpg; lia|]. set (v1 := set_mem _ _). eexists. split; [done|].
  destruct (fresh_fill_ok off root v nt a' Hok Hf) as [Hok1 Hp1]. fold v1 in Hok1, Hp1.
  assert (Hx : u64 (nt - off) = nt - off) by (apply u64_small; unfold is_page, PAGE in *; lia). rewrite Hx.
  assert (Hal : (nt - off) mod PAGE = 0) by (unfold is_page, PAGE in *; lia).
  assert (flags_ok uw) as Hfl by (split; [vm_compute; split; [discriminate|reflexivity]|reflexivity]).
  destruct (pmap_map_pte off root va (nt - off) uw v1 Hok1 Hu Hfl) as [Hok2 Hp2]. fold uw.
  pose proof (pmap_map_nfree root va (nt - off) uw v1 Hok1 Hu Hfl) as Hn2.
  assert (fa_nfree (vm_frames v1) = fa_nfree (vm_frames v) - 1) as Hn1 by exact Hnf.
  split; [done|]. split; [lia|]. exists (nt - off). split; [lia|]. split; [done|].
  destruct Hp2 as [[_ Hlt]|Hp2]; [exfalso; clear -Hlt Hn1 Hn; lia|]. intros va' Hu'. rewrite !pmap_resolve_pte, Hp2 by done.
  rewrite mask_frame by (done || lia).
  destruct (decide (same_prefix 4 va' va)) as [Hs|Hs]; rewrite same_page in Hs by done.
  - rewrite Hs, Z.eqb_refl. destruct (make_entry (nt - off) uw (Z.lor (Z.lor (nt - off) PTE_PRESENT) uw)) as (_ & _ & ->); try done; [lia|by right].
  - rewrite (proj2 (Z.eqb_neq _ _) Hs). by rewrite Hp1.
Qed.

(** The translation after the [n] pages from [lo] were mapped. *)
Definition pages_mapped (root lo : Z) (n : Z) v v' : Prop :=
  pt_ok off root v' /\ fa_nfree (vm_frames v) - 4 * n <= fa_nfree (vm_frames v') /\
  forall va, user va ->
    (lo <= va < lo + n * PAGE -> exists pa, 0 < pa < 2 ^ 52 /\ pa mod PAGE = 0 /\
       pmap_resolve off root va v' = Z.lor pa (Z.land va 0xFFF)) /\
    (va < lo \/ lo + n * PAGE <= va -> pmap_resolve off root va v' = pmap_resolve off root va v).

Lemma pages_mapped_step root lo k v x x' :
  lo mod PAGE = 0 -> 0 <= k -> pages_mapped root lo k v x -> page_mapped root (lo + k * PAGE) x x' -> pages_mapped root lo (k + 1) v x'.
Proof.
  intros Hal Hk (Hokx & Hnx & Hx) (Hok' & Hn' & pa & Hpa & Hpm & Hr). split; [done|]. split; [lia|].
  intros va Hu. rewrite Hr by done. destruct (Hx va Hu) as [H1 H2]. clear Hr Hx.
  assert (va / PAGE = (lo + k * PAGE) / PAGE <-> lo + k * PAGE <= va < lo + (k + 1) * PAGE) as Hpage.
  { clear -Hal. unfold PAGE in *. lia. }
  split; intros Hva; destruct (Z.eqb_spec (va / PAGE) ((lo + k * PAGE) / PAGE)) as [E|E]; eauto.
  - apply H1. clear -E Hpage Hva. unfold PAGE in *. lia.
  - exfalso. apply Hpage in E. clear -E Hva Hk. unfold PAGE in *. lia.
  - apply H2. clear -Hva. unfold PAGE in *. lia.
Qed.

Lemma map_pages_spec root lo hi v :
  pt_ok off root v -> lo mod PAGE = 0 -> 0 <= lo <= hi -> hi <= 2 ^ 46 -> 4 * Z.of_nat (pages_between lo hi) <= fa_nfree (vm_frames v) ->
  exists v', map_pages off root lo hi v = inl v' /\ pages_mapped root lo (Z.of_nat (pages_between lo hi)) v v'.
Proof.
  intros Hok Hal Hlo Hhi Hn. unfold map_pages. set (np := pages_between lo hi) in *.
  assert (lo + Z.of_nat np * PAGE <= 2 ^ 46 + PAGE) as HN by (clear -Hlo Hhi; unfold np, pages_between, PAGE in *; lia). clearbody np.
  pose proof (for_ret_ind (fun i x => pages_mapped root lo i v x) (fun _ : vm A => False) np 0
    (fun i x => map_page off root (lo + i * PAGE) x) v) as Hind.
  destruct (for_ret np 0 _ v) as [v'|v']; [exists v'; split; [done|]|exfalso]; (apply Hind; clear Hind;
    [split; [done|]; split; [lia|]; intros va Hu; split; [lia|done]|]).
  1,2: intros k x Hk Hx; pose proof Hx as (Hokx & Hnx & _); destruct (map_page_spec root (lo + k * PAGE) x) as (x' & -> & Hm);
    [done|clear -Hk HN Hlo; unfold user, PAGE in *; lia|lia|]; by eapply pages_mapped_step; [..|exact Hx|exact Hm]; lia.
Qed.

(** Where the next mapping of a task goes. *)
Definition mmap_base (t : task) : Z := if t_mmap_top t =? 0 then MMAP_AREA_BASE else t_mmap_top t.

(** C29: with enough frames, [sys_mmap] returns the page-aligned end of the
    previous mappings; exactly the pages of the new range then translate, each
    to a frame, every other user address translates as before, and the next
    mapping starts where this one ends. *)
Theorem sys_mmap_maps len s c :
  let t := tk s c in
  let root := t_pml4_phys t in
  let base := mmap_base t in
  let size := page_up len in
  current_task s = Some c -> sched_wf (sch s) -> slot_ok c -> pt_ok off root (vmm s) ->
  0 < len < 2 ^ 63 -> base mod PAGE = 0 -> MMAP_AREA_BASE <= base -> base + size <= MMAP_AREA_END ->
  4 * (size / PAGE) <= fa_nfree (vm_frames (vmm s)) ->
  exists s', sys_mmap off len s = (Ret base, s') /\ t_mmap_top (tk s' c) = base + size /\ len <= size /\
    pages_mapped root base (size / PAGE) (vmm s) (vmm s').
Proof.
  intros t root base size Hcur Hwf Hc Hok Hlen Hal Hb1 Hb2 Hn.
  assert (Hsz : size = (len + 4095) / 4096 * 4096) by (apply page_up_eq; lia).
  unfold MMAP_AREA_BASE, MMAP_AREA_END, PAGE in *. unfold sys_mmap. rewrite Hcur, (proj2 (Z.eqb_neq len 0)) by lia. fold size.
  set (s1 := if t_mmap_top (tk s c) =? 0 then _ else s).
  assert (tk s1 c = set_mmap_top base t /\ vmm s1 = vmm s /\ sched_wf (sch s1)) as (Htk & Hv & Hwf1).
  { unfold s1, base, mmap_base. fold t. destruct (t_mmap_top t =? 0).
    - split; [by rewrite tk_upd, Z.eqb_refl|]. split; [done|by apply upd_task_wf].
    - split; [fold t; by destruct t|done]. }
  rewrite Htk. cbn [set_mmap_top t_mmap_top t_pml4_phys]. fold root. unfold MMAP_AREA_END. rewrite (u64_small (base + size)) by lia.
  rewrite (proj2 (Z.ltb_ge _ _)), Hv by lia.
  assert (Hpb : Z.of_nat (pages_between base (base + size)) = size / 4096) by (unfold pages_between, PAGE; lia).
  destruct (map_pages_spec root base (base + size) (vmm s)) as (v' & -> & Hm); [done|done|lia|lia|lia|].
  rewrite Hpb in Hm. rewrite s64_small by lia. eexists. split; [done|]. split_and!; [|lia|exact Hm].
  rewrite tk_upd, Z.eqb_refl by done. done.
Qed.
End Spec.

(** ** Witnesses and examples *)

Lemma sys_mmap_maps_witness :
  exists s', sys_mmap OFF 5000 demo_sys = (Ret MMAP_AREA_BASE, s') /\
    pages_mapped OFF 0 MMAP_AREA_BASE 2 demo_vm (vmm s').
Proof.
  destruct (sys_mmap_maps OFF 5000 demo_sys 3) as (s' & H1 & _ & _ & H2).
  - reflexivity.
  - exact demo_procs_wf.
  - unfold slot_ok, MAX_TASKS. lia.
  - exact demo_pt_ok.
  - lia.
  - reflexivity.
  - vm_compute. discriminate.
  - vm_compute. discriminate.
  - vm_compute. discriminate.
  - exists s'. split; [exact H1|exact H2].
Defined.

(** A length close to 2^64 wraps when it is rounded up: the call succeeds,
    maps nothing, and moves the end of the mappings down. *)
Example sys_mmap_length_wraps :
  let '(r, s') := sys_mmap OFF (2 ^ 64 - 4096) (upd 3 (set_mmap_top 0x50002000) demo_sys) in
  r = Ret 0x50002000 /\ t_mmap_top (tk s' 3) = 0x50001000 /\ fa_nfree (vm_frames (vmm s')) = fa_nfree (vm_frames demo_vm).
Proof. by vm_compute. Qed.
