(* ===== verification/SysGfx.v ===== *)
(** * Graphics system call (kernel/src/sys/syscall.c, sys_gfx)

    [lfb] is the framebuffer the boot loader reports and [off] the direct-map
    offset.  A drawing that does not end within the turns its arguments allow
    leaves the caller in the kernel for good ([Gone]). *)
From S2P Require Import Prelude Net Font Screen Gfx Kbd Mouse Mem FrameAlloc Pmm Task Sched Pipe Pmap Libk Vfs SysState SysMem.

Definition GFX_FILL_RECT : Z := 1.
Definition GFX_LINE : Z := 2.
Definition GFX_CIRCLE : Z := 3.
Definition GFX_CLEAR : Z := 4.
Definition GFX_FILL_CIRCLE : Z := 5.
Definition GFX_RECT : Z := 6.
Definition GFX_SET_CURSOR : Z := 7.
Definition GFX_FB_MMAP : Z := 8.
Definition GFX_GET_PITCH : Z := 9.

(** The arrow, a row of pixels per byte. *)
Definition cur_bmp : list Z := [0xC0; 0xE0; 0xF0; 0xF8; 0xFC; 0xFE; 0xFF; 0xE0; 0xC0; 0x80; 0; 0].

Definition gfx_cursor (cx cy color : Z) (t : tty) : tty :=
  for_range 12 0 (fun r t =>
    for_range 8 0 (fun cc t =>
      if negb (Z.land (znth 0 cur_bmp r) (Z.shiftl 1 (7 - cc)) =? 0) then
        let sx := s32 (cx + cc) in
        let sy := s32 (cy + r) in
        if (0 <=? sx) && (sx <? s32 (tty_width t)) && (0 <=? sy) && (sy <? s32 (tty_height t)) then px sx sy color t else t
      else t) t) t.

(** Enough turns for a line between points that are not too far apart. *)
Definition line_fuel (x0 y0 x1 y1 : Z) : nat := S (Z.to_nat (Z.max (Z.abs (x1 - x0)) (Z.abs (y1 - y0)))).

Section Gfx.
Context {A : Type} `{FA : FrameAlloc A} {KH : Type} {N : Type}.
Variables (off : Z) (lfb : option limine_framebuffer).
Implicit Types s : sys A KH N.

Definition draw (t : option tty) s : outcome * sys A KH N :=
  match t with
  | None => (Gone, s)
  | Some t => (Ret 0, set_scr t s)
  end.

Definition fb_mmap (c : Z) (f : limine_framebuffer) (a : Z) s : outcome * sys A KH N :=
  let fb_phys := lf_address f .- off in
  let fb_size := lf_pitch f .* lf_height f in
  let va := Z.land a (u64 (Z.lnot 0xFFF)) in
  let v := for_range (pages_between 0 fb_size) 0 (fun i v =>
             pmap_map off (t_pml4_phys (tk s c)) (va .+ i * PAGE) (fb_phys .+ i * PAGE) (Z.lor PTE_USER PTE_WRITE) v) (vmm s) in
  (Ret (s64 va), set_vmm v s).

Definition sys_gfx (op a b c d color : Z) s : outcome * sys A KH N :=
  let t := scr s in
  if op =? GFX_FILL_RECT then draw (Some (gfx_fill_rect (s32 a) (s32 b) (s32 c) (s32 d) (u32 color) t)) s
  else if op =? GFX_RECT then draw (Some (gfx_rect (s32 a) (s32 b) (s32 c) (s32 d) (u32 color) t)) s
  else if op =? GFX_LINE then
    draw (gfx_line (line_fuel (s32 a) (s32 b) (s32 c) (s32 d)) (s32 a) (s32 b) (s32 c) (s32 d) (u32 color) t) s
  else if op =? GFX_CIRCLE then draw (gfx_circle (s32 a) (s32 b) (s32 c) (u32 color) t) s
  else if op =? GFX_FILL_CIRCLE then draw (gfx_fill_circle (s32 a) (s32 b) (s32 c) (u32 color) t) s
  else if op =? GFX_CLEAR then draw (Some (gfx_clear (u32 a) t)) s
  else if op =? GFX_SET_CURSOR then
    if tty_fb t =? 0 then (Ret (-1), s) else draw (Some (gfx_cursor (s32 a) (s32 b) (u32 color) t)) s
  else if op =? GFX_FB_MMAP then
    match current_task s, lfb with
    | Some cur, Some f => if lf_address f =? 0 then (Ret (-1), s) else fb_mmap cur f a s
    | _, _ => (Ret (-1), s)
    end
  else if op =? GFX_GET_PITCH then
    match lfb with
    | None => (Ret (-1), s)
    | Some f => (Ret 0, if c =? 0 then s else set_umem (store32 (umem s) c (u32 (lf_pitch f / (lf_bpp f / 8)))) s)
    end
  else (Ret (-1), s).
End Gfx.
