(* ===== verification/Syscall.v ===== *)
(** * System call dispatch (kernel/src/sys/syscall.c, syscall.h)

    The table of system calls and the handler the entry stub calls: signals
    first, then the preemption point, then the call. *)
From S2P Require Import Prelude Net Font Screen Kbd Mouse Mem FrameAlloc Pmm Task Sched Pipe Pmap Libk Vfs Devfs SysState SysFd SysSig Elf SysProc SysMem SysGfx.

Definition MAX_SYSCALLS : Z := 64.

Definition SYS_EXIT : Z := 0.
Definition SYS_WRITE : Z := 1.
Definition SYS_READ : Z := 2.
Definition SYS_OPEN : Z := 3.
Definition SYS_CLOSE : Z := 4.
Definition SYS_GETPID : Z := 5.
Definition SYS_YIELD : Z := 6.
Definition SYS_BRK : Z := 7.
Definition SYS_FORK : Z := 8.
Definition SYS_EXECVE : Z := 9.
Definition SYS_WAITPID : Z := 10.
Definition SYS_UNAME : Z := 11.
Definition SYS_SIGRETURN : Z := 12.
Definition SYS_GETPPID : Z := 13.
Definition SYS_MMAP : Z := 14.
Definition SYS_MUNMAP : Z := 15.
Definition SYS_DUP : Z := 16.
Definition SYS_DUP2 : Z := 17.
Definition SYS_PIPE : Z := 18.
Definition SYS_KILL : Z := 19.
Definition SYS_SIGNAL : Z := 20.
Definition SYS_SYSINFO : Z := 21.
Definition SYS_SETPGID : Z := 22.
Definition SYS_GETPGID : Z := 23.
Definition SYS_SETSID : Z := 24.
Definition SYS_TCSETPGRP : Z := 25.
Definition SYS_TIME : Z := 26.
Definition SYS_REBOOT : Z := 27.
Definition SYS_GFX : Z := 28.
Definition SYS_PANIC : Z := 29.
Definition SYS_RUDO_REQUEST : Z := 30.
Definition SYS_RUDO_WAIT : Z := 31.
Definition SYS_SETUID : Z := 32.
Definition SYS_GETUID : Z := 33.
Definition SYS_MOUSE : Z := 34.

(** What is fixed at boot, and what the handlers read of the hardware: the
    direct-map offset, the kernel's page-table root, the address of procfs's
    node pool and of the code that enters user mode, the devices behind the
    [struct chardev] addresses, the framebuffer and the clock; [d_pmm] reads
    the frame allocator's counters, [d_junk] are old bytes of grown blocks. *)
Record machine (A : Type) := mkMachine {
  d_off : Z;
  d_kernel_pml4 : Z;
  d_pool : Z;
  d_first_entry : Z;
  d_dev : Z -> option chardev;
  d_lfb : option limine_framebuffer;
  d_rtc : list Z;
  d_pmm : A -> pmm;
  d_junk : list Z -> Z -> list Z;
}.
Arguments mkMachine {A} _ _ _ _ _ _ _ _ _.
Arguments d_off {A} _.
Arguments d_kernel_pml4 {A} _.
Arguments d_pool {A} _.
Arguments d_first_entry {A} _.
Arguments d_dev {A} _.
Arguments d_lfb {A} _.
Arguments d_rtc {A} _.
Arguments d_pmm {A} _.
Arguments d_junk {A} _.

(** The descriptions [syscall_init] sets up. *)
Definition console_fds : list (option file) :=
  [Some (mkFile 0 0 FDF_CONSOLE_IN 0); Some (mkFile 0 0 FDF_CONSOLE_OUT 0); Some (mkFile 0 0 FDF_CONSOLE_OUT 0)].

Section Dispatch.
Context {A : Type} `{FA : FrameAlloc A} {KH : Type} `{NH : NodeHeap KH} {N : Type} `{NC : Nic N}.
Variable d : machine A.
Implicit Types s : sys A KH N.

(** [None] for a number without an entry; [a1] .. [a6] are the registers. *)
Definition syscall_table (num a1 a2 a3 a4 a5 a6 : Z) s : option (outcome * sys A KH N) :=
  let kp := d_kernel_pml4 d in
  if num =? SYS_EXIT then Some (sys_exit kp a1 s)
  else if num =? SYS_WRITE then Some (sys_write kp (d_dev d) (d_junk d) a1 a2 a3 s)
  else if num =? SYS_READ then Some (sys_read kp (d_dev d) (d_pmm d) a1 a2 a3 s)
  else if num =? SYS_OPEN then Some (sys_open (d_pool d) a1 a2 s)
  else if num =? SYS_CLOSE then Some (sys_close a1 s)
  else if num =? SYS_GETPID then Some (sys_getpid s)
  else if num =? SYS_YIELD then Some (sys_yield kp s)
  else if num =? SYS_BRK then Some (sys_brk (d_off d) a1 s)
  else if num =? SYS_FORK then Some (sys_fork (d_off d) (d_first_entry d) console_fds s)
  else if num =? SYS_EXECVE then
    match sys_execve (d_off d) (d_pool d) a1 a2 s with Some r => Some r | None => Some (Gone, s) end
  else if num =? SYS_WAITPID then Some (sys_waitpid (d_off d) kp a1 a2 s)
  else if num =? SYS_UNAME then Some (sys_uname a1 s)
  else if num =? SYS_SIGRETURN then Some (sys_sigreturn s)
  else if num =? SYS_GETPPID then Some (sys_getppid s)
  else if num =? SYS_MMAP then Some (sys_mmap (d_off d) a2 s)
  else if num =? SYS_MUNMAP then Some (sys_munmap (d_off d) a1 a2 s)
  else if num =? SYS_DUP then Some (sys_dup a1 s)
  else if num =? SYS_DUP2 then Some (sys_dup2 a1 a2 s)
  else if num =? SYS_PIPE then Some (sys_pipe a1 s)
  else if num =? SYS_KILL then Some (sys_kill kp a1 a2 s)
  else if num =? SYS_SIGNAL then Some (sys_signal a1 a2 s)
  else if num =? SYS_SYSINFO then Some (sys_sysinfo (d_pmm d (vm_frames (vmm s))) a1 s)
  else if num =? SYS_SETPGID then Some (sys_setpgid a1 a2 s)
  else if num =? SYS_GETPGID then Some (sys_getpgid a1 s)
  else if num =? SYS_SETSID then Some (sys_setsid s)
  else if num =? SYS_TCSETPGRP then Some (sys_tcsetpgrp a1 s)
  else if num =? SYS_TIME then Some (sys_time (d_rtc d) a1 s)
  else if num =? SYS_REBOOT then Some (sys_reboot s)
  else if num =? SYS_GFX then Some (sys_gfx (d_off d) (d_lfb d) a1 a2 a3 a4 a5 a6 s)
  else if num =? SYS_PANIC then Some (sys_panic s)
  else if num =? SYS_RUDO_REQUEST then Some (sys_rudo_request kp a1 s)
  else if num =? SYS_RUDO_WAIT then Some (sys_rudo_wait kp a1 s)
  else if num =? SYS_SETUID then Some (sys_setuid a1 s)
  else if num =? SYS_GETUID then Some (sys_getuid s)
  else if num =? SYS_MOUSE then Some (sys_mouse a1 s)
  else None.

Definition dispatch (num a1 a2 a3 a4 a5 a6 : Z) s : outcome * sys A KH N :=
  if MAX_SYSCALLS <=? num then (Ret (-1), s)
  else match syscall_table num a1 a2 a3 a4 a5 a6 s with
       | None => (Ret (-1), s)
       | Some r => r
       end.

(** When the preemption point gives the CPU to another task the call is
    parked, and goes on with [dispatch] when the task runs again. *)
Definition syscall_handler (num a1 a2 a3 a4 a5 a6 : Z) s : outcome * sys A KH N :=
  let '(back, s) :=
    match current_task s with
    | Some c => if t_sig_pending (tk s c) =? 0 then (true, s) else deliver_signals (d_kernel_pml4 d) c s
    | None => (true, s)
    end in
  if negb back then (Gone, s)
  else if g_resched_requested (sch s) then
    let s' := yield (d_kernel_pml4 d) (set_sch (set_resched false (sch s)) s) in
    if bool_decide (current_task s' = current_task s) then dispatch num a1 a2 a3 a4 a5 a6 s' else (Park, s')
  else dispatch num a1 a2 a3 a4 a5 a6 s.
End Dispatch.
