(* ===== verification/SysInv.v ===== *)
(** * The invariant every system call keeps

    [sys_ok] gathers what the kernel relies on between system calls: exact
    pipe reference counts ([refs_ok]), free slots without pipe ends, a current
    task that is not free, process ids below the next one and parents older
    than their children.  [inert] relates states that differ only in what
    none of this speaks of; the scheduler and most calls are inert. *)
From S2P Require Import Prelude Net Font Screen Kbd Mouse Mem FrameAlloc Pmm Task Sched Pipe Pmap Libk Vfs Devfs SysState SysFd SysFdSpec SysOwn SysSig SysSigSpec Elf SysProc SysMem Syscall.

Definition is_free (t : task) : bool := state_eqb (t_state t) TASK_FREE.

(** What the invariant reads of a task, without and with its descriptors. *)
Definition ident (t : task) : Z * Z * Z * bool := (t_uid t, t_pid t, t_parent_pid t, is_free t).
Definition key (t : task) : Z * Z * Z * bool * list file := (ident t, t_fds t).

Section Inert.
Context {A : Type} `{FA : FrameAlloc A} {KH : Type} {NH : NodeHeap KH} {NL : NodeHeapLaws KH} {N : Type}.
Implicit Types s : sys A KH N.

(** The scheduler changed nothing the invariant reads. *)
Record sched_inert (a b : sched) : Prop := {
  si_wf : sched_wf b;
  si_key : forall j, slot_ok j -> key (task_at b j) = key (task_at a j);
  si_cur : forall c, current b = Some c -> current a = Some c \/ is_free (task_at b c) = false;
  si_next : next_pid b = next_pid a;
}.

Record inert s s' : Prop := {
  in_sched : sched_inert (sch s) (sch s');
  in_pipes : pipes s' = pipes s;
  in_fs : quiet (fsys s) (fsys s');
}.

Lemma sched_inert_refl a : sched_wf a -> sched_inert a a.
Proof. split; auto. Qed.

Lemma sched_inert_trans a b c : sched_inert a b -> sched_inert b c -> sched_inert a c.
Proof.
  intros [H1 H2 H3 H4] [G1 G2 G3 G4]. split; [done|intros j Hj; by rewrite G2, H2| |congruence].
  intros k Hk. destruct (G3 k Hk) as [Hb|]; [|by right]. destruct (H3 k Hb) as [|Hf]; [by left|right].
  assert (slot_ok k) as Hs by (by apply G1). specialize (G2 k Hs). unfold key, ident in G2. injection G2 as _ _ _ -> _. done.
Qed.

Lemma inert_refl s : sched_wf (sch s) -> inert s s.
Proof. intros Hwf. split; [by apply sched_inert_refl|done|done]. Qed.

Lemma inert_trans a b c : inert a b -> inert b c -> inert a c.
Proof.
  intros [H1 H2 H3] [G1 G2 G3]. split; [by eapply sched_inert_trans|congruence|by etrans].
Qed.

(** States with the same scheduler, pipes and files. *)
Lemma inert_same s s' : sched_wf (sch s) -> sch s' = sch s -> pipes s' = pipes s -> fsys s' = fsys s -> inert s s'.
Proof. intros Hwf H1 H2 H3. split; [rewrite H1; by apply sched_inert_refl|done|by rewrite H3]. Qed.

Lemma inert_sched s sc : sched_inert (sch s) sc -> inert s (set_sch sc s).
Proof. intros Hs. by split. Qed.

(** ** The scheduler *)

Lemma upd_task_inert i f a :
  sched_wf a -> slot_ok i -> key (f (task_at a i)) = key (task_at a i) -> sched_inert a (upd_task i f a).
Proof.
  intros Hwf Hi Hk. split; [by apply upd_task_wf| |by left|done].
  intros j Hj. rewrite task_at_upd by done. destruct (Z.eqb_spec j i); by subst.
Qed.

Lemma upd_inert i f s : sched_wf (sch s) -> slot_ok i -> key (f (tk s i)) = key (tk s i) -> inert s (upd i f s).
Proof. intros. apply inert_sched. by apply upd_task_inert. Qed.

Lemma key_state t st : is_free t = false -> st <> TASK_FREE -> key (set_state st t) = key t.
Proof.
  intros Hf Hs. unfold key, ident, is_free in *. cbn. rewrite Hf. by rewrite (proj2 (state_eqb_false st TASK_FREE) Hs).
Qed.

Lemma wake_inert i a : sched_wf a -> slot_ok i -> sched_inert a (sched_wake i a).
Proof.
  intros Hwf Hi. unfold sched_wake. destruct (state_eqb (t_state (task_at a i)) TASK_BLOCKED) eqn:E; cbn [andb]; [|by apply sched_inert_refl].
  destruct (negb _); [|by apply sched_inert_refl]. apply upd_task_inert; try done. apply key_state; [|done].
  apply state_eqb_true in E. unfold is_free. by rewrite E.
Qed.

Lemma find_pid_slot pid a i : sched_find_pid pid a = Some i -> slot_ok i /\ is_free (task_at a i) = false /\ t_pid (task_at a i) = pid.
Proof.
  intros E. apply find_slot_some in E as [Hi Hf]. bool_hyps. split; [exact Hi|]. done.
Qed.

Lemma wake_opt_inert pid s : sched_wf (sch s) -> inert s (wake_opt (sched_find_pid pid (sch s)) s).
Proof.
  intros Hwf. destruct (sched_find_pid pid (sch s)) as [i|] eqn:E; [|by apply inert_refl].
  apply find_pid_slot in E as [Hi _]. apply inert_sched. by apply wake_inert.
Qed.

Lemma pipe_wake_inert p a : sched_wf a -> sched_inert a (pipe_wake p a).
Proof.
  intros Hwf. unfold pipe_wake. apply (for_range_ind (fun _ x => sched_inert a x)); [by apply sched_inert_refl|].
  intros k x Hk Hx. eapply sched_inert_trans; [exact Hx|]. assert (slot_ok k) as Hs by exact Hk. destruct Hx as [Hwx _ _ _].
  unfold wake_slot. destruct (sched_task_at k) as [i|] eqn:E; [|by apply sched_inert_refl].
  unfold sched_task_at in E. destruct (_ || _); [done|]. injection E as <-.
  destruct (_ && _); [|by apply sched_inert_refl]. eapply sched_inert_trans; [by apply (upd_task_inert k (set_wait_pipe 0))|].
  apply wake_inert; [by apply upd_task_wf|done].
Qed.

Lemma off_cpu_key a t : is_free t = false -> key (parked a (off_cpu t)) = key t.
Proof.
  intros Hf. unfold off_cpu. destruct (state_eqb _ _); [|done]. transitivity (key (set_state (if t_zombie t then TASK_BLOCKED else TASK_READY) t)); [done|].
  apply key_state; [done|]. by destruct (t_zombie t).
Qed.

Lemma runnable_used t : runnable t = true -> is_free t = false.
Proof. unfold runnable, is_free. intros Hr. apply state_eqb_false. intros E. by rewrite E in Hr. Qed.

(** The running task is not free. *)
Definition cur_used (a : sched) : Prop := forall c, current a = Some c -> is_free (task_at a c) = false.

Lemma yield_inert kp a : sched_wf a -> cur_used a -> sched_inert a (sched_yield kp a).
Proof.
  intros Hwf Hu. destruct (scheduling_started a) eqn:Hst; [|unfold sched_yield; rewrite Hst; by apply sched_inert_refl].
  destruct (current a) as [c|] eqn:Hcur; [|unfold sched_yield; rewrite Hst, Hcur; by apply sched_inert_refl].
  assert (Hc : slot_ok c) by (by apply Hwf). set (n := pick_next (Z.to_nat MAX_TASKS) 1 c c a).
  destruct (decide (n = c)) as [He|He]; [rewrite (sched_yield_stay kp a c) by done; by apply sched_inert_refl|].
  destruct (sched_yield_spec kp a c n Hwf Hst Hcur eq_refl He) as (H1 & H2 & _ & H3 & H4 & H5 & H6 & _).
  assert (runnable (task_at a n) = true) as Hr.
  { destruct (pick_next_chosen c a Hc) as [_ [[? _]|[Hn _]]]; [done|]. by fold n in Hn. }
  assert (key (task_at (sched_yield kp a) n) = key (task_at a n)) as Hkn.
  { rewrite H5. apply key_state; [by apply runnable_used|done]. }
  split; [done| | |done].
  - intros j Hj. destruct (decide (j = c)) as [->|]; [rewrite H4; by apply off_cpu_key, Hu|].
    destruct (decide (j = n)) as [->|]; [done|]. by rewrite H6.
  - intros k Hk. right. rewrite H2 in Hk. injection Hk as <-. by rewrite H5.
Qed.

Lemma inert_cur_used s s' : inert s s' -> cur_used (sch s) -> cur_used (sch s').
Proof.
  intros [[H1 H2 H3 H4] _ _] Hu c Hc. destruct (H3 c Hc) as [Hs|]; [|done]. specialize (Hu c Hs).
  assert (slot_ok c) as Hsc by (by apply H1). specialize (H2 c Hsc). unfold key, ident in H2. injection H2 as _ _ _ -> _. done.
Qed.

Lemma sys_yield_inert kp s : sched_wf (sch s) -> cur_used (sch s) -> inert s (yield kp s).
Proof. intros. apply inert_sched. by apply yield_inert. Qed.

(** ** The invariant *)

Record sys_ok s : Prop := {
  ok_refs : refs_ok s;
  ok_files : files_ok (pipes s) (fsys s);
  ok_free : forall j, slot_ok j -> is_free (tk s j) = true -> Forall (fun f => f_pipe f = 0) (t_fds (tk s j));
  ok_cur : cur_used (sch s);
  ok_pids : forall j, slot_ok j -> is_free (tk s j) = false ->
    0 <= t_pid (tk s j) < next_pid (sch s) /\ (t_pid (tk s j) <> 0 -> t_parent_pid (tk s j) < t_pid (tk s j));
}.

(** States that agree on who the tasks are; descriptors of free slots too. *)
Record tame s s' : Prop := {
  ta_wf : sched_wf (sch s');
  ta_ident : forall j, slot_ok j -> ident (tk s' j) = ident (tk s j);
  ta_fds : forall j, slot_ok j -> is_free (tk s j) = true -> t_fds (tk s' j) = t_fds (tk s j);
  ta_cur : forall c, current (sch s') = Some c -> current (sch s) = Some c \/ is_free (tk s' c) = false;
  ta_next : next_pid (sch s') = next_pid (sch s);
  ta_files : files_ok (pipes s) (fsys s) -> files_ok (pipes s') (fsys s');
}.

Lemma ident_free t t' : ident t' = ident t -> is_free t' = is_free t.
Proof. by intros [= _ _ _ ?]. Qed.

Lemma tame_refl s : sched_wf (sch s) -> tame s s.
Proof. split; auto. Qed.

Lemma tame_trans a b c : tame a b -> tame b c -> tame a c.
Proof.
  intros [H1 H2 H3 H4 H5 H6] [G1 G2 G3 G4 G5 G6]. split; [done|intros j Hj; by rewrite G2, H2| | |congruence|auto].
  - intros j Hj Hf. rewrite G3, H3; try done. by rewrite (ident_free _ _ (H2 j Hj)).
  - intros k Hk. destruct (G4 k Hk) as [Hb|]; [|by right]. destruct (H4 k Hb) as [|Hf]; [by left|right].
    assert (slot_ok k) as Hs by (by apply G1). by rewrite (ident_free _ _ (G2 k Hs)).
Qed.

Lemma inert_tame s s' : inert s s' -> tame s s'.
Proof.
  intros [[H1 H2 H3 H4] Hp Hq]. split; try done; [| |rewrite Hp; intros Hf; by eapply files_ok_quiet];
    intros j Hj; [exact (f_equal fst (H2 j Hj))|intros _; exact (f_equal snd (H2 j Hj))].
Qed.

Lemma tame_same s s' :
  sched_wf (sch s) -> sch s' = sch s -> (files_ok (pipes s) (fsys s) -> files_ok (pipes s') (fsys s')) -> tame s s'.
Proof. intros Hwf E. unfold tk. split; unfold tk; rewrite ?E; auto. Qed.

Lemma sys_ok_tame s s' : sys_ok s -> refs_ok s' -> tame s s' -> sys_ok s'.
Proof.
  intros [H1 H5 H2 H3 H4] Hr [G1 G2 G3 G4 G5 G6]. split; [done|auto| | |].
  - intros j Hj Hf. pose proof (ident_free _ _ (G2 j Hj)) as E. rewrite E in Hf. rewrite G3 by done. auto.
  - intros c Hc. destruct (G4 c Hc) as [Hs|]; [|done]. assert (slot_ok c) as Hsc by (by apply G1).
    change (is_free (tk s' c) = false). rewrite (ident_free _ _ (G2 c Hsc)). by apply H3.
  - intros j Hj Hf. rewrite (ident_free _ _ (G2 j Hj)) in Hf. destruct (H4 j Hj Hf) as [Ha Hb].
    pose proof (G2 j Hj) as E. unfold ident in E. injection E as _ -> -> _. by rewrite G5.
Qed.

Lemma inert_refs s s' : inert s s' -> refs_ok s -> refs_ok s'.
Proof.
  intros [[H1 H2 H3 H4] Hp [Hh _]] Hr. apply (refs_ok_eq s); try done. pose proof (ro_wf _ Hr) as Hwf.
  apply list_eq. intros i. destruct (decide (i < 64)%nat) as [Hi|Hi].
  - assert (slot_ok (Z.of_nat i)) as Hs by (unfold slot_ok, MAX_TASKS; lia).
    pose proof (tables_lookup _ _ H1 Hs) as E1. pose proof (tables_lookup _ _ Hwf Hs) as E2. rewrite Nat2Z.id in E1, E2.
    rewrite E1, E2. f_equal. exact (f_equal snd (H2 _ Hs)).
  - destruct H1 as [L1 _], Hwf as [L2 _]. unfold zlen, MAX_TASKS, tables in *. rewrite !lookup_ge_None_2; [done| |]; rewrite length_map; lia.
Qed.

Lemma sys_ok_inert s s' : sys_ok s -> inert s s' -> sys_ok s'.
Proof. intros Hok Hi. apply (sys_ok_tame s); [done|eapply inert_refs; [done|apply Hok]|by apply inert_tame]. Qed.

(** ** Descriptor operations *)

Lemma set_fd_tame c fd f s : sched_wf (sch s) -> slot_ok c -> is_free (tk s c) = false -> tame s (upd c (set_fd fd f) s).
Proof.
  intros Hwf Hc Hu. split; [by apply upd_task_wf| | |by left|done|done]; intros j Hj; rewrite tk_upd by done;
    destruct (Z.eqb_spec j c) as [->|]; try done. by rewrite Hu.
Qed.

Lemma pipe_put_tame p rd wr s : sched_wf (sch s) -> tame s (pipe_put p rd wr s).
Proof.
  intros Hwf. unfold pipe_put, pipe_unref. destruct (pipes s !! p) as [q|] eqn:Hq; [|by apply tame_refl].
  pose proof (inert_tame _ _ (inert_sched s _ (pipe_wake_inert p _ Hwf))) as Ht.
  eapply tame_trans; [exact Ht|]. destruct (_ && _); (apply tame_same; [apply Ht|done|]); cbn [set_sch set_pipes set_fsys pipes fsys].
  - intros Hf. by eapply files_ok_free.
  - intros Hf. apply (files_ok_sub (pipes s)); [done|]. intros x Hx. rewrite lookup_insert_ne; [done|congruence].
Qed.

Lemma drop_ref_tame f s : sched_wf (sch s) -> tame s (drop_ref f s).
Proof. intros Hwf. unfold drop_ref. destruct (_ =? 0); [by apply tame_refl|by apply pipe_put_tame]. Qed.

Lemma take_ref_tame f s : sched_wf (sch s) -> tame s (take_ref f s).
Proof. intros Hwf. unfold take_ref. destruct (_ =? 0); [by apply tame_refl|]. apply tame_same; try done.
  intros Hf. apply (files_ok_sub (pipes s)); [done|]. intros x Hx. cbn. by rewrite lookup_alter_None. Qed.

Lemma tame_used s s' c : tame s s' -> slot_ok c -> is_free (tk s c) = false -> is_free (tk s' c) = false.
Proof. intros Ht Hc. by rewrite (ident_free _ _ (ta_ident _ _ Ht c Hc)). Qed.

Lemma fd_put_tame c fd s : sched_wf (sch s) -> slot_ok c -> is_free (tk s c) = false -> tame s (fd_put c fd s).
Proof.
  intros Hwf Hc Hu. pose proof (drop_ref_tame (fd_at (tk s c) fd) s Hwf) as Ht. eapply tame_trans; [exact Ht|].
  apply set_fd_tame; [apply Ht|done|by eapply tame_used].
Qed.

Lemma fds_release_tame c s : sched_wf (sch s) -> slot_ok c -> is_free (tk s c) = false -> tame s (fds_release c s).
Proof.
  intros Hwf Hc Hu. unfold fds_release. apply (for_range_ind (fun _ x => tame s x)); [by apply tame_refl|].
  intros k x Hk Ht. eapply tame_trans; [exact Ht|]. apply fd_put_tame; [apply Ht|done|by eapply tame_used].
Qed.

Lemma do_dup2_tame c a b s : sched_wf (sch s) -> slot_ok c -> is_free (tk s c) = false -> tame s (do_dup2 c a b s).2.
Proof.
  intros Hwf Hc Hu. unfold do_dup2. destruct (fd_get _ _); [|by apply tame_refl]. destruct (_ || _); [by apply tame_refl|].
  destruct (a =? b); [by apply tame_refl|]. cbn [snd]. set (s1 := match fd_get (tk s c) b with Some _ => _ | None => _ end).
  assert (tame s s1) as Ht by (unfold s1; destruct (fd_get _ _); [by apply fd_put_tame|by apply tame_refl]).
  eapply tame_trans; [exact Ht|]. assert (tame s1 (upd c (set_fd b (fd_at (tk s1 c) a)) s1)) as Ht1.
  { apply set_fd_tame; [apply Ht|done|by eapply tame_used]. }
  eapply tame_trans; [exact Ht1|]. apply take_ref_tame, Ht1.
Qed.
End Inert.
