(* ===== verification/SysKeep.v ===== *)
(** * Every system call keeps the invariant

    One lemma per call: from a state that satisfies [sys_ok] the call leads to
    one that does.  All calls but fork, waitpid, setuid and the rudo daemon's
    wait also keep who the tasks are ([step]). *)
From S2P Require Import Prelude Net Font Screen Gfx Kbd Mouse Mem FrameAlloc Pmm Task Sched Pipe Pmap Libk Vfs Devfs SysState SysFd SysFdSpec SysOwn SysSig SysSigSpec Elf SysProc SysMem SysGfx Syscall SysInv.

Section Keep.
Context {A : Type} `{FA : FrameAlloc A} {KH : Type} {NH : NodeHeap KH} {NL : NodeHeapLaws KH} {N : Type} `{NC : Nic N}.
Implicit Types s : sys A KH N.

Definition step s s' : Prop := sys_ok s' /\ tame s s'.

Lemma ok_wf s : sys_ok s -> sched_wf (sch s).
Proof. intros Hok. apply Hok. Qed.

Lemma ok_current s c : sys_ok s -> current_task s = Some c -> slot_ok c /\ is_free (tk s c) = false.
Proof. intros Hok Hc. split; [by apply (ok_wf s)|by apply Hok]. Qed.

Lemma step_refl s : sys_ok s -> step s s.
Proof. intros Hok. split; [done|]. by apply tame_refl, ok_wf. Qed.

Lemma step_trans a b c : step a b -> step b c -> step a c.
Proof. intros [_ H1] [H2 H3]. split; [done|by eapply tame_trans]. Qed.

(** Go on from a state the invariant holds in. *)
Lemma step_then a b c : step a b -> (sys_ok b -> step b c) -> step a c.
Proof. intros H1 H2. eapply step_trans; [exact H1|]. apply H2, H1. Qed.

Lemma step_inert s s' : sys_ok s -> inert s s' -> step s s'.
Proof. intros Hok Hi. split; [by eapply sys_ok_inert|by apply inert_tame]. Qed.

Lemma step_tame s s' : sys_ok s -> refs_ok s' -> tame s s' -> step s s'.
Proof. intros Hok Hr Ht. split; [by apply (sys_ok_tame s)|done]. Qed.

(** The scheduler, the pipes and the files are as they were. *)
Lemma step_same s s' : sys_ok s -> sch s' = sch s -> pipes s' = pipes s -> fsys s' = fsys s -> step s s'.
Proof. intros Hok H1 H2 H3. apply step_inert; [done|]. apply inert_same; try done. by apply ok_wf. Qed.

Lemma step_umem m s : sys_ok s -> step s (set_umem m s).
Proof. intros Hok. by apply step_same. Qed.

Lemma step_upd s i f : sys_ok s -> slot_ok i -> key (f (tk s i)) = key (tk s i) -> step s (upd i f s).
Proof. intros Hok Hi Hk. apply step_inert; [done|]. apply upd_inert; try done. by apply ok_wf. Qed.

Lemma step_yield kp s : sys_ok s -> step s (yield kp s).
Proof. intros Hok. apply step_inert; [done|]. apply sys_yield_inert; [by apply ok_wf|apply Hok]. Qed.

Lemma step_wake_opt pid s : sys_ok s -> step s (wake_opt (sched_find_pid pid (sch s)) s).
Proof. intros Hok. apply step_inert; [done|]. by apply wake_opt_inert, ok_wf. Qed.

Lemma step_pipe_wake p s : sys_ok s -> step s (set_sch (pipe_wake p (sch s)) s).
Proof. intros Hok. apply step_inert; [done|]. by apply inert_sched, pipe_wake_inert, ok_wf. Qed.

Lemma step_wake i s : sys_ok s -> slot_ok i -> step s (set_sch (sched_wake i (sch s)) s).
Proof. intros Hok Hi. apply step_inert; [done|]. apply inert_sched, wake_inert; [by apply ok_wf|done]. Qed.

(** A scheduler with the same tasks, current task and next id. *)
Lemma step_sched s sc :
  sys_ok s -> tasks sc = tasks (sch s) -> current sc = current (sch s) -> next_pid sc = next_pid (sch s) -> step s (set_sch sc s).
Proof.
  intros Hok H1 H2 H3. pose proof (ok_wf _ Hok) as [W1 W2]. apply step_inert; [done|]. apply inert_sched. split; try done.
  - split; [by rewrite H1|]. intros c. rewrite H2. apply W2.
  - intros j _. unfold task_at. by rewrite H1.
  - intros c. rewrite H2. by left.
Qed.

(** The task blocks and gives up the CPU. *)
Lemma step_block kp c s : sys_ok s -> current_task s = Some c -> step s (yield kp (upd c (set_state TASK_BLOCKED) s)).
Proof.
  intros Hok Hc. destruct (ok_current _ _ Hok Hc) as [Hs Hu].
  assert (step s (upd c (set_state TASK_BLOCKED) s)) as H1 by (apply step_upd; [done|done|by apply key_state]).
  eapply step_trans; [exact H1|]. apply step_yield, H1.
Qed.

Lemma step_release c s : sys_ok s -> slot_ok c -> is_free (tk s c) = false -> step s (fds_release c s).
Proof.
  intros Hok Hc Hu. apply step_tame; [done|apply fds_release_refs; [apply Hok|done]|apply fds_release_tame; [by apply ok_wf|done|done]].
Qed.

Lemma step_used s s' c : step s s' -> slot_ok c -> is_free (tk s c) = false -> is_free (tk s' c) = false.
Proof. intros [_ Ht]. by apply tame_used. Qed.

(** ** Signals *)

Lemma step_terminate kp c sig s : sys_ok s -> slot_ok c -> is_free (tk s c) = false -> step s (terminate_current kp c sig s).
Proof.
  intros Hok Hc Hu. unfold terminate_current, parent_of. set (s1 := upd c _ s). assert (step s s1) as H1 by (by apply step_upd).
  eapply step_trans; [exact H1|]. set (s2 := wake_opt _ s1). assert (step s1 s2) as H2 by (apply step_wake_opt, H1).
  eapply step_trans; [exact H2|].
  assert (step s2 (fds_release c s2)) as H3.
  { apply step_release; [apply H2|done|]. eapply step_used; [exact H2|done|]. by eapply step_used. }
  eapply step_trans; [exact H3|]. apply step_yield, H3.
Qed.

Lemma step_cpu_user rip rsp s : sys_ok s -> step s (set_cpu_user rip rsp s).
Proof. intros Hok. by apply step_sched. Qed.

Lemma step_push_frame h s : sys_ok s -> step s (push_frame h s).
Proof. intros Hok. unfold push_frame. eapply step_then; [by apply step_umem|]. apply step_cpu_user. Qed.

Lemma step_deliver kp n c s : sys_ok s -> slot_ok c -> is_free (tk s c) = false -> step s (deliver_loop kp n c s).2.
Proof.
  revert s. induction n as [|n IH]; intros s Hok Hc Hu; cbn [deliver_loop]; [by apply step_refl|].
  destruct (_ =? 0); [by apply step_refl|]. set (s1 := upd c _ s). assert (step s s1) as H1 by (by apply step_upd).
  assert (step s (deliver_loop kp n c s1).2) as H2.
  { eapply step_trans; [exact H1|]. apply IH; [apply H1|done|by eapply step_used]. }
  destruct (_ =? SIG_IGN); [done|]. destruct (_ =? SIG_DFL); [destruct (fatal _); [by apply step_terminate|done]|].
  eapply step_trans; [exact H1|]. apply step_push_frame, H1.
Qed.

Lemma step_kill kp pid sig s : sys_ok s -> step s (sys_kill kp pid sig s).2.
Proof.
  intros Hok. unfold sys_kill. destruct (_ || _); [by apply step_refl|].
  destruct (sched_find_pid (s32 pid) (sch s)) as [i|] eqn:Ei; [|by apply step_refl].
  apply find_pid_slot in Ei as (Hi & Hu & _). destruct (_ =? 0); [by apply step_refl|].
  set (s1 := upd i _ s). assert (step s s1) as H1 by (by apply step_upd). case_bool_decide.
  - pose proof (step_deliver kp 33 i s1) as H2. unfold deliver_signals. destruct (deliver_loop kp 33 i s1) as [b s2].
    eapply step_trans; [exact H1|]. apply H2; [apply H1|done|by eapply step_used].
  - eapply step_trans; [exact H1|]. assert (sys_ok s1) as Hok1 by apply H1. clearbody s1. clear H1. cbv zeta.
    destruct (_ && _); [|destruct (negb _); [by apply step_pipe_wake|by apply step_refl]].
    set (s2 := upd i _ s1). assert (step s1 s2) as H2 by (by apply step_upd). eapply step_trans; [exact H2|].
    unfold parent_of. set (s3 := wake_opt _ s2). assert (step s2 s3) as H3 by (apply step_wake_opt, H2).
    eapply step_trans; [exact H3|]. assert (sys_ok s3) as Hok3 by apply H3. destruct (negb _); [|by apply step_wake].
    set (s4 := upd i _ s3). assert (step s3 s4) as H4 by (by apply step_upd). eapply step_trans; [exact H4|]. apply step_pipe_wake, H4.
Qed.

Lemma step_signal sig h s : sys_ok s -> step s (sys_signal sig h s).2.
Proof.
  intros Hok. unfold sys_signal. destruct (current_task s) as [c|] eqn:Hc; [|by apply step_refl].
  destruct (_ || _); [by apply step_refl|]. apply step_upd; [done|by eapply ok_current|done].
Qed.

Lemma step_setpgid pid pgid s : sys_ok s -> step s (sys_setpgid pid pgid s).2.
Proof.
  intros Hok. unfold sys_setpgid. destruct (current_task s) as [c|] eqn:Hc; [|by apply step_refl].
  destruct (if pid =? 0 then _ else _) as [i|] eqn:Ei; [|by apply step_refl].
  assert (slot_ok i) as Hi.
  { destruct (pid =? 0); [injection Ei as <-; by eapply ok_current|]. by apply find_pid_slot in Ei as [? _]. }
  cbv zeta. repeat match goal with |- step _ (if ?b then _ else _).2 => destruct b; try by apply step_refl end. by apply step_upd.
Qed.

Lemma step_setsid s : sys_ok s -> step s (sys_setsid s).2.
Proof.
  intros Hok. unfold sys_setsid. destruct (current_task s) as [c|] eqn:Hc; [|by apply step_refl].
  destruct (find_slot _ _ _ _); [by apply step_refl|]. apply step_upd; [done|by eapply ok_current|done].
Qed.

Lemma step_tcsetpgrp pgid s : sys_ok s -> step s (sys_tcsetpgrp pgid s).2.
Proof.
  intros Hok. unfold sys_tcsetpgrp. destruct (current_task s); [|by apply step_refl].
  destruct (_ && _); [by apply step_refl|by apply step_same].
Qed.

Lemma step_rudo_request kp op s : sys_ok s -> step s (sys_rudo_request kp op s).2.
Proof.
  intros Hok. unfold sys_rudo_request. destruct (current_task s) as [c|] eqn:Hc; [|by apply step_refl].
  destruct (sched_find_pid 2 (sch s)) as [d|] eqn:Ed; [|by apply step_refl]. apply find_pid_slot in Ed as [Hd _].
  destruct (_ || _); [by apply step_refl|]. destruct (r_pending _); [by apply step_refl|]. cbv zeta.
  eapply step_then; [by apply (step_same s (set_rudo (mkRudo (s32 op) (t_pid (tk s c)) true (-1)) s))|]. intros Hok1.
  eapply step_then; [by apply (step_wake d)|]. intros Hok2. apply step_block; [done|].
  cbn. unfold current_task, sched_get_current, sched_wake in *. by destruct (_ && _).
Qed.

Lemma step_exit kp status s : sys_ok s -> step s (sys_exit kp status s).2.
Proof.
  intros Hok. unfold sys_exit, parent_of. destruct (current_task s) as [c|] eqn:Hc; [|by apply step_refl].
  destruct (ok_current _ _ Hok Hc) as [Hs _]. cbv zeta. set (s1 := upd c _ s).
  assert (step s s1) as H1 by (by apply step_upd). eapply step_then; [exact H1|]. intros Hok1.
  eapply step_then; [by apply step_wake_opt|]. apply step_yield.
Qed.

(** ** Memory *)

Lemma step_mmap off len s : sys_ok s -> step s (sys_mmap off len s).2.
Proof.
  intros Hok. unfold sys_mmap. destruct (current_task s) as [c|] eqn:Hc; [|by apply step_refl]. destruct (len =? 0); [by apply step_refl|].
  destruct (ok_current _ _ Hok Hc) as [Hs Hu]. set (s1 := if t_mmap_top (tk s c) =? 0 then _ else s).
  assert (step s s1) as H1 by (unfold s1; destruct (_ =? 0); [by apply step_upd|by apply step_refl]).
  eapply step_then; [exact H1|]. intros Hok1. cbv zeta. destruct (_ <? _); [by apply step_refl|].
  destruct (map_pages _ _ _ _) as [v|v]; [|by apply step_same].
  eapply step_then; [by apply (step_same s1 (set_vmm v s1))|]. intros Hok2. by apply step_upd.
Qed.

Lemma step_munmap off addr len s : sys_ok s -> step s (sys_munmap off addr len s).2.
Proof.
  intros Hok. unfold sys_munmap. destruct (current_task s) as [c|] eqn:Hc; [|by apply step_refl].
  destruct (_ || _); [by apply step_refl|]. by apply step_same.
Qed.

Lemma step_brk off addr s : sys_ok s -> step s (sys_brk off addr s).2.
Proof.
  intros Hok. unfold sys_brk. destruct (current_task s) as [c|] eqn:Hc; [|by apply step_refl]. destruct (addr =? 0); [by apply step_refl|].
  destruct (_ || _); [by apply step_refl|]. cbv zeta. set (v := if _ <? _ then _ else _).
  eapply step_then; [by apply (step_same s (set_vmm v s))|]. intros Hok1. apply step_upd; [done|by eapply ok_current|done].
Qed.

Lemma step_gfx off lfb op a b c d col s : sys_ok s -> step s (sys_gfx off lfb op a b c d col s).2.
Proof.
  intros Hok. assert (forall t, step s (draw t s).2) as Hd by (intros [t|]; [by apply step_same|by apply step_refl]).
  unfold sys_gfx. cbv zeta. do 6 (destruct (_ =? _); [apply Hd|]).
  destruct (_ =? _); [destruct (_ =? 0); [by apply step_refl|apply Hd]|].
  destruct (_ =? _); [destruct (current_task s); [|by apply step_refl]; destruct lfb; [|by apply step_refl];
    destruct (_ =? 0); [by apply step_refl|by apply step_same]|].
  destruct (_ =? _); [|by apply step_refl]. destruct lfb; [|by apply step_refl]. destruct (c =? 0); [by apply step_refl|by apply step_umem].
Qed.

(** ** Descriptors *)

Lemma step_close fd s : sys_ok s -> step s (sys_close fd s).2.
Proof.
  intros Hok. apply step_tame; [done|apply sys_close_refs, Hok|]. unfold sys_close.
  destruct (current_task s) as [c|] eqn:Hc; [|by apply tame_refl, ok_wf]. destruct (ok_current _ _ Hok Hc).
  destruct (fd_get _ _); [apply fd_put_tame; [by apply ok_wf|done|done]|by apply tame_refl, ok_wf].
Qed.

Lemma step_dup2_at c a b s : sys_ok s -> current_task s = Some c -> step s (do_dup2 c a b s).2.
Proof.
  intros Hok Hc. destruct (ok_current _ _ Hok Hc). apply step_tame; [done|apply do_dup2_refs; [apply Hok|done]|].
  apply do_dup2_tame; [by apply ok_wf|done|done].
Qed.

Lemma step_dup fd s : sys_ok s -> step s (sys_dup fd s).2.
Proof.
  intros Hok. unfold sys_dup. destruct (current_task s) as [c|] eqn:Hc; [|by apply step_refl].
  destruct (fd_get _ _); [|by apply step_refl]. set (n := fd_alloc _). clearbody n. destruct (n <? 0); [by apply step_refl|by apply step_dup2_at].
Qed.

Lemma step_dup2 a b s : sys_ok s -> step s (sys_dup2 a b s).2.
Proof.
  intros Hok. unfold sys_dup2. destruct (current_task s) as [c|] eqn:Hc; [|by apply step_refl]. by apply step_dup2_at.
Qed.

Lemma quiet_tame s v : sched_wf (sch s) -> quiet (fsys s) v -> tame s (set_fsys v s).
Proof. intros Hwf Hq. apply tame_same; try done. intros Hf. by eapply files_ok_quiet. Qed.

Lemma step_open pool path flags s : sys_ok s -> step s (sys_open pool path flags s).2.
Proof.
  intros Hok. apply step_tame; [done|apply sys_open_refs, Hok|]. unfold sys_open.
  destruct (current_task s) as [c|] eqn:Hc; [|by apply tame_refl, ok_wf]. destruct (ok_current _ _ Hok Hc) as [Hs Hu].
  destruct (path =? 0); [by apply tame_refl, ok_wf|].
  set (str := user_string 4096 path s). pose proof (vfs_resolve_quiet pool (sch s) str (fsys s)) as Hq.
  destruct (vfs_resolve pool (sch s) str (fsys s)) as [node v1]. cbn [snd] in Hq.
  set (r := if _ && has flags O_CREATE then _ else _). assert (quiet (fsys s) r.2) as Hr.
  { unfold r. destruct (_ && _); [|done]. etrans; [exact Hq|apply vfs_create_file_quiet]. }
  destruct r as [nd v2]. cbn [snd] in Hr. pose proof (quiet_tame s v2 (ok_wf _ Hok) Hr) as Ht.
  destruct nd as [n|]; [|done]. destruct (_ && _); [done|]. set (k := fd_alloc _). clearbody k. destruct (k <? 0); [done|].
  eapply tame_trans; [exact Ht|]. apply set_fd_tame; [apply Ht|done|by eapply tame_used].
Qed.

Lemma step_pipe ufds s : sys_ok s -> step s (sys_pipe ufds s).2.
Proof.
  intros Hok. destruct (current_task s) as [c|] eqn:Hc; [|unfold sys_pipe; rewrite Hc; by apply step_refl].
  apply step_tame; [done|apply (sys_pipe_refs s c); [apply Hok|done]|].
  unfold sys_pipe. rewrite Hc. destruct (ok_current _ _ Hok Hc) as [Hs Hu]. pose proof (ok_wf _ Hok) as Hwf.
  destruct (nh_alloc SIZEOF_PIPE (vheap (fsys s))) as [p h] eqn:Ea. unfold pipe_create. destruct (Z.eqb_spec p 0) as [Hp|Hp].
  { apply quiet_tame; [done|]. split; [intros x Hx; by eapply nh_keeps|by right]. }
  set (q := mkPipe _ _ _ _ _ _). set (s1 := set_pipes _ _).
  assert (tame s s1) as H1 by (apply tame_same; try done; intros Hf; by apply files_ok_new).
  assert (forall x, tame s x -> sched_wf (sch x) /\ is_free (tk x c) = false) as Hx.
  { intros x Ht. split; [apply Ht|by eapply tame_used]. }
  assert (forall x fd f, tame s x -> tame s (upd c (set_fd fd f) x)) as Hset.
  { intros x fd f Ht. destruct (Hx x Ht). eapply tame_trans; [exact Ht|]. by apply set_fd_tame. }
  assert (forall x rd wr, tame s x -> tame s (pipe_put p rd wr x)) as Hput.
  { intros x rd wr Ht. destruct (Hx x Ht). eapply tame_trans; [exact Ht|]. by apply pipe_put_tame. }
  set (rd := fd_alloc (tk s1 c)). clearbody rd. destruct (rd <? 0); [by apply Hput|]. set (s2 := upd c _ s1).
  set (wr := fd_alloc (tk s2 c)). clearbody wr. destruct (wr <? 0); [apply Hput, Hset; by apply Hset|].
  cbn [snd]. set (s3 := upd c _ (upd c _ s2)). assert (tame s s3) as H3 by (do 2 apply Hset; by apply Hset). clearbody s3.
  eapply tame_trans; [exact H3|]. apply tame_same; [apply H3|done|done].
Qed.

(** ** Reading and writing *)

(** The description in a slot moves its position. *)
Lemma step_pos c fd pos s :
  sys_ok s -> slot_ok c -> is_free (tk s c) = false -> fd_ok fd -> step s (upd c (set_fd fd (set_f_pos pos (fd_at (tk s c) fd))) s).
Proof.
  intros Hok Hc Hu Hfd. pose proof (ok_refs _ Hok) as Hr. pose proof (ok_wf _ Hok) as Hwf. pose proof (refs_len _ _ Hr Hc) as Hlen.
  pose proof (refs_slot _ _ _ Hr Hc Hfd) as Hfine. apply step_tame; [done| |by apply set_fd_tame]. destruct Hr as [H1 H2 H3].
  split; cbn [upd set_sch sch pipes fsys]; [by apply upd_task_wf| |done].
  eapply counted_same; [exact H2|apply lens_set_fd; try done; apply H2| |apply everywhere_set_fd; try done; apply H2].
  intros bit p Hp. rewrite total_set_fd by done. unfold tk, fd_ref, end_count, set_f_pos. cbn [f_pipe f_flags]. lia.
Qed.

(** The contents of a pipe change, not its counts. *)
Lemma step_touch p q q' sc s :
  sys_ok s -> pipes s !! p = Some q -> p_readers q' = p_readers q -> p_writers q' = p_writers q -> sched_inert (sch s) sc ->
  step s (set_pipes (<[p := q']> (pipes s)) (set_sch sc s)).
Proof.
  intros Hok Hq Er Ew Hi. assert (step s (set_sch sc s)) as H1 by (apply step_inert; [done|by apply inert_sched]).
  eapply step_then; [exact H1|]. intros Hok1. pose proof (ok_refs _ Hok1) as [R1 [C1 C2 C3 C4] R3]. apply step_tame; [done| |].
  - split; [done| |].
    + split; cbn [set_pipes set_sch pipes sch] in *; [done| |by eapply everywhere_impl; [exact C3|]; intros f; apply slot_fine_insert|].
      * intros x y Hx. destruct (decide (x = p)) as [->|]; [rewrite lookup_insert_eq in Hx; injection Hx as <-; rewrite Er, Ew; by apply C2|].
        rewrite lookup_insert_ne in Hx by done. by apply C2.
      * intros x y Hx. destruct (decide (x = p)) as [->|]; [rewrite lookup_insert_eq in Hx; injection Hx as <-; rewrite Er, Ew; by eapply C4|].
        rewrite lookup_insert_ne in Hx by done. by eapply C4.
    + intros x y Hx. cbn in Hx. destruct (decide (x = p)) as [->|]; [by eapply R3|]. rewrite lookup_insert_ne in Hx by done. by eapply R3.
  - apply tame_same; [done|done|]. intros Hf. apply (files_ok_sub (pipes s)); [done|]. intros x Hx. cbn. rewrite lookup_insert_ne; [done|congruence].
Qed.

Lemma take_bytes_ends n q : p_readers (take_bytes n q).2 = p_readers q /\ p_writers (take_bytes n q).2 = p_writers q.
Proof.
  revert q. induction n as [|n IH]; intros q; cbn [take_bytes]; [done|]. set (q1 := mkPipe _ _ _ _ _ _). pose proof (IH q1) as H.
  by destruct (take_bytes n q1).
Qed.

Lemma put_bytes_ends l q : p_readers (put_bytes l q).2 = p_readers q /\ p_writers (put_bytes l q).2 = p_writers q.
Proof.
  revert q. induction l as [|b l IH]; intros q; cbn [put_bytes]; [done|]. destruct (_ <? _); [|done]. set (q1 := mkPipe _ _ _ _ _ _). exact (IH q1).
Qed.

Lemma park_inert kp p c a : sched_wf a -> cur_used a -> current a = Some c -> sched_inert a (park kp p c a).
Proof.
  intros Hwf Hu Hc. assert (slot_ok c) as Hs by (by apply Hwf). unfold park. set (a1 := upd_task c _ a).
  assert (key (set_state TASK_BLOCKED (set_wait_pipe p (task_at a c))) = key (task_at a c)) as Hk.
  { transitivity (key (set_wait_pipe p (task_at a c))); [|done]. apply key_state; [by apply Hu|done]. }
  assert (sched_inert a a1) as H1 by (by apply upd_task_inert). eapply sched_inert_trans; [exact H1|].
  apply yield_inert; [apply H1|]. intros k Hk'. replace k with c by (cbn in Hk'; congruence).
  unfold a1. rewrite task_at_upd, Z.eqb_refl by done. done.
Qed.

Lemma pipe_read_turn_inert kp p c n q a :
  sched_wf a -> cur_used a -> current a = Some c ->
  let '(r, q', a') := pipe_read_turn kp p c n q a in
  sched_inert a a' /\ p_readers q' = p_readers q /\ p_writers q' = p_writers q.
Proof.
  intros Hwf Hu Hc. unfold pipe_read_turn. destruct (0 <? _).
  - set (k := Z.to_nat _). pose proof (take_bytes_ends k q) as He. destruct (take_bytes k q) as [d q1]. split; [by apply pipe_wake_inert|done].
  - destruct (_ =? 0); [split; [by apply sched_inert_refl|done]|]. destruct (sig_abort _); [split; [by apply sched_inert_refl|done]|].
    split; [by apply park_inert|done].
Qed.

Lemma pipe_write_turn_inert kp p c n rest q a :
  sched_wf a -> cur_used a -> current a = Some c ->
  let '(r, q', a') := pipe_write_turn kp p c n rest q a in
  sched_inert a a' /\ p_readers q' = p_readers q /\ p_writers q' = p_writers q.
Proof.
  intros Hwf Hu Hc. unfold pipe_write_turn. destruct rest as [|b rest]; [split; [by apply sched_inert_refl|done]|].
  destruct (_ =? 0); [split; [by apply sched_inert_refl|done]|]. destruct (sig_abort _); [split; [by apply sched_inert_refl|done]|].
  destruct (_ <? _); [|split; [by apply park_inert|done]].
  pose proof (put_bytes_ends (b :: rest) q) as He. destruct (put_bytes (b :: rest) q) as [d q1]. split; [by apply pipe_wake_inert|done].
Qed.

Lemma getchar_inert kp k a :
  sched_wf a -> cur_used a -> sched_inert a (kbd_getchar_turn kp k a).2.
Proof.
  intros Hwf Hu. unfold kbd_getchar_turn. destruct (match sched_get_current a with Some _ => _ | None => _ end); [by apply sched_inert_refl|].
  destruct (g_resched_requested a); [|by apply sched_inert_refl].
  assert (sched_inert a (sched_yield kp (set_resched false a))) as Hi.
  { eapply sched_inert_trans; [|apply yield_inert; [exact Hwf|exact Hu]]. split; try done. by left. }
  case_bool_decide; exact Hi.
Qed.

Lemma step_console kp n buf got ap s : sys_ok s -> step s (console_turn kp n buf got ap s).2.
Proof.
  revert got ap s. induction n as [|n IH]; intros got ap s Hok; cbn [console_turn]; [by apply step_refl|].
  set (g := if ap then _ else _). assert (sched_inert (sch s) g.2) as Hg.
  { unfold g. destruct ap; [by apply sched_inert_refl, ok_wf|]. apply getchar_inert; [by apply ok_wf|apply Hok]. }
  destruct g as [[ch k] sc]. cbn [snd] in Hg.
  assert (step s (set_kb k (set_sch sc s))) as H1.
  { eapply step_then; [apply step_inert; [done|by apply (inert_sched s sc)]|]. intros Hok1. by apply step_same. }
  destruct ch as [ch| |]; [|done|done]. destruct (ch <? 0); [done|]. cbv zeta. eapply step_then; [exact H1|]. intros Hok1.
  set (s1 := set_kb _ _) in *. eapply step_then; [by apply (step_same s1 (set_scr (tty_putc (s8 ch) (scr s1)) s1))|]. intros Hok2.
  eapply step_then; [by eapply step_umem|]. intros Hok3. destruct (ch =? 10); [by apply step_refl|]. by apply IH.
Qed.

Lemma step_console_read kp buf count s : sys_ok s -> step s (console_read kp buf count s).2.
Proof.
  intros Hok. unfold console_read, console_done. pose proof (step_console kp (Z.to_nat count) buf 0 false s Hok) as H.
  destruct (console_turn _ _ _ _ _ _) as [[r|g ap] s']; exact H.
Qed.

Lemma step_cd_read kp dev buf count s : sys_ok s -> step s (cd_read kp dev buf count s).2.
Proof.
  intros Hok. unfold cd_read. destruct dev; try (by apply step_refl).
  - pose proof (step_console_read kp buf count s Hok) as H. by destruct (console_read _ _ _ _) as [[] s'].
  - by apply step_umem.
  - destruct (random_read _ _ _). by apply step_same.
  - destruct (netdev_read _ _ _ _) as [[[r data] n] c]. by apply step_same.
Qed.

Lemma step_cd_write dev data s : sys_ok s -> step s (cd_write dev data s).2.
Proof.
  intros Hok. unfold cd_write. destruct dev; try (by apply step_refl); [by apply step_same|].
  destruct (netdev_write _ _ _ _). by apply step_same.
Qed.

Lemma step_node_read pmm_of c fd f buf count s :
  sys_ok s -> slot_ok c -> is_free (tk s c) = false -> fd_get (tk s c) fd = Some f -> step s (node_read pmm_of c fd f buf count s).2.
Proof.
  intros Hok Hc Hu Hf. apply fd_get_some in Hf as [Hfd ->]. unfold node_read. destruct (vfs_read _ _ _ _ _ _) as [r data]. cbn [snd].
  eapply step_then; [by eapply step_umem|]. intros Hok1. destruct (0 <? r); [|by apply step_refl]. by apply (step_pos c fd _ (set_umem _ s)).
Qed.

Lemma step_read kp dev_of pmm_of fd buf count s : sys_ok s -> step s (sys_read kp dev_of pmm_of fd buf count s).2.
Proof.
  intros Hok. unfold sys_read. destruct (current_task s) as [c|] eqn:Hc; [|by apply step_refl].
  destruct (ok_current _ _ Hok Hc) as [Hs Hu]. cbv zeta. destruct (fd_get _ _) as [f|] eqn:Ef; [|by apply step_refl].
  destruct ((buf =? 0) || _); [by apply step_refl|].
  destruct (_ && _); [destruct (_ =? 0); [by apply step_refl|]; destruct (dev_of _); [by apply step_cd_read|by apply step_refl]|].
  destruct (_ && _); [by apply step_node_read|]. destruct (has _ _).
  - destruct (pipes s !! f_pipe f) as [q|] eqn:Eq; [|by apply step_refl].
    pose proof (pipe_read_turn_inert kp (f_pipe f) c count q (sch s) (ok_wf _ Hok) (ok_cur _ Hok) Hc) as Hi.
    destruct (pipe_read_turn _ _ _ _ _ _) as [[[r data|] q'] sc]; destruct Hi as (Hi & Er & Ew); [|by eapply step_touch].
    eapply step_then; [by eapply step_touch|]. intros Hok1. by apply step_umem.
  - destruct (has _ _); [by apply step_console_read|]. destruct (_ =? 0); [by apply step_refl|by apply step_node_read].
Qed.

Lemma step_write_file junk c fd f node data pos s :
  sys_ok s -> slot_ok c -> is_free (tk s c) = false -> fd_ok fd -> f = fd_at (tk s c) fd ->
  let '(r, fs) := vfs_write junk node data pos (fsys s) in
  step s (if 0 <? r then upd c (set_fd fd (set_f_pos (f_pos f .+ r) f)) (set_fsys fs s) else set_fsys fs s).
Proof.
  intros Hok Hc Hu Hfd ->. pose proof (ok_refs _ Hok) as [R1 R2 R3].
  assert (pipes s !! 0 = None) as H0. { destruct (pipes s !! 0) eqn:E; [|done]. by destruct (ct_used _ _ R2 _ _ E). }
  pose proof (vfs_write_own junk node data pos (fsys s) (pipes s) (ok_files _ Hok) H0 R3) as [Hf Hl].
  destruct (vfs_write junk node data pos (fsys s)) as [r fs]. cbn [snd] in *.
  assert (step s (set_fsys fs s)) as H1 by (apply step_tame; [done|by split|by apply tame_same]).
  destruct (0 <? r); [|done]. eapply step_then; [exact H1|]. intros Hok1. by apply (step_pos c fd _ (set_fsys fs s)).
Qed.

Lemma step_write_turn kp dev_of junk fd buf count rest s :
  sys_ok s -> step s (sys_write_turn kp dev_of junk fd buf count rest s).2.
Proof.
  intros Hok. unfold sys_write_turn. destruct (current_task s) as [c|] eqn:Hc; [|by apply step_refl].
  destruct (ok_current _ _ Hok Hc) as [Hs Hu]. cbv zeta. destruct (fd_get _ _) as [f|] eqn:Ef; [|by apply step_refl].
  destruct ((buf =? 0) || _); [by apply step_refl|]. destruct (_ && _).
  { destruct (_ =? 0); [by apply step_refl|]. destruct (dev_of _) as [dev|]; [|by apply step_refl].
    set (data := bytes_at _ _ _). pose proof (step_cd_write dev data s Hok) as H. by destruct (cd_write dev data s). }
  destruct (has _ _).
  - destruct (pipes s !! f_pipe f) as [q|] eqn:Eq; [|by apply step_refl].
    pose proof (pipe_write_turn_inert kp (f_pipe f) c count rest q (sch s) (ok_wf _ Hok) (ok_cur _ Hok) Hc) as Hi.
    destruct (pipe_write_turn _ _ _ _ _ _ _) as [[r q'] sc]. destruct Hi as (Hi & Er & Ew).
    assert (step s (set_pipes (<[f_pipe f := q']> (pipes s)) (set_sch sc s))) as H1 by (by eapply step_touch). by destruct r.
  - destruct (has _ _); [by apply step_same|]. destruct (_ =? 0); [by apply step_refl|].
    apply fd_get_some in Ef as [Hfd Ef]. set (data := bytes_at _ _ _).
    pose proof (step_write_file junk c (s32 fd) f (f_node f) data (f_pos f) s Hok Hs Hu Hfd Ef) as H.
    destruct (vfs_write _ _ _ _ _) as [r fs]. exact H.
Qed.

Lemma step_write kp dev_of junk fd buf count s : sys_ok s -> step s (sys_write kp dev_of junk fd buf count s).2.
Proof.
  intros Hok. unfold sys_write. set (l := bytes_at _ _ _). pose proof (step_write_turn kp dev_of junk fd buf count l s Hok) as H1.
  destruct (sys_write_turn _ _ _ _ _ _ _ s) as [[o|rest] s1]; [done|]. eapply step_then; [exact H1|]. intros Hok1.
  pose proof (step_write_turn kp dev_of junk fd buf count rest s1 Hok1) as H2.
  by destruct (sys_write_turn _ _ _ _ _ _ _ s1) as [[o|rest'] s2].
Qed.

(** ** Executing a program *)

Lemma exec_build_image_fs off pool tbl cr3 path argv (fs : vfs KH) (v : vm A) o fs' v' :
  exec_build_image off pool tbl cr3 path argv fs v = Some (o, fs', v') -> quiet fs fs'.
Proof.
  unfold exec_build_image. pose proof (vfs_resolve_quiet pool tbl path fs) as Hq.
  destruct (vfs_resolve pool tbl path fs) as [node fs1]. cbn [snd] in Hq. intros E.
  destruct node as [n|]; [|by injection E as _ <- _]. cbv zeta in E. destruct (negb _); [by injection E as _ <- _|].
  destruct (_ <? _); [by injection E as _ <- _|]. destruct (negb _); [by injection E as _ <- _|].
  destruct (load_image _ _ _ _ _) as [[r v1]|]; [by injection E as _ <- _|done].
Qed.

Lemma step_exec_enter off c path img s : sys_ok s -> slot_ok c -> step s (exec_enter off c path img s).
Proof.
  intros Hok Hs. unfold exec_enter. cbv zeta. set (s2 := upd c _ s). assert (step s s2) as H2 by (by apply step_upd).
  eapply step_then; [exact H2|]. intros Hok2.
  set (s3 := set_sch (pmap_load (i_pml4_phys img) (sch s2)) s2). assert (step s2 s3) as H3 by (by apply step_sched).
  eapply step_then; [exact H3|]. intros Hok3. set (s4 := set_vmm _ s3). assert (step s3 s4) as H4 by (by apply step_same).
  eapply step_then; [exact H4|]. intros Hok4. set (s5 := set_sch _ s4). assert (step s4 s5) as H5 by (by apply step_sched).
  eapply step_then; [exact H5|]. apply step_umem.
Qed.

Lemma step_execve off pool path argv s : sys_ok s -> from_option (fun r => step s r.2) True (sys_execve off pool path argv s).
Proof.
  intros Hok. unfold sys_execve. destruct (path =? 0); [exact (step_refl s Hok)|].
  destruct (current_task s) as [c|] eqn:Hc; [|exact (step_refl s Hok)]. destruct (ok_current _ _ Hok Hc) as [Hs Hu].
  cbv zeta. set (str := user_string _ _ _). set (av := if argv =? 0 then _ else _). clearbody str av.
  destruct (exec_build_image _ _ _ _ _ _ _ _) as [[[img fs] v]|] eqn:E; [|done]. apply exec_build_image_fs in E.
  assert (step s (set_vmm v (set_fsys fs s))) as H1.
  { apply step_inert; [done|]. split; [exact (sched_inert_refl _ (ok_wf s Hok))|done|done]. }
  destruct img as [img|]; [|done]. cbn [from_option snd]. eapply step_then; [exact H1|]. intros Hok1. by apply step_exec_enter.
Qed.
End Keep.
