(* ===== verification/SysForkWait.v ===== *)
(** * fork, waitpid, setuid and the rudo daemon keep the invariant

    The calls that change who the tasks are: a slot is filled with a child or
    emptied, or a task gets another user id. *)
From S2P Require Import Prelude Net Font Screen Gfx Kbd Mouse Mem FrameAlloc Pmm Task Sched Pipe Pmap Libk Vfs Devfs SysState SysFd SysFdSpec SysOwn SysSig SysSigSpec Elf SysProc SysMem SysGfx Syscall SysInv SysKeep.

(** A descriptor table of full size without pipe ends. *)
Definition plain_row (l : list file) : Prop := length l = 16%nat /\ Forall (fun f => f_pipe f = 0) l.

Lemma plain_blank : plain_row (replicate 16 file0).
Proof. split; [done|]. by apply Forall_replicate. Qed.

Lemma plain_ref bit p l : p <> 0 -> Forall (fun f => f_pipe f = 0) l -> tbl_ref bit p l = 0.
Proof.
  intros Hp. unfold tbl_ref. induction 1 as [|f l Hf _ IH]; [done|]. cbn [map sumZ]. rewrite IH, fd_ref_other by congruence. done.
Qed.

Lemma tables_row i t sc : sched_wf sc -> slot_ok i -> tables (upd_task i (fun _ => t) sc) = <[Z.to_nat i := t_fds t]> (tables sc).
Proof.
  intros [Hl _] Hi. unfold tables, upd_task. cbn [set_tasks tasks]. unfold zinsert.
  rewrite (proj2 (Z.ltb_ge i 0)) by (unfold slot_ok in Hi; lia). by rewrite list_fmap_insert.
Qed.

Lemma total_row bit p i t sc : sched_wf sc -> slot_ok i ->
  total bit p (tables (upd_task i (fun _ => t) sc)) = total bit p (tables sc) - tbl_ref bit p (t_fds (task_at sc i)) + tbl_ref bit p (t_fds t).
Proof.
  intros Hwf Hi. rewrite tables_row by done. unfold total. rewrite list_fmap_insert.
  rewrite (sumZ_insert _ _ _ (tbl_ref bit p (t_fds (task_at sc i)))); [done|]. by rewrite list_lookup_fmap, tables_lookup.
Qed.

Lemma pipe_wake_current p a : current (pipe_wake p a) = current a.
Proof.
  unfold pipe_wake. apply (for_range_ind (fun _ x => current x = current a)); [done|]. intros k x _ Hx. unfold wake_slot.
  destruct (sched_task_at k); [|done]. destruct (_ && _); [|done]. unfold sched_wake. destruct (_ && _); exact Hx.
Qed.

Section ForkWait.
Context {A : Type} `{FA : FrameAlloc A} {KH : Type} {NH : NodeHeap KH} {NL : NodeHeapLaws KH} {N : Type} `{NC : Nic N}.
Implicit Types s : sys A KH N.

(** ** Releasing a table *)

Lemma drop_ref_sched f s : sched_wf (sch s) ->
  sched_wf (sch (drop_ref f s)) /\ tables (sch (drop_ref f s)) = tables (sch s) /\ current (sch (drop_ref f s)) = current (sch s).
Proof.
  intros Hwf. unfold drop_ref, pipe_put, pipe_unref. destruct (f_pipe f =? 0); [done|]. destruct (pipes s !! f_pipe f); [|done].
  destruct (_ && _); cbn [set_sch set_pipes set_fsys sch]; (split_and!; [by apply pipe_wake_wf|apply tables_pipe_wake|apply pipe_wake_current]).
Qed.

Lemma fd_put_fds c fd s : sched_wf (sch s) -> slot_ok c ->
  t_fds (tk (fd_put c fd s) c) = zinsert fd file0 (t_fds (tk s c)) /\ current (sch (fd_put c fd s)) = current (sch s).
Proof.
  intros Hwf Hc. destruct (drop_ref_sched (fd_at (tk s c) fd) s Hwf) as (Hw & Ht & Hcur). unfold fd_put. split; [|exact Hcur].
  rewrite tk_upd, Z.eqb_refl by done. cbn [set_fd set_fds t_fds]. f_equal. exact (fds_same s c _ Ht Hwf Hw Hc).
Qed.

Lemma release_row c s : refs_ok s -> slot_ok c ->
  t_fds (tk (fds_release c s) c) = replicate 16 file0 /\ current (sch (fds_release c s)) = current (sch s).
Proof.
  intros Hr Hc. unfold fds_release.
  pose proof (for_range_ind (fun k x => refs_ok x /\ current (sch x) = current (sch s) /\
    forall j, 0 <= j < k -> t_fds (tk x c) !! Z.to_nat j = Some file0) (Z.to_nat MAX_FDS) 0 (fd_put c) s) as Hind. cbn beta in Hind.
  destruct Hind as (H1 & H2 & H3).
  - split_and!; [done|done|lia].
  - intros k x Hk (Hx & Hcx & Hrow). destruct (fd_put_fds c k x (ro_wf _ Hx) Hc) as [Hf Hcur].
    split_and!; [apply fd_put_refs; [done|done|exact Hk]|congruence|]. intros j Hj. rewrite Hf. unfold zinsert.
    rewrite (proj2 (Z.ltb_ge k 0)) by lia. pose proof (refs_len _ _ Hx Hc) as Hlen.
    destruct (decide (j = k)) as [->|]; [apply list_lookup_insert_eq; unfold MAX_FDS in *; lia|].
    rewrite list_lookup_insert_ne by lia. apply Hrow. lia.
  - split; [|done]. apply list_eq. intros i. pose proof (refs_len _ _ H1 Hc) as Hlen. destruct (decide (i < 16)%nat).
    + rewrite lookup_replicate_2 by done. rewrite <- (Nat2Z.id i). apply H3. unfold MAX_FDS. lia.
    + rewrite !lookup_ge_None_2; rewrite ?length_replicate; try done; lia.
Qed.

(** ** Replacing a task *)

Lemma row_refs i t s :
  refs_ok s -> slot_ok i -> Forall (fun f => f_pipe f = 0) (t_fds (tk s i)) -> plain_row (t_fds t) -> refs_ok (upd i (fun _ => t) s).
Proof.
  intros [H1 H2 H3] Hi Hold [Hl Hnew]. split; cbn [upd set_sch sch pipes fsys]; [by apply upd_task_wf| |done].
  eapply counted_same; [exact H2| | |].
  - rewrite tables_row by done. apply Forall_insert; [apply H2|done].
  - intros bit p Hp. rewrite total_row by done. rewrite !plain_ref by done. lia.
  - rewrite tables_row by done. apply Forall_insert; [apply H2|]. eapply List.Forall_impl; [|exact Hnew]. intros f Hf Hne. done.
Qed.

(** A slot is emptied; it is not the running task's. *)
Lemma clear_ok i s :
  sys_ok s -> slot_ok i -> current_task s <> Some i -> t_fds (tk s i) = replicate 16 file0 -> sys_ok (upd i (fun _ => task0) s).
Proof.
  intros [H1 H2 H3 H4 H5] Hi Hcur Hrow. assert (Hwf : sched_wf (sch s)) by apply H1.
  assert (Ht : forall j, tk (upd i (fun _ => task0) s) j = if j =? i then task0 else tk s j) by (intros j; by rewrite tk_upd).
  split; [apply row_refs; [done|done|rewrite Hrow; apply plain_blank|apply plain_blank]|done| | |].
  - intros j Hj. rewrite Ht. destruct (j =? i); [intros _; apply plain_blank|by apply H3].
  - intros c Hc. change (is_free (tk (upd i (fun _ => task0) s) c) = false). rewrite Ht. destruct (Z.eqb_spec c i) as [->|]; [by destruct Hcur|by apply H4].
  - intros j Hj. rewrite Ht. destruct (j =? i); [done|by apply H5].
Qed.

(** ** Privileges *)

(** No task is root that was not root before. *)
Definition no_gain s s' : Prop :=
  forall j, slot_ok j -> is_free (tk s' j) = false -> t_uid (tk s' j) = 0 -> is_free (tk s j) = false /\ t_uid (tk s j) = 0.

Lemma no_gain_tame s s' : tame s s' -> no_gain s s'.
Proof.
  intros Ht j Hj Hu H0. pose proof (ta_ident _ _ Ht j Hj) as E. unfold ident in E. injection E as E1 _ _ E2. by rewrite <- E1, <- E2.
Qed.

Lemma no_gain_trans a b c : no_gain a b -> no_gain b c -> no_gain a c.
Proof. intros H1 H2 j Hj Hu H0. destruct (H2 j Hj Hu H0). auto. Qed.

Definition good s s' : Prop := sys_ok s' /\ no_gain s s'.

Lemma good_step s s' : step s s' -> good s s'.
Proof. intros [H1 H2]. split; [done|by apply no_gain_tame]. Qed.

Lemma good_then a b c : step a b -> (sys_ok b -> good b c) -> good a c.
Proof. intros [H1 H2] H3. destruct (H3 H1) as [H4 H5]. split; [done|]. eapply no_gain_trans; [by apply no_gain_tame|done]. Qed.

(** ** waitpid *)

Lemma good_reap off kp i s :
  sys_ok s -> slot_ok i -> is_free (tk s i) = false -> current_task s <> Some i -> good s (reap_task off kp i s).
Proof.
  intros Hok Hi Hu Hcur. unfold reap_task. cbv zeta. set (s1 := if t_kstack _ =? 0 then s else _).
  assert (step s s1) as H1 by (unfold s1; destruct (_ =? 0); [by apply step_refl|by apply step_same]).
  assert (current_task s1 = current_task s) as C1 by (unfold s1; by destruct (_ =? 0)).
  eapply good_then; [exact H1|]. intros Hok1. set (s2 := if _ && _ then _ else s1).
  assert (step s1 s2) as H2 by (unfold s2; destruct (_ && _); [by apply step_same|by apply step_refl]).
  assert (current_task s2 = current_task s1) as C2 by (unfold s2; by destruct (_ && _)).
  eapply good_then; [exact H2|]. intros Hok2. clearbody s1 s2.
  assert (is_free (tk s2 i) = false) as Hu2 by (eapply step_used; [exact H2|done|]; by eapply step_used).
  pose proof (step_release i s2 Hok2 Hi Hu2) as H3. destruct (release_row i s2 (ok_refs _ Hok2) Hi) as [Hrow C3].
  eapply good_then; [exact H3|]. intros Hok3. split.
  - apply clear_ok; try done. unfold current_task, sched_get_current in *. by rewrite C3, C2, C1.
  - intros j Hj. rewrite tk_upd by (done || apply Hok3). by destruct (j =? i).
Qed.

Lemma wait_scan_some n i cpid pid have sc j b :
  wait_scan n i cpid pid have sc = (Some j, b) -> i <= j < i + Z.of_nat n /\ is_free (task_at sc j) = false /\
    t_parent_pid (task_at sc j) = cpid /\ t_pid (task_at sc j) <> 0.
Proof.
  revert i have. induction n as [|n IH]; intros i have; cbn [wait_scan]; [done|].
  assert (forall h, wait_scan n (i + 1) cpid pid h sc = (Some j, b) -> i <= j < i + Z.of_nat (S n) /\ is_free (task_at sc j) = false /\
    t_parent_pid (task_at sc j) = cpid /\ t_pid (task_at sc j) <> 0) as Hrec by (intros h Hh; apply IH in Hh; split_and!; [lia|lia|apply Hh..]).
  destruct (_ || _ || _) eqn:E; [apply Hrec|].
  destruct (negb (_ || _)); [apply Hrec|]. destruct (t_zombie _); [|apply Hrec].
  intros [= <- <-]. bool_hyps. unfold is_free. split_and!; try done; lia.
Qed.

Lemma good_waitpid off kp pid st s : sys_ok s -> good s (sys_waitpid off kp pid st s).2.
Proof.
  intros Hok. unfold sys_waitpid. destruct (current_task s) as [c|] eqn:Hc; [|by apply good_step, step_refl].
  destruct (ok_current _ _ Hok Hc) as [Hs Hu].
  destruct (wait_scan _ _ _ _ _ _) as [[i|] have] eqn:E.
  - apply wait_scan_some in E as (Hi & Hui & Hpar & Hpid). assert (slot_ok i) as Hi' by exact Hi. cbv zeta. cbn [snd].
    assert (current_task s <> Some i) as Hne.
    { rewrite Hc. intros [= ->]. destruct (ok_pids _ Hok i Hi' Hui) as [_ Hp]. specialize (Hp Hpid). unfold tk in *. lia. }
    set (s1 := if st =? 0 then s else _). assert (step s s1) as H1 by (unfold s1; destruct (st =? 0); [by apply step_refl|by apply step_umem]).
    assert (current_task s1 = current_task s) as C1 by (unfold s1; by destruct (st =? 0)).
    eapply good_then; [exact H1|]. intros Hok1. apply good_reap; [done|done|by eapply step_used|by rewrite C1].
  - destruct have; [|by apply good_step, step_refl]. by apply good_step, step_block.
Qed.

(** ** fork *)

(** A free slot is filled (or stays free) and the next id goes up. *)
Lemma fill_ok i t sc s :
  sys_ok s -> slot_ok i -> is_free (tk s i) = true -> plain_row (t_fds t) ->
  tasks sc = tasks (sch s) -> current sc = current (sch s) -> next_pid sc = next_pid (sch s) + 1 ->
  (is_free t = false -> t_pid t = next_pid (sch s) /\ t_parent_pid t < next_pid (sch s) /\ 0 <= next_pid (sch s) /\ t_uid t <> 0) ->
  good s (set_sch (upd_task i (fun _ => t) sc) s).
Proof.
  intros [H1 H2 H3 H4 H5] Hi Hfree Hrow E1 E2 E3 Ht. assert (Hwf : sched_wf (sch s)) by apply H1.
  set (s' := set_sch _ s). assert (Hwf' : sched_wf sc) by (destruct Hwf as [W1 W2]; split; [by rewrite E1|intros c; rewrite E2; apply W2]).
  assert (Htk : forall j, tk s' j = if j =? i then t else tk s j).
  { intros j. unfold tk, s'. cbn [set_sch sch]. rewrite task_at_upd by done. unfold task_at. by rewrite E1. }
  assert (refs_ok s') as Hr.
  { apply (refs_ok_eq (upd i (fun _ => t) s)); [apply row_refs; auto|by apply upd_task_wf| |done|done].
    unfold s', tables, upd, upd_task, task_at. cbn [set_sch sch set_tasks tasks]. by rewrite E1. }
  split; [split; [done|done| | |]|].
  - intros j Hj. rewrite Htk. destruct (j =? i); [intros _; apply Hrow|by apply H3].
  - intros c Hc. change (is_free (tk s' c) = false). rewrite Htk. assert (current (sch s) = Some c) as Hc' by (by rewrite <- E2).
    destruct (Z.eqb_spec c i) as [->|]; [|by apply H4]. specialize (H4 i Hc'). unfold tk in Hfree. congruence.
  - intros j Hj. rewrite Htk. cbn [s' set_sch sch]. change (next_pid (upd_task i (fun _ => t) sc)) with (next_pid sc). rewrite E3.
    destruct (j =? i).
    + intros Hu. destruct (Ht Hu) as (P1 & P2 & P3 & _). lia.
    + intros Hu. destruct (H5 j Hj Hu) as [P1 P2]. split; [lia|done].
  - intros j Hj. rewrite Htk. destruct (j =? i); [|done]. intros Hu H0. by destruct (Ht Hu) as (_ & _ & _ & ?).
Qed.

(** What a task is made of when it is spawned. *)
Lemma prepare_stack_same entry t (k : kmem A) : exists kst rsp b k', task_prepare_stack entry t k = (b, set_rsp rsp (set_kstack kst t), k').
Proof.
  unfold task_prepare_stack. destruct (fa_alloc _ _) as [kst fr]. destruct (kst =? 0); [|by do 4 eexists].
  exists kst, (t_rsp t), false, (mkKmem (km_mem k) fr). by destruct t.
Qed.

Lemma console_row t :
  t_fds t = replicate 16 file0 ->
  let t' := for_range 3 0 (fun j t => match znth None console_fds j with Some f => set_fd j f t | None => t end) t in
  plain_row (t_fds t') /\ ident t' = ident t.
Proof.
  intros E. set (f := fun j t => _). apply (for_range_ind (fun _ x => plain_row (t_fds x) /\ ident x = ident t)); [rewrite E; split; [apply plain_blank|done]|].
  intros k x Hk [[H1 H2] H3]. unfold f. destruct (znth None console_fds k) as [fl|] eqn:Ek; [|done].
  assert (f_pipe fl = 0) as Hfl.
  { assert (k = 0 \/ k = 1 \/ k = 2) as Hc by lia. destruct Hc as [->|[->| ->]]; by injection Ek as <-. }
  split; [|done]. cbn [set_fd set_fds t_fds]. unfold zinsert. destruct (k <? 0); [done|]. split; [by rewrite length_insert|by apply Forall_insert].
Qed.

(** What [sched_spawn_user_task] does to the table: nothing, or it fills a free
    slot with a task that failed (and is free) or that is the new child. *)
Inductive spawned (parent : Z) (a : sched) : Z -> sched -> Prop :=
| spawn_none : spawned parent a (-1) a
| spawn_failed i t b : slot_ok i -> is_free (task_at a i) = true -> is_free t = true -> plain_row (t_fds t) ->
    tasks b = tasks a -> current b = current a -> next_pid b = next_pid a + 1 -> spawned parent a (-1) (upd_task i (fun _ => t) b)
| spawn_child pid i t b : pid = next_pid a -> slot_ok i -> is_free (task_at a i) = true -> is_free t = false -> plain_row (t_fds t) ->
    t_pid t = next_pid a -> t_parent_pid t = parent -> t_uid t = 1000 ->
    tasks b = tasks a -> current b = current a -> next_pid b = next_pid a + 1 -> spawned parent a pid (upd_task i (fun _ => t) b).

Lemma spawn_spec first name pml4 rip rsp parent a (k : kmem A) :
  spawned parent a (sched_spawn_user_task console_fds first name pml4 rip rsp parent a k).1.1
    (sched_spawn_user_task console_fds first name pml4 rip rsp parent a k).1.2.
Proof.
  unfold sched_spawn_user_task. destruct (alloc_slot a) as [i|] eqn:Ea; [|apply spawn_none].
  apply alloc_slot_some in Ea as [Hi Hst]. assert (is_free (task_at a i) = true) as Hf by (by apply state_eqb_true). cbv zeta.
  set (t0 := set_name _ _). destruct (prepare_stack_same first t0 k) as (kst & rs & b & k' & ->). destruct b; cbn [negb fst snd].
  - destruct (console_row (set_rsp rs (set_kstack kst t0)) eq_refl) as [Hrow Hid]. revert Hrow Hid. generalize (for_range 3 0
      (fun j t => match znth None console_fds j with Some f => set_fd j f t | None => t end) (set_rsp rs (set_kstack kst t0))).
    intros t1 Hrow Hid. unfold ident in Hid. injection Hid as P3 P1 P2 P4. apply spawn_child; try done; by destruct (_ <? 0).
  - apply spawn_failed; try done. apply plain_blank.
Qed.

(** The references a copied table takes. *)
Definition bump (l : list file) (P : gmap Z pipe) : gmap Z pipe :=
  foldl (fun P f => if f_pipe f =? 0 then P
                    else alter (pipe_ref (end_count f FDF_PIPE_RD) (end_count f FDF_PIPE_WR)) (f_pipe f) P) P l.

Lemma take_refs_bump l s : foldl (fun s f => take_ref f s) s l = set_pipes (bump l (pipes s)) s.
Proof.
  unfold bump. revert s. induction l as [|f l IH]; intros s; cbn [foldl]; [by destruct s|]. rewrite IH. unfold take_ref, pipe_get.
  by destruct (f_pipe f =? 0).
Qed.

Lemma bump_lookup l P p : p <> 0 ->
  bump l P !! p = (fun q => mkPipe (p_buf q) (p_head q) (p_tail q) (p_len q)
                     (p_readers q + tbl_ref FDF_PIPE_RD p l) (p_writers q + tbl_ref FDF_PIPE_WR p l)) <$> P !! p.
Proof.
  intros Hp. unfold bump, tbl_ref. revert P. induction l as [|f l IH]; intros P; cbn [foldl map sumZ].
  - destruct (P !! p) as [q|]; [|done]. cbn. rewrite !Z.add_0_r. by destruct q.
  - rewrite IH. unfold fd_ref. destruct (Z.eqb_spec (f_pipe f) 0) as [E|E].
    + rewrite (proj2 (Z.eqb_neq (f_pipe f) p)) by congruence. by rewrite !Z.add_0_l.
    + destruct (Z.eqb_spec (f_pipe f) p) as [<-|Hne].
      * rewrite lookup_alter_eq. destruct (P !! f_pipe f) as [q|]; [|done]. cbn. unfold pipe_ref. cbn. do 2 f_equal; lia.
      * rewrite lookup_alter_ne by done. by rewrite !Z.add_0_l.
Qed.

Lemma bump_zero l P : P !! 0 = None -> bump l P !! 0 = None.
Proof.
  unfold bump. revert P. induction l as [|f l IH]; intros P H0; cbn [foldl]; [done|]. apply IH.
  destruct (Z.eqb_spec (f_pipe f) 0); [done|]. by rewrite lookup_alter_ne.
Qed.

(** No pipe appears. *)
Lemma bump_none l P p : P !! 0 = None -> P !! p = None -> bump l P !! p = None.
Proof. intros H0 Hp. destruct (decide (p = 0)) as [->|]; [by apply bump_zero|]. by rewrite bump_lookup, Hp. Qed.

(** A row without pipes becomes a copy of another row, with its references. *)
Lemma counted_copy T P i (row : list file) old :
  counted T P -> P !! 0 = None -> T !! i = Some old -> Forall (fun f => f_pipe f = 0) old -> length row = 16%nat -> Forall (slot_fine P) row ->
  counted (<[i := row]> T) (bump row P).
Proof.
  intros [H1 H2 H3 H4] H0 Hi Hold Hlen Hrow.
  assert (Hz : forall p q, bump row P !! p = Some q -> p <> 0).
  { intros p q Hq ->. by rewrite bump_zero in Hq. }
  assert (Ht : forall bit p, p <> 0 -> total bit p (<[i := row]> T) = total bit p T + tbl_ref bit p row).
  { intros bit p Hp. unfold total. rewrite list_fmap_insert, (sumZ_insert _ _ _ (tbl_ref bit p old)) by (by rewrite list_lookup_fmap, Hi).
    rewrite (plain_ref bit p old) by done. change (tbl_ref bit p <$> T) with (map (tbl_ref bit p) T). lia. }
  assert (Hs : forall f, slot_fine P f -> slot_fine (bump row P) f).
  { intros f Hf Hne. destruct (Hf Hne) as [[q Hq] Hm]. split; [|done]. rewrite bump_lookup by done. rewrite Hq. by eexists. }
  split.
  - by apply Forall_insert.
  - intros p q Hq. pose proof (Hz _ _ Hq) as Hp. rewrite bump_lookup in Hq by done. rewrite !Ht by done.
    destruct (P !! p) as [q0|] eqn:E; [|done]. injection Hq as <-. cbn. destruct (H2 _ _ E). lia.
  - apply Forall_insert; [by eapply everywhere_impl|]. eapply List.Forall_impl; [|exact Hrow]. exact Hs.
  - intros p q Hq. pose proof (Hz _ _ Hq) as Hp. split; [done|]. rewrite bump_lookup in Hq by done.
    destruct (P !! p) as [q0|] eqn:E; [|done]. injection Hq as <-. cbn. destruct (H4 _ _ E).
    pose proof (tbl_ref_nonneg FDF_PIPE_RD p row). pose proof (tbl_ref_nonneg FDF_PIPE_WR p row). lia.
Qed.

Lemma good_clone child c s :
  sys_ok s -> slot_ok child -> slot_ok c -> is_free (tk s child) = false -> plain_row (t_fds (tk s child)) -> good s (clone_into child c s).
Proof.
  intros Hok Hch Hc Hu [Hl Hplain]. pose proof (ok_refs _ Hok) as [R1 R2 R3]. unfold clone_into. cbv zeta. set (s1 := upd child _ s).
  assert (Hrow : t_fds (tk s1 child) = t_fds (tk s c)) by (unfold s1; by rewrite tk_upd, Z.eqb_refl).
  assert (H0 : pipes s !! 0 = None). { destruct (pipes s !! 0) eqn:E; [|done]. by destruct (ct_used _ _ R2 _ _ E). }
  rewrite Hrow, take_refs_bump. change (pipes s1) with (pipes s). set (row := t_fds (tk s c)). apply good_step, step_tame; [done| |].
  - split; cbn [set_pipes sch pipes fsys]; [by apply upd_task_wf| |].
    + assert (tables (sch s1) = <[Z.to_nat child := row]> (tables (sch s))) as ->.
      { unfold s1, upd, tables, upd_task. cbn [set_sch sch set_tasks tasks]. unfold zinsert. rewrite (proj2 (Z.ltb_ge child 0)) by (unfold slot_ok in Hch; lia).
        by rewrite list_fmap_insert. }
      eapply counted_copy; [done|done|by apply tables_lookup|done|by apply (refs_len s c (ok_refs _ Hok))|].
      eapply (Forall_lookup_1 _ _ _ row (ct_slots _ _ R2)). by apply tables_lookup.
    + intros p q Hq. destruct (pipes s !! p) as [q0|] eqn:E; [by eapply R3|]. by rewrite bump_none in Hq.
  - assert (tame s s1) as Ht1.
    { split; [by apply upd_task_wf| | |by left|done|done]; intros j Hj; unfold s1; rewrite tk_upd by done;
        destruct (Z.eqb_spec j child) as [->|]; try done. by rewrite Hu. }
    eapply tame_trans; [exact Ht1|]. apply tame_same; [apply Ht1|done|]. intros Hf. apply (files_ok_sub (pipes s)); [done|].
    intros p Hp. by apply bump_none.
Qed.

Lemma good_fork off first s : sys_ok s -> good s (sys_fork off first console_fds s).2.
Proof.
  intros Hok. unfold sys_fork. destruct (current_task s) as [c|] eqn:Hc; [|by apply good_step, step_refl].
  cbv zeta. destruct (t_user_entry _ =? 0); [by apply good_step, step_refl|].
  destruct (pmap_fork _ _ _ _) as [child v]. set (s1 := set_vmm v s). assert (step s s1) as H1 by (by apply step_same).
  destruct (child =? 0); [by apply good_step|]. set (s2 := set_sch _ s1).
  assert (step s1 s2) as H2 by (apply step_sched; [apply H1|done..]).
  eapply good_then; [by eapply step_trans|]. intros Hok2. assert (current_task s2 = Some c) as Hc2 by exact Hc.
  change (t_pid (tk s c)) with (t_pid (tk s2 c)). clearbody s2. clear s1 H1 H2.
  destruct (ok_current _ _ Hok2 Hc2) as [Hs Hu]. destruct (ok_pids _ Hok2 c Hs Hu) as [Hpid _].
  set (k0 := mkKmem _ _). set (nm := task_name _). set (rip := user_rip _). set (rsp := user_rsp _).
  pose proof (spawn_spec first nm child rip rsp (t_pid (tk s2 c)) (sch s2) k0) as Hsp.
  destruct (sched_spawn_user_task _ _ _ _ _ _ _ _ _) as [[pid sc] k]. cbn [fst snd] in Hsp. set (s3 := set_vmm _ (set_sch sc s2)).
  assert (good s2 (set_sch sc s2) -> good s2 s3) as Hvm.
  { intros [G1 G2]. split; [by apply (step_same (set_sch sc s2))|exact G2]. }
  assert (good s2 s3 -> good s2 (set_vmm (pmap_destroy off child (vmm s3)) s3)) as Hdest.
  { intros [G1 G2]. split; [by apply (step_same s3)|exact G2]. }
  destruct Hsp as [|i t b Hi Hf Hft Hrow E1 E2 E3|pid i t b Hp Hi Hf Hft Hrow P1 P2 P3 E1 E2 E3].
  - apply Hdest, Hvm, good_step. apply step_sched; try done.
  - apply Hdest, Hvm, fill_ok; try done. intros Hx. congruence.
  - assert (good s2 s3) as Hg. { apply Hvm, fill_ok; try done. intros _. rewrite P1, P2, P3. lia. }
    rewrite (proj2 (Z.ltb_ge pid 0)) by lia. destruct (sched_find_pid pid (sch s3)) as [j|] eqn:Ej; [|exact Hg].
    apply find_pid_slot in Ej as (Hj & Huj & Hpj).
    assert (forall x, tk s3 x = if x =? i then t else tk s2 x) as Htk.
    { intros x. unfold tk, s3. cbn [set_vmm set_sch sch]. rewrite task_at_upd; [unfold task_at; by rewrite E1| |done].
      destruct (ok_wf _ Hok2) as [W1 W2]. split; [by rewrite E1|intros y; rewrite E2; apply W2]. }
    assert (j = i) as ->.
    { change (is_free (tk s3 j) = false) in Huj. change (t_pid (tk s3 j) = pid) in Hpj. rewrite Htk in Huj, Hpj.
      destruct (Z.eqb_spec j i) as [|Hne]; [done|]. destruct (ok_pids _ Hok2 j Hj Huj). lia. }
    destruct Hg as [G1 G2]. destruct (good_clone i c s3) as [C1 C2]; [done|done|done|by rewrite Htk, Z.eqb_refl|by rewrite Htk, Z.eqb_refl|].
    split; [done|]. by eapply no_gain_trans.
Qed.

(** ** User ids *)

Lemma uid_ok i u s : sys_ok s -> slot_ok i -> sys_ok (upd i (set_uid u) s).
Proof.
  intros [H1 H2 H3 H4 H5] Hi. assert (Hwf : sched_wf (sch s)) by apply H1.
  assert (Ht : forall j, tk (upd i (set_uid u) s) j = if j =? i then set_uid u (tk s i) else tk s j) by (intros j; by rewrite tk_upd).
  split; [|done| | |].
  - apply (refs_ok_eq s); [done|by apply upd_task_wf|by apply tables_upd_same|done|done].
  - intros j Hj. rewrite Ht. destruct (Z.eqb_spec j i) as [->|]; by apply H3.
  - intros c Hc. change (is_free (tk (upd i (set_uid u) s) c) = false). rewrite Ht. destruct (Z.eqb_spec c i) as [->|]; by apply H4.
  - intros j Hj. rewrite Ht. destruct (Z.eqb_spec j i) as [->|]; by apply H5.
Qed.

(** The running task is not root. *)
Definition unprivileged s : Prop := forall c, current_task s = Some c -> t_uid (tk s c) <> 0.

(** What a call guarantees: the invariant, and no root gained unless the
    caller is root. *)
Definition kept s s' : Prop := sys_ok s' /\ (unprivileged s -> no_gain s s').

Lemma kept_good s s' : good s s' -> kept s s'.
Proof. intros [H1 H2]. by split. Qed.

Lemma kept_step s s' : step s s' -> kept s s'.
Proof. intros H. by apply kept_good, good_step. Qed.

Lemma kept_setuid u s : sys_ok s -> kept s (sys_setuid u s).2.
Proof.
  intros Hok. unfold sys_setuid. destruct (current_task s) as [c|] eqn:Hc; [|by apply kept_step, step_refl].
  destruct (Z.eqb_spec (t_uid (tk s c)) 0) as [E|E]; cbn [negb]; [|by apply kept_step, step_refl].
  split; [apply uid_ok; [done|by eapply ok_current]|]. intros Hun. by destruct (Hun c Hc).
Qed.

Lemma kept_rudo_wait kp buf s : sys_ok s -> kept s (sys_rudo_wait kp buf s).2.
Proof.
  intros Hok. unfold sys_rudo_wait. destruct (current_task s) as [c|] eqn:Hc; [|by apply kept_step, step_refl].
  destruct (Z.eqb_spec (t_uid (tk s c)) 0) as [E|E]; cbn [negb]; [|by apply kept_step, step_refl].
  split; [|intros Hun; by destruct (Hun c Hc)]. destruct (r_pending (rudo s)); [|by apply step_block]. cbv zeta.
  set (s1 := set_rudo _ s). assert (step s s1) as H1 by (by apply step_same). set (s2 := if buf =? 0 then s1 else _).
  assert (sys_ok s2) as Hok2 by (unfold s2; destruct (buf =? 0); [apply H1|apply step_umem, H1]). clearbody s2.
  destruct (_ =? RUDO_OP_PANIC); [by apply (step_same s2)|]. cbn [snd]. apply step_wake_opt.
  destruct (_ =? RUDO_OP_SETUID); [|done].
  set (s3 := match sched_find_pid _ _ with Some _ => _ | None => _ end).
  assert (sys_ok s3) as Hok3.
  { unfold s3. destruct (sched_find_pid _ (sch s2)) as [i|] eqn:Ei; [|done]. apply find_pid_slot in Ei as [Hi _]. by apply uid_ok. }
  by apply (step_same s3).
Qed.
End ForkWait.
