(* ===== verification/SysSafe.v ===== *)
(** * The kernel between events: invariant and privileges

    The kernel's state changes by system calls, by calls that go on after they
    were parked, and by timer, keyboard and mouse interrupts.  Every such event
    keeps [sys_ok], and no event of an unprivileged task makes a task root. *)
From S2P Require Import Prelude Net Font Screen Gfx Kbd Mouse Mem FrameAlloc Pmm Task Sched Pipe Pmap Libk Vfs VfsSpec Devfs SysState SysDemo SysFd SysFdSpec SysOwn SysSig SysSigSpec Elf SysProc SysMem SysGfx Syscall SysInv SysKeep SysForkWait.

Section Safe.
Context {A : Type} `{FA : FrameAlloc A} {KH : Type} {NH : NodeHeap KH} {NL : NodeHeapLaws KH} {N : Type} `{NC : Nic N}.
Variable d : machine A.
Implicit Types s : sys A KH N.

(** ** System calls *)

Lemma table_kept num a1 a2 a3 a4 a5 a6 s :
  sys_ok s -> from_option (fun r => kept s r.2) True (syscall_table d num a1 a2 a3 a4 a5 a6 s).
Proof.
  intros Hok. pose proof (kept_step s s (step_refl s Hok)) as Hid. unfold syscall_table. cbv zeta.
  destruct (num =? SYS_EXIT); [apply kept_step, (step_exit _ _ _ Hok)|].
  destruct (num =? SYS_WRITE); [apply kept_step, (step_write _ _ _ _ _ _ _ Hok)|].
  destruct (num =? SYS_READ); [apply kept_step, (step_read _ _ _ _ _ _ _ Hok)|].
  destruct (num =? SYS_OPEN); [apply kept_step, (step_open _ _ _ _ Hok)|].
  destruct (num =? SYS_CLOSE); [apply kept_step, (step_close _ _ Hok)|].
  destruct (num =? SYS_GETPID); [unfold sys_getpid; by destruct (current_task s)|].
  destruct (num =? SYS_YIELD); [apply kept_step, (step_yield _ _ Hok)|].
  destruct (num =? SYS_BRK); [apply kept_step, (step_brk _ _ _ Hok)|].
  destruct (num =? SYS_FORK); [apply kept_good, (good_fork _ _ _ Hok)|].
  destruct (num =? SYS_EXECVE).
  { pose proof (step_execve (d_off d) (d_pool d) a1 a2 s Hok) as H. destruct (sys_execve _ _ _ _ _); [by apply kept_step|done]. }
  destruct (num =? SYS_WAITPID); [apply kept_good, (good_waitpid _ _ _ _ _ Hok)|].
  destruct (num =? SYS_UNAME); [unfold sys_uname; destruct (_ =? 0); [done|by apply kept_step, step_umem]|].
  destruct (num =? SYS_SIGRETURN); [apply kept_step, (step_cpu_user _ _ _ Hok)|].
  destruct (num =? SYS_GETPPID); [unfold sys_getppid; by destruct (current_task s)|].
  destruct (num =? SYS_MMAP); [apply kept_step, (step_mmap _ _ _ Hok)|].
  destruct (num =? SYS_MUNMAP); [apply kept_step, (step_munmap _ _ _ _ Hok)|].
  destruct (num =? SYS_DUP); [apply kept_step, (step_dup _ _ Hok)|].
  destruct (num =? SYS_DUP2); [apply kept_step, (step_dup2 _ _ _ Hok)|].
  destruct (num =? SYS_PIPE); [apply kept_step, (step_pipe _ _ Hok)|].
  destruct (num =? SYS_KILL); [apply kept_step, (step_kill _ _ _ _ Hok)|].
  destruct (num =? SYS_SIGNAL); [apply kept_step, (step_signal _ _ _ Hok)|].
  destruct (num =? SYS_SYSINFO).
  { unfold sys_sysinfo. destruct (_ =? 0); [done|]. destruct (tty_get_mode _) as [[w h] z]. by apply kept_step, step_umem. }
  destruct (num =? SYS_SETPGID); [apply kept_step, (step_setpgid _ _ _ Hok)|].
  destruct (num =? SYS_GETPGID); [unfold sys_getpgid; by case_match|].
  destruct (num =? SYS_SETSID); [apply kept_step, (step_setsid _ Hok)|].
  destruct (num =? SYS_TCSETPGRP); [apply kept_step, (step_tcsetpgrp _ _ Hok)|].
  destruct (num =? SYS_TIME); [unfold sys_time; destruct (_ =? 0); [done|by apply kept_step, step_umem]|].
  destruct (num =? SYS_REBOOT); [done|].
  destruct (num =? SYS_GFX); [apply kept_step, (step_gfx _ _ _ _ _ _ _ _ _ Hok)|].
  destruct (num =? SYS_PANIC); [unfold sys_panic; destruct (current_task s); [|done]; by destruct (negb _)|].
  destruct (num =? SYS_RUDO_REQUEST); [apply kept_step, (step_rudo_request _ _ _ Hok)|].
  destruct (num =? SYS_RUDO_WAIT); [cbn [from_option]; apply (kept_rudo_wait _ _ _ Hok)|].
  destruct (num =? SYS_SETUID); [cbn [from_option]; apply (kept_setuid _ _ Hok)|].
  destruct (num =? SYS_GETUID); [unfold sys_getuid; by destruct (current_task s)|].
  destruct (num =? SYS_MOUSE); [|done]. unfold sys_mouse. destruct (_ =? 0); [done|by apply kept_step, step_umem].
Qed.

Lemma dispatch_kept num a1 a2 a3 a4 a5 a6 s : sys_ok s -> kept s (dispatch d num a1 a2 a3 a4 a5 a6 s).2.
Proof.
  intros Hok. unfold dispatch. pose proof (kept_step s s (step_refl s Hok)) as Hid. destruct (_ <=? _); [done|].
  pose proof (table_kept num a1 a2 a3 a4 a5 a6 s Hok) as H. by destruct (syscall_table d num a1 a2 a3 a4 a5 a6 s).
Qed.

(** Going on from a step that leaves the same task running. *)
Lemma kept_then (a b c : sys A KH N) : step a b -> current_task b = current_task a -> (sys_ok b -> kept b c) -> kept a c.
Proof.
  intros [H1 H2] Hc H3. destruct (H3 H1) as [H4 H5]. split; [done|]. intros Hun. eapply no_gain_trans; [by apply no_gain_tame|].
  apply H5. intros k Hk. assert (slot_ok k) as Hs by (by apply (ta_wf _ _ H2)). rewrite Hc in Hk.
  pose proof (ta_ident _ _ H2 k Hs) as E. unfold ident in E. injection E as -> _ _ _. by apply Hun.
Qed.

Lemma deliver_current kp n c s s' : deliver_loop kp n c s = (true, s') -> current_task s' = current_task s.
Proof.
  revert s. induction n as [|n IH]; intros s; cbn [deliver_loop]; [by intros [= <-]|]. destruct (_ =? 0); [by intros [= <-]|].
  destruct (_ =? SIG_IGN); [intros E; by rewrite (IH _ E)|]. destruct (_ =? SIG_DFL); [|by intros [= <-]].
  destruct (fatal _); [done|]. intros E. by rewrite (IH _ E).
Qed.

Lemma handler_kept num a1 a2 a3 a4 a5 a6 s : sys_ok s -> kept s (syscall_handler d num a1 a2 a3 a4 a5 a6 s).2.
Proof.
  intros Hok. unfold syscall_handler. set (x := match current_task s with Some _ => _ | None => _ end).
  assert (step s x.2 /\ (x.1 = true -> current_task x.2 = current_task s)) as [H1 Hc1].
  { unfold x. destruct (current_task s) as [c|] eqn:Hc; [|split; [by apply step_refl|done]].
    destruct (_ =? 0); [split; [by apply step_refl|done]|]. destruct (ok_current _ _ Hok Hc) as [Hs Hu]. split; [by apply step_deliver|].
    unfold deliver_signals. destruct (deliver_loop _ _ _ _) as [b s'] eqn:E. intros Hb. cbn in Hb. subst b. rewrite <- Hc. by apply deliver_current in E. }
  destruct x as [back s1]. cbn [fst snd] in *. destruct back; cbn [negb]; [|by apply kept_step]. specialize (Hc1 eq_refl).
  destruct (g_resched_requested (sch s1)); [|by eapply kept_then, dispatch_kept].
  set (s2 := set_sch _ s1). assert (step s1 s2) as H2 by (apply step_sched; [apply H1|done..]).
  assert (step s (yield (d_kernel_pml4 d) s2)) as H3.
  { eapply step_trans; [exact H1|]. eapply step_then; [exact H2|]. apply step_yield. }
  case_bool_decide as Hb; [|by apply kept_step]. eapply kept_then; [exact H3|congruence|]. apply dispatch_kept.
Qed.
(** ** Events *)

Lemma sigint_inert fg k sc : sched_wf sc -> sched_inert sc (raise_sigint fg k sc).2.
Proof.
  intros Hwf. apply (for_range_ind (fun _ x => sched_inert sc x)); [by apply sched_inert_refl|].
  intros j x Hj Hx. eapply sched_inert_trans; [exact Hx|]. assert (slot_ok j) as Hs by exact Hj. destruct Hx as [Hw _ _ _].
  unfold sigint_slot. cbv zeta. destruct (_ || _ || _); [by apply sched_inert_refl|].
  set (f := set_sig_pending _). assert (sched_inert x (upd_task j f x)) as H1 by (by apply upd_task_inert).
  destruct (_ && _); [|exact H1]. eapply sched_inert_trans; [exact H1|].
  eapply sched_inert_trans; [by apply (upd_task_inert j (set_wait_pipe 0)); [apply H1| |]|].
  apply wake_inert; [|done]. apply upd_task_wf, upd_task_wf, Hw.
Qed.

Definition on_key (status sc : Z) s : sys A KH N :=
  let '(k, x) := kbd_interrupt status sc (console_fg_pgid s) (kb s) (sch s) in set_kb k (set_sch x s).

Lemma step_key status sc s : sys_ok s -> step s (on_key status sc s).
Proof.
  intros Hok. unfold on_key. assert (sched_inert (sch s) (kbd_interrupt status sc (console_fg_pgid s) (kb s) (sch s)).2) as H.
  { pose proof (sched_inert_refl (sch s) (ok_wf _ Hok)). unfold kbd_interrupt. cbv zeta.
    repeat (case_match; [done|]). case_match; [|done]. by apply sigint_inert, ok_wf. }
  destruct (kbd_interrupt _ _ _ _ _) as [k x]. eapply step_then; [apply step_inert; [done|by apply (inert_sched s x)]|].
  intros Hok1. by apply step_same.
Qed.

(** What happens on the machine while user code is not computing: a system
    call is made; a parked call goes on (a pipe write with what is left of
    its data, a console read with what it has stored, any other call from the
    head of its loop); the idle task looks for work; an interrupt arrives. *)
Inductive kernel_step s : sys A KH N -> Prop :=
  | ks_syscall num a1 a2 a3 a4 a5 a6 : kernel_step s (syscall_handler d num a1 a2 a3 a4 a5 a6 s).2
  | ks_resume num a1 a2 a3 a4 a5 a6 : kernel_step s (dispatch d num a1 a2 a3 a4 a5 a6 s).2
  | ks_write fd buf count rest : kernel_step s (sys_write_turn (d_kernel_pml4 d) (d_dev d) (d_junk d) fd buf count rest s).2
  | ks_read buf count got at_poll : kernel_step s (console_resume (d_kernel_pml4 d) buf count got at_poll s).2
  | ks_idle : kernel_step s (set_sch (idle_step (d_kernel_pml4 d) (sch s)) s)
  | ks_timer : kernel_step s (set_sch (sched_timer_tick (sch s)) s)
  | ks_key status sc : kernel_step s (on_key status sc s)
  | ks_usb_key c : kernel_step s (set_kb (kbd_usb_push c (kb s)) s)
  | ks_mouse status data : kernel_step s (set_mous (mouse_interrupt status data (mous s)) s).

Lemma kernel_step_kept s s' : kernel_step s s' -> sys_ok s -> kept s s'.
Proof.
  intros [] Hok; [| |apply kept_step..].
  - by apply handler_kept.
  - by apply dispatch_kept.
  - by apply step_write_turn.
  - unfold console_resume, console_done. pose proof (step_console (d_kernel_pml4 d) (Z.to_nat (count - got)) buf got at_poll s Hok) as H.
    destruct (console_turn _ _ _ _ _ _) as [[r|g ap] x]; exact H.
  - unfold idle_step. destruct (g_resched_requested (sch s)); [|by apply step_same]. set (s1 := set_sch (set_resched false (sch s)) s).
    assert (step s s1) as H1 by (by apply step_sched). eapply step_then; [exact H1|]. exact (step_yield (d_kernel_pml4 d) s1).
  - by apply step_sched.
  - by apply step_key.
  - by apply step_same.
  - by apply step_same.
Qed.


End Safe.

(** ** rudo *)

Section Rudo.
Context {A : Type} `{FA : FrameAlloc A} {KH : Type} {NH : NodeHeap KH} {N : Type}.
Implicit Types s : sys A KH N.

Lemma find_pid_upd i f pid s :
  sched_wf (sch s) -> slot_ok i -> ident (f (tk s i)) = (t_uid (f (tk s i)), t_pid (tk s i), t_parent_pid (tk s i), is_free (tk s i)) ->
  sched_find_pid pid (sch (upd i f s)) = sched_find_pid pid (sch s).
Proof.
  intros Hwf Hi E. injection E as E1 _ E2. unfold sched_find_pid. generalize (Z.to_nat MAX_TASKS) 0.
  intros n. induction n as [|n IH]; intros k; cbn [find_slot]; [done|]. rewrite IH.
  assert (E : task_at (sch (upd i f s)) k = if k =? i then f (tk s i) else tk s k) by (by rewrite <- tk_upd).
  rewrite E. clear E. destruct (Z.eqb_spec k i) as [Hk|]; [|done]. unfold is_free in E2. rewrite Hk. fold (tk s i). by rewrite E1, E2.
Qed.

End Rudo.

(** ** The invariant holds of a running system *)

#[local] Instance demo_nic : Nic unit := silent_nic.
Definition demo_machine : machine pmm := mkMachine OFF 0x1000 0x9000 0 (fun _ => None) None [] id (fun _ _ => []).

(** What holds of every slot of the example, checked by evaluation. *)
Lemma demo_slot (f : task -> bool) : forallb f (tasks demo_procs) = true -> forall j, slot_ok j -> f (tk demo_sys j) = true.
Proof.
  intros H j Hj. rewrite forallb_forall in H. apply H, list_elem_of_In, list_elem_of_lookup.
  exists (Z.to_nat j). unfold slot_ok, MAX_TASKS in Hj. unfold tk, task_at, znth, zlookup. rewrite (proj2 (Z.ltb_ge j 0)) by lia.
  change (sch demo_sys) with demo_procs. destruct (tasks demo_procs !! Z.to_nat j) eqn:E; [done|].
  apply lookup_ge_None_1 in E. change (length (tasks demo_procs)) with 64%nat in E. lia.
Qed.

Lemma demo_sys_ok : sys_ok demo_sys.
Proof.
  assert (Hp : Forall (Forall (fun f => f_pipe f = 0)) (tables demo_procs)) by (apply (bool_decide_eq_true_1 _); by vm_compute).
  split.
  - split; [exact demo_procs_wf| |by intros p q [=]]. split; [apply (bool_decide_eq_true_1 _); by vm_compute|by intros p q [=]| |by intros p q [=]].
    eapply List.Forall_impl; [|exact Hp]. intros l. apply List.Forall_impl. intros f Hf Hne. by destruct Hne.
  - assert (forall q, fblock demo_vfs q = 0) as H0.
    { intros q. unfold fblock, node_at. change (nodes demo_vfs) with ({[4096 := mkNode [47] VFS_DIRECTORY [] 0 0 0 []]} : gmap Z vnode).
      destruct (decide (q = 4096)) as [->|Hq]; [done|]. by rewrite lookup_singleton_ne. }
    split; intros q; change (fsys demo_sys) with demo_vfs; by rewrite H0.
  - intros j Hj _. eapply (Forall_lookup_1 _ _ _ _ Hp), tables_lookup; [exact demo_procs_wf|done].
  - intros c [= <-]. reflexivity.
  - intros j Hj Hf. pose proof (demo_slot (fun t => is_free t || ((0 <=? t_pid t) && (t_pid t <? 4) && ((t_pid t =? 0) || (t_parent_pid t <? t_pid t)))) eq_refl j Hj) as H.
    cbv beta in H. rewrite Hf in H. bool_hyps. change (next_pid (sch demo_sys)) with 4. lia.
Qed.



Example setuid_refused : syscall_handler demo_machine SYS_SETUID 0 0 0 0 0 0 demo_sys = (Ret (-1), demo_sys).
Proof. reflexivity. Qed.

