(* ===== verification/Idt.v ===== *)
(** * Interrupts (kernel/src/arch/x86_64/idt.c, gdt.c, kernel/src/lib/panic.c)

    The descriptor tables as the processor reads them, the dispatcher every
    exception and interrupt goes through, and the panic screen.  What the
    handlers read from the hardware is an argument ([inputs]); writes to the
    interrupt controllers are logged.  Functions registered for a line are
    values of the table.  Messages on the serial port are left out. *)
From S2P Require Import Prelude Net Font Screen Gfx Kbd Mouse Mem FrameAlloc Pmm Task Sched Pipe Pmap Libk Vfs Devfs SysState SysFd SysFdSpec SysSig SysProc SysMem Syscall SysInv SysKeep SysForkWait SysSafe VfsSpec SysDemo.

(** ** Segments *)

Definition GDT_KERNEL_CODE : Z := 0x08.
Definition GDT_KERNEL_DATA : Z := 0x10.
Definition GDT_USER_CODE : Z := 0x20.
Definition GDT_USER_DATA : Z := 0x18.
Definition GDT_TSS : Z := 0x28.
Definition SIZEOF_TSS : Z := 104.

Definition mk_desc (limit_low base_low base_mid access gran base_high : Z) : Z :=
  Z.lor (Z.lor (Z.lor (Z.lor (Z.lor limit_low (Z.shiftl base_low 16)) (Z.shiftl base_mid 32)) (Z.shiftl access 40)) (Z.shiftl gran 48)) (Z.shiftl base_high 56).

Definition gdt_set_entry (num access gran : Z) (gdt : list Z) : list Z := zinsert num (mk_desc 0 0 0 access gran 0) gdt.

Definition gdt_set_tss (num base limit : Z) (gdt : list Z) : list Z :=
  let gdt := zinsert num (mk_desc limit (Z.land base 0xFFFF) (Z.land (Z.shiftr base 16) 0xFF) 0x89 (Z.land (Z.shiftr limit 16) 0xF) (Z.land (Z.shiftr base 24) 0xFF)) gdt in
  zinsert (num + 1) (u32 (Z.shiftr base 32)) gdt.

(** The fields of the task state segment the kernel uses. *)
Record tss := mkTss { rsp0 : Z; ist1 : Z; iopb_offset : Z }.

(** The table and the segment [gdt_init] leaves, the latter at [base]; the
    page is the stack of the exception handlers. *)
Definition gdt_init {A : Type} `{FA : FrameAlloc A} (base : Z) (a : A) : list Z * tss * A :=
  let gdt := replicate 7 0 in
  let gdt := gdt_set_entry 0 0x00 0x00 gdt in
  let gdt := gdt_set_entry 1 0x9A 0x20 gdt in
  let gdt := gdt_set_entry 2 0x92 0x00 gdt in
  let gdt := gdt_set_entry 3 0xF2 0x00 gdt in
  let gdt := gdt_set_entry 4 0xFA 0x20 gdt in
  let gdt := gdt_set_tss 5 base (SIZEOF_TSS - 1) gdt in
  let '(page, a) := fa_alloc 1 a in
  (gdt, mkTss 0 (page .+ PAGE) SIZEOF_TSS, a).

(** ** Gates *)

Definition IRQ_BASE : Z := 32.
Definition IRQ_COUNT : Z := 16.
Definition TIMER_VECTOR : Z := 48.
Definition IDT_KERNEL_GATE : Z := 0x8E.

Record idt_entry := mkGate { offset_low : Z; selector : Z; ist : Z; type_attr : Z; offset_mid : Z; offset_high : Z }.
Definition no_gate : idt_entry := mkGate 0 0 0 0 0 0.

Definition idt_set_gate (vector handler sel flags : Z) (idt : list idt_entry) : list idt_entry :=
  zinsert vector
    (mkGate (Z.land handler 0xFFFF) sel (if vector <? 32 then 1 else 0) flags (Z.land (Z.shiftr handler 16) 0xFFFF) (Z.land (Z.shiftr handler 32) 0xFFFFFFFF)) idt.

(** [stub v]: the address of the assembly stub for vector [v]. *)
Definition idt_init (stub : Z -> Z) : list idt_entry :=
  let idt := replicate 256 no_gate in
  let idt := for_range 32 0 (fun i => idt_set_gate i (stub i) GDT_KERNEL_CODE IDT_KERNEL_GATE) idt in
  let idt := for_range (Z.to_nat IRQ_COUNT) 0 (fun i => idt_set_gate (IRQ_BASE + i) (stub (IRQ_BASE + i)) GDT_KERNEL_CODE IDT_KERNEL_GATE) idt in
  let idt := idt_set_gate 255 (stub 255) GDT_KERNEL_CODE IDT_KERNEL_GATE idt in
  idt_set_gate TIMER_VECTOR (stub TIMER_VECTOR) GDT_KERNEL_CODE IDT_KERNEL_GATE idt.

(** ** The interrupt controllers *)

Definition PIC1_CMD : Z := 0x20.
Definition PIC1_DAT : Z := 0x21.
Definition PIC2_CMD : Z := 0xA0.
Definition PIC2_DAT : Z := 0xA1.
Definition PIC_EOI : Z := 0x20.

(** The bytes written, as (port, value). *)
Definition pic_remap (offset1 offset2 : Z) : list (Z * Z) :=
  [(PIC1_CMD, 0x11); (PIC2_CMD, 0x11); (PIC1_DAT, offset1); (PIC2_DAT, offset2); (PIC1_DAT, 0x04); (PIC2_DAT, 0x02);
   (PIC1_DAT, 0x01); (PIC2_DAT, 0x01); (PIC1_DAT, 0x00); (PIC2_DAT, 0x00)].
Definition pic_send_eoi (irq : Z) : list (Z * Z) := (if 8 <=? irq then [(PIC2_CMD, PIC_EOI)] else []) ++ [(PIC1_CMD, PIC_EOI)].

(** ** Panic *)

Definition PANIC_BG : Z := 0xFF0078D7.
Definition panic_reason (fmt : list Z) (args : list arg) : list Z := c_string (take 255 (vsnprintf_mini 255 fmt args)).
Definition esc (s : string) : list Z := 27 :: bs s.
Definition line (s : list Z) : list Z := s ++ [10].

(** The screen [panic] leaves; [cur]: name, pid and group of the current task. *)
Definition panic_screen (reason : list Z) (cur : option (list Z * Z * Z)) (uptime_ticks : Z) (t : tty) : tty :=
  let t := tty_set_colors 0xFFFFFFFF PANIC_BG (gfx_clear PANIC_BG t) in
  let t := tty_printf (esc "[H") [] t in
  let t := tty_printf [10] [] t in
  let t := tty_printf (line (bs "    :(")) [] t in
  let t := tty_printf [10] [] t in
  let t := tty_printf (bs "    " ++ esc "[1;97mMMIX KERNEL PANIC" ++ line (esc "[39m")) [] t in
  let t := tty_printf [10] [] t in
  let t := tty_printf (bs "    " ++ esc "[1;93m%s" ++ line (esc "[39m")) [AStr (Some reason)] t in
  let t := tty_printf [10] [] t in
  let t := match cur with
           | Some (name, pid, pgid) => tty_printf (line (bs "    Task:    %s (PID %d, PGID %d)")) [AStr (Some name); AInt pid; AInt pgid] t
           | None => tty_printf (line (bs "    Task:    <none>")) [] t
           end in
  let t := tty_printf (line (bs "    Uptime:  %u s")) [AInt (u32 (uptime_ticks / 50))] t in
  let t := tty_printf [10] [] t in
  let t := tty_printf (line (bs "    The system has been halted.")) [] t in
  tty_printf (line (bs "    Reset the machine to recover.")) [] t.

(** ** The dispatcher *)

Definition exception_messages : list (list Z) := bs <$>
  ["Division By Zero"; "Debug"; "Non Maskable Interrupt"; "Breakpoint"; "Overflow"; "Bound Range Exceeded"; "Invalid Opcode"; "Device Not Available"; "Double Fault";
   "Coprocessor Segment Overrun"; "Invalid TSS"; "Segment Not Present"; "Stack-Segment Fault"; "General Protection Fault"; "Page Fault"; "Reserved";
   "x87 Floating-Point Exception"; "Alignment Check"; "Machine Check"; "SIMD Floating-Point Exception"; "Virtualization Exception"; "Control Protection Exception";
   "Reserved"; "Reserved"; "Reserved"; "Reserved"; "Reserved"; "Reserved"; "Hypervisor Injection Exception"; "VMM Communication Exception"; "Security Exception"; "Reserved"].

Record interrupt_frame := mkFrame { i_rip : Z; i_cs : Z; i_rflags : Z; i_rsp : Z; i_ss : Z }.
Record trace_ent := mkTrace { tr_vec : Z; tr_frame : interrupt_frame }.
Definition TRACE_CAP : Z := 256.

(** What the handlers read: control registers, and the status and data ports
    of the keyboard controller. *)
Record inputs := mkInputs { in_cr0 : Z; in_cr2 : Z; in_status : Z; in_data : Z }.

(** The interrupted code goes on, or the machine is halted with a message. *)
Inductive isr_end := Resume | Halted (reason : list Z).

Section Isr.
Context {A : Type} `{FA : FrameAlloc A} {KH : Type} {NH : NodeHeap KH} {N : Type} `{NC : Nic N}.
Variable d : machine A.
Implicit Types s : sys A KH N.

(** [g_lapic]: the local APIC is in use.  [g_ts]: bit TS of CR0 was cleared. *)
Record intr := mkIntr {
  g_pit_ticks : Z;
  g_vlog_count : Z;
  g_tr : list trace_ent;
  g_tr_i : Z;
  g_irq_handlers : list (option (sys A KH N -> sys A KH N));
  g_lapic : bool;
  g_clts : nat;
  pic_log : list (Z * Z);
  lapic_eois : nat;
}.

Definition irq_register_handler (irq : Z) (fn : sys A KH N -> sys A KH N) (i : intr) : intr :=
  if irq <? 16
  then mkIntr (g_pit_ticks i) (g_vlog_count i) (g_tr i) (g_tr_i i) (zinsert irq (Some fn) (g_irq_handlers i)) (g_lapic i) (g_clts i) (pic_log i) (lapic_eois i)
  else i.

Definition set_pit (v : Z) (i : intr) : intr :=
  mkIntr v (g_vlog_count i) (g_tr i) (g_tr_i i) (g_irq_handlers i) (g_lapic i) (g_clts i) (pic_log i) (lapic_eois i).
Definition clts (i : intr) : intr :=
  mkIntr (g_pit_ticks i) (g_vlog_count i) (g_tr i) (g_tr_i i) (g_irq_handlers i) (g_lapic i) (S (g_clts i)) (pic_log i) (lapic_eois i).
Definition pic_write (l : list (Z * Z)) (i : intr) : intr :=
  mkIntr (g_pit_ticks i) (g_vlog_count i) (g_tr i) (g_tr_i i) (g_irq_handlers i) (g_lapic i) (g_clts i) (pic_log i ++ l) (lapic_eois i).
Definition lapic_eoi (i : intr) : intr :=
  mkIntr (g_pit_ticks i) (g_vlog_count i) (g_tr i) (g_tr_i i) (g_irq_handlers i) (g_lapic i) (g_clts i) (pic_log i) (if g_lapic i then S (lapic_eois i) else lapic_eois i).

(** The trace of the last 256 interrupts. *)
Definition trace (int_no : Z) (f : interrupt_frame) (i : intr) : intr :=
  mkIntr (g_pit_ticks i) (u32 (g_vlog_count i + 1)) (zinsert (g_tr_i i mod TRACE_CAP) (mkTrace int_no f) (g_tr i)) (u32 (g_tr_i i + 1))
    (g_irq_handlers i) (g_lapic i) (g_clts i) (pic_log i) (lapic_eois i).

Definition task_line s : option (list Z * Z * Z) :=
  match current_task s with Some c => Some (t_name (tk s c), t_pid (tk s c), t_pgid (tk s c)) | None => None end.

Definition panic (fmt : list Z) (args : list arg) (i : intr) s : isr_end * intr * sys A KH N :=
  let reason := panic_reason fmt args in
  (Halted reason, i, set_scr (panic_screen reason (task_line s) (g_uptime_ticks (sch s)) (scr s)) s).

(** The page-fault branch. *)
Definition page_fault (hw : inputs) (err_code : Z) (f : interrupt_frame) (i : intr) s : isr_end * intr * sys A KH N :=
  let cr2 := in_cr2 hw in
  let '(ok, v) := pmap_handle_fault (d_off d) (tk s <$> current_task s) cr2 err_code (vmm s) in
  let s := set_vmm v s in
  if ok then (Resume, i, s)
  else if negb (g_rudo_fault_requester s =? 0) then
    let req := g_rudo_fault_requester s in
    let s := set_rudo_fault 0 s in
    let name := match sched_find_pid req (sch s) with Some r => t_name (tk s r) | None => bs "?" end in
    panic (bs "Intentional page fault (rudo)" ++ [10] ++ bs "    requested by PID %d (%s), fault address 0x%lx") [AInt req; AStr (Some name); AInt cr2] i s
  else
    let unhandled s :=
      panic (bs "Unhandled page fault (#14) at 0x%lx, err=0x%lx, rip=0x%lx") [AInt cr2; AInt err_code; AInt (i_rip f)] i s in
    match current_task s with
    | Some c =>
        if negb (Z.land (i_cs f) 3 =? 0) then
          let s := upd c (fun t => set_zombie true (set_exit_status (- SIGSEGV) t)) s in
          let s := wake_opt (sched_find_pid (t_parent_pid (tk s c)) (sch s)) s in
          let s' := yield (d_kernel_pml4 d) s in
          if bool_decide (current_task s' = Some c) then unhandled s' else (Resume, i, s')
        else unhandled s
    | None => unhandled s
    end.

Definition isr_handler (hw : inputs) (int_no err_code : Z) (f : interrupt_frame) (i : intr) s : isr_end * intr * sys A KH N :=
  let i := trace int_no f i in
  if (int_no =? 7) && negb (Z.land (in_cr0 hw) 8 =? 0) then (Resume, clts i, s)
  else if int_no =? 14 then page_fault hw err_code f i s
  else if int_no <? 32 then
    panic (bs "CPU exception #%u (%s), err=0x%lx, rip=0x%lx cs=0x%lx ss=0x%lx rsp=0x%lx")
      [AInt (u32 int_no); AStr (exception_messages !! Z.to_nat int_no); AInt err_code; AInt (i_rip f); AInt (i_cs f); AInt (i_ss f); AInt (i_rsp f)] i s
  else if (int_no =? TIMER_VECTOR) && g_lapic i then (Resume, lapic_eoi i, set_sch (sched_timer_tick (sch s)) s)
  else if int_no <? IRQ_BASE + IRQ_COUNT then
    let irq := int_no - IRQ_BASE in
    let i := pic_write (pic_send_eoi irq) i in
    if int_no =? IRQ_BASE then (Resume, set_pit (u64 (g_pit_ticks i + 1)) i, s)
    else if int_no =? IRQ_BASE + 1 then (Resume, i, on_key (in_status hw) (in_data hw) s)
    else if int_no =? IRQ_BASE + 12 then (Resume, i, set_mous (mouse_interrupt (in_status hw) (in_data hw) (mous s)) s)
    else if irq <? 16 then (Resume, i, match znth None (g_irq_handlers i) irq with Some h => h s | None => s end)
    else (Resume, i, s)
  else (Resume, i, s).
End Isr.

(** * Theorems *)

(** ** Descriptor tables *)

(** Where a gate leads. *)
Definition gate_target (g : idt_entry) : Z := offset_low g + 2 ^ 16 * offset_mid g + 2 ^ 32 * offset_high g.
Definition gate_for (stub : Z -> Z) (v : Z) (g : idt_entry) : Prop :=
  gate_target g = stub v /\ selector g = GDT_KERNEL_CODE /\ type_attr g = IDT_KERNEL_GATE /\ ist g = (if v <? 32 then 1 else 0).

Lemma gate_written stub v idt : 0 <= stub v < 2 ^ 64 -> 0 <= v < zlen idt -> gate_for stub v (znth no_gate (idt_set_gate v (stub v) GDT_KERNEL_CODE IDT_KERNEL_GATE idt) v).
Proof.
  intros Hs Hv. unfold idt_set_gate. rewrite znth_zinsert_eq by done. unfold gate_for, gate_target. cbn [offset_low offset_mid offset_high selector type_attr ist].
  split; [|done]. change 0xFFFF with (2 ^ 16 - 1). change 0xFFFFFFFF with (2 ^ 32 - 1). rewrite !land_ones_mod, !Z.shiftr_div_pow2 by lia. lia.
Qed.

(** The vectors below [k] that [used] selects have their gates, the others none. *)
Definition gates (stub : Z -> Z) (used : Z -> Prop) (idt : list idt_entry) : Prop :=
  zlen idt = 256 /\ forall v, 0 <= v < 256 -> (used v -> gate_for stub v (znth no_gate idt v)) /\ (~ used v -> znth no_gate idt v = no_gate).

Lemma gates_add stub (used used' : Z -> Prop) v idt :
  0 <= stub v < 2 ^ 64 -> 0 <= v < 256 -> (forall u, used' u <-> used u \/ u = v) -> gates stub used idt -> gates stub used' (idt_set_gate v (stub v) GDT_KERNEL_CODE IDT_KERNEL_GATE idt).
Proof.
  intros Hs Hv Hu [Hl Hg]. split; [unfold idt_set_gate; by rewrite zlen_insert|]. intros u Hu'. destruct (Z.eq_dec u v) as [->|Hne].
  - split; [intros _; apply gate_written; [done|lia]|]. intros H. destruct H. apply Hu. by right.
  - unfold idt_set_gate. rewrite znth_zinsert_ne by lia. destruct (Hg u Hu') as [H1 H2]. split; intros H; [apply H1|apply H2]; [apply Hu in H; tauto|]. intros H'. apply H, Hu. by left.
Qed.

(** The interrupt table.  Every exception, every line of the two
    controllers, the timer and the spurious vector lead to their own stub,
    through an interrupt gate of ring 0 in the kernel's code segment, with
    the stack of the exceptions and only of these switched to the spare one;
    no other vector has a gate. *)
Theorem idt_gates_correct (stub : Z -> Z) v :
  (forall v, 0 <= stub v < 2 ^ 64) -> 0 <= v < 256 ->
  let g := znth no_gate (idt_init stub) v in
  (v <= TIMER_VECTOR \/ v = 255 -> gate_for stub v g) /\ (~ (v <= TIMER_VECTOR \/ v = 255) -> g = no_gate).
Proof.
  intros Hs Hv g. enough (gates stub (fun v => v <= TIMER_VECTOR \/ v = 255) (idt_init stub)) as [_ H] by (by apply H).
  unfold idt_init. cbv zeta. unfold TIMER_VECTOR. apply (gates_add _ (fun v => v < 48 \/ v = 255)); [done|lia|lia|].
  apply (gates_add _ (fun v => v < 48)); [done|lia|lia|].
  apply (for_range_ind (fun k => gates stub (fun v => v < 32 + k)) 16 0).
  - apply (for_range_ind (fun k => gates stub (fun v => v < k)) 32 0).
    + split; [done|]. intros u Hu. split; [lia|]. intros _. unfold znth, zlookup. rewrite (proj2 (Z.ltb_ge u 0)), lookup_replicate_2 by lia. done.
    + intros k idt Hk. apply gates_add; [done|lia|lia].
  - intros k idt Hk. unfold IRQ_BASE. apply gates_add; [done|lia|lia].
Qed.

Lemma idt_gates_correct_witness : gate_target (znth no_gate (idt_init (fun v => 0xFFFFFFFF80200000 + 16 * u8 v)) 33) = 0xFFFFFFFF80200210.
Proof.
  destruct (idt_gates_correct (fun v => 0xFFFFFFFF80200000 + 16 * u8 v) 33) as [H _]; [intros v; pose proof (u8_range v); lia|lia|].
  destruct H as [H _]; [left; vm_compute; congruence|exact H].
Defined.

(** The selectors the rest of the kernel uses name the right segments: code
    of rings 0 and 3 in long mode, data of rings 0 and 3, and the address of
    the task state segment; [sysret] finds the user's segments 8 and 16 bytes
    above the kernel's data segment. *)
Definition desc_type (gdt : list Z) (sel : Z) : Z := Z.land (Z.shiftr (znth 0 gdt (sel / 8)) 40) 0xFF.
Definition desc_long (gdt : list Z) (sel : Z) : bool := Z.testbit (znth 0 gdt (sel / 8)) 53.
Definition tss_base (gdt : list Z) (sel : Z) : Z :=
  let lo := znth 0 gdt (sel / 8) in
  (lo / 2 ^ 16) mod 2 ^ 24 + 2 ^ 24 * (lo / 2 ^ 56 mod 2 ^ 8) + 2 ^ 32 * (znth 0 gdt (sel / 8 + 1) mod 2 ^ 32).

Lemma mk_desc_sum l b m a g h :
  0 <= l < 2 ^ 16 -> 0 <= b < 2 ^ 16 -> 0 <= m < 2 ^ 8 -> 0 <= a < 2 ^ 8 -> 0 <= g < 2 ^ 8 -> 0 <= h ->
  mk_desc l b m a g h = l + 2 ^ 16 * b + 2 ^ 32 * m + 2 ^ 40 * a + 2 ^ 48 * g + 2 ^ 56 * h.
Proof.
  intros. unfold mk_desc.
  assert (Hor : forall x y k, 0 <= k -> 0 <= x < 2 ^ k -> Z.lor x (Z.shiftl y k) = x + 2 ^ k * y).
  { intros x y k Hk Hx. pose proof (Z.add_lor_land x (Z.shiftl y k)) as E. rewrite Z.shiftl_mul_pow2 in * by done.
    assert (Z.land x (y * 2 ^ k) = 0); [|lia]. apply Z.bits_inj'. intros n Hn. rewrite Z.land_spec, Z.bits_0.
    destruct (Z.ltb_spec n k); [rewrite Z.mul_pow2_bits_low by lia; apply andb_false_r|].
    destruct (Z.eq_dec x 0) as [->|]; [by rewrite Z.bits_0|]. rewrite (Z.bits_above_log2 x n); [done|lia|]. apply Z.log2_lt_pow2; [lia|].
    assert (2 ^ k <= 2 ^ n) by (apply Z.pow_le_mono_r; lia). lia. }
  rewrite (Hor l b 16) by lia. rewrite (Hor (l + 2 ^ 16 * b) m 32) by lia. rewrite (Hor (l + 2 ^ 16 * b + 2 ^ 32 * m) a 40) by lia.
  rewrite (Hor (l + 2 ^ 16 * b + 2 ^ 32 * m + 2 ^ 40 * a) g 48) by lia. rewrite Hor by lia. lia.
Qed.

Lemma gdt_segments {A : Type} `{FA : FrameAlloc A} base (a : A) : 0 <= base < 2 ^ 64 ->
  let gdt := (gdt_init base a).1.1 in
  desc_type gdt GDT_KERNEL_CODE = 0x9A /\ desc_long gdt GDT_KERNEL_CODE = true /\ desc_type gdt GDT_KERNEL_DATA = 0x92 /\
  desc_type gdt GDT_USER_CODE = 0xFA /\ desc_long gdt GDT_USER_CODE = true /\ desc_type gdt GDT_USER_DATA = 0xF2 /\
  GDT_USER_DATA = GDT_KERNEL_DATA + 8 /\ GDT_USER_CODE = GDT_KERNEL_DATA + 16 /\ tss_base gdt GDT_TSS = base.
Proof.
  intros Ht. unfold gdt_init. destruct (fa_alloc 1 a) as [page a']. cbn [fst snd]. do 8 (split; [reflexivity|]). unfold tss_base. change (GDT_TSS / 8) with 5. cbv zeta. unfold gdt_set_tss. cbv zeta.
  set (g0 := gdt_set_entry 4 0xFA 0x20 _). assert (zlen g0 = 7) by reflexivity. rewrite znth_zinsert_ne, znth_zinsert_eq, znth_zinsert_eq by (rewrite ?zlen_insert; lia).
  change 0xFFFF with (2 ^ 16 - 1). change 0xFF with (2 ^ 8 - 1). change 0xF with (2 ^ 4 - 1). rewrite !land_ones_mod, !Z.shiftr_div_pow2 by lia.
  rewrite mk_desc_sum by (try lia; vm_compute; split; congruence). unfold u32. change (SIZEOF_TSS - 1) with 103. change (103 / 2 ^ 16 mod 2 ^ 4) with 0. lia.
Qed.

(** ** The dispatcher *)

Section IsrSpec.
Context {A : Type} `{FA : FrameAlloc A} {KH : Type} {NH : NodeHeap KH} {NL : NodeHeapLaws KH} {N : Type} `{NC : Nic N}.
Variable d : machine A.
Implicit Types s : sys A KH N.

Lemma step_panic fmt args i s : sys_ok s -> step s (panic fmt args i s).2.
Proof. intros Hok. by apply step_same. Qed.

Lemma step_page_fault hw err f i s : sys_ok s -> step s (page_fault d hw err f i s).2.
Proof.
  intros Hok. unfold page_fault. cbv zeta. destruct (pmap_handle_fault _ _ _ _ _) as [ok v]. set (s1 := set_vmm v s).
  assert (step s s1) as H1 by (by apply step_same). destruct ok; [exact H1|]. eapply step_then; [exact H1|]. clearbody s1. clear s H1 Hok. intros Hok.
  destruct (negb _).
  { set (s2 := set_rudo_fault 0 s1). assert (step s1 s2) as H2 by (by apply step_same). eapply step_then; [exact H2|]. intros Hok2. by apply step_panic. }
  destruct (current_task s1) as [c|] eqn:Hc; [|by apply step_panic]. destruct (negb _); [|by apply step_panic].
  destruct (ok_current _ _ Hok Hc) as [Hs _]. set (s2 := upd c _ s1). assert (step s1 s2) as H2 by (by apply step_upd).
  set (s3 := wake_opt _ s2). assert (step s2 s3) as H3 by (apply step_wake_opt, H2).
  assert (step s1 (yield (d_kernel_pml4 d) s3)) as H4 by (eapply step_trans; [exact H2|]; eapply step_trans; [exact H3|]; apply step_yield, H3).
  case_bool_decide; [|exact H4]. eapply step_then; [exact H4|]. intros Hok2. by apply step_panic.
Qed.


(** Waking the parent of a task that has ended: its state apart, no task
    changes; nobody who could run stops being able to. *)
Lemma wake_opt_spec p s c :
  sched_wf (sch s) -> (forall q, p = Some q -> slot_ok q) -> t_zombie (tk s c) = true ->
  let s2 := wake_opt p s in
  sched_wf (sch s2) /\ current_task s2 = current_task s /\ scheduling_started (sch s2) = scheduling_started (sch s) /\ tk s2 c = tk s c /\
  (forall k, set_state TASK_READY (tk s2 k) = set_state TASK_READY (tk s k)) /\ (forall k, runnable (tk s k) = true -> runnable (tk s2 k) = true) /\
  (forall q, p = Some q -> t_state (tk s q) = TASK_BLOCKED -> t_zombie (tk s q) = false -> runnable (tk s2 q) = true).
Proof.
  intros Hw Hp Hz. destruct p as [q|]; cbn [wake_opt]; [|by split_and!]. pose proof (Hp q eq_refl) as Hq.
  unfold sched_wake. change (task_at (sch s)) with (tk s).
  destruct (state_eqb (t_state (tk s q)) TASK_BLOCKED && negb (t_zombie (tk s q))) eqn:Ew.
  - apply andb_true_iff in Ew as [E1 E2]. assert (q <> c) as Hqc by (intros ->; by rewrite Hz in E2).
    assert (T : forall k, tk (set_sch (upd_task q (set_state TASK_READY) (sch s)) s) k = if k =? q then set_state TASK_READY (tk s q) else tk s k) by (intros k; by apply tk_upd).
    split_and!; [by apply upd_task_wf|done|done|by rewrite T, (proj2 (Z.eqb_neq c q))| | |].
    + intros k. rewrite T. by destruct (Z.eqb_spec k q) as [->|].
    + intros k Hr. rewrite T. by destruct (Z.eqb_spec k q) as [->|].
    + intros q' [= <-] _ _. by rewrite T, Z.eqb_refl.
  - replace (set_sch (sch s) s) with s by (by destruct s). split_and!; try done.
    intros q' [= <-] E1 E2. rewrite E1, E2 in Ew. done.
Qed.

Lemma pick_next_other c j x : slot_ok c -> slot_ok j -> j <> c -> runnable (task_at x j) = true -> pick_next (Z.to_nat MAX_TASKS) 1 c c x <> c.
Proof.
  intros Hs Hj Hjc Hr. destruct (pick_next_chosen c x Hs) as [Hn [[_ Hmin]|[_ Hno]]]; [|by rewrite (Hno j Hj) in Hr].
  intros E. specialize (Hmin j Hj Hr). rewrite E in Hmin. unfold ahead, slot_ok, MAX_TASKS in *. lia.
Qed.

(** C16: a user's page fault is contained.  A fault in user mode that is
    neither a copy-on-write break nor stack growth, while another task can
    run, ends exactly the faulting task: it becomes a zombie that is not
    scheduled again, with status -SIGSEGV; its parent is runnable again if it
    slept; nothing else of any other task changes; and the CPU goes on with
    another task. *)
Theorem user_fault_contained hw err f i s c j :
  sys_ok s -> scheduling_started (sch s) = true -> current_task s = Some c -> t_state (tk s c) = TASK_RUNNING ->
  slot_ok j -> j <> c -> runnable (tk s j) = true -> Z.land (i_cs f) 3 <> 0 ->
  (pmap_handle_fault (d_off d) (Some (tk s c)) (in_cr2 hw) err (vmm s)).1 = false -> g_rudo_fault_requester s = 0 ->
  let r := isr_handler d hw 14 err f i s in
  let s' := r.2 in
  r.1.1 = Resume /\ t_zombie (tk s' c) = true /\ t_exit_status (tk s' c) = - SIGSEGV /\ t_state (tk s' c) = TASK_BLOCKED /\
  (exists n, n <> c /\ current_task s' = Some n) /\
  (forall k, k <> c -> set_state TASK_READY (tk s' k) = set_state TASK_READY (tk s k)) /\
  (forall p, sched_find_pid (t_parent_pid (tk s c)) (sch s) = Some p -> p <> c -> t_state (tk s p) = TASK_BLOCKED -> t_zombie (tk s p) = false -> runnable (tk s' p) = true).
Proof.
  intros Hok Hst Hc Hrun Hj Hjc Hjr Hcs Hpf Hrq r s'. unfold r in *. unfold s', isr_handler. cbv zeta. cbn [Z.eqb Pos.eqb andb]. unfold page_fault. cbv zeta. rewrite Hc. cbn [fmap option_fmap option_map].
  destruct (pmap_handle_fault _ _ _ _ _) as [ok v]. cbn in Hpf. subst ok. cbn [g_rudo_fault_requester set_vmm]. rewrite Hrq. cbn [Z.eqb negb].
  change (current_task (set_vmm v s)) with (current_task s). rewrite Hc. rewrite (proj2 (Z.eqb_neq _ 0)) by done. cbn [negb].
  destruct (ok_current _ _ Hok Hc) as [Hs Hu]. pose proof (ok_wf _ Hok) as Hwf.
  set (s1 := upd c _ (set_vmm v s)). assert (Hw1 : sched_wf (sch s1)) by (by apply upd_task_wf).
  assert (T1 : forall k, tk s1 k = if k =? c then set_zombie true (set_exit_status (- SIGSEGV) (tk s c)) else tk s k) by (intros k; unfold s1; rewrite tk_upd by done; done).
  set (p := sched_find_pid _ (sch s1)).
  assert (Hp : p = sched_find_pid (t_parent_pid (tk s c)) (sch s)).
  { unfold p. rewrite T1, Z.eqb_refl. cbn [t_parent_pid set_zombie set_exit_status]. unfold s1. rewrite find_pid_upd by done. done. }
  assert (Ho : forall k, k <> c -> tk s1 k = tk s k) by (intros k Hk; by rewrite T1, (proj2 (Z.eqb_neq k c))).
  assert (Hz : t_zombie (tk s1 c) = true) by (by rewrite T1, Z.eqb_refl).
  assert (Hps : forall q, p = Some q -> slot_ok q) by (intros q E; rewrite Hp in E; by destruct (find_pid_slot _ _ _ E)).
  destruct (wake_opt_spec p s1 c Hw1 Hps Hz) as (Hw2 & Hc2 & Hst2 & Tc & Ts & Tr & Tp). set (s2 := wake_opt p s1) in *. clearbody s2.
  assert (current_task s2 = Some c) as Hcur2 by (by rewrite Hc2).
  set (n := pick_next (Z.to_nat MAX_TASKS) 1 c c (sch s2)).
  assert (n <> c) as Hnc by (apply (pick_next_other c j); [done..|]; apply Tr; by rewrite Ho).
  destruct (sched_yield_spec (d_kernel_pml4 d) (sch s2) c n Hw2 (eq_trans Hst2 Hst) Hcur2 eq_refl Hnc) as (_ & Hcur & _ & _ & Tyc & Tyn & Tyo & _).
  set (s3 := yield (d_kernel_pml4 d) s2). assert (current_task s3 = Some n) as Hc3 by exact Hcur.
  rewrite bool_decide_eq_false_2 by congruence. cbn [fst snd]. split; [done|].
  assert (tk s3 c = parked (sch s2) (off_cpu (tk s2 c))) as -> by exact Tyc. rewrite Tc, T1, Z.eqb_refl. unfold off_cpu. cbn [t_state set_zombie set_exit_status]. rewrite Hrun.
  split; [done|]. split; [done|]. split; [done|]. split; [by exists n|].
  assert (To : forall k, k <> c -> tk s3 k = (if k =? n then set_state TASK_RUNNING (tk s2 n) else tk s2 k)).
  { intros k Hk. destruct (Z.eqb_spec k n) as [->|Hkn]; [exact Tyn|by apply Tyo]. }
  split.
  - intros k Hk. rewrite To by done. rewrite <- (Ho k Hk), <- Ts. by destruct (Z.eqb_spec k n) as [->|].
  - intros q E Hq E1 E2. rewrite To by done. destruct (q =? n); [done|]. apply Tp; [by rewrite Hp|by rewrite Ho..].
Qed.
End IsrSpec.

(** ** A fault on the example machine *)

#[local] Instance demo_nic : Nic unit := silent_nic.
Definition demo_frame : interrupt_frame := mkFrame 0x401000 0x23 0x202 0x7FFFF000 0x1B.
Definition demo_intr : intr (A := pmm) (KH := positive) (N := unit) := mkIntr 0 0 (replicate 256 (mkTrace 0 demo_frame)) 0 (replicate 16 None) true 0 [] 0.


(** The shell reads an address that is not mapped. *)
Lemma user_fault_contained_witness :
  let r := isr_handler demo_machine (mkInputs 0 0x10 0 0) 14 5 demo_frame demo_intr demo_sys in
  r.1.1 = Resume /\ t_zombie (tk r.2 3) = true /\ t_exit_status (tk r.2 3) = -11 /\ runnable (tk r.2 1) = true.
Proof.
  destruct (user_fault_contained demo_machine (mkInputs 0 0x10 0 0) 5 demo_frame demo_intr demo_sys 3 0) as (H1 & H2 & H3 & _ & _ & _ & H4);
    [exact demo_sys_ok|done|done|done|unfold slot_ok, MAX_TASKS; lia|done|done|by vm_compute|by vm_compute|done|].
  split; [exact H1|]. split; [exact H2|]. split; [exact H3|]. apply H4; by vm_compute.
Defined.

(** Any other exception of a user program halts the machine: the shell
    divides by zero. *)
Example user_division_halts :
  exists reason, (isr_handler demo_machine (mkInputs 0 0 0 0) 0 0 demo_frame demo_intr demo_sys).1.1 = Halted reason.
Proof. by eexists. Qed.
