(* ===== verification/Ports.v ===== *)
(** * Input and output ports (kernel/src/arch/x86_64/io.h)

    The machine's ports as an interface: each access changes the state of the
    devices behind them, and an input gives a value.  Drivers are proved
    against models of their devices, instances of this class. *)
From S2P Require Import Prelude.

Class Ports (P : Type) := {
  outb : Z -> Z -> P -> P;
  inb : Z -> P -> Z * P;
  outw : Z -> Z -> P -> P;
  inw : Z -> P -> Z * P;
  outl : Z -> Z -> P -> P;
  inl : Z -> P -> Z * P;
}.
