(* ===== verification/Ps2.v ===== *)
(** * The PS/2 controller, the serial line and the FPU

    The commands [mouse_init] (kernel/src/drivers/mouse.c) sends through the
    controller at ports 0x60 and 0x64, the registers [serial_init]
    (lib/libk.c) sets and the control registers [fpu_init]
    (arch/x86_64/fpu.c) changes. *)
From S2P Require Import Prelude Mem Libk Font Screen Mouse Ports.

Definition PS2_DATA : Z := 0x60.
Definition PS2_STATUS : Z := 0x64.
Definition PS2_CMD : Z := 0x64.
Definition PS2_CMD_READ_CONFIG : Z := 0x20.
Definition PS2_CMD_WRITE_CONFIG : Z := 0x60.
Definition PS2_CMD_ENABLE_AUX : Z := 0xA8.
Definition MOUSE_CMD_SET_DEFAULTS : Z := 0xF6.
Definition MOUSE_CMD_ENABLE_DATA : Z := 0xF4.

Definition COM1 : Z := 0x3F8.

Section Ps2.
Context {P : Type} `{PT : Ports P}.
Implicit Types p : P.

(** The status register is read until [f] holds of it. *)
Fixpoint ps2_wait (n : nat) (f : Z -> bool) p : P :=
  match n with
  | O => p
  | S n' => let '(v, p) := inb PS2_STATUS p in if f v then p else ps2_wait n' f p
  end.
Definition ps2_wait_input p : P := ps2_wait (Z.to_nat 10000) (fun v => Z.land v 0x02 =? 0) p.
Definition ps2_wait_output p : P := ps2_wait (Z.to_nat 10000) (fun v => negb (Z.land v 0x01 =? 0)) p.

Definition ps2_write_aux (data : Z) p : P :=
  let p := outb PS2_CMD 0xD4 (ps2_wait_input p) in
  let p := outb PS2_DATA data (ps2_wait_input p) in
  (inb PS2_DATA (ps2_wait_output p)).2.
Definition ps2_read_config p : Z * P := inb PS2_DATA (ps2_wait_output (outb PS2_CMD PS2_CMD_READ_CONFIG (ps2_wait_input p))).
Definition ps2_write_config (cfg : Z) p : P := outb PS2_DATA cfg (ps2_wait_input (outb PS2_CMD PS2_CMD_WRITE_CONFIG (ps2_wait_input p))).

(** The second half of [mouse_init]. *)
Definition mouse_enable p : P :=
  let '(cfg, p) := ps2_read_config p in
  let cfg := Z.lor cfg 0x02 in
  let cfg := Z.land cfg (Z.lxor 0xFF 0x20) in
  let p := ps2_write_config cfg p in
  let p := outb PS2_CMD PS2_CMD_ENABLE_AUX (ps2_wait_input p) in
  let p := (inb PS2_DATA (ps2_wait_output p)).2 in
  ps2_write_aux MOUSE_CMD_ENABLE_DATA (ps2_write_aux MOUSE_CMD_SET_DEFAULTS p).

Definition serial_init p : P :=
  foldl (fun p '(r, v) => outb (COM1 + r) v p) p [(1, 0x00); (3, 0x80); (0, 0x01); (1, 0x00); (3, 0x03); (2, 0xC7); (4, 0x0B)].
End Ps2.

(** The registers of the processor's floating-point units. *)
Record fpu := mkFpu { cr0 : Z; cr4 : Z; x87_reset : bool; mxcsr : Z }.
Definition fpu_init (f : fpu) : fpu :=
  let c0 := Z.lor (Z.land (cr0 f) (u64 (Z.lnot (Z.lor (Z.shiftl 1 2) (Z.shiftl 1 3))))) (Z.shiftl 1 1) in
  let c4 := Z.lor (cr4 f) (Z.lor (Z.shiftl 1 9) (Z.shiftl 1 10)) in
  mkFpu c0 c4 true 0x1F80.

(** * Theorems *)

(** Emulation and the task-switched trap are off, the monitor bit and the two
    SSE bits are on; no other bit of the control registers changes. *)
Lemma fpu_init_bits f i :
  0 <= i < 64 ->
  Z.testbit (cr0 (fpu_init f)) i = (if (i =? 2) || (i =? 3) then false else (i =? 1) || Z.testbit (cr0 f) i) /\
  Z.testbit (cr4 (fpu_init f)) i = ((i =? 9) || (i =? 10) || Z.testbit (cr4 f) i).
Proof.
  intros Hi. unfold fpu_init. cbn [cr0 cr4]. rewrite !Z.lor_spec, !Z.land_spec, !testbit_shl1 by lia. unfold u64. rewrite testbit_mod by lia.
  rewrite Z.lnot_spec, Z.lor_spec, !testbit_shl1 by lia. split.
  - destruct (Z.eqb_spec i 2) as [->|]; [by rewrite andb_false_r|]. destruct (Z.eqb_spec i 3) as [->|]; [by rewrite andb_false_r|]. cbn [orb negb]. rewrite andb_true_r. apply orb_comm.
  - rewrite orb_comm. done.
Qed.

(** ** A controller

    The 8042 as its documentation has it: bytes for the processor queue up in
    [o_out]; a command may take the next data byte. *)
Inductive expects := ToKeyboard | ToConfig | ToMouse.
Record i8042 := mk8042 { o_out : list Z; o_config : Z; o_aux : bool; o_next : expects; o_reporting : bool }.

Definition ps2_command (v : Z) (c : i8042) : i8042 :=
  if v =? 0x20 then mk8042 (o_out c ++ [o_config c]) (o_config c) (o_aux c) (o_next c) (o_reporting c)
  else if v =? 0x60 then mk8042 (o_out c) (o_config c) (o_aux c) ToConfig (o_reporting c)
  else if v =? 0xD4 then mk8042 (o_out c) (o_config c) (o_aux c) ToMouse (o_reporting c)
  else if v =? 0xA8 then mk8042 (o_out c) (o_config c) true (o_next c) (o_reporting c)
  else c.
(** The mouse acknowledges with 0xFA. *)
Definition ps2_data (v : Z) (c : i8042) : i8042 :=
  match o_next c with
  | ToConfig => mk8042 (o_out c) v (o_aux c) ToKeyboard (o_reporting c)
  | ToMouse =>
      if o_aux c then
        mk8042 (o_out c ++ [0xFA]) (o_config c) true ToKeyboard (if v =? 0xF4 then true else if v =? 0xF6 then false else o_reporting c)
      else mk8042 (o_out c) (o_config c) false ToKeyboard (o_reporting c)
  | ToKeyboard => c
  end.
#[export] Instance i8042_ports : Ports i8042 := {
  outb a v c := if a =? 0x64 then ps2_command v c else if a =? 0x60 then ps2_data v c else c;
  inb a c := if a =? 0x64 then ((match o_out c with [] => 0 | _ => 1 end), c)
             else if a =? 0x60 then match o_out c with [] => (0, c) | b :: r => (b, mk8042 r (o_config c) (o_aux c) (o_next c) (o_reporting c)) end
             else (0, c);
  outw a v c := c;
  inw a c := (0, c);
  outl a v c := c;
  inl a c := (0, c);
}.

(** Reading the status changes nothing, so neither does a wait. *)
Lemma ps2_wait_same n f (c : i8042) : ps2_wait n f c = c.
Proof. induction n as [|n IH]; [done|]. cbn [ps2_wait inb i8042_ports]. change (PS2_STATUS =? 0x64) with true. cbv iota. destruct (f _); [done|exact IH]. Qed.

Lemma ps2_wait_input_same (c : i8042) : ps2_wait_input c = c.
Proof. apply ps2_wait_same. Qed.
Lemma ps2_wait_output_same (c : i8042) : ps2_wait_output c = c.
Proof. apply ps2_wait_same. Qed.

Lemma read_config_value cfg aux nx rep : ps2_read_config (mk8042 [] cfg aux nx rep) = (cfg, mk8042 [] cfg aux nx rep).
Proof. unfold ps2_read_config. by rewrite ps2_wait_output_same, ps2_wait_input_same. Qed.
Lemma write_config_value v o cfg aux nx rep : ps2_write_config v (mk8042 o cfg aux nx rep) = mk8042 o v aux ToKeyboard rep.
Proof. unfold ps2_write_config. by rewrite !ps2_wait_input_same. Qed.
Lemma write_aux_value v cfg nx rep : ps2_write_aux v (mk8042 [] cfg true nx rep) = mk8042 [] cfg true ToKeyboard (if v =? 0xF4 then true else if v =? 0xF6 then false else rep).
Proof. unfold ps2_write_aux. by rewrite ps2_wait_output_same, !ps2_wait_input_same. Qed.

(** The mouse is switched on: with no byte waiting in the controller, its
    interrupt is enabled and its clock is not disabled in the configuration,
    no other bit of it changes, the mouse reports movements, and no answer is
    left for the interrupt handlers. *)
Theorem mouse_enable_reports c :
  o_out c = [] -> 0 <= o_config c < 2 ^ 8 ->
  let c' := mouse_enable c in
  o_out c' = [] /\ o_aux c' = true /\ o_reporting c' = true /\
  forall i, 0 <= i < 8 -> Z.testbit (o_config c') i = if i =? 5 then false else (i =? 1) || Z.testbit (o_config c) i.
Proof.
  intros Ho Hc c'. unfold c', mouse_enable. destruct c as [o cfg aux nx rep]. cbn [o_out o_config] in *. subst o.
  rewrite read_config_value, write_config_value, ps2_wait_input_same, ps2_wait_output_same.
  change (inb PS2_DATA (outb PS2_CMD PS2_CMD_ENABLE_AUX (mk8042 [] (Z.land (Z.lor cfg 2) (Z.lxor 255 32)) aux ToKeyboard rep))).2
    with (mk8042 [] (Z.land (Z.lor cfg 2) (Z.lxor 255 32)) true ToKeyboard rep).
  rewrite !write_aux_value. cbn [o_out o_config o_aux o_reporting]. split; [done|]. split; [done|]. split; [done|].
  intros i Hi. rewrite Z.land_spec, Z.lor_spec. change 2 with (Z.shiftl 1 1). rewrite testbit_shl1 by lia.
  assert (Z.testbit (Z.lxor 255 32) i = negb (i =? 5)) as ->.
  { assert (forallb (fun k => Bool.eqb (Z.testbit (Z.lxor 255 32) k) (negb (k =? 5))) (seqZ 0 8) = true) as H by (by vm_compute).
    rewrite forallb_forall in H. apply Bool.eqb_prop, H, list_elem_of_In, elem_of_seqZ. lia. }
  destruct (i =? 5); cbn [negb]; [by rewrite andb_false_r|]. rewrite andb_true_r. apply orb_comm.
Qed.

Lemma mouse_enable_reports_witness :
  let c' := mouse_enable (mk8042 [] 0x65 false ToKeyboard false) in
  o_out c' = [] /\ o_aux c' = true /\ o_reporting c' = true /\ forall i, 0 <= i < 8 -> Z.testbit (o_config c') i = if i =? 5 then false else (i =? 1) || Z.testbit 0x65 i.
Proof. apply (mouse_enable_reports (mk8042 [] 0x65 false ToKeyboard false)); [done|cbn [o_config]; lia]. Defined.

(** The output buffer is not emptied first: a key pressed before the mouse is
    set up is taken for the configuration, here one that switches the
    keyboard's interrupt off. *)
Example scancode_becomes_configuration : Z.testbit (o_config (mouse_enable (mk8042 [0x1C] 0x65 false ToKeyboard false))) 0 = false.
Proof. by vm_compute. Qed.
