(* ===== verification/Rtc.v ===== *)
(** * The real-time clock (kernel/src/drivers/rtc.c)

    The clock's registers are read one by one, while the clock may tick.  The
    waits for the end of an update have fuel. *)
From S2P Require Import Prelude Ports.

Definition CMOS_ADDR : Z := 0x70.
Definition CMOS_DATA : Z := 0x71.
Definition RTC_SEC : Z := 0x00.
Definition RTC_MIN : Z := 0x02.
Definition RTC_HOUR : Z := 0x04.
Definition RTC_DAY : Z := 0x07.
Definition RTC_MON : Z := 0x08.
Definition RTC_YEAR : Z := 0x09.
Definition RTC_A : Z := 0x0A.
Definition RTC_B : Z := 0x0B.

(** The fields [rtc_read] fills in; before that, the registers. *)
Record mmix_rtc := mkRtc { r_sec : Z; r_min : Z; r_hour : Z; r_day : Z; r_mon : Z; r_year : Z }.

Definition to_binary (v regb : Z) : Z :=
  if negb (Z.land regb 0x04 =? 0) then v else u8 (Z.land v 0x0F + Z.shiftr v 4 * 10).

Section Rtc.
Context {P : Type} `{PT : Ports P}.

Definition cmos (reg : Z) (p : P) : Z * P := inb CMOS_DATA (outb CMOS_ADDR reg p).
Definition updating (p : P) : bool * P := let '(a, p) := cmos RTC_A p in (negb (Z.land a 0x80 =? 0), p).

(** [while (updating()) { }] *)
Fixpoint wait_update (fuel : nat) (p : P) : option P :=
  match fuel with
  | O => None
  | S f => let '(busy, p) := updating p in if busy then wait_update f p else Some p
  end.

(** The six registers, in this order. *)
Definition read_registers (p : P) : mmix_rtc * P :=
  let '(sec, p) := cmos RTC_SEC p in
  let '(min, p) := cmos RTC_MIN p in
  let '(hour, p) := cmos RTC_HOUR p in
  let '(day, p) := cmos RTC_DAY p in
  let '(mon, p) := cmos RTC_MON p in
  let '(year, p) := cmos RTC_YEAR p in
  (mkRtc sec min hour day mon year, p).

Definition rtc_read (fuel : nat) (p : P) : option (mmix_rtc * P) :=
  match wait_update fuel p with
  | None => None
  | Some p =>
      let '(r, p) := read_registers p in
      let '(regb, p) := cmos RTC_B p in
      match wait_update fuel p with
      | None => None
      | Some p =>
          let '(sec, p) := cmos RTC_SEC p in
          let '(r, p) := if negb (r_sec r =? sec) then read_registers p else (r, p) in
          let bin v := to_binary v regb in
          Some (mkRtc (bin (r_sec r)) (bin (r_min r)) (bin (r_hour r)) (bin (r_day r)) (bin (r_mon r)) (bin (r_year r) + 2000), p)
      end
  end.
End Rtc.

(** ** The clock chip

    [c_index] is the register selected.  The chip holds one time until
    [c_left] more registers were read, and another one afterwards; it shows
    an update in progress for [c_busy] more reads of register A. *)
Record chip := mkChip { c_index : Z; c_left : nat; c_busy : nat; c_old : mmix_rtc; c_new : mmix_rtc; c_binary : bool }.

(** A number as the chip stores it. *)
Definition stored (binary : bool) (v : Z) : Z := if binary then v else 16 * (v / 10) + v mod 10.

Definition chip_register (c : chip) (reg : Z) : Z :=
  let t := match c_left c with O => c_new c | S _ => c_old c end in
  let st := stored (c_binary c) in
  if reg =? RTC_SEC then st (r_sec t) else if reg =? RTC_MIN then st (r_min t) else if reg =? RTC_HOUR then st (r_hour t)
  else if reg =? RTC_DAY then st (r_day t) else if reg =? RTC_MON then st (r_mon t) else if reg =? RTC_YEAR then st (r_year t - 2000)
  else if reg =? RTC_A then (match c_busy c with O => 0x26 | S _ => 0xA6 end)
  else if reg =? RTC_B then (if c_binary c then 0x06 else 0x02) else 0.

#[export] Instance chip_ports : Ports chip := {
  outb port v c := if port =? CMOS_ADDR then mkChip v (c_left c) (c_busy c) (c_old c) (c_new c) (c_binary c) else c;
  inb port c :=
    if port =? CMOS_DATA
    then (chip_register c (c_index c), mkChip (c_index c) (pred (c_left c)) (if c_index c =? RTC_A then pred (c_busy c) else c_busy c) (c_old c) (c_new c) (c_binary c))
    else (0xFF, c);
  outw _ _ c := c; inw _ c := (0, c); outl _ _ c := c; inl _ c := (0, c);
}.

(** A time with two-digit fields. *)
Definition time_ok (t : mmix_rtc) : Prop :=
  0 <= r_sec t < 100 /\ 0 <= r_min t < 100 /\ 0 <= r_hour t < 100 /\ 0 <= r_day t < 100 /\ 0 <= r_mon t < 100 /\ 2000 <= r_year t < 2100.

Definition regb_of (binary : bool) : Z := if binary then 0x06 else 0x02.

Lemma to_binary_stored binary v : 0 <= v < 100 -> to_binary (stored binary v) (regb_of binary) = v.
Proof.
  intros Hv. destruct binary; [done|]. unfold to_binary, stored, regb_of. change (negb (Z.land 2 4 =? 0)) with false. cbv iota.
  change 0x0F with (2 ^ 4 - 1). rewrite land_ones_mod, Z.shiftr_div_pow2 by lia. change (2 ^ 4) with 16. assert (0 <= v / 10 < 10) by lia. rewrite u8_small; lia.
Qed.

Lemma stored_inj binary v w : 0 <= v < 100 -> 0 <= w < 100 -> stored binary v = stored binary w -> v = w.
Proof. destruct binary; cbn; lia. Qed.

(** What six reads give: the time before the tick from the registers read
    before it, the time after it from the others. *)
Definition image (binary : bool) (t : mmix_rtc) : mmix_rtc :=
  let st := stored binary in mkRtc (st (r_sec t)) (st (r_min t)) (st (r_hour t)) (st (r_day t)) (st (r_mon t)) (st (r_year t - 2000)).

Lemma cmos_chip reg x k o n b :
  cmos reg (mkChip x k 0 o n b) = (chip_register (mkChip reg k 0 o n b) reg, mkChip reg (pred k) 0 o n b).
Proof. unfold cmos. cbn [outb inb chip_ports CMOS_ADDR CMOS_DATA Z.eqb Pos.eqb c_left c_busy c_old c_new c_binary c_index]. by destruct (reg =? RTC_A). Qed.

Lemma wait_update_chip fuel c :
  (c_busy c < fuel)%nat -> exists x k, wait_update fuel c = Some (mkChip x k 0 (c_old c) (c_new c) (c_binary c)) /\ (k <= c_left c)%nat.
Proof.
  revert c. induction fuel as [|f IH]; intros c Hf; [lia|]. destruct c as [x k busy o n b]. cbn [c_busy] in Hf. cbn [wait_update].
  destruct busy as [|busy].
  - exists RTC_A, (pred k). split; [|cbn; lia]. unfold updating. by rewrite cmos_chip.
  - destruct (IH (mkChip RTC_A (pred k) busy o n b)) as (x' & k' & E & Hk); [cbn; lia|]. exists x', k'. split; [exact E|]. cbn in *. lia.
Qed.

Lemma read_registers_chip x k o n b :
  exists r x', read_registers (mkChip x k 0 o n b) = (r, mkChip x' (k - 6) 0 o n b) /\
  (k = 0%nat -> r = image b n) /\ ((6 <= k)%nat -> r = image b o) /\ ((0 < k)%nat -> r_sec r = stored b (r_sec o)).
Proof.
  unfold read_registers. rewrite !cmos_chip. replace (Nat.pred (Nat.pred (Nat.pred (Nat.pred (Nat.pred (Nat.pred k)))))) with (k - 6)%nat by lia.
  eexists _, _. split; [reflexivity|]. split; [intros ->; reflexivity|]. split; [|intros Hk; destruct k; [lia|reflexivity]].
  intros Hk. destruct k as [|[|[|[|[|[|k]]]]]]; try lia. reflexivity.
Qed.

(** The clock is read consistently.  The clock may tick at any moment of
    the call, between any two of the register reads, and may be in the middle
    of an update at the beginning; in both encodings of its registers, the
    call returns, and what it returns is one time the clock showed: the one
    before the tick or the one after it, never a mixture. *)
Theorem rtc_read_consistent fuel c :
  (c_busy c < fuel)%nat -> time_ok (c_old c) -> time_ok (c_new c) -> r_sec (c_old c) <> r_sec (c_new c) ->
  exists t c', rtc_read fuel c = Some (t, c') /\ (t = c_old c \/ t = c_new c).
Proof.
  intros Hf Ho Hn Hsec. unfold rtc_read. destruct (wait_update_chip fuel c Hf) as (x & k & -> & _).
  destruct c as [x0 k0 busy o n b]. cbn [c_old c_new c_binary] in *. destruct (read_registers_chip x k o n b) as (r & x1 & -> & R0 & R6 & R1).
  assert (Hdec : forall t, time_ok t -> let r := image b t in
    mkRtc (to_binary (r_sec r) (regb_of b)) (to_binary (r_min r) (regb_of b)) (to_binary (r_hour r) (regb_of b)) (to_binary (r_day r) (regb_of b)) (to_binary (r_mon r) (regb_of b)) (to_binary (r_year r) (regb_of b) + 2000) = t).
  { intros [s m h d mo y] (H1 & H2 & H3 & H4 & H5 & H6). cbn in *. rewrite !to_binary_stored by lia. f_equal. lia. }
  rewrite cmos_chip. change (chip_register _ RTC_B) with (regb_of b).
  destruct (wait_update_chip fuel (mkChip RTC_B (pred (k - 6)) 0 o n b)) as (x2 & k2 & -> & Hk2); [cbn; lia|]. cbn [c_old c_new c_binary c_left] in *.
  rewrite cmos_chip. set (sec := stored b (r_sec (match k2 with O => n | S _ => o end))). change (chip_register _ RTC_SEC) with sec. cbv zeta.
  assert (Hne : stored b (r_sec o) <> stored b (r_sec n)) by (intros E; apply Hsec, (stored_inj b); [apply Ho|apply Hn|exact E]).
  destruct (Nat.eq_dec k 0) as [Ek|Ek]; [|destruct (Nat.eq_dec k2 0) as [Ek2|Ek2]].
  - assert (k2 = 0)%nat as Ek2 by lia. rewrite (R0 Ek). unfold sec. rewrite Ek2. cbn [r_sec image]. rewrite Z.eqb_refl. cbn [negb]. eexists _, _. split; [reflexivity|]. right. by apply Hdec.
  - rewrite R1 by lia. unfold sec. rewrite Ek2. rewrite (proj2 (Z.eqb_neq _ _)) by done. cbn [negb].
    destruct (read_registers_chip RTC_SEC (pred 0) o n b) as (r' & x3 & -> & R0' & _). rewrite (R0' eq_refl). eexists _, _. split; [reflexivity|]. right. by apply Hdec.
  - assert (6 <= k)%nat as H6 by lia. rewrite (R6 H6). unfold sec. destruct k2; [done|]. cbn [r_sec image]. rewrite Z.eqb_refl. cbn [negb].
    eexists _, _. split; [reflexivity|]. left. by apply Hdec.
Qed.

(** The clock goes from 23:59:59 on new year's eve to the new year after
    three reads, right after an update. *)
Lemma rtc_read_consistent_witness :
  let o := mkRtc 59 59 23 31 12 2025 in
  let n := mkRtc 0 0 0 1 1 2026 in
  exists t c', rtc_read 5 (mkChip 0 5 2 o n false) = Some (t, c') /\ (t = o \/ t = n).
Proof. apply (rtc_read_consistent 5 (mkChip 0 5 2 (mkRtc 59 59 23 31 12 2025) (mkRtc 0 0 0 1 1 2026) false)); cbn; unfold time_ok; cbn; lia. Defined.

(** The bit for the afternoon of a clock in 12-hour mode is taken for tens. *)
Example twelve_hour_clock : to_binary 0x92 0x00 = 92.
Proof. reflexivity. Qed.
