(* ===== verification/Pci.v ===== *)
(** * PCI enumeration (kernel/src/drivers/pci.c)

    Configuration space through the address and data ports, the scan of the
    first two buses, and the table of devices. *)
From S2P Require Import Prelude Ports.

Definition PCI_CONFIG_ADDR : Z := 0xCF8.
Definition PCI_CONFIG_DATA : Z := 0xCFC.
Definition PCI_NO_DEVICE : Z := 0xFFFF.
Definition PCI_MAX_DEVICES : Z := 32.

Record pci_device := mkPci {
  p_bus : Z; p_dev : Z; p_func : Z;
  vendor_id : Z; device_id : Z;
  p_class : Z; subclass : Z; prog_if : Z;
  irq_line : Z;
  bar : list Z; mmio : list bool; bar_size : list Z;
}.

(** The word written to the address port. *)
Definition config_address (bus dev func off : Z) : Z :=
  Z.lor (Z.lor (Z.lor (Z.lor (Z.shiftl 1 31) (Z.shiftl (u8 bus) 16)) (Z.shiftl (u8 dev) 11)) (Z.shiftl (u8 func) 8)) (Z.land (u8 off) 0xFC).

Section Pci.
Context {P : Type} `{PT : Ports P}.

Definition pci_config_read32 (bus dev func off : Z) (p : P) : Z * P := inl PCI_CONFIG_DATA (outl PCI_CONFIG_ADDR (config_address bus dev func off) p).
Definition pci_config_read16 (bus dev func off : Z) (p : P) : Z * P :=
  let '(val, p) := pci_config_read32 bus dev func off p in (Z.land (Z.shiftr val (Z.land off 2 * 8)) 0xFFFF, p).
Definition pci_config_read8 (bus dev func off : Z) (p : P) : Z * P :=
  let '(val, p) := pci_config_read32 bus dev func off p in (Z.land (Z.shiftr val (Z.land off 3 * 8)) 0xFF, p).
Definition pci_config_write32 (bus dev func off val : Z) (p : P) : P := outl PCI_CONFIG_DATA val (outl PCI_CONFIG_ADDR (config_address bus dev func off) p).

(** From what the register reads after all ones were written to it. *)
Definition decode_size (original size : Z) : Z :=
  if (size =? 0) || (size =? 0xFFFFFFFF) then 0
  else if negb (Z.land original 1 =? 0) then u32 (Z.lnot (Z.land size 0xFFFFFFFC) + 1)
  else u32 (Z.lnot (Z.land size 0xFFFFFFF0) + 1).

Definition pci_bar_size (bus dev func bar_index : Z) (p : P) : Z * P :=
  let off := u8 (0x10 + bar_index * 4) in
  let '(original, p) := pci_config_read32 bus dev func off p in
  let p := pci_config_write32 bus dev func off 0xFFFFFFFF p in
  let '(size, p) := pci_config_read32 bus dev func off p in
  let p := pci_config_write32 bus dev func off original p in
  (decode_size original size, p).

(** The loop over the six base address registers. *)
Definition read_bars (bus dev func : Z) (p : P) : list (Z * Z) * P :=
  for_range 6 0 (fun i '(l, p) =>
    let '(bar, p) := pci_config_read32 bus dev func (0x10 + i * 4) p in
    let '(size, p) := pci_bar_size bus dev func i p in
    (l ++ [(bar, size)], p)) ([], p).

(** [pci_scan_function] up to the entry in the table; whether one was made. *)
Definition add_function (bus dev func : Z) (st : list pci_device * P) : bool * (list pci_device * P) :=
  let '(devices, p) := st in
  let '(vid, p) := pci_config_read16 bus dev func 0x00 p in
  if vid =? PCI_NO_DEVICE then (false, (devices, p))
  else if PCI_MAX_DEVICES <=? zlen devices then (false, (devices, p))
  else
    let '(did, p) := pci_config_read16 bus dev func 0x02 p in
    let '(class_word, p) := pci_config_read32 bus dev func 0x08 p in
    let '(irq, p) := pci_config_read8 bus dev func 0x3C p in
    let '(bars, p) := read_bars bus dev func p in
    (true, (devices ++ [mkPci bus dev func vid did (Z.land (Z.shiftr class_word 24) 0xFF) (Z.land (Z.shiftr class_word 16) 0xFF) (Z.land (Z.shiftr class_word 8) 0xFF) irq
                          bars.*1 ((fun b => Z.land b 1 =? 0) <$> bars.*1) bars.*2], p)).

(** The functions above 0 do not look for others in their turn. *)
Definition pci_scan_function (bus dev func : Z) (st : list pci_device * P) : list pci_device * P :=
  let '(added, (devices, p)) := add_function bus dev func st in
  if added && (func =? 0) then
    let '(header_type, p) := pci_config_read8 bus dev func 0x0E p in
    if negb (Z.land header_type 0x80 =? 0) then for_range 7 1 (fun f st => (add_function bus dev f st).2) (devices, p) else (devices, p)
  else (devices, p).

Definition pci_scan_device (bus dev : Z) (st : list pci_device * P) : list pci_device * P :=
  let '(vid, p) := pci_config_read16 bus dev 0 0x00 st.2 in
  if vid =? PCI_NO_DEVICE then (st.1, p) else pci_scan_function bus dev 0 (st.1, p).

Definition pci_scan_bus (bus : Z) (st : list pci_device * P) : list pci_device * P := for_range 32 0 (pci_scan_device bus) st.

Definition pci_init (p : P) : list pci_device * P := pci_scan_bus 1 (pci_scan_bus 0 ([], p)).
End Pci.

Definition pci_find_device (class sub : Z) (devices : list pci_device) : option pci_device :=
  List.find (fun d => (p_class d =? class) && (subclass d =? sub)) devices.
Definition pci_get_device (index : Z) (devices : list pci_device) : option pci_device := zlookup devices index.

(** ** The bus

    A register per address; of each only the bits of its mask can be written. *)
Record bus := mkBus { b_addr : Z; b_cfg : Z -> Z; b_mask : Z -> Z }.

#[export] Instance bus_ports : Ports bus := {
  outl port v b :=
    if port =? PCI_CONFIG_ADDR then mkBus v (b_cfg b) (b_mask b)
    else if port =? PCI_CONFIG_DATA
    then mkBus (b_addr b) (fun x => if x =? b_addr b then Z.lor (Z.ldiff (b_cfg b x) (b_mask b x)) (Z.land v (b_mask b x)) else b_cfg b x) (b_mask b)
    else b;
  inl port b := (if port =? PCI_CONFIG_DATA then b_cfg b (b_addr b) else 0, b);
  outb _ _ b := b; inb _ b := (0, b); outw _ _ b := b; inw _ b := (0, b);
}.

Section Spec.
Variables (cfg mask : Z -> Z).
Hypothesis Hmask : forall x, 0 <= mask x < 2 ^ 32.

(** The bus holds [cfg]. *)
Definition holds (b : bus) : Prop := (forall x, b_cfg b x = cfg x) /\ b_mask b = mask.

(** What the registers say of a function. *)
Definition word (bus dev func off : Z) : Z := cfg (config_address bus dev func off).
Definition half (bus dev func off : Z) : Z := Z.land (Z.shiftr (word bus dev func off) (Z.land off 2 * 8)) 0xFFFF.
Definition byte_at (bus dev func off : Z) : Z := Z.land (Z.shiftr (word bus dev func off) (Z.land off 3 * 8)) 0xFF.
Definition size_of (bus dev func i : Z) : Z :=
  let a := config_address bus dev func (0x10 + i * 4) in decode_size (cfg a) (Z.lor (Z.ldiff (cfg a) (mask a)) (mask a)).
Definition device_of (bus dev func : Z) : pci_device :=
  let c := word bus dev func 0x08 in
  let bars := (fun i => word bus dev func (0x10 + i * 4)) <$> seqZ 0 6 in
  mkPci bus dev func (half bus dev func 0x00) (half bus dev func 0x02) (Z.land (Z.shiftr c 24) 0xFF) (Z.land (Z.shiftr c 16) 0xFF) (Z.land (Z.shiftr c 8) 0xFF)
    (byte_at bus dev func 0x3C) bars ((fun b => Z.land b 1 =? 0) <$> bars) (size_of bus dev func <$> seqZ 0 6).

Definition present (bus dev func : Z) : bool := negb (half bus dev func 0 =? PCI_NO_DEVICE).
Definition multi (bus dev : Z) : bool := negb (Z.land (byte_at bus dev 0 0x0E) 0x80 =? 0).

(** The functions of a device, and of the buses scanned, in order. *)
Definition functions (bus dev : Z) : list pci_device :=
  if present bus dev 0
  then device_of bus dev 0 :: (if multi bus dev then device_of bus dev <$> filter (fun f => present bus dev f = true) (seqZ 1 7) else [])
  else [].
Definition all_functions : list pci_device := concat ((fun bus => concat (functions bus <$> seqZ 0 32)) <$> [0; 1]).

Lemma read32_holds bus dev func off b :
  holds b -> exists b', pci_config_read32 bus dev func off b = (word bus dev func off, b') /\ holds b'.
Proof. intros [H1 H2]. eexists. split; [unfold pci_config_read32; cbn; by rewrite H1|]. by split. Qed.

Lemma ldiff_lor_same a m : Z.lor (Z.ldiff (Z.lor (Z.ldiff a m) m) m) (Z.land a m) = a.
Proof. apply Z.bits_inj'. intros n Hn. rewrite !Z.lor_spec, !Z.ldiff_spec, !Z.lor_spec, Z.ldiff_spec, Z.land_spec. by destruct (Z.testbit a n), (Z.testbit m n). Qed.

Lemma land_all_ones m : 0 <= m < 2 ^ 32 -> Z.land 0xFFFFFFFF m = m.
Proof. intros Hm. rewrite Z.land_comm. change 0xFFFFFFFF with (2 ^ 32 - 1). rewrite land_ones_mod by lia. apply Z.mod_small. lia. Qed.

(** Sizing a register leaves it as it was. *)
Lemma bar_size_holds bus dev func i b :
  holds b -> exists b', pci_bar_size bus dev func i b = (size_of bus dev func i, b') /\ holds b'.
Proof.
  intros [H1 H2]. unfold pci_bar_size, pci_config_read32, pci_config_write32, size_of. cbv zeta.
  assert (config_address bus dev func (u8 (16 + i * 4)) = config_address bus dev func (16 + i * 4)) as -> by (unfold config_address; by rewrite (u8_small (u8 _)) by apply u8_range).
  set (a := config_address bus dev func (16 + i * 4)). destruct b as [x c m]. cbn in H1, H2. subst m. cbn. rewrite !Z.eqb_refl. eexists. split; [rewrite H1, land_all_ones by done; reflexivity|].
  split; [|reflexivity]. intros y. cbn. rewrite ?Z.eqb_refl. destruct (Z.eqb_spec y a) as [->|]; [|done]. rewrite H1, land_all_ones by done. apply ldiff_lor_same.
Qed.

Lemma read_bars_holds bus dev func b : holds b ->
  exists b', read_bars bus dev func b = ((fun i => (word bus dev func (0x10 + i * 4), size_of bus dev func i)) <$> seqZ 0 6, b') /\ holds b'.
Proof.
  intros Hb. unfold read_bars.
  pose proof (for_range_ind (fun k '(l, b) => l = (fun i => (word bus dev func (0x10 + i * 4), size_of bus dev func i)) <$> seqZ 0 k /\ holds b) 6 0
    (fun i '(l, p) => let '(bar, p) := pci_config_read32 bus dev func (0x10 + i * 4) p in let '(size, p) := pci_bar_size bus dev func i p in (l ++ [(bar, size)], p)) ([], b)) as Hr.
  destruct (for_range 6 0 _ ([], b)) as [l b']. destruct Hr as [-> Hh]; [by split| |by exists b'].
  intros k [l0 b0] Hk [-> H0]. destruct (read32_holds bus dev func (0x10 + k * 4) b0 H0) as (b1 & -> & H1). destruct (bar_size_holds bus dev func k b1 H1) as (b2 & -> & H2).
  split; [|done]. rewrite seqZ_app by lia. rewrite fmap_app. reflexivity.
Qed.

Lemma add_function_holds bus dev func l b :
  holds b -> exists b', holds b' /\
    add_function bus dev func (take 32 l, b) =
    (if present bus dev func then (negb (32 <=? zlen (take 32 l)), (take 32 (l ++ [device_of bus dev func]), b')) else (false, (take 32 l, b'))).
Proof.
  intros Hb. unfold add_function, pci_config_read16, pci_config_read8, present.
  destruct (read32_holds bus dev func 0x00 b Hb) as (b1 & -> & H1). fold (half bus dev func 0). destruct (half bus dev func 0 =? PCI_NO_DEVICE); cbn [negb]; [by exists b1|].
  change PCI_MAX_DEVICES with 32. destruct (Z.leb_spec 32 (zlen (take 32 l))) as [Hfull|Hroom]; cbn [negb].
  { exists b1. split; [done|]. unfold zlen in Hfull. rewrite length_take in Hfull. by rewrite take_app_le by lia. }
  destruct (read32_holds bus dev func 0x02 b1 H1) as (b2 & -> & H2). fold (half bus dev func 2). destruct (read32_holds bus dev func 0x08 b2 H2) as (b3 & -> & H3).
  destruct (read32_holds bus dev func 0x3C b3 H3) as (b4 & -> & H4). fold (byte_at bus dev func 0x3C). destruct (read_bars_holds bus dev func b4 H4) as (b5 & -> & H5).
  exists b5. split; [done|]. do 2 f_equal. unfold zlen in Hroom. rewrite length_take in Hroom. rewrite (take_ge l) by lia. rewrite take_ge by (rewrite length_app; cbn; lia).
  reflexivity.
Qed.

(** The functions a device adds to the table. *)
Lemma scan_device_holds bus dev l b :
  holds b -> exists b', pci_scan_device bus dev (take 32 l, b) = (take 32 (l ++ functions bus dev), b') /\ holds b'.
Proof.
  intros Hb. unfold pci_scan_device, pci_config_read16, functions. cbn [fst snd]. destruct (read32_holds bus dev 0 0x00 b Hb) as (b1 & -> & H1). fold (half bus dev 0 0).
  unfold present at 1. destruct (half bus dev 0 0 =? PCI_NO_DEVICE) eqn:Ep; cbn [negb]; [exists b1; by rewrite app_nil_r|].
  assert (Hp : present bus dev 0 = true) by (unfold present; by rewrite Ep).
  unfold pci_scan_function. destruct (add_function_holds bus dev 0 l b1 H1) as (b2 & H2 & ->). rewrite Hp, andb_true_r.
  destruct (Z.leb_spec 32 (zlen (take 32 l))) as [Hfull|_]; cbn [negb andb].
  { exists b2. split; [|done]. unfold zlen in Hfull. rewrite length_take in Hfull. by rewrite !take_app_le by lia. }
  unfold pci_config_read8. destruct (read32_holds bus dev 0 0x0E b2 H2) as (b3 & -> & H3). fold (byte_at bus dev 0 0x0E). fold (multi bus dev).
  destruct (multi bus dev); [|exists b3; done].
  pose proof (for_range_ind (fun k '(l', b) => l' = take 32 ((l ++ [device_of bus dev 0]) ++ (device_of bus dev <$> filter (fun f => present bus dev f = true) (seqZ 1 (k - 1)))) /\ holds b) 7 1
    (fun f st => (add_function bus dev f st).2) (take 32 (l ++ [device_of bus dev 0]), b3)) as Hr.
  destruct (for_range 7 1 _ _) as [l' b']. destruct Hr as [-> Hh].
  - split; [by rewrite app_nil_r|done].
  - intros k [l0 b0] Hk [-> H0]. set (acc := (l ++ [device_of bus dev 0]) ++ _). destruct (add_function_holds bus dev k acc b0 H0) as (b4 & H4 & ->).
    replace (k + 1 - 1) with ((k - 1) + 1) by lia. rewrite seqZ_app, list.filter_app, fmap_app, app_assoc by lia. fold acc.
    replace (seqZ (1 + (k - 1)) 1) with [k] by (rewrite seqZ_cons by lia; cbn; do 2 f_equal; lia).
    destruct (present bus dev k) eqn:Ek; cbn [snd]; (split; [|done]); [by rewrite filter_cons_True|by rewrite filter_cons_False, app_nil_r by (by rewrite Ek)].
  - exists b'. split; [|done]. change (1 + Z.of_nat 7 - 1) with 7. by rewrite <- app_assoc.
Qed.

Lemma scan_bus_holds bus l b :
  holds b -> exists b', pci_scan_bus bus (take 32 l, b) = (take 32 (l ++ concat (functions bus <$> seqZ 0 32)), b') /\ holds b'.
Proof.
  intros Hb. unfold pci_scan_bus.
  pose proof (for_range_ind (fun k '(l', b) => l' = take 32 (l ++ concat (functions bus <$> seqZ 0 k)) /\ holds b) 32 0 (pci_scan_device bus) (take 32 l, b)) as Hr.
  destruct (for_range 32 0 _ _) as [l' b']. destruct Hr as [-> Hh]; [split; [by rewrite app_nil_r|done]| |by exists b'].
  intros k [l0 b0] Hk [-> H0]. destruct (scan_device_holds bus k (l ++ concat (functions bus <$> seqZ 0 k)) b0 H0) as (b1 & -> & H1). split; [|done].
  rewrite seqZ_app, fmap_app, concat_app, app_assoc by lia. rewrite (seqZ_cons (0 + k)) by lia. cbn. by rewrite app_nil_r.
Qed.
End Spec.

(** Enumeration finds the devices and disturbs none.  For every
    configuration space the table holds the functions present on the first
    two buses, in order, the first 32 of them: function 0 of a device and,
    if its header says so, its other functions, each with its identifiers,
    class, interrupt line, base addresses and the sizes of their regions.
    Afterwards every register reads as before, although the base address
    registers were written to find the sizes. *)
Theorem pci_init_correct (cfg mask : Z -> Z) b :
  (forall x, 0 <= mask x < 2 ^ 32) -> holds cfg mask b ->
  (pci_init b).1 = take 32 (all_functions cfg mask) /\ holds cfg mask (pci_init b).2.
Proof.
  intros Hm Hb. unfold pci_init. change (([], b) : list pci_device * bus) with (take 32 ([] : list pci_device), b).
  destruct (scan_bus_holds cfg mask Hm 0 [] b Hb) as (b1 & -> & H1). cbn [app]. destruct (scan_bus_holds cfg mask Hm 1 (concat (functions cfg mask 0 <$> seqZ 0 32)) b1 H1) as (b2 & -> & H2). cbn [fst snd].
  unfold all_functions. cbn [fmap list_fmap concat app]. by rewrite app_nil_r.
Qed.

(** A memory region of [2 ^ k] bytes, as the bus implements it, is sized right. *)
Lemma decode_size_region original k :
  4 <= k < 32 -> Z.testbit original 0 = false -> 0 <= original < 2 ^ 32 -> (forall n, 4 <= n < k -> Z.testbit original n = false) ->
  let m := Z.shiftl (Z.ones (32 - k)) k in
  decode_size original (Z.lor (Z.ldiff original m) m) = 2 ^ k.
Proof.
  intros Hk H0 Ho Hlow m. assert (Hm : m = 2 ^ 32 - 2 ^ k).
  { unfold m. rewrite Z.ones_equiv, Z.shiftl_mul_pow2, <- Z.sub_1_r, Z.mul_sub_distr_r, <- Z.pow_add_r by lia. f_equal; [f_equal; lia|lia]. }
  assert (Hbit : forall n, 0 <= n -> Z.testbit m n = (k <=? n) && (n <? 32)).
  { intros n Hn. unfold m. rewrite Z.shiftl_spec by done. destruct (Z.leb_spec k n); cbn [andb]; [|by rewrite Z.testbit_neg_r by lia].
    destruct (Z.ltb_spec n 32); [rewrite Z.ones_spec_low by lia; done|rewrite Z.ones_spec_high by lia; done]. }
  assert (Hhi : forall n, 32 <= n -> Z.testbit original n = false).
  { intros n Hn. destruct (Z.eq_dec original 0) as [->|]; [apply Z.bits_0|]. apply Z.bits_above_log2; [lia|]. apply Z.lt_le_trans with 32; [|lia]. apply Z.log2_lt_pow2; lia. }
  set (x := Z.lor (Z.ldiff original m) m). assert (Hx : forall n, 0 <= n -> Z.testbit x n = if (k <=? n) && (n <? 32) then true else Z.testbit original n).
  { intros n Hn. unfold x. rewrite Z.lor_spec, Z.ldiff_spec, Hbit by done. by destruct (Z.testbit original n), (k <=? n), (n <? 32). }
  assert (Hl : Z.land x 0xFFFFFFF0 = m).
  { change 0xFFFFFFF0 with (Z.shiftl (Z.ones 28) 4). apply Z.bits_inj'. intros n Hn. rewrite Z.land_spec, Hx, Hbit, Z.shiftl_spec by done.
    destruct (Z.leb_spec k n) as [Hkn|Hkn], (Z.ltb_spec n 32) as [Hn32|Hn32]; cbn [andb].
    - by rewrite Z.ones_spec_low by lia.
    - by rewrite Hhi.
    - destruct (Z.le_gt_cases 4 n); [by rewrite Hlow|]. rewrite (Z.testbit_neg_r _ (n - 4)) by lia. apply andb_false_r.
    - by rewrite Hhi. }
  unfold decode_size. assert (Z.land original 1 = 0) as ->.
  { change 1 with (Z.ones 1). rewrite Z.land_ones by lia. change (2 ^ 1) with 2. by rewrite <- Z.bit0_mod, H0. }
  assert (2 ^ k <= 2 ^ 31 /\ 16 <= 2 ^ k) as [Hk1 Hk2] by (split; [apply Z.pow_le_mono_r; lia|apply (Z.pow_le_mono_r 2 4); lia]).
  destruct (Z.eqb_spec x 0) as [E|_]; [rewrite E in Hl; change (0 = m) in Hl; lia|]. destruct (Z.eqb_spec x 0xFFFFFFFF) as [E|_].
  { exfalso. specialize (Hx 0 ltac:(lia)). rewrite E, H0 in Hx. rewrite (proj2 (Z.leb_gt k 0)) in Hx by lia. done. }
  cbn [orb Z.eqb negb]. rewrite Hl, Hm. unfold Z.lnot, u32. replace (Z.pred (- (2 ^ 32 - 2 ^ k)) + 1) with (2 ^ k + (-1) * 2 ^ 32) by lia. rewrite Z.mod_add, Z.mod_small by lia. done.
Qed.

(** A network card in slot 3 of bus 0 with a region of 128 KiB. *)
Definition demo_cfg (x : Z) : Z :=
  if x =? config_address 0 3 0 0x00 then 0x100E8086 else if x =? config_address 0 3 0 0x08 then 0x02000003
  else if x =? config_address 0 3 0 0x0C then 0 else if x =? config_address 0 3 0 0x10 then 0xFEB80000 else if x =? config_address 0 3 0 0x3C then 0x10B
  else if Z.testbit x 31 && (x / 2 ^ 11 mod 2 ^ 13 =? 3) && (x / 2 ^ 8 mod 8 =? 0) then 0 else 0xFFFFFFFF.
Definition demo_mask (x : Z) : Z := if x =? config_address 0 3 0 0x10 then 0xFFFE0000 else 0.

Lemma pci_init_correct_witness :
  (fun d => (p_dev d, vendor_id d, p_class d, irq_line d, bar_size d)) <$> (pci_init (mkBus 0 demo_cfg demo_mask)).1 = [(3, 0x8086, 2, 11, [0x20000; 0; 0; 0; 0; 0])].
Proof.
  destruct (pci_init_correct demo_cfg demo_mask (mkBus 0 demo_cfg demo_mask)) as [-> _]; [|by split|by vm_compute].
  intros x. unfold demo_mask. destruct (_ =? _); lia.
Defined.
