(* ===== verification/Ide.v ===== *)
(** * The IDE driver (kernel/src/drivers/ide.c)

    Programmed input and output over the ports of the primary controller.
    Buffers are byte lists, for transfers of fewer than 2^23 sectors (the
    offsets in the buffer are 32-bit).  Polling loops are bounded by the source. *)
From S2P Require Import Prelude Mem FrameAlloc Pmm Task Sched Libk Vfs Block Ports.

Definition IDE_DATA : Z := 0x1F0.
Definition IDE_ERROR : Z := 0x1F1.
Definition IDE_SECTOR : Z := 0x1F2.
Definition IDE_LBA_LOW : Z := 0x1F3.
Definition IDE_LBA_MID : Z := 0x1F4.
Definition IDE_LBA_HIGH : Z := 0x1F5.
Definition IDE_DRIVE_HEAD : Z := 0x1F6.
Definition IDE_STATUS : Z := 0x1F7.
Definition IDE_COMMAND : Z := 0x1F7.
Definition IDE_SR_BSY : Z := 0x80.
Definition IDE_SR_DRDY : Z := 0x40.
Definition IDE_SR_DRQ : Z := 0x08.
Definition IDE_SR_ERR : Z := 0x01.
Definition IDE_SR_DF : Z := 0x20.
Definition IDE_CMD_READ_PIO_EXT : Z := 0x24.
Definition IDE_CMD_WRITE_PIO_EXT : Z := 0x34.
Definition IDE_CMD_IDENTIFY : Z := 0xEC.
Definition IDE_POLLS : nat := Z.to_nat 100000.

Definition has_bit (s b : Z) : bool := negb (Z.land s b =? 0).

Section Ide.
Context {P : Type} `{PT : Ports P}.

Fixpoint wait_bsy (n : nat) (p : P) : bool * P :=
  match n with
  | O => (false, p)
  | S n' => let '(s, p) := inb IDE_STATUS p in if negb (has_bit s IDE_SR_BSY) then (true, p) else wait_bsy n' p
  end.
Definition ide_wait_bsy (p : P) : bool * P := wait_bsy IDE_POLLS p.

Fixpoint wait_drq (n : nat) (p : P) : bool * P :=
  match n with
  | O => (false, p)
  | S n' =>
      let '(s, p) := inb IDE_STATUS p in
      if has_bit s IDE_SR_ERR then (false, p)
      else if has_bit s IDE_SR_DF then (false, p)
      else if has_bit s IDE_SR_DRQ then (true, p)
      else wait_drq n' p
  end.
Definition ide_wait_drq (p : P) : bool * P := wait_drq IDE_POLLS p.

Definition io_wait (p : P) : P := outb 0x80 0 p.
Definition ide_select_drive (drive : Z) (p : P) : P := io_wait (outb IDE_DRIVE_HEAD (u8 (Z.lor 0xA0 (Z.shiftl drive 4))) p).

(** The bytes of [n] words read from the data port. *)
Fixpoint read_words (n : nat) (p : P) : list Z * P :=
  match n with
  | O => ([], p)
  | S n' =>
      let '(word, p) := inw IDE_DATA p in
      let '(l, p) := read_words n' p in
      (Z.land word 0xFF :: Z.land (Z.shiftr word 8) 0xFF :: l, p)
  end.

(** The loop over the sectors of a read; what was stored so far is [acc].
    With [report], a failure is reported, for which the status and error
    registers are read. *)
Fixpoint read_sectors (report : bool) (count : nat) (acc : list Z) (p : P) : bool * list Z * P :=
  match count with
  | O => (true, acc, p)
  | S c =>
      let '(ok, p) := ide_wait_drq p in
      if negb ok then (false, acc, if report then (inb IDE_ERROR (inb IDE_STATUS p).2).2 else p)
      else let '(l, p) := read_words 256 p in read_sectors report c (acc ++ l) p
  end.

(** [ide_select_drive(0)], then the drive must be ready. *)
Definition drive_ready (p : P) : bool * P :=
  let p := ide_select_drive 0 p in
  let '(ok, p) := ide_wait_bsy p in
  if negb ok then (false, p) else let '(s, p) := inb IDE_STATUS p in (has_bit s IDE_SR_DRDY, p).

Definition addr_byte (x k : Z) : Z := Z.land (Z.shiftr x (8 * k)) 0xFF.

(** The address registers for a command with 48-bit addresses: high bytes first. *)
Definition set_lba48 (lba count : Z) (p : P) : P :=
  let p := outb IDE_SECTOR (addr_byte count 1) p in
  let p := outb IDE_LBA_LOW (addr_byte lba 3) p in
  let p := outb IDE_LBA_MID (addr_byte lba 4) p in
  let p := outb IDE_LBA_HIGH (addr_byte lba 5) p in
  let p := outb IDE_SECTOR (addr_byte count 0) p in
  let p := outb IDE_LBA_LOW (addr_byte lba 0) p in
  let p := outb IDE_LBA_MID (addr_byte lba 1) p in
  outb IDE_LBA_HIGH (addr_byte lba 2) p.

Definition ide_read_lba48 (lba count : Z) (p : P) : bool * list Z * P :=
  let '(ok, p) := drive_ready p in
  if negb ok then (false, [], p)
  else if (u64 (lba + count) <=? 0x0FFFFFFF) && (count <=? 256) then
    let p := outb IDE_SECTOR (addr_byte count 0) p in
    let p := outb IDE_LBA_LOW (addr_byte lba 0) p in
    let p := outb IDE_LBA_MID (addr_byte lba 1) p in
    let p := outb IDE_LBA_HIGH (addr_byte lba 2) p in
    let p := outb IDE_DRIVE_HEAD (Z.lor 0xE0 (Z.land (Z.shiftr lba 24) 0x0F)) p in
    let p := outb IDE_COMMAND 0x20 p in
    read_sectors true (Z.to_nat count) [] p
  else read_sectors false (Z.to_nat count) [] (outb IDE_COMMAND IDE_CMD_READ_PIO_EXT (set_lba48 lba count p)).

(** 256 words from [src] at [off]. *)
Definition write_words (src : list Z) (off : Z) (p : P) : P :=
  for_range 256 0 (fun i p => outw IDE_DATA (Z.lor (znth 0 src (off + i * 2)) (Z.shiftl (znth 0 src (off + i * 2 + 1)) 8)) p) p.

Fixpoint write_sectors (count : nat) (s : Z) (src : list Z) (p : P) : bool * P :=
  match count with
  | O => (true, p)
  | S c =>
      let '(ok, p) := ide_wait_drq p in
      if negb ok then (false, p)
      else
        let p := outb IDE_COMMAND 0xE7 (write_words src (s * 512) p) in
        let '(ok, p) := ide_wait_bsy p in
        if negb ok then (false, p) else write_sectors c (s + 1) src p
  end.

Definition ide_write_lba48 (lba count : Z) (src : list Z) (p : P) : bool * P :=
  let '(ok, p) := drive_ready p in
  if negb ok then (false, p)
  else write_sectors (Z.to_nat count) 0 src (outb IDE_COMMAND IDE_CMD_WRITE_PIO_EXT (set_lba48 lba count p)).

(** Whether there is a drive; of its description the first word is looked at. *)
Definition ide_identify (drive : Z) (p : P) : bool * P :=
  let p := ide_select_drive drive p in
  let '(ok, p) := ide_wait_bsy p in
  if negb ok then (false, p)
  else
    let p := outb IDE_SECTOR 0 p in
    let p := outb IDE_LBA_LOW 0 p in
    let p := outb IDE_LBA_MID 0 p in
    let p := outb IDE_LBA_HIGH 0 p in
    let p := outb IDE_COMMAND IDE_CMD_IDENTIFY p in
    let '(ok, p) := ide_wait_bsy p in
    if negb ok then (false, p)
    else
      let '(status, p) := inb IDE_STATUS p in
      if status =? 0 then (false, p)
      else
        let '(ok, p) := ide_wait_drq p in
        if negb ok then (false, p)
        else let '(ident, p) := read_words 256 p in (negb ((znth 0 ident 0 =? 0) && (znth 0 ident 1 =? 0)), p).

(** The callbacks of the block device: the result and the bytes stored. *)
Definition ide_block_read (dev_id lba count : Z) (p : P) : Z * list Z * P :=
  let '(ok, l, p) := ide_read_lba48 lba count p in ((if ok then s32 count else -1), l, p).
Definition ide_block_write (dev_id lba count : Z) (src : list Z) (p : P) : Z * P :=
  let '(ok, p) := ide_write_lba48 lba count src p in ((if ok then s32 count else -1), p).

Definition ide_init (b : blocks) (p : P) : bool * blocks * P :=
  let '(ok, p) := ide_identify 0 p in
  if negb ok then (false, b, p)
  else (true, (blockdev_register (bs "sda") 0 0 (Some FnDriver) (Some FnDriver) b).2, p).
End Ide.

(** ** The drive

    An ATA drive: address registers with their previous contents, which
    commands with 48-bit addresses use for the high bytes; the words waiting
    at the data port; [d_busy] more reads of the status show it busy.  A
    command takes [d_delay] such reads.  Without the bit for logical
    addresses in the drive register, addresses are cylinder, head and sector. *)
Record drive := mkDrive {
  d_img : mem; d_delay : nat; d_busy : nat;
  d_count : Z * Z; d_low : Z * Z; d_mid : Z * Z; d_high : Z * Z; d_head : Z;
  d_queue : list Z;                  (* words to be read *)
  d_out : option (Z * list Z);       (* the sector being written, and its words so far *)
  d_left : nat;                      (* sectors still to be written *)
}.

Fixpoint words_at (n : nat) (m : mem) (a : Z) : list Z :=
  match n with
  | O => []
  | S n' => (load8 m a + 256 * load8 m (a + 1)) :: words_at n' m (a + 2)
  end.

Definition chs_sector (d : drive) : Z := ((d_mid d).1 + 256 * (d_high d).1) * 1008 + Z.land (d_head d) 0xF * 63 + (d_low d).1 - 1.
Definition lba28 (d : drive) : Z := (d_low d).1 + 2 ^ 8 * (d_mid d).1 + 2 ^ 16 * (d_high d).1 + 2 ^ 24 * (d_head d mod 16).
Definition lba48 (d : drive) : Z :=
  (d_low d).1 + 2 ^ 8 * (d_mid d).1 + 2 ^ 16 * (d_high d).1 + 2 ^ 24 * (d_low d).2 + 2 ^ 32 * (d_mid d).2 + 2 ^ 40 * (d_high d).2.
Definition by_lba (d : drive) : bool := has_bit (d_head d) 0x40.

Definition set_queue (q : list Z) (d : drive) : drive :=
  mkDrive (d_img d) (d_delay d) (d_delay d) (d_count d) (d_low d) (d_mid d) (d_high d) (d_head d) q None 0.
Definition command (v : Z) (d : drive) : drive :=
  if v =? 0x20 then
    let n := if (d_count d).1 =? 0 then 256 else (d_count d).1 in
    set_queue (words_at (Z.to_nat (256 * n)) (d_img d) (512 * (if by_lba d then lba28 d else chs_sector d))) d
  else if v =? 0x24 then
    let c := (d_count d).1 + 256 * (d_count d).2 in
    let n := if c =? 0 then 65536 else c in
    set_queue (words_at (Z.to_nat (256 * n)) (d_img d) (512 * (if by_lba d then lba48 d else chs_sector d))) d
  else if v =? 0x34 then
    let c := (d_count d).1 + 256 * (d_count d).2 in
    mkDrive (d_img d) (d_delay d) (d_delay d) (d_count d) (d_low d) (d_mid d) (d_high d) (d_head d) []
      (Some ((if by_lba d then lba48 d else chs_sector d), [])) (Z.to_nat (if c =? 0 then 65536 else c))
  else if v =? 0xEC then set_queue (64 :: replicate 255 0) d
  else set_queue [] d.

Definition data_out (v : Z) (d : drive) : drive :=
  match d_out d with
  | None => d
  | Some (sec, ws) =>
      let ws := ws ++ [v] in
      if zlen ws <? 256 then mkDrive (d_img d) (d_delay d) (d_busy d) (d_count d) (d_low d) (d_mid d) (d_high d) (d_head d) (d_queue d) (Some (sec, ws)) (d_left d)
      else
        let img := write_bytes (d_img d) (512 * sec) (concat ((fun w => [w mod 256; w / 256]) <$> ws)) in
        mkDrive img (d_delay d) (d_delay d) (d_count d) (d_low d) (d_mid d) (d_high d) (d_head d) (d_queue d)
          (match d_left d with S (S _) => Some (sec + 1, []) | _ => None end) (pred (d_left d))
  end.

Definition drive_status (d : drive) : Z :=
  match d_busy d with
  | S _ => IDE_SR_BSY
  | O => IDE_SR_DRDY + (match d_queue d, d_out d with [], None => 0 | _, _ => IDE_SR_DRQ end)
  end.

#[export] Instance drive_ports : Ports drive := {
  outb port v d :=
    let '(mkDrive img dl bu c lo mi hi he q o l) := d in
    if port =? IDE_SECTOR then mkDrive img dl bu (v, c.1) lo mi hi he q o l
    else if port =? IDE_LBA_LOW then mkDrive img dl bu c (v, lo.1) mi hi he q o l
    else if port =? IDE_LBA_MID then mkDrive img dl bu c lo (v, mi.1) hi he q o l
    else if port =? IDE_LBA_HIGH then mkDrive img dl bu c lo mi (v, hi.1) he q o l
    else if port =? IDE_DRIVE_HEAD then mkDrive img dl bu c lo mi hi v q o l
    else if port =? IDE_COMMAND then command v d
    else d;
  inb port d :=
    let '(mkDrive img dl bu c lo mi hi he q o l) := d in
    if port =? IDE_STATUS then (drive_status d, mkDrive img dl (pred bu) c lo mi hi he q o l) else (0, d);
  inw port d :=
    let '(mkDrive img dl bu c lo mi hi he q o l) := d in
    if port =? IDE_DATA then (hd 0 q, mkDrive img dl bu c lo mi hi he (tl q) o l) else (0, d);
  outw port v d := if port =? IDE_DATA then data_out v d else d;
  outl _ _ d := d; inl _ d := (0, d);
}.

(** * Theorems *)

Lemma polls_some : (10 <= IDE_POLLS)%nat.
Proof. unfold IDE_POLLS. lia. Qed.

Lemma wait_bsy_drive n img dl bu c lo mi hi he q o l :
  (bu < n)%nat -> wait_bsy n (mkDrive img dl bu c lo mi hi he q o l) = (true, mkDrive img dl 0 c lo mi hi he q o l).
Proof.
  revert bu. induction n as [|n IH]; intros bu Hb; [lia|]. cbn [wait_bsy]. unfold inb. cbn [drive_ports]. change (IDE_STATUS =? IDE_STATUS) with true. cbv iota.
  destruct bu as [|bu]; [|apply IH; lia]. unfold drive_status. cbn [d_busy d_queue d_out]. destruct q, o; reflexivity.
Qed.

Lemma wait_drq_drive n img dl bu c lo mi hi he w q o l :
  (bu < n)%nat -> wait_drq n (mkDrive img dl bu c lo mi hi he (w :: q) o l) = (true, mkDrive img dl 0 c lo mi hi he (w :: q) o l).
Proof.
  revert bu. induction n as [|n IH]; intros bu Hb; [lia|]. cbn [wait_drq]. unfold inb. cbn [drive_ports]. change (IDE_STATUS =? IDE_STATUS) with true. cbv iota.
  destruct bu as [|bu]; [reflexivity|]. apply IH. lia.
Qed.

Lemma read_words_drive n img dl bu c lo mi hi he a rest o l :
  read_words n (mkDrive img dl bu c lo mi hi he (words_at n img a ++ rest) o l) = (bytes_at (2 * n) img a, mkDrive img dl bu c lo mi hi he rest o l).
Proof.
  revert a. induction n as [|n IH]; intros a; [done|]. cbn [read_words words_at app]. unfold inw. cbn [drive_ports]. change (IDE_DATA =? IDE_DATA) with true. cbv iota. cbn [hd tl].
  rewrite IH. replace (2 * S n)%nat with (S (S (2 * n))) by lia. cbn [bytes_at]. replace (a + 1 + 1) with (a + 2) by lia.
  unfold load8. pose proof (u8_range (img a)). pose proof (u8_range (img (a + 1))). change 0xFF with (2 ^ 8 - 1). rewrite !land_ones_mod, Z.shiftr_div_pow2 by lia.
  do 2 f_equal; [lia|]. f_equal. lia.
Qed.

Lemma words_at_app n1 n2 m a : words_at (n1 + n2) m a = words_at n1 m a ++ words_at n2 m (a + 2 * Z.of_nat n1).
Proof.
  revert a. induction n1 as [|n IH]; intros a; [by rewrite Z.add_0_r|]. cbn [Nat.add words_at app]. rewrite IH. do 3 f_equal. lia.
Qed.

Lemma read_sectors_drive report n : forall img dl bu c lo mi hi he a acc l, (bu < IDE_POLLS)%nat ->
  exists d', read_sectors report n acc (mkDrive img dl bu c lo mi hi he (words_at (256 * n) img a) None l) = (true, acc ++ bytes_at (512 * n) img a, d') /\
    d_img d' = img /\ d_delay d' = dl /\ (d_busy d' <= bu)%nat.
Proof.
  induction n as [|n IH]; intros img dl bu c lo mi hi he a acc l Hb; [eexists; cbn [read_sectors bytes_at Nat.mul]; rewrite app_nil_r; split; [reflexivity|done]|].
  cbn [read_sectors]. replace (256 * S n)%nat with (256 + 256 * n)%nat by lia. rewrite words_at_app. unfold ide_wait_drq.
  assert (exists w q, words_at 256 img a = w :: q) as (w & q & Ew) by (by eexists _, _). rewrite Ew. cbn [app]. rewrite wait_drq_drive by done. cbn [negb].
  change (w :: q ++ words_at (256 * n) img (a + 2 * Z.of_nat 256)) with ((w :: q) ++ words_at (256 * n) img (a + 2 * Z.of_nat 256)). rewrite <- Ew, read_words_drive.
  destruct (IH img dl 0%nat c lo mi hi he (a + 2 * Z.of_nat 256) (acc ++ bytes_at (2 * 256) img a) l ltac:(lia)) as (d' & -> & H1 & H2 & H3). exists d'. split; [|split; [done|split; [done|lia]]].
  f_equal. rewrite <- app_assoc. replace (512 * S n)%nat with (2 * 256 + 512 * n)%nat by lia. rewrite bytes_at_app. done.
Qed.

(** The drive register for a logical address: the mode bit, and the address bits 24 to 27. *)
Lemma head_register_small h : 0 <= h < 16 -> has_bit (Z.lor 0xE0 h) 0x40 = true /\ Z.lor 0xE0 h mod 16 = h.
Proof.
  intros Hh. assert (forallb (fun h => has_bit (Z.lor 0xE0 h) 0x40 && (Z.lor 0xE0 h mod 16 =? h)) (seqZ 0 16) = true) as Ha by reflexivity.
  rewrite forallb_forall in Ha. specialize (Ha h). rewrite <- list_elem_of_In, elem_of_seqZ, andb_true_iff, Z.eqb_eq in Ha. apply Ha. lia.
Qed.

Lemma head_register lba : has_bit (Z.lor 0xE0 (Z.land (Z.shiftr lba 24) 0x0F)) 0x40 = true /\ Z.lor 0xE0 (Z.land (Z.shiftr lba 24) 0x0F) mod 16 = lba / 2 ^ 24 mod 16.
Proof.
  change 0x0F with (2 ^ 4 - 1). rewrite land_ones_mod by done. rewrite Z.shiftr_div_pow2 by done. change (2 ^ 4) with 16.
  apply head_register_small. apply Z.mod_pos_bound. reflexivity.
Qed.

Lemma addr_byte_eq x k : 0 <= k -> addr_byte x k = x / 2 ^ (8 * k) mod 2 ^ 8.
Proof. intros Hk. unfold addr_byte. change 0xFF with (2 ^ 8 - 1). rewrite land_ones_mod, Z.shiftr_div_pow2 by lia. done. Qed.

(** The registers hold the address: its three low bytes and the four bits in the drive register. *)
Lemma lba28_join lba : 0 <= lba < 2 ^ 28 -> addr_byte lba 0 + 2 ^ 8 * addr_byte lba 1 + 2 ^ 16 * addr_byte lba 2 + 2 ^ 24 * (lba / 2 ^ 24 mod 16) = lba.
Proof.
  intros Hl. rewrite !addr_byte_eq by done. change (2 ^ (8 * 0)) with 1. change (2 ^ (8 * 1)) with 256. change (2 ^ (8 * 2)) with 65536. change (2 ^ 8) with 256. change (2 ^ 16) with 65536. change (2 ^ 24) with 16777216. change (2 ^ 28) with 268435456 in Hl.
  rewrite Z.div_1_r. replace (lba / 65536) with (lba / 256 / 256) by (rewrite Z.div_div; done). replace (lba / 16777216) with (lba / 256 / 256 / 256) by (rewrite !Z.div_div; done).
  pose proof (Z.div_mod lba 256). pose proof (Z.div_mod (lba / 256) 256). pose proof (Z.div_mod (lba / 256 / 256) 256).
  assert (lba / 256 / 256 / 256 mod 16 = lba / 256 / 256 / 256) as -> by (apply Z.mod_small; rewrite !Z.div_div by done; change (256 * 256 * 256) with 16777216; split; [apply Z.div_pos; lia|apply Z.div_lt_upper_bound; lia]).
  lia.
Qed.

(** A sector count of 256 is written as 0. *)
Lemma sector_count_reg count : 0 < count <= 256 -> (if addr_byte count 0 =? 0 then 256 else addr_byte count 0) = count.
Proof.
  intros Hc. rewrite addr_byte_eq by done. change (2 ^ (8 * 0)) with 1. change (2 ^ 8) with 256. rewrite Z.div_1_r.
  destruct (decide (count = 256)) as [->|]; [done|]. rewrite Z.mod_small by lia. destruct (Z.eqb_spec count 0); lia.
Qed.

(** Idle or in the middle of anything, the drive answers within the polls. *)
Definition drive_ok (d : drive) : Prop := (d_busy d < IDE_POLLS)%nat /\ (d_delay d < IDE_POLLS)%nat.

Lemma drive_ok_le d d' : drive_ok d -> d_delay d' = d_delay d -> (d_busy d' <= d_delay d)%nat -> drive_ok d'.
Proof. intros [_ Hd] He Hb. unfold drive_ok. rewrite He. split; [|exact Hd]. eapply Nat.le_lt_trans; [exact Hb|exact Hd]. Qed.

Lemma outb_command v img dl bu c lo mi hi he q o l :
  outb IDE_COMMAND v (mkDrive img dl bu c lo mi hi he q o l) = command v (mkDrive img dl bu c lo mi hi he q o l).
Proof. reflexivity. Qed.

(** C33: the IDE driver reads sectors.  Up to 256 sectors that lie below
    128 GiB, from a drive that answers within the polling limit: the call
    returns the number of sectors, the bytes are those of the drive from the
    first sector on, and the drive's contents and timing are unchanged, so
    that the next call works as well. *)
Theorem ide_read_correct dev_id lba count d :
  drive_ok d -> 0 <= lba -> 0 < count <= 256 -> lba + count <= 0x0FFFFFFF ->
  exists d', ide_block_read dev_id lba count d = (count, bytes_at (Z.to_nat (512 * count)) (d_img d) (512 * lba), d') /\
    d_img d' = d_img d /\ drive_ok d'.
Proof.
  intros Hok Hl Hc Hs. assert (0 <= lba < 2 ^ 28) as Hl28 by lia. unfold ide_block_read, ide_read_lba48, drive_ready, ide_select_drive, io_wait, ide_wait_bsy.
  destruct d as [img dl bu c lo mi hi he q o l]. cbn [d_img] in *.
  change (outb 0x80 0 (outb IDE_DRIVE_HEAD (u8 (Z.lor 0xA0 (Z.shiftl 0 4))) (mkDrive img dl bu c lo mi hi he q o l))) with (mkDrive img dl bu c lo mi hi 0xA0 q o l).
  rewrite wait_bsy_drive by apply Hok. cbn [negb]. set (st := inb IDE_STATUS _).
  assert (exists s, st = (s, mkDrive img dl 0 c lo mi hi 0xA0 q o l) /\ has_bit s IDE_SR_DRDY = true) as (s & -> & ->) by (eexists; split; [reflexivity|]; by destruct q, o).
  cbn [negb]. rewrite u64_small, (proj2 (Z.leb_le (lba + count) _)), (proj2 (Z.leb_le count 256)) by lia. cbn [andb].
  set (d1 := outb IDE_DRIVE_HEAD _ _).
  assert (d1 = mkDrive img dl 0 (addr_byte count 0, c.1) (addr_byte lba 0, lo.1) (addr_byte lba 1, mi.1) (addr_byte lba 2, hi.1) (Z.lor 0xE0 (Z.land (Z.shiftr lba 24) 0x0F)) q o l) as -> by reflexivity.
  set (head := Z.lor 0xE0 _). assert (Hhead : by_lba (mkDrive img dl 0 (addr_byte count 0, c.1) (addr_byte lba 0, lo.1) (addr_byte lba 1, mi.1) (addr_byte lba 2, hi.1) head q o l) = true /\ head mod 16 = lba / 2 ^ 24 mod 16).
  { unfold by_lba, head. cbn [d_head]. apply head_register. }
  destruct Hhead as [Hbl Hhm]. set (d2 := outb IDE_COMMAND 0x20 _).
  assert (d2 = mkDrive img dl dl (addr_byte count 0, c.1) (addr_byte lba 0, lo.1) (addr_byte lba 1, mi.1) (addr_byte lba 2, hi.1) head (words_at (Z.to_nat (256 * count)) img (512 * lba)) None 0) as ->.
  { unfold d2. rewrite outb_command. unfold command. change (0x20 =? 0x20) with true. cbv iota zeta. rewrite Hbl. unfold set_queue, lba28. cbn [d_img d_delay d_count d_low d_mid d_high d_head fst].
    rewrite Hhm, (lba28_join lba Hl28), (sector_count_reg count Hc). done. }
  clear Hbl Hhm. clearbody head. replace (Z.to_nat (256 * count)) with (256 * Z.to_nat count)%nat by lia.
  destruct (read_sectors_drive true (Z.to_nat count) img dl dl (addr_byte count 0, c.1) (addr_byte lba 0, lo.1) (addr_byte lba 1, mi.1) (addr_byte lba 2, hi.1) head (512 * lba) [] 0%nat (proj2 Hok)) as (d' & -> & H1 & H2 & H3).
  exists d'. rewrite s32_small by lia. split; [|split; [done|exact (drive_ok_le _ _ Hok H2 H3)]]. cbn [app]. replace (512 * Z.to_nat count)%nat with (Z.to_nat (512 * count)) by lia. done.
Qed.

(** ** A concrete drive *)

(** Byte [a] of the drive is [a mod 251]; the status is busy for two reads. *)
Definition test_drive : drive := mkDrive (fun a => a mod 251) 2 1 (0, 0) (0, 0) (0, 0) (0, 0) 0 [] None 0.

Lemma ide_read_correct_witness :
  exists d', ide_block_read 0 3 2 test_drive = (2, bytes_at 1024 (d_img test_drive) 1536, d') /\ d_img d' = d_img test_drive /\ drive_ok d'.
Proof.
  apply (ide_read_correct 0 3 2 test_drive); [|lia..]. split; (eapply Nat.lt_le_trans; [|exact polls_some]); cbn [d_busy d_delay test_drive]; lia.
Defined.

(** A write to an idle drive goes to the place that cylinder, head and sector
    name, because the drive is selected without the bit for logical
    addresses: the sector stored is not sector 100. *)
Example write_misses_sector :
  let d' := (ide_block_write 0 100 1 (replicate 512 7) test_drive).2 in
  load8 (d_img d') (512 * 100) = load8 (d_img test_drive) (512 * 100) /\ load8 (d_img d') (512 * 99) = 7.
Proof. vm_compute. done. Qed.

(** Of a write of two sectors, the second is lost: the command to flush the
    cache, issued after each sector, ends the write in progress.  The call
    waits for the drive to ask for the second sector and fails. *)
Example second_sector_lost : (ide_block_write 0 100 2 (replicate 1024 7) test_drive).1 = -1.
Proof. vm_compute. done. Qed.
