(* ===== verification/Dma.v ===== *)
(** * Devices that share memory with the kernel

    A device with registers in the address space that reads and writes main
    memory by itself.  [dma] is what it does until the kernel looks at the
    shared memory the next time; the kernel's accesses to memory a device
    may write go through [look]. *)
From S2P Require Import Prelude Mem FrameAlloc Pmm Task Sched Pmap Ports.

Class DmaDevice (M : Type) := {
  reg_read : Z -> M -> Z * M;           (* offset *)
  reg_write : Z -> Z -> M -> M;         (* offset, value *)
  ram : M -> mem;
  set_ram : mem -> M -> M;
  dma : M -> M;
}.

(** A load of [n] bytes after the device has had its turn. *)
Definition look {M} `{DmaDevice M} (n : nat) (a : Z) (m : M) : Z * M := let m := dma m in (load n (ram m) a, m).

(** A store, and a copy of bytes into memory. *)
Definition put_mem {M} `{DmaDevice M} (n : nat) (a v : Z) (m : M) : M := set_ram (store n (ram m) a v) m.
Definition put_bytes_mem {M} `{DmaDevice M} (a : Z) (l : list Z) (m : M) : M := set_ram (write_bytes (ram m) a l) m.

(** What a driver works on: the kernel's frames and page tables (their memory
    is the device's), the ports and the device. *)
Section Machine.
Context {M : Type} `{DM : DmaDevice M} {P : Type}.

Record machine := mkMachine { k_vm : vm pmm; k_ports : P; k_dev : M }.

Definition with_vm (f : vm pmm -> vm pmm) (k : machine) : machine :=
  let v := f (set_mem (ram (k_dev k)) (k_vm k)) in mkMachine v (k_ports k) (set_ram (vm_mem v) (k_dev k)).
Definition with_dev (f : M -> M) (k : machine) : machine := mkMachine (k_vm k) (k_ports k) (f (k_dev k)).

(** [pmm_alloc_dma] and [pmm_free] on the machine's frames; a null pointer is not freed. *)
Definition alloc_dma (off pages : Z) (k : machine) : Z * machine :=
  let '(p, f) := pmm_alloc_dma off pages (vm_frames (k_vm k)) in (p, mkMachine (set_frames f (k_vm k)) (k_ports k) (k_dev k)).
Definition free_dma (off p pages : Z) (k : machine) : machine :=
  if p =? 0 then k else mkMachine (set_frames (pmm_free off p pages (vm_frames (k_vm k))) (k_vm k)) (k_ports k) (k_dev k).

(** [memset(a, 0, n)] *)
Definition clear_mem (a n : Z) (k : machine) : machine := with_dev (fun m => set_ram (fill (ram m) a 0 n) m) k.
End Machine.
Arguments machine : clear implicits.
