(* ===== verification/DmaSpec.v ===== *)
(** * Frames for device drivers

    Runs of free frames and what allocation leaves of them, page table set-up
    included; frames handed out one after the other do not meet. *)
From S2P Require Import Prelude Mem FrameAlloc Pmm Task Sched Pmap Ports Dma.

(** ** Frames *)

(** There are [n] free frames in a row below 4 GiB. *)
Definition has_run (n : Z) (s : pmm) : Prop := exists a, 0 <= a /\ a + n <= Z.min (total_pages s) (2 ^ 20) /\ free_at s a n.

(** First fit takes at most what it was asked for from a run. *)
Lemma run_left hhdm limit pages n s r s' :
  0 < pages <= n -> has_run n s -> allocated hhdm limit pages s r s' -> has_run (n - pages) s'.
Proof.
  intros Hp (a & Ha & Hlim & Hfree) (st & _ & Hst & _ & _ & Hfirst & Ht & _ & Htot & _).
  assert (st <= a) as Hsa by (destruct (decide (st <= a)); [done|]; destruct (Hfirst a); [lia|]; intros p Hpp; apply Hfree; lia).
  exists (Z.max a (st + pages)). rewrite Htot. split; [lia|]. split; [lia|]. intros p Hpp. unfold page_free. rewrite Ht.
  replace ((st <=? p) && (p <? st + pages)) with false by (symmetry; apply andb_false_iff; rewrite Z.ltb_ge; lia). apply (Hfree p). lia.
Qed.

Lemma allocated_inv hhdm limit pages s r s' : allocated hhdm limit pages s r s' -> pmm_inv s'.
Proof. intros (st & _ & _ & _ & _ & _ & _ & _ & _ & _ & H). exact H. Qed.

Lemma alloc_run hhdm pages n s :
  pmm_inv s -> 0 < pages <= n -> has_run n s -> allocated hhdm (total_pages s) pages s (pmm_alloc hhdm pages s).1 (pmm_alloc hhdm pages s).2.
Proof.
  intros Hi Hp (a & Ha & Hlim & Hfree). destruct (pmm_alloc_spec hhdm pages s Hi ltac:(lia)) as [[_ H]|[_ [?|Hno]]]; [done|lia|].
  destruct (Hno a); [lia|lia|]. intros p Hpp. apply Hfree. lia.
Qed.

Lemma alloc_dma_run hhdm pages n s :
  pmm_inv s -> 0 < pages <= n -> has_run n s -> allocated hhdm (Z.min (total_pages s) (2 ^ 20)) pages s (pmm_alloc_dma hhdm pages s).1 (pmm_alloc_dma hhdm pages s).2.
Proof.
  intros Hi Hp (a & Ha & Hlim & Hfree). destruct (pmm_alloc_dma_spec hhdm pages s Hi ltac:(lia)) as [[_ H]|[_ [?|Hno]]]; [done|lia|].
  destruct (Hno a); [lia|lia|]. intros p Hpp. apply Hfree. lia.
Qed.

Section Frames.
Variables (off kernel_pml4 : Z).
Hypothesis Hoff : 0 < off /\ off + 2 ^ 32 <= 2 ^ 64.
#[local] Instance frames_alloc : FrameAlloc pmm := pmm_frame_alloc off.

(** Each level of a mapping takes at most one frame. *)
Definition frames_room (n : Z) (v : vm pmm) : Prop := pmm_inv (vm_frames v) /\ has_run n (vm_frames v).

Lemma map_level_run n va flags level table v :
  0 < n -> frames_room n v -> frames_room (n - 1) (map_level (H := frames_alloc) off va flags level table v).2.
Proof.
  intros Hn [Hi Hr]. assert (Hsame : frames_room (n - 1) v) by (split; [done|]; destruct Hr as (a & H1 & H2 & H3); exists a; split; [done|]; split; [lia|]; intros p Hp; apply H3; lia).
  unfold map_level, table_alloc. cbv zeta. destruct (negb _); [|exact Hsame]. change (fa_alloc 1 (vm_frames v)) with (pmm_alloc off 1 (vm_frames v)).
  pose proof (alloc_run off 1 n _ Hi ltac:(lia) Hr) as Hal. destruct (pmm_alloc off 1 (vm_frames v)) as [page fr]. cbn [fst snd] in Hal.
  assert (pmm_inv fr /\ has_run (n - 1) fr) as Hok by (split; [by eapply allocated_inv|eapply run_left; [|exact Hr|exact Hal]; lia]).
  destruct (page =? 0); [exact Hok|]. destruct (_ =? 0); exact Hok.
Qed.

Lemma map_walk_run l : forall n va flags table v,
  Z.of_nat l <= n -> frames_room n v -> frames_room (n - Z.of_nat l) (map_walk (H := frames_alloc) off l va flags table v).2.
Proof.
  induction l as [|l IH]; intros n va flags table v Hl Hok; [by replace (n - Z.of_nat 0) with n by lia|]. cbn [map_walk].
  pose proof (map_level_run n va flags (Z.of_nat (S l)) table v ltac:(lia) Hok) as H1. destruct (map_level _ _ _ _ _ _) as [[t|] v']; cbn [snd] in H1.
  - replace (n - Z.of_nat (S l)) with (n - 1 - Z.of_nat l) by lia. apply IH; [lia|done].
  - destruct H1 as [Hi (a & Ha & Hb & Hc)]. split; [done|]. exists a. split; [done|]. cbn [snd]. split; [lia|]. intros p Hp. apply Hc. lia.
Qed.

Lemma pmap_map_run n va pa flags v : 3 <= n -> frames_room n v -> frames_room (n - 3) (pmap_map (H := frames_alloc) off kernel_pml4 va pa flags v).
Proof.
  intros Hn Hok. unfold pmap_map. pose proof (map_walk_run 3 n va flags (hhdm_of off kernel_pml4) v Hn Hok) as H.
  destruct (map_walk _ _ _ _ _ _) as [[t|] v']; exact H.
Qed.

Lemma pmap_maps_run k i n f g flags v : 3 * Z.of_nat k <= n -> frames_room n v ->
  frames_room (n - 3 * Z.of_nat k) (for_range k i (fun i => pmap_map (H := frames_alloc) off kernel_pml4 (f i) (g i) flags) v).
Proof.
  intros Hn Hok. pose proof (for_range_ind (fun j v => frames_room (n - 3 * (j - i)) v) k i (fun i => pmap_map (H := frames_alloc) off kernel_pml4 (f i) (g i) flags) v) as H.
  cbv beta in H. replace (n - 3 * Z.of_nat k) with (n - 3 * (i + Z.of_nat k - i)) by lia. apply H; [by replace (n - 3 * (i - i)) with n by lia|].
  intros j s Hj Hs. replace (n - 3 * (j + 1 - i)) with (n - 3 * (j - i) - 3) by lia. apply pmap_map_run; [lia|done].
Qed.

(** ** Frames below 4 GiB *)

Definition page_of (st : Z) : Z := st * 4096 + off.

Lemma dma_page n pages s : pmm_inv s -> 0 < pages <= n -> has_run n s ->
  exists st, (pmm_alloc_dma off pages s).1 = page_of st /\ 0 <= st /\ st + pages <= 2 ^ 20 /\ free_at s st pages /\
    (forall p, bitmap_test (pmm_alloc_dma off pages s).2 p = ((st <=? p) && (p <? st + pages)) || bitmap_test s p) /\
    pmm_inv (pmm_alloc_dma off pages s).2 /\ has_run (n - pages) (pmm_alloc_dma off pages s).2.
Proof.
  intros Hi Hp Hr. pose proof (alloc_dma_run off pages n s Hi Hp Hr) as Hal. pose proof (run_left _ _ _ _ _ _ _ Hp Hr Hal) as Hl.
  destruct Hal as (st & E & H0 & Hlim & Hf & _ & Ht & _ & _ & _ & Hi'). exists st. unfold page_of. split_and!; try done; [|lia].
  rewrite E. apply u64_small. unfold PAGE_SIZE. lia.
Qed.

(** Frames handed out one after the other do not meet. *)
Lemma later_apart s' st n st' n' :
  0 < n -> 0 < n' -> (forall p, st <= p < st + n -> bitmap_test s' p = true) -> free_at s' st' n' -> apart (page_of st) (n * 4096) (page_of st') (n' * 4096).
Proof.
  intros Hn Hn' Hused Hfree. unfold apart, page_of. destruct (decide (st + n <= st')); [lia|]. destruct (decide (st' + n' <= st)); [lia|].
  exfalso. set (p := Z.max st st'). assert (bitmap_test s' p = true) as H1 by (apply Hused; lia). assert (page_free s' p = true) as H2 by (apply Hfree; lia).
  unfold page_free in H2. by rewrite H1 in H2.
Qed.

Lemma page_virt st : 0 <= st <= 2 ^ 20 -> virt_to_phys off (page_of st) = st * 4096 /\ page_of st <> 0.
Proof. intros H. unfold virt_to_phys, page_of. rewrite Z.add_simpl_r, u64_small by lia. lia. Qed.

End Frames.
