(* ===== verification/Ahci.v ===== *)
(** * The SATA controller driver (kernel/src/drivers/ahci.c)

    Commands are built in memory shared with the controller and started by a
    register.  Cache flushes and fences order accesses the model makes in
    order; the messages are left out, but not the registers they read. *)
From S2P Require Import Prelude Mem FrameAlloc Pmm Task Sched Pmap Libk Vfs Block Ports Pci Dma.

Definition AHCI_GHC : Z := 0x004.
Definition AHCI_IS : Z := 0x008.
Definition AHCI_PI : Z := 0x00C.
Definition AHCI_VS : Z := 0x010.
Definition AHCI_PORT_CLB : Z := 0x00.
Definition AHCI_PORT_CLBU : Z := 0x04.
Definition AHCI_PORT_FB : Z := 0x08.
Definition AHCI_PORT_FBU : Z := 0x0C.
Definition AHCI_PORT_IS : Z := 0x10.
Definition AHCI_PORT_CMD : Z := 0x18.
Definition AHCI_PORT_TFD : Z := 0x20.
Definition AHCI_PORT_SIG : Z := 0x24.
Definition AHCI_PORT_SSTS : Z := 0x28.
Definition AHCI_PORT_SCTL : Z := 0x2C.
Definition AHCI_PORT_SERR : Z := 0x30.
Definition AHCI_PORT_CI : Z := 0x38.
Definition AHCI_PORT_TFD_BSY : Z := 0x80.
Definition AHCI_PORT_TFD_DRQ : Z := 0x08.
Definition AHCI_CMD_ST : Z := Z.shiftl 1 0.
Definition AHCI_CMD_FRE : Z := Z.shiftl 1 4.
Definition AHCI_CMD_FR : Z := Z.shiftl 1 14.
Definition AHCI_CMD_CR : Z := Z.shiftl 1 15.
Definition AHCI_GHC_AE : Z := Z.shiftl 1 31.
Definition AHCI_GHC_HR : Z := Z.shiftl 1 0.
Definition AHCI_PORT_IS_TFES : Z := Z.shiftl 1 30.
Definition AHCI_MAX_PORTS : Z := 32.
Definition PCI_CLASS_MASS_STORAGE : Z := 0x01.
Definition PCI_SUBCLASS_AHCI : Z := 0x06.
Definition ONES : Z := 0xFFFFFFFF.

Record ahci_port := mkPort { cl : Z; fis : Z; cmd_table : Z; cl_phys : Z; fis_phys : Z; ct_phys : Z; slot : Z; active : bool }.
Definition no_port : ahci_port := mkPort 0 0 0 0 0 0 0 false.

(** The static variables. *)
Record ahci := mkAhci { hba : Z; hba_phys : Z; ports : list ahci_port; num_ports : Z }.
Definition ahci_boot : ahci := mkAhci 0 0 (replicate (Z.to_nat AHCI_MAX_PORTS) no_port) 0.
Definition port_at (a : ahci) (p : Z) : ahci_port := znth no_port (ports a) p.
Definition set_port (p : Z) (x : ahci_port) (a : ahci) : ahci := mkAhci (hba a) (hba_phys a) (zinsert p x (ports a)) (num_ports a).
Definition set_num (n : Z) (a : ahci) : ahci := mkAhci (hba a) (hba_phys a) (ports a) n.

Definition any_bit (v mask : Z) : bool := negb (Z.land v mask =? 0).

Section Registers.
Context {M : Type} `{DM : DmaDevice M}.

Definition port_reg (p reg : Z) : Z := 0x100 + p * 0x80 + reg.
Definition port_read (p reg : Z) (m : M) : Z * M := reg_read (port_reg p reg) m.
Definition port_write (p reg v : Z) (m : M) : M := reg_write (port_reg p reg) v m.

(** At most [n] reads until the bits of [mask] are clear. *)
Fixpoint wait_clear (n : nat) (r mask : Z) (m : M) : bool * M :=
  match n with
  | O => (false, m)
  | S n' => let '(v, m) := reg_read r m in if negb (any_bit v mask) then (true, m) else wait_clear n' r mask m
  end.

Definition spin_tfd (p mask timeout_ms : Z) (m : M) : bool * M := wait_clear (Z.to_nat (timeout_ms * 1000)) (port_reg p AHCI_PORT_TFD) mask m.

Definition port_stop (p : Z) (m : M) : M :=
  let '(cmd, m) := port_read p AHCI_PORT_CMD m in
  let m := port_write p AHCI_PORT_CMD (Z.land cmd (Z.lxor ONES (Z.lor AHCI_CMD_ST AHCI_CMD_FRE))) m in
  let '(ok, m) := wait_clear (Z.to_nat 5000000) (port_reg p AHCI_PORT_CMD) (Z.lor AHCI_CMD_FR AHCI_CMD_CR) m in
  if ok then m else (port_read p AHCI_PORT_CMD m).2.

(** The loop waits for ever when the bit never clears: [None] without fuel. *)
Fixpoint wait_stopped (fuel : nat) (p : Z) (m : M) : option M :=
  match fuel with
  | O => None
  | S f => let '(v, m) := port_read p AHCI_PORT_CMD m in if any_bit v AHCI_CMD_CR then wait_stopped f p m else Some m
  end.

Definition port_start (fuel : nat) (p : Z) (m : M) : option M :=
  match wait_stopped fuel p m with
  | None => None
  | Some m =>
      let '(cmd, m) := port_read p AHCI_PORT_CMD m in
      Some (port_write p AHCI_PORT_CMD (Z.lor cmd (Z.lor AHCI_CMD_FRE AHCI_CMD_ST)) m)
  end.

(** Whether the link comes up: at most [n] looks at its status. *)
Fixpoint wait_link (n : nat) (p : Z) (m : M) : bool * M :=
  match n with
  | O => (false, m)
  | S n' => let '(ssts, m) := port_read p AHCI_PORT_SSTS m in if Z.land ssts 0x0F =? 3 then (true, m) else wait_link n' p m
  end.

Definition port_link (p : Z) (m : M) : bool * M :=
  let '(ssts, m) := port_read p AHCI_PORT_SSTS m in
  if Z.land ssts 0x0F =? 3 then (true, m)
  else wait_link 500 p (port_write p AHCI_PORT_SCTL 0 (port_write p AHCI_PORT_SCTL 1 m)).

(** ** A command *)

Definition lba_byte (lba k : Z) : Z := Z.land (Z.shiftr lba (8 * k)) 0xFF.

(** The command table at [ct]: the register FIS, and one region for the data. *)
Definition build_table (ct lba xfer bounce_phys : Z) (m : M) : M :=
  let m := set_ram (fill (ram m) ct 0 128) m in
  let m := put_mem 1 (ct + 0) 0x27 m in
  let m := put_mem 1 (ct + 1) (Z.shiftl 1 7) m in
  let m := put_mem 1 (ct + 2) 0x25 m in
  let m := put_mem 1 (ct + 3) 0 m in
  let m := put_mem 1 (ct + 7) (Z.shiftl 1 6) m in
  let m := put_mem 2 (ct + 12) xfer m in
  let m := put_mem 1 (ct + 4) (lba_byte lba 0) m in
  let m := put_mem 1 (ct + 5) (lba_byte lba 1) m in
  let m := put_mem 1 (ct + 6) (lba_byte lba 2) m in
  let m := put_mem 1 (ct + 8) (lba_byte lba 3) m in
  let m := put_mem 1 (ct + 9) (lba_byte lba 4) m in
  let m := put_mem 1 (ct + 10) (lba_byte lba 5) m in
  let m := put_mem 1 (ct + 14) 0 m in
  let m := put_mem 1 (ct + 15) 0 m in
  let m := put_mem 8 (ct + 128) bounce_phys m in
  let m := put_mem 4 (ct + 136) 0 m in
  put_mem 4 (ct + 140) (Z.lor (u32 (xfer * 512 - 1)) (Z.shiftl 1 31)) m.

(** Entry 0 of the command list. *)
Definition build_header (hdr ctba : Z) (m : M) : M :=
  let m := set_ram (fill (ram m) hdr 0 32) m in
  let m := put_mem 2 (hdr + 0) 5 m in
  let m := put_mem 2 (hdr + 2) 1 m in
  let m := put_mem 4 (hdr + 4) 0 m in
  put_mem 8 (hdr + 8) ctba m.

Inductive poll_end := Done | TaskError | Timeout.

Fixpoint poll_done (n : nat) (p : Z) (m : M) : poll_end * M :=
  match n with
  | O => (Timeout, m)
  | S n' =>
      let '(ci, m) := port_read p AHCI_PORT_CI m in
      if negb (any_bit ci (Z.shiftl 1 0)) then (Done, m)
      else
        let '(ist, m) := port_read p AHCI_PORT_IS m in
        if any_bit ist AHCI_PORT_IS_TFES then (TaskError, m) else poll_done n' p m
  end.

(** One turn of the loop of [ahci_read_sectors]: up to 256 sectors through
    the bounce buffer; [None] is failure. *)
Definition transfer (off : Z) (x : ahci_port) (port lba xfer bounce : Z) (m : M) : option (list Z) * M :=
  let '(ok, m) := spin_tfd port (Z.lor AHCI_PORT_TFD_BSY AHCI_PORT_TFD_DRQ) 10000 m in
  if negb ok then (None, (port_read port AHCI_PORT_TFD m).2)
  else
    let m := build_table (phys_to_virt off (ct_phys x)) lba xfer (virt_to_phys off bounce) m in
    let m := build_header (phys_to_virt off (cl_phys x)) (ct_phys x) m in
    let m := port_write port AHCI_PORT_IS ONES m in
    let m := port_write port AHCI_PORT_CI (Z.shiftl 1 0) m in
    let '(e, m) := poll_done (Z.to_nat 10000000) port m in
    match e with
    | TaskError => (None, (port_read port AHCI_PORT_TFD m).2)
    | Timeout => (None, (port_read port AHCI_PORT_TFD (port_read port AHCI_PORT_IS (port_read port AHCI_PORT_CI m).2).2).2)
    | Done => let m := dma m in (Some (bytes_at (Z.to_nat (xfer * 512)) (ram m) bounce), m)
    end.

(** The loop; [acc] is what the caller's buffer holds so far.  A turn moves
    at least one sector, so [fuel] of [remaining] is enough. *)
Fixpoint read_loop (fuel : nat) (off : Z) (x : ahci_port) (port lba remaining bounce : Z) (acc : list Z) (m : M) : bool * list Z * M :=
  match fuel with
  | O => (true, acc, m)
  | S f =>
      if remaining <=? 0 then (true, acc, m)
      else
        let xfer := if 256 <? remaining then 256 else u16 remaining in
        let '(r, m) := transfer off x port lba xfer bounce m in
        match r with
        | None => (false, acc, m)
        | Some l => read_loop f off x port (lba .+ xfer) (remaining - xfer) bounce (acc ++ l) m
        end
  end.
End Registers.

Section Ahci.
Context {M : Type} `{DM : DmaDevice M} {P : Type} `{PT : Ports P}.
Variables (off kernel_pml4 : Z).

(** The result, and the bytes stored in the caller's buffer. *)
Definition ahci_read_sectors (port lba count : Z) (a : ahci) (k : machine M P) : Z * list Z * machine M P :=
  if (port <? 0) || (num_ports a <=? port) || negb (active (port_at a port)) then (-1, [], k)
  else
    let '(bounce, k) := alloc_dma off 1 k in
    if bounce =? 0 then (-1, [], k)
    else
      let '(ok, l, m) := read_loop (Z.to_nat count) off (port_at a port) port lba count bounce [] (k_dev k) in
      let k := free_dma off bounce 1 (mkMachine (k_vm k) (k_ports k) m) in
      ((if ok then s32 count else -1), l, k).

Definition ahci_port_count (a : ahci) : Z := num_ports a.

(** A cleared frame for a structure of the port. *)
Definition dma_area (k : machine M P) : Z * machine M P :=
  let '(p, k) := alloc_dma off 1 k in if p =? 0 then (0, k) else (p, clear_mem p PAGE_SIZE k).

Definition set_cl (p : Z) (x : ahci_port) : ahci_port := mkPort p (fis x) (cmd_table x) (virt_to_phys off p) (fis_phys x) (ct_phys x) (slot x) (active x).
Definition set_fis (p : Z) (x : ahci_port) : ahci_port := mkPort (cl x) p (cmd_table x) (cl_phys x) (virt_to_phys off p) (ct_phys x) (slot x) (active x).
Definition set_ct (p : Z) (x : ahci_port) : ahci_port := mkPort (cl x) (fis x) p (cl_phys x) (fis_phys x) (virt_to_phys off p) (slot x) (active x).
Definition set_active (b : bool) (x : ahci_port) : ahci_port := mkPort (cl x) (fis x) (cmd_table x) (cl_phys x) (fis_phys x) (ct_phys x) (slot x) b.
Definition set_ready (x : ahci_port) : ahci_port := mkPort (cl x) (fis x) (cmd_table x) (cl_phys x) (fis_phys x) (ct_phys x) 0 true.

Definition upd_port (p : Z) (f : ahci_port -> ahci_port) (a : ahci) : ahci := set_port p (f (port_at a p)) a.

(** The registers of the port once its structures are allocated. *)
Definition port_program (fuel : nat) (p : Z) (x : ahci_port) (m : M) : option M :=
  let m := port_write p AHCI_PORT_CLB (u32 (cl_phys x)) m in
  let m := port_write p AHCI_PORT_CLBU (u32 (Z.shiftr (cl_phys x) 32)) m in
  let m := port_write p AHCI_PORT_FB (u32 (fis_phys x)) m in
  let m := port_write p AHCI_PORT_FBU (u32 (Z.shiftr (fis_phys x) 32)) m in
  let m := (port_read p AHCI_PORT_CLBU (port_read p AHCI_PORT_CLB m).2).2 in
  match port_start fuel p m with
  | None => None
  | Some m => Some (port_read p AHCI_PORT_CMD m).2
  end.

Definition port_init (fuel : nat) (p : Z) (st : ahci * machine M P) : option (bool * (ahci * machine M P)) :=
  let '(a, k) := st in
  let '(up, m) := port_link p (port_stop p (k_dev k)) in
  if negb up then Some (false, (a, mkMachine (k_vm k) (k_ports k) m))
  else
    let m := port_write p AHCI_PORT_IS ONES (port_write p AHCI_PORT_SERR ONES m) in
    let '(c, k) := dma_area (mkMachine (k_vm k) (k_ports k) m) in
    if c =? 0 then Some (false, (a, k))
    else
      let a := upd_port p (set_cl c) a in
      let '(f, k) := dma_area k in
      if f =? 0 then Some (false, (a, k))
      else
        let a := upd_port p (set_fis f) a in
        let '(t, k) := dma_area k in
        if t =? 0 then Some (false, (a, k))
        else
          let a := upd_port p (set_ct t) a in
          match port_program fuel p (port_at a p) (k_dev k) with
          | None => None
          | Some m => Some (true, (upd_port p set_ready a, mkMachine (k_vm k) (k_ports k) m))
          end.

(** The controller is switched on, with a reset if that has no effect. *)
Definition hba_enable (m : M) : M :=
  let '(ghc, m) := reg_read AHCI_GHC m in
  let m := reg_write AHCI_GHC (Z.lor ghc AHCI_GHC_AE) m in
  let '(ghc, m) := reg_read AHCI_GHC m in
  if any_bit ghc AHCI_GHC_AE then m
  else
    let m := reg_write AHCI_GHC (Z.lor ghc AHCI_GHC_HR) m in
    let '(_, m) := wait_clear (Z.to_nat 100000) AHCI_GHC AHCI_GHC_HR m in
    let '(ghc, m) := reg_read AHCI_GHC m in
    reg_write AHCI_GHC (Z.lor ghc AHCI_GHC_AE) m.

(** One turn of the loop over the ports the controller implements. *)
Definition init_port (fuel : nat) (pi p : Z) (r : option (ahci * machine M P)) : option (ahci * machine M P) :=
  match r with
  | None => None
  | Some (a, k) =>
      if negb (any_bit pi (Z.shiftl 1 p)) then Some (a, k)
      else
        let '(_, m) := port_read p AHCI_PORT_SIG (k_dev k) in
        let '(ssts, m) := port_read p AHCI_PORT_SSTS m in
        let k := mkMachine (k_vm k) (k_ports k) m in
        if negb (Z.land ssts 0x0F =? 3) then Some (upd_port p (set_active false) a, k)
        else
          match port_init fuel p (a, k) with
          | None => None
          | Some (ok, (a, k)) => Some (if ok then set_num (p + 1) a else a, k)
          end
  end.

Definition register_port (p : Z) (st : ahci * blocks) : ahci * blocks :=
  let '(a, b) := st in
  if negb (active (port_at a p)) then (a, b) else (a, (blockdev_register [115; 100; 97 + p] p 2097152 (Some FnDriver) None b).2).

Definition ahci_init (fuel : nat) (devices : list pci_device) (st : ahci * machine M P) (b : blocks) : option (bool * (ahci * machine M P) * blocks) :=
  match pci_find_device PCI_CLASS_MASS_STORAGE PCI_SUBCLASS_AHCI devices with
  | None => Some (false, st, b)
  | Some d =>
      let '(a, k) := st in
      let '(cmd, p) := pci_config_read32 (p_bus d) (p_dev d) (p_func d) 0x04 (k_ports k) in
      let k := mkMachine (k_vm k) (pci_config_write32 (p_bus d) (p_dev d) (p_func d) 0x04 (Z.lor cmd (Z.lor (Z.shiftl 1 1) (Z.shiftl 1 2))) p) (k_dev k) in
      if negb (znth false (mmio d) 5) then Some (false, (a, k), b)
      else
        let phys := Z.land (znth 0 (bar d) 5) 0xFFFFFFF0 in
        let flags := Z.lor (Z.lor PTE_WRITE PTE_NOCACHE) PTE_PRESENT in
        let k := with_vm (for_range 16 0 (fun i => pmap_map (H := pmm_frame_alloc off) off kernel_pml4 (0xFFFFFFFFA0000000 .+ i * PAGE_SIZE) (phys .+ i * PAGE_SIZE) flags)) k in
        let m := hba_enable (k_dev k) in
        let '(_, m) := reg_read AHCI_VS m in
        let m := reg_write AHCI_IS ONES m in
        let '(pi, m) := reg_read AHCI_PI m in
        let a := mkAhci 0xFFFFFFFFA0000000 phys (ports a) 0 in
        match for_range 32 0 (init_port fuel pi) (Some (a, mkMachine (k_vm k) (k_ports k) m)) with
        | None => None
        | Some (a, k) =>
            if num_ports a =? 0 then Some (false, (a, k), b)
            else let '(a, b) := for_range (Z.to_nat (num_ports a)) 0 register_port (a, b) in Some (true, (a, k), b)
        end
  end.
End Ahci.
