(* ===== verification/AhciSpec.v ===== *)
(** * The SATA controller driver over its controller

    A model of the controller's command processing, and what a read returns. *)
From S2P Require Import Prelude Mem FrameAlloc Pmm Task Sched Pmap Libk Vfs Block Ports Pci Dma DmaSpec Ahci.

(** ** The controller

    From the AHCI specification, for one port with a disk: a bit written to
    the command issue register starts the command of that slot of the command
    list; [h_busy] more reads of the register show it unfinished.  READ DMA
    EXT copies sectors of the disk to the region of the command table, as
    many bytes as the region has. *)
Record ctrl := mkCtrl { h_ram : mem; h_off : Z; h_regs : Z -> Z; h_port : Z; h_disk : mem; h_delay : nat; h_busy : nat }.
Definition h_with_ram (m : mem) (c : ctrl) : ctrl := mkCtrl m (h_off c) (h_regs c) (h_port c) (h_disk c) (h_delay c) (h_busy c).
Definition h_with_regs (r : Z -> Z) (c : ctrl) : ctrl := mkCtrl (h_ram c) (h_off c) r (h_port c) (h_disk c) (h_delay c) (h_busy c).
Definition h_with_busy (n : nat) (c : ctrl) : ctrl := mkCtrl (h_ram c) (h_off c) (h_regs c) (h_port c) (h_disk c) (h_delay c) n.
Definition h_set (r v : Z) (c : ctrl) : ctrl := h_with_regs (<[r := v]> (h_regs c)) c.

Definition fis_lba (m : mem) (ct : Z) : Z :=
  load 1 m (ct + 4) + 2 ^ 8 * load 1 m (ct + 5) + 2 ^ 16 * load 1 m (ct + 6) +
  2 ^ 24 * load 1 m (ct + 8) + 2 ^ 32 * load 1 m (ct + 9) + 2 ^ 40 * load 1 m (ct + 10).

Definition execute (c : ctrl) : ctrl :=
  let m := h_ram c in
  let hdr := h_regs c (port_reg (h_port c) AHCI_PORT_CLB) + 2 ^ 32 * h_regs c (port_reg (h_port c) AHCI_PORT_CLBU) + h_off c in
  let ct := load 8 m (hdr + 8) + h_off c in
  if (load 1 m ct =? 0x27) && any_bit (load 1 m (ct + 1)) 0x80 && (load 1 m (ct + 2) =? 0x25) && any_bit (load 1 m (ct + 7)) 0x40 && (0 <? load 2 m (hdr + 2)) then
    let count := if load 2 m (ct + 12) =? 0 then 65536 else load 2 m (ct + 12) in
    let room := load 4 m (ct + 140) mod 2 ^ 22 + 1 in
    h_with_ram (write_bytes m (load 8 m (ct + 128) + h_off c) (bytes_at (Z.to_nat (Z.min (512 * count) room)) (h_disk c) (512 * fis_lba m ct))) c
  else c.

#[export] Instance ctrl_dma : DmaDevice ctrl := {
  ram := h_ram;
  set_ram := h_with_ram;
  dma c := c;
  reg_write r v c :=
    if r =? port_reg (h_port c) AHCI_PORT_CI then h_with_busy (h_delay c) (h_set r v c)
    else if r =? port_reg (h_port c) AHCI_PORT_IS then h_set r (Z.ldiff (h_regs c r) v) c
    else h_set r v c;
  reg_read r c :=
    if (r =? port_reg (h_port c) AHCI_PORT_CI) && any_bit (h_regs c r) 1 then
      match h_busy c with
      | S n => (h_regs c r, h_with_busy n c)
      | O => let v := Z.ldiff (h_regs c r) 1 in (v, h_set r v (execute c))
      end
    else (h_regs c r, c);
}.

(** ** The command in memory *)

Definition tbl_mem (m : mem) (ct lba xfer bp : Z) : mem :=
  let m := fill m ct 0 128 in
  let m := store 1 m (ct + 0) 0x27 in
  let m := store 1 m (ct + 1) (Z.shiftl 1 7) in
  let m := store 1 m (ct + 2) 0x25 in
  let m := store 1 m (ct + 3) 0 in
  let m := store 1 m (ct + 7) (Z.shiftl 1 6) in
  let m := store 2 m (ct + 12) xfer in
  let m := store 1 m (ct + 4) (lba_byte lba 0) in
  let m := store 1 m (ct + 5) (lba_byte lba 1) in
  let m := store 1 m (ct + 6) (lba_byte lba 2) in
  let m := store 1 m (ct + 8) (lba_byte lba 3) in
  let m := store 1 m (ct + 9) (lba_byte lba 4) in
  let m := store 1 m (ct + 10) (lba_byte lba 5) in
  let m := store 1 m (ct + 14) 0 in
  let m := store 1 m (ct + 15) 0 in
  let m := store 8 m (ct + 128) bp in
  let m := store 4 m (ct + 136) 0 in
  store 4 m (ct + 140) (Z.lor (u32 (xfer * 512 - 1)) (Z.shiftl 1 31)).
Definition hdr_mem (m : mem) (hdr ctba : Z) : mem :=
  store 8 (store 4 (store 2 (store 2 (fill m hdr 0 32) (hdr + 0) 5) (hdr + 2) 1) (hdr + 4) 0) (hdr + 8) ctba.

Lemma build_table_mem ct lba xfer bp c : build_table ct lba xfer bp c = h_with_ram (tbl_mem (h_ram c) ct lba xfer bp) c.
Proof. reflexivity. Qed.
Lemma build_header_mem hdr ctba c : build_header hdr ctba c = h_with_ram (hdr_mem (h_ram c) hdr ctba) c.
Proof. reflexivity. Qed.

Lemma agree_tbl m ct lba xfer bp a n : apart a n ct 144 -> agree m (tbl_mem m ct lba xfer bp) a n.
Proof.
  unfold apart, tbl_mem. cbv zeta. intros Ha. repeat (eapply agree_trans; [|apply agree_store; unfold apart; lia]). apply agree_fill. unfold apart. lia.
Qed.
Lemma agree_hdr m hdr ctba a n : apart a n hdr 32 -> agree m (hdr_mem m hdr ctba) a n.
Proof. unfold apart, hdr_mem. intros Ha. repeat (eapply agree_trans; [|apply agree_store; unfold apart; lia]). apply agree_fill. unfold apart. lia. Qed.

Lemma lba_byte_eq lba k : 0 <= k -> lba_byte lba k = lba / 2 ^ (8 * k) mod 256.
Proof. intros Hk. unfold lba_byte. change 0xFF with (2 ^ 8 - 1). rewrite land_ones_mod, Z.shiftr_div_pow2 by lia. done. Qed.

Lemma six_bytes x : 0 <= x < 2 ^ 48 ->
  lba_byte x 0 + 2 ^ 8 * lba_byte x 1 + 2 ^ 16 * lba_byte x 2 + 2 ^ 24 * lba_byte x 3 + 2 ^ 32 * lba_byte x 4 + 2 ^ 40 * lba_byte x 5 = x.
Proof.
  intros Hx. rewrite !lba_byte_eq by done. change (2 ^ (8 * 0)) with 1. rewrite Z.div_1_r.
  replace (x / 2 ^ (8 * 2)) with (x / 2 ^ 8 / 2 ^ 8) by (rewrite Z.div_div by done; done).
  replace (x / 2 ^ (8 * 3)) with (x / 2 ^ 8 / 2 ^ 8 / 2 ^ 8) by (rewrite !Z.div_div by done; done).
  replace (x / 2 ^ (8 * 4)) with (x / 2 ^ 8 / 2 ^ 8 / 2 ^ 8 / 2 ^ 8) by (rewrite !Z.div_div by done; done).
  assert (x / 2 ^ (8 * 5) = x / 2 ^ 8 / 2 ^ 8 / 2 ^ 8 / 2 ^ 8 / 2 ^ 8) as -> by (rewrite !Z.div_div by done; done).
  change (2 ^ (8 * 1)) with 256. change (2 ^ 8) with 256. change (2 ^ 16) with (256 * 256). change (2 ^ 24) with (256 * 256 * 256). change (2 ^ 32) with (256 * 256 * 256 * 256). change (2 ^ 40) with (256 * 256 * 256 * 256 * 256).
  assert (0 <= x / 256 / 256 / 256 / 256 / 256 < 256) as Hg.
  { rewrite !Z.div_div by done. change (256 * 256 * 256 * 256 * 256) with (2 ^ 40). split; [apply Z.div_pos; lia|apply Z.div_lt_upper_bound; [done|]; change (2 ^ 40 * 256) with (2 ^ 48); lia]. }
  pose proof (Z.div_mod x 256 ltac:(done)) as E0. pose proof (Z.div_mod (x / 256) 256 ltac:(done)) as E1. pose proof (Z.div_mod (x / 256 / 256) 256 ltac:(done)) as E2.
  pose proof (Z.div_mod (x / 256 / 256 / 256) 256 ltac:(done)) as E3. pose proof (Z.div_mod (x / 256 / 256 / 256 / 256) 256 ltac:(done)) as E4.
  rewrite (Z.mod_small (x / 256 / 256 / 256 / 256 / 256)) by done. lia.
Qed.

(** Loads through a chain of stores. *)
Ltac mem_load :=
  repeat match goal with
  | |- context [load ?k (store ?j ?m ?b ?v) ?a] => first [rewrite (load_store_other k j m a b v) by (unfold apart; lia) | rewrite (load_store_same k m b v)]
  end.

(** What the controller reads is what the driver built. *)
Lemma table_loads m ct lba xfer bp :
  0 < xfer <= 256 -> 0 <= lba < 2 ^ 48 -> 0 <= bp < 2 ^ 64 ->
  let m' := tbl_mem m ct lba xfer bp in
  load 1 m' (ct + 0) = 0x27 /\ load 1 m' (ct + 1) = 0x80 /\ load 1 m' (ct + 2) = 0x25 /\ load 1 m' (ct + 7) = 0x40 /\ load 2 m' (ct + 12) = xfer /\
  load 8 m' (ct + 128) = bp /\ load 4 m' (ct + 140) mod 2 ^ 22 + 1 = xfer * 512 /\ fis_lba m' ct = lba.
Proof.
  intros Hx Hl Hbp m'. unfold fis_lba, m', tbl_mem. cbv zeta.
  assert (forall k, 0 <= lba_byte lba k < 256) as Hb by (intros k; unfold lba_byte; change 0xFF with (2 ^ 8 - 1); rewrite land_ones_mod by done; by apply Z.mod_pos_bound).
  assert (u32 (xfer * 512 - 1) = xfer * 512 - 1) as Hu by (apply u32_small; lia).
  split_and!; [mem_load; first [done | apply Z.mod_small; lia]..| |].
  - rewrite load_store_same, Hu, Z.lor_comm, lor_shiftl_add by lia. change (256 ^ Z.of_nat 4) with (2 ^ 32). rewrite (Z.mod_small (_ + _)) by lia.
    rewrite (Z.add_comm (1 * _)). change (1 * 2 ^ 31) with (2 ^ 9 * 2 ^ 22). rewrite Z.mod_add by done. rewrite Z.mod_small by lia. lia.
  - etransitivity; [|exact (six_bytes lba Hl)]. mem_load. change (256 ^ Z.of_nat 1) with 256. rewrite !(Z.mod_small (lba_byte lba _) 256) by apply Hb. done.
Qed.

Lemma header_loads m hdr ctba : 0 <= ctba < 2 ^ 64 -> load 8 (hdr_mem m hdr ctba) (hdr + 8) = ctba /\ load 2 (hdr_mem m hdr ctba) (hdr + 2) = 1.
Proof.
  intros Hc. unfold hdr_mem. split; [rewrite load_store_same; by apply Z.mod_small|]. rewrite !load_store_other by (unfold apart; lia). by rewrite load_store_same.
Qed.

Lemma execute_command c x lba xfer bp :
  let hdr := cl_phys x + h_off c in
  let ct := ct_phys x + h_off c in
  0 < xfer <= 256 -> 0 <= lba < 2 ^ 48 -> 0 <= bp < 2 ^ 64 -> 0 <= ct_phys x < 2 ^ 64 -> apart ct 144 hdr 32 ->
  h_regs c (port_reg (h_port c) AHCI_PORT_CLB) + 2 ^ 32 * h_regs c (port_reg (h_port c) AHCI_PORT_CLBU) = cl_phys x ->
  (exists m, h_ram c = hdr_mem (tbl_mem m ct lba xfer bp) hdr (ct_phys x)) ->
  execute c = h_with_ram (write_bytes (h_ram c) (bp + h_off c) (bytes_at (Z.to_nat (512 * xfer)) (h_disk c) (512 * lba))) c.
Proof.
  intros hdr ct Hx Hl Hbp Hct Hap Hregs (m & Hm). unfold execute. rewrite Hregs. fold hdr.
  assert (agree (tbl_mem m ct lba xfer bp) (h_ram c) ct 144) as Ha by (rewrite Hm; by apply agree_hdr).
  destruct (header_loads (tbl_mem m ct lba xfer bp) hdr (ct_phys x) Hct) as [H1 H2]. rewrite <- Hm in H1, H2. rewrite H1, H2. fold ct.
  destruct (table_loads m ct lba xfer bp Hx Hl Hbp) as (T1 & T2 & T3 & T4 & T5 & T6 & T7 & T8). rewrite Z.add_0_r in T1. unfold fis_lba in *.
  rewrite !(load_agree _ _ (h_ram c) ct _ 144 Ha) by lia. rewrite T1, T2, T3, T4, T5, T6, T7, T8. cbn [Z.eqb Pos.eqb andb any_bit Z.land Pos.land negb Z.ltb Z.compare].
  rewrite (proj2 (Z.eqb_neq xfer 0)) by lia. replace (Z.min (512 * xfer) (xfer * 512)) with (512 * xfer) by lia. done.
Qed.

(** ** Completion *)

Lemma poll_done_ok n : forall c, h_regs c (port_reg (h_port c) AHCI_PORT_CI) = 1 -> any_bit (h_regs c (port_reg (h_port c) AHCI_PORT_IS)) AHCI_PORT_IS_TFES = false ->
  (h_busy c < n)%nat -> poll_done n (h_port c) c = (Done, h_set (port_reg (h_port c) AHCI_PORT_CI) 0 (execute (h_with_busy 0 c))).
Proof.
  induction n as [|n IH]; intros c Hci His Hb; [lia|]. cbn [poll_done]. unfold port_read at 1. cbn [reg_read ctrl_dma]. rewrite Z.eqb_refl, Hci. change (any_bit 1 1) with true. cbn [andb].
  destruct (h_busy c) as [|b] eqn:Eb; [by destruct c; cbn in Eb; subst|]. change (any_bit 1 (Z.shiftl 1 0)) with true. cbn [negb]. unfold port_read at 1. cbn [reg_read ctrl_dma].
  replace (port_reg (h_port c) AHCI_PORT_IS =? port_reg (h_port (h_with_busy b c)) AHCI_PORT_CI) with false by (symmetry; apply Z.eqb_neq; unfold port_reg, AHCI_PORT_IS, AHCI_PORT_CI; cbn [h_port h_with_busy]; lia).
  cbn [andb]. change (h_regs (h_with_busy b c)) with (h_regs c). rewrite His.
  etransitivity; [apply (IH (h_with_busy b c) Hci His); cbn [h_busy h_with_busy]; lia|done].
Qed.

Lemma port_reg_ne p r r' : r <> r' -> port_reg p r <> port_reg p r'.
Proof. unfold port_reg. lia. Qed.

(** Starting the command. *)
Lemma issue_command c :
  port_write (h_port c) AHCI_PORT_CI 1 (port_write (h_port c) AHCI_PORT_IS ONES c) =
  h_with_busy (h_delay c) (h_set (port_reg (h_port c) AHCI_PORT_CI) 1 (h_set (port_reg (h_port c) AHCI_PORT_IS) (Z.ldiff (h_regs c (port_reg (h_port c) AHCI_PORT_IS)) ONES) c)).
Proof.
  assert (port_write (h_port c) AHCI_PORT_IS ONES c = h_set (port_reg (h_port c) AHCI_PORT_IS) (Z.ldiff (h_regs c (port_reg (h_port c) AHCI_PORT_IS)) ONES) c) as ->.
  { unfold port_write. cbn [reg_write ctrl_dma]. rewrite (proj2 (Z.eqb_neq _ _) (port_reg_ne (h_port c) AHCI_PORT_IS AHCI_PORT_CI ltac:(done))), Z.eqb_refl. done. }
  unfold port_write. cbn [reg_write ctrl_dma h_port h_set h_with_regs]. by rewrite Z.eqb_refl.
Qed.

Lemma tfes_cleared v : any_bit (Z.ldiff v ONES) AHCI_PORT_IS_TFES = false.
Proof.
  unfold any_bit. apply negb_false_iff, Z.eqb_eq. apply Z.bits_inj'. intros i Hi. rewrite Z.land_spec, Z.ldiff_spec, Z.bits_0.
  destruct (decide (i = 30)) as [->|]; [change (Z.testbit ONES 30) with true; by rewrite andb_false_r|].
  unfold AHCI_PORT_IS_TFES. rewrite Z.shiftl_1_l, Z.pow2_bits_false by done. apply andb_false_r.
Qed.

Lemma wait_clear_now n r mask (c : ctrl) : 0 < Z.of_nat n -> any_bit (reg_read r c).1 mask = false -> wait_clear n r mask c = (true, (reg_read r c).2).
Proof. intros Hn H. destruct n as [|n]; [lia|]. cbn [wait_clear]. destruct (reg_read r c) as [v c']. cbn [fst snd] in *. by rewrite H. Qed.

(** The controller has the port's command list and is idle. *)
Record idle (off : Z) (x : ahci_port) (c : ctrl) : Prop := {
  id_off : h_off c = off;
  id_list : h_regs c (port_reg (h_port c) AHCI_PORT_CLB) + 2 ^ 32 * h_regs c (port_reg (h_port c) AHCI_PORT_CLBU) = cl_phys x;
  id_tfd : h_regs c (port_reg (h_port c) AHCI_PORT_TFD) = 0x50;
  id_ci : h_regs c (port_reg (h_port c) AHCI_PORT_CI) = 0;
  id_delay : Z.of_nat (h_delay c) < 10000000;
  id_cl : 0 <= cl_phys x /\ cl_phys x + 4096 <= 2 ^ 32;
  id_ct : 0 <= ct_phys x /\ ct_phys x + 4096 <= 2 ^ 32;
  id_apart : apart (cl_phys x) 4096 (ct_phys x) 4096;
}.

Lemma bytes_at_u8 n m a : u8 <$> bytes_at n m a = bytes_at n m a.
Proof. revert a. induction n as [|n IH]; intros a; [done|]. cbn [bytes_at fmap list_fmap]. f_equal; [apply u8_small, u8_range|apply IH]. Qed.

Lemma transfer_ok off x lba xfer bp c :
  0 < off /\ off + 2 ^ 32 <= 2 ^ 64 -> idle off x c -> 0 < xfer <= 256 -> 0 <= lba < 2 ^ 48 -> 0 <= bp /\ bp + 4096 <= 2 ^ 32 ->
  exists c', transfer off x (h_port c) lba xfer (bp + off) c = (Some (bytes_at (Z.to_nat (512 * xfer)) (h_disk c) (512 * lba)), c') /\
    idle off x c' /\ h_disk c' = h_disk c /\ h_port c' = h_port c /\
    bytes_at (Z.to_nat (512 * xfer)) (h_ram c') (bp + off) = bytes_at (Z.to_nat (512 * xfer)) (h_disk c) (512 * lba) /\
    forall a n, apart a n (cl_phys x + off) 4096 -> apart a n (ct_phys x + off) 4096 -> apart a n (bp + off) (512 * xfer) -> agree (h_ram c) (h_ram c') a n.
Proof.
  intros Hoff I Hx Hl Hbp. destruct I as [<- Hlist Htfd Hci Hdel Hcl Hct Hap]. set (off := h_off c) in *. unfold transfer, spin_tfd.
  assert (reg_read (port_reg (h_port c) AHCI_PORT_TFD) c = (0x50, c)) as Etfd.
  { cbn [reg_read ctrl_dma]. rewrite (proj2 (Z.eqb_neq _ _) (port_reg_ne (h_port c) AHCI_PORT_TFD AHCI_PORT_CI ltac:(done))). cbn [andb]. by rewrite Htfd. }
  rewrite wait_clear_now, Etfd by (rewrite ?Etfd; first [lia | done]). cbn [negb fst snd].
  rewrite build_table_mem, build_header_mem. unfold phys_to_virt, virt_to_phys. rewrite Z.add_simpl_r, !u64_small by lia.
  change (Z.shiftl 1 0) with 1. set (m := hdr_mem _ _ _). change (h_with_ram m (h_with_ram _ c)) with (h_with_ram m c). change (h_port c) with (h_port (h_with_ram m c)) at 1 2 3. rewrite issue_command.
  cbn [h_port h_with_ram h_delay h_regs]. set (c1 := h_with_busy _ _). pose proof (poll_done_ok (Z.to_nat 10000000) c1) as Hpoll. change (h_port c1) with (h_port c) in Hpoll.
  assert (Hreg : forall r, r <> AHCI_PORT_CI -> r <> AHCI_PORT_IS -> h_regs c1 (port_reg (h_port c) r) = h_regs c (port_reg (h_port c) r)).
  { intros r H1 H2. unfold c1. cbn [h_regs h_with_busy h_set h_with_regs h_with_ram]. by rewrite !fn_lookup_insert_ne by (apply port_reg_ne; congruence). }
  rewrite Hpoll; clear Hpoll.
  2:{ unfold c1. cbn [h_regs h_with_busy h_set h_with_regs]. by rewrite fn_lookup_insert. }
  2:{ unfold c1. cbn [h_regs h_with_busy h_set h_with_regs h_with_ram]. rewrite fn_lookup_insert_ne, fn_lookup_insert by (by apply port_reg_ne). apply tfes_cleared. }
  2:{ change (h_busy c1) with (h_delay c). clear -Hdel. lia. }
  assert (execute (h_with_busy 0 c1) = h_with_ram (write_bytes m (bp + off) (bytes_at (Z.to_nat (512 * xfer)) (h_disk c) (512 * lba))) (h_with_busy 0 c1)) as ->.
  { rewrite (execute_command (h_with_busy 0 c1) x lba xfer bp); [done|done|done|lia|lia|unfold apart in *; cbn [h_off h_with_busy]; change (h_off c1) with off; lia| |].
    - change (h_regs (h_with_busy 0 c1)) with (h_regs c1). change (h_port (h_with_busy 0 c1)) with (h_port c). by rewrite !Hreg.
    - exists (h_ram c). done. }
  set (c2 := h_set _ _ (h_with_ram _ _)). exists c2.
  assert (bytes_at (Z.to_nat (512 * xfer)) (h_ram c2) (bp + off) = bytes_at (Z.to_nat (512 * xfer)) (h_disk c) (512 * lba)) as Hdata.
  { change (h_ram c2) with (write_bytes m (bp + off) (bytes_at (Z.to_nat (512 * xfer)) (h_disk c) (512 * lba))). set (l := bytes_at _ (h_disk c) _).
    replace (Z.to_nat (512 * xfer)) with (length l) by (unfold l; by rewrite bytes_at_length). rewrite bytes_at_write_bytes. apply bytes_at_u8. }
  split; [|split; [|split; [reflexivity|split; [reflexivity|split; [exact Hdata|]]]]].
  - cbn [dma ctrl_dma ram]. replace (xfer * 512) with (512 * xfer) by lia. rewrite Hdata. reflexivity.
  - assert (Hreg2 : forall r, r <> AHCI_PORT_CI -> r <> AHCI_PORT_IS -> h_regs c2 (port_reg (h_port c) r) = h_regs c (port_reg (h_port c) r)).
    { intros r H1 H2. rewrite <- (Hreg r H1 H2). unfold c2. cbn [h_regs h_set h_with_regs h_with_ram h_with_busy]. by rewrite fn_lookup_insert_ne by (apply port_reg_ne; congruence). }
    constructor; [done| | | |exact Hdel|done|done|done]; change (h_port c2) with (h_port c); rewrite ?Hreg2 by done; [done|done|].
    unfold c2. cbn [h_regs h_set h_with_regs]. by rewrite fn_lookup_insert.
  - intros a n H1 H2 H3. change (agree (h_ram c) (write_bytes m (bp + off) (bytes_at (Z.to_nat (512 * xfer)) (h_disk c) (512 * lba))) a n).
    eapply agree_trans; [|apply agree_write; unfold zlen; rewrite bytes_at_length; unfold apart in *; lia]. unfold m.
    eapply agree_trans; [apply agree_tbl|apply agree_hdr]; unfold apart in *; lia.
Qed.

(** More than eight sectors do not fit the bounce buffer, which is one frame:
    the controller writes the rest over whatever follows it. *)
Lemma long_read_overruns off x lba xfer bp c i :
  0 < off /\ off + 2 ^ 32 <= 2 ^ 64 -> idle off x c -> 8 < xfer <= 256 -> 0 <= lba < 2 ^ 48 -> 0 <= bp /\ bp + 4096 <= 2 ^ 32 -> 0 <= i < 512 * (xfer - 8) ->
  load8 (h_ram (transfer off x (h_port c) lba xfer (bp + off) c).2) (bp + off + 4096 + i) = load8 (h_disk c) (512 * lba + 4096 + i).
Proof.
  intros Hoff I Hx Hl Hbp Hi. destruct (transfer_ok off x lba xfer bp c Hoff I ltac:(lia) Hl Hbp) as (c' & -> & _ & _ & _ & Hd & _). cbn [snd].
  rewrite <- !Z.add_assoc, !(Z.add_assoc bp off). rewrite <- (bytes_at_lookup (Z.to_nat (512 * xfer)) (h_ram c')), <- (bytes_at_lookup (Z.to_nat (512 * xfer)) (h_disk c)) by lia. by rewrite Hd.
Qed.

(** ** Reading *)

Section Read.
Context {P : Type} `{PT : Ports P}.
Variable off : Z.
Hypothesis Hoff : 0 < off /\ off + 2 ^ 32 <= 2 ^ 64.

(** The port's two structures are frames in use. *)
Record port_frames (x : ahci_port) (f : pmm) : Prop := {
  pf_inv : pmm_inv f;
  pf_align : cl_phys x mod 4096 = 0 /\ ct_phys x mod 4096 = 0;
  pf_used : bitmap_test f (cl_phys x / 4096) = true /\ bitmap_test f (ct_phys x / 4096) = true;
}.

(** The frame at [q], and whether it is in use. *)
Definition used_at (f : pmm) (q : Z) : bool := bitmap_test f ((q - off) / 4096).

Lemma read_once n x lba count bp c :
  idle off x c -> 0 <= count <= 8 -> Z.of_nat n = count -> 0 <= lba -> lba + count <= 2 ^ 48 -> 0 <= bp /\ bp + 4096 <= 2 ^ 32 ->
  exists c', read_loop n off x (h_port c) lba count (bp + off) [] c = (true, bytes_at (Z.to_nat (512 * count)) (h_disk c) (512 * lba), c') /\
    idle off x c' /\ h_disk c' = h_disk c /\ h_port c' = h_port c /\
    forall a k, apart a k (cl_phys x + off) 4096 -> apart a k (ct_phys x + off) 4096 -> apart a k (bp + off) 4096 -> agree (h_ram c) (h_ram c') a k.
Proof.
  intros I Hc Hn Hl Hlc Hbp. destruct n as [|n]; cbn [read_loop].
  { assert (count = 0) as -> by lia. exists c. split_and!; [done..|by intros a k _ _ _ y Hy]. }
  rewrite (proj2 (Z.leb_gt count 0)), (proj2 (Z.ltb_ge 256 count)), u16_small by lia.
  destruct (transfer_ok off x lba count bp c Hoff I ltac:(lia) ltac:(lia) Hbp) as (c' & -> & I' & Hd & Hp & _ & Ha). exists c'.
  split; [|split; [done|split; [done|split; [done|]]]].
  - rewrite Z.sub_diag. destruct n; [done|]. cbn [read_loop]. change (0 <=? 0) with true. done.
  - intros a k H1 H2 H3. apply Ha; [done|done|]. unfold apart in *. lia.
Qed.

(** C34: reading sectors from a SATA disk.  For up to eight sectors (a page),
    with a frame for the bounce buffer and a controller that ends commands in
    time: the call returns their number and their bytes; the port is ready for
    the next command; the frame is given back; and of the memory in use only
    the port's own two frames have changed. *)
Theorem ahci_read_correct port lba count a (k : machine ctrl P) :
  let x := port_at a port in
  let f := vm_frames (k_vm k) in
  0 <= port < num_ports a -> active x = true -> h_port (k_dev k) = port -> idle off x (k_dev k) ->
  port_frames x f -> has_run 1 f -> 0 <= count <= 8 -> 0 <= lba -> lba + count <= 2 ^ 48 ->
  exists k', ahci_read_sectors off port lba count a k = (count, bytes_at (Z.to_nat (512 * count)) (h_disk (k_dev k)) (512 * lba), k') /\
    idle off x (k_dev k') /\ h_disk (k_dev k') = h_disk (k_dev k) /\ h_port (k_dev k') = port /\
    port_frames x (vm_frames (k_vm k')) /\ (forall p, page_free (vm_frames (k_vm k')) p = page_free f p) /\
    (forall q, used_at f q = true -> in_region (cl_phys x + off) 4096 q = false -> in_region (ct_phys x + off) 4096 q = false ->
       h_ram (k_dev k') q = h_ram (k_dev k) q).
Proof.
  intros x f Hport Hact Hp I [Hinv Hal Hus] Hrun Hc Hl Hlc. unfold ahci_read_sectors. fold x.
  rewrite (proj2 (Z.ltb_ge port 0)), (proj2 (Z.leb_gt (num_ports a) port)), Hact by lia. cbn [orb negb]. unfold alloc_dma. fold f.
  pose proof (alloc_dma_run off 1 1 f Hinv ltac:(lia) Hrun) as Hall. destruct (dma_page off Hoff 1 1 f Hinv ltac:(lia) Hrun) as (st & E & H0 & Hlim & Hfree & Hbits & Hinv' & _).
  pose proof (allocated_freed off _ 1 f _ _ Hinv eq_refl ltac:(apply Z.le_min_l) Hall) as (Hi2 & Hsame & _).
  destruct (pmm_alloc_dma off 1 f) as [p f1]. cbn [fst snd] in *. subst p. destruct (page_virt off Hoff st ltac:(lia)) as [_ Hne]. rewrite (proj2 (Z.eqb_neq _ 0) Hne). cbn [k_dev k_vm k_ports].
  rewrite <- Hp. destruct (read_once (Z.to_nat count) x lba count (st * 4096) (k_dev k) I Hc ltac:(lia) Hl Hlc ltac:(lia)) as (c' & Er & I' & Hd & Hpt & Hag).
  change (page_of off st) with (st * 4096 + off). rewrite Er. rewrite s32_small by lia. eexists. split; [reflexivity|]. unfold free_dma.
  unfold page_of in Hne. rewrite (proj2 (Z.eqb_neq _ 0) Hne). cbn [k_dev k_vm k_ports vm_frames set_frames]. split_and!; [done|done|done| |done|].
  - constructor; [done|done|]. assert (forall pg, bitmap_test f pg = true -> bitmap_test (pmm_free off (st * 4096 + off) 1 f1) pg = true) as Hb.
    { intros pg Hpg. specialize (Hsame pg). unfold page_free in Hsame. rewrite Hpg in Hsame. by apply negb_false_iff in Hsame. }
    split; apply Hb, Hus.
  - intros q Hu H1 H2. unfold agree in Hag. apply (Hag q 1); [| | |lia]; unfold apart; apply in_region_false in H1, H2; [lia|lia|].
    assert (in_region (st * 4096 + off) 4096 q = false) as H3; [|apply in_region_false in H3; lia].
    apply in_region_false. destruct (decide ((q - off) / 4096 = st)) as [Eq|Eq]; [|lia]. exfalso. specialize (Hfree st ltac:(lia)). unfold page_free in Hfree. unfold used_at in Hu. rewrite Eq in Hu. by rewrite Hu in Hfree.
Qed.
End Read.

(** ** A concrete controller *)

(** The command list in frame 0, the table in frame 1; byte [x] of the disk is [x mod 251]. *)
Definition test_ctrl : ctrl := mkCtrl (fun _ => 0) OFF (fun r => if r =? port_reg 0 AHCI_PORT_TFD then 0x50 else 0) 0 (fun x => x mod 251) 3 0.
Definition test_ahci : ahci := mkAhci 0 0 [mkPort OFF 0 (OFF + 4096) 0 0 4096 0 true] 1.

Lemma ahci_read_correct_witness :
  exists k', ahci_read_sectors OFF 0 5 2 test_ahci (mkMachine demo_vm tt test_ctrl) = (2, bytes_at 1024 (h_disk test_ctrl) 2560, k') /\
    (forall p, page_free (vm_frames (k_vm k')) p = page_free (vm_frames demo_vm) p).
Proof.
  destruct (ahci_read_correct (P := unit) OFF ltac:(unfold OFF; lia) 0 5 2 test_ahci (mkMachine demo_vm tt test_ctrl)) as (k' & E & _ & _ & _ & _ & Hf & _).
  - cbn [num_ports test_ahci]. lia.
  - reflexivity.
  - reflexivity.
  - constructor; vm_compute; intuition discriminate.
  - constructor; [split; vm_compute; [split; discriminate|reflexivity]|vm_compute; split; reflexivity|vm_compute; split; reflexivity].
  - exists 2. split; [lia|]. split; [vm_compute; discriminate|]. intros p Hp. assert (p = 2) as -> by lia. vm_compute. reflexivity.
  - lia.
  - lia.
  - lia.
  - exists k'. split; [exact E|exact Hf].
Defined.

