(* ===== verification/E1000.v ===== *)
(** * The network card driver (kernel/src/drivers/net/e1000.c)

    Rings of descriptors in memory that the 82540EM reads and writes.  A
    descriptor has 16 bytes: the buffer's address (8), its length (2), for
    reception checksum (2), status (1), errors (1) and a tag (2), for
    transmission offset (1), command (1), status (1), checksum start (1) and
    a tag (2).  Fences order accesses the model makes in order; console
    messages are left out, but not the registers they read. *)
From S2P Require Import Prelude Mem KString FrameAlloc Pmm Task Sched Pmap Libk Net Ports Pci Dma.

Definition E1000_VID : Z := 0x8086.
Definition E1000_DID_82540EM : Z := 0x100E.

Definition E1000_REG_CTRL : Z := 0x0000.
Definition E1000_REG_STATUS : Z := 0x0008.
Definition E1000_REG_EEPROM : Z := 0x0014.
Definition E1000_REG_IMC : Z := 0x00D8.
Definition E1000_REG_RCTL : Z := 0x0100.
Definition E1000_REG_TCTL : Z := 0x0400.
Definition E1000_REG_RDBAL : Z := 0x2800.
Definition E1000_REG_RDBAH : Z := 0x2804.
Definition E1000_REG_RDLEN : Z := 0x2808.
Definition E1000_REG_RDH : Z := 0x2810.
Definition E1000_REG_RDT : Z := 0x2818.
Definition E1000_REG_TDBAL : Z := 0x3800.
Definition E1000_REG_TDBAH : Z := 0x3804.
Definition E1000_REG_TDLEN : Z := 0x3808.
Definition E1000_REG_TDH : Z := 0x3810.
Definition E1000_REG_TDT : Z := 0x3818.

Definition E1000_CTRL_RST : Z := Z.shiftl 1 26.
Definition E1000_CTRL_SLU : Z := Z.shiftl 1 6.
Definition E1000_CTRL_LRST : Z := Z.shiftl 1 3.
Definition E1000_RCTL_EN : Z := Z.shiftl 1 1.
Definition E1000_RCTL_BAM : Z := Z.shiftl 1 15.
Definition E1000_TCTL_EN : Z := Z.shiftl 1 1.
Definition E1000_TCTL_PSP : Z := Z.shiftl 1 3.
Definition E1000_TCTL_CT_SHIFT : Z := 4.
Definition E1000_TCTL_COLD_FD : Z := Z.shiftl 0x40 12.
Definition E1000_TXD_CMD : Z := Z.lor (Z.lor (Z.shiftl 1 0) (Z.shiftl 1 1)) (Z.shiftl 1 3).  (* EOP, IFCS, RS *)
Definition E1000_TXD_STAT_DD : Z := Z.shiftl 1 0.
Definition E1000_RXD_STAT_DD : Z := Z.shiftl 1 0.
Definition E1000_RXD_STAT_EOP : Z := Z.shiftl 1 1.
Definition E1000_RXD_ERRS : Z :=   (* CE, SE, SEQ, CXE, RXE *)
  Z.lor (Z.lor (Z.lor (Z.lor (Z.shiftl 1 0) (Z.shiftl 1 1)) (Z.shiftl 1 2)) (Z.shiftl 1 4)) (Z.shiftl 1 7).

Definition E1000_RX_RING : Z := 32.
Definition E1000_TX_RING : Z := 32.
Definition E1000_RX_BUF : Z := 2048.
Definition E1000_TX_BUF : Z := 2048.
Definition E1000_EEPROM_TIMEOUT : Z := 500000.
Definition E1000_RESET_TIMEOUT : Z := 10000000.
Definition E1000_TX_TIMEOUT : Z := 10000000.
Definition E1000_MMIO_VA : Z := 0xFFFFFFFF90000000.
Definition NET_RX_BUF : Z := 1600.

(** The static variables; 0 is a null pointer. *)
Record e1000 := mkE1000 {
  regs : Z; present_flag : bool; nic_up : bool; mac : list Z;
  rx_ring : Z; tx_ring : Z; rx_bufs : Z; tx_bufs : Z;
  rx_ring_phys : Z; tx_ring_phys : Z; rx_bufs_phys : Z; tx_bufs_phys : Z;
  rx_discard : bool; rx_next : Z; tx_tail : Z;
}.
Definition e1000_boot : e1000 := mkE1000 0 false false [0; 0; 0; 0; 0; 0] 0 0 0 0 0 0 0 0 false 0 0.

Definition set_regs (r : Z) (d : e1000) : e1000 :=
  mkE1000 r (present_flag d) (nic_up d) (mac d) (rx_ring d) (tx_ring d) (rx_bufs d) (tx_bufs d) (rx_ring_phys d) (tx_ring_phys d) (rx_bufs_phys d) (tx_bufs_phys d) (rx_discard d) (rx_next d) (tx_tail d).
Definition set_mac (a : list Z) (d : e1000) : e1000 :=
  mkE1000 (regs d) (present_flag d) (nic_up d) a (rx_ring d) (tx_ring d) (rx_bufs d) (tx_bufs d) (rx_ring_phys d) (tx_ring_phys d) (rx_bufs_phys d) (tx_bufs_phys d) (rx_discard d) (rx_next d) (tx_tail d).
Definition set_up (d : e1000) : e1000 :=
  mkE1000 (regs d) true true (mac d) (rx_ring d) (tx_ring d) (rx_bufs d) (tx_bufs d) (rx_ring_phys d) (tx_ring_phys d) (rx_bufs_phys d) (tx_bufs_phys d) (rx_discard d) (rx_next d) (tx_tail d).
Definition set_rings (r t rb tb : Z) (d : e1000) : e1000 :=
  mkE1000 (regs d) (present_flag d) (nic_up d) (mac d) r t rb tb (rx_ring_phys d) (tx_ring_phys d) (rx_bufs_phys d) (tx_bufs_phys d) (rx_discard d) (rx_next d) (tx_tail d).
Definition set_phys (r t rb tb : Z) (d : e1000) : e1000 :=
  mkE1000 (regs d) (present_flag d) (nic_up d) (mac d) (rx_ring d) (tx_ring d) (rx_bufs d) (tx_bufs d) r t rb tb (rx_discard d) (rx_next d) (tx_tail d).
Definition set_rx (discard : bool) (next : Z) (d : e1000) : e1000 :=
  mkE1000 (regs d) (present_flag d) (nic_up d) (mac d) (rx_ring d) (tx_ring d) (rx_bufs d) (tx_bufs d) (rx_ring_phys d) (tx_ring_phys d) (rx_bufs_phys d) (tx_bufs_phys d) discard next (tx_tail d).
Definition set_tail (t : Z) (d : e1000) : e1000 :=
  mkE1000 (regs d) (present_flag d) (nic_up d) (mac d) (rx_ring d) (tx_ring d) (rx_bufs d) (tx_bufs d) (rx_ring_phys d) (tx_ring_phys d) (rx_bufs_phys d) (tx_bufs_phys d) (rx_discard d) (rx_next d) t.

Definition has_any (v mask : Z) : bool := negb (Z.land v mask =? 0).

Section E1000.
Context {M : Type} `{DM : DmaDevice M}.

(** ** Registers *)

(** At most [n] reads until a bit of [mask] is set, or all are clear. *)
Fixpoint e1000_spin (off mask : Z) (wait_set : bool) (n : nat) (m : M) : bool * M :=
  match n with
  | O => (false, m)
  | S n' =>
      let '(v, m) := reg_read off m in
      if (if wait_set then has_any v mask else negb (has_any v mask)) then (true, m) else e1000_spin off mask wait_set n' m
  end.

Definition e1000_eeprom_read (word : Z) (m : M) : Z * M :=
  let m := reg_write E1000_REG_EEPROM (Z.lor 1 (Z.shiftl word 8)) m in
  let '(ok, m) := e1000_spin E1000_REG_EEPROM (Z.shiftl 1 4) true (Z.to_nat E1000_EEPROM_TIMEOUT) m in
  if negb ok then (0xFFFF, m) else let '(v, m) := reg_read E1000_REG_EEPROM m in (u16 (Z.shiftr v 16), m).

(** ** Set-up of the rings *)

(** The fields of entry [i] of the ring at [ring]. *)
Definition d_addr (ring i : Z) : Z := ring + 16 * i.
Definition d_length (ring i : Z) : Z := ring + 16 * i + 8.
Definition rxd_csum (ring i : Z) : Z := ring + 16 * i + 10.
Definition txd_cso (ring i : Z) : Z := ring + 16 * i + 10.
Definition txd_cmd (ring i : Z) : Z := ring + 16 * i + 11.
Definition d_status (ring i : Z) : Z := ring + 16 * i + 12.
Definition rxd_errors (ring i : Z) : Z := ring + 16 * i + 13.
Definition txd_css (ring i : Z) : Z := ring + 16 * i + 13.
Definition d_special (ring i : Z) : Z := ring + 16 * i + 14.

Definition init_rx_desc (ring bufs i : Z) (m : M) : M :=
  let m := put_mem 8 (d_addr ring i) (bufs .+ i * E1000_RX_BUF) m in
  let m := put_mem 2 (d_length ring i) 0 m in
  let m := put_mem 2 (rxd_csum ring i) 0 m in
  let m := put_mem 1 (d_status ring i) 0 m in
  let m := put_mem 1 (rxd_errors ring i) 0 m in
  put_mem 2 (d_special ring i) 0 m.

Definition e1000_setup_rx (d : e1000) (m : M) : e1000 * M :=
  let m := for_range (Z.to_nat E1000_RX_RING) 0 (init_rx_desc (rx_ring d) (rx_bufs_phys d)) m in
  let m := reg_write E1000_REG_RDBAL (Z.land (rx_ring_phys d) 0xFFFFFFFF) m in
  let m := reg_write E1000_REG_RDBAH (u32 (Z.shiftr (rx_ring_phys d) 32)) m in
  let m := reg_write E1000_REG_RDLEN (E1000_RX_RING * 16) m in
  let m := reg_write E1000_REG_RDH 0 m in
  let m := reg_write E1000_REG_RDT (E1000_RX_RING - 1) m in
  (set_rx (rx_discard d) 0 d, m).

Definition fill_tx_desc (ring i addr len cmd status : Z) (m : M) : M :=
  let m := put_mem 8 (d_addr ring i) addr m in
  let m := put_mem 2 (d_length ring i) len m in
  let m := put_mem 1 (txd_cso ring i) 0 m in
  let m := put_mem 1 (txd_cmd ring i) cmd m in
  let m := put_mem 1 (d_status ring i) status m in
  let m := put_mem 1 (txd_css ring i) 0 m in
  put_mem 2 (d_special ring i) 0 m.

Definition e1000_setup_tx (d : e1000) (m : M) : e1000 * M :=
  let m := for_range (Z.to_nat E1000_TX_RING) 0 (fun i => fill_tx_desc (tx_ring d) i (tx_bufs_phys d .+ i * E1000_TX_BUF) 0 0 E1000_TXD_STAT_DD) m in
  let m := reg_write E1000_REG_TDBAL (Z.land (tx_ring_phys d) 0xFFFFFFFF) m in
  let m := reg_write E1000_REG_TDBAH (u32 (Z.shiftr (tx_ring_phys d) 32)) m in
  let m := reg_write E1000_REG_TDLEN (E1000_TX_RING * 16) m in
  let m := reg_write E1000_REG_TDH 0 m in
  let m := reg_write E1000_REG_TDT 0 m in
  (set_tail 0 d, m).

(** The loop that reads the address, two bytes per word: whether it went to
    the end, and the bytes. *)
Definition mac_words (m : M) (old : list Z) : bool * list Z * M :=
  for_range 3 0 (fun i '(ok, l, m) =>
    if negb ok then (ok, l, m)
    else
      let '(w, m) := e1000_eeprom_read i m in
      let '(bad, m) := if w =? 0xFFFF then let '(v, m) := reg_read E1000_REG_EEPROM m in (v =? 0xFFFF, m) else (false, m) in
      if bad then (false, l, m)
      else (true, <[Z.to_nat (i * 2 + 1) := u8 (Z.shiftr w 8)]> (<[Z.to_nat (i * 2) := Z.land w 0xFF]> l), m)) (true, old, m).

Definition mac_fallback : list Z := [0x52; 0x54; 0x00; 0x12; 0x34; 0x56].

Definition e1000_read_mac (d : e1000) (m : M) : e1000 * M :=
  let '(ok, l, m) := mac_words m (mac d) in
  (set_mac (if negb ok || forallb (Z.eqb 0) l then mac_fallback else l) d, m).

(** ** Sending and receiving *)

Definition e1000_present (d : e1000) : bool := present_flag d.
Definition e1000_get_mac (d : e1000) : list Z := mac d.

(** The wait for the card: the number of reads that may fail before the last. *)
Fixpoint tx_wait (n : nat) (a : Z) (m : M) : bool * M :=
  let '(st, m) := look 1 a m in
  if has_any st E1000_TXD_STAT_DD then (true, m)
  else match n with O => (false, m) | S n' => tx_wait n' a m end.

Definition e1000_send (frame : option (list Z)) (d : e1000) (m : M) : Z * e1000 * M :=
  match frame with
  | None => (-1, d, m)
  | Some f =>
      if negb (nic_up d) then (-1, d, m)
      else
        let len := zlen f in
        if (len =? 0) || (E1000_TX_BUF <? len) then (-1, d, m)
        else
          let tail := tx_tail d in
          let '(st, m) := look 1 (d_status (tx_ring d) tail) m in
          if negb (has_any st E1000_TXD_STAT_DD) then (-1, d, m)
          else
            let m := put_bytes_mem (tx_bufs d + tail * E1000_TX_BUF) f m in
            let m := fill_tx_desc (tx_ring d) tail (tx_bufs_phys d .+ tail * E1000_TX_BUF) (u16 len) E1000_TXD_CMD 0 m in
            let next := u16 ((tail + 1) mod E1000_TX_RING) in
            let m := reg_write E1000_REG_TDT next m in
            let d := set_tail next d in
            let slot := u16 ((next + E1000_TX_RING - 1) mod E1000_TX_RING) in
            let '(ok, m) := tx_wait (Z.to_nat E1000_TX_TIMEOUT) (d_status (tx_ring d) slot) m in
            if negb ok then (-1, d, m)
            else let '(st, m) := look 1 (d_status (tx_ring d) slot) m in ((if has_any st 0x06 then -1 else 0), d, m)
  end.

(** The result, and the bytes copied to the caller's buffer. *)
Definition e1000_poll (cap : Z) (d : e1000) (m : M) : Z * list Z * e1000 * M :=
  if negb (nic_up d) || (cap =? 0) then (-1, [], d, m)
  else
    let n := rx_next d in
    let '(st, m) := look 1 (d_status (rx_ring d) n) m in
    if negb (has_any st E1000_RXD_STAT_DD) then (0, [], d, m)
    else
      let '(len, m) := look 2 (d_length (rx_ring d) n) m in
      let '(st, m) := look 1 (d_status (rx_ring d) n) m in
      let eop := has_any st E1000_RXD_STAT_EOP in
      let '(errs, m) := look 1 (rxd_errors (rx_ring d) n) m in
      let ok := negb (rx_discard d) && eop && negb (len =? 0) && (len <=? E1000_RX_BUF) && (len <=? cap) && negb (has_any errs E1000_RXD_ERRS) in
      let '(rc, out, m) := if ok then let m := dma m in (len, bytes_at (Z.to_nat len) (ram m) (rx_bufs d + n * E1000_RX_BUF), m) else (0, [], m) in
      let m := put_mem 1 (d_status (rx_ring d) n) 0 m in
      let m := put_mem 1 (rxd_errors (rx_ring d) n) 0 m in
      let m := put_mem 2 (d_length (rx_ring d) n) 0 m in
      let d := set_rx (negb eop) (u16 ((n + 1) mod E1000_RX_RING)) d in
      (rc, out, d, reg_write E1000_REG_RDT n m).

(** The card behind the network stack. *)
#[export] Instance e1000_nic : Nic (e1000 * M) := {
  nic_present c := e1000_present c.1;
  nic_mac c := e1000_get_mac c.1;
  nic_send f c := let '(rc, d, m) := e1000_send (Some f) c.1 c.2 in (rc, (d, m));
  nic_poll c := let '(rc, l, d, m) := e1000_poll NET_RX_BUF c.1 c.2 in (rc, l, (d, m));
}.
End E1000.

(** ** Initialisation *)

Section Init.
Context {M : Type} `{DM : DmaDevice M} {P : Type} `{PT : Ports P}.
Variables (off kernel_pml4 : Z).

Fixpoint find_nic (n : nat) (i : Z) (devices : list pci_device) : option pci_device :=
  match n with
  | O => None
  | S n' =>
      match pci_get_device i devices with
      | None => None
      | Some dev => if (vendor_id dev =? E1000_VID) && (device_id dev =? E1000_DID_82540EM) then Some dev else find_nic n' (i + 1) devices
      end
  end.

Definition e1000_pci_enable (d : pci_device) (k : machine M P) : machine M P :=
  let '(cmd, p) := pci_config_read32 (p_bus d) (p_dev d) (p_func d) 0x04 (k_ports k) in
  let cmd := Z.lor cmd (Z.lor (Z.lor (Z.shiftl 1 0) (Z.shiftl 1 1)) (Z.shiftl 1 2)) in
  mkMachine (k_vm k) (pci_config_write32 (p_bus d) (p_dev d) (p_func d) 0x04 cmd p) (k_dev k).

(** The first base address register for memory that has a size. *)
Fixpoint mmio_bar (n : nat) (i : Z) (d : pci_device) : option Z :=
  match n with
  | O => None
  | S n' => if znth false (mmio d) i && (0 <? znth 0 (bar_size d) i) then Some i else mmio_bar n' (i + 1) d
  end.

(** Sizes above 0xFFFFF000 are left out: the loop's counter would wrap. *)
Definition e1000_map_mmio (d : pci_device) (st : e1000 * machine M P) : bool * (e1000 * machine M P) :=
  match mmio_bar 6 0 d with
  | None => (false, st)
  | Some b =>
      let phys := Z.land (znth 0 (bar d) b) 0xFFFFFFF0 in
      let size := znth 0 (bar_size d) b in
      if size <? 0x4000 then (false, st)
      else if has_any (znth 0 (bar d) b) (Z.shiftl 1 3) then (false, st)
      else
        let flags := Z.lor (Z.lor PTE_WRITE PTE_NOCACHE) PTE_PRESENT in
        let k := with_vm (for_range (Z.to_nat ((size + 4095) / 4096)) 0
                   (fun i => pmap_map (H := pmm_frame_alloc off) off kernel_pml4 (E1000_MMIO_VA .+ i * 4096) (phys .+ i * 4096) flags)) st.2 in
        (true, (set_regs E1000_MMIO_VA st.1, k))
  end.

Definition e1000_alloc_rings (st : e1000 * machine M P) : bool * (e1000 * machine M P) :=
  let '(d, k) := st in
  let '(r, k) := alloc_dma off 1 k in
  let '(t, k) := alloc_dma off 1 k in
  let '(rb, k) := alloc_dma off 16 k in
  let '(tb, k) := alloc_dma off 16 k in
  if (r =? 0) || (t =? 0) || (rb =? 0) || (tb =? 0) then
    let k := free_dma off r 1 k in
    let k := free_dma off t 1 k in
    let k := free_dma off rb 16 k in
    let k := free_dma off tb 16 k in
    (false, (set_rings 0 0 0 0 d, k))
  else
    let k := clear_mem r PAGE_SIZE k in
    let k := clear_mem t PAGE_SIZE k in
    let k := clear_mem rb (16 * PAGE_SIZE) k in
    let k := clear_mem tb (16 * PAGE_SIZE) k in
    (true, (set_phys (virt_to_phys off r) (virt_to_phys off t) (virt_to_phys off rb) (virt_to_phys off tb) (set_rings r t rb tb d), k)).

(** The card's part of the initialisation before the rings are allocated: whether the reset completed. *)
Definition e1000_reset (m : M) : bool * M :=
  let m := reg_write E1000_REG_IMC 0xFFFFFFFF m in
  let '(ctrl, m) := reg_read E1000_REG_CTRL m in
  let m := reg_write E1000_REG_CTRL (Z.lor ctrl E1000_CTRL_RST) m in
  let '(ok, m) := e1000_spin E1000_REG_CTRL E1000_CTRL_RST false (Z.to_nat E1000_RESET_TIMEOUT) m in
  if negb ok then (false, m)
  else
    let m := reg_write E1000_REG_IMC 0xFFFFFFFF m in
    let '(ctrl, m) := reg_read E1000_REG_CTRL m in
    (true, reg_write E1000_REG_CTRL (Z.lor (Z.land ctrl (Z.lxor 0xFFFFFFFF E1000_CTRL_LRST)) E1000_CTRL_SLU) m).

(** ... and after: the address, the rings, and both directions enabled. *)
Definition e1000_start (d : e1000) (m : M) : e1000 * M :=
  let '(d, m) := e1000_read_mac d m in
  let '(d, m) := e1000_setup_tx d m in
  let tctl := Z.lor (Z.lor (Z.lor E1000_TCTL_EN E1000_TCTL_PSP) (Z.shiftl 0x0F E1000_TCTL_CT_SHIFT)) E1000_TCTL_COLD_FD in
  let m := reg_write E1000_REG_TCTL tctl m in
  let '(d, m) := e1000_setup_rx d m in
  let m := reg_write E1000_REG_RCTL (Z.lor E1000_RCTL_EN E1000_RCTL_BAM) m in
  let '(_, m) := reg_read E1000_REG_STATUS m in
  let '(_, m) := reg_read E1000_REG_STATUS m in
  (set_up d, m).

Definition e1000_init (devices : list pci_device) (st : e1000 * machine M P) : Z * (e1000 * machine M P) :=
  match find_nic (Z.to_nat PCI_MAX_DEVICES) 0 devices with
  | None => (-1, st)
  | Some d =>
      let '(ok, (s, k)) := e1000_map_mmio d st in
      if negb ok then (-1, (s, k))
      else
        let k := e1000_pci_enable d k in
        let '(ok, m) := e1000_reset (k_dev k) in
        let k := mkMachine (k_vm k) (k_ports k) m in
        if negb ok then (-1, (s, k))
        else
          let '(ok, (s, k)) := e1000_alloc_rings (s, k) in
          if negb ok then (-1, (s, k))
          else let '(s, m) := e1000_start s (k_dev k) in (0, (s, mkMachine (k_vm k) (k_ports k) m))
  end.
End Init.
