(* ===== verification/E1000Spec.v ===== *)
(** * The network card driver over its card

    A model of the 82540EM's rings, the invariant that ties them to the
    driver's variables, and what sending and receiving achieve. *)
From S2P Require Import Prelude Mem KString FrameAlloc Pmm Task Sched Pmap Libk Net Ports Pci Dma E1000.

(** ** The card

    From the card's manual: a ring is described by its base address, its
    length in bytes, a head the card moves and a tail the driver moves.  The
    card works on the descriptors from the head up to the tail.  A received
    packet takes one descriptor per 2048 bytes, the last of which is marked;
    [c_in] lists these pieces as they will arrive.  [c_plan] says what the
    card does at each moment; [c_busy] more reads of a register show a reset
    or an EEPROM access unfinished. *)
Inductive act := Nothing | Transmit | Receive.
Record piece := mkPiece { p_data : list Z; p_eop : bool; p_errors : Z }.

Record card := mkCard {
  c_ram : mem; c_off : Z; c_regs : Z -> Z;
  c_eeprom : list Z; c_delay : nat; c_busy : nat;
  c_plan : nat -> act; c_time : nat;
  c_out : list (list Z); c_in : list piece;
}.
Definition c_with_ram (m : mem) (c : card) : card :=
  mkCard m (c_off c) (c_regs c) (c_eeprom c) (c_delay c) (c_busy c) (c_plan c) (c_time c) (c_out c) (c_in c).
Definition c_with_regs (r : Z -> Z) (c : card) : card :=
  mkCard (c_ram c) (c_off c) r (c_eeprom c) (c_delay c) (c_busy c) (c_plan c) (c_time c) (c_out c) (c_in c).
Definition c_with_busy (n : nat) (c : card) : card :=
  mkCard (c_ram c) (c_off c) (c_regs c) (c_eeprom c) (c_delay c) n (c_plan c) (c_time c) (c_out c) (c_in c).
Definition c_with_out (l : list (list Z)) (c : card) : card :=
  mkCard (c_ram c) (c_off c) (c_regs c) (c_eeprom c) (c_delay c) (c_busy c) (c_plan c) (c_time c) l (c_in c).
Definition c_with_in (l : list piece) (c : card) : card :=
  mkCard (c_ram c) (c_off c) (c_regs c) (c_eeprom c) (c_delay c) (c_busy c) (c_plan c) (c_time c) (c_out c) l.
Definition c_later (c : card) : card :=
  mkCard (c_ram c) (c_off c) (c_regs c) (c_eeprom c) (c_delay c) (c_busy c) (c_plan c) (S (c_time c)) (c_out c) (c_in c).

Definition set_reg (r v : Z) (c : card) : card := c_with_regs (<[r := v]> (c_regs c)) c.
Definition base_reg (lo hi : Z) (c : card) : Z := c_regs c lo + 2 ^ 32 * c_regs c hi.

(** One descriptor is sent: its frame goes out and it is marked as done. *)
Definition transmit (c : card) : card :=
  let head := c_regs c E1000_REG_TDH in
  if has_any (c_regs c E1000_REG_TCTL) E1000_TCTL_EN && negb (head =? c_regs c E1000_REG_TDT) then
    let desc := base_reg E1000_REG_TDBAL E1000_REG_TDBAH c + c_off c + 16 * head in
    let frame := bytes_at (Z.to_nat (load 2 (c_ram c) (desc + 8))) (c_ram c) (load 8 (c_ram c) desc + c_off c) in
    let c := c_with_out (c_out c ++ [frame]) (c_with_ram (store 1 (c_ram c) (desc + 12) (Z.lor (load 1 (c_ram c) (desc + 12)) 1)) c) in
    set_reg E1000_REG_TDH ((head + 1) mod (c_regs c E1000_REG_TDLEN / 16)) c
  else c.

(** One piece of a packet is stored. *)
Definition receive (c : card) : card :=
  let head := c_regs c E1000_REG_RDH in
  match c_in c with
  | p :: rest =>
      if has_any (c_regs c E1000_REG_RCTL) E1000_RCTL_EN && negb (head =? c_regs c E1000_REG_RDT) then
        let desc := base_reg E1000_REG_RDBAL E1000_REG_RDBAH c + c_off c + 16 * head in
        let m := write_bytes (c_ram c) (load 8 (c_ram c) desc + c_off c) (p_data p) in
        let m := store 2 m (desc + 8) (zlen (p_data p)) in
        let m := store 1 m (desc + 13) (p_errors p) in
        let m := store 1 m (desc + 12) (if p_eop p then 3 else 1) in
        set_reg E1000_REG_RDH ((head + 1) mod (c_regs c E1000_REG_RDLEN / 16)) (c_with_in rest (c_with_ram m c))
      else c
  | [] => c
  end.

#[export] Instance card_dma : DmaDevice card := {
  ram := c_ram;
  set_ram := c_with_ram;
  dma c := c_later (match c_plan c (c_time c) with Nothing => c | Transmit => transmit c | Receive => receive c end);
  reg_write r v c :=
    if (r =? E1000_REG_CTRL) && has_any v E1000_CTRL_RST then c_with_busy (c_delay c) (c_with_regs (<[r := v]> (fun _ => 0)) c)
    else if r =? E1000_REG_EEPROM then c_with_busy (c_delay c) (set_reg r v c)
    else set_reg r v c;
  reg_read r c :=
    if r =? E1000_REG_CTRL then
      match c_busy c with
      | S n => (c_regs c r, c_with_busy n c)
      | O => let v := Z.ldiff (c_regs c r) E1000_CTRL_RST in (v, set_reg r v c)
      end
    else if r =? E1000_REG_EEPROM then
      match c_busy c with
      | S n => (c_regs c r, c_with_busy n c)
      | O => (Z.lor (Z.shiftl (znth 0 (c_eeprom c) (Z.shiftr (c_regs c r) 8)) 16) 0x10, c)
      end
    else (c_regs c r, c);
}.

(** ** The invariant *)

(** The rings and buffers lie below 4 GiB, apart from each other, and are
    reached through the direct map at [off]. *)
Record layout (d : e1000) (off : Z) : Prop := {
  ly_off : 0 <= off /\ off + 2 ^ 32 <= 2 ^ 64;
  ly_virt : rx_ring d = rx_ring_phys d + off /\ tx_ring d = tx_ring_phys d + off /\ rx_bufs d = rx_bufs_phys d + off /\ tx_bufs d = tx_bufs_phys d + off;
  ly_low : 0 <= rx_ring_phys d /\ rx_ring_phys d + 512 <= 2 ^ 32 /\ 0 <= tx_ring_phys d /\ tx_ring_phys d + 512 <= 2 ^ 32 /\
           0 <= rx_bufs_phys d /\ rx_bufs_phys d + 65536 <= 2 ^ 32 /\ 0 <= tx_bufs_phys d /\ tx_bufs_phys d + 65536 <= 2 ^ 32;
  ly_apart : apart (rx_ring d) 512 (tx_ring d) 512 /\ apart (rx_ring d) 512 (rx_bufs d) 65536 /\ apart (rx_ring d) 512 (tx_bufs d) 65536 /\
             apart (tx_ring d) 512 (rx_bufs d) 65536 /\ apart (tx_ring d) 512 (tx_bufs d) 65536 /\ apart (rx_bufs d) 65536 (tx_bufs d) 65536;
}.

(** Entry [i] of the receive ring is free, or holds a piece. *)
Definition rx_slot (d : e1000) (m : mem) (i : Z) (o : option piece) : Prop :=
  load 8 m (d_addr (rx_ring d) i) = rx_bufs_phys d + 2048 * i /\
  match o with
  | None => load 1 m (d_status (rx_ring d) i) = 0
  | Some p =>
      load 1 m (d_status (rx_ring d) i) = (if p_eop p then 3 else 1) /\ load 1 m (rxd_errors (rx_ring d) i) = p_errors p /\
      load 2 m (d_length (rx_ring d) i) = zlen (p_data p) /\ bytes_at (length (p_data p)) m (rx_bufs d + 2048 * i) = p_data p
  end.

(** Entry [i] of the transmit ring is done with, or holds a frame to send. *)
Definition tx_slot (d : e1000) (m : mem) (i : Z) (o : option (list Z)) : Prop :=
  match o with
  | None => load 1 m (d_status (tx_ring d) i) = E1000_TXD_STAT_DD
  | Some f =>
      load 8 m (d_addr (tx_ring d) i) = tx_bufs_phys d + 2048 * i /\ load 2 m (d_length (tx_ring d) i) = zlen f /\
      load 1 m (d_status (tx_ring d) i) = 0 /\ bytes_at (length f) m (tx_bufs d + 2048 * i) = f
  end.

Definition piece_ok (p : piece) : Prop := Forall (fun b => 0 <= b < 256) (p_data p) /\ zlen (p_data p) <= 2048 /\ 0 <= p_errors p < 256.

(** Received and not yet fetched are the pieces [q]; [pend] is a frame handed
    to the card and not yet sent. *)
Record ready (d : e1000) (c : card) (q : list piece) (pend : option (list Z)) : Prop := {
  rd_up : nic_up d = true;
  rd_layout : layout d (c_off c);
  rd_next : 0 <= rx_next d < 32;
  rd_tail : 0 <= tx_tail d < 32;
  rd_rx_regs : base_reg E1000_REG_RDBAL E1000_REG_RDBAH c = rx_ring_phys d /\ c_regs c E1000_REG_RDLEN = 512 /\
               has_any (c_regs c E1000_REG_RCTL) E1000_RCTL_EN = true /\ c_regs c E1000_REG_RDT = (rx_next d - 1) mod 32 /\
               c_regs c E1000_REG_RDH = (rx_next d + zlen q) mod 32;
  rd_tx_regs : base_reg E1000_REG_TDBAL E1000_REG_TDBAH c = tx_ring_phys d /\ c_regs c E1000_REG_TDLEN = 512 /\
               has_any (c_regs c E1000_REG_TCTL) E1000_TCTL_EN = true /\ c_regs c E1000_REG_TDT = tx_tail d /\
               c_regs c E1000_REG_TDH = (match pend with Some _ => (tx_tail d - 1) mod 32 | None => tx_tail d end);
  rd_room : zlen q <= 31;
  rd_rx : forall i, 0 <= i < 32 -> rx_slot d (c_ram c) i (q !! Z.to_nat ((i - rx_next d) mod 32));
  rd_tx : forall i, 0 <= i < 32 -> tx_slot d (c_ram c) i (if i =? (tx_tail d - 1) mod 32 then pend else None);
  rd_in : Forall piece_ok (c_in c);
  rd_q : Forall piece_ok q;
  rd_pend : match pend with Some f => Forall (fun b => 0 <= b < 256) f /\ zlen f <= 2048 | None => True end;
}.

(** ** The card's steps keep it *)

Lemma rx_slot_agree d m m' i o :
  match o with Some p => zlen (p_data p) <= 2048 | None => True end ->
  agree m m' (rx_ring d + 16 * i) 16 -> agree m m' (rx_bufs d + 2048 * i) 2048 -> rx_slot d m i o -> rx_slot d m' i o.
Proof.
  intros Ho H1 H2. unfold rx_slot, d_addr, d_status, rxd_errors, d_length. rewrite !(load_agree _ m m' _ _ _ H1) by lia.
  destruct o as [p|]; [|done]. unfold zlen in *. rewrite (bytes_agree _ m m' _ _ _ H2) by lia. done.
Qed.

Lemma tx_slot_agree d m m' i o :
  match o with Some f => zlen f <= 2048 | None => True end ->
  agree m m' (tx_ring d + 16 * i) 16 -> (o <> None -> agree m m' (tx_bufs d + 2048 * i) 2048) -> tx_slot d m i o -> tx_slot d m' i o.
Proof.
  intros Ho H1 H2. unfold tx_slot, d_addr, d_status, d_length. destruct o as [f|]; rewrite !(load_agree _ m m' _ _ _ H1) by lia; [|done].
  unfold zlen in *. rewrite (bytes_agree _ m m' _ _ _ (H2 ltac:(done))) by lia. done.
Qed.

(** What a received piece does to memory, at entry [i] with buffer [b]. *)
Definition piece_mem (m : mem) (desc b : Z) (p : piece) : mem :=
  store 1 (store 1 (store 2 (write_bytes m b (p_data p)) (desc + 8) (zlen (p_data p))) (desc + 13) (p_errors p)) (desc + 12) (if p_eop p then 3 else 1).

Lemma agree_piece m desc b p a n : zlen (p_data p) <= 2048 -> apart a n desc 16 -> apart a n b 2048 -> agree m (piece_mem m desc b p) a n.
Proof.
  intros Hl H1 H2. unfold piece_mem, apart in *.
  eapply agree_trans; [|apply agree_store; unfold apart; lia]. eapply agree_trans; [|apply agree_store; unfold apart; lia].
  eapply agree_trans; [|apply agree_store; unfold apart; lia]. apply agree_write. unfold apart. lia.
Qed.

Lemma rx_slot_piece d m i p :
  piece_ok p -> 0 <= i < 32 -> apart (rx_ring d) 512 (rx_bufs d) 65536 -> load 8 m (d_addr (rx_ring d) i) = rx_bufs_phys d + 2048 * i ->
  rx_slot d (piece_mem m (rx_ring d + 16 * i) (rx_bufs d + 2048 * i) p) i (Some p).
Proof.
  intros (Hb & Hl & He) Hi Ha Haddr. unfold rx_slot, d_addr, d_status, rxd_errors, d_length in *. unfold apart in Ha.
  set (r := rx_ring d + 16 * i) in *. set (b := rx_bufs d + 2048 * i).
  assert (Hsep : r + 16 <= b \/ b + zlen (p_data p) <= r) by lia. unfold piece_mem. split_and!.
  - rewrite !load_store_other by (unfold apart; lia). rewrite (load_agree 8 m _ r _ 8); [done| |lia..]. apply agree_write. unfold apart. lia.
  - rewrite load_store_same. by destruct (p_eop p).
  - rewrite load_store_other, load_store_same by (unfold apart; lia). apply Z.mod_small. lia.
  - rewrite !load_store_other, load_store_same by (unfold apart; lia). apply Z.mod_small. unfold zlen in *. lia.
  - unfold zlen in *. rewrite !(bytes_agree _ _ (store _ _ _ _) b _ 2048), bytes_at_write_bytes by first [lia | apply agree_store; unfold apart; lia].
    rewrite <- (list_fmap_id (p_data p)) at 2. apply list_fmap_ext. intros j x Hx. apply u8_small. exact (proj1 (Forall_lookup _ _) Hb _ _ Hx).
Qed.

(** Only the fields named differ: registers apart, the card's variables. *)
Lemma reg_same r v c : c_regs (set_reg r v c) r = v.
Proof. unfold set_reg, c_with_regs. cbn [c_regs]. by rewrite fn_lookup_insert. Qed.
Lemma reg_other r r' v c : r <> r' -> c_regs (set_reg r v c) r' = c_regs c r'.
Proof. intros. unfold set_reg, c_with_regs. cbn [c_regs]. by rewrite fn_lookup_insert_ne. Qed.

Ltac regs := repeat first [rewrite reg_same | rewrite reg_other by done].

Lemma ready_later d c q pend : ready d c q pend -> ready d (c_later c) q pend.
Proof. intros []; by constructor. Qed.

Lemma mod_add_sub n k : 0 <= n < 32 -> 0 <= k < 32 -> ((n + k) mod 32 - n) mod 32 = k.
Proof. intros. rewrite Zminus_mod_idemp_l. replace (n + k - n) with k by lia. apply Z.mod_small. lia. Qed.

Lemma ring_index i n k : 0 <= i < 32 -> 0 <= n < 32 -> 0 <= k < 32 -> (i - n) mod 32 = k -> i = (n + k) mod 32.
Proof. intros Hi Hn Hk <-. rewrite Zplus_mod_idemp_r. replace (n + (i - n)) with i by lia. symmetry. apply Z.mod_small. lia. Qed.

Lemma receive_ready d c q pend :
  ready d c q pend -> exists e, ready d (receive c) (q ++ e) pend /\ c_in c = e ++ c_in (receive c) /\
    c_out (receive c) = c_out c /\ c_plan (receive c) = c_plan c /\ c_time (receive c) = c_time c.
Proof.
  intros R. unfold receive. destruct (c_in c) as [|p rest] eqn:Ein; [exists []; rewrite app_nil_r; cbn; by split_and!|].
  destruct (rd_rx_regs _ _ _ _ R) as (Hbase & Hlen & Hen & Ht & Hh). destruct (rd_tx_regs _ _ _ _ R) as (Tbase & Tlen & Ten & Tt & Th).
  pose proof (rd_next _ _ _ _ R) as Hn. pose proof (rd_room _ _ _ _ R) as Hroom. pose proof (rd_layout _ _ _ _ R) as L.
  rewrite Hen, Hh, Ht. cbn [andb]. assert (0 <= zlen q) as Hq0 by (unfold zlen; lia).
  destruct (Z.eqb_spec ((rx_next d + zlen q) mod 32) ((rx_next d - 1) mod 32)) as [E|E]; cbn [negb]; [exists []; rewrite app_nil_r, Ein; cbn; by split_and!|].
  assert (zlen q < 31) as Hlt.
  { destruct (decide (zlen q = 31)) as [E31|]; [|lia]. destruct E. rewrite E31. replace (rx_next d + 31) with (rx_next d - 1 + 1 * 32) by lia. apply Z.mod_add. done. }
  pose proof (rd_in _ _ _ _ R) as Hin. rewrite Ein in Hin. assert (piece_ok p) as Hp by exact (Forall_inv Hin). apply Forall_inv_tail in Hin.
  set (h := (rx_next d + zlen q) mod 32) in *. assert (0 <= h < 32) as Hhr by (apply Z.mod_pos_bound; done).
  assert (Hdesc : base_reg E1000_REG_RDBAL E1000_REG_RDBAH c + c_off c + 16 * h = rx_ring d + 16 * h) by (rewrite Hbase; destruct (ly_virt _ _ L) as (-> & _); lia).
  rewrite Hdesc. destruct (rd_rx _ _ _ _ R h Hhr) as [Haddr _]. unfold d_addr in Haddr. rewrite Haddr.
  replace (rx_bufs_phys d + 2048 * h + c_off c) with (rx_bufs d + 2048 * h) by (destruct (ly_virt _ _ L) as (_ & _ & -> & _); lia).
  change (store 1 _ _ (if p_eop p then 3 else 1)) with (piece_mem (c_ram c) (rx_ring d + 16 * h) (rx_bufs d + 2048 * h) p).
  set (m := piece_mem _ _ _ _). exists [p]. split; [|by split_and!].
  destruct (ly_apart _ _ L) as (A1 & A2 & A3 & A4 & A5 & A6). unfold apart in *. destruct Hp as (Hp1 & Hp2 & Hp3).
  constructor; [apply R|exact L|apply R|apply R| | | |intros i Hi|intros i Hi|done| |apply R].
  - unfold base_reg in *. regs. cbn [c_regs c_with_in c_with_ram]. split_and!; try done. rewrite Hlen. change (512 / 16) with 32. unfold h, zlen. rewrite length_app, Zplus_mod_idemp_l. f_equal. cbn [length]. lia.
  - unfold base_reg in *. regs. cbn [c_regs c_with_in c_with_ram]. by split_and!.
  - unfold zlen in *. rewrite length_app. cbn [length]. lia.
  - change (c_ram _) with m. set (k := (i - rx_next d) mod 32). assert (0 <= k < 32) as Hk by (apply Z.mod_pos_bound; done).
    destruct (decide (k = zlen q)) as [Ek|Ek].
    + assert (i = h) as -> by (unfold h; rewrite <- Ek; by apply ring_index). rewrite Ek. unfold zlen. rewrite Nat2Z.id, list_lookup_middle by done. apply rx_slot_piece; done.
    + assert (i <> h) as Hih by (intros ->; apply Ek; unfold k, h; apply mod_add_sub; lia).
      assert ((q ++ [p]) !! Z.to_nat k = q !! Z.to_nat k) as ->.
      { destruct (decide (k < zlen q)); unfold zlen in *; [apply lookup_app_l; lia|]. rewrite lookup_app_r by lia. rewrite (lookup_ge_None_2 q) by lia. destruct (Z.to_nat k - length q)%nat eqn:E1; [lia|done]. }
      apply (rx_slot_agree _ (c_ram c)); [|apply agree_piece; unfold apart; lia..|by apply R].
      destruct (q !! Z.to_nat k) as [x|] eqn:Ex; [|done]. by apply (proj1 (Forall_lookup _ _) (rd_q _ _ _ _ R) _ _ Ex).
  - change (c_ram _) with m. apply (tx_slot_agree _ (c_ram c)); [|apply agree_piece; unfold apart; lia|intros _; apply agree_piece; unfold apart; lia|by apply R].
    pose proof (rd_pend _ _ _ _ R). destruct (i =? _); [|done]. destruct pend; [|done]. tauto.
  - apply Forall_app; split; [apply R|]. by apply Forall_singleton.
Qed.

Definition pending (pend : option (list Z)) : list (list Z) := match pend with Some f => [f] | None => [] end.

Lemma transmit_ready d c q pend :
  ready d c q pend -> ready d (transmit c) q None /\ c_out (transmit c) = c_out c ++ pending pend /\
    c_in (transmit c) = c_in c /\ c_plan (transmit c) = c_plan c /\ c_time (transmit c) = c_time c.
Proof.
  intros R. destruct (rd_tx_regs _ _ _ _ R) as (Tbase & Tlen & Ten & Tt & Th). pose proof (rd_tail _ _ _ _ R) as Htl.
  unfold transmit. rewrite Ten, Th, Tt. cbn [andb]. destruct pend as [f|].
  2:{ rewrite Z.eqb_refl. cbn [negb pending]. rewrite app_nil_r. done. }
  pose proof (rd_layout _ _ _ _ R) as L. destruct (rd_rx_regs _ _ _ _ R) as (Hbase & Hlen & Hen & Ht & Hh).
  set (t := (tx_tail d - 1) mod 32) in *. assert (0 <= t < 32) as Htr by (apply Z.mod_pos_bound; done).
  assert ((t + 1) mod 32 = tx_tail d) as Ht1 by (unfold t; rewrite Zplus_mod_idemp_l, Z.sub_add; apply Z.mod_small; lia).
  assert (t <> tx_tail d) as Hne by (intros E; rewrite E in Ht1; destruct (decide (tx_tail d = 31)) as [E1|]; [by rewrite E1 in Ht1|rewrite Z.mod_small in Ht1; lia]).
  rewrite (proj2 (Z.eqb_neq _ _) Hne). cbn [negb].
  assert (Hdesc : base_reg E1000_REG_TDBAL E1000_REG_TDBAH c + c_off c + 16 * t = tx_ring d + 16 * t) by (rewrite Tbase; destruct (ly_virt _ _ L) as (_ & -> & _); lia).
  rewrite Hdesc. pose proof (rd_tx _ _ _ _ R t Htr) as Hslot. fold t in Hslot. rewrite Z.eqb_refl in Hslot. destruct Hslot as (Ha & Hl & Hs & Hb).
  unfold d_addr, d_length, d_status in *. rewrite Ha, Hl, Hs. replace (tx_bufs_phys d + 2048 * t + c_off c) with (tx_bufs d + 2048 * t) by (destruct (ly_virt _ _ L) as (_ & _ & _ & ->); lia).
  unfold zlen. rewrite Nat2Z.id, Hb. change (Z.lor 0 1) with 1. set (m := store _ _ _ _). split; [|by split_and!].
  destruct (ly_apart _ _ L) as (A1 & A2 & A3 & A4 & A5 & A6). unfold apart in *.
  constructor; [apply R|exact L|apply R|apply R| | |apply R|intros i Hi|intros i Hi|apply R|apply R|done].
  - unfold base_reg in *. regs. cbn [c_regs c_with_out c_with_ram]. by split_and!.
  - unfold base_reg in *. regs. cbn [c_regs c_with_out c_with_ram]. split_and!; try done. rewrite Tlen. exact Ht1.
  - change (c_ram _) with m. apply (rx_slot_agree _ (c_ram c)); [|apply agree_store; unfold apart; lia..|by apply R].
    destruct (q !! _) as [x|] eqn:Ex; [|done]. by apply (proj1 (Forall_lookup _ _) (rd_q _ _ _ _ R) _ _ Ex).
  - change (c_ram _) with m. fold t. replace (if i =? t then None else None) with (@None (list Z)) by (by destruct (i =? t)).
    destruct (decide (i = t)) as [->|Hit]; [unfold m, tx_slot, d_status; by rewrite load_store_same|].
    apply (tx_slot_agree _ (c_ram c)); [done|apply agree_store; unfold apart; lia|done|].
    pose proof (rd_tx _ _ _ _ R i Hi) as Hx. fold t in Hx. by rewrite (proj2 (Z.eqb_neq i t)) in Hx.
Qed.

(** One turn of the card: nothing is lost or invented in either direction. *)
Record turn (c c' : card) (q q' : list piece) (pend pend' : option (list Z)) : Prop := {
  tn_out : c_out c' ++ pending pend' = c_out c ++ pending pend;
  tn_in : exists e, q' = q ++ e /\ c_in c = e ++ c_in c';
  tn_pend : pend' = pend \/ pend' = None;
  tn_plan : c_plan c' = c_plan c;
}.

Lemma dma_ready d c q pend :
  ready d c q pend -> exists q' pend', ready d (dma c) q' pend' /\ turn c (dma c) q q' pend pend' /\
    c_time (dma c) = S (c_time c) /\ (c_plan c (c_time c) = Transmit -> pend' = None).
Proof.
  intros R. unfold dma. cbn [card_dma]. destruct (c_plan c (c_time c)) eqn:Ea.
  - exists q, pend. split; [by apply ready_later|]. split; [|by split]. constructor; [done| |by left|done]. exists []. by rewrite app_nil_r.
  - destruct (transmit_ready d c q pend R) as (R' & Ho & Hi & Hp & Htm). exists q, None. split; [by apply ready_later|]. split; [|split; [cbn; by rewrite Htm|done]].
    constructor; [cbn; by rewrite app_nil_r| |by right|done]. exists []. rewrite app_nil_r. cbn. by rewrite Hi.
  - destruct (receive_ready d c q pend R) as (e & R' & Hi & Ho & Hp & Htm). exists (q ++ e), pend. split; [by apply ready_later|]. split; [|split; [cbn; by rewrite Htm|done]].
    constructor; [cbn; by rewrite Ho| |by left|done]. by exists e.
Qed.

Lemma turn_refl c q pend : turn c c q q pend pend.
Proof. constructor; [done| |by left|done]. exists []. by rewrite app_nil_r. Qed.

Lemma turn_trans c1 c2 c3 q1 q2 q3 p1 p2 p3 : turn c1 c2 q1 q2 p1 p2 -> turn c2 c3 q2 q3 p2 p3 -> turn c1 c3 q1 q3 p1 p3.
Proof.
  intros [O1 (e1 & -> & I1) P1 L1] [O2 (e2 & -> & I2) P2 L2]. constructor; [by rewrite O2| | |by rewrite L2].
  - exists (e1 ++ e2). rewrite <- !app_assoc. split; [done|]. by rewrite I1, I2.
  - destruct P1 as [->| ->], P2 as [->| ->]; by (left + right).
Qed.

(** ** Receiving *)

(** What the driver does with the pieces: [discard] is set in the middle of a
    packet that takes several. *)
Definition accepted (cap : Z) (discard : bool) (p : piece) : bool :=
  negb discard && p_eop p && negb (zlen (p_data p) =? 0) && (zlen (p_data p) <=? 2048) && (zlen (p_data p) <=? cap) && negb (has_any (p_errors p) E1000_RXD_ERRS).
Fixpoint frames (cap : Z) (discard : bool) (ps : list piece) : list (list Z) :=
  match ps with
  | [] => []
  | p :: rest => (if accepted cap discard p then [p_data p] else []) ++ frames cap (negb (p_eop p)) rest
  end.

Lemma head_slot d c p q pend : ready d c (p :: q) pend -> rx_slot d (c_ram c) (rx_next d) (Some p).
Proof. intros R. pose proof (rd_rx _ _ _ _ R (rx_next d) (rd_next _ _ _ _ R)) as H. by rewrite Z.sub_diag in H. Qed.

Lemma empty_slot d c pend : ready d c [] pend -> load 1 (c_ram c) (d_status (rx_ring d) (rx_next d)) = 0.
Proof. intros R. apply (rd_rx _ _ _ _ R (rx_next d) (rd_next _ _ _ _ R)). Qed.

(** The head of the queue stays while the card goes on. *)
Lemma dma_head d c p q : ready d c (p :: q) None -> exists q', ready d (dma c) (p :: q') None /\ turn c (dma c) (p :: q) (p :: q') None None.
Proof.
  intros R. destruct (dma_ready d c (p :: q) None R) as (q' & pend' & R' & T & _). pose proof (tn_pend _ _ _ _ _ _ T) as Hp.
  assert (pend' = None) as -> by (by destruct Hp). destruct (tn_in _ _ _ _ _ _ T) as (e & -> & _). exists (q ++ e). by split.
Qed.

(** Memory when the entry at [r] has been cleared. *)
Definition cleared (m : mem) (r : Z) : mem := store 2 (store 1 (store 1 m (r + 12) 0) (r + 13) 0) (r + 8) 0.

Lemma agree_cleared m r a k : apart a k (r + 8) 6 -> agree m (cleared m r) a k.
Proof.
  unfold apart. intros Ha. eapply agree_trans; [|apply agree_store; unfold apart; lia]. eapply agree_trans; [|apply agree_store; unfold apart; lia]. apply agree_store. unfold apart. lia.
Qed.

Lemma cleared_slot d m i : load 8 m (d_addr (rx_ring d) i) = rx_bufs_phys d + 2048 * i -> rx_slot d (cleared m (rx_ring d + 16 * i)) i None.
Proof.
  intros Ha. unfold rx_slot, d_addr, d_status in *. split; [|unfold cleared; rewrite !load_store_other by (unfold apart; lia); by rewrite load_store_same].
  rewrite (load_agree 8 m _ (rx_ring d + 16 * i) _ 8); [done| |lia..]. apply agree_cleared. unfold apart. lia.
Qed.

(** Giving an entry back to the card. *)
Lemma consume_ready d c p q b :
  ready d c (p :: q) None ->
  ready (set_rx b (u16 ((rx_next d + 1) mod 32)) d)
    (reg_write E1000_REG_RDT (rx_next d)
      (put_mem 2 (d_length (rx_ring d) (rx_next d)) 0 (put_mem 1 (rxd_errors (rx_ring d) (rx_next d)) 0 (put_mem 1 (d_status (rx_ring d) (rx_next d)) 0 c)))) q None.
Proof.
  intros R. pose proof (rd_layout _ _ _ _ R) as L. pose proof (rd_next _ _ _ _ R) as Hn. pose proof (rd_room _ _ _ _ R) as Hroom.
  destruct (rd_rx_regs _ _ _ _ R) as (Hbase & Hlen & Hen & Ht & Hh). destruct (rd_tx_regs _ _ _ _ R) as (Tbase & Tlen & Ten & Tt & Th).
  set (n := rx_next d) in *. set (n' := (n + 1) mod 32). assert (0 <= n' < 32) as Hn' by (apply Z.mod_pos_bound; done). rewrite u16_small by lia.
  unfold put_mem, d_status, rxd_errors, d_length. cbn [ram set_ram card_dma]. unfold c_with_ram. cbn [c_ram c_off c_regs c_eeprom c_delay c_busy c_plan c_time c_out c_in].
  change (store 2 _ _ 0) with (cleared (c_ram c) (rx_ring d + 16 * n)). set (m := cleared _ _).
  set (c1 := mkCard m _ _ _ _ _ _ _ _ _). change (reg_write E1000_REG_RDT n c1) with (set_reg E1000_REG_RDT n c1).
  assert (Hag : forall a k, apart a k (rx_ring d + 16 * n) 16 -> agree (c_ram c) m a k) by (intros a k Ha; apply agree_cleared; unfold apart in *; lia).
  destruct (ly_apart _ _ L) as (A1 & A2 & A3 & A4 & A5 & A6). unfold apart in *.
  assert (zlen (p :: q) = 1 + zlen q) as Hz by (unfold zlen; cbn [length]; lia). pose proof (Forall_inv_tail (rd_q _ _ _ _ R)) as Hq.
  constructor; cbn [rx_next set_rx tx_tail nic_up rx_ring tx_ring rx_bufs tx_bufs rx_ring_phys tx_ring_phys rx_bufs_phys tx_bufs_phys] in *;
    [apply R|by destruct L; constructor|done|apply R| | |lia|intros i Hi|intros i Hi|apply R|done|done].
  - unfold base_reg in *. regs. cbn [c_regs c1]. split_and!; try done.
    + unfold n'. rewrite Zminus_mod_idemp_l. replace (n + 1 - 1) with n by lia. symmetry. apply Z.mod_small. lia.
    + rewrite Hh, Hz. unfold n'. rewrite Zplus_mod_idemp_l. f_equal. lia.
  - unfold base_reg in *. regs. by split_and!.
  - change (c_ram _) with m. pose proof (rd_rx _ _ _ _ R i Hi) as Hs. fold n in Hs. destruct (decide (i = n)) as [->|Hin].
    + assert ((n - n') mod 32 = 31) as -> by (unfold n'; rewrite Zminus_mod_idemp_r; replace (n - (n + 1)) with (31 + (-1) * 32) by lia; by rewrite Z.mod_add).
      unfold zlen in *. rewrite (lookup_ge_None_2 q) by lia. change (rx_slot d m n None). apply cleared_slot. apply Hs.
    + assert (0 <= (i - n) mod 32 < 32) as Hk by (apply Z.mod_pos_bound; done).
      assert ((i - n) mod 32 <> 0) as Hk0 by (intros E; apply Hin; rewrite (ring_index i n 0 Hi Hn ltac:(lia) E), Z.add_0_r; apply Z.mod_small; lia).
      assert ((i - n') mod 32 = (i - n) mod 32 - 1) as ->.
      { unfold n'. rewrite Zminus_mod_idemp_r. replace (i - (n + 1)) with ((i - n) - 1) by lia. rewrite <- Zminus_mod_idemp_l. apply Z.mod_small. lia. }
      replace (Z.to_nat ((i - n) mod 32)) with (S (Z.to_nat ((i - n) mod 32 - 1))) in Hs by lia. cbn [lookup list_lookup] in Hs.
      change (rx_slot d m i (q !! Z.to_nat ((i - n) mod 32 - 1))). apply (rx_slot_agree _ (c_ram c)); [|apply Hag; unfold apart; lia..|exact Hs].
      destruct (q !! _) as [x|] eqn:Ex; [|done]. by apply (proj1 (Forall_lookup _ _) Hq _ _ Ex).
  - change (c_ram _) with m. change (tx_slot d m i (if i =? (tx_tail d - 1) mod 32 then None else None)).
    apply (tx_slot_agree _ (c_ram c)); [by destruct (i =? _)|apply Hag; unfold apart; lia|by destruct (i =? _)|by apply R].
Qed.

(** A look at the entry of the head piece, at any moment. *)
Lemma look_head d c p q k a v :
  ready d c (p :: q) None -> (forall m, rx_slot d m (rx_next d) (Some p) -> load k m a = v) ->
  exists c' q', look k a c = (v, c') /\ ready d c' (p :: q') None /\ turn c c' (p :: q) (p :: q') None None.
Proof.
  intros R Hv. destruct (dma_head d c p q R) as (q' & R' & T). exists (dma c), q'. split; [|done].
  unfold look. cbn [ram card_dma]. rewrite (Hv _ (head_slot _ _ _ _ _ R')). done.
Qed.

Lemma turn_stream c c' q q' : turn c c' q q' None None -> q' ++ c_in c' = q ++ c_in c /\ c_out c' = c_out c /\ c_plan c' = c_plan c.
Proof.
  intros [Ho (e & -> & Hi) _ Hp]. cbn [pending] in Ho. rewrite !app_nil_r in Ho. split; [|done]. by rewrite Hi, app_assoc.
Qed.

Lemma poll_spec d c q cap :
  ready d c q None -> 0 < cap ->
  exists rc l d' c' q', e1000_poll cap d c = (rc, l, d', c') /\ ready d' c' q' None /\ c_out c' = c_out c /\ c_plan c' = c_plan c /\ rc = zlen l /\
    frames cap (rx_discard d) (q ++ c_in c) = (if rc =? 0 then [] else [l]) ++ frames cap (rx_discard d') (q' ++ c_in c') /\
    (q <> [] -> q' ++ c_in c' = tl (q ++ c_in c)).
Proof.
  intros R Hcap. unfold e1000_poll. rewrite (rd_up _ _ _ _ R), (proj2 (Z.eqb_neq cap 0)) by lia. cbn [negb orb].
  destruct (dma_ready d c q None R) as (q1 & pend1 & R1 & T1 & _). assert (pend1 = None) as -> by (by destruct (tn_pend _ _ _ _ _ _ T1)).
  unfold look at 1. cbn [ram card_dma]. set (c1 := dma c) in *. clearbody c1. destruct (turn_stream _ _ _ _ T1) as (Hs1 & Ho1 & Hp1). destruct q1 as [|p q1].
  { rewrite (empty_slot _ _ _ R1). cbn [has_any Z.land Z.eqb negb]. exists 0, [], d, c1, []. split_and!; try done; [by rewrite <- Hs1|].
    destruct (tn_in _ _ _ _ _ _ T1) as (e & E & _). by destruct q. }
  destruct (head_slot _ _ _ _ _ R1) as (_ & Est & _). rewrite Est.
  replace (has_any (if p_eop p then 3 else 1) E1000_RXD_STAT_DD) with true by (by destruct (p_eop p)). cbn [negb].
  destruct (look_head d c1 p q1 2 (d_length (rx_ring d) (rx_next d)) (zlen (p_data p)) R1) as (c2 & q2 & -> & R2 & T2); [by intros m (_ & _ & _ & ? & _)|].
  destruct (look_head d c2 p q2 1 (d_status (rx_ring d) (rx_next d)) (if p_eop p then 3 else 1) R2) as (c3 & q3 & -> & R3 & T3); [by intros m (_ & ? & _)|].
  destruct (look_head d c3 p q3 1 (rxd_errors (rx_ring d) (rx_next d)) (p_errors p) R3) as (c4 & q4 & -> & R4 & T4); [by intros m (_ & _ & ? & _)|].
  replace (has_any (if p_eop p then 3 else 1) E1000_RXD_STAT_EOP) with (p_eop p) by (by destruct (p_eop p)).
  change (_ && negb (has_any (p_errors p) E1000_RXD_ERRS)) with (accepted cap (rx_discard d) p).
  pose proof (turn_trans _ _ _ _ _ _ _ _ _ T2 (turn_trans _ _ _ _ _ _ _ _ _ T3 T4)) as T.
  assert (Hok : exists c5 q5, (if accepted cap (rx_discard d) p then (zlen (p_data p), bytes_at (Z.to_nat (zlen (p_data p))) (c_ram (dma c4)) (rx_bufs d + rx_next d * E1000_RX_BUF), dma c4) else (0, [], c4)) =
      ((if accepted cap (rx_discard d) p then zlen (p_data p) else 0), (if accepted cap (rx_discard d) p then p_data p else []), c5) /\ ready d c5 (p :: q5) None /\ turn c1 c5 (p :: q1) (p :: q5) None None).
  { destruct (accepted cap (rx_discard d) p); [|by exists c4, q4]. destruct (dma_head d c4 p q4 R4) as (q5 & R5 & T5). exists (dma c4), q5. split; [|split; [done|by eapply turn_trans]].
    destruct (head_slot _ _ _ _ _ R5) as (_ & _ & _ & _ & Hb). unfold zlen. rewrite Nat2Z.id. unfold E1000_RX_BUF. rewrite (Z.mul_comm (rx_next d)), Hb. done. }
  destruct Hok as (c5 & q5 & -> & R5 & T5). destruct (turn_stream _ _ _ _ T5) as (Hs5 & Ho5 & Hp5).
  pose proof (consume_ready d c5 p q5 (negb (p_eop p)) R5) as R6. unfold E1000_RX_RING. set (d6 := set_rx _ _ d) in *. set (c6 := reg_write E1000_REG_RDT _ _) in *.
  exists (if accepted cap (rx_discard d) p then zlen (p_data p) else 0), (if accepted cap (rx_discard d) p then p_data p else []), d6, c6, q5.
  assert (c_in c6 = c_in c5 /\ c_out c6 = c_out c5 /\ c_plan c6 = c_plan c5) as (-> & -> & ->) by done.
  split_and!; [done|done|by rewrite Ho5|by rewrite Hp5|by destruct (accepted _ _ _)| |].
  - rewrite <- Hs1, <- Hs5. cbn [app frames]. change (rx_discard d6) with (negb (p_eop p)). f_equal.
    unfold accepted. destruct (zlen (p_data p) =? 0) eqn:E0; [by rewrite andb_false_r|]. cbn [negb]. by destruct (_ && _); [rewrite E0|].
  - intros _. by rewrite <- Hs1, <- Hs5.
Qed.

(** ** Sending *)

(** The card sends within the driver's patience, whenever it is asked. *)
Definition prompt (plan : nat -> act) : Prop := forall t, exists k, Z.of_nat k < E1000_TX_TIMEOUT /\ plan (t + k)%nat = Transmit.

Definition tx_mem (m : mem) (desc addr len cmd status : Z) : mem :=
  store 2 (store 1 (store 1 (store 1 (store 1 (store 2 (store 8 m desc addr) (desc + 8) len) (desc + 10) 0) (desc + 11) cmd) (desc + 12) status) (desc + 13) 0) (desc + 14) 0.

Lemma fill_tx_mem ring i addr len cmd status c : fill_tx_desc ring i addr len cmd status c = c_with_ram (tx_mem (c_ram c) (ring + 16 * i) addr len cmd status) c.
Proof. reflexivity. Qed.

Lemma agree_tx_mem m desc addr len cmd status a k : apart a k desc 16 -> agree m (tx_mem m desc addr len cmd status) a k.
Proof.
  unfold apart, tx_mem. intros Ha. repeat (eapply agree_trans; [|apply agree_store; unfold apart; lia]). by intros x Hx.
Qed.

Lemma tx_mem_loads m desc addr len cmd status : 0 <= addr < 2 ^ 64 -> 0 <= len < 2 ^ 16 -> 0 <= status < 256 ->
  load 8 (tx_mem m desc addr len cmd status) desc = addr /\ load 2 (tx_mem m desc addr len cmd status) (desc + 8) = len /\
  load 1 (tx_mem m desc addr len cmd status) (desc + 12) = status.
Proof.
  intros. unfold tx_mem. split_and!; rewrite !load_store_other by (unfold apart; lia); rewrite load_store_same; apply Z.mod_small; done.
Qed.

(** Entries and buffers of the two directions do not meet. *)
Lemma slots_apart d off i t : layout d off -> 0 <= i < 32 -> 0 <= t < 32 ->
  apart (rx_ring d + 16 * i) 16 (tx_ring d + 16 * t) 16 /\ apart (rx_ring d + 16 * i) 16 (tx_bufs d + 2048 * t) 2048 /\
  apart (rx_bufs d + 2048 * i) 2048 (tx_ring d + 16 * t) 16 /\ apart (rx_bufs d + 2048 * i) 2048 (tx_bufs d + 2048 * t) 2048 /\
  apart (tx_ring d + 16 * i) 16 (tx_bufs d + 2048 * t) 2048 /\ apart (tx_bufs d + 2048 * i) 2048 (tx_ring d + 16 * t) 16 /\
  (i <> t -> apart (tx_ring d + 16 * i) 16 (tx_ring d + 16 * t) 16).
Proof. intros L Hi Ht. destruct (ly_apart _ _ L) as (A1 & A2 & A3 & A4 & A5 & A6). clear L. unfold apart in *. split_and!; lia. Qed.

Lemma apart_short a n b k k' : apart a n b k -> k' <= k -> apart a n b k'.
Proof. unfold apart. lia. Qed.

(** Handing a frame to the card. *)
Lemma hand_over d c q f :
  ready d c q None -> Forall (fun b => 0 <= b < 256) f -> 0 < zlen f <= 2048 ->
  forall t, t = tx_tail d ->
  let c1 := put_bytes_mem (tx_bufs d + t * E1000_TX_BUF) f c in
  let c2 := fill_tx_desc (tx_ring d) t (tx_bufs_phys d .+ t * E1000_TX_BUF) (u16 (zlen f)) E1000_TXD_CMD 0 c1 in
  let next := u16 ((t + 1) mod E1000_TX_RING) in
  ready (set_tail next d) (reg_write E1000_REG_TDT next c2) q (Some f) /\ (next - 1) mod 32 = t.
Proof.
  intros R Hf Hlen t Et c1 c2 next. pose proof (rd_layout _ _ _ _ R) as L. pose proof (rd_tail _ _ _ _ R) as Ht. rewrite <- Et in Ht.
  destruct (rd_rx_regs _ _ _ _ R) as (Hbase & Hrl & Hen & Hrt & Hrh). destruct (rd_tx_regs _ _ _ _ R) as (Tbase & Tlen & Ten & Tt & Th). rewrite <- Et in Tt, Th.
  assert (0 <= (t + 1) mod 32 < 32) as Hnx by (apply Z.mod_pos_bound; done). assert (next = (t + 1) mod 32) as Hnext by (apply u16_small; unfold E1000_TX_RING; lia).
  assert ((next - 1) mod 32 = t) as Hprev by (rewrite Hnext, Zminus_mod_idemp_l, Z.add_simpl_r; apply Z.mod_small; lia). split; [|exact Hprev].
  destruct (ly_low _ _ L) as (_ & _ & _ & _ & _ & _ & Hb0 & Hb1).
  unfold c2, c1, put_bytes_mem. rewrite fill_tx_mem. cbn [ram set_ram card_dma]. unfold c_with_ram. cbn [c_ram c_off c_regs c_eeprom c_delay c_busy c_plan c_time c_out c_in].
  unfold E1000_TX_BUF. rewrite (u64_small (tx_bufs_phys d + t * 2048)) by (clear -Hb0 Hb1 Ht; lia). rewrite (u16_small (zlen f)) by (clear -Hlen; lia). rewrite (Z.mul_comm t 2048).
  set (m1 := write_bytes _ _ _). set (m := tx_mem _ _ _ _ _ _). set (c3 := mkCard m _ _ _ _ _ _ _ _ _). change (reg_write E1000_REG_TDT next c3) with (set_reg E1000_REG_TDT next c3).
  destruct (slots_apart d _ t t L Ht Ht) as (_ & _ & _ & _ & _ & Hsep & _).
  assert (Hag : forall a k, apart a k (tx_ring d + 16 * t) 16 -> apart a k (tx_bufs d + 2048 * t) 2048 -> agree (c_ram c) m a k).
  { intros a k H1 H2. eapply agree_trans; [apply agree_write, (apart_short _ _ _ _ _ H2), Hlen|apply agree_tx_mem, H1]. }
  constructor; cbn [rx_next set_tail tx_tail nic_up rx_ring tx_ring rx_bufs tx_bufs rx_ring_phys tx_ring_phys rx_bufs_phys tx_bufs_phys] in *;
    [apply R|by destruct L; constructor|apply R|lia| | |apply R|intros i Hi|intros i Hi|apply R|apply R|split; [done|lia]].
  - unfold base_reg in *. regs. by split_and!.
  - unfold base_reg in *. regs. split_and!; try done. cbn [c_regs c3]. by rewrite Th.
  - change (rx_slot d m i (q !! Z.to_nat ((i - rx_next d) mod 32))). destruct (slots_apart d _ i t L Hi Ht) as (S1 & S2 & S3 & S4 & _).
    apply (rx_slot_agree _ (c_ram c)); [|by apply Hag..|by apply R].
    destruct (q !! _) as [x|] eqn:Ex; [|done]. by apply (proj1 (Forall_lookup _ _) (rd_q _ _ _ _ R) _ _ Ex).
  - rewrite Hprev. change (tx_slot d m i (if i =? t then Some f else None)). destruct (Z.eqb_spec i t) as [->|Hit].
    + destruct (tx_mem_loads m1 (tx_ring d + 16 * t) (tx_bufs_phys d + 2048 * t) (zlen f) E1000_TXD_CMD 0) as (E1 & E2 & E3); [clear -Hb0 Hb1 Ht; lia|clear -Hlen; lia|done|].
      unfold tx_slot, d_addr, d_length, d_status. split_and!; [done..|]. unfold zlen in *. rewrite (bytes_agree _ m1 m _ _ _ (agree_tx_mem _ _ _ _ _ _ (tx_bufs d + 2048 * t) 2048 Hsep)) by lia.
      unfold m1. rewrite bytes_at_write_bytes. rewrite <- (list_fmap_id f) at 2. apply list_fmap_ext. intros j x Hx. apply u8_small. exact (proj1 (Forall_lookup _ _) Hf _ _ Hx).
    + destruct (slots_apart d _ i t L Hi Ht) as (_ & _ & _ & _ & S5 & _ & S7). apply (tx_slot_agree _ (c_ram c)); [done|by apply Hag; [apply S7|]|done|].
      pose proof (rd_tx _ _ _ _ R i Hi) as Hx. by destruct (i =? _).
Qed.

(** The entry before the tail shows whether the frame is still pending. *)
Lemma prev_status d c q pend : ready d c q pend ->
  load 1 (c_ram c) (d_status (tx_ring d) ((tx_tail d - 1) mod 32)) = (match pend with Some _ => 0 | None => 1 end).
Proof.
  intros R. pose proof (rd_tx _ _ _ _ R ((tx_tail d - 1) mod 32) (Z.mod_pos_bound _ 32 eq_refl)) as H. rewrite Z.eqb_refl in H.
  destruct pend; [by destruct H as (_ & _ & ? & _)|exact H].
Qed.

Lemma tx_wait_ready n : forall d c q pend k, ready d c q pend -> (k <= n)%nat -> c_plan c (c_time c + k)%nat = Transmit ->
  exists c' q', tx_wait n (d_status (tx_ring d) ((tx_tail d - 1) mod 32)) c = (true, c') /\ ready d c' q' None /\ turn c c' q q' pend None.
Proof.
  induction n as [|n IH]; intros d c q pend k R Hk Hplan; cbn [tx_wait];
    destruct (dma_ready d c q pend R) as (q1 & pend1 & R1 & T1 & Htime & Hnow); unfold look; cbn [ram card_dma];
    change (c_ram (c_later _)) with (c_ram (dma c)); rewrite (prev_status _ _ _ _ R1).
  - replace k with 0%nat in Hplan by lia. rewrite Nat.add_0_r in Hplan. rewrite (Hnow Hplan) in *. exists (dma c), q1. done.
  - destruct pend1 as [f|]; [|by exists (dma c), q1]. cbn [has_any Z.land Z.eqb negb].
    destruct k as [|k]; [rewrite Nat.add_0_r in Hplan; by specialize (Hnow Hplan)|].
    destruct (IH d (dma c) q1 (Some f) k R1) as (c' & q' & E & R' & T'); [lia|rewrite Htime, (tn_plan _ _ _ _ _ _ T1), Nat.add_succ_comm; done|].
    exists c', q'. split; [exact E|]. split; [done|]. by eapply turn_trans.
Qed.

Lemma send_spec d c q f :
  ready d c q None -> prompt (c_plan c) -> Forall (fun b => 0 <= b < 256) f -> 0 < zlen f <= 2048 ->
  exists d' c' q', e1000_send (Some f) d c = (0, d', c') /\ ready d' c' q' None /\ c_out c' = c_out c ++ [f] /\
    q' ++ c_in c' = q ++ c_in c /\ c_plan c' = c_plan c /\ rx_discard d' = rx_discard d.
Proof.
  intros R Hprompt Hf Hlen. unfold e1000_send. rewrite (rd_up _ _ _ _ R). cbn [negb].
  rewrite (proj2 (Z.eqb_neq (zlen f) 0)), (proj2 (Z.ltb_ge E1000_TX_BUF (zlen f))) by (unfold E1000_TX_BUF; lia). cbn [orb].
  destruct (dma_ready d c q None R) as (q1 & pend1 & R1 & T1 & _). assert (pend1 = None) as -> by (by destruct (tn_pend _ _ _ _ _ _ T1)).
  unfold look at 1. cbn [ram card_dma]. set (c1 := dma c) in *. clearbody c1. pose proof (rd_tx _ _ _ _ R1 (tx_tail d) (rd_tail _ _ _ _ R)) as Hst.
  replace (if tx_tail d =? (tx_tail d - 1) mod 32 then None else None) with (@None (list Z)) in Hst by (by destruct (_ =? _)). cbn [tx_slot] in Hst. rewrite Hst.
  change (has_any E1000_TXD_STAT_DD E1000_TXD_STAT_DD) with true. cbn [negb].
  destruct (hand_over d c1 q1 f R1 Hf Hlen (tx_tail d) eq_refl) as [R2 Hprev]. set (next := u16 ((tx_tail d + 1) mod E1000_TX_RING)) in *.
  set (c2 := reg_write E1000_REG_TDT next _) in *. assert (c_in c2 = c_in c1 /\ c_out c2 = c_out c1 /\ c_plan c2 = c_plan c1 /\ c_time c2 = c_time c1) as (Ei & Eo & Ep & Et) by done. clearbody c2.
  assert (u16 ((next + E1000_TX_RING - 1) mod E1000_TX_RING) = (next - 1) mod 32) as ->.
  { unfold E1000_TX_RING. replace (next + 32 - 1) with (next - 1 + 1 * 32) by lia. rewrite Z.mod_add by done. apply u16_small. pose proof (Z.mod_pos_bound (next - 1) 32 eq_refl). lia. }
  destruct (turn_stream _ _ _ _ T1) as (Hs1 & Ho1 & Hp1). destruct (Hprompt (c_time c2)) as (k & Hk & Hplan). rewrite <- Hp1, <- Ep in Hplan.
  destruct (tx_wait_ready (Z.to_nat E1000_TX_TIMEOUT) (set_tail next d) c2 q1 (Some f) k R2) as (c3 & q3 & E3 & R3 & T3); [clear -Hk; unfold E1000_TX_TIMEOUT in *; lia|done|].
  change (tx_tail (set_tail next d)) with next in E3. rewrite E3. cbn [negb].
  destruct (dma_ready _ c3 q3 None R3) as (q4 & pend4 & R4 & T4 & _). assert (pend4 = None) as -> by (by destruct (tn_pend _ _ _ _ _ _ T4)).
  unfold look. cbn [ram card_dma]. set (c4 := dma c3) in *. clearbody c4. pose proof (prev_status _ _ _ _ R4) as Hst4. change (tx_tail (set_tail next d)) with next in Hst4. rewrite Hst4.
  exists (set_tail next d), c4, q4. split; [done|]. split; [exact R4|]. pose proof (turn_trans _ _ _ _ _ _ _ _ _ T3 T4) as [Ho (e & -> & Hi) _ Hp].
  cbn [pending] in Ho. rewrite app_nil_r in Ho. rewrite Ho, Eo, Ho1, Hp, Ep, Hp1. split; [done|]. split; [|done]. rewrite <- Hs1, <- Ei, Hi. by rewrite app_assoc.
Qed.

(** ** Traffic *)

(** The driver's calls, in any order. *)
Inductive call := CSend (f : list Z) | CPoll (cap : Z).

(** A run of calls: what the sends returned, and the frames the polls gave. *)
Fixpoint traffic (ops : list call) (d : e1000) (c : card) : list Z * list (list Z) * (e1000 * card) :=
  match ops with
  | [] => ([], [], (d, c))
  | CSend f :: rest =>
      let '(rc, d, c) := e1000_send (Some f) d c in
      let '(sent, got, st) := traffic rest d c in (rc :: sent, got, st)
  | CPoll cap :: rest =>
      let '(rc, l, d, c) := e1000_poll cap d c in
      let '(sent, got, st) := traffic rest d c in (sent, (if rc =? 0 then [] else [l]) ++ got, st)
  end.

Definition sends (ops : list call) : list (list Z) := omap (fun o => match o with CSend f => Some f | CPoll _ => None end) ops.
Definition sendable (f : list Z) : bool := (0 <? zlen f) && (zlen f <=? 2048).
Definition call_ok (cap : Z) (o : call) : Prop := match o with CSend f => Forall (fun b => 0 <= b < 256) f | CPoll n => n = cap end.

Lemma traffic_spec cap ops : 0 < cap -> Forall (call_ok cap) ops -> forall d c q, ready d c q None -> prompt (c_plan c) ->
  exists d' c' q', traffic ops d c =
      ((fun f => if sendable f then 0 else -1) <$> sends ops, (traffic ops d c).1.2, (d', c')) /\
    ready d' c' q' None /\ c_plan c' = c_plan c /\ c_out c' = c_out c ++ filter (fun f => sendable f = true) (sends ops) /\
    (traffic ops d c).1.2 ++ frames cap (rx_discard d') (q' ++ c_in c') = frames cap (rx_discard d) (q ++ c_in c).
Proof.
  intros Hcap. induction ops as [|[f|n] ops IH]; intros Hok d c q R Hpr; cbn [traffic].
  - exists d, c, q. split_and!; try done. cbn. by rewrite app_nil_r.
  - pose proof (Forall_inv Hok) as Hf. specialize (IH (Forall_inv_tail Hok)). cbn [call_ok] in Hf. cbn [sends omap list_omap]. fold (sends ops). cbn [fmap list_fmap filter list_filter].
    destruct (sendable f) eqn:Es.
    + unfold sendable in Es. apply andb_true_iff in Es as [E1 E2]. apply Z.ltb_lt in E1. apply Z.leb_le in E2.
      destruct (send_spec d c q f R Hpr Hf ltac:(lia)) as (d1 & c1 & q1 & -> & R1 & Ho & Hs & Hp & Hd). rewrite <- Hp in Hpr.
      destruct (IH d1 c1 q1 R1 Hpr) as (d2 & c2 & q2 & E & R2 & Hp2 & Ho2 & Hs2). destruct (traffic ops d1 c1) as [[sent got] st] eqn:Et. cbn [fst snd] in *. injection E as -> ->.
      exists d2, c2, q2. rewrite decide_True by done. split_and!; [done|done|by rewrite Hp2| |by rewrite Hs2, Hs, Hd]. by rewrite Ho2, Ho, <- app_assoc.
    + assert (e1000_send (Some f) d c = (-1, d, c)) as ->.
      { unfold e1000_send. rewrite (rd_up _ _ _ _ R). cbn [negb]. unfold sendable in Es. replace ((zlen f =? 0) || (E1000_TX_BUF <? zlen f)) with true; [done|]. symmetry. apply orb_true_iff. rewrite Z.eqb_eq, Z.ltb_lt. apply andb_false_iff in Es. rewrite Z.ltb_ge, Z.leb_gt in Es. unfold E1000_TX_BUF, zlen in *. lia. }
      destruct (IH d c q R Hpr) as (d2 & c2 & q2 & E & R2 & Hp2 & Ho2 & Hs2). destruct (traffic ops d c) as [[sent got] st] eqn:Et. cbn [fst snd] in *. injection E as -> ->.
      exists d2, c2, q2. rewrite decide_False by done. by split_and!.
  - pose proof (Forall_inv Hok) as Hn. specialize (IH (Forall_inv_tail Hok)). cbn [call_ok] in Hn. subst n. cbn [sends omap list_omap]. fold (sends ops).
    destruct (poll_spec d c q cap R Hcap) as (rc & l & d1 & c1 & q1 & -> & R1 & Ho & Hp & _ & Hs & _). rewrite <- Hp in Hpr.
    destruct (IH d1 c1 q1 R1 Hpr) as (d2 & c2 & q2 & E & R2 & Hp2 & Ho2 & Hs2). destruct (traffic ops d1 c1) as [[sent got] st] eqn:Et. cbn [fst snd] in *. injection E as -> ->.
    exists d2, c2, q2. split_and!; [done|done|by rewrite Hp2|by rewrite Ho2, Ho|]. by rewrite Hs, <- Hs2, app_assoc.
Qed.

(** ** Packets *)

(** How a packet is cut into pieces. *)
Fixpoint cut (fuel : nat) (data : list Z) (errs : Z) : list piece :=
  match fuel with
  | O => [mkPiece data true errs]
  | S k => if 2048 <? zlen data then mkPiece (take 2048 data) false 0 :: cut k (drop 2048 data) errs else [mkPiece data true errs]
  end.
Definition pieces_of (pk : list Z * Z) : list piece := cut (length pk.1) pk.1 pk.2.

(** A packet that fits the buffers and arrived without an error. *)
Definition good (cap : Z) (pk : list Z * Z) : bool :=
  (0 <? zlen pk.1) && (zlen pk.1 <=? 2048) && (zlen pk.1 <=? cap) && negb (has_any pk.2 E1000_RXD_ERRS).

(** The rest of a packet that has begun is thrown away. *)
Lemma frames_cut_rest cap fuel : forall data errs rest, frames cap true (cut fuel data errs ++ rest) = frames cap false rest.
Proof. induction fuel as [|k IH]; intros data errs rest; [done|]. cbn [cut]. destruct (2048 <? zlen data); [|done]. cbn [app frames p_eop negb]. by rewrite IH. Qed.

Lemma frames_packet cap pk rest : frames cap false (pieces_of pk ++ rest) = (if good cap pk then [pk.1] else []) ++ frames cap false rest.
Proof.
  destruct pk as [data errs]. unfold pieces_of, good. cbn [fst snd]. destruct data as [|x data]; [done|]. cbn [length cut]. set (l := x :: data).
  assert (0 < zlen l) as Hl by (unfold zlen, l; cbn [length]; lia). rewrite (proj2 (Z.ltb_lt 0 _) Hl). cbn [andb].
  destruct (Z.ltb_spec 2048 (zlen l)) as [H|H].
  - rewrite (proj2 (Z.leb_gt _ 2048)) by lia. cbn [andb app frames p_eop negb]. rewrite frames_cut_rest. done.
  - rewrite (proj2 (Z.leb_le _ 2048)) by lia. cbn [andb app frames p_eop negb p_data p_errors]. unfold accepted. cbn [p_eop negb p_data p_errors andb].
    rewrite (proj2 (Z.eqb_neq _ 0)), (proj2 (Z.leb_le _ 2048)) by lia. done.
Qed.

Lemma frames_packets cap pks : frames cap false (concat (pieces_of <$> pks)) = (filter (fun pk => good cap pk = true) pks).*1.
Proof.
  induction pks as [|pk pks IH]; [done|]. cbn [fmap list_fmap concat]. rewrite frames_packet, filter_cons. fold (fmap (M := list) pieces_of pks). rewrite IH.
  destruct (good cap pk); [by rewrite decide_True|by rewrite decide_False].
Qed.

(** C17: network traffic.  From a state with empty rings, for every sequence of
    sends and polls and whatever the card does meanwhile, as long as it sends
    within the driver's patience: every frame of 1 to 2048 bytes is sent,
    once and in order, and nothing else goes out; other lengths are refused.
    What the polls return, followed by what is still in the ring or to come,
    is exactly the packets that arrive without an error and fit the buffer,
    whole and in order; packets that are damaged or too long leave no
    fragment.  The rings are consistent again after every call. *)
Theorem e1000_traffic cap ops d c pks :
  0 < cap -> Forall (call_ok cap) ops -> ready d c [] None -> rx_discard d = false -> prompt (c_plan c) -> c_in c = concat (pieces_of <$> pks) ->
  exists got d' c' q,
    traffic ops d c = ((fun f => if sendable f then 0 else -1) <$> sends ops, got, (d', c')) /\
    c_out c' = c_out c ++ filter (fun f => sendable f = true) (sends ops) /\
    got ++ frames cap (rx_discard d') (q ++ c_in c') = (filter (fun pk => good cap pk = true) pks).*1 /\
    ready d' c' q None.
Proof.
  intros Hcap Hok R Hd Hp Hin. destruct (traffic_spec cap ops Hcap Hok d c [] R Hp) as (d' & c' & q & E & R' & _ & Ho & Hs).
  exists (traffic ops d c).1.2, d', c', q. split_and!; [exact E|exact Ho| |exact R']. rewrite Hs, Hd, Hin. apply frames_packets.
Qed.
