(* ===== verification/E1000Init.v ===== *)
(** * Initialisation of the network card

    From the boot state of the driver to the invariant of E1000Spec.v: the
    frames for the rings, the registers after the reset, the descriptors. *)
From S2P Require Import Prelude Mem KString FrameAlloc Pmm Task Sched Pmap Libk Net Ports Pci Dma DmaSpec E1000 E1000Spec.

Section Init.
Variables (off kernel_pml4 : Z).
Hypothesis Hoff : 0 < off /\ off + 2 ^ 32 <= 2 ^ 64.

Context {P : Type} `{PT : Ports P}.

Lemma alloc_rings_ok d (k : machine card P) :
  frames_room 34 (k_vm k) ->
  exists d' m v', e1000_alloc_rings off (d, k) = (true, (d', mkMachine v' (k_ports k) (c_with_ram m (k_dev k)))) /\
    layout d' off /\ rx_discard d' = rx_discard d /\ mac d' = mac d.
Proof.
  intros [Hi Hr]. destruct k as [v p c]. cbn [k_vm k_dev k_ports] in *. unfold e1000_alloc_rings, alloc_dma. cbn [k_vm k_dev k_ports].
  destruct (dma_page off Hoff 34 1 (vm_frames v) Hi ltac:(lia) Hr) as (s1 & E1 & S1 & T1 & F1 & B1 & I1 & R1). destruct (pmm_alloc_dma off 1 (vm_frames v)) as [p1 f1]. cbn [fst snd vm_frames set_frames k_vm k_dev k_ports] in *.
  destruct (dma_page off Hoff 33 1 f1 I1 ltac:(lia) R1) as (s2 & E2 & S2 & T2 & F2 & B2 & I2 & R2). destruct (pmm_alloc_dma off 1 f1) as [p2 f2]. cbn [fst snd vm_frames set_frames k_vm k_dev k_ports] in *.
  destruct (dma_page off Hoff 32 16 f2 I2 ltac:(lia) R2) as (s3 & E3 & S3 & T3 & F3 & B3 & I3 & R3). destruct (pmm_alloc_dma off 16 f2) as [p3 f3]. cbn [fst snd vm_frames set_frames k_vm k_dev k_ports] in *.
  destruct (dma_page off Hoff 16 16 f3 I3 ltac:(lia) R3) as (s4 & E4 & S4 & T4 & F4 & B4 & I4 & R4). destruct (pmm_alloc_dma off 16 f3) as [p4 f4]. cbn [fst snd vm_frames set_frames k_vm k_dev k_ports] in *.
  clear I1 I2 I3 I4 R1 R2 R3 R4 Hr. destruct (page_virt off Hoff s1 ltac:(lia)) as [V1 N1]. destruct (page_virt off Hoff s2 ltac:(lia)) as [V2 N2]. destruct (page_virt off Hoff s3 ltac:(lia)) as [V3 N3]. destruct (page_virt off Hoff s4 ltac:(lia)) as [V4 N4].
  subst p1 p2 p3 p4. rewrite !(proj2 (Z.eqb_neq _ 0)) by done. cbn [orb]. rewrite V1, V2, V3, V4.
  assert (U : forall st n pg, st <= pg < st + n -> ((st <=? pg) && (pg <? st + n)) = true) by (intros st n pg H; apply andb_true_iff; rewrite Z.leb_le, Z.ltb_lt; lia).
  eexists _, _, _. split; [reflexivity|]. split; [|done]. cbn [set_phys set_rings].
  assert (A12 : apart (page_of off s1) (1 * 4096) (page_of off s2) (1 * 4096)) by (apply (later_apart off f1); [done|done| |done]; intros q Hq; by rewrite B1, U).
  assert (A13 : apart (page_of off s1) (1 * 4096) (page_of off s3) (16 * 4096)) by (apply (later_apart off f2); [done|done| |done]; intros q Hq; rewrite B2, B1, (U s1 1 q Hq); by rewrite orb_true_r).
  assert (A14 : apart (page_of off s1) (1 * 4096) (page_of off s4) (16 * 4096)) by (apply (later_apart off f3); [done|done| |done]; intros q Hq; rewrite B3, B2, B1, (U s1 1 q Hq); by rewrite !orb_true_r).
  assert (A23 : apart (page_of off s2) (1 * 4096) (page_of off s3) (16 * 4096)) by (apply (later_apart off f2); [done|done| |done]; intros q Hq; by rewrite B2, U).
  assert (A24 : apart (page_of off s2) (1 * 4096) (page_of off s4) (16 * 4096)) by (apply (later_apart off f3); [done|done| |done]; intros q Hq; rewrite B3, B2, (U s2 1 q Hq); by rewrite orb_true_r).
  assert (A34 : apart (page_of off s3) (16 * 4096) (page_of off s4) (16 * 4096)) by (apply (later_apart off f3); [done|done| |done]; intros q Hq; by rewrite B3, U).
  clear -Hoff S1 S2 S3 S4 T1 T2 T3 T4 A12 A13 A14 A23 A24 A34. unfold apart in *.
  constructor; cbn [set_phys set_rings rx_ring tx_ring rx_bufs tx_bufs rx_ring_phys tx_ring_phys rx_bufs_phys tx_bufs_phys]; [lia|unfold page_of; lia|lia|unfold apart; lia].
Qed.

(** ** Registers *)

(** Only the control, EEPROM and busy state of the card differ. *)
Record quiet (c c' : card) : Prop := {
  qt_ram : c_ram c' = c_ram c; qt_off : c_off c' = c_off c; qt_in : c_in c' = c_in c; qt_out : c_out c' = c_out c; qt_plan : c_plan c' = c_plan c;
  qt_regs : forall r, r <> E1000_REG_CTRL -> r <> E1000_REG_EEPROM -> c_regs c' r = c_regs c r;
}.

Lemma quiet_refl c : quiet c c.
Proof. by constructor. Qed.
Lemma quiet_trans c1 c2 c3 : quiet c1 c2 -> quiet c2 c3 -> quiet c1 c3.
Proof. intros [] []. constructor; try congruence. intros r H1 H2. rewrite qt_regs1, qt_regs0 by done. done. Qed.

Lemma reg_read_quiet r c : quiet c (reg_read r c).2.
Proof.
  cbn [reg_read card_dma]. destruct (r =? E1000_REG_CTRL) eqn:E1; [|destruct (r =? E1000_REG_EEPROM) eqn:E2; [|apply quiet_refl]].
  - apply Z.eqb_eq in E1 as ->. destruct (c_busy c); constructor; try done. intros r H1 H2. cbn [snd]. by rewrite reg_other.
  - destruct (c_busy c); by constructor.
Qed.

Lemma spin_quiet n : forall r mask b c, quiet c (e1000_spin r mask b n c).2.
Proof.
  induction n as [|n IH]; intros r mask b c; [apply quiet_refl|]. cbn [e1000_spin]. pose proof (reg_read_quiet r c) as H. destruct (reg_read r c) as [v c1]. cbn [snd] in H.
  destruct (if b then _ else _); [exact H|]. eapply quiet_trans; [exact H|apply IH].
Qed.

Lemma eeprom_quiet w c : quiet c (e1000_eeprom_read w c).2.
Proof.
  unfold e1000_eeprom_read. set (c1 := reg_write E1000_REG_EEPROM _ c).
  assert (quiet c c1) as H1 by (constructor; try done; intros r H1 H2; change (c_regs c1 r) with (c_regs (set_reg E1000_REG_EEPROM (Z.lor 1 (Z.shiftl w 8)) c) r); by rewrite reg_other).
  pose proof (spin_quiet (Z.to_nat E1000_EEPROM_TIMEOUT) E1000_REG_EEPROM (Z.shiftl 1 4) true c1) as H2. destruct (e1000_spin _ _ _ _ _) as [ok c2]. cbn [snd] in H2.
  pose proof (quiet_trans _ _ _ H1 H2) as H3. destruct ok; cbn [negb]; [|exact H3]. pose proof (reg_read_quiet E1000_REG_EEPROM c2) as H4. destruct (reg_read _ c2) as [v c3]. exact (quiet_trans _ _ _ H3 H4).
Qed.

Lemma read_mac_quiet d c : exists l c', e1000_read_mac d c = (set_mac l d, c') /\ quiet c c'.
Proof.
  unfold e1000_read_mac, mac_words. set (f := fun (i : Z) _ => _).
  pose proof (for_range_ind (fun _ st => quiet c st.2) 3 0 f (true, mac d, c)) as H. cbv beta in H. specialize (H (quiet_refl c)).
  assert (quiet c (for_range 3 0 f (true, mac d, c)).2) as Hq.
  { apply H. intros i [[ok l] m] _ Hm. cbn [snd] in Hm. unfold f. destruct ok; cbn [negb]; [|exact Hm].
    pose proof (eeprom_quiet i m) as He. destruct (e1000_eeprom_read i m) as [w m1]. cbn [snd] in He. pose proof (quiet_trans _ _ _ Hm He) as H1.
    destruct (w =? 0xFFFF); [|exact H1]. pose proof (reg_read_quiet E1000_REG_EEPROM m1) as H2. destruct (reg_read _ m1) as [v m2]. pose proof (quiet_trans _ _ _ H1 H2) as H3. destruct (v =? 0xFFFF); exact H3. }
  destruct (for_range 3 0 f (true, mac d, c)) as [[ok l] c']. cbn [snd] in Hq. by eexists _, _.
Qed.

(** The reset ends as soon as the card is no longer busy, and stops both rings. *)
Lemma spin_reset n : forall c, (c_busy c < n)%nat -> has_any (c_regs c E1000_REG_CTRL) E1000_CTRL_RST = true ->
  exists c', e1000_spin E1000_REG_CTRL E1000_CTRL_RST false n c = (true, c') /\ quiet c c'.
Proof.
  induction n as [|n IH]; intros c Hb Hr; [lia|]. cbn [e1000_spin]. pose proof (reg_read_quiet E1000_REG_CTRL c) as Hq.
  cbn [reg_read card_dma] in *. change (E1000_REG_CTRL =? E1000_REG_CTRL) with true in *. cbv iota in *. destruct (c_busy c) as [|b] eqn:Eb.
  - eexists. split; [|exact Hq]. unfold has_any. rewrite Z.land_ldiff. done.
  - rewrite Hr. cbn [negb]. destruct (IH (c_with_busy b c)) as (c' & E & Hq'); [cbn; lia|done|]. exists c'. split; [exact E|]. exact (quiet_trans _ _ _ Hq Hq').
Qed.

Lemma reset_ok c : Z.of_nat (c_delay c) < E1000_RESET_TIMEOUT ->
  exists c', e1000_reset c = (true, c') /\ c_ram c' = c_ram c /\ c_off c' = c_off c /\ c_in c' = c_in c /\ c_out c' = c_out c /\ c_plan c' = c_plan c.
Proof.
  intros Hd. unfold e1000_reset. set (c1 := reg_write E1000_REG_IMC _ c). pose proof (reg_read_quiet E1000_REG_CTRL c1) as Q1.
  destruct (reg_read E1000_REG_CTRL c1) as [ctrl c2] eqn:E2. cbn [snd] in Q1. assert (c_delay c2 = c_delay c) as Hdl by (cbn [reg_read card_dma] in E2; destruct (c_busy c1); by injection E2 as <- <-).
  set (v := Z.lor ctrl E1000_CTRL_RST). assert (has_any v E1000_CTRL_RST = true) as Hv.
  { unfold has_any. apply negb_true_iff, Z.eqb_neq. intros E. assert (Z.testbit (Z.land v E1000_CTRL_RST) 26 = true) as Hb by (unfold v; rewrite Z.land_spec, Z.lor_spec; change (Z.testbit E1000_CTRL_RST 26) with true; by rewrite orb_true_r).
    rewrite E, Z.bits_0 in Hb. done. }
  assert (exists c3, reg_write E1000_REG_CTRL v c2 = c3 /\ c_busy c3 = c_delay c2 /\ has_any (c_regs c3 E1000_REG_CTRL) E1000_CTRL_RST = true /\ c_ram c3 = c_ram c2 /\ c_off c3 = c_off c2 /\ c_in c3 = c_in c2 /\ c_out c3 = c_out c2 /\ c_plan c3 = c_plan c2) as (c3 & -> & Hb & Hr & Q3).
  { eexists. split; [reflexivity|]. cbn [reg_write card_dma]. change (E1000_REG_CTRL =? E1000_REG_CTRL) with true. rewrite Hv. cbn [andb]. by split_and!. }
  destruct (spin_reset (Z.to_nat E1000_RESET_TIMEOUT) c3) as (c4 & -> & Q4); [rewrite Hb, Hdl; clear -Hd; unfold E1000_RESET_TIMEOUT in *; lia|done|]. cbn [negb].
  set (c5 := reg_write E1000_REG_IMC _ c4). pose proof (reg_read_quiet E1000_REG_CTRL c5) as Q5. destruct (reg_read E1000_REG_CTRL c5) as [ctrl' c6]. cbn [snd] in Q5.
  set (w := Z.lor _ _). eexists. split; [reflexivity|]. destruct Q1, Q3 as (? & ? & ? & ? & ?), Q4, Q5.
  assert (forall x, c_ram (reg_write E1000_REG_CTRL w x) = c_ram x /\ c_off (reg_write E1000_REG_CTRL w x) = c_off x /\ c_in (reg_write E1000_REG_CTRL w x) = c_in x /\ c_out (reg_write E1000_REG_CTRL w x) = c_out x /\ c_plan (reg_write E1000_REG_CTRL w x) = c_plan x) as Hw.
  { intros x. cbn [reg_write card_dma]. by destruct (_ && _). }
  destruct (Hw c6) as (-> & -> & -> & -> & ->). 
  assert (c_ram c1 = c_ram c /\ c_off c1 = c_off c /\ c_in c1 = c_in c /\ c_out c1 = c_out c /\ c_plan c1 = c_plan c) as (? & ? & ? & ? & ?) by done.
  assert (c_ram c5 = c_ram c4 /\ c_off c5 = c_off c4 /\ c_in c5 = c_in c4 /\ c_out c5 = c_out c4 /\ c_plan c5 = c_plan c4) as (? & ? & ? & ? & ?) by done.
  clearbody c1 c5. repeat split; congruence.
Qed.

Lemma reg_write_plain r v c : r <> E1000_REG_CTRL -> r <> E1000_REG_EEPROM -> reg_write r v c = set_reg r v c.
Proof. intros H1 H2. cbn [reg_write card_dma]. by rewrite (proj2 (Z.eqb_neq _ _) H1), (proj2 (Z.eqb_neq _ _) H2). Qed.
Lemma reg_read_plain r c : r <> E1000_REG_CTRL -> r <> E1000_REG_EEPROM -> reg_read r c = (c_regs c r, c).
Proof. intros H1 H2. cbn [reg_read card_dma]. by rewrite (proj2 (Z.eqb_neq _ _) H1), (proj2 (Z.eqb_neq _ _) H2). Qed.

(** ** Descriptors *)

Lemma init_tx_ring d c :
  exists m, for_range (Z.to_nat E1000_TX_RING) 0 (fun i => fill_tx_desc (tx_ring d) i (tx_bufs_phys d .+ i * E1000_TX_BUF) 0 0 E1000_TXD_STAT_DD) c = c_with_ram m c /\
    (forall i, 0 <= i < 32 -> tx_slot d m i None) /\ (forall a k, apart a k (tx_ring d) 512 -> agree (c_ram c) m a k).
Proof.
  set (f := fun i => fill_tx_desc _ _ _ _ _ _).
  pose proof (for_range_ind (fun j c' => 0 <= j -> exists m, c' = c_with_ram m c /\ (forall i, 0 <= i < j -> tx_slot d m i None) /\ (forall a k, apart a k (tx_ring d) (16 * j) -> agree (c_ram c) m a k)) (Z.to_nat E1000_TX_RING) 0 f c) as H.
  cbv beta in H. destruct H as (m & E & Hs & Ha); [|intros j c' Hj IH _|done|by exists m].
  - intros _. exists (c_ram c). split; [by destruct c|]. split; [intros i Hi; lia|by intros a k _ x Hx].
  - destruct IH as (m & -> & Hs & Ha); [lia|]. unfold f. rewrite fill_tx_mem. cbn [c_ram c_with_ram]. set (m' := tx_mem _ _ _ _ _ _). exists m'. split; [done|]. split.
    + intros i Hi. destruct (decide (i = j)) as [->|Hij].
      * unfold tx_slot, d_status, m', tx_mem. rewrite !load_store_other by (unfold apart; lia). by rewrite load_store_same.
      * apply (tx_slot_agree _ m); [done|apply agree_tx_mem; unfold apart; lia|done|apply Hs; lia].
    + intros a k Hap. unfold apart in Hap. eapply agree_trans; [apply Ha|apply agree_tx_mem]; unfold apart; lia.
Qed.

Definition rx_mem (m : mem) (desc addr : Z) : mem :=
  store 2 (store 1 (store 1 (store 2 (store 2 (store 8 m desc addr) (desc + 8) 0) (desc + 10) 0) (desc + 12) 0) (desc + 13) 0) (desc + 14) 0.

Lemma init_rx_mem ring bufs i c : init_rx_desc ring bufs i c = c_with_ram (rx_mem (c_ram c) (ring + 16 * i) (bufs .+ i * E1000_RX_BUF)) c.
Proof. reflexivity. Qed.

Lemma agree_rx_mem m desc addr a k : apart a k desc 16 -> agree m (rx_mem m desc addr) a k.
Proof. unfold apart, rx_mem. intros Ha. repeat (eapply agree_trans; [|apply agree_store; unfold apart; lia]). by intros x Hx. Qed.

Lemma init_rx_ring d c : 0 <= rx_bufs_phys d -> rx_bufs_phys d + 65536 <= 2 ^ 32 -> apart (rx_ring d) 512 (rx_bufs d) 65536 ->
  exists m, for_range (Z.to_nat E1000_RX_RING) 0 (init_rx_desc (rx_ring d) (rx_bufs_phys d)) c = c_with_ram m c /\
    (forall i, 0 <= i < 32 -> rx_slot d m i None) /\ (forall a k, apart a k (rx_ring d) 512 -> agree (c_ram c) m a k).
Proof.
  intros Hb0 Hb1 Hap. unfold apart in Hap. set (f := init_rx_desc _ _).
  pose proof (for_range_ind (fun j c' => 0 <= j -> exists m, c' = c_with_ram m c /\ (forall i, 0 <= i < j -> rx_slot d m i None) /\ (forall a k, apart a k (rx_ring d) (16 * j) -> agree (c_ram c) m a k)) (Z.to_nat E1000_RX_RING) 0 f c) as H.
  cbv beta in H. destruct H as (m & E & Hs & Ha); [|intros j c' Hj IH _|done|by exists m].
  - intros _. exists (c_ram c). split; [by destruct c|]. split; [intros i Hi; lia|by intros a k _ x Hx].
  - destruct IH as (m & -> & Hs & Ha); [lia|]. change (Z.of_nat (Z.to_nat E1000_RX_RING)) with 32 in Hj. unfold f. rewrite init_rx_mem. cbn [c_ram c_with_ram]. set (m' := rx_mem _ _ _). exists m'. split; [done|]. split.
    + intros i Hi. destruct (decide (i = j)) as [->|Hij].
      * unfold rx_slot, d_status, d_addr, m', rx_mem. split; rewrite !load_store_other by (unfold apart; lia); rewrite load_store_same; [|done].
        unfold E1000_RX_BUF. rewrite u64_small by lia. rewrite Z.mod_small by lia. lia.
      * apply (rx_slot_agree _ m); [done|apply agree_rx_mem; unfold apart; lia..|apply Hs; lia].
    + intros a k Ha'. unfold apart in Ha'. eapply agree_trans; [apply Ha|apply agree_rx_mem]; unfold apart; lia.
Qed.

Lemma low_base x : 0 <= x < 2 ^ 32 -> Z.land x 0xFFFFFFFF + 2 ^ 32 * u32 (Z.shiftr x 32) = x.
Proof.
  intros H. change 0xFFFFFFFF with (2 ^ 32 - 1). rewrite land_ones_mod, Z.shiftr_div_pow2, Z.div_small, (Z.mod_small x) by lia. change (u32 0) with 0. lia.
Qed.

Lemma start_ok d c : layout d (c_off c) -> Forall piece_ok (c_in c) ->
  exists d' c', e1000_start d c = (d', c') /\ ready d' c' [] None /\ c_in c' = c_in c /\ c_out c' = c_out c /\ c_plan c' = c_plan c /\
    rx_discard d' = rx_discard d /\ e1000_present d' = true.
Proof.
  intros L Hin. unfold e1000_start. destruct (read_mac_quiet d c) as (l & c1 & -> & Q). set (d1 := set_mac l d).
  assert (layout d1 (c_off c1)) as L1 by (rewrite (qt_off _ _ Q); destruct L; by constructor). destruct (ly_low _ _ L1) as (B1 & B2 & B3 & B4 & B5 & B6 & _).
  unfold e1000_setup_tx. destruct (init_tx_ring d1 c1) as (m2 & -> & Hs2 & Ha2). rewrite !reg_write_plain by done.
  set (c2 := set_reg E1000_REG_TCTL _ _). unfold e1000_setup_rx.
  change (rx_ring (set_tail 0 d1)) with (rx_ring d1). change (rx_bufs_phys (set_tail 0 d1)) with (rx_bufs_phys d1). change (rx_ring_phys (set_tail 0 d1)) with (rx_ring_phys d1).
  destruct (ly_apart _ _ L1) as (A1 & A2 & A3 & A4 & A5 & A6). destruct (init_rx_ring d1 c2 B5 B6 A2) as (m3 & -> & Hs3 & Ha3). rewrite !reg_write_plain by done.
  rewrite reg_read_plain by done. rewrite reg_read_plain by done. set (d3 := set_up _). set (c3 := set_reg E1000_REG_RCTL _ _).
  exists d3, c3. split; [done|]. split; [|split; [exact (qt_in _ _ Q)|split; [exact (qt_out _ _ Q)|split; [exact (qt_plan _ _ Q)|done]]]].
  constructor; [done|by destruct L1; constructor|done|done| | |done|intros i Hi|intros i Hi| |done|done].
  - unfold c3, base_reg. regs. split_and!; try done. apply (low_base (rx_ring_phys d1)). lia.
  - unfold c3, base_reg. regs. cbn [c_regs c_with_ram]. unfold c2. regs. split_and!; try done. apply (low_base (tx_ring_phys d1)). lia.
  - apply (Hs3 i Hi).
  - assert (tx_slot d1 m3 i None) as Hx; [|by destruct (i =? _)].
    apply (tx_slot_agree _ m2); [done| |done|by apply Hs2]. apply (Ha3 (tx_ring d1 + 16 * i) 16). unfold apart in *. lia.
  - change (c_in c3) with (c_in c1). by rewrite (qt_in _ _ Q).
Qed.

(** C36: the network card is initialised.  With the card among the devices,
    34 frames in a row for the rings besides those the mapping of its
    registers may take, and a card that ends its reset in time, the call
    succeeds: the driver's and the card's rings agree and are empty, so that
    sending and receiving work from the first call on. *)
Theorem e1000_init_ready devices dv b (k : machine card P) :
  find_nic (Z.to_nat PCI_MAX_DEVICES) 0 devices = Some dv -> mmio_bar 6 0 dv = Some b ->
  0x4000 <= znth 0 (bar_size dv) b -> has_any (znth 0 (bar dv) b) (Z.shiftl 1 3) = false ->
  frames_room (34 + 3 * ((znth 0 (bar_size dv) b + 4095) / 4096)) (k_vm k) ->
  c_off (k_dev k) = off -> Z.of_nat (c_delay (k_dev k)) < E1000_RESET_TIMEOUT -> Forall piece_ok (c_in (k_dev k)) ->
  exists d' k', e1000_init off kernel_pml4 devices (e1000_boot, k) = (0, (d', k')) /\
    ready d' (k_dev k') [] None /\ rx_discard d' = false /\ e1000_present d' = true /\
    c_in (k_dev k') = c_in (k_dev k) /\ c_out (k_dev k') = c_out (k_dev k) /\ c_plan (k_dev k') = c_plan (k_dev k).
Proof.
  intros Hfind Hbar Hsize H64 Hfr Hoffc Hdelay Hin. unfold e1000_init. rewrite Hfind. unfold e1000_map_mmio. rewrite Hbar.
  rewrite (proj2 (Z.ltb_ge _ _) Hsize), H64. set (size := znth 0 (bar_size dv) b) in *. cbn [snd fst negb]. set (f := fun i => pmap_map _ _ _ _ _).
  set (n := (size + 4095) / 4096) in *. assert (0 <= n) as Hn by (apply Z.div_pos; lia).
  assert (frames_room 34 (for_range (Z.to_nat n) 0 f (set_mem (ram (k_dev k)) (k_vm k)))) as Hf1.
  { pose proof (pmap_maps_run off kernel_pml4 (Z.to_nat n) 0 (34 + 3 * n) (fun i => E1000_MMIO_VA .+ i * 4096) (fun i => Z.land (znth 0 (bar dv) b) 0xFFFFFFF0 .+ i * 4096) (Z.lor (Z.lor PTE_WRITE PTE_NOCACHE) PTE_PRESENT) (set_mem (ram (k_dev k)) (k_vm k)) ltac:(lia) Hfr) as H.
    replace (34 + 3 * n - 3 * Z.of_nat (Z.to_nat n)) with 34 in H by lia. exact H. }
  unfold with_vm. set (v1 := for_range _ _ _ _) in *. clearbody v1. unfold e1000_pci_enable. cbn [k_ports k_vm k_dev]. destruct (pci_config_read32 _ _ _ _ _) as [cmd p1]. cbn [k_ports k_vm k_dev].
  change (set_ram (vm_mem v1) (k_dev k)) with (c_with_ram (vm_mem v1) (k_dev k)). destruct (reset_ok (c_with_ram (vm_mem v1) (k_dev k)) Hdelay) as (c2 & -> & _ & O2 & I2 & U2 & P2). cbn [negb].
  match goal with |- context [e1000_alloc_rings off (?d, ?k)] => destruct (alloc_rings_ok d k Hf1) as (d3 & m3 & v3 & -> & L3 & D3 & _) end. cbn [negb k_dev k_vm k_ports].
  destruct (start_ok d3 (c_with_ram m3 c2)) as (d4 & c4 & -> & R & I4 & U4 & P4 & D4 & Hp); [change (c_off (c_with_ram m3 c2)) with (c_off c2); rewrite O2; change (layout d3 (c_off (k_dev k))); by rewrite Hoffc|change (Forall piece_ok (c_in c2)); by rewrite I2|].
  eexists d4, _. split; [reflexivity|]. cbn [k_dev]. split_and!; [done|by rewrite D4, D3|done|by rewrite I4; cbn; rewrite I2|by rewrite U4; cbn; rewrite U2|by rewrite P4; cbn; rewrite P2].
Qed.
End Init.

(** ** A concrete machine *)

(** The card sends and receives in turn; two packets arrive, the second with an error. *)
Definition demo_plan (t : nat) : act := if Nat.even t then Transmit else Receive.
Definition demo_packets : list (list Z * Z) := [([1; 2; 3; 4], 0); ([9; 9], 1)].
Definition demo_card : card := mkCard (fun _ => 0) OFF (fun _ => 0) [0x5452; 0x1200; 0x5634] 3 0 demo_plan 0 [] (concat (pieces_of <$> demo_packets)).
Definition demo_nic : e1000 := set_phys 0x1000 0x2000 0x10000 0x20000 (set_rings (OFF + 0x1000) (OFF + 0x2000) (OFF + 0x10000) (OFF + 0x20000) e1000_boot).

Lemma demo_prompt : prompt demo_plan.
Proof.
  intros t. unfold demo_plan. destruct (Nat.even t) eqn:E; [exists 0%nat|exists 1%nat]; (split; [done|]); [by rewrite Nat.add_0_r, E|].
  rewrite Nat.add_1_r, Nat.even_succ, <- Nat.negb_even, E. done.
Qed.

Lemma demo_pieces : Forall piece_ok (concat (pieces_of <$> demo_packets)).
Proof. vm_compute. repeat constructor; discriminate. Qed.

Lemma demo_layout : layout demo_nic OFF.
Proof. constructor; unfold apart; vm_compute; intuition discriminate. Qed.

Lemma e1000_traffic_witness :
  let st := e1000_start demo_nic demo_card in
  exists got d' c' q, traffic [CSend [7; 8]; CPoll 1600; CSend []; CPoll 1600] st.1 st.2 = ([0; -1], got, (d', c')) /\
    c_out c' = [[7; 8]] /\ got ++ frames 1600 (rx_discard d') (q ++ c_in c') = [[1; 2; 3; 4]] /\ ready d' c' q None.
Proof.
  destruct (start_ok demo_nic demo_card demo_layout demo_pieces) as (d & c & -> & R & Hi & Ho & Hp & Hd & _). cbv zeta. cbn [fst snd].
  destruct (e1000_traffic 1600 [CSend [7; 8]; CPoll 1600; CSend []; CPoll 1600] d c demo_packets) as (got & d' & c' & q & E & Hout & Hgot & R').
  - lia.
  - repeat constructor; cbn; lia.
  - exact R.
  - exact Hd.
  - rewrite Hp. exact demo_prompt.
  - exact Hi.
  - exists got, d', c', q. split; [exact E|]. split; [rewrite Hout, Ho; reflexivity|]. split; [rewrite Hgot; reflexivity|exact R'].
Defined.

(** A network card with 16 KiB of registers, on an empty bus. *)
Definition demo_device : pci_device :=
  mkPci 0 3 0 E1000_VID E1000_DID_82540EM 2 0 0 11 [0xFEBC0000; 0; 0; 0; 0; 0] [true; false; false; false; false; false] [0x4000; 0; 0; 0; 0; 0].
Definition demo_bus : bus := mkBus 0 (fun _ => 0) (fun _ => 0).

Lemma demo_run : frames_room 46 demo_vm.
Proof.
  split; [split; vm_compute; [split; discriminate|reflexivity]|]. exists 2. split; [lia|]. split; [vm_compute; discriminate|]. intros p Hp.
  assert (forallb (page_free demo_frames) (seqZ 2 46) = true) as Hall by (vm_compute; reflexivity). rewrite forallb_forall in Hall. apply Hall.
  apply list_elem_of_In, elem_of_seqZ. lia.
Qed.

Lemma e1000_init_ready_witness :
  exists d' k', e1000_init OFF 0 [demo_device] (e1000_boot, mkMachine demo_vm demo_bus demo_card) = (0, (d', k')) /\ ready d' (k_dev k') [] None.
Proof.
  destruct (e1000_init_ready OFF 0 ltac:(unfold OFF; lia) [demo_device] demo_device 0 (mkMachine demo_vm demo_bus demo_card)) as (d' & k' & E & R & _).
  - reflexivity.
  - reflexivity.
  - vm_compute. discriminate.
  - reflexivity.
  - exact demo_run.
  - reflexivity.
  - reflexivity.
  - exact demo_pieces.
  - exists d', k'. split; [exact E|exact R].
Defined.
