(* ===== verification/NicTest.v ===== *)
(** * The self-test of the network card (kernel/src/drivers/net/e1000_test.c)

    A loop of ARP exchanges with the gateway of QEMU's network, over the
    interface [Nic].  The file has its own copies of the stack's routines;
    they are shown to agree with those of Net.v.  The wait for a reply counts
    only the polls that found nothing, so a stream of other frames keeps it
    going: its turns have fuel. *)
From S2P Require Import Prelude Libk Net.

Definition ARP_REPLY_WAIT_LOOPS : Z := 40000000.
Definition ARP_MIN_FRAME : Z := 60.
Definition E1000_TEST_EXCHANGES : Z := 96.
Definition TEST_IP : Z := 0x0A00020F.
Definition TEST_GW : Z := 0x0A000202.

Definition bswap16 (v : Z) : Z := u16 (Z.lor (Z.shiftl v 8) (Z.shiftr v 8)).
Definition test_ip_eq (a : Z) (b : list Z) : bool :=
  (Z.land (Z.shiftr a 24) 0xFF =? at_ b 0) && (Z.land (Z.shiftr a 16) 0xFF =? at_ b 1) &&
  (Z.land (Z.shiftr a 8) 0xFF =? at_ b 2) && (Z.land a 0xFF =? at_ b 3).
(** The loop over the six bytes, with its two flags. *)
Definition test_mac_valid (m : list Z) : bool :=
  let '(zero, ff) := foldl (fun '(zero, ff) b => (zero && (b =? 0), ff && (b =? 0xFF))) (true, true) (sub m 0 6) in negb zero && negb ff.
Definition ethertype_is (f : list Z) (et : Z) : bool := u16 (Z.lor (Z.shiftl (at_ f 12) 8) (at_ f 13)) =? et.
Definition test_field_ok (f : list Z) (len : Z) : bool :=
  if len <? 42 then false
  else if negb (ethertype_is f ETHERTYPE_ARP) then false
  else (word_at f 14 =? ARP_HW_ETHER) && (word_at f 16 =? 0x0800) && (at_ f 18 =? 6) && (at_ f 19 =? 4) && (word_at f 20 =? ARP_OP_REPLY).
Definition test_payload_ok (my_mac f : list Z) : bool :=
  if negb (mem_eq (sub f 0 6) my_mac) then false
  else if negb (test_mac_valid (sub f 22 6)) || negb (Z.land (at_ f 22) 1 =? 0) then false
  else if negb (mem_eq (sub f 6 6) (sub f 22 6)) then false
  else if negb (test_ip_eq TEST_GW (sub f 28 4)) then false
  else if negb (mem_eq (sub f 32 6) my_mac) then false
  else test_ip_eq TEST_IP (sub f 38 4).
Definition test_build_request (my_mac : list Z) : list Z :=
  replicate 6 0xFF ++ my_mac ++ le16 (bswap16 ETHERTYPE_ARP) ++ le16 (bswap16 ARP_HW_ETHER) ++ le16 (bswap16 0x0800) ++ [6; 4] ++
  le16 (bswap16 ARP_OP_REQUEST) ++ my_mac ++ [10; 0; 2; 15] ++ replicate 6 0 ++ [10; 0; 2; 2] ++ replicate 18 0.

Record tally := mkTally { arp_tx_id : Z; arp_rx_id : Z; arp_ok_count : Z; arp_fail_count : Z }.

Section Test.
Context {N : Type} `{NC : Nic N}.
Variable fuel : nat.

Fixpoint arp_collect_reply (k : nat) (my_mac : list Z) (spins : Z) (c : N) : option (bool * N) :=
  match k with
  | O => None
  | S k' =>
      if spins <? ARP_REPLY_WAIT_LOOPS then
        let '(n, f, c) := nic_poll c in
        if 0 <? n then
          if test_field_ok f (u16 n) && test_payload_ok my_mac f then Some (true, c) else arp_collect_reply k' my_mac spins c
        else if n <? 0 then Some (false, c)
        else arp_collect_reply k' my_mac (spins + 1) c
      else Some (false, c)
  end.

Definition arp_send_one (my_mac : list Z) (t : tally) (c : N) : option (tally * N) :=
  let '(r, c) := nic_send (test_build_request my_mac) c in
  if negb (r =? 0) then Some (mkTally (arp_tx_id t) (arp_rx_id t) (arp_ok_count t) (u32 (arp_fail_count t + 1)), c)
  else
    let tx := u16 (arp_tx_id t + 1) in
    match arp_collect_reply fuel my_mac 0 c with
    | None => None
    | Some (true, c) => Some (mkTally tx (u16 (arp_rx_id t + 1)) (u32 (arp_ok_count t + 1)) (arp_fail_count t), c)
    | Some (false, c) => Some (mkTally tx (arp_rx_id t) (arp_ok_count t) (u32 (arp_fail_count t + 1)), c)
    end.

Fixpoint test_loop (k : nat) (my_mac : list Z) (t : tally) (c : N) : option (tally * N) :=
  match k with
  | O => Some (t, c)
  | S k' =>
      match arp_send_one my_mac t c with
      | None => None
      | Some (t, c) => if negb (arp_fail_count t =? 0) then Some (t, c) else test_loop k' my_mac t c
      end
  end.

(** Whether the test passed, the counters and the card. *)
Definition e1000_test (c : N) : option (bool * tally * N) :=
  let t := mkTally 0 0 0 0 in
  if negb (nic_present c) then Some (false, t, c)
  else
    match test_loop (Z.to_nat E1000_TEST_EXCHANGES) (nic_mac c) t c with
    | None => None
    | Some (t, c) => Some ((arp_ok_count t =? E1000_TEST_EXCHANGES) && (arp_fail_count t =? 0), t, c)
    end.

(** * Theorems *)

Lemma flags_fold l z f : foldl (fun '(zero, ff) b => (zero && (b =? 0), ff && (b =? 0xFF))) (z, f) l = (z && forallb (fun b => b =? 0) l, f && forallb (fun b => b =? 0xFF) l).
Proof. revert z f. induction l as [|b l IH]; intros z f; cbn [foldl forallb]; [by rewrite !andb_true_r|]. by rewrite IH, !andb_assoc. Qed.
Lemma test_mac_valid_agrees m : test_mac_valid m = mac_valid m.
Proof. unfold test_mac_valid, mac_valid. by rewrite flags_fold. Qed.

(** The test accepts exactly the replies that the stack accepts, and sends
    the request that the stack sends. *)
Theorem test_agrees_with_stack my f n :
  test_field_ok f n && test_payload_ok my f = arp_reply_ok my TEST_IP f n TEST_GW /\ test_build_request my = arp_build_request my TEST_IP TEST_GW.
Proof.
  split; [|reflexivity]. unfold arp_reply_ok, test_payload_ok. rewrite test_mac_valid_agrees.
  assert (test_field_ok f n = arp_field_ok f n) as ->.
  { unfold test_field_ok, arp_field_ok, ethertype_is, ethertype_of. change (ETH_MIN + ARP_PLAIN) with 42. destruct (n <? 42); [done|].
    change (u16 (Z.lor (Z.shiftl (at_ f 12) 8) (at_ f 13))) with (word_at f 12). destruct (word_at f 12 =? ETHERTYPE_ARP); [|done]. cbn [negb]. change ETHERTYPE_IPV4 with 0x0800.
    destruct (word_at f 14 =? ARP_HW_ETHER), (word_at f 16 =? 0x0800), (at_ f 18 =? 6), (at_ f 19 =? 4); done. }
  destruct (arp_field_ok f n); [|done]. cbn [andb negb]. change test_ip_eq with ip_eq.
  destruct (mem_eq (sub f 0 6) my), (mac_valid (sub f 22 6)), (Z.land (at_ f 22) 1 =? 0), (mem_eq (sub f 6 6) (sub f 22 6)); done.
Qed.

(** A card behind which the gateway answers every request at once passes the
    test. *)
Theorem test_passes (good : N -> Prop) c :
  good c -> nic_present c = true -> (0 < fuel)%nat ->
  (forall c0, good c0 -> exists c1 n f c2, nic_send (test_build_request (nic_mac c)) c0 = (0, c1) /\ nic_poll c1 = (n, f, c2) /\ 0 < n < 2 ^ 16 /\
     arp_reply_ok (nic_mac c) TEST_IP f n TEST_GW = true /\ good c2) ->
  exists t c', e1000_test c = Some (true, t, c') /\ good c'.
Proof.
  intros Hg Hp Hf Hcard. unfold e1000_test. rewrite Hp. cbn [negb]. set (my := nic_mac c) in *.
  assert (forall k t c0, good c0 -> 0 <= arp_ok_count t -> arp_ok_count t + Z.of_nat k < 2 ^ 32 -> arp_fail_count t = 0 ->
    exists t' c', test_loop k my t c0 = Some (t', c') /\ good c' /\ arp_ok_count t' = arp_ok_count t + Z.of_nat k /\ arp_fail_count t' = 0) as Hl.
  { induction k as [|k IH]; intros t c0 H0 H1 H2 H3; cbn [test_loop]; [exists t, c0; split_and!; [done|done|lia|done]|].
    destruct (Hcard c0 H0) as (c1 & n & f & c2 & E1 & E2 & Hn & Hr & H4). unfold arp_send_one. rewrite E1. change (0 =? 0) with true. cbn [negb].
    destruct fuel as [|fl]; [lia|]. cbn [arp_collect_reply]. change (0 <? ARP_REPLY_WAIT_LOOPS) with true. cbv iota. rewrite E2.
    rewrite (proj2 (Z.ltb_lt 0 n)), u16_small by lia. rewrite (proj1 (test_agrees_with_stack my f n)), Hr. cbn [arp_fail_count]. rewrite H3.
    change (negb (0 =? 0)) with false. cbv iota. rewrite u32_small by lia.
    destruct (IH (mkTally (u16 (arp_tx_id t + 1)) (u16 (arp_rx_id t + 1)) (arp_ok_count t + 1) 0) c2 H4) as (t' & c' & E & G & O' & F); cbn [arp_ok_count arp_fail_count]; [lia|lia|done|].
    exists t', c'. cbn [arp_ok_count] in O'. split_and!; [done|done|lia|done]. }
  destruct (Hl (Z.to_nat E1000_TEST_EXCHANGES) (mkTally 0 0 0 0) c Hg) as (t & c' & E & G & O' & F); [done|by vm_compute|done|]. rewrite E.
  exists t, c'. cbn [arp_ok_count] in O'. rewrite O', F. by split.
Qed.
End Test.

(** ** A card with an attentive gateway *)

Definition demo_reply : list Z :=
  [2; 0; 0; 0; 0; 1] ++ [82; 85; 10; 0; 2; 2] ++ [8; 6; 0; 1; 8; 0; 6; 4; 0; 2] ++ [82; 85; 10; 0; 2; 2] ++ [10; 0; 2; 2] ++ [2; 0; 0; 0; 0; 1] ++ [10; 0; 2; 15] ++ replicate 18 0.
#[local] Instance gateway_nic : Nic bool := {
  nic_present c := true;
  nic_mac c := [2; 0; 0; 0; 0; 1];
  nic_send f c := (0, true);
  nic_poll c := if c : bool then (60, demo_reply, false) else (0, [], false);
}.
Lemma test_passes_witness : exists t c', e1000_test 1 false = Some (true, t, c') /\ True.
Proof.
  apply (test_passes 1 (fun _ => True) false); [done|done|lia|]. intros c0 _. exists true, 60, demo_reply, false. split_and!; [done|done|lia|lia|by vm_compute|done].
Defined.
