(* ===== verification/Uhci.v ===== *)
(** * The USB controller driver (kernel/src/drivers/usb/uhci.c)

    One queue head for endpoint 0 and one for the keyboard's interrupt
    endpoint, each with one transfer descriptor, in memory shared with the
    controller.  The registers are ports.  Interrupts that arrive while a
    transfer is polled only set and clear a hint nothing else reads.
    Messages are left out, but not the registers they read. *)
From S2P Require Import Prelude Mem FrameAlloc Pmm Task Sched Pmap Libk Kbd Ports Pci Dma.

Definition REG_USBCMD : Z := 0x00.
Definition REG_USBSTS : Z := 0x02.
Definition REG_USBINTR : Z := 0x04.
Definition REG_FRNUM : Z := 0x06.
Definition REG_FRBASEADD : Z := 0x08.
Definition REG_PORTSC1 : Z := 0x0C.
Definition REG_PORTSC2 : Z := 0x10.
Definition CMD_RUN : Z := 0x0001.
Definition CMD_HCRESET : Z := 0x0002.
Definition CMD_CF : Z := 0x0040.
Definition STS_USBINT : Z := 0x0001.
Definition STS_USBERR : Z := 0x0002.
Definition STS_HCHALTED : Z := 0x0020.
Definition INTR_TI : Z := 0x0001.
Definition INTR_IOCE : Z := Z.shiftl 1 2.
Definition PORT_CCS : Z := 0x0001.
Definition PORT_PR : Z := 0x0100.
Definition PORT_EN : Z := 0x0004.
Definition TD_TERMINATED : Z := 1.
Definition TD_QH : Z := 2.
Definition CTRL_ACTIVE : Z := Z.shiftl 1 23.
Definition KBD_ADDR : Z := 1.
Definition KBD_EP : Z := 1.
Definition CTRL_STALLED : Z := Z.shiftl 1 22.
Definition CTRL_BABBLE : Z := Z.shiftl 1 20.
Definition CTRL_CRCTIMEO : Z := Z.shiftl 1 18.
Definition CTRL_ERRORS : Z := Z.lor (Z.lor CTRL_STALLED CTRL_BABBLE) CTRL_CRCTIMEO.

(** Offsets in [struct uhci_qh] and [struct uhci_td]. *)
Definition qh_link : Z := 0.
Definition qh_element : Z := 4.
Definition td_link : Z := 0.
Definition td_control : Z := 4.
Definition td_token : Z := 8.
Definition td_buffer : Z := 12.

Definition MAXLEN (n : Z) : Z := Z.land n 0x7FF.
Definition IOC : Z := Z.shiftl 1 24.
Definition ERRCNT3 : Z := Z.shiftl 3 27.
Definition TOKEN (pid addr ep toggle maxlen : Z) : Z :=
  u32 (Z.lor (Z.lor (Z.lor (Z.lor pid (Z.shiftl (Z.land addr 0x7F) 8)) (Z.shiftl (Z.land ep 0xF) 15)) (Z.shiftl (Z.land toggle 1) 23))
         (Z.shiftl (Z.land (maxlen - 1) 0x7FF) 21)).

(** From usb.h. *)
Definition USB_PID_IN : Z := 0x69.
Definition USB_PID_OUT : Z := 0xE1.
Definition USB_PID_SETUP : Z := 0x2D.
Definition USB_DIR_IN : Z := 0x80.
Definition USB_TYPE_STD : Z := 0x00.
Definition USB_TYPE_CLASS : Z := 0x20.
Definition USB_RECIP_DEV : Z := 0x00.
Definition USB_RECIP_IF : Z := 0x01.
Definition USB_REQ_GET_DESCRIPTOR : Z := 0x06.
Definition USB_REQ_SET_ADDRESS : Z := 0x05.
Definition USB_REQ_SET_CONFIGURATION : Z := 0x09.
Definition USB_REQ_SET_IDLE : Z := 0x0A.
Definition USB_DT_DEVICE : Z := 0x01.
Definition USB_DT_CONFIG : Z := 0x02.
Definition USB_DT_ENDPOINT : Z := 0x05.
Definition USB_EP_IN : Z := 0x80.

(** The static variables. *)
Record uhci := mkUhci {
  uhci_io : Z;
  frame_list : Z; qh_root : Z; qh_ep0 : Z; qh_int : Z; td_ep0 : Z; td_int : Z;
  buf_setup : Z; buf_data : Z; buf_kbd : Z;
  kbd_mps : Z; kbd_ready : bool; dev_addr : Z;
  ep0_done : bool; ep0_busy : bool; kbd_busy : bool; in_progress : bool;
}.
Definition uhci_boot : uhci := mkUhci 0 0 0 0 0 0 0 0 0 0 8 false 0 false false false false.

Definition set_io (v : Z) (d : uhci) : uhci :=
  mkUhci v (frame_list d) (qh_root d) (qh_ep0 d) (qh_int d) (td_ep0 d) (td_int d) (buf_setup d) (buf_data d) (buf_kbd d)
    (kbd_mps d) (kbd_ready d) (dev_addr d) (ep0_done d) (ep0_busy d) (kbd_busy d) (in_progress d).
Definition set_pages (f r e0 i t0 ti bs bd bk : Z) (d : uhci) : uhci :=
  mkUhci (uhci_io d) f r e0 i t0 ti bs bd bk (kbd_mps d) (kbd_ready d) (dev_addr d) (ep0_done d) (ep0_busy d) (kbd_busy d) (in_progress d).
Definition set_vars (mps : Z) (ready : bool) (addr : Z) (e_done e_busy k_busy prog : bool) (d : uhci) : uhci :=
  mkUhci (uhci_io d) (frame_list d) (qh_root d) (qh_ep0 d) (qh_int d) (td_ep0 d) (td_int d) (buf_setup d) (buf_data d) (buf_kbd d)
    mps ready addr e_done e_busy k_busy prog.
Definition set_mps (v : Z) (d : uhci) : uhci := set_vars v (kbd_ready d) (dev_addr d) (ep0_done d) (ep0_busy d) (kbd_busy d) (in_progress d) d.
Definition set_addr (v : Z) (d : uhci) : uhci := set_vars (kbd_mps d) (kbd_ready d) v (ep0_done d) (ep0_busy d) (kbd_busy d) (in_progress d) d.
Definition set_ep0 (e_done e_busy : bool) (d : uhci) : uhci := set_vars (kbd_mps d) (kbd_ready d) (dev_addr d) e_done e_busy (kbd_busy d) (in_progress d) d.
Definition set_kbd (ready busy : bool) (d : uhci) : uhci := set_vars (kbd_mps d) ready (dev_addr d) (ep0_done d) (ep0_busy d) busy (in_progress d) d.
Definition set_progress (v : bool) (d : uhci) : uhci := set_vars (kbd_mps d) (kbd_ready d) (dev_addr d) (ep0_done d) (ep0_busy d) (kbd_busy d) v d.

(** ** Keys *)

Definition digits : list Z := bs "1234567890".
Definition syms : list Z := bs "!@#$%^&*()".

Definition hid_usage_to_ascii (usage : Z) (shift : bool) : Z :=
  if (0x04 <=? usage) && (usage <=? 0x1D) then
    let c := 97 + (usage - 0x04) in if shift then c - 32 else c
  else if (0x1E <=? usage) && (usage <=? 0x27) then znth 0 (if shift then syms else digits) (usage - 0x1E)
  else match usage with
  | 0x28 => 10
  | 0x29 => 0
  | 0x2A => 8
  | 0x2B => 9
  | 0x2C => 32
  | 0x2D => if shift then 95 else 45
  | 0x2E => if shift then 43 else 61
  | 0x2F => if shift then 123 else 91
  | 0x30 => if shift then 125 else 93
  | 0x31 => if shift then 124 else 92
  | 0x33 => if shift then 58 else 59
  | 0x34 => if shift then 34 else 39
  | 0x35 => if shift then 126 else 96
  | 0x36 => if shift then 60 else 44
  | 0x37 => if shift then 62 else 46
  | 0x38 => if shift then 63 else 47
  | _ => 0
  end.

(** The report: the modifiers, a reserved byte, six keys. *)
Definition kbd_report (r : list Z) (kb : kbd) : kbd :=
  let shift := negb (Z.land (znth 0 r 0) (Z.shiftl 1 1) =? 0) in
  let c := hid_usage_to_ascii (znth 0 r 2) shift in
  if c =? 0 then kb else kbd_usb_push c kb.

(** ** The configuration descriptor

    [cfg] gives its bytes; the packet size is that of the last interrupt-IN
    endpoint.  [None] would be a walk that does not end. *)
Fixpoint config_loop (fuel : nat) (cfg : Z -> Z) (len off mps : Z) : option Z :=
  if off + 2 <? len then
    match fuel with
    | O => None
    | S f =>
        let len8 := cfg off in
        if len8 <? 2 then Some mps
        else
          let mps :=
            if (cfg (off + 1) =? USB_DT_ENDPOINT) && negb (Z.land (cfg (off + 2)) USB_EP_IN =? 0) && (Z.land (cfg (off + 3)) 0x03 =? 0x03)
            then cfg (off + 4) + 256 * cfg (off + 5) else mps in
          config_loop f cfg len (u16 (off + len8)) mps
    end
  else Some mps.
Definition uhci_parse_config (cfg : Z -> Z) (len mps : Z) : option Z := config_loop (Z.to_nat len) cfg len 0 mps.

(** At most [n] turns of a loop that is left when [f] says so. *)
Fixpoint turns {S : Type} (n : positive) (f : S -> bool * S) (s : S) : bool * S :=
  match n with
  | xH => f s
  | xO p => let '(b, s) := turns p f s in if b then (true, s) else turns p f s
  | xI p => let '(b, s) := f s in if b then (true, s) else let '(b, s) := turns p f s in if b then (true, s) else turns p f s
  end.

Section Uhci.
Context {M : Type} `{DM : DmaDevice M} {P : Type} `{PT : Ports P}.
Variables (off : Z).
Implicit Types (d : uhci) (k : machine M P).

(** ** Access *)

Definition on_ports {B} (f : P -> B * P) k : B * machine M P := let '(v, p) := f (k_ports k) in (v, mkMachine (k_vm k) p (k_dev k)).
Definition r16 d (reg : Z) k : Z * machine M P := on_ports (inw (u16 (uhci_io d + reg))) k.
Definition w16 d (reg v : Z) k : machine M P := mkMachine (k_vm k) (outw (u16 (uhci_io d + reg)) v (k_ports k)) (k_dev k).
Definition w32 d (reg v : Z) k : machine M P := mkMachine (k_vm k) (outl (u16 (uhci_io d + reg)) v (k_ports k)) (k_dev k).

Definition peek32 (a : Z) k : Z * machine M P := let '(v, m) := look 4 a (k_dev k) in (v, mkMachine (k_vm k) (k_ports k) m).
Definition poke32 (a v : Z) k : machine M P := with_dev (put_mem 4 a v) k.
(** [memcpy] out of and into memory. *)
Definition get_bytes (n : nat) (a : Z) k : list Z * machine M P :=
  let m := dma (k_dev k) in (bytes_at n (ram m) a, mkMachine (k_vm k) (k_ports k) m).
Definition poke_bytes (a : Z) (l : list Z) k : machine M P := with_dev (put_bytes_mem a l) k.

Definition phys (a : Z) : Z := u32 (virt_to_phys off a).

(** The loop of [uhci_run_wait]. *)
Fixpoint run_wait_loop (n : nat) d k : machine M P :=
  match n with
  | O => (r16 d REG_USBSTS k).2
  | S n' => let '(v, k) := r16 d REG_USBSTS k in if Z.land v STS_HCHALTED =? 0 then k else run_wait_loop n' d k
  end.
Definition uhci_run_wait d k : machine M P := run_wait_loop (Z.to_nat 100000) d k.

(** ** Queues *)

Definition uhci_arm (qh td : Z) k : machine M P :=
  let '(c, k) := peek32 (td + td_control) k in
  poke32 (qh + qh_element) (phys td) (poke32 (td + td_control) (Z.lor c CTRL_ACTIVE) k).

Definition uhci_disarm (qh td : Z) k : machine M P :=
  let k := poke32 (qh + qh_element) TD_TERMINATED k in
  let '(c, k) := peek32 (td + td_control) k in
  poke32 (td + td_control) (Z.land c (Z.lxor 0xFFFFFFFF CTRL_ACTIVE)) k.

(** One look at the control word: whether the transfer is over. *)
Definition wait_turn (td : Z) k : bool * machine M P :=
  let '(cs, k) := peek32 (td + td_control) k in (Z.land cs CTRL_ACTIVE =? 0, k).
Definition uhci_wait d (td : Z) k : Z * machine M P :=
  let '(_, k) := r16 d REG_FRNUM k in
  let '(over, k) := turns 20000000 (wait_turn td) k in
  if over then (0, k)
  else
    let '(_, k) := r16 d REG_USBSTS k in
    let '(_, k) := r16 d REG_FRNUM k in
    let '(_, k) := r16 d REG_PORTSC2 k in (-1, k).

(** ** Endpoint 0 *)

(** Where the data of a phase is: bytes of a local array, or an address. *)
Inductive source := Local (l : list Z) | At (a : Z).
Definition fetch (n : nat) (s : source) k : list Z * machine M P :=
  match s with Local l => (take n l, k) | At a => get_bytes n a k end.
Definition is_null (s : source) : bool := match s with Local _ => false | At a => a =? 0 end.

Definition uhci_ep0_phase (pid maxlen toggle : Z) (data : source) (write : bool) (st : uhci * machine M P) : Z * (uhci * machine M P) :=
  let '(d, k) := st in
  let k :=
    if pid =? USB_PID_SETUP then
      let '(l, k) := fetch 8 data k in poke32 (td_ep0 d + td_buffer) (phys (buf_setup d)) (poke_bytes (buf_setup d) l k)
    else if write && (0 <? maxlen) && negb (is_null data) then
      let '(l, k) := fetch (Z.to_nat maxlen) data k in poke32 (td_ep0 d + td_buffer) (phys (buf_data d)) (poke_bytes (buf_data d) l k)
    else poke32 (td_ep0 d + td_buffer) (phys (buf_data d)) k in
  let k := poke32 (td_ep0 d + td_token) (TOKEN pid (dev_addr d) 0 toggle maxlen) k in
  let k := poke32 (td_ep0 d + td_control) (Z.lor (Z.lor (MAXLEN maxlen) IOC) ERRCNT3) k in
  let d := set_ep0 false true d in
  let k := uhci_arm (qh_ep0 d) (td_ep0 d) k in
  let '(r, k) := uhci_wait d (td_ep0 d) k in
  let '(tc, k) := peek32 (td_ep0 d + td_control) k in
  let r := if (r =? 0) && negb (Z.land tc CTRL_ERRORS =? 0) then -1 else r in
  let k := uhci_disarm (qh_ep0 d) (td_ep0 d) k in
  (r, (set_ep0 false false d, k)).

Definition uhci_ctrl (setup : list Z) (data len : Z) (dir_in : bool) (st : uhci * machine M P) : Z * (uhci * machine M P) :=
  let '(r, st) := uhci_ep0_phase USB_PID_SETUP 8 0 (Local setup) true st in
  if negb (r =? 0) then (-1, st)
  else
    let '(r, st) :=
      if 0 <? len then
        let '(r, (d, k)) := uhci_ep0_phase (if dir_in then USB_PID_IN else USB_PID_OUT) len 1 (At data) (negb dir_in) st in
        if (r =? 0) && dir_in then let '(l, k) := get_bytes (Z.to_nat len) (buf_data d) k in (r, (d, poke_bytes data l k)) else (r, (d, k))
      else (0, st) in
    if negb (r =? 0) then (-1, st)
    else
      let '(r, st) := uhci_ep0_phase (if dir_in then USB_PID_OUT else USB_PID_IN) 1 0 (At 0) false st in
      (if r =? 0 then 0 else -1, st).

(** A request that is only made while everything went well. *)
Definition and_then (r : Z) (f : uhci * machine M P -> Z * (uhci * machine M P)) (st : uhci * machine M P) : Z * (uhci * machine M P) :=
  if r =? 0 then f st else (r, st).

Definition get_descriptor (ty len : Z) (st : uhci * machine M P) : Z * (uhci * machine M P) :=
  uhci_ctrl [Z.lor (Z.lor USB_DIR_IN USB_TYPE_STD) USB_RECIP_DEV; USB_REQ_GET_DESCRIPTOR; 0x00; ty; 0; 0; u8 len; u8 (Z.shiftr len 8)]
    (buf_data st.1) len true st.

Definition uhci_boot_setup (st : uhci * machine M P) : Z * (uhci * machine M P) :=
  let '(d, k) := st in
  let '(r, st) := get_descriptor USB_DT_DEVICE 8 (set_addr 0 d, k) in
  let '(r, st) := and_then r (uhci_ctrl [Z.lor USB_TYPE_STD USB_RECIP_DEV; USB_REQ_SET_ADDRESS; 1; 0; 0; 0; 0; 0] 0 0 false) st in
  let st := if r =? 0 then (set_addr KBD_ADDR st.1, st.2) else st in
  let '(r, st) := and_then r (get_descriptor USB_DT_DEVICE 18) st in
  let '(r, st) := and_then r (get_descriptor USB_DT_CONFIG 9) st in
  let '(r, st) := and_then r (fun '(d, k) =>
    let '(l, k) := get_bytes 2 (buf_data d + 2) k in
    get_descriptor USB_DT_CONFIG (Z.lor (znth 0 l 0) (Z.shiftl (znth 0 l 1) 8)) (d, k)) st in
  let '(r, st) := and_then r (uhci_ctrl [Z.lor USB_TYPE_STD USB_RECIP_DEV; USB_REQ_SET_CONFIGURATION; 1; 0; 0; 0; 0; 0] 0 0 false) st in
  and_then r (uhci_ctrl [Z.lor USB_TYPE_CLASS USB_RECIP_IF; USB_REQ_SET_IDLE; 0; 0; 0; 0; 0; 0] 0 0 false) st.

(** The descriptor of the interrupt endpoint is filled in and armed. *)
Definition int_arm d k : machine M P :=
  let k := poke32 (td_int d + td_token) (TOKEN USB_PID_IN (dev_addr d) KBD_EP 0 (kbd_mps d)) k in
  let k := poke32 (td_int d + td_control) (Z.lor (Z.lor (MAXLEN (kbd_mps d)) IOC) ERRCNT3) k in
  let k := poke32 (td_int d + td_buffer) (phys (buf_kbd d)) k in
  uhci_arm (qh_int d) (td_int d) k.

(** ** Interrupts *)

Definition uhci_reenumerate (st : uhci * machine M P) : uhci * machine M P :=
  let '(d, k) := st in
  if in_progress d then (d, k)
  else
    let d := set_kbd false false (set_progress true d) in
    let k := uhci_disarm (qh_int d) (td_int d) k in
    let '(r, (d, k)) := uhci_boot_setup (d, k) in
    let '(d, k) := if r =? 0 then (set_kbd true true d, int_arm d k) else (d, k) in
    (set_progress false d, k).

Definition uhci_process_kbd (st : uhci * machine M P * kbd) : uhci * machine M P * kbd :=
  let '(d, k, kb) := st in
  let '(tc, k) := peek32 (td_int d + td_control) k in
  if negb (Z.land tc CTRL_ERRORS =? 0) then (uhci_reenumerate (d, k), kb)
  else
    let '(r, k) := get_bytes 8 (buf_kbd d) k in
    (d, uhci_arm (qh_int d) (td_int d) k, kbd_report r kb).

Definition uhci_irq_handler (st : uhci * machine M P * kbd) : uhci * machine M P * kbd :=
  let '(d, k, kb) := st in
  let '(sts, k) := r16 d REG_USBSTS k in
  if sts =? 0 then (d, k, kb)
  else
    let k := w16 d REG_USBSTS sts k in
    if Z.land sts (Z.lor STS_USBINT STS_USBERR) =? 0 then (d, k, kb)
    else
      let '(d, k) :=
        if ep0_busy d then
          let '(c, k) := peek32 (td_ep0 d + td_control) k in
          (if Z.land c CTRL_ACTIVE =? 0 then set_ep0 true (ep0_busy d) d else d, k)
        else (d, k) in
      if kbd_busy d then
        let '(c, k) := peek32 (td_int d + td_control) k in
        if Z.land c CTRL_ACTIVE =? 0 then uhci_process_kbd (d, k, kb) else (d, k, kb)
      else (d, k, kb).
(** ** Start *)

(** [n] calls of [pmm_alloc_dma(1)], in order. *)
Fixpoint alloc_pages (n : nat) k : list Z * machine M P :=
  match n with
  | O => ([], k)
  | S n' => let '(p, k) := alloc_dma off 1 k in let '(l, k) := alloc_pages n' k in (p :: l, k)
  end.

Definition find_iobar (pc : pci_device) : option Z :=
  List.find (fun b => negb (znth false (mmio pc) b) && negb (znth 0 (bar pc) b =? 0) && negb (znth 0 (bar pc) b =? 0xFFFFFFFF)) (map Z.of_nat (seq 0 6)).

(** The loop waits for ever when the reset never ends: [None] without fuel. *)
Fixpoint wait_reset (fuel : nat) d k : option (machine M P) :=
  match fuel with
  | O => None
  | S f => let '(v, k) := r16 d REG_USBCMD k in if Z.land v CMD_HCRESET =? 0 then Some k else wait_reset f d k
  end.

(** The schedule: every frame starts at the root queue, whose links go round. *)
Definition build_schedule d k : machine M P :=
  let k := clear_mem (frame_list d) PAGE_SIZE k in
  let k := clear_mem (qh_root d) PAGE_SIZE k in
  let k := clear_mem (qh_ep0 d) PAGE_SIZE k in
  let k := clear_mem (qh_int d) PAGE_SIZE k in
  let k := clear_mem (td_ep0 d) PAGE_SIZE k in
  let k := clear_mem (td_int d) PAGE_SIZE k in
  let k := clear_mem (buf_setup d) PAGE_SIZE k in
  let k := clear_mem (buf_data d) PAGE_SIZE k in
  let k := clear_mem (buf_kbd d) PAGE_SIZE k in
  let k := poke32 (td_ep0 d + td_link) TD_TERMINATED k in
  let k := poke32 (td_int d + td_link) TD_TERMINATED k in
  let k := poke32 (qh_root d + qh_element) TD_TERMINATED k in
  let k := poke32 (qh_root d + qh_link) (Z.lor (phys (qh_ep0 d)) TD_QH) k in
  let k := poke32 (qh_ep0 d + qh_element) TD_TERMINATED k in
  let k := poke32 (qh_ep0 d + qh_link) (Z.lor (phys (qh_int d)) TD_QH) k in
  let k := poke32 (qh_int d + qh_element) TD_TERMINATED k in
  let k := poke32 (qh_int d + qh_link) (Z.lor (phys (qh_root d)) TD_QH) k in
  for_range 1024 0 (fun i => poke32 (frame_list d + 4 * i) (Z.lor (phys (qh_root d)) TD_QH)) k.

(** The controller is told where the schedule is and started. *)
Definition uhci_start d k : machine M P :=
  let k := w32 d REG_FRBASEADD (phys (frame_list d)) k in
  let k := w16 d REG_USBCMD (Z.lor CMD_RUN CMD_CF) k in
  let k := uhci_run_wait d k in
  let k := w16 d REG_USBINTR (Z.lor INTR_TI INTR_IOCE) k in
  (r16 d REG_FRNUM k).2.

Definition read_ports d k : Z * Z * machine M P :=
  let '(p1, k) := r16 d REG_PORTSC1 k in let '(p2, k) := r16 d REG_PORTSC2 k in (p1, p2, k).
Definition connected (p : Z) : bool := negb (Z.land p PORT_CCS =? 0).

(** At most [n] more looks at the ports while nothing is connected. *)
Fixpoint wait_device (n : nat) d (p1 p2 : Z) k : Z * Z * machine M P :=
  match n with
  | O => (p1, p2, k)
  | S n' =>
      let '(p1, p2, k) := read_ports d k in
      if connected p1 || connected p2 then (p1, p2, k) else wait_device n' d p1 p2 k
  end.

Fixpoint wait_port_reset (n : nat) d (port_reg : Z) k : machine M P :=
  match n with
  | O => k
  | S n' => let '(v, k) := r16 d port_reg k in if Z.land v PORT_PR =? 0 then k else wait_port_reset n' d port_reg k
  end.

(** Whether a device answers on a port once that is reset and enabled. *)
Definition port_up d k : bool * machine M P :=
  let '(p1, p2, k) := read_ports d k in
  let '(p1, p2, k) := if negb (connected p1) && negb (connected p2) then wait_device 4000 d p1 p2 k else (p1, p2, k) in
  if negb (connected p1) && negb (connected p2) then (false, k)
  else
    let port_reg := if connected p1 then REG_PORTSC1 else REG_PORTSC2 in
    let '(v, k) := r16 d port_reg k in
    let k := w16 d port_reg (Z.lor v PORT_PR) k in
    let k := wait_port_reset (Z.to_nat 50000) d port_reg k in
    let '(v, k) := r16 d port_reg k in
    let k := w16 d port_reg (Z.lor v PORT_EN) k in
    let '(p1, p2, k) := read_ports d k in
    (connected p1 || connected p2, k).

(** What is left once the keyboard answers on endpoint 0. *)
Definition uhci_attach (st : uhci * machine M P) : option (uhci * machine M P) :=
  let '(d, k) := st in
  let '(cfg, k) := get_bytes 0x100 (buf_data d) k in
  match uhci_parse_config (znth 0 cfg) 0x80 (kbd_mps d) with
  | None => None
  | Some mps =>
      let '(_, (d, k)) := get_descriptor USB_DT_DEVICE 18 (set_mps mps d, k) in
      Some (set_kbd true true d, int_arm d k)
  end.

(** From the reset to the queued keyboard descriptor, once the pages are
    there.  The result, the interrupt line [uhci_irq_handler] is registered
    for, and the state; [None] when a wait does not end. *)
Definition uhci_bring_up (fuel : nat) (pc : pci_device) d k : option (Z * option Z * (uhci * machine M P)) :=
  match wait_reset fuel d (w16 d REG_USBCMD CMD_HCRESET k) with
  | None => None
  | Some k =>
      let k := uhci_start d (build_schedule d k) in
      let '(up, k) := port_up d k in
      if negb up then Some (-1, None, (d, k))
      else
        let '(r, st) := uhci_boot_setup (d, k) in
        if negb (r =? 0) then Some (-1, Some (irq_line pc), st)
        else match uhci_attach st with None => None | Some st => Some (0, Some (irq_line pc), st) end
  end.

Definition uhci_init (fuel : nat) (devices : list pci_device) (st : uhci * machine M P) : option (Z * option Z * (uhci * machine M P)) :=
  let '(d, k) := st in
  match pci_find_device 0x0C 0x03 devices with
  | None => Some (-1, None, (d, k))
  | Some pc =>
      match find_iobar pc with
      | None => Some (-1, None, (d, k))
      | Some iobar =>
          let d := set_io (u16 (Z.land (znth 0 (bar pc) iobar) 0xFFFC)) d in
          let '(cmd, k) := on_ports (pci_config_read32 (p_bus pc) (p_dev pc) (p_func pc) 0x04) k in
          let k := mkMachine (k_vm k) (pci_config_write32 (p_bus pc) (p_dev pc) (p_func pc) 0x04 (Z.lor cmd 0x3) (k_ports k)) (k_dev k) in
          let '(l, k) := alloc_pages 9 k in
          let pg := znth 0 l in
          let d := set_pages (pg 0) (pg 1) (pg 2) (pg 3) (pg 4) (pg 5) (pg 6) (pg 7) (pg 8) d in
          if existsb (fun p => p =? 0) l then Some (-1, None, (d, k)) else uhci_bring_up fuel pc d k
      end
  end.
End Uhci.

(** * Facts *)

(** [turns] is a loop with a counter. *)
Fixpoint turns_nat {S : Type} (n : nat) (f : S -> bool * S) (s : S) : bool * S :=
  match n with O => (false, s) | S n' => let '(b, s) := f s in if b then (true, s) else turns_nat n' f s end.

Lemma turns_nat_app {S : Type} n m (f : S -> bool * S) s : turns_nat (n + m) f s = let '(b, s) := turns_nat n f s in if b then (true, s) else turns_nat m f s.
Proof. revert s. induction n as [|n IH]; intros s; [done|]. cbn. destruct (f s) as [[] s']; [done|]. apply IH. Qed.

Lemma turns_loop {S : Type} n (f : S -> bool * S) s : turns n f s = turns_nat (Pos.to_nat n) f s.
Proof.
  revert s. induction n as [p IH|p IH|]; intros s; cbn [turns].
  - replace (Pos.to_nat p~1) with (1 + (Pos.to_nat p + Pos.to_nat p))%nat by lia. rewrite turns_nat_app. cbn [turns_nat]. destruct (f s) as [[] s1]; [done|]. rewrite turns_nat_app, IH. destruct (turns_nat _ f s1) as [[] s2]; [done|]. apply IH.
  - replace (Pos.to_nat p~0) with (Pos.to_nat p + Pos.to_nat p)%nat by lia. rewrite turns_nat_app, IH. destruct (turns_nat _ f s) as [[] s1]; [done|]. apply IH.
  - change (Pos.to_nat 1) with 1%nat. cbn [turns_nat]. by destruct (f s) as [[] s1].
Qed.

(** The walk over a descriptor of at most 65000 bytes ends. *)
Lemma parse_loop_ends fuel : forall cfg len off mps,
  0 <= off -> len <= 65000 -> len - off <= Z.of_nat fuel + 2 -> (forall i, 0 <= cfg i < 256) -> exists v, config_loop fuel cfg len off mps = Some v.
Proof.
  induction fuel as [|f IH]; intros cfg len off mps Ho Hl Hf Hc; cbn [config_loop]; destruct (Z.ltb_spec (off + 2) len); [lia|by eexists| |by eexists].
  destruct (Z.ltb_spec (cfg off) 2); [by eexists|]. specialize (Hc off) as Hr. assert (u16 (off + cfg off) = off + cfg off) as -> by (apply Z.mod_small; lia).
  apply IH; [lia..|done].
Qed.

Lemma parse_config_ends cfg len mps : 0 <= len <= 65000 -> (forall i, 0 <= cfg i < 256) -> exists v, uhci_parse_config cfg len mps = Some v.
Proof. intros Hl Hc. apply parse_loop_ends; [done|lia|lia|done]. Qed.

(** What a key gives is a character a terminal can show, a line end, a tab, a
    backspace, or nothing. *)
Lemma hid_chars u sh : 0 <= u < 256 -> let c := hid_usage_to_ascii u sh in c = 0 \/ c = 8 \/ c = 9 \/ c = 10 \/ 32 <= c <= 126.
Proof.
  intros Hu. assert (forallb (fun i => forallb (fun sh => let c := hid_usage_to_ascii (Z.of_nat i) sh in
    (c =? 0) || (c =? 8) || (c =? 9) || (c =? 10) || ((32 <=? c) && (c <=? 126))) [true; false]) (seq 0 256) = true) as H by (vm_compute; done).
  rewrite forallb_forall in H. specialize (H (Z.to_nat u)). rewrite in_seq in H. specialize (H ltac:(lia)). rewrite forallb_forall in H.
  specialize (H sh ltac:(destruct sh; cbn; auto)). rewrite Z2Nat.id in H by lia. cbv zeta in *. bool_hyps.
  repeat match goal with H : _ \/ _ |- _ => destruct H end; lia.
Qed.

(** The toggle of [TOKEN] is one of the length's bits: asking for 18 bytes
    with toggle 1 asks for 22, and the bit UHCI reads as the toggle, 19,
    stays clear. *)
Lemma token_toggle_length : Z.shiftr (TOKEN USB_PID_IN 1 0 1 18) 21 + 1 = 22 /\ Z.testbit (TOKEN USB_PID_IN 1 0 1 18) 19 = false.
Proof. done. Qed.
