(* ===== verification/UhciSpec.v ===== *)
(** * The USB controller stays inside the driver's pages

    The controller follows pointers in memory and writes where they lead.
    [hc_step] is what the UHCI specification lets it do at any moment; the
    driver, whatever the device answers, keeps the schedule such that no
    step leaves the nine pages. *)
From S2P Require Import Prelude Mem FrameAlloc Pmm Task Sched Pmap Libk Kbd Ports Pci Dma DmaSpec Uhci.

(** ** The controller

    A link names a queue head (bit 1) or a transfer descriptor, unless its
    bit 0 is set.  [visits] are the structures the controller gets to from
    the frame list at [fl]. *)
Section Controller.
Variables (off fl : Z).

Definition follows (l : Z) (qh : bool) (a : Z) : Prop := Z.testbit l 0 = false /\ qh = Z.testbit l 1 /\ a = 16 * (l / 16) + off.

Inductive visits (m : mem) : bool -> Z -> Prop :=
  | v_frame i b a : 0 <= i < 1024 -> follows (load 4 m (fl + 4 * i)) b a -> visits m b a
  | v_horizontal q b a : visits m true q -> follows (load 4 m (q + qh_link)) b a -> visits m b a
  | v_element q b a : visits m true q -> follows (load 4 m (q + qh_element)) b a -> visits m b a
  | v_next t b a : visits m false t -> follows (load 4 m (t + td_link)) b a -> visits m b a.

Definition active_td (m : mem) (t : Z) : Prop := Z.testbit (load 4 m (t + td_control)) 23 = true.

(** A step: the status of an active descriptor changes; a queue goes on to
    the next descriptor; data of an IN transfer arrives, at most as many
    bytes as the token's length field, plus one modulo 2048, says. *)
Inductive hc_step (m : mem) : mem -> Prop :=
  | hc_status t c : visits m false t -> active_td m t -> hc_step m (store 4 m (t + td_control) c)
  | hc_advance q t : visits m true q -> follows (load 4 m (q + qh_element)) false t -> hc_step m (store 4 m (q + qh_element) (load 4 m (t + td_link)))
  | hc_data t l : visits m false t -> active_td m t -> load 4 m (t + td_token) mod 256 = USB_PID_IN ->
      zlen l <= (Z.shiftr (load 4 m (t + td_token)) 21 + 1) mod 2048 -> hc_step m (write_bytes m (load 4 m (t + td_buffer) + off) l).
End Controller.

(** ** The pages *)

Definition pages_of (d : uhci) : list Z := [frame_list d; qh_root d; qh_ep0 d; qh_int d; td_ep0 d; td_int d; buf_setup d; buf_data d; buf_kbd d].

(** Page [i] of the pages [g]. *)
Definition pg (g : list Z) (i : Z) : Z := znth 0 g i.

Definition page_ix (i : Z) : Prop := 0 <= i < 9.

Definition inside (g : list Z) (x : Z) : Prop := exists i, page_ix i /\ pg g i <= x < pg g i + 4096.

(** Nine distinct frames below 4 GiB. *)
Record pages_ok (off : Z) (g : list Z) : Prop := {
  po_frame : forall i, page_ix i -> exists f, 0 <= f < 2 ^ 20 /\ pg g i = 4096 * f + off;
  po_apart : forall i j, page_ix i -> page_ix j -> i <> j -> apart (pg g i) 4096 (pg g j) 4096;
}.

(** Word [o] of page [i]. *)
Definition cell (g : list Z) (m : mem) (i o : Z) : Z := load 4 m (pg g i + o).
Definition word_at (o : Z) : Prop := 0 <= o < 4096 /\ o mod 4 = 0.

Section Pages.
Variables (off : Z).
Hypothesis Hoff : 0 < off /\ off + 2 ^ 32 <= 2 ^ 64.
Context (g : list Z) (Hd : pages_ok off g).

Definition ph (i : Z) : Z := phys off (pg g i).

Lemma pg_apart i j a n b k : page_ix i -> page_ix j -> i <> j ->
  pg g i <= a -> a + n <= pg g i + 4096 -> pg g j <= b -> b + k <= pg g j + 4096 -> apart a n b k.
Proof. intros Hi Hj Hne. pose proof (po_apart _ _ Hd i j Hi Hj Hne). unfold apart in *. lia. Qed.

Lemma ph_eq i : page_ix i -> ph i = pg g i - off /\ 0 <= ph i < 2 ^ 32 /\ ph i mod 4096 = 0.
Proof.
  intros Hi. destruct (po_frame _ _ Hd i Hi) as (f & Hf & E). unfold ph, phys, virt_to_phys. rewrite E.
  rewrite (u64_small (4096 * f + off - off)) by lia. rewrite u32_small by lia. split; [lia|]. split; [lia|].
  replace (4096 * f + off - off) with (f * 4096) by lia. by rewrite Z.mod_mul.
Qed.

Lemma cell_store_same m i o v : cell g (store 4 m (pg g i + o) v) i o = v mod 2 ^ 32.
Proof. exact (load_store_same 4 m _ v). Qed.

Lemma cell_store_other m i o j o' v : page_ix i -> page_ix j -> word_at o -> word_at o' -> i <> j \/ o <> o' ->
  cell g (store 4 m (pg g j + o') v) i o = cell g m i o.
Proof.
  intros Hi Hj Ho Ho' Hne. apply load_store_other. unfold word_at in *. destruct (decide (i = j)) as [->|Hij].
  - unfold apart. assert (o + 4 <= o' \/ o' + 4 <= o) by (destruct Hne; [done|]; lia). lia.
  - apply (pg_apart i j); try done; lia.
Qed.

Lemma cell_write_other m i o j l a : page_ix i -> page_ix j -> word_at o -> i <> j -> pg g j <= a -> a + zlen l <= pg g j + 4096 ->
  cell g (write_bytes m a l) i o = cell g m i o.
Proof.
  intros Hi Hj Ho Hij Ha Hl. unfold word_at in Ho. apply (load_agree 4 m _ (pg g i + o) _ 4); [|lia|lia]. apply agree_write. apply (pg_apart i j); try done; lia.
Qed.

(** ** The schedule *)

Record ring_ok (m : mem) : Prop := {
  rg_frames : forall i, 0 <= i < 1024 -> cell g m 0 (4 * i) = ph 1 + 2;
  rg_root : cell g m 1 0 = ph 2 + 2 /\ cell g m 1 4 = 1;
  rg_ep0 : cell g m 2 0 = ph 3 + 2 /\ (cell g m 2 4 = 1 \/ cell g m 2 4 = ph 4);
  rg_int : cell g m 3 0 = ph 1 + 2 /\ (cell g m 3 4 = 1 \/ cell g m 3 4 = ph 5);
  rg_next : cell g m 4 0 = 1 /\ cell g m 5 0 = 1;
  rg_buf0 : cell g m 2 4 = ph 4 -> cell g m 4 12 = ph 6 \/ cell g m 4 12 = ph 7;
  rg_bufi : cell g m 3 4 = ph 5 -> cell g m 5 12 = ph 8;
}.

(** Outside the pages nothing changed. *)
Definition same_out (m m' : mem) : Prop := forall x, ~ inside g x -> load8 m' x = load8 m x.

(** The descriptors name their buffers. *)
Definition has_buf0 (m : mem) : Prop := cell g m 4 12 = ph 6 \/ cell g m 4 12 = ph 7.
Definition has_bufi (m : mem) : Prop := cell g m 5 12 = ph 8.

(** A change that stays inside and keeps the schedule. *)
Record tame (m m' : mem) : Prop := {
  tm_ring : ring_ok m -> ring_ok m';
  tm_buf0 : has_buf0 m -> has_buf0 m';
  tm_bufi : has_bufi m -> has_bufi m';
  tm_out : same_out m m';
}.

#[export] Instance tame_preorder : PreOrder tame.
Proof.
  split; [intros m; by split|]. intros a b c [H1 H2 H3 H4] [G1 G2 G3 G4]. split; [auto..|]. intros x Hx. by rewrite G4, H4.
Qed.

Lemma same_out_store m i o v : page_ix i -> word_at o -> same_out m (store 4 m (pg g i + o) v).
Proof.
  intros Hi Ho x Hx. unfold load8. rewrite store_other; [done|]. unfold word_at in Ho. destruct (decide (pg g i + o <= x < pg g i + o + 4)); [|lia].
  exfalso. apply Hx. exists i. split; [done|]. lia.
Qed.

Lemma same_out_write m i a l : page_ix i -> pg g i <= a -> a + zlen l <= pg g i + 4096 -> same_out m (write_bytes m a l).
Proof.
  intros Hi Ha Hl x Hx. unfold load8. rewrite write_bytes_other; [done|]. destruct (decide (a <= x < a + zlen l)); [|lia].
  exfalso. apply Hx. exists i. split; [done|]. lia.
Qed.

(** Two memories that agree on every byte are alike. *)
Lemma tame_ext m m' : (forall x, load8 m' x = load8 m x) -> tame m m'.
Proof.
  intros H. assert (forall i o, cell g m' i o = cell g m i o) as Hc by (intros i o; apply load_ext; intros x _; exact (H x)).
  split; unfold has_buf0, has_bufi; rewrite ?Hc; try done; [|intros x _; apply H].
  intros []. split; rewrite ?Hc; try done. intros i Hi. rewrite Hc. auto.
Qed.

(** The words of the transfer descriptors the schedule does not depend on. *)
Definition loose (j o : Z) : Prop := (j = 4 \/ j = 5) /\ (o = 4 \/ o = 8).

Ltac cells := repeat match goal with |- context [cell g (store 4 ?m (pg g ?j + ?p) ?v) ?i ?o] =>
  rewrite (cell_store_other m i o j p v) by (first [done | unfold page_ix; lia | unfold word_at; split; lia | lia]) end.

Lemma tame_loose m j o v : loose j o -> tame m (store 4 m (pg g j + o) v).
Proof.
  intros [Hj Ho]. assert (page_ix j) as Hp by (unfold page_ix; lia). assert (word_at o) as Hw by (unfold word_at; split; destruct Ho; subst; done).
  split; unfold has_buf0, has_bufi; [|by cells..|by apply same_out_store].
  intros []. split; [intros i Hi| | | | | |]; cells; auto.
Qed.

Lemma tame_buffer0 m b : b = 6 \/ b = 7 -> tame m (store 4 m (pg g 4 + 12) (ph b)) /\ has_buf0 (store 4 m (pg g 4 + 12) (ph b)).
Proof.
  intros Hb. assert (page_ix b) as Hpb by (unfold page_ix; lia). destruct (ph_eq b Hpb) as (_ & Hr & _).
  assert (has_buf0 (store 4 m (pg g 4 + 12) (ph b))) as Hbuf by (unfold has_buf0; rewrite cell_store_same, Z.mod_small by done; destruct Hb; subst; auto).
  split; [|exact Hbuf]. split; [|done|unfold has_bufi; by cells|apply same_out_store; [unfold page_ix; lia|by split]].
  intros []. split; [intros i Hi| | | | |by intros _|]; cells; auto.
Qed.

Lemma tame_bufferi m : tame m (store 4 m (pg g 5 + 12) (ph 8)) /\ has_bufi (store 4 m (pg g 5 + 12) (ph 8)).
Proof.
  destruct (ph_eq 8 ltac:(unfold page_ix; lia)) as (_ & Hr & _).
  assert (has_bufi (store 4 m (pg g 5 + 12) (ph 8))) as Hbuf by (unfold has_bufi; by rewrite cell_store_same, Z.mod_small).
  split; [|exact Hbuf]. split; [|unfold has_buf0; by cells|done|apply same_out_store; [unfold page_ix; lia|by split]].
  intros []. split; [intros i Hi| | | | | |by intros _]; cells; auto.
Qed.

(** A queue's element word: nothing, or its own descriptor with a buffer. *)
Definition elem_ok (m : mem) (q v : Z) : Prop :=
  (v = 1 \/ (q = 2 /\ v = ph 4 /\ has_buf0 m) \/ (q = 3 /\ v = ph 5 /\ has_bufi m)) /\ (q = 2 \/ q = 3).

Lemma tame_elem m q v : elem_ok m q v -> tame m (store 4 m (pg g q + 4) v).
Proof.
  intros [Hv Hq]. assert (page_ix q) as Hp by (unfold page_ix; lia).
  destruct (ph_eq 4 ltac:(unfold page_ix; lia)) as (_ & R4 & M4). destruct (ph_eq 5 ltac:(unfold page_ix; lia)) as (_ & R5 & M5).
  assert (v mod 2 ^ 32 = v) as Hm by (apply Z.mod_small; destruct Hv as [->|[(_ & -> & _)|(_ & -> & _)]]; lia).
  split; unfold has_buf0, has_bufi; [|by cells..|apply same_out_store; [done|by split]].
  intros [F R E I N B0 BI]. destruct Hq; subst q.
  - assert (v = 1 \/ v = ph 4 /\ has_buf0 m) as Hc by (destruct Hv as [?|[(_ & ? & ?)|(? & _)]]; auto; lia). clear Hv.
    split; [intros i Hi| | | | | |]; cells; auto; rewrite cell_store_same, Hm; [split; [apply E|]; destruct Hc as [?|[? _]]; auto|].
    destruct Hc as [->|[_ Hb]]; [intros E1; rewrite <- E1 in M4; done|by intros _].
  - assert (v = 1 \/ v = ph 5 /\ has_bufi m) as Hc by (destruct Hv as [?|[(? & _)|(_ & ? & ?)]]; auto; lia). clear Hv.
    split; [intros i Hi| | | | | |]; cells; auto; rewrite cell_store_same, Hm; [split; [apply I|]; destruct Hc as [?|[? _]]; auto|].
    destruct Hc as [->|[_ Hb]]; [intros E1; rewrite <- E1 in M5; done|by intros _].
Qed.

(** Data into one of the three buffers. *)
Lemma tame_write m j a l : 6 <= j <= 8 -> pg g j <= a -> a + zlen l <= pg g j + 4096 -> tame m (write_bytes m a l).
Proof.
  intros Hj Ha Hl. assert (page_ix j) as Hp by (unfold page_ix; lia).
  assert (forall i o, 0 <= i < 6 -> word_at o -> cell g (write_bytes m a l) i o = cell g m i o) as Hc by (intros i o Hi Ho; apply (cell_write_other m i o j); unfold page_ix; lia || done).
  split; unfold has_buf0, has_bufi; [|by rewrite Hc by (lia || done)..|by apply (same_out_write m j)].
  intros []. split; rewrite ?Hc by (lia || done); try done. intros i Hi. rewrite Hc by (unfold word_at; lia). auto.
Qed.

(** ** The controller on the schedule *)

Lemma follows_qh i b a : page_ix i -> follows off (ph i + 2) b a -> b = true /\ a = pg g i.
Proof.
  intros Hi (_ & -> & ->). destruct (ph_eq i Hi) as (E & H & Hm). split; [apply Z.testbit_true; [done|]; change (2 ^ 1) with 2|]; lia.
Qed.
Lemma follows_td i b a : page_ix i -> follows off (ph i) b a -> b = false /\ a = pg g i.
Proof.
  intros Hi (_ & -> & ->). destruct (ph_eq i Hi) as (E & H & Hm). split; [apply Z.testbit_false; [done|]; change (2 ^ 1) with 2|]; lia.
Qed.
Lemma follows_end b a : ~ follows off 1 b a.
Proof. by intros (H & _ & _). Qed.

(** What the controller can peek32 to. *)
Definition visited (m : mem) (b : bool) (a : Z) : Prop :=
  if b then a = pg g 1 \/ a = pg g 2 \/ a = pg g 3
  else (a = pg g 4 /\ cell g m 2 4 = ph 4) \/ (a = pg g 5 /\ cell g m 3 4 = ph 5).

Lemma visits_ring m b a : ring_ok m -> visits off (pg g 0) m b a -> visited m b a.
Proof.
  intros [F R E I N _ _]. induction 1 as [i b a Hi Hf|q b a _ IH Hf|q b a _ IH Hf|t b a _ IH Hf].
  - rewrite (F i Hi : load 4 m (pg g 0 + 4 * i) = _) in Hf. apply follows_qh in Hf as [-> ->]; [|by unfold page_ix]. by left.
  - destruct IH as [->|[->| ->]]; unfold qh_link in Hf;
      [rewrite (proj1 R : load 4 m _ = _) in Hf|rewrite (proj1 E : load 4 m _ = _) in Hf|rewrite (proj1 I : load 4 m _ = _) in Hf];
      (apply follows_qh in Hf as [-> ->]; [|by unfold page_ix]); cbn; auto.
  - destruct IH as [->|[->| ->]]; unfold qh_element in Hf; [rewrite (proj2 R : load 4 m _ = _) in Hf; by apply follows_end in Hf| |].
    + destruct (proj2 E) as [X|X]; rewrite (X : load 4 m _ = _) in Hf; [by apply follows_end in Hf|]. apply follows_td in Hf as [-> ->]; [|by unfold page_ix]. by left.
    + destruct (proj2 I) as [X|X]; rewrite (X : load 4 m _ = _) in Hf; [by apply follows_end in Hf|]. apply follows_td in Hf as [-> ->]; [|by unfold page_ix]. by right.
  - destruct IH as [[-> _]|[-> _]]; unfold td_link in Hf; [rewrite (proj1 N : load 4 m _ = _) in Hf|rewrite (proj2 N : load 4 m _ = _) in Hf]; by apply follows_end in Hf.
Qed.

Lemma hc_step_tame m m' : ring_ok m -> hc_step off (pg g 0) m m' -> tame m m'.
Proof.
  intros Hr Hs. inversion Hs as [t c Hv Ha|q t Hv Hf|t l Hv Ha Hp Hl]; subst; pose proof (visits_ring _ _ _ Hr Hv) as Hw; unfold visited in Hw.
  - unfold td_control. destruct Hw as [[-> _]|[-> _]]; apply tame_loose; unfold loose; lia.
  - unfold qh_element, td_link in *. destruct Hw as [->|[->| ->]].
    + rewrite (proj2 (rg_root _ Hr) : load 4 m _ = _) in Hf. by apply follows_end in Hf.
    + destruct (proj2 (rg_ep0 _ Hr)) as [X|X]; rewrite (X : load 4 m _ = _) in Hf; [by apply follows_end in Hf|]. apply follows_td in Hf as [_ ->]; [|by unfold page_ix].
      rewrite (proj1 (rg_next _ Hr) : load 4 m _ = _). apply tame_elem. split; auto.
    + destruct (proj2 (rg_int _ Hr)) as [X|X]; rewrite (X : load 4 m _ = _) in Hf; [by apply follows_end in Hf|]. apply follows_td in Hf as [_ ->]; [|by unfold page_ix].
      rewrite (proj2 (rg_next _ Hr) : load 4 m _ = _). apply tame_elem. split; auto.
  - assert (zlen l <= 2048) as Hn by (pose proof (Z.mod_pos_bound (Z.shiftr (load 4 m (t + td_token)) 21 + 1) 2048 eq_refl); lia). clear Hl.
    assert (exists j, 6 <= j <= 8 /\ load 4 m (t + td_buffer) = ph j) as (j & Hj & ->).
    { unfold td_buffer. destruct Hw as [[-> X]|[-> X]]; [destruct (rg_buf0 _ Hr X) as [Y|Y]|pose proof (rg_bufi _ Hr X) as Y]; eexists; (split; [|exact Y]); lia. }
    destruct (ph_eq j ltac:(unfold page_ix; lia)) as (-> & _). apply (tame_write m j); lia.
Qed.

Lemma hc_steps_tame m m' : rtc (hc_step off (pg g 0)) m m' -> ring_ok m -> tame m m'.
Proof.
  induction 1 as [m|m1 m2 m3 H12 _ IH]; intros Hr; [done|]. pose proof (hc_step_tame _ _ Hr H12) as Ht. etrans; [exact Ht|]. apply IH, Ht, Hr.
Qed.
End Pages.

Lemma pages_eq g d : pages_of d = g -> frame_list d = pg g 0 /\ qh_root d = pg g 1 /\ qh_ep0 d = pg g 2 /\ qh_int d = pg g 3 /\ td_ep0 d = pg g 4 /\
  td_int d = pg g 5 /\ buf_setup d = pg g 6 /\ buf_data d = pg g 7 /\ buf_kbd d = pg g 8.
Proof. intros <-. done. Qed.

Lemma same_out_trans g m1 m2 m3 : same_out g m1 m2 -> same_out g m2 m3 -> same_out g m1 m3.
Proof. intros H1 H2 x Hx. by rewrite H2, H1. Qed.

(** Writing back what was read changes no byte. *)
Lemma rewrite_bytes n m0 : forall m a x, (forall y, load8 m y = load8 m0 y) -> load8 (write_bytes m a (bytes_at n m0 a)) x = load8 m0 x.
Proof.
  induction n as [|n IH]; intros m a x H; cbn [bytes_at write_bytes]; [apply H|]. apply IH. intros y. destruct (decide (a = y)) as [->|].
  - rewrite load8_store8_same. unfold load8. word_lia.
  - by rewrite load8_store8_other.
Qed.

(** ** The driver *)

Section Driver.
Context {M : Type} `{DM : DmaDevice M} {P : Type} `{PT : Ports P}.
Variables (off : Z) (g : list Z).
Hypothesis Hoff : 0 < off /\ off + 2 ^ 32 <= 2 ^ 64.
Hypothesis Hg : pages_ok off g.
Hypothesis Hram : forall x (m : M), ram (set_ram x m) = x.
Hypothesis Hdma : forall m : M, rtc (hc_step off (pg g 0)) (ram m) (ram (dma m)).
Implicit Types (d : uhci) (k : machine M P).

Definition rm k : mem := ram (k_dev k).

(** From a closed schedule, a tame change. *)
Definition calm k k' : Prop := ring_ok off g (rm k) -> tame off g (rm k) (rm k').

#[local] Instance calm_preorder : PreOrder calm.
Proof. split; [intros k _; done|]. intros a b c H1 H2 Hr. specialize (H1 Hr). etrans; [exact H1|]. apply H2, H1, Hr. Qed.

Lemma calm_same k k' : rm k' = rm k -> calm k k'.
Proof. intros E _. by rewrite E. Qed.

Lemma calm_dma k v p : calm k (mkMachine v p (dma (k_dev k))).
Proof. intros Hr. unfold rm. apply hc_steps_tame; [done|apply Hdma|exact Hr]. Qed.

Lemma calm_get a k : calm k (peek32 a k).2.
Proof. unfold peek32, look. apply calm_dma. Qed.
Lemma calm_get_bytes n a k : calm k (get_bytes n a k).2.
Proof. apply calm_dma. Qed.
Lemma calm_r16 d r k : calm k (r16 d r k).2.
Proof. unfold r16, on_ports. destruct (inw _ _) as [v p]. by apply calm_same. Qed.

Lemma rm_put a v k : rm (poke32 a v k) = store 4 (rm k) a v.
Proof. unfold rm, poke32, with_dev, put_mem. cbn [k_dev]. apply Hram. Qed.
Lemma rm_put_bytes a l k : rm (poke_bytes a l k) = write_bytes (rm k) a l.
Proof. unfold rm, poke_bytes, with_dev, put_bytes_mem. cbn [k_dev]. apply Hram. Qed.

Lemma calm_loose j o v k : loose j o -> calm k (poke32 (pg g j + o) v k).
Proof. intros Hl _. rewrite rm_put. by apply tame_loose. Qed.

(** ** Descriptors *)

Lemma calm_arm0 k : ring_ok off g (rm k) -> has_buf0 off g (rm k) -> tame off g (rm k) (rm (uhci_arm off (pg g 2) (pg g 4) k)).
Proof.
  intros Hr Hb. unfold uhci_arm. pose proof (calm_get (pg g 4 + td_control) k Hr) as T1. destruct (peek32 _ k) as [c k1]. cbn [snd] in T1.
  unfold td_control, qh_element. assert (loose 4 4) as Hl by (unfold loose; lia). pose proof (calm_loose 4 4 (Z.lor c CTRL_ACTIVE) k1 Hl (tm_ring _ _ _ _ T1 Hr)) as T2.
  etrans; [exact T1|]. etrans; [exact T2|]. rewrite (rm_put (pg g 2 + 4)). apply tame_elem; [done|]. split; [|by left]. right. left. split; [done|]. split; [done|].
  exact (tm_buf0 _ _ _ _ T2 (tm_buf0 _ _ _ _ T1 Hb)).
Qed.

Lemma calm_armi k : ring_ok off g (rm k) -> has_bufi off g (rm k) -> tame off g (rm k) (rm (uhci_arm off (pg g 3) (pg g 5) k)).
Proof.
  intros Hr Hb. unfold uhci_arm. pose proof (calm_get (pg g 5 + td_control) k Hr) as T1. destruct (peek32 _ k) as [c k1]. cbn [snd] in T1.
  unfold td_control, qh_element. assert (loose 5 4) as Hl by (unfold loose; lia). pose proof (calm_loose 5 4 (Z.lor c CTRL_ACTIVE) k1 Hl (tm_ring _ _ _ _ T1 Hr)) as T2.
  etrans; [exact T1|]. etrans; [exact T2|]. rewrite (rm_put (pg g 3 + 4)). apply tame_elem; [done|]. split; [|by right]. right. right. split; [done|]. split; [done|].
  exact (tm_bufi _ _ _ _ T2 (tm_bufi _ _ _ _ T1 Hb)).
Qed.

Lemma calm_disarm q t k : (q = 2 /\ t = 4) \/ (q = 3 /\ t = 5) -> calm k (uhci_disarm (pg g q) (pg g t) k).
Proof.
  intros Hq. unfold uhci_disarm. set (k1 := poke32 _ TD_TERMINATED k).
  assert (calm k k1) as C1 by (intros _; unfold k1; rewrite rm_put; apply tame_elem; [done|]; split; [by left|lia]).
  etrans; [exact C1|]. pose proof (calm_get (pg g t + td_control) k1) as C2. destruct (peek32 _ k1) as [c k2]. cbn [snd] in C2.
  etrans; [exact C2|]. apply calm_loose. unfold loose, td_control. lia.
Qed.

Lemma calm_turns n t : forall k, calm k (turns n (wait_turn t) k).2.
Proof.
  intros k. rewrite turns_loop. revert k. induction (Pos.to_nat n) as [|n' IH]; intros k; cbn [turns_nat]; [reflexivity|]. unfold wait_turn at 1.
  pose proof (calm_get (t + td_control) k) as C1. destruct (peek32 _ k) as [cs k1]. cbn [snd] in C1. destruct (_ =? 0); [exact C1|]. etrans; [exact C1|apply IH].
Qed.

(** A step of the driver: what it leaves, and that it was calm. *)
Ltac step L k' C := pose proof L as C; match type of C with calm _ (snd ?x) => destruct x as [? k']; cbn [snd] in C end.

Lemma calm_wait d t k : calm k (uhci_wait d t k).2.
Proof.
  unfold uhci_wait. step (calm_r16 d REG_FRNUM k) k1 C1. step (calm_turns 20000000 t k1) k2 C2.
  assert (calm k k2) as C by (by etrans). match goal with |- context [if ?b then (0, k2) else _] => destruct b end; [exact C|].
  step (calm_r16 d REG_USBSTS k2) k3 C3. step (calm_r16 d REG_FRNUM k3) k4 C4. step (calm_r16 d REG_PORTSC2 k4) k5 C5.
  by do 3 (etrans; [eassumption|]).
Qed.

(** ** Transfers

    [moves]: the pages stay, and the change was calm. *)
Definition moves (st st' : uhci * machine M P) : Prop := pages_of st.1 = g -> pages_of st'.1 = g /\ calm st.2 st'.2.

#[local] Instance moves_preorder : PreOrder moves.
Proof.
  split; [intros st H; by split|]. intros a b c H1 H2 H. destruct (H1 H) as [Hb C1]. destruct (H2 Hb) as [Hc C2]. split; [done|by etrans].
Qed.

(** The buffer of a phase is filled and named. *)
Lemma calm_buffer d pid maxlen data write k :
  pages_of d = g -> (write = true -> pid = USB_PID_SETUP /\ exists l, data = Local l) ->
  let k' := if pid =? USB_PID_SETUP then
      let '(l, k) := fetch 8 data k in poke32 (td_ep0 d + td_buffer) (phys off (buf_setup d)) (poke_bytes (buf_setup d) l k)
    else if write && (0 <? maxlen) && negb (is_null data) then
      let '(l, k) := fetch (Z.to_nat maxlen) data k in poke32 (td_ep0 d + td_buffer) (phys off (buf_data d)) (poke_bytes (buf_data d) l k)
    else poke32 (td_ep0 d + td_buffer) (phys off (buf_data d)) k in
  calm k k' /\ has_buf0 off g (rm k').
Proof.
  intros Hp Hw. destruct (pages_eq _ d Hp) as (_ & _ & _ & _ & -> & _ & -> & -> & _). unfold td_buffer. cbv zeta. destruct (pid =? USB_PID_SETUP) eqn:E.
  - assert (exists l k1, fetch 8 data k = (l, k1) /\ (length l <= 8)%nat /\ calm k k1) as (l & k1 & -> & Hl & C1).
    { destruct data as [l|a]; cbn [fetch]; [eexists _, _; split; [done|]; split; [rewrite length_take; lia|reflexivity]|].
      pose proof (calm_get_bytes 8 a k) as C. unfold get_bytes in *. eexists _, _. split; [done|]. split; [by rewrite bytes_at_length|exact C]. }
    destruct (tame_buffer0 off g Hg (write_bytes (rm k1) (pg g 6) l) 6 ltac:(by left)) as [T B]. rewrite rm_put, rm_put_bytes. split; [|exact B].
    etrans; [exact C1|]. intros _. rewrite rm_put, rm_put_bytes. etrans; [|exact T]. apply (tame_write off g Hg _ 6); unfold zlen; lia.
  - destruct write; [destruct (Hw eq_refl) as [-> _]; done|]. cbn [andb].
    destruct (tame_buffer0 off g Hg (rm k) 7 ltac:(by right)) as [T B]. rewrite rm_put. split; [|exact B]. intros _. rewrite rm_put. exact T.
Qed.

Lemma moves_phase pid maxlen toggle data write st :
  (write = true -> pid = USB_PID_SETUP /\ exists l, data = Local l) -> moves st (uhci_ep0_phase off pid maxlen toggle data write st).2.
Proof.
  intros Hw Hp. destruct st as [d k]. cbn [fst snd] in *. unfold uhci_ep0_phase.
  destruct (calm_buffer d pid maxlen data write k Hp Hw) as [C0 B0]. cbv zeta in C0, B0. set (k0 := if pid =? USB_PID_SETUP then _ else _) in *. clearbody k0.
  destruct (pages_eq _ d Hp) as (_ & _ & E2 & _ & E4 & _). cbn [set_ep0 set_vars qh_ep0 td_ep0]. rewrite E2, E4. clear E2 E4.
  set (k1 := poke32 (pg g 4 + td_token) _ k0). assert (calm k0 k1) as C1 by (apply calm_loose; unfold loose, td_token; lia).
  set (k2 := poke32 (pg g 4 + td_control) _ k1). assert (calm k1 k2) as C2 by (apply calm_loose; unfold loose, td_control; lia). clearbody k1 k2.
  assert (calm k (uhci_arm off (pg g 2) (pg g 4) k2)) as C3.
  { intros Hr. specialize (C0 Hr). pose proof (tm_ring _ _ _ _ C0 Hr) as R0. specialize (C1 R0). pose proof (tm_ring _ _ _ _ C1 R0) as R1. specialize (C2 R1).
    etrans; [exact C0|]. etrans; [exact C1|]. etrans; [exact C2|]. apply calm_arm0; [exact (tm_ring _ _ _ _ C2 R1)|]. exact (tm_buf0 _ _ _ _ C2 (tm_buf0 _ _ _ _ C1 B0)). }
  clear C0 C1 C2. set (k3 := uhci_arm _ _ _ _) in *. clearbody k3. set (d1 := set_ep0 _ _ d). step (calm_wait d1 (pg g 4) k3) k4 C4. step (calm_get (pg g 4 + td_control) k4) k5 C5.
  cbn [snd fst]. split; [exact Hp|]. do 3 (etrans; [eassumption|]). apply calm_disarm. lia.
Qed.

Lemma moves_ctrl setup data len dir_in st : (0 < len -> dir_in = true /\ data = pg g 7) -> moves st (uhci_ctrl off setup data len dir_in st).2.
Proof.
  intros Hd. unfold uhci_ctrl. set (ph1 := uhci_ep0_phase off USB_PID_SETUP 8 0 (Local setup) true st).
  assert (moves st ph1.2) as M1 by (apply moves_phase; intros _; eauto). destruct ph1 as [r1 st1]. cbn [snd] in M1. destruct (negb (r1 =? 0)); [exact M1|].
  set (ph2 := if 0 <? len then _ else _). assert (moves st1 ph2.2) as M2.
  { unfold ph2. destruct (Z.ltb_spec 0 len) as [Hl|]; [|reflexivity]. destruct (Hd Hl) as [-> ->]. cbn [negb].
    set (ph := uhci_ep0_phase off USB_PID_IN len 1 (At (pg g 7)) false st1). assert (moves st1 ph.2) as Mp by (by apply moves_phase). destruct ph as [r [d k]]. cbn [snd] in Mp.
    rewrite andb_true_r. destruct (r =? 0); [|exact Mp]. unfold get_bytes. cbn [snd]. etrans; [exact Mp|]. intros Hp. split; [exact Hp|]. cbn [fst snd] in *.
    destruct (pages_eq _ d Hp) as (_ & _ & _ & _ & _ & _ & _ & E & _). rewrite E. etrans; [apply calm_dma|]. intros _. rewrite rm_put_bytes. apply tame_ext. intros x. by apply rewrite_bytes. }
  destruct ph2 as [r2 st2]. cbn [snd] in M2. assert (moves st st2) as M12 by (by etrans). destruct (negb (r2 =? 0)); [exact M12|].
  set (ph3 := uhci_ep0_phase off _ 1 0 (At 0) false st2). assert (moves st2 ph3.2) as M3 by (by apply moves_phase). destruct ph3 as [r3 st3]. cbn [snd] in *. by etrans.
Qed.

Lemma moves_descriptor ty len st : moves st (get_descriptor off ty len st).2.
Proof.
  intros Hp. unfold get_descriptor. apply moves_ctrl; [|done]. intros _. split; [done|]. by destruct (pages_eq _ _ Hp) as (_ & _ & _ & _ & _ & _ & _ & E & _).
Qed.

Lemma moves_then r f st : moves st (f st).2 -> moves st (and_then r f st).2.
Proof. unfold and_then. intros Hf. destruct (r =? 0); [exact Hf|reflexivity]. Qed.

Lemma moves_d d d' k : pages_of d' = pages_of d -> moves (d, k) (d', k).
Proof. intros E Hp. cbn [fst snd] in *. split; [by rewrite E|reflexivity]. Qed.

Ltac mv L st' C := pose proof L as C; match type of C with moves _ (snd ?x) => destruct x as [? st']; cbn [snd] in C end.

Lemma moves_boot_setup st : moves st (uhci_boot_setup off st).2.
Proof.
  destruct st as [d k]. unfold uhci_boot_setup. pose proof (moves_d d (set_addr 0 d) k eq_refl) as M0.
  mv (moves_descriptor USB_DT_DEVICE 8 (set_addr 0 d, k)) s1 M1.
  match goal with |- context [and_then ?r (uhci_ctrl off ?l 0 0 false) s1] => mv (moves_then r (uhci_ctrl off l 0 0 false) s1 ltac:(apply moves_ctrl; lia)) s2 M2 end.
  match goal with |- context [if ?b then (set_addr KBD_ADDR s2.1, s2.2) else s2] => set (s3 := if b then _ else _);
    assert (moves s2 s3) as M3 by (unfold s3; destruct b; [destruct s2; by apply moves_d|reflexivity]) end. clearbody s3.
  match goal with |- context [and_then ?r (get_descriptor off ?t 18) s3] => mv (moves_then r (get_descriptor off t 18) s3 (moves_descriptor t 18 s3)) s4 M4 end.
  match goal with |- context [and_then ?r (get_descriptor off ?t 9) s4] => mv (moves_then r (get_descriptor off t 9) s4 (moves_descriptor t 9 s4)) s5 M5 end.
  match goal with |- context [and_then ?r ?f s5] => assert (moves s5 (f s5).2) as Mf end.
  { destruct s5 as [d5 k5]. unfold get_bytes. etrans; [|apply moves_descriptor]. intros Hp. split; [exact Hp|apply calm_dma]. }
  match goal with |- context [and_then ?r ?f s5] => mv (moves_then r f s5 Mf) s6 M6 end.
  match goal with |- context [and_then ?r (uhci_ctrl off ?l 0 0 false) s6] => mv (moves_then r (uhci_ctrl off l 0 0 false) s6 ltac:(apply moves_ctrl; lia)) s7 M7 end.
  do 7 (etrans; [eassumption|]). apply moves_then, moves_ctrl. lia.
Qed.

(** ** Interrupts *)

Lemma calm_int_arm d k : pages_of d = g -> calm k (int_arm off d k) /\ (ring_ok off g (rm k) -> has_bufi off g (rm (int_arm off d k))).
Proof.
  intros Hp. destruct (pages_eq _ d Hp) as (_ & _ & _ & E3 & _ & E5 & _ & _ & E8). unfold int_arm. rewrite E3, E5, E8. clear E3 E5 E8.
  set (k1 := poke32 (pg g 5 + td_token) _ k). assert (calm k k1) as C1 by (apply calm_loose; unfold loose, td_token; lia).
  set (k2 := poke32 (pg g 5 + td_control) _ k1). assert (calm k1 k2) as C2 by (apply calm_loose; unfold loose, td_control; lia). clearbody k1 k2.
  set (k3 := poke32 _ (phys off (pg g 8)) k2). destruct (tame_bufferi off g Hg (rm k2)) as [T3 B3].
  assert (rm k3 = store 4 (rm k2) (pg g 5 + 12) (ph off g 8)) as E by (unfold k3; apply rm_put). rewrite <- E in T3, B3. clearbody k3. clear E.
  assert (calm k k3) as C3 by (etrans; [exact C1|]; etrans; [exact C2|]; by intros _).
  split; [intros Hr|intros Hr]; pose proof (calm_armi k3 (tm_ring _ _ _ _ (C3 Hr) Hr) B3) as T; [|exact (tm_bufi _ _ _ _ T B3)].
  etrans; [exact (C3 Hr)|exact T].
Qed.

(** Between interrupts: the schedule is closed and the keyboard's descriptor,
    if it is queued, has its buffer. *)
Record usb_ok (d : uhci) k : Prop := {
  uo_pages : pages_of d = g;
  uo_ring : ring_ok off g (rm k);
  uo_busy : kbd_busy d = true -> has_bufi off g (rm k);
}.

Lemma moves_reenumerate d k : usb_ok d k -> has_bufi off g (rm k) ->
  let st := uhci_reenumerate off (d, k) in usb_ok st.1 st.2 /\ same_out g (rm k) (rm st.2).
Proof.
  intros [Hp Hr _] Hb. unfold uhci_reenumerate. destruct (in_progress d); [by split|].
  set (d1 := set_kbd false false _). assert (pages_of d1 = g) as Hp1 by exact Hp. clearbody d1.
  destruct (pages_eq _ d1 Hp1) as (_ & _ & _ & E3 & _ & E5 & _). rewrite E3, E5. set (k1 := uhci_disarm _ _ k).
  pose proof (calm_disarm 3 5 k ltac:(lia) Hr) as T1. fold k1 in T1. clearbody k1. pose proof (moves_boot_setup (d1, k1) Hp1) as [Hp2 C2].
  destruct (uhci_boot_setup off (d1, k1)) as [r [d2 k2]]. cbn [fst snd] in *. specialize (C2 (tm_ring _ _ _ _ T1 Hr)).
  assert (tame off g (rm k) (rm k2)) as T by (by etrans). pose proof (tm_ring _ _ _ _ T Hr) as R2. destruct (r =? 0); cbn [fst snd].
  - destruct (calm_int_arm d2 k2 Hp2) as [C3 B3]. specialize (C3 R2). split; [|apply (tm_out _ _ _ _ (transitivity T C3))]. split; [exact Hp2|exact (tm_ring _ _ _ _ C3 R2)|by intros _; apply B3].
  - split; [|apply T]. split; [exact Hp2|exact R2|]. intros _. exact (tm_bufi _ _ _ _ T Hb).
Qed.

Lemma moves_process d k kb : usb_ok d k -> has_bufi off g (rm k) ->
  let st := uhci_process_kbd off (d, k, kb) in usb_ok st.1.1 st.1.2 /\ same_out g (rm k) (rm st.1.2).
Proof.
  intros [Hp Hr Hb0] Hb. unfold uhci_process_kbd. step (calm_get (td_int d + td_control) k) k1 C1. specialize (C1 Hr). pose proof (tm_ring _ _ _ _ C1 Hr) as R1. pose proof (tm_bufi _ _ _ _ C1 Hb) as B1.
  destruct (negb _); cbn [fst snd].
  - destruct (moves_reenumerate d k1 ltac:(by split) B1) as [Hu Ho]. split; [exact Hu|]. intros x Hx. rewrite Ho by done. by apply C1.
  - step (calm_get_bytes 8 (buf_kbd d) k1) k2 C2. specialize (C2 R1). cbn [fst snd]. destruct (pages_eq _ d Hp) as (_ & _ & _ & -> & _ & -> & _).
    pose proof (calm_armi k2 (tm_ring _ _ _ _ C2 R1) (tm_bufi _ _ _ _ C2 B1)) as T. assert (tame off g (rm k) (rm (uhci_arm off (pg g 3) (pg g 5) k2))) as Ta by (etrans; [exact C1|]; by etrans).
    split; [|apply Ta]. split; [exact Hp|exact (tm_ring _ _ _ _ Ta Hr)|]. intros _. exact (tm_bufi _ _ _ _ Ta Hb).
Qed.

Lemma usb_ok_calm d d' k k' : usb_ok d k -> pages_of d' = pages_of d -> kbd_busy d' = kbd_busy d -> calm k k' -> usb_ok d' k' /\ same_out g (rm k) (rm k').
Proof.
  intros [Hp Hr Hb] Ed Eb C. specialize (C Hr). split; [|apply C]. split; [congruence|exact (tm_ring _ _ _ _ C Hr)|]. rewrite Eb. intros E. exact (tm_bufi _ _ _ _ C (Hb E)).
Qed.

Lemma moves_irq d k kb : usb_ok d k -> let st := uhci_irq_handler off (d, k, kb) in usb_ok st.1.1 st.1.2 /\ same_out g (rm k) (rm st.1.2).
Proof.
  intros Hok. unfold uhci_irq_handler. step (calm_r16 d REG_USBSTS k) k1 C1. destruct (_ =? 0); [by apply (usb_ok_calm d)|].
  set (k2 := w16 d REG_USBSTS _ k1). assert (calm k k2) as C2 by (etrans; [exact C1|by apply calm_same]). clearbody k2. destruct (_ =? 0); [by apply (usb_ok_calm d)|].
  set (st := if ep0_busy d then _ else _). assert (pages_of st.1 = pages_of d /\ kbd_busy st.1 = kbd_busy d /\ calm k2 st.2) as (Hp & Hb & C3).
  { unfold st. destruct (ep0_busy d); [|by split_and!]. step (calm_get (td_ep0 d + td_control) k2) k3 C. by split_and!; try destruct (_ =? 0). }
  destruct st as [d3 k3]. cbn [fst snd] in *. destruct (usb_ok_calm d d3 k k3 Hok Hp Hb ltac:(by etrans)) as [Hok3 Ho3].
  destruct (kbd_busy d3) eqn:Eb; [|done]. step (calm_get (td_int d3 + td_control) k3) k4 C4. destruct (usb_ok_calm d3 d3 k3 k4 Hok3 eq_refl eq_refl C4) as [Hok4 Ho4].
  pose proof (same_out_trans _ _ _ _ Ho3 Ho4) as Ho. destruct (_ =? 0); [|done].
  destruct (moves_process d3 k4 kb Hok4 (uo_busy _ _ Hok4 Eb)) as [Hok5 Ho5]. split; [done|]. by eapply same_out_trans.
Qed.

(** What happens once the driver runs: an interrupt is served, or the
    controller works through the schedule. *)
Inductive uhci_step : uhci * machine M P * kbd -> uhci * machine M P * kbd -> Prop :=
  | us_irq st : uhci_step st (uhci_irq_handler off st)
  | us_turn d k kb : uhci_step (d, k, kb) (d, mkMachine (k_vm k) (k_ports k) (dma (k_dev k)), kb).

Lemma uhci_steps_ok st st' : rtc uhci_step st st' -> usb_ok st.1.1 st.1.2 -> usb_ok st'.1.1 st'.1.2 /\ same_out g (rm st.1.2) (rm st'.1.2).
Proof.
  induction 1 as [st|a b c Hs _ IH]; intros Hok; [by split|].
  assert (usb_ok b.1.1 b.1.2 /\ same_out g (rm a.1.2) (rm b.1.2)) as [Hb Ho].
  { destruct Hs as [[[d k] kb]|d k kb]; [by apply moves_irq|]. cbn [fst snd] in *. apply (usb_ok_calm d); try done. apply calm_dma. }
  destruct (IH Hb) as [Hc Ho2]. split; [done|]. by eapply same_out_trans.
Qed.
End Driver.

(** ** Start *)

Section Start.
Context {M : Type} `{DM : DmaDevice M} {P : Type} `{PT : Ports P}.
Variables (off : Z).
Hypothesis Hoff : 0 < off /\ off + 2 ^ 32 <= 2 ^ 64.
Hypothesis Hram : forall x (m : M), ram (set_ram x m) = x.
Implicit Types (d : uhci) (k : machine M P).

(** Registers are ports: accesses leave memory alone. *)
Lemma rm_r16 d r k : rm (r16 d r k).2 = rm k.
Proof. unfold r16, on_ports. by destruct (inw _ _). Qed.
Lemma rm_w16 d r v k : rm (w16 d r v k) = rm k.
Proof. done. Qed.
Lemma rm_reset fuel : forall d k k', wait_reset fuel d k = Some k' -> rm k' = rm k.
Proof.
  induction fuel as [|f IH]; intros d k k'; cbn [wait_reset]; [done|]. pose proof (rm_r16 d REG_USBCMD k) as E. destruct (r16 d REG_USBCMD k) as [v k1]. cbn [snd] in E.
  destruct (_ =? 0); [by intros [= <-]|]. intros H. by rewrite (IH _ _ _ H).
Qed.
Lemma rm_run_wait n : forall d k, rm (run_wait_loop n d k) = rm k.
Proof.
  induction n as [|n IH]; intros d k; cbn [run_wait_loop]; [apply rm_r16|]. pose proof (rm_r16 d REG_USBSTS k) as E. destruct (r16 d REG_USBSTS k) as [v k1]. cbn [snd] in E.
  destruct (_ =? 0); [done|]. by rewrite IH.
Qed.
Lemma rm_start d k : rm (uhci_start off d k) = rm k.
Proof. unfold uhci_start, uhci_run_wait. rewrite rm_r16, rm_w16. by rewrite rm_run_wait. Qed.
Lemma rm_read_ports d k : rm (read_ports d k).2 = rm k.
Proof.
  unfold read_ports. pose proof (rm_r16 d REG_PORTSC1 k) as E1. destruct (r16 d REG_PORTSC1 k) as [p1 k1]. cbn [snd] in E1.
  pose proof (rm_r16 d REG_PORTSC2 k1) as E2. destruct (r16 d REG_PORTSC2 k1) as [p2 k2]. cbn [snd] in *. congruence.
Qed.
Lemma rm_wait_device n : forall d p1 p2 k, rm (wait_device n d p1 p2 k).2 = rm k.
Proof.
  induction n as [|n IH]; intros d p1 p2 k; cbn [wait_device]; [done|]. pose proof (rm_read_ports d k) as E. destruct (read_ports d k) as [[q1 q2] k1]. cbn [snd] in E.
  destruct (_ || _); [done|]. by rewrite IH.
Qed.
Lemma rm_port_reset n : forall d r k, rm (wait_port_reset n d r k) = rm k.
Proof.
  induction n as [|n IH]; intros d r k; cbn [wait_port_reset]; [done|]. pose proof (rm_r16 d r k) as E. destruct (r16 d r k) as [v k1]. cbn [snd] in E.
  destruct (_ =? 0); [done|]. by rewrite IH.
Qed.
Lemma rm_port_up d k : rm (port_up d k).2 = rm k.
Proof.
  unfold port_up. pose proof (rm_read_ports d k) as E. destruct (read_ports d k) as [[p1 p2] k1]. cbn [snd] in E.
  set (w := if _ && _ then _ else _). assert (rm w.2 = rm k) as Ew by (unfold w; destruct (_ && _); [by rewrite rm_wait_device|done]). clearbody w. destruct w as [[q1 q2] k2]. cbn [snd] in Ew.
  destruct (_ && _); [done|]. set (pr := if connected q1 then _ else _). pose proof (rm_r16 d pr k2) as E3. destruct (r16 d pr k2) as [v k3]. cbn [snd] in E3.
  set (k4 := wait_port_reset _ _ _ _). assert (rm k4 = rm k3) as E4 by (unfold k4; by rewrite rm_port_reset). clearbody k4. pose proof (rm_r16 d pr k4) as E5. destruct (r16 d pr k4) as [v' k5]. cbn [snd] in E5.
  pose proof (rm_read_ports d (w16 d pr (Z.lor v' PORT_EN) k5)) as E6. destruct (read_ports d _) as [[r1 r2] k6]. cbn [snd] in *. assert (rm (w16 d pr (Z.lor v' PORT_EN) k5) = rm k5) by done. congruence.
Qed.

(** Pages handed out one after the other are distinct frames below 4 GiB. *)
Lemma alloc_pages_ok n : forall k l k', pmm_inv (vm_frames (k_vm k)) -> alloc_pages off n k = (l, k') -> existsb (fun p => p =? 0) l = false ->
  exists fs, l = map (fun f => 4096 * f + off) fs /\ length fs = n /\ NoDup fs /\
    Forall (fun f => 0 <= f < 2 ^ 20 /\ page_free (vm_frames (k_vm k)) f = true) fs.
Proof.
  induction n as [|n IH]; intros k l k' Hi E Hz; cbn [alloc_pages] in E; [injection E as <- <-; by exists []; split_and!; [| |constructor|constructor]|].
  unfold alloc_dma in E. destruct (pmm_alloc_dma_spec off 1 (vm_frames (k_vm k)) Hi ltac:(lia)) as [[_ (st & Er & H0 & Hlim & Hfree & _ & Ht & _ & _ & _ & Hi')]|[Er _]].
  - destruct (pmm_alloc_dma off 1 (vm_frames (k_vm k))) as [p f]. cbn [fst snd] in *. set (k1 := mkMachine _ _ _) in E. destruct (alloc_pages off n k1) as [l1 k2] eqn:E1.
    injection E as <- <-. cbn [existsb] in Hz. apply orb_false_iff in Hz as [Hz1 Hz2]. destruct (IH k1 l1 k2 Hi' E1 Hz2) as (fs & -> & Hlen & Hnd & Hall).
    assert (p = 4096 * st + off) as -> by (rewrite Er; unfold PAGE_SIZE; rewrite u64_small by lia; lia).
    exists (st :: fs). split; [done|]. split; [cbn; lia|]. cbn [vm_frames set_frames k_vm k1] in Hall. split.
    + constructor; [|done]. intros Hin. apply list_elem_of_In in Hin. destruct (proj1 (Forall_forall _ _) Hall _ Hin) as [_ Hf]. unfold page_free in Hf. rewrite Ht in Hf.
      rewrite (proj2 (Z.leb_le st st)), (proj2 (Z.ltb_lt st (st + 1))) in Hf by lia. done.
    + constructor; [split; [lia|apply Hfree; lia]|]. eapply Forall_impl; [|exact Hall]. intros x [Hx Hf]. split; [done|]. unfold page_free in *. rewrite Ht in Hf.
      destruct (bitmap_test (vm_frames (k_vm k)) x); [|done]. by rewrite orb_true_r in Hf.
  - rewrite Er in E. cbn [fst snd] in E. destruct (alloc_pages off n _) as [l1 k2]. injection E as <- <-. cbn [existsb] in Hz. by rewrite Z.eqb_refl in Hz.
Qed.

Lemma rm_alloc n : forall k l k', alloc_pages off n k = (l, k') -> rm k' = rm k.
Proof.
  induction n as [|n IH]; intros k l k' E; cbn [alloc_pages] in E; [by injection E as <- <-|]. unfold alloc_dma in E. destruct (pmm_alloc_dma _ _ _) as [p f].
  set (k1 := mkMachine _ _ _) in E. destruct (alloc_pages off n k1) as [l1 k2] eqn:E1. injection E as <- <-. by rewrite (IH _ _ _ E1).
Qed.

Lemma nine_pages fs : length fs = 9%nat -> NoDup fs -> Forall (fun f => 0 <= f < 2 ^ 20) fs -> pages_ok off (map (fun f => 4096 * f + off) fs).
Proof.
  intros Hl Hnd Hall. assert (forall i, page_ix i -> exists f, fs !! Z.to_nat i = Some f /\ pg (map (fun f => 4096 * f + off) fs) i = 4096 * f + off) as Hpg.
  { intros i Hi. unfold page_ix in Hi. destruct (fs !! Z.to_nat i) as [f|] eqn:E; [|apply lookup_ge_None in E; lia]. exists f. split; [done|]. unfold pg, znth, zlookup.
    rewrite (proj2 (Z.ltb_ge i 0)) by lia. by rewrite list_lookup_fmap, E. }
  split.
  - intros i Hi. destruct (Hpg i Hi) as (f & E & ->). exists f. split; [|done]. exact (Forall_lookup_1 _ _ _ _ Hall E).
  - intros i j Hi Hj Hne. destruct (Hpg i Hi) as (f & E & ->), (Hpg j Hj) as (f' & E' & ->). assert (f <> f') as Hf.
    { intros ->. pose proof (NoDup_lookup _ _ _ _ Hnd E E'). unfold page_ix in *. lia. }
    unfold apart. lia.
Qed.

(** The schedule is closed once it is built. *)
Lemma rm_clear a n k : rm (clear_mem a n k) = fill (rm k) a 0 n.
Proof. unfold rm, clear_mem, with_dev. cbn [k_dev]. apply Hram. Qed.

Lemma same_out_fill g m i : page_ix i -> same_out g m (fill m (pg g i) 0 PAGE_SIZE).
Proof.
  intros Hi x Hx. unfold load8. rewrite fill_other; [done|]. unfold PAGE_SIZE. destruct (decide (pg g i <= x < pg g i + 4096)); [|lia]. exfalso. apply Hx. by exists i.
Qed.

Lemma frames_put g v n k : pages_ok off g -> (n <= 1024)%nat ->
  let k' := for_range n 0 (fun i => poke32 (pg g 0 + 4 * i) v) k in
  same_out g (rm k) (rm k') /\ (forall i, 0 <= i < Z.of_nat n -> cell g (rm k') 0 (4 * i) = v mod 2 ^ 32) /\
  (forall j o, page_ix j -> j <> 0 -> word_at o -> cell g (rm k') j o = cell g (rm k) j o).
Proof.
  intros Hg Hn. pose proof (for_range_ind (fun n k' => 0 <= n <= 1024 -> same_out g (rm k) (rm k') /\ (forall i, 0 <= i < n -> cell g (rm k') 0 (4 * i) = v mod 2 ^ 32) /\
    (forall j o, page_ix j -> j <> 0 -> word_at o -> cell g (rm k') j o = cell g (rm k) j o)) n 0 (fun i => poke32 (pg g 0 + 4 * i) v) k) as H. cbv beta in H.
  apply H; [intros _; split; [by intros x|]; split; [lia|done]| |lia]. clear H. intros i k' Hi IH Hr. destruct IH as (Ho & Hc & Hs); [lia|].
  assert (page_ix 0) as H0 by (unfold page_ix; lia). assert (word_at (4 * i)) as Hw by (unfold word_at; lia). rewrite (rm_put Hram). split_and!.
  - intros x Hx. rewrite (same_out_store g _ 0 (4 * i) v) by done. by apply Ho.
  - intros j Hj. destruct (decide (j = i)) as [->|]; [apply cell_store_same|]. rewrite (cell_store_other off g Hg) by (done || lia || (unfold word_at; lia)). apply Hc. lia.
  - intros j o Hj Hne Ho'. rewrite (cell_store_other off g Hg) by (done || by left). by apply Hs.
Qed.

Lemma qh_word g i : pages_ok off g -> page_ix i -> Z.lor (phys off (pg g i)) TD_QH = ph off g i + 2 /\ (ph off g i + 2) mod 2 ^ 32 = ph off g i + 2.
Proof.
  intros Hg Hi. destruct (ph_eq off g Hg i Hi) as (_ & Hr & Hm). change (phys off (pg g i)) with (ph off g i). unfold TD_QH. split; [|apply Z.mod_small; lia].
  rewrite <- Z.lxor_lor, Z.add_nocarry_lxor; [done| |]; apply Z.bits_inj'; intros n Hn; rewrite Z.land_spec, Z.bits_0; destruct (decide (n = 1)) as [->|Hne];
    (try (apply andb_false_iff; left; apply Z.testbit_false; [done|]; change (2 ^ 1) with 2; lia)); apply andb_false_iff; right; by apply (Z.pow2_bits_false 1).
Qed.

(** A word through a chain of stores to words of pages. *)
Ltac val g Hg Hsame := rewrite ?Hsame; repeat match goal with |- context [cell g (store 4 ?m (pg g ?j + ?p) ?v) ?i ?o] =>
  rewrite (cell_store_other _ g Hg m i o j p v) by (first [done | unfold page_ix; lia | lia]); rewrite ?Hsame end.

Lemma build_schedule_ok d k g : pages_of d = g -> pages_ok off g ->
  ring_ok off g (rm (build_schedule off d k)) /\ same_out g (rm k) (rm (build_schedule off d k)).
Proof.
  intros Hp Hg. unfold build_schedule. destruct (pages_eq g d Hp) as (-> & -> & -> & -> & -> & -> & -> & -> & ->).
  set (k1 := clear_mem (pg g 8) _ _). assert (same_out g (rm k) (rm k1)) as Ho1.
  { unfold k1. rewrite !rm_clear. repeat (eapply same_out_trans; [|apply same_out_fill; unfold page_ix; lia]). by intros x. }
  clearbody k1. destruct (qh_word g 1 Hg ltac:(unfold page_ix; lia)) as [-> W1]. destruct (qh_word g 2 Hg ltac:(unfold page_ix; lia)) as [-> W2]. destruct (qh_word g 3 Hg ltac:(unfold page_ix; lia)) as [-> W3].
  unfold td_link, qh_link, qh_element, TD_TERMINATED. set (k2 := poke32 (pg g 3 + 0) _ _).
  assert (rm k2 = store 4 (store 4 (store 4 (store 4 (store 4 (store 4 (store 4 (store 4 (rm k1) (pg g 4 + 0) 1) (pg g 5 + 0) 1) (pg g 1 + 4) 1) (pg g 1 + 0) (ph off g 2 + 2)) (pg g 2 + 4) 1) (pg g 2 + 0) (ph off g 3 + 2)) (pg g 3 + 4) 1) (pg g 3 + 0) (ph off g 1 + 2)) as E2
    by (unfold k2; rewrite !(rm_put Hram); done). clearbody k2.
  destruct (frames_put g (ph off g 1 + 2) 1024 k2 Hg ltac:(lia)) as (Ho3 & Hf & Hc). set (k3 := for_range _ _ _ k2) in *. clearbody k3.
  split; [|eapply same_out_trans; [exact Ho1|]; eapply same_out_trans; [|exact Ho3]; rewrite E2; repeat (eapply same_out_trans; [|apply same_out_store; [unfold page_ix; lia|by split]]); by intros x].
  destruct (ph_eq off g Hg 4 ltac:(unfold page_ix; lia)) as (_ & _ & M4). destruct (ph_eq off g Hg 5 ltac:(unfold page_ix; lia)) as (_ & _ & M5).
  assert (forall j o v, page_ix j -> j <> 0 -> word_at o -> cell g (rm k2) j o = v -> cell g (rm k3) j o = v) as Hk by (intros j o v H1 H2 H3 <-; by apply Hc).
  assert (forall m i o v, cell g (store 4 m (pg g i + o) v) i o = v mod 2 ^ 32) as Hsame by (intros; apply cell_store_same).
  assert (cell g (rm k3) 2 4 = 1) as C24 by (apply Hk; [done..|]; rewrite E2; val g Hg Hsame; done).
  assert (cell g (rm k3) 3 4 = 1) as C34 by (apply Hk; [done..|]; rewrite E2; val g Hg Hsame; done).
  split; rewrite ?C24, ?C34.
  - intros i Hi. by rewrite Hf.
  - split; (apply Hk; [done..|]); rewrite E2; val g Hg Hsame; done.
  - split; [|by left]. apply Hk; [done..|]. rewrite E2; val g Hg Hsame; done.
  - split; [|by left]. apply Hk; [done..|]. rewrite E2; val g Hg Hsame; done.
  - split; (apply Hk; [done..|]); rewrite E2; val g Hg Hsame; done.
  - intros E. rewrite <- E in M4. done.
  - intros E. rewrite <- E in M5. done.
Qed.

Lemma attach_ok g d k d' k' : (forall m : M, rtc (hc_step off (pg g 0)) (ram m) (ram (dma m))) -> pages_ok off g -> pages_of d = g -> ring_ok off g (rm k) ->
  uhci_attach off (d, k) = Some (d', k') -> usb_ok off g d' k' /\ same_out g (rm k) (rm k').
Proof.
  intros Hdma Hg Hp Hr. unfold uhci_attach. pose proof (calm_get_bytes off g Hg Hdma 0x100 (buf_data d) k Hr) as T1. destruct (get_bytes _ _ k) as [cfg k1]. cbn [snd] in T1.
  destruct (uhci_parse_config _ _ _) as [mps|]; [|done]. pose proof (moves_descriptor off g Hg Hram Hdma USB_DT_DEVICE 18 (set_mps mps d, k1) Hp) as [Hp2 C2].
  destruct (get_descriptor _ _ _ _) as [r [d2 k2]]. cbn [fst snd] in *. specialize (C2 (tm_ring _ _ _ _ T1 Hr)). intros [= <- <-].
  assert (tame off g (rm k) (rm k2)) as T by (by etrans). pose proof (tm_ring _ _ _ _ T Hr) as R2. destruct (calm_int_arm off g Hg Hram Hdma d2 k2 Hp2) as [C3 B3]. specialize (C3 R2).
  split; [|exact (tm_out _ _ _ _ (transitivity T C3))]. split; [exact Hp2|exact (tm_ring _ _ _ _ C3 R2)|intros _; by apply B3].
Qed.

(** The frame list, from the reset on, is the one the controller was given. *)
Lemma bring_up_ok fuel pc d k r irq d' k' g : pages_of d = g -> pages_ok off g -> (forall m : M, rtc (hc_step off (pg g 0)) (ram m) (ram (dma m))) ->
  uhci_bring_up off fuel pc d k = Some (r, irq, (d', k')) ->
  pages_of d' = g /\ same_out g (rm k) (rm k') /\ (r = 0 -> usb_ok off g d' k').
Proof.
  intros Hp Hg Hdma. unfold uhci_bring_up. destruct (wait_reset _ _ _) as [k1|] eqn:E1; [|done]. apply rm_reset in E1. rewrite rm_w16 in E1.
  destruct (build_schedule_ok d k1 g Hp Hg) as [R2 O2]. rewrite E1 in O2. set (k2 := build_schedule off d k1) in *. clearbody k2.
  pose proof (rm_port_up d (uhci_start off d k2)) as E3. rewrite rm_start in E3. destruct (port_up d _) as [up k3]. cbn [snd] in E3. rewrite <- E3 in R2, O2.
  destruct up; cbn [negb]; [|by intros [= <- <- <- <-]]. pose proof (moves_boot_setup off g Hg Hram Hdma (d, k3) Hp) as [Hp4 C4]. destruct (uhci_boot_setup off (d, k3)) as [r4 [d4 k4]].
  cbn [fst snd] in *. specialize (C4 R2). pose proof (same_out_trans _ _ _ _ O2 (tm_out _ _ _ _ C4)) as O4. destruct (r4 =? 0); cbn [negb]; [|by intros [= <- <- <- <-]].
  destruct (uhci_attach off (d4, k4)) as [[d5 k5]|] eqn:E5; [|done]. intros [= <- <- <- <-]. destruct (attach_ok g d4 k4 d5 k5 Hdma Hg Hp4 (tm_ring _ _ _ _ C4 R2) E5) as [U5 O5].
  split; [apply U5|]. split; [by eapply same_out_trans|done].
Qed.

Lemma init_cases fuel devices d k r irq d' k' : pmm_inv (vm_frames (k_vm k)) -> uhci_init off fuel devices (d, k) = Some (r, irq, (d', k')) ->
  (r = -1 /\ irq = None /\ rm k' = rm k) \/
  exists pc d1 k1 fs, pages_of d1 = map (fun f => 4096 * f + off) fs /\ length fs = 9%nat /\ NoDup fs /\
    Forall (fun f => 0 <= f < 2 ^ 20 /\ page_free (vm_frames (k_vm k)) f = true) fs /\ rm k1 = rm k /\ uhci_bring_up off fuel pc d1 k1 = Some (r, irq, (d', k')).
Proof.
  intros Hi. unfold uhci_init. destruct (pci_find_device _ _ _) as [pc|]; [|intros [= <- <- <- <-]; by left]. destruct (find_iobar pc) as [b|]; [|intros [= <- <- <- <-]; by left].
  unfold on_ports. destruct (pci_config_read32 _ _ _ _ _) as [cmd p]. cbn [k_vm k_ports k_dev]. set (k1 := mkMachine (k_vm k) _ _). destruct (alloc_pages off 9 k1) as [l k2] eqn:E2.
  pose proof (rm_alloc 9 _ _ _ E2 : rm k2 = rm k) as Er. destruct (existsb _ l) eqn:Ez; [intros [= <- <- <- <-]; by left|].
  destruct (alloc_pages_ok 9 k1 l k2 Hi E2 Ez) as (fs & -> & Hl & Hnd & Hall). intros H. right. eexists pc, _, k2, fs. split; [|split_and!; [done..|exact H]].
  by do 10 (destruct fs as [|? fs]; try discriminate).
Qed.

(** The driver never changes which pages it uses. *)
Lemma phase_pages pid maxlen toggle data write (st : uhci * machine M P) : pages_of (uhci_ep0_phase off pid maxlen toggle data write st).2.1 = pages_of st.1.
Proof. destruct st as [d k]. unfold uhci_ep0_phase. set (k0 := if pid =? USB_PID_SETUP then _ else _). clearbody k0. cbv zeta. destruct (uhci_wait _ _ _) as [r k1]. by destruct (peek32 _ k1). Qed.

Lemma ctrl_pages setup data len dir_in (st : uhci * machine M P) : pages_of (uhci_ctrl off setup data len dir_in st).2.1 = pages_of st.1.
Proof.
  unfold uhci_ctrl. pose proof (phase_pages USB_PID_SETUP 8 0 (Local setup) true st) as E1. destruct (uhci_ep0_phase _ _ _ _ _ _ _) as [r1 st1]. cbn [snd] in E1. destruct (negb _); [done|].
  set (x := if 0 <? len then _ else _). assert (pages_of x.2.1 = pages_of st.1) as E2.
  { unfold x. destruct (0 <? len); [|done]. set (pid := if dir_in then _ else _). pose proof (phase_pages pid len 1 (At data) (negb dir_in) st1) as E. destruct (uhci_ep0_phase _ _ _ _ _ _ _) as [r [d k]].
    cbn [fst snd] in E. unfold get_bytes. destruct (_ && _); cbn [fst snd]; congruence. }
  destruct x as [r2 st2]. cbn [snd] in E2. destruct (negb _); [done|]. set (pid := if dir_in then _ else _). pose proof (phase_pages pid 1 0 (At 0) false st2) as E3. destruct (uhci_ep0_phase _ _ _ _ _ _ _) as [r3 st3]. cbn [snd] in *. congruence.
Qed.

Lemma then_pages r f (st : uhci * machine M P) : pages_of (f st).2.1 = pages_of st.1 -> pages_of (and_then r f st).2.1 = pages_of st.1.
Proof. unfold and_then. by destruct (r =? 0). Qed.

Ltac pages_step := match goal with |- context [and_then ?r ?f ?s] => let E := fresh "E" in
  assert (pages_of (and_then r f s).2.1 = pages_of s.1) as E by (apply then_pages; unfold get_descriptor, get_bytes; first [apply ctrl_pages | destruct s as [? ?]; cbn [fst]; by rewrite ctrl_pages]);
  destruct (and_then r f s) as [? ?]; cbn [snd] in E end.

Lemma setup_pages (st : uhci * machine M P) : pages_of (uhci_boot_setup off st).2.1 = pages_of st.1.
Proof.
  destruct st as [d k]. unfold uhci_boot_setup. pose proof (ctrl_pages [Z.lor (Z.lor USB_DIR_IN USB_TYPE_STD) USB_RECIP_DEV; USB_REQ_GET_DESCRIPTOR; 0x00; USB_DT_DEVICE; 0; 0; u8 8; u8 (Z.shiftr 8 8)] (buf_data d) 8 true (set_addr 0 d, k)) as E1.
  change (uhci_ctrl off _ (buf_data d) 8 true _) with (get_descriptor off USB_DT_DEVICE 8 (set_addr 0 d, k)) in E1. destruct (get_descriptor off USB_DT_DEVICE 8 _) as [r1 s1]. cbn [fst snd] in *.
  pages_step. match goal with |- context [if ?b then (set_addr KBD_ADDR ?s.1, ?s.2) else ?s] => set (s3 := if b then _ else _);
    assert (pages_of s3.1 = pages_of s.1) as E3 by (unfold s3; by destruct b) end. clearbody s3.
  do 4 pages_step. change (pages_of d) with (pages_of (set_addr 0 d)). rewrite then_pages; [congruence|apply ctrl_pages].
Qed.

Lemma bring_up_pages fuel pc d k r irq d' k' : uhci_bring_up off fuel pc d k = Some (r, irq, (d', k')) -> pages_of d' = pages_of d.
Proof.
  unfold uhci_bring_up. destruct (wait_reset _ _ _) as [k1|]; [|done]. destruct (port_up d _) as [up k2]. destruct up; cbn [negb]; [|by intros [= _ _ <- _]].
  pose proof (setup_pages (d, k2)) as E. destruct (uhci_boot_setup off (d, k2)) as [r1 [d1 k3]]. cbn [fst snd] in E. destruct (negb _); [by intros [= _ _ <- _]|].
  unfold uhci_attach. destruct (get_bytes _ _ k3) as [cfg k4]. destruct (uhci_parse_config _ _ _) as [mps|]; [|done]. unfold get_descriptor.
  match goal with |- context [uhci_ctrl off ?l ?a 18 true ?s] => pose proof (ctrl_pages l a 18 true s) as E2; destruct (uhci_ctrl off l a 18 true s) as [r2 [d2 k5]] end.
  cbn [fst snd] in E2. intros [= _ _ <- _]. rewrite <- E. exact E2.
Qed.

(** C35: the USB driver keeps the controller in its place.  Whatever the
    attached device answers: bringing the controller up changes memory only
    in the nine frames taken for it, which were free; and from then on, under
    any sequence of interrupts and work of the controller, which follows the
    pointers it finds and may write status words and received data at any
    moment, the schedule it walks stays closed and no byte outside those
    frames changes. *)
Theorem uhci_confined fuel devices d k kb r irq d' k' :
  pmm_inv (vm_frames (k_vm k)) -> uhci_init off fuel devices (d, k) = Some (r, irq, (d', k')) ->
  (forall m : M, rtc (hc_step off (frame_list d')) (ram m) (ram (dma m))) ->
  let g := pages_of d' in
  same_out g (rm k) (rm k') /\
  (r = 0 -> (forall i, page_ix i -> page_free (vm_frames (k_vm k)) ((pg g i - off) / 4096) = true) /\
    forall st, rtc (uhci_step off) (d', k', kb) st -> same_out g (rm k') (rm st.1.2) /\ ring_ok off g (rm st.1.2)).
Proof.
  intros Hi E Hdma g. destruct (init_cases _ _ _ _ _ _ _ _ Hi E) as [(-> & _ & Er)|(pc & d1 & k1 & fs & Hp & Hl & Hnd & Hall & Er & Eb)]; [split; [by rewrite Er|done]|].
  set (g1 := map (fun f => 4096 * f + off) fs) in *. assert (pages_ok off g1) as Hg by (apply nine_pages; [done|done|]; eapply Forall_impl; [|exact Hall]; by intros f [? _]).
  pose proof (bring_up_pages _ _ _ _ _ _ _ _ Eb) as Eg. rewrite Hp in Eg. fold g in Eg. assert (frame_list d' = pg g1 0) as Hfl by (rewrite <- Eg; done). rewrite Hfl in Hdma.
  destruct (bring_up_ok _ _ _ _ _ _ _ _ g1 Hp Hg Hdma Eb) as (_ & Ho & Hu). rewrite Eg, <- Er. split; [exact Ho|]. intros H0. split.
  - intros i Hpi. destruct (fs !! Z.to_nat i) as [f|] eqn:Ef; [|apply lookup_ge_None in Ef; unfold page_ix in Hpi; lia].
    assert (pg g1 i = 4096 * f + off) as -> by (unfold pg, znth, zlookup, g1; rewrite (proj2 (Z.ltb_ge i 0)) by (unfold page_ix in Hpi; lia); by rewrite list_lookup_fmap, Ef).
    replace ((4096 * f + off - off) / 4096) with f by (rewrite Z.add_simpl_r, Z.mul_comm, Z.div_mul; done). apply (Forall_lookup_1 _ _ _ _ Hall Ef).
  - intros st Hst. destruct (uhci_steps_ok off g1 Hg Hram Hdma _ _ Hst (Hu H0)) as [[_ Hr _] Hs]. by split.
Qed.
End Start.

(** ** A concrete controller

    Its frame list is at frame 2; it ends the transfer of the second queue,
    if there is one, and leaves the others alone.  Every register reads 1. *)
Definition hc_frames : Z := 2 * 4096 + OFF.
Definition link_to (l : Z) : Z := 16 * (l / 16) + OFF.
Definition hc_turn (m : mem) : mem :=
  let l0 := load 4 m (hc_frames + 4 * 0) in
  let l1 := load 4 m (link_to l0 + qh_link) in
  let e := load 4 m (link_to l1 + qh_element) in
  let c := load 4 m (link_to e + td_control) in
  if negb (Z.testbit l0 0) && Z.testbit l0 1 && negb (Z.testbit l1 0) && Z.testbit l1 1 && negb (Z.testbit e 0) && negb (Z.testbit e 1) && Z.testbit c 23
  then store 4 m (link_to e + td_control) (c - 2 ^ 23) else m.

Lemma hc_turn_step m : rtc (hc_step OFF hc_frames) m (hc_turn m).
Proof.
  unfold hc_turn. cbv zeta. set (l0 := load 4 m (hc_frames + 4 * 0)). set (l1 := load 4 m (link_to l0 + qh_link)). set (e := load 4 m (link_to l1 + qh_element)). set (c := load 4 m (link_to e + td_control)).
  destruct (negb (Z.testbit l0 0) && _ && _ && _ && _ && _ && _) eqn:E; [|done]. repeat (apply andb_true_iff in E as [E ?]). rewrite !negb_true_iff in *.
  apply rtc_once, hc_status; [|done]. apply (v_element OFF hc_frames m (link_to l1)); [|by split_and!].
  apply (v_horizontal OFF hc_frames m (link_to l0)); [|by split_and!]. apply (v_frame OFF hc_frames m 0); [lia|by split_and!].
Qed.

#[local] Instance hc_device : DmaDevice mem := { reg_read r m := (0, m); reg_write r v m := m; ram m := m; set_ram x m := x; dma := hc_turn }.
#[local] Instance ones_ports : Ports unit := { outb a v p := p; inb a p := (1, p); outw a v p := p; inw a p := (1, p); outl a v p := p; inl a p := (1, p) }.

Definition usb_device : pci_device := mkPci 0 1 2 0x8086 0x7020 0x0C 0x03 0 11 [0; 0; 0; 0; 0xC041; 0] (replicate 6 false) (replicate 6 0).

Definition usb_machine : machine mem unit := mkMachine demo_vm tt (fun _ => 0).
Abbreviation usb_start := (uhci_init OFF 1 [usb_device] (uhci_boot, usb_machine)).
Lemma usb_start_value : option_map (fun '(r, irq, (d, _)) => (r, irq, frame_list d)) usb_start = Some (0, Some 11, hc_frames).
Proof. vm_compute. reflexivity. Qed.

Lemma started (u : option (Z * option Z * (uhci * machine mem unit))) r irq fl :
  option_map (fun '(r, irq, (d, _)) => (r, irq, frame_list d)) u = Some (r, irq, fl) -> exists d' k', u = Some (r, irq, (d', k')) /\ frame_list d' = fl.
Proof. destruct u as [[[r' irq'] [d' k']]|]; [|done]. cbn. intros [= -> -> <-]. eauto. Qed.

Lemma hhdm_fits : 0 < OFF /\ OFF + 2 ^ 32 <= 2 ^ 64.
Proof. unfold OFF. lia. Qed.

Lemma usb_frames_inv : pmm_inv (vm_frames demo_vm).
Proof. split; vm_compute; [split; discriminate|reflexivity]. Qed.

Lemma uhci_confined_witness :
  exists d' k', usb_start = Some (0, Some 11, (d', k')) /\ forall st, rtc (uhci_step OFF) (d', k', kbd0) st -> ring_ok OFF (pages_of d') (rm st.1.2).
Proof.
  destruct (started _ _ _ _ usb_start_value) as (d' & k' & E & Hf). exists d', k'. split; [exact E|]. intros st Hst.
  destruct (uhci_confined (DM := hc_device) (PT := ones_ports) OFF hhdm_fits (fun x m => eq_refl) 1 [usb_device] uhci_boot usb_machine kbd0 0 (Some 11) d' k' usb_frames_inv E) as [_ H].
  - intros m. rewrite Hf. apply hc_turn_step.
  - exact (proj2 (proj2 (H eq_refl) st Hst)).
Defined.
