(* ===== verification/Audio.v ===== *)
(** * The sound card driver (kernel/src/drivers/audio.c)

    A Sound Blaster 16: the DSP and the DMA controller are programmed through
    ports, the samples are in a page of memory they share.  [halt] is the
    sti; hlt pair: the CPU sleeps until an interrupt, and is told whether the
    card raised it.  Busy loops on the DSP need fuel: without it, [None]. *)
From S2P Require Import Prelude Mem FrameAlloc Pmm Task Sched Pmap Ports Dma.

Definition SB16_BASE : Z := 0x220.
Definition SB16_MIXER_ADDR : Z := SB16_BASE + 0x4.
Definition SB16_MIXER_DATA : Z := SB16_BASE + 0x5.
Definition SB16_DSP_RESET : Z := SB16_BASE + 0x6.
Definition SB16_DSP_READ : Z := SB16_BASE + 0xA.
Definition SB16_DSP_STATUS : Z := SB16_BASE + 0xC.
Definition SB16_DSP_WRITE : Z := SB16_BASE + 0xC.
Definition SB16_DSP_ACK : Z := SB16_BASE + 0xE.
Definition DSP_STATUS_IN_READY : Z := 0x80.
Definition DSP_STATUS_BUSY : Z := 0x80.
Definition DSP_CMD_OUT8 : Z := 0x14.
Definition DSP_CMD_SET_TC : Z := 0x40.
Definition DSP_CMD_VERSION : Z := 0xE1.
Definition DMA1_ADDR : Z := 0x02.
Definition DMA1_COUNT : Z := 0x03.
Definition DMA1_MASK : Z := 0x0A.
Definition DMA1_MODE : Z := 0x0B.
Definition DMA1_FF : Z := 0x0C.
Definition DMA1_PAGE : Z := 0x83.
Definition DMA_MODE_CH1_WRITE_SINGLE : Z := 0x49.
Definition AUDIO_DMA_SIZE : Z := 4096.
Definition AUDIO_HZ : Z := 22050.

(** The static variables. *)
Record sb16 := mkSb16 { sb16_present : bool; sb16_done : bool; sb16_busy : bool; dma_buf : Z; dma_buf_phys : Z }.
Definition sb16_boot : sb16 := mkSb16 false false false 0 0.
Definition set_done (v : bool) (s : sb16) : sb16 := mkSb16 (sb16_present s) v (sb16_busy s) (dma_buf s) (dma_buf_phys s).
Definition set_busy (v : bool) (s : sb16) : sb16 := mkSb16 (sb16_present s) (sb16_done s) v (dma_buf s) (dma_buf_phys s).

Class Halts (C : Type) := { halt : C -> bool * C }.

Section Audio.
Context {C : Type} `{DM : DmaDevice C} `{PT : Ports C} `{HL : Halts C}.
Implicit Types c : C.

Definition io_wait c : C := outb 0x80 0 c.

Fixpoint sb16_wait_write (fuel : nat) c : option C :=
  match fuel with
  | O => None
  | S f => let '(v, c) := inb SB16_DSP_STATUS c in if Z.land v DSP_STATUS_BUSY =? 0 then Some c else sb16_wait_write f (io_wait c)
  end.

Definition sb16_write_cmd (fuel : nat) (v : Z) c : option C :=
  match sb16_wait_write fuel c with None => None | Some c => Some (outb SB16_DSP_WRITE v c) end.

(** At most [n] looks until the DSP has a byte; the byte. *)
Fixpoint dsp_read (n : nat) c : option Z * C :=
  match n with
  | O => (None, c)
  | S n' =>
      let '(v, c) := inb SB16_DSP_ACK (io_wait c) in
      if Z.land v DSP_STATUS_IN_READY =? 0 then dsp_read n' c else let '(b, c) := inb SB16_DSP_READ c in (Some b, c)
  end.

Definition sb16_reset c : bool * C :=
  let c := outb SB16_DSP_RESET 1 c in
  let c := for_range 1000 0 (fun _ => io_wait) c in
  let c := outb SB16_DSP_RESET 0 c in
  let '(b, c) := dsp_read (Z.to_nat 100000) c in
  (match b with Some v => v =? 0xAA | None => false end, c).

Definition sb16_read_version (fuel : nat) c : option C :=
  match sb16_write_cmd fuel DSP_CMD_VERSION c with
  | None => None
  | Some c =>
      let '(maj, c) := dsp_read (Z.to_nat 100000) c in
      match maj with None => Some c | Some _ => Some (dsp_read (Z.to_nat 100000) c).2 end
  end.

(** The time constant of a rate. *)
Definition time_constant (hz : Z) : Z := u8 (256 - 1000000 / hz).
Definition sb16_set_rate (fuel : nat) (hz : Z) c : option C :=
  match sb16_write_cmd fuel DSP_CMD_SET_TC c with None => None | Some c => sb16_write_cmd fuel (time_constant hz) c end.

Definition mixer_write (reg v : Z) c : C := io_wait (outb SB16_MIXER_DATA v (io_wait (outb SB16_MIXER_ADDR reg c))).

Definition sb16_irq (st : sb16 * C) : sb16 * C := let '(s, c) := st in (set_done true s, (inb SB16_DSP_ACK c).2).

Definition dma_start_8bit (s : sb16) (count : Z) c : C :=
  let c := outb DMA1_MASK (Z.lor 0x04 0x01) c in
  let c := outb DMA1_FF 0 c in
  let c := outb DMA1_ADDR (Z.land (dma_buf_phys s) 0xFF) c in
  let c := outb DMA1_ADDR (Z.land (Z.shiftr (dma_buf_phys s) 8) 0xFF) c in
  let c := outb DMA1_FF 0 c in
  let c := outb DMA1_COUNT (Z.land count 0xFF) c in
  let c := outb DMA1_COUNT (Z.shiftr count 8) c in
  let c := outb DMA1_PAGE (Z.land (Z.shiftr (dma_buf_phys s) 16) 0xFF) c in
  let c := outb DMA1_MODE DMA_MODE_CH1_WRITE_SINGLE c in
  outb DMA1_MASK 0x01 c.

Definition sb16_start_out (fuel : nat) (count : Z) c : option C :=
  match sb16_write_cmd fuel DSP_CMD_OUT8 c with
  | None => None
  | Some c =>
      match sb16_write_cmd fuel (Z.land count 0xFF) c with
      | None => None
      | Some c => sb16_write_cmd fuel (Z.shiftr count 8) c
      end
  end.

(** The CPU halts; an interrupt of the card runs its handler. *)
Definition sleep (st : sb16 * C) : sb16 * C :=
  let '(s, c) := st in let '(mine, c) := halt c in if mine then sb16_irq (s, c) else (s, c).

Fixpoint wait_done_loop (n : nat) (st : sb16 * C) : sb16 * C :=
  match n with
  | O => st
  | S n' =>
      let '(s, c) := st in
      if sb16_done s then (s, c)
      else
        let c := outb DMA1_FF 0 c in
        let '(lo, c) := inb DMA1_COUNT c in
        let '(hi, c) := inb DMA1_COUNT c in
        if u16 (Z.lor lo (Z.shiftl hi 8)) =? 0 then (s, c) else wait_done_loop n' (sleep (s, c))
  end.
Definition sb16_wait_done (st : sb16 * C) : sb16 * C := wait_done_loop (Z.to_nat 20000) (set_done false st.1, st.2).

(** [while (sb16_busy)]: nothing clears it while this task sleeps but another
    task's write, so the loop needs fuel. *)
Fixpoint wait_idle (fuel : nat) (st : sb16 * C) : option (sb16 * C) :=
  match fuel with O => None | S f => if sb16_busy st.1 then wait_idle f (sleep st) else Some st end.

Fixpoint play_loop (turns fuel : nat) (buf : list Z) (st : sb16 * C) : option (sb16 * C) :=
  match buf with
  | [] => Some st
  | _ =>
      match turns with
      | O => None
      | S t =>
          let '(s, c) := st in
          let chunk := Z.min (zlen buf) AUDIO_DMA_SIZE in
          let c := put_bytes_mem (dma_buf s) (take (Z.to_nat chunk) buf) c in
          let c := dma_start_8bit s (u16 (chunk - 1)) c in
          match sb16_start_out fuel (u16 (chunk - 1)) c with
          | None => None
          | Some c => play_loop t fuel (drop (Z.to_nat chunk) buf) (sb16_wait_done (s, c))
          end
      end
  end.

Definition audio_write (fuel : nat) (buf : list Z) (st : sb16 * C) : option (Z * (sb16 * C)) :=
  let n := zlen buf in
  if negb (sb16_present st.1) then Some (s32 n, st)
  else if n =? 0 then Some (s32 n, st)
  else
    match wait_idle fuel st with
    | None => None
    | Some (s, c) =>
        match play_loop (length buf) fuel buf (set_busy true s, c) with
        | None => None
        | Some (s, c) => Some (s32 n, (set_busy false s, c))
        end
    end.

Definition audio_read (n : Z) : Z * list Z := (0, []).

(** Up to eight tries for a frame the DMA controller can reach. *)
Fixpoint alloc_low (off : Z) (n : nat) (s : sb16) (f : pmm) : sb16 * pmm :=
  match n with
  | O => (s, f)
  | S n' =>
      let '(b, f) := pmm_alloc_dma off 1 f in
      if b =? 0 then (s, f)
      else
        let pa := virt_to_phys off b in
        if pa <? 16 * 1024 * 1024 then (mkSb16 (sb16_present s) (sb16_done s) (sb16_busy s) b (u32 pa), f)
        else alloc_low off n' s (pmm_free off b 1 f)
  end.

(** The result (0: the handler of line 5 is registered and /dev/audio
    mounted), the driver, the frames and the card. *)
Definition audio_init (off : Z) (fuel : nat) (s : sb16) (f : pmm) c : option (Z * sb16 * pmm * C) :=
  let '(ok, c) := sb16_reset c in
  if negb ok then Some (-1, s, f, c)
  else
    match sb16_read_version fuel c with
    | None => None
    | Some c =>
        match sb16_set_rate fuel AUDIO_HZ (mixer_write 0x04 0xFF (mixer_write 0x22 0xFF c)) with
        | None => None
        | Some c =>
            let '(s, f) := alloc_low off 8 s f in
            if dma_buf s =? 0 then Some (-1, s, f, c)
            else Some (0, mkSb16 true (sb16_done s) (sb16_busy s) (dma_buf s) (dma_buf_phys s), f, c)
        end
    end.
End Audio.
