(* ===== verification/AudioSpec.v ===== *)
(** * What the sound card plays

    A model of the DMA controller and the DSP, and that a write plays its
    samples in order. *)
From S2P Require Import Prelude Mem FrameAlloc Pmm Task Sched Pmap Ports Dma Audio.

(** Channel 1 of the 8237 with its byte pointer, and the command the DSP is
    being given.  A started output is [pending] until the CPU halts next; then
    it is played and the interrupt raised.  The count register reads all ones
    once the transfer is over. *)
Record card := mkCard {
  w_ram : mem; w_off : Z; w_high : bool; w_addr : Z; w_count : Z; w_page : Z; w_masked : bool;
  w_cmd : list Z; w_pending : list Z; w_played : list Z }.

Definition w_dma (high : bool) (addr count page : Z) (masked : bool) (c : card) : card :=
  mkCard (w_ram c) (w_off c) high addr count page masked (w_cmd c) (w_pending c) (w_played c).
Definition w_dsp (cmd pending played : list Z) (c : card) : card :=
  mkCard (w_ram c) (w_off c) (w_high c) (w_addr c) (w_count c) (w_page c) (w_masked c) cmd pending played.
Definition w_set_ram (m : mem) (c : card) : card :=
  mkCard m (w_off c) (w_high c) (w_addr c) (w_count c) (w_page c) (w_masked c) (w_cmd c) (w_pending c) (w_played c).

(** The byte the pointer selects is written. *)
Definition put_byte (high : bool) (r v : Z) : Z := if high then r mod 256 + 256 * v else r / 256 * 256 + v.
Definition get_byte (high : bool) (r : Z) : Z := if high then r / 256 mod 256 else r mod 256.

(** The samples of an output of [n] bytes: as many as both counts allow. *)
Definition samples (n : Z) (c : card) : list Z :=
  if w_masked c then [] else bytes_at (Z.to_nat (Z.min n (w_count c + 1))) (w_ram c) (w_page c * 65536 + w_addr c + w_off c).

Definition dsp_write (v : Z) (c : card) : card :=
  match w_cmd c with
  | [_] => w_dsp (w_cmd c ++ [v]) (w_pending c) (w_played c) c
  | [_; lo] => w_dsp [] (samples (lo + 256 * v + 1) c) (w_played c) c
  | _ => if v =? DSP_CMD_OUT8 then w_dsp [v] (w_pending c) (w_played c) c else c
  end.

#[export] Instance card_ports : Ports card := {
  outb a v c :=
    if a =? DMA1_FF then w_dma false (w_addr c) (w_count c) (w_page c) (w_masked c) c
    else if a =? DMA1_ADDR then w_dma (negb (w_high c)) (put_byte (w_high c) (w_addr c) v) (w_count c) (w_page c) (w_masked c) c
    else if a =? DMA1_COUNT then w_dma (negb (w_high c)) (w_addr c) (put_byte (w_high c) (w_count c) v) (w_page c) (w_masked c) c
    else if a =? DMA1_PAGE then w_dma (w_high c) (w_addr c) (w_count c) v (w_masked c) c
    else if a =? DMA1_MASK then w_dma (w_high c) (w_addr c) (w_count c) (w_page c) (if v mod 4 =? 1 then Z.testbit v 2 else w_masked c) c
    else if a =? SB16_DSP_WRITE then dsp_write v c
    else c;
  inb a c :=
    if a =? DMA1_COUNT then
      (get_byte (w_high c) (match w_pending c with [] => 0xFFFF | _ => w_count c end), w_dma (negb (w_high c)) (w_addr c) (w_count c) (w_page c) (w_masked c) c)
    else if a =? SB16_DSP_STATUS then (0, c)
    else if a =? SB16_DSP_READ then (0xAA, c)
    else (0x80, c);
  outw a v c := c; inw a c := (0, c); outl a v c := c; inl a c := (0, c);
}.
#[export] Instance card_dma : DmaDevice card := { reg_read r c := (0, c); reg_write r v c := c; ram := w_ram; set_ram := w_set_ram; dma c := c }.
#[export] Instance card_halts : Halts card := {
  halt c := match w_pending c with [] => (false, c) | l => (true, w_dsp (w_cmd c) [] (w_played c ++ l) c) end }.

(** The card is ready for a chunk, and the buffer is where it can reach. *)
Record fit (s : sb16) (c : card) : Prop := {
  ft_phys : 0 <= dma_buf_phys s /\ dma_buf_phys s + 4096 <= 2 ^ 24;
  ft_buf : dma_buf s = dma_buf_phys s + w_off c;
  ft_cmd : w_cmd c = [];
}.

Lemma three_bytes x : 0 <= x < 2 ^ 24 -> Z.land (Z.shiftr x 16) 0xFF * 65536 + (Z.land x 0xFF + 256 * Z.land (Z.shiftr x 8) 0xFF) = x.
Proof.
  intros Hx. change 0xFF with (2 ^ 8 - 1). rewrite !land_ones_mod, !Z.shiftr_div_pow2 by lia. change (2 ^ 8) with 256. change (2 ^ 16) with 65536.
  replace (x / 65536) with (x / 256 / 256) by (rewrite Z.div_div; done). rewrite (Z.mod_small (x / 256 / 256)) by lia. lia.
Qed.

(** The registers, one write at a time. *)
Section Writes.
Variables (m : mem) (o a n p : Z) (h k : bool) (cmd pe pl : list Z).
Lemma out_ff v : outb DMA1_FF v (mkCard m o h a n p k cmd pe pl) = mkCard m o false a n p k cmd pe pl. Proof. done. Qed.
Lemma out_addr v : outb DMA1_ADDR v (mkCard m o h a n p k cmd pe pl) = mkCard m o (negb h) (put_byte h a v) n p k cmd pe pl. Proof. done. Qed.
Lemma out_count v : outb DMA1_COUNT v (mkCard m o h a n p k cmd pe pl) = mkCard m o (negb h) a (put_byte h n v) p k cmd pe pl. Proof. done. Qed.
Lemma out_page v : outb DMA1_PAGE v (mkCard m o h a n p k cmd pe pl) = mkCard m o h a n v k cmd pe pl. Proof. done. Qed.
Lemma out_mode v : outb DMA1_MODE v (mkCard m o h a n p k cmd pe pl) = mkCard m o h a n p k cmd pe pl. Proof. done. Qed.
Lemma out_mask : outb DMA1_MASK (Z.lor 0x04 0x01) (mkCard m o h a n p k cmd pe pl) = mkCard m o h a n p true cmd pe pl. Proof. done. Qed.
Lemma out_unmask : outb DMA1_MASK 0x01 (mkCard m o h a n p k cmd pe pl) = mkCard m o h a n p false cmd pe pl. Proof. done. Qed.
Lemma dsp_out : dsp_write DSP_CMD_OUT8 (mkCard m o h a n p k [] pe pl) = mkCard m o h a n p k [DSP_CMD_OUT8] pe pl. Proof. done. Qed.
Lemma dsp_low v : dsp_write v (mkCard m o h a n p k [DSP_CMD_OUT8] pe pl) = mkCard m o h a n p k [DSP_CMD_OUT8; v] pe pl. Proof. done. Qed.
Lemma dsp_high lo v : dsp_write v (mkCard m o h a n p k [DSP_CMD_OUT8; lo] pe pl) =
  mkCard m o h a n p k [] (samples (lo + 256 * v + 1) (mkCard m o h a n p k [DSP_CMD_OUT8; lo] pe pl)) pl. Proof. done. Qed.
Lemma out_dsp f v : sb16_write_cmd (S f) v (mkCard m o h a n p k cmd pe pl) = Some (dsp_write v (mkCard m o h a n p k cmd pe pl)). Proof. done. Qed.
End Writes.

(** After a chunk of [l] is programmed and started, its bytes are pending. *)
Lemma start_chunk s c l fuel : fit s c -> (0 < fuel)%nat -> 0 < zlen l <= 4096 -> Forall (fun b => 0 <= b < 256) l ->
  let c1 := dma_start_8bit s (u16 (zlen l - 1)) (put_bytes_mem (dma_buf s) l c) in
  exists c2, sb16_start_out fuel (u16 (zlen l - 1)) c1 = Some c2 /\ w_pending c2 = l /\ w_played c2 = w_played c /\ w_count c2 = zlen l - 1 /\ w_off c2 = w_off c /\ w_cmd c2 = [].
Proof.
  intros [Hp Hb Hc] Hf Hl Hall c1. destruct fuel as [|fuel]; [lia|]. assert (u16 (zlen l - 1) = zlen l - 1) as Hu by (apply Z.mod_small; lia).
  unfold c1, dma_start_8bit, put_bytes_mem. rewrite Hu. clear Hu c1. destruct c as [m o hi a n pg mk cmd pe pl]. cbn in Hc, Hb. subst cmd.
  change (set_ram _ _) with (mkCard (write_bytes m (dma_buf s) l) o hi a n pg mk [] pe pl).
  rewrite out_mask, out_ff, !out_addr, out_ff, !out_count, out_page, out_mode, out_unmask. cbn [negb].
  unfold sb16_start_out. set (lo := Z.land (zlen l - 1) 0xFF). rewrite out_dsp, dsp_out, out_dsp, dsp_low, out_dsp, dsp_high.
  assert (forall x, 0 <= Z.land x 0xFF < 256) as Hbyte by (intros x; change 0xFF with (2 ^ 8 - 1); rewrite land_ones_mod by done; by apply Z.mod_pos_bound).
  assert (forall x y z, 0 <= y < 256 -> put_byte true (put_byte false x y) z = y + 256 * z) as Hword by (intros x y z Hy; unfold put_byte; f_equal; rewrite Z.add_comm, Z.mod_add, Z.mod_small; lia).
  rewrite !Hword by apply Hbyte. clear Hword.
  assert (lo + 256 * Z.shiftr (zlen l - 1) 8 = zlen l - 1) as Hcnt.
  { unfold lo. change 0xFF with (2 ^ 8 - 1). rewrite land_ones_mod, Z.shiftr_div_pow2 by lia. change (2 ^ 8) with 256. lia. }
  eexists. split; [reflexivity|]. cbn [w_pending w_played w_count w_off w_cmd]. unfold samples. cbn [w_masked w_count w_ram w_page w_addr w_off]. rewrite three_bytes, Hcnt by lia. split_and!; try done.
  rewrite Z.min_id. replace (Z.to_nat (zlen l - 1 + 1)) with (length l) by (unfold zlen; lia). rewrite <- Hb, bytes_at_write_bytes.
  clear -Hall. induction Hall as [|b l Hb _ IH]; [done|]. cbn [map]. by rewrite IH, u8_small.
Qed.

(** The wait: the output is played, unless it is a single byte, whose count
    reads 0 from the start; then it is still pending. *)
Lemma wait_chunk s c : w_pending c <> [] -> w_count c = zlen (w_pending c) - 1 -> w_count c < 65536 ->
  let st := sb16_wait_done (s, c) in
  w_played st.2 ++ w_pending st.2 = w_played c ++ w_pending c /\ (1 < zlen (w_pending c) -> w_pending st.2 = []) /\
  w_off st.2 = w_off c /\ w_cmd st.2 = w_cmd c /\ st.1 = set_done (sb16_done st.1) s.
Proof.
  intros Hne Hc Hlt. unfold sb16_wait_done. cbn [fst snd]. change (Z.to_nat 20000) with (S (S (Z.to_nat 19998))). set (n := Z.to_nat 19998). clearbody n. cbn [wait_done_loop sb16_done set_done].
  destruct c as [m o hi a cnt pg mk cmd pe pl]. cbn [w_pending w_count w_played w_off w_cmd] in *. rewrite out_ff.
  assert (forall h, inb DMA1_COUNT (mkCard m o h a cnt pg mk cmd pe pl) = (get_byte h cnt, mkCard m o (negb h) a cnt pg mk cmd pe pl)) as Hin by (intros h; destruct pe; done).
  rewrite !Hin. clear Hin. cbn [negb get_byte].
  assert (0 <= cnt) as H0 by (destruct pe; [done|unfold zlen in Hc; cbn [length] in Hc; lia]).
  assert (u16 (Z.lor (cnt mod 256) (Z.shiftl (cnt / 256 mod 256) 8)) = cnt) as ->.
  { rewrite Z.lor_comm, lor_shiftl_add by (try done; by apply Z.mod_pos_bound). change (2 ^ 8) with 256. rewrite (Z.mod_small (cnt / 256)) by lia. rewrite u16_small by lia. lia. }
  destruct (Z.eqb_spec cnt 0) as [E|E]; [cbn; split_and!; try done; lia|].
  destruct pe as [|b pe]; [done|]. unfold sleep. cbn. rewrite app_nil_r. by split_and!.
Qed.

Lemma play_ok fuel turns : forall buf s c, (0 < fuel)%nat -> (length buf <= turns)%nat -> Forall (fun b => 0 <= b < 256) buf -> fit s c -> w_pending c = [] ->
  exists s' c', play_loop turns fuel buf (s, c) = Some (s', c') /\ w_played c' ++ w_pending c' = w_played c ++ buf /\
    (zlen buf mod 4096 <> 1 -> w_pending c' = []) /\ s' = set_done (sb16_done s') s.
Proof.
  induction turns as [|t IH]; intros buf s c Hf Hn Hall Hfit Hpend.
  { destruct buf; [|cbn in Hn; lia]. exists s, c. split; [done|]. rewrite Hpend. split; [done|]. split; [done|by destruct s]. }
  destruct (decide (buf = [])) as [->|Hne]; [exists s, c; split; [done|]; rewrite Hpend; split; [done|]; split; [done|by destruct s]|].
  assert (0 < zlen buf) as Hlen by (destruct buf; [done|unfold zlen; cbn; lia]).
  set (chunk := Z.min (zlen buf) 4096). assert (0 < chunk <= 4096 /\ chunk <= zlen buf) as Hc by lia. set (l := take (Z.to_nat chunk) buf).
  assert (zlen l = chunk) as Hl by (unfold l, zlen in *; rewrite length_take; lia).
  assert (Forall (fun b => 0 <= b < 256) l) as Hall1 by (by apply Forall_take).
  pose proof (start_chunk s c l fuel Hfit Hf ltac:(lia) Hall1) as (c2 & E2 & P2 & Q2 & N2 & O2 & D2). rewrite Hl in E2. cbv zeta in E2.
  assert (l <> []) as Hln by (intros E; rewrite E in Hl; unfold zlen in Hl; cbn in Hl; lia).
  destruct (wait_chunk s c2) as (W1 & W2 & W3 & W4 & W5); [by rewrite P2|by rewrite P2|lia|].
  assert (exists s3 c3, sb16_wait_done (s, c2) = (s3, c3)) as (s3 & c3 & E3) by (destruct (sb16_wait_done (s, c2)); eauto). rewrite E3 in *. cbn [fst snd] in *. rewrite P2, Q2 in W1. rewrite P2, Hl in W2.
  assert (forall R, R (play_loop t fuel (drop (Z.to_nat chunk) buf) (s3, c3)) -> R (play_loop (S t) fuel buf (s, c))) as Hstep.
  { intros R HR. destruct buf as [|b0 buf']; [done|]. cbn [play_loop]. change AUDIO_DMA_SIZE with 4096. fold chunk. fold l. rewrite E2, E3. exact HR. }
  destruct (decide (chunk = 4096)) as [Hfull|Hpart].
  - destruct (IH (drop (Z.to_nat chunk) buf) s3 c3) as (s' & c' & E & H1 & H2 & H3); [done|rewrite length_drop; unfold zlen in *; lia|by apply Forall_drop| |apply W2; lia|].
    + destruct Hfit as [F1 F2 F3]. rewrite W5. split; cbn; [done|congruence|congruence].
    + exists s', c'. split; [by apply (Hstep (fun x => x = _))|]. rewrite (W2 ltac:(lia)), app_nil_r in W1. rewrite H1, W1, <- (app_assoc _ l). unfold l. rewrite take_drop. split; [done|].
      split; [|rewrite H3, W5; done]. intros Hm. apply H2. intros Hm'. apply Hm. rewrite <- Hm'. unfold zlen in *. rewrite length_drop.
      replace (Z.of_nat (length buf)) with (Z.of_nat (length buf - Z.to_nat chunk) + 1 * 4096) by lia. by rewrite Z.mod_add.
  - assert (drop (Z.to_nat chunk) buf = []) as Hd by (apply drop_ge; unfold zlen in *; lia). assert (l = buf) as Hlb by (unfold l; apply take_ge; unfold zlen in *; lia).
    exists s3, c3. split; [apply (Hstep (fun x => x = _)); rewrite Hd; by destruct t|]. rewrite <- Hlb at 1. split; [done|]. split; [|done]. intros Hm. apply W2.
    rewrite Z.mod_small in Hm by lia. lia.
Qed.

(** A write plays all of its samples in order, in pieces of at most a page;
    when the last piece is a single byte, it may still be on its way. *)
Theorem audio_write_plays fuel buf s c :
  (0 < fuel)%nat -> sb16_present s = true -> sb16_busy s = false -> Forall (fun b => 0 <= b < 256) buf -> zlen buf < 2 ^ 31 -> fit s c -> w_pending c = [] ->
  exists s' c', audio_write fuel buf (s, c) = Some (zlen buf, (s', c')) /\ w_played c' ++ w_pending c' = w_played c ++ buf /\
    (zlen buf mod 4096 <> 1 -> w_pending c' = []) /\ sb16_busy s' = false.
Proof.
  intros Hf Hpr Hbu Hall Hlt Hfit Hpend. unfold audio_write. cbn [fst]. rewrite Hpr. cbn [negb]. rewrite s32_small by (unfold zlen in *; lia). destruct (Z.eqb_spec (zlen buf) 0) as [E|E].
  - assert (buf = []) as -> by (destruct buf; [done|unfold zlen in E; cbn in E; lia]). exists s, c. rewrite Hpend. by split_and!.
  - destruct fuel as [|f]; [lia|]. cbn [wait_idle fst]. rewrite Hbu. destruct (play_ok (S f) (length buf) buf (set_busy true s) c) as (s' & c' & -> & H1 & H2 & H3); try done.
    { destruct Hfit. by split. }
    eexists _, _. split; [reflexivity|]. by split_and!.
Qed.

(** A transfer of one byte reads as over at once: the wait returns while the
    sample is still pending, and the next write replaces it. *)
Lemma one_byte_early : forall s m, let c := mkCard m 0 false 0 0 0 false [] [7] [] in sb16_done s = false -> w_pending (sb16_wait_done (s, c)).2 = [7].
Proof. intros s m c _. done. Qed.
