(* ===== verification/Lapic.v ===== *)
(** * The local APIC timer (kernel/src/sys/lapic.c)

    Registers in memory, the model-specific registers and the counter of
    timer interrupts as the calibration loop sees them: [pause] is a turn of
    that loop, during which interrupts may arrive. *)
From S2P Require Import Prelude Mem FrameAlloc Pmm Task Sched Pmap Ports Dma.

Definition MSR_APIC_BASE : Z := 0x1B.
Definition LAPIC_ID : Z := 0x020.
Definition LAPIC_EOI : Z := 0x0B0.
Definition LAPIC_SPURIOUS : Z := 0x0F0.
Definition LAPIC_TIMER_LVT : Z := 0x320.
Definition LAPIC_INIT_CNT : Z := 0x380.
Definition LAPIC_CUR_CNT : Z := 0x390.
Definition LAPIC_DIVIDE : Z := 0x3E0.
Definition LAPIC_VA : Z := 0xffffffffb0000000.
Definition LAPIC_VECTOR : Z := 48.
Definition TIMER_HZ : Z := 50.

Class CpuClock (M : Type) := {
  rdmsr : Z -> M -> Z;
  wrmsr : Z -> Z -> M -> M;
  pit_ticks : M -> Z;
  pause : M -> M;
}.

Section Lapic.
Context {M : Type} `{DM : DmaDevice M} `{CK : CpuClock M} {P : Type} `{PT : Ports P}.
Variables (off kernel_pml4 : Z).
Implicit Types (k : machine M P).

Definition lapic_read (reg : Z) (m : M) : Z * M := reg_read reg m.
Definition lapic_write (reg v : Z) (m : M) : M := reg_write reg v m.

(** [lapic] is the address the registers are mapped at, 0 before. *)
Definition lapic_active (lapic : Z) : bool := negb (lapic =? 0).
Definition lapic_eoi (lapic : Z) (m : M) : M := if lapic_active lapic then lapic_write LAPIC_EOI 0 m else m.

(** Without enough ticks the loop does not end: [None] without fuel. *)
Fixpoint wait_ticks (fuel : nat) (target : Z) (m : M) : option M :=
  match fuel with
  | O => None
  | S f => if pit_ticks m <? target then wait_ticks f target (pause m) else Some m
  end.

(** From the counts in three ticks to counts a second. *)
Definition ticks_frequency (elapsed : Z) : Z := u32 (elapsed * 182065 / (3 * 10000)).

Definition calibrate_frequency (fuel : nat) (m : M) : option (Z * M) :=
  let m := lapic_write LAPIC_DIVIDE 0xB m in
  let m := lapic_write LAPIC_TIMER_LVT (Z.lor 0x10000 0xFF) m in
  let m := lapic_write LAPIC_INIT_CNT 0xFFFFFFFF m in
  match wait_ticks fuel 3 m with
  | None => None
  | Some m =>
      let '(cur, m) := lapic_read LAPIC_CUR_CNT m in
      let elapsed := u32 (0xFFFFFFFF - cur) in
      Some (ticks_frequency elapsed, lapic_write LAPIC_INIT_CNT 0 (lapic_write LAPIC_TIMER_LVT 0x10000 m))
  end.

(** Enable the unit, if it is not, and map its registers. *)
Definition lapic_map k : machine M P :=
  let base_msr := rdmsr MSR_APIC_BASE (k_dev k) in
  let '(base_msr, k) :=
    if Z.land base_msr (Z.shiftl 1 11) =? 0 then
      let v := Z.lor base_msr (Z.shiftl 1 11) in (v, with_dev (wrmsr MSR_APIC_BASE v) k)
    else (base_msr, k) in
  let phys := Z.land base_msr 0xFFFFF000 in
  with_vm (pmap_map (H := pmm_frame_alloc off) off kernel_pml4 LAPIC_VA phys (Z.lor (Z.lor PTE_WRITE PTE_NOCACHE) PTE_PRESENT)) k.

(** The result, the address of the registers and the machine. *)
Definition lapic_init (fuel : nat) k : option (bool * Z * machine M P) :=
  let k := lapic_map k in
  let '(_, m) := lapic_read LAPIC_ID (k_dev k) in
  let m := lapic_write LAPIC_SPURIOUS (Z.lor 0xFF 0x100) m in
  match calibrate_frequency fuel m with
  | None => None
  | Some (freq, m) =>
      if freq =? 0 then Some (false, LAPIC_VA, mkMachine (k_vm k) (k_ports k) m)
      else
        let '(pic, p) := inb 0x21 (k_ports k) in
        let p := outb 0x21 (u8 (Z.lor pic 0x01)) p in
        let m := lapic_write LAPIC_DIVIDE 0xB m in
        let m := lapic_write LAPIC_TIMER_LVT (Z.lor LAPIC_VECTOR 0x20000) m in
        let m := lapic_write LAPIC_INIT_CNT (freq / TIMER_HZ) m in
        Some (true, LAPIC_VA, mkMachine (k_vm k) p m)
  end.
End Lapic.

(** * The period of the timer

    A unit with a bank of registers and a counter that runs down by [a_rate]
    in a turn of the calibration loop, a tick of the interval timer. *)
Record apic := mkApic { a_ram : mem; a_regs : Z -> Z; a_msr : Z; a_ticks : Z; a_rate : Z }.
Definition a_set (r v : Z) (a : apic) : apic := mkApic (a_ram a) (<[r := v]> (a_regs a)) (a_msr a) (a_ticks a) (a_rate a).

#[export] Instance apic_device : DmaDevice apic := {
  ram := a_ram;
  set_ram m a := mkApic m (a_regs a) (a_msr a) (a_ticks a) (a_rate a);
  dma a := a;
  reg_read r a := (a_regs a r, a);
  reg_write r v a := if r =? LAPIC_INIT_CNT then a_set LAPIC_CUR_CNT v (a_set r v a) else a_set r v a;
}.
#[export] Instance apic_clock : CpuClock apic := {
  rdmsr r a := a_msr a;
  wrmsr r v a := mkApic (a_ram a) (a_regs a) v (a_ticks a) (a_rate a);
  pit_ticks := a_ticks;
  pause a := mkApic (a_ram a) (<[LAPIC_CUR_CNT := a_regs a LAPIC_CUR_CNT - a_rate a]> (a_regs a)) (a_msr a) (a_ticks a + 1) (a_rate a);
}.

(** Counts up to 707 million in three ticks do not overflow the frequency. *)
Lemma frequency_exact e : 0 <= e <= 707000000 -> ticks_frequency e = e * 182065 / 30000.
Proof. intros He. unfold ticks_frequency. change (3 * 10000) with 30000. apply u32_small. split; [apply Z.div_pos; lia|apply Z.div_lt_upper_bound; lia]. Qed.

(** Above, they do: the timer would be set for a slower clock. *)
Example frequency_wraps : ticks_frequency 708000000 < 708000000 * 182065 / 30000.
Proof. vm_compute. reflexivity. Qed.

(** The timer is left periodic on its vector, with a fiftieth of the counts a
    second that were measured. *)
Lemma calibrate_value a : a_ticks a = 0 -> 0 < a_rate a -> 3 * a_rate a <= 707000000 ->
  exists a', calibrate_frequency 4 a = Some (3 * a_rate a * 182065 / 30000, a') /\ a_rate a' = a_rate a.
Proof.
  intros Ht Hr Hm. unfold calibrate_frequency. destruct a as [m r msr t rate]. cbn [a_ticks a_rate] in *. subst t.
  unfold lapic_write, lapic_read. cbn -[u32 ticks_frequency insert Z.mul Z.div Z.sub]. eexists (mkApic _ _ _ _ rate). split; [|done]. f_equal. apply pair_equal_spec. split; [|reflexivity].
  rewrite !fn_lookup_insert. cbn [a_regs]. rewrite fn_lookup_insert. replace (4294967295 - (4294967295 - rate - rate - rate)) with (3 * rate) by lia. rewrite u32_small by lia. apply frequency_exact; lia.
Qed.
