(* ===== verification/Boot.v ===== *)
(** * Start-up (kernel/src/main.c)

    [start] is the body of [_start], from the boot loader's answers to the
    first task, with every driver's start in its place.  A device has its own
    view of memory: [on_device] hands it the kernel's and takes it back.  The
    kernel heap's start is not repeated here (the heap is an argument), nor
    are the messages; the reads of the disk
    while file systems are looked for do not change what later code reads. *)
From S2P Require Import Prelude Net Font Screen Kbd Mouse Mem FrameAlloc Pmm Task Sched Pipe Pmap Libk Vfs Block Ext2 Devfs SysState Elf SysProc Syscall Idt Ports Ps2 Pci Dma Ahci E1000 Uhci Audio Lapic.

(** ** The system call registers (kernel/src/sys/syscall.c) *)

Definition MSR_EFER : Z := 0xC0000080.
Definition MSR_STAR : Z := 0xC0000081.
Definition MSR_LSTAR : Z := 0xC0000082.
Definition MSR_FMASK : Z := 0xC0000084.
Definition MSR_GS_BASE : Z := 0xC0000101.
Definition EFER_SCE : Z := 1.
Definition STAR_VALUE : Z := Z.lor (Z.shiftl GDT_KERNEL_CODE 32) (Z.shiftl GDT_KERNEL_DATA 48).

(** [entry] and [cpu]: the addresses of [syscall_entry] and [bsp_cpu]. *)
Definition syscall_init {M : Type} `{CK : CpuClock M} (entry cpu : Z) (m : M) : M :=
  let m := wrmsr MSR_EFER (Z.lor (rdmsr MSR_EFER m) EFER_SCE) m in
  let m := wrmsr MSR_STAR STAR_VALUE m in
  let m := wrmsr MSR_LSTAR entry m in
  let m := wrmsr MSR_FMASK 0x200 m in
  wrmsr MSR_GS_BASE cpu m.

(** How a part of the start ends: it goes on, the CPU is halted for good
    ([hcf]), or it does not end or the CPU faults. *)
Inductive progress (X : Type) := Go (x : X) | Halted | Stuck.
Arguments Go {X} _.
Arguments Halted {X}.
Arguments Stuck {X}.
Definition and_go {X Y} (x : progress X) (f : X -> progress Y) : progress Y := match x with Go a => f a | Halted => Halted | Stuck => Stuck end.
Definition of_option {X} (x : option X) : progress X := match x with Some a => Go a | None => Stuck end.
Notation "'let*' x ':=' e 'in' f" := (and_go e (fun x => f)) (at level 10, x pattern, e at level 200, f at level 200).

(** What the boot loader answers, and addresses of code and static data. *)
Record loader := mkLoader {
  l_framebuffer : option limine_framebuffer;
  l_hhdm : option Z;
  l_memmap : option (list memmap_entry);
  l_initrd : option (list Z * Z);
}.
Record image_addrs := mkAddrs {
  a_tss : Z; a_stub : Z -> Z; a_syscall_entry : Z; a_bsp_cpu : Z;
  a_pool : Z; a_dev : chardev -> Z; a_idle : Z; a_first_entry : Z;
}.

Section Boot.
Context {KH : Type} `{NH : NodeHeap KH} {P : Type} `{PT : Ports P}.
Context {MA : Type} `{DA : DmaDevice MA} `{CA : CpuClock MA}.
Context {MC : Type} `{DC : DmaDevice MC} `{PC : Ports MC} `{HC : Halts MC}.
Context {MN : Type} `{DN : DmaDevice MN} {MU : Type} `{DU : DmaDevice MU} {MH : Type} `{DH : DmaDevice MH}.

(** The state: the kernel's, the devices, and the drivers' variables. *)
Record world := mkWorld {
  w_sys : sys pmm KH (e1000 * MN);
  w_ports : P; w_apic : MA; w_sound : MC; w_usb : MU; w_hba : MH;
  w_kernel_pml4 : Z; w_lapic : Z;
  w_sb16 : sb16; w_uhci : uhci; w_ahci : ahci; w_blocks : blocks; w_ext2 : ext2;
  w_idt : list idt_entry; w_gdt : list Z; w_irqs : list Z; w_fpu : fpu;
}.
Implicit Types w : world.

Definition with_sys (f : sys pmm KH (e1000 * MN) -> sys pmm KH (e1000 * MN)) w : world :=
  mkWorld (f (w_sys w)) (w_ports w) (w_apic w) (w_sound w) (w_usb w) (w_hba w) (w_kernel_pml4 w) (w_lapic w)
    (w_sb16 w) (w_uhci w) (w_ahci w) (w_blocks w) (w_ext2 w) (w_idt w) (w_gdt w) (w_irqs w) (w_fpu w).
Definition with_fs (f : vfs KH -> vfs KH) w : world := with_sys (fun s => set_fsys (f (fsys s)) s) w.
Definition set_ports (p : P) w : world :=
  mkWorld (w_sys w) p (w_apic w) (w_sound w) (w_usb w) (w_hba w) (w_kernel_pml4 w) (w_lapic w)
    (w_sb16 w) (w_uhci w) (w_ahci w) (w_blocks w) (w_ext2 w) (w_idt w) (w_gdt w) (w_irqs w) (w_fpu w).
Definition set_fpu (f : fpu) w : world :=
  mkWorld (w_sys w) (w_ports w) (w_apic w) (w_sound w) (w_usb w) (w_hba w) (w_kernel_pml4 w) (w_lapic w)
    (w_sb16 w) (w_uhci w) (w_ahci w) (w_blocks w) (w_ext2 w) (w_idt w) (w_gdt w) (w_irqs w) f.
Definition set_cpu (a : MA) (pml4 lapic : Z) (idt : list idt_entry) (gdt : list Z) w : world :=
  mkWorld (w_sys w) (w_ports w) a (w_sound w) (w_usb w) (w_hba w) pml4 lapic
    (w_sb16 w) (w_uhci w) (w_ahci w) (w_blocks w) (w_ext2 w) idt gdt (w_irqs w) (w_fpu w).
Definition set_sound (d : sb16) (c : MC) (irqs : list Z) w : world :=
  mkWorld (w_sys w) (w_ports w) (w_apic w) c (w_usb w) (w_hba w) (w_kernel_pml4 w) (w_lapic w)
    d (w_uhci w) (w_ahci w) (w_blocks w) (w_ext2 w) (w_idt w) (w_gdt w) irqs (w_fpu w).
Definition set_usb (d : uhci) (m : MU) (irqs : list Z) w : world :=
  mkWorld (w_sys w) (w_ports w) (w_apic w) (w_sound w) m (w_hba w) (w_kernel_pml4 w) (w_lapic w)
    (w_sb16 w) d (w_ahci w) (w_blocks w) (w_ext2 w) (w_idt w) (w_gdt w) irqs (w_fpu w).
Definition set_disk (a : ahci) (m : MH) (b : blocks) (x : ext2) w : world :=
  mkWorld (w_sys w) (w_ports w) (w_apic w) (w_sound w) (w_usb w) m (w_kernel_pml4 w) (w_lapic w)
    (w_sb16 w) (w_uhci w) a b x (w_idt w) (w_gdt w) (w_irqs w) (w_fpu w).

(** The machine a device's driver works on, and what it leaves: the frames,
    page tables and memory, and the ports. *)
Definition on_device {M} `{DM : DmaDevice M} (dev : M) w : machine M P := Dma.mkMachine (vmm (w_sys w)) (w_ports w) (set_ram (vm_mem (vmm (w_sys w))) dev).
Definition off_device {M} `{DM : DmaDevice M} (k : machine M P) w : world :=
  with_sys (set_vmm (set_mem (ram (k_dev k)) (k_vm k))) (set_ports (k_ports k) w).

Variables (fuel : nat) (ld : loader) (im : image_addrs).
#[local] Instance boot_frames (off : Z) : FrameAlloc pmm := pmm_frame_alloc off.

(** ** Screen, memory, processor *)

Definition start_screen w : world :=
  let w := set_ports (serial_init (w_ports w)) w in
  let w := match l_framebuffer ld with
           | Some f => with_sys (fun s => set_scr (tty_init (Some f) (scr s)) s) w
           | None => w
           end in
  set_ports (mouse_enable (w_ports w)) (with_sys (fun s => set_mous (mouse_init (scr s) (mous s)) s) w).

Definition start_memory (off : Z) (entries : list memmap_entry) w : progress world :=
  let w := with_sys (fun s => set_vmm (set_frames (pmm_init off (Some entries) (vm_frames (vmm s))) (vmm s)) s) w in
  let '(gdt, t, fr) := gdt_init (FA := boot_frames off) (a_tss im) (vm_frames (vmm (w_sys w))) in
  let w := with_sys (fun s => set_vmm (set_frames fr (vmm s)) s) w in
  let w := set_ports (foldl (fun p '(a, v) => outb a v p) (w_ports w) (pic_remap IRQ_BASE (IRQ_BASE + 8))) w in
  let w := set_fpu (fpu_init (w_fpu w)) w in
  let w := set_cpu (syscall_init (a_syscall_entry im) (a_bsp_cpu im) (w_apic w)) (w_kernel_pml4 w) (w_lapic w) (idt_init (a_stub im)) gdt w in
  let '(pml4, v) := pmap_create (H := boot_frames off) off (cr3 (sch (w_sys w))) (vmm (w_sys w)) in
  let w := with_sys (fun s => set_sch (pmap_load pml4 (sch s)) (set_vmm v s)) w in
  if pml4 =? 0 then Halted
  else
    let p := outb 0x40 0x00 (outb 0x40 0x00 (outb 0x43 0x36 (w_ports w))) in
    let w := set_cpu (w_apic w) pml4 (w_lapic w) (w_idt w) (w_gdt w) (set_ports p w) in
    let* (_, lapic, k) := of_option (lapic_init off pml4 fuel (on_device (w_apic w) w)) in
    let w := set_cpu (k_dev k) pml4 lapic (w_idt w) (w_gdt w) (off_device k w) in
    Go (with_sys (fun s => set_vmm (frame_refs_init (H := boot_frames off) entries (vmm s)) s) w).

(** ** Files *)

Definition mount_dev (name : list Z) (dev : chardev) w : world := with_fs (vfs_mount_dev (a_pool im) (sch (w_sys w)) name (a_dev im dev)) w.

Definition start_audio (off : Z) w : progress world :=
  let s := w_sys w in
  let* (r, d, f, c) := of_option (audio_init off fuel (w_sb16 w) (vm_frames (vmm s)) (set_ram (vm_mem (vmm s)) (w_sound w))) in
  let w := with_sys (set_vmm (mkVm (ram c) f (refs (vmm s)) (refs_pages (vmm s)))) w in
  if r =? 0 then Go (mount_dev (bs "audio") DevAudio (set_sound d c (5 :: w_irqs w) w)) else Go (set_sound d c (w_irqs w) w).

Definition start_files (off : Z) w : progress (bool * world) :=
  let tbl := sch (w_sys w) in
  let w := with_fs (fun v => vfs_mount_procfs (a_pool im) tbl (devfs_init (a_pool im) tbl (a_dev im) (vfs_init v))) w in
  let* w := start_audio off w in
  match l_initrd ld with
  | None => Go (false, w)
  | Some (img, size) =>
      let* (_, v) := of_option (vfs_load_initrd img size (fsys (w_sys w))) in
      Go (true, with_fs (fun _ => v) w)
  end.

(** ** Devices *)

Definition start_nic (off : Z) (devices : list pci_device) w : world :=
  let '(d, m) := nic (w_sys w) in
  let '(_, (d, k)) := e1000_init off (w_kernel_pml4 w) devices (d, on_device m w) in
  let w := off_device k w in
  let '(n, _, mounted) := net_init (d, k_dev k) in
  let w := with_sys (set_net n (d, k_dev k)) w in
  if mounted then mount_dev (bs "net") DevNet w else w.

Definition start_usb (off : Z) (devices : list pci_device) w : progress world :=
  let* (_, irq, (d, k)) := of_option (uhci_init off fuel devices (w_uhci w, on_device (w_usb w) w)) in
  Go (set_usb d (k_dev k) (match irq with Some i => i :: w_irqs w | None => w_irqs w end) (off_device k w)).

(** What a read of the disk gives. *)
#[local] Instance ahci_disk (off : Z) : Disk (ahci * machine MH P) := {
  disk_read x id lba n := (ahci_read_sectors off id lba n x.1 x.2).1;
  disk_write x id lba l := (-1, x);
}.

(** The partitions, and the file system, on the disk or on its first one. *)
Definition find_root (off : Z) (a : ahci) (k : machine MH P) (b : blocks) (x : ext2) (h : KH) : progress (blocks * ext2 * KH) :=
  let '(b, h) := partition_init (DK := ahci_disk off) (a, k) b h in
  let mount name fs h := match ext2_mount (DK := ahci_disk off) (a, k) b name fs h with Datatypes.inl (r, h) => Go (r, h) | Datatypes.inr _ => Stuck end in
  let listing fs h := match bind (ext2_list_dir (DK := ahci_disk off) (a, k) b fs (bs "/")) (fun _ => ext2_list_dir (DK := ahci_disk off) (a, k) b fs (bs "/bin")) h with
                      | Datatypes.inl (_, h) => Go h | Datatypes.inr _ => Stuck end in
  let* (ok, fs, h) := mount (bs "sda") x h in
  if ok then let* h := listing fs h in Go (b, fs, h)
  else
    let* (ok, fs, h) := mount (bs "sda1") fs h in
    if ok then let* h := listing fs h in Go (b, fs, h) else Go (b, fs, h).

Definition start_disk (off : Z) (devices : list pci_device) w : progress world :=
  let* (ok, (a, k), b) := of_option (ahci_init off (w_kernel_pml4 w) fuel devices (w_ahci w, on_device (w_hba w) w) (w_blocks w)) in
  let w := set_disk a (k_dev k) b (w_ext2 w) (off_device k w) in
  if negb ok then Go w
  else
    let* (b, x, h) := find_root off a k b (w_ext2 w) (vheap (fsys (w_sys w))) in
    Go (with_fs (set_heap h) (set_disk a (k_dev k) b x w)).

Definition start_devices (off : Z) w : progress world :=
  let w := set_disk (w_ahci w) (w_hba w) (blockdev_init (w_blocks w)) (w_ext2 w) w in
  let '(devices, p) := pci_init (w_ports w) in
  let w := start_nic off devices (set_ports p w) in
  let* w := start_usb off devices w in
  start_disk off devices w.

(** ** Tasks *)

(** Load [path] and make it a task of root's; [None] when it cannot be loaded. *)
Definition spawn_root (off : Z) (path : list Z) (parent : Z) (s : sys pmm KH (e1000 * MN)) : progress (bool * sys pmm KH (e1000 * MN)) :=
  let* (img, fs, v) := of_option (exec_build_image (FA := boot_frames off) off (a_pool im) (sch s) (cr3 (sch s)) path [path] (fsys s) (vmm s)) in
  let s := set_vmm v (set_fsys fs s) in
  match img with
  | None => Go (false, s)
  | Some img =>
      let '(pid, sc, k) := sched_spawn_user_task (H := boot_frames off) console_fds (a_first_entry im) path (i_pml4_phys img) (i_entry img) (i_user_rsp img) parent
                             (sch s) (mkKmem (vm_mem (vmm s)) (vm_frames (vmm s))) in
      let s := set_vmm (mkVm (km_mem k) (km_frames k) (refs (vmm s)) (refs_pages (vmm s))) (set_sch sc s) in
      let brk := i_brk_base img .+ PAGE_SIZE in
      Go (true, if pid <? 0 then s
                else match sched_find_pid pid (sch s) with
                     | Some i => upd i (fun t => set_brk_cur brk (set_brk_base brk (set_uid 0 t))) s
                     | None => s
                     end)
  end.

Definition start_tasks (off kp : Z) (have_initrd : bool) (s : sys pmm KH (e1000 * MN)) : progress (sys pmm KH (e1000 * MN)) :=
  let '(sc, k) := sched_init (H := boot_frames off) (a_idle im) (sch s) (mkKmem (vm_mem (vmm s)) (vm_frames (vmm s))) in
  let s := set_vmm (mkVm (km_mem k) (km_frames k) (refs (vmm s)) (refs_pages (vmm s))) (set_sch sc s) in
  if negb have_initrd then Halted
  else
    let* (ok, s) := spawn_root off (bs "/bin/init") 0 s in
    if negb ok then Halted
    else
      let* (_, s) := spawn_root off (bs "/bin/rudod") 1 s in
      Go (set_sch (sched_start kp (sch s)) s).

(** [_start]. *)
Definition start w : progress world :=
  let w := start_screen w in
  match l_hhdm ld, l_memmap ld with
  | Some off, Some entries =>
      let* w := start_memory off entries w in
      let* (have_initrd, w) := start_files off w in
      let* w := start_devices off w in
      let* s := start_tasks off (w_kernel_pml4 w) have_initrd (w_sys w) in
      Go (with_sys (fun _ => s) w)
  | _, _ => Halted
  end.
End Boot.
