(* ===== verification/BootSpec.v ===== *)
(** * The invariant holds from the first task on

    What start-up leaves satisfies [sys_ok]: the file tree, whose files own
    distinct heap blocks although drivers and file systems allocate from the
    same heap, and the first tasks.  With SysSafe.v, every state the kernel
    ever reaches satisfies it. *)
From S2P Require Import Prelude Net Font Screen Kbd Mouse Mem FrameAlloc Pmm Task Sched Pipe Pmap Libk Vfs Block Ext2 Devfs SysState SysFd SysFdSpec SysOwn SysSig SysSigSpec Elf SysProc SysMem Syscall SysInv SysKeep SysForkWait SysSafe Idt Ports Ps2 Pci Dma Ahci E1000 Uhci Audio Lapic Boot.

(** ** The heap while file systems are looked for *)

Section Heap.
Context {D : Type} `{DK : Disk D} {H : Type} {NH : NodeHeap H} {NL : NodeHeapLaws H}.
Variables (dk : D) (b : blocks).

(** A call that leaves every live block live. *)
Definition harmless {X} (x : @Ext2.M H X) : Prop := forall h r h' q, x h = Datatypes.inl (r, h') -> nh_live h q -> nh_live h' q.

Lemma harmless_ret {X} (x : X) : harmless (ret x).
Proof. by intros h r h' q [= <- <-]. Qed.
Lemma harmless_fail {X} e : harmless (fail (X := X) e).
Proof. by intros h r h' q. Qed.
Lemma harmless_bind {X Y} (x : @Ext2.M H X) (f : X -> @Ext2.M H Y) : harmless x -> (forall a, harmless (f a)) -> harmless (bind x f).
Proof. intros Hx Hf h r h' q. unfold bind. destruct (x h) as [[a h1]|e] eqn:E; [|done]. intros Hr Hl. eapply Hf; [exact Hr|]. by eapply Hx. Qed.
Lemma harmless_div {X} d (x : @Ext2.M H X) : harmless x -> harmless (div_or_stop d x).
Proof. unfold div_or_stop. destruct (d =? 0); [intros _; apply harmless_fail|done]. Qed.

(** A block allocated and released at once is none of the live ones. *)
Lemma alloc_free_live n h p h' q : nh_alloc n h = (p, h') -> p <> 0 -> nh_live h q -> nh_live (nh_free p h') q.
Proof.
  intros E Hp Hl. destruct (nh_fresh _ _ _ _ E Hp) as [Hn _]. apply nh_free_keeps; [by eapply nh_keeps|]. by intros ->.
Qed.

Lemma harmless_buffer {X} n (none : X) (x : @Ext2.M H X) : harmless x -> harmless (with_buffer n none x).
Proof.
  intros Hx h r h' q. unfold with_buffer. destruct (nh_alloc n h) as [p h1] eqn:E. destruct (Z.eqb_spec p 0) as [->|Hp]; [intros [= <- <-] Hl; by eapply nh_keeps|].
  intros Hr Hl. eapply Hx; [exact Hr|]. by eapply alloc_free_live.
Qed.

Create HintDb harmless.
#[local] Hint Resolve harmless_ret harmless_fail harmless_bind harmless_div harmless_buffer : harmless.
Ltac harmless := repeat match goal with
  | |- forall _, _ => intro
  | |- harmless (match ?x with _ => _ end) => destruct x
  | |- harmless (let '(_, _) := ?x in _) => destruct x
  | |- harmless (bind _ _) => apply harmless_bind
  | |- harmless (div_or_stop _ _) => apply harmless_div
  | |- harmless (with_buffer _ _ _) => apply harmless_buffer
  | |- harmless _ => solve [auto with harmless]
  end.

Variable fs : ext2.

Lemma read_inode_harmless n : harmless (read_inode dk b fs n).
Proof. unfold read_inode. cbv zeta. harmless. Qed.
Lemma read_pointer_harmless n k : harmless (read_pointer dk b fs n k).
Proof. unfold read_pointer. harmless. Qed.
#[local] Hint Resolve read_inode_harmless read_pointer_harmless : harmless.
Lemma inode_block_harmless i n : harmless (get_inode_block dk b fs i n).
Proof. unfold get_inode_block. cbv zeta. harmless. Qed.
#[local] Hint Resolve inode_block_harmless : harmless.
Lemma data_loop_harmless fuel : forall i o c acc, harmless (data_loop dk b fs fuel i o c acc).
Proof. induction fuel as [|f IH]; intros i o c acc; cbn [data_loop]; cbv zeta; harmless. Qed.
#[local] Hint Resolve data_loop_harmless : harmless.
Lemma inode_data_harmless i o c : harmless (read_inode_data dk b fs i o c).
Proof. unfold read_inode_data. cbv zeta. harmless. Qed.
#[local] Hint Resolve inode_data_harmless : harmless.
Lemma lookup_loop_harmless fuel : forall i n o s, harmless (lookup_loop dk b fs fuel i n o s).
Proof. induction fuel as [|f IH]; intros i n o s; cbn [lookup_loop]; cbv zeta; harmless. Qed.
#[local] Hint Resolve lookup_loop_harmless : harmless.
Lemma dir_lookup_harmless i n : harmless (dir_lookup_callback dk b fs i n).
Proof. unfold dir_lookup_callback. harmless. Qed.
#[local] Hint Resolve dir_lookup_harmless : harmless.
Lemma path_loop_harmless fuel : forall i p, harmless (path_loop dk b fs fuel i p).
Proof. induction fuel as [|f IH]; intros i p; cbn [path_loop]; harmless. Qed.
#[local] Hint Resolve path_loop_harmless : harmless.
Lemma resolve_harmless p : harmless (resolve_path dk b fs p).
Proof. unfold resolve_path. harmless. Qed.
Lemma count_loop_harmless fuel : forall i o s c, harmless (count_loop dk b fs fuel i o s c).
Proof. induction fuel as [|f IH]; intros i o s c; cbn [count_loop]; cbv zeta; harmless. Qed.
Lemma entries_loop_harmless fuel : forall i o s l, harmless (entries_loop dk b fs fuel i o s l).
Proof. induction fuel as [|f IH]; intros i o s l; cbn [entries_loop]; cbv zeta; harmless. Qed.
#[local] Hint Resolve resolve_harmless count_loop_harmless entries_loop_harmless : harmless.

(** A call that hands out a block that was not live. *)
Definition lends {X} (own : X -> Z -> Prop) (x : @Ext2.M H X) : Prop :=
  forall h r h' q, x h = Datatypes.inl (r, h') -> nh_live h q -> nh_live h' q /\ ~ own r q.
Definition listed (r : option (Z * list ext2_dir_entry)) (q : Z) : Prop := match r with Some (p, _) => p = q | None => False end.

Lemma lends_bind {X Y} own (x : @Ext2.M H X) (f : X -> @Ext2.M H Y) : harmless x -> (forall a, lends own (f a)) -> lends own (bind x f).
Proof. intros Hx Hf h r h' q. unfold bind. destruct (x h) as [[a h1]|e] eqn:E; [|done]. intros Hr Hl. eapply Hf; [exact Hr|]. by eapply Hx. Qed.
Lemma lends_none : lends listed (ret None).
Proof. intros h r h' q [= <- <-] Hl. split; [done|by intros []]. Qed.

Lemma list_internal_lends p : lends listed (ext2_list_dir_internal dk b fs p).
Proof.
  unfold ext2_list_dir_internal. apply lends_bind; [auto with harmless|]. intros ino. destruct (ino =? 0); [apply lends_none|]. apply lends_bind; [auto with harmless|].
  intros [d|]; [|apply lends_none]. destruct (negb (is_dir d)); [apply lends_none|]. cbv zeta. apply lends_bind; [auto with harmless|]. intros count h r h' q.
  destruct (nh_alloc _ h) as [a h1] eqn:Ea. destruct (Z.eqb_spec a 0) as [->|Ha]; [intros [= <- <-] Hl; split; [by eapply nh_keeps|by intros []]|]. unfold bind.
  destruct (entries_loop _ _ _ _ _ _ _ _ h1) as [[l h2]|e] eqn:Ee; [|done]. intros [= <- <-] Hl. destruct (nh_fresh _ _ _ _ Ea Ha) as [Hn _]. split; [|by intros ->].
  eapply entries_loop_harmless; [exact Ee|]. by eapply nh_keeps.
Qed.

Lemma list_dir_harmless p : harmless (ext2_list_dir dk b fs p).
Proof.
  unfold ext2_list_dir. destruct (negb _); [apply harmless_ret|]. intros h r h' q. unfold bind. destruct (ext2_list_dir_internal dk b fs p h) as [[x h1]|e] eqn:E; [|done].
  intros Hr Hl. destruct (list_internal_lends p h x h1 q E Hl) as [Hl1 Ho]. destruct x as [[a l]|]; [|by injection Hr as <- <-]. injection Hr as <- <-.
  apply nh_free_keeps; [done|]. intros ->. by apply Ho.
Qed.

Lemma superblock_harmless x : harmless (ext2_read_superblock dk b x).
Proof.
  unfold ext2_read_superblock. apply harmless_buffer. destruct (partition_read_sectors _ _ _ _ _) as [[z buf]|]; [|apply harmless_ret].
  repeat match goal with |- harmless (match ?e with _ => _ end) => is_var e; destruct e end; cbv zeta; harmless.
Qed.

Lemma bgd_harmless x : harmless (ext2_read_bgd dk b x).
Proof.
  unfold ext2_read_bgd. apply harmless_div. cbv zeta. intros h r h' q. destruct (nh_alloc _ h) as [p h1] eqn:E. destruct (Z.eqb_spec p 0) as [->|Hp]; [intros [= <- <-] Hl; by eapply nh_keeps|].
  destruct (_ <=? _); [done|]. destruct (read_blocks _ _ _ _ _); intros [= <- <-] Hl; [by eapply nh_keeps|by eapply alloc_free_live].
Qed.

Lemma mount_harmless name x : harmless (ext2_mount dk b name x).
Proof.
  unfold ext2_mount. destruct (mounted x); [apply harmless_ret|]. cbv zeta. apply harmless_bind; [apply superblock_harmless|]. intros r. destruct (negb r.1); [apply harmless_ret|].
  apply harmless_bind; [apply bgd_harmless|]. intros r'. destruct (negb r'.1); apply harmless_ret.
Qed.

Lemma partitions_harmless h q : nh_live h q -> nh_live (partition_init dk b h).2 q.
Proof.
  intros Hl. unfold partition_init. apply (for_range_ind (fun _ x => nh_live x.2 q)); [done|]. intros i [bl h1] _ Hl1. cbn [snd] in *. unfold scan_device.
  destruct (blockdev_get_by_index i bl); [|done]. destruct (nh_alloc MBR_SIZE h1) as [p h2] eqn:E. destruct (Z.eqb_spec p 0) as [->|Hp]; [by eapply nh_keeps|].
  assert (nh_live (nh_free p h2) q) as Hf by (by eapply alloc_free_live). destruct (blockdev_read _ _ _ _ _ _) as [[z l]|]; [|done].
  repeat match goal with |- context [match ?e with _ => _ end] => is_var e; destruct e; try done end. by destruct (_ || _).
Qed.
End Heap.

(** ** The file tree *)

Section Tree.
Context {A : Type} {KH : Type} {NH : NodeHeap KH} {NL : NodeHeapLaws KH}.
Implicit Types v : vfs KH.

Lemma heap_quiet h v : (forall q, nh_live (vheap v) q -> nh_live h q) -> quiet v (set_heap h v).
Proof. intros Hk. split; [exact Hk|by right]. Qed.

Lemma vfs_init_quiet v : quiet v (vfs_init v).
Proof. unfold vfs_init. pose proof (create_node_quiet [47] VFS_DIRECTORY v) as Hq. destruct (vfs_create_node _ _ v) as [r v1]. exact Hq. Qed.

Lemma ensure_path_quiet d path v : quiet v (vfs_ensure_path d path v).2.
Proof. apply ensure_tokens_quiet. Qed.

Lemma mount_dev_quiet pool tbl name ops v : quiet v (vfs_mount_dev pool tbl name ops v).
Proof.
  unfold vfs_mount_dev. pose proof (vfs_resolve_quiet pool tbl (bs "/dev") v) as Q1. destruct (vfs_resolve _ _ _ v) as [d v1]. cbn [snd] in Q1.
  match goal with |- quiet v (let '(a, b) := ?x in _) => set (y := x) end. assert (quiet v y.2) as Q2.
  { unfold y. destruct d; [exact Q1|]. pose proof (vfs_resolve_quiet pool tbl [47] v1) as Q. destruct (vfs_resolve _ _ _ v1) as [r v2]. cbn [snd] in Q. etrans; [exact Q1|].
    destruct r; [|exact Q]. pose proof (create_node_quiet (bs "dev") VFS_DIRECTORY v2) as Qc. destruct (vfs_create_node _ _ v2) as [n v3]. cbn [snd] in Qc. etrans; [exact Q|].
    destruct (n =? 0); [exact Qc|]. etrans; [exact Qc|apply link_child_quiet]. }
  destruct y as [[dd|] v2]; [|exact Q2]. cbn [snd] in Q2. etrans; [exact Q2|]. pose proof (create_node_quiet name VFS_CHARDEV v2) as Q3. destruct (vfs_create_node _ _ v2) as [n v3]. cbn [snd] in Q3.
  destruct (n =? 0); [exact Q3|]. etrans; [exact Q3|]. etrans; [|apply link_child_quiet]. apply set_node_quiet. by right.
Qed.

Lemma mount_procfs_quiet pool tbl v : quiet v (vfs_mount_procfs pool tbl v).
Proof.
  unfold vfs_mount_procfs. pose proof (vfs_resolve_quiet pool tbl [47] v) as Q1. destruct (vfs_resolve _ _ _ v) as [[r|] v1]; [|exact Q1]. cbn [snd] in Q1. etrans; [exact Q1|].
  pose proof (create_node_quiet (bs "proc") VFS_PROCFS v1) as Q2. destruct (vfs_create_node _ _ v1) as [n v2]. cbn [snd] in Q2. destruct (n =? 0); [exact Q2|].
  etrans; [exact Q2|]. etrans; [apply link_child_quiet|]. unfold procfs_mount.
  etrans; [|apply make_node_quiet]. etrans; apply make_node_quiet.
Qed.

Lemma base_tree_quiet pool tbl addr v : quiet v (vfs_mount_procfs pool tbl (devfs_init pool tbl addr (vfs_init v))).
Proof.
  etrans; [|apply mount_procfs_quiet]. unfold devfs_init. etrans; [apply vfs_init_quiet|]. do 3 (etrans; [|apply mount_dev_quiet]). apply mount_dev_quiet.
Qed.

Lemma tar_entry_owned name ty size data v : files_ok ∅ v -> files_ok ∅ (tar_entry name ty size data v).2.
Proof.
  intros Hf. unfold tar_entry. destruct (_ || _).
  { pose proof (ensure_path_quiet (root v) (drop_last_slash (take 255 name)) v) as Q. destruct (vfs_ensure_path _ _ _) as [[d|] v1]; by eapply files_ok_quiet. }
  destruct (_ || _); [|done]. cbv zeta. match goal with |- files_ok _ (snd (match ?x with pair _ _ => _ end)) => set (y := x) end. assert (quiet v y.2) as Q1.
  { unfold y. destruct (split_last _) as [[dirs f]|]; [|done]. pose proof (ensure_path_quiet (root v) dirs v) as Q. destruct (vfs_ensure_path _ _ _) as [d v1]. exact Q. }
  destruct y as [[[parent|] fname] v1]; cbn [snd] in *; [|by eapply files_ok_quiet]. pose proof (create_node_quiet fname VFS_FILE v1) as Q2.
  destruct (vfs_create_node fname VFS_FILE v1) as [f v2] eqn:Ec. cbn [snd] in Q2. assert (files_ok ∅ v2) as Hf2 by (eapply files_ok_quiet; [exact Hf|]; by etrans).
  destruct (f =? 0); [exact Hf2|]. destruct (nh_alloc size (vheap v2)) as [buf h] eqn:Ea. assert (forall q, nh_live (vheap v2) q -> nh_live h q) as Hk by (intros q; by eapply nh_keeps).
  destruct (Z.eqb_spec buf 0) as [->|Hb]; [eapply files_ok_quiet; [exact Hf2|by apply heap_quiet]|]. destruct (nh_fresh _ _ _ _ Ea Hb) as [Hn Hl].
  eapply files_ok_quiet; [|apply link_child_quiet]. set (nd := set_data buf _ _).
  destruct (decide (n_type nd = VFS_FILE)) as [Ht|Ht].
  - apply (move_block ∅ v2 f nd buf h); [done|unfold block_of; by rewrite bool_decide_eq_true_2|by right|done|done|by intros x Hx _; apply Hk].
  - eapply files_ok_quiet; [exact Hf2|]. etrans; [by apply heap_quiet|]. apply set_node_quiet. left. unfold block_of. by rewrite bool_decide_eq_false_2.
Qed.

Lemma tar_loop_owned fuel : forall img size v ok v', tar_loop fuel img size v = Some (ok, v') -> files_ok ∅ v -> files_ok ∅ v'.
Proof.
  induction fuel as [|f IH]; intros img size v ok v'; cbn [tar_loop]; [done|]. destruct (_ <? _); [by intros [= _ <-]|]. destruct (_ =? 0); [by intros [= _ <-]|]. cbv zeta.
  match goal with |- (match ?x with [] => _ | _ :: _ => _ end = _) -> _ => generalize x; intros name end. intros E Hf. destruct name as [|c name]; [by eapply IH|].
  pose proof (tar_entry_owned (c :: name) (tar_typeflag img) (tar_size img) (drop 512 img) v Hf) as He. destruct (tar_entry _ _ _ _ v) as [[] v1]; [by eapply IH|by injection E as _ <-].
Qed.

Lemma initrd_owned img size v ok v' : vfs_load_initrd img size v = Some (ok, v') -> files_ok ∅ v -> files_ok ∅ v'.
Proof.
  unfold vfs_load_initrd. intros E Hf. set (y := if root v =? 0 then _ else _) in E. assert (files_ok ∅ y.2) as Hy.
  { unfold y. destruct (root v =? 0); [|done]. pose proof (create_node_quiet [47] VFS_DIRECTORY v) as Q. destruct (vfs_create_node _ _ v) as [r v1]. eapply files_ok_quiet; [exact Hf|exact Q]. }
  destruct y as [[] v1]; cbn [snd negb] in *; [by eapply tar_loop_owned|by injection E as _ <-].
Qed.
End Tree.

(** ** The first tasks *)

(** No pipes, and a task table whose tasks have plain descriptors and are
    numbered in order. *)
Record table_ok (a : sched) : Prop := {
  tb_wf : sched_wf a;
  tb_rows : forall j, slot_ok j -> plain_row (t_fds (task_at a j));
  tb_pids : forall j, slot_ok j -> is_free (task_at a j) = false ->
    0 <= t_pid (task_at a j) < next_pid a /\ (t_pid (task_at a j) <> 0 -> t_parent_pid (task_at a j) < t_pid (task_at a j));
}.

(** A slot gets a task with plain descriptors, numbered next or as before. *)
Lemma table_upd a b i t : table_ok a -> slot_ok i -> tasks b = tasks a -> current b = current a -> next_pid a <= next_pid b -> plain_row (t_fds t) ->
  (is_free t = false -> 0 <= t_pid t < next_pid b /\ (t_pid t <> 0 -> t_parent_pid t < t_pid t)) -> table_ok (upd_task i (fun _ => t) b).
Proof.
  intros [Hwf Hr Hp] Hi Et Ec En Hrow Ht. assert (sched_wf b) as Hb by (destruct Hwf; split; rewrite ?Et, ?Ec; done).
  assert (forall j, task_at (upd_task i (fun _ => t) b) j = if j =? i then t else task_at a j) as Htk.
  { intros j. rewrite task_at_upd by done. destruct (j =? i); [done|]. unfold task_at. by rewrite Et. }
  split; [by apply upd_task_wf|intros j Hj; rewrite Htk; destruct (j =? i); auto|]. intros j Hj. rewrite Htk. cbn [next_pid upd_task set_tasks]. destruct (j =? i); [done|].
  intros Hu. destruct (Hp j Hj Hu). split; [lia|done].
Qed.

Lemma tables_plain a : table_ok a -> counted (tables a) ∅.
Proof.
  intros [Hwf Hr _]. assert (forall i l, tables a !! i = Some l -> plain_row l) as Hl.
  { intros i l E. pose proof (lookup_lt_Some _ _ _ E) as Hlt. unfold tables in Hlt. rewrite length_map in Hlt. destruct Hwf as [Hz Hc]. unfold zlen, MAX_TASKS in Hz.
    assert (slot_ok (Z.of_nat i)) as Hs by (unfold slot_ok, MAX_TASKS; lia). pose proof (tables_lookup a (Z.of_nat i) ltac:(by split) Hs) as E'. rewrite Nat2Z.id, E in E'. injection E' as ->. by apply Hr. }
  split; [| | |done].
  - apply Forall_lookup_2. intros i l E. apply (Hl i l E).
  - intros p q E. by rewrite lookup_empty in E.
  - apply Forall_lookup_2. intros i l E. destruct (Hl i l E) as [_ Hpl]. eapply List.Forall_impl; [|exact Hpl]. intros f Hf0 Hne. by rewrite Hf0 in Hne.
Qed.

Section Tasks.
Context {A : Type} `{FA : FrameAlloc A} {KH : Type} {NH : NodeHeap KH} {NL : NodeHeapLaws KH} {N : Type}.
Implicit Types s : sys A KH N.

Lemma fresh_ok s : table_ok (sch s) -> cur_used (sch s) -> pipes s = ∅ -> files_ok ∅ (fsys s) -> sys_ok s.
Proof.
  intros Ht Hc Hp Hf. pose proof (tb_wf _ Ht) as Hwf. split; [|by rewrite Hp| |done|apply Ht].
  - split; [done|rewrite Hp; by apply tables_plain|]. rewrite Hp. intros p q E. by rewrite lookup_empty in E.
  - intros j Hj _. by apply Ht.
Qed.

Lemma blank_table a0 : current a0 = None -> table_ok (set_next_pid 1 (set_tasks (replicate 64 task0) a0)) /\
  forall j, task_at (set_next_pid 1 (set_tasks (replicate 64 task0) a0)) j = task0.
Proof.
  intros Hc. assert (forall j, task_at (set_next_pid 1 (set_tasks (replicate 64 task0) a0)) j = task0) as H1.
  { intros j. unfold task_at, znth, zlookup. cbn [tasks set_next_pid set_tasks]. destruct (j <? 0); [done|]. destruct (replicate 64 task0 !! Z.to_nat j) eqn:E; [|done]. by apply lookup_replicate in E as [-> _]. }
  split; [|exact H1]. split; [split; [done|]; intros c; cbn; congruence| |]; intros j Hj; rewrite H1; [apply plain_blank|done].
Qed.

(** Root's tasks only. *)
Definition all_root (a : sched) : Prop := forall j, slot_ok j -> is_free (task_at a j) = false -> t_uid (task_at a j) = 0.

Lemma sched_init_table idle a (k : kmem A) : current a = None ->
  let b := (sched_init idle a k).1 in table_ok b /\ all_root b /\ current b = None /\ next_pid b = 1 /\ is_free (task_at b 1) = true.
Proof.
  intros Hc. unfold sched_init. destruct (blank_table a Hc) as [Ht H0]. set (a1 := set_next_pid 1 _) in *.
  change (alloc_slot a1) with (Some 0). destruct (prepare_stack_same idle (task_at a1 0) k) as (kst & rs & ok & k' & ->).
  assert (forall t, plain_row (t_fds t) -> t_pid t = 0 -> t_uid t = 0 -> table_ok (upd_task 0 (fun _ => t) a1) /\ all_root (upd_task 0 (fun _ => t) a1)) as Hput.
  { intros t Hrow Hpid Huid. split; [apply (table_upd a1 a1 0 t); try done; intros _; rewrite Hpid; cbn; lia|].
    intros j Hj. rewrite task_at_upd by (first [exact (tb_wf _ Ht) | unfold slot_ok, MAX_TASKS; lia]). destruct (j =? 0); [done|]. by rewrite H0. }
  assert (forall t, is_free (task_at (upd_task 0 (fun _ => t) a1) 1) = true) as H1.
  { intros t. rewrite task_at_upd by (first [exact (tb_wf _ Ht) | unfold slot_ok, MAX_TASKS; lia]). change (1 =? 0) with false. cbv iota. by rewrite H0. }
  cbv zeta. destruct ok; cbn [negb fst]; (split; [apply Hput|split; [apply Hput|split; [done|split; [done|apply H1]]]]); rewrite ?H0; try done; apply plain_blank.
Qed.

(** Starting the first ready task: some slot runs, nothing else changed. *)
Lemma sched_start_table kp a : table_ok a -> current a = None ->
  let b := sched_start kp a in table_ok b /\ cur_used b /\ forall j, slot_ok j -> ident (task_at b j) = ident (task_at a j).
Proof.
  intros Ht Hc. unfold sched_start. destruct (find_first_ready 63 (set_started true a)) as [j|] eqn:Hf.
  2: { split; [by destruct Ht; split|]. split; [intros c; cbn; congruence|done]. }
  apply find_first_ready_some in Hf as [Hj Hr]. assert (slot_ok j) as Hs by (unfold slot_ok, MAX_TASKS; lia). set (a1 := upd_task j (set_state TASK_RUNNING) (set_started true a)).
  assert (is_free (task_at a j) = false) as Hu by (unfold is_free; change (task_at a j) with (task_at (set_started true a) j); by rewrite Hr).
  assert (table_ok a1) as H1.
  { apply (table_upd a (set_started true a) j (set_state TASK_RUNNING (task_at a j))); try done; [by apply Ht|]. intros _. by apply Ht. }
  assert (forall i, task_at a1 i = if i =? j then set_state TASK_RUNNING (task_at a j) else task_at a i) as Htk by (intros i; unfold a1; apply (task_at_upd (set_started true a)); [exact (tb_wf _ Ht)|done]).
  unfold switch_to, context_switch. change (current a1) with (current a). rewrite Hc. cbv zeta. match goal with |- table_ok ?x /\ _ => set (b := x) end.
  assert (forall i, task_at b i = task_at a1 i) as Hb by done. split; [|split].
  - destruct H1 as [[Hl _] Hrow Hp]. split; [split; [exact Hl|by intros c [= <-]]|exact Hrow|exact Hp].
  - intros c [= <-]. rewrite Hb, Htk, Z.eqb_refl. done.
  - intros i Hi. rewrite Hb, Htk. destruct (Z.eqb_spec i j) as [->|]; [|done]. unfold ident. cbn. by rewrite Hu.
Qed.
End Tasks.

(** ** Start-up *)

Section Start.
Context {KH : Type} {NH : NodeHeap KH} {NL : NodeHeapLaws KH} {P : Type} `{PT : Ports P}.
Context {MA : Type} `{DA : DmaDevice MA} `{CA : CpuClock MA}.
Context {MC : Type} `{DC : DmaDevice MC} `{PC : Ports MC} `{HC : Halts MC}.
Context {MN : Type} `{DN : DmaDevice MN} {MU : Type} `{DU : DmaDevice MU} {MH : Type} `{DH : DmaDevice MH}.
Variables (fuel : nat) (ld : loader) (im : image_addrs).
Implicit Types (w : world (KH := KH) (P := P) (MA := MA) (MC := MC) (MN := MN) (MU := MU) (MH := MH)) (s : sys pmm KH (e1000 * MN)).

(** Before the first task: none runs, there are no pipes, files are owned. *)
Record early s : Prop := { el_cur : current (sch s) = None; el_pipes : pipes s = ∅; el_files : files_ok ∅ (fsys s) }.

Lemma early_same s s' : early s -> current (sch s') = current (sch s) -> pipes s' = pipes s -> quiet (fsys s) (fsys s') -> early s'.
Proof. intros [H1 H2 H3] E1 E2 Hq. split; [congruence|congruence|by eapply files_ok_quiet]. Qed.

Lemma go_inv {X Y} (x : progress X) (f : X -> progress Y) y : and_go x f = Go y -> exists a, x = Go a /\ f a = Go y.
Proof. destruct x; [eauto|done|done]. Qed.
Lemma some_inv {X} (x : option X) a : of_option x = Go a -> x = Some a.
Proof. destruct x; [by intros [= ->]|done]. Qed.

Lemma early_memory off entries w w' : start_memory fuel im off entries w = Go w' -> early (w_sys w) -> early (w_sys w').
Proof.
  unfold start_memory. destruct (gdt_init _ _) as [[gdt t] fr]. cbv zeta. destruct (pmap_create _ _ _) as [pml4 v]. destruct (pml4 =? 0); [done|].
  intros E Hw. apply go_inv in E as ([[r la] k] & _ & E). injection E as <-. by apply (early_same (w_sys w)).
Qed.

Lemma early_mount name dev w : early (w_sys w) -> early (w_sys (mount_dev im name dev w)).
Proof. intros Hw. apply (early_same (w_sys w)); try done. apply mount_dev_quiet. Qed.

Lemma early_audio off w w' : start_audio fuel im off w = Go w' -> early (w_sys w) -> early (w_sys w').
Proof.
  unfold start_audio. cbv zeta. intros E Hw. apply go_inv in E as ([[[r d] f] c] & _ & E).
  destruct (r =? 0); injection E as <-; [apply early_mount|]; by apply (early_same (w_sys w)).
Qed.

Lemma early_initrd (w1 : world (KH := KH) (P := P) (MA := MA) (MC := MC) (MN := MN) (MU := MU) (MH := MH)) have w' :
  match l_initrd ld with
  | None => Go (false, w1)
  | Some (img, size) => and_go (of_option (vfs_load_initrd img size (fsys (w_sys w1)))) (fun '(_, v) => Go (true, with_fs (fun _ => v) w1))
  end = Go (have, w') -> early (w_sys w1) -> early (w_sys w').
Proof.
  intros E [C2 P2 F2]. destruct (l_initrd ld) as [[img size]|]; [|by injection E as _ <-]. apply go_inv in E as ([ok v] & E3 & E). apply some_inv in E3. injection E as _ <-.
  split; [exact C2|exact P2|]. by eapply initrd_owned.
Qed.

Lemma early_files off w have w' : start_files fuel ld im off w = Go (have, w') -> early (w_sys w) -> early (w_sys w').
Proof.
  unfold start_files. intros E Hw. apply go_inv in E as (w2 & E2 & E). eapply early_initrd; [exact E|]. eapply early_audio; [exact E2|].
  apply (early_same (w_sys w)); [done|reflexivity|reflexivity|apply base_tree_quiet].
Qed.

Lemma early_nic off devices w : early (w_sys w) -> early (w_sys (start_nic im off devices w)).
Proof.
  intros Hw. unfold start_nic. destruct (nic (w_sys w)) as [d m]. destruct (e1000_init _ _ _ _) as [r [d' k]]. cbv zeta. destruct (net_init _) as [[n rc] mounted].
  assert (early (w_sys (with_sys (set_net n (d', k_dev k)) (off_device k w)))) as H1 by (by apply (early_same (w_sys w))). destruct mounted; [by apply early_mount|exact H1].
Qed.

Lemma early_usb off devices w w' : start_usb fuel off devices w = Go w' -> early (w_sys w) -> early (w_sys w').
Proof. unfold start_usb. intros E Hw. apply go_inv in E as ([[r irq] [d k]] & _ & E). injection E as <-. by apply (early_same (w_sys w)). Qed.

Lemma find_root_heap off a (k : machine MH P) b x (h : KH) b' x' h' q : find_root off a k b x h = Go (b', x', h') -> nh_live h q -> nh_live h' q.
Proof.
  unfold find_root. pose proof (partitions_harmless (DK := ahci_disk off) (a, k) b h q) as Hp. destruct (partition_init _ _ _) as [b1 h1]. cbn [snd] in Hp. intros E Hl. specialize (Hp Hl).
  assert (forall name fs h r h2, match ext2_mount (DK := ahci_disk off) (a, k) b1 name fs h with Datatypes.inl (r, h) => Go (r, h) | Datatypes.inr _ => Stuck end = Go (r, h2) -> nh_live h q -> nh_live h2 q) as Hm.
  { intros name fs h0 r h2 E0. match type of E0 with match ?x with _ => _ end = _ => destruct x as [[r0 h3]|] eqn:Em; [|done] end. injection E0 as <- <-. by eapply (mount_harmless (DK := ahci_disk off)). }
  assert (forall fs h h2, match bind (ext2_list_dir (DK := ahci_disk off) (a, k) b1 fs (bs "/")) (fun _ => ext2_list_dir (DK := ahci_disk off) (a, k) b1 fs (bs "/bin")) h with
    | Datatypes.inl (_, h) => Go h | Datatypes.inr _ => Stuck end = Go h2 -> nh_live h q -> nh_live h2 q) as Hd.
  { intros fs h0 h2 E0. match type of E0 with context [bind ?u ?f h0] => assert (harmless (bind u f)) as Hb by (apply harmless_bind; [|intros _]; apply (list_dir_harmless (DK := ahci_disk off))); destruct (bind u f h0) as [[r0 h3]|] eqn:Em; [|done] end.
    injection E0 as <-. by eapply Hb. }
  cbv zeta in E. apply go_inv in E as ([[ok fs] h2] & E2 & E). pose proof (Hm _ _ _ _ _ E2 Hp) as H2. destruct ok.
  - apply go_inv in E as (h3 & E3 & E). injection E as <- <- <-. by eapply Hd.
  - apply go_inv in E as ([[ok fs'] h3] & E3 & E). pose proof (Hm _ _ _ _ _ E3 H2) as H3. destruct ok; [|by injection E as <- <- <-].
    apply go_inv in E as (h4 & E4 & E). injection E as <- <- <-. by eapply Hd.
Qed.

Lemma early_disk off devices w w' : start_disk fuel off devices w = Go w' -> early (w_sys w) -> early (w_sys w').
Proof.
  unfold start_disk. intros E Hw. apply go_inv in E as ([[ok [a k]] b] & _ & E). cbv zeta in E. set (w1 := set_disk _ _ _ _ _) in E. assert (early (w_sys w1)) as H1 by (by apply (early_same (w_sys w))).
  clearbody w1. destruct ok; cbn [negb] in E; [|by injection E as <-]. apply go_inv in E as ([[b2 x2] h2] & E2 & E). injection E as <-.
  apply (early_same (w_sys w1)); try done. apply heap_quiet. intros q. by eapply find_root_heap.
Qed.

Lemma early_devices off w w' : start_devices fuel im off w = Go w' -> early (w_sys w) -> early (w_sys w').
Proof.
  unfold start_devices. destruct (pci_init _) as [devices p]. intros E Hw. apply go_inv in E as (w2 & E2 & E). eapply early_disk; [exact E|]. eapply early_usb; [exact E2|]. by apply early_nic.
Qed.

(** A task is added: the table stays in order, and a free slot gave it a number. *)
Lemma spawn_table off first name pml4 rip rsp parent a (k : kmem pmm) :
  table_ok a -> 0 <= parent < next_pid a ->
  let r := sched_spawn_user_task (H := boot_frames off) console_fds first name pml4 rip rsp parent a k in
  table_ok r.1.2 /\ current r.1.2 = current a /\ next_pid a <= next_pid r.1.2 <= next_pid a + 1 /\
  exists i, (forall j, slot_ok j -> is_free (task_at r.1.2 j) = false -> j <> i -> task_at r.1.2 j = task_at a j /\ is_free (task_at a j) = false) /\
    (0 <= r.1.1 -> r.1.1 = next_pid a /\ slot_ok i /\ is_free (task_at r.1.2 i) = false /\ t_pid (task_at r.1.2 i) = next_pid a) /\
    (r.1.1 < 0 -> slot_ok i -> is_free (task_at r.1.2 i) = true).
Proof.
  intros Ht Hpar r. pose proof (spawn_spec (FA := boot_frames off) first name pml4 rip rsp parent a k : spawned parent a r.1.1 r.1.2) as Hs. clearbody r. destruct r as [[pid b] k']. cbn [fst snd] in *.
  destruct Hs as [|i t b Hi Hf Hft Hrow E1 E2 E3|pid i t b -> Hi Hf Hft Hrow Hp Hpp Hu E1 E2 E3];
    [split_and!; try lia; [done|done|]; exists (-1); split; [done|]; split; [lia|by intros _ [? _]]|..];
    (assert (forall j, task_at (upd_task i (fun _ => t) b) j = if j =? i then t else task_at a j) as Htk by
      (intros j; rewrite task_at_upd; [|destruct (tb_wf _ Ht); split; rewrite ?E1, ?E2; done|done]; destruct (j =? i); [done|]; unfold task_at; by rewrite E1));
    (assert (forall j, slot_ok j -> is_free (task_at (upd_task i (fun _ => t) b) j) = false -> j <> i -> task_at (upd_task i (fun _ => t) b) j = task_at a j /\ is_free (task_at a j) = false) as Hold by
      (intros j Hj; rewrite Htk; intros Hu' Hne; rewrite (proj2 (Z.eqb_neq j i) Hne) in *; done)).
  - split_and!; [|done|cbn; lia|cbn; lia|]; [apply (table_upd a b i t); try done; [lia|]; by rewrite Hft|]. exists i. split; [exact Hold|]. split; [lia|]. intros _ _. by rewrite Htk, Z.eqb_refl.
  - split_and!; [|done|cbn; lia|cbn; lia|].
    + apply (table_upd a b i t); try done; [lia|]. intros _. rewrite Hp, Hpp, E3. lia.
    + exists i. split; [exact Hold|]. rewrite Htk, Z.eqb_refl. split; [done|lia].
Qed.

(** A free slot is found: the number is used up even when there is no memory. *)
Lemma spawn_counts off first name pml4 rip rsp parent a (k : kmem pmm) j : slot_ok j -> is_free (task_at a j) = true ->
  next_pid (sched_spawn_user_task (H := boot_frames off) console_fds first name pml4 rip rsp parent a k).1.2 = next_pid a + 1.
Proof.
  intros Hj Hf. unfold sched_spawn_user_task. destruct (alloc_slot a) as [i|] eqn:E.
  - cbv zeta. match goal with |- context [task_prepare_stack ?e ?t ?k] => destruct (prepare_stack_same (FA := boot_frames off) e t k) as (kst & rs & ok & k' & ->) end.
    destruct ok; cbn [negb fst snd]; [|done]. by destruct (_ <? 0).
  - exfalso. unfold alloc_slot in E. pose proof (find_slot_none _ _ _ _ E j) as Hn. unfold is_free in Hf. unfold slot_ok, MAX_TASKS in *. rewrite Hf in Hn. discriminate Hn. lia.
Qed.

(** Tasks of root's, in order, none running; no pipes; files owned. *)
Record rooted s : Prop := { rt_early : early s; rt_table : table_ok (sch s); rt_root : all_root (sch s) }.

Lemma spawn_root_ok off path parent s ok s' : rooted s -> 0 <= parent < next_pid (sch s) -> spawn_root im off path parent s = Go (ok, s') ->
  rooted s' /\ next_pid (sch s) <= next_pid (sch s') <= next_pid (sch s) + 1 /\ (ok = true -> is_free (task_at (sch s) 1) = true -> next_pid (sch s') = next_pid (sch s) + 1).
Proof.
  intros [[Hc Hp Hf] Ht Hr] Hpar E. unfold spawn_root in E. apply go_inv in E as ([[img fs] v] & E1 & E). apply some_inv in E1. apply (exec_build_image_fs (FA := boot_frames off)) in E1.
  assert (files_ok ∅ fs) as Hfs by (by eapply files_ok_quiet). destruct img as [img|]; [|injection E as <- <-; split; [split; [by split|done|done]|]; split; [cbn; lia|done]].
  cbv zeta in E. cbn [set_vmm set_fsys sch vmm] in E. set (k0 := mkKmem _ _) in E.
  pose proof (spawn_table off (a_first_entry im) path (i_pml4_phys img) (i_entry img) (i_user_rsp img) parent (sch s) k0 Ht Hpar) as (Ht1 & Hc1 & Hn1 & i & Hold & Hnew & Hnone).
  pose proof (spawn_counts off (a_first_entry im) path (i_pml4_phys img) (i_entry img) (i_user_rsp img) parent (sch s) k0 1 ltac:(by unfold slot_ok, MAX_TASKS)) as Hcnt.
  destruct (sched_spawn_user_task _ _ _ _ _ _ _ _ _) as [[pid sc] k]. cbn [fst snd] in *.
  injection E as <- <-. set (s1 := set_vmm _ _).
  assert (early s1) as He by (split; [cbn; congruence|exact Hp|exact Hfs]). change (sch s1) with sc in *.
  destruct (Z.ltb_spec pid 0) as [Hneg|Hpos].
  - split; [|split; [exact Hn1|by intros _]]. split; [done|done|]. intros j Hj Hu. change (sch s1) with sc in *. destruct (decide (j = i)) as [->|Hne]; [by rewrite (Hnone Hneg Hj) in Hu|].
    destruct (Hold j Hj Hu Hne) as [-> Hu']. by apply Hr.
  - destruct (Hnew Hpos) as (-> & Hi & Hfi & Hpi). assert (sched_find_pid (next_pid (sch s)) sc = Some i) as ->.
    { destruct (sched_find_pid (next_pid (sch s)) sc) as [x|] eqn:Ex.
      - apply find_pid_slot in Ex as (Hx & Hfx & Hpx). destruct (decide (x = i)) as [->|Hne]; [done|exfalso]. destruct (Hold x Hx Hfx Hne) as [Eo Hu']. rewrite Eo in Hpx.
        pose proof (tb_pids _ Ht x Hx Hu'). lia.
      - exfalso. unfold sched_find_pid in Ex. pose proof (find_slot_none _ _ _ _ Ex i) as Hn. unfold is_free in Hfi. unfold slot_ok, MAX_TASKS in *. rewrite Hfi, Hpi, Z.eqb_refl in Hn. discriminate Hn. lia. }
    set (brk := i_brk_base img .+ PAGE_SIZE). set (f := fun t => set_brk_cur brk (set_brk_base brk (set_uid 0 t))).
    assert (forall j, task_at (upd_task i f sc) j = if j =? i then f (task_at sc i) else task_at sc j) as Htk by (intros j; apply task_at_upd; [exact (tb_wf _ Ht1)|done]).
    split; [|split; [exact Hn1|by intros _]]. split; [by destruct He; split| |].
    + apply (table_upd sc sc i (f (task_at sc i))); try done; [by apply (tb_rows _ Ht1)|]. intros Hu. exact (tb_pids _ Ht1 i Hi Hu).
    + intros j Hj. change (sch (upd i f s1)) with (upd_task i f sc). rewrite Htk. destruct (Z.eqb_spec j i) as [->|Hne]; [done|]. intros Hu. destruct (Hold j Hj Hu Hne) as [-> Hu']. by apply Hr.
Qed.

Lemma start_tasks_ok off kp have s s' : early s -> start_tasks im off kp have s = Go s' ->
  sys_ok s' /\ forall j, slot_ok j -> is_free (tk s' j) = false -> t_uid (tk s' j) = 0 /\ 0 <= t_pid (tk s' j) <= 2.
Proof.
  intros [Hc Hp Hf]. unfold start_tasks. pose proof (sched_init_table (FA := boot_frames off) (a_idle im) (sch s) (mkKmem (vm_mem (vmm s)) (vm_frames (vmm s))) Hc) as (Ht & Hr & Hc1 & Hn & H1).
  destruct (sched_init _ _ _) as [sc k]. cbn [fst] in *. set (s1 := set_vmm _ _). assert (rooted s1) as R1 by (by split). destruct have; cbn [negb]; [|done].
  intros E. apply go_inv in E as ([ok s2] & E2 & E). change (next_pid sc) with (next_pid (sch s1)) in Hn. destruct (spawn_root_ok off _ 0 s1 ok s2 R1 ltac:(lia) E2) as (R2 & _ & Hn2).
  destruct ok; cbn [negb] in E; [|done]. specialize (Hn2 eq_refl H1). apply go_inv in E as ([ok3 s3] & E3 & E). destruct (spawn_root_ok off _ 1 s2 ok3 s3 R2 ltac:(lia) E3) as ([[C3 P3 F3] T3 A3] & Hn3 & _).
  injection E as <-. destruct (sched_start_table kp (sch s3) T3 C3) as (T4 & U4 & Hid). split; [by apply fresh_ok|]. intros j Hj Hu.
  pose proof (Hid j Hj) as Ei. change (task_at (sched_start kp (sch s3)) j) with (tk (set_sch (sched_start kp (sch s3)) s3) j) in Ei.
  pose proof Ei as Ei'. unfold ident in Ei'. injection Ei' as -> -> _ Efr. rewrite Efr in Hu. split; [by apply A3|]. pose proof (tb_pids _ T3 j Hj Hu). lia.
Qed.

End Start.
