(* ===== verification/BootDemo.v ===== *)
(** * A machine that starts

    A processor with one megabyte of memory, a sound card and no PCI devices,
    and an archive with two programs: start-up gets to the first task. *)
From S2P Require Import Prelude Net Font Screen Kbd Mouse Mem FrameAlloc Pmm Task Sched Pipe Pmap Libk Vfs VfsSpec Block Ext2 Devfs SysState Elf SysProc Syscall SysInv SysSafe Idt Ports Ps2 Pci Dma Ahci E1000 Uhci Audio AudioSpec Lapic Boot BootSpec.

Definition le_bytes (n : nat) (x : Z) : list Z := map (fun k => u8 (x / 256 ^ Z.of_nat k)) (seq 0 n).

(** An ELF file of one page at 0x400000: a jump to itself. *)
Definition tiny_elf : list Z :=
  le_bytes 4 0x464C457F ++ replicate 12 0 ++ le_bytes 2 2 ++ le_bytes 2 0x3E ++ le_bytes 4 1 ++ le_bytes 8 0x400000 ++ le_bytes 8 64 ++ replicate 16 0 ++ le_bytes 2 1 ++ replicate 6 0 ++
  le_bytes 4 1 ++ le_bytes 4 5 ++ le_bytes 8 120 ++ le_bytes 8 0x400000 ++ le_bytes 8 0x400000 ++ le_bytes 8 2 ++ le_bytes 8 4096 ++ le_bytes 8 4096 ++
  [0xEB; 0xFE].
Definition demo_archive : list Z := tar_archive [(bs "bin/init", tiny_elf); (bs "bin/rudod", tiny_elf)].

Definition demo_loader : loader := mkLoader None (Some OFF) (Some [mkEntry 0x1000 0x100000 LIMINE_MEMMAP_USABLE]) (Some (demo_archive, zlen demo_archive)).
Definition demo_addrs : image_addrs := mkAddrs 0x10 (fun v => 0x100 + v) 0x20 0x30 0x500000 (fun _ => 0x40) 0x50 0x60.

(** Ports without devices: every read gives ones. *)
#[local] Instance no_ports : Ports unit := {
  outb a v p := p; inb a p := (0xFF, p); outw a v p := p; inw a p := (0xFFFF, p); outl a v p := p; inl a p := (0xFFFFFFFF, p) }.
#[local] Instance no_device : DmaDevice mem := { reg_read r m := (0, m); reg_write r v m := m; ram m := m; set_ram x m := x; dma m := m }.

Definition zeros : mem := fun _ => 0.
Definition reset_sched : sched := mkSched [] None false 0 (-1) (mkCpu 0 0 0 0) 0 0x1000 0 0 0 false.
Definition reset_sys : sys pmm positive (e1000 * mem) :=
  mkSys reset_sched (mkVm zeros (pmm_boot zeros) 0 0) ∅ (mkVfs ∅ 0 0 4096%positive) zeros 0 (mkRudo 0 0 false 0) 0 kbd0 (tty_boot zeros) mouse0 rng_seed ready_net (e1000_boot, zeros).
Definition reset_world : world (KH := positive) (P := unit) (MA := apic) (MC := card) (MN := mem) (MU := mem) (MH := mem) :=
  mkWorld reset_sys tt (mkApic zeros zeros 0xFEE00800 0 1000000) (mkCard zeros OFF false 0 0 0 false [] [] []) zeros zeros 0 0 sb16_boot uhci_boot ahci_boot (mkBlocks [] []) ext2_unmounted [] [] [] (mkFpu 0x80050037 0x20 false 0).

Abbreviation demo_start := (start 10 demo_loader demo_addrs reset_world).

(** Number, user and name of the first tasks, the slot that runs, and the
    interrupt lines with a handler. *)
Definition seen (w : world (KH := positive) (P := unit) (MA := apic) (MC := card) (MN := mem) (MU := mem) (MH := mem)) : list (Z * Z * list Z) * option Z * list Z :=
  (map (fun t => (t_pid t, t_uid t, t_name t)) (take 3 (tasks (sch (w_sys w)))), current (sch (w_sys w)), w_irqs w).

Definition seen_at {X Y : Type} (f : X -> Y) (x : progress X) : option Y := match x with Go w => Some (f w) | _ => None end.

Lemma demo_start_value : seen_at seen demo_start = Some ([(0, 0, bs "idle"); (1, 0, bs "/bin/init"); (2, 0, bs "/bin/rudod")], Some 2, [5]).
Proof. vm_compute. reflexivity. Qed.

Lemma gone {X Y : Type} (f : X -> Y) (x : progress X) v : seen_at f x = Some v -> exists w, x = Go w /\ f w = v.
Proof. destruct x as [w| |]; [intros [= <-]; eauto|done|done]. Qed.

