(* ===== verification/Libc.v ===== *)
(** * The C library of the user programs (userspace/libc.c)

    String and memory routines over byte memory, decimal output, the system
    call wrappers on top of the kernel's own entry point, and the bump
    allocator that asks the kernel for memory.  Fuel bounds the length of the
    strings. *)
From S2P Require Import Prelude Mem KString Net Font Screen Gfx Kbd Mouse FrameAlloc Pmm Task Sched Pipe Pmap Libk Vfs VfsSpec Devfs SysState SysDemo SysFd SysSig Elf SysProc SysMem SysGfx Syscall SysSafe.

(** ** Strings and memory *)

Fixpoint strlen_from (fuel : nat) (m : mem) (s n : Z) : option Z :=
  match fuel with
  | O => None
  | S f => if load8 m (s + n) =? 0 then Some n else strlen_from f m s (n + 1)
  end.
Definition strlen (fuel : nat) (m : mem) (s : Z) : option Z := strlen_from fuel m s 0.

Fixpoint strcmp (fuel : nat) (m : mem) (a b : Z) : option Z :=
  match fuel with
  | O => None
  | S f =>
      if negb (load8 m a =? 0) && (load8 m a =? load8 m b) then strcmp f m (a + 1) (b + 1)
      else Some (load8 m a - load8 m b)
  end.

(** [n] counts down, [i] up. *)
Fixpoint strncmp_from (n : nat) (m : mem) (a b i : Z) : Z :=
  match n with
  | O => 0
  | S n' =>
      if negb (load8 m (a + i) =? load8 m (b + i)) || (load8 m (a + i) =? 0) then load8 m (a + i) - load8 m (b + i)
      else strncmp_from n' m a b (i + 1)
  end.
Definition strncmp (m : mem) (a b n : Z) : Z := strncmp_from (Z.to_nat n) m a b 0.

Fixpoint memset_from (n : nat) (m : mem) (d c : Z) : mem :=
  match n with
  | O => m
  | S n' => memset_from n' (store8 m d c) (d + 1) c
  end.
Definition memset (m : mem) (dst c n : Z) : mem := memset_from (Z.to_nat n) m dst c.

Fixpoint memcpy_from (n : nat) (m : mem) (d s : Z) : mem :=
  match n with
  | O => m
  | S n' => memcpy_from n' (store8 m d (load8 m s)) (d + 1) (s + 1)
  end.
Definition memcpy (m : mem) (dst src n : Z) : mem := memcpy_from (Z.to_nat n) m dst src.

(** How far the needle matches at [h]: where it stops. *)
Fixpoint match_loop (fuel : nat) (m : mem) (h nn : Z) : option Z :=
  match fuel with
  | O => None
  | S f =>
      if negb (load8 m h =? 0) && negb (load8 m nn =? 0) && (load8 m h =? load8 m nn) then match_loop f m (h + 1) (nn + 1)
      else Some nn
  end.
Fixpoint strstr_loop (fuel : nat) (m : mem) (hay needle : Z) : option Z :=
  match fuel with
  | O => None
  | S f =>
      if load8 m hay =? 0 then Some 0
      else match match_loop fuel m hay needle with
           | None => None
           | Some nn => if load8 m nn =? 0 then Some hay else strstr_loop f m (hay + 1) needle
           end
  end.
Definition strstr (fuel : nat) (m : mem) (hay needle : Z) : option Z :=
  if load8 m needle =? 0 then Some hay else strstr_loop fuel m hay needle.

(** ** Output *)

(** The bytes written for [print_num(n)].  A [long] has at most 19 digits. *)
Fixpoint print_num_fuel (fuel : nat) (n : Z) : list Z :=
  match fuel with
  | O => []
  | S f =>
      let '(sign, n) := if n <? 0 then ([45], s64 (- n)) else ([], n) in
      sign ++ (if 10 <=? n then print_num_fuel f (Z.quot n 10) else []) ++ [u8 (48 + Z.rem n 10)]
  end.
Definition print_num (n : Z) : list Z := print_num_fuel 20 n.

(** * Theorems *)

Lemma str_len_spec fuel m s l : cstr m s l -> (length l < fuel)%nat -> strlen fuel m s = Some (zlen l).
Proof.
  intros Hc Hf. unfold strlen. assert (forall n k, (length l < k + n)%nat -> (k <= length l)%nat -> strlen_from n m s (Z.of_nat k) = Some (zlen l)) as H.
  { induction n as [|n IH]; intros k Hn Hk; [lia|]. cbn [strlen_from]. destruct Hc as (H1 & H2 & H3). destruct (decide (k = length l)) as [->|Hne].
    - fold (zlen l). by rewrite H3.
    - rewrite H1 by (unfold zlen; lia). destruct (lookup_lt_is_Some_2 l k) as [b Eb]; [lia|].
      assert (znth 0 l (Z.of_nat k) = b) as Hb by (unfold znth, zlookup; rewrite (proj2 (Z.ltb_ge _ 0)), Nat2Z.id by lia; by rewrite Eb).
      rewrite Hb. pose proof (Forall_lookup_1 _ _ _ _ H2 Eb) as Hr. cbn in Hr. rewrite (proj2 (Z.eqb_neq b 0)) by lia.
      replace (Z.of_nat k + 1) with (Z.of_nat (S k)) by lia. apply IH; lia. }
  apply (H fuel 0%nat); lia.
Qed.

(** Where [needle] first occurs in [hay]. *)
Fixpoint find_sub (needle hay : list Z) (i : Z) : option Z :=
  if bool_decide (take (length needle) hay = needle) then Some i
  else match hay with [] => None | _ :: r => find_sub needle r (i + 1) end.

Lemma match_loop_spec fuel m h nn hay needle :
  cstr m h hay -> cstr m nn needle -> (length hay < fuel)%nat ->
  exists p, match_loop fuel m h nn = Some p /\ (load8 m p = 0 <-> take (length needle) hay = needle).
Proof.
  revert h nn hay needle. induction fuel as [|fuel IH]; intros h nn hay needle Hh Hn Hf; [lia|]. cbn [match_loop].
  destruct needle as [|b needle].
  { apply cstr_nil in Hn. rewrite Hn. change (0 =? 0) with true. rewrite andb_false_r. cbn [andb]. exists nn. by rewrite Hn. }
  apply cstr_cons in Hn as (Eb & Rb & Hn). destruct hay as [|a hay].
  { apply cstr_nil in Hh. rewrite Hh. cbn [andb negb Z.eqb]. exists nn. split; [done|]. rewrite Eb. cbn. split; [lia|done]. }
  apply cstr_cons in Hh as (Ea & Ra & Hh). rewrite Ea, Eb. rewrite (proj2 (Z.eqb_neq a 0)), (proj2 (Z.eqb_neq b 0)) by lia. cbn [negb andb].
  destruct (Z.eqb_spec a b) as [->|Hne].
  - destruct (IH (h + 1) (nn + 1) hay needle Hh Hn) as (p & E & Hp); [cbn in Hf; lia|]. exists p. split; [done|]. rewrite Hp. cbn [length take].
    split; [by intros ->|by intros [= ?]].
  - exists nn. split; [done|]. rewrite Eb. cbn [length take]. split; [lia|congruence].
Qed.

Lemma strstr_loop_spec fuel m h hay nn needle :
  cstr m h hay -> cstr m nn needle -> needle <> [] -> (length hay < fuel)%nat ->
  strstr_loop fuel m h nn = Some (default 0 (find_sub needle hay h)).
Proof.
  revert h hay. induction fuel as [|fuel IH]; intros h hay Hh Hn Hne Hf; [lia|]. cbn [strstr_loop].
  destruct hay as [|a hay].
  { apply cstr_nil in Hh. rewrite Hh. cbn [find_sub]. rewrite bool_decide_eq_false_2; [done|]. rewrite take_nil. congruence. }
  pose proof Hh as Hh'. apply cstr_cons in Hh' as (Ea & Ra & Hh'). rewrite Ea, (proj2 (Z.eqb_neq a 0)) by lia.
  destruct (match_loop_spec (S fuel) m h nn (a :: hay) needle Hh Hn) as (p & E & Hp); [done|]. rewrite E. cbn [find_sub].
  case_bool_decide as Hb; [by rewrite (proj2 Hp Hb)|]. rewrite (proj2 (Z.eqb_neq (load8 m p) 0)) by (by intros ?%Hp). apply IH; try done. cbn in Hf. lia.
Qed.

(** Strstr finds the first occurrence of the needle, and returns null when
    there is none. *)
Theorem strstr_correct fuel m h hay nn needle :
  cstr m h hay -> cstr m nn needle -> (length hay < fuel)%nat -> strstr fuel m h nn = Some (default 0 (find_sub needle hay h)).
Proof.
  intros Hh Hn Hf. unfold strstr. destruct needle as [|b needle].
  - apply cstr_nil in Hn. rewrite Hn. destruct hay; done.
  - pose proof Hn as Hn'. apply cstr_cons in Hn' as (Eb & Rb & _). rewrite Eb, (proj2 (Z.eqb_neq b 0)) by lia. by apply strstr_loop_spec.
Qed.

Definition demo_text : mem := write_bytes (write_bytes (fun _ => 0) 100 (bs "exec=/bin/sh")) 200 (bs "bin").

Lemma strstr_correct_witness : strstr 16 demo_text 100 200 = Some 106.
Proof.
  rewrite (strstr_correct 16 demo_text 100 (bs "exec=/bin/sh") 200 (bs "bin")); [reflexivity| | |cbn; lia];
    repeat (apply cstr_cons; split; [reflexivity|split; [vm_compute; split; congruence|]]); by apply cstr_nil.
Defined.

(** Decimal digits, most significant first, without leading zeros. *)
Definition decimal (ds : list Z) (n : Z) : Prop :=
  Forall (fun d => 0 <= d < 10) ds /\ digits_value 10 ds = n /\ ds <> [] /\ (hd 0 ds = 0 -> ds = [0]).

Lemma print_digits fuel n :
  0 <= n < 10 ^ Z.of_nat fuel -> (0 < fuel)%nat -> exists ds, print_num_fuel fuel n = (fun d => 48 + d) <$> ds /\ decimal ds n.
Proof.
  revert n. induction fuel as [|fuel IH]; intros n Hn Hf; [lia|]. cbn [print_num_fuel]. rewrite (proj2 (Z.ltb_ge n 0)) by lia. cbn [app].
  rewrite Z.quot_div_nonneg, Z.rem_mod_nonneg by lia. rewrite u8_small by lia.
  destruct (Z.leb_spec 10 n) as [H10|H10].
  - destruct (IH (n / 10)) as (ds & E & H1 & H2 & H3 & H4).
    { rewrite Nat2Z.inj_succ, Z.pow_succ_r in Hn by lia. lia. }
    { destruct fuel; [cbn in Hn; lia|lia]. }
    exists (ds ++ [n mod 10]). rewrite fmap_app, E. split; [done|]. split; [apply Forall_app; split; [done|constructor; [lia|constructor]]|].
    split; [rewrite digits_value_snoc, H2; lia|]. split; [by destruct ds|]. destruct ds as [|d ds]; [done|]. cbn [app hd]. intros ->.
    pose proof (H4 eq_refl) as [= ->]. cbn in H2. lia.
  - exists [n]. rewrite Z.mod_small by lia. split; [done|]. split; [constructor; [lia|constructor]|]. split; [done|]. split; [done|]. cbn [hd]. by intros ->.
Qed.

(** Print_num writes a [long] in decimal: a sign if it is negative and the
    digits of its absolute value without leading zeros.  The least [long] is
    the exception, see [print_num_least]. *)
Theorem print_num_correct n :
  - 2 ^ 63 < n < 2 ^ 63 ->
  exists ds, print_num n = (if n <? 0 then [45] else []) ++ ((fun d => 48 + d) <$> ds) /\ decimal ds (Z.abs n).
Proof.
  intros Hn. unfold print_num. destruct (Z.ltb_spec n 0) as [Hneg|Hpos].
  - destruct (print_digits 20 (- n)) as (ds & E & Hd); [lia|lia|]. exists ds. rewrite Z.abs_neq by lia. split; [|done]. rewrite <- E.
    cbn [print_num_fuel]. rewrite (proj2 (Z.ltb_lt n 0)) by lia. rewrite (proj2 (Z.ltb_ge (- n) 0)) by lia. by rewrite s64_small by lia.
  - destruct (print_digits 20 n) as (ds & E & Hd); [lia|lia|]. exists ds. rewrite Z.abs_eq by lia. by rewrite E.
Qed.

Lemma print_num_correct_witness : print_num (-1024) = bs "-1024" /\ exists ds, print_num (-1024) = [45] ++ ((fun d => 48 + d) <$> ds) /\ decimal ds 1024.
Proof. split; [reflexivity|]. apply (print_num_correct (-1024)). lia. Defined.

Example print_num_least : print_num (- 2 ^ 63) = bs "-(".
Proof. reflexivity. Qed.

(** ** System calls

    [s] is the kernel's state when the running task makes the call; the
    result is what the call leaves in rax, if it returns.  [raw_syscall3]
    loads three argument registers: [junk4] .. [junk6] stand for what is in
    the others. *)

(** The numbers of the library's own header, in its order. *)
Definition libc_syscalls : list Z :=
  [0; 1; 2; 3; 4; 5; 6; 7; 8; 9; 10; 11; 12; 13; 14; 15; 16; 17; 18; 19; 20; 21; 26; 27; 28; 29; 30; 31; 32; 33; 34; 22; 23; 24; 25].

(** The two headers agree. *)
Example libc_numbers_in_sync :
  libc_syscalls =
  [SYS_EXIT; SYS_WRITE; SYS_READ; SYS_OPEN; SYS_CLOSE; SYS_GETPID; SYS_YIELD; SYS_BRK; SYS_FORK; SYS_EXECVE; SYS_WAITPID; SYS_UNAME;
   SYS_SIGRETURN; SYS_GETPPID; SYS_MMAP; SYS_MUNMAP; SYS_DUP; SYS_DUP2; SYS_PIPE; SYS_KILL; SYS_SIGNAL; SYS_SYSINFO; SYS_TIME; SYS_REBOOT;
   SYS_GFX; SYS_PANIC; SYS_RUDO_REQUEST; SYS_RUDO_WAIT; SYS_SETUID; SYS_GETUID; SYS_MOUSE; SYS_SETPGID; SYS_GETPGID; SYS_SETSID; SYS_TCSETPGRP].
Proof. reflexivity. Qed.

(** The wrapper's result as an [int]. *)
Definition as_int {S : Type} (x : outcome * S) : outcome * S :=
  match x with (Ret r, s) => (Ret (s32 r), s) | x => x end.

Section Wrappers.
Context {A : Type} `{FA : FrameAlloc A} {KH : Type} `{NH : NodeHeap KH} {N : Type} `{NC : Nic N}.
Variable d : machine A.
Variables junk4 junk5 junk6 : Z.
Implicit Types s : sys A KH N.

Definition raw_syscall3 (n a b c : Z) s : outcome * sys A KH N :=
  syscall_handler d (u64 n) (u64 a) (u64 b) (u64 c) junk4 junk5 junk6 s.
Definition raw_syscall1 (n a : Z) s : outcome * sys A KH N := raw_syscall3 n a 0 0 s.
Definition raw_syscall6 (n a b c e f g : Z) s : outcome * sys A KH N :=
  syscall_handler d (u64 n) (u64 a) (u64 b) (u64 c) (u64 e) (u64 f) (u64 g) s.

Definition execve (path argv : Z) s := as_int (raw_syscall3 SYS_EXECVE path argv 0 s).
Definition waitpid (pid status : Z) s := as_int (raw_syscall3 SYS_WAITPID pid status 0 s).
Definition getppid s := as_int (raw_syscall1 SYS_GETPPID 0 s).
Definition kill (pid sig : Z) s := as_int (raw_syscall3 SYS_KILL pid sig 0 s).
Definition signal (sig handler : Z) s := raw_syscall3 SYS_SIGNAL sig handler 0 s.
Definition setpgid (pid pgid : Z) s := as_int (raw_syscall3 SYS_SETPGID pid pgid 0 s).
Definition getpgid (pid : Z) s := as_int (raw_syscall1 SYS_GETPGID pid s).
Definition setsid s := as_int (raw_syscall1 SYS_SETSID 0 s).
Definition tcsetpgrp (pgid : Z) s := as_int (raw_syscall1 SYS_TCSETPGRP pgid s).
Definition read (fd buf len : Z) s := raw_syscall3 SYS_READ fd buf len s.
Definition write (fd buf len : Z) s := raw_syscall3 SYS_WRITE fd buf len s.
Definition open (path : Z) s := as_int (raw_syscall3 SYS_OPEN path 0 0 s).
Definition open_append (path : Z) s := as_int (raw_syscall3 SYS_OPEN path O_APPEND 0 s).
Definition open_create (path : Z) s := as_int (raw_syscall3 SYS_OPEN path O_CREATE 0 s).
Definition close (fd : Z) s := as_int (raw_syscall1 SYS_CLOSE fd s).
Definition dup (fd : Z) s := as_int (raw_syscall1 SYS_DUP fd s).
Definition dup2 (oldfd newfd : Z) s := as_int (raw_syscall3 SYS_DUP2 oldfd newfd 0 s).
Definition pipe (fds : Z) s := as_int (raw_syscall1 SYS_PIPE fds s).
Definition getpid s := as_int (raw_syscall1 SYS_GETPID 0 s).
Definition uname (buf : Z) s := as_int (raw_syscall1 SYS_UNAME buf s).
Definition sysinfo (si : Z) s := as_int (raw_syscall1 SYS_SYSINFO si s).
Definition systime (tv : Z) s := as_int (raw_syscall1 SYS_TIME tv s).
Definition rudo_request (op : Z) s := as_int (raw_syscall1 SYS_RUDO_REQUEST op s).
Definition rudo_wait (out : Z) s := as_int (raw_syscall1 SYS_RUDO_WAIT out s).
Definition setuid (uid : Z) s := as_int (raw_syscall1 SYS_SETUID uid s).
Definition getuid s := as_int (raw_syscall1 SYS_GETUID 0 s).
Definition mouse_read (out : Z) s := as_int (raw_syscall1 SYS_MOUSE out s).
(** [exit], [reboot] and [kpanic] never return; the caller loops if they do. *)
Definition exit_call (status : Z) s := raw_syscall1 SYS_EXIT status s.
Definition reboot_call s := raw_syscall1 SYS_REBOOT 0 s.
Definition kpanic_call s := raw_syscall1 SYS_PANIC 0 s.
(** [fork] loads the number only; the kernel's fork takes no argument. *)
Definition fork_call s := syscall_handler d SYS_FORK 0 0 0 junk4 junk5 junk6 s.
Definition yield_call s := raw_syscall1 SYS_YIELD 0 s.
Definition brk_syscall (addr : Z) s := as_int (raw_syscall1 SYS_BRK addr s).

Definition gfx_fill_rect_call (x y w h color : Z) s := raw_syscall6 SYS_GFX GFX_FILL_RECT x y w h color s.
Definition gfx_rect_call (x y w h color : Z) s := raw_syscall6 SYS_GFX GFX_RECT x y w h color s.
Definition gfx_line_call (x0 y0 x1 y1 color : Z) s := raw_syscall6 SYS_GFX GFX_LINE x0 y0 x1 y1 color s.
Definition gfx_circle_call (cx cy r color : Z) s := raw_syscall6 SYS_GFX GFX_CIRCLE cx cy r 0 color s.
Definition gfx_fill_circle_call (cx cy r color : Z) s := raw_syscall6 SYS_GFX GFX_FILL_CIRCLE cx cy r 0 color s.
Definition gfx_clear_call (color : Z) s := raw_syscall6 SYS_GFX GFX_CLEAR color 0 0 0 0 s.
Definition gfx_set_cursor (x y prev_x prev_y color : Z) s := raw_syscall6 SYS_GFX GFX_SET_CURSOR x y prev_x prev_y color s.
Definition gfx_fb_mmap (target_va : Z) s := raw_syscall6 SYS_GFX GFX_FB_MMAP target_va 0 0 0 0 s.
(** [pitch] is the address of the local variable. *)
Definition gfx_get_pitch (pitch : Z) s : outcome * sys A KH N :=
  match raw_syscall6 SYS_GFX GFX_GET_PITCH 0 0 pitch 0 0 (set_umem (store32 (umem s) pitch 0) s) with
  | (Ret _, s) => (Ret (s32 (load32 (umem s) pitch)), s)
  | x => x
  end.

(** ** The allocator *)

Record arena := mkArena { mp_ptr : Z; mp_end : Z }.
Definition arena0 : arena := mkArena 0 0.

(** A null pointer is [Ret 0]. *)
Definition malloc (n : Z) (a : arena) s : outcome * arena * sys A KH N :=
  let n := Z.land (u64 (n + 15)) (u64 (Z.lnot 15)) in
  let n := if n =? 0 then 16 else n in
  if mp_end a <? mp_ptr a .+ n then
    let need := Z.land (u64 (n + 4095)) (u64 (Z.lnot 4095)) in
    match raw_syscall1 SYS_MMAP need s with
    | (Ret p, s) => if p <? 0 then (Ret 0, a, s) else (Ret p, mkArena (u64 (u64 p + n)) (u64 (u64 p + need)), s)
    | (o, s) => (o, a, s)
    end
  else (Ret (mp_ptr a), mkArena (mp_ptr a .+ n) (mp_end a), s).

Definition calloc (n sz : Z) (a : arena) s : outcome * arena * sys A KH N :=
  match malloc (n .* sz) a s with
  | (Ret p, a, s) => (Ret p, a, if p =? 0 then s else set_umem (memset (umem s) p 0 (n .* sz)) s)
  | x => x
  end.

Lemma mmap_wrapper_fails need s r : (raw_syscall1 SYS_MMAP need s).1 = Ret r -> r = -1.
Proof.
  assert (Hd : forall x, (dispatch d (u64 SYS_MMAP) (u64 need) (u64 0) (u64 0) junk4 junk5 junk6 x).1 = Ret (-1)).
  { intros x. assert (dispatch d (u64 SYS_MMAP) (u64 need) (u64 0) (u64 0) junk4 junk5 junk6 x = sys_mmap (d_off d) (u64 0) x) as -> by reflexivity.
    unfold sys_mmap. by destruct (current_task x). }
  unfold raw_syscall1, raw_syscall3, syscall_handler.
  destruct (match current_task s with Some c => _ | None => _ end) as [b s1]. destruct b; cbn [negb fst]; [|done].
  destruct (g_resched_requested (sch s1)); [case_bool_decide; [|done]|]; rewrite Hd; congruence.
Qed.

(** Malloc never allocates.  The library passes the length in the first
    argument register and the kernel's mmap takes it from the second, where
    the wrapper put 0: whatever the size and the state of the machine, a
    first call that returns gives the null pointer and leaves the arena
    empty. *)
Theorem malloc_always_fails n s r :
  (malloc n arena0 s).1.1 = Ret r -> r = 0 /\ (malloc n arena0 s).1.2 = arena0.
Proof.
  unfold malloc. cbv zeta. set (k := if _ =? 0 then 16 else _).
  assert (0 < k < 2 ^ 64) as Hk.
  { unfold k. set (x := Z.land _ _). assert (0 <= x < 2 ^ 64) as Hx.
    { unfold x. rewrite (land_align_down _ 4) by (try apply u64_range; lia). pose proof (u64_range (n + 15)). lia. }
    destruct (Z.eqb_spec x 0); lia. }
  cbn [mp_end mp_ptr arena0]. rewrite (u64_small (0 + k)) by lia. rewrite (proj2 (Z.ltb_lt 0 (0 + k))) by lia.
  set (need := Z.land _ _). pose proof (mmap_wrapper_fails need s) as H. destruct (raw_syscall1 SYS_MMAP need s) as [[p| | |] s']; cbn [fst snd] in *; try done.
  specialize (H p eq_refl). subst p. intros [= <-]. done.
Qed.
End Wrappers.

Lemma malloc_always_fails_witness :
  (malloc demo_machine 0 0 0 100 arena0 demo_sys).1.1 = Ret 0 /\ (malloc demo_machine 0 0 0 100 arena0 demo_sys).1.2 = arena0.
Proof. split; [by vm_compute|]. apply (malloc_always_fails demo_machine 0 0 0 100 demo_sys 0). by vm_compute. Defined.
