(* ===== verification/Progs.v ===== *)
(** * The small user programs (userspace)

    Each program is its [main], over the C library and the kernel: the state
    is the kernel's, with the program's memory in [umem].  Variables the code
    takes the address of, and arrays, are in that memory at addresses that are
    parameters, and so are the strings of the program's text: [lit t] is the
    address of the text [t].  A call that does not return at once ends the
    run with its outcome ([Away]); [fuel] bounds the turns of the loops whose
    end depends on the input, and [Long] says that it was not enough.
    Programs that never end are given as the body of their loop. *)
From S2P Require Import Prelude Mem KString Net Font Screen Kbd Mouse FrameAlloc Pmm Task Sched Pipe Pmap Libk Vfs Devfs SysState SysFd SysSig Elf SysProc SysMem SysGfx Syscall Libc.

Inductive ran (S A : Type) := Back (a : A) (s : S) | Away (o : outcome) (s : S) | Long.
Arguments Back {S A} a s.
Arguments Away {S A} o s.
Arguments Long {S A}.
Definition U (S A : Type) : Type := S -> ran S A.
#[global] Instance u_ret S : MRet (U S) := fun A a s => Back a s.
#[global] Instance u_bind S : MBind (U S) := fun A B f m s =>
  match m s with Back a s => f a s | Away o s => Away o s | Long => Long end.

Definition ansi (s : string) : list Z := 27 :: bs s.
Definition nl : list Z := [10].

Section Progs.
Context {A : Type} `{FA : FrameAlloc A} {KH : Type} `{NH : NodeHeap KH} {N : Type} `{NC : Nic N}.
Variables (d : machine A) (junk4 junk5 junk6 : Z).
Variable lit : list Z -> Z.
(** Where [print_num] keeps its character. *)
Variable digit : Z.
Variable fuel : nat.
Abbreviation prog := (U (sys A KH N)).
Implicit Types s : sys A KH N.

Definition call (f : sys A KH N -> outcome * sys A KH N) : prog Z := fun s => match f s with (Ret r, s) => Back r s | (o, s) => Away o s end.
Definition gets {X} (f : mem -> X) : prog X := fun s => Back (f (umem s)) s.
Definition sets (f : mem -> mem) : prog unit := fun s => Back tt (set_umem (f (umem s)) s).
Definition long : prog Z := fun _ => Long.
Definition some (x : option Z) : prog Z := fun s => match x with Some v => Back v s | None => Long end.

(** ** The rest of the library *)

Definition print (p : Z) : prog unit :=
  m ← gets id;
  n ← some (strlen fuel m p);
  call (write d junk4 junk5 junk6 1 p n);; mret tt.
Definition say (t : list Z) : prog unit := print (lit t).

(** The frames of the recursion share one cell: a character is written out
    before the caller stores its own. *)
Fixpoint print_num_from (k : nat) (n : Z) : prog unit :=
  match k with
  | O => long;; mret tt
  | S k' =>
      n ← (if n <? 0 then say (bs "-");; mret (s64 (- n)) else mret n);
      (if 10 <=? n then print_num_from k' (Z.quot n 10) else mret tt);;
      sets (fun m => store8 m digit (48 + Z.rem n 10));;
      call (write d junk4 junk5 junk6 1 digit 1);; mret tt
  end.
Definition print_num (n : Z) : prog unit := print_num_from 20 n.

Definition arg (argv i : Z) : prog Z := gets (fun m => load64 m (argv + 8 * i)).
Definition word (a : Z) : prog Z := gets (fun m => load32 m a).
Definition char_at (a : Z) : prog Z := gets (fun m => load8 m a).

Abbreviation open := (open d junk4 junk5 junk6).
Abbreviation close := (close d junk4 junk5 junk6).
Abbreviation read := (read d junk4 junk5 junk6).
Abbreviation write := (write d junk4 junk5 junk6).
Abbreviation yield := (yield_call d junk4 junk5 junk6).

(** ** cat *)

Fixpoint cat_loop (k : nat) (fd buf : Z) : prog unit :=
  match k with
  | O => long;; mret tt
  | S k' =>
      n ← call (read fd buf 256);
      if 0 <? n then call (write 1 buf n);; cat_loop k' fd buf else mret tt
  end.
Definition cat_main (buf argc argv : Z) : prog Z :=
  if argc <? 2 then say (bs "usage: cat <file>" ++ nl);; mret 1
  else
    path ← arg argv 1;
    fd ← call (open path);
    if fd <? 0 then say (bs "cat: cannot open ");; print path;; say nl;; mret 1
    else cat_loop fuel fd buf;; call (close fd);; mret 0.

(** ** wc *)

Record counts := mkCounts { c_lines : Z; c_words : Z; c_bytes : Z; c_in_word : bool }.
Definition wc_step (x : counts) (c : Z) : counts :=
  let lines := if c =? 10 then s64 (c_lines x + 1) else c_lines x in
  let bytes := s64 (c_bytes x + 1) in
  if (c =? 32) || (c =? 10) || (c =? 9) then mkCounts lines (c_words x) bytes false
  else if negb (c_in_word x) then mkCounts lines (s64 (c_words x + 1)) bytes true
  else mkCounts lines (c_words x) bytes true.
Fixpoint wc_loop (k : nat) (cp : Z) (x : counts) : prog counts :=
  match k with
  | O => long;; mret x
  | S k' =>
      r ← call (read 0 cp 1);
      if r =? 1 then c ← char_at cp; wc_loop k' cp (wc_step x c) else mret x
  end.
Definition wc_main (cp : Z) : prog Z :=
  x ← wc_loop fuel cp (mkCounts 0 0 0 false);
  print_num (c_lines x);; say (bs " ");; print_num (c_words x);; say (bs " ");; print_num (c_bytes x);; say nl;; mret 0.

(** ** grep *)

Definition GREP_LINE_MAX : Z := 512.
(** End the line at [n] and print it if it matches. *)
Definition grep_flush (line n pattern : Z) : prog unit :=
  sets (fun m => store8 m (line + n) 0);;
  m ← gets id;
  p ← some (strstr fuel m line pattern);
  if negb (p =? 0) then print line;; say nl else mret tt.
Fixpoint grep_loop (k : nat) (cp line n argv : Z) : prog Z :=
  match k with
  | O => long
  | S k' =>
      r ← call (read 0 cp 1);
      if r =? 1 then
        c ← char_at cp;
        if (c =? 10) || (GREP_LINE_MAX <=? n + 1) then
          pattern ← arg argv 1; grep_flush line n pattern;; grep_loop k' cp line 0 argv
        else sets (fun m => store8 m (line + n) c);; grep_loop k' cp line (n + 1) argv
      else mret n
  end.
Definition grep_main (cp line argc argv : Z) : prog Z :=
  if argc <? 2 then say (bs "usage: grep <pattern>" ++ nl);; mret 1
  else
    n ← grep_loop fuel cp line 0 argv;
    (if 0 <? n then pattern ← arg argv 1; grep_flush line n pattern else mret tt);; mret 0.

(** ** echo, pwd, ls, clear, reboot, busy *)

Fixpoint echo_loop (k : nat) (i argc argv : Z) : prog unit :=
  match k with
  | O => mret tt
  | S k' =>
      if i <? argc then
        a ← arg argv i; print a;; (if i + 1 <? argc then say (bs " ") else mret tt);; echo_loop k' (i + 1) argc argv
      else mret tt
  end.
Definition echo_main (argc argv : Z) : prog Z := echo_loop (Z.to_nat argc) 1 argc argv;; say nl;; mret 0.
Definition pwd_main : prog Z := say (bs "/" ++ nl);; mret 0.
Definition ls_main : prog Z :=
  say (bs "bin/" ++ nl);; say (bs "etc/motd" ++ nl);; say (bs "etc/unit.conf" ++ nl);; say (bs "tmp/" ++ nl);; mret 0.
Definition clear_main : prog Z := say (ansi "[2J" ++ ansi "[H");; mret 0.
Definition reboot_main : prog Z := say (bs "Rebooting..." ++ nl);; call (reboot_call d junk4 junk5 junk6);; long.
(** Turn [i] of the loop of [busy]. *)
Definition busy_start : prog unit := say (bs "busy: spinning, press Ctrl+C to kill me" ++ nl).
Definition busy_turn (i : Z) : prog Z := (if Z.rem i 5000000 =? 0 then say (bs ".");; call yield;; mret tt else mret tt);; mret (s64 (i + 1)).

(** ** sleep, date, free: what the kernel stored *)

Abbreviation sysinfo := (sysinfo d junk4 junk5 junk6).

Fixpoint sleep_number (k : nat) (want p : Z) : prog Z :=
  match k with
  | O => long
  | S k' =>
      c ← char_at p;
      if c =? 0 then mret want
      else if (s8 c <? 48) || (57 <? s8 c) then mret want
      else sleep_number k' (s32 (want * 10 + (c - 48))) (p + 1)
  end.
Fixpoint sleep_loop (k : nat) (si until : Z) : prog unit :=
  match k with
  | O => long;; mret tt
  | S k' =>
      now ← word (si + 8);
      if now <? until then call yield;; call (sysinfo si);; sleep_loop k' si until else mret tt
  end.
Definition sleep_main (si argc argv : Z) : prog Z :=
  if argc <? 2 then say (bs "usage: sleep <seconds>" ++ nl);; mret 1
  else
    p ← arg argv 1;
    want ← sleep_number fuel 0 p;
    call (sysinfo si);;
    now ← word (si + 8);
    sleep_loop fuel si (u32 (now + u32 want));; mret 0.

(** Two digits; the characters are stored as bytes. *)
Definition P2 (v : Z) : list Z := [u8 (48 + v / 10); u8 (48 + v mod 10)].
Definition date_text (sec min hour day mon year : Z) : list Z :=
  P2 day ++ [46] ++ P2 mon ++ [46] ++ [50; 48] ++ P2 (year mod 100) ++ [32] ++ P2 hour ++ [58] ++ P2 min ++ [58] ++ P2 sec.
Definition date_main (tv buf : Z) : prog Z :=
  r ← call (systime d junk4 junk5 junk6 tv);
  if negb (r =? 0) then say (bs "date: failed" ++ nl);; mret 1
  else
    sec ← word tv; min ← word (tv + 4); hour ← word (tv + 8); day ← word (tv + 12); mon ← word (tv + 16); year ← word (tv + 20);
    sets (fun m => write_bytes m buf (date_text sec min hour day mon year ++ [0]));;
    print buf;; say nl;; mret 0.

Definition free_main (si : Z) : prog Z :=
  r ← call (sysinfo si);
  if negb (r =? 0) then say (bs "free: sysinfo failed" ++ nl);; mret 1
  else
    total ← word si; free ← word (si + 4);
    let used := u32 (total - free) in
    say (bs "total     used     free" ++ nl);;
    print_num (total / 1024);; say (bs "MiB    ");; print_num (used / 1024);; say (bs "MiB    ");; print_num (free / 1024);; say (bs "MiB" ++ nl);; mret 0.

(** ** uptime, ps, netinfo: one read of a file *)

(** Read a file of /proc into [buf] and end it. *)
Definition proc_text (fd buf cap : Z) : prog unit :=
  n ← call (read fd buf (cap - 1));
  call (close fd);;
  let n := if n <? 0 then 0 else n in
  sets (fun m => store8 m (buf + n) 0).
Definition uptime_main (buf : Z) : prog Z :=
  fd ← call (open (lit (bs "/proc/uptime")));
  if fd <? 0 then say (bs "uptime: cannot open /proc/uptime" ++ nl);; mret 1
  else proc_text fd buf 64;; say (bs "up ");; print buf;; mret 0.
Definition PS_BUF_SIZE : Z := 2048.
Definition ps_main (buf : Z) : prog Z :=
  fd ← call (open (lit (bs "/proc/stat")));
  if fd <? 0 then say (bs "ps: cannot open /proc/stat" ++ nl);; mret 1
  else proc_text fd buf PS_BUF_SIZE;; say (bs "PID  PPID  PGID  S  NAME" ++ nl);; print buf;; mret 0.

Definition netinfo_main (line : Z) : prog Z :=
  fd ← call (open (lit (bs "/dev/net")));
  if fd <? 0 then say (bs "netinfo: /dev/net not available" ++ nl);; mret 1
  else
    w ← call (write fd (lit (bs "status")) 6);
    if w <? 0 then say (bs "netinfo: command rejected" ++ nl);; call (close fd);; mret 1
    else
      n ← call (read fd line 255);
      if n <? 0 then say (bs "netinfo: read error" ++ nl);; call (close fd);; mret 1
      else if n =? 0 then say (bs "netinfo: no data" ++ nl);; call (close fd);; mret 1
      else sets (fun m => store8 m (line + n) 0);; print line;; call (close fd);; mret 0.

(** ** init and the privileged daemon *)

Definition panic_main : prog Z :=
  say (ansi "[1;91mpanic:" ++ ansi "[0m requesting kernel panic via rudo..." ++ nl);;
  r ← call (rudo_request d junk4 junk5 junk6 RUDO_OP_PANIC);
  if negb (r =? 0) then say (bs "panic: rudo denied (rudod not running?)" ++ nl);; mret 1
  else say (bs "panic: approved. goodbye" ++ nl);; call yield;; mret 0.

Definition init_start (uts : Z) : prog unit :=
  call (signal d junk4 junk5 junk6 SIGINT SIG_IGN);;
  call (setsid d junk4 junk5 junk6);;
  call (setpgid d junk4 junk5 junk6 0 0);;
  r ← call (uname d junk4 junk5 junk6 uts);
  if r =? 0 then say (nl ++ bs "=== MMix /init ===" ++ nl ++ bs "System: ");; print uts;; say (nl ++ nl) else mret tt.
(** A turn of the loop, in the parent and in the child: what [fork] returns
    tells which. *)
Definition init_turn (sh_argv status : Z) : prog unit :=
  pid ← call (fork_call d junk4 junk5 junk6);
  (if pid =? 0 then
     sets (fun m => store64 (store64 m sh_argv (lit (bs "/bin/sh"))) (sh_argv + 8) 0);;
     r ← call (execve d junk4 junk5 junk6 (lit (bs "/bin/sh")) sh_argv);
     if negb (r =? 0) then say (bs "init: cannot start /bin/sh" ++ nl);; call (exit_call d junk4 junk5 junk6 1);; long;; mret tt else mret tt
   else mret tt);;
  sets (fun m => store32 m status (-1));;
  got ← call (waitpid d junk4 junk5 junk6 (s32 pid) status);
  say (bs "[init] shell (pid ");; print_num got;; say (bs ") exited with status ");;
  st ← word status; print_num (s32 st);; say (bs ", restarting" ++ nl).

Definition rudod_start : prog unit := say (ansi "[1;92mrudod" ++ ansi "[0m: root daemon online (uid 0)" ++ nl).
Definition rudod_turn (req : Z) : prog unit :=
  sets (fun m => store32 (store32 m req 0) (req + 4) 0);;
  r ← call (rudo_wait d junk4 junk5 junk6 req);
  if r <? 0 then say (bs "rudod: wait failed" ++ nl);; call yield;; mret tt
  else
    op ← word req; pid ← word (req + 4);
    if s32 op =? RUDO_OP_PANIC then say (bs "rudod: approved PANIC from pid ");; print_num (s32 pid);; say nl
    else if s32 op =? RUDO_OP_SETUID then say (bs "rudod: approved SETUID for pid ");; print_num (s32 pid);; say nl
    else say (bs "rudod: unknown op ");; print_num (s32 op);; say nl.

(** ** ping *)

(** [oct] are the numbers before the ones being read. *)
Fixpoint parse_ip_loop (s : list Z) (val digits : Z) (oct : list Z) : option (list Z) :=
  match s with
  | [] => if negb (zlen oct =? 3) || (digits =? 0) then None else Some (oct ++ [val])
  | c :: r =>
      if (48 <=? c) && (c <=? 57) then
        let val := u32 (val * 10 + (c - 48)) in
        let digits := digits + 1 in
        if 3 <? digits then None else if 255 <? val then None else parse_ip_loop r val digits oct
      else if c =? 46 then
        if (digits =? 0) || (3 <=? zlen oct) then None else parse_ip_loop r 0 0 (oct ++ [val])
      else None
  end.
Definition parse_ip (s : list Z) : option Z :=
  match parse_ip_loop s 0 0 [] with
  | Some [a; b; c; e] => Some (Z.lor (Z.lor (Z.lor (u32 (Z.shiftl a 24)) (u32 (Z.shiftl b 16))) (u32 (Z.shiftl c 8))) e)
  | _ => None
  end.

(** The digits of [v], none for 0: the loop that stores them backwards and
    the one that reverses them. *)
Fixpoint digits_of (k : nat) (v : Z) : list Z :=
  match k with
  | O => []
  | S k' => if v =? 0 then [] else digits_of k' (v / 10) ++ [48 + v mod 10]
  end.
Definition ping_octet (v k : Z) : list Z :=
  let oct := Z.land (Z.shiftr v (24 - 8 * k)) 0xFF in
  (if oct =? 0 then [48] else digits_of 4 oct) ++ (if k <? 3 then [46] else []).
Definition ping_command (ip : Z) : list Z := bs "ping " ++ concat (map (ping_octet ip) [0; 1; 2; 3]).

(** The bytes of the answer; [None] after a read error. *)
Fixpoint ping_read (k : nat) (fd line total : Z) : prog (option Z) :=
  match k with
  | O => long;; mret None
  | S k' =>
      if total <? 191 then
        n ← call (read fd (line + total) (191 - total));
        if n <? 0 then say (bs "ping: read error" ++ nl);; call (close fd);; mret None
        else if n =? 0 then mret (Some total) else ping_read k' fd line (total + n)
      else mret (Some total)
  end.

Definition ping_main (cmd line argc argv : Z) : prog Z :=
  if argc <? 2 then say (bs "usage: ping A.B.C.D" ++ nl);; mret 2
  else
    p ← arg argv 1;
    text ← gets (fun m => c_string (bytes_at fuel m p));
    match parse_ip text with
    | None => say (bs "ping: invalid address" ++ nl);; mret 2
    | Some ip =>
        fd ← call (open (lit (bs "/dev/net")));
        if fd <? 0 then say (bs "ping: /dev/net not available" ++ nl);; mret 1
        else
          sets (fun m => write_bytes m cmd (ping_command ip));;
          w ← call (write fd cmd (zlen (ping_command ip)));
          if w <? 0 then say (bs "ping: command rejected" ++ nl);; call (close fd);; mret 1
          else
            total ← ping_read 192 fd line 0;
            match total with
            | None => mret 1
            | Some total =>
                if total =? 0 then say (bs "ping: no response from device" ++ nl);; call (close fd);; mret 1
                else
                  sets (fun m => store8 m (line + total) 0);;
                  print line;; call (close fd);;
                  l ← gets (fun m => bytes_at 5 m line);
                  mret (if bool_decide (l = bs "reply") then 0 else 1)
            end
    end.

(** ** fetch *)

Definition logo : list (list Z) :=
  map bs ["  /\\    "; " /  \\   "; "/ /\ \\  "; "\ \\/ // "; " \// //  "; "  / //   "; " / //    "; "/_//     "]%string.
Definition C_LOGO : list Z := ansi "[1;36m".
Definition C_RESET : list Z := ansi "[0m".
Definition logo_at (li : Z) : list Z := znth [] logo (if li <? 8 then li else 7).

(** The macro, on line [li]. *)
Definition NEXTLINE (line li : Z) : prog Z :=
  say C_LOGO;; say (logo_at li);; say C_RESET;; print line;; say nl;; mret (li + 1).
(** A text into the buffer at [i], ended. *)
Definition put_line (line i : Z) (t : list Z) : prog unit := sets (fun m => write_bytes m (line + i) (t ++ [0])).
(** The literal [t] copied to the start of the buffer. *)
Definition label (line : Z) (t : list Z) (n : Z) : prog unit := sets (fun m => memcpy m line (lit t) n).
(** The string at [src] copied to [dst], with its end. *)
Fixpoint copy_string (k : nat) (dst src : Z) : prog unit :=
  match k with
  | O => long;; mret tt
  | S k' =>
      c ← char_at src;
      if c =? 0 then sets (fun m => store8 m dst 0) else sets (fun m => store8 m dst c);; copy_string k' (dst + 1) (src + 1)
  end.

Definition os_label : list Z := ansi "[1;92mOS:" ++ ansi "[0m ".
Definition fetch_os (line os : Z) : prog unit := label line os_label 14;; copy_string fuel (line + 4) os.
Definition uptime_text (up : Z) : list Z :=
  let m := up / 60 in let s := up mod 60 in
  (if m =? 0 then [] else (if 10 <=? m then [u8 (48 + m / 10)] else []) ++ [u8 (48 + m mod 10); 109]) ++
  (if 10 <=? s then [u8 (48 + s / 10)] else []) ++ [u8 (48 + s mod 10); 115].
Definition fetch_uptime (line si : Z) : prog unit :=
  label line (ansi "[1;92mUptime:" ++ ansi "[0m ") 21;; up ← word (si + 8); put_line line 8 (uptime_text up).
Definition number (v : Z) : list Z := digits_of 11 v.
Definition fetch_resolution (line si : Z) : prog unit :=
  label line (ansi "[1;92mResolution:" ++ ansi "[0m ") 26;;
  w ← word (si + 12); h ← word (si + 16); b ← word (si + 20);
  put_line line 12 (number w ++ [120] ++ number h ++ [64] ++ number b).
Definition ram_text (total free : Z) : list Z :=
  number (u32 (total - free) / 1024) ++ bs "MiB / " ++ number (total / 1024) ++ bs "MiB".
Definition fetch_ram (line si : Z) : prog unit :=
  label line (ansi "[1;92mRAM:" ++ ansi "[0m ") 17;; total ← word si; free ← word (si + 4); put_line line 5 (ram_text total free).
Definition host_text : list Z := ansi "[1;92mmix" ++ ansi "[1;35m@" ++ ansi "[1;92mmmix" ++ ansi "[0m".
Definition bar_text : list Z := ansi "[90m--------------------" ++ ansi "[0m".
Definition blocks_text : list Z :=
  ansi "[41m   " ++ ansi "[42m   " ++ ansi "[43m   " ++ ansi "[44m   " ++ ansi "[45m   " ++ ansi "[46m   " ++ ansi "[0m".
Fixpoint rest_of_logo (k : nat) (li : Z) : prog unit :=
  match k with
  | O => mret tt
  | S k' => if li <? 8 then say (znth [] logo li);; say nl;; rest_of_logo k' (li + 1) else mret tt
  end.

Definition fetch_main (si uts line : Z) : prog Z :=
  have ← call (sysinfo si);
  r ← call (uname d junk4 junk5 junk6 uts);
  let os := if r =? 0 then uts else lit (bs "MMix") in
  put_line line 0 host_text;; li ← NEXTLINE line 0;
  put_line line 0 bar_text;; li ← NEXTLINE line li;
  fetch_os line os;; li ← NEXTLINE line li;
  li ← (if have =? 0 then fetch_uptime line si;; NEXTLINE line li else mret li);
  sets (fun m => memcpy m line (lit (ansi "[1;92mShell:" ++ ansi "[0m /bin/sh")) 26);; li ← NEXTLINE line li;
  w ← word (si + 12);
  li ← (if (have =? 0) && negb (w =? 0) then fetch_resolution line si;; NEXTLINE line li else mret li);
  li ← (if have =? 0 then fetch_ram line si;; NEXTLINE line li else mret li);
  put_line line 0 blocks_text;; li ← NEXTLINE line li;
  rest_of_logo 8 li;; mret 0.

(** ** sound *)

Definition RATE : Z := 22050.
Definition WND : Z := 512.
Fixpoint stream (k : nat) (audio_fd buf n off : Z) : prog unit :=
  match k with
  | O => long;; mret tt
  | S k' =>
      if off <? n then
        w ← call (write audio_fd (buf + off) (n - off));
        if w <=? 0 then mret tt else stream k' audio_fd buf n (off + w)
      else mret tt
  end.
Definition sample (phase : Z) : Z :=
  let t := if phase <? 128 then phase * 2 else 512 - phase * 2 in u8 (128 + Z.quot ((t - 128) * 96) 128).
(** [n] samples and the phase after them. *)
Fixpoint tone (n : nat) (inc phase : Z) : list Z * Z :=
  match n with
  | O => ([], phase)
  | S n' => let '(l, p) := tone n' inc (Z.land (u32 (phase + inc)) 0xFF) in (sample phase :: l, p)
  end.
Fixpoint synth_loop (k : nat) (audio_fd chunk inc phase i total : Z) : prog unit :=
  match k with
  | O => long;; mret tt
  | S k' =>
      if i <? total then
        let n := Z.min (total - i) WND in
        let '(l, phase) := tone (Z.to_nat n) inc phase in
        sets (fun m => write_bytes m chunk l);; stream fuel audio_fd chunk n 0;; synth_loop k' audio_fd chunk inc phase (i + n) total
      else mret tt
  end.
Definition synth_tone (audio_fd chunk hz ms : Z) : prog unit :=
  let total := Z.quot (RATE * ms) 1000 in
  synth_loop fuel audio_fd chunk (u32 (u64 (hz * 256) / RATE)) 0 0 total.
Fixpoint sound_file (k : nat) (audio_fd f buf : Z) : prog unit :=
  match k with
  | O => long;; mret tt
  | S k' => r ← call (read f buf WND); if r <=? 0 then mret tt else stream fuel audio_fd buf r 0;; sound_file k' audio_fd f buf
  end.
Definition sound_main (buf argc argv : Z) : prog Z :=
  audio_fd ← call (open (lit (bs "/dev/audio")));
  if audio_fd <? 0 then say (bs "sound: /dev/audio not available" ++ nl);; mret 1
  else if 1 <? argc then
    path ← arg argv 1;
    f ← call (open path);
    if f <? 0 then say (bs "sound: cannot open ");; print path;; say nl;; call (close audio_fd);; mret 1
    else
      say (bs "sound: playing ");; print path;; say nl;;
      sound_file fuel audio_fd f buf;; call (close f);; call (close audio_fd);; mret 0
  else
    say (bs "sound: play demo" ++ nl);;
    synth_tone audio_fd buf 440 600;; synth_tone audio_fd buf 554 450;; synth_tone audio_fd buf 880 900;;
    call (close audio_fd);; mret 0.

(** ** gfx *)

Fixpoint each (l : list Z) (f : Z -> prog Z) : prog unit :=
  match l with
  | [] => mret tt
  | i :: r => f i;; each r f
  end.
Definition up_to (n : nat) : list Z := map Z.of_nat (seq 0 n).
Definition gfx_main (cp : Z) : prog Z :=
  let rect x y w h c := call (gfx_fill_rect_call d x y w h c) in
  let frame x y w h c := call (gfx_rect_call d x y w h c) in
  let line a b e f c := call (gfx_line_call d a b e f c) in
  let disc x y r c := call (gfx_fill_circle_call d x y r c) in
  rect 0 0 1280 800 0x00001818;;
  each (up_to 16) (fun i =>
    rect (40 + i * 40) 40 32 120 (Z.lor (Z.lor 0xFF000000 (u32 (Z.shiftl (u32 (i * 16)) 16))) (u32 (Z.shiftl (u32 (255 - i * 16)) 8))));;
  line 40 260 660 420 0x00C8C8C8;; line 660 260 40 420 0x0000AAAA;; line 40 420 660 260 0x0000AA00;;
  frame 700 260 240 160 0x00C8C8C8;; disc 820 340 60 0x0000AA55;; call (gfx_circle_call d 820 340 75 0x00AA0000);; disc 1000 340 40 0x00AAAA00;;
  frame 40 470 900 240 0x00555555;;
  each (up_to 12) (fun i =>
    disc (120 + i * 70) 590 25
      (Z.lor (Z.lor (Z.lor 0xFF000000 (u32 (Z.shiftl (u32 (i * 20)) 16))) (u32 (Z.shiftl (u32 (i * 20)) 8))) (u32 (255 - i * 20))));;
  say (ansi "[36;1H" ++ ansi "[92;1mMMix graphics demo -- press Enter" ++ ansi "[0m");;
  call (read 0 cp 1);;
  call (gfx_clear_call d 0xFF000000);;
  say (ansi "[2J" ++ ansi "[H");; mret 0.
End Progs.
