(* ===== verification/ProgsSpec.v ===== *)
(** * What the small user programs do

    Programs run on the kernel's model: [cat], [wc] and [grep] read a file
    through open descriptors and write to the console, and what they are
    proved to do is stated of the file's bytes and of the screen. *)
From S2P Require Import Prelude Mem KString Net Font Screen Kbd Mouse FrameAlloc Pmm Task Sched Pipe Pmap Libk Vfs VfsSpec Devfs SysState SysDemo SysFd SysFdSpec SysSig Elf SysProc SysMem SysGfx Syscall SysSafe Libc Progs.

Lemma tty_write_app a b t : tty_write (a ++ b) t = tty_write b (tty_write a t).
Proof. unfold tty_write. by rewrite foldl_app. Qed.

Lemma bytes_at_cstr m p t : cstr m p t -> bytes_at (length t) m p = t.
Proof.
  revert p. induction t as [|b t IH]; intros p H; [done|]. apply cstr_cons in H as (E & _ & H). cbn [length bytes_at]. by rewrite E, IH.
Qed.

Lemma user_string_cstr {A KH N} (s : sys A KH N) p t n : cstr (umem s) p t -> (length t < n)%nat -> user_string n p s = t.
Proof.
  intros H Hn. unfold user_string. replace n with (length t + S (n - length t - 1))%nat by lia.
  rewrite bytes_at_app, bytes_at_cstr by done. destruct H as (_ & H2 & H3). cbn [bytes_at]. fold (zlen t). rewrite H3.
  apply c_string_app. eapply List.Forall_impl; [|exact H2]. cbn. lia.
Qed.

(** ** Reference definitions *)

(** The pieces of a text between the characters [p] holds of. *)
Fixpoint fields (p : Z -> bool) (l : list Z) : list (list Z) :=
  match l with
  | [] => [[]]
  | c :: r => if p c then [] :: fields p r else match fields p r with h :: t => (c :: h) :: t | [] => [[c]] end
  end.
Lemma fields_cons p l : exists h t, fields p l = h :: t.
Proof. induction l as [|c l (h & t & E)]; cbn [fields]; [eauto|]. destruct (p c); [eauto|]. rewrite E. eauto. Qed.

Definition is_blank (c : Z) : bool := (c =? 32) || (c =? 10) || (c =? 9).
Definition is_newline (c : Z) : bool := c =? 10.
Definition word_count (l : list Z) : Z := zlen (filter (fun w => w <> []) (fields is_blank l)).
Definition line_count (l : list Z) : Z := zlen (filter (fun c => c = 10) l).

(** The lines of a text; what follows the last newline is one if there is
    anything. *)
Definition text_lines (l : list Z) : list (list Z) :=
  let f := fields is_newline l in if bool_decide (List.last f [] = []) then removelast f else f.
Definition matches (pat l : list Z) : bool := bool_decide (is_Some (find_sub pat l 0)).
Definition matching (pat l : list Z) : list Z := if matches pat l then l ++ [10] else [].

Lemma find_sub_shift pat l i : find_sub pat l i = (fun v => v + i) <$> find_sub pat l 0.
Proof.
  revert i. induction l as [|c l IH]; intros i; cbn [find_sub].
  - by case_bool_decide.
  - case_bool_decide; [done|]. rewrite IH, (IH (0 + 1)). destruct (find_sub pat l 0); cbn; [f_equal; lia|done].
Qed.
Lemma find_sub_pos pat l v : find_sub pat l 0 = Some v -> 0 <= v.
Proof.
  revert v. induction l as [|c l IH]; intros v; cbn [find_sub]; [case_bool_decide; [by intros [= <-]|done]|].
  case_bool_decide; [by intros [= <-]|]. rewrite find_sub_shift. destruct (find_sub pat l 0) as [w|]; [|done]. intros [= <-]. specialize (IH w eq_refl). lia.
Qed.

(** A line matches when the pattern occurs in it. *)
Lemma matches_spec pat l : matches pat l = true <-> exists a b, l = a ++ pat ++ b.
Proof.
  unfold matches. rewrite bool_decide_eq_true. induction l as [|c l IH]; cbn [find_sub].
  - case_bool_decide as H.
    + rewrite take_nil in H. subst pat. split; [|by eexists]. by exists [], [].
    + split; [by intros []|]. intros (a & b & E). symmetry in E. apply app_eq_nil in E as [_ E]. apply app_eq_nil in E as [-> _]. by destruct H.
  - case_bool_decide as H.
    + split; [|by eexists]. intros _. exists [], (drop (length pat) (c :: l)). rewrite <- H at 1. cbn [app]. by rewrite take_drop.
    + rewrite find_sub_shift, fmap_is_Some, IH. split.
      * intros (a & b & ->). by exists (c :: a), b.
      * intros ([|x a] & b & E); [cbn [app] in E; rewrite E, take_app_length in H; done|]. injection E as -> ->. eauto.
Qed.

Section Spec.
Context {A : Type} `{FA : FrameAlloc A} {KH : Type} `{NH : NodeHeap KH} {N : Type} `{NC : Nic N}.
Variables (d : machine A) (junk4 junk5 junk6 : Z) (lit : list Z -> Z) (digit : Z) (fuel : nat).
Implicit Types s : sys A KH N.
Abbreviation prog := (U (sys A KH N)).

(** ** The state a program runs in *)

(** Task [c] runs undisturbed, with the console as its standard output. *)
Record ready (c : Z) s : Prop := {
  rd_cur : current_task s = Some c;
  rd_slot : slot_ok c;
  rd_wf : sched_wf (sch s);
  rd_sig : t_sig_pending (tk s c) = 0;
  rd_res : g_resched_requested (sch s) = false;
  rd_len : length (t_fds (tk s c)) = 16%nat;
  rd_out : exists p, fd_at (tk s c) 1 = mkFile 0 0 FDF_CONSOLE_OUT p;
}.

(** Descriptor [fd] of task [c] is at [pos] of the regular file [data]. *)
Record reading (c fd node pos : Z) (data : list Z) s : Prop := {
  rg_fd : fd_ok fd /\ fd <> 1;
  rg_at : fd_at (tk s c) fd = mkFile node 0 0 pos;
  rg_node : node <> 0;
  rg_type : n_type (node_at (fsys s) node) = VFS_FILE;
  rg_data : n_data (node_at (fsys s) node) = data;
  rg_size : zlen data < 2 ^ 31;
  rg_pos : 0 <= pos <= zlen data;
}.

(** From [s] to [s'] the program wrote [out], changed its memory only at
    addresses in [touch] and of its descriptors only [fd]. *)
Record io (c fd : Z) (touch : Z -> Prop) (out : list Z) s s' : Prop := {
  io_ready : ready c s';
  io_scr : scr s' = tty_write out (scr s);
  io_fs : fsys s' = fsys s;
  io_mem : forall x, ~ touch x -> umem s' x = umem s x;
  io_fds : forall k, k <> fd -> fd_at (tk s' c) k = fd_at (tk s c) k;
}.

Lemma io_trans c fd touch o1 o2 s s1 s2 : io c fd touch o1 s s1 -> io c fd touch o2 s1 s2 -> io c fd touch (o1 ++ o2) s s2.
Proof.
  intros [? S1 F1 M1 D1] [R2 S2 F2 M2 D2]. split; [done|by rewrite S2, S1, tty_write_app|congruence| |].
  - intros x Hx. by rewrite M2, M1.
  - intros k Hk. by rewrite D2, D1.
Qed.
Lemma io_refl c fd touch s : ready c s -> io c fd touch [] s s.
Proof. by split. Qed.
Lemma io_weaken c fd (t1 t2 : Z -> Prop) o s s' : io c fd t1 o s s' -> (forall x, t1 x -> t2 x) -> io c fd t2 o s s'.
Proof. intros [? ? ? M D] Ht. split; try done. intros x Hx. apply M. auto. Qed.

Lemma reading_io c fd node pos data touch out s s' :
  reading c fd node pos data s -> io c fd touch out s s' -> fd_at (tk s' c) fd = fd_at (tk s c) fd -> reading c fd node pos data s'.
Proof. intros [H1 H2 H3 H4 H5 H6 H7] [_ _ F _ _] E. split; rewrite ?E, ?F; done. Qed.

(** [m] comes back from [s], in a state and with a value as [Q] says. *)
Definition runs {X} (m : prog X) s (Q : X -> sys A KH N -> Prop) : Prop := exists a s', m s = Back a s' /\ Q a s'.

Lemma comes_ret {X} (a : X) s (Q : X -> sys A KH N -> Prop) : Q a s -> runs (mret a) s Q.
Proof. by exists a, s. Qed.
Lemma comes_bind {X Y} (m : prog X) (f : X -> prog Y) s (Q : Y -> sys A KH N -> Prop) : runs m s (fun a s' => runs (f a) s' Q) -> runs (x ← m; f x) s Q.
Proof. intros (a & s1 & E & b & s2 & E2 & H). exists b, s2. unfold mbind, u_bind. rewrite E. by split. Qed.
Lemma runs_call f s r s' (Q : Z -> sys A KH N -> Prop) : f s = (Ret r, s') -> Q r s' -> runs (call f) s Q.
Proof. intros E H. exists r, s'. unfold call. by rewrite E. Qed.
Lemma runs_gets {X} (f : mem -> X) s (Q : X -> sys A KH N -> Prop) : Q (f (umem s)) s -> runs (gets f) s Q.
Proof. by exists (f (umem s)), s. Qed.
Lemma runs_sets f s (Q : unit -> sys A KH N -> Prop) : Q tt (set_umem (f (umem s)) s) -> runs (sets f) s Q.
Proof. by exists tt, (set_umem (f (umem s)) s). Qed.
Lemma runs_some v s (Q : Z -> sys A KH N -> Prop) : Q v s -> runs (some (Some v)) s Q.
Proof. by exists v, s. Qed.
Lemma runs_weaken {X} (m : prog X) s (P Q : X -> sys A KH N -> Prop) : runs m s P -> (forall a s', P a s' -> Q a s') -> runs m s Q.
Proof. intros (a & s' & E & H) HPQ. exists a, s'. auto. Qed.

(** ** System calls *)

Lemma raw_ready n a b e c s : ready c s -> raw_syscall3 d junk4 junk5 junk6 n a b e s = dispatch d (u64 n) (u64 a) (u64 b) (u64 e) junk4 junk5 junk6 s.
Proof. intros [H1 _ _ H4 H5 _ _]. unfold raw_syscall3, syscall_handler. rewrite H1, H4. cbn [Z.eqb negb]. by rewrite H5. Qed.

Lemma fd_small fd : fd_ok fd -> u64 fd = fd /\ s32 fd = fd.
Proof. unfold fd_ok, MAX_FDS. intros. split; [apply u64_small|apply s32_small]; lia. Qed.

Lemma write_console c s buf n :
  ready c s -> 0 < buf -> 0 < n -> buf + n < 2 ^ 64 -> n < 2 ^ 63 ->
  write d junk4 junk5 junk6 1 buf n s = (Ret n, set_scr (tty_write (bytes_at (Z.to_nat n) (umem s) buf) (scr s)) s).
Proof.
  intros R Hb Hn Hm Hn'. unfold write. rewrite (raw_ready _ _ _ _ c) by done. rewrite (u64_small buf), (u64_small n) by lia.
  change (dispatch d (u64 SYS_WRITE) (u64 1) buf n junk4 junk5 junk6 s) with (sys_write (d_kernel_pml4 d) (d_dev d) (d_junk d) 1 buf n s).
  unfold sys_write, sys_write_turn. destruct R as [H1 _ _ _ _ _ [p Ho]]. rewrite H1. change (s32 1) with 1.
  unfold fd_get. change ((1 <? 0) || (MAX_FDS <=? 1)) with false. cbv iota zeta. rewrite Ho.
  change (fd_free (mkFile 0 0 FDF_CONSOLE_OUT p)) with false. cbn [f_node f_flags Z.eqb negb andb].
  rewrite (proj2 (Z.eqb_neq buf 0)), (proj2 (Z.eqb_neq n 0)) by lia. cbn [orb].
  change (has FDF_CONSOLE_OUT FDF_PIPE_WR) with false. change (has FDF_CONSOLE_OUT FDF_CONSOLE_OUT) with true. cbv iota. by rewrite s64_small by lia.
Qed.

Lemma ready_umem c m s : ready c s -> ready c (set_umem m s).
Proof. intros [H1 H2 H3 H4 H5 H6 H7]. by split. Qed.
Lemma io_write c fd touch s out : ready c s -> io c fd touch out s (set_scr (tty_write out (scr s)) s).
Proof. intros R. destruct R as [H1 H2 H3 H4 H5 H6 H7]. by split. Qed.
Lemma io_store c fd (touch : Z -> Prop) s f : ready c s -> (forall x, ~ touch x -> f (umem s) x = umem s x) -> io c fd touch [] s (set_umem (f (umem s)) s).
Proof. intros [H1 H2 H3 H4 H5 H6 H7] Hf. by split. Qed.

Lemma ready_set_fd c fd f s : ready c s -> fd_ok fd -> fd <> 1 -> ready c (upd c (set_fd fd f) s).
Proof.
  intros [H1 H2 H3 H4 H5 H6 H7] Hf Hn.
  assert (tk (upd c (set_fd fd f) s) c = set_fd fd f (tk s c)) as E by (rewrite tk_upd, Z.eqb_refl; done).
  split; try done.
  - by apply upd_task_wf.
  - by rewrite E.
  - rewrite E. unfold set_fd, set_fds. cbn [t_fds]. pose proof (zlen_insert fd f (t_fds (tk s c))) as Hz. unfold zlen in Hz. lia.
  - rewrite E, fd_at_set, (proj2 (Z.eqb_neq 1 fd)) by done. done.
Qed.

(** A read copies what is there, up to the count, and moves on. *)
Lemma read_file c fd node pos data s buf count :
  ready c s -> reading c fd node pos data s -> 0 < buf -> 0 < count -> buf + count < 2 ^ 64 -> count < 2 ^ 31 ->
  let r := Z.min count (zlen data - pos) in
  exists s', read d junk4 junk5 junk6 fd buf count s = (Ret r, s') /\ reading c fd node (pos + r) data s' /\
    io c fd (fun x => buf <= x < buf + count) [] s s' /\
    umem s' = write_bytes (umem s) buf (take (Z.to_nat r) (drop (Z.to_nat pos) data)).
Proof.
  intros R G Hb Hc Hm Hc' r. destruct G as [[Hf Hf1] Ha Hn Ht Hd Hz Hp]. destruct (fd_small fd Hf) as [Eu Es].
  unfold read. rewrite (raw_ready _ _ _ _ c) by done. rewrite (u64_small buf), (u64_small count), Eu by lia.
  change (dispatch d (u64 SYS_READ) fd buf count junk4 junk5 junk6 s) with (sys_read (d_kernel_pml4 d) (d_dev d) (d_pmm d) fd buf count s).
  unfold sys_read. rewrite (rd_cur _ _ R), Es. unfold fd_get. cbv zeta. rewrite Ha.
  assert ((fd <? 0) || (MAX_FDS <=? fd) = false) as ->.
  { unfold fd_ok in Hf. rewrite (proj2 (Z.ltb_ge fd 0)), (proj2 (Z.leb_gt MAX_FDS fd)) by lia. done. }
  unfold fd_free. cbn [f_node f_pipe f_flags]. rewrite (proj2 (Z.eqb_neq node 0)), (proj2 (Z.eqb_neq buf 0)), (proj2 (Z.eqb_neq count 0)) by lia.
  cbn [andb orb negb f_node f_pipe f_flags f_pos]. rewrite (proj2 (Z.eqb_neq node 0)), Ht by lia. cbn [andb negb]. change (has 0 FDF_PIPE_RD) with false. change (has 0 FDF_CONSOLE_IN) with false.
  rewrite !bool_decide_false by done. cbv iota. unfold node_read, vfs_read. cbn [f_node f_pos]. cbv zeta.
  rewrite (proj2 (Z.eqb_neq node 0)), Ht, Hd by lia.
  assert (0 <= zlen data) by (unfold zlen; lia).
  destruct (Z.leb_spec (zlen data) pos) as [Hend|Hin].
  - assert (r = 0) as Hr by lia. rewrite Hr. exists (set_umem (write_bytes (umem s) buf []) s). change (0 <? 0) with false. cbv iota.
    rewrite Z.add_0_r. split; [done|]. split; [by split|]. split; [|done]. by apply (io_store c fd _ s (fun m => m)).
  - assert ((if count <? zlen data - pos then count else zlen data - pos) = r) as -> by (unfold r; destruct (Z.ltb_spec count (zlen data - pos)); lia).
    rewrite s32_small, (proj2 (Z.ltb_lt 0 r)) by lia. cbv iota. set (l := take _ _). set (s1 := set_umem _ s).
    assert (ready c s1) as R1 by (destruct R; by split).
    set (s' := upd c _ s1). exists s'. unfold s'. rewrite u64_small by lia. assert (fd_at (tk (upd c (set_fd fd (set_f_pos (pos + r) (mkFile node 0 0 pos))) s1) c) fd = mkFile node 0 0 (pos + r)) as E.
    { rewrite tk_upd, Z.eqb_refl by apply R1. rewrite fd_at_set, Z.eqb_refl by (try apply R1; done). done. }
    split; [done|]. split; [by split; [|rewrite E| | | | |lia]|]. split; [|done]. split; [by apply ready_set_fd|done|done| |].
    + intros x Hx. change (write_bytes (umem s) buf l x = umem s x). apply write_bytes_other. unfold l, zlen. rewrite length_take, length_drop. unfold zlen in *. lia.
    + intros k Hk. rewrite tk_upd, Z.eqb_refl by apply R1. rewrite fd_at_set, (proj2 (Z.eqb_neq k fd)) by (try apply R1; done). done.
Qed.

(** ** Printing *)

(** The string [t] is at [p], out of reach of what the program writes. *)
Record has_text (touch : Z -> Prop) (p : Z) (t : list Z) s : Prop := {
  ht_str : cstr (umem s) p t;
  ht_pos : 0 < p;
  ht_end : p + zlen t < 2 ^ 63;
  ht_len : (length t < fuel)%nat;
  ht_apart : forall x, p <= x <= p + zlen t -> ~ touch x;
}.

Lemma has_text_io c fd touch out p t s s' : has_text touch p t s -> io c fd touch out s s' -> has_text touch p t s'.
Proof. intros [H1 H2 H3 H4 H5] [_ _ _ M _]. split; try done. eapply cstr_ext; [|exact H1]. intros x Hx. symmetry. auto. Qed.

Lemma runs_print c fd touch p t s : ready c s -> has_text touch p t s -> runs (print d junk4 junk5 junk6 fuel p) s (fun _ s' => io c fd touch t s s' /\ tk s' c = tk s c).
Proof.
  intros R [H1 H2 H3 H4 H5]. apply comes_bind, runs_gets. rewrite (str_len_spec fuel (id (umem s)) p t) by done. apply comes_bind, runs_some.
  assert (0 <= zlen t) by (unfold zlen; lia). destruct (decide (t = [])) as [->|Hne].
  - apply comes_bind. eapply runs_call; [|apply comes_ret; split; [by apply io_refl|done]].
    unfold write. rewrite (raw_ready _ _ _ _ c) by done.
    change (dispatch d (u64 SYS_WRITE) (u64 1) (u64 p) (u64 (zlen [])) junk4 junk5 junk6 s) with (sys_write (d_kernel_pml4 d) (d_dev d) (d_junk d) 1 (u64 p) 0 s).
    unfold sys_write, sys_write_turn. destruct R as [-> _ _ _ _ _ [q Ho]]. unfold fd_get. change (s32 1) with 1. change ((1 <? 0) || (MAX_FDS <=? 1)) with false.
    cbv iota zeta. rewrite Ho. change (fd_free (mkFile 0 0 FDF_CONSOLE_OUT q)) with false. cbv iota. by rewrite orb_true_r.
  - assert (0 < zlen t) by (destruct t; [done|unfold zlen; cbn; lia]). apply comes_bind. eapply runs_call; [eapply write_console; [done|lia|lia|lia|lia]|].
    apply comes_ret. unfold zlen. rewrite Nat2Z.id, bytes_at_cstr by done. split; [by apply io_write|done].
Qed.

(** A step of a program that leaves the descriptors alone. *)
Definition quiet (c fd : Z) (touch : Z -> Prop) (out : list Z) s s' : Prop := io c fd touch out s s' /\ tk s' c = tk s c.

Lemma hush_trans c fd touch o1 o2 s s1 s2 : quiet c fd touch o1 s s1 -> quiet c fd touch o2 s1 s2 -> quiet c fd touch (o1 ++ o2) s s2.
Proof. intros [I1 E1] [I2 E2]. split; [by eapply io_trans|congruence]. Qed.
Lemma hush_refl c fd touch s : ready c s -> quiet c fd touch [] s s.
Proof. intros R. split; [by apply io_refl|done]. Qed.
Lemma quiet_ready c fd touch out s s' : quiet c fd touch out s s' -> ready c s'.
Proof. by intros [[] _]. Qed.
Lemma quiet_text c fd touch out p t s s' : quiet c fd touch out s s' -> has_text touch p t s -> has_text touch p t s'.
Proof. intros [I _] H. by eapply has_text_io. Qed.
Lemma quiet_reading c fd touch out node pos data s s' : quiet c fd touch out s s' -> reading c fd node pos data s -> reading c fd node pos data s'.
Proof. intros [I E] H. eapply reading_io; [done|done|by rewrite E]. Qed.

Lemma runs_say c fd touch t s : ready c s -> has_text touch (lit t) t s -> runs (say d junk4 junk5 junk6 lit fuel t) s (fun _ s' => quiet c fd touch t s s').
Proof. intros R H. by apply runs_print. Qed.

(** Storing one character. *)
Lemma quiet_store8 c fd (touch : Z -> Prop) a v s : ready c s -> touch a -> quiet c fd touch [] s (set_umem (store8 (umem s) a v) s).
Proof.
  intros R Ht. split; [|done]. apply (io_store c fd touch s (fun m => store8 m a v)); [done|]. intros x Hx. unfold store8.
  apply fn_lookup_insert_ne. by intros ->.
Qed.

Lemma runs_print_num_from c fd (touch : Z -> Prop) k n s :
  ready c s -> touch digit -> 0 < digit < 2 ^ 63 -> 0 <= n < 10 ^ Z.of_nat k -> (0 < k)%nat ->
  runs (print_num_from d junk4 junk5 junk6 lit digit fuel k n) s (fun _ s' => quiet c fd touch (print_num_fuel k n) s s').
Proof.
  revert n s. induction k as [|k IH]; intros n s R Ht Hd Hn Hk; [lia|]. cbn [print_num_from print_num_fuel].
  rewrite (proj2 (Z.ltb_ge n 0)) by lia. apply comes_bind, comes_ret, comes_bind. cbn [app].
  assert (exists o, (if 10 <=? n then print_num_fuel k (Z.quot n 10) else []) = o /\
    runs (if 10 <=? n then print_num_from d junk4 junk5 junk6 lit digit fuel k (Z.quot n 10) else mret tt) s (fun _ s' => quiet c fd touch o s s')) as (o & Eo & Ho).
  { eexists. split; [done|]. destruct (Z.leb_spec 10 n); [|by apply comes_ret, hush_refl].
    rewrite Z.quot_div_nonneg by lia. rewrite Nat2Z.inj_succ, Z.pow_succ_r in Hn by lia. apply IH; try done; [lia|]. destruct k; [cbn in Hn|]; lia. }
  rewrite Eo. eapply runs_weaken; [exact Ho|]. intros [] s1 Q1. pose proof (quiet_ready _ _ _ _ _ _ Q1) as R1. apply comes_bind, runs_sets, comes_bind.
  pose proof (quiet_store8 c fd touch digit (48 + Z.rem n 10) s1 R1 Ht) as Q2. pose proof (quiet_ready _ _ _ _ _ _ Q2) as R2.
  eapply runs_call; [eapply write_console; [exact R2|lia|lia|lia|lia]|]. apply comes_ret. change (Z.to_nat 1) with 1%nat. cbn [bytes_at umem set_umem].
  rewrite load8_store8_same. eapply hush_trans; [exact Q1|]. eapply (hush_trans c fd touch []); [exact Q2|].
  split; [by apply io_write|done].
Qed.

Lemma runs_print_num c fd (touch : Z -> Prop) n s :
  ready c s -> touch digit -> 0 < digit < 2 ^ 63 -> 0 <= n < 2 ^ 63 ->
  runs (print_num d junk4 junk5 junk6 lit digit fuel n) s (fun _ s' => quiet c fd touch (Libc.print_num n) s s').
Proof. intros. apply runs_print_num_from; try done; lia. Qed.

(** ** cat *)

Definition in_buffer (buf n x : Z) : Prop := buf <= x < buf + n.

Lemma take_drop_app {X} (l : list X) (p r : nat) : take r (drop p l) ++ drop (p + r) l = drop p l.
Proof. rewrite <- drop_drop. apply take_drop. Qed.

Lemma bytes_written m a (l : list Z) : Forall (fun b => 0 <= b < 2 ^ 8) l -> bytes_at (length l) (write_bytes m a l) a = l.
Proof. intros H. rewrite bytes_at_write_bytes. rewrite <- (map_id l) at 2. apply map_ext_Forall. eapply List.Forall_impl; [|exact H]. intros b Hb. by apply u8_small. Qed.

Lemma cat_loop_copies k c fd node data buf pos s :
  ready c s -> reading c fd node pos data s -> Forall (fun b => 0 <= b < 2 ^ 8) data -> 0 < buf -> buf + 256 < 2 ^ 63 ->
  zlen data - pos + 256 <= 256 * Z.of_nat k ->
  runs (cat_loop d junk4 junk5 junk6 k fd buf) s (fun _ s' => io c fd (in_buffer buf 256) (drop (Z.to_nat pos) data) s s' /\ reading c fd node (zlen data) data s').
Proof.
  revert pos s. induction k as [|k IH]; intros pos s R G Hdat Hb Hb' Hk; pose proof (rg_pos _ _ _ _ _ _ G); [lia|]. cbn [cat_loop].
  destruct (read_file c fd node pos data s buf 256 R G) as (s1 & E1 & G1 & I1 & M1); [lia..|]. set (r := Z.min 256 (zlen data - pos)) in *.
  apply comes_bind. eapply runs_call; [exact E1|]. destruct (Z.ltb_spec 0 r) as [Hr|Hr].
  - apply comes_bind. eapply runs_call; [eapply write_console; [apply I1|lia|lia|lia|lia]|].
    set (l := take (Z.to_nat r) (drop (Z.to_nat pos) data)) in *. assert (Z.to_nat r = length l) as Hl.
    { unfold l. rewrite length_take, length_drop. unfold zlen in *. lia. }
    rewrite M1, Hl, bytes_written by (apply Forall_take, Forall_drop; done). set (s2 := set_scr _ s1).
    assert (quiet c fd (in_buffer buf 256) l s1 s2) as Q2 by (split; [apply io_write, I1|done]).
    eapply runs_weaken; [apply (IH (pos + r) s2)|]; try done; [by eapply quiet_ready|by eapply quiet_reading|lia|].
    intros [] s3 [I3 G3]. split; [|done]. rewrite <- (take_drop_app data (Z.to_nat pos) (Z.to_nat r)). fold l.
    rewrite <- (app_nil_l (l ++ _)). eapply io_trans; [exact I1|]. eapply io_trans; [apply Q2|].
    replace (Z.to_nat pos + Z.to_nat r)%nat with (Z.to_nat (pos + r)) by lia. exact I3.
  - assert (pos = zlen data) as -> by lia. apply comes_ret. rewrite drop_ge by (unfold zlen; lia). split; [exact I1|].
    replace (zlen data + r) with (zlen data) in G1 by lia. done.
Qed.

Lemma open_file c s path p node :
  ready c s -> cstr (umem s) p path -> 0 < p < 2 ^ 63 -> (length path < 4096)%nat ->
  vfs_resolve (d_pool d) (sch s) path (fsys s) = (Some node, fsys s) -> n_type (node_at (fsys s) node) = VFS_FILE -> 0 <= fd_alloc (tk s c) ->
  let fd := fd_alloc (tk s c) in
  open d junk4 junk5 junk6 p s = (Ret fd, upd c (set_fd fd (mkFile node 0 0 0)) (set_fsys (fsys s) s)).
Proof.
  intros R Hc Hp Hl Hr Ht Hfd fd. unfold open. rewrite (raw_ready _ _ _ _ c) by done. rewrite (u64_small p) by lia.
  change (dispatch d (u64 SYS_OPEN) p (u64 0) (u64 0) junk4 junk5 junk6 s) with (sys_open (d_pool d) p 0 s).
  unfold sys_open. rewrite (rd_cur _ _ R), (proj2 (Z.eqb_neq p 0)) by lia. rewrite (user_string_cstr s p path 4096) by done. rewrite Hr.
  change (has 0 O_CREATE) with false. change (has 0 O_APPEND) with false. rewrite andb_false_r. cbv iota zeta. rewrite Ht, bool_decide_true by done. cbn [negb andb].
  change (tk (set_fsys (fsys s) s) c) with (tk s c). fold fd. rewrite (proj2 (Z.ltb_ge fd 0)) by lia. cbn [as_int].
  destruct (fd_alloc_some _ Hfd) as [Hf _]. fold fd in Hf. by rewrite (proj2 (fd_small fd Hf)).
Qed.

Lemma close_file c s fd node pos data :
  ready c s -> reading c fd node pos data s -> close d junk4 junk5 junk6 fd s = (Ret 0, upd c (set_fd fd file0) s).
Proof.
  intros R [[Hf _] Ha Hn _ _ _ _]. destruct (fd_small fd Hf) as [Eu Es]. unfold close, raw_syscall1. rewrite (raw_ready _ _ _ _ c), Eu by done.
  change (dispatch d (u64 SYS_CLOSE) fd (u64 0) (u64 0) junk4 junk5 junk6 s) with (sys_close fd s).
  unfold sys_close. rewrite (rd_cur _ _ R), Es. unfold fd_get. cbv zeta. rewrite Ha. unfold fd_ok in Hf.
  rewrite (proj2 (Z.ltb_ge fd 0)), (proj2 (Z.leb_gt MAX_FDS fd)) by lia. cbn [orb].
  unfold fd_free. cbn [f_node]. rewrite (proj2 (Z.eqb_neq node 0)) by done. cbn [andb]. unfold fd_put, drop_ref. by rewrite Ha.
Qed.

(** C21: [cat] prints the file.  The path in its argument names a regular file,
    a descriptor is free, and no signal or rescheduling is pending: [cat]
    returns 0, what it wrote on the console is the file's contents, to the
    last byte and nothing else, and the file system and the table of
    descriptors are as before. *)
Theorem cat_prints_file c s buf argc argv path node :
  ready c s -> 2 <= argc -> cstr (umem s) (load64 (umem s) (argv + 8)) path -> 0 < load64 (umem s) (argv + 8) < 2 ^ 63 -> (length path < 4096)%nat ->
  vfs_resolve (d_pool d) (sch s) path (fsys s) = (Some node, fsys s) -> node <> 0 -> n_type (node_at (fsys s) node) = VFS_FILE ->
  let data := n_data (node_at (fsys s) node) in
  zlen data < 2 ^ 31 -> Forall (fun b => 0 <= b < 2 ^ 8) data -> 2 <= fd_alloc (tk s c) -> 0 < buf -> buf + 256 < 2 ^ 63 -> zlen data + 256 <= 256 * Z.of_nat fuel ->
  exists s', cat_main d junk4 junk5 junk6 lit fuel buf argc argv s = Back 0 s' /\ scr s' = tty_write data (scr s) /\ fsys s' = fsys s /\ ready c s' /\
    forall fd, fd_get (tk s' c) fd = fd_get (tk s c) fd.
Proof.
  intros R Hac Hp Hp2 Hl Hr Hn Ht data Hz Hd Hfd Hb Hb2 Hfu.
  assert (runs (cat_main d junk4 junk5 junk6 lit fuel buf argc argv) s (fun r s' => r = 0 /\ scr s' = tty_write data (scr s) /\ fsys s' = fsys s /\ ready c s' /\
    forall fd, fd_get (tk s' c) fd = fd_get (tk s c) fd)) as (a & s' & E & -> & H); [|by exists s'].
  unfold cat_main. rewrite (proj2 (Z.ltb_ge argc 2)) by lia. apply comes_bind, runs_gets, comes_bind. change (8 * 1) with 8.
  eapply runs_call; [eapply open_file; [exact R|exact Hp|exact Hp2|exact Hl|exact Hr|exact Ht|lia]|].
  set (fd := fd_alloc (tk s c)) in *. destruct (fd_alloc_some (tk s c)) as [Hok Hpipe]; [fold fd; lia|]. fold fd in Hok, Hpipe.
  assert (fd_free (fd_at (tk s c) fd) = true) as Hfree.
  { unfold fd, fd_alloc. destruct (fd_find_spec (Z.to_nat MAX_FDS) 0 (tk s c)) as [[Hx _]|Hx]; [unfold fd, fd_alloc in Hfd; lia|apply Hx]. }
  rewrite (proj2 (Z.ltb_ge fd 0)) by lia. set (s1 := upd c _ _).
  assert (ready c (set_fsys (fsys s) s)) as R0 by (destruct R; by split).
  assert (forall s0 f, ready c s0 -> forall k, fd_at (tk (upd c (set_fd fd f) s0) c) k = if k =? fd then f else fd_at (tk s0 c) k) as Hfds.
  { intros s0 f Q k. rewrite tk_upd, Z.eqb_refl by apply Q. apply fd_at_set; [done|apply Q]. }
  assert (ready c s1) as R1 by (apply ready_set_fd; [done|done|lia]).
  assert (reading c fd node 0 data s1) as G1.
  { split; try done; [split; [done|lia]|unfold s1; by rewrite Hfds, Z.eqb_refl|unfold zlen; lia]. }
  apply comes_bind. eapply runs_weaken; [eapply (cat_loop_copies fuel c fd node data buf 0 s1); try done; lia|]. intros [] s2 [I2 G2].
  apply comes_bind. pose proof (io_ready _ _ _ _ _ _ I2) as R2. eapply runs_call; [eapply close_file; [exact R2|exact G2]|]. apply comes_ret.
  split; [done|]. split; [exact (io_scr _ _ _ _ _ _ I2)|]. split; [exact (io_fs _ _ _ _ _ _ I2)|]. split; [apply ready_set_fd; [done|done|lia]|].
  intros k. unfold fd_get. rewrite Hfds by done. destruct (Z.eqb_spec k fd) as [->|Hk].
  - rewrite Hfree. change (fd_free file0) with true. done.
  - rewrite (io_fds _ _ _ _ _ _ I2 k Hk). unfold s1. rewrite Hfds, (proj2 (Z.eqb_neq k fd) Hk) by done. done.
Qed.

(** ** wc *)

Lemma wc_fold x l :
  0 <= c_lines x -> 0 <= c_words x -> 0 <= c_bytes x -> c_lines x + zlen l < 2 ^ 63 -> c_words x + zlen l < 2 ^ 63 -> c_bytes x + zlen l < 2 ^ 63 ->
  let y := foldl wc_step x l in
  c_lines y = c_lines x + line_count l /\ c_bytes y = c_bytes x + zlen l /\
  c_words y = c_words x + word_count l - (if c_in_word x && bool_decide (List.hd [] (fields is_blank l) <> []) then 1 else 0).
Proof.
  revert x. induction l as [|c l IH]; intros x H1 H2 H3 B1 B2 B3.
  - cbn [foldl fields List.hd]. change (word_count []) with 0. change (line_count []) with 0. change (zlen []) with 0.
    rewrite (bool_decide_false ([] <> [])) by (intros []; done). rewrite andb_false_r. lia.
  - assert (zlen (c :: l) = zlen l + 1) as Hz by (unfold zlen; cbn [length]; lia). rewrite Hz in *. assert (0 <= zlen l) by (unfold zlen; lia).
    unfold line_count, word_count in *. cbn [foldl fields]. destruct (fields_cons is_blank l) as (h & t & Ef). rewrite Ef in *.
    assert (zlen (filter (fun z => z = 10) (c :: l)) = (if c =? 10 then 1 else 0) + zlen (filter (fun z => z = 10) l)) as ->.
    { rewrite filter_cons. destruct (decide (c = 10)) as [->|Hc]; [change (10 =? 10) with true; unfold zlen; cbn [length]; lia|]. by rewrite (proj2 (Z.eqb_neq c 10)). }
    unfold wc_step at 2 4 6. fold (is_blank c). set (ln := if c =? 10 then s64 (c_lines x + 1) else c_lines x).
    assert (ln = c_lines x + (if c =? 10 then 1 else 0)) as Hln by (unfold ln; destruct (c =? 10); [apply s64_small|]; lia).
    assert (0 <= ln /\ ln <= c_lines x + 1) as Hln' by (rewrite Hln; destruct (c =? 10); lia).
    rewrite (s64_small (c_bytes x + 1)) by lia. destruct (is_blank c) eqn:Eb.
    + destruct (IH (mkCounts ln (c_words x) (c_bytes x + 1) false)) as (I1 & I2 & I3); cbn [c_lines c_words c_bytes] in *; try lia.
      rewrite I1, I2, I3. cbn [c_lines c_words c_bytes c_in_word List.hd andb]. rewrite (bool_decide_false ([] <> [])) by (intros []; done).
      rewrite andb_false_r. rewrite (filter_cons_False _ []) by (intros Hx; by apply Hx). lia.
    + set (y := if negb (c_in_word x) then _ else _). cbn [List.hd]. rewrite bool_decide_true, andb_true_r by done. rewrite filter_cons_True by done.
      assert (y = mkCounts ln (c_words x + (if c_in_word x then 0 else 1)) (c_bytes x + 1) true) as ->.
      { unfold y. destruct (c_in_word x); cbn [negb]; f_equal; rewrite ?s64_small by lia; lia. }
      destruct (IH (mkCounts ln (c_words x + (if c_in_word x then 0 else 1)) (c_bytes x + 1) true)) as (I1 & I2 & I3);
        cbn [c_lines c_words c_bytes] in *; try (destruct (c_in_word x); lia).
      rewrite I1, I2, I3. cbn [c_lines c_words c_bytes c_in_word andb List.hd]. rewrite filter_cons.
      destruct (decide (h <> [])) as [Hh|Hh]; [rewrite bool_decide_true by done|rewrite bool_decide_false by done]; unfold zlen; cbn [length]; destruct (c_in_word x); lia.
Qed.

(** One character of the input. *)
Lemma read_char c node pos data s cp b rest :
  ready c s -> reading c 0 node pos data s -> drop (Z.to_nat pos) data = b :: rest -> 0 <= b < 2 ^ 8 -> 0 < cp -> cp + 1 < 2 ^ 63 ->
  exists s', read d junk4 junk5 junk6 0 cp 1 s = (Ret 1, s') /\ reading c 0 node (pos + 1) data s' /\ io c 0 (eq cp) [] s s' /\ load8 (umem s') cp = b /\
    drop (Z.to_nat (pos + 1)) data = rest.
Proof.
  intros R G E Hb Hc Hc'. pose proof (rg_pos _ _ _ _ _ _ G). assert (length (drop (Z.to_nat pos) data) = S (length rest)) as Hl by (by rewrite E).
  rewrite length_drop in Hl. destruct (read_file c 0 node pos data s cp 1 R G) as (s1 & E1 & G1 & I1 & M1); [lia..|].
  replace (Z.min 1 (zlen data - pos)) with 1 in * by (unfold zlen in *; lia). exists s1. split; [done|]. split; [done|].
  split; [eapply io_weaken; [exact I1|]; cbn; intros; lia|]. rewrite E in M1. rewrite M1. change (take (Z.to_nat 1) (b :: rest)) with [b]. cbn [write_bytes].
  rewrite load8_store8_same, u8_small by done. split; [done|]. replace (Z.to_nat (pos + 1)) with (Z.to_nat pos + 1)%nat by lia.
  rewrite <- drop_drop, E. done.
Qed.
Lemma read_end c node data s cp :
  ready c s -> reading c 0 node (zlen data) data s -> 0 < cp -> cp + 1 < 2 ^ 63 ->
  exists s', read d junk4 junk5 junk6 0 cp 1 s = (Ret 0, s') /\ reading c 0 node (zlen data) data s' /\ io c 0 (eq cp) [] s s'.
Proof.
  intros R G Hc Hc'. destruct (read_file c 0 node (zlen data) data s cp 1 R G) as (s1 & E1 & G1 & I1 & M1); [lia..|].
  replace (Z.min 1 (zlen data - zlen data)) with 0 in * by lia. rewrite Z.add_0_r in G1. exists s1. split; [done|]. split; [done|].
  eapply io_weaken; [exact I1|]. cbn. intros. lia.
Qed.

Lemma drop_end {X} (data : list X) pos : 0 <= pos <= zlen data -> drop (Z.to_nat pos) data = [] -> pos = zlen data.
Proof. intros H E. apply (f_equal length) in E. rewrite length_drop in E. cbn in E. unfold zlen in *. lia. Qed.

Lemma wc_loop_counts k c node data cp x pos s rest :
  ready c s -> reading c 0 node pos data s -> drop (Z.to_nat pos) data = rest -> Forall (fun b => 0 <= b < 2 ^ 8) rest -> 0 < cp -> cp + 1 < 2 ^ 63 ->
  (length rest < k)%nat -> runs (wc_loop d junk4 junk5 junk6 k cp x) s (fun y s' => y = foldl wc_step x rest /\ io c 0 (eq cp) [] s s').
Proof.
  revert x pos s rest. induction k as [|k IH]; intros x pos s rest R G E Hr Hc Hc' Hk; [lia|]. cbn [wc_loop]. apply comes_bind. destruct rest as [|b rest].
  - rewrite (drop_end data pos) in G by (try apply G; done). destruct (read_end c node data s cp R G) as (s1 & E1 & G1 & I1); [lia..|].
    eapply runs_call; [exact E1|]. by apply comes_ret.
  - apply List.Forall_cons_iff in Hr as [Hb Hr]. destruct (read_char c node pos data s cp b rest R G E Hb) as (s1 & E1 & G1 & I1 & L1 & D1); [lia..|].
    eapply runs_call; [exact E1|]. apply comes_bind, runs_gets. rewrite L1. cbn [foldl]. eapply runs_weaken; [eapply IH|]; try done; [apply I1|cbn in Hk; lia|].
    intros y s2 [-> I2]. split; [done|]. by eapply (io_trans _ _ _ []).
Qed.

(** What [wc] prints. *)
Definition wc_report (data : list Z) : list Z :=
  Libc.print_num (line_count data) ++ bs " " ++ Libc.print_num (word_count data) ++ bs " " ++ Libc.print_num (zlen data) ++ [10].

Lemma count_bounds l : 0 <= line_count l <= zlen l /\ 0 <= word_count l <= zlen l + 1.
Proof.
  unfold line_count, word_count, zlen. split; [pose proof (length_filter (fun c => c = 10) l); lia|].
  pose proof (length_filter (fun w : list Z => w <> []) (fields is_blank l)).
  assert (length (fields is_blank l) <= S (length l))%nat; [|lia]. clear. induction l as [|c l IH]; cbn [fields]; [done|].
  destruct (is_blank c); [cbn [length]; lia|]. destruct (fields is_blank l); cbn [length] in *; lia.
Qed.

(** [wc] with its input redirected from a file prints the numbers of
    newlines, of words and of bytes in it. *)
Theorem wc_counts_file c s cp node data :
  ready c s -> reading c 0 node 0 data s -> Forall (fun b => 0 <= b < 2 ^ 8) data -> (length data < fuel)%nat ->
  let touch x := x = cp \/ x = digit in
  0 < cp -> cp + 1 < 2 ^ 63 -> 0 < digit < 2 ^ 63 -> has_text touch (lit (bs " ")) (bs " ") s -> has_text touch (lit [10]) [10] s ->
  exists s', wc_main d junk4 junk5 junk6 lit digit fuel cp s = Back 0 s' /\ scr s' = tty_write (wc_report data) (scr s) /\ fsys s' = fsys s.
Proof.
  intros R G Hd Hf touch Hc Hc' Hg T1 T2.
  assert (runs (wc_main d junk4 junk5 junk6 lit digit fuel cp) s (fun r s' => r = 0 /\ io c 0 touch (wc_report data) s s')) as (a & s' & E & -> & H);
    [|exists s'; split; [done|split; apply H]].
  apply comes_bind. eapply runs_weaken; [eapply (wc_loop_counts fuel c node data cp _ 0 s data); try done|]. intros y s1 [-> I1].
  assert (zlen data < 2 ^ 31) by apply G. assert (0 <= zlen data) by (unfold zlen; lia).
  destruct (wc_fold (mkCounts 0 0 0 false) data) as (E1 & E2 & E3); cbn [c_lines c_words c_bytes c_in_word andb] in *; [lia..|].
  destruct (count_bounds data). rewrite E1, E2, E3, Z.sub_0_r, !Z.add_0_l. apply (io_weaken _ _ _ touch) in I1; [|intros x <-; by left].
  assert (touch digit) as Ht by (by right). pose proof (io_ready _ _ _ _ _ _ I1) as R1. pose proof (has_text_io _ _ _ _ _ _ _ _ T1 I1) as T1'. pose proof (has_text_io _ _ _ _ _ _ _ _ T2 I1) as T2'.
  apply comes_bind. eapply runs_weaken; [apply (runs_print_num c 0 touch); try done; lia|]. intros [] s2 Q2. pose proof (quiet_text _ _ _ _ _ _ _ _ Q2 T1') as T3.
  apply comes_bind. eapply runs_weaken; [apply (runs_say c 0 touch); [by eapply quiet_ready|done]|]. intros [] s3 Q3.
  apply comes_bind. eapply runs_weaken; [apply (runs_print_num c 0 touch); try done; [by eapply quiet_ready|lia]|]. intros [] s4 Q4.
  pose proof (hush_trans _ _ _ _ _ _ _ _ Q3 Q4) as Q34. pose proof (quiet_text _ _ _ _ _ _ _ _ Q34 T3) as T5.
  apply comes_bind. eapply runs_weaken; [apply (runs_say c 0 touch); [by eapply quiet_ready|done]|]. intros [] s5 Q5.
  apply comes_bind. eapply runs_weaken; [apply (runs_print_num c 0 touch); try done; [by eapply quiet_ready|lia]|]. intros [] s6 Q6.
  pose proof (hush_trans _ _ _ _ _ _ _ _ (hush_trans _ _ _ _ _ _ _ _ Q34 Q5) Q6) as Q36. pose proof (hush_trans _ _ _ _ _ _ _ _ Q2 Q36) as Q26.
  apply comes_bind. eapply runs_weaken; [apply (runs_say c 0 touch); [by eapply quiet_ready|by eapply quiet_text]|]. intros [] s7 Q7.
  apply comes_ret. split; [done|]. pose proof (hush_trans _ _ _ _ _ _ _ _ Q26 Q7) as [I _]. pose proof (io_trans _ _ _ _ _ _ _ _ I1 I) as I'.
  unfold wc_report. unfold nl in I'. cbn [app] in I'. rewrite <- !app_assoc in I'. exact I'.
Qed.

(** ** grep *)

Lemma cstr_of_bytes m p l : bytes_at (length l) m p = l -> Forall (fun b => 0 < b < 256) l -> load8 m (p + zlen l) = 0 -> cstr m p l.
Proof.
  revert p. induction l as [|b l IH]; intros p E Hf H0; [apply cstr_nil; by rewrite <- H0, Z.add_0_r|]. cbn [length bytes_at] in E. injection E as E1 E2.
  apply List.Forall_cons_iff in Hf as [Hb Hf]. apply cstr_cons. split; [done|]. split; [done|]. apply IH; [done|done|]. rewrite <- H0. f_equal. unfold zlen. cbn [length]. lia.
Qed.

Section Grep.
Variables (c cp line argv pp : Z) (pat : list Z).
Definition grep_touch (x : Z) : Prop := x = cp \/ in_buffer line 512 x.

(** What stays true of the program's memory. *)
Record grep_mem s : Prop := {
  gm_arg : load64 (umem s) (argv + 8) = pp;
  gm_argv : forall x, argv + 8 <= x < argv + 16 -> ~ grep_touch x;
  gm_pat : has_text grep_touch pp pat s;
  gm_nl : has_text grep_touch (lit [10]) [10] s;
}.
Lemma grep_mem_io fd out s s' : grep_mem s -> io c fd grep_touch out s s' -> grep_mem s'.
Proof.
  intros [H1 H2 H3 H4] I. split; [|done|by eapply has_text_io|by eapply has_text_io]. rewrite <- H1. apply load_ext. intros x Hx.
  rewrite (io_mem _ _ _ _ _ _ I) by (apply H2; lia). done.
Qed.

Hypothesis Hcp : 0 < cp /\ cp + 1 < 2 ^ 63.
Hypothesis Hline : 0 < line /\ line + 512 < 2 ^ 63.
Hypothesis Hapart : cp < line \/ line + 512 <= cp.
Hypothesis Hfuel : (512 < fuel)%nat.

(** The line collected so far. *)
Record collected (l : list Z) s : Prop := {
  co_at : bytes_at (length l) (umem s) line = l;
  co_chars : Forall (fun b => 0 < b < 256) l;
}.

Lemma runs_flush l s :
  ready c s -> collected l s -> zlen l <= 511 -> grep_mem s ->
  runs (grep_flush d junk4 junk5 junk6 lit fuel line (zlen l) pp) s (fun _ s' => quiet c 0 grep_touch (matching pat l) s s').
Proof.
  intros R [Hb Hf] Hl M. assert (0 <= zlen l) by (unfold zlen; lia). assert (length l < fuel)%nat as Hfl by (unfold zlen in Hl; lia).
  assert (grep_touch (line + zlen l)) as Ht by (right; unfold in_buffer; lia).
  pose proof (quiet_store8 c 0 grep_touch (line + zlen l) 0 s R Ht) as Q1. apply comes_bind, runs_sets.
  set (s1 := set_umem _ s) in *. pose proof (quiet_ready _ _ _ _ _ _ Q1) as R1. pose proof (grep_mem_io _ _ _ _ M (proj1 Q1)) as M1.
  assert (cstr (umem s1) line l) as Hs.
  { apply cstr_of_bytes; [|done|apply (load8_store8_same (umem s))]. rewrite <- Hb at 2. apply bytes_at_ext. intros x Hx. unfold s1. cbn [umem set_umem]. unfold store8.
    rewrite fn_lookup_insert_ne by (unfold zlen; lia). done. }
  apply comes_bind, runs_gets. rewrite (strstr_correct fuel (id (umem s1)) line l pp pat Hs (ht_str _ _ _ _ (gm_pat _ M1)) Hfl).
  apply comes_bind, runs_some. rewrite find_sub_shift. unfold matching, matches. destruct (find_sub pat l 0) as [v|] eqn:Ev.
  - apply find_sub_pos in Ev. change (default 0 ((fun v0 => v0 + line) <$> Some v)) with (v + line). rewrite bool_decide_true by done. rewrite (proj2 (Z.eqb_neq (v + line) 0)) by lia. cbn [negb].
    apply comes_bind. eapply runs_weaken; [apply (runs_print c 0 (fun _ => False) line l s1 R1)|]; [split; try done; [lia|lia|intros x _ []]|].
    intros [] s2 [I2 E2]. assert (quiet c 0 grep_touch l s1 s2) as Q2 by (split; [|done]; eapply io_weaken; [exact I2|by intros x []]).
    eapply runs_weaken; [apply (runs_say c 0 grep_touch); [by eapply quiet_ready|eapply quiet_text; [exact Q2|apply M1]]|]. intros [] s3 Q3.
    eapply (hush_trans c 0 grep_touch []); [exact Q1|]. eapply hush_trans; [exact Q2|exact Q3].
  - change (default 0 ((fun v0 => v0 + line) <$> @None Z)) with 0. rewrite bool_decide_false by (by intros []). by apply comes_ret.
Qed.

Lemma collected_io l out s s' : collected l s -> zlen l <= 511 -> io c 0 (eq cp) out s s' -> collected l s'.
Proof.
  intros [H1 H2] Hl I. split; [|done]. rewrite <- H1 at 2. apply bytes_at_ext. intros x Hx. rewrite (io_mem _ _ _ _ _ _ I); [done|]. unfold zlen in Hl. lia.
Qed.
Lemma collected_snoc l b s : collected l s -> 0 < b < 256 -> collected (l ++ [b]) (set_umem (store8 (umem s) (line + zlen l) b) s).
Proof.
  intros [H1 H2] Hb. split; [|apply Forall_app; by split; [|constructor]]. cbn [umem set_umem]. rewrite length_app, bytes_at_app. f_equal.
  - rewrite <- H1 at 3. apply bytes_at_ext. intros x Hx. unfold store8. rewrite fn_lookup_insert_ne by (unfold zlen; lia). done.
  - fold (zlen l). cbn [length bytes_at]. rewrite load8_store8_same, u8_small by lia. done.
Qed.

Lemma grep_loop_prints k node data pos s rest cur h t :
  ready c s -> reading c 0 node pos data s -> grep_mem s -> drop (Z.to_nat pos) data = rest -> Forall (fun b => 0 < b < 256) rest ->
  collected cur s -> fields is_newline rest = h :: t -> zlen (cur ++ h) <= 511 -> Forall (fun l => zlen l <= 511) t -> (length rest < k)%nat ->
  let ls := (cur ++ h) :: t in
  runs (grep_loop d junk4 junk5 junk6 lit fuel k cp line (zlen cur) argv) s
    (fun r s' => r = zlen (List.last ls []) /\ collected (List.last ls []) s' /\ zlen (List.last ls []) <= 511 /\ io c 0 grep_touch (concat (map (matching pat) (removelast ls))) s s').
Proof.
  revert pos s rest cur h t. induction k as [|k IH]; intros pos s rest cur h t R G M E Hr C Ef Hl Hls Hk ls; [lia|]. cbn [grep_loop]. apply comes_bind.
  assert (zlen (cur ++ h) = zlen cur + zlen h) as Hz by (unfold zlen; rewrite length_app; lia). assert (0 <= zlen h) by (unfold zlen; lia).
  assert (forall s1 out, io c 0 (eq cp) out s s1 -> io c 0 grep_touch out s s1) as Hw by (intros; eapply io_weaken; [done|]; intros x <-; by left).
  destruct rest as [|b rest].
  - cbn [fields] in Ef. injection Ef as <- <-. rewrite (drop_end data pos) in G by (try apply G; done).
    destruct (read_end c node data s cp R G) as (s1 & E1 & G1 & I1); [lia..|]. eapply runs_call; [exact E1|]. apply comes_ret. unfold ls. rewrite app_nil_r in *.
    cbn [List.last removelast map concat]. split; [done|]. split; [eapply collected_io; [done|lia|done]|]. split; [done|]. by apply Hw.
  - apply List.Forall_cons_iff in Hr as [Hb Hr]. destruct (read_char c node pos data s cp b rest R G E) as (s1 & E1 & G1 & I1 & L1 & D1); [lia..|].
    pose proof (Hw s1 _ I1) as I1'. pose proof (io_ready _ _ _ _ _ _ I1) as R1. pose proof (grep_mem_io _ _ _ _ M I1') as M1. assert (collected cur s1) as C1 by (eapply collected_io; [done|lia|done]).
    eapply runs_call; [exact E1|]. apply comes_bind, runs_gets. rewrite L1. cbn [fields] in Ef. unfold is_newline in Ef at 1. cbn in Hk.
    destruct (fields_cons is_newline rest) as (h' & t' & Ef'). rewrite Ef' in Ef. destruct (Z.eqb_spec b 10) as [->|Hne].
    + injection Ef as <- <-. apply List.Forall_cons_iff in Hls as [Hh Hls]. cbn [orb]. apply comes_bind, runs_gets. change (8 * 1) with 8. rewrite (gm_arg _ M1).
      apply comes_bind. unfold ls in *. rewrite app_nil_r in *. eapply runs_weaken; [apply runs_flush; try done; lia|]. intros [] s2 Q2.
      change 0 with (zlen (@nil Z)). eapply runs_weaken; [eapply (IH (pos + 1) s2 rest [] h' t')|]; try done; [by eapply quiet_ready|by eapply quiet_reading|by eapply grep_mem_io; [|apply Q2]|lia|].
      intros r s3 (-> & C3 & H3 & I3). cbn [List.last removelast map concat app] in *. split; [done|]. split; [done|]. split; [done|].
      eapply (io_trans _ _ _ []); [exact I1'|]. eapply io_trans; [apply Q2|exact I3].
    + injection Ef as <- <-. unfold GREP_LINE_MAX. assert (zlen (b :: h') = zlen h' + 1) as Hz' by (unfold zlen; cbn [length]; lia).
      assert (0 <= zlen h') by (unfold zlen; lia). rewrite (proj2 (Z.leb_gt 512 (zlen cur + 1))) by lia. cbn [orb].
      assert (grep_touch (line + zlen cur)) as Ht by (right; unfold in_buffer; pose proof (Zle_0_nat (length cur)); unfold zlen in *; lia).
      pose proof (quiet_store8 c 0 grep_touch (line + zlen cur) b s1 R1 Ht) as Q2. apply comes_bind, runs_sets.
      pose proof (collected_snoc cur b s1 C1 Hb) as C2. set (s2 := set_umem _ s1) in *.
      replace (zlen cur + 1) with (zlen (cur ++ [b])) by (unfold zlen; rewrite length_app; cbn [length]; lia).
      assert (cur ++ b :: h' = (cur ++ [b]) ++ h') as Ea by (by rewrite <- app_assoc). unfold ls. rewrite Ea in *.
      eapply runs_weaken; [eapply (IH (pos + 1) s2 rest (cur ++ [b]) h' t')|]; try done; [by eapply quiet_ready|by eapply quiet_reading|by eapply grep_mem_io; [|apply Q2]|lia|].
      intros r s3 (-> & C3 & H3 & I3). split; [done|]. split; [done|]. split; [done|]. eapply (io_trans _ _ _ []); [exact I1'|]. eapply (io_trans _ _ _ []); [apply Q2|exact I3].
Qed.

(** A line of more than 511 characters is cut, and the character at the cut
    is lost: it is neither stored nor printed. *)
Lemma grep_drops_character k node data pos s cur b rest :
  ready c s -> reading c 0 node pos data s -> grep_mem s -> drop (Z.to_nat pos) data = b :: rest -> 0 < b < 256 -> b <> 10 -> collected cur s -> zlen cur = 511 ->
  exists s', grep_loop d junk4 junk5 junk6 lit fuel (S k) cp line 511 argv s = grep_loop d junk4 junk5 junk6 lit fuel k cp line 0 argv s' /\
    io c 0 grep_touch (matching pat cur) s s' /\ reading c 0 node (pos + 1) data s'.
Proof.
  intros R G M E Hb Hne C Hl. destruct (read_char c node pos data s cp b rest R G E) as (s1 & E1 & G1 & I1 & L1 & D1); [lia..|].
  assert (io c 0 grep_touch [] s s1) as I1' by (eapply io_weaken; [exact I1|]; intros x <-; by left). pose proof (grep_mem_io _ _ _ _ M I1') as M1.
  assert (collected cur s1) as C1 by (eapply collected_io; [done|lia|done]). destruct (runs_flush cur s1 (io_ready _ _ _ _ _ _ I1) C1) as ([] & s2 & E2 & Q2); [lia|done|].
  exists s2. rewrite Hl in E2. split; [|split; [eapply (io_trans _ _ _ []); [exact I1'|apply Q2]|by eapply quiet_reading]].
  cbn [grep_loop]. unfold mbind, u_bind, call at 1. rewrite E1. change (1 =? 1) with true. cbv iota. unfold char_at, gets at 1. rewrite L1.
  rewrite (proj2 (Z.eqb_neq b 10) Hne). change (GREP_LINE_MAX <=? 511 + 1) with true. cbn [orb]. unfold arg, gets at 1. change (8 * 1) with 8. rewrite (gm_arg _ M1).
  by rewrite E2.
Qed.
End Grep.

(** C22: [grep], with its input redirected from a file without NUL bytes whose
    lines have at most 511 characters, prints exactly the lines in which the
    pattern occurs, in order and each with a newline, a last line without
    newline included, and returns 0. *)
Theorem grep_prints_matches c s cp line argc argv pp pat node data :
  ready c s -> reading c 0 node 0 data s -> 2 <= argc -> grep_mem cp line argv pp pat s ->
  0 < cp /\ cp + 1 < 2 ^ 63 -> 0 < line /\ line + 512 < 2 ^ 63 -> cp < line \/ line + 512 <= cp -> (512 < fuel)%nat -> (length data < fuel)%nat ->
  Forall (fun b => 0 < b < 256) data -> Forall (fun l => zlen l <= 511) (fields is_newline data) ->
  exists s', grep_main d junk4 junk5 junk6 lit fuel cp line argc argv s = Back 0 s' /\
    scr s' = tty_write (concat (map (matching pat) (text_lines data))) (scr s) /\ fsys s' = fsys s /\
    forall l, matching pat l = l ++ [10] /\ (exists a b, l = a ++ pat ++ b) \/ matching pat l = [] /\ ~ (exists a b, l = a ++ pat ++ b).
Proof.
  intros R G Hac M H1 H2 H3 H4 H5 Hd Hl. assert (runs (grep_main d junk4 junk5 junk6 lit fuel cp line argc argv) s (fun r s' => r = 0 /\
    io c 0 (grep_touch cp line) (concat (map (matching pat) (text_lines data))) s s')) as (a & s' & E & -> & I).
  2: { exists s'. split; [done|]. split; [apply I|]. split; [apply I|]. intros l. unfold matching. pose proof (matches_spec pat l) as Hm.
       destruct (matches pat l); [left; split; [done|by apply Hm]|right; split; [done|]]. intros Hx. by apply Hm in Hx. }
  unfold grep_main. rewrite (proj2 (Z.ltb_ge argc 2)) by lia. destruct (fields_cons is_newline data) as (h & t & Ef).
  pose proof Hl as Hl'. rewrite Ef in Hl. apply List.Forall_cons_iff in Hl as [Hh Ht]. assert (collected line [] s) as C0 by (by split).
  apply comes_bind. change 0 with (zlen (@nil Z)) at 1.
  eapply runs_weaken; [eapply (grep_loop_prints c cp line argv pp pat H1 H2 H3 H4 fuel node data 0 s data [] h t)|]; try done. cbn [app].
  intros r s1 (-> & C1 & Hn & I1). rewrite <- Ef in *. unfold text_lines. set (f := fields is_newline data) in *.
  assert (f = removelast f ++ [List.last f []]) as Hf by (apply app_removelast_last; by rewrite Ef). set (last := List.last f []) in *.
  destruct (decide (last = [])) as [He|He].
  - rewrite bool_decide_true, He by done. change (0 <? zlen []) with false. apply comes_bind, comes_ret, comes_ret. by split.
  - rewrite bool_decide_false by done. assert (0 < zlen last) by (destruct last; [done|unfold zlen; cbn; lia]). rewrite (proj2 (Z.ltb_lt 0 (zlen last))) by done.
    pose proof (grep_mem_io _ _ _ _ _ _ _ _ _ _ M I1) as M1. apply comes_bind. apply comes_bind, runs_gets. change (8 * 1) with 8. rewrite (gm_arg _ _ _ _ _ _ M1).
    eapply runs_weaken; [apply (runs_flush c cp line argv pp pat H1 H2 H4 last s1); try done; apply I1|]. intros [] s2 Q2. apply comes_ret. split; [done|].
    rewrite Hf, map_app, concat_app. cbn [map concat]. rewrite app_nil_r. eapply io_trans; [exact I1|apply Q2].
Qed.
End Spec.

(** ** Small facts about the other programs *)

Lemma ping_loop_agrees t val digits oct :
  t <> [] -> 0 <= digits -> parse_ip_loop t val digits oct = parse_loop t val digits oct.
Proof.
  revert val digits oct. induction t as [|c r IH]; intros val digits oct Hne Hd; [done|]. cbn [parse_ip_loop parse_loop]. fold (is_digit c).
  destruct (is_digit c).
  - destruct (3 <? digits + 1); [done|]. destruct (255 <? _); [done|]. destruct r as [|x r]; [|apply IH; [done|lia]].
    cbn [parse_ip_loop]. rewrite (proj2 (Z.eqb_neq (digits + 1) 0)) by lia. by rewrite orb_false_r.
  - destruct (c =? 46); [|done]. cbn [andb]. rewrite Z.leb_antisym. destruct (Z.eqb_spec digits 0) as [->|Hd0]; [by rewrite andb_false_r|].
    rewrite (proj2 (Z.ltb_lt 0 digits)) by lia. rewrite andb_true_r. destruct (zlen oct <? 3); [|done]. cbn [negb orb].
    destruct r as [|x r]; [|by apply IH]. cbn [parse_ip_loop]. by rewrite orb_true_r.
Qed.

Lemma ping_loop_short t val digits oct l :
  parse_ip_loop t val digits oct = Some l -> 0 <= digits <= 3 -> zlen t + digits + 4 * zlen oct <= 15.
Proof.
  revert val digits oct. induction t as [|c r IH]; intros val digits oct; cbn [parse_ip_loop]; intros E Hd.
  - destruct (Z.eqb_spec (zlen oct) 3) as [->|]; [|done]. change (zlen []) with 0. lia.
  - assert (zlen (c :: r) = zlen r + 1) as -> by (unfold zlen; cbn [length]; lia). destruct ((48 <=? c) && (c <=? 57)).
    + destruct (Z.ltb_spec 3 (digits + 1)); [done|]. destruct (255 <? _); [done|]. apply IH in E; lia.
    + destruct (c =? 46); [|done]. destruct (_ || _); [done|]. apply IH in E; [|lia].
      assert (zlen (oct ++ [val]) = zlen oct + 1) by (unfold zlen; rewrite length_app; cbn [length]; lia). lia.
Qed.

Lemma ping_octet_text o : 0 <= o < 256 -> (if o =? 0 then [48] else digits_of 4 o) = dec o.
Proof.
  intros Ho. assert (forallb (fun k => bool_decide ((if k =? 0 then [48] else digits_of 4 k) = dec k)) (seqZ 0 256) = true) as H by (by vm_compute).
  rewrite forallb_forall in H. specialize (H o). apply bool_decide_eq_true in H; [done|]. apply list_elem_of_In, elem_of_seqZ. lia.
Qed.

Lemma ping_command_text ip : 0 <= ip < 2 ^ 32 -> ping_command ip = bs "ping " ++ render None (bs "%u.%u.%u.%u") (octet_args ip).
Proof.
  intros Hip. unfold ping_command, octet_args. rewrite render_quad. f_equal. cbn [map concat]. unfold ping_octet.
  change (24 - 8 * 0) with 24. change (24 - 8 * 1) with 16. change (24 - 8 * 2) with 8. change (24 - 8 * 3) with 0. rewrite Z.shiftr_0_r.
  change (0 <? 3) with true. change (1 <? 3) with true. change (2 <? 3) with true. change (3 <? 3) with false. cbv iota zeta.
  assert (forall x, 0 <= Z.land x 0xFF < 256) as Hl by (intros x; change 0xFF with (2 ^ 8 - 1); rewrite land_ones_mod by lia; lia).
  rewrite !ping_octet_text by apply Hl. rewrite !u32_small by (pose proof (Hl ip); pose proof (Hl (Z.shiftr ip 8)); pose proof (Hl (Z.shiftr ip 16)); pose proof (Hl (Z.shiftr ip 24)); lia).
  rewrite !app_nil_r, <- !app_assoc. done.
Qed.

Lemma parse_ipv4_range t ip : parse_ipv4_strict t = Some ip -> (forall l, parse_loop t 0 0 [] = Some l -> Forall (fun o => 0 <= o < 256) l) -> 0 <= ip < 2 ^ 32.
Proof.
  unfold parse_ipv4_strict. intros E H. destruct (_ || _); [done|]. destruct (parse_loop t 0 0 []) as [l|]; [|done]. specialize (H l eq_refl).
  destruct l as [|a [|b [|c [|e [|? ?]]]]]; try done. injection E as <-. rewrite !List.Forall_cons_iff in H. destruct H as (Ha & Hb & Hc & He & _).
  rewrite !(fun x k => u32_small (Z.shiftl x k)) by (rewrite Z.shiftl_mul_pow2 by lia; lia).
  rewrite (Z.shiftl_mul_pow2 b), (Z.shiftl_mul_pow2 c) by lia. rewrite lor_shiftl_add by lia.
  replace (a * 2 ^ 24 + b * 2 ^ 16) with (Z.shiftl (a * 256 + b) 16) by (rewrite Z.shiftl_mul_pow2 by lia; lia). rewrite lor_shiftl_add by lia.
  replace ((a * 256 + b) * 2 ^ 16 + c * 2 ^ 8) with (Z.shiftl ((a * 256 + b) * 256 + c) 8) by (rewrite Z.shiftl_mul_pow2 by lia; lia). rewrite lor_shiftl_add by lia. lia.
Qed.

Lemma ping_loop_range t val digits oct l :
  parse_ip_loop t val digits oct = Some l -> 0 <= val < 256 -> Forall (fun o => 0 <= o < 256) oct -> Forall (fun o => 0 <= o < 256) l.
Proof.
  revert val digits oct. induction t as [|c r IH]; intros val digits oct; cbn [parse_ip_loop]; intros E Hv Ho.
  - destruct (_ || _); [done|]. injection E as <-. apply Forall_app. by split; [|constructor].
  - destruct ((48 <=? c) && (c <=? 57)).
    + destruct (3 <? _); [done|]. destruct (Z.ltb_spec 255 (u32 (val * 10 + (c - 48)))); [done|]. eapply IH; [exact E| |done]. pose proof (u32_range (val * 10 + (c - 48))). lia.
    + destruct (c =? 46); [|done]. destruct (_ || _); [done|]. eapply IH; [exact E|lia|]. apply Forall_app. by split; [|constructor].
Qed.

(** [ping] and the kernel read addresses alike: the program accepts
    exactly the texts that the device accepts, with the same meaning; and the
    command it writes for an address it accepted fits in its buffer of 24
    bytes and is read back by the device as that address. *)
Theorem ping_address_agrees t :
  parse_ip t = parse_ipv4_strict t /\
  match parse_ip t with
  | Some ip => zlen (ping_command ip) <= 24 /\ take 5 (ping_command ip) = bs "ping " /\ parse_ipv4_strict (drop 5 (ping_command ip)) = Some ip
  | None => True
  end.
Proof.
  assert (parse_ip t = parse_ipv4_strict t) as Eq.
  { unfold parse_ip, parse_ipv4_strict. destruct (Z.eqb_spec (zlen t) 0) as [Hz|Hz]; [assert (t = []) as -> by (apply nil_length_inv; unfold zlen in Hz; lia); done|].
    cbn [orb]. destruct (Z.ltb_spec 15 (zlen t)) as [Hl|Hl]; [|rewrite ping_loop_agrees by (try lia; by intros ->); done].
    destruct (parse_ip_loop t 0 0 []) as [l|] eqn:E; [|done]. apply ping_loop_short in E; [|lia]. change (zlen []) with 0 in E. lia. }
  split; [done|]. destruct (parse_ip t) as [ip|] eqn:Hip; [|done]. assert (0 <= ip < 2 ^ 32) as Hr.
  { symmetry in Eq. apply (parse_ipv4_range t ip Eq). intros l E. assert (t <> []) as Hne by (by intros ->). rewrite <- ping_loop_agrees in E by (try lia; done).
    eapply ping_loop_range; [exact E|lia|constructor]. }
  pose proof (ping_command_text ip Hr) as Et. pose proof (parse_print_ipv4 ip Hr) as Hp. rewrite Et. split; [|split; [done|exact Hp]].
  unfold parse_ipv4_strict in Hp. destruct (_ =? 0); [done|]. cbn [orb] in Hp. destruct (Z.ltb_spec 15 (zlen (render None (bs "%u.%u.%u.%u") (octet_args ip)))); [done|].
  unfold zlen in *. rewrite length_app. change (length (bs "ping ")) with 5%nat. lia.
Qed.

(** The samples of a tone stay away from the ends of their range. *)
Lemma sample_range phase : 0 <= phase < 256 -> 32 <= sample phase <= 224.
Proof.
  intros Hp. assert (forallb (fun k => (32 <=? sample k) && (sample k <=? 224)) (seqZ 0 256) = true) as H by (by vm_compute).
  rewrite forallb_forall in H. specialize (H phase). apply andb_true_iff in H as [H1 H2]; [lia|]. apply list_elem_of_In, elem_of_seqZ. lia.
Qed.

(** ** A running program *)

Definition demo_input : list Z := bs "one two" ++ [10] ++ bs "the other" ++ [10] ++ bs "end".
Definition demo_files : vfs positive :=
  match vfs_create_file (bs "/t") demo_vfs with
  | (Some n, v) => (vfs_write (fun _ k => replicate (Z.to_nat k) 0) n demo_input 0 v).2
  | (None, v) => v
  end.
Definition demo_node : Z := default 0 (vfs_create_file (bs "/t") demo_vfs).1.
(** Texts from 0x1000 on, the arguments at 0x2000. *)
Definition demo_lit (t : list Z) : Z := if bool_decide (t = [10]) then 0x1000 else if bool_decide (t = bs " ") then 0x1010 else 0x1020.
Definition demo_memory : mem :=
  store64 (write_bytes (write_bytes (write_bytes (write_bytes (fun _ => 0) 0x1000 [10]) 0x1010 [32]) 0x1800 (bs "/t")) 0x1900 (bs "o")) 0x2008 0x1800.
Definition demo_prog : sys pmm positive unit := set_umem demo_memory (set_fsys demo_files demo_sys).
Definition demo_redirected : sys pmm positive unit :=
  set_umem (store64 demo_memory 0x2008 0x1900) (upd 3 (set_fd 0 (mkFile demo_node 0 0 0)) demo_prog).

Lemma demo_ready : ready 3 demo_prog.
Proof. split; [reflexivity|unfold slot_ok, MAX_TASKS; lia|apply demo_procs_wf|reflexivity|reflexivity|reflexivity|by exists 0]. Qed.
Lemma demo_redirected_ready : ready 3 demo_redirected.
Proof.
  apply ready_umem, ready_set_fd; [exact demo_ready|unfold fd_ok, MAX_FDS; lia|lia].
Qed.

Lemma cat_prints_file_witness :
  exists s', cat_main demo_machine 0 0 0 demo_lit 2 0x3000 2 0x2000 demo_prog = Back 0 s' /\ scr s' = tty_write demo_input (scr demo_prog) /\ fsys s' = fsys demo_prog /\
    ready 3 s' /\ forall fd, fd_get (tk s' 3) fd = fd_get (tk demo_prog 3) fd.
Proof.
  assert (load64 (umem demo_prog) (0x2000 + 8) = 0x1800) as Ea by (by vm_compute).
  assert (n_data (node_at (fsys demo_prog) demo_node) = demo_input) as Ed by (by vm_compute).
  pose proof (cat_prints_file demo_machine 0 0 0 demo_lit 2 3 demo_prog 0x3000 2 0x2000 (bs "/t") demo_node demo_ready) as H. cbv zeta in H. rewrite Ed, Ea in H.
  apply H; clear H.
  - lia.
  - change (bs "/t") with [47; 116]. repeat (apply cstr_cons; split; [by vm_compute|split; [lia|]]). apply cstr_nil. by vm_compute.
  - lia.
  - cbn. lia.
  - by vm_compute.
  - by vm_compute.
  - by vm_compute.
  - by vm_compute.
  - by apply (bool_decide_unpack _); vm_compute.
  - by vm_compute.
  - lia.
  - lia.
  - by vm_compute.
Defined.

Lemma demo_reading : reading 3 0 demo_node 0 demo_input demo_redirected.
Proof.
  split; [split; [unfold fd_ok, MAX_FDS; lia|lia]|by vm_compute|by vm_compute|by vm_compute|by vm_compute|by vm_compute|].
  change (zlen demo_input) with 21. lia.
Qed.

(** A one-character text of the example. *)
Lemma demo_char (touch : Z -> Prop) fuel p b :
  0 < p < 0x2000 -> 0 < b < 256 -> (1 < fuel)%nat -> load8 (umem demo_redirected) p = b -> load8 (umem demo_redirected) (p + 1) = 0 ->
  (forall x, p <= x <= p + 1 -> ~ touch x) -> has_text fuel touch p [b] demo_redirected.
Proof. intros Hp Hb Hf H1 H2 Ht. change (zlen [b]) with 1. split; [apply cstr_cons; split; [done|]; split; [done|]; by apply cstr_nil|lia|change (zlen [b]) with 1; lia|done|done]. Qed.

Lemma grep_prints_matches_witness :
  exists s', grep_main demo_machine 0 0 0 demo_lit 600 0x3000 0x4000 2 0x2000 demo_redirected = Back 0 s' /\
    scr s' = tty_write (bs "one two" ++ [10] ++ bs "the other" ++ [10]) (scr demo_redirected) /\ fsys s' = fsys demo_redirected /\
    forall l, matching (bs "o") l = l ++ [10] /\ (exists a b, l = a ++ bs "o" ++ b) \/ matching (bs "o") l = [] /\ ~ (exists a b, l = a ++ bs "o" ++ b).
Proof.
  pose proof (grep_prints_matches demo_machine 0 0 0 demo_lit 600 3 demo_redirected 0x3000 0x4000 2 0x2000 0x1900 (bs "o") demo_node demo_input
    demo_redirected_ready demo_reading) as H.
  assert (concat (map (matching (bs "o")) (text_lines demo_input)) = bs "one two" ++ [10] ++ bs "the other" ++ [10]) as E by (by vm_compute). rewrite E in H.
  apply H; clear H E.
  - lia.
  - split; [by vm_compute|unfold grep_touch, in_buffer; intros x Hx; lia| |].
    + apply (demo_char _ _ 0x1900 111); [lia|lia|lia|by vm_compute|by vm_compute|unfold grep_touch, in_buffer; intros x Hx; lia].
    + change (demo_lit [10]) with 0x1000. apply (demo_char _ _ 0x1000 10); [lia|lia|lia|by vm_compute|by vm_compute|unfold grep_touch, in_buffer; intros x Hx; lia].
  - lia.
  - lia.
  - lia.
  - lia.
  - vm_compute. lia.
  - by apply (bool_decide_unpack _); vm_compute.
  - by apply (bool_decide_unpack _); vm_compute.
Defined.

Lemma wc_counts_file_witness :
  exists s', wc_main demo_machine 0 0 0 demo_lit 0x3100 600 0x3000 demo_redirected = Back 0 s' /\
    scr s' = tty_write (bs "2 5 21" ++ [10]) (scr demo_redirected) /\ fsys s' = fsys demo_redirected.
Proof.
  pose proof (wc_counts_file demo_machine 0 0 0 demo_lit 0x3100 600 3 demo_redirected 0x3000 demo_node demo_input demo_redirected_ready demo_reading) as H.
  assert (wc_report demo_input = bs "2 5 21" ++ [10]) as E by (by vm_compute). rewrite E in H. apply H; clear H E.
  - by apply (bool_decide_unpack _); vm_compute.
  - vm_compute. lia.
  - lia.
  - lia.
  - lia.
  - change (bs " ") with [32]. change (demo_lit [32]) with 0x1010. apply (demo_char _ _ 0x1010 32); [lia|lia|lia|by vm_compute|by vm_compute|intros x Hx; lia].
  - change (demo_lit [10]) with 0x1000. apply (demo_char _ _ 0x1000 10); [lia|lia|lia|by vm_compute|by vm_compute|intros x Hx; lia].
Defined.

(** [fetch] puts the name of the system at offset 4 of a line that begins
    with a label of 15 characters: what is left of the label is the first half
    of an escape sequence, which takes the first letter of the name with it. *)
Example fetch_label_overwritten :
  let m := write_bytes (write_bytes (fun _ => 0) 0x1020 os_label) 0x1800 (bs "MMix 0.6.0") in
  match fetch_os demo_lit 40 0x3000 0x1800 (set_umem m demo_sys) with
  | Back _ s => c_string (bytes_at 128 (umem s) 0x3000) = 27 :: bs "[1;MMix 0.6.0"
  | _ => False
  end.
Proof. by vm_compute. Qed.
Example fetch_name_cut : cur_x (tty_write (27 :: bs "[1;MMix") demo_tty) = cur_x (tty_write (bs "Mix") demo_tty).
Proof. by vm_compute. Qed.
