(* ===== verification/Calc.v ===== *)
(** * calc (userspace/calc.c)

    The recursive-descent calculator.  The pointer [p] into the line is the
    list of characters that are left; a parser returns the value and the new
    rest, or the way the program ended.  Values are [long]s that wrap.  Every
    loop and every recursion of [unary] and [expr] consumes a character, so
    the length of the text is enough fuel ([calc_total]). *)
From S2P Require Import Prelude Mem KString Net Font Screen Gfx Kbd Mouse FrameAlloc Pmm Task Sched Pipe Pmap Libk Vfs VfsSpec Devfs SysState SysDemo SysFd SysSig Elf SysProc SysMem SysGfx Syscall SysSafe Libc.

(** [Trap]: the division that the processor cannot do. *)
Inductive result := Val (v : Z) (rest : list Z) | Err (msg : list Z) | Trap | NoFuel.

Definition bind (x : result) (f : Z -> list Z -> result) : result :=
  match x with Val v r => f v r | Err m => Err m | Trap => Trap | NoFuel => NoFuel end.
Notation "'let*' ( v , r ) := x 'in' y" := (bind x (fun v r => y)) (at level 10, v name, r name, x at level 100, y at level 200).

(** [*p]; the text ends with a NUL. *)
Definition cur (s : list Z) : Z := hd 0 s.

Definition is_space (c : Z) : bool := (c =? 32) || (c =? 9).
Fixpoint skip (s : list Z) : list Z :=
  match s with
  | c :: r => if is_space c then skip r else s
  | [] => []
  end.

Definition in_range (lo hi c : Z) : bool := (lo <=? c) && (c <=? hi).

(** [while (digit) v = v * base + d] *)
Fixpoint digits_loop (digit : Z -> option Z) (base v : Z) (s : list Z) : Z * list Z :=
  match s with
  | c :: r => match digit c with Some d => digits_loop digit base (s64 (v * base + d)) r | None => (v, s) end
  | [] => (v, [])
  end.

Definition hex_digit (c : Z) : option Z :=
  if in_range 48 57 c then Some (c - 48)
  else if in_range 97 102 c then Some (c - 97 + 10)
  else if in_range 65 70 c then Some (c - 65 + 10)
  else None.
Definition small_digit (base c : Z) : option Z := if in_range 48 (48 + base - 1) c then Some (c - 48) else None.

(** The literal at [s]: prefix and digits. *)
Definition number_at (s : list Z) : Z * list Z :=
  match s with
  | 48 :: c :: r =>
      if (c =? 120) || (c =? 88) then digits_loop hex_digit 16 0 r
      else if (c =? 98) || (c =? 66) then digits_loop (small_digit 2) 2 0 r
      else if (c =? 111) || (c =? 79) then digits_loop (small_digit 8) 8 0 r
      else digits_loop (small_digit 10) 10 0 s
  | _ => digits_loop (small_digit 10) 10 0 s
  end.
Definition parse_num (s : list Z) : result := let '(v, r) := number_at (skip s) in Val v r.

Inductive binop := OOr | OXor | OAnd | OShl | OShr | OAdd | OSub | OMul | ODiv | OMod.

Definition LONG_MIN : Z := - 2 ^ 63.

(** [v op d].  A shift uses the low six bits of the amount; the quotient of
    [LONG_MIN] and -1 does not fit and traps. *)
Definition apply (op : binop) (v d : Z) : Z + result :=
  match op with
  | OOr => inl (Z.lor v d)
  | OXor => inl (Z.lxor v d)
  | OAnd => inl (Z.land v d)
  | OShl => inl (s64 (Z.shiftl v (Z.land d 63)))
  | OShr => inl (Z.shiftr v (Z.land d 63))
  | OAdd => inl (s64 (v + d))
  | OSub => inl (s64 (v - d))
  | OMul => inl (s64 (v * d))
  | ODiv => if d =? 0 then inr (Err (bs "division by zero"))
            else if (v =? LONG_MIN) && (d =? -1) then inr Trap else inl (Z.quot v d)
  | OMod => if d =? 0 then inr (Err (bs "modulo by zero"))
            else if (v =? LONG_MIN) && (d =? -1) then inr Trap else inl (Z.rem v d)
  end.

(** The loop of a level: [op_at] recognises the level's operators at [p] and
    [operand] parses the next tighter level. *)
Fixpoint chain_loop (fuel : nat) (op_at : list Z -> option (binop * list Z)) (operand : list Z -> result) (v : Z) (s : list Z) : result :=
  match fuel with
  | O => NoFuel
  | S f =>
      let s := skip s in
      match op_at s with
      | None => Val v s
      | Some (op, r) =>
          let* (d, r) := operand r in
          match apply op v d with inl v => chain_loop f op_at operand v r | inr e => e end
      end
  end.
Definition chain (op_at : list Z -> option (binop * list Z)) (operand : list Z -> result) (s : list Z) : result :=
  let* (v, r) := operand s in chain_loop (S (length r)) op_at operand v r.

(** The levels above [unary], with the parser of the whole as a parameter. *)
Section Levels.
Variable expr_rec : list Z -> result.

Definition primary (s : list Z) : result :=
  let s := skip s in
  match s with
  | 40 :: r =>
      let* (v, r) := expr_rec r in
      let r := skip r in
      match r with 41 :: r => Val v r | _ => Val v r end
  | _ => parse_num s
  end.

Fixpoint unary (fuel : nat) (s : list Z) : result :=
  match fuel with
  | O => NoFuel
  | S f =>
      let s := skip s in
      match s with
      | 45 :: r => let* (v, r) := unary f r in Val (s64 (- v)) r
      | 126 :: r => let* (v, r) := unary f r in Val (Z.lnot v) r
      | 43 :: r => unary f r
      | _ => primary s
      end
  end.

Definition mul_op (s : list Z) : option (binop * list Z) :=
  match s with
  | 42 :: r => Some (OMul, r)
  | 47 :: r => Some (ODiv, r)
  | 37 :: r => Some (OMod, r)
  | _ => None
  end.
Definition add_op (s : list Z) : option (binop * list Z) :=
  match s with 43 :: r => Some (OAdd, r) | 45 :: r => Some (OSub, r) | _ => None end.
Definition shift_op (s : list Z) : option (binop * list Z) :=
  match s with 60 :: 60 :: r => Some (OShl, r) | 62 :: 62 :: r => Some (OShr, r) | _ => None end.
Definition and_op (s : list Z) : option (binop * list Z) := match s with 38 :: r => Some (OAnd, r) | _ => None end.
Definition xor_op (s : list Z) : option (binop * list Z) := match s with 94 :: r => Some (OXor, r) | _ => None end.
Definition or_op (s : list Z) : option (binop * list Z) := match s with 124 :: r => Some (OOr, r) | _ => None end.

Definition mul (s : list Z) : result := chain mul_op (fun s => unary (S (length s)) s) s.
Definition add (s : list Z) : result := chain add_op mul s.
Definition shift (s : list Z) : result := chain shift_op add s.
Definition bit_and (s : list Z) : result := chain and_op shift s.
Definition bit_xor (s : list Z) : result := chain xor_op bit_and s.
Definition bit_or (s : list Z) : result := chain or_op bit_xor s.
End Levels.

(** [n] bounds the depth of parentheses. *)
Fixpoint expr (n : nat) (s : list Z) : result :=
  match n with
  | O => NoFuel
  | S n' => bit_or (expr n') s
  end.

(** The arguments joined by blanks, as far as the buffer goes. *)
Definition LINE_SIZE : nat := 264.
Fixpoint join_args (argv : list (list Z)) : list Z :=
  match argv with
  | [] => []
  | [a] => a
  | a :: r => a ++ 32 :: join_args r
  end.
Definition arg_line (argv : list (list Z)) : list Z := take (LINE_SIZE - 1) (join_args argv).

(** The first line of the input, as far as the buffer goes. *)
Fixpoint input_line (n : nat) (input : list Z) : list Z :=
  match n, input with
  | S n', c :: r => if c =? 10 then [] else c :: input_line n' r
  | _, _ => []
  end.

Definition calc_line (line : list Z) : Z * list Z :=
  match expr (S (length line)) line with
  | Val v _ => (0, print_num v ++ [10])
  | Err m => (1, bs "calc: " ++ m ++ [10])
  | _ => (-1, [])
  end.

(** Exit status and output; -1 stands for a program that was killed. *)
Definition calc_main (argv : list (list Z)) (input : list Z) : Z * list Z :=
  match argv with
  | [] => calc_line (c_string (input_line (LINE_SIZE - 1) input))
  | _ => let line := arg_line argv in match line with [] => (0, []) | _ => calc_line line end
  end.

Example calc_examples :
  calc_main [bs "2"; bs "+"; bs "3"; bs "*"; bs "4"] [] = (0, bs "14" ++ [10]) /\
  calc_main [] (bs "-(0x10 << 2) | 1" ++ [10]) = (0, bs "-63" ++ [10]) /\
  calc_main [bs "7/(3-3)"] [] = (1, bs "calc: division by zero" ++ [10]) /\
  calc_main [bs "0b101 % 0o3 ^ ~0"] [] = (0, bs "-3" ++ [10]).
Proof. by vm_compute. Qed.

(** * Theorems *)

(** ** Termination *)

(** A run that ends and does not go back in the text. *)
Definition ends (k : nat) (x : result) : Prop :=
  match x with Val _ r => (length r <= k)%nat | NoFuel => False | _ => True end.
Definition total_below (B : nat) (f : list Z -> result) : Prop := forall s, (length s < B)%nat -> ends (length s) (f s).

Lemma ends_bind k x f : ends k x -> (forall v r, (length r <= k)%nat -> ends k (f v r)) -> ends k (bind x f).
Proof. intros Hx Hf. destruct x; cbn in *; auto. Qed.

Lemma ends_mono k k' x : ends k x -> (k <= k')%nat -> ends k' x.
Proof. intros H Hk. destruct x; cbn in *; try done. lia. Qed.

Lemma skip_length s : (length (skip s) <= length s)%nat.
Proof. induction s as [|c s IH]; cbn; [lia|]. destruct (is_space c); cbn; lia. Qed.

Lemma digits_loop_length digit base v s : (length (digits_loop digit base v s).2 <= length s)%nat.
Proof. revert v. induction s as [|c s IH]; intros v; cbn; [lia|]. destruct (digit c); cbn; [pose proof (IH (s64 (v * base + z))); lia|lia]. Qed.

Lemma number_at_length s : (length (number_at s).2 <= length s)%nat.
Proof.
  unfold number_at. assert (H : forall d b v u, (length u <= length s)%nat -> (length (digits_loop d b v u).2 <= length s)%nat).
  { intros d b v u Hu. pose proof (digits_loop_length d b v u). lia. }
  destruct s as [|c0 [|c r]]; [by apply H|..]; repeat case_match; subst; apply H; cbn; lia.
Qed.

Lemma parse_num_ends s : ends (length s) (parse_num s).
Proof.
  unfold parse_num. pose proof (number_at_length (skip s)). pose proof (skip_length s). destruct (number_at (skip s)). cbn in *. lia.
Qed.

Definition shrinks (op_at : list Z -> option (binop * list Z)) : Prop := forall s op r, op_at s = Some (op, r) -> (length r < length s)%nat.

Lemma apply_ends k op v d e : apply op v d = inr e -> ends k e.
Proof. destruct op; cbn; try done; ifs; by intros [= <-]. Qed.

Lemma chain_loop_ends B f op_at operand v r :
  shrinks op_at -> total_below B operand -> (length r < f)%nat -> (length r < B)%nat -> ends (length r) (chain_loop f op_at operand v r).
Proof.
  intros Hop Ho. revert v r. induction f as [|f IH]; intros v r Hf Hr; [lia|]. cbn [chain_loop]. pose proof (skip_length r).
  destruct (op_at (skip r)) as [[op u]|] eqn:E; [|cbn; lia]. apply Hop in E. eapply ends_mono; [apply (ends_bind (length u)); [apply Ho; lia|]|lia].
  intros w u' Hu. destruct (apply op v w) eqn:Ea; [|by eapply apply_ends]. eapply ends_mono; [apply IH; lia|lia].
Qed.

Lemma chain_ends B op_at operand : shrinks op_at -> total_below B operand -> total_below B (chain op_at operand).
Proof.
  intros Hop Ho s Hs. apply ends_bind; [by apply Ho|]. intros v r Hr. eapply ends_mono; [apply (chain_loop_ends B); try done; lia|lia].
Qed.

Lemma ops_shrink : shrinks mul_op /\ shrinks add_op /\ shrinks shift_op /\ shrinks and_op /\ shrinks xor_op /\ shrinks or_op.
Proof. unfold shrinks, mul_op, add_op, shift_op, and_op, xor_op, or_op. split_and!; intros s op r; repeat case_match; intros [= <- <-]; cbn; lia. Qed.

Lemma primary_ends B rec : total_below B rec -> total_below (S B) (primary rec).
Proof.
  intros Hr s Hs. unfold primary. pose proof (skip_length s) as Hk. set (t := skip s) in *. clearbody t.
  assert (ends (length s) (parse_num t)) as Hp by (eapply ends_mono; [apply parse_num_ends|lia]).
  destruct t as [|c t]; [done|]. destruct (decide (c = 40)) as [->|Hc].
  - eapply ends_mono; [apply (ends_bind (length t)); [apply Hr; cbn in Hk; lia|]|cbn in Hk; lia]. intros v r Hl. pose proof (skip_length r).
    destruct (skip r) as [|x q]; [cbn; lia|]. destruct (decide (x = 41)) as [->|]; cbn in *; [lia|]. repeat case_match; cbn in *; lia.
  - repeat case_match; done || congruence.
Qed.

Lemma unary_ends B rec f s : total_below B (primary rec) -> (length s < f)%nat -> (length s < B)%nat -> ends (length s) (unary rec f s).
Proof.
  intros Hp. revert s. induction f as [|f IH]; intros s Hf Hs; [lia|]. cbn [unary]. pose proof (skip_length s) as Hk. set (t := skip s) in *. clearbody t.
  assert (ends (length s) (primary rec t)) as H0 by (eapply ends_mono; [apply Hp; lia|lia]).
  destruct t as [|c t]; [done|]. cbn [length] in Hk.
  assert (ends (length s) (unary rec f t)) as H1 by (eapply ends_mono; [apply IH; lia|lia]).
  assert (forall g, ends (length s) (let* (v, r) := unary rec f t in Val (g v) r)) as H2 by (intros g; by apply ends_bind).
  repeat case_match; done.
Qed.

Lemma bit_or_ends B rec : total_below B rec -> total_below (S B) (bit_or rec).
Proof.
  intros Hr. destruct ops_shrink as (H1 & H2 & H3 & H4 & H5 & H6). do 6 (apply chain_ends; [done|]).
  intros s Hs. apply (unary_ends (S B)); [by apply primary_ends|lia|done].
Qed.

Lemma expr_ends n : total_below n (expr n).
Proof. induction n as [|n IH]; [intros s; lia|]. cbn [expr]. by apply bit_or_ends. Qed.

(** Calc stops on every text: the fuel is enough, so there is a value, an
    error message or the processor's trap. *)
Theorem calc_total line : expr (S (length line)) line <> NoFuel.
Proof. pose proof (expr_ends (S (length line)) line) as H. intros E. rewrite E in H. apply H. lia. Qed.

(** ** The language calc accepts *)

Inductive unop := UNeg | UNot | UPlus.
Inductive ast := Num (v : Z) | Un (u : unop) (e : ast) | Bin (op : binop) (a b : ast).

Definition apply_un (u : unop) (v : Z) : Z := match u with UNeg => s64 (- v) | UNot => Z.lnot v | UPlus => v end.

(** What an operator computes: 64-bit two's complement arithmetic, shifts by
    the count modulo 64 as products and quotients by powers of two, division
    towards zero.  A zero divisor is reported; the one quotient that does not
    fit stops the program. *)
Definition op_value (op : binop) (v d : Z) : Z + result :=
  match op with
  | OOr => inl (Z.lor v d)
  | OXor => inl (Z.lxor v d)
  | OAnd => inl (Z.land v d)
  | OShl => inl (s64 (v * 2 ^ (d mod 64)))
  | OShr => inl (v / 2 ^ (d mod 64))
  | OAdd => inl (s64 (v + d))
  | OSub => inl (s64 (v - d))
  | OMul => inl (s64 (v * d))
  | ODiv => if decide (d = 0) then inr (Err (bs "division by zero")) else if decide (v = - 2 ^ 63 /\ d = -1) then inr Trap else inl (Z.quot v d)
  | OMod => if decide (d = 0) then inr (Err (bs "modulo by zero")) else if decide (v = - 2 ^ 63 /\ d = -1) then inr Trap else inl (Z.rem v d)
  end.

(** Left to right; the first failure ends the program. *)
Fixpoint eval (e : ast) : Z + result :=
  match e with
  | Num v => inl v
  | Un u e => match eval e with inl v => inl (apply_un u v) | inr x => inr x end
  | Bin op a b =>
      match eval a with
      | inl v => match eval b with inl d => op_value op v d | inr x => inr x end
      | inr x => inr x
      end
  end.

(** How tight an operator binds: 0 is the loosest. *)
Definition level (op : binop) : nat :=
  match op with OOr => 0 | OXor => 1 | OAnd => 2 | OShl | OShr => 3 | OAdd | OSub => 4 | OMul | ODiv | OMod => 5 end.
Definition op_text (op : binop) : list Z :=
  match op with
  | OOr => [124] | OXor => [94] | OAnd => [38] | OShl => [60; 60] | OShr => [62; 62]
  | OAdd => [43] | OSub => [45] | OMul => [42] | ODiv => [47] | OMod => [37]
  end.
Definition un_char (u : unop) : Z := match u with UNeg => 45 | UNot => 126 | UPlus => 43 end.

(** Literals: decimal, or with the prefix of another base. *)
Definition bases : list (Z * list Z * (Z -> option Z)) :=
  [(10, [], small_digit 10); (16, [48; 120], hex_digit); (16, [48; 88], hex_digit);
   (8, [48; 111], small_digit 8); (8, [48; 79], small_digit 8); (2, [48; 98], small_digit 2); (2, [48; 66], small_digit 2)].
Inductive literal : list Z -> Z -> Prop :=
  | lit base prefix digit ds vs :
      (base, prefix, digit) ∈ bases ->
      ds <> [] -> Forall2 (fun c d => digit c = Some d) ds vs -> digits_value base vs < 2 ^ 63 ->
      literal (prefix ++ ds) (digits_value base vs).

(** Texts of a level: 0 to 5 are the binary operators, all of them left
    associative, 6 is the unary ones, 7 literals and parentheses.  Blanks may
    stand before every token. *)
Definition blank (sp : list Z) : Prop := Forall (fun c => is_space c = true) sp.
Inductive text : nat -> list Z -> ast -> Prop :=
  | t_num sp s v : blank sp -> literal s v -> text 7 (sp ++ s) (Num v)
  | t_paren sp s sp' e : blank sp -> blank sp' -> text 0 s e -> text 7 (sp ++ 40 :: s ++ sp' ++ [41]) e
  | t_un sp u s e : blank sp -> text 6 s e -> text 6 (sp ++ un_char u :: s) (Un u e)
  | t_up l s e : (l < 7)%nat -> text (S l) s e -> text l s e
  | t_bin s1 sp op s2 a b : blank sp -> text (level op) s1 a -> text (S (level op)) s2 b ->
      text (level op) (s1 ++ sp ++ op_text op ++ s2) (Bin op a b).

(** ** The parser computes the value of the text *)

Lemma skip_blank sp s : blank sp -> skip (sp ++ s) = skip s.
Proof. induction 1 as [|c sp Hc _ IH]; [done|]. cbn. by rewrite Hc. Qed.

Lemma skip_idem s : skip (skip s) = skip s.
Proof. induction s as [|c s IH]; [done|]. cbn. destruct (is_space c) eqn:E; [done|]. cbn. by rewrite E. Qed.

Lemma skip_token c s : is_space c = false -> skip (c :: s) = c :: s.
Proof. intros E. cbn. by rewrite E. Qed.

(** A character that ends a literal. *)
Definition alnum (c : Z) : bool := in_range 48 57 c || in_range 97 122 c || in_range 65 90 c.
Definition stop (r : list Z) : Prop := alnum (cur r) = false.

Lemma digits_loop_spec digit base v ds vs r :
  Forall2 (fun c d => digit c = Some d) ds vs -> digit (cur r) = None -> digits_loop digit base v (ds ++ r) = (foldl (fun acc d => s64 (acc * base + d)) v vs, r).
Proof.
  intros H Hr. revert v. induction H as [|c d ds vs Hc _ IH]; intros v; cbn [app digits_loop foldl]; [|by rewrite Hc].
  destruct r as [|c r]; [done|]. cbn in *. by rewrite Hr.
Qed.

Lemma value_exact base vs v :
  0 < base -> 0 <= v -> Forall (fun d => 0 <= d) vs -> foldl (fun acc d => acc * base + d) v vs < 2 ^ 63 ->
  foldl (fun acc d => s64 (acc * base + d)) v vs = foldl (fun acc d => acc * base + d) v vs.
Proof.
  intros Hb. revert v. induction vs as [|d vs IH]; intros v Hv Hd Hl; [done|]. cbn [foldl] in *. inversion Hd as [|?? Hd0 Hds]; subst.
  assert (forall vs a, 0 <= a -> Forall (fun d => 0 <= d) vs -> a <= foldl (fun acc d => acc * base + d) a vs) as Hge.
  { clear - Hb. induction vs as [|d vs IH]; intros a Ha Hd; [done|]. inversion Hd; subst. cbn [foldl]. etrans; [|apply IH]; [nia|nia|done]. }
  assert (0 <= v * base + d) by nia. pose proof (Hge vs (v * base + d) ltac:(done) Hds). rewrite s64_small by lia. by apply IH.
Qed.

(** Digits are letters or figures, and count from 0. *)
Record digit_ok (base : Z) (digit : Z -> option Z) : Prop := {
  dg_base : 0 < base;
  dg_stop : forall c, alnum c = false -> digit c = None;
  dg_val : forall c d, digit c = Some d -> 0 <= d /\ alnum c = true;
}.

Lemma small_digit_ok b : 0 < b <= 10 -> digit_ok b (small_digit b).
Proof.
  intros Hb. split; [lia| |]; intros c; unfold small_digit, alnum, in_range.
  - destruct (Z.leb_spec 48 c), (Z.leb_spec c (48 + b - 1)), (Z.leb_spec c 57); cbn [andb orb]; done || lia.
  - intros d. destruct (Z.leb_spec 48 c), (Z.leb_spec c (48 + b - 1)), (Z.leb_spec c 57); cbn [andb orb]; intros [= <-]; (split; [lia|done]) || lia.
Qed.

Lemma hex_digit_ok : digit_ok 16 hex_digit.
Proof.
  assert (forall c, hex_digit c = None \/ exists d, hex_digit c = Some d /\ 0 <= d /\ alnum c = true) as H.
  { intros c. unfold hex_digit, alnum. destruct (in_range 48 57 c) eqn:E1; unfold in_range in *; [right; bool_hyps; eexists; split; [done|split; [lia|done]]|].
    destruct (Z.leb_spec 97 c), (Z.leb_spec c 102); cbn [andb]; try (right; eexists; split; [done|split; [lia|]]; rewrite (proj2 (Z.leb_le c 122)) by lia; done);
      destruct (Z.leb_spec 65 c), (Z.leb_spec c 70); cbn [andb]; try (by left); right; eexists; (split; [done|split; [lia|]]);
      rewrite (proj2 (Z.leb_le c 90)) by lia; by rewrite ?orb_true_r. }
  split; [lia| |]; intros c; destruct (H c) as [|(d & E & Hd & Ha)]; try congruence. intros d' E'. assert (d' = d) by congruence. by subst.
Qed.

Lemma bases_ok base prefix digit : (base, prefix, digit) ∈ bases -> digit_ok base digit.
Proof.
  unfold bases. rewrite !elem_of_cons, elem_of_nil. intros [[= -> _ ->]|[[= -> _ ->]|[[= -> _ ->]|[[= -> _ ->]|[[= -> _ ->]|[[= -> _ ->]|[[= -> _ ->]|[]]]]]]]];
    try apply hex_digit_ok; apply small_digit_ok; lia.
Qed.

Lemma number_at_literal s v r : literal s v -> stop r -> number_at (s ++ r) = (v, r).
Proof.
  intros [base prefix digit ds vs Hin Hne Hds Hv] Hr. destruct (bases_ok _ _ _ Hin) as [D1 D2 D3].
  assert (Hl : digits_loop digit base 0 (ds ++ r) = (digits_value base vs, r)).
  { rewrite (digits_loop_spec _ _ _ ds vs) by (try done; by apply D2). f_equal. apply value_exact; try done.
    eapply Forall2_Forall_r; [exact Hds|]. apply Forall_true. intros c d E. by destruct (D3 c d E). }
  rewrite <- app_assoc. revert Hin. unfold bases. rewrite !elem_of_cons, elem_of_nil.
  intros [[= -> -> ->]|[[= -> -> ->]|[[= -> -> ->]|[[= -> -> ->]|[[= -> -> ->]|[[= -> -> ->]|[[= -> -> ->]|[]]]]]]]]; try exact Hl.
  cbn [app]. unfold number_at.
  assert (forall c, c = 120 \/ c = 88 \/ c = 98 \/ c = 66 \/ c = 111 \/ c = 79 -> small_digit 10 c = None /\ alnum c = true) as Hx by (by intros c [->|[->|[->|[->|[->| ->]]]]]).
  destruct ds as [|c ds]; [done|]. inversion Hds as [|? d ? vs' Hc Hds']; subst. cbn [app] in *.
  destruct (ds ++ r) as [|c' r'] eqn:E; [by repeat case_match|].
  assert (~ (c' = 120 \/ c' = 88 \/ c' = 98 \/ c' = 66 \/ c' = 111 \/ c' = 79)) as Hn.
  { intros Hc'. destruct (Hx c' Hc') as [Hc1 Hc2]. destruct ds as [|c2 ds]; cbn [app] in E.
    - subst r. unfold stop in Hr. cbn in Hr. congruence.
    - injection E as -> _. inversion Hds' as [|? d2 ? ? Hd2]; subst. congruence. }
  destruct (Z.eqb_spec c' 120), (Z.eqb_spec c' 88), (Z.eqb_spec c' 98), (Z.eqb_spec c' 66), (Z.eqb_spec c' 111), (Z.eqb_spec c' 79); try (exfalso; tauto).
  cbn [orb]. repeat case_match; done.
Qed.

(** The levels as one family, and their operators. *)
Definition ops (l : nat) : list Z -> option (binop * list Z) :=
  match l with 0 => or_op | 1 => xor_op | 2 => and_op | 3 => shift_op | 4 => add_op | _ => mul_op end%nat.
Definition unary_all (rec : list Z -> result) (s : list Z) : result := unary rec (S (length s)) s.
Definition at_level (rec : list Z -> result) (l : nat) : list Z -> result :=
  match l with
  | 0 => bit_or rec | 1 => bit_xor rec | 2 => bit_and rec | 3 => shift rec | 4 => add rec | 5 => mul rec
  | 6 => unary_all rec | _ => primary rec
  end%nat.

Lemma at_level_chain rec l : (l <= 5)%nat -> at_level rec l = chain (ops l) (at_level rec (S l)).
Proof. intros Hl. do 6 (destruct l as [|l]; [done|]). lia. Qed.

(** What follows does not continue an operand of level [l]. *)
Definition loose (l : nat) (r : list Z) : Prop := stop r /\ forall l', (l <= l' <= 5)%nat -> ops l' (skip r) = None.

Lemma loose_mono l l' r : loose l r -> (l <= l')%nat -> loose l' r.
Proof. intros [H1 H2] Hl. split; [done|]. intros k Hk. apply H2. lia. Qed.

Lemma op_token op : exists c cs, op_text op = c :: cs /\ is_space c = false /\ alnum c = false.
Proof. destruct op; by eexists _, _. Qed.

Lemma ops_own op r : ops (level op) (op_text op ++ r) = Some (op, r).
Proof. by destruct op. Qed.

Lemma ops_tighter op l r : (level op < l <= 5)%nat -> ops l (op_text op ++ r) = None.
Proof. intros Hl. destruct op; cbn [level] in Hl; do 6 (destruct l as [|l]; [done || lia|]); lia. Qed.

Lemma blank_stop sp c s : blank sp -> alnum c = false -> stop (sp ++ c :: s).
Proof.
  intros Hs Hc. unfold stop. destruct Hs as [|x sp Hx _]; [done|]. cbn. unfold is_space in Hx. apply orb_true_iff in Hx as [Hx|Hx]; apply Z.eqb_eq in Hx; by subst.
Qed.

Lemma loose_op sp op s : blank sp -> loose (S (level op)) (sp ++ op_text op ++ s).
Proof.
  intros Hs. destruct (op_token op) as (c & cs & E & E1 & E2). split.
  - rewrite E. cbn [app]. by apply blank_stop.
  - intros l Hl. rewrite skip_blank by done. rewrite E. cbn [app]. rewrite skip_token by done.
    change (c :: cs ++ s) with ((c :: cs) ++ s). rewrite <- E. apply ops_tighter. lia.
Qed.

(** The loop of a level stops where nothing of the level follows. *)
Lemma chain_loop_stop k l operand v r : (0 < k)%nat -> ops l (skip r) = None -> chain_loop k (ops l) operand v r = Val v (skip r).
Proof. intros Hk Hr. destruct k as [|k]; [lia|]. cbn [chain_loop]. by rewrite Hr. Qed.

Lemma chain_loop_skip k op_at operand v r : chain_loop k op_at operand v (skip r) = chain_loop k op_at operand v r.
Proof. destruct k as [|k]; [done|]. cbn [chain_loop]. by rewrite skip_idem. Qed.

Lemma text_nonempty l s e : text l s e -> s <> [].
Proof.
  induction 1 as [sp s v _ [base prefix digit ds vs _ Hne _ _]|sp s sp' e|sp u s e|l s e _ _ IH|s1 sp op s2 a b _ _ IH1 _ IH2]; [| | |done|];
    intros E; apply app_eq_nil in E as [E1 E2]; try done. by apply app_eq_nil in E2 as [_ ?].
Qed.

Lemma is_space_alnum c : alnum c = true -> is_space c = false.
Proof. intros H. unfold is_space. destruct (Z.eqb_spec c 32) as [->|]; [done|]. by destruct (Z.eqb_spec c 9) as [->|]. Qed.

Lemma literal_head s v : literal s v -> exists c q, s = c :: q /\ alnum c = true.
Proof.
  intros [base prefix digit ds vs Hin Hne Hds _]. destruct (bases_ok _ _ _ Hin) as [_ _ D3]. destruct prefix as [|p prefix].
  - destruct ds as [|c ds]; [done|]. inversion Hds as [|? d ? ? Hd]; subst. exists c, ds. split; [done|]. by destruct (D3 c d Hd).
  - exists p, (prefix ++ ds). split; [done|]. revert Hin. unfold bases. rewrite !elem_of_cons, elem_of_nil. intros Hin. decompose [or] Hin; simplify_eq; done.
Qed.

(** Literals and parentheses do not look like unary operators. *)
Lemma text7_head s e r : text 7 s e -> exists c q, skip (s ++ r) = c :: q /\ c <> 45 /\ c <> 126 /\ c <> 43.
Proof.
  intros H. inversion H as [sp s0 v Hsp Hl|sp s0 sp' e0 Hsp Hsp' Ht| |l s0 e0 Hlt|s1 sp op]; subst; [| |lia|destruct op; done].
  - rewrite <- app_assoc, skip_blank by done. destruct (literal_head _ _ Hl) as (c & q & -> & Hc). exists c, (q ++ r).
    cbn [app]. rewrite skip_token by (by apply is_space_alnum). split; [done|]. split_and!; by intros ->.
  - rewrite <- app_assoc, skip_blank by done. cbn [app]. rewrite skip_token by done. by eexists _, _.
Qed.

Lemma apply_value op v d : apply op v d = op_value op v d.
Proof.
  assert (Z.land d 63 = d mod 64) as Hm by (change 63 with (2 ^ 6 - 1); by rewrite land_ones_mod).
  assert (((v =? LONG_MIN) && (d =? -1)) = bool_decide (v = - 2 ^ 63 /\ d = -1)) as Ht.
  { change LONG_MIN with (- 2 ^ 63). destruct (Z.eqb_spec v (- 2 ^ 63)), (Z.eqb_spec d (-1)); case_bool_decide; (done || (exfalso; tauto)). }
  pose proof (Z.mod_pos_bound d 64 eq_refl). destruct op; cbv beta iota delta [apply op_value]; rewrite ?Hm, ?Ht; try reflexivity.
  - rewrite Z.shiftl_mul_pow2 by lia. done.
  - rewrite Z.shiftr_div_pow2 by lia. done.
  - destruct (Z.eqb_spec d 0); [by rewrite decide_True|]. rewrite (decide_False (P := d = 0)) by done. destruct (decide (v = _ /\ d = -1)); case_bool_decide; (done || lia).
  - destruct (Z.eqb_spec d 0); [by rewrite decide_True|]. rewrite (decide_False (P := d = 0)) by done. destruct (decide (v = _ /\ d = -1)); case_bool_decide; (done || lia).
Qed.

Definition finish (e : ast) (k : Z -> result) : result := match eval e with inl v => k v | inr x => x end.

(** The parser of level [l] on [s] followed by [r]: it has the value of [e]
    and, on a binary level, goes on with its loop. *)
Definition parses (n l : nat) (s : list Z) (e : ast) : Prop :=
  forall r, loose (S l) r ->
  if decide (l <= 5)%nat
  then exists k, (length (skip r) < k)%nat /\
         at_level (expr n) l (s ++ r) = finish e (fun v => chain_loop k (ops l) (at_level (expr n) (S l)) v r)
  else at_level (expr n) l (s ++ r) = finish e (fun v => Val v r).

(** An operand in front of something that does not continue it. *)
Lemma parses_operand n l s e r :
  (l <= 7)%nat -> parses n l s e -> loose l r -> exists r', at_level (expr n) l (s ++ r) = finish e (fun v => Val v r') /\ skip r' = skip r /\ (length r' <= length r)%nat.
Proof.
  intros Hl Hp Hr. specialize (Hp r (loose_mono l (S l) r Hr (Nat.le_succ_diag_r l))). destruct (decide (l <= 5)%nat).
  - destruct Hp as (k & Hk & E). exists (skip r). split; [|split; [apply skip_idem|apply skip_length]]. rewrite E. unfold finish. destruct (eval e); [|done].
    apply chain_loop_stop; [lia|]. apply Hr. lia.
  - by exists r.
Qed.

Lemma bind_finish e k f : (forall x, eval e = inr x -> bind x f = x) -> bind (finish e k) f = finish e (fun v => bind (k v) f).
Proof. unfold finish. destruct (eval e); [done|]. intros H. by apply H. Qed.

Definition failure (x : result) : Prop := match x with Err _ | Trap => True | _ => False end.

Lemma eval_failure e x : eval e = inr x -> failure x.
Proof.
  revert x. induction e as [v|u e IH|op a IHa b IHb]; intros x; cbn; [done| |].
  - destruct (eval e); [done|]. intros [= ->]. by apply IH.
  - destruct (eval a); [|intros [= ->]; by apply IHa]. destruct (eval b); [|intros [= ->]; by apply IHb].
    destruct op; cbn; ifs; by intros [= <-].
Qed.

Lemma bind_eval e k f : bind (finish e k) f = finish e (fun v => bind (k v) f).
Proof. apply bind_finish. intros x Hx. apply eval_failure in Hx. by destruct x. Qed.

Lemma finish_ext e k k' : (forall v, k v = k' v) -> finish e k = finish e k'.
Proof. intros H. unfold finish. by destruct (eval e). Qed.

(** From a level to the next looser one. *)
Lemma parses_up n l s e : (l <= 5)%nat -> parses n (S l) s e -> parses n l s e.
Proof.
  intros Hl Hp r Hr. rewrite decide_True by done. destruct (parses_operand n (S l) s e r ltac:(lia) Hp Hr) as (r' & E & Es & Elen).
  exists (S (length r')). split; [rewrite <- Es; pose proof (skip_length r'); lia|]. rewrite at_level_chain by done. unfold chain. rewrite E, bind_eval.
  apply finish_ext. intros v. cbn [bind]. rewrite <- chain_loop_skip, Es. apply chain_loop_skip.
Qed.

Lemma parses_unary n s e : text 7 s e -> parses n 7 s e -> parses n 6 s e.
Proof.
  intros Ht Hp r Hr. rewrite decide_False by lia. specialize (Hp r). rewrite decide_False in Hp by lia.
  change (at_level (expr n) 6 (s ++ r)) with (unary (expr n) (S (length (s ++ r))) (s ++ r)). cbn [unary].
  destruct (text7_head s e r Ht) as (c & q & E & N1 & N2 & N3). rewrite E.
  assert (primary (expr n) (c :: q) = finish e (fun v => Val v r)) as Hq.
  { rewrite <- E. assert (primary (expr n) (skip (s ++ r)) = primary (expr n) (s ++ r)) as -> by (unfold primary; by rewrite skip_idem).
    apply Hp. destruct Hr as [H1 _]. split; [done|]. intros l' Hl'. lia. }
  repeat case_match; done.
Qed.

Lemma parses_bin n s1 sp op s2 a b :
  blank sp -> text (S (level op)) s2 b -> parses n (level op) s1 a -> parses n (S (level op)) s2 b -> parses n (level op) (s1 ++ sp ++ op_text op ++ s2) (Bin op a b).
Proof.
  intros Hs Ht2 H1 H2 r Hr. set (l := level op) in *. assert (l <= 5)%nat as Hl by (unfold l; destruct op; cbn; lia). rewrite decide_True by done.
  specialize (H1 (sp ++ op_text op ++ s2 ++ r) (loose_op _ _ _ Hs)). rewrite decide_True in H1 by done. destruct H1 as (k & Hk & E1).
  destruct (parses_operand n (S l) s2 b r ltac:(lia) H2 Hr) as (r' & E2 & Es & Elen).
  destruct (op_token op) as (c & cs & Eo & Ec & _).
  assert (Hskip : skip (sp ++ op_text op ++ s2 ++ r) = op_text op ++ s2 ++ r) by (rewrite skip_blank by done; rewrite Eo; by apply skip_token).
  rewrite Hskip, Eo, length_app in Hk. cbn [length] in Hk. destruct k as [|k]; [lia|]. exists k.
  assert (0 < length s2)%nat by (pose proof (text_nonempty _ _ _ Ht2); destruct s2; [done|cbn; lia]). rewrite !length_app in Hk.
  split; [pose proof (skip_length r); lia|]. rewrite <- !app_assoc, E1. unfold finish at 1. unfold finish. cbn [eval]. destruct (eval a) as [v|]; [|done].
  cbn [chain_loop]. rewrite Hskip. unfold l. rewrite ops_own. fold l. rewrite E2, bind_eval. unfold finish. destruct (eval b) as [w|]; [|done]. cbn [bind].
  rewrite <- apply_value. destruct (apply op v w) as [x|]; [|done]. rewrite <- chain_loop_skip, Es. apply chain_loop_skip.
Qed.

Lemma unary_fuel rec f g s : (length s < f)%nat -> (length s < g)%nat -> unary rec f s = unary rec g s.
Proof.
  revert g s. induction f as [|f IH]; intros g s Hf Hg; [lia|]. destruct g as [|g]; [lia|]. cbn [unary]. pose proof (skip_length s) as Hk.
  destruct (skip s) as [|c t]; [done|]. cbn in Hk. rewrite (IH g t) by lia. done.
Qed.

Lemma parses_num n sp s v : blank sp -> literal s v -> parses n 7 (sp ++ s) (Num v).
Proof.
  intros Hs Hl r [Hr _]. rewrite decide_False by lia. change (primary (expr n) ((sp ++ s) ++ r) = Val v r). unfold primary. rewrite <- app_assoc, skip_blank by done.
  pose proof (number_at_literal s v r Hl Hr) as E. destruct (literal_head s v Hl) as (c & q & -> & Hc). cbn [app] in *.
  rewrite skip_token by (by apply is_space_alnum).
  assert (parse_num (c :: q ++ r) = Val v r) as Hp by (unfold parse_num; rewrite skip_token by (by apply is_space_alnum); by rewrite E).
  repeat case_match; subst; done.
Qed.

Lemma parses_paren n sp s sp' e : blank sp -> blank sp' -> parses n 0 s e -> parses (S n) 7 (sp ++ 40 :: s ++ sp' ++ [41]) e.
Proof.
  intros Hs Hs' Hp r Hr. rewrite decide_False by lia. set (x := (sp ++ _) ++ r).
  assert (skip x = 40 :: s ++ sp' ++ 41 :: r) as Ex by (unfold x; rewrite <- app_assoc, skip_blank by done; cbn [app]; rewrite skip_token by done; by rewrite <- !app_assoc).
  change (primary (expr (S n)) x = finish e (fun v => Val v r)). unfold primary. rewrite Ex. cbn [expr].
  assert (Hk : skip (sp' ++ 41 :: r) = 41 :: r) by (rewrite skip_blank by done; by apply skip_token).
  destruct (parses_operand n 0 s e (sp' ++ 41 :: r) ltac:(lia) Hp) as (r' & E & Es & _).
  { split; [by apply blank_stop|]. intros l Hl. rewrite Hk. do 6 (destruct l as [|l]; [done|]). lia. }
  change (bit_or (expr n)) with (at_level (expr n) 0). rewrite E, bind_eval. apply finish_ext. intros v. cbn [bind]. by rewrite Es, Hk.
Qed.

Lemma parses_un n sp u s e : blank sp -> parses n 6 s e -> parses n 6 (sp ++ un_char u :: s) (Un u e).
Proof.
  intros Hs Hp r Hr. specialize (Hp r Hr). rewrite decide_False in * by lia. set (x := (sp ++ _) ++ r).
  change (unary (expr n) (S (length x)) x = finish (Un u e) (fun v => Val v r)). change (unary (expr n) (S (length (s ++ r))) (s ++ r) = finish e (fun v => Val v r)) in Hp.
  assert (skip x = un_char u :: s ++ r) as Ex by (unfold x; rewrite <- app_assoc, skip_blank by done; by destruct u).
  assert (length (s ++ r) < length x)%nat as Hlen by (pose proof (skip_length x); rewrite Ex in *; cbn in *; lia).
  cbn [unary]. rewrite Ex. rewrite (unary_fuel _ (length x) (S (length (s ++ r)))) by lia. rewrite Hp. unfold finish. cbn [eval].
  destruct u; cbn [un_char apply_un]; destruct (eval e) eqn:Ev; try done; apply eval_failure in Ev; by destruct r0.
Qed.

Lemma text_parses l s e : text l s e -> forall n, (length s <= n)%nat -> parses n l s e.
Proof.
  induction 1 as [sp s v Hs Hl|sp s sp' e Hs Hs' _ IH|sp u s e Hs _ IH|l s e Hl Ht IH|s1 sp op s2 a b Hs Ht1 IH1 Ht2 IH2]; intros n Hn.
  - by apply parses_num.
  - rewrite !length_app in Hn. cbn [length] in Hn. rewrite !length_app in Hn. destruct n as [|n]; [lia|]. apply parses_paren; [done|done|apply IH; lia].
  - apply parses_un; [done|]. apply IH. rewrite length_app in Hn. cbn in Hn. lia.
  - destruct (decide (l <= 5)%nat); [by apply parses_up, IH|]. assert (l = 6%nat) as -> by lia. apply parses_unary; [done|by apply IH].
  - rewrite !length_app in Hn. apply parses_bin; [done|done|apply IH1; lia|apply IH2; lia].
Qed.

(** C19: calc computes expressions.  On every text of the documented language
    (bitwise, shift, additive and multiplicative operators, each level
    binding tighter than the one before and grouping to the left, unary
    operators, literals in four bases, parentheses, blanks anywhere) it
    prints the value of the expression with wrapping 64-bit arithmetic, or
    the message for the first division by zero. *)
Theorem calc_correct line e :
  text 0 line e ->
  calc_line line = match eval e with
                   | inl v => (0, print_num v ++ [10])
                   | inr (Err m) => (1, bs "calc: " ++ m ++ [10])
                   | inr _ => (-1, [])
                   end.
Proof.
  intros Ht. unfold calc_line. cbn [expr].
  destruct (parses_operand (length line) 0 line e [] ltac:(lia) (text_parses 0 line e Ht _ (le_n _))) as (r' & E & _).
  { split; [done|]. intros l Hl. do 6 (destruct l as [|l]; [done|]). lia. }
  rewrite app_nil_r in E. change (bit_or (expr (length line))) with (at_level (expr (length line)) 0). rewrite E. unfold finish. destruct (eval e) as [v|x] eqn:Ev; [done|].
  apply eval_failure in Ev. by destruct x.
Qed.

(** 2*(3 + 0x4) *)
Lemma calc_correct_witness : calc_line (bs "2*(3 + 0x4)") = (0, bs "14" ++ [10]).
Proof.
  assert (L : forall c, c ∈ [2; 3] -> literal [48 + c] c).
  { intros c Hc. apply (lit 10 [] (small_digit 10) [48 + c] [c]); [by left|done| |]; rewrite !elem_of_cons, elem_of_nil in Hc; destruct Hc as [->|[->|[]]]; by repeat constructor. }
  assert (L4 : literal (bs "0x4") 4) by (apply (lit 16 [48; 120] hex_digit [52] [4]); [by right; left|done|by repeat constructor|done]).
  assert (T2 : text 5 (bs "2") (Num 2)).
  { do 2 (apply t_up; [lia|]). apply (t_num [] [50] 2); [constructor|]. apply (L 2). by left. }
  assert (T3 : text 4 (bs "3") (Num 3)).
  { do 3 (apply t_up; [lia|]). apply (t_num [] [51] 3); [constructor|]. apply (L 3). by right; left. }
  assert (T4 : text 5 (bs " 0x4") (Num 4)).
  { do 2 (apply t_up; [lia|]). apply (t_num [32] (bs "0x4") 4); [by repeat constructor|done]. }
  assert (TP : text 6 (bs "(3 + 0x4)") (Bin OAdd (Num 3) (Num 4))).
  { apply t_up; [lia|]. apply (t_paren [] (bs "3 + 0x4") []); [constructor..|]. do 4 (apply t_up; [lia|]).
    apply (t_bin (bs "3") [32] OAdd (bs " 0x4")); [by repeat constructor|done|done]. }
  rewrite (calc_correct (bs "2*(3 + 0x4)") (Bin OMul (Num 2) (Bin OAdd (Num 3) (Num 4)))); [reflexivity|].
  do 5 (apply t_up; [lia|]). apply (t_bin (bs "2") [] OMul (bs "(3 + 0x4)")); [constructor|done|done].
Defined.
