(* ===== verification/Sh.v ===== *)
(** * The shell (userspace/sh.c)

    Line editing and parsing are functions on text: an argument is its
    characters, the place where the source writes a terminator is where the
    text ends.  Commands are programs over the system calls ([prog]); a call
    of [fork] continues with the child's pid in the parent and with 0 in the
    child.  [run] executes a program over a table of descriptors and collects
    the children. *)
From S2P Require Import Prelude Task SysSig Libc.

Definition LINE_MAX_LEN : Z := 256.
Definition MAX_ARGS : nat := 16.
Definition MAX_STAGES : nat := 4.

(** [r_type] is 0: none, 1: [>], 2: [>>], 3: [<]. *)
Record redirect := mkRedirect { r_file : list Z; r_type : Z }.
Definition no_redirect : redirect := mkRedirect [] 0.
Record stage := mkStage { s_argv : list (list Z); redir_in : redirect; redir_out : redirect }.

(** ** Line editing *)

(** A byte as a [char]. *)
Definition as_char (c : Z) : Z := if c <? 128 then c else c - 256.

(** The line, what is left of the input, and the output; [None] when the
    input has no end of line. *)
Fixpoint readline (max : Z) (buf input : list Z) : option (list Z * list Z * list Z) :=
  match input with
  | [] => None
  | b :: rest =>
      let c := as_char b in
      if c =? 10 then Some (buf, rest, [])
      else if (c =? 8) || (c =? 127) then
        match buf with
        | [] => readline max buf rest
        | _ => match readline max (take (length buf - 1) buf) rest with
               | Some (l, r, out) => Some (l, r, [8; 32; 8] ++ out)
               | None => None
               end
        end
      else if c =? 13 then readline max buf rest
      else if c <? 32 then readline max buf rest
      else readline max (if zlen buf + 1 <? max then buf ++ [b] else buf) rest
  end.

(** ** Parsing *)

Definition blank (c : Z) : bool := (c =? 32) || (c =? 9).
Fixpoint skip_blanks (s : list Z) : list Z :=
  match s with
  | c :: r => if blank c then skip_blanks r else s
  | [] => []
  end.
Fixpoint take_word (s : list Z) : list Z * list Z :=
  match s with
  | c :: r => if blank c then ([], s) else let '(w, rest) := take_word r in (c :: w, rest)
  | [] => ([], [])
  end.

(** The arguments, [n] at most. *)
Fixpoint tokens (n : nat) (s : list Z) : list (list Z) :=
  match n with
  | O => []
  | S n' => match skip_blanks s with
            | [] => []
            | s => let '(w, rest) := take_word s in w :: tokens n' (tl rest)
            end
  end.
Definition tokenize (s : list Z) (max_argc : nat) : list (list Z) := tokens (max_argc - 1) s.

(** The loop of [parse_redirects]; [out] are the arguments kept. *)
Fixpoint redirects (argv out : list (list Z)) (rin rout : redirect) : stage :=
  match argv with
  | [] => mkStage out rin rout
  | a :: rest =>
      match rest with
      | f :: rest' =>
          if bool_decide (a = bs ">") then redirects rest' out rin (mkRedirect f 1)
          else if bool_decide (a = bs ">>") then redirects rest' out rin (mkRedirect f 2)
          else if bool_decide (a = bs "<") then redirects rest' out (mkRedirect f 3) rout
          else redirects rest (out ++ [a]) rin rout
      | [] => redirects rest (out ++ [a]) rin rout
      end
  end.
Definition parse_redirects (argv : list (list Z)) : stage := redirects argv [] no_redirect no_redirect.

(** The stage that begins here, and the following ones; [n] more may begin. *)
Fixpoint split_from (n : nat) (p : list Z) : list (list Z) :=
  match n with
  | O => [p]
  | S n' =>
      (fix go (p : list Z) : list (list Z) :=
         match p with
         | [] => [[]]
         | c :: r => if c =? 124 then [] :: split_from n' r else match go r with h :: t => (c :: h) :: t | [] => [[c]] end
         end) p
  end.
Definition split_pipeline (line : list Z) : list (list Z) := split_from (MAX_STAGES - 1) line.

(** A decimal number, in an [int]. *)
Fixpoint atoi_loop (v : Z) (s : list Z) : Z :=
  match s with
  | c :: r => if (48 <=? c) && (c <=? 57) then atoi_loop (s32 (v * 10 + (c - 48))) r else v
  | [] => v
  end.
Definition atoi_stub (s : list Z) : Z :=
  match s with
  | 45 :: r => s32 (- atoi_loop 0 r)
  | _ => atoi_loop 0 s
  end.

(** ** Programs *)

Inductive call :=
| Print (s : list Z)
| Open (file : list Z) | OpenCreate (file : list Z) | OpenAppend (file : list Z)
| Dup2 (oldfd newfd : Z) | Close (fd : Z)
| Fork | Execve (path : list Z) (argv : list (list Z)) | Waitpid (pid : Z)
| Setpgid (pid pgid : Z) | Getpgid (pid : Z) | Tcsetpgrp (pgid : Z)
| Kill (pid sig : Z) | Signal (sig handler : Z)
| Getpid | Getppid | Getuid | Setuid (uid : Z) | RudoRequest (op : Z).

(** [DoPipe] passes the result of [pipe] and the two descriptors; [Smash] is
    a write past the end of a buffer. *)
Inductive prog (A : Type) : Type :=
| Ret (a : A)
| Exit (status : Z)
| Smash
| Do (c : call) (k : Z -> prog A)
| DoPipe (k : Z -> Z -> Z -> prog A).
Arguments Ret {A} a.
Arguments Exit {A} status.
Arguments Smash {A}.
Arguments Do {A} c k.
Arguments DoPipe {A} k.

#[global] Instance prog_ret : MRet prog := @Ret.
#[global] Instance prog_bind : MBind prog := fun A B f => fix go m :=
  match m with
  | Ret a => f a
  | Exit st => Exit st
  | Smash => Smash
  | Do c k => Do c (fun r => go (k r))
  | DoPipe k => DoPipe (fun r a b => go (k r a b))
  end.

Definition sys (c : call) : prog Z := Do c Ret.
Definition print (s : list Z) : prog unit := Do (Print s) (fun _ => Ret tt).
Definition cannot (what file : list Z) : prog unit :=
  print (bs "sh: cannot " ++ what ++ bs " ");; print file;; print [10];; Exit 1.
Definition move_fd (fd target : Z) : prog unit := sys (Dup2 fd target);; sys (Close fd);; mret tt.

Definition apply_redirects (st : stage) : prog unit :=
  (if r_type (redir_in st) =? 3 then
     fd ← sys (Open (r_file (redir_in st)));
     if fd <? 0 then cannot (bs "open") (r_file (redir_in st)) else move_fd fd 0
   else mret tt);;
  (if r_type (redir_out st) =? 1 then
     fd ← sys (OpenCreate (r_file (redir_out st)));
     if fd <? 0 then cannot (bs "create") (r_file (redir_out st)) else move_fd fd 1
   else mret tt);;
  (if r_type (redir_out st) =? 2 then
     fd ← sys (OpenAppend (r_file (redir_out st)));
     if fd <? 0 then cannot (bs "open") (r_file (redir_out st)) else move_fd fd 1
   else mret tt).

(** The path tried for a command. *)
Definition command_path (cmd : list Z) : list Z := if hd 0 cmd =? 47 then cmd else bs "/bin/" ++ cmd.

Definition exec_external (st : stage) : prog bool :=
  apply_redirects st;;
  let cmd := hd [] (s_argv st) in
  if negb (hd 0 cmd =? 47) && (LINE_MAX_LEN <? 5 + zlen cmd + 1) then Smash
  else
    sys (Execve (command_path cmd) (s_argv st));;
    print (bs "sh: command not found: ");; print cmd;; print [10];; Exit 127.

(** ** Built-in commands *)

Definition esc (s : string) : list Z := 27 :: bs s.
Definition help_text : list (list Z) :=
  [esc "[1;92mMMix commands" ++ esc "[0m" ++ [10];
   esc "[90m-------------------------------------------------------------------------" ++ esc "[0m" ++ [10];
   esc "[1;96msystem" ++ esc "[0m  fetch  free  date  uptime  ps     clear   reboot" ++ [10];
   esc "[1;96mfiles" ++ esc "[0m   cat    ls    wc    grep    pipes  echo >  echo >>  cmd < file" ++ [10];
   esc "[1;96mshell" ++ esc "[0m   pid  ppid  whoami  id  kill <pid> <sig>   sleep <s>   exit" ++ [10];
   esc "[1;96mutil" ++ esc "[0m    calc  base64  sha256  echo  pwd" ++ [10];
   esc "[1;96mnetwork" ++ esc "[0m netinfo  ping <IPv4> (static QEMU network)" ++ [10];
   esc "[1;96mpriv" ++ esc "[0m    root   rudo <cmd>   panic   (privilege escalation)" ++ [10];
   esc "[1;96mgraphics" ++ esc "[0m gfx" ++ [10];
   esc "[1;96mdemo" ++ esc "[0m     busy" ++ [10];
   esc "[90m-------------------------------------------------------------------------" ++ esc "[0m" ++ [10];
   bs "try: " ++ esc "[1;33mcat /etc/unit.conf | grep exec | wc -l" ++ esc "[0m" ++ [10]].

Fixpoint print_all (l : list (list Z)) : prog unit :=
  match l with
  | [] => mret tt
  | s :: r => print s;; print_all r
  end.

Fixpoint echo_args (args : list (list Z)) : prog unit :=
  match args with
  | [] => mret tt
  | a :: rest => print a;; (match rest with [] => mret tt | _ => print [32] end);; echo_args rest
  end.

Definition run_rudo (args : list (list Z)) : prog bool :=
  match args with
  | [] => print (bs "usage: rudo <command>" ++ [10]);; mret true
  | cmd :: _ =>
      let st := mkStage (take (MAX_ARGS - 1) args) no_redirect no_redirect in
      uid ← sys Getuid;
      if uid =? 0 then exec_external st
      else
        print (bs "requesting root for: ");; print cmd;; print [10];;
        pid ← sys Fork;
        if pid =? 0 then
          rc ← sys (RudoRequest RUDO_OP_SETUID);
          if negb (rc =? 0) then print (esc "[1;91mrudo: access denied" ++ esc "[0m" ++ [10]);; Exit 1
          else exec_external st
        else
          sys (Waitpid (s32 pid));;
          mret true
  end.

(** Whether the command is one of the shell's own; the callers have checked
    that there is a command. *)
Definition run_builtin (argv : list (list Z)) : prog bool :=
  let cmd := hd [] argv in
  let args := tl argv in
  if bool_decide (cmd = bs "exit") then Exit 0
  else if bool_decide (cmd = bs "help") then print_all help_text;; mret true
  else if bool_decide (cmd = bs "echo") then echo_args args;; print [10];; mret true
  else if bool_decide (cmd = bs "pid") then
    print (bs "pid: ");; pid ← sys Getpid; print (print_num pid);;
    print (bs " ppid: ");; ppid ← sys Getppid; print (print_num ppid);; print [10];; mret true
  else if bool_decide (cmd = bs "ppid") then ppid ← sys Getppid; print (print_num ppid);; print [10];; mret true
  else if bool_decide (cmd = bs "kill") && (2 <=? zlen args) then
    sys (Kill (atoi_stub (nth 0 args [])) (atoi_stub (nth 1 args [])));; mret true
  else if bool_decide (cmd = bs "whoami") then
    uid ← sys Getuid;
    (if uid =? 0 then print (bs "root" ++ [10]) else print (bs "user(");; print (print_num uid);; print (bs ")" ++ [10]));; mret true
  else if bool_decide (cmd = bs "id") then
    uid ← sys Getuid; gid ← sys (Getpgid 0);
    print (bs "uid=");; print (print_num uid);; print (bs " gid=");; print (print_num gid);;
    (if uid =? 0 then print (bs " (root)") else mret tt);; print [10];; mret true
  else if bool_decide (cmd = bs "root") then
    uid ← sys Getuid;
    if uid =? 0 then print (bs "already root" ++ [10]);; mret true
    else
      print (bs "requesting root access..." ++ [10]);;
      rc ← sys (RudoRequest RUDO_OP_SETUID);
      (if rc =? 0 then print (esc "[1;92mYou are now root." ++ esc "[0m" ++ [10])
       else print (esc "[1;91mAccess denied." ++ esc "[0m" ++ [10]));; mret true
  else if bool_decide (cmd = bs "rudo") then run_rudo args
  else mret false.

(** ** Pipelines *)

(** What a child does once its ends of the pipes are in place. *)
Definition stage_main (st : stage) : prog unit :=
  match s_argv st with
  | [] => Exit 0
  | argv =>
      apply_redirects st;;
      b ← run_builtin argv;
      if b : bool then Exit 0 else exec_external st;; mret tt
  end.

(** The loop over [pipe]; [None] when a call fails. *)
Fixpoint make_pipes (n : nat) : prog (option (list (Z * Z))) :=
  match n with
  | O => mret (Some [])
  | S n' =>
      DoPipe (fun r a b =>
        if negb (r =? 0) then print (bs "sh: pipe failed" ++ [10]);; mret None
        else rest ← make_pipes n'; Ret (option_map (cons (a, b)) rest))
  end.

Fixpoint close_all (pipes : list (Z * Z)) : prog unit :=
  match pipes with
  | [] => mret tt
  | p :: rest => sys (Close p.1);; sys (Close p.2);; close_all rest
  end.

Definition pipe_at (pipes : list (Z * Z)) (i : nat) : Z * Z := nth i pipes (0, 0).

(** Child [i] of [n]. *)
Definition child (body : stage -> prog unit) (pipes : list (Z * Z)) (n i : nat) (st : stage) : prog unit :=
  sys (Setpgid 0 0);;
  (if (0 <? i)%nat then sys (Dup2 (pipe_at pipes (i - 1)).1 0) else mret 0);;
  (if (i <? n - 1)%nat then sys (Dup2 (pipe_at pipes i).2 1) else mret 0);;
  close_all pipes;;
  body st.

(** The loop over [fork], from stage [i] on; the pids. *)
Fixpoint spawn (body : stage -> prog unit) (pipes : list (Z * Z)) (n i : nat) (sts : list stage) : prog (list Z) :=
  match sts with
  | [] => mret []
  | st :: rest =>
      pid ← sys Fork;
      if pid =? 0 then child body pipes n i st;; mret []
      else sys (Setpgid (s32 pid) (s32 pid));; pids ← spawn body pipes n (S i) rest; mret (s32 pid :: pids)
  end.

Fixpoint wait_all (pids : list Z) : prog unit :=
  match pids with
  | [] => mret tt
  | p :: rest => sys (Waitpid p);; wait_all rest
  end.

Definition run_stages (body : stage -> prog unit) (sts : list stage) : prog unit :=
  let n := length sts in
  ps ← make_pipes (n - 1);
  match ps with
  | None => mret tt
  | Some pipes =>
      pids ← spawn body pipes n 0 sts;
      sys (Tcsetpgrp (nth (n - 1) pids 0));;
      close_all pipes;;
      wait_all pids;;
      g ← sys (Getpgid 0);
      sys (Tcsetpgrp g);;
      mret tt
  end.

Definition parse_line (line : list Z) : list stage :=
  (fun raw => parse_redirects (tokenize raw MAX_ARGS)) <$> split_pipeline line.

Definition run_pipeline (line : list Z) : prog unit :=
  let sts := parse_line line in
  match sts with
  | [st] =>
      match s_argv st with
      | [] => mret tt
      | argv =>
          if (r_type (redir_in st) =? 0) && (r_type (redir_out st) =? 0)
          then b ← run_builtin argv; if b : bool then mret tt else run_stages stage_main sts
          else run_stages stage_main sts
      end
  | _ => run_stages stage_main sts
  end.

Definition shell_start : prog unit :=
  sys (Signal SIGINT SIG_IGN);; sys (Setpgid 0 0);; g ← sys (Getpgid 0); sys (Tcsetpgrp g);; sys (Setuid 1000);;
  print ([10] ++ esc "[1;36mMMix 0.6.0" ++ esc "[0m shell. Type " ++ esc "[1;32mhelp" ++ esc "[0m for commands." ++ [10]).

(** One turn of the loop of [main], and what is left of the input. *)
Definition shell_turn (input : list Z) : option (prog unit * list Z) :=
  match readline LINE_MAX_LEN [] input with
  | None => None
  | Some (line, rest, out) =>
      Some (print (esc "[1;35m$" ++ esc "[0m ");; print out;; (if bool_decide (line = []) then mret tt else run_pipeline line), rest)
  end.
