(* ===== verification/ShSpec.v ===== *)
(** * What the shell does

    Parsing gives back the words, redirections and stages of a command line;
    a pipeline connects its stages: each child runs with the ends of its own
    pipes as descriptors 0 and 1 and with no other end open, and the shell
    itself has none left when it waits. *)
From Stdlib Require Import FunctionalExtensionality.
From S2P Require Import Prelude Libc Sh.

(** ** Programs *)

Lemma bind_assoc {A B C} (m : prog A) (f : A -> prog B) (g : B -> prog C) : (m ≫= f) ≫= g = m ≫= (fun x => f x ≫= g).
Proof.
  induction m as [a|st| |c k IH|k IH]; [done..| |].
  - change (Do c (fun r => (k r ≫= f) ≫= g) = Do c (fun r => k r ≫= (fun x => f x ≫= g))). f_equal. apply functional_extensionality. exact IH.
  - change (DoPipe (fun r a b => (k r a b ≫= f) ≫= g) = DoPipe (fun r a b => k r a b ≫= (fun x => f x ≫= g))). f_equal.
    do 3 (apply functional_extensionality; intros). apply IH.
Qed.

(** The program never returns to its caller. *)
Fixpoint noret {A} (p : prog A) : Prop :=
  match p with
  | Ret _ => False
  | Exit _ | Smash => True
  | Do _ k => forall r, noret (k r)
  | DoPipe k => forall r a b, noret (k r a b)
  end.

Lemma noret_absorb (p : prog unit) f : noret p -> p ≫= f = p.
Proof.
  induction p as [a|st| |c k IH|k IH]; intros Hp; [done..| |].
  - change (Do c (fun r => k r ≫= f) = Do c k). f_equal. apply functional_extensionality. auto.
  - change (DoPipe (fun r a b => k r a b ≫= f) = DoPipe k). f_equal. do 3 (apply functional_extensionality; intros). apply IH, Hp.
Qed.

Lemma noret_bind_l {A B} (m : prog A) (f : A -> prog B) : noret m -> noret (m ≫= f).
Proof. induction m as [a|st| |c k IH|k IH]; intros Hp; [done|done|done| |]; [intros r; apply IH, Hp|intros r x y; apply IH, Hp]. Qed.

Lemma noret_bind_r {A B} (m : prog A) (f : A -> prog B) : (forall x, noret (f x)) -> noret (m ≫= f).
Proof. intros Hf. induction m as [a|st| |c k IH|k IH]; [apply Hf|done|done| |]; [intros r; apply IH|intros r x y; apply IH]. Qed.

Lemma exec_external_noret st : noret (exec_external st).
Proof. apply noret_bind_r. intros _. cbv zeta. destruct (negb _ && _); [done|]. cbn. auto. Qed.

Lemma stage_main_noret st : noret (stage_main st).
Proof.
  unfold stage_main. destruct (s_argv st) as [|a l]; [done|]. apply noret_bind_r. intros _. apply noret_bind_r.
  intros [|]; [done|]. apply noret_bind_l, exec_external_noret.
Qed.

(** ** Execution

    A process's descriptors are a map from numbers to what they refer to. *)
Inductive handle := HFile (file : list Z) (append : bool) | HRead (p : nat) | HWrite (p : nat) | HOther (x : Z).
Record kid := mkKid { k_pid : Z; k_fds : gmap Z handle; k_prog : prog unit }.

(** [w_pipes] pipes were made so far; the next child gets [w_pid]; [w_log]
    are the calls that change neither. *)
Record world := mkWorld { w_fds : gmap Z handle; w_pipes : nat; w_pid : Z; w_kids : list kid; w_log : list call }.
Definition set_fds (t : gmap Z handle) (w : world) : world := mkWorld t (w_pipes w) (w_pid w) (w_kids w) (w_log w).
Definition logged (c : call) (w : world) : world := mkWorld (w_fds w) (w_pipes w) (w_pid w) (w_kids w) (w_log w ++ [c]).
Definition forked (k : kid) (w : world) : world := mkWorld (w_fds w) (w_pipes w) (w_pid w + 1) (w_kids w ++ [k]) (w_log w).

Inductive ending := Returned | Exited (status : Z) | Execed (path : list Z) (argv : list (list Z)) | Smashed.

Definition SHELL_MAX_FDS : Z := 16.
Definition free_fd (t : gmap Z handle) : option Z := List.find (fun fd => bool_decide (t !! fd = None)) (seqZ 0 SHELL_MAX_FDS).

Section Run.
(** Which files open, which programs exist, and the other answers. *)
Variables (can_open : call -> bool) (runnable : list Z -> bool) (reply : call -> Z).

Definition opened (c : call) (h : handle) (w : world) : Z * world :=
  if can_open c then match free_fd (w_fds w) with Some fd => (fd, set_fds (<[fd:=h]> (w_fds w)) w) | None => (-1, w) end else (-1, w).

Definition do_dup (a b : Z) (w : world) : Z * world :=
  match w_fds w !! a with
  | None => (-1, w)
  | Some h =>
      if (b <? 0) || (SHELL_MAX_FDS <=? b) then (-1, w)
      else if a =? b then (b, w)
      else (b, set_fds (<[b:=h]> (w_fds w)) w)
  end.

Definition do_close (fd : Z) (w : world) : Z * world :=
  match w_fds w !! fd with None => (-1, w) | Some _ => (0, set_fds (delete fd (w_fds w)) w) end.

(** The two lowest free descriptors. *)
Definition do_pipe (w : world) : Z * Z * Z * world :=
  let n := w_pipes w in
  match free_fd (w_fds w) with
  | None => (-1, 0, 0, w)
  | Some a =>
      let t := <[a:=HRead n]> (w_fds w) in
      match free_fd t with
      | None => (-1, 0, 0, w)
      | Some b => (0, a, b, mkWorld (<[b:=HWrite n]> t) (S n) (w_pid w) (w_kids w) (w_log w))
      end
  end.

Fixpoint run (p : prog unit) (w : world) : ending * world :=
  match p with
  | Ret _ => (Returned, w)
  | Exit st => (Exited st, w)
  | Smash => (Smashed, w)
  | DoPipe k => let '(r, a, b, w) := do_pipe w in run (k r a b) w
  | Do c k =>
      match c with
      | Open f => let '(r, w) := opened c (HFile f false) w in run (k r) w
      | OpenCreate f => let '(r, w) := opened c (HFile f false) w in run (k r) w
      | OpenAppend f => let '(r, w) := opened c (HFile f true) w in run (k r) w
      | Dup2 a b => let '(r, w) := do_dup a b w in run (k r) w
      | Close fd => let '(r, w) := do_close fd w in run (k r) w
      | Fork => run (k (w_pid w)) (forked (mkKid (w_pid w) (w_fds w) (k 0)) w)
      | Execve path argv => if runnable path then (Execed path argv, w) else run (k (-1)) w
      | _ => run (k (reply c)) (logged c w)
      end
  end.

(** A child starts with its copy of the descriptors. *)
Definition kid_world (k : kid) (pipes : nat) : world := mkWorld (k_fds k) pipes (k_pid k + 1) [] [].

(** ** Wiring *)

Variables (h0 h1 h2 : handle).
Definition std_fds (a b : handle) : gmap Z handle := {[ 0 := a; 1 := b; 2 := h2 ]}.

(** The descriptors of child [i] of [n]; pipe [j + p] joins stages [j] and [j + 1]. *)
Definition stage_fds (p n i : nat) : gmap Z handle :=
  std_fds (if (0 <? i)%nat then HRead (i - 1 + p) else h0) (if (i <? n - 1)%nat then HWrite (i + p) else h1).

(** The shell's pipes from the [j]th on, and its descriptors with [n] open. *)
Definition pipe_fds (j n : nat) : list (Z * Z) := (fun i => (3 + 2 * Z.of_nat i, 4 + 2 * Z.of_nat i)) <$> seq j n.
Definition with_pipes (p n : nat) : gmap Z handle :=
  foldl (fun t j => <[4 + 2 * Z.of_nat j := HWrite (j + p)]> (<[3 + 2 * Z.of_nat j := HRead (j + p)]> t)) (std_fds h0 h1) (seq 0 n).

Lemma free_fd_pipes p n : (n <= 3)%nat ->
  free_fd (with_pipes p n) = Some (3 + 2 * Z.of_nat n) /\ free_fd (<[3 + 2 * Z.of_nat n := HRead (n + p)]> (with_pipes p n)) = Some (4 + 2 * Z.of_nat n).
Proof. intros Hn. destruct n as [|[|[|[|n]]]]; [..|lia]; by vm_compute. Qed.

Lemma do_pipe_runs p n pid kids log : (n <= 2)%nat ->
  do_pipe (mkWorld (with_pipes p n) (n + p) pid kids log) =
  (0, 3 + 2 * Z.of_nat n, 4 + 2 * Z.of_nat n, mkWorld (with_pipes p (S n)) (S n + p) pid kids log).
Proof.
  intros Hn. unfold do_pipe. cbn [w_fds w_pipes w_pid w_kids w_log]. destruct (free_fd_pipes p n ltac:(lia)) as [-> ->].
  unfold with_pipes at 2. by rewrite seq_S, foldl_app.
Qed.

Lemma make_pipes_runs m : forall j (k : option (list (Z * Z)) -> prog unit) p pid kids log, (j + m <= 3)%nat ->
  run (make_pipes m ≫= k) (mkWorld (with_pipes p j) (j + p) pid kids log) =
  run (k (Some (pipe_fds j m))) (mkWorld (with_pipes p (j + m)) (j + m + p) pid kids log).
Proof.
  induction m as [|m IH]; intros j k p pid kids log Hm; [by rewrite !Nat.add_0_r|]. cbn [make_pipes].
  change (run (DoPipe ?g ≫= k) ?w) with (let '(r, a, b, w') := do_pipe w in run (g r a b ≫= k) w'). rewrite do_pipe_runs by lia. cbn [Z.eqb negb].
  rewrite bind_assoc, (IH (S j)) by lia. rewrite <- Nat.add_succ_comm. reflexivity.
Qed.

Definition close_fds (pipes : list (Z * Z)) (t : gmap Z handle) : gmap Z handle := foldl (fun t p => delete p.2 (delete p.1 t)) t pipes.

Lemma run_close fd k w : run (Do (Close fd) k) w = run (k (do_close fd w).1) (set_fds (delete fd (w_fds w)) w).
Proof.
  cbn [run]. unfold do_close. destruct (w_fds w !! fd) eqn:E; [done|]. cbn [fst]. f_equal. rewrite delete_id by done. by destruct w.
Qed.

Lemma close_all_runs pipes (k : unit -> prog unit) w :
  run (close_all pipes ≫= k) w = run (k tt) (set_fds (close_fds pipes (w_fds w)) w).
Proof.
  revert w. induction pipes as [|q pipes IH]; intros w; [by destruct w|]. cbn [close_all].
  change (run (Do (Close q.1) (fun _ => Do (Close q.2) (fun _ => close_all pipes ≫= k))) w = run (k tt) (set_fds (close_fds (q :: pipes) (w_fds w)) w)).
  rewrite !run_close, IH. reflexivity.
Qed.

Lemma wait_all_runs pids (k : unit -> prog unit) w :
  run (wait_all pids ≫= k) w = run (k tt) (mkWorld (w_fds w) (w_pipes w) (w_pid w) (w_kids w) (w_log w ++ (Waitpid <$> pids))).
Proof.
  revert w. induction pids as [|p pids IH]; intros w; [rewrite app_nil_r; by destruct w|]. cbn [wait_all].
  change (run (wait_all pids ≫= k) (logged (Waitpid p) w) = run (k tt) (mkWorld (w_fds w) (w_pipes w) (w_pid w) (w_kids w) (w_log w ++ (Waitpid <$> p :: pids)))).
  rewrite IH. cbn [logged w_fds w_pipes w_pid w_kids w_log fmap list_fmap]. by rewrite <- app_assoc.
Qed.

(** The children of the stages from [i] on. *)
Fixpoint kids_from (body : stage -> prog unit) (pipes : list (Z * Z)) (t : gmap Z handle) (n i : nat) (pid : Z) (sts : list stage) : list kid :=
  match sts with
  | [] => []
  | st :: rest => mkKid pid t (child body pipes n i st) :: kids_from body pipes t n (S i) (pid + 1) rest
  end.

Lemma kids_from_lookup body pipes t n sts : forall i pid j st, sts !! j = Some st ->
  kids_from body pipes t n i pid sts !! j = Some (mkKid (pid + Z.of_nat j) t (child body pipes n (i + j) st)).
Proof.
  induction sts as [|s sts IH]; intros i pid [|j] st E; try done; cbn [kids_from].
  - injection E as ->. cbn. by rewrite Z.add_0_r, Nat.add_0_r.
  - etransitivity; [apply (IH (S i) (pid + 1) j st E)|]. do 2 f_equal; [lia|]. f_equal. lia.
Qed.

Lemma kids_from_pids body pipes t n sts : forall i pid,
  length (kids_from body pipes t n i pid sts) = length sts /\ k_pid <$> kids_from body pipes t n i pid sts = seqZ pid (zlen sts).
Proof.
  induction sts as [|st sts IH]; intros i pid; [done|]. cbn [kids_from length fmap list_fmap]. destruct (IH (S i) (pid + 1)) as [-> E].
  split; [done|]. unfold zlen in *. cbn [length]. rewrite (seqZ_cons pid) by lia. cbn [k_pid]. change (list_fmap _ _ k_pid) with (fmap (M := list) k_pid). rewrite E. do 2 f_equal; lia.
Qed.

Lemma child_noret body pipes n i st : noret (body st) -> noret (child body pipes n i st).
Proof. intros Hb. unfold child. do 4 (apply noret_bind_r; intros _). done. Qed.

Lemma spawn_runs body pipes n sts : (forall st, noret (body st)) -> forall i (k : list Z -> prog unit) w,
  0 < w_pid w -> w_pid w + zlen sts < 2 ^ 31 ->
  let pids := seqZ (w_pid w) (zlen sts) in
  run (spawn body pipes n i sts ≫= k) w =
  run (k pids) (mkWorld (w_fds w) (w_pipes w) (w_pid w + zlen sts) (w_kids w ++ kids_from body pipes (w_fds w) n i (w_pid w) sts) (w_log w ++ ((fun p => Setpgid p p) <$> pids))).
Proof.
  intros Hb. induction sts as [|st sts IH]; intros i k w Hp Hl pids.
  - unfold pids. change (zlen []) with 0. rewrite Z.add_0_r, !app_nil_r. by destruct w.
  - assert (Hz : zlen (st :: sts) = zlen sts + 1) by (unfold zlen; cbn [length]; lia). assert (0 <= zlen sts) by (unfold zlen; lia).
    cbn [spawn]. set (rest := fun pid : Z => if pid =? 0 then _ else _).
    change (run (Do Fork (fun pid => rest pid ≫= k)) w = run (k pids) (mkWorld (w_fds w) (w_pipes w) (w_pid w + zlen (st :: sts)) (w_kids w ++ kids_from body pipes (w_fds w) n i (w_pid w) (st :: sts)) (w_log w ++ ((fun p => Setpgid p p) <$> pids)))).
    cbn [run]. assert (rest 0 ≫= k = child body pipes n i st) as ->.
    { unfold rest. cbn [Z.eqb]. rewrite bind_assoc. by apply noret_absorb, child_noret. }
    unfold rest. rewrite (proj2 (Z.eqb_neq (w_pid w) 0)) by lia. rewrite s32_small by lia. set (w1 := forked _ w).
    rewrite bind_assoc. change (run ((spawn body pipes n (S i) sts ≫= (fun pids => mret (w_pid w :: pids))) ≫= k) (logged (Setpgid (w_pid w) (w_pid w)) w1) = run (k pids) (mkWorld (w_fds w) (w_pipes w) (w_pid w + zlen (st :: sts)) (w_kids w ++ kids_from body pipes (w_fds w) n i (w_pid w) (st :: sts)) (w_log w ++ ((fun p => Setpgid p p) <$> pids)))).
    rewrite bind_assoc, IH by (cbn; lia). cbn [w1 forked logged w_fds w_pipes w_pid w_kids w_log kids_from].
    assert (pids = w_pid w :: seqZ (w_pid w + 1) (zlen sts)) as -> by (unfold pids; rewrite seqZ_cons by lia; f_equal; [f_equal; lia]).
    cbn [fmap list_fmap]. rewrite <- !app_assoc. cbn [app]. change (mret (M := prog) ?x ≫= k) with (k x). do 2 f_equal. lia.
Qed.

Lemma run_dup a b h k w : w_fds w !! a = Some h -> 0 <= b < 16 -> a <> b -> run (Do (Dup2 a b) k) w = run (k b) (set_fds (<[b:=h]> (w_fds w)) w).
Proof.
  intros E Hb Hab. cbn [run]. unfold do_dup, SHELL_MAX_FDS. rewrite E. rewrite (proj2 (Z.ltb_ge b 0)), (proj2 (Z.leb_gt 16 b)), (proj2 (Z.eqb_neq a b)) by lia. done.
Qed.

(** Moving the ends of its pipes in place leaves a child with these two. *)
Lemma child_runs body p q n i st pid : (1 <= n <= 4)%nat -> (i < n)%nat ->
  run (child body (pipe_fds 0 (n - 1)) n i st) (mkWorld (with_pipes p (n - 1)) q pid [] []) =
  run (body st) (mkWorld (stage_fds p n i) q pid [] [Setpgid 0 0]).
Proof.
  intros Hn Hi. unfold child. change (run (sys (Setpgid 0 0) ≫= ?f) (mkWorld ?t q pid [] [])) with (run (f (reply (Setpgid 0 0))) (mkWorld t q pid [] [Setpgid 0 0])). cbv beta.
  set (last := fun _ : Z => _). set (t1 := if (0 <? i)%nat then <[0 := HRead (i - 1 + p)]> (with_pipes p (n - 1)) else with_pipes p (n - 1)).
  set (t2 := if (i <? n - 1)%nat then <[1 := HWrite (i + p)]> t1 else t1).
  assert (Ht : close_fds (pipe_fds 0 (n - 1)) t2 = stage_fds p n i /\
    ((0 < i)%nat -> with_pipes p (n - 1) !! (pipe_at (pipe_fds 0 (n - 1)) (i - 1)).1 = Some (HRead (i - 1 + p)) /\ (pipe_at (pipe_fds 0 (n - 1)) (i - 1)).1 <> 0) /\
    ((i < n - 1)%nat -> t1 !! (pipe_at (pipe_fds 0 (n - 1)) i).2 = Some (HWrite (i + p)) /\ (pipe_at (pipe_fds 0 (n - 1)) i).2 <> 1)).
  { destruct n as [|[|[|[|[|n]]]]]; try lia; destruct i as [|[|[|[|i]]]]; try lia; vm_compute; (split; [reflexivity|]); split; (intros _; split; [reflexivity|discriminate]) || (intros ?; exfalso; lia). }
  destruct Ht as (Ht & Hd1 & Hd2).
  trans (run (last 0) (mkWorld t1 q pid [] [Setpgid 0 0])).
  { unfold t1. destruct (Nat.ltb_spec 0 i) as [Hlt|_]; [|done]. destruct (Hd1 Hlt) as [E1 E2]. unfold sys.
    change (Do ?c Ret ≫= ?f) with (Do c f). rewrite (run_dup _ 0 (HRead (i - 1 + p))); [done|exact E1|lia|done]. }
  unfold last. trans (run (close_all (pipe_fds 0 (n - 1));; body st) (mkWorld t2 q pid [] [Setpgid 0 0])).
  { unfold t2. destruct (Nat.ltb_spec i (n - 1)) as [Hlt|_]; [|done]. destruct (Hd2 Hlt) as [E1 E2]. unfold sys.
    change (Do ?c Ret ≫= ?f) with (Do c f). rewrite (run_dup _ 1 (HWrite (i + p))); [done|exact E1|lia|done]. }
  rewrite close_all_runs. cbn [w_fds set_fds w_pipes w_pid w_kids w_log]. by rewrite Ht.
Qed.

(** The shell's own calls for a pipeline whose children are [pids]. *)
Definition shell_log (pids : list Z) : list call :=
  ((fun p => Setpgid p p) <$> pids) ++ [Tcsetpgrp (List.last pids 0)] ++ (Waitpid <$> pids) ++ [Getpgid 0; Tcsetpgrp (reply (Getpgid 0))].

Lemma nth_last_seqZ a n : (0 < n)%nat -> nth (n - 1) (seqZ a (Z.of_nat n)) 0 = List.last (seqZ a (Z.of_nat n)) 0.
Proof.
  intros Hn. replace (Z.of_nat n) with (Z.of_nat (n - 1) + 1) by lia. rewrite seqZ_app by lia. rewrite (seqZ_cons _ 1) by lia. change (seqZ _ (Z.pred 1)) with (@nil Z). rewrite List.last_last, List.app_nth2 by (rewrite length_seqZ; lia).
  rewrite length_seqZ, Nat2Z.id, Nat.sub_diag. reflexivity.
Qed.

Lemma close_pipes p n : (n <= 3)%nat -> close_fds (pipe_fds 0 n) (with_pipes p n) = std_fds h0 h1.
Proof. intros Hn. destruct n as [|[|[|[|n]]]]; [..|lia]; by vm_compute. Qed.

Lemma run_stages_runs body sts w :
  (forall st, noret (body st)) -> (1 <= length sts <= 4)%nat -> w_fds w = std_fds h0 h1 -> 0 < w_pid w -> w_pid w + zlen sts < 2 ^ 31 ->
  let n := length sts in
  let pids := seqZ (w_pid w) (zlen sts) in
  run (run_stages body sts) w =
  (Returned, mkWorld (w_fds w) (n - 1 + w_pipes w) (w_pid w + zlen sts)
     (w_kids w ++ kids_from body (pipe_fds 0 (n - 1)) (with_pipes (w_pipes w) (n - 1)) n 0 (w_pid w) sts) (w_log w ++ shell_log pids)).
Proof.
  intros Hb Hn Ht Hp Hl n pids. unfold run_stages. fold n. destruct w as [t p pid kids log]. cbn [w_fds w_pipes w_pid w_kids w_log] in *. subst t.
  change (mkWorld (std_fds h0 h1) p) with (mkWorld (with_pipes p 0) (0 + p)). rewrite make_pipes_runs by lia. rewrite Nat.add_0_l.
  rewrite spawn_runs by done. cbn [w_fds w_pipes w_pid w_kids w_log]. fold pids.
  change (run (sys ?c ≫= ?f) ?w) with (run (f (reply c)) (logged c w)). cbv beta. rewrite close_all_runs, wait_all_runs.
  cbn [set_fds logged w_fds w_pipes w_pid w_kids w_log].
  rewrite close_pipes by (unfold n; lia).
  unfold pids, n, zlen. rewrite nth_last_seqZ by lia. unfold shell_log.
  do 2 (change (run (sys ?c ≫= ?f) ?w) with (run (f (reply c)) (logged c w)); cbv beta). unfold logged. cbn [w_fds w_pipes w_pid w_kids w_log].
  rewrite <- !app_assoc. reflexivity.
Qed.

(** ** A stage *)

Definition builtins : list (list Z) := bs <$> ["exit"; "help"; "echo"; "pid"; "ppid"; "kill"; "whoami"; "id"; "root"; "rudo"].

(** The stage runs a program: one that exists, with files that open. *)
Record external (st : stage) : Prop := {
  ex_argv : s_argv st <> [];
  ex_cmd : hd [] (s_argv st) ∉ builtins;
  ex_short : zlen (hd [] (s_argv st)) <= 250;
  ex_runs : runnable (command_path (hd [] (s_argv st))) = true;
  ex_in : r_type (redir_in st) = 3 -> can_open (Open (r_file (redir_in st))) = true;
  ex_create : r_type (redir_out st) = 1 -> can_open (OpenCreate (r_file (redir_out st))) = true;
  ex_append : r_type (redir_out st) = 2 -> can_open (OpenAppend (r_file (redir_out st))) = true;
}.

Definition in_handle (st : stage) (a : handle) : handle := if r_type (redir_in st) =? 3 then HFile (r_file (redir_in st)) false else a.
Definition out_handle (st : stage) (b : handle) : handle :=
  if r_type (redir_out st) =? 1 then HFile (r_file (redir_out st)) false
  else if r_type (redir_out st) =? 2 then HFile (r_file (redir_out st)) true else b.

(** A file opened takes descriptor 3 and moves to its place. *)
Lemma move_runs c h target a b bad (k : unit -> prog unit) w :
  can_open c = true -> w_fds w = std_fds a b -> (target = 0 \/ target = 1) ->
  (forall k w, run (Do c k) w = let '(r, w) := opened c h w in run (k r) w) ->
  run ((fd ← sys c; if fd <? 0 then bad else move_fd fd target) ≫= k) w =
  run (k tt) (set_fds (if target =? 0 then std_fds h b else std_fds a h) w).
Proof.
  intros Hc Hw Ht Hr. change ((sys c ≫= ?f) ≫= k) with (Do c (fun r => f r ≫= k)). rewrite Hr. unfold opened. rewrite Hc, Hw. change (free_fd (std_fds a b)) with (Some 3). cbv iota beta. change (3 <? 0) with false. cbv iota.
  change (move_fd 3 target ≫= k) with (Do (Dup2 3 target) (fun _ => Do (Close 3) (fun _ => k tt))).
  rewrite (run_dup 3 target h); [|by vm_compute|lia|lia]. rewrite run_close. unfold set_fds. cbn [w_fds w_pipes w_pid w_kids w_log].
  do 2 f_equal. destruct Ht as [-> | ->]; by vm_compute.
Qed.

Lemma apply_redirects_runs st a b (k : unit -> prog unit) w :
  external st -> w_fds w = std_fds a b ->
  run (apply_redirects st ≫= k) w = run (k tt) (set_fds (std_fds (in_handle st a) (out_handle st b)) w).
Proof.
  intros Hx Hw. unfold apply_redirects, in_handle, out_handle. rewrite bind_assoc.
  set (rest := fun _ : unit => _). trans (run (rest tt) (set_fds (std_fds (if r_type (redir_in st) =? 3 then HFile (r_file (redir_in st)) false else a) b) w)).
  { destruct (Z.eqb_spec (r_type (redir_in st)) 3) as [E|E]; [|unfold set_fds; rewrite <- Hw; by destruct w].
    rewrite (move_runs _ (HFile (r_file (redir_in st)) false) 0 a b); [done|by apply Hx|done|by left|done]. }
  unfold rest. set (a' := if r_type (redir_in st) =? 3 then _ else a). set (w' := set_fds (std_fds a' b) w). rewrite bind_assoc.
  destruct (Z.eqb_spec (r_type (redir_out st)) 1) as [E1|E1].
  - rewrite (move_runs _ (HFile (r_file (redir_out st)) false) 1 a' b); [|by apply Hx|done|by right|done]. rewrite E1. done.
  - change ((mret () ≫= ?f)) with (f tt). cbv beta. destruct (Z.eqb_spec (r_type (redir_out st)) 2) as [E2|E2]; [|done].
    rewrite (move_runs _ (HFile (r_file (redir_out st)) true) 1 a' b); [done|by apply Hx|done|by right|done].
Qed.

Lemma run_builtin_external argv : hd [] argv ∉ builtins -> run_builtin argv = mret false.
Proof.
  intros Hn. unfold run_builtin. cbv zeta.
  repeat match goal with |- context [bool_decide (hd [] argv = bs ?x)] => rewrite (bool_decide_eq_false_2 (hd [] argv = bs x)) by (intros E; apply Hn; rewrite E; unfold builtins; cbn [fmap list_fmap]; set_solver) end.
  reflexivity.
Qed.

(** A stage becomes its program, with its redirections in place. *)
Lemma stage_main_runs st a b w :
  external st -> w_fds w = std_fds a b ->
  run (stage_main st) w = (Execed (command_path (hd [] (s_argv st))) (s_argv st), set_fds (std_fds (in_handle st a) (out_handle st b)) w).
Proof.
  intros Hx Hw. unfold stage_main. destruct (s_argv st) as [|c l] eqn:Ea; [by destruct (ex_argv st Hx)|]. rewrite <- Ea. rewrite (apply_redirects_runs st a b) by done.
  rewrite run_builtin_external by apply Hx. change (mret false ≫= ?f) with (f false). cbv beta iota. unfold exec_external. rewrite !bind_assoc.
  set (w' := set_fds _ w). rewrite (apply_redirects_runs st (in_handle st a) (out_handle st b)) by done. cbv zeta.
  pose proof (ex_short st Hx) as Hs. unfold LINE_MAX_LEN. rewrite (proj2 (Z.ltb_ge 256 _)), andb_false_r by lia.
  change (run ((sys (Execve ?p ?v) ≫= ?f) ≫= ?g) ?w) with (if runnable p then (Execed p v, w) else run (f (-1) ≫= g) w). rewrite (ex_runs st Hx).
  f_equal. unfold w', set_fds, in_handle, out_handle. cbn [w_pipes w_pid w_kids w_log]. repeat (destruct (_ =? _)); done.
Qed.
End Run.

(** ** Parsing *)

Lemma skip_blanks_fields s : fields blank (skip_blanks s) = fields blank s.
Proof. induction s as [|c s IH]; [done|]. cbn [skip_blanks]. destruct (blank c) eqn:E; [|done]. by rewrite fields_sep. Qed.

Lemma skip_blanks_head s c r : skip_blanks s = c :: r -> blank c = false.
Proof. induction s as [|a s IH]; [done|]. cbn [skip_blanks]. destruct (blank a) eqn:E; [done|]. by intros [= <- _]. Qed.

Lemma take_word_app x r : no_sep blank x -> starts_sep blank r -> take_word (x ++ r) = (x, r).
Proof.
  intros Hx Hr. induction Hx as [|c x Hc _ IH]; cbn [app].
  - destruct r as [|c r]; [done|]. cbn in Hr |- *. by rewrite Hr.
  - cbn [take_word]. by rewrite Hc, IH.
Qed.

Lemma tokens_fields n s : tokens n s = take n (fields blank s).
Proof.
  revert s. induction n as [|n IH]; intros s; [done|]. cbn [tokens]. rewrite <- skip_blanks_fields.
  destruct (skip_blanks s) as [|c r] eqn:E; [done|]. apply skip_blanks_head in E. destruct (split_on_spec blank (c :: r)) as (x & rest & Ex & Hx & Hr).
  assert (x <> []) by (intros ->; cbn [app] in Ex; subst rest; cbn in Hr; congruence). rewrite Ex, take_word_app, fields_word by done. cbn [take]. f_equal. rewrite IH. f_equal.
  destruct rest as [|d rest]; [done|]. cbn in Hr |- *. symmetry. by apply fields_sep.
Qed.

Lemma split_from_length n : forall p, (1 <= length (split_from n p) <= S n)%nat.
Proof.
  induction n as [|n IH]; intros p; [cbn; lia|]. induction p as [|c p IHp]; [cbn; lia|]. cbn [split_from]. destruct (c =? 124).
  - cbn [length]. specialize (IH p). lia.
  - cbn [split_from] in IHp. match type of IHp with context [length ?x] => destruct x as [|h t] end; cbn [length] in *; lia.
Qed.

Lemma parse_line_length line : (1 <= length (parse_line line) <= 4)%nat.
Proof. unfold parse_line. rewrite length_fmap. apply (split_from_length 3). Qed.

(** Stages are cut at the first three bars. *)
Lemma split_from_bar n x p : Forall (fun c => c <> 124) x -> split_from (S n) (x ++ 124 :: p) = x :: split_from n p.
Proof.
  induction 1 as [|c x Hc _ IH]; [done|]. cbn [app]. cbn [split_from] in *. rewrite (proj2 (Z.eqb_neq c 124)) by done. by rewrite IH.
Qed.
Lemma split_from_end n x : Forall (fun c => c <> 124) x -> split_from n x = [x].
Proof.
  destruct n as [|n]; [done|]. induction 1 as [|c x Hc _ IH]; [done|]. cbn [split_from] in *. rewrite (proj2 (Z.eqb_neq c 124)) by done. by rewrite IH.
Qed.

(** ** Command lines *)

(** A command: its words, the file read and the file written ([true]: appended to). *)
Record command := mkCommand { c_words : list (list Z); c_in : option (list Z); c_out : option (bool * list Z) }.

Definition command_tokens (c : command) : list (list Z) :=
  c_words c ++ (match c_in c with Some f => [bs "<"; f] | None => [] end) ++
  (match c_out c with Some (app, f) => [if app then bs ">>" else bs ">"; f] | None => [] end).

Definition command_stage (c : command) : stage :=
  mkStage (c_words c) (match c_in c with Some f => mkRedirect f 3 | None => no_redirect end)
    (match c_out c with Some (app, f) => mkRedirect f (if app then 2 else 1) | None => no_redirect end).

(** A token has characters, and none that the shell splits at. *)
Definition token_ok (t : list Z) : Prop := t <> [] /\ Forall (fun c => blank c = false /\ c <> 124) t.
Definition word_ok (t : list Z) : Prop := token_ok t /\ t ∉ [bs ">"; bs ">>"; bs "<"].
Record command_ok (c : command) : Prop := {
  co_words : Forall word_ok (c_words c);
  co_files : Forall token_ok (command_tokens c);
  co_count : (length (command_tokens c) <= 15)%nat;
}.

Fixpoint spaced (ts : list (list Z)) : list Z :=
  match ts with
  | [] => []
  | t :: r => t ++ 32 :: spaced r
  end.
(** Words separated by a space, commands by a bar. *)
Fixpoint line_text (cs : list command) : list Z :=
  match cs with
  | [] => []
  | [c] => spaced (command_tokens c)
  | c :: rest => spaced (command_tokens c) ++ 124 :: line_text rest
  end.

Lemma fields_spaced ts : Forall token_ok ts -> fields blank (spaced ts) = ts.
Proof.
  induction 1 as [|t ts [Hne Ht] _ IH]; [done|]. cbn [spaced]. rewrite fields_word; [|eapply List.Forall_impl; [|exact Ht]; cbn; tauto|done|done].
  rewrite fields_sep by done. by rewrite IH.
Qed.

Lemma spaced_bars ts : Forall token_ok ts -> Forall (fun c => c <> 124) (spaced ts).
Proof.
  induction 1 as [|t ts [Hne Ht] _ IH]; [constructor|]. cbn [spaced]. apply Forall_app. split; [eapply List.Forall_impl; [|exact Ht]; cbn; tauto|]. by constructor.
Qed.

Lemma redirects_words ws rest out rin rout :
  Forall word_ok ws -> redirects (ws ++ rest) out rin rout = redirects rest (out ++ ws) rin rout.
Proof.
  intros Hw. revert out. induction Hw as [|w ws [_ Hw] _ IH]; intros out; [by rewrite app_nil_r|]. cbn [app redirects]. rewrite IH, <- app_assoc.
  rewrite !not_elem_of_cons in Hw. destruct Hw as (H1 & H2 & H3 & _). rewrite !bool_decide_eq_false_2 by done. by destruct (ws ++ rest).
Qed.

Lemma parse_command c : command_ok c -> parse_redirects (tokenize (spaced (command_tokens c)) MAX_ARGS) = command_stage c.
Proof.
  intros [Hw Hf Hn]. unfold tokenize. rewrite tokens_fields, fields_spaced, take_ge by done. unfold parse_redirects, command_tokens.
  rewrite redirects_words by done. unfold command_stage. destruct c as [ws [i|] [[[] o]|]]; reflexivity.
Qed.

(** C27: the shell reads a command line back.  A pipeline of one to four
    commands of up to fifteen words each, with optional redirections, written
    out with spaces and bars, is parsed into exactly these commands: words in
    order, the file of each redirection and its kind. *)
Theorem sh_parse_line cs : (1 <= length cs <= 4)%nat -> Forall command_ok cs -> parse_line (line_text cs) = command_stage <$> cs.
Proof.
  intros Hn Hok. unfold parse_line, split_pipeline. cbn [MAX_STAGES Nat.sub]. assert (length cs <= S 3)%nat as Hl by lia. destruct Hn as [Hn _].
  assert (forall n cs, (1 <= length cs <= S n)%nat -> Forall command_ok cs -> split_from n (line_text cs) = (fun c => spaced (command_tokens c)) <$> cs) as Hs.
  { clear. induction n as [|n IH]; intros [|c [|d cs]] Hn Hok; cbn [length] in Hn; try lia; pose proof (Forall_inv Hok) as Hc.
    - by apply split_from_end, spaced_bars, Hc.
    - by apply split_from_end, spaced_bars, Hc.
    - change (line_text (c :: d :: cs)) with (spaced (command_tokens c) ++ 124 :: line_text (d :: cs)).
      rewrite split_from_bar by apply spaced_bars, Hc. rewrite IH; [done|cbn [length]; lia|by apply Forall_inv_tail in Hok]. }
  rewrite Hs by (done || lia). rewrite <- list_fmap_compose. apply list_fmap_ext. intros i c Hi. cbn. apply parse_command. by eapply Forall_lookup_1.
Qed.

Lemma sh_parse_line_witness :
  parse_line (bs "cat < /etc/unit.conf |grep exec |wc -l > /tmp/n ") =
  [mkStage [bs "cat"] (mkRedirect (bs "/etc/unit.conf") 3) no_redirect; mkStage [bs "grep"; bs "exec"] no_redirect no_redirect; mkStage [bs "wc"; bs "-l"] no_redirect (mkRedirect (bs "/tmp/n") 1)].
Proof.
  apply (sh_parse_line [mkCommand [bs "cat"] (Some (bs "/etc/unit.conf")) None; mkCommand [bs "grep"; bs "exec"] None None; mkCommand [bs "wc"; bs "-l"] None (Some (false, bs "/tmp/n"))]);
    [cbn; lia|].
  repeat (apply List.Forall_cons; [split; unfold word_ok, token_ok; apply (bool_decide_unpack _); by vm_compute|]). apply List.Forall_nil.
Defined.

(** ** Pipelines *)

Section Pipeline.
Variables (can_open : call -> bool) (runnable : list Z -> bool) (reply : call -> Z).

Lemma run_pipeline_stages line :
  Forall (external can_open runnable) (parse_line line) -> run_pipeline line = run_stages stage_main (parse_line line).
Proof.
  intros Hx. unfold run_pipeline. cbv zeta. destruct (parse_line line) as [|st [|st' sts]]; try done. pose proof (Forall_inv Hx) as He.
  destruct (s_argv st) eqn:Ea; [by destruct (ex_argv _ _ _ He)|]. rewrite <- Ea. destruct (_ && _); [|done]. rewrite run_builtin_external by apply He. done.
Qed.

(** C15: pipelines are wired.  The shell has descriptors 0, 1 and 2 and runs a
    line whose stages are programs.  Then it has one child per stage, and
    child [i] becomes the program of stage [i] with its arguments.  The
    program reads from pipe [i - 1] (the first stage: from the shell's input)
    and writes to pipe [i] (the last: to the shell's output), or from and to
    the files of its redirections, and it has no other descriptor besides 2,
    so every reader sees the end of its input when the writers are gone.  The
    shell ends with the descriptors it had, puts each child in a group of its
    own, gives the terminal to the last, waits for each child once and takes
    the terminal back. *)
Theorem sh_pipeline_wired h0 h1 h2 line w :
  Forall (external can_open runnable) (parse_line line) ->
  w_fds w = std_fds h2 h0 h1 -> 0 < w_pid w -> w_pid w + 4 < 2 ^ 31 ->
  let sts := parse_line line in
  let n := length sts in
  exists kids w', run can_open runnable reply (run_pipeline line) w = (Returned, w') /\
    w_fds w' = w_fds w /\ w_kids w' = w_kids w ++ kids /\ length kids = n /\
    w_log w' = w_log w ++ shell_log reply (k_pid <$> kids) /\
    forall i st, sts !! i = Some st -> exists kd, kids !! i = Some kd /\ forall pipes,
      exists w'', run can_open runnable reply (k_prog kd) (kid_world kd pipes) = (Execed (command_path (hd [] (s_argv st))) (s_argv st), w'') /\
        w_fds w'' = std_fds h2 (in_handle st (if (0 <? i)%nat then HRead (i - 1 + w_pipes w) else h0))
                             (out_handle st (if (i <? n - 1)%nat then HWrite (i + w_pipes w) else h1)).
Proof.
  intros Hx Ht Hp Hl sts n. pose proof (parse_line_length line) as Hn. fold sts in Hn, Hx. rewrite run_pipeline_stages by done. fold sts.
  rewrite (run_stages_runs can_open runnable reply h0 h1 h2 stage_main sts w stage_main_noret Hn Ht Hp ltac:(unfold zlen; lia)). fold n.
  eexists _, _. split; [reflexivity|]. cbn [w_fds w_kids w_log]. split; [done|]. split; [reflexivity|].
  set (kids := kids_from _ _ _ _ _ _ _).
  assert (length kids = n /\ k_pid <$> kids = seqZ (w_pid w) (zlen sts)) as [H1 ->] by apply kids_from_pids.
  split; [done|]. split; [done|]. intros i st Hi. exists (mkKid (w_pid w + Z.of_nat i) (with_pipes h0 h1 h2 (w_pipes w) (n - 1)) (child stage_main (pipe_fds 0 (n - 1)) n i st)).
  split; [unfold kids; by rewrite (kids_from_lookup _ _ _ _ _ 0 _ i st Hi)|]. intros q. unfold kid_world. cbn [k_prog k_fds k_pid].
  assert (i < n)%nat by (by apply lookup_lt_Some in Hi). rewrite child_runs by lia.
  rewrite (stage_main_runs can_open runnable reply h2 st (if (0 <? i)%nat then HRead (i - 1 + w_pipes w) else h0) (if (i <? n - 1)%nat then HWrite (i + w_pipes w) else h1));
    [eexists; split; reflexivity|by eapply Forall_lookup_1|done].
Qed.
End Pipeline.

Lemma sh_pipeline_wired_witness :
  let line := bs "cat < /etc/unit.conf | wc -l" in
  let w := mkWorld (std_fds (HOther 2) (HOther 0) (HOther 1)) 7 5 [] [] in
  exists kids w', run (fun _ => true) (fun _ => true) (fun _ => 4) (run_pipeline line) w = (Returned, w') /\ w_kids w' = kids /\
  exists kd w'', kids !! 0%nat = Some kd /\ run (fun _ => true) (fun _ => true) (fun _ => 4) (k_prog kd) (kid_world kd 8) = (Execed (bs "/bin/cat") [bs "cat"], w'') /\
    w_fds w'' = std_fds (HOther 2) (HFile (bs "/etc/unit.conf") false) (HWrite 7).
Proof.
  intros line w. destruct (sh_pipeline_wired (fun _ => true) (fun _ => true) (fun _ => 4) (HOther 0) (HOther 1) (HOther 2) line w) as (kids & w' & E1 & _ & E2 & _ & _ & E3);
    [|done|by vm_compute|by vm_compute|].
  - change (parse_line line) with [mkStage [bs "cat"] (mkRedirect (bs "/etc/unit.conf") 3) no_redirect; mkStage [bs "wc"; bs "-l"] no_redirect no_redirect].
    repeat (apply List.Forall_cons; [split; try done; apply (bool_decide_unpack _); by vm_compute|]). apply List.Forall_nil.
  - exists kids, w'. split; [exact E1|]. split; [exact E2|]. destruct (E3 0%nat _ eq_refl) as (kd & Ek & Hk). destruct (Hk 8%nat) as (w'' & Hr & Hf). exists kd, w''. done.
Defined.

(** A command of 251 characters does not fit the buffer for its path. *)
Example long_command_smashes :
  (run (fun _ => true) (fun _ => true) (fun _ => 4) (stage_main (mkStage [replicate 251 97] no_redirect no_redirect)) (mkWorld ∅ 0 5 [] [])).1 = Smashed.
Proof. by vm_compute. Qed.

(** As root, [rudo] turns the shell itself into the command. *)
Example rudo_replaces_shell :
  (run (fun _ => true) (fun _ => true) (fun _ => 0) (run_pipeline (bs "rudo ls")) (mkWorld (std_fds (HOther 2) (HOther 0) (HOther 1)) 0 5 [] [])).1 = Execed (bs "/bin/ls") [bs "ls"].
Proof. by vm_compute. Qed.

(** ** Line editing *)

(** The line as it is edited: a backspace takes the last character back. *)
Fixpoint edit (buf keys : list Z) : list Z :=
  match keys with
  | [] => buf
  | c :: r => if (c =? 8) || (c =? 127) then edit (take (length buf - 1) buf) r else edit (buf ++ [c]) r
  end.
Definition key_ok (c : Z) : Prop := c = 8 \/ 32 <= c < 128.

Lemma readline_edits max keys rest : forall buf,
  Forall key_ok keys -> zlen buf + zlen keys < max ->
  exists out, readline max buf (keys ++ 10 :: rest) = Some (edit buf keys, rest, out).
Proof.
  induction keys as [|c keys IH]; intros buf Hk Hl; [by exists []|]. pose proof (Forall_inv Hk) as Hc. apply Forall_inv_tail in Hk.
  unfold key_ok in Hc. cbn [app readline edit]. unfold as_char. rewrite (proj2 (Z.ltb_lt c 128)) by lia. cbv zeta. rewrite (proj2 (Z.eqb_neq c 10)) by lia.
  unfold zlen in *. cbn [length] in Hl. destruct ((c =? 8) || (c =? 127)) eqn:E.
  - destruct buf as [|x buf]; [apply (IH []); [done|cbn [length] in *; lia]|]. destruct (IH (take (length (x :: buf) - 1) (x :: buf)) Hk) as [out ->].
    { rewrite length_take. lia. } by eexists.
  - apply orb_false_iff in E as [E1 E2]. apply Z.eqb_neq in E1, E2. rewrite (proj2 (Z.eqb_neq c 13)), (proj2 (Z.ltb_ge c 32)), (proj2 (Z.ltb_lt _ max)) by lia.
    apply IH; [done|]. rewrite length_app. cbn [length]. lia.
Qed.

(** Whatever is typed, a line fits its buffer. *)
Lemma readline_fits max input : forall buf l r out, 1 <= max ->
  readline max buf input = Some (l, r, out) -> zlen buf < max -> zlen l < max.
Proof.
  induction input as [|b input IH]; intros buf l r out Hm E Hb; [done|]. cbn [readline] in E. cbv zeta in E.
  destruct (as_char b =? 10); [by injection E as <- <- <-|]. destruct ((as_char b =? 8) || (as_char b =? 127)).
  - destruct buf as [|x buf]; [by eapply IH|]. destruct (readline max _ input) as [[[l' r'] out']|] eqn:E'; [|done]. injection E as <- <- <-.
    eapply IH; [done|exact E'|]. unfold zlen in *. rewrite length_take. lia.
  - destruct (as_char b =? 13); [by eapply IH|]. destruct (as_char b <? 32); [by eapply IH|]. eapply IH; [done|exact E|].
    destruct (Z.ltb_spec (zlen buf + 1) max); [|done]. unfold zlen in *. rewrite length_app. cbn [length]. lia.
Qed.
