(* ===== verification/Sha256.v ===== *)
(** * sha256 (userspace/sha256.c)

    The digest program: the block function, the 128-byte buffer it collects
    input in, and the padding at the end of input.  [sha256_main] is given the
    results of its [read] calls.  The reference is the hash standard's own
    description: pad the whole message, cut it into blocks of 64 bytes, fold
    the compression function over them. *)
From S2P Require Import Prelude.

Definition ROTR (x n : Z) : Z := Z.lor (Z.shiftr x n) (u32 (Z.shiftl x (32 - n))).

(** Upper-case digits, as the table is a long one. *)
Definition K : list Z :=
  [0x428A2F98; 0x71374491; 0xB5C0FBCF; 0xE9B5DBA5; 0x3956C25B; 0x59F111F1; 0x923F82A4; 0xAB1C5ED5;
   0xD807AA98; 0x12835B01; 0x243185BE; 0x550C7DC3; 0x72BE5D74; 0x80DEB1FE; 0x9BDC06A7; 0xC19BF174;
   0xE49B69C1; 0xEFBE4786; 0x0FC19DC6; 0x240CA1CC; 0x2DE92C6F; 0x4A7484AA; 0x5CB0A9DC; 0x76F988DA;
   0x983E5152; 0xA831C66D; 0xB00327C8; 0xBF597FC7; 0xC6E00BF3; 0xD5A79147; 0x06CA6351; 0x14292967;
   0x27B70A85; 0x2E1B2138; 0x4D2C6DFC; 0x53380D13; 0x650A7354; 0x766A0ABB; 0x81C2C92E; 0x92722C85;
   0xA2BFE8A1; 0xA81A664B; 0xC24B8B70; 0xC76C51A3; 0xD192E819; 0xD6990624; 0xF40E3585; 0x106AA070;
   0x19A4C116; 0x1E376C08; 0x2748774C; 0x34B0BCB5; 0x391C0CB3; 0x4ED8AA4A; 0x5B9CCA4F; 0x682E6FF3;
   0x748F82EE; 0x78A5636F; 0x84C87814; 0x8CC70208; 0x90BEFFFA; 0xA4506CEB; 0xBEF9A3F7; 0xC67178F2].

(** The eight words [H], or the working variables [a] .. [h]. *)
Record words8 := mkW { wa : Z; wb : Z; wc : Z; wd : Z; we : Z; wf : Z; wg : Z; wh : Z }.

Definition H_init : words8 :=
  mkW 0x6A09E667 0xBB67AE85 0x3C6EF372 0xA54FF53A 0x510E527F 0x9B05688C 0x1F83D9AB 0x5BE0CD19.

Definition load_word (data : list Z) (i : Z) : Z :=
  let byte k := znth 0 data (i * 4 + k) in
  Z.lor (Z.lor (Z.lor (u32 (Z.shiftl (byte 0) 24)) (u32 (Z.shiftl (byte 1) 16))) (u32 (Z.shiftl (byte 2) 8))) (byte 3).

Definition extend_word (i : Z) (w : list Z) : list Z :=
  let x := znth 0 w (i - 15) in
  let y := znth 0 w (i - 2) in
  let s0 := Z.lxor (Z.lxor (ROTR x 7) (ROTR x 18)) (Z.shiftr x 3) in
  let s1 := Z.lxor (Z.lxor (ROTR y 17) (ROTR y 19)) (Z.shiftr y 10) in
  zinsert i (u32 (znth 0 w (i - 16) + s0 + znth 0 w (i - 7) + s1)) w.

(** [w[64]], all of it written before it is read. *)
Definition schedule (data : list Z) : list Z :=
  for_range 48 16 extend_word (for_range 16 0 (fun i w => zinsert i (load_word data i) w) (replicate 64 0)).

Definition sha_round (w : list Z) (i : Z) (v : words8) : words8 :=
  let '(mkW a b c d e f g h) := v in
  let S1 := Z.lxor (Z.lxor (ROTR e 6) (ROTR e 11)) (ROTR e 25) in
  let ch := Z.lxor (Z.land e f) (Z.land (u32 (Z.lnot e)) g) in
  let t1 := u32 (h + S1 + ch + znth 0 K i + znth 0 w i) in
  let S0 := Z.lxor (Z.lxor (ROTR a 2) (ROTR a 13)) (ROTR a 22) in
  let maj := Z.lxor (Z.lxor (Z.land a b) (Z.land a c)) (Z.land b c) in
  let t2 := u32 (S0 + maj) in
  mkW (u32 (t1 + t2)) a b c (u32 (d + t1)) e f g.

Definition sha_block (data : list Z) (H : words8) : words8 :=
  let w := schedule data in
  let v := for_range 64 0 (sha_round w) H in
  mkW (u32 (wa H + wa v)) (u32 (wb H + wb v)) (u32 (wc H + wc v)) (u32 (wd H + wd v))
      (u32 (we H + we v)) (u32 (wf H + wf v)) (u32 (wg H + wg v)) (u32 (wh H + wh v)).

Definition PENDING_SIZE : Z := 128.

Record sha := mkSha { s_H : words8; pending : list Z; pend : Z }.
Definition sha_start : sha := mkSha H_init (replicate 128 0) 0.

(** Two blocks at once. *)
Definition flush (s : sha) : sha :=
  mkSha (sha_block (drop 64 (pending s)) (sha_block (take 64 (pending s)) (s_H s))) (pending s) 0.

(** [memcpy(pending + pend, data, n); pend += n] *)
Definition put (data : list Z) (s : sha) : sha :=
  mkSha (s_H s) (take (Z.to_nat (pend s)) (pending s) ++ data ++ drop (Z.to_nat (pend s) + length data) (pending s))
        (pend s + zlen data).

(** Every turn takes a byte at least. *)
Fixpoint feed_loop (fuel : nat) (data : list Z) (s : sha) : sha :=
  match fuel with
  | O => s
  | S f =>
      match data with
      | [] => s
      | _ =>
          let room := PENDING_SIZE - pend s in
          let take_ := Z.to_nat (if zlen data <? room then zlen data else room) in
          let s := put (take take_ data) s in
          let s := if pend s =? PENDING_SIZE then flush s else s in
          feed_loop f (drop take_ data) s
      end
  end.
Definition feed (data : list Z) (s : sha) : sha := feed_loop (length data) data s.

(** [while (pend % 64 != 56)]; at most 63 zeros and a flush. *)
Fixpoint pad_loop (fuel : nat) (s : sha) : sha :=
  match fuel with
  | O => s
  | S f =>
      if pend s mod 64 =? 56 then s
      else pad_loop f (if pend s =? PENDING_SIZE then flush s else put [0] s)
  end.

Definition put_length (bits : Z) (s : sha) : sha :=
  foldl (fun s i => put [u8 (Z.shiftr bits (i * 8))] s) s [7; 6; 5; 4; 3; 2; 1; 0].

(** [for (off = 0; off < pend; off += 64)] *)
Fixpoint last_blocks (fuel : nat) (off : Z) (s : sha) (H : words8) : words8 :=
  match fuel with
  | O => H
  | S f => if off <? pend s then last_blocks f (off + 64) s (sha_block (drop (Z.to_nat off) (pending s)) H) else H
  end.

Definition sha_final (total : Z) (s : sha) : words8 :=
  let bits := u64 (u64 total * 8) in
  let s := put [0x80] s in
  let s := pad_loop 66 s in
  let s := put_length bits s in
  last_blocks 3 0 s (s_H s).

Definition print_hex32 (v : Z) : list Z :=
  map (fun i => let d := Z.land (Z.shiftr v i) 0xF in if d <? 10 then 48 + d else 97 + d - 10) [28; 24; 20; 16; 12; 8; 4; 0].

Definition print_digest (H : words8) : list Z :=
  mjoin (print_hex32 <$> [wa H; wb H; wc H; wd H; we H; wf H; wg H; wh H]) ++ [10].

(** [arg]: the file named on the command line and what [open] returned for
    it.  [reads]: what the calls of [read] stored, up to the first that
    returned nothing.  The exit status and what is printed. *)
Definition sha256_main (arg : option (list Z * Z)) (reads : list (list Z)) : Z * list Z :=
  match arg with
  | Some (path, fd) =>
      if fd <? 0 then (1, bs "sha256: " ++ path ++ bs ": no such file" ++ [10])
      else (0, print_digest (sha_final (zlen (mjoin reads)) (foldl (fun s d => feed d s) sha_start reads)))
  | None => (0, print_digest (sha_final (zlen (mjoin reads)) (foldl (fun s d => feed d s) sha_start reads)))
  end.

(** * Reference

    The constants are the first 32 bits of the fractional parts of the square
    roots of the first 8 primes and of the cube roots of the first 64. *)

Definition primes : list Z := filter (fun p => forallb (fun d => negb (p mod d =? 0)) (seqZ 2 (Z.sqrt p - 1)) = true) (seqZ 2 310).

(** Integer cube root, one bit at a time from bit [n - 1]. *)
Fixpoint cbrt (n : nat) (r x : Z) : Z :=
  match n with
  | O => r
  | S n' => let c := r + 2 ^ Z.of_nat n' in cbrt n' (if c * c * c <=? x then c else r) x
  end.

Definition root3_word (p : Z) : Z := cbrt 40 0 (p * 2 ^ 96) mod 2 ^ 32.
Definition root2_word (p : Z) : Z := Z.sqrt (p * 2 ^ 64) mod 2 ^ 32.

Definition rotr (n x : Z) : Z := x / 2 ^ n + x mod 2 ^ n * 2 ^ (32 - n).
Definition lsigma0 (x : Z) : Z := Z.lxor (Z.lxor (rotr 7 x) (rotr 18 x)) (x / 2 ^ 3).
Definition lsigma1 (x : Z) : Z := Z.lxor (Z.lxor (rotr 17 x) (rotr 19 x)) (x / 2 ^ 10).
Definition usigma0 (x : Z) : Z := Z.lxor (Z.lxor (rotr 2 x) (rotr 13 x)) (rotr 22 x).
Definition usigma1 (x : Z) : Z := Z.lxor (Z.lxor (rotr 6 x) (rotr 11 x)) (rotr 25 x).
Definition choose (x y z : Z) : Z := Z.lxor (Z.land x y) (Z.ldiff z x).
Definition majority (x y z : Z) : Z := Z.lxor (Z.lxor (Z.land x y) (Z.land x z)) (Z.land y z).

Definition be_word (b : list Z) : Z := foldl (fun acc x => acc * 2 ^ 8 + x) 0 b.

(** The 16 words of a block, and the words that follow them. *)
Definition block_words (block : list Z) : list Z := map (fun i => be_word (take 4 (drop (4 * i) block))) (seq 0 16).
Definition next_word (w : list Z) : Z :=
  let back k := w !!! (length w - k)%nat in
  (lsigma1 (back 2%nat) + back 7%nat + lsigma0 (back 15%nat) + back 16%nat) mod 2 ^ 32.
Fixpoint more_words (n : nat) (w : list Z) : list Z :=
  match n with
  | O => w
  | S n' => let v := more_words n' w in v ++ [next_word v]
  end.

Definition std_round (v : words8) (kw : Z * Z) : words8 :=
  let t1 := wh v + usigma1 (we v) + choose (we v) (wf v) (wg v) + kw.1 + kw.2 in
  let t2 := usigma0 (wa v) + majority (wa v) (wb v) (wc v) in
  mkW ((t1 + t2) mod 2 ^ 32) (wa v) (wb v) (wc v) ((wd v + t1) mod 2 ^ 32) (we v) (wf v) (wg v).

Definition zipw (f : Z -> Z -> Z) (x y : words8) : words8 :=
  mkW (f (wa x) (wa y)) (f (wb x) (wb y)) (f (wc x) (wc y)) (f (wd x) (wd y))
      (f (we x) (we y)) (f (wf x) (wf y)) (f (wg x) (wg y)) (f (wh x) (wh y)).

Definition compress (H : words8) (block : list Z) : words8 :=
  zipw (fun x y => (x + y) mod 2 ^ 32) H
       (foldl std_round H (zip (root3_word <$> take 64 primes) (more_words 48 (block_words block)))).

Definition hash_start : words8 :=
  match root2_word <$> take 8 primes with
  | [a; b; c; d; e; f; g; h] => mkW a b c d e f g h
  | _ => mkW 0 0 0 0 0 0 0 0
  end.

(** One bit, zeros up to 56 modulo 64 bytes, and the length in bits. *)
Definition be64 (x : Z) : list Z := (fun i => x / 2 ^ (8 * i) mod 2 ^ 8) <$> [7; 6; 5; 4; 3; 2; 1; 0].
Definition padded (msg : list Z) : list Z :=
  msg ++ [0x80] ++ replicate (Z.to_nat ((55 - zlen msg) mod 64)) 0 ++ be64 (8 * zlen msg).

Fixpoint hash_blocks (n : nat) (l : list Z) (H : words8) : words8 :=
  match n with
  | O => H
  | S n' => hash_blocks n' (drop 64 l) (compress H (take 64 l))
  end.

Definition sha256 (msg : list Z) : words8 := hash_blocks (length (padded msg) / 64) (padded msg) hash_start.

(** * Theorems *)

Lemma constants_ok : K = root3_word <$> take 64 primes /\ H_init = hash_start.
Proof. split; by vm_compute. Qed.

Definition word (x : Z) : Prop := 0 <= x < 2 ^ 32.

Lemma ROTR_rotr x n : word x -> 0 < n < 32 -> ROTR x n = rotr n x.
Proof.
  intros Hx Hn. unfold ROTR, rotr. assert (Hp : 2 ^ 32 = 2 ^ n * 2 ^ (32 - n)) by (rewrite <- Z.pow_add_r by lia; f_equal; lia).
  assert (0 < 2 ^ n /\ 0 < 2 ^ (32 - n)) as [H1 H2] by (split; apply Z.pow_pos_nonneg; lia).
  rewrite Z.lor_comm, Z.shiftr_div_pow2, Z.shiftl_mul_pow2 by lia. unfold u32. rewrite Hp, Z.mul_mod_distr_r by lia.
  rewrite <- (Z.shiftl_mul_pow2 (x mod 2 ^ n)) by lia.
  rewrite lor_shiftl_add; [rewrite Z.shiftl_mul_pow2 by lia; apply Z.add_comm|lia|]. split; [apply Z.div_pos; unfold word in Hx; lia|apply Z.div_lt_upper_bound; unfold word in Hx; lia].
Qed.

Lemma u32_word x : word (u32 x).
Proof. apply u32_range. Qed.

Definition words (v : words8) : Prop :=
  word (wa v) /\ word (wb v) /\ word (wc v) /\ word (wd v) /\ word (we v) /\ word (wf v) /\ word (wg v) /\ word (wh v).

Lemma choose_eq e g : word g -> Z.land (u32 (Z.lnot e)) g = Z.ldiff g e.
Proof.
  intros Hg. apply Z.bits_inj'. intros i Hi. rewrite Z.land_spec, Z.ldiff_spec. unfold u32. destruct (Z.lt_ge_cases i 32).
  - rewrite testbit_mod, Z.lnot_spec by lia. apply andb_comm.
  - rewrite (testbit_above g 32) by done. by rewrite andb_false_r.
Qed.

Lemma round_eq w i v : words v -> sha_round w i v = std_round v (znth 0 K i, znth 0 w i) /\ words (sha_round w i v).
Proof.
  destruct v as [a b c d e f g h]. intros (Ha & Hb & Hc & Hd & He & Hf & Hg & Hh). cbn [wa wb wc wd we wf wg wh] in *.
  unfold sha_round, std_round. cbn [wa wb wc wd we wf wg wh fst snd]. split; [|unfold words; cbn [wa wb wc wd we wf wg wh]; auto 10 using u32_word].
  unfold usigma0, usigma1, choose, majority. rewrite !ROTR_rotr by (done || lia). rewrite choose_eq by done.
  generalize (Z.lxor (Z.lxor (rotr 6 e) (rotr 11 e)) (rotr 25 e)), (Z.lxor (Z.land e f) (Z.ldiff g e)), (Z.lxor (Z.lxor (rotr 2 a) (rotr 13 a)) (rotr 22 a)).
  intros x y z. generalize (Z.lxor (Z.lxor (Z.land a b) (Z.land a c)) (Z.land b c)), (znth 0 K i), (znth 0 w i). intros m k q.
  f_equal; word_lia.
Qed.

Definition bytes (l : list Z) : Prop := Forall (fun b => 0 <= b < 2 ^ 8) l.

Lemma load_word_eq data i :
  bytes data -> 64 <= zlen data -> (i < 16)%nat -> load_word data (Z.of_nat i) = be_word (take 4 (drop (4 * i) data)) /\ word (load_word data (Z.of_nat i)).
Proof.
  intros Hb Hl Hi. assert (Hat : forall k, (k < 4)%nat -> exists b, data !! (4 * i + k)%nat = Some b /\ znth 0 data (Z.of_nat i * 4 + Z.of_nat k) = b /\ 0 <= b < 2 ^ 8).
  { intros k Hk. destruct (lookup_lt_is_Some_2 data (4 * i + k)) as [b Eb]; [unfold zlen in Hl; lia|]. exists b. split; [done|]. split.
    - unfold znth, zlookup. rewrite (proj2 (Z.ltb_ge _ 0)) by lia. replace (Z.to_nat _) with (4 * i + k)%nat by lia. by rewrite Eb.
    - exact (Forall_lookup_1 _ _ _ _ Hb Eb). }
  destruct (Hat 0%nat) as (b0 & L0 & E0 & R0), (Hat 1%nat) as (b1 & L1 & E1 & R1), (Hat 2%nat) as (b2 & L2 & E2 & R2), (Hat 3%nat) as (b3 & L3 & E3 & R3); try lia.
  assert (load_word data (Z.of_nat i) = ((b0 * 2 ^ 8 + b1) * 2 ^ 8 + b2) * 2 ^ 8 + b3) as ->.
  { unfold load_word. change (Z.of_nat 0) with 0 in E0. change (Z.of_nat 1) with 1 in E1. change (Z.of_nat 2) with 2 in E2. change (Z.of_nat 3) with 3 in E3.
    rewrite E0, E1, E2, E3, !Z.shiftl_mul_pow2 by lia. rewrite !u32_small by lia.
    rewrite <- (Z.shiftl_mul_pow2 b0 24), (lor_shiftl_add b0 (b1 * 2 ^ 16) 24) by lia.
    replace (b0 * 2 ^ 24 + b1 * 2 ^ 16) with (Z.shiftl (b0 * 2 ^ 8 + b1) 16) by (rewrite Z.shiftl_mul_pow2; lia). rewrite lor_shiftl_add by lia.
    replace ((b0 * 2 ^ 8 + b1) * 2 ^ 16 + b2 * 2 ^ 8) with (Z.shiftl ((b0 * 2 ^ 8 + b1) * 2 ^ 8 + b2) 8) by (rewrite Z.shiftl_mul_pow2; lia).
    rewrite lor_shiftl_add by lia. lia. }
  split; [|unfold word; lia].
  assert (take 4 (drop (4 * i) data) = [b0; b1; b2; b3]) as ->.
  { apply list_eq. intros k. destruct (decide (k < 4)%nat) as [Hk|Hk].
    - rewrite lookup_take_lt, lookup_drop by lia. do 4 (destruct k as [|k]; [done|]). lia.
    - rewrite lookup_take_ge by lia. symmetry. apply lookup_ge_None. cbn. lia. }
  unfold be_word. cbn [foldl]. lia.
Qed.

(** Filling an array from the front. *)
Lemma take_zinsert {A} (w : list A) k x : (k < length w)%nat -> take (S k) (zinsert (Z.of_nat k) x w) = take k w ++ [x].
Proof.
  intros Hk. unfold zinsert. rewrite (proj2 (Z.ltb_ge _ 0)), Nat2Z.id by lia.
  rewrite (take_S_r _ _ x) by (by apply list_lookup_insert_eq). by rewrite take_insert_ge by lia.
Qed.

Lemma more_words_length n w : length (more_words n w) = (n + length w)%nat.
Proof. induction n as [|n IH]; cbn [more_words]; [done|]. rewrite length_app, IH. cbn. lia. Qed.

Lemma next_word_eq w i x : (16 <= i < length w)%nat -> Forall word (take i w) -> extend_word (Z.of_nat i) w = zinsert (Z.of_nat i) (next_word (take i w)) w
  /\ (x = next_word (take i w) -> word x).
Proof.
  intros Hi Hw. split; [|intros ->; apply u32_word].
  assert (Hat : forall k, (0 < k <= 16)%nat -> znth 0 w (Z.of_nat i - Z.of_nat k) = take i w !!! (length (take i w) - k)%nat /\ word (znth 0 w (Z.of_nat i - Z.of_nat k))).
  { intros k Hk. assert (E : znth 0 w (Z.of_nat i - Z.of_nat k) = take i w !!! (length (take i w) - k)%nat).
    { unfold znth, zlookup. rewrite (proj2 (Z.ltb_ge _ 0)) by lia. rewrite length_take. replace (Z.to_nat _) with (i - k)%nat by lia.
      rewrite Nat.min_l by lia. destruct (lookup_lt_is_Some_2 w (i - k)) as [b Eb]; [lia|].
      rewrite Eb. symmetry. apply list_lookup_total_correct. by rewrite lookup_take_lt by lia. }
    split; [done|]. rewrite E. eapply Forall_lookup_total_1; [done|]. rewrite length_take. lia. }
  destruct (Hat 2%nat), (Hat 7%nat), (Hat 15%nat), (Hat 16%nat); try lia.
  change (Z.of_nat 2) with 2 in *. change (Z.of_nat 7) with 7 in *. change (Z.of_nat 15) with 15 in *. change (Z.of_nat 16) with 16 in *.
  unfold extend_word, next_word. cbv zeta. f_equal. unfold lsigma0, lsigma1. rewrite !ROTR_rotr, !Z.shiftr_div_pow2 by (done || lia).
  unfold u32. f_equal. repeat match goal with H : znth 0 w _ = _ |- _ => rewrite H; clear H end. lia.
Qed.

(** The first [k] words are those of [f]. *)
Definition filled (f : nat -> list Z) (k : Z) (w : list Z) : Prop :=
  length w = 64%nat /\ take (Z.to_nat k) w = f (Z.to_nat k) /\ Forall word (take (Z.to_nat k) w).

Lemma filled_step f k w x :
  0 <= k < 64 -> filled f k w -> word x -> f (S (Z.to_nat k)) = f (Z.to_nat k) ++ [x] -> filled f (k + 1) (zinsert k x w).
Proof.
  intros Hk (L & E & F) Hx Hf. pose proof (zlen_insert k x w) as L1. unfold zlen in L1. split; [lia|].
  replace (Z.to_nat (k + 1)) with (S (Z.to_nat k)) by lia. pose proof (take_zinsert w (Z.to_nat k) x) as T. rewrite Z2Nat.id in T by lia.
  rewrite T, Hf, E by lia. split; [done|]. rewrite <- E. apply Forall_app. by split; [|constructor].
Qed.

Lemma schedule_eq data : bytes data -> 64 <= zlen data -> schedule data = more_words 48 (block_words data).
Proof.
  intros Hb Hl. unfold schedule.
  set (f := fun n => (fun i => be_word (take 4 (drop (4 * i) data))) <$> seq 0 n).
  pose proof (for_range_ind (filled f) 16 0 (fun i w => zinsert i (load_word data i) w) (replicate 64 0)) as H1.
  set (g := fun n => more_words (n - 16) (block_words data)).
  pose proof (for_range_ind (filled g) 48 16 extend_word (for_range 16 0 (fun i w => zinsert i (load_word data i) w) (replicate 64 0))) as H2.
  destruct H2 as (L & E & _).
  - change (filled f (0 + Z.of_nat 16) (for_range 16 0 (fun i w => zinsert i (load_word data i) w) (replicate 64 0))). apply H1; [by split; [|split]|].
    intros k w Hk Hf. destruct (load_word_eq data (Z.to_nat k) Hb Hl) as [E W]; [lia|]. rewrite Z2Nat.id in E, W by lia.
    apply filled_step; [lia|done|done|]. unfold f. rewrite seq_S, fmap_app. by rewrite E.
  - intros k w Hk Hf. pose proof Hf as (L & E & F). destruct (next_word_eq w (Z.to_nat k) (next_word (take (Z.to_nat k) w))) as [E1 W1]; [lia|done|].
    rewrite Z2Nat.id in E1 by lia. rewrite E1. apply filled_step; [lia|done|by apply W1|]. rewrite E. unfold g.
    replace (S (Z.to_nat k) - 16)%nat with (S (Z.to_nat k - 16)) by lia. done.
  - rewrite take_ge in E by lia. exact E.
Qed.

Lemma block_words_take l : block_words (take 64 l) = block_words l.
Proof.
  unfold block_words. apply map_ext_in. intros i Hi. apply in_seq in Hi. f_equal. rewrite skipn_firstn_comm, take_take. f_equal. lia.
Qed.

Lemma rounds_eq w n i v :
  words v -> (Z.to_nat i + n <= length K)%nat -> (Z.to_nat i + n <= length w)%nat -> 0 <= i ->
  for_range n i (sha_round w) v = foldl std_round v (take n (drop (Z.to_nat i) (zip K w))) /\ words (for_range n i (sha_round w) v).
Proof.
  revert i v. induction n as [|n IH]; intros i v Hv HK Hw Hi; [done|]. cbn [for_range].
  destruct (round_eq w i v Hv) as [E Hv']. destruct (IH (i + 1) (sha_round w i v)) as [E1 W1]; try done; try lia. split; [|done]. rewrite E1, E.
  destruct (lookup_lt_is_Some_2 K (Z.to_nat i)) as [k Ek]; [lia|]. destruct (lookup_lt_is_Some_2 w (Z.to_nat i)) as [x Ex]; [lia|].
  assert (zip K w !! Z.to_nat i = Some (k, x)) as Hz by (apply lookup_zip_with_Some; eauto).
  rewrite (drop_S _ _ _ Hz). cbn [take foldl]. replace (Z.to_nat (i + 1)) with (S (Z.to_nat i)) by lia. do 2 f_equal.
  unfold znth, zlookup. rewrite (proj2 (Z.ltb_ge i 0)) by lia. by rewrite Ek, Ex.
Qed.

Lemma sha_block_eq data H : bytes data -> 64 <= zlen data -> words H -> sha_block data H = compress H (take 64 data) /\ words (sha_block data H).
Proof.
  intros Hb Hl HH. pose proof (schedule_eq data Hb Hl) as E. unfold sha_block, compress, zipw. cbv zeta. rewrite E, block_words_take.
  assert (Hlen : length (more_words 48 (block_words data)) = 64%nat) by (rewrite more_words_length; unfold block_words; by rewrite length_map, length_seq).
  destruct (rounds_eq (more_words 48 (block_words data)) 64 0 H HH) as [E1 _]; [done|by rewrite Hlen|done|].
  rewrite E1, drop_0, take_ge, <- (proj1 constants_ok). 2:{ rewrite length_zip_with, Hlen. done. }
  split; [done|]. unfold words. cbn [wa wb wc wd we wf wg wh]. auto 10 using u32_word.
Qed.

(** ** The buffer *)

Lemma hash_blocks_app n k a b H : length a = (64 * n)%nat -> hash_blocks (n + k) (a ++ b) H = hash_blocks k b (hash_blocks n a H).
Proof.
  revert a H. induction n as [|n IH]; intros a H Ha; [destruct a; [done|cbn in Ha; lia]|]. cbn [Nat.add hash_blocks].
  rewrite drop_app_le, take_app_le by lia. apply IH. rewrite length_drop. lia.
Qed.

(** The message so far is [m]: whole blocks of it are hashed, the rest is in
    the buffer. *)
Record absorbed (m : list Z) (s : sha) : Prop := {
  ab_len : length (pending s) = 128%nat;
  ab_pend : 0 <= pend s <= 128;
  ab_bytes : bytes (pending s);
  ab_words : words (s_H s);
  ab_split : exists n a, m = a ++ take (Z.to_nat (pend s)) (pending s) /\ length a = (64 * n)%nat /\ s_H s = hash_blocks n a hash_start;
}.

Lemma start_absorbed : absorbed [] sha_start.
Proof.
  split; [done|done| | |].
  - apply Forall_replicate. lia.
  - repeat split; vm_compute; congruence.
  - exists 0%nat, []. split; [done|]. split; [done|]. apply constants_ok.
Qed.

Lemma put_absorbed m s d : absorbed m s -> bytes d -> pend s + zlen d <= 128 -> absorbed (m ++ d) (put d s).
Proof.
  intros [H1 H2 H3 H4 (n & a & -> & Ha & HH)] Hd Hl. unfold zlen in Hl.
  assert (Ht : length (take (Z.to_nat (pend s)) (pending s)) = Z.to_nat (pend s)) by (rewrite length_take; lia).
  split; cbn [put pending pend s_H]; try done.
  - rewrite !length_app, length_drop, Ht. lia.
  - unfold zlen. lia.
  - apply Forall_app. split; [by apply Forall_take|]. apply Forall_app. split; [done|by apply Forall_drop].
  - exists n, a. split; [|done]. rewrite <- app_assoc. f_equal. rewrite app_assoc. rewrite take_app_le by (rewrite length_app, Ht; unfold zlen; lia).
    rewrite (take_ge (take _ _ ++ d)); [done|]. rewrite length_app, Ht. unfold zlen. lia.
Qed.

Lemma flush_absorbed m s : absorbed m s -> pend s = 128 -> absorbed m (flush s) /\ pend (flush s) = 0.
Proof.
  intros [H1 H2 H3 H4 (n & a & -> & Ha & HH)] Hp. split; [|done].
  assert (64 <= zlen (take 64 (pending s)) /\ 64 <= zlen (drop 64 (pending s))) as [L1 L2] by (unfold zlen; rewrite length_take, length_drop; lia).
  destruct (sha_block_eq (take 64 (pending s)) (s_H s)) as [E1 W1]; [by apply Forall_take|done|done|].
  destruct (sha_block_eq (drop 64 (pending s)) (sha_block (take 64 (pending s)) (s_H s))) as [E2 W2]; [by apply Forall_drop|done|done|].
  split; cbn [flush pending pend s_H]; [done|lia|done|done|].
  exists (n + 2)%nat, (a ++ pending s). rewrite Hp. change (Z.to_nat 128) with 128%nat. change (Z.to_nat 0) with 0%nat.
  rewrite (take_ge (pending s) 128), take_0, app_nil_r by lia. split; [done|]. split; [rewrite length_app; lia|].
  rewrite hash_blocks_app by done. cbn [hash_blocks]. rewrite <- HH, E2, E1, (take_take (pending s) 64 64), Nat.min_id. reflexivity.
Qed.

Lemma feed_absorbed fuel m s d :
  absorbed m s -> pend s < 128 -> bytes d -> (length d <= fuel)%nat -> absorbed (m ++ d) (feed_loop fuel d s) /\ pend (feed_loop fuel d s) < 128.
Proof.
  revert m s d. induction fuel as [|fuel IH]; intros m s d Hab Hp Hd Hl.
  { destruct d; [|cbn in Hl; lia]. by rewrite app_nil_r. }
  cbn [feed_loop]. destruct d as [|x d']; [by rewrite app_nil_r|]. set (d := x :: d') in *. cbv zeta.
  assert (0 < zlen d) by (unfold zlen, d; cbn; lia).
  set (k := if zlen d <? _ then _ else _). assert (0 < k /\ k <= zlen d /\ k <= PENDING_SIZE - pend s) as (K1 & K2 & K3).
  { unfold k, PENDING_SIZE. pose proof (ab_pend _ _ Hab). destruct (Z.ltb_spec (zlen d) (128 - pend s)); lia. }
  clearbody k. unfold PENDING_SIZE in *. assert (Hz : zlen (take (Z.to_nat k) d) = k) by (unfold zlen in *; rewrite length_take; lia).
  assert (absorbed (m ++ take (Z.to_nat k) d) (put (take (Z.to_nat k) d) s)) as H1 by (apply put_absorbed; [done|by apply Forall_take|lia]).
  set (s1 := put _ s) in *. assert (m ++ d = (m ++ take (Z.to_nat k) d) ++ drop (Z.to_nat k) d) as -> by (by rewrite <- app_assoc, take_drop).
  assert (bytes (drop (Z.to_nat k) d)) by (by apply Forall_drop). assert (length (drop (Z.to_nat k) d) <= fuel)%nat by (rewrite length_drop; unfold zlen in *; lia).
  destruct (Z.eqb_spec (pend s1) 128) as [E|E].
  - destruct (flush_absorbed _ _ H1 E) as [H3 H4]. apply IH; try done.
  - apply IH; try done. pose proof (ab_pend _ _ H1). lia.
Qed.

(** ** The end of input *)

(** [z] zeros bring the buffer to 56 modulo 64; a full buffer is flushed on
    the way. *)
Lemma pad_absorbed fuel m s z :
  absorbed m s -> Z.of_nat z + 1 + (if 128 <=? pend s + Z.of_nat z then 1 else 0) <= Z.of_nat fuel ->
  Z.of_nat z = (56 - pend s) mod 64 ->
  let s' := pad_loop fuel s in absorbed (m ++ replicate z 0) s' /\ pend s' mod 64 = 56.
Proof.
  revert m s z. induction fuel as [|fuel IH]; intros m s z Hab Hf Hz; [ifs; lia|]. cbn [pad_loop].
  destruct (Z.eqb_spec (pend s mod 64) 56) as [E|E].
  { assert (z = 0%nat) as -> by lia. cbn [replicate]. by rewrite app_nil_r. }
  destruct z as [|z]; [lia|]. unfold PENDING_SIZE. pose proof (ab_pend _ _ Hab). destruct (Z.eqb_spec (pend s) 128) as [Ep|Ep].
  - destruct (flush_absorbed _ _ Hab Ep) as [H1 H2]. apply (IH m (flush s) (S z)); [done| |]; rewrite H2; [ifs; lia|lia].
  - assert (absorbed (m ++ [0]) (put [0] s)) as H1 by (apply put_absorbed; [done| |change (zlen [0]) with 1; lia]; constructor; [lia|constructor]).
    cbn [replicate]. rewrite (cons_middle 0), app_assoc. apply IH; [done| |]; cbn [put pend]; change (zlen [0]) with 1; [ifs; lia|lia].
Qed.

Lemma pend_put x s : pend (put [x] s) = pend s + 1.
Proof. done. Qed.

Lemma length_absorbed m s bits :
  absorbed m s -> pend s mod 64 = 56 -> absorbed (m ++ be64 bits) (put_length bits s) /\ pend (put_length bits s) = pend s + 8.
Proof.
  intros Hab Hp. pose proof (ab_pend _ _ Hab) as Hr. unfold put_length, be64. cbn [foldl fmap list_fmap]. split; [|rewrite !pend_put; lia].
  assert (Hstep : forall m s i, absorbed m s -> pend s < 128 -> 0 <= i -> absorbed (m ++ [bits / 2 ^ (8 * i) mod 2 ^ 8]) (put [u8 (Z.shiftr bits (i * 8))] s)).
  { intros m0 s0 i Hab0 Hp0 Hi. unfold u8. rewrite Z.shiftr_div_pow2 by lia. replace (i * 8) with (8 * i) by lia.
    apply put_absorbed; [done| |change (zlen [_]) with 1; lia]. constructor; [apply u8_range|constructor]. }
  repeat rewrite (cons_middle _ m). pose proof (Hstep _ _ 7 Hab ltac:(lia) ltac:(lia)) as A7.
  pose proof (Hstep _ _ 6 A7 ltac:(rewrite !pend_put; lia) ltac:(lia)) as A6. pose proof (Hstep _ _ 5 A6 ltac:(rewrite !pend_put; lia) ltac:(lia)) as A5.
  pose proof (Hstep _ _ 4 A5 ltac:(rewrite !pend_put; lia) ltac:(lia)) as A4. pose proof (Hstep _ _ 3 A4 ltac:(rewrite !pend_put; lia) ltac:(lia)) as A3.
  pose proof (Hstep _ _ 2 A3 ltac:(rewrite !pend_put; lia) ltac:(lia)) as A2. pose proof (Hstep _ _ 1 A2 ltac:(rewrite !pend_put; lia) ltac:(lia)) as A1.
  pose proof (Hstep _ _ 0 A1 ltac:(rewrite !pend_put; lia) ltac:(lia)) as A0. rewrite <- !app_assoc in A0. exact A0.
Qed.

Lemma padded_split m :
  exists z, Z.of_nat z = (55 - zlen m) mod 64 /\ padded m = ((m ++ [0x80]) ++ replicate z 0) ++ be64 (8 * zlen m).
Proof.
  exists (Z.to_nat ((55 - zlen m) mod 64)). split; [lia|]. unfold padded. by rewrite <- !app_assoc.
Qed.

Lemma absorbed_pend m s : absorbed m s -> zlen m mod 64 = pend s mod 64.
Proof.
  intros [H1 H2 H3 H4 (n & a & -> & Ha & HH)]. unfold zlen. rewrite length_app, length_take. lia.
Qed.

Lemma last_blocks_eq m s :
  absorbed m s -> pend s mod 64 = 0 -> last_blocks 3 0 s (s_H s) = hash_blocks (length m / 64) m hash_start.
Proof.
  intros [H1 H2 H3 H4 (n & a & -> & Ha & HH)] Hp.
  assert (Hblk : forall off H, words H -> 0 <= off <= 64 ->
     sha_block (drop (Z.to_nat off) (pending s)) H = compress H (take 64 (drop (Z.to_nat off) (pending s))) /\ words (sha_block (drop (Z.to_nat off) (pending s)) H)).
  { intros off H HW Ho. apply sha_block_eq; [by apply Forall_drop|unfold zlen; rewrite length_drop; lia|done]. }
  assert (pend s = 0 \/ pend s = 64 \/ pend s = 128) as [Ep|[Ep|Ep]] by lia; cbn [last_blocks]; rewrite Ep.
  - change (Z.to_nat 0) with 0%nat. rewrite take_0, app_nil_r, Ha. replace (64 * n / 64)%nat with n by (rewrite Nat.mul_comm, Nat.div_mul; lia).
    exact HH.
  - change (0 <? 64) with true. change (0 + 64 <? 64) with false. cbv iota. destruct (Hblk 0 (s_H s) H4) as [E _]; [lia|]. rewrite E, drop_0.
    change (Z.to_nat 64) with 64%nat. rewrite length_app, length_take, Ha, H1. replace ((64 * n + 64 `min` 128) / 64)%nat with (n + 1)%nat by (apply Nat.div_unique with 0%nat; lia).
    rewrite hash_blocks_app by done. cbn [hash_blocks]. rewrite (take_take (pending s) 64 64), Nat.min_id, HH. reflexivity.
  - change (0 <? 128) with true. change (0 + 64 <? 128) with true. change (0 + 64 + 64 <? 128) with false. cbv iota.
    destruct (Hblk 0 (s_H s) H4) as [E W]; [lia|]. destruct (Hblk (0 + 64) _ W) as [E2 _]; [lia|]. rewrite E2, E, drop_0.
    change (Z.to_nat 128) with 128%nat. change (Z.to_nat (0 + 64)) with 64%nat. rewrite (take_ge (pending s) 128) by lia.
    rewrite length_app, Ha, H1. replace ((64 * n + 128) / 64)%nat with (n + 2)%nat by (apply Nat.div_unique with 0%nat; lia).
    rewrite hash_blocks_app by done. cbn [hash_blocks]. rewrite HH. reflexivity.
Qed.

Lemma feeds_absorbed reads m s :
  Forall bytes reads -> absorbed m s -> pend s < 128 ->
  absorbed (m ++ mjoin reads) (foldl (fun s d => feed d s) s reads) /\ pend (foldl (fun s d => feed d s) s reads) < 128.
Proof.
  revert m s. induction reads as [|d reads IH]; intros m s Hb Hab Hp; [cbn; by rewrite app_nil_r|]. inversion Hb as [|?? Hd Hr]; subst.
  destruct (feed_absorbed (length d) m s d Hab Hp Hd ltac:(lia)) as [H1 H2]. cbn [foldl mjoin list_join]. rewrite app_assoc. by apply IH.
Qed.

Lemma sha_final_eq m s : absorbed m s -> pend s < 128 -> 8 * zlen m < 2 ^ 64 -> sha_final (zlen m) s = sha256 m.
Proof.
  intros Hab Hp Hl. unfold sha_final, sha256. cbv zeta. assert (0 <= zlen m) by (unfold zlen; lia).
  replace (u64 (u64 (zlen m) * 8)) with (8 * zlen m) by word_lia.
  destruct (padded_split m) as (z & Hz & Epad).
  assert (absorbed (m ++ [0x80]) (put [0x80] s)) as H1 by (apply put_absorbed; [done| |change (zlen [128]) with 1; lia]; constructor; [lia|constructor]).
  pose proof (absorbed_pend _ _ Hab) as Hm. pose proof (ab_pend _ _ Hab) as Hr.
  destruct (pad_absorbed 66 _ _ z H1) as [H2 P2]; [rewrite pend_put; ifs; lia|rewrite pend_put; lia|].
  destruct (length_absorbed _ _ (8 * zlen m) H2 P2) as [H3 P3]. rewrite Epad. apply last_blocks_eq; [done|lia].
Qed.

(** C18: sha256 computes SHA-256.  However [read] cuts the input into pieces,
    the program prints the digest of the whole of it in hexadecimal: that of
    the padded message, hashed block by block with the constants taken from
    the roots of primes, as the standard defines it.  The input is below 2^61
    bytes. *)
Theorem sha256_correct (reads : list (list Z)) :
  Forall bytes reads -> 8 * zlen (mjoin reads) < 2 ^ 64 -> sha256_main None reads = (0, print_digest (sha256 (mjoin reads))).
Proof.
  intros Hb Hl. unfold sha256_main. destruct (feeds_absorbed reads [] sha_start Hb start_absorbed) as [H1 H2]; [done|].
  by rewrite sha_final_eq.
Qed.

Lemma sha256_correct_witness :
  sha256_main None [bs "a"; bs "bc"] = (0, bs "ba7816bf8f01cfea414140de5dae2223b00361a396177a9cb410ff61f20015ad" ++ [10]).
Proof.
  rewrite (sha256_correct [bs "a"; bs "bc"]); [|repeat constructor|]; vm_compute; congruence.
Defined.

(** A message that fills the buffer exactly, and an empty one. *)
Example sha256_boundaries :
  (sha256_main None [replicate 128 97]).2 = bs "6836cf13bac400e9105071cd6af47084dfacad4e5e302c94bfed24e013afb73e" ++ [10] /\
  (sha256_main None []).2 = bs "e3b0c44298fc1c149afbf4c8996fb92427ae41e4649b934ca495991b7852b855" ++ [10].
Proof. by vm_compute. Qed.
