(* ===== verification/Base64.v ===== *)
(** * base64 (userspace/base64.c)

    The filter from standard input to standard output.  Each loop that reads
    a byte at a time is a fold over the bytes of the input; the state is the
    group collected so far, the column and what was written. *)
From S2P Require Import Prelude.

Definition b64_table : list Z := bs "ABCDEFGHIJKLMNOPQRSTUVWXYZabcdefghijklmnopqrstuvwxyz0123456789+/".
Definition b64_char (i : Z) : Z := znth 0 b64_table i.

Record enc := mkEnc { e_in : list Z; e_col : Z; e_out : list Z }.

(** The four characters of a full group. *)
Definition encode3 (a b c : Z) : list Z :=
  [b64_char (Z.shiftr a 2);
   b64_char (Z.lor (Z.shiftl (Z.land a 0x03) 4) (Z.shiftr b 4));
   b64_char (Z.lor (Z.shiftl (Z.land b 0x0F) 2) (Z.shiftr c 6));
   b64_char (Z.land c 0x3F)].

Definition encode_step (s : enc) (c : Z) : enc :=
  match e_in s ++ [u8 c] with
  | [x; y; z] =>
      let out := e_out s ++ encode3 x y z in
      let col := e_col s + 4 in
      if 76 <=? col then mkEnc [] 0 (out ++ [10]) else mkEnc [] col out
  | l => mkEnc l (e_col s) (e_out s)
  end.

(** What follows the last full group. *)
Definition encode_end (s : enc) : list Z :=
  match e_in s with
  | [x] => [b64_char (Z.shiftr x 2); b64_char (Z.shiftl (Z.land x 0x03) 4); 61; 61; 10]
  | [x; y] =>
      [b64_char (Z.shiftr x 2); b64_char (Z.lor (Z.shiftl (Z.land x 0x03) 4) (Z.shiftr y 4));
       b64_char (Z.shiftl (Z.land y 0x0F) 2); 61; 10]
  | _ => if e_col s =? 0 then [] else [10]
  end.

Definition encode_stream (input : list Z) : list Z :=
  let s := foldl encode_step (mkEnc [] 0 []) input in e_out s ++ encode_end s.

(** [c] is a [char]: bytes from 128 on are negative. *)
Definition b64_val (c : Z) : Z :=
  let c := s8 c in
  if (65 <=? c) && (c <=? 90) then c - 65
  else if (97 <=? c) && (c <=? 122) then c - 97 + 26
  else if (48 <=? c) && (c <=? 57) then c - 48 + 52
  else if c =? 43 then 62
  else if c =? 47 then 63
  else -1.

Record decoder := mkDec { d_vals : list Z; d_out : list Z }.

Definition decode_step (s : decoder) (c : Z) : decoder :=
  let v := b64_val c in
  if v <? 0 then s
  else match d_vals s ++ [v] with
       | [p; q; r; t] =>
           let acc := Z.lor (Z.lor (Z.lor (Z.shiftl p 18) (Z.shiftl q 12)) (Z.shiftl r 6)) t in
           mkDec [] (d_out s ++ [u8 (Z.shiftr acc 16); u8 (Z.shiftr acc 8); u8 acc])
       | l => mkDec l (d_out s)
       end.

Definition decode_end (s : decoder) : list Z :=
  match d_vals s with
  | [p; q] => let acc := Z.lor (Z.shiftl p 18) (Z.shiftl q 12) in [u8 (Z.shiftr acc 16)]
  | [p; q; r] =>
      let acc := Z.lor (Z.lor (Z.shiftl p 18) (Z.shiftl q 12)) (Z.shiftl r 6) in
      [u8 (Z.shiftr acc 16); u8 (Z.shiftr acc 8)]
  | _ => []
  end.

Definition decode_stream (input : list Z) : list Z :=
  let s := foldl decode_step (mkDec [] []) input in d_out s ++ decode_end s.

(** [argv] without the program's name. *)
Definition base64_main (argv : list (list Z)) (input : list Z) : list Z :=
  match argv with
  | a :: _ => if bool_decide (a = bs "-d") then decode_stream input else encode_stream input
  | [] => encode_stream input
  end.

(** * Theorems *)

Definition byte (x : Z) : Prop := 0 <= x < 2 ^ 8.

Lemma val_char i : 0 <= i < 64 -> b64_val (b64_char i) = i.
Proof.
  intros Hi. assert (H : forallb (fun k => b64_val (b64_char k) =? k) (seqZ 0 64) = true) by by vm_compute.
  rewrite forallb_forall in H. apply Z.eqb_eq, H, list_elem_of_In, elem_of_seqZ. lia.
Qed.

(** Reading one digit. *)
Lemma step_digit vals out i :
  0 <= i < 64 -> decode_step (mkDec vals out) (b64_char i) =
    match vals ++ [i] with
    | [p; q; r; t] =>
        let acc := Z.lor (Z.lor (Z.lor (Z.shiftl p 18) (Z.shiftl q 12)) (Z.shiftl r 6)) t in
        mkDec [] (out ++ [u8 (Z.shiftr acc 16); u8 (Z.shiftr acc 8); u8 acc])
    | l => mkDec l out
    end.
Proof. intros Hi. unfold decode_step. rewrite val_char by done. by rewrite (proj2 (Z.ltb_ge i 0)) by lia. Qed.

Lemma step_other s c : b64_val c = -1 -> decode_step s c = s.
Proof. intros E. unfold decode_step. by rewrite E. Qed.

(** Fields joined by [|] are digits of base 64. *)
Lemma join4 p q r t :
  0 <= p < 64 -> 0 <= q < 64 -> 0 <= r < 64 -> 0 <= t < 64 ->
  Z.lor (Z.lor (Z.lor (Z.shiftl p 18) (Z.shiftl q 12)) (Z.shiftl r 6)) t = ((p * 64 + q) * 64 + r) * 64 + t.
Proof.
  intros. rewrite (lor_shiftl_add p (Z.shiftl q 12) 18) by (rewrite ?Z.shiftl_mul_pow2; lia). rewrite !Z.shiftl_mul_pow2 by lia.
  replace (p * 2 ^ 18 + q * 2 ^ 12) with (Z.shiftl (p * 64 + q) 12) by (rewrite Z.shiftl_mul_pow2; lia). rewrite lor_shiftl_add by lia.
  replace ((p * 64 + q) * 2 ^ 12 + r * 2 ^ 6) with (Z.shiftl ((p * 64 + q) * 64 + r) 6) by (rewrite Z.shiftl_mul_pow2; lia).
  rewrite lor_shiftl_add by lia. lia.
Qed.

Lemma sextets a b c :
  byte a -> byte b -> byte c ->
  Z.shiftr a 2 = a / 4 /\ Z.lor (Z.shiftl (Z.land a 0x03) 4) (Z.shiftr b 4) = a mod 4 * 16 + b / 16 /\
  Z.lor (Z.shiftl (Z.land b 0x0F) 2) (Z.shiftr c 6) = b mod 16 * 4 + c / 64 /\ Z.land c 0x3F = c mod 64 /\
  Z.shiftl (Z.land a 0x03) 4 = a mod 4 * 16 /\ Z.shiftl (Z.land b 0x0F) 2 = b mod 16 * 4.
Proof.
  intros Ha Hb Hc. unfold byte in *.
  change 0x03 with (2 ^ 2 - 1). change 0x0F with (2 ^ 4 - 1). change 0x3F with (2 ^ 6 - 1). rewrite !land_ones_mod by lia.
  rewrite !lor_shiftl_add by (rewrite ?Z.shiftr_div_pow2 by lia; lia). rewrite !Z.shiftr_div_pow2, !Z.shiftl_mul_pow2 by lia. lia.
Qed.

Lemma decode3 a b c out : byte a -> byte b -> byte c -> foldl decode_step (mkDec [] out) (encode3 a b c) = mkDec [] (out ++ [a; b; c]).
Proof.
  intros Ha Hb Hc. unfold encode3. destruct (sextets a b c Ha Hb Hc) as (-> & -> & -> & -> & _). unfold byte in *. cbn [foldl].
  rewrite !step_digit by lia. cbn [app]. rewrite !step_digit by lia. cbn [app]. rewrite !step_digit by lia. cbn [app]. rewrite !step_digit by lia. cbn [app].
  rewrite join4 by lia. rewrite !Z.shiftr_div_pow2 by lia. cbv zeta. set (acc := _ + c mod 64).
  assert (u8 (acc / 2 ^ 16) = a /\ u8 (acc / 2 ^ 8) = b /\ u8 acc = c) as (-> & -> & ->) by (unfold acc; word_lia). done.
Qed.

(** What the encoder has read and written so far: decoding its output gives
    back the full groups. *)
Record encoded (l : list Z) (s : enc) : Prop := {
  en_short : (length (e_in s) < 3)%nat;
  en_bytes : Forall byte (e_in s);
  en_out : exists done_, l = done_ ++ e_in s /\ foldl decode_step (mkDec [] []) (e_out s) = mkDec [] done_;
}.

Lemma encode_step_ok l s c : encoded l s -> byte c -> encoded (l ++ [c]) (encode_step s c).
Proof.
  intros [H1 H2 (g & -> & Hd)] Hc. assert (u8 c = c) as Hu by (by apply u8_small). unfold encode_step. rewrite Hu.
  destruct s as [i col out]. cbn [e_in e_col e_out] in *.
  destruct i as [|x [|y [|z i]]]; cbn [app]; [| | |cbn in H1; lia].
  - split; cbn [e_in e_out]; [cbn; lia|by constructor|]. exists g. by rewrite app_nil_r.
  - inversion H2; subst. split; cbn [e_in e_out]; [cbn; lia|constructor; [done|constructor; [done|constructor]]|]. exists g. by rewrite <- app_assoc.
  - inversion H2 as [|?? Hx H3]; subst. inversion H3 as [|?? Hy _]; subst.
    assert (foldl decode_step (mkDec [] []) (out ++ encode3 x y c) = mkDec [] (g ++ [x; y; c])) as E by (rewrite foldl_app, Hd; by apply decode3).
    destruct (76 <=? col + 4); (split; cbn [e_in e_out]; [cbn; lia|constructor|]); exists (g ++ [x; y; c]); rewrite app_nil_r, <- app_assoc; (split; [done|]); [|done].
    by rewrite foldl_app, E.
Qed.

Lemma encode_loop_ok input l s : encoded l s -> Forall byte input -> encoded (l ++ input) (foldl encode_step s input).
Proof.
  revert l s. induction input as [|c input IH]; intros l s Hs Hb; [by rewrite app_nil_r|]. inversion Hb; subst. cbn [foldl].
  rewrite (cons_middle c), app_assoc. apply IH; [by apply encode_step_ok|done].
Qed.

Lemma encode_end_ok l s : encoded l s -> decode_stream (e_out s ++ encode_end s) = l.
Proof.
  intros [H1 H2 (g & -> & Hd)]. unfold decode_stream. rewrite foldl_app, Hd. unfold encode_end.
  destruct (e_in s) as [|x [|y [|z i]]]; [| | |cbn in H1; lia].
  - assert (foldl decode_step (mkDec [] g) (if e_col s =? 0 then [] else [10]) = mkDec [] g) as -> by by destruct (e_col s =? 0). done.
  - inversion H2 as [|?? Hx _]; subst. destruct (sextets x x x Hx Hx Hx) as (-> & _ & _ & _ & -> & _). unfold byte in *. cbn [foldl].
    rewrite !step_digit by lia. cbn [app]. rewrite !step_digit by lia. cbn [app]. rewrite !step_other by done. cbn [d_out d_vals decode_end]. cbv zeta. f_equal. f_equal.
    rewrite lor_shiftl_add by (rewrite ?Z.shiftl_mul_pow2; lia). rewrite Z.shiftr_div_pow2, Z.shiftl_mul_pow2 by lia. word_lia.
  - inversion H2 as [|?? Hx H3]; subst. inversion H3 as [|?? Hy _]; subst. destruct (sextets x y y Hx Hy Hy) as (-> & -> & _ & _ & _ & ->). unfold byte in *. cbn [foldl].
    rewrite !step_digit by lia. cbn [app]. rewrite !step_digit by lia. cbn [app]. rewrite !step_digit by lia. cbn [app]. rewrite !step_other by done.
    cbn [d_out d_vals decode_end]. cbv zeta. f_equal. set (acc := Z.lor (Z.lor _ _) _).
    assert (acc = ((x / 4 * 64 + (x mod 4 * 16 + y / 16)) * 64 + y mod 16 * 4) * 64) as ->.
    { unfold acc. rewrite <- (Z.lor_0_r (Z.lor _ _)), join4 by lia. lia. }
    rewrite !Z.shiftr_div_pow2 by lia. f_equal; [word_lia|f_equal; word_lia].
Qed.

(** Base64 -d undoes base64: decoding the encoding of any input gives the
    input back. *)
Theorem base64_roundtrip (input : list Z) : Forall byte input -> base64_main [bs "-d"] (base64_main [] input) = input.
Proof.
  intros Hb. change (decode_stream (encode_stream input) = input). apply encode_end_ok. apply (encode_loop_ok input []); [|done].
  split; [cbn; lia|constructor|by exists []].
Qed.

Lemma base64_roundtrip_witness : base64_main [] (bs "MMIX") = bs "TU1JWA==" ++ [10] /\ base64_main [bs "-d"] (bs "TU1JWA==" ++ [10]) = bs "MMIX".
Proof.
  split; [by vm_compute|]. change (bs "TU1JWA==" ++ [10]) with (base64_main [] (bs "MMIX")). apply (base64_roundtrip (bs "MMIX")).
  repeat constructor; vm_compute; congruence.
Defined.
